(* ===== verification/_CoqProject ===== *)
-Q . S2P
Prelude.v
Keeps.v
IdleStrategy.v
Sbe.v
SbeTypes.v
SbePacket.v
SbeGroup.v
ArchiveCodecs.v
ArchiveTypes.v
ArchivePackets.v
ClusterCodecs.v
ClusterGroups.v
ClusterTypes.v
ClusterPackets.v
Memory.v
Atomics.v
Bits.v
Flyweight.v
MarkFile.v
RingBuffer.v
RingConcurrent.v
Broadcast.v
Cnc.v
Counters.v
LogBuffer.v
Command.v
Proxy.v
ListenerAdapter.v
TermSpec.v
Appender.v
Reader.v
FragmentAssembler.v
Publication.v
OfferConcurrent.v
Vectored.v
Image.v
Stream.v
Queue.v
ChannelUri.v
Subscription.v
ArchiveProxy.v
ArchiveControl.v
RecordingEvents.v
ArchiveWait.v
ArchiveStream.v
Archive.v
ArchiveRecorded.v
ArchiveSetup.v
ReplayMerge.v
ClusterService.v
ClusterSnapshot.v
ClusterInv.v
ClusterLog.v
ClusterClient.v
ClusterClientSpec.v
Conductor.v
ConductorSpec.v
ConductorInv.v
ConductorDown.v
Connect.v
Client.v
Examples.v
OfferExamples.v
ClientExamples.v
ArchiveExamples.v
ClusterExamples.v
