(* ===== verification/Prelude.v ===== *)
(** * Verification of the aeron-go client

    aeron-go is a client of the Aeron message transport written in Go. Its process talks to a
    media driver, another process, through memory mapped files: a ring buffer of commands, a
    broadcast buffer of events, counters, and one log of three terms for every publication and
    image. On top of it are a client of the Aeron archive, which records and replays streams, and
    of Aeron cluster: a container for replicated services and a client for their sessions.

    ** The parts and their files

    The base, shared by all:
    - [Prelude]: machine integers as [Z] with their wrap-around, little-endian bytes, the monad
      [M] of computations over a state that return or stop ([exn]: a panic, a fatal exit, an
      access outside of memory, a loop or script that is out of fuel, a Go error); [Keeps]: rules
      for the invariants of such computations.
    - [Memory]: atomic/buffer.go; raw memory as a map from addresses to bytes, buffers as an
      address and a length into it, so that fields, claims and records alias as in Go. [Bits]:
      util. [Atomics]: the scalars of atomic, and [MakeBuffer]. [Flyweight]: flyweight/fields.go.
      [IdleStrategy]: idlestrategy.

    Between the client and the driver (src/aeron):
    - [RingBuffer] and [RingConcurrent]: ringbuffer; the second has every access to the shared
      counters as a step of its own, for any number of producers, with indices masked as in the
      code. [Broadcast]: broadcast.
    - [Cnc], [Counters]: counters. [Command]: command and driver/flyweights.go. [Proxy]:
      driver/proxy.go. [ListenerAdapter]: driver/listeneradapter.go.
    - [Conductor]: clientconductor.go, counter.go: the registrations and what the conductor's
      goroutine does; [ConductorSpec], [ConductorInv], [ConductorDown]: its theorems. [Connect]
      and [Client]: context.go, aeron.go: connecting, and the calls that wait while the conductor works.

    The streams (src/aeron):
    - [LogBuffer]: logbuffer, frames, metadata, rotation, mapping. [TermSpec]: a term as a list
      of frames, the specification of [Appender] and [Reader] (logbuffer/term).
    - [Publication]: publication.go; [Vectored]: its offer of two buffers; [OfferConcurrent]: offers
      of several goroutines, every access to the shared words a step. [Image]: image_impl.go. [Subscription]: subscription.go,
      imagelist.go; images are reached through the class [ImageOps] with its laws [ImageLaws],
      and it has the instances for the image of [Image]. [FragmentAssembler]: both assemblers.
      [Stream]: a publication and an image over one log; [Queue]: any run of offers and polls.
      [ChannelUri]: channeluri.go.

    The binary encoding (codecs of src/archive and src/cluster):
    - [Sbe]: the marshaller and the laws of a message ([Codec], a class with an instance per
      message); [SbeTypes]: scalars, enumerations and composites; [SbePacket]: a message behind
      its header; [SbeGroup]: repeating groups.
    - [ArchiveCodecs], [ClusterCodecs], [ClusterGroups]: a record per message with its range
      check, encoding and decoding. [ArchiveTypes], [ClusterTypes]: the types of their fields,
      and initial values. [ArchivePackets], [ClusterPackets]: codecs/encoders.go.

    The archive (src/archive):
    - [ArchiveProxy]: proxy.go. [ArchiveControl], [ArchiveWait], [ArchiveStream]: control.go, its
      theorems, and its polls in memory. [Archive], [ArchiveRecorded], [ArchiveSetup]: archive.go
      and options.go.
      [RecordingEvents]: recordingevents.go and recording_pos_counter.go. [ReplayMerge]: replaymerge.

    The cluster (src/cluster):
    - [ClusterService]: the agent, the proxy of the consensus module, sessions, log and service
      adapters, snapshots. [MarkFile]: the mark file. [ClusterInv], [ClusterLog],
      [ClusterSnapshot]: the theorems on acknowledgements and roles, on what the log means, and
      on snapshots.
    - [ClusterClient]: client/aeron_cluster.go; [ClusterClientSpec]: its theorems.

    [Examples], [OfferExamples], [ClientExamples], [ArchiveExamples], [ClusterExamples]: concrete runs, to which
    the theorems with hypotheses are applied, so that their hypotheses hold together.

    ** What is shown

    - Delivery: what is offered to a publication and accepted is what an image behind it
      delivers, once, whole and in order, over any run through any number of terms ([Queue]), and
      the log goes on when the driver does its part; [Publication.Offer] on every branch, and an
      offer of two buffers is an offer of one ([Vectored]); polls
      as walks over frames, a commit seen at once ([Image]); assemblers per session ([FragmentAssembler]).
    - Sharing memory: concurrent claims on a ring whose capacity is a power of two are disjoint,
      as long as no producer sleeps over two gigabytes of claims ([RingConcurrent]); concurrent
      offers fill every term without a gap, and prompt ones are told where their claim is
      ([OfferConcurrent]), and one alone is the offer in memory; a broadcast
      record that passes validation was not touched ([Broadcast]).
    - The client: commands that fit the message of the proxy arrive at the driver as their
      layout says ([Proxy]), events call the
      listener with what was encoded ([ListenerAdapter]); the life of publications and images
      ([Client]); the registrations are consistent in every state a client reaches
      ([ConductorInv]); deadlines and timeouts ([Client]), and a client whose driver is gone sends
      no more commands that ask for it ([ConductorDown]).
    - The archive: requests are sent once, answers are those of their request and session, waits
      end ([ArchiveProxy], [ArchiveWait], [Archive]); an archive is set up, or what was made for
      it is closed again ([ArchiveSetup]); the state machine of the replay merge.
    - The cluster: the service sees the log, with entries of all seven kinds and polls cut
      anywhere, as an abstract registry says, and all replicas see the same ([ClusterLog]);
      snapshots whose messages fit one fragment are read back ([ClusterSnapshot]); acknowledgements are
      numbered without a gap, and only the leader speaks ([ClusterInv]); the client follows the
      protocol of sessions, speaks for its session only, and gets what the leader sends
      ([ClusterClientSpec]).
    - Where the code does not do what it should, the theorem says what it does, as
      [ConductorSpec.closeAllResources_misses_half], [ReplayMerge.replay_takes_error_for_success],
      [ClusterSnapshot.load_errors_ignored], [OfferConcurrent.sleeper_misled] or [ClusterClientSpec.reelected_leader_is_lost].

    ** How the world is seen

    Atomic accesses are single steps over [mem]. The state of a component is a record; an
    operation that other goroutines may interrupt while it waits takes what they do as a list.
    What other processes do is given as explicit lists: the readings of the clock with what has
    happened since (ticks), the answers of a publication (scripts), the frames of a stream, the
    answers of the archive. A theorem is about every such list. User code (handlers, listeners,
    services) is a parameter; a clustered service is a program over the operations of the cluster
    that it may use. Files, memory mapping and the order in which Go ranges over a map are
    parameters.

    Fuel: the loops over a term have the capacity in bytes as fuel, while every frame takes 32;
    the loops of copies have the length; the compare-and-swap loops of [RingBuffer] and
    [LogBuffer] have two rounds, since an uninterrupted run needs one ([RingConcurrent] has no
    fuel); the checks of lingering resources have one more than there are resources; a loop
    that waits has one more than there are ticks, and every round but the last takes one. [EFuel]
    from a loop that waits says that the list has ended before the wait has.

    ** Not modelled

    System calls and files (memmap, the mapping of the mark file), logging, the printing tools
    (aeron_stat), the examples and the harnesses of the system tests: only input and output. The
    locks of the conductor and of the archive: an operation is a step, between the operations
    anything may happen. The setters that pass a value on to the context of the client. What a
    goroutine writes into the space it has claimed is not a step of [OfferConcurrent]; it is in
    [Publication]. Memory ordering that is weaker than sequential consistency: Go's atomics are
    sequentially consistent.

    The clients of the archive and of the cluster reach their publications through scripts of
    answers, for which [Queue] shows what a publication in memory does with them; their polls
    are in memory in [ArchiveStream] for the archive, and over lists of frames for the cluster. *)

From Stdlib Require Export ZArith Lia.
From coqutil Require Export Byte Word.LittleEndianList.
From stdpp Require Export base gmap list strings.

#[export] Set Default Goal Selector "!".
Global Open Scope Z_scope.
Global Open Scope general_if_scope.

(** ** Machine integers

    Go's sized integers are [Z] with the wrap-around of the type written out:
    [i32 (a + b)] is [a + b] computed in [int32]. *)

Definition i8 (z : Z) : Z := (z + 128) mod 256 - 128.
Definition i32 (z : Z) : Z := (z + 2147483648) mod 4294967296 - 2147483648.
Definition i64 (z : Z) : Z :=
  (z + 9223372036854775808) mod 18446744073709551616 - 9223372036854775808.
Definition u8 (z : Z) : Z := z mod 256.
Definition u16 (z : Z) : Z := z mod 65536.
Definition u32 (z : Z) : Z := z mod 4294967296.
Definition u64 (z : Z) : Z := z mod 18446744073709551616.

Definition is_i32 (z : Z) : Prop := -2147483648 <= z < 2147483648.
Definition is_i64 (z : Z) : Prop := -9223372036854775808 <= z < 9223372036854775808.

#[global] Arguments i8 : simpl never.
#[global] Arguments i32 : simpl never.
#[global] Arguments i64 : simpl never.
#[global] Arguments u8 : simpl never.
#[global] Arguments u16 : simpl never.
#[global] Arguments u32 : simpl never.
#[global] Arguments u64 : simpl never.
#[global] Arguments Z.shiftl : simpl never.
#[global] Arguments Z.shiftr : simpl never.
#[global] Arguments Z.land : simpl never.

Lemma i32_small z : -2147483648 <= z < 2147483648 -> i32 z = z.
Proof. unfold i32. intros. rewrite Z.mod_small; lia. Qed.

Lemma i64_small z : -9223372036854775808 <= z < 9223372036854775808 -> i64 z = z.
Proof. unfold i64. intros. rewrite Z.mod_small; lia. Qed.

Lemma u8_small z : 0 <= z < 256 -> u8 z = z.
Proof. apply Z.mod_small. Qed.

Lemma u16_small z : 0 <= z < 65536 -> u16 z = z.
Proof. apply Z.mod_small. Qed.

Lemma u32_small z : 0 <= z < 4294967296 -> u32 z = z.
Proof. apply Z.mod_small. Qed.

Lemma u64_small z : 0 <= z < 18446744073709551616 -> u64 z = z.
Proof. apply Z.mod_small. Qed.

Lemma i32_range z : is_i32 (i32 z).
Proof. unfold is_i32, i32. pose proof (Z.mod_pos_bound (z + 2147483648) 4294967296). lia. Qed.

Lemma i64_range z : is_i64 (i64 z).
Proof.
  unfold is_i64, i64.
  pose proof (Z.mod_pos_bound (z + 9223372036854775808) 18446744073709551616). lia.
Qed.

Lemma i64_add_sub x y : i64 (i64 (x + y) - y) = i64 x.
Proof.
  unfold i64. f_equal.
  replace ((x + y + 9223372036854775808) mod 18446744073709551616
           - 9223372036854775808 - y + 9223372036854775808)
    with ((x + y + 9223372036854775808) mod 18446744073709551616 - y) by lia.
  rewrite Zminus_mod_idemp_l. f_equal. lia.
Qed.

(** Wrapping a value already reduced modulo the width. *)
Lemma i32_mod z : i32 (z mod 4294967296) = i32 z.
Proof. unfold i32. rewrite Z.add_mod_idemp_l; lia. Qed.

Lemma i64_mod z : i64 (z mod 18446744073709551616) = i64 z.
Proof. unfold i64. rewrite Z.add_mod_idemp_l; lia. Qed.

Lemma i32_add_i32 x y : i32 (i32 x + y) = i32 (x + y).
Proof.
  unfold i32. f_equal.
  replace ((x + 2147483648) mod 4294967296 - 2147483648 + y + 2147483648)
    with ((x + 2147483648) mod 4294967296 + y) by lia.
  rewrite Zplus_mod_idemp_l. f_equal. lia.
Qed.

Lemma i32_sub_i32 x y : i32 (i32 x - y) = i32 (x - y).
Proof. unfold Z.sub. apply i32_add_i32. Qed.

(** Or-ing bit fields that do not overlap is adding them. *)
Lemma lor_shiftl_add a b k :
  0 <= k -> 0 <= b < 2 ^ k -> Z.lor (Z.shiftl a k) b = a * 2 ^ k + b.
Proof.
  intros Hk Hb.
  assert (Z.land (Z.shiftl a k) b = 0).
  { apply Z.bits_inj'. intros i Hi. rewrite Z.land_spec, Z.bits_0.
    destruct (decide (i < k)); [by rewrite Z.shiftl_spec_low by lia|].
    rewrite <- (Z.mod_small b (2 ^ k)), Z.mod_pow2_bits_high by lia.
    apply andb_false_r. }
  rewrite <- Z.lxor_lor, <- Z.add_nocarry_lxor by done. by rewrite Z.shiftl_mul_pow2 by lia.
Qed.

(** [lia] on goals with division and remainder. *)
Ltac dlia := intros; Z.to_euclidean_division_equations; lia.

(** Discharge wrap-arounds whose argument is provably in range. *)
Ltac wrap_simpl :=
  repeat match goal with
    | |- context [i32 ?x] => rewrite (i32_small x) by lia
    | |- context [i64 ?x] => rewrite (i64_small x) by lia
    | |- context [u64 ?x] => rewrite (u64_small x) by lia
    | |- context [u32 ?x] => rewrite (u32_small x) by lia
    | |- context [u16 ?x] => rewrite (u16_small x) by lia
    | |- context [u8 ?x] => rewrite (u8_small x) by lia
    end.

(** ** Effects: state, panics and process exit

    [M S A] is a computation over state [S] that returns an [A], or stops: with a
    Go [panic], with [log.Fatal] (process exit), with an access to unmapped memory,
    with the fuel of a loop exhausted, waiting on a full channel, or with a Go [error] that is
    handed to the caller at once. The state reached when it stops is kept. *)

Inductive exn : Type :=
| EPanic (what : string)
| EFatal
| EFault
| EFuel
| EBlocked
| EError (what : string).

#[export] Instance exn_eq_dec : EqDecision exn.
Proof. solve_decision. Defined.

Inductive outcome (S A : Type) : Type :=
| Ret (a : A) (s : S)
| Exc (e : exn) (s : S).
Arguments Ret {S A} a s.
Arguments Exc {S A} e s.

Definition M (S A : Type) : Type := S -> outcome S A.

Definition ret {S A} (a : A) : M S A := fun s => Ret a s.
Definition raise {S A} (e : exn) : M S A := fun s => Exc e s.
Definition panic {S A} (what : string) : M S A := raise (EPanic what).
Definition bind {S A B} (c : M S A) (k : A -> M S B) : M S B :=
  fun s => match c s with Ret a s' => k a s' | Exc e s' => Exc e s' end.
Definition get {S} : M S S := fun s => Ret s s.
Definition put {S} (s : S) : M S unit := fun _ => Ret tt s.

Declare Scope m_scope.
Delimit Scope m_scope with m.
Notation "'let!' x ':=' c 'in' k" := (bind c (fun x => k))
  (at level 10, x pattern, k at level 200,
   format "'[v' 'let!'  x  ':='  c  'in' '//' k ']'") : m_scope.
Notation "c ;;; k" := (bind c (fun _ => k))
  (at level 100, right associativity) : m_scope.

(** A Go function that returns an [error]: [None] is nil. *)
Definition caught {S A} (c : M S A) : M S (option string) := fun s =>
  match c s with
  | Ret _ s' => Ret None s'
  | Exc (EError what) s' => Ret (Some what) s'
  | Exc e s' => Exc e s'
  end.

Definition when {S} (b : bool) (c : M S unit) : M S unit := if b then c else ret tt.

(** Run a computation on the first component of a larger state. *)
Definition on_fst {S U A} (c : M S A) : M (S * U) A :=
  fun '(s, u) => match c s with Ret a s' => Ret a (s', u) | Exc e s' => Exc e (s', u) end.

Lemma bind_Ret {S A B} (c : M S A) (k : A -> M S B) s a s' :
  c s = Ret a s' -> bind c k s = k a s'.
Proof. unfold bind. by intros ->. Qed.

Lemma bind_Exc {S A B} (c : M S A) (k : A -> M S B) s e s' :
  c s = Exc e s' -> bind c k s = Exc e s'.
Proof. unfold bind. by intros ->. Qed.

Lemma bind_ret_l {S A B} (a : A) (k : A -> M S B) s : bind (ret a) k s = k a s.
Proof. done. Qed.

Lemma bind_assoc {S A B C} (c : M S A) (f : A -> M S B) (g : B -> M S C) s :
  bind (bind c f) g s = bind c (fun a => bind (f a) g) s.
Proof. unfold bind. by destruct (c s). Qed.

Lemma bind_inv_Ret {S A B} (c : M S A) (k : A -> M S B) s b s' :
  bind c k s = Ret b s' -> exists a s1, c s = Ret a s1 /\ k a s1 = Ret b s'.
Proof. unfold bind. destruct (c s); naive_solver. Qed.

Lemma on_fst_Ret {S U A} (c : M S A) s (u : U) a s' :
  c s = Ret a s' -> on_fst c (s, u) = Ret a (s', u).
Proof. unfold on_fst. by intros ->. Qed.

(** [run_ok]: the computations whose result the [m_ok] database knows. *)
Create HintDb m_ok.
#[export] Hint Resolve on_fst_Ret : m_ok.

(** One step of a sequential program: the head of the bind is evaluated with a
    lemma of [m_ok] or a hypothesis. *)
Ltac mstep :=
  first
    [ rewrite bind_ret_l
    | rewrite bind_assoc
    | erewrite bind_Ret; [| solve [eauto with m_ok]] ].
Ltac msteps := repeat mstep.

(** ** Lists and bytes *)

Definition zlen {A} (l : list A) : Z := Z.of_nat (length l).

Lemma zlen_nonneg {A} (l : list A) : 0 <= zlen l.
Proof. unfold zlen. lia. Qed.

Lemma zlen_replicate {A} n (x : A) : zlen (replicate n x) = Z.of_nat n.
Proof. unfold zlen. by rewrite length_replicate. Qed.

Lemma zlen_app {A} (l k : list A) : zlen (l ++ k) = zlen l + zlen k.
Proof. unfold zlen. rewrite length_app. lia. Qed.

(** The bytes [l[off .. off+n)]. *)
Definition sub_list {A} (off n : nat) (l : list A) : list A := take n (drop off l).

Lemma length_sub_list {A} off n (l : list A) :
  (off + n <= length l)%nat -> length (sub_list off n l) = n.
Proof. intros. unfold sub_list. rewrite length_take, length_drop. lia. Qed.

Lemma sub_list_split {A} off n k (l : list A) :
  sub_list off (n + k) l = sub_list off n l ++ sub_list (off + n) k l.
Proof.
  unfold sub_list. rewrite <- (take_drop n (take (n + k) (drop off l))) at 1.
  rewrite take_take, skipn_firstn_comm, drop_drop.
  f_equal; f_equal; lia.
Qed.

#[export] Instance byte_eq_dec' : EqDecision Init.Byte.byte := Byte.byte_eq_dec.

Lemma le_split_i32 z : le_split 4 (i32 z) = le_split 4 z.
Proof.
  rewrite (le_split_mod (i32 z)), (le_split_mod z).
  f_equal. change (2 ^ (Z.of_nat 4 * 8)) with 4294967296. unfold i32.
  rewrite Zminus_mod_idemp_l. f_equal. lia.
Qed.

(** Removing an element by putting the last one in its place. *)
Lemma swap_remove_perm {A} (l : list A) i x y :
  l !! i = Some x -> last l = Some y -> x :: take (length l - 1) (<[i := y]> l) ≡ₚ l.
Proof.
  intros Hi Hl. apply last_Some in Hl as [l0 ->]. rewrite length_app. cbn [length].
  replace (length l0 + 1 - 1)%nat with (length l0) by lia.
  destruct (decide (i < length l0)%nat) as [Hlt|Hge].
  - rewrite insert_app_l by done. rewrite take_app_le by (rewrite length_insert; lia).
    rewrite take_ge by (rewrite length_insert; lia). rewrite lookup_app_l in Hi by done.
    rewrite <- (take_drop_middle l0 i x Hi) at 2. rewrite insert_take_drop by done.
    solve_Permutation.
  - rewrite lookup_app_r in Hi by lia. assert (i = length l0) as -> by (apply lookup_lt_Some in Hi; simpl in Hi; lia).
    rewrite Nat.sub_diag in Hi. injection Hi as ->. rewrite insert_app_r_alt by lia.
    rewrite Nat.sub_diag. cbn. rewrite take_app_length. by rewrite Permutation_app_comm.
Qed.

(** Induction that takes a list apart from both ends. *)
Lemma list_ends_ind {A} (P : list A -> Prop) :
  P [] -> (forall x, P [x]) -> (forall x l y, P l -> P (x :: l ++ [y])) -> forall l, P l.
Proof.
  intros H0 H1 H2 l. remember (length l) as n eqn:Hn.
  revert l Hn. induction (lt_wf n) as [n _ IH]. intros l ->.
  destruct l as [|x l]; [done|]. destruct l as [|y l _] using rev_ind; [apply H1|].
  apply H2, (IH (length l)); [cbn; rewrite length_app; lia|done].
Qed.
