(* ===== verification/Keeps.v ===== *)
(** * Invariants of computations

    A computation keeps a property of the state when it holds wherever the computation returns,
    provided it held at its start; the rules go by the structure of the computation. *)

From S2P Require Import Prelude.

Local Open Scope m_scope.

Create HintDb keeps.

Section Rules.
Context {S : Type}.

Definition keeps (P : S -> Prop) {X} (c : M S X) : Prop :=
  forall s, P s -> match c s with Ret _ s' => P s' | Exc _ _ => True end.

Context (P : S -> Prop).

Lemma keeps_ret {X} (x : X) : keeps P (ret x).
Proof using Type. intros s Hs. exact Hs. Qed.
Lemma keeps_raise {X} e : keeps P (raise (A := X) e).
Proof using Type. intros s Hs. exact I. Qed.
Lemma keeps_bind {X Y} (c : M S X) (k : X -> M S Y) : keeps P c -> (forall x, keeps P (k x)) -> keeps P (bind c k).
Proof using Type. intros Hc Hk s Hs. unfold bind. specialize (Hc s Hs). destruct (c s); [by apply Hk|done]. Qed.
Lemma keeps_when b (c : M S unit) : keeps P c -> keeps P (when b c).
Proof using Type. intros Hc. destruct b; [done|apply keeps_ret]. Qed.

(** What a run that returns leaves. *)
Lemma keeps_Ret {X} (c : M S X) s x s' : keeps P c -> P s -> c s = Ret x s' -> P s'.
Proof using Type. intros Hc Hs Hrun. specialize (Hc s Hs). by rewrite Hrun in Hc. Qed.
End Rules.
