(* ===== verification/IdleStrategy.v ===== *)
(** * Idle strategies

    idlestrategy/strategies.go and backoffidlestrategy.go. A strategy is told how much work the
    last round of its agent did, and waits when there was none: what it asks of the runtime is
    a list of actions. *)

From S2P Require Import Prelude.

(** [Gosched], [Sleep] for some nanoseconds, and yielding until some nanoseconds have passed. *)
Inductive action : Type := AGosched | ASleep (ns : Z) | AYieldFor (ns : Z).

(** The interface: a strategy and what it does for a count of work. *)
Class Idler (S : Type) : Type := Idle : S -> Z -> S * list action.

(** ** strategies.go *)

Inductive Busy : Type := mkBusy.
#[export] Instance Busy_Idle : Idler Busy := fun s fragmentsRead => (s, []).

Record Sleeping : Type := mkSleeping { SleepFor : Z }.
#[export] Instance Sleeping_Idle : Idler Sleeping := fun s fragmentsRead =>
  (s, if fragmentsRead =? 0 then [ASleep (SleepFor s)] else []).

Inductive Yielding : Type := mkYielding.
#[export] Instance Yielding_Idle : Idler Yielding := fun s fragmentsRead =>
  (s, if fragmentsRead =? 0 then [AGosched] else []).

(** ** backoffidlestrategy.go *)

Inductive backoffState : Type := backoffNotIdle | backoffSpinning | backoffYielding | backoffParking.

Record BackoffIdleStrategy : Type := mkBackoff {
  maxSpins : Z; maxYields : Z; minParkPeriodNs : Z; maxParkPeriodNs : Z; sleepFloorNs : Z;
  bo_state : backoffState; spins : Z; yields : Z; parkPeriodNs : Z }.

Definition NewBackoffIdleStrategy (maxSpins maxYields minParkPeriodNs maxParkPeriodNs : Z) : BackoffIdleStrategy :=
  mkBackoff maxSpins maxYields minParkPeriodNs maxParkPeriodNs 0 backoffNotIdle 0 0 0.

Definition DefaultMaxSpins : Z := 10.
Definition DefaultMaxYields : Z := 20.
Definition DefaultMinParkNs : Z := 1000.
Definition DefaultMaxParkNs : Z := 1000000.
Definition DefaultSleepFloorNs : Z := 1000000.

Definition NewDefaultBackoffIdleStrategy : BackoffIdleStrategy :=
  NewBackoffIdleStrategy DefaultMaxSpins DefaultMaxYields DefaultMinParkNs DefaultMaxParkNs.

Definition NewYieldingBackoffIdleStrategy (maxSpins maxYields minParkPeriodNs maxParkPeriodNs sleepFloorNs : Z)
  : BackoffIdleStrategy :=
  mkBackoff maxSpins maxYields minParkPeriodNs maxParkPeriodNs sleepFloorNs backoffNotIdle 0 0 0.

Definition NewDefaultYieldingBackoffIdleStrategy : BackoffIdleStrategy :=
  NewYieldingBackoffIdleStrategy DefaultMaxSpins DefaultMaxYields DefaultMinParkNs DefaultMaxParkNs DefaultSleepFloorNs.

(** What changes in a round. *)
Definition set_backoff (s : BackoffIdleStrategy) (st : backoffState) (spins yields park : Z) : BackoffIdleStrategy :=
  mkBackoff (maxSpins s) (maxYields s) (minParkPeriodNs s) (maxParkPeriodNs s) (sleepFloorNs s) st spins yields park.

Definition park (s : BackoffIdleStrategy) (ns : Z) : list action :=
  if (sleepFloorNs s >? 0) && (ns <? sleepFloorNs s) then [AYieldFor ns] else [ASleep ns].

Definition reset (s : BackoffIdleStrategy) : BackoffIdleStrategy :=
  set_backoff s backoffNotIdle 0 0 (minParkPeriodNs s).

Definition idle (s : BackoffIdleStrategy) : BackoffIdleStrategy * list action :=
  match bo_state s with
  | backoffNotIdle => (set_backoff s backoffSpinning (i64 (spins s + 1)) (yields s) (parkPeriodNs s), [])
  | backoffSpinning =>
      let n := i64 (spins s + 1) in
      if n >? maxSpins s then (set_backoff s backoffYielding n 0 (parkPeriodNs s), [])
      else (set_backoff s backoffSpinning n (yields s) (parkPeriodNs s), [])
  | backoffYielding =>
      let n := i64 (yields s + 1) in
      if n >? maxYields s then (set_backoff s backoffParking (spins s) n (minParkPeriodNs s), [])
      else (set_backoff s backoffYielding (spins s) n (parkPeriodNs s), [AGosched])
  | backoffParking =>
      let acts := park s (parkPeriodNs s) in
      let p := i64 (Z.shiftl (parkPeriodNs s) 1) in
      let p := if p >? maxParkPeriodNs s then maxParkPeriodNs s else p in
      (set_backoff s backoffParking (spins s) (yields s) p, acts)
  end.

#[export] Instance Backoff_Idle : Idler BackoffIdleStrategy := fun s workCount =>
  if workCount >? 0 then (reset s, []) else idle s.

(** ** The ladder *)

(** [n] rounds without work: the strategy after them, and what the last one asks for. *)
Fixpoint rounds (n : nat) (s : BackoffIdleStrategy) : BackoffIdleStrategy * list action :=
  match n with O => (s, []) | S n' => Idle (rounds n' s).1 0 end.

(** A strategy with limits that make sense: no limit is negative and the shortest park is not
    longer than the longest, which can be doubled. *)
Record sensible (s : BackoffIdleStrategy) : Prop := {
  se_spins : 1 <= maxSpins s < 4611686018427387904;
  se_yields : 0 <= maxYields s < 4611686018427387904;
  se_park : 0 <= minParkPeriodNs s <= maxParkPeriodNs s;
  se_max : maxParkPeriodNs s < 4611686018427387904 }.

(** The [k]-th park: it doubles from the shortest up to the longest. *)
Definition park_time (s : BackoffIdleStrategy) (k : Z) : Z :=
  Z.min (maxParkPeriodNs s) (minParkPeriodNs s * 2 ^ k).

Section Ladder.
Context (s : BackoffIdleStrategy) (Hs : sensible s).

Local Abbreviation r n := (rounds n (reset s)).

(** The state after [n] rounds: spinning, then yielding, then parking. *)
Lemma rounds_state n :
  let k := Z.of_nat n in
  (r n).1 =
  if decide (k = 0) then reset s
  else if decide (k <= maxSpins s) then set_backoff s backoffSpinning k 0 (minParkPeriodNs s)
  else if decide (k <= maxSpins s + 1 + maxYields s)
  then set_backoff s backoffYielding (maxSpins s + 1) (k - maxSpins s - 1) (minParkPeriodNs s)
  else set_backoff s backoffParking (maxSpins s + 1) (maxYields s + 1)
         (park_time s (k - maxSpins s - maxYields s - 2)).
Proof using Hs.
  destruct Hs as [H1 H2 H3 H4]. induction n as [|n IH]; [done|]. cbn zeta in *.
  cbn [rounds]. rewrite IH. clear IH. set (k := Z.of_nat n). replace (Z.of_nat (S n)) with (k + 1) by lia.
  assert (0 <= k) by lia. rewrite (decide_False (P := k + 1 = 0)) by lia.
  destruct (decide (k = 0)) as [->|Hk0].
  { rewrite decide_True by lia. done. }
  destruct (decide (k <= maxSpins s)) as [Hsp|Hsp].
  { unfold Idle, Backoff_Idle, idle. cbn [bo_state set_backoff spins]. rewrite i64_small by lia.
    destruct (decide (k + 1 <= maxSpins s)) as [Hk|Hk].
    - by replace (k + 1 >? maxSpins (set_backoff s backoffSpinning k 0 (minParkPeriodNs s))) with false by (cbn; lia).
    - replace (k + 1 >? maxSpins (set_backoff s backoffSpinning k 0 (minParkPeriodNs s))) with true by (cbn; lia).
      rewrite decide_True by lia. cbn. f_equal; lia. }
  rewrite (decide_False (P := k + 1 <= maxSpins s)) by lia.
  destruct (decide (k <= maxSpins s + 1 + maxYields s)) as [Hy|Hy].
  { unfold Idle, Backoff_Idle, idle. cbn [bo_state set_backoff yields maxYields]. rewrite i64_small by lia.
    destruct (decide (k + 1 <= maxSpins s + 1 + maxYields s)) as [Hk|Hk].
    - replace (k - maxSpins s - 1 + 1 >? maxYields s) with false by lia. cbn. f_equal; lia.
    - replace (k - maxSpins s - 1 + 1 >? maxYields s) with true by lia. cbn.
      unfold park_time. replace (k + 1 - maxSpins s - maxYields s - 2) with 0 by lia.
      rewrite Z.pow_0_r, Z.mul_1_r, Z.min_r by lia. f_equal; lia. }
  rewrite decide_False by lia. unfold Idle, Backoff_Idle, idle. cbn [bo_state set_backoff parkPeriodNs maxParkPeriodNs].
  set (j := k - maxSpins s - maxYields s - 2). replace (k + 1 - maxSpins s - maxYields s - 2) with (j + 1) by lia.
  assert (0 <= j) by lia. unfold park_time. rewrite Z.shiftl_mul_pow2, Z.pow_add_r by lia.
  change (2 ^ 1) with 2. pose proof (Z.pow_pos_nonneg 2 j ltac:(lia) ltac:(lia)).
  assert (0 <= minParkPeriodNs s * 2 ^ j) by nia. rewrite i64_small by lia.
  cbn. f_equal. destruct (Z.gtb_spec (Z.min (maxParkPeriodNs s) (minParkPeriodNs s * 2 ^ j) * 2) (maxParkPeriodNs s)); lia.
Qed.
End Ladder.

(** The ladder of the backoff strategy. Of the rounds without work that follow a round
    with work, the first [maxSpins + 1] do nothing, the next [maxYields] yield, one more does
    nothing, and then each parks, for a time that doubles from the shortest to the longest
    park and never leaves that range. A park below the sleep floor is yielded, one at or above
    it is slept. *)
Theorem Backoff_ladder s n :
  sensible s ->
  let k := Z.of_nat n in
  let p := park_time s (k - maxSpins s - maxYields s - 2) in
  (rounds (S n) (reset s)).2 =
    (if decide (k <= maxSpins s) then []
     else if decide (k <= maxSpins s + maxYields s) then [AGosched]
     else if decide (k = maxSpins s + maxYields s + 1) then []
     else if decide (0 < sleepFloorNs s /\ p < sleepFloorNs s) then [AYieldFor p] else [ASleep p]) /\
  (maxSpins s + maxYields s + 2 <= k -> minParkPeriodNs s <= p <= maxParkPeriodNs s).
Proof.
  intros Hs k p. pose proof (rounds_state s Hs n) as Hst. cbn zeta in Hst. fold k p in Hst.
  destruct Hs as [H1 H2 H3 H4]. assert (0 <= k) by (unfold k; lia). split.
  2: { intros Hk. unfold p, park_time. pose proof (Z.pow_pos_nonneg 2 (k - maxSpins s - maxYields s - 2) ltac:(lia) ltac:(lia)). nia. }
  cbn [rounds]. rewrite Hst. destruct (decide (k = 0)) as [Hk0|Hk0]; [by rewrite decide_True by lia|].
  destruct (decide (k <= maxSpins s)) as [Hsp|Hsp].
  { unfold Idle, Backoff_Idle, idle. cbn. by case_match. }
  destruct (decide (k <= maxSpins s + 1 + maxYields s)) as [Hy|Hy].
  { unfold Idle, Backoff_Idle, idle. cbn [bo_state set_backoff yields maxYields]. rewrite i64_small by lia.
    destruct (decide (k <= maxSpins s + maxYields s)) as [Hk|Hk].
    - by replace (k - maxSpins s - 1 + 1 >? maxYields s) with false by lia.
    - replace (k - maxSpins s - 1 + 1 >? maxYields s) with true by lia. by rewrite decide_True by lia. }
  rewrite !decide_False by lia. unfold Idle, Backoff_Idle, idle, park. cbn [bo_state set_backoff parkPeriodNs sleepFloorNs snd].
  case_decide as Hf; destruct (Z.gtb_spec (sleepFloorNs s) 0), (Z.ltb_spec p (sleepFloorNs s)); cbn [andb]; done || lia.
Qed.

(** The parks of the default strategy: one, two, ... microseconds, at most a millisecond. *)
Lemma Backoff_ladder_witness :
  sensible NewDefaultBackoffIdleStrategy /\
  (rounds 33 (reset NewDefaultBackoffIdleStrategy)).2 = [ASleep 1000] /\
  (rounds 50 (reset NewDefaultBackoffIdleStrategy)).2 = [ASleep 1000000].
Proof.
  assert (H : sensible NewDefaultBackoffIdleStrategy) by (constructor; vm_compute; intuition congruence). split; [exact H|]. split.
  - rewrite (proj1 (Backoff_ladder NewDefaultBackoffIdleStrategy 32 H)). reflexivity.
  - rewrite (proj1 (Backoff_ladder NewDefaultBackoffIdleStrategy 49 H)). reflexivity.
Defined.
