(* ===== verification/Sbe.v ===== *)
(** * The binary encoding of messages

    codecs/SbeMarshalling.go of the archive and of the cluster (the same file): little-endian
    integers and bytes written to a buffer and read from a reader, the message header, and the
    shape that all message codecs have. A buffer that is written is the list of the bytes in
    it, a reader is the list of the bytes that are left, next to the message that is filled. *)

From S2P Require Import Prelude.

Local Open Scope m_scope.

Local Abbreviation bytes := (list Init.Byte.byte).

Definition is_i8 (v : Z) : Prop := -128 <= v < 128.
Definition is_u8 (v : Z) : Prop := 0 <= v < 256.

(** ** Writing *)

Definition write (bs : bytes) : M bytes unit := fun out => Ret tt (out ++ bs).

Definition WriteUint8 (v : Z) : M bytes unit := write (le_split 1 v).
Definition WriteUint16 (v : Z) : M bytes unit := write (le_split 2 v).
Definition WriteUint32 (v : Z) : M bytes unit := write (le_split 4 v).
Definition WriteUint64 (v : Z) : M bytes unit := write (le_split 8 v).
Definition WriteInt8 (v : Z) : M bytes unit := write (le_split 1 v).
Definition WriteInt16 (v : Z) : M bytes unit := write (le_split 2 v).
Definition WriteInt32 (v : Z) : M bytes unit := write (le_split 4 v).
Definition WriteInt64 (v : Z) : M bytes unit := write (le_split 8 v).
Definition WriteBytes (v : bytes) : M bytes unit := write v.

(** Padding, byte by byte. *)
Definition WriteZeros (n : nat) : M bytes unit := write (replicate n Byte.x00).

(** ** Reading *)

Section Reading.
Context {A : Type}.

(** [io.ReadFull]: what is there is gone, even when it is not enough. *)
Definition ReadFull (n : nat) : M (bytes * A) bytes := fun '(r, a) =>
  if (n <=? length r)%nat then Ret (take n r) (drop n r, a)
  else Exc (EError (match r with [] => "EOF" | _ => "unexpected EOF" end)) ([], a).

Definition assign (f : A -> A) : M (bytes * A) unit := fun '(r, a) => Ret tt (r, f a).

(** The target of a read is the field that [set] sets. *)
Definition ReadUint8 (set : Z -> A -> A) : M (bytes * A) unit :=
  let! b := ReadFull 1 in assign (set (le_combine b)).
Definition ReadUint16 (set : Z -> A -> A) : M (bytes * A) unit :=
  let! b := ReadFull 2 in assign (set (le_combine b)).
Definition ReadUint32 (set : Z -> A -> A) : M (bytes * A) unit :=
  let! b := ReadFull 4 in assign (set (le_combine b)).
Definition ReadUint64 (set : Z -> A -> A) : M (bytes * A) unit :=
  let! b := ReadFull 8 in assign (set (le_combine b)).
Definition ReadInt8 (set : Z -> A -> A) : M (bytes * A) unit :=
  let! b := ReadFull 1 in assign (set (i8 (le_combine b))).
Definition ReadInt32 (set : Z -> A -> A) : M (bytes * A) unit :=
  let! b := ReadFull 4 in assign (set (i32 (le_combine b))).
Definition ReadInt64 (set : Z -> A -> A) : M (bytes * A) unit :=
  let! b := ReadFull 8 in assign (set (i64 (le_combine b))).

(** [ReadBytes] into a new slice of [n] bytes: what could be read is in it. *)
Definition ReadBytes (n : nat) (set : bytes -> A -> A) : M (bytes * A) unit := fun '(r, a) =>
  if (n <=? length r)%nat then Ret tt (drop n r, set (take n r) a)
  else Exc (EError (match r with [] => "EOF" | _ => "unexpected EOF" end))
         ([], set (r ++ replicate (n - length r) Byte.x00) a).

(** [io.CopyN] to nowhere. *)
Definition Discard (n : Z) : M (bytes * A) unit := fun '(r, a) => Ret tt (drop (Z.to_nat n) r, a).

Definition fail_if (err : option string) {S} : M S unit :=
  match err with Some e => raise (EError e) | None => ret tt end.

(** The check of the message that was read. *)
Definition checked (check : A -> option string) : M (bytes * A) unit := fun '(r, a) => fail_if (check a) (r, a).

(** ** The parts of a message codec *)

(** What the accessors of a field say: its id, the versions that added and that gave it up,
    whether it may be missing, its range and the value that stands for a missing one. An
    enumeration has no range of its own. *)
Record field : Type := mkField {
  f_id : Z; SinceVersion : Z; Deprecated : Z; f_optional : bool; MinValue : Z; MaxValue : Z; NullValue : Z }.

Definition InActingVersion (f : field) (actingVersion : Z) : bool := SinceVersion f <=? actingVersion.

(** Only the presence is said; the epoch, time unit and semantic type are empty. *)
Definition MetaAttribute (optional : bool) (meta : Z) : string :=
  if meta =? 4 then (if optional then "optional" else "required") else EmptyString.

(** What the accessors of variable data say; it is always required. *)
Record data_field : Type := mkDataField {
  d_SinceVersion : Z; d_Deprecated : Z; CharacterEncoding : string; HeaderLength : Z }.

Definition data_InActingVersion (f : data_field) (actingVersion : Z) : bool := d_SinceVersion f <=? actingVersion.

(** A field that is not in the version is set to its null value. *)
Definition decode_field (f : field) (actingVersion : Z) (read : (Z -> A -> A) -> M (bytes * A) unit)
  (set : Z -> A -> A) : M (bytes * A) unit :=
  if negb (InActingVersion f actingVersion) then assign (set (NullValue f)) else read set.

(** An enumeration that is not in the version is left alone. *)
Definition decode_enum (f : field) (actingVersion : Z) (read : (Z -> A -> A) -> M (bytes * A) unit)
  (set : Z -> A -> A) : M (bytes * A) unit :=
  when (InActingVersion f actingVersion) (read set).

(** Variable data: its length, then as many bytes. *)
Definition decode_data (f : data_field) (actingVersion : Z) (set : bytes -> A -> A) : M (bytes * A) unit :=
  when (data_InActingVersion f actingVersion)
    (let! b := ReadFull 4 in ReadBytes (Z.to_nat (le_combine b)) set).

(** A newer sender has more in its block than is known here. *)
Definition skip_block (actingVersion schemaVersion blockLength SbeBlockLength : Z) : M (bytes * A) unit :=
  when ((actingVersion >? schemaVersion) && (blockLength >? SbeBlockLength)) (Discard (blockLength - SbeBlockLength)).
End Reading.

Definition range_error : string := "Range check failed".

Definition check_required (f : field) (actingVersion v : Z) : option string :=
  if InActingVersion f actingVersion && ((v <? MinValue f) || (v >? MaxValue f)) then Some range_error else None.

Definition check_optional (f : field) (actingVersion v : Z) : option string :=
  if InActingVersion f actingVersion && (negb (v =? NullValue f) && ((v <? MinValue f) || (v >? MaxValue f)))
  then Some range_error else None.

(** An enumeration of a newer sender may have values that are not known here. *)
Definition check_enum (values : list Z) (actingVersion schemaVersion v : Z) : option string :=
  if actingVersion >? schemaVersion then None
  else if existsb (Z.eqb v) values then None else Some range_error.

(** Text of a field that is declared to be ASCII. *)
Definition check_ascii (d : bytes) : option string :=
  if existsb (fun ch => Z.of_N (Byte.to_N ch) >? 127) d then Some "failed ASCII validation"%string else None.

Definition first_error (errs : list (option string)) : option string :=
  fold_right (fun e acc => match e with Some e => Some e | None => acc end) None errs.

(** ** The message header *)

Record SbeGoMessageHeader : Type := mkHeader {
  BlockLength : Z; TemplateId : Z; SchemaId : Z; Version : Z }.

Definition SbeGoMessageHeader_Encode (h : SbeGoMessageHeader) : M bytes unit :=
  write (le_split 2 (BlockLength h) ++ le_split 2 (TemplateId h) ++ le_split 2 (SchemaId h) ++ le_split 2 (Version h)).

(** It is read at once, or not at all. *)
Definition SbeGoMessageHeader_Decode : M (bytes * SbeGoMessageHeader) unit :=
  let! b := ReadFull 8 in
  assign (fun _ => mkHeader (le_combine (take 2 b)) (le_combine (take 2 (drop 2 b)))
                     (le_combine (take 2 (drop 4 b))) (le_combine (take 2 (drop 6 b)))).

Definition zero_header : SbeGoMessageHeader := mkHeader 0 0 0 0.

(** codecs/MessageHeader.go: the generated header that the encoders use, field by field. *)
Definition MessageHeader_Encode (h : SbeGoMessageHeader) : M bytes unit :=
  WriteUint16 (BlockLength h) ;;; WriteUint16 (TemplateId h) ;;; WriteUint16 (SchemaId h) ;;; WriteUint16 (Version h).

(** ** Codecs

    What a generated file of a message has, and what its users rely on: the encoding is the
    fixed block, of the length that the header announces, and the variable data; a message
    that is valid for its types is read back from its encoding, by this version or with the
    block of a newer one; and when bytes are missing at the end the decoder says so. *)

Class Codec (A : Type) : Type := {
  SbeBlockLength : Z; SbeTemplateId : Z; SbeSchemaId : Z; SbeSchemaVersion : Z;
  zero : A;
  RangeCheck : A -> Z -> Z -> option string;
  Encode : A -> bool -> M bytes unit;
  Decode : Z -> Z -> bool -> M (bytes * A) unit;
  valid : A -> Prop;
  fixed_part : A -> bytes;
  data_part : A -> bytes }.

Class CodecLaws (A : Type) `{Codec A} : Prop := {
  block_length a : valid a -> zlen (fixed_part a) = SbeBlockLength;
  encode_ok a check out :
    (check = true -> RangeCheck a SbeSchemaVersion SbeSchemaVersion = None) ->
    Encode a check out = Ret tt (out ++ fixed_part a ++ data_part a);
  encode_refused a e out :
    RangeCheck a SbeSchemaVersion SbeSchemaVersion = Some e -> Encode a true out = Exc (EError e) out;
  decode_ok a v len more check rest :
    valid a ->
    (v = SbeSchemaVersion /\ more = [] \/ SbeSchemaVersion < v /\ len = SbeBlockLength + zlen more) ->
    (check = true -> RangeCheck a v SbeSchemaVersion = None) ->
    Decode v len check (fixed_part a ++ more ++ data_part a ++ rest, zero) = Ret tt (rest, a);
  decode_short a len check p q :
    valid a -> fixed_part a ++ data_part a = p ++ q -> q <> [] ->
    exists e s, Decode SbeSchemaVersion len check (p, zero) = Exc (EError e) s }.

(** ** How reads undo writes *)

Section ReadBack.
Context {A : Type}.

(** [op] reads [bs] and turns the message [a] into [a']. *)
Definition reads (op : M (bytes * A) unit) (bs : bytes) (a a' : A) : Prop :=
  forall rest, op (bs ++ rest, a) = Ret tt (rest, a').

Lemma reads_seq op1 op2 bs1 bs2 a a1 a2 :
  reads op1 bs1 a a1 -> reads op2 bs2 a1 a2 -> reads (op1 ;;; op2) (bs1 ++ bs2) a a2.
Proof. intros H1 H2 rest. rewrite <- app_assoc. erewrite bind_Ret by apply H1. apply H2. Qed.

Lemma ReadFull_ok n bs rest (a : A) : length bs = n -> ReadFull n (bs ++ rest, a) = Ret bs (rest, a).
Proof.
  intros Hn. unfold ReadFull. rewrite (proj2 (Nat.leb_le _ _)) by (rewrite length_app; lia).
  rewrite <- Hn, take_app_length, drop_app_length. done.
Qed.

Lemma reads_int (k : Z -> A -> A) n (wrap : Z -> Z) v a :
  wrap (v mod 2 ^ (Z.of_nat n * 8)) = v ->
  reads (let! b := ReadFull n in assign (k (wrap (le_combine b)))) (le_split n v) a (k v a).
Proof.
  intros Hw rest. erewrite bind_Ret by (apply ReadFull_ok, length_le_split). unfold assign. by rewrite le_combine_split, Hw.
Qed.

Lemma reads_Int64 set v a : is_i64 v -> reads (ReadInt64 set) (le_split 8 v) a (set v a).
Proof. intros [? ?]. apply (reads_int set 8 i64). rewrite i64_mod. by apply i64_small. Qed.
Lemma reads_Int32 set v a : is_i32 v -> reads (ReadInt32 set) (le_split 4 v) a (set v a).
Proof. intros [? ?]. apply (reads_int set 4 i32). rewrite i32_mod. by apply i32_small. Qed.
Lemma reads_Int8 set v a : is_i8 v -> reads (ReadInt8 set) (le_split 1 v) a (set v a).
Proof.
  intros [? ?]. apply (reads_int set 1 i8). change (2 ^ (Z.of_nat 1 * 8)) with 256. unfold i8.
  rewrite Zplus_mod_idemp_l, Z.mod_small; lia.
Qed.
Lemma reads_Uint8 set v a : is_u8 v -> reads (ReadUint8 set) (le_split 1 v) a (set v a).
Proof. intros [? ?]. apply (reads_int set 1 (fun x => x)). by apply Z.mod_small. Qed.

Lemma reads_field f v0 (op : (Z -> A -> A) -> M (bytes * A) unit) set bs v a :
  SinceVersion f <= v0 -> reads (op set) bs a (set v a) -> reads (decode_field f v0 op set) bs a (set v a).
Proof. intros Hv Hr rest. unfold decode_field, InActingVersion. by rewrite (proj2 (Z.leb_le _ _) Hv). Qed.

Lemma reads_enum f v0 (op : (Z -> A -> A) -> M (bytes * A) unit) set bs v a :
  SinceVersion f <= v0 -> reads (op set) bs a (set v a) -> reads (decode_enum f v0 op set) bs a (set v a).
Proof. intros Hv Hr rest. unfold decode_enum, InActingVersion. rewrite (proj2 (Z.leb_le _ _) Hv). apply Hr. Qed.

(** Variable data as it is written. *)
Definition data_bytes (d : bytes) : bytes := le_split 4 (u32 (zlen d)) ++ d.

Lemma reads_data f v0 set (d : bytes) a :
  d_SinceVersion f <= v0 -> zlen d < 4294967296 -> reads (decode_data f v0 set) (data_bytes d) a (set d a).
Proof.
  intros Hv Hd rest. unfold data_bytes. pose proof (zlen_nonneg d). unfold decode_data, data_InActingVersion. rewrite (proj2 (Z.leb_le _ _) Hv).
  cbn [when]. rewrite <- app_assoc. erewrite bind_Ret by (apply ReadFull_ok, length_le_split).
  rewrite le_combine_split, u32_small, Z.mod_small by (change (2 ^ (Z.of_nat 4 * 8)) with 4294967296; lia).
  unfold ReadBytes, zlen. rewrite Nat2Z.id, (proj2 (Nat.leb_le _ _)) by (rewrite length_app; lia).
  by rewrite drop_app_length, take_app_length.
Qed.

Lemma reads_skip v sv len bl more a :
  (v = sv /\ more = [] \/ sv < v /\ len = bl + zlen more) -> reads (skip_block v sv len bl) more a a.
Proof.
  intros Hv rest. unfold skip_block. destruct Hv as [[-> ->]|[Hlt ->]].
  - by replace (sv >? sv) with false by lia.
  - replace (v >? sv) with true by lia. pose proof (zlen_nonneg more). cbn [andb].
    destruct (Z.gtb_spec (bl + zlen more) bl); cbn [when].
    + unfold Discard. replace (bl + zlen more - bl) with (zlen more) by lia. unfold zlen. by rewrite Nat2Z.id, drop_app_length.
    + destruct more; [done|]. unfold zlen in *. cbn [length] in *. lia.
Qed.

Lemma reads_discard n (x : Init.Byte.byte) a : reads (Discard (Z.of_nat n)) (replicate n x) a a.
Proof.
  intros rest. unfold Discard. rewrite Nat2Z.id. by rewrite drop_app_length' by (by rewrite length_replicate).
Qed.

(** [op] does not read [bs] from less. *)
Definition stops (op : M (bytes * A) unit) (bs : bytes) (a : A) : Prop :=
  forall p q, bs = p ++ q -> q <> [] -> exists e s, op (p, a) = Exc (EError e) s.

Lemma stops_nil op a : stops op [] a.
Proof. intros p q E Hq. symmetry in E. by apply app_nil in E as [_ ->]. Qed.

Lemma stops_seq op1 op2 bs1 bs2 a a1 :
  reads op1 bs1 a a1 -> stops op1 bs1 a -> stops op2 bs2 a1 -> stops (op1 ;;; op2) (bs1 ++ bs2) a.
Proof.
  intros Hr H1 H2 p q E Hq. apply app_eq_app in E as (l & [[-> ->]|[-> ->]]).
  - destruct l as [|x l].
    + rewrite app_nil_r in *. destruct (H2 [] bs2 eq_refl Hq) as (e & s & He). exists e, s.
      rewrite <- (app_nil_r p). erewrite bind_Ret by apply Hr. exact He.
    + destruct (H1 p (x :: l) eq_refl) as (e & s & He); [done|]. exists e, s. by apply bind_Exc.
  - destruct (H2 l q eq_refl Hq) as (e & s & He). exists e, s. by erewrite bind_Ret by apply Hr.
Qed.

Lemma stops_skip op1 op2 bs a : reads op1 [] a a -> stops op2 bs a -> stops (op1 ;;; op2) bs a.
Proof. intros Hr Hs. rewrite <- (app_nil_l bs). eapply stops_seq; [exact Hr|apply stops_nil|exact Hs]. Qed.

Lemma stops_end op1 op2 bs a : stops op1 bs a -> stops (op1 ;;; op2) bs a.
Proof. intros Hs p q E Hq. destruct (Hs p q E Hq) as (e & s & He). exists e, s. by apply bind_Exc. Qed.

(** Padding that is not there is not missed before the next read. *)
Lemma stops_discard n (x : Init.Byte.byte) op2 bs2 a :
  bs2 <> [] -> stops op2 bs2 a -> stops (Discard (Z.of_nat n) ;;; op2) (replicate n x ++ bs2) a.
Proof.
  intros Hne Hs p q E Hq. destruct (decide (length p <= n)%nat) as [Hp|Hp].
  - destruct (Hs [] bs2 eq_refl Hne) as (e & s & He). exists e, s. unfold bind, Discard.
    rewrite Nat2Z.id, drop_ge by done. exact He.
  - apply app_eq_app in E as (l & [[El ->]|[-> El]]).
    + apply (f_equal length) in El. rewrite length_replicate, length_app in El. lia.
    + destruct (Hs l q El Hq) as (e & s & He). exists e, s. unfold bind, Discard.
      rewrite Nat2Z.id, drop_app_length' by (by rewrite length_replicate). exact He.
Qed.

Lemma bytes_nonempty (bs : bytes) : length bs <> 0%nat -> bs <> [].
Proof. by intros H ->. Qed.

Lemma ReadFull_short n p (a : A) : (length p < n)%nat -> exists e, ReadFull n (p, a) = Exc (EError e) ([], a).
Proof. intros. unfold ReadFull. rewrite (proj2 (Nat.leb_gt _ _)) by done. by eexists. Qed.

Lemma stops_full {B} n bs (k : bytes -> M (bytes * A) B) p q a :
  length bs = n -> bs = p ++ q -> q <> [] -> exists e s, bind (ReadFull n) k (p, a) = Exc (EError e) s.
Proof.
  intros Hn -> Hq. rewrite length_app in Hn. destruct q; [done|]. cbn [length] in Hn.
  destruct (ReadFull_short n p a) as [e He]; [lia|]. exists e, ([], a). by apply bind_Exc.
Qed.

Lemma stops_Int64 set v a : stops (ReadInt64 set) (le_split 8 v) a.
Proof. intros p q. apply stops_full, length_le_split. Qed.
Lemma stops_Int32 set v a : stops (ReadInt32 set) (le_split 4 v) a.
Proof. intros p q. apply stops_full, length_le_split. Qed.
Lemma stops_Int8 set v a : stops (ReadInt8 set) (le_split 1 v) a.
Proof. intros p q. apply stops_full, length_le_split. Qed.
Lemma stops_Uint8 set v a : stops (ReadUint8 set) (le_split 1 v) a.
Proof. intros p q. apply stops_full, length_le_split. Qed.

Lemma stops_field f v0 (op : (Z -> A -> A) -> M (bytes * A) unit) set bs a :
  SinceVersion f <= v0 -> stops (op set) bs a -> stops (decode_field f v0 op set) bs a.
Proof. intros Hv Hs p q. unfold decode_field, InActingVersion. rewrite (proj2 (Z.leb_le _ _) Hv). apply Hs. Qed.

Lemma stops_enum f v0 (op : (Z -> A -> A) -> M (bytes * A) unit) set bs a :
  SinceVersion f <= v0 -> stops (op set) bs a -> stops (decode_enum f v0 op set) bs a.
Proof. intros Hv Hs p q. unfold decode_enum, InActingVersion. rewrite (proj2 (Z.leb_le _ _) Hv). apply Hs. Qed.

Lemma stops_data f v0 set (d : bytes) a :
  d_SinceVersion f <= v0 -> zlen d < 4294967296 -> stops (decode_data f v0 set) (data_bytes d) a.
Proof.
  intros Hv Hd p q E Hq. pose proof (zlen_nonneg d). unfold decode_data, data_InActingVersion.
  rewrite (proj2 (Z.leb_le _ _) Hv). cbn [when]. unfold data_bytes in E.
  apply app_eq_app in E as (l & [[El ->]|[-> El]]).
  - destruct l as [|x l]; [|by apply (stops_full 4 _ _ p (x :: l) a (length_le_split _ _) El)].
    rewrite app_nil_r in El. subst p. rewrite <- (app_nil_r (le_split 4 _)).
    erewrite bind_Ret by (apply ReadFull_ok, length_le_split). eexists _, _. unfold ReadBytes.
    rewrite le_combine_split, u32_small, Z.mod_small by (change (2 ^ (Z.of_nat 4 * 8)) with 4294967296; lia).
    unfold zlen. rewrite Nat2Z.id. cbn [app] in Hq. destruct d; [done|]. reflexivity.
  - erewrite bind_Ret by (apply ReadFull_ok, length_le_split). unfold ReadBytes.
    rewrite le_combine_split, u32_small, Z.mod_small by (change (2 ^ (Z.of_nat 4 * 8)) with 4294967296; lia).
    unfold zlen. rewrite Nat2Z.id, El, length_app. destruct q; [done|]. cbn [length].
    rewrite (proj2 (Nat.leb_gt _ _)) by lia. by eexists _, _.
Qed.

Lemma reads_checked (check : A -> option string) (b : bool) rest (a : A) :
  (b = true -> check a = None) -> when b (checked check) (rest, a) = Ret tt (rest, a).
Proof. intros Hc. destruct b; [|done]. cbn. by rewrite Hc. Qed.
End ReadBack.

(** [op] writes [bs]. *)
Definition writes (op : M bytes unit) (bs : bytes) : Prop := forall out, op out = Ret tt (out ++ bs).

Lemma writes_write bs : writes (write bs) bs.
Proof. done. Qed.

Lemma writes_seq op1 op2 bs1 bs2 : writes op1 bs1 -> writes op2 bs2 -> writes (op1 ;;; op2) (bs1 ++ bs2).
Proof. intros H1 H2 out. erewrite bind_Ret by apply H1. rewrite app_assoc. apply H2. Qed.

Lemma writes_data op (d bs : bytes) :
  writes op bs -> writes (WriteUint32 (u32 (zlen d)) ;;; WriteBytes d ;;; op) (data_bytes d ++ bs).
Proof.
  intros H. unfold data_bytes. rewrite <- app_assoc. apply writes_seq; [apply writes_write|].
  apply writes_seq; [apply writes_write|exact H].
Qed.

Lemma writes_last (d : bytes) : writes (WriteUint32 (u32 (zlen d)) ;;; WriteBytes d) (data_bytes d).
Proof. apply writes_seq; apply writes_write. Qed.

Lemma writes_check check err op bs :
  (check = true -> err = None) -> writes op bs -> writes (when check (fail_if err) ;;; op) bs.
Proof. intros Hc Hop out. destruct check; [|apply Hop]. cbn [when]. rewrite Hc by done. apply Hop. Qed.

Lemma writes_is op bs bs' out : writes op bs -> bs = bs' -> op out = Ret tt (out ++ bs').
Proof. by intros H <-. Qed.

Lemma zlen_le n v : zlen (le_split n v) = Z.of_nat n.
Proof. unfold zlen. by rewrite length_le_split. Qed.

(** ** Proving the laws of a codec *)

(** What other files add to the cases below. *)
Ltac codec_write_more := fail.
Ltac codec_read_more := fail.
Ltac codec_stop_more := fail.

Ltac codec_write :=
  first [codec_write_more|
  lazymatch goal with
  | |- writes (WriteUint32 (u32 _) ;;; WriteBytes _) _ => apply writes_last
  | |- writes (WriteUint32 (u32 _) ;;; _) _ => eapply writes_data
  | |- writes (_ ;;; _) _ => eapply writes_seq; [apply writes_write|]
  | |- writes _ _ => apply writes_write
  end].

Ltac codec_int :=
  lazymatch goal with
  | |- reads (ReadInt64 _) _ _ _ => apply reads_Int64; assumption
  | |- reads (ReadInt32 _) _ _ _ => apply reads_Int32; assumption
  | |- reads (ReadInt8 _) _ _ _ => apply reads_Int8; assumption
  | |- reads (ReadUint8 _) _ _ _ => apply reads_Uint8; assumption
  end.

Ltac codec_read Hv :=
  lazymatch goal with
  | |- reads (decode_field _ _ _ _) _ _ _ => eapply reads_field; [cbn; lia|codec_int]
  | |- reads (decode_enum _ _ _ _) _ _ _ => eapply reads_enum; [cbn; lia|codec_int]
  | |- reads (decode_data _ _ _) _ _ _ => eapply reads_data; [cbn; lia|assumption]
  | |- reads (skip_block _ _ _ _) _ _ _ => eapply reads_skip; exact Hv
  | |- reads (Discard _) (replicate ?n _) _ _ => exact (reads_discard n _ _)
  | |- _ => codec_read_more
  end.

(** One read of a decoder. *)
Ltac codec_run Hv :=
  lazymatch goal with
  | |- ?op (?bs ++ ?rest, ?a) = _ =>
      let H := fresh in eassert (H : reads op bs a _) by (codec_read Hv); apply H
  end.

Ltac codec_stop_int :=
  lazymatch goal with
  | |- stops (ReadInt64 _) _ _ => apply stops_Int64
  | |- stops (ReadInt32 _) _ _ => apply stops_Int32
  | |- stops (ReadInt8 _) _ _ => apply stops_Int8
  | |- stops (ReadUint8 _) _ _ => apply stops_Uint8
  end.

Ltac codec_stop :=
  lazymatch goal with
  | |- stops (decode_field _ _ _ _) _ _ => eapply stops_field; [cbn; lia|codec_stop_int]
  | |- stops (decode_enum _ _ _ _) _ _ => eapply stops_enum; [cbn; lia|codec_stop_int]
  | |- stops (decode_data _ _ _) _ _ => eapply stops_data; [cbn; lia|assumption]
  | |- _ => codec_stop_more
  end.

(** The laws of the codec [cdc], whose operations are [enc] and [dec]. *)
Ltac codec_laws cdc enc dec :=
  constructor;
  [ intros m _; cbn [fixed_part SbeBlockLength cdc]; rewrite ?zlen_app, ?zlen_le, ?zlen_replicate; reflexivity
  | intros m check out Hc; cbn [Encode fixed_part data_part cdc]; unfold enc;
    eapply writes_is; [apply writes_check; [exact Hc|repeat codec_write]|]; rewrite <- ?app_assoc, ?app_nil_r; reflexivity
  | intros m e out Hc; cbn [Encode cdc RangeCheck SbeSchemaVersion] in Hc |- *; unfold enc; cbn [when]; apply bind_Exc;
    rewrite Hc; reflexivity
  | intros m v len more check rest Hvalid Hv Hc;
    cbn [valid SbeSchemaVersion SbeBlockLength RangeCheck cdc] in Hvalid, Hv, Hc;
    match type of Hv with ?x = ?sv /\ _ \/ _ => assert (sv <= v) by (destruct Hv as [[-> _]|[? _]]; lia) end;
    destruct_and?; cbn [Decode fixed_part data_part cdc]; unfold dec; rewrite <- ?app_assoc; cbn [app];
    repeat (erewrite bind_Ret by (codec_run Hv));
    destruct m; apply reads_checked; exact Hc
  | intros m len check p q Hvalid; cbn [valid fixed_part data_part Decode SbeSchemaVersion zero cdc] in Hvalid |- *;
    destruct_and?; rewrite <- ?app_assoc; revert p q;
    lazymatch goal with
    | |- forall p q, ?bs = p ++ q -> q <> [] -> exists e s, ?op (p, ?z) = Exc (EError e) s => change (stops op bs z)
    end;
    unfold dec; rewrite ?app_nil_r;
    repeat lazymatch goal with
    | |- stops (skip_block _ _ _ _ ;;; _) _ _ => apply stops_skip; [apply reads_skip; left; by split|]
    | |- stops (Discard _ ;;; _) (replicate ?n _ ++ _) _ => apply (stops_discard n); [by apply bytes_nonempty|]
    | |- stops (_ ;;; _) (_ ++ _) _ => eapply stops_seq; [codec_read tt|codec_stop|]
    | |- stops (_ ;;; _) _ _ => apply stops_end; codec_stop
    end ].
