(* ===== verification/SbeTypes.v ===== *)
(** * The types of fields

    The scalars of codecs/SbeMarshalling.go, all together; and what the generated files of
    enumerations and composites have in common: they are written and read like a field, and
    checked. *)

From S2P Require Import Prelude Sbe.

Local Open Scope m_scope.

Local Abbreviation bytes := (list Init.Byte.byte).

Definition is_u16 (v : Z) : Prop := 0 <= v < 65536.
Definition is_u32 (v : Z) : Prop := 0 <= v < 4294967296.

(** The versions that added and that gave up a value of an enumeration. *)
Record enum_value : Type := mkEnumValue { ev_value : Z; ev_SinceVersion : Z; ev_Deprecated : Z }.

Definition value_InActingVersion (v : enum_value) (actingVersion : Z) : bool := ev_SinceVersion v <=? actingVersion.

(** What the file of a type has, and what its users rely on. *)
Record wire (A : Type) : Type := mkWire {
  w_Encode : A -> M bytes unit;
  w_Decode : Z -> M (bytes * A) unit;
  w_RangeCheck : A -> Z -> Z -> option string;
  w_EncodedLength : Z;
  w_zero : A;
  w_valid : A -> Prop;
  w_in_range : A -> Prop;
  w_bytes : A -> bytes }.
Arguments w_Encode {A}. Arguments w_Decode {A}. Arguments w_RangeCheck {A}. Arguments w_EncodedLength {A}.
Arguments w_zero {A}. Arguments w_valid {A}. Arguments w_in_range {A}. Arguments w_bytes {A}.

(** Variable data has no length of its own: -1. *)
Record wire_ok {A} (w : wire A) : Prop := {
  wo_length a : w_EncodedLength w = -1 \/ zlen (w_bytes w a) = w_EncodedLength w;
  wo_writes a : writes (w_Encode w a) (w_bytes w a);
  wo_reads a v : 0 <= v -> w_valid w a -> reads (w_Decode w v) (w_bytes w a) (w_zero w) a;
  wo_stops a v : 0 <= v -> w_valid w a -> stops (w_Decode w v) (w_bytes w a) (w_zero w);
  wo_check a v : 0 <= v -> w_RangeCheck w a v v = None <-> w_in_range w a }.

Section Reads.
Context {A : Type}.

Lemma reads_Uint16 set v (a : A) : is_u16 v -> reads (ReadUint16 set) (le_split 2 v) a (set v a).
Proof. intros [? ?]. apply (reads_int set 2 (fun x => x)). by apply Z.mod_small. Qed.
Lemma reads_Uint32 set v (a : A) : is_u32 v -> reads (ReadUint32 set) (le_split 4 v) a (set v a).
Proof. intros [? ?]. apply (reads_int set 4 (fun x => x)). by apply Z.mod_small. Qed.
Lemma reads_is op bs (a a' a'' : A) : reads op bs a a' -> a' = a'' -> reads op bs a a''.
Proof. by intros H <-. Qed.
Lemma stops_Uint16 set v (a : A) : stops (ReadUint16 set) (le_split 2 v) a.
Proof. intros p q. apply stops_full, length_le_split. Qed.
Lemma stops_Uint32 set v (a : A) : stops (ReadUint32 set) (le_split 4 v) a.
Proof. intros p q. apply stops_full, length_le_split. Qed.
End Reads.

(** ** Scalars that no message has

    A float is written as its bits, and here it is its bits. *)

Definition i16 (z : Z) : Z := (z + 32768) mod 65536 - 32768.

Definition WriteFloat32 (v : Z) : M bytes unit := write (le_split 4 v).
Definition WriteFloat64 (v : Z) : M bytes unit := write (le_split 8 v).

Section Scalars.
Context {A : Type}.

Definition ReadInt16 (set : Z -> A -> A) : M (bytes * A) unit :=
  let! b := ReadFull 2 in assign (set (i16 (le_combine b))).
Definition ReadFloat32 (set : Z -> A -> A) : M (bytes * A) unit :=
  let! b := ReadFull 4 in assign (set (le_combine b)).
Definition ReadFloat64 (set : Z -> A -> A) : M (bytes * A) unit :=
  let! b := ReadFull 8 in assign (set (le_combine b)).
End Scalars.

(** [read] takes the values in a range back from what [write] made of them. *)
Definition scalar_ok (wr : Z -> M bytes unit) (read : forall A, (Z -> A -> A) -> M (bytes * A) unit)
  (n : nat) (low high : Z) : Prop :=
  forall v, low <= v < high -> exists bs, writes (wr v) bs /\ length bs = n /\
    forall A (set : Z -> A -> A) a, reads (read A set) bs a (set v a) /\ stops (read A set) bs a.

Lemma scalar_pair wr read n wrap low high :
  (forall v, writes (wr v) (le_split n v)) ->
  (forall A set, read A set = (let! b := ReadFull n in assign (set (wrap (le_combine b))))) ->
  (forall v, low <= v < high -> wrap (v mod 2 ^ (Z.of_nat n * 8)) = v) -> scalar_ok wr read n low high.
Proof.
  intros Hw Hr Hv v Hin. exists (le_split n v). split; [apply Hw|]. split; [apply length_le_split|].
  intros A set a. rewrite Hr. split.
  - by apply (reads_int set), Hv.
  - intros p q. apply stops_full, length_le_split.
Qed.

(** Signed values come back from their remainder. *)
Lemma wrap_signed k m v : 0 < k -> m = 2 * k -> - k <= v < k -> (v mod m + k) mod m - k = v.
Proof. intros Hk -> Hv. rewrite Zplus_mod_idemp_l, Z.mod_small; lia. Qed.

(** Every scalar of the marshaller is read back as it was written, in the range of its type. *)
Theorem scalars_marshalled :
  scalar_ok WriteUint8 (@ReadUint8) 1 0 (2 ^ 8) /\ scalar_ok WriteUint16 (@ReadUint16) 2 0 (2 ^ 16) /\
  scalar_ok WriteUint32 (@ReadUint32) 4 0 (2 ^ 32) /\ scalar_ok WriteUint64 (@ReadUint64) 8 0 (2 ^ 64) /\
  scalar_ok WriteInt8 (@ReadInt8) 1 (- 2 ^ 7) (2 ^ 7) /\ scalar_ok WriteInt16 (@ReadInt16) 2 (- 2 ^ 15) (2 ^ 15) /\
  scalar_ok WriteInt32 (@ReadInt32) 4 (- 2 ^ 31) (2 ^ 31) /\ scalar_ok WriteInt64 (@ReadInt64) 8 (- 2 ^ 63) (2 ^ 63) /\
  scalar_ok WriteFloat32 (@ReadFloat32) 4 0 (2 ^ 32) /\ scalar_ok WriteFloat64 (@ReadFloat64) 8 0 (2 ^ 64).
Proof.
  repeat split;
    first [ apply (scalar_pair _ _ _ (fun x => x)); [done|done|intros v Hv; by apply Z.mod_small]
          | eapply scalar_pair; [done|done|intros v Hv; apply wrap_signed; lia] ].
Qed.

(** ** Enumerations *)

Definition enum_wire (enc : Z -> M bytes unit) (dec : Z -> M (bytes * Z) unit) (check : Z -> Z -> Z -> option string)
  (values : list Z) (length : Z) (valid : Z -> Prop) : wire Z :=
  mkWire Z enc dec check length 0 valid (fun e => e ∈ values) (fun e => le_split (Z.to_nat length) e).

Lemma check_enum_ok values v s e : check_enum values v s e = None <-> s < v \/ e ∈ values.
Proof.
  unfold check_enum. destruct (Z.gtb_spec v s) as [Hgt|Hle].
  - split; [left; lia|done].
  - assert (Hex : existsb (Z.eqb e) values = true <-> e ∈ values).
    { rewrite existsb_exists, list_elem_of_In. split.
      - intros (x & Hx & He). apply Z.eqb_eq in He. by subst.
      - intros Hx. exists e. split; [done|apply Z.eqb_refl]. }
    destruct (existsb (Z.eqb e) values).
    + split; [right; by apply Hex|done].
    + split; [done|]. intros [?|He]; [lia|]. by apply Hex in He.
Qed.

Ltac enum_laws w check :=
  constructor;
  [ intros a; right; apply zlen_le
  | intros a; apply writes_write
  | intros a v _ Ha; first [apply reads_Int32|apply reads_Uint8|apply reads_Int8]; exact Ha
  | intros a v _ Ha; first [apply stops_Int32|apply stops_Uint8|apply stops_Int8]
  | intros a v Hv; cbv [w_RangeCheck w_in_range enum_wire w check]; rewrite check_enum_ok; intuition lia ].

(** ** Composites *)

Definition in_field (f : field) (v : Z) : Prop := MinValue f <= v <= MaxValue f.

Lemma check_required_ok f v x : SinceVersion f <= v -> check_required f v x = None <-> in_field f x.
Proof.
  intros Hv. unfold check_required, InActingVersion, in_field. rewrite (proj2 (Z.leb_le _ _) Hv). cbn [andb].
  destruct (Z.ltb_spec x (MinValue f)), (Z.gtb_spec x (MaxValue f)); cbn [orb]; (split; [done || lia|done || (intros []; lia)]).
Qed.

Lemma first_error_cons e es : first_error (e :: es) = None <-> e = None /\ first_error es = None.
Proof. destruct e; cbn; [by split; [|intros []]|by split; [|intros []]]. Qed.

Ltac field_read :=
  eapply reads_field; [cbn; lia|];
  first [apply reads_Uint32|apply reads_Uint16|apply reads_Uint8]; assumption.

Ltac field_stop :=
  eapply stops_field; [cbn; lia|]; first [apply stops_Uint32|apply stops_Uint16|apply stops_Uint8].

Ltac composite_laws w enc dec check :=
  constructor;
  [ intros m; first [left; reflexivity|right; cbn; rewrite ?zlen_app, ?zlen_le; reflexivity]
  | intros m; cbn; unfold enc; repeat (eapply writes_seq; [apply writes_write|]); apply writes_write
  | intros m v Hv Hm; cbn in Hm |- *; destruct_and?; unfold dec;
    eapply reads_is; [repeat (eapply reads_seq; [field_read|]); field_read|by destruct m]
  | intros m v Hv Hm; cbn in Hm |- *; destruct_and?; unfold dec;
    repeat (eapply stops_seq; [field_read|field_stop|]); field_stop
  | intros m v Hv; unfold w; cbn [w_RangeCheck w_in_range]; unfold check;
    rewrite !first_error_cons, !check_required_ok by (cbn; lia); cbn; intuition ].
