(* ===== verification/SbePacket.v ===== *)
(** * Messages behind a header

    What the encoders of codecs/encoders.go of the archive and of the cluster have in common: a
    message is marshalled behind the header that announces it; and the receiving side, which
    reads the header and then the message. *)

From S2P Require Import Prelude Sbe.

Local Open Scope m_scope.

Local Abbreviation bytes := (list Init.Byte.byte).

Definition header_of (A : Type) `{Codec A} : SbeGoMessageHeader :=
  mkHeader (SbeBlockLength (A := A)) (SbeTemplateId (A := A)) (SbeSchemaId (A := A)) (SbeSchemaVersion (A := A)).

(** The end of all encoders: the header of the message, then the message. *)
Definition packet {A} `{Codec A} (request : A) (rangeChecking : bool) : bytes + string :=
  match (MessageHeader_Encode (header_of A) ;;;
         Encode request rangeChecking) [] with
  | Ret _ buffer => inl buffer
  | Exc (EError e) _ => inr e
  | Exc _ _ => inr "panic"%string
  end.

(** ** What arrives *)

(** The receiving side: the header, then the message it announces. *)
Definition unpacket {A} `{Codec A} (check : bool) (bs : bytes) : option A :=
  match SbeGoMessageHeader_Decode (bs, zero_header) with
  | Ret _ (body, h) =>
      if (TemplateId h =? SbeTemplateId (A := A)) && (SchemaId h =? SbeSchemaId (A := A)) then
        match Decode (Version h) (BlockLength h) check (body, zero) with
        | Ret _ (_, a) => Some a
        | Exc _ _ => None
        end
      else None
  | Exc _ _ => None
  end.

Lemma header_roundtrip h rest :
  0 <= BlockLength h < 65536 -> 0 <= TemplateId h < 65536 -> 0 <= SchemaId h < 65536 -> 0 <= Version h < 65536 ->
  exists bs, MessageHeader_Encode h [] = Ret tt bs /\ length bs = 8%nat /\
    SbeGoMessageHeader_Decode (bs ++ rest, zero_header) = Ret tt (rest, h).
Proof.
  intros. destruct h as [b t s v]. cbn [BlockLength TemplateId SchemaId Version] in *.
  exists (le_split 2 b ++ le_split 2 t ++ le_split 2 s ++ le_split 2 v). split; [|split].
  - unfold MessageHeader_Encode, WriteUint16, write, bind. cbn [BlockLength TemplateId SchemaId Version].
    by rewrite <- !app_assoc.
  - by rewrite !length_app, !length_le_split.
  - unfold SbeGoMessageHeader_Decode.
    erewrite bind_Ret by (apply ReadFull_ok; by rewrite !length_app, !length_le_split).
    assert (Hw : forall x, 0 <= x < 65536 -> le_combine (le_split 2 x) = x).
    { intros x Hx. rewrite le_combine_split. change (2 ^ (Z.of_nat 2 * 8)) with 65536. by apply Z.mod_small. }
    change (Ret tt (rest, mkHeader (le_combine (le_split 2 b)) (le_combine (le_split 2 t))
              (le_combine (le_split 2 s)) (le_combine (le_split 2 v))) = Ret tt (rest, mkHeader b t s v)).
    by rewrite !Hw.
Qed.

Lemma header_read h hb rest :
  MessageHeader_Encode h [] = Ret tt hb ->
  0 <= BlockLength h < 65536 -> 0 <= TemplateId h < 65536 -> 0 <= SchemaId h < 65536 -> 0 <= Version h < 65536 ->
  SbeGoMessageHeader_Decode (hb ++ rest, zero_header) = Ret tt (rest, h).
Proof.
  intros Henc ????. destruct (header_roundtrip h rest) as (bs & Henc' & _ & Hdec); [done..|].
  rewrite Henc in Henc'. injection Henc' as ->. exact Hdec.
Qed.

(** The numbers of a codec fit the header. *)
Definition header_fits (A : Type) `{Codec A} : Prop :=
  0 <= SbeBlockLength (A := A) < 65536 /\ 0 <= SbeTemplateId (A := A) < 65536 /\
  0 <= SbeSchemaId (A := A) < 65536 /\ 0 <= SbeSchemaVersion (A := A) < 65536.

(** A request that is valid for its types, and in the ranges of its fields when they are
    checked, is marshalled to bytes that the receiver reads back as that very request, and of
    which no shorter part is a request. A request out of range is not marshalled at all. *)
Lemma packet_reads {A} `{CodecLaws A} (request : A) (check : bool) :
  header_fits A -> valid request ->
  match (if check then RangeCheck request (SbeSchemaVersion (A := A)) (SbeSchemaVersion (A := A)) else None) with
  | Some e => packet request check = inr e
  | None =>
      exists bs, packet request check = inl bs /\ unpacket check bs = Some request /\
        forall p q : bytes, bs = p ++ q -> q <> [] -> @unpacket A _ check p = None
  end.
Proof.
  intros (Hb & Ht & Hs & Hv) Hvalid.
  set (h := header_of A).
  destruct (header_roundtrip h [] Hb Ht Hs Hv) as (hb & Henc & Hlen & _).
  destruct (if check then _ else _) as [e|] eqn:Hc.
  { destruct check; [|done]. unfold packet. fold h. erewrite bind_Ret by exact Henc. by rewrite (encode_refused _ e). }
  assert (Hok : check = true -> RangeCheck request (SbeSchemaVersion (A := A)) (SbeSchemaVersion (A := A)) = None) by (by intros ->).
  exists (hb ++ fixed_part request ++ data_part request). split; [|split].
  - unfold packet. fold h. erewrite bind_Ret by exact Henc. by rewrite encode_ok.
  - unfold unpacket. rewrite <- (app_nil_r (data_part request)).
    erewrite (header_read h hb) by done. cbn [h header_of TemplateId SchemaId BlockLength Version].
    rewrite !Z.eqb_refl. cbn [andb].
    pose proof (decode_ok request (SbeSchemaVersion (A := A)) (SbeBlockLength (A := A)) [] check [] Hvalid
      (or_introl (conj eq_refl eq_refl)) Hok) as Hdec. cbn [app] in Hdec. by rewrite Hdec.
  - intros p q E Hq. unfold unpacket. destruct (decide (length p < 8)%nat) as [Hp|Hp].
    { unfold SbeGoMessageHeader_Decode. destruct (ReadFull_short 8 p zero_header Hp) as [e He]. by erewrite bind_Exc by exact He. }
    assert (exists l, p = hb ++ l /\ fixed_part request ++ data_part request = l ++ q) as (l & -> & El).
    { apply app_eq_app in E as (l & [[El ->]|[-> El]]); [|by exists l].
      assert (l = []) as -> by (destruct l; [done|]; apply (f_equal length) in El; rewrite length_app in El; cbn in El; lia).
      rewrite app_nil_r in El. subst p. exists []. by rewrite app_nil_r. }
    erewrite (header_read h hb) by done. cbn [h header_of TemplateId SchemaId BlockLength Version].
    rewrite !Z.eqb_refl. cbn [andb].
    destruct (decode_short request (SbeBlockLength (A := A)) check l q Hvalid El Hq) as (e & s & He). by rewrite He.
Qed.
