(* ===== verification/SbeGroup.v ===== *)
(** * Repeating groups

    The part of a message codec that four messages of the cluster have: a group is the block
    length and the number of its elements, then the elements, each with its own fields and
    variable data. The elements are decoded in place, in a slice of new ones. *)

From S2P Require Import Prelude Sbe.

Local Open Scope m_scope.

Local Abbreviation bytes := (list Init.Byte.byte).

(** What the accessors of a group say. *)
Record group_field : Type := mkGroupField { g_id : Z; g_SinceVersion : Z; g_Deprecated : Z }.

Definition group_InActingVersion (g : group_field) (actingVersion : Z) : bool := g_SinceVersion g <=? actingVersion.

(** ** Elements *)

Class ElementCodec (E : Type) : Type := {
  ElementBlockLength : Z; ElementSchemaVersion : Z;
  element_zero : E;
  element_Encode : E -> M bytes unit;
  element_Decode : Z -> Z -> M (bytes * E) unit;
  element_RangeCheck : E -> Z -> Z -> option string;
  element_valid : E -> Prop;
  element_bytes : E -> bytes }.

Class ElementLaws (E : Type) `{ElementCodec E} : Prop := {
  block_length_u16 : 0 <= ElementBlockLength < 65536;
  element_writes e : writes (element_Encode e) (element_bytes e);
  element_reads v e :
    ElementSchemaVersion <= v -> element_valid e ->
    reads (element_Decode v ElementBlockLength) (element_bytes e) element_zero e;
  element_stops e :
    element_valid e -> stops (element_Decode ElementSchemaVersion ElementBlockLength) (element_bytes e) element_zero }.

(** ** Groups *)

Section Group.
Context {A E : Type} `{ElementCodec E}.

Fixpoint write_elements (es : list E) : M bytes unit :=
  match es with
  | [] => ret tt
  | e :: es => element_Encode e ;;; write_elements es
  end.

(** The number of the elements is cut to 16 bits. *)
Definition WriteGroup (es : list E) : M bytes unit :=
  WriteUint16 ElementBlockLength ;;; WriteUint16 (u16 (zlen es)) ;;; write_elements es.

(** The first error of an element. *)
Definition check_group (es : list E) (actingVersion schemaVersion : Z) : option string :=
  first_error ((fun e => element_RangeCheck e actingVersion schemaVersion) <$> es).

Context (get : A -> list E) (set : list E -> A -> A).

(** The element with the index [i] is the target of [op]. *)
Definition in_element (i : nat) (op : M (bytes * E) unit) : M (bytes * A) unit := fun '(r, a) =>
  match get a !! i with
  | Some e =>
      match op (r, e) with
      | Ret _ (r', e') => Ret tt (r', set (<[i := e']> (get a)) a)
      | Exc x (r', e') => Exc x (r', set (<[i := e']> (get a)) a)
      end
  | None => Exc (EPanic "index out of range") (r, a)
  end.

Fixpoint decode_elements (actingVersion blockLength : Z) (i n : nat) : M (bytes * A) unit :=
  match n with
  | O => ret tt
  | S n => in_element i (element_Decode actingVersion blockLength) ;;; decode_elements actingVersion blockLength (S i) n
  end.

Definition decode_group (g : group_field) (actingVersion : Z) : M (bytes * A) unit :=
  when (group_InActingVersion g actingVersion)
    (let! blockLength := ReadFull 2 in
     let! numInGroup := ReadFull 2 in
     let n := Z.to_nat (le_combine numInGroup) in
     assign (set (replicate n element_zero)) ;;;
     decode_elements actingVersion (le_combine blockLength) 0 n).

(** ** How groups are read back *)

Definition group_bytes (es : list E) : bytes :=
  le_split 2 ElementBlockLength ++ le_split 2 (u16 (zlen es)) ++ concat (element_bytes <$> es).

Definition group_valid (es : list E) : Prop := zlen es < 65536 /\ Forall element_valid es.

Context `{!ElementLaws E}.
Context (get_set : forall es a, get (set es a) = es) (set_set : forall es es' a, set es (set es' a) = set es a).

Lemma writes_group es : writes (WriteGroup es) (group_bytes es).
Proof using ElementLaws0.
  apply writes_seq; [apply writes_write|]. apply writes_seq; [apply writes_write|].
  induction es as [|e es IH]; [intros out; by rewrite app_nil_r|]. apply writes_seq; [apply element_writes|exact IH].
Qed.

Lemma in_element_reads i op bs e e' es a :
  es !! i = Some e -> reads op bs e e' -> reads (in_element i op) bs (set es a) (set (<[i := e']> es) a).
Proof using get_set set_set.
  intros Hi Hop rest. unfold in_element. rewrite get_set, Hi, (Hop rest), set_set. done.
Qed.

Lemma in_element_stops i op bs e es a :
  es !! i = Some e -> stops op bs e -> stops (in_element i op) bs (set es a).
Proof using get_set.
  intros Hi Hop p q Hpq Hq. destruct (Hop p q Hpq Hq) as (x & [r' e'] & Hx).
  unfold in_element. rewrite get_set, Hi, Hx. by eexists _, _.
Qed.

Lemma insert_next (pre : list E) e n :
  <[length pre := e]> (pre ++ replicate (S n) element_zero) = (pre ++ [e]) ++ replicate n element_zero.
Proof using Type. rewrite <- (Nat.add_0_r (length pre)), insert_app_r, <- app_assoc. done. Qed.

Lemma lookup_next (pre : list E) n :
  (pre ++ replicate (S n) element_zero) !! length pre = Some element_zero.
Proof using Type. by rewrite lookup_app_r, Nat.sub_diag by lia. Qed.

Lemma decode_elements_reads v es a pre :
  ElementSchemaVersion <= v -> Forall element_valid es ->
  reads (decode_elements v ElementBlockLength (length pre) (length es)) (concat (element_bytes <$> es))
    (set (pre ++ replicate (length es) element_zero) a) (set (pre ++ es) a).
Proof using ElementLaws0 get_set set_set.
  intros Hv Hes. revert pre. induction Hes as [|e es He Hes IH]; intros pre; [done|].
  cbn [decode_elements fmap list_fmap concat length]. eapply reads_seq.
  - eapply in_element_reads; [apply lookup_next|by apply element_reads].
  - rewrite insert_next. specialize (IH (pre ++ [e])). rewrite length_app, Nat.add_1_r, <- (app_assoc pre [e] es) in IH. exact IH.
Qed.

Lemma decode_elements_stops es a pre :
  Forall element_valid es ->
  stops (decode_elements ElementSchemaVersion ElementBlockLength (length pre) (length es)) (concat (element_bytes <$> es))
    (set (pre ++ replicate (length es) element_zero) a).
Proof using ElementLaws0 get_set set_set.
  intros Hes. revert pre. induction Hes as [|e es He Hes IH]; intros pre; [apply stops_nil|].
  cbn [decode_elements fmap list_fmap concat length]. eapply stops_seq.
  - eapply in_element_reads; [apply lookup_next|by apply element_reads].
  - eapply in_element_stops; [apply lookup_next|by apply element_stops].
  - rewrite insert_next. specialize (IH (pre ++ [e])). rewrite length_app, Nat.add_1_r in IH. exact IH.
Qed.

Lemma reads_u16 (k : bytes -> M (bytes * A) unit) v bs a a' :
  0 <= v < 65536 -> (forall b, le_combine b = v -> reads (k b) bs a a') ->
  reads (let! b := ReadFull 2 in k b) (le_split 2 v ++ bs) a a'.
Proof using Type.
  intros Hv Hk rest. rewrite <- app_assoc. erewrite bind_Ret by (apply ReadFull_ok, length_le_split).
  apply Hk. rewrite le_combine_split. by apply Z.mod_small.
Qed.

Lemma stops_u16 (k : bytes -> M (bytes * A) unit) v bs a :
  0 <= v < 65536 -> (forall b, le_combine b = v -> stops (k b) bs a) ->
  stops (let! b := ReadFull 2 in k b) (le_split 2 v ++ bs) a.
Proof using Type.
  intros Hv Hk p q Hpq Hq. apply app_eq_app in Hpq as (l & [[El ->]|[-> El]]).
  - destruct l as [|x l]; [|by apply (stops_full 2 _ _ p (x :: l) a (length_le_split _ _) El)].
    rewrite app_nil_r in El. subst p. rewrite <- (app_nil_r (le_split 2 _)).
    erewrite bind_Ret by (apply ReadFull_ok, length_le_split).
    eapply Hk; [|by rewrite app_nil_l|done]. rewrite le_combine_split. by apply Z.mod_small.
  - erewrite bind_Ret by (apply ReadFull_ok, length_le_split). eapply Hk; [|exact El|done].
    rewrite le_combine_split. by apply Z.mod_small.
Qed.

Lemma reads_group g v es a :
  g_SinceVersion g <= v -> ElementSchemaVersion <= v -> group_valid es ->
  reads (decode_group g v) (group_bytes es) a (set es a).
Proof using ElementLaws0 get_set set_set.
  intros Hg Hv [Hn Hes]. pose proof (zlen_nonneg es). unfold decode_group, group_InActingVersion, group_bytes.
  rewrite (proj2 (Z.leb_le _ _) Hg). cbn [when]. apply reads_u16; [apply block_length_u16|]. intros b ->.
  rewrite u16_small by lia. apply reads_u16; [lia|]. intros n ->. unfold zlen. rewrite Nat2Z.id.
  intros rest.
  apply (decode_elements_reads v es a []); done.
Qed.

Lemma stops_group g v es a :
  g_SinceVersion g <= v -> v = ElementSchemaVersion -> group_valid es ->
  stops (decode_group g v) (group_bytes es) a.
Proof using ElementLaws0 get_set set_set.
  intros Hg -> [Hn Hes]. pose proof (zlen_nonneg es). unfold decode_group, group_InActingVersion, group_bytes.
  rewrite (proj2 (Z.leb_le _ _) Hg). cbn [when]. apply stops_u16; [apply block_length_u16|]. intros b ->.
  rewrite u16_small by lia. apply stops_u16; [lia|]. intros n ->. unfold zlen. rewrite Nat2Z.id.
  intros p q Hpq Hq. apply (decode_elements_stops es a [] Hes p q Hpq Hq).
Qed.
End Group.

(** ** Proving the laws *)

Lemma skip_none {A} v sv bl (s : bytes * A) : skip_block v sv bl bl s = Ret tt s.
Proof. unfold skip_block. replace (bl >? bl) with false by lia. by rewrite andb_false_r. Qed.

Lemma reads_none {A} v sv bl (a : A) : reads (skip_block v sv bl bl) [] a a.
Proof. intros rest. apply skip_none. Qed.

Ltac codec_write_more ::=
  lazymatch goal with
  | |- writes (WriteGroup _ ;;; _) _ => eapply writes_seq; [apply writes_group|]
  | |- writes (WriteGroup _) _ => apply writes_group
  end.

Ltac codec_read_more ::=
  lazymatch goal with
  | |- reads (decode_group _ _ _ _) _ _ _ => eapply reads_group; [apply _|done|done|cbn; lia|cbn; lia|assumption]
  end.

Ltac codec_stop_more ::=
  lazymatch goal with
  | |- stops (decode_group _ _ _ _) _ _ => eapply stops_group; [apply _|done|done|cbn; lia|done|assumption]
  end.

(** The laws of the element codec [cdc], whose operations are [enc] and [dec]. *)
Ltac element_laws cdc enc dec :=
  constructor;
  [ cbn; lia
  | intros e; cbn [element_Encode element_bytes cdc]; unfold enc; repeat codec_write
  | intros v e Hv Hvalid rest;
    cbn [element_valid element_Decode element_bytes ElementBlockLength ElementSchemaVersion element_zero cdc] in Hv, Hvalid |- *;
    destruct_and?; unfold dec; rewrite <- ?app_assoc;
    repeat (erewrite bind_Ret by (first [apply skip_none|codec_run Hv])); destruct e; first [apply skip_none|codec_run Hv]
  | intros e Hvalid;
    cbn [element_valid element_Decode element_bytes ElementBlockLength ElementSchemaVersion element_zero cdc] in Hvalid |- *;
    destruct_and?; unfold dec;
    repeat lazymatch goal with
    | |- stops (skip_block _ _ _ _ ;;; _) _ _ => apply stops_skip; [apply reads_none|]
    | |- stops (_ ;;; _) (_ ++ _) _ => eapply stops_seq; [codec_read tt|codec_stop|]
    | |- stops (_ ;;; _) _ _ => apply stops_end; codec_stop
    | |- stops _ _ _ => codec_stop
    end ].
