(* ===== verification/ArchiveCodecs.v ===== *)
(** * The messages of the archive

    archive/codecs: one record per message with a field for each of the struct, its range
    check, encoding and decoding as the generated files have them, and the laws of the
    encoding. The files are generated from one schema and have one shape; the decoders are
    those of a new message, whose slices are empty. *)

From S2P Require Import Prelude Sbe.

Local Open Scope m_scope.

Local Abbreviation bytes := (list Init.Byte.byte).

(** ** Enumerations *)

Module BooleanType.
Definition FALSE : Z := 0.
Definition TRUE : Z := 1.
Definition NullValue : Z := -2147483648.
End BooleanType.
Definition BooleanTypeValues : list Z := [BooleanType.FALSE; BooleanType.TRUE; BooleanType.NullValue].

Module ControlResponseCode.
Definition OK : Z := 0.
Definition ERROR : Z := 1.
Definition RECORDING_UNKNOWN : Z := 2.
Definition SUBSCRIPTION_UNKNOWN : Z := 3.
Definition NullValue : Z := -2147483648.
End ControlResponseCode.
Definition ControlResponseCodeValues : list Z := [ControlResponseCode.OK; ControlResponseCode.ERROR;
  ControlResponseCode.RECORDING_UNKNOWN; ControlResponseCode.SUBSCRIPTION_UNKNOWN;
  ControlResponseCode.NullValue].

Module RecordingSignal.
Definition START : Z := 0.
Definition STOP : Z := 1.
Definition EXTEND : Z := 2.
Definition REPLICATE : Z := 3.
Definition MERGE : Z := 4.
Definition SYNC : Z := 5.
Definition DELETE : Z := 6.
Definition REPLICATE_END : Z := 7.
Definition NullValue : Z := -2147483648.
End RecordingSignal.
Definition RecordingSignalValues : list Z := [RecordingSignal.START; RecordingSignal.STOP;
  RecordingSignal.EXTEND; RecordingSignal.REPLICATE; RecordingSignal.MERGE; RecordingSignal.SYNC;
  RecordingSignal.DELETE; RecordingSignal.REPLICATE_END; RecordingSignal.NullValue].

Module RecordingState.
Definition INVALID : Z := 0.
Definition VALID : Z := 1.
Definition NullValue : Z := -2147483648.
End RecordingState.
Definition RecordingStateValues : list Z := [RecordingState.INVALID; RecordingState.VALID;
  RecordingState.NullValue].

Module SourceLocation.
Definition LOCAL : Z := 0.
Definition REMOTE : Z := 1.
Definition NullValue : Z := -2147483648.
End SourceLocation.
Definition SourceLocationValues : list Z := [SourceLocation.LOCAL; SourceLocation.REMOTE;
  SourceLocation.NullValue].

(** ** AttachSegmentsRequest *)

Record AttachSegmentsRequest : Type := mkAttachSegmentsRequest { AttachSegmentsRequest_ControlSessionId : Z;
  AttachSegmentsRequest_CorrelationId : Z; AttachSegmentsRequest_RecordingId : Z }.

Definition AttachSegmentsRequest_ControlSessionId_field : field := mkField 1 0 0 false (-9223372036854775807) 9223372036854775807 (-9223372036854775808).
Definition AttachSegmentsRequest_CorrelationId_field : field := mkField 2 0 0 false (-9223372036854775807) 9223372036854775807 (-9223372036854775808).
Definition AttachSegmentsRequest_RecordingId_field : field := mkField 3 0 0 false (-9223372036854775807) 9223372036854775807 (-9223372036854775808).
Definition AttachSegmentsRequest_set_ControlSessionId (v : Z) (m : AttachSegmentsRequest) :
  AttachSegmentsRequest := mkAttachSegmentsRequest v (AttachSegmentsRequest_CorrelationId m)
  (AttachSegmentsRequest_RecordingId m).
Definition AttachSegmentsRequest_set_CorrelationId (v : Z) (m : AttachSegmentsRequest) : AttachSegmentsRequest
  := mkAttachSegmentsRequest (AttachSegmentsRequest_ControlSessionId m) v (AttachSegmentsRequest_RecordingId m).
Definition AttachSegmentsRequest_set_RecordingId (v : Z) (m : AttachSegmentsRequest) : AttachSegmentsRequest :=
  mkAttachSegmentsRequest (AttachSegmentsRequest_ControlSessionId m) (AttachSegmentsRequest_CorrelationId m) v.

Definition AttachSegmentsRequest_RangeCheck (m : AttachSegmentsRequest) (actingVersion schemaVersion : Z) : option string :=
  first_error
    [ check_required AttachSegmentsRequest_ControlSessionId_field actingVersion (AttachSegmentsRequest_ControlSessionId m)
    ; check_required AttachSegmentsRequest_CorrelationId_field actingVersion (AttachSegmentsRequest_CorrelationId m)
    ; check_required AttachSegmentsRequest_RecordingId_field actingVersion (AttachSegmentsRequest_RecordingId m) ].

Definition AttachSegmentsRequest_Encode (m : AttachSegmentsRequest) (doRangeCheck : bool) : M bytes unit :=
  when doRangeCheck (fail_if (AttachSegmentsRequest_RangeCheck m 6 6)) ;;;
  WriteInt64 (AttachSegmentsRequest_ControlSessionId m) ;;;
  WriteInt64 (AttachSegmentsRequest_CorrelationId m) ;;;
  WriteInt64 (AttachSegmentsRequest_RecordingId m).

Definition AttachSegmentsRequest_Decode (actingVersion blockLength : Z) (doRangeCheck : bool) : M (bytes * AttachSegmentsRequest) unit :=
  decode_field AttachSegmentsRequest_ControlSessionId_field actingVersion ReadInt64 AttachSegmentsRequest_set_ControlSessionId ;;;
  decode_field AttachSegmentsRequest_CorrelationId_field actingVersion ReadInt64 AttachSegmentsRequest_set_CorrelationId ;;;
  decode_field AttachSegmentsRequest_RecordingId_field actingVersion ReadInt64 AttachSegmentsRequest_set_RecordingId ;;;
  skip_block actingVersion 6 blockLength 24 ;;;
  when doRangeCheck (checked (fun m => AttachSegmentsRequest_RangeCheck m actingVersion 6)).

#[export] Instance AttachSegmentsRequest_codec : Codec AttachSegmentsRequest := {|
  SbeBlockLength := 24; SbeTemplateId := 56; SbeSchemaId := 101; SbeSchemaVersion := 6;
  zero := mkAttachSegmentsRequest 0 0 0;
  RangeCheck := AttachSegmentsRequest_RangeCheck; Encode := AttachSegmentsRequest_Encode; Decode := AttachSegmentsRequest_Decode;
  valid m := is_i64 (AttachSegmentsRequest_ControlSessionId m) /\ is_i64 (AttachSegmentsRequest_CorrelationId m) /\ is_i64
    (AttachSegmentsRequest_RecordingId m);
  fixed_part m := le_split 8 (AttachSegmentsRequest_ControlSessionId m) ++ le_split 8 (AttachSegmentsRequest_CorrelationId m) ++
    le_split 8 (AttachSegmentsRequest_RecordingId m);
  data_part m := [] |}.

#[export] Instance AttachSegmentsRequest_laws : CodecLaws AttachSegmentsRequest.
Proof. codec_laws AttachSegmentsRequest_codec AttachSegmentsRequest_Encode AttachSegmentsRequest_Decode. Qed.

(** ** AuthConnectRequest *)

Record AuthConnectRequest : Type := mkAuthConnectRequest { AuthConnectRequest_CorrelationId : Z;
  AuthConnectRequest_ResponseStreamId : Z; AuthConnectRequest_Version : Z; AuthConnectRequest_ResponseChannel :
  bytes; AuthConnectRequest_EncodedCredentials : bytes }.

Definition AuthConnectRequest_CorrelationId_field : field := mkField 1 0 0 false (-9223372036854775807) 9223372036854775807 (-9223372036854775808).
Definition AuthConnectRequest_ResponseStreamId_field : field := mkField 2 0 0 false (-2147483647) 2147483647 (-2147483648).
Definition AuthConnectRequest_Version_field : field := mkField 3 0 0 true 2 16777215 0.
Definition AuthConnectRequest_ResponseChannel_field : data_field := mkDataField 0 0 "US-ASCII" 4.
Definition AuthConnectRequest_EncodedCredentials_field : data_field := mkDataField 0 0 "null" 4.
Definition AuthConnectRequest_set_CorrelationId (v : Z) (m : AuthConnectRequest) : AuthConnectRequest :=
  mkAuthConnectRequest v (AuthConnectRequest_ResponseStreamId m) (AuthConnectRequest_Version m)
  (AuthConnectRequest_ResponseChannel m) (AuthConnectRequest_EncodedCredentials m).
Definition AuthConnectRequest_set_ResponseStreamId (v : Z) (m : AuthConnectRequest) : AuthConnectRequest :=
  mkAuthConnectRequest (AuthConnectRequest_CorrelationId m) v (AuthConnectRequest_Version m)
  (AuthConnectRequest_ResponseChannel m) (AuthConnectRequest_EncodedCredentials m).
Definition AuthConnectRequest_set_Version (v : Z) (m : AuthConnectRequest) : AuthConnectRequest :=
  mkAuthConnectRequest (AuthConnectRequest_CorrelationId m) (AuthConnectRequest_ResponseStreamId m) v
  (AuthConnectRequest_ResponseChannel m) (AuthConnectRequest_EncodedCredentials m).
Definition AuthConnectRequest_set_ResponseChannel (v : bytes) (m : AuthConnectRequest) : AuthConnectRequest :=
  mkAuthConnectRequest (AuthConnectRequest_CorrelationId m) (AuthConnectRequest_ResponseStreamId m)
  (AuthConnectRequest_Version m) v (AuthConnectRequest_EncodedCredentials m).
Definition AuthConnectRequest_set_EncodedCredentials (v : bytes) (m : AuthConnectRequest) : AuthConnectRequest
  := mkAuthConnectRequest (AuthConnectRequest_CorrelationId m) (AuthConnectRequest_ResponseStreamId m)
  (AuthConnectRequest_Version m) (AuthConnectRequest_ResponseChannel m) v.

Definition AuthConnectRequest_RangeCheck (m : AuthConnectRequest) (actingVersion schemaVersion : Z) : option string :=
  first_error
    [ check_required AuthConnectRequest_CorrelationId_field actingVersion (AuthConnectRequest_CorrelationId m)
    ; check_required AuthConnectRequest_ResponseStreamId_field actingVersion (AuthConnectRequest_ResponseStreamId m)
    ; check_optional AuthConnectRequest_Version_field actingVersion (AuthConnectRequest_Version m) ].

Definition AuthConnectRequest_Encode (m : AuthConnectRequest) (doRangeCheck : bool) : M bytes unit :=
  when doRangeCheck (fail_if (AuthConnectRequest_RangeCheck m 6 6)) ;;;
  WriteInt64 (AuthConnectRequest_CorrelationId m) ;;;
  WriteInt32 (AuthConnectRequest_ResponseStreamId m) ;;;
  WriteInt32 (AuthConnectRequest_Version m) ;;;
  WriteUint32 (u32 (zlen (AuthConnectRequest_ResponseChannel m))) ;;;
  WriteBytes (AuthConnectRequest_ResponseChannel m) ;;;
  WriteUint32 (u32 (zlen (AuthConnectRequest_EncodedCredentials m))) ;;;
  WriteBytes (AuthConnectRequest_EncodedCredentials m).

Definition AuthConnectRequest_Decode (actingVersion blockLength : Z) (doRangeCheck : bool) : M (bytes * AuthConnectRequest) unit :=
  decode_field AuthConnectRequest_CorrelationId_field actingVersion ReadInt64 AuthConnectRequest_set_CorrelationId ;;;
  decode_field AuthConnectRequest_ResponseStreamId_field actingVersion ReadInt32 AuthConnectRequest_set_ResponseStreamId ;;;
  decode_field AuthConnectRequest_Version_field actingVersion ReadInt32 AuthConnectRequest_set_Version ;;;
  skip_block actingVersion 6 blockLength 16 ;;;
  decode_data AuthConnectRequest_ResponseChannel_field actingVersion AuthConnectRequest_set_ResponseChannel ;;;
  decode_data AuthConnectRequest_EncodedCredentials_field actingVersion AuthConnectRequest_set_EncodedCredentials ;;;
  when doRangeCheck (checked (fun m => AuthConnectRequest_RangeCheck m actingVersion 6)).

#[export] Instance AuthConnectRequest_codec : Codec AuthConnectRequest := {|
  SbeBlockLength := 16; SbeTemplateId := 58; SbeSchemaId := 101; SbeSchemaVersion := 6;
  zero := mkAuthConnectRequest 0 0 0 [] [];
  RangeCheck := AuthConnectRequest_RangeCheck; Encode := AuthConnectRequest_Encode; Decode := AuthConnectRequest_Decode;
  valid m := is_i64 (AuthConnectRequest_CorrelationId m) /\ is_i32 (AuthConnectRequest_ResponseStreamId m) /\ is_i32
    (AuthConnectRequest_Version m) /\ zlen (AuthConnectRequest_ResponseChannel m) < 4294967296 /\ zlen
    (AuthConnectRequest_EncodedCredentials m) < 4294967296;
  fixed_part m := le_split 8 (AuthConnectRequest_CorrelationId m) ++ le_split 4 (AuthConnectRequest_ResponseStreamId m) ++
    le_split 4 (AuthConnectRequest_Version m);
  data_part m := data_bytes (AuthConnectRequest_ResponseChannel m) ++ data_bytes (AuthConnectRequest_EncodedCredentials m) |}.

#[export] Instance AuthConnectRequest_laws : CodecLaws AuthConnectRequest.
Proof. codec_laws AuthConnectRequest_codec AuthConnectRequest_Encode AuthConnectRequest_Decode. Qed.

(** ** BoundedReplayRequest *)

Record BoundedReplayRequest : Type := mkBoundedReplayRequest { BoundedReplayRequest_ControlSessionId : Z;
  BoundedReplayRequest_CorrelationId : Z; BoundedReplayRequest_RecordingId : Z; BoundedReplayRequest_Position :
  Z; BoundedReplayRequest_Length : Z; BoundedReplayRequest_LimitCounterId : Z;
  BoundedReplayRequest_ReplayStreamId : Z; BoundedReplayRequest_ReplayChannel : bytes }.

Definition BoundedReplayRequest_ControlSessionId_field : field := mkField 1 0 0 false (-9223372036854775807) 9223372036854775807 (-9223372036854775808).
Definition BoundedReplayRequest_CorrelationId_field : field := mkField 2 0 0 false (-9223372036854775807) 9223372036854775807 (-9223372036854775808).
Definition BoundedReplayRequest_RecordingId_field : field := mkField 3 0 0 false (-9223372036854775807) 9223372036854775807 (-9223372036854775808).
Definition BoundedReplayRequest_Position_field : field := mkField 4 0 0 false (-9223372036854775807) 9223372036854775807 (-9223372036854775808).
Definition BoundedReplayRequest_Length_field : field := mkField 5 0 0 false (-9223372036854775807) 9223372036854775807 (-9223372036854775808).
Definition BoundedReplayRequest_LimitCounterId_field : field := mkField 6 0 0 false (-2147483647) 2147483647 (-2147483648).
Definition BoundedReplayRequest_ReplayStreamId_field : field := mkField 7 0 0 false (-2147483647) 2147483647 (-2147483648).
Definition BoundedReplayRequest_ReplayChannel_field : data_field := mkDataField 0 0 "US-ASCII" 4.
Definition BoundedReplayRequest_set_ControlSessionId (v : Z) (m : BoundedReplayRequest) : BoundedReplayRequest
  := mkBoundedReplayRequest v (BoundedReplayRequest_CorrelationId m) (BoundedReplayRequest_RecordingId m)
  (BoundedReplayRequest_Position m) (BoundedReplayRequest_Length m) (BoundedReplayRequest_LimitCounterId m)
  (BoundedReplayRequest_ReplayStreamId m) (BoundedReplayRequest_ReplayChannel m).
Definition BoundedReplayRequest_set_CorrelationId (v : Z) (m : BoundedReplayRequest) : BoundedReplayRequest :=
  mkBoundedReplayRequest (BoundedReplayRequest_ControlSessionId m) v (BoundedReplayRequest_RecordingId m)
  (BoundedReplayRequest_Position m) (BoundedReplayRequest_Length m) (BoundedReplayRequest_LimitCounterId m)
  (BoundedReplayRequest_ReplayStreamId m) (BoundedReplayRequest_ReplayChannel m).
Definition BoundedReplayRequest_set_RecordingId (v : Z) (m : BoundedReplayRequest) : BoundedReplayRequest :=
  mkBoundedReplayRequest (BoundedReplayRequest_ControlSessionId m) (BoundedReplayRequest_CorrelationId m) v
  (BoundedReplayRequest_Position m) (BoundedReplayRequest_Length m) (BoundedReplayRequest_LimitCounterId m)
  (BoundedReplayRequest_ReplayStreamId m) (BoundedReplayRequest_ReplayChannel m).
Definition BoundedReplayRequest_set_Position (v : Z) (m : BoundedReplayRequest) : BoundedReplayRequest :=
  mkBoundedReplayRequest (BoundedReplayRequest_ControlSessionId m) (BoundedReplayRequest_CorrelationId m)
  (BoundedReplayRequest_RecordingId m) v (BoundedReplayRequest_Length m) (BoundedReplayRequest_LimitCounterId m)
  (BoundedReplayRequest_ReplayStreamId m) (BoundedReplayRequest_ReplayChannel m).
Definition BoundedReplayRequest_set_Length (v : Z) (m : BoundedReplayRequest) : BoundedReplayRequest :=
  mkBoundedReplayRequest (BoundedReplayRequest_ControlSessionId m) (BoundedReplayRequest_CorrelationId m)
  (BoundedReplayRequest_RecordingId m) (BoundedReplayRequest_Position m) v (BoundedReplayRequest_LimitCounterId
  m) (BoundedReplayRequest_ReplayStreamId m) (BoundedReplayRequest_ReplayChannel m).
Definition BoundedReplayRequest_set_LimitCounterId (v : Z) (m : BoundedReplayRequest) : BoundedReplayRequest :=
  mkBoundedReplayRequest (BoundedReplayRequest_ControlSessionId m) (BoundedReplayRequest_CorrelationId m)
  (BoundedReplayRequest_RecordingId m) (BoundedReplayRequest_Position m) (BoundedReplayRequest_Length m) v
  (BoundedReplayRequest_ReplayStreamId m) (BoundedReplayRequest_ReplayChannel m).
Definition BoundedReplayRequest_set_ReplayStreamId (v : Z) (m : BoundedReplayRequest) : BoundedReplayRequest :=
  mkBoundedReplayRequest (BoundedReplayRequest_ControlSessionId m) (BoundedReplayRequest_CorrelationId m)
  (BoundedReplayRequest_RecordingId m) (BoundedReplayRequest_Position m) (BoundedReplayRequest_Length m)
  (BoundedReplayRequest_LimitCounterId m) v (BoundedReplayRequest_ReplayChannel m).
Definition BoundedReplayRequest_set_ReplayChannel (v : bytes) (m : BoundedReplayRequest) : BoundedReplayRequest
  := mkBoundedReplayRequest (BoundedReplayRequest_ControlSessionId m) (BoundedReplayRequest_CorrelationId m)
  (BoundedReplayRequest_RecordingId m) (BoundedReplayRequest_Position m) (BoundedReplayRequest_Length m)
  (BoundedReplayRequest_LimitCounterId m) (BoundedReplayRequest_ReplayStreamId m) v.

Definition BoundedReplayRequest_RangeCheck (m : BoundedReplayRequest) (actingVersion schemaVersion : Z) : option string :=
  first_error
    [ check_required BoundedReplayRequest_ControlSessionId_field actingVersion (BoundedReplayRequest_ControlSessionId m)
    ; check_required BoundedReplayRequest_CorrelationId_field actingVersion (BoundedReplayRequest_CorrelationId m)
    ; check_required BoundedReplayRequest_RecordingId_field actingVersion (BoundedReplayRequest_RecordingId m)
    ; check_required BoundedReplayRequest_Position_field actingVersion (BoundedReplayRequest_Position m)
    ; check_required BoundedReplayRequest_Length_field actingVersion (BoundedReplayRequest_Length m)
    ; check_required BoundedReplayRequest_LimitCounterId_field actingVersion (BoundedReplayRequest_LimitCounterId m)
    ; check_required BoundedReplayRequest_ReplayStreamId_field actingVersion (BoundedReplayRequest_ReplayStreamId m) ].

Definition BoundedReplayRequest_Encode (m : BoundedReplayRequest) (doRangeCheck : bool) : M bytes unit :=
  when doRangeCheck (fail_if (BoundedReplayRequest_RangeCheck m 6 6)) ;;;
  WriteInt64 (BoundedReplayRequest_ControlSessionId m) ;;;
  WriteInt64 (BoundedReplayRequest_CorrelationId m) ;;;
  WriteInt64 (BoundedReplayRequest_RecordingId m) ;;;
  WriteInt64 (BoundedReplayRequest_Position m) ;;;
  WriteInt64 (BoundedReplayRequest_Length m) ;;;
  WriteInt32 (BoundedReplayRequest_LimitCounterId m) ;;;
  WriteInt32 (BoundedReplayRequest_ReplayStreamId m) ;;;
  WriteUint32 (u32 (zlen (BoundedReplayRequest_ReplayChannel m))) ;;;
  WriteBytes (BoundedReplayRequest_ReplayChannel m).

Definition BoundedReplayRequest_Decode (actingVersion blockLength : Z) (doRangeCheck : bool) : M (bytes * BoundedReplayRequest) unit :=
  decode_field BoundedReplayRequest_ControlSessionId_field actingVersion ReadInt64 BoundedReplayRequest_set_ControlSessionId ;;;
  decode_field BoundedReplayRequest_CorrelationId_field actingVersion ReadInt64 BoundedReplayRequest_set_CorrelationId ;;;
  decode_field BoundedReplayRequest_RecordingId_field actingVersion ReadInt64 BoundedReplayRequest_set_RecordingId ;;;
  decode_field BoundedReplayRequest_Position_field actingVersion ReadInt64 BoundedReplayRequest_set_Position ;;;
  decode_field BoundedReplayRequest_Length_field actingVersion ReadInt64 BoundedReplayRequest_set_Length ;;;
  decode_field BoundedReplayRequest_LimitCounterId_field actingVersion ReadInt32 BoundedReplayRequest_set_LimitCounterId ;;;
  decode_field BoundedReplayRequest_ReplayStreamId_field actingVersion ReadInt32 BoundedReplayRequest_set_ReplayStreamId ;;;
  skip_block actingVersion 6 blockLength 48 ;;;
  decode_data BoundedReplayRequest_ReplayChannel_field actingVersion BoundedReplayRequest_set_ReplayChannel ;;;
  when doRangeCheck (checked (fun m => BoundedReplayRequest_RangeCheck m actingVersion 6)).

#[export] Instance BoundedReplayRequest_codec : Codec BoundedReplayRequest := {|
  SbeBlockLength := 48; SbeTemplateId := 18; SbeSchemaId := 101; SbeSchemaVersion := 6;
  zero := mkBoundedReplayRequest 0 0 0 0 0 0 0 [];
  RangeCheck := BoundedReplayRequest_RangeCheck; Encode := BoundedReplayRequest_Encode; Decode := BoundedReplayRequest_Decode;
  valid m := is_i64 (BoundedReplayRequest_ControlSessionId m) /\ is_i64 (BoundedReplayRequest_CorrelationId m) /\ is_i64
    (BoundedReplayRequest_RecordingId m) /\ is_i64 (BoundedReplayRequest_Position m) /\ is_i64
    (BoundedReplayRequest_Length m) /\ is_i32 (BoundedReplayRequest_LimitCounterId m) /\ is_i32
    (BoundedReplayRequest_ReplayStreamId m) /\ zlen (BoundedReplayRequest_ReplayChannel m) < 4294967296;
  fixed_part m := le_split 8 (BoundedReplayRequest_ControlSessionId m) ++ le_split 8 (BoundedReplayRequest_CorrelationId m) ++
    le_split 8 (BoundedReplayRequest_RecordingId m) ++ le_split 8 (BoundedReplayRequest_Position m) ++ le_split
    8 (BoundedReplayRequest_Length m) ++ le_split 4 (BoundedReplayRequest_LimitCounterId m) ++ le_split 4
    (BoundedReplayRequest_ReplayStreamId m);
  data_part m := data_bytes (BoundedReplayRequest_ReplayChannel m) |}.

#[export] Instance BoundedReplayRequest_laws : CodecLaws BoundedReplayRequest.
Proof. codec_laws BoundedReplayRequest_codec BoundedReplayRequest_Encode BoundedReplayRequest_Decode. Qed.

(** ** CatalogHeader *)

Record CatalogHeader : Type := mkCatalogHeader { CatalogHeader_Version : Z; CatalogHeader_Length : Z;
  CatalogHeader_NextRecordingId : Z; CatalogHeader_Alignment : Z; CatalogHeader_Reserved : Z }.

Definition CatalogHeader_Version_field : field := mkField 1 0 0 false (-2147483647) 2147483647 (-2147483648).
Definition CatalogHeader_Length_field : field := mkField 2 0 0 false (-2147483647) 2147483647 (-2147483648).
Definition CatalogHeader_NextRecordingId_field : field := mkField 3 0 0 false (-9223372036854775807) 9223372036854775807 (-9223372036854775808).
Definition CatalogHeader_Alignment_field : field := mkField 4 0 0 false (-2147483647) 2147483647 (-2147483648).
Definition CatalogHeader_Reserved_field : field := mkField 5 0 0 false (-127) 127 (-128).
Definition CatalogHeader_set_Version (v : Z) (m : CatalogHeader) : CatalogHeader := mkCatalogHeader v
  (CatalogHeader_Length m) (CatalogHeader_NextRecordingId m) (CatalogHeader_Alignment m) (CatalogHeader_Reserved
  m).
Definition CatalogHeader_set_Length (v : Z) (m : CatalogHeader) : CatalogHeader := mkCatalogHeader
  (CatalogHeader_Version m) v (CatalogHeader_NextRecordingId m) (CatalogHeader_Alignment m)
  (CatalogHeader_Reserved m).
Definition CatalogHeader_set_NextRecordingId (v : Z) (m : CatalogHeader) : CatalogHeader := mkCatalogHeader
  (CatalogHeader_Version m) (CatalogHeader_Length m) v (CatalogHeader_Alignment m) (CatalogHeader_Reserved m).
Definition CatalogHeader_set_Alignment (v : Z) (m : CatalogHeader) : CatalogHeader := mkCatalogHeader
  (CatalogHeader_Version m) (CatalogHeader_Length m) (CatalogHeader_NextRecordingId m) v (CatalogHeader_Reserved
  m).
Definition CatalogHeader_set_Reserved (v : Z) (m : CatalogHeader) : CatalogHeader := mkCatalogHeader
  (CatalogHeader_Version m) (CatalogHeader_Length m) (CatalogHeader_NextRecordingId m) (CatalogHeader_Alignment
  m) v.

Definition CatalogHeader_RangeCheck (m : CatalogHeader) (actingVersion schemaVersion : Z) : option string :=
  first_error
    [ check_required CatalogHeader_Version_field actingVersion (CatalogHeader_Version m)
    ; check_required CatalogHeader_Length_field actingVersion (CatalogHeader_Length m)
    ; check_required CatalogHeader_NextRecordingId_field actingVersion (CatalogHeader_NextRecordingId m)
    ; check_required CatalogHeader_Alignment_field actingVersion (CatalogHeader_Alignment m)
    ; check_required CatalogHeader_Reserved_field actingVersion (CatalogHeader_Reserved m) ].

Definition CatalogHeader_Encode (m : CatalogHeader) (doRangeCheck : bool) : M bytes unit :=
  when doRangeCheck (fail_if (CatalogHeader_RangeCheck m 6 6)) ;;;
  WriteInt32 (CatalogHeader_Version m) ;;;
  WriteInt32 (CatalogHeader_Length m) ;;;
  WriteInt64 (CatalogHeader_NextRecordingId m) ;;;
  WriteInt32 (CatalogHeader_Alignment m) ;;;
  WriteZeros 11 ;;;
  WriteInt8 (CatalogHeader_Reserved m).

Definition CatalogHeader_Decode (actingVersion blockLength : Z) (doRangeCheck : bool) : M (bytes * CatalogHeader) unit :=
  decode_field CatalogHeader_Version_field actingVersion ReadInt32 CatalogHeader_set_Version ;;;
  decode_field CatalogHeader_Length_field actingVersion ReadInt32 CatalogHeader_set_Length ;;;
  decode_field CatalogHeader_NextRecordingId_field actingVersion ReadInt64 CatalogHeader_set_NextRecordingId ;;;
  decode_field CatalogHeader_Alignment_field actingVersion ReadInt32 CatalogHeader_set_Alignment ;;;
  Discard 11 ;;;
  decode_field CatalogHeader_Reserved_field actingVersion ReadInt8 CatalogHeader_set_Reserved ;;;
  skip_block actingVersion 6 blockLength 32 ;;;
  when doRangeCheck (checked (fun m => CatalogHeader_RangeCheck m actingVersion 6)).

#[export] Instance CatalogHeader_codec : Codec CatalogHeader := {|
  SbeBlockLength := 32; SbeTemplateId := 20; SbeSchemaId := 101; SbeSchemaVersion := 6;
  zero := mkCatalogHeader 0 0 0 0 0;
  RangeCheck := CatalogHeader_RangeCheck; Encode := CatalogHeader_Encode; Decode := CatalogHeader_Decode;
  valid m := is_i32 (CatalogHeader_Version m) /\ is_i32 (CatalogHeader_Length m) /\ is_i64 (CatalogHeader_NextRecordingId m)
    /\ is_i32 (CatalogHeader_Alignment m) /\ is_i8 (CatalogHeader_Reserved m);
  fixed_part m := le_split 4 (CatalogHeader_Version m) ++ le_split 4 (CatalogHeader_Length m) ++ le_split 8
    (CatalogHeader_NextRecordingId m) ++ le_split 4 (CatalogHeader_Alignment m) ++ replicate 11 Byte.x00 ++
    le_split 1 (CatalogHeader_Reserved m);
  data_part m := [] |}.

#[export] Instance CatalogHeader_laws : CodecLaws CatalogHeader.
Proof. codec_laws CatalogHeader_codec CatalogHeader_Encode CatalogHeader_Decode. Qed.

(** ** Challenge *)

Record Challenge : Type := mkChallenge { Challenge_ControlSessionId : Z; Challenge_CorrelationId : Z;
  Challenge_Version : Z; Challenge_EncodedChallenge : bytes }.

Definition Challenge_ControlSessionId_field : field := mkField 1 0 0 false (-9223372036854775807) 9223372036854775807 (-9223372036854775808).
Definition Challenge_CorrelationId_field : field := mkField 2 0 0 false (-9223372036854775807) 9223372036854775807 (-9223372036854775808).
Definition Challenge_Version_field : field := mkField 3 0 0 true 2 16777215 0.
Definition Challenge_EncodedChallenge_field : data_field := mkDataField 0 0 "null" 4.
Definition Challenge_set_ControlSessionId (v : Z) (m : Challenge) : Challenge := mkChallenge v
  (Challenge_CorrelationId m) (Challenge_Version m) (Challenge_EncodedChallenge m).
Definition Challenge_set_CorrelationId (v : Z) (m : Challenge) : Challenge := mkChallenge
  (Challenge_ControlSessionId m) v (Challenge_Version m) (Challenge_EncodedChallenge m).
Definition Challenge_set_Version (v : Z) (m : Challenge) : Challenge := mkChallenge (Challenge_ControlSessionId
  m) (Challenge_CorrelationId m) v (Challenge_EncodedChallenge m).
Definition Challenge_set_EncodedChallenge (v : bytes) (m : Challenge) : Challenge := mkChallenge
  (Challenge_ControlSessionId m) (Challenge_CorrelationId m) (Challenge_Version m) v.

Definition Challenge_RangeCheck (m : Challenge) (actingVersion schemaVersion : Z) : option string :=
  first_error
    [ check_required Challenge_ControlSessionId_field actingVersion (Challenge_ControlSessionId m)
    ; check_required Challenge_CorrelationId_field actingVersion (Challenge_CorrelationId m)
    ; check_optional Challenge_Version_field actingVersion (Challenge_Version m) ].

Definition Challenge_Encode (m : Challenge) (doRangeCheck : bool) : M bytes unit :=
  when doRangeCheck (fail_if (Challenge_RangeCheck m 6 6)) ;;;
  WriteInt64 (Challenge_ControlSessionId m) ;;;
  WriteInt64 (Challenge_CorrelationId m) ;;;
  WriteInt32 (Challenge_Version m) ;;;
  WriteUint32 (u32 (zlen (Challenge_EncodedChallenge m))) ;;;
  WriteBytes (Challenge_EncodedChallenge m).

Definition Challenge_Decode (actingVersion blockLength : Z) (doRangeCheck : bool) : M (bytes * Challenge) unit :=
  decode_field Challenge_ControlSessionId_field actingVersion ReadInt64 Challenge_set_ControlSessionId ;;;
  decode_field Challenge_CorrelationId_field actingVersion ReadInt64 Challenge_set_CorrelationId ;;;
  decode_field Challenge_Version_field actingVersion ReadInt32 Challenge_set_Version ;;;
  skip_block actingVersion 6 blockLength 20 ;;;
  decode_data Challenge_EncodedChallenge_field actingVersion Challenge_set_EncodedChallenge ;;;
  when doRangeCheck (checked (fun m => Challenge_RangeCheck m actingVersion 6)).

#[export] Instance Challenge_codec : Codec Challenge := {|
  SbeBlockLength := 20; SbeTemplateId := 59; SbeSchemaId := 101; SbeSchemaVersion := 6;
  zero := mkChallenge 0 0 0 [];
  RangeCheck := Challenge_RangeCheck; Encode := Challenge_Encode; Decode := Challenge_Decode;
  valid m := is_i64 (Challenge_ControlSessionId m) /\ is_i64 (Challenge_CorrelationId m) /\ is_i32 (Challenge_Version m) /\
    zlen (Challenge_EncodedChallenge m) < 4294967296;
  fixed_part m := le_split 8 (Challenge_ControlSessionId m) ++ le_split 8 (Challenge_CorrelationId m) ++ le_split 4
    (Challenge_Version m);
  data_part m := data_bytes (Challenge_EncodedChallenge m) |}.

#[export] Instance Challenge_laws : CodecLaws Challenge.
Proof. codec_laws Challenge_codec Challenge_Encode Challenge_Decode. Qed.

(** ** ChallengeResponse *)

Record ChallengeResponse : Type := mkChallengeResponse { ChallengeResponse_ControlSessionId : Z;
  ChallengeResponse_CorrelationId : Z; ChallengeResponse_EncodedCredentials : bytes }.

Definition ChallengeResponse_ControlSessionId_field : field := mkField 1 0 0 false (-9223372036854775807) 9223372036854775807 (-9223372036854775808).
Definition ChallengeResponse_CorrelationId_field : field := mkField 2 0 0 false (-9223372036854775807) 9223372036854775807 (-9223372036854775808).
Definition ChallengeResponse_EncodedCredentials_field : data_field := mkDataField 0 0 "null" 4.
Definition ChallengeResponse_set_ControlSessionId (v : Z) (m : ChallengeResponse) : ChallengeResponse :=
  mkChallengeResponse v (ChallengeResponse_CorrelationId m) (ChallengeResponse_EncodedCredentials m).
Definition ChallengeResponse_set_CorrelationId (v : Z) (m : ChallengeResponse) : ChallengeResponse :=
  mkChallengeResponse (ChallengeResponse_ControlSessionId m) v (ChallengeResponse_EncodedCredentials m).
Definition ChallengeResponse_set_EncodedCredentials (v : bytes) (m : ChallengeResponse) : ChallengeResponse :=
  mkChallengeResponse (ChallengeResponse_ControlSessionId m) (ChallengeResponse_CorrelationId m) v.

Definition ChallengeResponse_RangeCheck (m : ChallengeResponse) (actingVersion schemaVersion : Z) : option string :=
  first_error
    [ check_required ChallengeResponse_ControlSessionId_field actingVersion (ChallengeResponse_ControlSessionId m)
    ; check_required ChallengeResponse_CorrelationId_field actingVersion (ChallengeResponse_CorrelationId m) ].

Definition ChallengeResponse_Encode (m : ChallengeResponse) (doRangeCheck : bool) : M bytes unit :=
  when doRangeCheck (fail_if (ChallengeResponse_RangeCheck m 6 6)) ;;;
  WriteInt64 (ChallengeResponse_ControlSessionId m) ;;;
  WriteInt64 (ChallengeResponse_CorrelationId m) ;;;
  WriteUint32 (u32 (zlen (ChallengeResponse_EncodedCredentials m))) ;;;
  WriteBytes (ChallengeResponse_EncodedCredentials m).

Definition ChallengeResponse_Decode (actingVersion blockLength : Z) (doRangeCheck : bool) : M (bytes * ChallengeResponse) unit :=
  decode_field ChallengeResponse_ControlSessionId_field actingVersion ReadInt64 ChallengeResponse_set_ControlSessionId ;;;
  decode_field ChallengeResponse_CorrelationId_field actingVersion ReadInt64 ChallengeResponse_set_CorrelationId ;;;
  skip_block actingVersion 6 blockLength 16 ;;;
  decode_data ChallengeResponse_EncodedCredentials_field actingVersion ChallengeResponse_set_EncodedCredentials ;;;
  when doRangeCheck (checked (fun m => ChallengeResponse_RangeCheck m actingVersion 6)).

#[export] Instance ChallengeResponse_codec : Codec ChallengeResponse := {|
  SbeBlockLength := 16; SbeTemplateId := 60; SbeSchemaId := 101; SbeSchemaVersion := 6;
  zero := mkChallengeResponse 0 0 [];
  RangeCheck := ChallengeResponse_RangeCheck; Encode := ChallengeResponse_Encode; Decode := ChallengeResponse_Decode;
  valid m := is_i64 (ChallengeResponse_ControlSessionId m) /\ is_i64 (ChallengeResponse_CorrelationId m) /\ zlen
    (ChallengeResponse_EncodedCredentials m) < 4294967296;
  fixed_part m := le_split 8 (ChallengeResponse_ControlSessionId m) ++ le_split 8 (ChallengeResponse_CorrelationId m);
  data_part m := data_bytes (ChallengeResponse_EncodedCredentials m) |}.

#[export] Instance ChallengeResponse_laws : CodecLaws ChallengeResponse.
Proof. codec_laws ChallengeResponse_codec ChallengeResponse_Encode ChallengeResponse_Decode. Qed.

(** ** CloseSessionRequest *)

Record CloseSessionRequest : Type := mkCloseSessionRequest { CloseSessionRequest_ControlSessionId : Z }.

Definition CloseSessionRequest_ControlSessionId_field : field := mkField 1 0 0 false (-9223372036854775807) 9223372036854775807 (-9223372036854775808).
Definition CloseSessionRequest_set_ControlSessionId (v : Z) (m : CloseSessionRequest) : CloseSessionRequest :=
  mkCloseSessionRequest v.

Definition CloseSessionRequest_RangeCheck (m : CloseSessionRequest) (actingVersion schemaVersion : Z) : option string :=
  first_error
    [ check_required CloseSessionRequest_ControlSessionId_field actingVersion (CloseSessionRequest_ControlSessionId m) ].

Definition CloseSessionRequest_Encode (m : CloseSessionRequest) (doRangeCheck : bool) : M bytes unit :=
  when doRangeCheck (fail_if (CloseSessionRequest_RangeCheck m 6 6)) ;;;
  WriteInt64 (CloseSessionRequest_ControlSessionId m).

Definition CloseSessionRequest_Decode (actingVersion blockLength : Z) (doRangeCheck : bool) : M (bytes * CloseSessionRequest) unit :=
  decode_field CloseSessionRequest_ControlSessionId_field actingVersion ReadInt64 CloseSessionRequest_set_ControlSessionId ;;;
  skip_block actingVersion 6 blockLength 8 ;;;
  when doRangeCheck (checked (fun m => CloseSessionRequest_RangeCheck m actingVersion 6)).

#[export] Instance CloseSessionRequest_codec : Codec CloseSessionRequest := {|
  SbeBlockLength := 8; SbeTemplateId := 3; SbeSchemaId := 101; SbeSchemaVersion := 6;
  zero := mkCloseSessionRequest 0;
  RangeCheck := CloseSessionRequest_RangeCheck; Encode := CloseSessionRequest_Encode; Decode := CloseSessionRequest_Decode;
  valid m := is_i64 (CloseSessionRequest_ControlSessionId m);
  fixed_part m := le_split 8 (CloseSessionRequest_ControlSessionId m);
  data_part m := [] |}.

#[export] Instance CloseSessionRequest_laws : CodecLaws CloseSessionRequest.
Proof. codec_laws CloseSessionRequest_codec CloseSessionRequest_Encode CloseSessionRequest_Decode. Qed.

(** ** ConnectRequest *)

Record ConnectRequest : Type := mkConnectRequest { ConnectRequest_CorrelationId : Z;
  ConnectRequest_ResponseStreamId : Z; ConnectRequest_Version : Z; ConnectRequest_ResponseChannel : bytes }.

Definition ConnectRequest_CorrelationId_field : field := mkField 1 0 0 false (-9223372036854775807) 9223372036854775807 (-9223372036854775808).
Definition ConnectRequest_ResponseStreamId_field : field := mkField 2 0 0 false (-2147483647) 2147483647 (-2147483648).
Definition ConnectRequest_Version_field : field := mkField 3 2 0 true 2 16777215 0.
Definition ConnectRequest_ResponseChannel_field : data_field := mkDataField 0 0 "US-ASCII" 4.
Definition ConnectRequest_set_CorrelationId (v : Z) (m : ConnectRequest) : ConnectRequest := mkConnectRequest v
  (ConnectRequest_ResponseStreamId m) (ConnectRequest_Version m) (ConnectRequest_ResponseChannel m).
Definition ConnectRequest_set_ResponseStreamId (v : Z) (m : ConnectRequest) : ConnectRequest := mkConnectRequest
  (ConnectRequest_CorrelationId m) v (ConnectRequest_Version m) (ConnectRequest_ResponseChannel m).
Definition ConnectRequest_set_Version (v : Z) (m : ConnectRequest) : ConnectRequest := mkConnectRequest
  (ConnectRequest_CorrelationId m) (ConnectRequest_ResponseStreamId m) v (ConnectRequest_ResponseChannel m).
Definition ConnectRequest_set_ResponseChannel (v : bytes) (m : ConnectRequest) : ConnectRequest :=
  mkConnectRequest (ConnectRequest_CorrelationId m) (ConnectRequest_ResponseStreamId m) (ConnectRequest_Version
  m) v.

Definition ConnectRequest_RangeCheck (m : ConnectRequest) (actingVersion schemaVersion : Z) : option string :=
  first_error
    [ check_required ConnectRequest_CorrelationId_field actingVersion (ConnectRequest_CorrelationId m)
    ; check_required ConnectRequest_ResponseStreamId_field actingVersion (ConnectRequest_ResponseStreamId m)
    ; check_optional ConnectRequest_Version_field actingVersion (ConnectRequest_Version m) ].

Definition ConnectRequest_Encode (m : ConnectRequest) (doRangeCheck : bool) : M bytes unit :=
  when doRangeCheck (fail_if (ConnectRequest_RangeCheck m 6 6)) ;;;
  WriteInt64 (ConnectRequest_CorrelationId m) ;;;
  WriteInt32 (ConnectRequest_ResponseStreamId m) ;;;
  WriteInt32 (ConnectRequest_Version m) ;;;
  WriteUint32 (u32 (zlen (ConnectRequest_ResponseChannel m))) ;;;
  WriteBytes (ConnectRequest_ResponseChannel m).

Definition ConnectRequest_Decode (actingVersion blockLength : Z) (doRangeCheck : bool) : M (bytes * ConnectRequest) unit :=
  decode_field ConnectRequest_CorrelationId_field actingVersion ReadInt64 ConnectRequest_set_CorrelationId ;;;
  decode_field ConnectRequest_ResponseStreamId_field actingVersion ReadInt32 ConnectRequest_set_ResponseStreamId ;;;
  decode_field ConnectRequest_Version_field actingVersion ReadInt32 ConnectRequest_set_Version ;;;
  skip_block actingVersion 6 blockLength 16 ;;;
  decode_data ConnectRequest_ResponseChannel_field actingVersion ConnectRequest_set_ResponseChannel ;;;
  when doRangeCheck (checked (fun m => ConnectRequest_RangeCheck m actingVersion 6)).

#[export] Instance ConnectRequest_codec : Codec ConnectRequest := {|
  SbeBlockLength := 16; SbeTemplateId := 2; SbeSchemaId := 101; SbeSchemaVersion := 6;
  zero := mkConnectRequest 0 0 0 [];
  RangeCheck := ConnectRequest_RangeCheck; Encode := ConnectRequest_Encode; Decode := ConnectRequest_Decode;
  valid m := is_i64 (ConnectRequest_CorrelationId m) /\ is_i32 (ConnectRequest_ResponseStreamId m) /\ is_i32
    (ConnectRequest_Version m) /\ zlen (ConnectRequest_ResponseChannel m) < 4294967296;
  fixed_part m := le_split 8 (ConnectRequest_CorrelationId m) ++ le_split 4 (ConnectRequest_ResponseStreamId m) ++ le_split 4
    (ConnectRequest_Version m);
  data_part m := data_bytes (ConnectRequest_ResponseChannel m) |}.

#[export] Instance ConnectRequest_laws : CodecLaws ConnectRequest.
Proof. codec_laws ConnectRequest_codec ConnectRequest_Encode ConnectRequest_Decode. Qed.

(** ** ControlResponse *)

Record ControlResponse : Type := mkControlResponse { ControlResponse_ControlSessionId : Z;
  ControlResponse_CorrelationId : Z; ControlResponse_RelevantId : Z; ControlResponse_Code : Z;
  ControlResponse_Version : Z; ControlResponse_ErrorMessage : bytes }.

Definition ControlResponse_ControlSessionId_field : field := mkField 1 0 0 false (-9223372036854775807) 9223372036854775807 (-9223372036854775808).
Definition ControlResponse_CorrelationId_field : field := mkField 2 0 0 false (-9223372036854775807) 9223372036854775807 (-9223372036854775808).
Definition ControlResponse_RelevantId_field : field := mkField 3 0 0 false (-9223372036854775807) 9223372036854775807 (-9223372036854775808).
Definition ControlResponse_Code_field : field := mkField 4 0 0 false 0 0 0.
Definition ControlResponse_Version_field : field := mkField 5 4 0 true 2 16777215 0.
Definition ControlResponse_ErrorMessage_field : data_field := mkDataField 0 0 "US-ASCII" 4.
Definition ControlResponse_set_ControlSessionId (v : Z) (m : ControlResponse) : ControlResponse :=
  mkControlResponse v (ControlResponse_CorrelationId m) (ControlResponse_RelevantId m) (ControlResponse_Code m)
  (ControlResponse_Version m) (ControlResponse_ErrorMessage m).
Definition ControlResponse_set_CorrelationId (v : Z) (m : ControlResponse) : ControlResponse :=
  mkControlResponse (ControlResponse_ControlSessionId m) v (ControlResponse_RelevantId m) (ControlResponse_Code
  m) (ControlResponse_Version m) (ControlResponse_ErrorMessage m).
Definition ControlResponse_set_RelevantId (v : Z) (m : ControlResponse) : ControlResponse := mkControlResponse
  (ControlResponse_ControlSessionId m) (ControlResponse_CorrelationId m) v (ControlResponse_Code m)
  (ControlResponse_Version m) (ControlResponse_ErrorMessage m).
Definition ControlResponse_set_Code (v : Z) (m : ControlResponse) : ControlResponse := mkControlResponse
  (ControlResponse_ControlSessionId m) (ControlResponse_CorrelationId m) (ControlResponse_RelevantId m) v
  (ControlResponse_Version m) (ControlResponse_ErrorMessage m).
Definition ControlResponse_set_Version (v : Z) (m : ControlResponse) : ControlResponse := mkControlResponse
  (ControlResponse_ControlSessionId m) (ControlResponse_CorrelationId m) (ControlResponse_RelevantId m)
  (ControlResponse_Code m) v (ControlResponse_ErrorMessage m).
Definition ControlResponse_set_ErrorMessage (v : bytes) (m : ControlResponse) : ControlResponse :=
  mkControlResponse (ControlResponse_ControlSessionId m) (ControlResponse_CorrelationId m)
  (ControlResponse_RelevantId m) (ControlResponse_Code m) (ControlResponse_Version m) v.

Definition ControlResponse_RangeCheck (m : ControlResponse) (actingVersion schemaVersion : Z) : option string :=
  first_error
    [ check_required ControlResponse_ControlSessionId_field actingVersion (ControlResponse_ControlSessionId m)
    ; check_required ControlResponse_CorrelationId_field actingVersion (ControlResponse_CorrelationId m)
    ; check_required ControlResponse_RelevantId_field actingVersion (ControlResponse_RelevantId m)
    ; check_enum ControlResponseCodeValues actingVersion schemaVersion (ControlResponse_Code m)
    ; check_optional ControlResponse_Version_field actingVersion (ControlResponse_Version m) ].

Definition ControlResponse_Encode (m : ControlResponse) (doRangeCheck : bool) : M bytes unit :=
  when doRangeCheck (fail_if (ControlResponse_RangeCheck m 6 6)) ;;;
  WriteInt64 (ControlResponse_ControlSessionId m) ;;;
  WriteInt64 (ControlResponse_CorrelationId m) ;;;
  WriteInt64 (ControlResponse_RelevantId m) ;;;
  WriteInt32 (ControlResponse_Code m) ;;;
  WriteInt32 (ControlResponse_Version m) ;;;
  WriteUint32 (u32 (zlen (ControlResponse_ErrorMessage m))) ;;;
  WriteBytes (ControlResponse_ErrorMessage m).

Definition ControlResponse_Decode (actingVersion blockLength : Z) (doRangeCheck : bool) : M (bytes * ControlResponse) unit :=
  decode_field ControlResponse_ControlSessionId_field actingVersion ReadInt64 ControlResponse_set_ControlSessionId ;;;
  decode_field ControlResponse_CorrelationId_field actingVersion ReadInt64 ControlResponse_set_CorrelationId ;;;
  decode_field ControlResponse_RelevantId_field actingVersion ReadInt64 ControlResponse_set_RelevantId ;;;
  decode_enum ControlResponse_Code_field actingVersion ReadInt32 ControlResponse_set_Code ;;;
  decode_field ControlResponse_Version_field actingVersion ReadInt32 ControlResponse_set_Version ;;;
  skip_block actingVersion 6 blockLength 32 ;;;
  decode_data ControlResponse_ErrorMessage_field actingVersion ControlResponse_set_ErrorMessage ;;;
  when doRangeCheck (checked (fun m => ControlResponse_RangeCheck m actingVersion 6)).

#[export] Instance ControlResponse_codec : Codec ControlResponse := {|
  SbeBlockLength := 32; SbeTemplateId := 1; SbeSchemaId := 101; SbeSchemaVersion := 6;
  zero := mkControlResponse 0 0 0 0 0 [];
  RangeCheck := ControlResponse_RangeCheck; Encode := ControlResponse_Encode; Decode := ControlResponse_Decode;
  valid m := is_i64 (ControlResponse_ControlSessionId m) /\ is_i64 (ControlResponse_CorrelationId m) /\ is_i64
    (ControlResponse_RelevantId m) /\ is_i32 (ControlResponse_Code m) /\ is_i32 (ControlResponse_Version m) /\
    zlen (ControlResponse_ErrorMessage m) < 4294967296;
  fixed_part m := le_split 8 (ControlResponse_ControlSessionId m) ++ le_split 8 (ControlResponse_CorrelationId m) ++ le_split 8
    (ControlResponse_RelevantId m) ++ le_split 4 (ControlResponse_Code m) ++ le_split 4 (ControlResponse_Version
    m);
  data_part m := data_bytes (ControlResponse_ErrorMessage m) |}.

#[export] Instance ControlResponse_laws : CodecLaws ControlResponse.
Proof. codec_laws ControlResponse_codec ControlResponse_Encode ControlResponse_Decode. Qed.

(** ** DeleteDetachedSegmentsRequest *)

Record DeleteDetachedSegmentsRequest : Type := mkDeleteDetachedSegmentsRequest {
  DeleteDetachedSegmentsRequest_ControlSessionId : Z; DeleteDetachedSegmentsRequest_CorrelationId : Z;
  DeleteDetachedSegmentsRequest_RecordingId : Z }.

Definition DeleteDetachedSegmentsRequest_ControlSessionId_field : field := mkField 1 0 0 false (-9223372036854775807) 9223372036854775807 (-9223372036854775808).
Definition DeleteDetachedSegmentsRequest_CorrelationId_field : field := mkField 2 0 0 false (-9223372036854775807) 9223372036854775807 (-9223372036854775808).
Definition DeleteDetachedSegmentsRequest_RecordingId_field : field := mkField 3 0 0 false (-9223372036854775807) 9223372036854775807 (-9223372036854775808).
Definition DeleteDetachedSegmentsRequest_set_ControlSessionId (v : Z) (m : DeleteDetachedSegmentsRequest) :
  DeleteDetachedSegmentsRequest := mkDeleteDetachedSegmentsRequest v
  (DeleteDetachedSegmentsRequest_CorrelationId m) (DeleteDetachedSegmentsRequest_RecordingId m).
Definition DeleteDetachedSegmentsRequest_set_CorrelationId (v : Z) (m : DeleteDetachedSegmentsRequest) :
  DeleteDetachedSegmentsRequest := mkDeleteDetachedSegmentsRequest
  (DeleteDetachedSegmentsRequest_ControlSessionId m) v (DeleteDetachedSegmentsRequest_RecordingId m).
Definition DeleteDetachedSegmentsRequest_set_RecordingId (v : Z) (m : DeleteDetachedSegmentsRequest) :
  DeleteDetachedSegmentsRequest := mkDeleteDetachedSegmentsRequest
  (DeleteDetachedSegmentsRequest_ControlSessionId m) (DeleteDetachedSegmentsRequest_CorrelationId m) v.

Definition DeleteDetachedSegmentsRequest_RangeCheck (m : DeleteDetachedSegmentsRequest) (actingVersion schemaVersion : Z) : option string :=
  first_error
    [ check_required DeleteDetachedSegmentsRequest_ControlSessionId_field actingVersion (DeleteDetachedSegmentsRequest_ControlSessionId m)
    ; check_required DeleteDetachedSegmentsRequest_CorrelationId_field actingVersion (DeleteDetachedSegmentsRequest_CorrelationId m)
    ; check_required DeleteDetachedSegmentsRequest_RecordingId_field actingVersion (DeleteDetachedSegmentsRequest_RecordingId m) ].

Definition DeleteDetachedSegmentsRequest_Encode (m : DeleteDetachedSegmentsRequest) (doRangeCheck : bool) : M bytes unit :=
  when doRangeCheck (fail_if (DeleteDetachedSegmentsRequest_RangeCheck m 6 6)) ;;;
  WriteInt64 (DeleteDetachedSegmentsRequest_ControlSessionId m) ;;;
  WriteInt64 (DeleteDetachedSegmentsRequest_CorrelationId m) ;;;
  WriteInt64 (DeleteDetachedSegmentsRequest_RecordingId m).

Definition DeleteDetachedSegmentsRequest_Decode (actingVersion blockLength : Z) (doRangeCheck : bool) : M (bytes * DeleteDetachedSegmentsRequest) unit :=
  decode_field DeleteDetachedSegmentsRequest_ControlSessionId_field actingVersion ReadInt64 DeleteDetachedSegmentsRequest_set_ControlSessionId ;;;
  decode_field DeleteDetachedSegmentsRequest_CorrelationId_field actingVersion ReadInt64 DeleteDetachedSegmentsRequest_set_CorrelationId ;;;
  decode_field DeleteDetachedSegmentsRequest_RecordingId_field actingVersion ReadInt64 DeleteDetachedSegmentsRequest_set_RecordingId ;;;
  skip_block actingVersion 6 blockLength 24 ;;;
  when doRangeCheck (checked (fun m => DeleteDetachedSegmentsRequest_RangeCheck m actingVersion 6)).

#[export] Instance DeleteDetachedSegmentsRequest_codec : Codec DeleteDetachedSegmentsRequest := {|
  SbeBlockLength := 24; SbeTemplateId := 54; SbeSchemaId := 101; SbeSchemaVersion := 6;
  zero := mkDeleteDetachedSegmentsRequest 0 0 0;
  RangeCheck := DeleteDetachedSegmentsRequest_RangeCheck; Encode := DeleteDetachedSegmentsRequest_Encode; Decode := DeleteDetachedSegmentsRequest_Decode;
  valid m := is_i64 (DeleteDetachedSegmentsRequest_ControlSessionId m) /\ is_i64 (DeleteDetachedSegmentsRequest_CorrelationId
    m) /\ is_i64 (DeleteDetachedSegmentsRequest_RecordingId m);
  fixed_part m := le_split 8 (DeleteDetachedSegmentsRequest_ControlSessionId m) ++ le_split 8
    (DeleteDetachedSegmentsRequest_CorrelationId m) ++ le_split 8 (DeleteDetachedSegmentsRequest_RecordingId m);
  data_part m := [] |}.

#[export] Instance DeleteDetachedSegmentsRequest_laws : CodecLaws DeleteDetachedSegmentsRequest.
Proof. codec_laws DeleteDetachedSegmentsRequest_codec DeleteDetachedSegmentsRequest_Encode DeleteDetachedSegmentsRequest_Decode. Qed.

(** ** DetachSegmentsRequest *)

Record DetachSegmentsRequest : Type := mkDetachSegmentsRequest { DetachSegmentsRequest_ControlSessionId : Z;
  DetachSegmentsRequest_CorrelationId : Z; DetachSegmentsRequest_RecordingId : Z;
  DetachSegmentsRequest_NewStartPosition : Z }.

Definition DetachSegmentsRequest_ControlSessionId_field : field := mkField 1 0 0 false (-9223372036854775807) 9223372036854775807 (-9223372036854775808).
Definition DetachSegmentsRequest_CorrelationId_field : field := mkField 2 0 0 false (-9223372036854775807) 9223372036854775807 (-9223372036854775808).
Definition DetachSegmentsRequest_RecordingId_field : field := mkField 3 0 0 false (-9223372036854775807) 9223372036854775807 (-9223372036854775808).
Definition DetachSegmentsRequest_NewStartPosition_field : field := mkField 4 0 0 false (-9223372036854775807) 9223372036854775807 (-9223372036854775808).
Definition DetachSegmentsRequest_set_ControlSessionId (v : Z) (m : DetachSegmentsRequest) :
  DetachSegmentsRequest := mkDetachSegmentsRequest v (DetachSegmentsRequest_CorrelationId m)
  (DetachSegmentsRequest_RecordingId m) (DetachSegmentsRequest_NewStartPosition m).
Definition DetachSegmentsRequest_set_CorrelationId (v : Z) (m : DetachSegmentsRequest) : DetachSegmentsRequest
  := mkDetachSegmentsRequest (DetachSegmentsRequest_ControlSessionId m) v (DetachSegmentsRequest_RecordingId m)
  (DetachSegmentsRequest_NewStartPosition m).
Definition DetachSegmentsRequest_set_RecordingId (v : Z) (m : DetachSegmentsRequest) : DetachSegmentsRequest :=
  mkDetachSegmentsRequest (DetachSegmentsRequest_ControlSessionId m) (DetachSegmentsRequest_CorrelationId m) v
  (DetachSegmentsRequest_NewStartPosition m).
Definition DetachSegmentsRequest_set_NewStartPosition (v : Z) (m : DetachSegmentsRequest) :
  DetachSegmentsRequest := mkDetachSegmentsRequest (DetachSegmentsRequest_ControlSessionId m)
  (DetachSegmentsRequest_CorrelationId m) (DetachSegmentsRequest_RecordingId m) v.

Definition DetachSegmentsRequest_RangeCheck (m : DetachSegmentsRequest) (actingVersion schemaVersion : Z) : option string :=
  first_error
    [ check_required DetachSegmentsRequest_ControlSessionId_field actingVersion (DetachSegmentsRequest_ControlSessionId m)
    ; check_required DetachSegmentsRequest_CorrelationId_field actingVersion (DetachSegmentsRequest_CorrelationId m)
    ; check_required DetachSegmentsRequest_RecordingId_field actingVersion (DetachSegmentsRequest_RecordingId m)
    ; check_required DetachSegmentsRequest_NewStartPosition_field actingVersion (DetachSegmentsRequest_NewStartPosition m) ].

Definition DetachSegmentsRequest_Encode (m : DetachSegmentsRequest) (doRangeCheck : bool) : M bytes unit :=
  when doRangeCheck (fail_if (DetachSegmentsRequest_RangeCheck m 6 6)) ;;;
  WriteInt64 (DetachSegmentsRequest_ControlSessionId m) ;;;
  WriteInt64 (DetachSegmentsRequest_CorrelationId m) ;;;
  WriteInt64 (DetachSegmentsRequest_RecordingId m) ;;;
  WriteInt64 (DetachSegmentsRequest_NewStartPosition m).

Definition DetachSegmentsRequest_Decode (actingVersion blockLength : Z) (doRangeCheck : bool) : M (bytes * DetachSegmentsRequest) unit :=
  decode_field DetachSegmentsRequest_ControlSessionId_field actingVersion ReadInt64 DetachSegmentsRequest_set_ControlSessionId ;;;
  decode_field DetachSegmentsRequest_CorrelationId_field actingVersion ReadInt64 DetachSegmentsRequest_set_CorrelationId ;;;
  decode_field DetachSegmentsRequest_RecordingId_field actingVersion ReadInt64 DetachSegmentsRequest_set_RecordingId ;;;
  decode_field DetachSegmentsRequest_NewStartPosition_field actingVersion ReadInt64 DetachSegmentsRequest_set_NewStartPosition ;;;
  skip_block actingVersion 6 blockLength 32 ;;;
  when doRangeCheck (checked (fun m => DetachSegmentsRequest_RangeCheck m actingVersion 6)).

#[export] Instance DetachSegmentsRequest_codec : Codec DetachSegmentsRequest := {|
  SbeBlockLength := 32; SbeTemplateId := 53; SbeSchemaId := 101; SbeSchemaVersion := 6;
  zero := mkDetachSegmentsRequest 0 0 0 0;
  RangeCheck := DetachSegmentsRequest_RangeCheck; Encode := DetachSegmentsRequest_Encode; Decode := DetachSegmentsRequest_Decode;
  valid m := is_i64 (DetachSegmentsRequest_ControlSessionId m) /\ is_i64 (DetachSegmentsRequest_CorrelationId m) /\ is_i64
    (DetachSegmentsRequest_RecordingId m) /\ is_i64 (DetachSegmentsRequest_NewStartPosition m);
  fixed_part m := le_split 8 (DetachSegmentsRequest_ControlSessionId m) ++ le_split 8 (DetachSegmentsRequest_CorrelationId m) ++
    le_split 8 (DetachSegmentsRequest_RecordingId m) ++ le_split 8 (DetachSegmentsRequest_NewStartPosition m);
  data_part m := [] |}.

#[export] Instance DetachSegmentsRequest_laws : CodecLaws DetachSegmentsRequest.
Proof. codec_laws DetachSegmentsRequest_codec DetachSegmentsRequest_Encode DetachSegmentsRequest_Decode. Qed.

(** ** ExtendRecordingRequest *)

Record ExtendRecordingRequest : Type := mkExtendRecordingRequest { ExtendRecordingRequest_ControlSessionId : Z;
  ExtendRecordingRequest_CorrelationId : Z; ExtendRecordingRequest_RecordingId : Z;
  ExtendRecordingRequest_StreamId : Z; ExtendRecordingRequest_SourceLocation : Z; ExtendRecordingRequest_Channel
  : bytes }.

Definition ExtendRecordingRequest_ControlSessionId_field : field := mkField 1 0 0 false (-9223372036854775807) 9223372036854775807 (-9223372036854775808).
Definition ExtendRecordingRequest_CorrelationId_field : field := mkField 2 0 0 false (-9223372036854775807) 9223372036854775807 (-9223372036854775808).
Definition ExtendRecordingRequest_RecordingId_field : field := mkField 3 0 0 false (-9223372036854775807) 9223372036854775807 (-9223372036854775808).
Definition ExtendRecordingRequest_StreamId_field : field := mkField 4 0 0 false (-2147483647) 2147483647 (-2147483648).
Definition ExtendRecordingRequest_SourceLocation_field : field := mkField 5 0 0 false 0 0 0.
Definition ExtendRecordingRequest_Channel_field : data_field := mkDataField 0 0 "US-ASCII" 4.
Definition ExtendRecordingRequest_set_ControlSessionId (v : Z) (m : ExtendRecordingRequest) :
  ExtendRecordingRequest := mkExtendRecordingRequest v (ExtendRecordingRequest_CorrelationId m)
  (ExtendRecordingRequest_RecordingId m) (ExtendRecordingRequest_StreamId m)
  (ExtendRecordingRequest_SourceLocation m) (ExtendRecordingRequest_Channel m).
Definition ExtendRecordingRequest_set_CorrelationId (v : Z) (m : ExtendRecordingRequest) :
  ExtendRecordingRequest := mkExtendRecordingRequest (ExtendRecordingRequest_ControlSessionId m) v
  (ExtendRecordingRequest_RecordingId m) (ExtendRecordingRequest_StreamId m)
  (ExtendRecordingRequest_SourceLocation m) (ExtendRecordingRequest_Channel m).
Definition ExtendRecordingRequest_set_RecordingId (v : Z) (m : ExtendRecordingRequest) : ExtendRecordingRequest
  := mkExtendRecordingRequest (ExtendRecordingRequest_ControlSessionId m) (ExtendRecordingRequest_CorrelationId
  m) v (ExtendRecordingRequest_StreamId m) (ExtendRecordingRequest_SourceLocation m)
  (ExtendRecordingRequest_Channel m).
Definition ExtendRecordingRequest_set_StreamId (v : Z) (m : ExtendRecordingRequest) : ExtendRecordingRequest :=
  mkExtendRecordingRequest (ExtendRecordingRequest_ControlSessionId m) (ExtendRecordingRequest_CorrelationId m)
  (ExtendRecordingRequest_RecordingId m) v (ExtendRecordingRequest_SourceLocation m)
  (ExtendRecordingRequest_Channel m).
Definition ExtendRecordingRequest_set_SourceLocation (v : Z) (m : ExtendRecordingRequest) :
  ExtendRecordingRequest := mkExtendRecordingRequest (ExtendRecordingRequest_ControlSessionId m)
  (ExtendRecordingRequest_CorrelationId m) (ExtendRecordingRequest_RecordingId m)
  (ExtendRecordingRequest_StreamId m) v (ExtendRecordingRequest_Channel m).
Definition ExtendRecordingRequest_set_Channel (v : bytes) (m : ExtendRecordingRequest) : ExtendRecordingRequest
  := mkExtendRecordingRequest (ExtendRecordingRequest_ControlSessionId m) (ExtendRecordingRequest_CorrelationId
  m) (ExtendRecordingRequest_RecordingId m) (ExtendRecordingRequest_StreamId m)
  (ExtendRecordingRequest_SourceLocation m) v.

Definition ExtendRecordingRequest_RangeCheck (m : ExtendRecordingRequest) (actingVersion schemaVersion : Z) : option string :=
  first_error
    [ check_required ExtendRecordingRequest_ControlSessionId_field actingVersion (ExtendRecordingRequest_ControlSessionId m)
    ; check_required ExtendRecordingRequest_CorrelationId_field actingVersion (ExtendRecordingRequest_CorrelationId m)
    ; check_required ExtendRecordingRequest_RecordingId_field actingVersion (ExtendRecordingRequest_RecordingId m)
    ; check_required ExtendRecordingRequest_StreamId_field actingVersion (ExtendRecordingRequest_StreamId m)
    ; check_enum SourceLocationValues actingVersion schemaVersion (ExtendRecordingRequest_SourceLocation m) ].

Definition ExtendRecordingRequest_Encode (m : ExtendRecordingRequest) (doRangeCheck : bool) : M bytes unit :=
  when doRangeCheck (fail_if (ExtendRecordingRequest_RangeCheck m 6 6)) ;;;
  WriteInt64 (ExtendRecordingRequest_ControlSessionId m) ;;;
  WriteInt64 (ExtendRecordingRequest_CorrelationId m) ;;;
  WriteInt64 (ExtendRecordingRequest_RecordingId m) ;;;
  WriteInt32 (ExtendRecordingRequest_StreamId m) ;;;
  WriteInt32 (ExtendRecordingRequest_SourceLocation m) ;;;
  WriteUint32 (u32 (zlen (ExtendRecordingRequest_Channel m))) ;;;
  WriteBytes (ExtendRecordingRequest_Channel m).

Definition ExtendRecordingRequest_Decode (actingVersion blockLength : Z) (doRangeCheck : bool) : M (bytes * ExtendRecordingRequest) unit :=
  decode_field ExtendRecordingRequest_ControlSessionId_field actingVersion ReadInt64 ExtendRecordingRequest_set_ControlSessionId ;;;
  decode_field ExtendRecordingRequest_CorrelationId_field actingVersion ReadInt64 ExtendRecordingRequest_set_CorrelationId ;;;
  decode_field ExtendRecordingRequest_RecordingId_field actingVersion ReadInt64 ExtendRecordingRequest_set_RecordingId ;;;
  decode_field ExtendRecordingRequest_StreamId_field actingVersion ReadInt32 ExtendRecordingRequest_set_StreamId ;;;
  decode_enum ExtendRecordingRequest_SourceLocation_field actingVersion ReadInt32 ExtendRecordingRequest_set_SourceLocation ;;;
  skip_block actingVersion 6 blockLength 32 ;;;
  decode_data ExtendRecordingRequest_Channel_field actingVersion ExtendRecordingRequest_set_Channel ;;;
  when doRangeCheck (checked (fun m => ExtendRecordingRequest_RangeCheck m actingVersion 6)).

#[export] Instance ExtendRecordingRequest_codec : Codec ExtendRecordingRequest := {|
  SbeBlockLength := 32; SbeTemplateId := 11; SbeSchemaId := 101; SbeSchemaVersion := 6;
  zero := mkExtendRecordingRequest 0 0 0 0 0 [];
  RangeCheck := ExtendRecordingRequest_RangeCheck; Encode := ExtendRecordingRequest_Encode; Decode := ExtendRecordingRequest_Decode;
  valid m := is_i64 (ExtendRecordingRequest_ControlSessionId m) /\ is_i64 (ExtendRecordingRequest_CorrelationId m) /\ is_i64
    (ExtendRecordingRequest_RecordingId m) /\ is_i32 (ExtendRecordingRequest_StreamId m) /\ is_i32
    (ExtendRecordingRequest_SourceLocation m) /\ zlen (ExtendRecordingRequest_Channel m) < 4294967296;
  fixed_part m := le_split 8 (ExtendRecordingRequest_ControlSessionId m) ++ le_split 8 (ExtendRecordingRequest_CorrelationId m) ++
    le_split 8 (ExtendRecordingRequest_RecordingId m) ++ le_split 4 (ExtendRecordingRequest_StreamId m) ++
    le_split 4 (ExtendRecordingRequest_SourceLocation m);
  data_part m := data_bytes (ExtendRecordingRequest_Channel m) |}.

#[export] Instance ExtendRecordingRequest_laws : CodecLaws ExtendRecordingRequest.
Proof. codec_laws ExtendRecordingRequest_codec ExtendRecordingRequest_Encode ExtendRecordingRequest_Decode. Qed.

(** ** ExtendRecordingRequest2 *)

Record ExtendRecordingRequest2 : Type := mkExtendRecordingRequest2 { ExtendRecordingRequest2_ControlSessionId :
  Z; ExtendRecordingRequest2_CorrelationId : Z; ExtendRecordingRequest2_RecordingId : Z;
  ExtendRecordingRequest2_StreamId : Z; ExtendRecordingRequest2_SourceLocation : Z;
  ExtendRecordingRequest2_AutoStop : Z; ExtendRecordingRequest2_Channel : bytes }.

Definition ExtendRecordingRequest2_ControlSessionId_field : field := mkField 1 0 0 false (-9223372036854775807) 9223372036854775807 (-9223372036854775808).
Definition ExtendRecordingRequest2_CorrelationId_field : field := mkField 2 0 0 false (-9223372036854775807) 9223372036854775807 (-9223372036854775808).
Definition ExtendRecordingRequest2_RecordingId_field : field := mkField 3 0 0 false (-9223372036854775807) 9223372036854775807 (-9223372036854775808).
Definition ExtendRecordingRequest2_StreamId_field : field := mkField 4 0 0 false (-2147483647) 2147483647 (-2147483648).
Definition ExtendRecordingRequest2_SourceLocation_field : field := mkField 5 0 0 false 0 0 0.
Definition ExtendRecordingRequest2_AutoStop_field : field := mkField 6 0 0 false 0 0 0.
Definition ExtendRecordingRequest2_Channel_field : data_field := mkDataField 0 0 "US-ASCII" 4.
Definition ExtendRecordingRequest2_set_ControlSessionId (v : Z) (m : ExtendRecordingRequest2) :
  ExtendRecordingRequest2 := mkExtendRecordingRequest2 v (ExtendRecordingRequest2_CorrelationId m)
  (ExtendRecordingRequest2_RecordingId m) (ExtendRecordingRequest2_StreamId m)
  (ExtendRecordingRequest2_SourceLocation m) (ExtendRecordingRequest2_AutoStop m)
  (ExtendRecordingRequest2_Channel m).
Definition ExtendRecordingRequest2_set_CorrelationId (v : Z) (m : ExtendRecordingRequest2) :
  ExtendRecordingRequest2 := mkExtendRecordingRequest2 (ExtendRecordingRequest2_ControlSessionId m) v
  (ExtendRecordingRequest2_RecordingId m) (ExtendRecordingRequest2_StreamId m)
  (ExtendRecordingRequest2_SourceLocation m) (ExtendRecordingRequest2_AutoStop m)
  (ExtendRecordingRequest2_Channel m).
Definition ExtendRecordingRequest2_set_RecordingId (v : Z) (m : ExtendRecordingRequest2) :
  ExtendRecordingRequest2 := mkExtendRecordingRequest2 (ExtendRecordingRequest2_ControlSessionId m)
  (ExtendRecordingRequest2_CorrelationId m) v (ExtendRecordingRequest2_StreamId m)
  (ExtendRecordingRequest2_SourceLocation m) (ExtendRecordingRequest2_AutoStop m)
  (ExtendRecordingRequest2_Channel m).
Definition ExtendRecordingRequest2_set_StreamId (v : Z) (m : ExtendRecordingRequest2) : ExtendRecordingRequest2
  := mkExtendRecordingRequest2 (ExtendRecordingRequest2_ControlSessionId m)
  (ExtendRecordingRequest2_CorrelationId m) (ExtendRecordingRequest2_RecordingId m) v
  (ExtendRecordingRequest2_SourceLocation m) (ExtendRecordingRequest2_AutoStop m)
  (ExtendRecordingRequest2_Channel m).
Definition ExtendRecordingRequest2_set_SourceLocation (v : Z) (m : ExtendRecordingRequest2) :
  ExtendRecordingRequest2 := mkExtendRecordingRequest2 (ExtendRecordingRequest2_ControlSessionId m)
  (ExtendRecordingRequest2_CorrelationId m) (ExtendRecordingRequest2_RecordingId m)
  (ExtendRecordingRequest2_StreamId m) v (ExtendRecordingRequest2_AutoStop m) (ExtendRecordingRequest2_Channel
  m).
Definition ExtendRecordingRequest2_set_AutoStop (v : Z) (m : ExtendRecordingRequest2) : ExtendRecordingRequest2
  := mkExtendRecordingRequest2 (ExtendRecordingRequest2_ControlSessionId m)
  (ExtendRecordingRequest2_CorrelationId m) (ExtendRecordingRequest2_RecordingId m)
  (ExtendRecordingRequest2_StreamId m) (ExtendRecordingRequest2_SourceLocation m) v
  (ExtendRecordingRequest2_Channel m).
Definition ExtendRecordingRequest2_set_Channel (v : bytes) (m : ExtendRecordingRequest2) :
  ExtendRecordingRequest2 := mkExtendRecordingRequest2 (ExtendRecordingRequest2_ControlSessionId m)
  (ExtendRecordingRequest2_CorrelationId m) (ExtendRecordingRequest2_RecordingId m)
  (ExtendRecordingRequest2_StreamId m) (ExtendRecordingRequest2_SourceLocation m)
  (ExtendRecordingRequest2_AutoStop m) v.

Definition ExtendRecordingRequest2_RangeCheck (m : ExtendRecordingRequest2) (actingVersion schemaVersion : Z) : option string :=
  first_error
    [ check_required ExtendRecordingRequest2_ControlSessionId_field actingVersion (ExtendRecordingRequest2_ControlSessionId m)
    ; check_required ExtendRecordingRequest2_CorrelationId_field actingVersion (ExtendRecordingRequest2_CorrelationId m)
    ; check_required ExtendRecordingRequest2_RecordingId_field actingVersion (ExtendRecordingRequest2_RecordingId m)
    ; check_required ExtendRecordingRequest2_StreamId_field actingVersion (ExtendRecordingRequest2_StreamId m)
    ; check_enum SourceLocationValues actingVersion schemaVersion (ExtendRecordingRequest2_SourceLocation m)
    ; check_enum BooleanTypeValues actingVersion schemaVersion (ExtendRecordingRequest2_AutoStop m) ].

Definition ExtendRecordingRequest2_Encode (m : ExtendRecordingRequest2) (doRangeCheck : bool) : M bytes unit :=
  when doRangeCheck (fail_if (ExtendRecordingRequest2_RangeCheck m 6 6)) ;;;
  WriteInt64 (ExtendRecordingRequest2_ControlSessionId m) ;;;
  WriteInt64 (ExtendRecordingRequest2_CorrelationId m) ;;;
  WriteInt64 (ExtendRecordingRequest2_RecordingId m) ;;;
  WriteInt32 (ExtendRecordingRequest2_StreamId m) ;;;
  WriteInt32 (ExtendRecordingRequest2_SourceLocation m) ;;;
  WriteInt32 (ExtendRecordingRequest2_AutoStop m) ;;;
  WriteUint32 (u32 (zlen (ExtendRecordingRequest2_Channel m))) ;;;
  WriteBytes (ExtendRecordingRequest2_Channel m).

Definition ExtendRecordingRequest2_Decode (actingVersion blockLength : Z) (doRangeCheck : bool) : M (bytes * ExtendRecordingRequest2) unit :=
  decode_field ExtendRecordingRequest2_ControlSessionId_field actingVersion ReadInt64 ExtendRecordingRequest2_set_ControlSessionId ;;;
  decode_field ExtendRecordingRequest2_CorrelationId_field actingVersion ReadInt64 ExtendRecordingRequest2_set_CorrelationId ;;;
  decode_field ExtendRecordingRequest2_RecordingId_field actingVersion ReadInt64 ExtendRecordingRequest2_set_RecordingId ;;;
  decode_field ExtendRecordingRequest2_StreamId_field actingVersion ReadInt32 ExtendRecordingRequest2_set_StreamId ;;;
  decode_enum ExtendRecordingRequest2_SourceLocation_field actingVersion ReadInt32 ExtendRecordingRequest2_set_SourceLocation ;;;
  decode_enum ExtendRecordingRequest2_AutoStop_field actingVersion ReadInt32 ExtendRecordingRequest2_set_AutoStop ;;;
  skip_block actingVersion 6 blockLength 36 ;;;
  decode_data ExtendRecordingRequest2_Channel_field actingVersion ExtendRecordingRequest2_set_Channel ;;;
  when doRangeCheck (checked (fun m => ExtendRecordingRequest2_RangeCheck m actingVersion 6)).

#[export] Instance ExtendRecordingRequest2_codec : Codec ExtendRecordingRequest2 := {|
  SbeBlockLength := 36; SbeTemplateId := 64; SbeSchemaId := 101; SbeSchemaVersion := 6;
  zero := mkExtendRecordingRequest2 0 0 0 0 0 0 [];
  RangeCheck := ExtendRecordingRequest2_RangeCheck; Encode := ExtendRecordingRequest2_Encode; Decode := ExtendRecordingRequest2_Decode;
  valid m := is_i64 (ExtendRecordingRequest2_ControlSessionId m) /\ is_i64 (ExtendRecordingRequest2_CorrelationId m) /\
    is_i64 (ExtendRecordingRequest2_RecordingId m) /\ is_i32 (ExtendRecordingRequest2_StreamId m) /\ is_i32
    (ExtendRecordingRequest2_SourceLocation m) /\ is_i32 (ExtendRecordingRequest2_AutoStop m) /\ zlen
    (ExtendRecordingRequest2_Channel m) < 4294967296;
  fixed_part m := le_split 8 (ExtendRecordingRequest2_ControlSessionId m) ++ le_split 8 (ExtendRecordingRequest2_CorrelationId m)
    ++ le_split 8 (ExtendRecordingRequest2_RecordingId m) ++ le_split 4 (ExtendRecordingRequest2_StreamId m) ++
    le_split 4 (ExtendRecordingRequest2_SourceLocation m) ++ le_split 4 (ExtendRecordingRequest2_AutoStop m);
  data_part m := data_bytes (ExtendRecordingRequest2_Channel m) |}.

#[export] Instance ExtendRecordingRequest2_laws : CodecLaws ExtendRecordingRequest2.
Proof. codec_laws ExtendRecordingRequest2_codec ExtendRecordingRequest2_Encode ExtendRecordingRequest2_Decode. Qed.

(** ** FindLastMatchingRecordingRequest *)

Record FindLastMatchingRecordingRequest : Type := mkFindLastMatchingRecordingRequest {
  FindLastMatchingRecordingRequest_ControlSessionId : Z; FindLastMatchingRecordingRequest_CorrelationId : Z;
  FindLastMatchingRecordingRequest_MinRecordingId : Z; FindLastMatchingRecordingRequest_SessionId : Z;
  FindLastMatchingRecordingRequest_StreamId : Z; FindLastMatchingRecordingRequest_Channel : bytes }.

Definition FindLastMatchingRecordingRequest_ControlSessionId_field : field := mkField 1 0 0 false (-9223372036854775807) 9223372036854775807 (-9223372036854775808).
Definition FindLastMatchingRecordingRequest_CorrelationId_field : field := mkField 2 0 0 false (-9223372036854775807) 9223372036854775807 (-9223372036854775808).
Definition FindLastMatchingRecordingRequest_MinRecordingId_field : field := mkField 3 0 0 false (-9223372036854775807) 9223372036854775807 (-9223372036854775808).
Definition FindLastMatchingRecordingRequest_SessionId_field : field := mkField 4 0 0 false (-2147483647) 2147483647 (-2147483648).
Definition FindLastMatchingRecordingRequest_StreamId_field : field := mkField 5 0 0 false (-2147483647) 2147483647 (-2147483648).
Definition FindLastMatchingRecordingRequest_Channel_field : data_field := mkDataField 0 0 "US-ASCII" 4.
Definition FindLastMatchingRecordingRequest_set_ControlSessionId (v : Z) (m : FindLastMatchingRecordingRequest)
  : FindLastMatchingRecordingRequest := mkFindLastMatchingRecordingRequest v
  (FindLastMatchingRecordingRequest_CorrelationId m) (FindLastMatchingRecordingRequest_MinRecordingId m)
  (FindLastMatchingRecordingRequest_SessionId m) (FindLastMatchingRecordingRequest_StreamId m)
  (FindLastMatchingRecordingRequest_Channel m).
Definition FindLastMatchingRecordingRequest_set_CorrelationId (v : Z) (m : FindLastMatchingRecordingRequest) :
  FindLastMatchingRecordingRequest := mkFindLastMatchingRecordingRequest
  (FindLastMatchingRecordingRequest_ControlSessionId m) v (FindLastMatchingRecordingRequest_MinRecordingId m)
  (FindLastMatchingRecordingRequest_SessionId m) (FindLastMatchingRecordingRequest_StreamId m)
  (FindLastMatchingRecordingRequest_Channel m).
Definition FindLastMatchingRecordingRequest_set_MinRecordingId (v : Z) (m : FindLastMatchingRecordingRequest) :
  FindLastMatchingRecordingRequest := mkFindLastMatchingRecordingRequest
  (FindLastMatchingRecordingRequest_ControlSessionId m) (FindLastMatchingRecordingRequest_CorrelationId m) v
  (FindLastMatchingRecordingRequest_SessionId m) (FindLastMatchingRecordingRequest_StreamId m)
  (FindLastMatchingRecordingRequest_Channel m).
Definition FindLastMatchingRecordingRequest_set_SessionId (v : Z) (m : FindLastMatchingRecordingRequest) :
  FindLastMatchingRecordingRequest := mkFindLastMatchingRecordingRequest
  (FindLastMatchingRecordingRequest_ControlSessionId m) (FindLastMatchingRecordingRequest_CorrelationId m)
  (FindLastMatchingRecordingRequest_MinRecordingId m) v (FindLastMatchingRecordingRequest_StreamId m)
  (FindLastMatchingRecordingRequest_Channel m).
Definition FindLastMatchingRecordingRequest_set_StreamId (v : Z) (m : FindLastMatchingRecordingRequest) :
  FindLastMatchingRecordingRequest := mkFindLastMatchingRecordingRequest
  (FindLastMatchingRecordingRequest_ControlSessionId m) (FindLastMatchingRecordingRequest_CorrelationId m)
  (FindLastMatchingRecordingRequest_MinRecordingId m) (FindLastMatchingRecordingRequest_SessionId m) v
  (FindLastMatchingRecordingRequest_Channel m).
Definition FindLastMatchingRecordingRequest_set_Channel (v : bytes) (m : FindLastMatchingRecordingRequest) :
  FindLastMatchingRecordingRequest := mkFindLastMatchingRecordingRequest
  (FindLastMatchingRecordingRequest_ControlSessionId m) (FindLastMatchingRecordingRequest_CorrelationId m)
  (FindLastMatchingRecordingRequest_MinRecordingId m) (FindLastMatchingRecordingRequest_SessionId m)
  (FindLastMatchingRecordingRequest_StreamId m) v.

Definition FindLastMatchingRecordingRequest_RangeCheck (m : FindLastMatchingRecordingRequest) (actingVersion schemaVersion : Z) : option string :=
  first_error
    [ check_required FindLastMatchingRecordingRequest_ControlSessionId_field actingVersion (FindLastMatchingRecordingRequest_ControlSessionId m)
    ; check_required FindLastMatchingRecordingRequest_CorrelationId_field actingVersion (FindLastMatchingRecordingRequest_CorrelationId m)
    ; check_required FindLastMatchingRecordingRequest_MinRecordingId_field actingVersion (FindLastMatchingRecordingRequest_MinRecordingId m)
    ; check_required FindLastMatchingRecordingRequest_SessionId_field actingVersion (FindLastMatchingRecordingRequest_SessionId m)
    ; check_required FindLastMatchingRecordingRequest_StreamId_field actingVersion (FindLastMatchingRecordingRequest_StreamId m) ].

Definition FindLastMatchingRecordingRequest_Encode (m : FindLastMatchingRecordingRequest) (doRangeCheck : bool) : M bytes unit :=
  when doRangeCheck (fail_if (FindLastMatchingRecordingRequest_RangeCheck m 6 6)) ;;;
  WriteInt64 (FindLastMatchingRecordingRequest_ControlSessionId m) ;;;
  WriteInt64 (FindLastMatchingRecordingRequest_CorrelationId m) ;;;
  WriteInt64 (FindLastMatchingRecordingRequest_MinRecordingId m) ;;;
  WriteInt32 (FindLastMatchingRecordingRequest_SessionId m) ;;;
  WriteInt32 (FindLastMatchingRecordingRequest_StreamId m) ;;;
  WriteUint32 (u32 (zlen (FindLastMatchingRecordingRequest_Channel m))) ;;;
  WriteBytes (FindLastMatchingRecordingRequest_Channel m).

Definition FindLastMatchingRecordingRequest_Decode (actingVersion blockLength : Z) (doRangeCheck : bool) : M (bytes * FindLastMatchingRecordingRequest) unit :=
  decode_field FindLastMatchingRecordingRequest_ControlSessionId_field actingVersion ReadInt64 FindLastMatchingRecordingRequest_set_ControlSessionId ;;;
  decode_field FindLastMatchingRecordingRequest_CorrelationId_field actingVersion ReadInt64 FindLastMatchingRecordingRequest_set_CorrelationId ;;;
  decode_field FindLastMatchingRecordingRequest_MinRecordingId_field actingVersion ReadInt64 FindLastMatchingRecordingRequest_set_MinRecordingId ;;;
  decode_field FindLastMatchingRecordingRequest_SessionId_field actingVersion ReadInt32 FindLastMatchingRecordingRequest_set_SessionId ;;;
  decode_field FindLastMatchingRecordingRequest_StreamId_field actingVersion ReadInt32 FindLastMatchingRecordingRequest_set_StreamId ;;;
  skip_block actingVersion 6 blockLength 32 ;;;
  decode_data FindLastMatchingRecordingRequest_Channel_field actingVersion FindLastMatchingRecordingRequest_set_Channel ;;;
  when doRangeCheck (checked (fun m => FindLastMatchingRecordingRequest_RangeCheck m actingVersion 6)).

#[export] Instance FindLastMatchingRecordingRequest_codec : Codec FindLastMatchingRecordingRequest := {|
  SbeBlockLength := 32; SbeTemplateId := 16; SbeSchemaId := 101; SbeSchemaVersion := 6;
  zero := mkFindLastMatchingRecordingRequest 0 0 0 0 0 [];
  RangeCheck := FindLastMatchingRecordingRequest_RangeCheck; Encode := FindLastMatchingRecordingRequest_Encode; Decode := FindLastMatchingRecordingRequest_Decode;
  valid m := is_i64 (FindLastMatchingRecordingRequest_ControlSessionId m) /\ is_i64
    (FindLastMatchingRecordingRequest_CorrelationId m) /\ is_i64
    (FindLastMatchingRecordingRequest_MinRecordingId m) /\ is_i32 (FindLastMatchingRecordingRequest_SessionId m)
    /\ is_i32 (FindLastMatchingRecordingRequest_StreamId m) /\ zlen (FindLastMatchingRecordingRequest_Channel m)
    < 4294967296;
  fixed_part m := le_split 8 (FindLastMatchingRecordingRequest_ControlSessionId m) ++ le_split 8
    (FindLastMatchingRecordingRequest_CorrelationId m) ++ le_split 8
    (FindLastMatchingRecordingRequest_MinRecordingId m) ++ le_split 4
    (FindLastMatchingRecordingRequest_SessionId m) ++ le_split 4 (FindLastMatchingRecordingRequest_StreamId m);
  data_part m := data_bytes (FindLastMatchingRecordingRequest_Channel m) |}.

#[export] Instance FindLastMatchingRecordingRequest_laws : CodecLaws FindLastMatchingRecordingRequest.
Proof. codec_laws FindLastMatchingRecordingRequest_codec FindLastMatchingRecordingRequest_Encode FindLastMatchingRecordingRequest_Decode. Qed.

(** ** KeepAliveRequest *)

Record KeepAliveRequest : Type := mkKeepAliveRequest { KeepAliveRequest_ControlSessionId : Z;
  KeepAliveRequest_CorrelationId : Z }.

Definition KeepAliveRequest_ControlSessionId_field : field := mkField 1 0 0 false (-9223372036854775807) 9223372036854775807 (-9223372036854775808).
Definition KeepAliveRequest_CorrelationId_field : field := mkField 2 0 0 false (-9223372036854775807) 9223372036854775807 (-9223372036854775808).
Definition KeepAliveRequest_set_ControlSessionId (v : Z) (m : KeepAliveRequest) : KeepAliveRequest :=
  mkKeepAliveRequest v (KeepAliveRequest_CorrelationId m).
Definition KeepAliveRequest_set_CorrelationId (v : Z) (m : KeepAliveRequest) : KeepAliveRequest :=
  mkKeepAliveRequest (KeepAliveRequest_ControlSessionId m) v.

Definition KeepAliveRequest_RangeCheck (m : KeepAliveRequest) (actingVersion schemaVersion : Z) : option string :=
  first_error
    [ check_required KeepAliveRequest_ControlSessionId_field actingVersion (KeepAliveRequest_ControlSessionId m)
    ; check_required KeepAliveRequest_CorrelationId_field actingVersion (KeepAliveRequest_CorrelationId m) ].

Definition KeepAliveRequest_Encode (m : KeepAliveRequest) (doRangeCheck : bool) : M bytes unit :=
  when doRangeCheck (fail_if (KeepAliveRequest_RangeCheck m 6 6)) ;;;
  WriteInt64 (KeepAliveRequest_ControlSessionId m) ;;;
  WriteInt64 (KeepAliveRequest_CorrelationId m).

Definition KeepAliveRequest_Decode (actingVersion blockLength : Z) (doRangeCheck : bool) : M (bytes * KeepAliveRequest) unit :=
  decode_field KeepAliveRequest_ControlSessionId_field actingVersion ReadInt64 KeepAliveRequest_set_ControlSessionId ;;;
  decode_field KeepAliveRequest_CorrelationId_field actingVersion ReadInt64 KeepAliveRequest_set_CorrelationId ;;;
  skip_block actingVersion 6 blockLength 16 ;;;
  when doRangeCheck (checked (fun m => KeepAliveRequest_RangeCheck m actingVersion 6)).

#[export] Instance KeepAliveRequest_codec : Codec KeepAliveRequest := {|
  SbeBlockLength := 16; SbeTemplateId := 61; SbeSchemaId := 101; SbeSchemaVersion := 6;
  zero := mkKeepAliveRequest 0 0;
  RangeCheck := KeepAliveRequest_RangeCheck; Encode := KeepAliveRequest_Encode; Decode := KeepAliveRequest_Decode;
  valid m := is_i64 (KeepAliveRequest_ControlSessionId m) /\ is_i64 (KeepAliveRequest_CorrelationId m);
  fixed_part m := le_split 8 (KeepAliveRequest_ControlSessionId m) ++ le_split 8 (KeepAliveRequest_CorrelationId m);
  data_part m := [] |}.

#[export] Instance KeepAliveRequest_laws : CodecLaws KeepAliveRequest.
Proof. codec_laws KeepAliveRequest_codec KeepAliveRequest_Encode KeepAliveRequest_Decode. Qed.

(** ** ListRecordingRequest *)

Record ListRecordingRequest : Type := mkListRecordingRequest { ListRecordingRequest_ControlSessionId : Z;
  ListRecordingRequest_CorrelationId : Z; ListRecordingRequest_RecordingId : Z }.

Definition ListRecordingRequest_ControlSessionId_field : field := mkField 1 0 0 false (-9223372036854775807) 9223372036854775807 (-9223372036854775808).
Definition ListRecordingRequest_CorrelationId_field : field := mkField 2 0 0 false (-9223372036854775807) 9223372036854775807 (-9223372036854775808).
Definition ListRecordingRequest_RecordingId_field : field := mkField 3 0 0 false (-9223372036854775807) 9223372036854775807 (-9223372036854775808).
Definition ListRecordingRequest_set_ControlSessionId (v : Z) (m : ListRecordingRequest) : ListRecordingRequest
  := mkListRecordingRequest v (ListRecordingRequest_CorrelationId m) (ListRecordingRequest_RecordingId m).
Definition ListRecordingRequest_set_CorrelationId (v : Z) (m : ListRecordingRequest) : ListRecordingRequest :=
  mkListRecordingRequest (ListRecordingRequest_ControlSessionId m) v (ListRecordingRequest_RecordingId m).
Definition ListRecordingRequest_set_RecordingId (v : Z) (m : ListRecordingRequest) : ListRecordingRequest :=
  mkListRecordingRequest (ListRecordingRequest_ControlSessionId m) (ListRecordingRequest_CorrelationId m) v.

Definition ListRecordingRequest_RangeCheck (m : ListRecordingRequest) (actingVersion schemaVersion : Z) : option string :=
  first_error
    [ check_required ListRecordingRequest_ControlSessionId_field actingVersion (ListRecordingRequest_ControlSessionId m)
    ; check_required ListRecordingRequest_CorrelationId_field actingVersion (ListRecordingRequest_CorrelationId m)
    ; check_required ListRecordingRequest_RecordingId_field actingVersion (ListRecordingRequest_RecordingId m) ].

Definition ListRecordingRequest_Encode (m : ListRecordingRequest) (doRangeCheck : bool) : M bytes unit :=
  when doRangeCheck (fail_if (ListRecordingRequest_RangeCheck m 6 6)) ;;;
  WriteInt64 (ListRecordingRequest_ControlSessionId m) ;;;
  WriteInt64 (ListRecordingRequest_CorrelationId m) ;;;
  WriteInt64 (ListRecordingRequest_RecordingId m).

Definition ListRecordingRequest_Decode (actingVersion blockLength : Z) (doRangeCheck : bool) : M (bytes * ListRecordingRequest) unit :=
  decode_field ListRecordingRequest_ControlSessionId_field actingVersion ReadInt64 ListRecordingRequest_set_ControlSessionId ;;;
  decode_field ListRecordingRequest_CorrelationId_field actingVersion ReadInt64 ListRecordingRequest_set_CorrelationId ;;;
  decode_field ListRecordingRequest_RecordingId_field actingVersion ReadInt64 ListRecordingRequest_set_RecordingId ;;;
  skip_block actingVersion 6 blockLength 24 ;;;
  when doRangeCheck (checked (fun m => ListRecordingRequest_RangeCheck m actingVersion 6)).

#[export] Instance ListRecordingRequest_codec : Codec ListRecordingRequest := {|
  SbeBlockLength := 24; SbeTemplateId := 10; SbeSchemaId := 101; SbeSchemaVersion := 6;
  zero := mkListRecordingRequest 0 0 0;
  RangeCheck := ListRecordingRequest_RangeCheck; Encode := ListRecordingRequest_Encode; Decode := ListRecordingRequest_Decode;
  valid m := is_i64 (ListRecordingRequest_ControlSessionId m) /\ is_i64 (ListRecordingRequest_CorrelationId m) /\ is_i64
    (ListRecordingRequest_RecordingId m);
  fixed_part m := le_split 8 (ListRecordingRequest_ControlSessionId m) ++ le_split 8 (ListRecordingRequest_CorrelationId m) ++
    le_split 8 (ListRecordingRequest_RecordingId m);
  data_part m := [] |}.

#[export] Instance ListRecordingRequest_laws : CodecLaws ListRecordingRequest.
Proof. codec_laws ListRecordingRequest_codec ListRecordingRequest_Encode ListRecordingRequest_Decode. Qed.

(** ** ListRecordingSubscriptionsRequest *)

Record ListRecordingSubscriptionsRequest : Type := mkListRecordingSubscriptionsRequest {
  ListRecordingSubscriptionsRequest_ControlSessionId : Z; ListRecordingSubscriptionsRequest_CorrelationId : Z;
  ListRecordingSubscriptionsRequest_PseudoIndex : Z; ListRecordingSubscriptionsRequest_SubscriptionCount : Z;
  ListRecordingSubscriptionsRequest_ApplyStreamId : Z; ListRecordingSubscriptionsRequest_StreamId : Z;
  ListRecordingSubscriptionsRequest_Channel : bytes }.

Definition ListRecordingSubscriptionsRequest_ControlSessionId_field : field := mkField 1 0 0 false (-9223372036854775807) 9223372036854775807 (-9223372036854775808).
Definition ListRecordingSubscriptionsRequest_CorrelationId_field : field := mkField 2 0 0 false (-9223372036854775807) 9223372036854775807 (-9223372036854775808).
Definition ListRecordingSubscriptionsRequest_PseudoIndex_field : field := mkField 3 0 0 false (-2147483647) 2147483647 (-2147483648).
Definition ListRecordingSubscriptionsRequest_SubscriptionCount_field : field := mkField 4 0 0 false (-2147483647) 2147483647 (-2147483648).
Definition ListRecordingSubscriptionsRequest_ApplyStreamId_field : field := mkField 5 0 0 false 0 0 0.
Definition ListRecordingSubscriptionsRequest_StreamId_field : field := mkField 6 0 0 false (-2147483647) 2147483647 (-2147483648).
Definition ListRecordingSubscriptionsRequest_Channel_field : data_field := mkDataField 0 0 "US-ASCII" 4.
Definition ListRecordingSubscriptionsRequest_set_ControlSessionId (v : Z) (m :
  ListRecordingSubscriptionsRequest) : ListRecordingSubscriptionsRequest := mkListRecordingSubscriptionsRequest
  v (ListRecordingSubscriptionsRequest_CorrelationId m) (ListRecordingSubscriptionsRequest_PseudoIndex m)
  (ListRecordingSubscriptionsRequest_SubscriptionCount m) (ListRecordingSubscriptionsRequest_ApplyStreamId m)
  (ListRecordingSubscriptionsRequest_StreamId m) (ListRecordingSubscriptionsRequest_Channel m).
Definition ListRecordingSubscriptionsRequest_set_CorrelationId (v : Z) (m : ListRecordingSubscriptionsRequest) :
  ListRecordingSubscriptionsRequest := mkListRecordingSubscriptionsRequest
  (ListRecordingSubscriptionsRequest_ControlSessionId m) v (ListRecordingSubscriptionsRequest_PseudoIndex m)
  (ListRecordingSubscriptionsRequest_SubscriptionCount m) (ListRecordingSubscriptionsRequest_ApplyStreamId m)
  (ListRecordingSubscriptionsRequest_StreamId m) (ListRecordingSubscriptionsRequest_Channel m).
Definition ListRecordingSubscriptionsRequest_set_PseudoIndex (v : Z) (m : ListRecordingSubscriptionsRequest) :
  ListRecordingSubscriptionsRequest := mkListRecordingSubscriptionsRequest
  (ListRecordingSubscriptionsRequest_ControlSessionId m) (ListRecordingSubscriptionsRequest_CorrelationId m) v
  (ListRecordingSubscriptionsRequest_SubscriptionCount m) (ListRecordingSubscriptionsRequest_ApplyStreamId m)
  (ListRecordingSubscriptionsRequest_StreamId m) (ListRecordingSubscriptionsRequest_Channel m).
Definition ListRecordingSubscriptionsRequest_set_SubscriptionCount (v : Z) (m :
  ListRecordingSubscriptionsRequest) : ListRecordingSubscriptionsRequest := mkListRecordingSubscriptionsRequest
  (ListRecordingSubscriptionsRequest_ControlSessionId m) (ListRecordingSubscriptionsRequest_CorrelationId m)
  (ListRecordingSubscriptionsRequest_PseudoIndex m) v (ListRecordingSubscriptionsRequest_ApplyStreamId m)
  (ListRecordingSubscriptionsRequest_StreamId m) (ListRecordingSubscriptionsRequest_Channel m).
Definition ListRecordingSubscriptionsRequest_set_ApplyStreamId (v : Z) (m : ListRecordingSubscriptionsRequest) :
  ListRecordingSubscriptionsRequest := mkListRecordingSubscriptionsRequest
  (ListRecordingSubscriptionsRequest_ControlSessionId m) (ListRecordingSubscriptionsRequest_CorrelationId m)
  (ListRecordingSubscriptionsRequest_PseudoIndex m) (ListRecordingSubscriptionsRequest_SubscriptionCount m) v
  (ListRecordingSubscriptionsRequest_StreamId m) (ListRecordingSubscriptionsRequest_Channel m).
Definition ListRecordingSubscriptionsRequest_set_StreamId (v : Z) (m : ListRecordingSubscriptionsRequest) :
  ListRecordingSubscriptionsRequest := mkListRecordingSubscriptionsRequest
  (ListRecordingSubscriptionsRequest_ControlSessionId m) (ListRecordingSubscriptionsRequest_CorrelationId m)
  (ListRecordingSubscriptionsRequest_PseudoIndex m) (ListRecordingSubscriptionsRequest_SubscriptionCount m)
  (ListRecordingSubscriptionsRequest_ApplyStreamId m) v (ListRecordingSubscriptionsRequest_Channel m).
Definition ListRecordingSubscriptionsRequest_set_Channel (v : bytes) (m : ListRecordingSubscriptionsRequest) :
  ListRecordingSubscriptionsRequest := mkListRecordingSubscriptionsRequest
  (ListRecordingSubscriptionsRequest_ControlSessionId m) (ListRecordingSubscriptionsRequest_CorrelationId m)
  (ListRecordingSubscriptionsRequest_PseudoIndex m) (ListRecordingSubscriptionsRequest_SubscriptionCount m)
  (ListRecordingSubscriptionsRequest_ApplyStreamId m) (ListRecordingSubscriptionsRequest_StreamId m) v.

Definition ListRecordingSubscriptionsRequest_RangeCheck (m : ListRecordingSubscriptionsRequest) (actingVersion schemaVersion : Z) : option string :=
  first_error
    [ check_required ListRecordingSubscriptionsRequest_ControlSessionId_field actingVersion (ListRecordingSubscriptionsRequest_ControlSessionId m)
    ; check_required ListRecordingSubscriptionsRequest_CorrelationId_field actingVersion (ListRecordingSubscriptionsRequest_CorrelationId m)
    ; check_required ListRecordingSubscriptionsRequest_PseudoIndex_field actingVersion (ListRecordingSubscriptionsRequest_PseudoIndex m)
    ; check_required ListRecordingSubscriptionsRequest_SubscriptionCount_field actingVersion (ListRecordingSubscriptionsRequest_SubscriptionCount m)
    ; check_enum BooleanTypeValues actingVersion schemaVersion (ListRecordingSubscriptionsRequest_ApplyStreamId m)
    ; check_required ListRecordingSubscriptionsRequest_StreamId_field actingVersion (ListRecordingSubscriptionsRequest_StreamId m) ].

Definition ListRecordingSubscriptionsRequest_Encode (m : ListRecordingSubscriptionsRequest) (doRangeCheck : bool) : M bytes unit :=
  when doRangeCheck (fail_if (ListRecordingSubscriptionsRequest_RangeCheck m 6 6)) ;;;
  WriteInt64 (ListRecordingSubscriptionsRequest_ControlSessionId m) ;;;
  WriteInt64 (ListRecordingSubscriptionsRequest_CorrelationId m) ;;;
  WriteInt32 (ListRecordingSubscriptionsRequest_PseudoIndex m) ;;;
  WriteInt32 (ListRecordingSubscriptionsRequest_SubscriptionCount m) ;;;
  WriteInt32 (ListRecordingSubscriptionsRequest_ApplyStreamId m) ;;;
  WriteInt32 (ListRecordingSubscriptionsRequest_StreamId m) ;;;
  WriteUint32 (u32 (zlen (ListRecordingSubscriptionsRequest_Channel m))) ;;;
  WriteBytes (ListRecordingSubscriptionsRequest_Channel m).

Definition ListRecordingSubscriptionsRequest_Decode (actingVersion blockLength : Z) (doRangeCheck : bool) : M (bytes * ListRecordingSubscriptionsRequest) unit :=
  decode_field ListRecordingSubscriptionsRequest_ControlSessionId_field actingVersion ReadInt64 ListRecordingSubscriptionsRequest_set_ControlSessionId ;;;
  decode_field ListRecordingSubscriptionsRequest_CorrelationId_field actingVersion ReadInt64 ListRecordingSubscriptionsRequest_set_CorrelationId ;;;
  decode_field ListRecordingSubscriptionsRequest_PseudoIndex_field actingVersion ReadInt32 ListRecordingSubscriptionsRequest_set_PseudoIndex ;;;
  decode_field ListRecordingSubscriptionsRequest_SubscriptionCount_field actingVersion ReadInt32 ListRecordingSubscriptionsRequest_set_SubscriptionCount ;;;
  decode_enum ListRecordingSubscriptionsRequest_ApplyStreamId_field actingVersion ReadInt32 ListRecordingSubscriptionsRequest_set_ApplyStreamId ;;;
  decode_field ListRecordingSubscriptionsRequest_StreamId_field actingVersion ReadInt32 ListRecordingSubscriptionsRequest_set_StreamId ;;;
  skip_block actingVersion 6 blockLength 32 ;;;
  decode_data ListRecordingSubscriptionsRequest_Channel_field actingVersion ListRecordingSubscriptionsRequest_set_Channel ;;;
  when doRangeCheck (checked (fun m => ListRecordingSubscriptionsRequest_RangeCheck m actingVersion 6)).

#[export] Instance ListRecordingSubscriptionsRequest_codec : Codec ListRecordingSubscriptionsRequest := {|
  SbeBlockLength := 32; SbeTemplateId := 17; SbeSchemaId := 101; SbeSchemaVersion := 6;
  zero := mkListRecordingSubscriptionsRequest 0 0 0 0 0 0 [];
  RangeCheck := ListRecordingSubscriptionsRequest_RangeCheck; Encode := ListRecordingSubscriptionsRequest_Encode; Decode := ListRecordingSubscriptionsRequest_Decode;
  valid m := is_i64 (ListRecordingSubscriptionsRequest_ControlSessionId m) /\ is_i64
    (ListRecordingSubscriptionsRequest_CorrelationId m) /\ is_i32 (ListRecordingSubscriptionsRequest_PseudoIndex
    m) /\ is_i32 (ListRecordingSubscriptionsRequest_SubscriptionCount m) /\ is_i32
    (ListRecordingSubscriptionsRequest_ApplyStreamId m) /\ is_i32 (ListRecordingSubscriptionsRequest_StreamId m)
    /\ zlen (ListRecordingSubscriptionsRequest_Channel m) < 4294967296;
  fixed_part m := le_split 8 (ListRecordingSubscriptionsRequest_ControlSessionId m) ++ le_split 8
    (ListRecordingSubscriptionsRequest_CorrelationId m) ++ le_split 4
    (ListRecordingSubscriptionsRequest_PseudoIndex m) ++ le_split 4
    (ListRecordingSubscriptionsRequest_SubscriptionCount m) ++ le_split 4
    (ListRecordingSubscriptionsRequest_ApplyStreamId m) ++ le_split 4
    (ListRecordingSubscriptionsRequest_StreamId m);
  data_part m := data_bytes (ListRecordingSubscriptionsRequest_Channel m) |}.

#[export] Instance ListRecordingSubscriptionsRequest_laws : CodecLaws ListRecordingSubscriptionsRequest.
Proof. codec_laws ListRecordingSubscriptionsRequest_codec ListRecordingSubscriptionsRequest_Encode ListRecordingSubscriptionsRequest_Decode. Qed.

(** ** ListRecordingsForUriRequest *)

Record ListRecordingsForUriRequest : Type := mkListRecordingsForUriRequest {
  ListRecordingsForUriRequest_ControlSessionId : Z; ListRecordingsForUriRequest_CorrelationId : Z;
  ListRecordingsForUriRequest_FromRecordingId : Z; ListRecordingsForUriRequest_RecordCount : Z;
  ListRecordingsForUriRequest_StreamId : Z; ListRecordingsForUriRequest_Channel : bytes }.

Definition ListRecordingsForUriRequest_ControlSessionId_field : field := mkField 1 0 0 false (-9223372036854775807) 9223372036854775807 (-9223372036854775808).
Definition ListRecordingsForUriRequest_CorrelationId_field : field := mkField 2 0 0 false (-9223372036854775807) 9223372036854775807 (-9223372036854775808).
Definition ListRecordingsForUriRequest_FromRecordingId_field : field := mkField 3 0 0 false (-9223372036854775807) 9223372036854775807 (-9223372036854775808).
Definition ListRecordingsForUriRequest_RecordCount_field : field := mkField 4 0 0 false (-2147483647) 2147483647 (-2147483648).
Definition ListRecordingsForUriRequest_StreamId_field : field := mkField 5 0 0 false (-2147483647) 2147483647 (-2147483648).
Definition ListRecordingsForUriRequest_Channel_field : data_field := mkDataField 0 0 "US-ASCII" 4.
Definition ListRecordingsForUriRequest_set_ControlSessionId (v : Z) (m : ListRecordingsForUriRequest) :
  ListRecordingsForUriRequest := mkListRecordingsForUriRequest v (ListRecordingsForUriRequest_CorrelationId m)
  (ListRecordingsForUriRequest_FromRecordingId m) (ListRecordingsForUriRequest_RecordCount m)
  (ListRecordingsForUriRequest_StreamId m) (ListRecordingsForUriRequest_Channel m).
Definition ListRecordingsForUriRequest_set_CorrelationId (v : Z) (m : ListRecordingsForUriRequest) :
  ListRecordingsForUriRequest := mkListRecordingsForUriRequest (ListRecordingsForUriRequest_ControlSessionId m)
  v (ListRecordingsForUriRequest_FromRecordingId m) (ListRecordingsForUriRequest_RecordCount m)
  (ListRecordingsForUriRequest_StreamId m) (ListRecordingsForUriRequest_Channel m).
Definition ListRecordingsForUriRequest_set_FromRecordingId (v : Z) (m : ListRecordingsForUriRequest) :
  ListRecordingsForUriRequest := mkListRecordingsForUriRequest (ListRecordingsForUriRequest_ControlSessionId m)
  (ListRecordingsForUriRequest_CorrelationId m) v (ListRecordingsForUriRequest_RecordCount m)
  (ListRecordingsForUriRequest_StreamId m) (ListRecordingsForUriRequest_Channel m).
Definition ListRecordingsForUriRequest_set_RecordCount (v : Z) (m : ListRecordingsForUriRequest) :
  ListRecordingsForUriRequest := mkListRecordingsForUriRequest (ListRecordingsForUriRequest_ControlSessionId m)
  (ListRecordingsForUriRequest_CorrelationId m) (ListRecordingsForUriRequest_FromRecordingId m) v
  (ListRecordingsForUriRequest_StreamId m) (ListRecordingsForUriRequest_Channel m).
Definition ListRecordingsForUriRequest_set_StreamId (v : Z) (m : ListRecordingsForUriRequest) :
  ListRecordingsForUriRequest := mkListRecordingsForUriRequest (ListRecordingsForUriRequest_ControlSessionId m)
  (ListRecordingsForUriRequest_CorrelationId m) (ListRecordingsForUriRequest_FromRecordingId m)
  (ListRecordingsForUriRequest_RecordCount m) v (ListRecordingsForUriRequest_Channel m).
Definition ListRecordingsForUriRequest_set_Channel (v : bytes) (m : ListRecordingsForUriRequest) :
  ListRecordingsForUriRequest := mkListRecordingsForUriRequest (ListRecordingsForUriRequest_ControlSessionId m)
  (ListRecordingsForUriRequest_CorrelationId m) (ListRecordingsForUriRequest_FromRecordingId m)
  (ListRecordingsForUriRequest_RecordCount m) (ListRecordingsForUriRequest_StreamId m) v.

Definition ListRecordingsForUriRequest_RangeCheck (m : ListRecordingsForUriRequest) (actingVersion schemaVersion : Z) : option string :=
  first_error
    [ check_required ListRecordingsForUriRequest_ControlSessionId_field actingVersion (ListRecordingsForUriRequest_ControlSessionId m)
    ; check_required ListRecordingsForUriRequest_CorrelationId_field actingVersion (ListRecordingsForUriRequest_CorrelationId m)
    ; check_required ListRecordingsForUriRequest_FromRecordingId_field actingVersion (ListRecordingsForUriRequest_FromRecordingId m)
    ; check_required ListRecordingsForUriRequest_RecordCount_field actingVersion (ListRecordingsForUriRequest_RecordCount m)
    ; check_required ListRecordingsForUriRequest_StreamId_field actingVersion (ListRecordingsForUriRequest_StreamId m) ].

Definition ListRecordingsForUriRequest_Encode (m : ListRecordingsForUriRequest) (doRangeCheck : bool) : M bytes unit :=
  when doRangeCheck (fail_if (ListRecordingsForUriRequest_RangeCheck m 6 6)) ;;;
  WriteInt64 (ListRecordingsForUriRequest_ControlSessionId m) ;;;
  WriteInt64 (ListRecordingsForUriRequest_CorrelationId m) ;;;
  WriteInt64 (ListRecordingsForUriRequest_FromRecordingId m) ;;;
  WriteInt32 (ListRecordingsForUriRequest_RecordCount m) ;;;
  WriteInt32 (ListRecordingsForUriRequest_StreamId m) ;;;
  WriteUint32 (u32 (zlen (ListRecordingsForUriRequest_Channel m))) ;;;
  WriteBytes (ListRecordingsForUriRequest_Channel m).

Definition ListRecordingsForUriRequest_Decode (actingVersion blockLength : Z) (doRangeCheck : bool) : M (bytes * ListRecordingsForUriRequest) unit :=
  decode_field ListRecordingsForUriRequest_ControlSessionId_field actingVersion ReadInt64 ListRecordingsForUriRequest_set_ControlSessionId ;;;
  decode_field ListRecordingsForUriRequest_CorrelationId_field actingVersion ReadInt64 ListRecordingsForUriRequest_set_CorrelationId ;;;
  decode_field ListRecordingsForUriRequest_FromRecordingId_field actingVersion ReadInt64 ListRecordingsForUriRequest_set_FromRecordingId ;;;
  decode_field ListRecordingsForUriRequest_RecordCount_field actingVersion ReadInt32 ListRecordingsForUriRequest_set_RecordCount ;;;
  decode_field ListRecordingsForUriRequest_StreamId_field actingVersion ReadInt32 ListRecordingsForUriRequest_set_StreamId ;;;
  skip_block actingVersion 6 blockLength 32 ;;;
  decode_data ListRecordingsForUriRequest_Channel_field actingVersion ListRecordingsForUriRequest_set_Channel ;;;
  when doRangeCheck (checked (fun m => ListRecordingsForUriRequest_RangeCheck m actingVersion 6)).

#[export] Instance ListRecordingsForUriRequest_codec : Codec ListRecordingsForUriRequest := {|
  SbeBlockLength := 32; SbeTemplateId := 9; SbeSchemaId := 101; SbeSchemaVersion := 6;
  zero := mkListRecordingsForUriRequest 0 0 0 0 0 [];
  RangeCheck := ListRecordingsForUriRequest_RangeCheck; Encode := ListRecordingsForUriRequest_Encode; Decode := ListRecordingsForUriRequest_Decode;
  valid m := is_i64 (ListRecordingsForUriRequest_ControlSessionId m) /\ is_i64 (ListRecordingsForUriRequest_CorrelationId m)
    /\ is_i64 (ListRecordingsForUriRequest_FromRecordingId m) /\ is_i32 (ListRecordingsForUriRequest_RecordCount
    m) /\ is_i32 (ListRecordingsForUriRequest_StreamId m) /\ zlen (ListRecordingsForUriRequest_Channel m) <
    4294967296;
  fixed_part m := le_split 8 (ListRecordingsForUriRequest_ControlSessionId m) ++ le_split 8
    (ListRecordingsForUriRequest_CorrelationId m) ++ le_split 8 (ListRecordingsForUriRequest_FromRecordingId m)
    ++ le_split 4 (ListRecordingsForUriRequest_RecordCount m) ++ le_split 4
    (ListRecordingsForUriRequest_StreamId m);
  data_part m := data_bytes (ListRecordingsForUriRequest_Channel m) |}.

#[export] Instance ListRecordingsForUriRequest_laws : CodecLaws ListRecordingsForUriRequest.
Proof. codec_laws ListRecordingsForUriRequest_codec ListRecordingsForUriRequest_Encode ListRecordingsForUriRequest_Decode. Qed.

(** ** ListRecordingsRequest *)

Record ListRecordingsRequest : Type := mkListRecordingsRequest { ListRecordingsRequest_ControlSessionId : Z;
  ListRecordingsRequest_CorrelationId : Z; ListRecordingsRequest_FromRecordingId : Z;
  ListRecordingsRequest_RecordCount : Z }.

Definition ListRecordingsRequest_ControlSessionId_field : field := mkField 1 0 0 false (-9223372036854775807) 9223372036854775807 (-9223372036854775808).
Definition ListRecordingsRequest_CorrelationId_field : field := mkField 2 0 0 false (-9223372036854775807) 9223372036854775807 (-9223372036854775808).
Definition ListRecordingsRequest_FromRecordingId_field : field := mkField 3 0 0 false (-9223372036854775807) 9223372036854775807 (-9223372036854775808).
Definition ListRecordingsRequest_RecordCount_field : field := mkField 4 0 0 false (-2147483647) 2147483647 (-2147483648).
Definition ListRecordingsRequest_set_ControlSessionId (v : Z) (m : ListRecordingsRequest) :
  ListRecordingsRequest := mkListRecordingsRequest v (ListRecordingsRequest_CorrelationId m)
  (ListRecordingsRequest_FromRecordingId m) (ListRecordingsRequest_RecordCount m).
Definition ListRecordingsRequest_set_CorrelationId (v : Z) (m : ListRecordingsRequest) : ListRecordingsRequest
  := mkListRecordingsRequest (ListRecordingsRequest_ControlSessionId m) v (ListRecordingsRequest_FromRecordingId
  m) (ListRecordingsRequest_RecordCount m).
Definition ListRecordingsRequest_set_FromRecordingId (v : Z) (m : ListRecordingsRequest) : ListRecordingsRequest
  := mkListRecordingsRequest (ListRecordingsRequest_ControlSessionId m) (ListRecordingsRequest_CorrelationId m)
  v (ListRecordingsRequest_RecordCount m).
Definition ListRecordingsRequest_set_RecordCount (v : Z) (m : ListRecordingsRequest) : ListRecordingsRequest :=
  mkListRecordingsRequest (ListRecordingsRequest_ControlSessionId m) (ListRecordingsRequest_CorrelationId m)
  (ListRecordingsRequest_FromRecordingId m) v.

Definition ListRecordingsRequest_RangeCheck (m : ListRecordingsRequest) (actingVersion schemaVersion : Z) : option string :=
  first_error
    [ check_required ListRecordingsRequest_ControlSessionId_field actingVersion (ListRecordingsRequest_ControlSessionId m)
    ; check_required ListRecordingsRequest_CorrelationId_field actingVersion (ListRecordingsRequest_CorrelationId m)
    ; check_required ListRecordingsRequest_FromRecordingId_field actingVersion (ListRecordingsRequest_FromRecordingId m)
    ; check_required ListRecordingsRequest_RecordCount_field actingVersion (ListRecordingsRequest_RecordCount m) ].

Definition ListRecordingsRequest_Encode (m : ListRecordingsRequest) (doRangeCheck : bool) : M bytes unit :=
  when doRangeCheck (fail_if (ListRecordingsRequest_RangeCheck m 6 6)) ;;;
  WriteInt64 (ListRecordingsRequest_ControlSessionId m) ;;;
  WriteInt64 (ListRecordingsRequest_CorrelationId m) ;;;
  WriteInt64 (ListRecordingsRequest_FromRecordingId m) ;;;
  WriteInt32 (ListRecordingsRequest_RecordCount m).

Definition ListRecordingsRequest_Decode (actingVersion blockLength : Z) (doRangeCheck : bool) : M (bytes * ListRecordingsRequest) unit :=
  decode_field ListRecordingsRequest_ControlSessionId_field actingVersion ReadInt64 ListRecordingsRequest_set_ControlSessionId ;;;
  decode_field ListRecordingsRequest_CorrelationId_field actingVersion ReadInt64 ListRecordingsRequest_set_CorrelationId ;;;
  decode_field ListRecordingsRequest_FromRecordingId_field actingVersion ReadInt64 ListRecordingsRequest_set_FromRecordingId ;;;
  decode_field ListRecordingsRequest_RecordCount_field actingVersion ReadInt32 ListRecordingsRequest_set_RecordCount ;;;
  skip_block actingVersion 6 blockLength 28 ;;;
  when doRangeCheck (checked (fun m => ListRecordingsRequest_RangeCheck m actingVersion 6)).

#[export] Instance ListRecordingsRequest_codec : Codec ListRecordingsRequest := {|
  SbeBlockLength := 28; SbeTemplateId := 8; SbeSchemaId := 101; SbeSchemaVersion := 6;
  zero := mkListRecordingsRequest 0 0 0 0;
  RangeCheck := ListRecordingsRequest_RangeCheck; Encode := ListRecordingsRequest_Encode; Decode := ListRecordingsRequest_Decode;
  valid m := is_i64 (ListRecordingsRequest_ControlSessionId m) /\ is_i64 (ListRecordingsRequest_CorrelationId m) /\ is_i64
    (ListRecordingsRequest_FromRecordingId m) /\ is_i32 (ListRecordingsRequest_RecordCount m);
  fixed_part m := le_split 8 (ListRecordingsRequest_ControlSessionId m) ++ le_split 8 (ListRecordingsRequest_CorrelationId m) ++
    le_split 8 (ListRecordingsRequest_FromRecordingId m) ++ le_split 4 (ListRecordingsRequest_RecordCount m);
  data_part m := [] |}.

#[export] Instance ListRecordingsRequest_laws : CodecLaws ListRecordingsRequest.
Proof. codec_laws ListRecordingsRequest_codec ListRecordingsRequest_Encode ListRecordingsRequest_Decode. Qed.

(** ** MigrateSegmentsRequest *)

Record MigrateSegmentsRequest : Type := mkMigrateSegmentsRequest { MigrateSegmentsRequest_ControlSessionId : Z;
  MigrateSegmentsRequest_CorrelationId : Z; MigrateSegmentsRequest_SrcRecordingId : Z;
  MigrateSegmentsRequest_DstRecordingId : Z }.

Definition MigrateSegmentsRequest_ControlSessionId_field : field := mkField 1 0 0 false (-9223372036854775807) 9223372036854775807 (-9223372036854775808).
Definition MigrateSegmentsRequest_CorrelationId_field : field := mkField 2 0 0 false (-9223372036854775807) 9223372036854775807 (-9223372036854775808).
Definition MigrateSegmentsRequest_SrcRecordingId_field : field := mkField 3 0 0 false (-9223372036854775807) 9223372036854775807 (-9223372036854775808).
Definition MigrateSegmentsRequest_DstRecordingId_field : field := mkField 4 0 0 false (-9223372036854775807) 9223372036854775807 (-9223372036854775808).
Definition MigrateSegmentsRequest_set_ControlSessionId (v : Z) (m : MigrateSegmentsRequest) :
  MigrateSegmentsRequest := mkMigrateSegmentsRequest v (MigrateSegmentsRequest_CorrelationId m)
  (MigrateSegmentsRequest_SrcRecordingId m) (MigrateSegmentsRequest_DstRecordingId m).
Definition MigrateSegmentsRequest_set_CorrelationId (v : Z) (m : MigrateSegmentsRequest) :
  MigrateSegmentsRequest := mkMigrateSegmentsRequest (MigrateSegmentsRequest_ControlSessionId m) v
  (MigrateSegmentsRequest_SrcRecordingId m) (MigrateSegmentsRequest_DstRecordingId m).
Definition MigrateSegmentsRequest_set_SrcRecordingId (v : Z) (m : MigrateSegmentsRequest) :
  MigrateSegmentsRequest := mkMigrateSegmentsRequest (MigrateSegmentsRequest_ControlSessionId m)
  (MigrateSegmentsRequest_CorrelationId m) v (MigrateSegmentsRequest_DstRecordingId m).
Definition MigrateSegmentsRequest_set_DstRecordingId (v : Z) (m : MigrateSegmentsRequest) :
  MigrateSegmentsRequest := mkMigrateSegmentsRequest (MigrateSegmentsRequest_ControlSessionId m)
  (MigrateSegmentsRequest_CorrelationId m) (MigrateSegmentsRequest_SrcRecordingId m) v.

Definition MigrateSegmentsRequest_RangeCheck (m : MigrateSegmentsRequest) (actingVersion schemaVersion : Z) : option string :=
  first_error
    [ check_required MigrateSegmentsRequest_ControlSessionId_field actingVersion (MigrateSegmentsRequest_ControlSessionId m)
    ; check_required MigrateSegmentsRequest_CorrelationId_field actingVersion (MigrateSegmentsRequest_CorrelationId m)
    ; check_required MigrateSegmentsRequest_SrcRecordingId_field actingVersion (MigrateSegmentsRequest_SrcRecordingId m)
    ; check_required MigrateSegmentsRequest_DstRecordingId_field actingVersion (MigrateSegmentsRequest_DstRecordingId m) ].

Definition MigrateSegmentsRequest_Encode (m : MigrateSegmentsRequest) (doRangeCheck : bool) : M bytes unit :=
  when doRangeCheck (fail_if (MigrateSegmentsRequest_RangeCheck m 6 6)) ;;;
  WriteInt64 (MigrateSegmentsRequest_ControlSessionId m) ;;;
  WriteInt64 (MigrateSegmentsRequest_CorrelationId m) ;;;
  WriteInt64 (MigrateSegmentsRequest_SrcRecordingId m) ;;;
  WriteInt64 (MigrateSegmentsRequest_DstRecordingId m).

Definition MigrateSegmentsRequest_Decode (actingVersion blockLength : Z) (doRangeCheck : bool) : M (bytes * MigrateSegmentsRequest) unit :=
  decode_field MigrateSegmentsRequest_ControlSessionId_field actingVersion ReadInt64 MigrateSegmentsRequest_set_ControlSessionId ;;;
  decode_field MigrateSegmentsRequest_CorrelationId_field actingVersion ReadInt64 MigrateSegmentsRequest_set_CorrelationId ;;;
  decode_field MigrateSegmentsRequest_SrcRecordingId_field actingVersion ReadInt64 MigrateSegmentsRequest_set_SrcRecordingId ;;;
  decode_field MigrateSegmentsRequest_DstRecordingId_field actingVersion ReadInt64 MigrateSegmentsRequest_set_DstRecordingId ;;;
  skip_block actingVersion 6 blockLength 32 ;;;
  when doRangeCheck (checked (fun m => MigrateSegmentsRequest_RangeCheck m actingVersion 6)).

#[export] Instance MigrateSegmentsRequest_codec : Codec MigrateSegmentsRequest := {|
  SbeBlockLength := 32; SbeTemplateId := 57; SbeSchemaId := 101; SbeSchemaVersion := 6;
  zero := mkMigrateSegmentsRequest 0 0 0 0;
  RangeCheck := MigrateSegmentsRequest_RangeCheck; Encode := MigrateSegmentsRequest_Encode; Decode := MigrateSegmentsRequest_Decode;
  valid m := is_i64 (MigrateSegmentsRequest_ControlSessionId m) /\ is_i64 (MigrateSegmentsRequest_CorrelationId m) /\ is_i64
    (MigrateSegmentsRequest_SrcRecordingId m) /\ is_i64 (MigrateSegmentsRequest_DstRecordingId m);
  fixed_part m := le_split 8 (MigrateSegmentsRequest_ControlSessionId m) ++ le_split 8 (MigrateSegmentsRequest_CorrelationId m) ++
    le_split 8 (MigrateSegmentsRequest_SrcRecordingId m) ++ le_split 8 (MigrateSegmentsRequest_DstRecordingId m);
  data_part m := [] |}.

#[export] Instance MigrateSegmentsRequest_laws : CodecLaws MigrateSegmentsRequest.
Proof. codec_laws MigrateSegmentsRequest_codec MigrateSegmentsRequest_Encode MigrateSegmentsRequest_Decode. Qed.

(** ** PurgeRecordingRequest *)

Record PurgeRecordingRequest : Type := mkPurgeRecordingRequest { PurgeRecordingRequest_ControlSessionId : Z;
  PurgeRecordingRequest_CorrelationId : Z; PurgeRecordingRequest_RecordingId : Z }.

Definition PurgeRecordingRequest_ControlSessionId_field : field := mkField 1 0 0 false (-9223372036854775807) 9223372036854775807 (-9223372036854775808).
Definition PurgeRecordingRequest_CorrelationId_field : field := mkField 2 0 0 false (-9223372036854775807) 9223372036854775807 (-9223372036854775808).
Definition PurgeRecordingRequest_RecordingId_field : field := mkField 3 0 0 false (-9223372036854775807) 9223372036854775807 (-9223372036854775808).
Definition PurgeRecordingRequest_set_ControlSessionId (v : Z) (m : PurgeRecordingRequest) :
  PurgeRecordingRequest := mkPurgeRecordingRequest v (PurgeRecordingRequest_CorrelationId m)
  (PurgeRecordingRequest_RecordingId m).
Definition PurgeRecordingRequest_set_CorrelationId (v : Z) (m : PurgeRecordingRequest) : PurgeRecordingRequest
  := mkPurgeRecordingRequest (PurgeRecordingRequest_ControlSessionId m) v (PurgeRecordingRequest_RecordingId m).
Definition PurgeRecordingRequest_set_RecordingId (v : Z) (m : PurgeRecordingRequest) : PurgeRecordingRequest :=
  mkPurgeRecordingRequest (PurgeRecordingRequest_ControlSessionId m) (PurgeRecordingRequest_CorrelationId m) v.

Definition PurgeRecordingRequest_RangeCheck (m : PurgeRecordingRequest) (actingVersion schemaVersion : Z) : option string :=
  first_error
    [ check_required PurgeRecordingRequest_ControlSessionId_field actingVersion (PurgeRecordingRequest_ControlSessionId m)
    ; check_required PurgeRecordingRequest_CorrelationId_field actingVersion (PurgeRecordingRequest_CorrelationId m)
    ; check_required PurgeRecordingRequest_RecordingId_field actingVersion (PurgeRecordingRequest_RecordingId m) ].

Definition PurgeRecordingRequest_Encode (m : PurgeRecordingRequest) (doRangeCheck : bool) : M bytes unit :=
  when doRangeCheck (fail_if (PurgeRecordingRequest_RangeCheck m 6 6)) ;;;
  WriteInt64 (PurgeRecordingRequest_ControlSessionId m) ;;;
  WriteInt64 (PurgeRecordingRequest_CorrelationId m) ;;;
  WriteInt64 (PurgeRecordingRequest_RecordingId m).

Definition PurgeRecordingRequest_Decode (actingVersion blockLength : Z) (doRangeCheck : bool) : M (bytes * PurgeRecordingRequest) unit :=
  decode_field PurgeRecordingRequest_ControlSessionId_field actingVersion ReadInt64 PurgeRecordingRequest_set_ControlSessionId ;;;
  decode_field PurgeRecordingRequest_CorrelationId_field actingVersion ReadInt64 PurgeRecordingRequest_set_CorrelationId ;;;
  decode_field PurgeRecordingRequest_RecordingId_field actingVersion ReadInt64 PurgeRecordingRequest_set_RecordingId ;;;
  skip_block actingVersion 6 blockLength 24 ;;;
  when doRangeCheck (checked (fun m => PurgeRecordingRequest_RangeCheck m actingVersion 6)).

#[export] Instance PurgeRecordingRequest_codec : Codec PurgeRecordingRequest := {|
  SbeBlockLength := 24; SbeTemplateId := 104; SbeSchemaId := 101; SbeSchemaVersion := 6;
  zero := mkPurgeRecordingRequest 0 0 0;
  RangeCheck := PurgeRecordingRequest_RangeCheck; Encode := PurgeRecordingRequest_Encode; Decode := PurgeRecordingRequest_Decode;
  valid m := is_i64 (PurgeRecordingRequest_ControlSessionId m) /\ is_i64 (PurgeRecordingRequest_CorrelationId m) /\ is_i64
    (PurgeRecordingRequest_RecordingId m);
  fixed_part m := le_split 8 (PurgeRecordingRequest_ControlSessionId m) ++ le_split 8 (PurgeRecordingRequest_CorrelationId m) ++
    le_split 8 (PurgeRecordingRequest_RecordingId m);
  data_part m := [] |}.

#[export] Instance PurgeRecordingRequest_laws : CodecLaws PurgeRecordingRequest.
Proof. codec_laws PurgeRecordingRequest_codec PurgeRecordingRequest_Encode PurgeRecordingRequest_Decode. Qed.

(** ** PurgeSegmentsRequest *)

Record PurgeSegmentsRequest : Type := mkPurgeSegmentsRequest { PurgeSegmentsRequest_ControlSessionId : Z;
  PurgeSegmentsRequest_CorrelationId : Z; PurgeSegmentsRequest_RecordingId : Z;
  PurgeSegmentsRequest_NewStartPosition : Z }.

Definition PurgeSegmentsRequest_ControlSessionId_field : field := mkField 1 0 0 false (-9223372036854775807) 9223372036854775807 (-9223372036854775808).
Definition PurgeSegmentsRequest_CorrelationId_field : field := mkField 2 0 0 false (-9223372036854775807) 9223372036854775807 (-9223372036854775808).
Definition PurgeSegmentsRequest_RecordingId_field : field := mkField 3 0 0 false (-9223372036854775807) 9223372036854775807 (-9223372036854775808).
Definition PurgeSegmentsRequest_NewStartPosition_field : field := mkField 4 0 0 false (-9223372036854775807) 9223372036854775807 (-9223372036854775808).
Definition PurgeSegmentsRequest_set_ControlSessionId (v : Z) (m : PurgeSegmentsRequest) : PurgeSegmentsRequest
  := mkPurgeSegmentsRequest v (PurgeSegmentsRequest_CorrelationId m) (PurgeSegmentsRequest_RecordingId m)
  (PurgeSegmentsRequest_NewStartPosition m).
Definition PurgeSegmentsRequest_set_CorrelationId (v : Z) (m : PurgeSegmentsRequest) : PurgeSegmentsRequest :=
  mkPurgeSegmentsRequest (PurgeSegmentsRequest_ControlSessionId m) v (PurgeSegmentsRequest_RecordingId m)
  (PurgeSegmentsRequest_NewStartPosition m).
Definition PurgeSegmentsRequest_set_RecordingId (v : Z) (m : PurgeSegmentsRequest) : PurgeSegmentsRequest :=
  mkPurgeSegmentsRequest (PurgeSegmentsRequest_ControlSessionId m) (PurgeSegmentsRequest_CorrelationId m) v
  (PurgeSegmentsRequest_NewStartPosition m).
Definition PurgeSegmentsRequest_set_NewStartPosition (v : Z) (m : PurgeSegmentsRequest) : PurgeSegmentsRequest
  := mkPurgeSegmentsRequest (PurgeSegmentsRequest_ControlSessionId m) (PurgeSegmentsRequest_CorrelationId m)
  (PurgeSegmentsRequest_RecordingId m) v.

Definition PurgeSegmentsRequest_RangeCheck (m : PurgeSegmentsRequest) (actingVersion schemaVersion : Z) : option string :=
  first_error
    [ check_required PurgeSegmentsRequest_ControlSessionId_field actingVersion (PurgeSegmentsRequest_ControlSessionId m)
    ; check_required PurgeSegmentsRequest_CorrelationId_field actingVersion (PurgeSegmentsRequest_CorrelationId m)
    ; check_required PurgeSegmentsRequest_RecordingId_field actingVersion (PurgeSegmentsRequest_RecordingId m)
    ; check_required PurgeSegmentsRequest_NewStartPosition_field actingVersion (PurgeSegmentsRequest_NewStartPosition m) ].

Definition PurgeSegmentsRequest_Encode (m : PurgeSegmentsRequest) (doRangeCheck : bool) : M bytes unit :=
  when doRangeCheck (fail_if (PurgeSegmentsRequest_RangeCheck m 6 6)) ;;;
  WriteInt64 (PurgeSegmentsRequest_ControlSessionId m) ;;;
  WriteInt64 (PurgeSegmentsRequest_CorrelationId m) ;;;
  WriteInt64 (PurgeSegmentsRequest_RecordingId m) ;;;
  WriteInt64 (PurgeSegmentsRequest_NewStartPosition m).

Definition PurgeSegmentsRequest_Decode (actingVersion blockLength : Z) (doRangeCheck : bool) : M (bytes * PurgeSegmentsRequest) unit :=
  decode_field PurgeSegmentsRequest_ControlSessionId_field actingVersion ReadInt64 PurgeSegmentsRequest_set_ControlSessionId ;;;
  decode_field PurgeSegmentsRequest_CorrelationId_field actingVersion ReadInt64 PurgeSegmentsRequest_set_CorrelationId ;;;
  decode_field PurgeSegmentsRequest_RecordingId_field actingVersion ReadInt64 PurgeSegmentsRequest_set_RecordingId ;;;
  decode_field PurgeSegmentsRequest_NewStartPosition_field actingVersion ReadInt64 PurgeSegmentsRequest_set_NewStartPosition ;;;
  skip_block actingVersion 6 blockLength 32 ;;;
  when doRangeCheck (checked (fun m => PurgeSegmentsRequest_RangeCheck m actingVersion 6)).

#[export] Instance PurgeSegmentsRequest_codec : Codec PurgeSegmentsRequest := {|
  SbeBlockLength := 32; SbeTemplateId := 55; SbeSchemaId := 101; SbeSchemaVersion := 6;
  zero := mkPurgeSegmentsRequest 0 0 0 0;
  RangeCheck := PurgeSegmentsRequest_RangeCheck; Encode := PurgeSegmentsRequest_Encode; Decode := PurgeSegmentsRequest_Decode;
  valid m := is_i64 (PurgeSegmentsRequest_ControlSessionId m) /\ is_i64 (PurgeSegmentsRequest_CorrelationId m) /\ is_i64
    (PurgeSegmentsRequest_RecordingId m) /\ is_i64 (PurgeSegmentsRequest_NewStartPosition m);
  fixed_part m := le_split 8 (PurgeSegmentsRequest_ControlSessionId m) ++ le_split 8 (PurgeSegmentsRequest_CorrelationId m) ++
    le_split 8 (PurgeSegmentsRequest_RecordingId m) ++ le_split 8 (PurgeSegmentsRequest_NewStartPosition m);
  data_part m := [] |}.

#[export] Instance PurgeSegmentsRequest_laws : CodecLaws PurgeSegmentsRequest.
Proof. codec_laws PurgeSegmentsRequest_codec PurgeSegmentsRequest_Encode PurgeSegmentsRequest_Decode. Qed.

(** ** RecordingDescriptor *)

Record RecordingDescriptor : Type := mkRecordingDescriptor { RecordingDescriptor_ControlSessionId : Z;
  RecordingDescriptor_CorrelationId : Z; RecordingDescriptor_RecordingId : Z; RecordingDescriptor_StartTimestamp
  : Z; RecordingDescriptor_StopTimestamp : Z; RecordingDescriptor_StartPosition : Z;
  RecordingDescriptor_StopPosition : Z; RecordingDescriptor_InitialTermId : Z;
  RecordingDescriptor_SegmentFileLength : Z; RecordingDescriptor_TermBufferLength : Z;
  RecordingDescriptor_MtuLength : Z; RecordingDescriptor_SessionId : Z; RecordingDescriptor_StreamId : Z;
  RecordingDescriptor_StrippedChannel : bytes; RecordingDescriptor_OriginalChannel : bytes;
  RecordingDescriptor_SourceIdentity : bytes }.

Definition RecordingDescriptor_ControlSessionId_field : field := mkField 1 0 0 false (-9223372036854775807) 9223372036854775807 (-9223372036854775808).
Definition RecordingDescriptor_CorrelationId_field : field := mkField 2 0 0 false (-9223372036854775807) 9223372036854775807 (-9223372036854775808).
Definition RecordingDescriptor_RecordingId_field : field := mkField 3 0 0 false (-9223372036854775807) 9223372036854775807 (-9223372036854775808).
Definition RecordingDescriptor_StartTimestamp_field : field := mkField 4 0 0 false (-9223372036854775807) 9223372036854775807 (-9223372036854775808).
Definition RecordingDescriptor_StopTimestamp_field : field := mkField 5 0 0 false (-9223372036854775807) 9223372036854775807 (-9223372036854775808).
Definition RecordingDescriptor_StartPosition_field : field := mkField 6 0 0 false (-9223372036854775807) 9223372036854775807 (-9223372036854775808).
Definition RecordingDescriptor_StopPosition_field : field := mkField 7 0 0 false (-9223372036854775807) 9223372036854775807 (-9223372036854775808).
Definition RecordingDescriptor_InitialTermId_field : field := mkField 8 0 0 false (-2147483647) 2147483647 (-2147483648).
Definition RecordingDescriptor_SegmentFileLength_field : field := mkField 9 0 0 false (-2147483647) 2147483647 (-2147483648).
Definition RecordingDescriptor_TermBufferLength_field : field := mkField 10 0 0 false (-2147483647) 2147483647 (-2147483648).
Definition RecordingDescriptor_MtuLength_field : field := mkField 11 0 0 false (-2147483647) 2147483647 (-2147483648).
Definition RecordingDescriptor_SessionId_field : field := mkField 12 0 0 false (-2147483647) 2147483647 (-2147483648).
Definition RecordingDescriptor_StreamId_field : field := mkField 13 0 0 false (-2147483647) 2147483647 (-2147483648).
Definition RecordingDescriptor_StrippedChannel_field : data_field := mkDataField 0 0 "US-ASCII" 4.
Definition RecordingDescriptor_OriginalChannel_field : data_field := mkDataField 0 0 "US-ASCII" 4.
Definition RecordingDescriptor_SourceIdentity_field : data_field := mkDataField 0 0 "US-ASCII" 4.
Definition RecordingDescriptor_set_ControlSessionId (v : Z) (m : RecordingDescriptor) : RecordingDescriptor :=
  mkRecordingDescriptor v (RecordingDescriptor_CorrelationId m) (RecordingDescriptor_RecordingId m)
  (RecordingDescriptor_StartTimestamp m) (RecordingDescriptor_StopTimestamp m)
  (RecordingDescriptor_StartPosition m) (RecordingDescriptor_StopPosition m) (RecordingDescriptor_InitialTermId
  m) (RecordingDescriptor_SegmentFileLength m) (RecordingDescriptor_TermBufferLength m)
  (RecordingDescriptor_MtuLength m) (RecordingDescriptor_SessionId m) (RecordingDescriptor_StreamId m)
  (RecordingDescriptor_StrippedChannel m) (RecordingDescriptor_OriginalChannel m)
  (RecordingDescriptor_SourceIdentity m).
Definition RecordingDescriptor_set_CorrelationId (v : Z) (m : RecordingDescriptor) : RecordingDescriptor :=
  mkRecordingDescriptor (RecordingDescriptor_ControlSessionId m) v (RecordingDescriptor_RecordingId m)
  (RecordingDescriptor_StartTimestamp m) (RecordingDescriptor_StopTimestamp m)
  (RecordingDescriptor_StartPosition m) (RecordingDescriptor_StopPosition m) (RecordingDescriptor_InitialTermId
  m) (RecordingDescriptor_SegmentFileLength m) (RecordingDescriptor_TermBufferLength m)
  (RecordingDescriptor_MtuLength m) (RecordingDescriptor_SessionId m) (RecordingDescriptor_StreamId m)
  (RecordingDescriptor_StrippedChannel m) (RecordingDescriptor_OriginalChannel m)
  (RecordingDescriptor_SourceIdentity m).
Definition RecordingDescriptor_set_RecordingId (v : Z) (m : RecordingDescriptor) : RecordingDescriptor :=
  mkRecordingDescriptor (RecordingDescriptor_ControlSessionId m) (RecordingDescriptor_CorrelationId m) v
  (RecordingDescriptor_StartTimestamp m) (RecordingDescriptor_StopTimestamp m)
  (RecordingDescriptor_StartPosition m) (RecordingDescriptor_StopPosition m) (RecordingDescriptor_InitialTermId
  m) (RecordingDescriptor_SegmentFileLength m) (RecordingDescriptor_TermBufferLength m)
  (RecordingDescriptor_MtuLength m) (RecordingDescriptor_SessionId m) (RecordingDescriptor_StreamId m)
  (RecordingDescriptor_StrippedChannel m) (RecordingDescriptor_OriginalChannel m)
  (RecordingDescriptor_SourceIdentity m).
Definition RecordingDescriptor_set_StartTimestamp (v : Z) (m : RecordingDescriptor) : RecordingDescriptor :=
  mkRecordingDescriptor (RecordingDescriptor_ControlSessionId m) (RecordingDescriptor_CorrelationId m)
  (RecordingDescriptor_RecordingId m) v (RecordingDescriptor_StopTimestamp m) (RecordingDescriptor_StartPosition
  m) (RecordingDescriptor_StopPosition m) (RecordingDescriptor_InitialTermId m)
  (RecordingDescriptor_SegmentFileLength m) (RecordingDescriptor_TermBufferLength m)
  (RecordingDescriptor_MtuLength m) (RecordingDescriptor_SessionId m) (RecordingDescriptor_StreamId m)
  (RecordingDescriptor_StrippedChannel m) (RecordingDescriptor_OriginalChannel m)
  (RecordingDescriptor_SourceIdentity m).
Definition RecordingDescriptor_set_StopTimestamp (v : Z) (m : RecordingDescriptor) : RecordingDescriptor :=
  mkRecordingDescriptor (RecordingDescriptor_ControlSessionId m) (RecordingDescriptor_CorrelationId m)
  (RecordingDescriptor_RecordingId m) (RecordingDescriptor_StartTimestamp m) v
  (RecordingDescriptor_StartPosition m) (RecordingDescriptor_StopPosition m) (RecordingDescriptor_InitialTermId
  m) (RecordingDescriptor_SegmentFileLength m) (RecordingDescriptor_TermBufferLength m)
  (RecordingDescriptor_MtuLength m) (RecordingDescriptor_SessionId m) (RecordingDescriptor_StreamId m)
  (RecordingDescriptor_StrippedChannel m) (RecordingDescriptor_OriginalChannel m)
  (RecordingDescriptor_SourceIdentity m).
Definition RecordingDescriptor_set_StartPosition (v : Z) (m : RecordingDescriptor) : RecordingDescriptor :=
  mkRecordingDescriptor (RecordingDescriptor_ControlSessionId m) (RecordingDescriptor_CorrelationId m)
  (RecordingDescriptor_RecordingId m) (RecordingDescriptor_StartTimestamp m) (RecordingDescriptor_StopTimestamp
  m) v (RecordingDescriptor_StopPosition m) (RecordingDescriptor_InitialTermId m)
  (RecordingDescriptor_SegmentFileLength m) (RecordingDescriptor_TermBufferLength m)
  (RecordingDescriptor_MtuLength m) (RecordingDescriptor_SessionId m) (RecordingDescriptor_StreamId m)
  (RecordingDescriptor_StrippedChannel m) (RecordingDescriptor_OriginalChannel m)
  (RecordingDescriptor_SourceIdentity m).
Definition RecordingDescriptor_set_StopPosition (v : Z) (m : RecordingDescriptor) : RecordingDescriptor :=
  mkRecordingDescriptor (RecordingDescriptor_ControlSessionId m) (RecordingDescriptor_CorrelationId m)
  (RecordingDescriptor_RecordingId m) (RecordingDescriptor_StartTimestamp m) (RecordingDescriptor_StopTimestamp
  m) (RecordingDescriptor_StartPosition m) v (RecordingDescriptor_InitialTermId m)
  (RecordingDescriptor_SegmentFileLength m) (RecordingDescriptor_TermBufferLength m)
  (RecordingDescriptor_MtuLength m) (RecordingDescriptor_SessionId m) (RecordingDescriptor_StreamId m)
  (RecordingDescriptor_StrippedChannel m) (RecordingDescriptor_OriginalChannel m)
  (RecordingDescriptor_SourceIdentity m).
Definition RecordingDescriptor_set_InitialTermId (v : Z) (m : RecordingDescriptor) : RecordingDescriptor :=
  mkRecordingDescriptor (RecordingDescriptor_ControlSessionId m) (RecordingDescriptor_CorrelationId m)
  (RecordingDescriptor_RecordingId m) (RecordingDescriptor_StartTimestamp m) (RecordingDescriptor_StopTimestamp
  m) (RecordingDescriptor_StartPosition m) (RecordingDescriptor_StopPosition m) v
  (RecordingDescriptor_SegmentFileLength m) (RecordingDescriptor_TermBufferLength m)
  (RecordingDescriptor_MtuLength m) (RecordingDescriptor_SessionId m) (RecordingDescriptor_StreamId m)
  (RecordingDescriptor_StrippedChannel m) (RecordingDescriptor_OriginalChannel m)
  (RecordingDescriptor_SourceIdentity m).
Definition RecordingDescriptor_set_SegmentFileLength (v : Z) (m : RecordingDescriptor) : RecordingDescriptor :=
  mkRecordingDescriptor (RecordingDescriptor_ControlSessionId m) (RecordingDescriptor_CorrelationId m)
  (RecordingDescriptor_RecordingId m) (RecordingDescriptor_StartTimestamp m) (RecordingDescriptor_StopTimestamp
  m) (RecordingDescriptor_StartPosition m) (RecordingDescriptor_StopPosition m)
  (RecordingDescriptor_InitialTermId m) v (RecordingDescriptor_TermBufferLength m)
  (RecordingDescriptor_MtuLength m) (RecordingDescriptor_SessionId m) (RecordingDescriptor_StreamId m)
  (RecordingDescriptor_StrippedChannel m) (RecordingDescriptor_OriginalChannel m)
  (RecordingDescriptor_SourceIdentity m).
Definition RecordingDescriptor_set_TermBufferLength (v : Z) (m : RecordingDescriptor) : RecordingDescriptor :=
  mkRecordingDescriptor (RecordingDescriptor_ControlSessionId m) (RecordingDescriptor_CorrelationId m)
  (RecordingDescriptor_RecordingId m) (RecordingDescriptor_StartTimestamp m) (RecordingDescriptor_StopTimestamp
  m) (RecordingDescriptor_StartPosition m) (RecordingDescriptor_StopPosition m)
  (RecordingDescriptor_InitialTermId m) (RecordingDescriptor_SegmentFileLength m) v
  (RecordingDescriptor_MtuLength m) (RecordingDescriptor_SessionId m) (RecordingDescriptor_StreamId m)
  (RecordingDescriptor_StrippedChannel m) (RecordingDescriptor_OriginalChannel m)
  (RecordingDescriptor_SourceIdentity m).
Definition RecordingDescriptor_set_MtuLength (v : Z) (m : RecordingDescriptor) : RecordingDescriptor :=
  mkRecordingDescriptor (RecordingDescriptor_ControlSessionId m) (RecordingDescriptor_CorrelationId m)
  (RecordingDescriptor_RecordingId m) (RecordingDescriptor_StartTimestamp m) (RecordingDescriptor_StopTimestamp
  m) (RecordingDescriptor_StartPosition m) (RecordingDescriptor_StopPosition m)
  (RecordingDescriptor_InitialTermId m) (RecordingDescriptor_SegmentFileLength m)
  (RecordingDescriptor_TermBufferLength m) v (RecordingDescriptor_SessionId m) (RecordingDescriptor_StreamId m)
  (RecordingDescriptor_StrippedChannel m) (RecordingDescriptor_OriginalChannel m)
  (RecordingDescriptor_SourceIdentity m).
Definition RecordingDescriptor_set_SessionId (v : Z) (m : RecordingDescriptor) : RecordingDescriptor :=
  mkRecordingDescriptor (RecordingDescriptor_ControlSessionId m) (RecordingDescriptor_CorrelationId m)
  (RecordingDescriptor_RecordingId m) (RecordingDescriptor_StartTimestamp m) (RecordingDescriptor_StopTimestamp
  m) (RecordingDescriptor_StartPosition m) (RecordingDescriptor_StopPosition m)
  (RecordingDescriptor_InitialTermId m) (RecordingDescriptor_SegmentFileLength m)
  (RecordingDescriptor_TermBufferLength m) (RecordingDescriptor_MtuLength m) v (RecordingDescriptor_StreamId m)
  (RecordingDescriptor_StrippedChannel m) (RecordingDescriptor_OriginalChannel m)
  (RecordingDescriptor_SourceIdentity m).
Definition RecordingDescriptor_set_StreamId (v : Z) (m : RecordingDescriptor) : RecordingDescriptor :=
  mkRecordingDescriptor (RecordingDescriptor_ControlSessionId m) (RecordingDescriptor_CorrelationId m)
  (RecordingDescriptor_RecordingId m) (RecordingDescriptor_StartTimestamp m) (RecordingDescriptor_StopTimestamp
  m) (RecordingDescriptor_StartPosition m) (RecordingDescriptor_StopPosition m)
  (RecordingDescriptor_InitialTermId m) (RecordingDescriptor_SegmentFileLength m)
  (RecordingDescriptor_TermBufferLength m) (RecordingDescriptor_MtuLength m) (RecordingDescriptor_SessionId m) v
  (RecordingDescriptor_StrippedChannel m) (RecordingDescriptor_OriginalChannel m)
  (RecordingDescriptor_SourceIdentity m).
Definition RecordingDescriptor_set_StrippedChannel (v : bytes) (m : RecordingDescriptor) : RecordingDescriptor
  := mkRecordingDescriptor (RecordingDescriptor_ControlSessionId m) (RecordingDescriptor_CorrelationId m)
  (RecordingDescriptor_RecordingId m) (RecordingDescriptor_StartTimestamp m) (RecordingDescriptor_StopTimestamp
  m) (RecordingDescriptor_StartPosition m) (RecordingDescriptor_StopPosition m)
  (RecordingDescriptor_InitialTermId m) (RecordingDescriptor_SegmentFileLength m)
  (RecordingDescriptor_TermBufferLength m) (RecordingDescriptor_MtuLength m) (RecordingDescriptor_SessionId m)
  (RecordingDescriptor_StreamId m) v (RecordingDescriptor_OriginalChannel m) (RecordingDescriptor_SourceIdentity
  m).
Definition RecordingDescriptor_set_OriginalChannel (v : bytes) (m : RecordingDescriptor) : RecordingDescriptor
  := mkRecordingDescriptor (RecordingDescriptor_ControlSessionId m) (RecordingDescriptor_CorrelationId m)
  (RecordingDescriptor_RecordingId m) (RecordingDescriptor_StartTimestamp m) (RecordingDescriptor_StopTimestamp
  m) (RecordingDescriptor_StartPosition m) (RecordingDescriptor_StopPosition m)
  (RecordingDescriptor_InitialTermId m) (RecordingDescriptor_SegmentFileLength m)
  (RecordingDescriptor_TermBufferLength m) (RecordingDescriptor_MtuLength m) (RecordingDescriptor_SessionId m)
  (RecordingDescriptor_StreamId m) (RecordingDescriptor_StrippedChannel m) v (RecordingDescriptor_SourceIdentity
  m).
Definition RecordingDescriptor_set_SourceIdentity (v : bytes) (m : RecordingDescriptor) : RecordingDescriptor :=
  mkRecordingDescriptor (RecordingDescriptor_ControlSessionId m) (RecordingDescriptor_CorrelationId m)
  (RecordingDescriptor_RecordingId m) (RecordingDescriptor_StartTimestamp m) (RecordingDescriptor_StopTimestamp
  m) (RecordingDescriptor_StartPosition m) (RecordingDescriptor_StopPosition m)
  (RecordingDescriptor_InitialTermId m) (RecordingDescriptor_SegmentFileLength m)
  (RecordingDescriptor_TermBufferLength m) (RecordingDescriptor_MtuLength m) (RecordingDescriptor_SessionId m)
  (RecordingDescriptor_StreamId m) (RecordingDescriptor_StrippedChannel m) (RecordingDescriptor_OriginalChannel
  m) v.

Definition RecordingDescriptor_RangeCheck (m : RecordingDescriptor) (actingVersion schemaVersion : Z) : option string :=
  first_error
    [ check_required RecordingDescriptor_ControlSessionId_field actingVersion (RecordingDescriptor_ControlSessionId m)
    ; check_required RecordingDescriptor_CorrelationId_field actingVersion (RecordingDescriptor_CorrelationId m)
    ; check_required RecordingDescriptor_RecordingId_field actingVersion (RecordingDescriptor_RecordingId m)
    ; check_required RecordingDescriptor_StartTimestamp_field actingVersion (RecordingDescriptor_StartTimestamp m)
    ; check_required RecordingDescriptor_StopTimestamp_field actingVersion (RecordingDescriptor_StopTimestamp m)
    ; check_required RecordingDescriptor_StartPosition_field actingVersion (RecordingDescriptor_StartPosition m)
    ; check_required RecordingDescriptor_StopPosition_field actingVersion (RecordingDescriptor_StopPosition m)
    ; check_required RecordingDescriptor_InitialTermId_field actingVersion (RecordingDescriptor_InitialTermId m)
    ; check_required RecordingDescriptor_SegmentFileLength_field actingVersion (RecordingDescriptor_SegmentFileLength m)
    ; check_required RecordingDescriptor_TermBufferLength_field actingVersion (RecordingDescriptor_TermBufferLength m)
    ; check_required RecordingDescriptor_MtuLength_field actingVersion (RecordingDescriptor_MtuLength m)
    ; check_required RecordingDescriptor_SessionId_field actingVersion (RecordingDescriptor_SessionId m)
    ; check_required RecordingDescriptor_StreamId_field actingVersion (RecordingDescriptor_StreamId m) ].

Definition RecordingDescriptor_Encode (m : RecordingDescriptor) (doRangeCheck : bool) : M bytes unit :=
  when doRangeCheck (fail_if (RecordingDescriptor_RangeCheck m 6 6)) ;;;
  WriteInt64 (RecordingDescriptor_ControlSessionId m) ;;;
  WriteInt64 (RecordingDescriptor_CorrelationId m) ;;;
  WriteInt64 (RecordingDescriptor_RecordingId m) ;;;
  WriteInt64 (RecordingDescriptor_StartTimestamp m) ;;;
  WriteInt64 (RecordingDescriptor_StopTimestamp m) ;;;
  WriteInt64 (RecordingDescriptor_StartPosition m) ;;;
  WriteInt64 (RecordingDescriptor_StopPosition m) ;;;
  WriteInt32 (RecordingDescriptor_InitialTermId m) ;;;
  WriteInt32 (RecordingDescriptor_SegmentFileLength m) ;;;
  WriteInt32 (RecordingDescriptor_TermBufferLength m) ;;;
  WriteInt32 (RecordingDescriptor_MtuLength m) ;;;
  WriteInt32 (RecordingDescriptor_SessionId m) ;;;
  WriteInt32 (RecordingDescriptor_StreamId m) ;;;
  WriteUint32 (u32 (zlen (RecordingDescriptor_StrippedChannel m))) ;;;
  WriteBytes (RecordingDescriptor_StrippedChannel m) ;;;
  WriteUint32 (u32 (zlen (RecordingDescriptor_OriginalChannel m))) ;;;
  WriteBytes (RecordingDescriptor_OriginalChannel m) ;;;
  WriteUint32 (u32 (zlen (RecordingDescriptor_SourceIdentity m))) ;;;
  WriteBytes (RecordingDescriptor_SourceIdentity m).

Definition RecordingDescriptor_Decode (actingVersion blockLength : Z) (doRangeCheck : bool) : M (bytes * RecordingDescriptor) unit :=
  decode_field RecordingDescriptor_ControlSessionId_field actingVersion ReadInt64 RecordingDescriptor_set_ControlSessionId ;;;
  decode_field RecordingDescriptor_CorrelationId_field actingVersion ReadInt64 RecordingDescriptor_set_CorrelationId ;;;
  decode_field RecordingDescriptor_RecordingId_field actingVersion ReadInt64 RecordingDescriptor_set_RecordingId ;;;
  decode_field RecordingDescriptor_StartTimestamp_field actingVersion ReadInt64 RecordingDescriptor_set_StartTimestamp ;;;
  decode_field RecordingDescriptor_StopTimestamp_field actingVersion ReadInt64 RecordingDescriptor_set_StopTimestamp ;;;
  decode_field RecordingDescriptor_StartPosition_field actingVersion ReadInt64 RecordingDescriptor_set_StartPosition ;;;
  decode_field RecordingDescriptor_StopPosition_field actingVersion ReadInt64 RecordingDescriptor_set_StopPosition ;;;
  decode_field RecordingDescriptor_InitialTermId_field actingVersion ReadInt32 RecordingDescriptor_set_InitialTermId ;;;
  decode_field RecordingDescriptor_SegmentFileLength_field actingVersion ReadInt32 RecordingDescriptor_set_SegmentFileLength ;;;
  decode_field RecordingDescriptor_TermBufferLength_field actingVersion ReadInt32 RecordingDescriptor_set_TermBufferLength ;;;
  decode_field RecordingDescriptor_MtuLength_field actingVersion ReadInt32 RecordingDescriptor_set_MtuLength ;;;
  decode_field RecordingDescriptor_SessionId_field actingVersion ReadInt32 RecordingDescriptor_set_SessionId ;;;
  decode_field RecordingDescriptor_StreamId_field actingVersion ReadInt32 RecordingDescriptor_set_StreamId ;;;
  skip_block actingVersion 6 blockLength 80 ;;;
  decode_data RecordingDescriptor_StrippedChannel_field actingVersion RecordingDescriptor_set_StrippedChannel ;;;
  decode_data RecordingDescriptor_OriginalChannel_field actingVersion RecordingDescriptor_set_OriginalChannel ;;;
  decode_data RecordingDescriptor_SourceIdentity_field actingVersion RecordingDescriptor_set_SourceIdentity ;;;
  when doRangeCheck (checked (fun m => RecordingDescriptor_RangeCheck m actingVersion 6)).

#[export] Instance RecordingDescriptor_codec : Codec RecordingDescriptor := {|
  SbeBlockLength := 80; SbeTemplateId := 22; SbeSchemaId := 101; SbeSchemaVersion := 6;
  zero := mkRecordingDescriptor 0 0 0 0 0 0 0 0 0 0 0 0 0 [] [] [];
  RangeCheck := RecordingDescriptor_RangeCheck; Encode := RecordingDescriptor_Encode; Decode := RecordingDescriptor_Decode;
  valid m := is_i64 (RecordingDescriptor_ControlSessionId m) /\ is_i64 (RecordingDescriptor_CorrelationId m) /\ is_i64
    (RecordingDescriptor_RecordingId m) /\ is_i64 (RecordingDescriptor_StartTimestamp m) /\ is_i64
    (RecordingDescriptor_StopTimestamp m) /\ is_i64 (RecordingDescriptor_StartPosition m) /\ is_i64
    (RecordingDescriptor_StopPosition m) /\ is_i32 (RecordingDescriptor_InitialTermId m) /\ is_i32
    (RecordingDescriptor_SegmentFileLength m) /\ is_i32 (RecordingDescriptor_TermBufferLength m) /\ is_i32
    (RecordingDescriptor_MtuLength m) /\ is_i32 (RecordingDescriptor_SessionId m) /\ is_i32
    (RecordingDescriptor_StreamId m) /\ zlen (RecordingDescriptor_StrippedChannel m) < 4294967296 /\ zlen
    (RecordingDescriptor_OriginalChannel m) < 4294967296 /\ zlen (RecordingDescriptor_SourceIdentity m) <
    4294967296;
  fixed_part m := le_split 8 (RecordingDescriptor_ControlSessionId m) ++ le_split 8 (RecordingDescriptor_CorrelationId m) ++
    le_split 8 (RecordingDescriptor_RecordingId m) ++ le_split 8 (RecordingDescriptor_StartTimestamp m) ++
    le_split 8 (RecordingDescriptor_StopTimestamp m) ++ le_split 8 (RecordingDescriptor_StartPosition m) ++
    le_split 8 (RecordingDescriptor_StopPosition m) ++ le_split 4 (RecordingDescriptor_InitialTermId m) ++
    le_split 4 (RecordingDescriptor_SegmentFileLength m) ++ le_split 4 (RecordingDescriptor_TermBufferLength m)
    ++ le_split 4 (RecordingDescriptor_MtuLength m) ++ le_split 4 (RecordingDescriptor_SessionId m) ++ le_split
    4 (RecordingDescriptor_StreamId m);
  data_part m := data_bytes (RecordingDescriptor_StrippedChannel m) ++ data_bytes (RecordingDescriptor_OriginalChannel m) ++
    data_bytes (RecordingDescriptor_SourceIdentity m) |}.

#[export] Instance RecordingDescriptor_laws : CodecLaws RecordingDescriptor.
Proof. codec_laws RecordingDescriptor_codec RecordingDescriptor_Encode RecordingDescriptor_Decode. Qed.

(** ** RecordingDescriptorHeader *)

Record RecordingDescriptorHeader : Type := mkRecordingDescriptorHeader { RecordingDescriptorHeader_Length : Z;
  RecordingDescriptorHeader_State : Z; RecordingDescriptorHeader_Checksum : Z;
  RecordingDescriptorHeader_Reserved : Z }.

Definition RecordingDescriptorHeader_Length_field : field := mkField 1 0 0 false (-2147483647) 2147483647 (-2147483648).
Definition RecordingDescriptorHeader_State_field : field := mkField 2 0 0 false 0 0 0.
Definition RecordingDescriptorHeader_Checksum_field : field := mkField 4 0 0 false (-2147483647) 2147483647 (-2147483648).
Definition RecordingDescriptorHeader_Reserved_field : field := mkField 3 0 0 false (-127) 127 (-128).
Definition RecordingDescriptorHeader_set_Length (v : Z) (m : RecordingDescriptorHeader) :
  RecordingDescriptorHeader := mkRecordingDescriptorHeader v (RecordingDescriptorHeader_State m)
  (RecordingDescriptorHeader_Checksum m) (RecordingDescriptorHeader_Reserved m).
Definition RecordingDescriptorHeader_set_State (v : Z) (m : RecordingDescriptorHeader) :
  RecordingDescriptorHeader := mkRecordingDescriptorHeader (RecordingDescriptorHeader_Length m) v
  (RecordingDescriptorHeader_Checksum m) (RecordingDescriptorHeader_Reserved m).
Definition RecordingDescriptorHeader_set_Checksum (v : Z) (m : RecordingDescriptorHeader) :
  RecordingDescriptorHeader := mkRecordingDescriptorHeader (RecordingDescriptorHeader_Length m)
  (RecordingDescriptorHeader_State m) v (RecordingDescriptorHeader_Reserved m).
Definition RecordingDescriptorHeader_set_Reserved (v : Z) (m : RecordingDescriptorHeader) :
  RecordingDescriptorHeader := mkRecordingDescriptorHeader (RecordingDescriptorHeader_Length m)
  (RecordingDescriptorHeader_State m) (RecordingDescriptorHeader_Checksum m) v.

Definition RecordingDescriptorHeader_RangeCheck (m : RecordingDescriptorHeader) (actingVersion schemaVersion : Z) : option string :=
  first_error
    [ check_required RecordingDescriptorHeader_Length_field actingVersion (RecordingDescriptorHeader_Length m)
    ; check_enum RecordingStateValues actingVersion schemaVersion (RecordingDescriptorHeader_State m)
    ; check_required RecordingDescriptorHeader_Checksum_field actingVersion (RecordingDescriptorHeader_Checksum m)
    ; check_required RecordingDescriptorHeader_Reserved_field actingVersion (RecordingDescriptorHeader_Reserved m) ].

Definition RecordingDescriptorHeader_Encode (m : RecordingDescriptorHeader) (doRangeCheck : bool) : M bytes unit :=
  when doRangeCheck (fail_if (RecordingDescriptorHeader_RangeCheck m 6 6)) ;;;
  WriteInt32 (RecordingDescriptorHeader_Length m) ;;;
  WriteInt32 (RecordingDescriptorHeader_State m) ;;;
  WriteInt32 (RecordingDescriptorHeader_Checksum m) ;;;
  WriteZeros 19 ;;;
  WriteInt8 (RecordingDescriptorHeader_Reserved m).

Definition RecordingDescriptorHeader_Decode (actingVersion blockLength : Z) (doRangeCheck : bool) : M (bytes * RecordingDescriptorHeader) unit :=
  decode_field RecordingDescriptorHeader_Length_field actingVersion ReadInt32 RecordingDescriptorHeader_set_Length ;;;
  decode_enum RecordingDescriptorHeader_State_field actingVersion ReadInt32 RecordingDescriptorHeader_set_State ;;;
  decode_field RecordingDescriptorHeader_Checksum_field actingVersion ReadInt32 RecordingDescriptorHeader_set_Checksum ;;;
  Discard 19 ;;;
  decode_field RecordingDescriptorHeader_Reserved_field actingVersion ReadInt8 RecordingDescriptorHeader_set_Reserved ;;;
  skip_block actingVersion 6 blockLength 32 ;;;
  when doRangeCheck (checked (fun m => RecordingDescriptorHeader_RangeCheck m actingVersion 6)).

#[export] Instance RecordingDescriptorHeader_codec : Codec RecordingDescriptorHeader := {|
  SbeBlockLength := 32; SbeTemplateId := 21; SbeSchemaId := 101; SbeSchemaVersion := 6;
  zero := mkRecordingDescriptorHeader 0 0 0 0;
  RangeCheck := RecordingDescriptorHeader_RangeCheck; Encode := RecordingDescriptorHeader_Encode; Decode := RecordingDescriptorHeader_Decode;
  valid m := is_i32 (RecordingDescriptorHeader_Length m) /\ is_i32 (RecordingDescriptorHeader_State m) /\ is_i32
    (RecordingDescriptorHeader_Checksum m) /\ is_i8 (RecordingDescriptorHeader_Reserved m);
  fixed_part m := le_split 4 (RecordingDescriptorHeader_Length m) ++ le_split 4 (RecordingDescriptorHeader_State m) ++ le_split 4
    (RecordingDescriptorHeader_Checksum m) ++ replicate 19 Byte.x00 ++ le_split 1
    (RecordingDescriptorHeader_Reserved m);
  data_part m := [] |}.

#[export] Instance RecordingDescriptorHeader_laws : CodecLaws RecordingDescriptorHeader.
Proof. codec_laws RecordingDescriptorHeader_codec RecordingDescriptorHeader_Encode RecordingDescriptorHeader_Decode. Qed.

(** ** RecordingPositionRequest *)

Record RecordingPositionRequest : Type := mkRecordingPositionRequest { RecordingPositionRequest_ControlSessionId
  : Z; RecordingPositionRequest_CorrelationId : Z; RecordingPositionRequest_RecordingId : Z }.

Definition RecordingPositionRequest_ControlSessionId_field : field := mkField 1 0 0 false (-9223372036854775807) 9223372036854775807 (-9223372036854775808).
Definition RecordingPositionRequest_CorrelationId_field : field := mkField 2 0 0 false (-9223372036854775807) 9223372036854775807 (-9223372036854775808).
Definition RecordingPositionRequest_RecordingId_field : field := mkField 3 0 0 false (-9223372036854775807) 9223372036854775807 (-9223372036854775808).
Definition RecordingPositionRequest_set_ControlSessionId (v : Z) (m : RecordingPositionRequest) :
  RecordingPositionRequest := mkRecordingPositionRequest v (RecordingPositionRequest_CorrelationId m)
  (RecordingPositionRequest_RecordingId m).
Definition RecordingPositionRequest_set_CorrelationId (v : Z) (m : RecordingPositionRequest) :
  RecordingPositionRequest := mkRecordingPositionRequest (RecordingPositionRequest_ControlSessionId m) v
  (RecordingPositionRequest_RecordingId m).
Definition RecordingPositionRequest_set_RecordingId (v : Z) (m : RecordingPositionRequest) :
  RecordingPositionRequest := mkRecordingPositionRequest (RecordingPositionRequest_ControlSessionId m)
  (RecordingPositionRequest_CorrelationId m) v.

Definition RecordingPositionRequest_RangeCheck (m : RecordingPositionRequest) (actingVersion schemaVersion : Z) : option string :=
  first_error
    [ check_required RecordingPositionRequest_ControlSessionId_field actingVersion (RecordingPositionRequest_ControlSessionId m)
    ; check_required RecordingPositionRequest_CorrelationId_field actingVersion (RecordingPositionRequest_CorrelationId m)
    ; check_required RecordingPositionRequest_RecordingId_field actingVersion (RecordingPositionRequest_RecordingId m) ].

Definition RecordingPositionRequest_Encode (m : RecordingPositionRequest) (doRangeCheck : bool) : M bytes unit :=
  when doRangeCheck (fail_if (RecordingPositionRequest_RangeCheck m 6 6)) ;;;
  WriteInt64 (RecordingPositionRequest_ControlSessionId m) ;;;
  WriteInt64 (RecordingPositionRequest_CorrelationId m) ;;;
  WriteInt64 (RecordingPositionRequest_RecordingId m).

Definition RecordingPositionRequest_Decode (actingVersion blockLength : Z) (doRangeCheck : bool) : M (bytes * RecordingPositionRequest) unit :=
  decode_field RecordingPositionRequest_ControlSessionId_field actingVersion ReadInt64 RecordingPositionRequest_set_ControlSessionId ;;;
  decode_field RecordingPositionRequest_CorrelationId_field actingVersion ReadInt64 RecordingPositionRequest_set_CorrelationId ;;;
  decode_field RecordingPositionRequest_RecordingId_field actingVersion ReadInt64 RecordingPositionRequest_set_RecordingId ;;;
  skip_block actingVersion 6 blockLength 24 ;;;
  when doRangeCheck (checked (fun m => RecordingPositionRequest_RangeCheck m actingVersion 6)).

#[export] Instance RecordingPositionRequest_codec : Codec RecordingPositionRequest := {|
  SbeBlockLength := 24; SbeTemplateId := 12; SbeSchemaId := 101; SbeSchemaVersion := 6;
  zero := mkRecordingPositionRequest 0 0 0;
  RangeCheck := RecordingPositionRequest_RangeCheck; Encode := RecordingPositionRequest_Encode; Decode := RecordingPositionRequest_Decode;
  valid m := is_i64 (RecordingPositionRequest_ControlSessionId m) /\ is_i64 (RecordingPositionRequest_CorrelationId m) /\
    is_i64 (RecordingPositionRequest_RecordingId m);
  fixed_part m := le_split 8 (RecordingPositionRequest_ControlSessionId m) ++ le_split 8 (RecordingPositionRequest_CorrelationId
    m) ++ le_split 8 (RecordingPositionRequest_RecordingId m);
  data_part m := [] |}.

#[export] Instance RecordingPositionRequest_laws : CodecLaws RecordingPositionRequest.
Proof. codec_laws RecordingPositionRequest_codec RecordingPositionRequest_Encode RecordingPositionRequest_Decode. Qed.

(** ** RecordingProgress *)

Record RecordingProgress : Type := mkRecordingProgress { RecordingProgress_RecordingId : Z;
  RecordingProgress_StartPosition : Z; RecordingProgress_Position : Z }.

Definition RecordingProgress_RecordingId_field : field := mkField 1 0 0 false (-9223372036854775807) 9223372036854775807 (-9223372036854775808).
Definition RecordingProgress_StartPosition_field : field := mkField 2 0 0 false (-9223372036854775807) 9223372036854775807 (-9223372036854775808).
Definition RecordingProgress_Position_field : field := mkField 3 0 0 false (-9223372036854775807) 9223372036854775807 (-9223372036854775808).
Definition RecordingProgress_set_RecordingId (v : Z) (m : RecordingProgress) : RecordingProgress :=
  mkRecordingProgress v (RecordingProgress_StartPosition m) (RecordingProgress_Position m).
Definition RecordingProgress_set_StartPosition (v : Z) (m : RecordingProgress) : RecordingProgress :=
  mkRecordingProgress (RecordingProgress_RecordingId m) v (RecordingProgress_Position m).
Definition RecordingProgress_set_Position (v : Z) (m : RecordingProgress) : RecordingProgress :=
  mkRecordingProgress (RecordingProgress_RecordingId m) (RecordingProgress_StartPosition m) v.

Definition RecordingProgress_RangeCheck (m : RecordingProgress) (actingVersion schemaVersion : Z) : option string :=
  first_error
    [ check_required RecordingProgress_RecordingId_field actingVersion (RecordingProgress_RecordingId m)
    ; check_required RecordingProgress_StartPosition_field actingVersion (RecordingProgress_StartPosition m)
    ; check_required RecordingProgress_Position_field actingVersion (RecordingProgress_Position m) ].

Definition RecordingProgress_Encode (m : RecordingProgress) (doRangeCheck : bool) : M bytes unit :=
  when doRangeCheck (fail_if (RecordingProgress_RangeCheck m 6 6)) ;;;
  WriteInt64 (RecordingProgress_RecordingId m) ;;;
  WriteInt64 (RecordingProgress_StartPosition m) ;;;
  WriteInt64 (RecordingProgress_Position m).

Definition RecordingProgress_Decode (actingVersion blockLength : Z) (doRangeCheck : bool) : M (bytes * RecordingProgress) unit :=
  decode_field RecordingProgress_RecordingId_field actingVersion ReadInt64 RecordingProgress_set_RecordingId ;;;
  decode_field RecordingProgress_StartPosition_field actingVersion ReadInt64 RecordingProgress_set_StartPosition ;;;
  decode_field RecordingProgress_Position_field actingVersion ReadInt64 RecordingProgress_set_Position ;;;
  skip_block actingVersion 6 blockLength 24 ;;;
  when doRangeCheck (checked (fun m => RecordingProgress_RangeCheck m actingVersion 6)).

#[export] Instance RecordingProgress_codec : Codec RecordingProgress := {|
  SbeBlockLength := 24; SbeTemplateId := 102; SbeSchemaId := 101; SbeSchemaVersion := 6;
  zero := mkRecordingProgress 0 0 0;
  RangeCheck := RecordingProgress_RangeCheck; Encode := RecordingProgress_Encode; Decode := RecordingProgress_Decode;
  valid m := is_i64 (RecordingProgress_RecordingId m) /\ is_i64 (RecordingProgress_StartPosition m) /\ is_i64
    (RecordingProgress_Position m);
  fixed_part m := le_split 8 (RecordingProgress_RecordingId m) ++ le_split 8 (RecordingProgress_StartPosition m) ++ le_split 8
    (RecordingProgress_Position m);
  data_part m := [] |}.

#[export] Instance RecordingProgress_laws : CodecLaws RecordingProgress.
Proof. codec_laws RecordingProgress_codec RecordingProgress_Encode RecordingProgress_Decode. Qed.

(** ** RecordingSignalEvent *)

Record RecordingSignalEvent : Type := mkRecordingSignalEvent { RecordingSignalEvent_ControlSessionId : Z;
  RecordingSignalEvent_CorrelationId : Z; RecordingSignalEvent_RecordingId : Z;
  RecordingSignalEvent_SubscriptionId : Z; RecordingSignalEvent_Position : Z; RecordingSignalEvent_Signal : Z }.

Definition RecordingSignalEvent_ControlSessionId_field : field := mkField 1 0 0 false (-9223372036854775807) 9223372036854775807 (-9223372036854775808).
Definition RecordingSignalEvent_CorrelationId_field : field := mkField 2 0 0 false (-9223372036854775807) 9223372036854775807 (-9223372036854775808).
Definition RecordingSignalEvent_RecordingId_field : field := mkField 3 0 0 false (-9223372036854775807) 9223372036854775807 (-9223372036854775808).
Definition RecordingSignalEvent_SubscriptionId_field : field := mkField 4 0 0 false (-9223372036854775807) 9223372036854775807 (-9223372036854775808).
Definition RecordingSignalEvent_Position_field : field := mkField 5 0 0 false (-9223372036854775807) 9223372036854775807 (-9223372036854775808).
Definition RecordingSignalEvent_Signal_field : field := mkField 6 0 0 false 0 0 0.
Definition RecordingSignalEvent_set_ControlSessionId (v : Z) (m : RecordingSignalEvent) : RecordingSignalEvent
  := mkRecordingSignalEvent v (RecordingSignalEvent_CorrelationId m) (RecordingSignalEvent_RecordingId m)
  (RecordingSignalEvent_SubscriptionId m) (RecordingSignalEvent_Position m) (RecordingSignalEvent_Signal m).
Definition RecordingSignalEvent_set_CorrelationId (v : Z) (m : RecordingSignalEvent) : RecordingSignalEvent :=
  mkRecordingSignalEvent (RecordingSignalEvent_ControlSessionId m) v (RecordingSignalEvent_RecordingId m)
  (RecordingSignalEvent_SubscriptionId m) (RecordingSignalEvent_Position m) (RecordingSignalEvent_Signal m).
Definition RecordingSignalEvent_set_RecordingId (v : Z) (m : RecordingSignalEvent) : RecordingSignalEvent :=
  mkRecordingSignalEvent (RecordingSignalEvent_ControlSessionId m) (RecordingSignalEvent_CorrelationId m) v
  (RecordingSignalEvent_SubscriptionId m) (RecordingSignalEvent_Position m) (RecordingSignalEvent_Signal m).
Definition RecordingSignalEvent_set_SubscriptionId (v : Z) (m : RecordingSignalEvent) : RecordingSignalEvent :=
  mkRecordingSignalEvent (RecordingSignalEvent_ControlSessionId m) (RecordingSignalEvent_CorrelationId m)
  (RecordingSignalEvent_RecordingId m) v (RecordingSignalEvent_Position m) (RecordingSignalEvent_Signal m).
Definition RecordingSignalEvent_set_Position (v : Z) (m : RecordingSignalEvent) : RecordingSignalEvent :=
  mkRecordingSignalEvent (RecordingSignalEvent_ControlSessionId m) (RecordingSignalEvent_CorrelationId m)
  (RecordingSignalEvent_RecordingId m) (RecordingSignalEvent_SubscriptionId m) v (RecordingSignalEvent_Signal
  m).
Definition RecordingSignalEvent_set_Signal (v : Z) (m : RecordingSignalEvent) : RecordingSignalEvent :=
  mkRecordingSignalEvent (RecordingSignalEvent_ControlSessionId m) (RecordingSignalEvent_CorrelationId m)
  (RecordingSignalEvent_RecordingId m) (RecordingSignalEvent_SubscriptionId m) (RecordingSignalEvent_Position m)
  v.

Definition RecordingSignalEvent_RangeCheck (m : RecordingSignalEvent) (actingVersion schemaVersion : Z) : option string :=
  first_error
    [ check_required RecordingSignalEvent_ControlSessionId_field actingVersion (RecordingSignalEvent_ControlSessionId m)
    ; check_required RecordingSignalEvent_CorrelationId_field actingVersion (RecordingSignalEvent_CorrelationId m)
    ; check_required RecordingSignalEvent_RecordingId_field actingVersion (RecordingSignalEvent_RecordingId m)
    ; check_required RecordingSignalEvent_SubscriptionId_field actingVersion (RecordingSignalEvent_SubscriptionId m)
    ; check_required RecordingSignalEvent_Position_field actingVersion (RecordingSignalEvent_Position m)
    ; check_enum RecordingSignalValues actingVersion schemaVersion (RecordingSignalEvent_Signal m) ].

Definition RecordingSignalEvent_Encode (m : RecordingSignalEvent) (doRangeCheck : bool) : M bytes unit :=
  when doRangeCheck (fail_if (RecordingSignalEvent_RangeCheck m 6 6)) ;;;
  WriteInt64 (RecordingSignalEvent_ControlSessionId m) ;;;
  WriteInt64 (RecordingSignalEvent_CorrelationId m) ;;;
  WriteInt64 (RecordingSignalEvent_RecordingId m) ;;;
  WriteInt64 (RecordingSignalEvent_SubscriptionId m) ;;;
  WriteInt64 (RecordingSignalEvent_Position m) ;;;
  WriteInt32 (RecordingSignalEvent_Signal m).

Definition RecordingSignalEvent_Decode (actingVersion blockLength : Z) (doRangeCheck : bool) : M (bytes * RecordingSignalEvent) unit :=
  decode_field RecordingSignalEvent_ControlSessionId_field actingVersion ReadInt64 RecordingSignalEvent_set_ControlSessionId ;;;
  decode_field RecordingSignalEvent_CorrelationId_field actingVersion ReadInt64 RecordingSignalEvent_set_CorrelationId ;;;
  decode_field RecordingSignalEvent_RecordingId_field actingVersion ReadInt64 RecordingSignalEvent_set_RecordingId ;;;
  decode_field RecordingSignalEvent_SubscriptionId_field actingVersion ReadInt64 RecordingSignalEvent_set_SubscriptionId ;;;
  decode_field RecordingSignalEvent_Position_field actingVersion ReadInt64 RecordingSignalEvent_set_Position ;;;
  decode_enum RecordingSignalEvent_Signal_field actingVersion ReadInt32 RecordingSignalEvent_set_Signal ;;;
  skip_block actingVersion 6 blockLength 44 ;;;
  when doRangeCheck (checked (fun m => RecordingSignalEvent_RangeCheck m actingVersion 6)).

#[export] Instance RecordingSignalEvent_codec : Codec RecordingSignalEvent := {|
  SbeBlockLength := 44; SbeTemplateId := 24; SbeSchemaId := 101; SbeSchemaVersion := 6;
  zero := mkRecordingSignalEvent 0 0 0 0 0 0;
  RangeCheck := RecordingSignalEvent_RangeCheck; Encode := RecordingSignalEvent_Encode; Decode := RecordingSignalEvent_Decode;
  valid m := is_i64 (RecordingSignalEvent_ControlSessionId m) /\ is_i64 (RecordingSignalEvent_CorrelationId m) /\ is_i64
    (RecordingSignalEvent_RecordingId m) /\ is_i64 (RecordingSignalEvent_SubscriptionId m) /\ is_i64
    (RecordingSignalEvent_Position m) /\ is_i32 (RecordingSignalEvent_Signal m);
  fixed_part m := le_split 8 (RecordingSignalEvent_ControlSessionId m) ++ le_split 8 (RecordingSignalEvent_CorrelationId m) ++
    le_split 8 (RecordingSignalEvent_RecordingId m) ++ le_split 8 (RecordingSignalEvent_SubscriptionId m) ++
    le_split 8 (RecordingSignalEvent_Position m) ++ le_split 4 (RecordingSignalEvent_Signal m);
  data_part m := [] |}.

#[export] Instance RecordingSignalEvent_laws : CodecLaws RecordingSignalEvent.
Proof. codec_laws RecordingSignalEvent_codec RecordingSignalEvent_Encode RecordingSignalEvent_Decode. Qed.

(** ** RecordingStarted *)

Record RecordingStarted : Type := mkRecordingStarted { RecordingStarted_RecordingId : Z;
  RecordingStarted_StartPosition : Z; RecordingStarted_SessionId : Z; RecordingStarted_StreamId : Z;
  RecordingStarted_Channel : bytes; RecordingStarted_SourceIdentity : bytes }.

Definition RecordingStarted_RecordingId_field : field := mkField 1 0 0 false (-9223372036854775807) 9223372036854775807 (-9223372036854775808).
Definition RecordingStarted_StartPosition_field : field := mkField 2 0 0 false (-9223372036854775807) 9223372036854775807 (-9223372036854775808).
Definition RecordingStarted_SessionId_field : field := mkField 3 0 0 false (-2147483647) 2147483647 (-2147483648).
Definition RecordingStarted_StreamId_field : field := mkField 4 0 0 false (-2147483647) 2147483647 (-2147483648).
Definition RecordingStarted_Channel_field : data_field := mkDataField 0 0 "US-ASCII" 4.
Definition RecordingStarted_SourceIdentity_field : data_field := mkDataField 0 0 "US-ASCII" 4.
Definition RecordingStarted_set_RecordingId (v : Z) (m : RecordingStarted) : RecordingStarted :=
  mkRecordingStarted v (RecordingStarted_StartPosition m) (RecordingStarted_SessionId m)
  (RecordingStarted_StreamId m) (RecordingStarted_Channel m) (RecordingStarted_SourceIdentity m).
Definition RecordingStarted_set_StartPosition (v : Z) (m : RecordingStarted) : RecordingStarted :=
  mkRecordingStarted (RecordingStarted_RecordingId m) v (RecordingStarted_SessionId m)
  (RecordingStarted_StreamId m) (RecordingStarted_Channel m) (RecordingStarted_SourceIdentity m).
Definition RecordingStarted_set_SessionId (v : Z) (m : RecordingStarted) : RecordingStarted :=
  mkRecordingStarted (RecordingStarted_RecordingId m) (RecordingStarted_StartPosition m) v
  (RecordingStarted_StreamId m) (RecordingStarted_Channel m) (RecordingStarted_SourceIdentity m).
Definition RecordingStarted_set_StreamId (v : Z) (m : RecordingStarted) : RecordingStarted := mkRecordingStarted
  (RecordingStarted_RecordingId m) (RecordingStarted_StartPosition m) (RecordingStarted_SessionId m) v
  (RecordingStarted_Channel m) (RecordingStarted_SourceIdentity m).
Definition RecordingStarted_set_Channel (v : bytes) (m : RecordingStarted) : RecordingStarted :=
  mkRecordingStarted (RecordingStarted_RecordingId m) (RecordingStarted_StartPosition m)
  (RecordingStarted_SessionId m) (RecordingStarted_StreamId m) v (RecordingStarted_SourceIdentity m).
Definition RecordingStarted_set_SourceIdentity (v : bytes) (m : RecordingStarted) : RecordingStarted :=
  mkRecordingStarted (RecordingStarted_RecordingId m) (RecordingStarted_StartPosition m)
  (RecordingStarted_SessionId m) (RecordingStarted_StreamId m) (RecordingStarted_Channel m) v.

Definition RecordingStarted_RangeCheck (m : RecordingStarted) (actingVersion schemaVersion : Z) : option string :=
  first_error
    [ check_required RecordingStarted_RecordingId_field actingVersion (RecordingStarted_RecordingId m)
    ; check_required RecordingStarted_StartPosition_field actingVersion (RecordingStarted_StartPosition m)
    ; check_required RecordingStarted_SessionId_field actingVersion (RecordingStarted_SessionId m)
    ; check_required RecordingStarted_StreamId_field actingVersion (RecordingStarted_StreamId m) ].

Definition RecordingStarted_Encode (m : RecordingStarted) (doRangeCheck : bool) : M bytes unit :=
  when doRangeCheck (fail_if (RecordingStarted_RangeCheck m 6 6)) ;;;
  WriteInt64 (RecordingStarted_RecordingId m) ;;;
  WriteInt64 (RecordingStarted_StartPosition m) ;;;
  WriteInt32 (RecordingStarted_SessionId m) ;;;
  WriteInt32 (RecordingStarted_StreamId m) ;;;
  WriteUint32 (u32 (zlen (RecordingStarted_Channel m))) ;;;
  WriteBytes (RecordingStarted_Channel m) ;;;
  WriteUint32 (u32 (zlen (RecordingStarted_SourceIdentity m))) ;;;
  WriteBytes (RecordingStarted_SourceIdentity m).

Definition RecordingStarted_Decode (actingVersion blockLength : Z) (doRangeCheck : bool) : M (bytes * RecordingStarted) unit :=
  decode_field RecordingStarted_RecordingId_field actingVersion ReadInt64 RecordingStarted_set_RecordingId ;;;
  decode_field RecordingStarted_StartPosition_field actingVersion ReadInt64 RecordingStarted_set_StartPosition ;;;
  decode_field RecordingStarted_SessionId_field actingVersion ReadInt32 RecordingStarted_set_SessionId ;;;
  decode_field RecordingStarted_StreamId_field actingVersion ReadInt32 RecordingStarted_set_StreamId ;;;
  skip_block actingVersion 6 blockLength 24 ;;;
  decode_data RecordingStarted_Channel_field actingVersion RecordingStarted_set_Channel ;;;
  decode_data RecordingStarted_SourceIdentity_field actingVersion RecordingStarted_set_SourceIdentity ;;;
  when doRangeCheck (checked (fun m => RecordingStarted_RangeCheck m actingVersion 6)).

#[export] Instance RecordingStarted_codec : Codec RecordingStarted := {|
  SbeBlockLength := 24; SbeTemplateId := 101; SbeSchemaId := 101; SbeSchemaVersion := 6;
  zero := mkRecordingStarted 0 0 0 0 [] [];
  RangeCheck := RecordingStarted_RangeCheck; Encode := RecordingStarted_Encode; Decode := RecordingStarted_Decode;
  valid m := is_i64 (RecordingStarted_RecordingId m) /\ is_i64 (RecordingStarted_StartPosition m) /\ is_i32
    (RecordingStarted_SessionId m) /\ is_i32 (RecordingStarted_StreamId m) /\ zlen (RecordingStarted_Channel m)
    < 4294967296 /\ zlen (RecordingStarted_SourceIdentity m) < 4294967296;
  fixed_part m := le_split 8 (RecordingStarted_RecordingId m) ++ le_split 8 (RecordingStarted_StartPosition m) ++ le_split 4
    (RecordingStarted_SessionId m) ++ le_split 4 (RecordingStarted_StreamId m);
  data_part m := data_bytes (RecordingStarted_Channel m) ++ data_bytes (RecordingStarted_SourceIdentity m) |}.

#[export] Instance RecordingStarted_laws : CodecLaws RecordingStarted.
Proof. codec_laws RecordingStarted_codec RecordingStarted_Encode RecordingStarted_Decode. Qed.

(** ** RecordingStopped *)

Record RecordingStopped : Type := mkRecordingStopped { RecordingStopped_RecordingId : Z;
  RecordingStopped_StartPosition : Z; RecordingStopped_StopPosition : Z }.

Definition RecordingStopped_RecordingId_field : field := mkField 1 0 0 false (-9223372036854775807) 9223372036854775807 (-9223372036854775808).
Definition RecordingStopped_StartPosition_field : field := mkField 2 0 0 false (-9223372036854775807) 9223372036854775807 (-9223372036854775808).
Definition RecordingStopped_StopPosition_field : field := mkField 3 0 0 false (-9223372036854775807) 9223372036854775807 (-9223372036854775808).
Definition RecordingStopped_set_RecordingId (v : Z) (m : RecordingStopped) : RecordingStopped :=
  mkRecordingStopped v (RecordingStopped_StartPosition m) (RecordingStopped_StopPosition m).
Definition RecordingStopped_set_StartPosition (v : Z) (m : RecordingStopped) : RecordingStopped :=
  mkRecordingStopped (RecordingStopped_RecordingId m) v (RecordingStopped_StopPosition m).
Definition RecordingStopped_set_StopPosition (v : Z) (m : RecordingStopped) : RecordingStopped :=
  mkRecordingStopped (RecordingStopped_RecordingId m) (RecordingStopped_StartPosition m) v.

Definition RecordingStopped_RangeCheck (m : RecordingStopped) (actingVersion schemaVersion : Z) : option string :=
  first_error
    [ check_required RecordingStopped_RecordingId_field actingVersion (RecordingStopped_RecordingId m)
    ; check_required RecordingStopped_StartPosition_field actingVersion (RecordingStopped_StartPosition m)
    ; check_required RecordingStopped_StopPosition_field actingVersion (RecordingStopped_StopPosition m) ].

Definition RecordingStopped_Encode (m : RecordingStopped) (doRangeCheck : bool) : M bytes unit :=
  when doRangeCheck (fail_if (RecordingStopped_RangeCheck m 6 6)) ;;;
  WriteInt64 (RecordingStopped_RecordingId m) ;;;
  WriteInt64 (RecordingStopped_StartPosition m) ;;;
  WriteInt64 (RecordingStopped_StopPosition m).

Definition RecordingStopped_Decode (actingVersion blockLength : Z) (doRangeCheck : bool) : M (bytes * RecordingStopped) unit :=
  decode_field RecordingStopped_RecordingId_field actingVersion ReadInt64 RecordingStopped_set_RecordingId ;;;
  decode_field RecordingStopped_StartPosition_field actingVersion ReadInt64 RecordingStopped_set_StartPosition ;;;
  decode_field RecordingStopped_StopPosition_field actingVersion ReadInt64 RecordingStopped_set_StopPosition ;;;
  skip_block actingVersion 6 blockLength 24 ;;;
  when doRangeCheck (checked (fun m => RecordingStopped_RangeCheck m actingVersion 6)).

#[export] Instance RecordingStopped_codec : Codec RecordingStopped := {|
  SbeBlockLength := 24; SbeTemplateId := 103; SbeSchemaId := 101; SbeSchemaVersion := 6;
  zero := mkRecordingStopped 0 0 0;
  RangeCheck := RecordingStopped_RangeCheck; Encode := RecordingStopped_Encode; Decode := RecordingStopped_Decode;
  valid m := is_i64 (RecordingStopped_RecordingId m) /\ is_i64 (RecordingStopped_StartPosition m) /\ is_i64
    (RecordingStopped_StopPosition m);
  fixed_part m := le_split 8 (RecordingStopped_RecordingId m) ++ le_split 8 (RecordingStopped_StartPosition m) ++ le_split 8
    (RecordingStopped_StopPosition m);
  data_part m := [] |}.

#[export] Instance RecordingStopped_laws : CodecLaws RecordingStopped.
Proof. codec_laws RecordingStopped_codec RecordingStopped_Encode RecordingStopped_Decode. Qed.

(** ** RecordingSubscriptionDescriptor *)

Record RecordingSubscriptionDescriptor : Type := mkRecordingSubscriptionDescriptor {
  RecordingSubscriptionDescriptor_ControlSessionId : Z; RecordingSubscriptionDescriptor_CorrelationId : Z;
  RecordingSubscriptionDescriptor_SubscriptionId : Z; RecordingSubscriptionDescriptor_StreamId : Z;
  RecordingSubscriptionDescriptor_StrippedChannel : bytes }.

Definition RecordingSubscriptionDescriptor_ControlSessionId_field : field := mkField 1 0 0 false (-9223372036854775807) 9223372036854775807 (-9223372036854775808).
Definition RecordingSubscriptionDescriptor_CorrelationId_field : field := mkField 2 0 0 false (-9223372036854775807) 9223372036854775807 (-9223372036854775808).
Definition RecordingSubscriptionDescriptor_SubscriptionId_field : field := mkField 3 0 0 false (-9223372036854775807) 9223372036854775807 (-9223372036854775808).
Definition RecordingSubscriptionDescriptor_StreamId_field : field := mkField 4 0 0 false (-2147483647) 2147483647 (-2147483648).
Definition RecordingSubscriptionDescriptor_StrippedChannel_field : data_field := mkDataField 0 0 "US-ASCII" 4.
Definition RecordingSubscriptionDescriptor_set_ControlSessionId (v : Z) (m : RecordingSubscriptionDescriptor) :
  RecordingSubscriptionDescriptor := mkRecordingSubscriptionDescriptor v
  (RecordingSubscriptionDescriptor_CorrelationId m) (RecordingSubscriptionDescriptor_SubscriptionId m)
  (RecordingSubscriptionDescriptor_StreamId m) (RecordingSubscriptionDescriptor_StrippedChannel m).
Definition RecordingSubscriptionDescriptor_set_CorrelationId (v : Z) (m : RecordingSubscriptionDescriptor) :
  RecordingSubscriptionDescriptor := mkRecordingSubscriptionDescriptor
  (RecordingSubscriptionDescriptor_ControlSessionId m) v (RecordingSubscriptionDescriptor_SubscriptionId m)
  (RecordingSubscriptionDescriptor_StreamId m) (RecordingSubscriptionDescriptor_StrippedChannel m).
Definition RecordingSubscriptionDescriptor_set_SubscriptionId (v : Z) (m : RecordingSubscriptionDescriptor) :
  RecordingSubscriptionDescriptor := mkRecordingSubscriptionDescriptor
  (RecordingSubscriptionDescriptor_ControlSessionId m) (RecordingSubscriptionDescriptor_CorrelationId m) v
  (RecordingSubscriptionDescriptor_StreamId m) (RecordingSubscriptionDescriptor_StrippedChannel m).
Definition RecordingSubscriptionDescriptor_set_StreamId (v : Z) (m : RecordingSubscriptionDescriptor) :
  RecordingSubscriptionDescriptor := mkRecordingSubscriptionDescriptor
  (RecordingSubscriptionDescriptor_ControlSessionId m) (RecordingSubscriptionDescriptor_CorrelationId m)
  (RecordingSubscriptionDescriptor_SubscriptionId m) v (RecordingSubscriptionDescriptor_StrippedChannel m).
Definition RecordingSubscriptionDescriptor_set_StrippedChannel (v : bytes) (m : RecordingSubscriptionDescriptor)
  : RecordingSubscriptionDescriptor := mkRecordingSubscriptionDescriptor
  (RecordingSubscriptionDescriptor_ControlSessionId m) (RecordingSubscriptionDescriptor_CorrelationId m)
  (RecordingSubscriptionDescriptor_SubscriptionId m) (RecordingSubscriptionDescriptor_StreamId m) v.

Definition RecordingSubscriptionDescriptor_RangeCheck (m : RecordingSubscriptionDescriptor) (actingVersion schemaVersion : Z) : option string :=
  first_error
    [ check_required RecordingSubscriptionDescriptor_ControlSessionId_field actingVersion (RecordingSubscriptionDescriptor_ControlSessionId m)
    ; check_required RecordingSubscriptionDescriptor_CorrelationId_field actingVersion (RecordingSubscriptionDescriptor_CorrelationId m)
    ; check_required RecordingSubscriptionDescriptor_SubscriptionId_field actingVersion (RecordingSubscriptionDescriptor_SubscriptionId m)
    ; check_required RecordingSubscriptionDescriptor_StreamId_field actingVersion (RecordingSubscriptionDescriptor_StreamId m) ].

Definition RecordingSubscriptionDescriptor_Encode (m : RecordingSubscriptionDescriptor) (doRangeCheck : bool) : M bytes unit :=
  when doRangeCheck (fail_if (RecordingSubscriptionDescriptor_RangeCheck m 6 6)) ;;;
  WriteInt64 (RecordingSubscriptionDescriptor_ControlSessionId m) ;;;
  WriteInt64 (RecordingSubscriptionDescriptor_CorrelationId m) ;;;
  WriteInt64 (RecordingSubscriptionDescriptor_SubscriptionId m) ;;;
  WriteInt32 (RecordingSubscriptionDescriptor_StreamId m) ;;;
  WriteUint32 (u32 (zlen (RecordingSubscriptionDescriptor_StrippedChannel m))) ;;;
  WriteBytes (RecordingSubscriptionDescriptor_StrippedChannel m).

Definition RecordingSubscriptionDescriptor_Decode (actingVersion blockLength : Z) (doRangeCheck : bool) : M (bytes * RecordingSubscriptionDescriptor) unit :=
  decode_field RecordingSubscriptionDescriptor_ControlSessionId_field actingVersion ReadInt64 RecordingSubscriptionDescriptor_set_ControlSessionId ;;;
  decode_field RecordingSubscriptionDescriptor_CorrelationId_field actingVersion ReadInt64 RecordingSubscriptionDescriptor_set_CorrelationId ;;;
  decode_field RecordingSubscriptionDescriptor_SubscriptionId_field actingVersion ReadInt64 RecordingSubscriptionDescriptor_set_SubscriptionId ;;;
  decode_field RecordingSubscriptionDescriptor_StreamId_field actingVersion ReadInt32 RecordingSubscriptionDescriptor_set_StreamId ;;;
  skip_block actingVersion 6 blockLength 28 ;;;
  decode_data RecordingSubscriptionDescriptor_StrippedChannel_field actingVersion RecordingSubscriptionDescriptor_set_StrippedChannel ;;;
  when doRangeCheck (checked (fun m => RecordingSubscriptionDescriptor_RangeCheck m actingVersion 6)).

#[export] Instance RecordingSubscriptionDescriptor_codec : Codec RecordingSubscriptionDescriptor := {|
  SbeBlockLength := 28; SbeTemplateId := 23; SbeSchemaId := 101; SbeSchemaVersion := 6;
  zero := mkRecordingSubscriptionDescriptor 0 0 0 0 [];
  RangeCheck := RecordingSubscriptionDescriptor_RangeCheck; Encode := RecordingSubscriptionDescriptor_Encode; Decode := RecordingSubscriptionDescriptor_Decode;
  valid m := is_i64 (RecordingSubscriptionDescriptor_ControlSessionId m) /\ is_i64
    (RecordingSubscriptionDescriptor_CorrelationId m) /\ is_i64 (RecordingSubscriptionDescriptor_SubscriptionId
    m) /\ is_i32 (RecordingSubscriptionDescriptor_StreamId m) /\ zlen
    (RecordingSubscriptionDescriptor_StrippedChannel m) < 4294967296;
  fixed_part m := le_split 8 (RecordingSubscriptionDescriptor_ControlSessionId m) ++ le_split 8
    (RecordingSubscriptionDescriptor_CorrelationId m) ++ le_split 8
    (RecordingSubscriptionDescriptor_SubscriptionId m) ++ le_split 4 (RecordingSubscriptionDescriptor_StreamId
    m);
  data_part m := data_bytes (RecordingSubscriptionDescriptor_StrippedChannel m) |}.

#[export] Instance RecordingSubscriptionDescriptor_laws : CodecLaws RecordingSubscriptionDescriptor.
Proof. codec_laws RecordingSubscriptionDescriptor_codec RecordingSubscriptionDescriptor_Encode RecordingSubscriptionDescriptor_Decode. Qed.

(** ** ReplayRequest *)

Record ReplayRequest : Type := mkReplayRequest { ReplayRequest_ControlSessionId : Z; ReplayRequest_CorrelationId
  : Z; ReplayRequest_RecordingId : Z; ReplayRequest_Position : Z; ReplayRequest_Length : Z;
  ReplayRequest_ReplayStreamId : Z; ReplayRequest_ReplayChannel : bytes }.

Definition ReplayRequest_ControlSessionId_field : field := mkField 1 0 0 false (-9223372036854775807) 9223372036854775807 (-9223372036854775808).
Definition ReplayRequest_CorrelationId_field : field := mkField 2 0 0 false (-9223372036854775807) 9223372036854775807 (-9223372036854775808).
Definition ReplayRequest_RecordingId_field : field := mkField 3 0 0 false (-9223372036854775807) 9223372036854775807 (-9223372036854775808).
Definition ReplayRequest_Position_field : field := mkField 4 0 0 false (-9223372036854775807) 9223372036854775807 (-9223372036854775808).
Definition ReplayRequest_Length_field : field := mkField 5 0 0 false (-9223372036854775807) 9223372036854775807 (-9223372036854775808).
Definition ReplayRequest_ReplayStreamId_field : field := mkField 6 0 0 false (-2147483647) 2147483647 (-2147483648).
Definition ReplayRequest_ReplayChannel_field : data_field := mkDataField 0 0 "US-ASCII" 4.
Definition ReplayRequest_set_ControlSessionId (v : Z) (m : ReplayRequest) : ReplayRequest := mkReplayRequest v
  (ReplayRequest_CorrelationId m) (ReplayRequest_RecordingId m) (ReplayRequest_Position m) (ReplayRequest_Length
  m) (ReplayRequest_ReplayStreamId m) (ReplayRequest_ReplayChannel m).
Definition ReplayRequest_set_CorrelationId (v : Z) (m : ReplayRequest) : ReplayRequest := mkReplayRequest
  (ReplayRequest_ControlSessionId m) v (ReplayRequest_RecordingId m) (ReplayRequest_Position m)
  (ReplayRequest_Length m) (ReplayRequest_ReplayStreamId m) (ReplayRequest_ReplayChannel m).
Definition ReplayRequest_set_RecordingId (v : Z) (m : ReplayRequest) : ReplayRequest := mkReplayRequest
  (ReplayRequest_ControlSessionId m) (ReplayRequest_CorrelationId m) v (ReplayRequest_Position m)
  (ReplayRequest_Length m) (ReplayRequest_ReplayStreamId m) (ReplayRequest_ReplayChannel m).
Definition ReplayRequest_set_Position (v : Z) (m : ReplayRequest) : ReplayRequest := mkReplayRequest
  (ReplayRequest_ControlSessionId m) (ReplayRequest_CorrelationId m) (ReplayRequest_RecordingId m) v
  (ReplayRequest_Length m) (ReplayRequest_ReplayStreamId m) (ReplayRequest_ReplayChannel m).
Definition ReplayRequest_set_Length (v : Z) (m : ReplayRequest) : ReplayRequest := mkReplayRequest
  (ReplayRequest_ControlSessionId m) (ReplayRequest_CorrelationId m) (ReplayRequest_RecordingId m)
  (ReplayRequest_Position m) v (ReplayRequest_ReplayStreamId m) (ReplayRequest_ReplayChannel m).
Definition ReplayRequest_set_ReplayStreamId (v : Z) (m : ReplayRequest) : ReplayRequest := mkReplayRequest
  (ReplayRequest_ControlSessionId m) (ReplayRequest_CorrelationId m) (ReplayRequest_RecordingId m)
  (ReplayRequest_Position m) (ReplayRequest_Length m) v (ReplayRequest_ReplayChannel m).
Definition ReplayRequest_set_ReplayChannel (v : bytes) (m : ReplayRequest) : ReplayRequest := mkReplayRequest
  (ReplayRequest_ControlSessionId m) (ReplayRequest_CorrelationId m) (ReplayRequest_RecordingId m)
  (ReplayRequest_Position m) (ReplayRequest_Length m) (ReplayRequest_ReplayStreamId m) v.

Definition ReplayRequest_RangeCheck (m : ReplayRequest) (actingVersion schemaVersion : Z) : option string :=
  first_error
    [ check_required ReplayRequest_ControlSessionId_field actingVersion (ReplayRequest_ControlSessionId m)
    ; check_required ReplayRequest_CorrelationId_field actingVersion (ReplayRequest_CorrelationId m)
    ; check_required ReplayRequest_RecordingId_field actingVersion (ReplayRequest_RecordingId m)
    ; check_required ReplayRequest_Position_field actingVersion (ReplayRequest_Position m)
    ; check_required ReplayRequest_Length_field actingVersion (ReplayRequest_Length m)
    ; check_required ReplayRequest_ReplayStreamId_field actingVersion (ReplayRequest_ReplayStreamId m) ].

Definition ReplayRequest_Encode (m : ReplayRequest) (doRangeCheck : bool) : M bytes unit :=
  when doRangeCheck (fail_if (ReplayRequest_RangeCheck m 6 6)) ;;;
  WriteInt64 (ReplayRequest_ControlSessionId m) ;;;
  WriteInt64 (ReplayRequest_CorrelationId m) ;;;
  WriteInt64 (ReplayRequest_RecordingId m) ;;;
  WriteInt64 (ReplayRequest_Position m) ;;;
  WriteInt64 (ReplayRequest_Length m) ;;;
  WriteInt32 (ReplayRequest_ReplayStreamId m) ;;;
  WriteUint32 (u32 (zlen (ReplayRequest_ReplayChannel m))) ;;;
  WriteBytes (ReplayRequest_ReplayChannel m).

Definition ReplayRequest_Decode (actingVersion blockLength : Z) (doRangeCheck : bool) : M (bytes * ReplayRequest) unit :=
  decode_field ReplayRequest_ControlSessionId_field actingVersion ReadInt64 ReplayRequest_set_ControlSessionId ;;;
  decode_field ReplayRequest_CorrelationId_field actingVersion ReadInt64 ReplayRequest_set_CorrelationId ;;;
  decode_field ReplayRequest_RecordingId_field actingVersion ReadInt64 ReplayRequest_set_RecordingId ;;;
  decode_field ReplayRequest_Position_field actingVersion ReadInt64 ReplayRequest_set_Position ;;;
  decode_field ReplayRequest_Length_field actingVersion ReadInt64 ReplayRequest_set_Length ;;;
  decode_field ReplayRequest_ReplayStreamId_field actingVersion ReadInt32 ReplayRequest_set_ReplayStreamId ;;;
  skip_block actingVersion 6 blockLength 44 ;;;
  decode_data ReplayRequest_ReplayChannel_field actingVersion ReplayRequest_set_ReplayChannel ;;;
  when doRangeCheck (checked (fun m => ReplayRequest_RangeCheck m actingVersion 6)).

#[export] Instance ReplayRequest_codec : Codec ReplayRequest := {|
  SbeBlockLength := 44; SbeTemplateId := 6; SbeSchemaId := 101; SbeSchemaVersion := 6;
  zero := mkReplayRequest 0 0 0 0 0 0 [];
  RangeCheck := ReplayRequest_RangeCheck; Encode := ReplayRequest_Encode; Decode := ReplayRequest_Decode;
  valid m := is_i64 (ReplayRequest_ControlSessionId m) /\ is_i64 (ReplayRequest_CorrelationId m) /\ is_i64
    (ReplayRequest_RecordingId m) /\ is_i64 (ReplayRequest_Position m) /\ is_i64 (ReplayRequest_Length m) /\
    is_i32 (ReplayRequest_ReplayStreamId m) /\ zlen (ReplayRequest_ReplayChannel m) < 4294967296;
  fixed_part m := le_split 8 (ReplayRequest_ControlSessionId m) ++ le_split 8 (ReplayRequest_CorrelationId m) ++ le_split 8
    (ReplayRequest_RecordingId m) ++ le_split 8 (ReplayRequest_Position m) ++ le_split 8 (ReplayRequest_Length
    m) ++ le_split 4 (ReplayRequest_ReplayStreamId m);
  data_part m := data_bytes (ReplayRequest_ReplayChannel m) |}.

#[export] Instance ReplayRequest_laws : CodecLaws ReplayRequest.
Proof. codec_laws ReplayRequest_codec ReplayRequest_Encode ReplayRequest_Decode. Qed.

(** ** ReplicateRequest *)

Record ReplicateRequest : Type := mkReplicateRequest { ReplicateRequest_ControlSessionId : Z;
  ReplicateRequest_CorrelationId : Z; ReplicateRequest_SrcRecordingId : Z; ReplicateRequest_DstRecordingId : Z;
  ReplicateRequest_SrcControlStreamId : Z; ReplicateRequest_SrcControlChannel : bytes;
  ReplicateRequest_LiveDestination : bytes }.

Definition ReplicateRequest_ControlSessionId_field : field := mkField 1 0 0 false (-9223372036854775807) 9223372036854775807 (-9223372036854775808).
Definition ReplicateRequest_CorrelationId_field : field := mkField 2 0 0 false (-9223372036854775807) 9223372036854775807 (-9223372036854775808).
Definition ReplicateRequest_SrcRecordingId_field : field := mkField 3 0 0 false (-9223372036854775807) 9223372036854775807 (-9223372036854775808).
Definition ReplicateRequest_DstRecordingId_field : field := mkField 4 0 0 false (-9223372036854775807) 9223372036854775807 (-9223372036854775808).
Definition ReplicateRequest_SrcControlStreamId_field : field := mkField 5 0 0 false (-2147483647) 2147483647 (-2147483648).
Definition ReplicateRequest_SrcControlChannel_field : data_field := mkDataField 0 0 "US-ASCII" 4.
Definition ReplicateRequest_LiveDestination_field : data_field := mkDataField 0 0 "US-ASCII" 4.
Definition ReplicateRequest_set_ControlSessionId (v : Z) (m : ReplicateRequest) : ReplicateRequest :=
  mkReplicateRequest v (ReplicateRequest_CorrelationId m) (ReplicateRequest_SrcRecordingId m)
  (ReplicateRequest_DstRecordingId m) (ReplicateRequest_SrcControlStreamId m)
  (ReplicateRequest_SrcControlChannel m) (ReplicateRequest_LiveDestination m).
Definition ReplicateRequest_set_CorrelationId (v : Z) (m : ReplicateRequest) : ReplicateRequest :=
  mkReplicateRequest (ReplicateRequest_ControlSessionId m) v (ReplicateRequest_SrcRecordingId m)
  (ReplicateRequest_DstRecordingId m) (ReplicateRequest_SrcControlStreamId m)
  (ReplicateRequest_SrcControlChannel m) (ReplicateRequest_LiveDestination m).
Definition ReplicateRequest_set_SrcRecordingId (v : Z) (m : ReplicateRequest) : ReplicateRequest :=
  mkReplicateRequest (ReplicateRequest_ControlSessionId m) (ReplicateRequest_CorrelationId m) v
  (ReplicateRequest_DstRecordingId m) (ReplicateRequest_SrcControlStreamId m)
  (ReplicateRequest_SrcControlChannel m) (ReplicateRequest_LiveDestination m).
Definition ReplicateRequest_set_DstRecordingId (v : Z) (m : ReplicateRequest) : ReplicateRequest :=
  mkReplicateRequest (ReplicateRequest_ControlSessionId m) (ReplicateRequest_CorrelationId m)
  (ReplicateRequest_SrcRecordingId m) v (ReplicateRequest_SrcControlStreamId m)
  (ReplicateRequest_SrcControlChannel m) (ReplicateRequest_LiveDestination m).
Definition ReplicateRequest_set_SrcControlStreamId (v : Z) (m : ReplicateRequest) : ReplicateRequest :=
  mkReplicateRequest (ReplicateRequest_ControlSessionId m) (ReplicateRequest_CorrelationId m)
  (ReplicateRequest_SrcRecordingId m) (ReplicateRequest_DstRecordingId m) v (ReplicateRequest_SrcControlChannel
  m) (ReplicateRequest_LiveDestination m).
Definition ReplicateRequest_set_SrcControlChannel (v : bytes) (m : ReplicateRequest) : ReplicateRequest :=
  mkReplicateRequest (ReplicateRequest_ControlSessionId m) (ReplicateRequest_CorrelationId m)
  (ReplicateRequest_SrcRecordingId m) (ReplicateRequest_DstRecordingId m) (ReplicateRequest_SrcControlStreamId
  m) v (ReplicateRequest_LiveDestination m).
Definition ReplicateRequest_set_LiveDestination (v : bytes) (m : ReplicateRequest) : ReplicateRequest :=
  mkReplicateRequest (ReplicateRequest_ControlSessionId m) (ReplicateRequest_CorrelationId m)
  (ReplicateRequest_SrcRecordingId m) (ReplicateRequest_DstRecordingId m) (ReplicateRequest_SrcControlStreamId
  m) (ReplicateRequest_SrcControlChannel m) v.

Definition ReplicateRequest_RangeCheck (m : ReplicateRequest) (actingVersion schemaVersion : Z) : option string :=
  first_error
    [ check_required ReplicateRequest_ControlSessionId_field actingVersion (ReplicateRequest_ControlSessionId m)
    ; check_required ReplicateRequest_CorrelationId_field actingVersion (ReplicateRequest_CorrelationId m)
    ; check_required ReplicateRequest_SrcRecordingId_field actingVersion (ReplicateRequest_SrcRecordingId m)
    ; check_required ReplicateRequest_DstRecordingId_field actingVersion (ReplicateRequest_DstRecordingId m)
    ; check_required ReplicateRequest_SrcControlStreamId_field actingVersion (ReplicateRequest_SrcControlStreamId m) ].

Definition ReplicateRequest_Encode (m : ReplicateRequest) (doRangeCheck : bool) : M bytes unit :=
  when doRangeCheck (fail_if (ReplicateRequest_RangeCheck m 6 6)) ;;;
  WriteInt64 (ReplicateRequest_ControlSessionId m) ;;;
  WriteInt64 (ReplicateRequest_CorrelationId m) ;;;
  WriteInt64 (ReplicateRequest_SrcRecordingId m) ;;;
  WriteInt64 (ReplicateRequest_DstRecordingId m) ;;;
  WriteInt32 (ReplicateRequest_SrcControlStreamId m) ;;;
  WriteUint32 (u32 (zlen (ReplicateRequest_SrcControlChannel m))) ;;;
  WriteBytes (ReplicateRequest_SrcControlChannel m) ;;;
  WriteUint32 (u32 (zlen (ReplicateRequest_LiveDestination m))) ;;;
  WriteBytes (ReplicateRequest_LiveDestination m).

Definition ReplicateRequest_Decode (actingVersion blockLength : Z) (doRangeCheck : bool) : M (bytes * ReplicateRequest) unit :=
  decode_field ReplicateRequest_ControlSessionId_field actingVersion ReadInt64 ReplicateRequest_set_ControlSessionId ;;;
  decode_field ReplicateRequest_CorrelationId_field actingVersion ReadInt64 ReplicateRequest_set_CorrelationId ;;;
  decode_field ReplicateRequest_SrcRecordingId_field actingVersion ReadInt64 ReplicateRequest_set_SrcRecordingId ;;;
  decode_field ReplicateRequest_DstRecordingId_field actingVersion ReadInt64 ReplicateRequest_set_DstRecordingId ;;;
  decode_field ReplicateRequest_SrcControlStreamId_field actingVersion ReadInt32 ReplicateRequest_set_SrcControlStreamId ;;;
  skip_block actingVersion 6 blockLength 36 ;;;
  decode_data ReplicateRequest_SrcControlChannel_field actingVersion ReplicateRequest_set_SrcControlChannel ;;;
  decode_data ReplicateRequest_LiveDestination_field actingVersion ReplicateRequest_set_LiveDestination ;;;
  when doRangeCheck (checked (fun m => ReplicateRequest_RangeCheck m actingVersion 6)).

#[export] Instance ReplicateRequest_codec : Codec ReplicateRequest := {|
  SbeBlockLength := 36; SbeTemplateId := 50; SbeSchemaId := 101; SbeSchemaVersion := 6;
  zero := mkReplicateRequest 0 0 0 0 0 [] [];
  RangeCheck := ReplicateRequest_RangeCheck; Encode := ReplicateRequest_Encode; Decode := ReplicateRequest_Decode;
  valid m := is_i64 (ReplicateRequest_ControlSessionId m) /\ is_i64 (ReplicateRequest_CorrelationId m) /\ is_i64
    (ReplicateRequest_SrcRecordingId m) /\ is_i64 (ReplicateRequest_DstRecordingId m) /\ is_i32
    (ReplicateRequest_SrcControlStreamId m) /\ zlen (ReplicateRequest_SrcControlChannel m) < 4294967296 /\ zlen
    (ReplicateRequest_LiveDestination m) < 4294967296;
  fixed_part m := le_split 8 (ReplicateRequest_ControlSessionId m) ++ le_split 8 (ReplicateRequest_CorrelationId m) ++ le_split 8
    (ReplicateRequest_SrcRecordingId m) ++ le_split 8 (ReplicateRequest_DstRecordingId m) ++ le_split 4
    (ReplicateRequest_SrcControlStreamId m);
  data_part m := data_bytes (ReplicateRequest_SrcControlChannel m) ++ data_bytes (ReplicateRequest_LiveDestination m) |}.

#[export] Instance ReplicateRequest_laws : CodecLaws ReplicateRequest.
Proof. codec_laws ReplicateRequest_codec ReplicateRequest_Encode ReplicateRequest_Decode. Qed.

(** ** ReplicateRequest2 *)

Record ReplicateRequest2 : Type := mkReplicateRequest2 { ReplicateRequest2_ControlSessionId : Z;
  ReplicateRequest2_CorrelationId : Z; ReplicateRequest2_SrcRecordingId : Z; ReplicateRequest2_DstRecordingId :
  Z; ReplicateRequest2_StopPosition : Z; ReplicateRequest2_ChannelTagId : Z; ReplicateRequest2_SubscriptionTagId
  : Z; ReplicateRequest2_SrcControlStreamId : Z; ReplicateRequest2_SrcControlChannel : bytes;
  ReplicateRequest2_LiveDestination : bytes; ReplicateRequest2_ReplicationChannel : bytes }.

Definition ReplicateRequest2_ControlSessionId_field : field := mkField 1 0 0 false (-9223372036854775807) 9223372036854775807 (-9223372036854775808).
Definition ReplicateRequest2_CorrelationId_field : field := mkField 2 0 0 false (-9223372036854775807) 9223372036854775807 (-9223372036854775808).
Definition ReplicateRequest2_SrcRecordingId_field : field := mkField 3 0 0 false (-9223372036854775807) 9223372036854775807 (-9223372036854775808).
Definition ReplicateRequest2_DstRecordingId_field : field := mkField 4 0 0 false (-9223372036854775807) 9223372036854775807 (-9223372036854775808).
Definition ReplicateRequest2_StopPosition_field : field := mkField 5 0 0 false (-9223372036854775807) 9223372036854775807 (-9223372036854775808).
Definition ReplicateRequest2_ChannelTagId_field : field := mkField 6 0 0 false (-9223372036854775807) 9223372036854775807 (-9223372036854775808).
Definition ReplicateRequest2_SubscriptionTagId_field : field := mkField 7 0 0 false (-9223372036854775807) 9223372036854775807 (-9223372036854775808).
Definition ReplicateRequest2_SrcControlStreamId_field : field := mkField 8 0 0 false (-2147483647) 2147483647 (-2147483648).
Definition ReplicateRequest2_SrcControlChannel_field : data_field := mkDataField 0 0 "US-ASCII" 4.
Definition ReplicateRequest2_LiveDestination_field : data_field := mkDataField 0 0 "US-ASCII" 4.
Definition ReplicateRequest2_ReplicationChannel_field : data_field := mkDataField 0 0 "US-ASCII" 4.
Definition ReplicateRequest2_set_ControlSessionId (v : Z) (m : ReplicateRequest2) : ReplicateRequest2 :=
  mkReplicateRequest2 v (ReplicateRequest2_CorrelationId m) (ReplicateRequest2_SrcRecordingId m)
  (ReplicateRequest2_DstRecordingId m) (ReplicateRequest2_StopPosition m) (ReplicateRequest2_ChannelTagId m)
  (ReplicateRequest2_SubscriptionTagId m) (ReplicateRequest2_SrcControlStreamId m)
  (ReplicateRequest2_SrcControlChannel m) (ReplicateRequest2_LiveDestination m)
  (ReplicateRequest2_ReplicationChannel m).
Definition ReplicateRequest2_set_CorrelationId (v : Z) (m : ReplicateRequest2) : ReplicateRequest2 :=
  mkReplicateRequest2 (ReplicateRequest2_ControlSessionId m) v (ReplicateRequest2_SrcRecordingId m)
  (ReplicateRequest2_DstRecordingId m) (ReplicateRequest2_StopPosition m) (ReplicateRequest2_ChannelTagId m)
  (ReplicateRequest2_SubscriptionTagId m) (ReplicateRequest2_SrcControlStreamId m)
  (ReplicateRequest2_SrcControlChannel m) (ReplicateRequest2_LiveDestination m)
  (ReplicateRequest2_ReplicationChannel m).
Definition ReplicateRequest2_set_SrcRecordingId (v : Z) (m : ReplicateRequest2) : ReplicateRequest2 :=
  mkReplicateRequest2 (ReplicateRequest2_ControlSessionId m) (ReplicateRequest2_CorrelationId m) v
  (ReplicateRequest2_DstRecordingId m) (ReplicateRequest2_StopPosition m) (ReplicateRequest2_ChannelTagId m)
  (ReplicateRequest2_SubscriptionTagId m) (ReplicateRequest2_SrcControlStreamId m)
  (ReplicateRequest2_SrcControlChannel m) (ReplicateRequest2_LiveDestination m)
  (ReplicateRequest2_ReplicationChannel m).
Definition ReplicateRequest2_set_DstRecordingId (v : Z) (m : ReplicateRequest2) : ReplicateRequest2 :=
  mkReplicateRequest2 (ReplicateRequest2_ControlSessionId m) (ReplicateRequest2_CorrelationId m)
  (ReplicateRequest2_SrcRecordingId m) v (ReplicateRequest2_StopPosition m) (ReplicateRequest2_ChannelTagId m)
  (ReplicateRequest2_SubscriptionTagId m) (ReplicateRequest2_SrcControlStreamId m)
  (ReplicateRequest2_SrcControlChannel m) (ReplicateRequest2_LiveDestination m)
  (ReplicateRequest2_ReplicationChannel m).
Definition ReplicateRequest2_set_StopPosition (v : Z) (m : ReplicateRequest2) : ReplicateRequest2 :=
  mkReplicateRequest2 (ReplicateRequest2_ControlSessionId m) (ReplicateRequest2_CorrelationId m)
  (ReplicateRequest2_SrcRecordingId m) (ReplicateRequest2_DstRecordingId m) v (ReplicateRequest2_ChannelTagId m)
  (ReplicateRequest2_SubscriptionTagId m) (ReplicateRequest2_SrcControlStreamId m)
  (ReplicateRequest2_SrcControlChannel m) (ReplicateRequest2_LiveDestination m)
  (ReplicateRequest2_ReplicationChannel m).
Definition ReplicateRequest2_set_ChannelTagId (v : Z) (m : ReplicateRequest2) : ReplicateRequest2 :=
  mkReplicateRequest2 (ReplicateRequest2_ControlSessionId m) (ReplicateRequest2_CorrelationId m)
  (ReplicateRequest2_SrcRecordingId m) (ReplicateRequest2_DstRecordingId m) (ReplicateRequest2_StopPosition m) v
  (ReplicateRequest2_SubscriptionTagId m) (ReplicateRequest2_SrcControlStreamId m)
  (ReplicateRequest2_SrcControlChannel m) (ReplicateRequest2_LiveDestination m)
  (ReplicateRequest2_ReplicationChannel m).
Definition ReplicateRequest2_set_SubscriptionTagId (v : Z) (m : ReplicateRequest2) : ReplicateRequest2 :=
  mkReplicateRequest2 (ReplicateRequest2_ControlSessionId m) (ReplicateRequest2_CorrelationId m)
  (ReplicateRequest2_SrcRecordingId m) (ReplicateRequest2_DstRecordingId m) (ReplicateRequest2_StopPosition m)
  (ReplicateRequest2_ChannelTagId m) v (ReplicateRequest2_SrcControlStreamId m)
  (ReplicateRequest2_SrcControlChannel m) (ReplicateRequest2_LiveDestination m)
  (ReplicateRequest2_ReplicationChannel m).
Definition ReplicateRequest2_set_SrcControlStreamId (v : Z) (m : ReplicateRequest2) : ReplicateRequest2 :=
  mkReplicateRequest2 (ReplicateRequest2_ControlSessionId m) (ReplicateRequest2_CorrelationId m)
  (ReplicateRequest2_SrcRecordingId m) (ReplicateRequest2_DstRecordingId m) (ReplicateRequest2_StopPosition m)
  (ReplicateRequest2_ChannelTagId m) (ReplicateRequest2_SubscriptionTagId m) v
  (ReplicateRequest2_SrcControlChannel m) (ReplicateRequest2_LiveDestination m)
  (ReplicateRequest2_ReplicationChannel m).
Definition ReplicateRequest2_set_SrcControlChannel (v : bytes) (m : ReplicateRequest2) : ReplicateRequest2 :=
  mkReplicateRequest2 (ReplicateRequest2_ControlSessionId m) (ReplicateRequest2_CorrelationId m)
  (ReplicateRequest2_SrcRecordingId m) (ReplicateRequest2_DstRecordingId m) (ReplicateRequest2_StopPosition m)
  (ReplicateRequest2_ChannelTagId m) (ReplicateRequest2_SubscriptionTagId m)
  (ReplicateRequest2_SrcControlStreamId m) v (ReplicateRequest2_LiveDestination m)
  (ReplicateRequest2_ReplicationChannel m).
Definition ReplicateRequest2_set_LiveDestination (v : bytes) (m : ReplicateRequest2) : ReplicateRequest2 :=
  mkReplicateRequest2 (ReplicateRequest2_ControlSessionId m) (ReplicateRequest2_CorrelationId m)
  (ReplicateRequest2_SrcRecordingId m) (ReplicateRequest2_DstRecordingId m) (ReplicateRequest2_StopPosition m)
  (ReplicateRequest2_ChannelTagId m) (ReplicateRequest2_SubscriptionTagId m)
  (ReplicateRequest2_SrcControlStreamId m) (ReplicateRequest2_SrcControlChannel m) v
  (ReplicateRequest2_ReplicationChannel m).
Definition ReplicateRequest2_set_ReplicationChannel (v : bytes) (m : ReplicateRequest2) : ReplicateRequest2 :=
  mkReplicateRequest2 (ReplicateRequest2_ControlSessionId m) (ReplicateRequest2_CorrelationId m)
  (ReplicateRequest2_SrcRecordingId m) (ReplicateRequest2_DstRecordingId m) (ReplicateRequest2_StopPosition m)
  (ReplicateRequest2_ChannelTagId m) (ReplicateRequest2_SubscriptionTagId m)
  (ReplicateRequest2_SrcControlStreamId m) (ReplicateRequest2_SrcControlChannel m)
  (ReplicateRequest2_LiveDestination m) v.

Definition ReplicateRequest2_RangeCheck (m : ReplicateRequest2) (actingVersion schemaVersion : Z) : option string :=
  first_error
    [ check_required ReplicateRequest2_ControlSessionId_field actingVersion (ReplicateRequest2_ControlSessionId m)
    ; check_required ReplicateRequest2_CorrelationId_field actingVersion (ReplicateRequest2_CorrelationId m)
    ; check_required ReplicateRequest2_SrcRecordingId_field actingVersion (ReplicateRequest2_SrcRecordingId m)
    ; check_required ReplicateRequest2_DstRecordingId_field actingVersion (ReplicateRequest2_DstRecordingId m)
    ; check_required ReplicateRequest2_StopPosition_field actingVersion (ReplicateRequest2_StopPosition m)
    ; check_required ReplicateRequest2_ChannelTagId_field actingVersion (ReplicateRequest2_ChannelTagId m)
    ; check_required ReplicateRequest2_SubscriptionTagId_field actingVersion (ReplicateRequest2_SubscriptionTagId m)
    ; check_required ReplicateRequest2_SrcControlStreamId_field actingVersion (ReplicateRequest2_SrcControlStreamId m) ].

Definition ReplicateRequest2_Encode (m : ReplicateRequest2) (doRangeCheck : bool) : M bytes unit :=
  when doRangeCheck (fail_if (ReplicateRequest2_RangeCheck m 6 6)) ;;;
  WriteInt64 (ReplicateRequest2_ControlSessionId m) ;;;
  WriteInt64 (ReplicateRequest2_CorrelationId m) ;;;
  WriteInt64 (ReplicateRequest2_SrcRecordingId m) ;;;
  WriteInt64 (ReplicateRequest2_DstRecordingId m) ;;;
  WriteInt64 (ReplicateRequest2_StopPosition m) ;;;
  WriteInt64 (ReplicateRequest2_ChannelTagId m) ;;;
  WriteInt64 (ReplicateRequest2_SubscriptionTagId m) ;;;
  WriteInt32 (ReplicateRequest2_SrcControlStreamId m) ;;;
  WriteUint32 (u32 (zlen (ReplicateRequest2_SrcControlChannel m))) ;;;
  WriteBytes (ReplicateRequest2_SrcControlChannel m) ;;;
  WriteUint32 (u32 (zlen (ReplicateRequest2_LiveDestination m))) ;;;
  WriteBytes (ReplicateRequest2_LiveDestination m) ;;;
  WriteUint32 (u32 (zlen (ReplicateRequest2_ReplicationChannel m))) ;;;
  WriteBytes (ReplicateRequest2_ReplicationChannel m).

Definition ReplicateRequest2_Decode (actingVersion blockLength : Z) (doRangeCheck : bool) : M (bytes * ReplicateRequest2) unit :=
  decode_field ReplicateRequest2_ControlSessionId_field actingVersion ReadInt64 ReplicateRequest2_set_ControlSessionId ;;;
  decode_field ReplicateRequest2_CorrelationId_field actingVersion ReadInt64 ReplicateRequest2_set_CorrelationId ;;;
  decode_field ReplicateRequest2_SrcRecordingId_field actingVersion ReadInt64 ReplicateRequest2_set_SrcRecordingId ;;;
  decode_field ReplicateRequest2_DstRecordingId_field actingVersion ReadInt64 ReplicateRequest2_set_DstRecordingId ;;;
  decode_field ReplicateRequest2_StopPosition_field actingVersion ReadInt64 ReplicateRequest2_set_StopPosition ;;;
  decode_field ReplicateRequest2_ChannelTagId_field actingVersion ReadInt64 ReplicateRequest2_set_ChannelTagId ;;;
  decode_field ReplicateRequest2_SubscriptionTagId_field actingVersion ReadInt64 ReplicateRequest2_set_SubscriptionTagId ;;;
  decode_field ReplicateRequest2_SrcControlStreamId_field actingVersion ReadInt32 ReplicateRequest2_set_SrcControlStreamId ;;;
  skip_block actingVersion 6 blockLength 60 ;;;
  decode_data ReplicateRequest2_SrcControlChannel_field actingVersion ReplicateRequest2_set_SrcControlChannel ;;;
  decode_data ReplicateRequest2_LiveDestination_field actingVersion ReplicateRequest2_set_LiveDestination ;;;
  decode_data ReplicateRequest2_ReplicationChannel_field actingVersion ReplicateRequest2_set_ReplicationChannel ;;;
  when doRangeCheck (checked (fun m => ReplicateRequest2_RangeCheck m actingVersion 6)).

#[export] Instance ReplicateRequest2_codec : Codec ReplicateRequest2 := {|
  SbeBlockLength := 60; SbeTemplateId := 66; SbeSchemaId := 101; SbeSchemaVersion := 6;
  zero := mkReplicateRequest2 0 0 0 0 0 0 0 0 [] [] [];
  RangeCheck := ReplicateRequest2_RangeCheck; Encode := ReplicateRequest2_Encode; Decode := ReplicateRequest2_Decode;
  valid m := is_i64 (ReplicateRequest2_ControlSessionId m) /\ is_i64 (ReplicateRequest2_CorrelationId m) /\ is_i64
    (ReplicateRequest2_SrcRecordingId m) /\ is_i64 (ReplicateRequest2_DstRecordingId m) /\ is_i64
    (ReplicateRequest2_StopPosition m) /\ is_i64 (ReplicateRequest2_ChannelTagId m) /\ is_i64
    (ReplicateRequest2_SubscriptionTagId m) /\ is_i32 (ReplicateRequest2_SrcControlStreamId m) /\ zlen
    (ReplicateRequest2_SrcControlChannel m) < 4294967296 /\ zlen (ReplicateRequest2_LiveDestination m) <
    4294967296 /\ zlen (ReplicateRequest2_ReplicationChannel m) < 4294967296;
  fixed_part m := le_split 8 (ReplicateRequest2_ControlSessionId m) ++ le_split 8 (ReplicateRequest2_CorrelationId m) ++ le_split
    8 (ReplicateRequest2_SrcRecordingId m) ++ le_split 8 (ReplicateRequest2_DstRecordingId m) ++ le_split 8
    (ReplicateRequest2_StopPosition m) ++ le_split 8 (ReplicateRequest2_ChannelTagId m) ++ le_split 8
    (ReplicateRequest2_SubscriptionTagId m) ++ le_split 4 (ReplicateRequest2_SrcControlStreamId m);
  data_part m := data_bytes (ReplicateRequest2_SrcControlChannel m) ++ data_bytes (ReplicateRequest2_LiveDestination m) ++
    data_bytes (ReplicateRequest2_ReplicationChannel m) |}.

#[export] Instance ReplicateRequest2_laws : CodecLaws ReplicateRequest2.
Proof. codec_laws ReplicateRequest2_codec ReplicateRequest2_Encode ReplicateRequest2_Decode. Qed.

(** ** StartPositionRequest *)

Record StartPositionRequest : Type := mkStartPositionRequest { StartPositionRequest_ControlSessionId : Z;
  StartPositionRequest_CorrelationId : Z; StartPositionRequest_RecordingId : Z }.

Definition StartPositionRequest_ControlSessionId_field : field := mkField 1 0 0 false (-9223372036854775807) 9223372036854775807 (-9223372036854775808).
Definition StartPositionRequest_CorrelationId_field : field := mkField 2 0 0 false (-9223372036854775807) 9223372036854775807 (-9223372036854775808).
Definition StartPositionRequest_RecordingId_field : field := mkField 3 0 0 false (-9223372036854775807) 9223372036854775807 (-9223372036854775808).
Definition StartPositionRequest_set_ControlSessionId (v : Z) (m : StartPositionRequest) : StartPositionRequest
  := mkStartPositionRequest v (StartPositionRequest_CorrelationId m) (StartPositionRequest_RecordingId m).
Definition StartPositionRequest_set_CorrelationId (v : Z) (m : StartPositionRequest) : StartPositionRequest :=
  mkStartPositionRequest (StartPositionRequest_ControlSessionId m) v (StartPositionRequest_RecordingId m).
Definition StartPositionRequest_set_RecordingId (v : Z) (m : StartPositionRequest) : StartPositionRequest :=
  mkStartPositionRequest (StartPositionRequest_ControlSessionId m) (StartPositionRequest_CorrelationId m) v.

Definition StartPositionRequest_RangeCheck (m : StartPositionRequest) (actingVersion schemaVersion : Z) : option string :=
  first_error
    [ check_required StartPositionRequest_ControlSessionId_field actingVersion (StartPositionRequest_ControlSessionId m)
    ; check_required StartPositionRequest_CorrelationId_field actingVersion (StartPositionRequest_CorrelationId m)
    ; check_required StartPositionRequest_RecordingId_field actingVersion (StartPositionRequest_RecordingId m) ].

Definition StartPositionRequest_Encode (m : StartPositionRequest) (doRangeCheck : bool) : M bytes unit :=
  when doRangeCheck (fail_if (StartPositionRequest_RangeCheck m 6 6)) ;;;
  WriteInt64 (StartPositionRequest_ControlSessionId m) ;;;
  WriteInt64 (StartPositionRequest_CorrelationId m) ;;;
  WriteInt64 (StartPositionRequest_RecordingId m).

Definition StartPositionRequest_Decode (actingVersion blockLength : Z) (doRangeCheck : bool) : M (bytes * StartPositionRequest) unit :=
  decode_field StartPositionRequest_ControlSessionId_field actingVersion ReadInt64 StartPositionRequest_set_ControlSessionId ;;;
  decode_field StartPositionRequest_CorrelationId_field actingVersion ReadInt64 StartPositionRequest_set_CorrelationId ;;;
  decode_field StartPositionRequest_RecordingId_field actingVersion ReadInt64 StartPositionRequest_set_RecordingId ;;;
  skip_block actingVersion 6 blockLength 24 ;;;
  when doRangeCheck (checked (fun m => StartPositionRequest_RangeCheck m actingVersion 6)).

#[export] Instance StartPositionRequest_codec : Codec StartPositionRequest := {|
  SbeBlockLength := 24; SbeTemplateId := 52; SbeSchemaId := 101; SbeSchemaVersion := 6;
  zero := mkStartPositionRequest 0 0 0;
  RangeCheck := StartPositionRequest_RangeCheck; Encode := StartPositionRequest_Encode; Decode := StartPositionRequest_Decode;
  valid m := is_i64 (StartPositionRequest_ControlSessionId m) /\ is_i64 (StartPositionRequest_CorrelationId m) /\ is_i64
    (StartPositionRequest_RecordingId m);
  fixed_part m := le_split 8 (StartPositionRequest_ControlSessionId m) ++ le_split 8 (StartPositionRequest_CorrelationId m) ++
    le_split 8 (StartPositionRequest_RecordingId m);
  data_part m := [] |}.

#[export] Instance StartPositionRequest_laws : CodecLaws StartPositionRequest.
Proof. codec_laws StartPositionRequest_codec StartPositionRequest_Encode StartPositionRequest_Decode. Qed.

(** ** StartRecordingRequest *)

Record StartRecordingRequest : Type := mkStartRecordingRequest { StartRecordingRequest_ControlSessionId : Z;
  StartRecordingRequest_CorrelationId : Z; StartRecordingRequest_StreamId : Z;
  StartRecordingRequest_SourceLocation : Z; StartRecordingRequest_Channel : bytes }.

Definition StartRecordingRequest_ControlSessionId_field : field := mkField 1 0 0 false (-9223372036854775807) 9223372036854775807 (-9223372036854775808).
Definition StartRecordingRequest_CorrelationId_field : field := mkField 2 0 0 false (-9223372036854775807) 9223372036854775807 (-9223372036854775808).
Definition StartRecordingRequest_StreamId_field : field := mkField 3 0 0 false (-2147483647) 2147483647 (-2147483648).
Definition StartRecordingRequest_SourceLocation_field : field := mkField 4 0 0 false 0 0 0.
Definition StartRecordingRequest_Channel_field : data_field := mkDataField 0 0 "US-ASCII" 4.
Definition StartRecordingRequest_set_ControlSessionId (v : Z) (m : StartRecordingRequest) :
  StartRecordingRequest := mkStartRecordingRequest v (StartRecordingRequest_CorrelationId m)
  (StartRecordingRequest_StreamId m) (StartRecordingRequest_SourceLocation m) (StartRecordingRequest_Channel m).
Definition StartRecordingRequest_set_CorrelationId (v : Z) (m : StartRecordingRequest) : StartRecordingRequest
  := mkStartRecordingRequest (StartRecordingRequest_ControlSessionId m) v (StartRecordingRequest_StreamId m)
  (StartRecordingRequest_SourceLocation m) (StartRecordingRequest_Channel m).
Definition StartRecordingRequest_set_StreamId (v : Z) (m : StartRecordingRequest) : StartRecordingRequest :=
  mkStartRecordingRequest (StartRecordingRequest_ControlSessionId m) (StartRecordingRequest_CorrelationId m) v
  (StartRecordingRequest_SourceLocation m) (StartRecordingRequest_Channel m).
Definition StartRecordingRequest_set_SourceLocation (v : Z) (m : StartRecordingRequest) : StartRecordingRequest
  := mkStartRecordingRequest (StartRecordingRequest_ControlSessionId m) (StartRecordingRequest_CorrelationId m)
  (StartRecordingRequest_StreamId m) v (StartRecordingRequest_Channel m).
Definition StartRecordingRequest_set_Channel (v : bytes) (m : StartRecordingRequest) : StartRecordingRequest :=
  mkStartRecordingRequest (StartRecordingRequest_ControlSessionId m) (StartRecordingRequest_CorrelationId m)
  (StartRecordingRequest_StreamId m) (StartRecordingRequest_SourceLocation m) v.

Definition StartRecordingRequest_RangeCheck (m : StartRecordingRequest) (actingVersion schemaVersion : Z) : option string :=
  first_error
    [ check_required StartRecordingRequest_ControlSessionId_field actingVersion (StartRecordingRequest_ControlSessionId m)
    ; check_required StartRecordingRequest_CorrelationId_field actingVersion (StartRecordingRequest_CorrelationId m)
    ; check_required StartRecordingRequest_StreamId_field actingVersion (StartRecordingRequest_StreamId m)
    ; check_enum SourceLocationValues actingVersion schemaVersion (StartRecordingRequest_SourceLocation m) ].

Definition StartRecordingRequest_Encode (m : StartRecordingRequest) (doRangeCheck : bool) : M bytes unit :=
  when doRangeCheck (fail_if (StartRecordingRequest_RangeCheck m 6 6)) ;;;
  WriteInt64 (StartRecordingRequest_ControlSessionId m) ;;;
  WriteInt64 (StartRecordingRequest_CorrelationId m) ;;;
  WriteInt32 (StartRecordingRequest_StreamId m) ;;;
  WriteInt32 (StartRecordingRequest_SourceLocation m) ;;;
  WriteUint32 (u32 (zlen (StartRecordingRequest_Channel m))) ;;;
  WriteBytes (StartRecordingRequest_Channel m).

Definition StartRecordingRequest_Decode (actingVersion blockLength : Z) (doRangeCheck : bool) : M (bytes * StartRecordingRequest) unit :=
  decode_field StartRecordingRequest_ControlSessionId_field actingVersion ReadInt64 StartRecordingRequest_set_ControlSessionId ;;;
  decode_field StartRecordingRequest_CorrelationId_field actingVersion ReadInt64 StartRecordingRequest_set_CorrelationId ;;;
  decode_field StartRecordingRequest_StreamId_field actingVersion ReadInt32 StartRecordingRequest_set_StreamId ;;;
  decode_enum StartRecordingRequest_SourceLocation_field actingVersion ReadInt32 StartRecordingRequest_set_SourceLocation ;;;
  skip_block actingVersion 6 blockLength 24 ;;;
  decode_data StartRecordingRequest_Channel_field actingVersion StartRecordingRequest_set_Channel ;;;
  when doRangeCheck (checked (fun m => StartRecordingRequest_RangeCheck m actingVersion 6)).

#[export] Instance StartRecordingRequest_codec : Codec StartRecordingRequest := {|
  SbeBlockLength := 24; SbeTemplateId := 4; SbeSchemaId := 101; SbeSchemaVersion := 6;
  zero := mkStartRecordingRequest 0 0 0 0 [];
  RangeCheck := StartRecordingRequest_RangeCheck; Encode := StartRecordingRequest_Encode; Decode := StartRecordingRequest_Decode;
  valid m := is_i64 (StartRecordingRequest_ControlSessionId m) /\ is_i64 (StartRecordingRequest_CorrelationId m) /\ is_i32
    (StartRecordingRequest_StreamId m) /\ is_i32 (StartRecordingRequest_SourceLocation m) /\ zlen
    (StartRecordingRequest_Channel m) < 4294967296;
  fixed_part m := le_split 8 (StartRecordingRequest_ControlSessionId m) ++ le_split 8 (StartRecordingRequest_CorrelationId m) ++
    le_split 4 (StartRecordingRequest_StreamId m) ++ le_split 4 (StartRecordingRequest_SourceLocation m);
  data_part m := data_bytes (StartRecordingRequest_Channel m) |}.

#[export] Instance StartRecordingRequest_laws : CodecLaws StartRecordingRequest.
Proof. codec_laws StartRecordingRequest_codec StartRecordingRequest_Encode StartRecordingRequest_Decode. Qed.

(** ** StartRecordingRequest2 *)

Record StartRecordingRequest2 : Type := mkStartRecordingRequest2 { StartRecordingRequest2_ControlSessionId : Z;
  StartRecordingRequest2_CorrelationId : Z; StartRecordingRequest2_StreamId : Z;
  StartRecordingRequest2_SourceLocation : Z; StartRecordingRequest2_AutoStop : Z; StartRecordingRequest2_Channel
  : bytes }.

Definition StartRecordingRequest2_ControlSessionId_field : field := mkField 1 0 0 false (-9223372036854775807) 9223372036854775807 (-9223372036854775808).
Definition StartRecordingRequest2_CorrelationId_field : field := mkField 2 0 0 false (-9223372036854775807) 9223372036854775807 (-9223372036854775808).
Definition StartRecordingRequest2_StreamId_field : field := mkField 3 0 0 false (-2147483647) 2147483647 (-2147483648).
Definition StartRecordingRequest2_SourceLocation_field : field := mkField 4 0 0 false 0 0 0.
Definition StartRecordingRequest2_AutoStop_field : field := mkField 5 0 0 false 0 0 0.
Definition StartRecordingRequest2_Channel_field : data_field := mkDataField 0 0 "US-ASCII" 4.
Definition StartRecordingRequest2_set_ControlSessionId (v : Z) (m : StartRecordingRequest2) :
  StartRecordingRequest2 := mkStartRecordingRequest2 v (StartRecordingRequest2_CorrelationId m)
  (StartRecordingRequest2_StreamId m) (StartRecordingRequest2_SourceLocation m) (StartRecordingRequest2_AutoStop
  m) (StartRecordingRequest2_Channel m).
Definition StartRecordingRequest2_set_CorrelationId (v : Z) (m : StartRecordingRequest2) :
  StartRecordingRequest2 := mkStartRecordingRequest2 (StartRecordingRequest2_ControlSessionId m) v
  (StartRecordingRequest2_StreamId m) (StartRecordingRequest2_SourceLocation m) (StartRecordingRequest2_AutoStop
  m) (StartRecordingRequest2_Channel m).
Definition StartRecordingRequest2_set_StreamId (v : Z) (m : StartRecordingRequest2) : StartRecordingRequest2 :=
  mkStartRecordingRequest2 (StartRecordingRequest2_ControlSessionId m) (StartRecordingRequest2_CorrelationId m)
  v (StartRecordingRequest2_SourceLocation m) (StartRecordingRequest2_AutoStop m)
  (StartRecordingRequest2_Channel m).
Definition StartRecordingRequest2_set_SourceLocation (v : Z) (m : StartRecordingRequest2) :
  StartRecordingRequest2 := mkStartRecordingRequest2 (StartRecordingRequest2_ControlSessionId m)
  (StartRecordingRequest2_CorrelationId m) (StartRecordingRequest2_StreamId m) v
  (StartRecordingRequest2_AutoStop m) (StartRecordingRequest2_Channel m).
Definition StartRecordingRequest2_set_AutoStop (v : Z) (m : StartRecordingRequest2) : StartRecordingRequest2 :=
  mkStartRecordingRequest2 (StartRecordingRequest2_ControlSessionId m) (StartRecordingRequest2_CorrelationId m)
  (StartRecordingRequest2_StreamId m) (StartRecordingRequest2_SourceLocation m) v
  (StartRecordingRequest2_Channel m).
Definition StartRecordingRequest2_set_Channel (v : bytes) (m : StartRecordingRequest2) : StartRecordingRequest2
  := mkStartRecordingRequest2 (StartRecordingRequest2_ControlSessionId m) (StartRecordingRequest2_CorrelationId
  m) (StartRecordingRequest2_StreamId m) (StartRecordingRequest2_SourceLocation m)
  (StartRecordingRequest2_AutoStop m) v.

Definition StartRecordingRequest2_RangeCheck (m : StartRecordingRequest2) (actingVersion schemaVersion : Z) : option string :=
  first_error
    [ check_required StartRecordingRequest2_ControlSessionId_field actingVersion (StartRecordingRequest2_ControlSessionId m)
    ; check_required StartRecordingRequest2_CorrelationId_field actingVersion (StartRecordingRequest2_CorrelationId m)
    ; check_required StartRecordingRequest2_StreamId_field actingVersion (StartRecordingRequest2_StreamId m)
    ; check_enum SourceLocationValues actingVersion schemaVersion (StartRecordingRequest2_SourceLocation m)
    ; check_enum BooleanTypeValues actingVersion schemaVersion (StartRecordingRequest2_AutoStop m) ].

Definition StartRecordingRequest2_Encode (m : StartRecordingRequest2) (doRangeCheck : bool) : M bytes unit :=
  when doRangeCheck (fail_if (StartRecordingRequest2_RangeCheck m 6 6)) ;;;
  WriteInt64 (StartRecordingRequest2_ControlSessionId m) ;;;
  WriteInt64 (StartRecordingRequest2_CorrelationId m) ;;;
  WriteInt32 (StartRecordingRequest2_StreamId m) ;;;
  WriteInt32 (StartRecordingRequest2_SourceLocation m) ;;;
  WriteInt32 (StartRecordingRequest2_AutoStop m) ;;;
  WriteUint32 (u32 (zlen (StartRecordingRequest2_Channel m))) ;;;
  WriteBytes (StartRecordingRequest2_Channel m).

Definition StartRecordingRequest2_Decode (actingVersion blockLength : Z) (doRangeCheck : bool) : M (bytes * StartRecordingRequest2) unit :=
  decode_field StartRecordingRequest2_ControlSessionId_field actingVersion ReadInt64 StartRecordingRequest2_set_ControlSessionId ;;;
  decode_field StartRecordingRequest2_CorrelationId_field actingVersion ReadInt64 StartRecordingRequest2_set_CorrelationId ;;;
  decode_field StartRecordingRequest2_StreamId_field actingVersion ReadInt32 StartRecordingRequest2_set_StreamId ;;;
  decode_enum StartRecordingRequest2_SourceLocation_field actingVersion ReadInt32 StartRecordingRequest2_set_SourceLocation ;;;
  decode_enum StartRecordingRequest2_AutoStop_field actingVersion ReadInt32 StartRecordingRequest2_set_AutoStop ;;;
  skip_block actingVersion 6 blockLength 28 ;;;
  decode_data StartRecordingRequest2_Channel_field actingVersion StartRecordingRequest2_set_Channel ;;;
  when doRangeCheck (checked (fun m => StartRecordingRequest2_RangeCheck m actingVersion 6)).

#[export] Instance StartRecordingRequest2_codec : Codec StartRecordingRequest2 := {|
  SbeBlockLength := 28; SbeTemplateId := 63; SbeSchemaId := 101; SbeSchemaVersion := 6;
  zero := mkStartRecordingRequest2 0 0 0 0 0 [];
  RangeCheck := StartRecordingRequest2_RangeCheck; Encode := StartRecordingRequest2_Encode; Decode := StartRecordingRequest2_Decode;
  valid m := is_i64 (StartRecordingRequest2_ControlSessionId m) /\ is_i64 (StartRecordingRequest2_CorrelationId m) /\ is_i32
    (StartRecordingRequest2_StreamId m) /\ is_i32 (StartRecordingRequest2_SourceLocation m) /\ is_i32
    (StartRecordingRequest2_AutoStop m) /\ zlen (StartRecordingRequest2_Channel m) < 4294967296;
  fixed_part m := le_split 8 (StartRecordingRequest2_ControlSessionId m) ++ le_split 8 (StartRecordingRequest2_CorrelationId m) ++
    le_split 4 (StartRecordingRequest2_StreamId m) ++ le_split 4 (StartRecordingRequest2_SourceLocation m) ++
    le_split 4 (StartRecordingRequest2_AutoStop m);
  data_part m := data_bytes (StartRecordingRequest2_Channel m) |}.

#[export] Instance StartRecordingRequest2_laws : CodecLaws StartRecordingRequest2.
Proof. codec_laws StartRecordingRequest2_codec StartRecordingRequest2_Encode StartRecordingRequest2_Decode. Qed.

(** ** StopAllReplaysRequest *)

Record StopAllReplaysRequest : Type := mkStopAllReplaysRequest { StopAllReplaysRequest_ControlSessionId : Z;
  StopAllReplaysRequest_CorrelationId : Z; StopAllReplaysRequest_RecordingId : Z }.

Definition StopAllReplaysRequest_ControlSessionId_field : field := mkField 1 0 0 false (-9223372036854775807) 9223372036854775807 (-9223372036854775808).
Definition StopAllReplaysRequest_CorrelationId_field : field := mkField 2 0 0 false (-9223372036854775807) 9223372036854775807 (-9223372036854775808).
Definition StopAllReplaysRequest_RecordingId_field : field := mkField 3 0 0 false (-9223372036854775807) 9223372036854775807 (-9223372036854775808).
Definition StopAllReplaysRequest_set_ControlSessionId (v : Z) (m : StopAllReplaysRequest) :
  StopAllReplaysRequest := mkStopAllReplaysRequest v (StopAllReplaysRequest_CorrelationId m)
  (StopAllReplaysRequest_RecordingId m).
Definition StopAllReplaysRequest_set_CorrelationId (v : Z) (m : StopAllReplaysRequest) : StopAllReplaysRequest
  := mkStopAllReplaysRequest (StopAllReplaysRequest_ControlSessionId m) v (StopAllReplaysRequest_RecordingId m).
Definition StopAllReplaysRequest_set_RecordingId (v : Z) (m : StopAllReplaysRequest) : StopAllReplaysRequest :=
  mkStopAllReplaysRequest (StopAllReplaysRequest_ControlSessionId m) (StopAllReplaysRequest_CorrelationId m) v.

Definition StopAllReplaysRequest_RangeCheck (m : StopAllReplaysRequest) (actingVersion schemaVersion : Z) : option string :=
  first_error
    [ check_required StopAllReplaysRequest_ControlSessionId_field actingVersion (StopAllReplaysRequest_ControlSessionId m)
    ; check_required StopAllReplaysRequest_CorrelationId_field actingVersion (StopAllReplaysRequest_CorrelationId m)
    ; check_required StopAllReplaysRequest_RecordingId_field actingVersion (StopAllReplaysRequest_RecordingId m) ].

Definition StopAllReplaysRequest_Encode (m : StopAllReplaysRequest) (doRangeCheck : bool) : M bytes unit :=
  when doRangeCheck (fail_if (StopAllReplaysRequest_RangeCheck m 6 6)) ;;;
  WriteInt64 (StopAllReplaysRequest_ControlSessionId m) ;;;
  WriteInt64 (StopAllReplaysRequest_CorrelationId m) ;;;
  WriteInt64 (StopAllReplaysRequest_RecordingId m).

Definition StopAllReplaysRequest_Decode (actingVersion blockLength : Z) (doRangeCheck : bool) : M (bytes * StopAllReplaysRequest) unit :=
  decode_field StopAllReplaysRequest_ControlSessionId_field actingVersion ReadInt64 StopAllReplaysRequest_set_ControlSessionId ;;;
  decode_field StopAllReplaysRequest_CorrelationId_field actingVersion ReadInt64 StopAllReplaysRequest_set_CorrelationId ;;;
  decode_field StopAllReplaysRequest_RecordingId_field actingVersion ReadInt64 StopAllReplaysRequest_set_RecordingId ;;;
  skip_block actingVersion 6 blockLength 24 ;;;
  when doRangeCheck (checked (fun m => StopAllReplaysRequest_RangeCheck m actingVersion 6)).

#[export] Instance StopAllReplaysRequest_codec : Codec StopAllReplaysRequest := {|
  SbeBlockLength := 24; SbeTemplateId := 19; SbeSchemaId := 101; SbeSchemaVersion := 6;
  zero := mkStopAllReplaysRequest 0 0 0;
  RangeCheck := StopAllReplaysRequest_RangeCheck; Encode := StopAllReplaysRequest_Encode; Decode := StopAllReplaysRequest_Decode;
  valid m := is_i64 (StopAllReplaysRequest_ControlSessionId m) /\ is_i64 (StopAllReplaysRequest_CorrelationId m) /\ is_i64
    (StopAllReplaysRequest_RecordingId m);
  fixed_part m := le_split 8 (StopAllReplaysRequest_ControlSessionId m) ++ le_split 8 (StopAllReplaysRequest_CorrelationId m) ++
    le_split 8 (StopAllReplaysRequest_RecordingId m);
  data_part m := [] |}.

#[export] Instance StopAllReplaysRequest_laws : CodecLaws StopAllReplaysRequest.
Proof. codec_laws StopAllReplaysRequest_codec StopAllReplaysRequest_Encode StopAllReplaysRequest_Decode. Qed.

(** ** StopPositionRequest *)

Record StopPositionRequest : Type := mkStopPositionRequest { StopPositionRequest_ControlSessionId : Z;
  StopPositionRequest_CorrelationId : Z; StopPositionRequest_RecordingId : Z }.

Definition StopPositionRequest_ControlSessionId_field : field := mkField 1 0 0 false (-9223372036854775807) 9223372036854775807 (-9223372036854775808).
Definition StopPositionRequest_CorrelationId_field : field := mkField 2 0 0 false (-9223372036854775807) 9223372036854775807 (-9223372036854775808).
Definition StopPositionRequest_RecordingId_field : field := mkField 3 0 0 false (-9223372036854775807) 9223372036854775807 (-9223372036854775808).
Definition StopPositionRequest_set_ControlSessionId (v : Z) (m : StopPositionRequest) : StopPositionRequest :=
  mkStopPositionRequest v (StopPositionRequest_CorrelationId m) (StopPositionRequest_RecordingId m).
Definition StopPositionRequest_set_CorrelationId (v : Z) (m : StopPositionRequest) : StopPositionRequest :=
  mkStopPositionRequest (StopPositionRequest_ControlSessionId m) v (StopPositionRequest_RecordingId m).
Definition StopPositionRequest_set_RecordingId (v : Z) (m : StopPositionRequest) : StopPositionRequest :=
  mkStopPositionRequest (StopPositionRequest_ControlSessionId m) (StopPositionRequest_CorrelationId m) v.

Definition StopPositionRequest_RangeCheck (m : StopPositionRequest) (actingVersion schemaVersion : Z) : option string :=
  first_error
    [ check_required StopPositionRequest_ControlSessionId_field actingVersion (StopPositionRequest_ControlSessionId m)
    ; check_required StopPositionRequest_CorrelationId_field actingVersion (StopPositionRequest_CorrelationId m)
    ; check_required StopPositionRequest_RecordingId_field actingVersion (StopPositionRequest_RecordingId m) ].

Definition StopPositionRequest_Encode (m : StopPositionRequest) (doRangeCheck : bool) : M bytes unit :=
  when doRangeCheck (fail_if (StopPositionRequest_RangeCheck m 6 6)) ;;;
  WriteInt64 (StopPositionRequest_ControlSessionId m) ;;;
  WriteInt64 (StopPositionRequest_CorrelationId m) ;;;
  WriteInt64 (StopPositionRequest_RecordingId m).

Definition StopPositionRequest_Decode (actingVersion blockLength : Z) (doRangeCheck : bool) : M (bytes * StopPositionRequest) unit :=
  decode_field StopPositionRequest_ControlSessionId_field actingVersion ReadInt64 StopPositionRequest_set_ControlSessionId ;;;
  decode_field StopPositionRequest_CorrelationId_field actingVersion ReadInt64 StopPositionRequest_set_CorrelationId ;;;
  decode_field StopPositionRequest_RecordingId_field actingVersion ReadInt64 StopPositionRequest_set_RecordingId ;;;
  skip_block actingVersion 6 blockLength 24 ;;;
  when doRangeCheck (checked (fun m => StopPositionRequest_RangeCheck m actingVersion 6)).

#[export] Instance StopPositionRequest_codec : Codec StopPositionRequest := {|
  SbeBlockLength := 24; SbeTemplateId := 15; SbeSchemaId := 101; SbeSchemaVersion := 6;
  zero := mkStopPositionRequest 0 0 0;
  RangeCheck := StopPositionRequest_RangeCheck; Encode := StopPositionRequest_Encode; Decode := StopPositionRequest_Decode;
  valid m := is_i64 (StopPositionRequest_ControlSessionId m) /\ is_i64 (StopPositionRequest_CorrelationId m) /\ is_i64
    (StopPositionRequest_RecordingId m);
  fixed_part m := le_split 8 (StopPositionRequest_ControlSessionId m) ++ le_split 8 (StopPositionRequest_CorrelationId m) ++
    le_split 8 (StopPositionRequest_RecordingId m);
  data_part m := [] |}.

#[export] Instance StopPositionRequest_laws : CodecLaws StopPositionRequest.
Proof. codec_laws StopPositionRequest_codec StopPositionRequest_Encode StopPositionRequest_Decode. Qed.

(** ** StopRecordingByIdentityRequest *)

Record StopRecordingByIdentityRequest : Type := mkStopRecordingByIdentityRequest {
  StopRecordingByIdentityRequest_ControlSessionId : Z; StopRecordingByIdentityRequest_CorrelationId : Z;
  StopRecordingByIdentityRequest_RecordingId : Z }.

Definition StopRecordingByIdentityRequest_ControlSessionId_field : field := mkField 1 0 0 false (-9223372036854775807) 9223372036854775807 (-9223372036854775808).
Definition StopRecordingByIdentityRequest_CorrelationId_field : field := mkField 2 0 0 false (-9223372036854775807) 9223372036854775807 (-9223372036854775808).
Definition StopRecordingByIdentityRequest_RecordingId_field : field := mkField 3 0 0 false (-9223372036854775807) 9223372036854775807 (-9223372036854775808).
Definition StopRecordingByIdentityRequest_set_ControlSessionId (v : Z) (m : StopRecordingByIdentityRequest) :
  StopRecordingByIdentityRequest := mkStopRecordingByIdentityRequest v
  (StopRecordingByIdentityRequest_CorrelationId m) (StopRecordingByIdentityRequest_RecordingId m).
Definition StopRecordingByIdentityRequest_set_CorrelationId (v : Z) (m : StopRecordingByIdentityRequest) :
  StopRecordingByIdentityRequest := mkStopRecordingByIdentityRequest
  (StopRecordingByIdentityRequest_ControlSessionId m) v (StopRecordingByIdentityRequest_RecordingId m).
Definition StopRecordingByIdentityRequest_set_RecordingId (v : Z) (m : StopRecordingByIdentityRequest) :
  StopRecordingByIdentityRequest := mkStopRecordingByIdentityRequest
  (StopRecordingByIdentityRequest_ControlSessionId m) (StopRecordingByIdentityRequest_CorrelationId m) v.

Definition StopRecordingByIdentityRequest_RangeCheck (m : StopRecordingByIdentityRequest) (actingVersion schemaVersion : Z) : option string :=
  first_error
    [ check_required StopRecordingByIdentityRequest_ControlSessionId_field actingVersion (StopRecordingByIdentityRequest_ControlSessionId m)
    ; check_required StopRecordingByIdentityRequest_CorrelationId_field actingVersion (StopRecordingByIdentityRequest_CorrelationId m)
    ; check_required StopRecordingByIdentityRequest_RecordingId_field actingVersion (StopRecordingByIdentityRequest_RecordingId m) ].

Definition StopRecordingByIdentityRequest_Encode (m : StopRecordingByIdentityRequest) (doRangeCheck : bool) : M bytes unit :=
  when doRangeCheck (fail_if (StopRecordingByIdentityRequest_RangeCheck m 6 6)) ;;;
  WriteInt64 (StopRecordingByIdentityRequest_ControlSessionId m) ;;;
  WriteInt64 (StopRecordingByIdentityRequest_CorrelationId m) ;;;
  WriteInt64 (StopRecordingByIdentityRequest_RecordingId m).

Definition StopRecordingByIdentityRequest_Decode (actingVersion blockLength : Z) (doRangeCheck : bool) : M (bytes * StopRecordingByIdentityRequest) unit :=
  decode_field StopRecordingByIdentityRequest_ControlSessionId_field actingVersion ReadInt64 StopRecordingByIdentityRequest_set_ControlSessionId ;;;
  decode_field StopRecordingByIdentityRequest_CorrelationId_field actingVersion ReadInt64 StopRecordingByIdentityRequest_set_CorrelationId ;;;
  decode_field StopRecordingByIdentityRequest_RecordingId_field actingVersion ReadInt64 StopRecordingByIdentityRequest_set_RecordingId ;;;
  skip_block actingVersion 6 blockLength 24 ;;;
  when doRangeCheck (checked (fun m => StopRecordingByIdentityRequest_RangeCheck m actingVersion 6)).

#[export] Instance StopRecordingByIdentityRequest_codec : Codec StopRecordingByIdentityRequest := {|
  SbeBlockLength := 24; SbeTemplateId := 65; SbeSchemaId := 101; SbeSchemaVersion := 6;
  zero := mkStopRecordingByIdentityRequest 0 0 0;
  RangeCheck := StopRecordingByIdentityRequest_RangeCheck; Encode := StopRecordingByIdentityRequest_Encode; Decode := StopRecordingByIdentityRequest_Decode;
  valid m := is_i64 (StopRecordingByIdentityRequest_ControlSessionId m) /\ is_i64
    (StopRecordingByIdentityRequest_CorrelationId m) /\ is_i64 (StopRecordingByIdentityRequest_RecordingId m);
  fixed_part m := le_split 8 (StopRecordingByIdentityRequest_ControlSessionId m) ++ le_split 8
    (StopRecordingByIdentityRequest_CorrelationId m) ++ le_split 8 (StopRecordingByIdentityRequest_RecordingId
    m);
  data_part m := [] |}.

#[export] Instance StopRecordingByIdentityRequest_laws : CodecLaws StopRecordingByIdentityRequest.
Proof. codec_laws StopRecordingByIdentityRequest_codec StopRecordingByIdentityRequest_Encode StopRecordingByIdentityRequest_Decode. Qed.

(** ** StopRecordingRequest *)

Record StopRecordingRequest : Type := mkStopRecordingRequest { StopRecordingRequest_ControlSessionId : Z;
  StopRecordingRequest_CorrelationId : Z; StopRecordingRequest_StreamId : Z; StopRecordingRequest_Channel :
  bytes }.

Definition StopRecordingRequest_ControlSessionId_field : field := mkField 1 0 0 false (-9223372036854775807) 9223372036854775807 (-9223372036854775808).
Definition StopRecordingRequest_CorrelationId_field : field := mkField 2 0 0 false (-9223372036854775807) 9223372036854775807 (-9223372036854775808).
Definition StopRecordingRequest_StreamId_field : field := mkField 3 0 0 false (-2147483647) 2147483647 (-2147483648).
Definition StopRecordingRequest_Channel_field : data_field := mkDataField 0 0 "US-ASCII" 4.
Definition StopRecordingRequest_set_ControlSessionId (v : Z) (m : StopRecordingRequest) : StopRecordingRequest
  := mkStopRecordingRequest v (StopRecordingRequest_CorrelationId m) (StopRecordingRequest_StreamId m)
  (StopRecordingRequest_Channel m).
Definition StopRecordingRequest_set_CorrelationId (v : Z) (m : StopRecordingRequest) : StopRecordingRequest :=
  mkStopRecordingRequest (StopRecordingRequest_ControlSessionId m) v (StopRecordingRequest_StreamId m)
  (StopRecordingRequest_Channel m).
Definition StopRecordingRequest_set_StreamId (v : Z) (m : StopRecordingRequest) : StopRecordingRequest :=
  mkStopRecordingRequest (StopRecordingRequest_ControlSessionId m) (StopRecordingRequest_CorrelationId m) v
  (StopRecordingRequest_Channel m).
Definition StopRecordingRequest_set_Channel (v : bytes) (m : StopRecordingRequest) : StopRecordingRequest :=
  mkStopRecordingRequest (StopRecordingRequest_ControlSessionId m) (StopRecordingRequest_CorrelationId m)
  (StopRecordingRequest_StreamId m) v.

Definition StopRecordingRequest_RangeCheck (m : StopRecordingRequest) (actingVersion schemaVersion : Z) : option string :=
  first_error
    [ check_required StopRecordingRequest_ControlSessionId_field actingVersion (StopRecordingRequest_ControlSessionId m)
    ; check_required StopRecordingRequest_CorrelationId_field actingVersion (StopRecordingRequest_CorrelationId m)
    ; check_required StopRecordingRequest_StreamId_field actingVersion (StopRecordingRequest_StreamId m) ].

Definition StopRecordingRequest_Encode (m : StopRecordingRequest) (doRangeCheck : bool) : M bytes unit :=
  when doRangeCheck (fail_if (StopRecordingRequest_RangeCheck m 6 6)) ;;;
  WriteInt64 (StopRecordingRequest_ControlSessionId m) ;;;
  WriteInt64 (StopRecordingRequest_CorrelationId m) ;;;
  WriteInt32 (StopRecordingRequest_StreamId m) ;;;
  WriteUint32 (u32 (zlen (StopRecordingRequest_Channel m))) ;;;
  WriteBytes (StopRecordingRequest_Channel m).

Definition StopRecordingRequest_Decode (actingVersion blockLength : Z) (doRangeCheck : bool) : M (bytes * StopRecordingRequest) unit :=
  decode_field StopRecordingRequest_ControlSessionId_field actingVersion ReadInt64 StopRecordingRequest_set_ControlSessionId ;;;
  decode_field StopRecordingRequest_CorrelationId_field actingVersion ReadInt64 StopRecordingRequest_set_CorrelationId ;;;
  decode_field StopRecordingRequest_StreamId_field actingVersion ReadInt32 StopRecordingRequest_set_StreamId ;;;
  skip_block actingVersion 6 blockLength 20 ;;;
  decode_data StopRecordingRequest_Channel_field actingVersion StopRecordingRequest_set_Channel ;;;
  when doRangeCheck (checked (fun m => StopRecordingRequest_RangeCheck m actingVersion 6)).

#[export] Instance StopRecordingRequest_codec : Codec StopRecordingRequest := {|
  SbeBlockLength := 20; SbeTemplateId := 5; SbeSchemaId := 101; SbeSchemaVersion := 6;
  zero := mkStopRecordingRequest 0 0 0 [];
  RangeCheck := StopRecordingRequest_RangeCheck; Encode := StopRecordingRequest_Encode; Decode := StopRecordingRequest_Decode;
  valid m := is_i64 (StopRecordingRequest_ControlSessionId m) /\ is_i64 (StopRecordingRequest_CorrelationId m) /\ is_i32
    (StopRecordingRequest_StreamId m) /\ zlen (StopRecordingRequest_Channel m) < 4294967296;
  fixed_part m := le_split 8 (StopRecordingRequest_ControlSessionId m) ++ le_split 8 (StopRecordingRequest_CorrelationId m) ++
    le_split 4 (StopRecordingRequest_StreamId m);
  data_part m := data_bytes (StopRecordingRequest_Channel m) |}.

#[export] Instance StopRecordingRequest_laws : CodecLaws StopRecordingRequest.
Proof. codec_laws StopRecordingRequest_codec StopRecordingRequest_Encode StopRecordingRequest_Decode. Qed.

(** ** StopRecordingSubscriptionRequest *)

Record StopRecordingSubscriptionRequest : Type := mkStopRecordingSubscriptionRequest {
  StopRecordingSubscriptionRequest_ControlSessionId : Z; StopRecordingSubscriptionRequest_CorrelationId : Z;
  StopRecordingSubscriptionRequest_SubscriptionId : Z }.

Definition StopRecordingSubscriptionRequest_ControlSessionId_field : field := mkField 1 0 0 false (-9223372036854775807) 9223372036854775807 (-9223372036854775808).
Definition StopRecordingSubscriptionRequest_CorrelationId_field : field := mkField 2 0 0 false (-9223372036854775807) 9223372036854775807 (-9223372036854775808).
Definition StopRecordingSubscriptionRequest_SubscriptionId_field : field := mkField 3 0 0 false (-9223372036854775807) 9223372036854775807 (-9223372036854775808).
Definition StopRecordingSubscriptionRequest_set_ControlSessionId (v : Z) (m : StopRecordingSubscriptionRequest)
  : StopRecordingSubscriptionRequest := mkStopRecordingSubscriptionRequest v
  (StopRecordingSubscriptionRequest_CorrelationId m) (StopRecordingSubscriptionRequest_SubscriptionId m).
Definition StopRecordingSubscriptionRequest_set_CorrelationId (v : Z) (m : StopRecordingSubscriptionRequest) :
  StopRecordingSubscriptionRequest := mkStopRecordingSubscriptionRequest
  (StopRecordingSubscriptionRequest_ControlSessionId m) v (StopRecordingSubscriptionRequest_SubscriptionId m).
Definition StopRecordingSubscriptionRequest_set_SubscriptionId (v : Z) (m : StopRecordingSubscriptionRequest) :
  StopRecordingSubscriptionRequest := mkStopRecordingSubscriptionRequest
  (StopRecordingSubscriptionRequest_ControlSessionId m) (StopRecordingSubscriptionRequest_CorrelationId m) v.

Definition StopRecordingSubscriptionRequest_RangeCheck (m : StopRecordingSubscriptionRequest) (actingVersion schemaVersion : Z) : option string :=
  first_error
    [ check_required StopRecordingSubscriptionRequest_ControlSessionId_field actingVersion (StopRecordingSubscriptionRequest_ControlSessionId m)
    ; check_required StopRecordingSubscriptionRequest_CorrelationId_field actingVersion (StopRecordingSubscriptionRequest_CorrelationId m)
    ; check_required StopRecordingSubscriptionRequest_SubscriptionId_field actingVersion (StopRecordingSubscriptionRequest_SubscriptionId m) ].

Definition StopRecordingSubscriptionRequest_Encode (m : StopRecordingSubscriptionRequest) (doRangeCheck : bool) : M bytes unit :=
  when doRangeCheck (fail_if (StopRecordingSubscriptionRequest_RangeCheck m 6 6)) ;;;
  WriteInt64 (StopRecordingSubscriptionRequest_ControlSessionId m) ;;;
  WriteInt64 (StopRecordingSubscriptionRequest_CorrelationId m) ;;;
  WriteInt64 (StopRecordingSubscriptionRequest_SubscriptionId m).

Definition StopRecordingSubscriptionRequest_Decode (actingVersion blockLength : Z) (doRangeCheck : bool) : M (bytes * StopRecordingSubscriptionRequest) unit :=
  decode_field StopRecordingSubscriptionRequest_ControlSessionId_field actingVersion ReadInt64 StopRecordingSubscriptionRequest_set_ControlSessionId ;;;
  decode_field StopRecordingSubscriptionRequest_CorrelationId_field actingVersion ReadInt64 StopRecordingSubscriptionRequest_set_CorrelationId ;;;
  decode_field StopRecordingSubscriptionRequest_SubscriptionId_field actingVersion ReadInt64 StopRecordingSubscriptionRequest_set_SubscriptionId ;;;
  skip_block actingVersion 6 blockLength 24 ;;;
  when doRangeCheck (checked (fun m => StopRecordingSubscriptionRequest_RangeCheck m actingVersion 6)).

#[export] Instance StopRecordingSubscriptionRequest_codec : Codec StopRecordingSubscriptionRequest := {|
  SbeBlockLength := 24; SbeTemplateId := 14; SbeSchemaId := 101; SbeSchemaVersion := 6;
  zero := mkStopRecordingSubscriptionRequest 0 0 0;
  RangeCheck := StopRecordingSubscriptionRequest_RangeCheck; Encode := StopRecordingSubscriptionRequest_Encode; Decode := StopRecordingSubscriptionRequest_Decode;
  valid m := is_i64 (StopRecordingSubscriptionRequest_ControlSessionId m) /\ is_i64
    (StopRecordingSubscriptionRequest_CorrelationId m) /\ is_i64
    (StopRecordingSubscriptionRequest_SubscriptionId m);
  fixed_part m := le_split 8 (StopRecordingSubscriptionRequest_ControlSessionId m) ++ le_split 8
    (StopRecordingSubscriptionRequest_CorrelationId m) ++ le_split 8
    (StopRecordingSubscriptionRequest_SubscriptionId m);
  data_part m := [] |}.

#[export] Instance StopRecordingSubscriptionRequest_laws : CodecLaws StopRecordingSubscriptionRequest.
Proof. codec_laws StopRecordingSubscriptionRequest_codec StopRecordingSubscriptionRequest_Encode StopRecordingSubscriptionRequest_Decode. Qed.

(** ** StopReplayRequest *)

Record StopReplayRequest : Type := mkStopReplayRequest { StopReplayRequest_ControlSessionId : Z;
  StopReplayRequest_CorrelationId : Z; StopReplayRequest_ReplaySessionId : Z }.

Definition StopReplayRequest_ControlSessionId_field : field := mkField 1 0 0 false (-9223372036854775807) 9223372036854775807 (-9223372036854775808).
Definition StopReplayRequest_CorrelationId_field : field := mkField 2 0 0 false (-9223372036854775807) 9223372036854775807 (-9223372036854775808).
Definition StopReplayRequest_ReplaySessionId_field : field := mkField 3 0 0 false (-9223372036854775807) 9223372036854775807 (-9223372036854775808).
Definition StopReplayRequest_set_ControlSessionId (v : Z) (m : StopReplayRequest) : StopReplayRequest :=
  mkStopReplayRequest v (StopReplayRequest_CorrelationId m) (StopReplayRequest_ReplaySessionId m).
Definition StopReplayRequest_set_CorrelationId (v : Z) (m : StopReplayRequest) : StopReplayRequest :=
  mkStopReplayRequest (StopReplayRequest_ControlSessionId m) v (StopReplayRequest_ReplaySessionId m).
Definition StopReplayRequest_set_ReplaySessionId (v : Z) (m : StopReplayRequest) : StopReplayRequest :=
  mkStopReplayRequest (StopReplayRequest_ControlSessionId m) (StopReplayRequest_CorrelationId m) v.

Definition StopReplayRequest_RangeCheck (m : StopReplayRequest) (actingVersion schemaVersion : Z) : option string :=
  first_error
    [ check_required StopReplayRequest_ControlSessionId_field actingVersion (StopReplayRequest_ControlSessionId m)
    ; check_required StopReplayRequest_CorrelationId_field actingVersion (StopReplayRequest_CorrelationId m)
    ; check_required StopReplayRequest_ReplaySessionId_field actingVersion (StopReplayRequest_ReplaySessionId m) ].

Definition StopReplayRequest_Encode (m : StopReplayRequest) (doRangeCheck : bool) : M bytes unit :=
  when doRangeCheck (fail_if (StopReplayRequest_RangeCheck m 6 6)) ;;;
  WriteInt64 (StopReplayRequest_ControlSessionId m) ;;;
  WriteInt64 (StopReplayRequest_CorrelationId m) ;;;
  WriteInt64 (StopReplayRequest_ReplaySessionId m).

Definition StopReplayRequest_Decode (actingVersion blockLength : Z) (doRangeCheck : bool) : M (bytes * StopReplayRequest) unit :=
  decode_field StopReplayRequest_ControlSessionId_field actingVersion ReadInt64 StopReplayRequest_set_ControlSessionId ;;;
  decode_field StopReplayRequest_CorrelationId_field actingVersion ReadInt64 StopReplayRequest_set_CorrelationId ;;;
  decode_field StopReplayRequest_ReplaySessionId_field actingVersion ReadInt64 StopReplayRequest_set_ReplaySessionId ;;;
  skip_block actingVersion 6 blockLength 24 ;;;
  when doRangeCheck (checked (fun m => StopReplayRequest_RangeCheck m actingVersion 6)).

#[export] Instance StopReplayRequest_codec : Codec StopReplayRequest := {|
  SbeBlockLength := 24; SbeTemplateId := 7; SbeSchemaId := 101; SbeSchemaVersion := 6;
  zero := mkStopReplayRequest 0 0 0;
  RangeCheck := StopReplayRequest_RangeCheck; Encode := StopReplayRequest_Encode; Decode := StopReplayRequest_Decode;
  valid m := is_i64 (StopReplayRequest_ControlSessionId m) /\ is_i64 (StopReplayRequest_CorrelationId m) /\ is_i64
    (StopReplayRequest_ReplaySessionId m);
  fixed_part m := le_split 8 (StopReplayRequest_ControlSessionId m) ++ le_split 8 (StopReplayRequest_CorrelationId m) ++ le_split
    8 (StopReplayRequest_ReplaySessionId m);
  data_part m := [] |}.

#[export] Instance StopReplayRequest_laws : CodecLaws StopReplayRequest.
Proof. codec_laws StopReplayRequest_codec StopReplayRequest_Encode StopReplayRequest_Decode. Qed.

(** ** StopReplicationRequest *)

Record StopReplicationRequest : Type := mkStopReplicationRequest { StopReplicationRequest_ControlSessionId : Z;
  StopReplicationRequest_CorrelationId : Z; StopReplicationRequest_ReplicationId : Z }.

Definition StopReplicationRequest_ControlSessionId_field : field := mkField 1 0 0 false (-9223372036854775807) 9223372036854775807 (-9223372036854775808).
Definition StopReplicationRequest_CorrelationId_field : field := mkField 2 0 0 false (-9223372036854775807) 9223372036854775807 (-9223372036854775808).
Definition StopReplicationRequest_ReplicationId_field : field := mkField 3 0 0 false (-9223372036854775807) 9223372036854775807 (-9223372036854775808).
Definition StopReplicationRequest_set_ControlSessionId (v : Z) (m : StopReplicationRequest) :
  StopReplicationRequest := mkStopReplicationRequest v (StopReplicationRequest_CorrelationId m)
  (StopReplicationRequest_ReplicationId m).
Definition StopReplicationRequest_set_CorrelationId (v : Z) (m : StopReplicationRequest) :
  StopReplicationRequest := mkStopReplicationRequest (StopReplicationRequest_ControlSessionId m) v
  (StopReplicationRequest_ReplicationId m).
Definition StopReplicationRequest_set_ReplicationId (v : Z) (m : StopReplicationRequest) :
  StopReplicationRequest := mkStopReplicationRequest (StopReplicationRequest_ControlSessionId m)
  (StopReplicationRequest_CorrelationId m) v.

Definition StopReplicationRequest_RangeCheck (m : StopReplicationRequest) (actingVersion schemaVersion : Z) : option string :=
  first_error
    [ check_required StopReplicationRequest_ControlSessionId_field actingVersion (StopReplicationRequest_ControlSessionId m)
    ; check_required StopReplicationRequest_CorrelationId_field actingVersion (StopReplicationRequest_CorrelationId m)
    ; check_required StopReplicationRequest_ReplicationId_field actingVersion (StopReplicationRequest_ReplicationId m) ].

Definition StopReplicationRequest_Encode (m : StopReplicationRequest) (doRangeCheck : bool) : M bytes unit :=
  when doRangeCheck (fail_if (StopReplicationRequest_RangeCheck m 6 6)) ;;;
  WriteInt64 (StopReplicationRequest_ControlSessionId m) ;;;
  WriteInt64 (StopReplicationRequest_CorrelationId m) ;;;
  WriteInt64 (StopReplicationRequest_ReplicationId m).

Definition StopReplicationRequest_Decode (actingVersion blockLength : Z) (doRangeCheck : bool) : M (bytes * StopReplicationRequest) unit :=
  decode_field StopReplicationRequest_ControlSessionId_field actingVersion ReadInt64 StopReplicationRequest_set_ControlSessionId ;;;
  decode_field StopReplicationRequest_CorrelationId_field actingVersion ReadInt64 StopReplicationRequest_set_CorrelationId ;;;
  decode_field StopReplicationRequest_ReplicationId_field actingVersion ReadInt64 StopReplicationRequest_set_ReplicationId ;;;
  skip_block actingVersion 6 blockLength 24 ;;;
  when doRangeCheck (checked (fun m => StopReplicationRequest_RangeCheck m actingVersion 6)).

#[export] Instance StopReplicationRequest_codec : Codec StopReplicationRequest := {|
  SbeBlockLength := 24; SbeTemplateId := 51; SbeSchemaId := 101; SbeSchemaVersion := 6;
  zero := mkStopReplicationRequest 0 0 0;
  RangeCheck := StopReplicationRequest_RangeCheck; Encode := StopReplicationRequest_Encode; Decode := StopReplicationRequest_Decode;
  valid m := is_i64 (StopReplicationRequest_ControlSessionId m) /\ is_i64 (StopReplicationRequest_CorrelationId m) /\ is_i64
    (StopReplicationRequest_ReplicationId m);
  fixed_part m := le_split 8 (StopReplicationRequest_ControlSessionId m) ++ le_split 8 (StopReplicationRequest_CorrelationId m) ++
    le_split 8 (StopReplicationRequest_ReplicationId m);
  data_part m := [] |}.

#[export] Instance StopReplicationRequest_laws : CodecLaws StopReplicationRequest.
Proof. codec_laws StopReplicationRequest_codec StopReplicationRequest_Encode StopReplicationRequest_Decode. Qed.

(** ** TaggedReplicateRequest *)

Record TaggedReplicateRequest : Type := mkTaggedReplicateRequest { TaggedReplicateRequest_ControlSessionId : Z;
  TaggedReplicateRequest_CorrelationId : Z; TaggedReplicateRequest_SrcRecordingId : Z;
  TaggedReplicateRequest_DstRecordingId : Z; TaggedReplicateRequest_ChannelTagId : Z;
  TaggedReplicateRequest_SubscriptionTagId : Z; TaggedReplicateRequest_SrcControlStreamId : Z;
  TaggedReplicateRequest_SrcControlChannel : bytes; TaggedReplicateRequest_LiveDestination : bytes }.

Definition TaggedReplicateRequest_ControlSessionId_field : field := mkField 1 0 0 false (-9223372036854775807) 9223372036854775807 (-9223372036854775808).
Definition TaggedReplicateRequest_CorrelationId_field : field := mkField 2 0 0 false (-9223372036854775807) 9223372036854775807 (-9223372036854775808).
Definition TaggedReplicateRequest_SrcRecordingId_field : field := mkField 3 0 0 false (-9223372036854775807) 9223372036854775807 (-9223372036854775808).
Definition TaggedReplicateRequest_DstRecordingId_field : field := mkField 4 0 0 false (-9223372036854775807) 9223372036854775807 (-9223372036854775808).
Definition TaggedReplicateRequest_ChannelTagId_field : field := mkField 5 0 0 false (-9223372036854775807) 9223372036854775807 (-9223372036854775808).
Definition TaggedReplicateRequest_SubscriptionTagId_field : field := mkField 6 0 0 false (-9223372036854775807) 9223372036854775807 (-9223372036854775808).
Definition TaggedReplicateRequest_SrcControlStreamId_field : field := mkField 7 0 0 false (-2147483647) 2147483647 (-2147483648).
Definition TaggedReplicateRequest_SrcControlChannel_field : data_field := mkDataField 0 0 "US-ASCII" 4.
Definition TaggedReplicateRequest_LiveDestination_field : data_field := mkDataField 0 0 "US-ASCII" 4.
Definition TaggedReplicateRequest_set_ControlSessionId (v : Z) (m : TaggedReplicateRequest) :
  TaggedReplicateRequest := mkTaggedReplicateRequest v (TaggedReplicateRequest_CorrelationId m)
  (TaggedReplicateRequest_SrcRecordingId m) (TaggedReplicateRequest_DstRecordingId m)
  (TaggedReplicateRequest_ChannelTagId m) (TaggedReplicateRequest_SubscriptionTagId m)
  (TaggedReplicateRequest_SrcControlStreamId m) (TaggedReplicateRequest_SrcControlChannel m)
  (TaggedReplicateRequest_LiveDestination m).
Definition TaggedReplicateRequest_set_CorrelationId (v : Z) (m : TaggedReplicateRequest) :
  TaggedReplicateRequest := mkTaggedReplicateRequest (TaggedReplicateRequest_ControlSessionId m) v
  (TaggedReplicateRequest_SrcRecordingId m) (TaggedReplicateRequest_DstRecordingId m)
  (TaggedReplicateRequest_ChannelTagId m) (TaggedReplicateRequest_SubscriptionTagId m)
  (TaggedReplicateRequest_SrcControlStreamId m) (TaggedReplicateRequest_SrcControlChannel m)
  (TaggedReplicateRequest_LiveDestination m).
Definition TaggedReplicateRequest_set_SrcRecordingId (v : Z) (m : TaggedReplicateRequest) :
  TaggedReplicateRequest := mkTaggedReplicateRequest (TaggedReplicateRequest_ControlSessionId m)
  (TaggedReplicateRequest_CorrelationId m) v (TaggedReplicateRequest_DstRecordingId m)
  (TaggedReplicateRequest_ChannelTagId m) (TaggedReplicateRequest_SubscriptionTagId m)
  (TaggedReplicateRequest_SrcControlStreamId m) (TaggedReplicateRequest_SrcControlChannel m)
  (TaggedReplicateRequest_LiveDestination m).
Definition TaggedReplicateRequest_set_DstRecordingId (v : Z) (m : TaggedReplicateRequest) :
  TaggedReplicateRequest := mkTaggedReplicateRequest (TaggedReplicateRequest_ControlSessionId m)
  (TaggedReplicateRequest_CorrelationId m) (TaggedReplicateRequest_SrcRecordingId m) v
  (TaggedReplicateRequest_ChannelTagId m) (TaggedReplicateRequest_SubscriptionTagId m)
  (TaggedReplicateRequest_SrcControlStreamId m) (TaggedReplicateRequest_SrcControlChannel m)
  (TaggedReplicateRequest_LiveDestination m).
Definition TaggedReplicateRequest_set_ChannelTagId (v : Z) (m : TaggedReplicateRequest) : TaggedReplicateRequest
  := mkTaggedReplicateRequest (TaggedReplicateRequest_ControlSessionId m) (TaggedReplicateRequest_CorrelationId
  m) (TaggedReplicateRequest_SrcRecordingId m) (TaggedReplicateRequest_DstRecordingId m) v
  (TaggedReplicateRequest_SubscriptionTagId m) (TaggedReplicateRequest_SrcControlStreamId m)
  (TaggedReplicateRequest_SrcControlChannel m) (TaggedReplicateRequest_LiveDestination m).
Definition TaggedReplicateRequest_set_SubscriptionTagId (v : Z) (m : TaggedReplicateRequest) :
  TaggedReplicateRequest := mkTaggedReplicateRequest (TaggedReplicateRequest_ControlSessionId m)
  (TaggedReplicateRequest_CorrelationId m) (TaggedReplicateRequest_SrcRecordingId m)
  (TaggedReplicateRequest_DstRecordingId m) (TaggedReplicateRequest_ChannelTagId m) v
  (TaggedReplicateRequest_SrcControlStreamId m) (TaggedReplicateRequest_SrcControlChannel m)
  (TaggedReplicateRequest_LiveDestination m).
Definition TaggedReplicateRequest_set_SrcControlStreamId (v : Z) (m : TaggedReplicateRequest) :
  TaggedReplicateRequest := mkTaggedReplicateRequest (TaggedReplicateRequest_ControlSessionId m)
  (TaggedReplicateRequest_CorrelationId m) (TaggedReplicateRequest_SrcRecordingId m)
  (TaggedReplicateRequest_DstRecordingId m) (TaggedReplicateRequest_ChannelTagId m)
  (TaggedReplicateRequest_SubscriptionTagId m) v (TaggedReplicateRequest_SrcControlChannel m)
  (TaggedReplicateRequest_LiveDestination m).
Definition TaggedReplicateRequest_set_SrcControlChannel (v : bytes) (m : TaggedReplicateRequest) :
  TaggedReplicateRequest := mkTaggedReplicateRequest (TaggedReplicateRequest_ControlSessionId m)
  (TaggedReplicateRequest_CorrelationId m) (TaggedReplicateRequest_SrcRecordingId m)
  (TaggedReplicateRequest_DstRecordingId m) (TaggedReplicateRequest_ChannelTagId m)
  (TaggedReplicateRequest_SubscriptionTagId m) (TaggedReplicateRequest_SrcControlStreamId m) v
  (TaggedReplicateRequest_LiveDestination m).
Definition TaggedReplicateRequest_set_LiveDestination (v : bytes) (m : TaggedReplicateRequest) :
  TaggedReplicateRequest := mkTaggedReplicateRequest (TaggedReplicateRequest_ControlSessionId m)
  (TaggedReplicateRequest_CorrelationId m) (TaggedReplicateRequest_SrcRecordingId m)
  (TaggedReplicateRequest_DstRecordingId m) (TaggedReplicateRequest_ChannelTagId m)
  (TaggedReplicateRequest_SubscriptionTagId m) (TaggedReplicateRequest_SrcControlStreamId m)
  (TaggedReplicateRequest_SrcControlChannel m) v.

Definition TaggedReplicateRequest_RangeCheck (m : TaggedReplicateRequest) (actingVersion schemaVersion : Z) : option string :=
  first_error
    [ check_required TaggedReplicateRequest_ControlSessionId_field actingVersion (TaggedReplicateRequest_ControlSessionId m)
    ; check_required TaggedReplicateRequest_CorrelationId_field actingVersion (TaggedReplicateRequest_CorrelationId m)
    ; check_required TaggedReplicateRequest_SrcRecordingId_field actingVersion (TaggedReplicateRequest_SrcRecordingId m)
    ; check_required TaggedReplicateRequest_DstRecordingId_field actingVersion (TaggedReplicateRequest_DstRecordingId m)
    ; check_required TaggedReplicateRequest_ChannelTagId_field actingVersion (TaggedReplicateRequest_ChannelTagId m)
    ; check_required TaggedReplicateRequest_SubscriptionTagId_field actingVersion (TaggedReplicateRequest_SubscriptionTagId m)
    ; check_required TaggedReplicateRequest_SrcControlStreamId_field actingVersion (TaggedReplicateRequest_SrcControlStreamId m) ].

Definition TaggedReplicateRequest_Encode (m : TaggedReplicateRequest) (doRangeCheck : bool) : M bytes unit :=
  when doRangeCheck (fail_if (TaggedReplicateRequest_RangeCheck m 6 6)) ;;;
  WriteInt64 (TaggedReplicateRequest_ControlSessionId m) ;;;
  WriteInt64 (TaggedReplicateRequest_CorrelationId m) ;;;
  WriteInt64 (TaggedReplicateRequest_SrcRecordingId m) ;;;
  WriteInt64 (TaggedReplicateRequest_DstRecordingId m) ;;;
  WriteInt64 (TaggedReplicateRequest_ChannelTagId m) ;;;
  WriteInt64 (TaggedReplicateRequest_SubscriptionTagId m) ;;;
  WriteInt32 (TaggedReplicateRequest_SrcControlStreamId m) ;;;
  WriteUint32 (u32 (zlen (TaggedReplicateRequest_SrcControlChannel m))) ;;;
  WriteBytes (TaggedReplicateRequest_SrcControlChannel m) ;;;
  WriteUint32 (u32 (zlen (TaggedReplicateRequest_LiveDestination m))) ;;;
  WriteBytes (TaggedReplicateRequest_LiveDestination m).

Definition TaggedReplicateRequest_Decode (actingVersion blockLength : Z) (doRangeCheck : bool) : M (bytes * TaggedReplicateRequest) unit :=
  decode_field TaggedReplicateRequest_ControlSessionId_field actingVersion ReadInt64 TaggedReplicateRequest_set_ControlSessionId ;;;
  decode_field TaggedReplicateRequest_CorrelationId_field actingVersion ReadInt64 TaggedReplicateRequest_set_CorrelationId ;;;
  decode_field TaggedReplicateRequest_SrcRecordingId_field actingVersion ReadInt64 TaggedReplicateRequest_set_SrcRecordingId ;;;
  decode_field TaggedReplicateRequest_DstRecordingId_field actingVersion ReadInt64 TaggedReplicateRequest_set_DstRecordingId ;;;
  decode_field TaggedReplicateRequest_ChannelTagId_field actingVersion ReadInt64 TaggedReplicateRequest_set_ChannelTagId ;;;
  decode_field TaggedReplicateRequest_SubscriptionTagId_field actingVersion ReadInt64 TaggedReplicateRequest_set_SubscriptionTagId ;;;
  decode_field TaggedReplicateRequest_SrcControlStreamId_field actingVersion ReadInt32 TaggedReplicateRequest_set_SrcControlStreamId ;;;
  skip_block actingVersion 6 blockLength 52 ;;;
  decode_data TaggedReplicateRequest_SrcControlChannel_field actingVersion TaggedReplicateRequest_set_SrcControlChannel ;;;
  decode_data TaggedReplicateRequest_LiveDestination_field actingVersion TaggedReplicateRequest_set_LiveDestination ;;;
  when doRangeCheck (checked (fun m => TaggedReplicateRequest_RangeCheck m actingVersion 6)).

#[export] Instance TaggedReplicateRequest_codec : Codec TaggedReplicateRequest := {|
  SbeBlockLength := 52; SbeTemplateId := 62; SbeSchemaId := 101; SbeSchemaVersion := 6;
  zero := mkTaggedReplicateRequest 0 0 0 0 0 0 0 [] [];
  RangeCheck := TaggedReplicateRequest_RangeCheck; Encode := TaggedReplicateRequest_Encode; Decode := TaggedReplicateRequest_Decode;
  valid m := is_i64 (TaggedReplicateRequest_ControlSessionId m) /\ is_i64 (TaggedReplicateRequest_CorrelationId m) /\ is_i64
    (TaggedReplicateRequest_SrcRecordingId m) /\ is_i64 (TaggedReplicateRequest_DstRecordingId m) /\ is_i64
    (TaggedReplicateRequest_ChannelTagId m) /\ is_i64 (TaggedReplicateRequest_SubscriptionTagId m) /\ is_i32
    (TaggedReplicateRequest_SrcControlStreamId m) /\ zlen (TaggedReplicateRequest_SrcControlChannel m) <
    4294967296 /\ zlen (TaggedReplicateRequest_LiveDestination m) < 4294967296;
  fixed_part m := le_split 8 (TaggedReplicateRequest_ControlSessionId m) ++ le_split 8 (TaggedReplicateRequest_CorrelationId m) ++
    le_split 8 (TaggedReplicateRequest_SrcRecordingId m) ++ le_split 8 (TaggedReplicateRequest_DstRecordingId m)
    ++ le_split 8 (TaggedReplicateRequest_ChannelTagId m) ++ le_split 8
    (TaggedReplicateRequest_SubscriptionTagId m) ++ le_split 4 (TaggedReplicateRequest_SrcControlStreamId m);
  data_part m := data_bytes (TaggedReplicateRequest_SrcControlChannel m) ++ data_bytes (TaggedReplicateRequest_LiveDestination m) |}.

#[export] Instance TaggedReplicateRequest_laws : CodecLaws TaggedReplicateRequest.
Proof. codec_laws TaggedReplicateRequest_codec TaggedReplicateRequest_Encode TaggedReplicateRequest_Decode. Qed.

(** ** TruncateRecordingRequest *)

Record TruncateRecordingRequest : Type := mkTruncateRecordingRequest { TruncateRecordingRequest_ControlSessionId
  : Z; TruncateRecordingRequest_CorrelationId : Z; TruncateRecordingRequest_RecordingId : Z;
  TruncateRecordingRequest_Position : Z }.

Definition TruncateRecordingRequest_ControlSessionId_field : field := mkField 1 0 0 false (-9223372036854775807) 9223372036854775807 (-9223372036854775808).
Definition TruncateRecordingRequest_CorrelationId_field : field := mkField 2 0 0 false (-9223372036854775807) 9223372036854775807 (-9223372036854775808).
Definition TruncateRecordingRequest_RecordingId_field : field := mkField 3 0 0 false (-9223372036854775807) 9223372036854775807 (-9223372036854775808).
Definition TruncateRecordingRequest_Position_field : field := mkField 4 0 0 false (-9223372036854775807) 9223372036854775807 (-9223372036854775808).
Definition TruncateRecordingRequest_set_ControlSessionId (v : Z) (m : TruncateRecordingRequest) :
  TruncateRecordingRequest := mkTruncateRecordingRequest v (TruncateRecordingRequest_CorrelationId m)
  (TruncateRecordingRequest_RecordingId m) (TruncateRecordingRequest_Position m).
Definition TruncateRecordingRequest_set_CorrelationId (v : Z) (m : TruncateRecordingRequest) :
  TruncateRecordingRequest := mkTruncateRecordingRequest (TruncateRecordingRequest_ControlSessionId m) v
  (TruncateRecordingRequest_RecordingId m) (TruncateRecordingRequest_Position m).
Definition TruncateRecordingRequest_set_RecordingId (v : Z) (m : TruncateRecordingRequest) :
  TruncateRecordingRequest := mkTruncateRecordingRequest (TruncateRecordingRequest_ControlSessionId m)
  (TruncateRecordingRequest_CorrelationId m) v (TruncateRecordingRequest_Position m).
Definition TruncateRecordingRequest_set_Position (v : Z) (m : TruncateRecordingRequest) :
  TruncateRecordingRequest := mkTruncateRecordingRequest (TruncateRecordingRequest_ControlSessionId m)
  (TruncateRecordingRequest_CorrelationId m) (TruncateRecordingRequest_RecordingId m) v.

Definition TruncateRecordingRequest_RangeCheck (m : TruncateRecordingRequest) (actingVersion schemaVersion : Z) : option string :=
  first_error
    [ check_required TruncateRecordingRequest_ControlSessionId_field actingVersion (TruncateRecordingRequest_ControlSessionId m)
    ; check_required TruncateRecordingRequest_CorrelationId_field actingVersion (TruncateRecordingRequest_CorrelationId m)
    ; check_required TruncateRecordingRequest_RecordingId_field actingVersion (TruncateRecordingRequest_RecordingId m)
    ; check_required TruncateRecordingRequest_Position_field actingVersion (TruncateRecordingRequest_Position m) ].

Definition TruncateRecordingRequest_Encode (m : TruncateRecordingRequest) (doRangeCheck : bool) : M bytes unit :=
  when doRangeCheck (fail_if (TruncateRecordingRequest_RangeCheck m 6 6)) ;;;
  WriteInt64 (TruncateRecordingRequest_ControlSessionId m) ;;;
  WriteInt64 (TruncateRecordingRequest_CorrelationId m) ;;;
  WriteInt64 (TruncateRecordingRequest_RecordingId m) ;;;
  WriteInt64 (TruncateRecordingRequest_Position m).

Definition TruncateRecordingRequest_Decode (actingVersion blockLength : Z) (doRangeCheck : bool) : M (bytes * TruncateRecordingRequest) unit :=
  decode_field TruncateRecordingRequest_ControlSessionId_field actingVersion ReadInt64 TruncateRecordingRequest_set_ControlSessionId ;;;
  decode_field TruncateRecordingRequest_CorrelationId_field actingVersion ReadInt64 TruncateRecordingRequest_set_CorrelationId ;;;
  decode_field TruncateRecordingRequest_RecordingId_field actingVersion ReadInt64 TruncateRecordingRequest_set_RecordingId ;;;
  decode_field TruncateRecordingRequest_Position_field actingVersion ReadInt64 TruncateRecordingRequest_set_Position ;;;
  skip_block actingVersion 6 blockLength 32 ;;;
  when doRangeCheck (checked (fun m => TruncateRecordingRequest_RangeCheck m actingVersion 6)).

#[export] Instance TruncateRecordingRequest_codec : Codec TruncateRecordingRequest := {|
  SbeBlockLength := 32; SbeTemplateId := 13; SbeSchemaId := 101; SbeSchemaVersion := 6;
  zero := mkTruncateRecordingRequest 0 0 0 0;
  RangeCheck := TruncateRecordingRequest_RangeCheck; Encode := TruncateRecordingRequest_Encode; Decode := TruncateRecordingRequest_Decode;
  valid m := is_i64 (TruncateRecordingRequest_ControlSessionId m) /\ is_i64 (TruncateRecordingRequest_CorrelationId m) /\
    is_i64 (TruncateRecordingRequest_RecordingId m) /\ is_i64 (TruncateRecordingRequest_Position m);
  fixed_part m := le_split 8 (TruncateRecordingRequest_ControlSessionId m) ++ le_split 8 (TruncateRecordingRequest_CorrelationId
    m) ++ le_split 8 (TruncateRecordingRequest_RecordingId m) ++ le_split 8 (TruncateRecordingRequest_Position
    m);
  data_part m := [] |}.

#[export] Instance TruncateRecordingRequest_laws : CodecLaws TruncateRecordingRequest.
Proof. codec_laws TruncateRecordingRequest_codec TruncateRecordingRequest_Encode TruncateRecordingRequest_Decode. Qed.
