(* ===== verification/ArchiveTypes.v ===== *)
(** * The enumerations and composites of the archive

    archive/codecs: the types that the fields of the messages have. The messages write and read
    their enumerations themselves in the way that is shown here. *)

From S2P Require Import Prelude Sbe SbeTypes ArchiveCodecs.

Local Open Scope m_scope.

Local Abbreviation bytes := (list Init.Byte.byte).

(** ** Enumerations *)

Definition BooleanType_Encode (e : Z) : M bytes unit := WriteInt32 e.
Definition BooleanType_Decode (actingVersion : Z) : M (bytes * Z) unit := ReadInt32 (fun v _ => v).
Definition BooleanType_RangeCheck (e actingVersion schemaVersion : Z) : option string := check_enum
  BooleanTypeValues actingVersion schemaVersion e.
Definition BooleanType_EncodedLength : Z := 4.
Definition BooleanType_accessors : list enum_value := [mkEnumValue BooleanType.FALSE 0 0; mkEnumValue
  BooleanType.TRUE 0 0].
Definition BooleanType_wire : wire Z := enum_wire BooleanType_Encode BooleanType_Decode BooleanType_RangeCheck
  BooleanTypeValues BooleanType_EncodedLength is_i32.

Definition ControlResponseCode_Encode (e : Z) : M bytes unit := WriteInt32 e.
Definition ControlResponseCode_Decode (actingVersion : Z) : M (bytes * Z) unit := ReadInt32 (fun v _ => v).
Definition ControlResponseCode_RangeCheck (e actingVersion schemaVersion : Z) : option string := check_enum
  ControlResponseCodeValues actingVersion schemaVersion e.
Definition ControlResponseCode_EncodedLength : Z := 4.
Definition ControlResponseCode_accessors : list enum_value := [mkEnumValue ControlResponseCode.OK 0 0; mkEnumValue
  ControlResponseCode.ERROR 0 0; mkEnumValue ControlResponseCode.RECORDING_UNKNOWN 0 0; mkEnumValue
  ControlResponseCode.SUBSCRIPTION_UNKNOWN 0 0].
Definition ControlResponseCode_wire : wire Z := enum_wire ControlResponseCode_Encode ControlResponseCode_Decode
  ControlResponseCode_RangeCheck ControlResponseCodeValues ControlResponseCode_EncodedLength is_i32.

Definition RecordingSignal_Encode (e : Z) : M bytes unit := WriteInt32 e.
Definition RecordingSignal_Decode (actingVersion : Z) : M (bytes * Z) unit := ReadInt32 (fun v _ => v).
Definition RecordingSignal_RangeCheck (e actingVersion schemaVersion : Z) : option string := check_enum
  RecordingSignalValues actingVersion schemaVersion e.
Definition RecordingSignal_EncodedLength : Z := 4.
Definition RecordingSignal_accessors : list enum_value := [mkEnumValue RecordingSignal.START 0 0; mkEnumValue
  RecordingSignal.STOP 0 0; mkEnumValue RecordingSignal.EXTEND 0 0; mkEnumValue RecordingSignal.REPLICATE 0 0;
  mkEnumValue RecordingSignal.MERGE 0 0; mkEnumValue RecordingSignal.SYNC 0 0; mkEnumValue RecordingSignal.DELETE 0
  0; mkEnumValue RecordingSignal.REPLICATE_END 0 0].
Definition RecordingSignal_wire : wire Z := enum_wire RecordingSignal_Encode RecordingSignal_Decode
  RecordingSignal_RangeCheck RecordingSignalValues RecordingSignal_EncodedLength is_i32.

Definition RecordingState_Encode (e : Z) : M bytes unit := WriteInt32 e.
Definition RecordingState_Decode (actingVersion : Z) : M (bytes * Z) unit := ReadInt32 (fun v _ => v).
Definition RecordingState_RangeCheck (e actingVersion schemaVersion : Z) : option string := check_enum
  RecordingStateValues actingVersion schemaVersion e.
Definition RecordingState_EncodedLength : Z := 4.
Definition RecordingState_accessors : list enum_value := [mkEnumValue RecordingState.INVALID 0 0; mkEnumValue
  RecordingState.VALID 0 0].
Definition RecordingState_wire : wire Z := enum_wire RecordingState_Encode RecordingState_Decode
  RecordingState_RangeCheck RecordingStateValues RecordingState_EncodedLength is_i32.

Definition SourceLocation_Encode (e : Z) : M bytes unit := WriteInt32 e.
Definition SourceLocation_Decode (actingVersion : Z) : M (bytes * Z) unit := ReadInt32 (fun v _ => v).
Definition SourceLocation_RangeCheck (e actingVersion schemaVersion : Z) : option string := check_enum
  SourceLocationValues actingVersion schemaVersion e.
Definition SourceLocation_EncodedLength : Z := 4.
Definition SourceLocation_accessors : list enum_value := [mkEnumValue SourceLocation.LOCAL 0 0; mkEnumValue
  SourceLocation.REMOTE 0 0].
Definition SourceLocation_wire : wire Z := enum_wire SourceLocation_Encode SourceLocation_Decode
  SourceLocation_RangeCheck SourceLocationValues SourceLocation_EncodedLength is_i32.

(** ** Composites *)

Record MessageHeader : Type := mkMessageHeader { MessageHeader_BlockLength : Z; MessageHeader_TemplateId : Z;
  MessageHeader_SchemaId : Z; MessageHeader_Version : Z }.
Definition MessageHeader_BlockLength_field : field := mkField 0 0 0 false 0 65534 65535.
Definition MessageHeader_TemplateId_field : field := mkField 0 0 0 false 0 65534 65535.
Definition MessageHeader_SchemaId_field : field := mkField 0 0 0 false 0 65534 65535.
Definition MessageHeader_Version_field : field := mkField 0 0 0 false 0 65534 65535.
Definition MessageHeader_set_BlockLength (v : Z) (m : MessageHeader) : MessageHeader := mkMessageHeader v
  (MessageHeader_TemplateId m) (MessageHeader_SchemaId m) (MessageHeader_Version m).
Definition MessageHeader_set_TemplateId (v : Z) (m : MessageHeader) : MessageHeader := mkMessageHeader
  (MessageHeader_BlockLength m) v (MessageHeader_SchemaId m) (MessageHeader_Version m).
Definition MessageHeader_set_SchemaId (v : Z) (m : MessageHeader) : MessageHeader := mkMessageHeader
  (MessageHeader_BlockLength m) (MessageHeader_TemplateId m) v (MessageHeader_Version m).
Definition MessageHeader_set_Version (v : Z) (m : MessageHeader) : MessageHeader := mkMessageHeader
  (MessageHeader_BlockLength m) (MessageHeader_TemplateId m) (MessageHeader_SchemaId m) v.

Definition MessageHeader_Encode (m : MessageHeader) : M bytes unit :=
  WriteUint16 (MessageHeader_BlockLength m) ;;;
  WriteUint16 (MessageHeader_TemplateId m) ;;;
  WriteUint16 (MessageHeader_SchemaId m) ;;;
  WriteUint16 (MessageHeader_Version m).

Definition MessageHeader_Decode (actingVersion : Z) : M (bytes * MessageHeader) unit :=
  decode_field MessageHeader_BlockLength_field actingVersion ReadUint16 MessageHeader_set_BlockLength ;;;
  decode_field MessageHeader_TemplateId_field actingVersion ReadUint16 MessageHeader_set_TemplateId ;;;
  decode_field MessageHeader_SchemaId_field actingVersion ReadUint16 MessageHeader_set_SchemaId ;;;
  decode_field MessageHeader_Version_field actingVersion ReadUint16 MessageHeader_set_Version.

Definition MessageHeader_RangeCheck (m : MessageHeader) (actingVersion schemaVersion : Z) : option string :=
  first_error
    [ check_required MessageHeader_BlockLength_field actingVersion (MessageHeader_BlockLength m)
    ; check_required MessageHeader_TemplateId_field actingVersion (MessageHeader_TemplateId m)
    ; check_required MessageHeader_SchemaId_field actingVersion (MessageHeader_SchemaId m)
    ; check_required MessageHeader_Version_field actingVersion (MessageHeader_Version m) ].

Definition MessageHeader_EncodedLength : Z := 8.

Definition MessageHeader_wire : wire MessageHeader := {|
w_Encode := MessageHeader_Encode; w_Decode := MessageHeader_Decode; w_RangeCheck := MessageHeader_RangeCheck;
    w_EncodedLength := MessageHeader_EncodedLength;
  w_zero := mkMessageHeader 0 0 0 0;
w_valid m := is_u16 (MessageHeader_BlockLength m) /\ is_u16 (MessageHeader_TemplateId m) /\ is_u16
    (MessageHeader_SchemaId m) /\ is_u16 (MessageHeader_Version m);
w_in_range m := in_field MessageHeader_BlockLength_field (MessageHeader_BlockLength m) /\ in_field
    MessageHeader_TemplateId_field (MessageHeader_TemplateId m) /\ in_field MessageHeader_SchemaId_field
    (MessageHeader_SchemaId m) /\ in_field MessageHeader_Version_field (MessageHeader_Version m);
w_bytes m := le_split 2 (MessageHeader_BlockLength m) ++ le_split 2 (MessageHeader_TemplateId m) ++ le_split 2
    (MessageHeader_SchemaId m) ++ le_split 2 (MessageHeader_Version m) |}.

Record VarAsciiEncoding : Type := mkVarAsciiEncoding { VarAsciiEncoding_Length : Z; VarAsciiEncoding_VarData : Z }.
Definition VarAsciiEncoding_Length_field : field := mkField 0 0 0 false 0 1073741824 4294967295.
Definition VarAsciiEncoding_VarData_field : field := mkField 0 0 0 false 0 254 255.
Definition VarAsciiEncoding_set_Length (v : Z) (m : VarAsciiEncoding) : VarAsciiEncoding := mkVarAsciiEncoding v
  (VarAsciiEncoding_VarData m).
Definition VarAsciiEncoding_set_VarData (v : Z) (m : VarAsciiEncoding) : VarAsciiEncoding := mkVarAsciiEncoding
  (VarAsciiEncoding_Length m) v.

Definition VarAsciiEncoding_Encode (m : VarAsciiEncoding) : M bytes unit :=
  WriteUint32 (VarAsciiEncoding_Length m) ;;;
  WriteUint8 (VarAsciiEncoding_VarData m).

Definition VarAsciiEncoding_Decode (actingVersion : Z) : M (bytes * VarAsciiEncoding) unit :=
  decode_field VarAsciiEncoding_Length_field actingVersion ReadUint32 VarAsciiEncoding_set_Length ;;;
  decode_field VarAsciiEncoding_VarData_field actingVersion ReadUint8 VarAsciiEncoding_set_VarData.

Definition VarAsciiEncoding_RangeCheck (m : VarAsciiEncoding) (actingVersion schemaVersion : Z) : option string :=
  first_error
    [ check_required VarAsciiEncoding_Length_field actingVersion (VarAsciiEncoding_Length m)
    ; check_required VarAsciiEncoding_VarData_field actingVersion (VarAsciiEncoding_VarData m) ].

Definition VarAsciiEncoding_EncodedLength : Z := -1.

Definition VarAsciiEncoding_wire : wire VarAsciiEncoding := {|
w_Encode := VarAsciiEncoding_Encode; w_Decode := VarAsciiEncoding_Decode; w_RangeCheck :=
    VarAsciiEncoding_RangeCheck; w_EncodedLength := VarAsciiEncoding_EncodedLength;
  w_zero := mkVarAsciiEncoding 0 0;
  w_valid m := is_u32 (VarAsciiEncoding_Length m) /\ is_u8 (VarAsciiEncoding_VarData m);
w_in_range m := in_field VarAsciiEncoding_Length_field (VarAsciiEncoding_Length m) /\ in_field
    VarAsciiEncoding_VarData_field (VarAsciiEncoding_VarData m);
  w_bytes m := le_split 4 (VarAsciiEncoding_Length m) ++ le_split 1 (VarAsciiEncoding_VarData m) |}.

Record VarDataEncoding : Type := mkVarDataEncoding { VarDataEncoding_Length : Z; VarDataEncoding_VarData : Z }.
Definition VarDataEncoding_Length_field : field := mkField 0 0 0 false 0 1073741824 4294967295.
Definition VarDataEncoding_VarData_field : field := mkField 0 0 0 false 0 254 255.
Definition VarDataEncoding_set_Length (v : Z) (m : VarDataEncoding) : VarDataEncoding := mkVarDataEncoding v
  (VarDataEncoding_VarData m).
Definition VarDataEncoding_set_VarData (v : Z) (m : VarDataEncoding) : VarDataEncoding := mkVarDataEncoding
  (VarDataEncoding_Length m) v.

Definition VarDataEncoding_Encode (m : VarDataEncoding) : M bytes unit :=
  WriteUint32 (VarDataEncoding_Length m) ;;;
  WriteUint8 (VarDataEncoding_VarData m).

Definition VarDataEncoding_Decode (actingVersion : Z) : M (bytes * VarDataEncoding) unit :=
  decode_field VarDataEncoding_Length_field actingVersion ReadUint32 VarDataEncoding_set_Length ;;;
  decode_field VarDataEncoding_VarData_field actingVersion ReadUint8 VarDataEncoding_set_VarData.

Definition VarDataEncoding_RangeCheck (m : VarDataEncoding) (actingVersion schemaVersion : Z) : option string :=
  first_error
    [ check_required VarDataEncoding_Length_field actingVersion (VarDataEncoding_Length m)
    ; check_required VarDataEncoding_VarData_field actingVersion (VarDataEncoding_VarData m) ].

Definition VarDataEncoding_EncodedLength : Z := -1.

Definition VarDataEncoding_wire : wire VarDataEncoding := {|
w_Encode := VarDataEncoding_Encode; w_Decode := VarDataEncoding_Decode; w_RangeCheck := VarDataEncoding_RangeCheck;
    w_EncodedLength := VarDataEncoding_EncodedLength;
  w_zero := mkVarDataEncoding 0 0;
  w_valid m := is_u32 (VarDataEncoding_Length m) /\ is_u8 (VarDataEncoding_VarData m);
w_in_range m := in_field VarDataEncoding_Length_field (VarDataEncoding_Length m) /\ in_field
    VarDataEncoding_VarData_field (VarDataEncoding_VarData m);
  w_bytes m := le_split 4 (VarDataEncoding_Length m) ++ le_split 1 (VarDataEncoding_VarData m) |}.

(** All of them. *)
Definition archive_types : list {A : Type & wire A} :=
  [ existT (P := wire) Z BooleanType_wire
  ; existT (P := wire) Z ControlResponseCode_wire
  ; existT (P := wire) Z RecordingSignal_wire
  ; existT (P := wire) Z RecordingState_wire
  ; existT (P := wire) Z SourceLocation_wire
  ; existT (P := wire) MessageHeader MessageHeader_wire
  ; existT (P := wire) VarAsciiEncoding VarAsciiEncoding_wire
  ; existT (P := wire) VarDataEncoding VarDataEncoding_wire ].

Lemma archive_BooleanType_laws : wire_ok BooleanType_wire.
Proof. enum_laws BooleanType_wire BooleanType_RangeCheck. Qed.
Lemma archive_ControlResponseCode_laws : wire_ok ControlResponseCode_wire.
Proof. enum_laws ControlResponseCode_wire ControlResponseCode_RangeCheck. Qed.
Lemma archive_RecordingSignal_laws : wire_ok RecordingSignal_wire.
Proof. enum_laws RecordingSignal_wire RecordingSignal_RangeCheck. Qed.
Lemma archive_RecordingState_laws : wire_ok RecordingState_wire.
Proof. enum_laws RecordingState_wire RecordingState_RangeCheck. Qed.
Lemma archive_SourceLocation_laws : wire_ok SourceLocation_wire.
Proof. enum_laws SourceLocation_wire SourceLocation_RangeCheck. Qed.
Lemma archive_MessageHeader_laws : wire_ok MessageHeader_wire.
Proof. composite_laws MessageHeader_wire MessageHeader_Encode MessageHeader_Decode MessageHeader_RangeCheck. Qed.
Lemma archive_VarAsciiEncoding_laws : wire_ok VarAsciiEncoding_wire.
Proof. composite_laws VarAsciiEncoding_wire VarAsciiEncoding_Encode VarAsciiEncoding_Decode
    VarAsciiEncoding_RangeCheck. Qed.
Lemma archive_VarDataEncoding_laws : wire_ok VarDataEncoding_wire.
Proof. composite_laws VarDataEncoding_wire VarDataEncoding_Encode VarDataEncoding_Decode
    VarDataEncoding_RangeCheck. Qed.

(** Every enumeration and composite of the archive is written in the length that it says, and read
    back as it was by every version; when bytes are missing the decoder says so; and what the
    range check of this version lets pass is what is in the range. *)
Theorem archive_types_marshalled : Forall (fun t => wire_ok (projT2 t)) archive_types.
Proof.
  repeat apply Forall_cons_2;
    [exact archive_BooleanType_laws
    |exact archive_ControlResponseCode_laws
    |exact archive_RecordingSignal_laws
    |exact archive_RecordingState_laws
    |exact archive_SourceLocation_laws
    |exact archive_MessageHeader_laws
    |exact archive_VarAsciiEncoding_laws
    |exact archive_VarDataEncoding_laws|].
  apply Forall_nil_2.
Qed.

(** ** Initial values

    What the code generator offers to begin a message with. *)

Definition AttachSegmentsRequest_Init (m : AttachSegmentsRequest) : AttachSegmentsRequest := m.
Definition AuthConnectRequest_Init (m : AuthConnectRequest) : AuthConnectRequest := AuthConnectRequest_set_Version
  0 m.
Definition BoundedReplayRequest_Init (m : BoundedReplayRequest) : BoundedReplayRequest := m.
Definition CatalogHeader_Init (m : CatalogHeader) : CatalogHeader := m.
Definition Challenge_Init (m : Challenge) : Challenge := Challenge_set_Version 0 m.
Definition ChallengeResponse_Init (m : ChallengeResponse) : ChallengeResponse := m.
Definition CloseSessionRequest_Init (m : CloseSessionRequest) : CloseSessionRequest := m.
Definition ConnectRequest_Init (m : ConnectRequest) : ConnectRequest := ConnectRequest_set_Version 0 m.
Definition ControlResponse_Init (m : ControlResponse) : ControlResponse := ControlResponse_set_Version 0 m.
Definition DeleteDetachedSegmentsRequest_Init (m : DeleteDetachedSegmentsRequest) : DeleteDetachedSegmentsRequest
  := m.
Definition DetachSegmentsRequest_Init (m : DetachSegmentsRequest) : DetachSegmentsRequest := m.
Definition ExtendRecordingRequest_Init (m : ExtendRecordingRequest) : ExtendRecordingRequest := m.
Definition ExtendRecordingRequest2_Init (m : ExtendRecordingRequest2) : ExtendRecordingRequest2 := m.
Definition FindLastMatchingRecordingRequest_Init (m : FindLastMatchingRecordingRequest) :
  FindLastMatchingRecordingRequest := m.
Definition KeepAliveRequest_Init (m : KeepAliveRequest) : KeepAliveRequest := m.
Definition ListRecordingRequest_Init (m : ListRecordingRequest) : ListRecordingRequest := m.
Definition ListRecordingSubscriptionsRequest_Init (m : ListRecordingSubscriptionsRequest) :
  ListRecordingSubscriptionsRequest := m.
Definition ListRecordingsForUriRequest_Init (m : ListRecordingsForUriRequest) : ListRecordingsForUriRequest := m.
Definition ListRecordingsRequest_Init (m : ListRecordingsRequest) : ListRecordingsRequest := m.
Definition MessageHeader_Init (m : MessageHeader) : MessageHeader := m.
Definition MigrateSegmentsRequest_Init (m : MigrateSegmentsRequest) : MigrateSegmentsRequest := m.
Definition PurgeRecordingRequest_Init (m : PurgeRecordingRequest) : PurgeRecordingRequest := m.
Definition PurgeSegmentsRequest_Init (m : PurgeSegmentsRequest) : PurgeSegmentsRequest := m.
Definition RecordingDescriptor_Init (m : RecordingDescriptor) : RecordingDescriptor := m.
Definition RecordingDescriptorHeader_Init (m : RecordingDescriptorHeader) : RecordingDescriptorHeader := m.
Definition RecordingPositionRequest_Init (m : RecordingPositionRequest) : RecordingPositionRequest := m.
Definition RecordingProgress_Init (m : RecordingProgress) : RecordingProgress := m.
Definition RecordingSignalEvent_Init (m : RecordingSignalEvent) : RecordingSignalEvent := m.
Definition RecordingStarted_Init (m : RecordingStarted) : RecordingStarted := m.
Definition RecordingStopped_Init (m : RecordingStopped) : RecordingStopped := m.
Definition RecordingSubscriptionDescriptor_Init (m : RecordingSubscriptionDescriptor) :
  RecordingSubscriptionDescriptor := m.
Definition ReplayRequest_Init (m : ReplayRequest) : ReplayRequest := m.
Definition ReplicateRequest_Init (m : ReplicateRequest) : ReplicateRequest := m.
Definition ReplicateRequest2_Init (m : ReplicateRequest2) : ReplicateRequest2 := m.
Definition StartPositionRequest_Init (m : StartPositionRequest) : StartPositionRequest := m.
Definition StartRecordingRequest_Init (m : StartRecordingRequest) : StartRecordingRequest := m.
Definition StartRecordingRequest2_Init (m : StartRecordingRequest2) : StartRecordingRequest2 := m.
Definition StopAllReplaysRequest_Init (m : StopAllReplaysRequest) : StopAllReplaysRequest := m.
Definition StopPositionRequest_Init (m : StopPositionRequest) : StopPositionRequest := m.
Definition StopRecordingByIdentityRequest_Init (m : StopRecordingByIdentityRequest) :
  StopRecordingByIdentityRequest := m.
Definition StopRecordingRequest_Init (m : StopRecordingRequest) : StopRecordingRequest := m.
Definition StopRecordingSubscriptionRequest_Init (m : StopRecordingSubscriptionRequest) :
  StopRecordingSubscriptionRequest := m.
Definition StopReplayRequest_Init (m : StopReplayRequest) : StopReplayRequest := m.
Definition StopReplicationRequest_Init (m : StopReplicationRequest) : StopReplicationRequest := m.
Definition TaggedReplicateRequest_Init (m : TaggedReplicateRequest) : TaggedReplicateRequest := m.
Definition TruncateRecordingRequest_Init (m : TruncateRecordingRequest) : TruncateRecordingRequest := m.
Definition VarAsciiEncoding_Init (m : VarAsciiEncoding) : VarAsciiEncoding := m.
Definition VarDataEncoding_Init (m : VarDataEncoding) : VarDataEncoding := m.

(** A message is begun with its optional fields missing, and is otherwise left as it is. *)
Theorem archive_begun_without_optional :
  (forall m, AuthConnectRequest_Init m = AuthConnectRequest_set_Version (NullValue AuthConnectRequest_Version_field)
    m) /\
  (forall m, Challenge_Init m = Challenge_set_Version (NullValue Challenge_Version_field) m) /\
  (forall m, ConnectRequest_Init m = ConnectRequest_set_Version (NullValue ConnectRequest_Version_field) m) /\
  (forall m, ControlResponse_Init m = ControlResponse_set_Version (NullValue ControlResponse_Version_field) m).
Proof. repeat split. Qed.
