(* ===== verification/ArchivePackets.v ===== *)
(** * The requests to the archive

    archive/codecs/encoders.go and semanticversion.go: a request is filled in, and marshalled
    behind a header. *)

From S2P Require Import Prelude Sbe SbePacket ArchiveCodecs.

Local Open Scope m_scope.

Local Abbreviation bytes := (list Init.Byte.byte).

Definition SemanticVersion : Z := i32 (i32 (Z.shiftl 1 16 + Z.shiftl 5 8) + 0).

(** ** encoders.go

    A field that is not set is zero. *)

Definition ConnectRequestPacket (rangeChecking : bool) (correlationID responseStream : Z) (responseChannel :
  bytes) : bytes + string :=
  packet (mkConnectRequest correlationID responseStream SemanticVersion responseChannel) rangeChecking.

Definition CloseSessionRequestPacket (rangeChecking : bool) (controlSessionId : Z) : bytes + string :=
  packet (mkCloseSessionRequest controlSessionId) rangeChecking.

Definition StartRecordingRequest2Packet (rangeChecking : bool) (controlSessionId correlationId stream : Z)
  (isLocal autoStop : bool) (channel : bytes) : bytes + string :=
  packet (mkStartRecordingRequest2 controlSessionId correlationId stream (if isLocal then SourceLocation.LOCAL
    else SourceLocation.REMOTE) (if autoStop then BooleanType.TRUE else 0) channel) rangeChecking.

Definition StopRecordingRequestPacket (rangeChecking : bool) (controlSessionId correlationId stream : Z)
  (channel : bytes) : bytes + string :=
  packet (mkStopRecordingRequest controlSessionId correlationId stream channel) rangeChecking.

Definition ReplayRequestPacket (rangeChecking : bool) (controlSessionId correlationId recordingId position
  length replayStream : Z) (replayChannel : bytes) : bytes + string :=
  packet (mkReplayRequest controlSessionId correlationId recordingId position length replayStream replayChannel)
    rangeChecking.

Definition StopReplayRequestPacket (rangeChecking : bool) (controlSessionId correlationId replaySessionId : Z) :
  bytes + string :=
  packet (mkStopReplayRequest controlSessionId correlationId replaySessionId) rangeChecking.

Definition ListRecordingsRequestPacket (rangeChecking : bool) (controlSessionId correlationId fromRecordingId
  recordCount : Z) : bytes + string :=
  packet (mkListRecordingsRequest controlSessionId correlationId fromRecordingId recordCount) rangeChecking.

Definition ListRecordingsForUriRequestPacket (rangeChecking : bool) (controlSessionId correlationId
  fromRecordingId recordCount stream : Z) (channel : bytes) : bytes + string :=
  packet (mkListRecordingsForUriRequest controlSessionId correlationId fromRecordingId recordCount stream channel)
    rangeChecking.

Definition ListRecordingRequestPacket (rangeChecking : bool) (controlSessionId correlationId recordingId : Z) :
  bytes + string :=
  packet (mkListRecordingRequest controlSessionId correlationId recordingId) rangeChecking.

Definition ExtendRecordingRequest2Packet (rangeChecking : bool) (controlSessionId correlationId recordingId
  stream sourceLocation : Z) (autoStop : bool) (channel : bytes) : bytes + string :=
  packet (mkExtendRecordingRequest2 controlSessionId correlationId recordingId stream sourceLocation (if autoStop
    then BooleanType.TRUE else 0) channel) rangeChecking.

Definition RecordingPositionRequestPacket (rangeChecking : bool) (controlSessionId correlationId recordingId :
  Z) : bytes + string :=
  packet (mkRecordingPositionRequest controlSessionId correlationId recordingId) rangeChecking.

Definition TruncateRecordingRequestPacket (rangeChecking : bool) (controlSessionId correlationId recordingId
  position : Z) : bytes + string :=
  packet (mkTruncateRecordingRequest controlSessionId correlationId recordingId position) rangeChecking.

Definition StopRecordingSubscriptionPacket (rangeChecking : bool) (controlSessionId correlationId subscriptionId
  : Z) : bytes + string :=
  packet (mkStopRecordingSubscriptionRequest controlSessionId correlationId subscriptionId) rangeChecking.

Definition StopRecordingByIdentityPacket (rangeChecking : bool) (controlSessionId correlationId recordingId : Z)
  : bytes + string :=
  packet (mkStopRecordingByIdentityRequest controlSessionId correlationId recordingId) rangeChecking.

Definition StopPositionPacket (rangeChecking : bool) (controlSessionId correlationId recordingId : Z) : bytes +
  string :=
  packet (mkStopPositionRequest controlSessionId correlationId recordingId) rangeChecking.

Definition FindLastMatchingRecordingPacket (rangeChecking : bool) (controlSessionId correlationId minRecordingId
  sessionId stream : Z) (channel : bytes) : bytes + string :=
  packet (mkFindLastMatchingRecordingRequest controlSessionId correlationId minRecordingId sessionId stream
    channel) rangeChecking.

Definition ListRecordingSubscriptionsPacket (rangeChecking : bool) (controlSessionId correlationId pseudoIndex
  subscriptionCount : Z) (applyStreamId : bool) (stream : Z) (channel : bytes) : bytes + string :=
  packet (mkListRecordingSubscriptionsRequest controlSessionId correlationId pseudoIndex subscriptionCount (if
    applyStreamId then BooleanType.TRUE else 0) stream channel) rangeChecking.

Definition BoundedReplayPacket (rangeChecking : bool) (controlSessionId correlationId recordingId position
  length limitCounterId replayStream : Z) (replayChannel : bytes) : bytes + string :=
  packet (mkBoundedReplayRequest controlSessionId correlationId recordingId position length limitCounterId
    replayStream replayChannel) rangeChecking.

Definition StopAllReplaysPacket (rangeChecking : bool) (controlSessionId correlationId recordingId : Z) : bytes
  + string :=
  packet (mkStopAllReplaysRequest controlSessionId correlationId recordingId) rangeChecking.

Definition CatalogHeaderPacket (rangeChecking : bool) (version length nextRecordingId alignment : Z) : bytes +
  string :=
  packet (mkCatalogHeader version length nextRecordingId alignment 0) rangeChecking.

Definition ReplicateRequestPacket (rangeChecking : bool) (controlSessionId correlationId srcRecordingId
  dstRecordingId srcControlStreamId : Z) (srcControlChannel liveDestination : bytes) : bytes + string :=
  packet (mkReplicateRequest controlSessionId correlationId srcRecordingId dstRecordingId srcControlStreamId
    srcControlChannel liveDestination) rangeChecking.

Definition StopReplicationRequestPacket (rangeChecking : bool) (controlSessionId correlationId replicationId :
  Z) : bytes + string :=
  packet (mkStopReplicationRequest controlSessionId correlationId replicationId) rangeChecking.

Definition StartPositionRequestPacket (rangeChecking : bool) (controlSessionId correlationId recordingId : Z) :
  bytes + string :=
  packet (mkStartPositionRequest controlSessionId correlationId recordingId) rangeChecking.

Definition DetachSegmentsRequestPacket (rangeChecking : bool) (controlSessionId correlationId recordingId
  newStartPosition : Z) : bytes + string :=
  packet (mkDetachSegmentsRequest controlSessionId correlationId recordingId newStartPosition) rangeChecking.

Definition DeleteDetachedSegmentsRequestPacket (rangeChecking : bool) (controlSessionId correlationId
  recordingId : Z) : bytes + string :=
  packet (mkDeleteDetachedSegmentsRequest controlSessionId correlationId recordingId) rangeChecking.

Definition PurgeSegmentsRequestPacket (rangeChecking : bool) (controlSessionId correlationId recordingId
  newStartPosition : Z) : bytes + string :=
  packet (mkPurgeSegmentsRequest controlSessionId correlationId recordingId newStartPosition) rangeChecking.

Definition AttachSegmentsRequestPacket (rangeChecking : bool) (controlSessionId correlationId recordingId : Z) :
  bytes + string :=
  packet (mkAttachSegmentsRequest controlSessionId correlationId recordingId) rangeChecking.

Definition AuthConnectRequestPacket (rangeChecking : bool) (correlationID responseStream : Z) (responseChannel
  encodedCredentials : bytes) : bytes + string :=
  packet (mkAuthConnectRequest correlationID responseStream SemanticVersion responseChannel encodedCredentials)
    rangeChecking.

Definition ChallengeResponsePacket (rangeChecking : bool) (controlSessionId correlationId : Z)
  (encodedCredentials : bytes) : bytes + string :=
  packet (mkChallengeResponse controlSessionId correlationId encodedCredentials) rangeChecking.

Definition MigrateSegmentsRequestPacket (rangeChecking : bool) (controlSessionId correlationId srcRecordingId
  destRecordingId : Z) : bytes + string :=
  packet (mkMigrateSegmentsRequest controlSessionId correlationId srcRecordingId destRecordingId) rangeChecking.

Definition KeepAliveRequestPacket (rangeChecking : bool) (controlSessionId correlationId : Z) : bytes + string
  :=
  packet (mkKeepAliveRequest controlSessionId correlationId) rangeChecking.

Definition TaggedReplicateRequestPacket (rangeChecking : bool) (controlSessionId correlationId srcRecordingId
  dstRecordingId channelTagId subscriptionTagId srcControlStreamId : Z) (srcControlChannel liveDestination :
  bytes) : bytes + string :=
  packet (mkTaggedReplicateRequest controlSessionId correlationId srcRecordingId dstRecordingId channelTagId
    subscriptionTagId srcControlStreamId srcControlChannel liveDestination) rangeChecking.

Definition ReplicateRequest2Packet (rangeChecking : bool) (controlSessionId correlationId srcRecordingId
  dstRecordingId stopPosition channelTagId srcControlStreamId : Z) (srcControlChannel liveDestination
  replicationChannel : bytes) : bytes + string :=
  packet (mkReplicateRequest2 controlSessionId correlationId srcRecordingId dstRecordingId stopPosition
    channelTagId 0 srcControlStreamId srcControlChannel liveDestination replicationChannel) rangeChecking.

Definition PurgeRecordingRequestPacket (rangeChecking : bool) (controlSessionId correlationId recordingId : Z) :
  bytes + string :=
  packet (mkPurgeRecordingRequest controlSessionId correlationId recordingId) rangeChecking.

Definition StartRecordingRequestPacket (rangeChecking : bool) (controlSessionId correlationId stream : Z)
  (isLocal : bool) (channel : bytes) : bytes + string :=
  StartRecordingRequest2Packet rangeChecking controlSessionId correlationId stream isLocal false channel.

Definition ExtendRecordingRequestPacket (rangeChecking : bool) (controlSessionId correlationId recordingId
  stream sourceLocation : Z) (channel : bytes) : bytes + string :=
  ExtendRecordingRequest2Packet rangeChecking controlSessionId correlationId recordingId stream sourceLocation
    false channel.
