(* ===== verification/ClusterCodecs.v ===== *)
(** * The messages of the cluster

    cluster/codecs: one record per message with a field for each of the struct, its range
    check, encoding and decoding as the generated files have them, and the laws of the
    encoding. The files are generated from one schema and have one shape; the decoders are
    those of a new message, whose slices are empty. The four messages that have repeating
    groups are in ClusterGroups.v. *)

From S2P Require Import Prelude Sbe.

Local Open Scope m_scope.

Local Abbreviation bytes := (list Init.Byte.byte).

(** ** Enumerations *)

Module AdminRequestType.
Definition SNAPSHOT : Z := 0.
Definition NullValue : Z := -2147483648.
End AdminRequestType.
Definition AdminRequestTypeValues : list Z := [AdminRequestType.SNAPSHOT; AdminRequestType.NullValue].

Module AdminResponseCode.
Definition OK : Z := 0.
Definition ERROR : Z := 1.
Definition UNAUTHORISED_ACCESS : Z := 2.
Definition NullValue : Z := -2147483648.
End AdminResponseCode.
Definition AdminResponseCodeValues : list Z := [AdminResponseCode.OK; AdminResponseCode.ERROR;
  AdminResponseCode.UNAUTHORISED_ACCESS; AdminResponseCode.NullValue].

Module BooleanType.
Definition FALSE : Z := 0.
Definition TRUE : Z := 1.
Definition NullValue : Z := -2147483648.
End BooleanType.
Definition BooleanTypeValues : list Z := [BooleanType.FALSE; BooleanType.TRUE; BooleanType.NullValue].

Module ChangeType.
Definition JOIN : Z := 0.
Definition QUIT : Z := 1.
Definition NullValue : Z := -2147483648.
End ChangeType.
Definition ChangeTypeValues : list Z := [ChangeType.JOIN; ChangeType.QUIT; ChangeType.NullValue].

Module CloseReason.
Definition CLIENT_ACTION : Z := 0.
Definition SERVICE_ACTION : Z := 1.
Definition TIMEOUT : Z := 2.
Definition NullValue : Z := -2147483648.
End CloseReason.
Definition CloseReasonValues : list Z := [CloseReason.CLIENT_ACTION; CloseReason.SERVICE_ACTION;
  CloseReason.TIMEOUT; CloseReason.NullValue].

Module ClusterAction.
Definition SUSPEND : Z := 0.
Definition RESUME : Z := 1.
Definition SNAPSHOT : Z := 2.
Definition NullValue : Z := -2147483648.
End ClusterAction.
Definition ClusterActionValues : list Z := [ClusterAction.SUSPEND; ClusterAction.RESUME; ClusterAction.SNAPSHOT;
  ClusterAction.NullValue].

Module ClusterTimeUnit.
Definition MILLIS : Z := 0.
Definition MICROS : Z := 1.
Definition NANOS : Z := 2.
Definition NullValue : Z := -2147483648.
End ClusterTimeUnit.
Definition ClusterTimeUnitValues : list Z := [ClusterTimeUnit.MILLIS; ClusterTimeUnit.MICROS;
  ClusterTimeUnit.NANOS; ClusterTimeUnit.NullValue].

Module EventCode.
Definition OK : Z := 0.
Definition ERROR : Z := 1.
Definition REDIRECT : Z := 2.
Definition AUTHENTICATION_REJECTED : Z := 3.
Definition CLOSED : Z := 4.
Definition NullValue : Z := -2147483648.
End EventCode.
Definition EventCodeValues : list Z := [EventCode.OK; EventCode.ERROR; EventCode.REDIRECT;
  EventCode.AUTHENTICATION_REJECTED; EventCode.CLOSED; EventCode.NullValue].

Module SnapshotMark.
Definition BEGIN : Z := 0.
Definition SECTION : Z := 1.
Definition END : Z := 2.
Definition NullValue : Z := -2147483648.
End SnapshotMark.
Definition SnapshotMarkValues : list Z := [SnapshotMark.BEGIN; SnapshotMark.SECTION; SnapshotMark.END;
  SnapshotMark.NullValue].

(** ** AddPassiveMember *)

Record AddPassiveMember : Type := mkAddPassiveMember { AddPassiveMember_CorrelationId : Z;
  AddPassiveMember_MemberEndpoints : bytes }.

Definition AddPassiveMember_CorrelationId_field : field := mkField 1 0 0 false (-9223372036854775807) 9223372036854775807 (-9223372036854775808).
Definition AddPassiveMember_MemberEndpoints_field : data_field := mkDataField 0 0 "US-ASCII" 4.
Definition AddPassiveMember_set_CorrelationId (v : Z) (m : AddPassiveMember) : AddPassiveMember :=
  mkAddPassiveMember v (AddPassiveMember_MemberEndpoints m).
Definition AddPassiveMember_set_MemberEndpoints (v : bytes) (m : AddPassiveMember) : AddPassiveMember :=
  mkAddPassiveMember (AddPassiveMember_CorrelationId m) v.

Definition AddPassiveMember_RangeCheck (m : AddPassiveMember) (actingVersion schemaVersion : Z) : option string :=
  first_error
    [ check_required AddPassiveMember_CorrelationId_field actingVersion (AddPassiveMember_CorrelationId m)
    ; check_ascii (AddPassiveMember_MemberEndpoints m) ].

Definition AddPassiveMember_Encode (m : AddPassiveMember) (doRangeCheck : bool) : M bytes unit :=
  when doRangeCheck (fail_if (AddPassiveMember_RangeCheck m 16 16)) ;;;
  WriteInt64 (AddPassiveMember_CorrelationId m) ;;;
  WriteUint32 (u32 (zlen (AddPassiveMember_MemberEndpoints m))) ;;;
  WriteBytes (AddPassiveMember_MemberEndpoints m).

Definition AddPassiveMember_Decode (actingVersion blockLength : Z) (doRangeCheck : bool) : M (bytes * AddPassiveMember) unit :=
  decode_field AddPassiveMember_CorrelationId_field actingVersion ReadInt64 AddPassiveMember_set_CorrelationId ;;;
  skip_block actingVersion 16 blockLength 8 ;;;
  decode_data AddPassiveMember_MemberEndpoints_field actingVersion AddPassiveMember_set_MemberEndpoints ;;;
  when doRangeCheck (checked (fun m => AddPassiveMember_RangeCheck m actingVersion 16)).

#[export] Instance AddPassiveMember_codec : Codec AddPassiveMember := {|
  SbeBlockLength := 8; SbeTemplateId := 70; SbeSchemaId := 111; SbeSchemaVersion := 16;
  zero := mkAddPassiveMember 0 [];
  RangeCheck := AddPassiveMember_RangeCheck; Encode := AddPassiveMember_Encode; Decode := AddPassiveMember_Decode;
  valid m := is_i64 (AddPassiveMember_CorrelationId m) /\ zlen (AddPassiveMember_MemberEndpoints m) < 4294967296;
  fixed_part m := le_split 8 (AddPassiveMember_CorrelationId m);
  data_part m := data_bytes (AddPassiveMember_MemberEndpoints m) |}.

#[export] Instance AddPassiveMember_laws : CodecLaws AddPassiveMember.
Proof. codec_laws AddPassiveMember_codec AddPassiveMember_Encode AddPassiveMember_Decode. Qed.

(** ** AdminRequest *)

Record AdminRequest : Type := mkAdminRequest { AdminRequest_LeadershipTermId : Z; AdminRequest_ClusterSessionId
  : Z; AdminRequest_CorrelationId : Z; AdminRequest_RequestType : Z; AdminRequest_Payload : bytes }.

Definition AdminRequest_LeadershipTermId_field : field := mkField 1 0 0 false (-9223372036854775807) 9223372036854775807 (-9223372036854775808).
Definition AdminRequest_ClusterSessionId_field : field := mkField 2 0 0 false (-9223372036854775807) 9223372036854775807 (-9223372036854775808).
Definition AdminRequest_CorrelationId_field : field := mkField 3 0 0 false (-9223372036854775807) 9223372036854775807 (-9223372036854775808).
Definition AdminRequest_RequestType_field : field := mkField 4 0 0 false 0 0 0.
Definition AdminRequest_Payload_field : data_field := mkDataField 0 0 "null" 4.
Definition AdminRequest_set_LeadershipTermId (v : Z) (m : AdminRequest) : AdminRequest := mkAdminRequest v
  (AdminRequest_ClusterSessionId m) (AdminRequest_CorrelationId m) (AdminRequest_RequestType m)
  (AdminRequest_Payload m).
Definition AdminRequest_set_ClusterSessionId (v : Z) (m : AdminRequest) : AdminRequest := mkAdminRequest
  (AdminRequest_LeadershipTermId m) v (AdminRequest_CorrelationId m) (AdminRequest_RequestType m)
  (AdminRequest_Payload m).
Definition AdminRequest_set_CorrelationId (v : Z) (m : AdminRequest) : AdminRequest := mkAdminRequest
  (AdminRequest_LeadershipTermId m) (AdminRequest_ClusterSessionId m) v (AdminRequest_RequestType m)
  (AdminRequest_Payload m).
Definition AdminRequest_set_RequestType (v : Z) (m : AdminRequest) : AdminRequest := mkAdminRequest
  (AdminRequest_LeadershipTermId m) (AdminRequest_ClusterSessionId m) (AdminRequest_CorrelationId m) v
  (AdminRequest_Payload m).
Definition AdminRequest_set_Payload (v : bytes) (m : AdminRequest) : AdminRequest := mkAdminRequest
  (AdminRequest_LeadershipTermId m) (AdminRequest_ClusterSessionId m) (AdminRequest_CorrelationId m)
  (AdminRequest_RequestType m) v.

Definition AdminRequest_RangeCheck (m : AdminRequest) (actingVersion schemaVersion : Z) : option string :=
  first_error
    [ check_required AdminRequest_LeadershipTermId_field actingVersion (AdminRequest_LeadershipTermId m)
    ; check_required AdminRequest_ClusterSessionId_field actingVersion (AdminRequest_ClusterSessionId m)
    ; check_required AdminRequest_CorrelationId_field actingVersion (AdminRequest_CorrelationId m)
    ; check_enum AdminRequestTypeValues actingVersion schemaVersion (AdminRequest_RequestType m) ].

Definition AdminRequest_Encode (m : AdminRequest) (doRangeCheck : bool) : M bytes unit :=
  when doRangeCheck (fail_if (AdminRequest_RangeCheck m 16 16)) ;;;
  WriteInt64 (AdminRequest_LeadershipTermId m) ;;;
  WriteInt64 (AdminRequest_ClusterSessionId m) ;;;
  WriteInt64 (AdminRequest_CorrelationId m) ;;;
  WriteInt32 (AdminRequest_RequestType m) ;;;
  WriteUint32 (u32 (zlen (AdminRequest_Payload m))) ;;;
  WriteBytes (AdminRequest_Payload m).

Definition AdminRequest_Decode (actingVersion blockLength : Z) (doRangeCheck : bool) : M (bytes * AdminRequest) unit :=
  decode_field AdminRequest_LeadershipTermId_field actingVersion ReadInt64 AdminRequest_set_LeadershipTermId ;;;
  decode_field AdminRequest_ClusterSessionId_field actingVersion ReadInt64 AdminRequest_set_ClusterSessionId ;;;
  decode_field AdminRequest_CorrelationId_field actingVersion ReadInt64 AdminRequest_set_CorrelationId ;;;
  decode_enum AdminRequest_RequestType_field actingVersion ReadInt32 AdminRequest_set_RequestType ;;;
  skip_block actingVersion 16 blockLength 28 ;;;
  decode_data AdminRequest_Payload_field actingVersion AdminRequest_set_Payload ;;;
  when doRangeCheck (checked (fun m => AdminRequest_RangeCheck m actingVersion 16)).

#[export] Instance AdminRequest_codec : Codec AdminRequest := {|
  SbeBlockLength := 28; SbeTemplateId := 26; SbeSchemaId := 111; SbeSchemaVersion := 16;
  zero := mkAdminRequest 0 0 0 0 [];
  RangeCheck := AdminRequest_RangeCheck; Encode := AdminRequest_Encode; Decode := AdminRequest_Decode;
  valid m := is_i64 (AdminRequest_LeadershipTermId m) /\ is_i64 (AdminRequest_ClusterSessionId m) /\ is_i64
    (AdminRequest_CorrelationId m) /\ is_i32 (AdminRequest_RequestType m) /\ zlen (AdminRequest_Payload m) <
    4294967296;
  fixed_part m := le_split 8 (AdminRequest_LeadershipTermId m) ++ le_split 8 (AdminRequest_ClusterSessionId m) ++ le_split 8
    (AdminRequest_CorrelationId m) ++ le_split 4 (AdminRequest_RequestType m);
  data_part m := data_bytes (AdminRequest_Payload m) |}.

#[export] Instance AdminRequest_laws : CodecLaws AdminRequest.
Proof. codec_laws AdminRequest_codec AdminRequest_Encode AdminRequest_Decode. Qed.

(** ** AdminResponse *)

Record AdminResponse : Type := mkAdminResponse { AdminResponse_ClusterSessionId : Z; AdminResponse_CorrelationId
  : Z; AdminResponse_RequestType : Z; AdminResponse_ResponseCode : Z; AdminResponse_Message : bytes;
  AdminResponse_Payload : bytes }.

Definition AdminResponse_ClusterSessionId_field : field := mkField 1 0 0 false (-9223372036854775807) 9223372036854775807 (-9223372036854775808).
Definition AdminResponse_CorrelationId_field : field := mkField 2 0 0 false (-9223372036854775807) 9223372036854775807 (-9223372036854775808).
Definition AdminResponse_RequestType_field : field := mkField 3 0 0 false 0 0 0.
Definition AdminResponse_ResponseCode_field : field := mkField 4 0 0 false 0 0 0.
Definition AdminResponse_Message_field : data_field := mkDataField 0 0 "US-ASCII" 4.
Definition AdminResponse_Payload_field : data_field := mkDataField 0 0 "null" 4.
Definition AdminResponse_set_ClusterSessionId (v : Z) (m : AdminResponse) : AdminResponse := mkAdminResponse v
  (AdminResponse_CorrelationId m) (AdminResponse_RequestType m) (AdminResponse_ResponseCode m)
  (AdminResponse_Message m) (AdminResponse_Payload m).
Definition AdminResponse_set_CorrelationId (v : Z) (m : AdminResponse) : AdminResponse := mkAdminResponse
  (AdminResponse_ClusterSessionId m) v (AdminResponse_RequestType m) (AdminResponse_ResponseCode m)
  (AdminResponse_Message m) (AdminResponse_Payload m).
Definition AdminResponse_set_RequestType (v : Z) (m : AdminResponse) : AdminResponse := mkAdminResponse
  (AdminResponse_ClusterSessionId m) (AdminResponse_CorrelationId m) v (AdminResponse_ResponseCode m)
  (AdminResponse_Message m) (AdminResponse_Payload m).
Definition AdminResponse_set_ResponseCode (v : Z) (m : AdminResponse) : AdminResponse := mkAdminResponse
  (AdminResponse_ClusterSessionId m) (AdminResponse_CorrelationId m) (AdminResponse_RequestType m) v
  (AdminResponse_Message m) (AdminResponse_Payload m).
Definition AdminResponse_set_Message (v : bytes) (m : AdminResponse) : AdminResponse := mkAdminResponse
  (AdminResponse_ClusterSessionId m) (AdminResponse_CorrelationId m) (AdminResponse_RequestType m)
  (AdminResponse_ResponseCode m) v (AdminResponse_Payload m).
Definition AdminResponse_set_Payload (v : bytes) (m : AdminResponse) : AdminResponse := mkAdminResponse
  (AdminResponse_ClusterSessionId m) (AdminResponse_CorrelationId m) (AdminResponse_RequestType m)
  (AdminResponse_ResponseCode m) (AdminResponse_Message m) v.

Definition AdminResponse_RangeCheck (m : AdminResponse) (actingVersion schemaVersion : Z) : option string :=
  first_error
    [ check_required AdminResponse_ClusterSessionId_field actingVersion (AdminResponse_ClusterSessionId m)
    ; check_required AdminResponse_CorrelationId_field actingVersion (AdminResponse_CorrelationId m)
    ; check_enum AdminRequestTypeValues actingVersion schemaVersion (AdminResponse_RequestType m)
    ; check_enum AdminResponseCodeValues actingVersion schemaVersion (AdminResponse_ResponseCode m)
    ; check_ascii (AdminResponse_Message m) ].

Definition AdminResponse_Encode (m : AdminResponse) (doRangeCheck : bool) : M bytes unit :=
  when doRangeCheck (fail_if (AdminResponse_RangeCheck m 16 16)) ;;;
  WriteInt64 (AdminResponse_ClusterSessionId m) ;;;
  WriteInt64 (AdminResponse_CorrelationId m) ;;;
  WriteInt32 (AdminResponse_RequestType m) ;;;
  WriteInt32 (AdminResponse_ResponseCode m) ;;;
  WriteUint32 (u32 (zlen (AdminResponse_Message m))) ;;;
  WriteBytes (AdminResponse_Message m) ;;;
  WriteUint32 (u32 (zlen (AdminResponse_Payload m))) ;;;
  WriteBytes (AdminResponse_Payload m).

Definition AdminResponse_Decode (actingVersion blockLength : Z) (doRangeCheck : bool) : M (bytes * AdminResponse) unit :=
  decode_field AdminResponse_ClusterSessionId_field actingVersion ReadInt64 AdminResponse_set_ClusterSessionId ;;;
  decode_field AdminResponse_CorrelationId_field actingVersion ReadInt64 AdminResponse_set_CorrelationId ;;;
  decode_enum AdminResponse_RequestType_field actingVersion ReadInt32 AdminResponse_set_RequestType ;;;
  decode_enum AdminResponse_ResponseCode_field actingVersion ReadInt32 AdminResponse_set_ResponseCode ;;;
  skip_block actingVersion 16 blockLength 24 ;;;
  decode_data AdminResponse_Message_field actingVersion AdminResponse_set_Message ;;;
  decode_data AdminResponse_Payload_field actingVersion AdminResponse_set_Payload ;;;
  when doRangeCheck (checked (fun m => AdminResponse_RangeCheck m actingVersion 16)).

#[export] Instance AdminResponse_codec : Codec AdminResponse := {|
  SbeBlockLength := 24; SbeTemplateId := 27; SbeSchemaId := 111; SbeSchemaVersion := 16;
  zero := mkAdminResponse 0 0 0 0 [] [];
  RangeCheck := AdminResponse_RangeCheck; Encode := AdminResponse_Encode; Decode := AdminResponse_Decode;
  valid m := is_i64 (AdminResponse_ClusterSessionId m) /\ is_i64 (AdminResponse_CorrelationId m) /\ is_i32
    (AdminResponse_RequestType m) /\ is_i32 (AdminResponse_ResponseCode m) /\ zlen (AdminResponse_Message m) <
    4294967296 /\ zlen (AdminResponse_Payload m) < 4294967296;
  fixed_part m := le_split 8 (AdminResponse_ClusterSessionId m) ++ le_split 8 (AdminResponse_CorrelationId m) ++ le_split 4
    (AdminResponse_RequestType m) ++ le_split 4 (AdminResponse_ResponseCode m);
  data_part m := data_bytes (AdminResponse_Message m) ++ data_bytes (AdminResponse_Payload m) |}.

#[export] Instance AdminResponse_laws : CodecLaws AdminResponse.
Proof. codec_laws AdminResponse_codec AdminResponse_Encode AdminResponse_Decode. Qed.

(** ** AppendPosition *)

Record AppendPosition : Type := mkAppendPosition { AppendPosition_LeadershipTermId : Z;
  AppendPosition_LogPosition : Z; AppendPosition_FollowerMemberId : Z; AppendPosition_Flags : Z }.

Definition AppendPosition_LeadershipTermId_field : field := mkField 1 0 0 false (-9223372036854775807) 9223372036854775807 (-9223372036854775808).
Definition AppendPosition_LogPosition_field : field := mkField 2 0 0 false (-9223372036854775807) 9223372036854775807 (-9223372036854775808).
Definition AppendPosition_FollowerMemberId_field : field := mkField 3 0 0 false (-2147483647) 2147483647 (-2147483648).
Definition AppendPosition_Flags_field : field := mkField 4 8 0 false 0 254 255.
Definition AppendPosition_set_LeadershipTermId (v : Z) (m : AppendPosition) : AppendPosition := mkAppendPosition
  v (AppendPosition_LogPosition m) (AppendPosition_FollowerMemberId m) (AppendPosition_Flags m).
Definition AppendPosition_set_LogPosition (v : Z) (m : AppendPosition) : AppendPosition := mkAppendPosition
  (AppendPosition_LeadershipTermId m) v (AppendPosition_FollowerMemberId m) (AppendPosition_Flags m).
Definition AppendPosition_set_FollowerMemberId (v : Z) (m : AppendPosition) : AppendPosition := mkAppendPosition
  (AppendPosition_LeadershipTermId m) (AppendPosition_LogPosition m) v (AppendPosition_Flags m).
Definition AppendPosition_set_Flags (v : Z) (m : AppendPosition) : AppendPosition := mkAppendPosition
  (AppendPosition_LeadershipTermId m) (AppendPosition_LogPosition m) (AppendPosition_FollowerMemberId m) v.

Definition AppendPosition_RangeCheck (m : AppendPosition) (actingVersion schemaVersion : Z) : option string :=
  first_error
    [ check_required AppendPosition_LeadershipTermId_field actingVersion (AppendPosition_LeadershipTermId m)
    ; check_required AppendPosition_LogPosition_field actingVersion (AppendPosition_LogPosition m)
    ; check_required AppendPosition_FollowerMemberId_field actingVersion (AppendPosition_FollowerMemberId m)
    ; check_required AppendPosition_Flags_field actingVersion (AppendPosition_Flags m) ].

Definition AppendPosition_Encode (m : AppendPosition) (doRangeCheck : bool) : M bytes unit :=
  when doRangeCheck (fail_if (AppendPosition_RangeCheck m 16 16)) ;;;
  WriteInt64 (AppendPosition_LeadershipTermId m) ;;;
  WriteInt64 (AppendPosition_LogPosition m) ;;;
  WriteInt32 (AppendPosition_FollowerMemberId m) ;;;
  WriteUint8 (AppendPosition_Flags m).

Definition AppendPosition_Decode (actingVersion blockLength : Z) (doRangeCheck : bool) : M (bytes * AppendPosition) unit :=
  decode_field AppendPosition_LeadershipTermId_field actingVersion ReadInt64 AppendPosition_set_LeadershipTermId ;;;
  decode_field AppendPosition_LogPosition_field actingVersion ReadInt64 AppendPosition_set_LogPosition ;;;
  decode_field AppendPosition_FollowerMemberId_field actingVersion ReadInt32 AppendPosition_set_FollowerMemberId ;;;
  decode_field AppendPosition_Flags_field actingVersion ReadUint8 AppendPosition_set_Flags ;;;
  skip_block actingVersion 16 blockLength 21 ;;;
  when doRangeCheck (checked (fun m => AppendPosition_RangeCheck m actingVersion 16)).

#[export] Instance AppendPosition_codec : Codec AppendPosition := {|
  SbeBlockLength := 21; SbeTemplateId := 54; SbeSchemaId := 111; SbeSchemaVersion := 16;
  zero := mkAppendPosition 0 0 0 0;
  RangeCheck := AppendPosition_RangeCheck; Encode := AppendPosition_Encode; Decode := AppendPosition_Decode;
  valid m := is_i64 (AppendPosition_LeadershipTermId m) /\ is_i64 (AppendPosition_LogPosition m) /\ is_i32
    (AppendPosition_FollowerMemberId m) /\ is_u8 (AppendPosition_Flags m);
  fixed_part m := le_split 8 (AppendPosition_LeadershipTermId m) ++ le_split 8 (AppendPosition_LogPosition m) ++ le_split 4
    (AppendPosition_FollowerMemberId m) ++ le_split 1 (AppendPosition_Flags m);
  data_part m := [] |}.

#[export] Instance AppendPosition_laws : CodecLaws AppendPosition.
Proof. codec_laws AppendPosition_codec AppendPosition_Encode AppendPosition_Decode. Qed.

(** ** BackupQuery *)

Record BackupQuery : Type := mkBackupQuery { BackupQuery_CorrelationId : Z; BackupQuery_ResponseStreamId : Z;
  BackupQuery_Version : Z; BackupQuery_LogPosition : Z; BackupQuery_ResponseChannel : bytes;
  BackupQuery_EncodedCredentials : bytes }.

Definition BackupQuery_CorrelationId_field : field := mkField 1 0 0 false (-9223372036854775807) 9223372036854775807 (-9223372036854775808).
Definition BackupQuery_ResponseStreamId_field : field := mkField 2 0 0 false (-2147483647) 2147483647 (-2147483648).
Definition BackupQuery_Version_field : field := mkField 3 2 0 true 1 16777215 0.
Definition BackupQuery_LogPosition_field : field := mkField 6 16 0 true (-9223372036854775807) 9223372036854775807 (-9223372036854775808).
Definition BackupQuery_ResponseChannel_field : data_field := mkDataField 0 0 "US-ASCII" 4.
Definition BackupQuery_EncodedCredentials_field : data_field := mkDataField 0 0 "null" 4.
Definition BackupQuery_set_CorrelationId (v : Z) (m : BackupQuery) : BackupQuery := mkBackupQuery v
  (BackupQuery_ResponseStreamId m) (BackupQuery_Version m) (BackupQuery_LogPosition m)
  (BackupQuery_ResponseChannel m) (BackupQuery_EncodedCredentials m).
Definition BackupQuery_set_ResponseStreamId (v : Z) (m : BackupQuery) : BackupQuery := mkBackupQuery
  (BackupQuery_CorrelationId m) v (BackupQuery_Version m) (BackupQuery_LogPosition m)
  (BackupQuery_ResponseChannel m) (BackupQuery_EncodedCredentials m).
Definition BackupQuery_set_Version (v : Z) (m : BackupQuery) : BackupQuery := mkBackupQuery
  (BackupQuery_CorrelationId m) (BackupQuery_ResponseStreamId m) v (BackupQuery_LogPosition m)
  (BackupQuery_ResponseChannel m) (BackupQuery_EncodedCredentials m).
Definition BackupQuery_set_LogPosition (v : Z) (m : BackupQuery) : BackupQuery := mkBackupQuery
  (BackupQuery_CorrelationId m) (BackupQuery_ResponseStreamId m) (BackupQuery_Version m) v
  (BackupQuery_ResponseChannel m) (BackupQuery_EncodedCredentials m).
Definition BackupQuery_set_ResponseChannel (v : bytes) (m : BackupQuery) : BackupQuery := mkBackupQuery
  (BackupQuery_CorrelationId m) (BackupQuery_ResponseStreamId m) (BackupQuery_Version m)
  (BackupQuery_LogPosition m) v (BackupQuery_EncodedCredentials m).
Definition BackupQuery_set_EncodedCredentials (v : bytes) (m : BackupQuery) : BackupQuery := mkBackupQuery
  (BackupQuery_CorrelationId m) (BackupQuery_ResponseStreamId m) (BackupQuery_Version m)
  (BackupQuery_LogPosition m) (BackupQuery_ResponseChannel m) v.

Definition BackupQuery_RangeCheck (m : BackupQuery) (actingVersion schemaVersion : Z) : option string :=
  first_error
    [ check_required BackupQuery_CorrelationId_field actingVersion (BackupQuery_CorrelationId m)
    ; check_required BackupQuery_ResponseStreamId_field actingVersion (BackupQuery_ResponseStreamId m)
    ; check_optional BackupQuery_Version_field actingVersion (BackupQuery_Version m)
    ; check_optional BackupQuery_LogPosition_field actingVersion (BackupQuery_LogPosition m)
    ; check_ascii (BackupQuery_ResponseChannel m) ].

Definition BackupQuery_Encode (m : BackupQuery) (doRangeCheck : bool) : M bytes unit :=
  when doRangeCheck (fail_if (BackupQuery_RangeCheck m 16 16)) ;;;
  WriteInt64 (BackupQuery_CorrelationId m) ;;;
  WriteInt32 (BackupQuery_ResponseStreamId m) ;;;
  WriteInt32 (BackupQuery_Version m) ;;;
  WriteInt64 (BackupQuery_LogPosition m) ;;;
  WriteUint32 (u32 (zlen (BackupQuery_ResponseChannel m))) ;;;
  WriteBytes (BackupQuery_ResponseChannel m) ;;;
  WriteUint32 (u32 (zlen (BackupQuery_EncodedCredentials m))) ;;;
  WriteBytes (BackupQuery_EncodedCredentials m).

Definition BackupQuery_Decode (actingVersion blockLength : Z) (doRangeCheck : bool) : M (bytes * BackupQuery) unit :=
  decode_field BackupQuery_CorrelationId_field actingVersion ReadInt64 BackupQuery_set_CorrelationId ;;;
  decode_field BackupQuery_ResponseStreamId_field actingVersion ReadInt32 BackupQuery_set_ResponseStreamId ;;;
  decode_field BackupQuery_Version_field actingVersion ReadInt32 BackupQuery_set_Version ;;;
  decode_field BackupQuery_LogPosition_field actingVersion ReadInt64 BackupQuery_set_LogPosition ;;;
  skip_block actingVersion 16 blockLength 24 ;;;
  decode_data BackupQuery_ResponseChannel_field actingVersion BackupQuery_set_ResponseChannel ;;;
  decode_data BackupQuery_EncodedCredentials_field actingVersion BackupQuery_set_EncodedCredentials ;;;
  when doRangeCheck (checked (fun m => BackupQuery_RangeCheck m actingVersion 16)).

#[export] Instance BackupQuery_codec : Codec BackupQuery := {|
  SbeBlockLength := 24; SbeTemplateId := 77; SbeSchemaId := 111; SbeSchemaVersion := 16;
  zero := mkBackupQuery 0 0 0 0 [] [];
  RangeCheck := BackupQuery_RangeCheck; Encode := BackupQuery_Encode; Decode := BackupQuery_Decode;
  valid m := is_i64 (BackupQuery_CorrelationId m) /\ is_i32 (BackupQuery_ResponseStreamId m) /\ is_i32 (BackupQuery_Version
    m) /\ is_i64 (BackupQuery_LogPosition m) /\ zlen (BackupQuery_ResponseChannel m) < 4294967296 /\ zlen
    (BackupQuery_EncodedCredentials m) < 4294967296;
  fixed_part m := le_split 8 (BackupQuery_CorrelationId m) ++ le_split 4 (BackupQuery_ResponseStreamId m) ++ le_split 4
    (BackupQuery_Version m) ++ le_split 8 (BackupQuery_LogPosition m);
  data_part m := data_bytes (BackupQuery_ResponseChannel m) ++ data_bytes (BackupQuery_EncodedCredentials m) |}.

#[export] Instance BackupQuery_laws : CodecLaws BackupQuery.
Proof. codec_laws BackupQuery_codec BackupQuery_Encode BackupQuery_Decode. Qed.

(** ** CancelTimer *)

Record CancelTimer : Type := mkCancelTimer { CancelTimer_CorrelationId : Z }.

Definition CancelTimer_CorrelationId_field : field := mkField 1 0 0 false (-9223372036854775807) 9223372036854775807 (-9223372036854775808).
Definition CancelTimer_set_CorrelationId (v : Z) (m : CancelTimer) : CancelTimer := mkCancelTimer v.

Definition CancelTimer_RangeCheck (m : CancelTimer) (actingVersion schemaVersion : Z) : option string :=
  first_error
    [ check_required CancelTimer_CorrelationId_field actingVersion (CancelTimer_CorrelationId m) ].

Definition CancelTimer_Encode (m : CancelTimer) (doRangeCheck : bool) : M bytes unit :=
  when doRangeCheck (fail_if (CancelTimer_RangeCheck m 16 16)) ;;;
  WriteInt64 (CancelTimer_CorrelationId m).

Definition CancelTimer_Decode (actingVersion blockLength : Z) (doRangeCheck : bool) : M (bytes * CancelTimer) unit :=
  decode_field CancelTimer_CorrelationId_field actingVersion ReadInt64 CancelTimer_set_CorrelationId ;;;
  skip_block actingVersion 16 blockLength 8 ;;;
  when doRangeCheck (checked (fun m => CancelTimer_RangeCheck m actingVersion 16)).

#[export] Instance CancelTimer_codec : Codec CancelTimer := {|
  SbeBlockLength := 8; SbeTemplateId := 32; SbeSchemaId := 111; SbeSchemaVersion := 16;
  zero := mkCancelTimer 0;
  RangeCheck := CancelTimer_RangeCheck; Encode := CancelTimer_Encode; Decode := CancelTimer_Decode;
  valid m := is_i64 (CancelTimer_CorrelationId m);
  fixed_part m := le_split 8 (CancelTimer_CorrelationId m);
  data_part m := [] |}.

#[export] Instance CancelTimer_laws : CodecLaws CancelTimer.
Proof. codec_laws CancelTimer_codec CancelTimer_Encode CancelTimer_Decode. Qed.

(** ** CanvassPosition *)

Record CanvassPosition : Type := mkCanvassPosition { CanvassPosition_LogLeadershipTermId : Z;
  CanvassPosition_LogPosition : Z; CanvassPosition_LeadershipTermId : Z; CanvassPosition_FollowerMemberId : Z;
  CanvassPosition_ProtocolVersion : Z }.

Definition CanvassPosition_LogLeadershipTermId_field : field := mkField 1 0 0 false (-9223372036854775807) 9223372036854775807 (-9223372036854775808).
Definition CanvassPosition_LogPosition_field : field := mkField 2 0 0 false (-9223372036854775807) 9223372036854775807 (-9223372036854775808).
Definition CanvassPosition_LeadershipTermId_field : field := mkField 3 0 0 false (-9223372036854775807) 9223372036854775807 (-9223372036854775808).
Definition CanvassPosition_FollowerMemberId_field : field := mkField 4 0 0 false (-2147483647) 2147483647 (-2147483648).
Definition CanvassPosition_ProtocolVersion_field : field := mkField 5 9 0 true 1 16777215 0.
Definition CanvassPosition_set_LogLeadershipTermId (v : Z) (m : CanvassPosition) : CanvassPosition :=
  mkCanvassPosition v (CanvassPosition_LogPosition m) (CanvassPosition_LeadershipTermId m)
  (CanvassPosition_FollowerMemberId m) (CanvassPosition_ProtocolVersion m).
Definition CanvassPosition_set_LogPosition (v : Z) (m : CanvassPosition) : CanvassPosition := mkCanvassPosition
  (CanvassPosition_LogLeadershipTermId m) v (CanvassPosition_LeadershipTermId m)
  (CanvassPosition_FollowerMemberId m) (CanvassPosition_ProtocolVersion m).
Definition CanvassPosition_set_LeadershipTermId (v : Z) (m : CanvassPosition) : CanvassPosition :=
  mkCanvassPosition (CanvassPosition_LogLeadershipTermId m) (CanvassPosition_LogPosition m) v
  (CanvassPosition_FollowerMemberId m) (CanvassPosition_ProtocolVersion m).
Definition CanvassPosition_set_FollowerMemberId (v : Z) (m : CanvassPosition) : CanvassPosition :=
  mkCanvassPosition (CanvassPosition_LogLeadershipTermId m) (CanvassPosition_LogPosition m)
  (CanvassPosition_LeadershipTermId m) v (CanvassPosition_ProtocolVersion m).
Definition CanvassPosition_set_ProtocolVersion (v : Z) (m : CanvassPosition) : CanvassPosition :=
  mkCanvassPosition (CanvassPosition_LogLeadershipTermId m) (CanvassPosition_LogPosition m)
  (CanvassPosition_LeadershipTermId m) (CanvassPosition_FollowerMemberId m) v.

Definition CanvassPosition_RangeCheck (m : CanvassPosition) (actingVersion schemaVersion : Z) : option string :=
  first_error
    [ check_required CanvassPosition_LogLeadershipTermId_field actingVersion (CanvassPosition_LogLeadershipTermId m)
    ; check_required CanvassPosition_LogPosition_field actingVersion (CanvassPosition_LogPosition m)
    ; check_required CanvassPosition_LeadershipTermId_field actingVersion (CanvassPosition_LeadershipTermId m)
    ; check_required CanvassPosition_FollowerMemberId_field actingVersion (CanvassPosition_FollowerMemberId m)
    ; check_optional CanvassPosition_ProtocolVersion_field actingVersion (CanvassPosition_ProtocolVersion m) ].

Definition CanvassPosition_Encode (m : CanvassPosition) (doRangeCheck : bool) : M bytes unit :=
  when doRangeCheck (fail_if (CanvassPosition_RangeCheck m 16 16)) ;;;
  WriteInt64 (CanvassPosition_LogLeadershipTermId m) ;;;
  WriteInt64 (CanvassPosition_LogPosition m) ;;;
  WriteInt64 (CanvassPosition_LeadershipTermId m) ;;;
  WriteInt32 (CanvassPosition_FollowerMemberId m) ;;;
  WriteInt32 (CanvassPosition_ProtocolVersion m).

Definition CanvassPosition_Decode (actingVersion blockLength : Z) (doRangeCheck : bool) : M (bytes * CanvassPosition) unit :=
  decode_field CanvassPosition_LogLeadershipTermId_field actingVersion ReadInt64 CanvassPosition_set_LogLeadershipTermId ;;;
  decode_field CanvassPosition_LogPosition_field actingVersion ReadInt64 CanvassPosition_set_LogPosition ;;;
  decode_field CanvassPosition_LeadershipTermId_field actingVersion ReadInt64 CanvassPosition_set_LeadershipTermId ;;;
  decode_field CanvassPosition_FollowerMemberId_field actingVersion ReadInt32 CanvassPosition_set_FollowerMemberId ;;;
  decode_field CanvassPosition_ProtocolVersion_field actingVersion ReadInt32 CanvassPosition_set_ProtocolVersion ;;;
  skip_block actingVersion 16 blockLength 32 ;;;
  when doRangeCheck (checked (fun m => CanvassPosition_RangeCheck m actingVersion 16)).

#[export] Instance CanvassPosition_codec : Codec CanvassPosition := {|
  SbeBlockLength := 32; SbeTemplateId := 50; SbeSchemaId := 111; SbeSchemaVersion := 16;
  zero := mkCanvassPosition 0 0 0 0 0;
  RangeCheck := CanvassPosition_RangeCheck; Encode := CanvassPosition_Encode; Decode := CanvassPosition_Decode;
  valid m := is_i64 (CanvassPosition_LogLeadershipTermId m) /\ is_i64 (CanvassPosition_LogPosition m) /\ is_i64
    (CanvassPosition_LeadershipTermId m) /\ is_i32 (CanvassPosition_FollowerMemberId m) /\ is_i32
    (CanvassPosition_ProtocolVersion m);
  fixed_part m := le_split 8 (CanvassPosition_LogLeadershipTermId m) ++ le_split 8 (CanvassPosition_LogPosition m) ++ le_split 8
    (CanvassPosition_LeadershipTermId m) ++ le_split 4 (CanvassPosition_FollowerMemberId m) ++ le_split 4
    (CanvassPosition_ProtocolVersion m);
  data_part m := [] |}.

#[export] Instance CanvassPosition_laws : CodecLaws CanvassPosition.
Proof. codec_laws CanvassPosition_codec CanvassPosition_Encode CanvassPosition_Decode. Qed.

(** ** CatchupPosition *)

Record CatchupPosition : Type := mkCatchupPosition { CatchupPosition_LeadershipTermId : Z;
  CatchupPosition_LogPosition : Z; CatchupPosition_FollowerMemberId : Z; CatchupPosition_CatchupEndpoint : bytes
  }.

Definition CatchupPosition_LeadershipTermId_field : field := mkField 1 0 0 false (-9223372036854775807) 9223372036854775807 (-9223372036854775808).
Definition CatchupPosition_LogPosition_field : field := mkField 2 0 0 false (-9223372036854775807) 9223372036854775807 (-9223372036854775808).
Definition CatchupPosition_FollowerMemberId_field : field := mkField 3 0 0 false (-2147483647) 2147483647 (-2147483648).
Definition CatchupPosition_CatchupEndpoint_field : data_field := mkDataField 0 0 "US-ASCII" 4.
Definition CatchupPosition_set_LeadershipTermId (v : Z) (m : CatchupPosition) : CatchupPosition :=
  mkCatchupPosition v (CatchupPosition_LogPosition m) (CatchupPosition_FollowerMemberId m)
  (CatchupPosition_CatchupEndpoint m).
Definition CatchupPosition_set_LogPosition (v : Z) (m : CatchupPosition) : CatchupPosition := mkCatchupPosition
  (CatchupPosition_LeadershipTermId m) v (CatchupPosition_FollowerMemberId m) (CatchupPosition_CatchupEndpoint
  m).
Definition CatchupPosition_set_FollowerMemberId (v : Z) (m : CatchupPosition) : CatchupPosition :=
  mkCatchupPosition (CatchupPosition_LeadershipTermId m) (CatchupPosition_LogPosition m) v
  (CatchupPosition_CatchupEndpoint m).
Definition CatchupPosition_set_CatchupEndpoint (v : bytes) (m : CatchupPosition) : CatchupPosition :=
  mkCatchupPosition (CatchupPosition_LeadershipTermId m) (CatchupPosition_LogPosition m)
  (CatchupPosition_FollowerMemberId m) v.

Definition CatchupPosition_RangeCheck (m : CatchupPosition) (actingVersion schemaVersion : Z) : option string :=
  first_error
    [ check_required CatchupPosition_LeadershipTermId_field actingVersion (CatchupPosition_LeadershipTermId m)
    ; check_required CatchupPosition_LogPosition_field actingVersion (CatchupPosition_LogPosition m)
    ; check_required CatchupPosition_FollowerMemberId_field actingVersion (CatchupPosition_FollowerMemberId m)
    ; check_ascii (CatchupPosition_CatchupEndpoint m) ].

Definition CatchupPosition_Encode (m : CatchupPosition) (doRangeCheck : bool) : M bytes unit :=
  when doRangeCheck (fail_if (CatchupPosition_RangeCheck m 16 16)) ;;;
  WriteInt64 (CatchupPosition_LeadershipTermId m) ;;;
  WriteInt64 (CatchupPosition_LogPosition m) ;;;
  WriteInt32 (CatchupPosition_FollowerMemberId m) ;;;
  WriteUint32 (u32 (zlen (CatchupPosition_CatchupEndpoint m))) ;;;
  WriteBytes (CatchupPosition_CatchupEndpoint m).

Definition CatchupPosition_Decode (actingVersion blockLength : Z) (doRangeCheck : bool) : M (bytes * CatchupPosition) unit :=
  decode_field CatchupPosition_LeadershipTermId_field actingVersion ReadInt64 CatchupPosition_set_LeadershipTermId ;;;
  decode_field CatchupPosition_LogPosition_field actingVersion ReadInt64 CatchupPosition_set_LogPosition ;;;
  decode_field CatchupPosition_FollowerMemberId_field actingVersion ReadInt32 CatchupPosition_set_FollowerMemberId ;;;
  skip_block actingVersion 16 blockLength 20 ;;;
  decode_data CatchupPosition_CatchupEndpoint_field actingVersion CatchupPosition_set_CatchupEndpoint ;;;
  when doRangeCheck (checked (fun m => CatchupPosition_RangeCheck m actingVersion 16)).

#[export] Instance CatchupPosition_codec : Codec CatchupPosition := {|
  SbeBlockLength := 20; SbeTemplateId := 56; SbeSchemaId := 111; SbeSchemaVersion := 16;
  zero := mkCatchupPosition 0 0 0 [];
  RangeCheck := CatchupPosition_RangeCheck; Encode := CatchupPosition_Encode; Decode := CatchupPosition_Decode;
  valid m := is_i64 (CatchupPosition_LeadershipTermId m) /\ is_i64 (CatchupPosition_LogPosition m) /\ is_i32
    (CatchupPosition_FollowerMemberId m) /\ zlen (CatchupPosition_CatchupEndpoint m) < 4294967296;
  fixed_part m := le_split 8 (CatchupPosition_LeadershipTermId m) ++ le_split 8 (CatchupPosition_LogPosition m) ++ le_split 4
    (CatchupPosition_FollowerMemberId m);
  data_part m := data_bytes (CatchupPosition_CatchupEndpoint m) |}.

#[export] Instance CatchupPosition_laws : CodecLaws CatchupPosition.
Proof. codec_laws CatchupPosition_codec CatchupPosition_Encode CatchupPosition_Decode. Qed.

(** ** Challenge *)

Record Challenge : Type := mkChallenge { Challenge_CorrelationId : Z; Challenge_ClusterSessionId : Z;
  Challenge_EncodedChallenge : bytes }.

Definition Challenge_CorrelationId_field : field := mkField 1 0 0 false (-9223372036854775807) 9223372036854775807 (-9223372036854775808).
Definition Challenge_ClusterSessionId_field : field := mkField 2 0 0 false (-9223372036854775807) 9223372036854775807 (-9223372036854775808).
Definition Challenge_EncodedChallenge_field : data_field := mkDataField 0 0 "null" 4.
Definition Challenge_set_CorrelationId (v : Z) (m : Challenge) : Challenge := mkChallenge v
  (Challenge_ClusterSessionId m) (Challenge_EncodedChallenge m).
Definition Challenge_set_ClusterSessionId (v : Z) (m : Challenge) : Challenge := mkChallenge
  (Challenge_CorrelationId m) v (Challenge_EncodedChallenge m).
Definition Challenge_set_EncodedChallenge (v : bytes) (m : Challenge) : Challenge := mkChallenge
  (Challenge_CorrelationId m) (Challenge_ClusterSessionId m) v.

Definition Challenge_RangeCheck (m : Challenge) (actingVersion schemaVersion : Z) : option string :=
  first_error
    [ check_required Challenge_CorrelationId_field actingVersion (Challenge_CorrelationId m)
    ; check_required Challenge_ClusterSessionId_field actingVersion (Challenge_ClusterSessionId m) ].

Definition Challenge_Encode (m : Challenge) (doRangeCheck : bool) : M bytes unit :=
  when doRangeCheck (fail_if (Challenge_RangeCheck m 16 16)) ;;;
  WriteInt64 (Challenge_CorrelationId m) ;;;
  WriteInt64 (Challenge_ClusterSessionId m) ;;;
  WriteUint32 (u32 (zlen (Challenge_EncodedChallenge m))) ;;;
  WriteBytes (Challenge_EncodedChallenge m).

Definition Challenge_Decode (actingVersion blockLength : Z) (doRangeCheck : bool) : M (bytes * Challenge) unit :=
  decode_field Challenge_CorrelationId_field actingVersion ReadInt64 Challenge_set_CorrelationId ;;;
  decode_field Challenge_ClusterSessionId_field actingVersion ReadInt64 Challenge_set_ClusterSessionId ;;;
  skip_block actingVersion 16 blockLength 16 ;;;
  decode_data Challenge_EncodedChallenge_field actingVersion Challenge_set_EncodedChallenge ;;;
  when doRangeCheck (checked (fun m => Challenge_RangeCheck m actingVersion 16)).

#[export] Instance Challenge_codec : Codec Challenge := {|
  SbeBlockLength := 16; SbeTemplateId := 7; SbeSchemaId := 111; SbeSchemaVersion := 16;
  zero := mkChallenge 0 0 [];
  RangeCheck := Challenge_RangeCheck; Encode := Challenge_Encode; Decode := Challenge_Decode;
  valid m := is_i64 (Challenge_CorrelationId m) /\ is_i64 (Challenge_ClusterSessionId m) /\ zlen (Challenge_EncodedChallenge
    m) < 4294967296;
  fixed_part m := le_split 8 (Challenge_CorrelationId m) ++ le_split 8 (Challenge_ClusterSessionId m);
  data_part m := data_bytes (Challenge_EncodedChallenge m) |}.

#[export] Instance Challenge_laws : CodecLaws Challenge.
Proof. codec_laws Challenge_codec Challenge_Encode Challenge_Decode. Qed.

(** ** ChallengeResponse *)

Record ChallengeResponse : Type := mkChallengeResponse { ChallengeResponse_CorrelationId : Z;
  ChallengeResponse_ClusterSessionId : Z; ChallengeResponse_EncodedCredentials : bytes }.

Definition ChallengeResponse_CorrelationId_field : field := mkField 1 0 0 false (-9223372036854775807) 9223372036854775807 (-9223372036854775808).
Definition ChallengeResponse_ClusterSessionId_field : field := mkField 2 0 0 false (-9223372036854775807) 9223372036854775807 (-9223372036854775808).
Definition ChallengeResponse_EncodedCredentials_field : data_field := mkDataField 0 0 "null" 4.
Definition ChallengeResponse_set_CorrelationId (v : Z) (m : ChallengeResponse) : ChallengeResponse :=
  mkChallengeResponse v (ChallengeResponse_ClusterSessionId m) (ChallengeResponse_EncodedCredentials m).
Definition ChallengeResponse_set_ClusterSessionId (v : Z) (m : ChallengeResponse) : ChallengeResponse :=
  mkChallengeResponse (ChallengeResponse_CorrelationId m) v (ChallengeResponse_EncodedCredentials m).
Definition ChallengeResponse_set_EncodedCredentials (v : bytes) (m : ChallengeResponse) : ChallengeResponse :=
  mkChallengeResponse (ChallengeResponse_CorrelationId m) (ChallengeResponse_ClusterSessionId m) v.

Definition ChallengeResponse_RangeCheck (m : ChallengeResponse) (actingVersion schemaVersion : Z) : option string :=
  first_error
    [ check_required ChallengeResponse_CorrelationId_field actingVersion (ChallengeResponse_CorrelationId m)
    ; check_required ChallengeResponse_ClusterSessionId_field actingVersion (ChallengeResponse_ClusterSessionId m) ].

Definition ChallengeResponse_Encode (m : ChallengeResponse) (doRangeCheck : bool) : M bytes unit :=
  when doRangeCheck (fail_if (ChallengeResponse_RangeCheck m 16 16)) ;;;
  WriteInt64 (ChallengeResponse_CorrelationId m) ;;;
  WriteInt64 (ChallengeResponse_ClusterSessionId m) ;;;
  WriteUint32 (u32 (zlen (ChallengeResponse_EncodedCredentials m))) ;;;
  WriteBytes (ChallengeResponse_EncodedCredentials m).

Definition ChallengeResponse_Decode (actingVersion blockLength : Z) (doRangeCheck : bool) : M (bytes * ChallengeResponse) unit :=
  decode_field ChallengeResponse_CorrelationId_field actingVersion ReadInt64 ChallengeResponse_set_CorrelationId ;;;
  decode_field ChallengeResponse_ClusterSessionId_field actingVersion ReadInt64 ChallengeResponse_set_ClusterSessionId ;;;
  skip_block actingVersion 16 blockLength 16 ;;;
  decode_data ChallengeResponse_EncodedCredentials_field actingVersion ChallengeResponse_set_EncodedCredentials ;;;
  when doRangeCheck (checked (fun m => ChallengeResponse_RangeCheck m actingVersion 16)).

#[export] Instance ChallengeResponse_codec : Codec ChallengeResponse := {|
  SbeBlockLength := 16; SbeTemplateId := 8; SbeSchemaId := 111; SbeSchemaVersion := 16;
  zero := mkChallengeResponse 0 0 [];
  RangeCheck := ChallengeResponse_RangeCheck; Encode := ChallengeResponse_Encode; Decode := ChallengeResponse_Decode;
  valid m := is_i64 (ChallengeResponse_CorrelationId m) /\ is_i64 (ChallengeResponse_ClusterSessionId m) /\ zlen
    (ChallengeResponse_EncodedCredentials m) < 4294967296;
  fixed_part m := le_split 8 (ChallengeResponse_CorrelationId m) ++ le_split 8 (ChallengeResponse_ClusterSessionId m);
  data_part m := data_bytes (ChallengeResponse_EncodedCredentials m) |}.

#[export] Instance ChallengeResponse_laws : CodecLaws ChallengeResponse.
Proof. codec_laws ChallengeResponse_codec ChallengeResponse_Encode ChallengeResponse_Decode. Qed.

(** ** ClientSession *)

Record ClientSession : Type := mkClientSession { ClientSession_ClusterSessionId : Z;
  ClientSession_ResponseStreamId : Z; ClientSession_ResponseChannel : bytes; ClientSession_EncodedPrincipal :
  bytes }.

Definition ClientSession_ClusterSessionId_field : field := mkField 1 0 0 false (-9223372036854775807) 9223372036854775807 (-9223372036854775808).
Definition ClientSession_ResponseStreamId_field : field := mkField 2 0 0 false (-2147483647) 2147483647 (-2147483648).
Definition ClientSession_ResponseChannel_field : data_field := mkDataField 0 0 "US-ASCII" 4.
Definition ClientSession_EncodedPrincipal_field : data_field := mkDataField 0 0 "null" 4.
Definition ClientSession_set_ClusterSessionId (v : Z) (m : ClientSession) : ClientSession := mkClientSession v
  (ClientSession_ResponseStreamId m) (ClientSession_ResponseChannel m) (ClientSession_EncodedPrincipal m).
Definition ClientSession_set_ResponseStreamId (v : Z) (m : ClientSession) : ClientSession := mkClientSession
  (ClientSession_ClusterSessionId m) v (ClientSession_ResponseChannel m) (ClientSession_EncodedPrincipal m).
Definition ClientSession_set_ResponseChannel (v : bytes) (m : ClientSession) : ClientSession := mkClientSession
  (ClientSession_ClusterSessionId m) (ClientSession_ResponseStreamId m) v (ClientSession_EncodedPrincipal m).
Definition ClientSession_set_EncodedPrincipal (v : bytes) (m : ClientSession) : ClientSession := mkClientSession
  (ClientSession_ClusterSessionId m) (ClientSession_ResponseStreamId m) (ClientSession_ResponseChannel m) v.

Definition ClientSession_RangeCheck (m : ClientSession) (actingVersion schemaVersion : Z) : option string :=
  first_error
    [ check_required ClientSession_ClusterSessionId_field actingVersion (ClientSession_ClusterSessionId m)
    ; check_required ClientSession_ResponseStreamId_field actingVersion (ClientSession_ResponseStreamId m)
    ; check_ascii (ClientSession_ResponseChannel m) ].

Definition ClientSession_Encode (m : ClientSession) (doRangeCheck : bool) : M bytes unit :=
  when doRangeCheck (fail_if (ClientSession_RangeCheck m 16 16)) ;;;
  WriteInt64 (ClientSession_ClusterSessionId m) ;;;
  WriteInt32 (ClientSession_ResponseStreamId m) ;;;
  WriteUint32 (u32 (zlen (ClientSession_ResponseChannel m))) ;;;
  WriteBytes (ClientSession_ResponseChannel m) ;;;
  WriteUint32 (u32 (zlen (ClientSession_EncodedPrincipal m))) ;;;
  WriteBytes (ClientSession_EncodedPrincipal m).

Definition ClientSession_Decode (actingVersion blockLength : Z) (doRangeCheck : bool) : M (bytes * ClientSession) unit :=
  decode_field ClientSession_ClusterSessionId_field actingVersion ReadInt64 ClientSession_set_ClusterSessionId ;;;
  decode_field ClientSession_ResponseStreamId_field actingVersion ReadInt32 ClientSession_set_ResponseStreamId ;;;
  skip_block actingVersion 16 blockLength 12 ;;;
  decode_data ClientSession_ResponseChannel_field actingVersion ClientSession_set_ResponseChannel ;;;
  decode_data ClientSession_EncodedPrincipal_field actingVersion ClientSession_set_EncodedPrincipal ;;;
  when doRangeCheck (checked (fun m => ClientSession_RangeCheck m actingVersion 16)).

#[export] Instance ClientSession_codec : Codec ClientSession := {|
  SbeBlockLength := 12; SbeTemplateId := 102; SbeSchemaId := 111; SbeSchemaVersion := 16;
  zero := mkClientSession 0 0 [] [];
  RangeCheck := ClientSession_RangeCheck; Encode := ClientSession_Encode; Decode := ClientSession_Decode;
  valid m := is_i64 (ClientSession_ClusterSessionId m) /\ is_i32 (ClientSession_ResponseStreamId m) /\ zlen
    (ClientSession_ResponseChannel m) < 4294967296 /\ zlen (ClientSession_EncodedPrincipal m) < 4294967296;
  fixed_part m := le_split 8 (ClientSession_ClusterSessionId m) ++ le_split 4 (ClientSession_ResponseStreamId m);
  data_part m := data_bytes (ClientSession_ResponseChannel m) ++ data_bytes (ClientSession_EncodedPrincipal m) |}.

#[export] Instance ClientSession_laws : CodecLaws ClientSession.
Proof. codec_laws ClientSession_codec ClientSession_Encode ClientSession_Decode. Qed.

(** ** CloseSession *)

Record CloseSession : Type := mkCloseSession { CloseSession_ClusterSessionId : Z }.

Definition CloseSession_ClusterSessionId_field : field := mkField 1 0 0 false (-9223372036854775807) 9223372036854775807 (-9223372036854775808).
Definition CloseSession_set_ClusterSessionId (v : Z) (m : CloseSession) : CloseSession := mkCloseSession v.

Definition CloseSession_RangeCheck (m : CloseSession) (actingVersion schemaVersion : Z) : option string :=
  first_error
    [ check_required CloseSession_ClusterSessionId_field actingVersion (CloseSession_ClusterSessionId m) ].

Definition CloseSession_Encode (m : CloseSession) (doRangeCheck : bool) : M bytes unit :=
  when doRangeCheck (fail_if (CloseSession_RangeCheck m 16 16)) ;;;
  WriteInt64 (CloseSession_ClusterSessionId m).

Definition CloseSession_Decode (actingVersion blockLength : Z) (doRangeCheck : bool) : M (bytes * CloseSession) unit :=
  decode_field CloseSession_ClusterSessionId_field actingVersion ReadInt64 CloseSession_set_ClusterSessionId ;;;
  skip_block actingVersion 16 blockLength 8 ;;;
  when doRangeCheck (checked (fun m => CloseSession_RangeCheck m actingVersion 16)).

#[export] Instance CloseSession_codec : Codec CloseSession := {|
  SbeBlockLength := 8; SbeTemplateId := 30; SbeSchemaId := 111; SbeSchemaVersion := 16;
  zero := mkCloseSession 0;
  RangeCheck := CloseSession_RangeCheck; Encode := CloseSession_Encode; Decode := CloseSession_Decode;
  valid m := is_i64 (CloseSession_ClusterSessionId m);
  fixed_part m := le_split 8 (CloseSession_ClusterSessionId m);
  data_part m := [] |}.

#[export] Instance CloseSession_laws : CodecLaws CloseSession.
Proof. codec_laws CloseSession_codec CloseSession_Encode CloseSession_Decode. Qed.

(** ** ClusterActionRequest *)

Record ClusterActionRequest : Type := mkClusterActionRequest { ClusterActionRequest_LeadershipTermId : Z;
  ClusterActionRequest_LogPosition : Z; ClusterActionRequest_Timestamp : Z; ClusterActionRequest_Action : Z;
  ClusterActionRequest_Flags : Z }.

Definition ClusterActionRequest_LeadershipTermId_field : field := mkField 1 0 0 false (-9223372036854775807) 9223372036854775807 (-9223372036854775808).
Definition ClusterActionRequest_LogPosition_field : field := mkField 2 0 0 false (-9223372036854775807) 9223372036854775807 (-9223372036854775808).
Definition ClusterActionRequest_Timestamp_field : field := mkField 3 0 0 false (-9223372036854775807) 9223372036854775807 (-9223372036854775808).
Definition ClusterActionRequest_Action_field : field := mkField 4 0 0 false 0 0 0.
Definition ClusterActionRequest_Flags_field : field := mkField 5 11 0 true (-2147483647) 2147483647 (-2147483648).
Definition ClusterActionRequest_set_LeadershipTermId (v : Z) (m : ClusterActionRequest) : ClusterActionRequest
  := mkClusterActionRequest v (ClusterActionRequest_LogPosition m) (ClusterActionRequest_Timestamp m)
  (ClusterActionRequest_Action m) (ClusterActionRequest_Flags m).
Definition ClusterActionRequest_set_LogPosition (v : Z) (m : ClusterActionRequest) : ClusterActionRequest :=
  mkClusterActionRequest (ClusterActionRequest_LeadershipTermId m) v (ClusterActionRequest_Timestamp m)
  (ClusterActionRequest_Action m) (ClusterActionRequest_Flags m).
Definition ClusterActionRequest_set_Timestamp (v : Z) (m : ClusterActionRequest) : ClusterActionRequest :=
  mkClusterActionRequest (ClusterActionRequest_LeadershipTermId m) (ClusterActionRequest_LogPosition m) v
  (ClusterActionRequest_Action m) (ClusterActionRequest_Flags m).
Definition ClusterActionRequest_set_Action (v : Z) (m : ClusterActionRequest) : ClusterActionRequest :=
  mkClusterActionRequest (ClusterActionRequest_LeadershipTermId m) (ClusterActionRequest_LogPosition m)
  (ClusterActionRequest_Timestamp m) v (ClusterActionRequest_Flags m).
Definition ClusterActionRequest_set_Flags (v : Z) (m : ClusterActionRequest) : ClusterActionRequest :=
  mkClusterActionRequest (ClusterActionRequest_LeadershipTermId m) (ClusterActionRequest_LogPosition m)
  (ClusterActionRequest_Timestamp m) (ClusterActionRequest_Action m) v.

Definition ClusterActionRequest_RangeCheck (m : ClusterActionRequest) (actingVersion schemaVersion : Z) : option string :=
  first_error
    [ check_required ClusterActionRequest_LeadershipTermId_field actingVersion (ClusterActionRequest_LeadershipTermId m)
    ; check_required ClusterActionRequest_LogPosition_field actingVersion (ClusterActionRequest_LogPosition m)
    ; check_required ClusterActionRequest_Timestamp_field actingVersion (ClusterActionRequest_Timestamp m)
    ; check_enum ClusterActionValues actingVersion schemaVersion (ClusterActionRequest_Action m)
    ; check_optional ClusterActionRequest_Flags_field actingVersion (ClusterActionRequest_Flags m) ].

Definition ClusterActionRequest_Encode (m : ClusterActionRequest) (doRangeCheck : bool) : M bytes unit :=
  when doRangeCheck (fail_if (ClusterActionRequest_RangeCheck m 16 16)) ;;;
  WriteInt64 (ClusterActionRequest_LeadershipTermId m) ;;;
  WriteInt64 (ClusterActionRequest_LogPosition m) ;;;
  WriteInt64 (ClusterActionRequest_Timestamp m) ;;;
  WriteInt32 (ClusterActionRequest_Action m) ;;;
  WriteInt32 (ClusterActionRequest_Flags m).

Definition ClusterActionRequest_Decode (actingVersion blockLength : Z) (doRangeCheck : bool) : M (bytes * ClusterActionRequest) unit :=
  decode_field ClusterActionRequest_LeadershipTermId_field actingVersion ReadInt64 ClusterActionRequest_set_LeadershipTermId ;;;
  decode_field ClusterActionRequest_LogPosition_field actingVersion ReadInt64 ClusterActionRequest_set_LogPosition ;;;
  decode_field ClusterActionRequest_Timestamp_field actingVersion ReadInt64 ClusterActionRequest_set_Timestamp ;;;
  decode_enum ClusterActionRequest_Action_field actingVersion ReadInt32 ClusterActionRequest_set_Action ;;;
  decode_field ClusterActionRequest_Flags_field actingVersion ReadInt32 ClusterActionRequest_set_Flags ;;;
  skip_block actingVersion 16 blockLength 32 ;;;
  when doRangeCheck (checked (fun m => ClusterActionRequest_RangeCheck m actingVersion 16)).

#[export] Instance ClusterActionRequest_codec : Codec ClusterActionRequest := {|
  SbeBlockLength := 32; SbeTemplateId := 23; SbeSchemaId := 111; SbeSchemaVersion := 16;
  zero := mkClusterActionRequest 0 0 0 0 0;
  RangeCheck := ClusterActionRequest_RangeCheck; Encode := ClusterActionRequest_Encode; Decode := ClusterActionRequest_Decode;
  valid m := is_i64 (ClusterActionRequest_LeadershipTermId m) /\ is_i64 (ClusterActionRequest_LogPosition m) /\ is_i64
    (ClusterActionRequest_Timestamp m) /\ is_i32 (ClusterActionRequest_Action m) /\ is_i32
    (ClusterActionRequest_Flags m);
  fixed_part m := le_split 8 (ClusterActionRequest_LeadershipTermId m) ++ le_split 8 (ClusterActionRequest_LogPosition m) ++
    le_split 8 (ClusterActionRequest_Timestamp m) ++ le_split 4 (ClusterActionRequest_Action m) ++ le_split 4
    (ClusterActionRequest_Flags m);
  data_part m := [] |}.

#[export] Instance ClusterActionRequest_laws : CodecLaws ClusterActionRequest.
Proof. codec_laws ClusterActionRequest_codec ClusterActionRequest_Encode ClusterActionRequest_Decode. Qed.

(** ** ClusterMembers *)

Record ClusterMembers : Type := mkClusterMembers { ClusterMembers_MemberId : Z; ClusterMembers_HighMemberId : Z;
  ClusterMembers_ClusterMembers : bytes }.

Definition ClusterMembers_MemberId_field : field := mkField 1 0 0 false (-2147483647) 2147483647 (-2147483648).
Definition ClusterMembers_HighMemberId_field : field := mkField 2 0 0 false (-2147483647) 2147483647 (-2147483648).
Definition ClusterMembers_ClusterMembers_field : data_field := mkDataField 0 0 "US-ASCII" 4.
Definition ClusterMembers_set_MemberId (v : Z) (m : ClusterMembers) : ClusterMembers := mkClusterMembers v
  (ClusterMembers_HighMemberId m) (ClusterMembers_ClusterMembers m).
Definition ClusterMembers_set_HighMemberId (v : Z) (m : ClusterMembers) : ClusterMembers := mkClusterMembers
  (ClusterMembers_MemberId m) v (ClusterMembers_ClusterMembers m).
Definition ClusterMembers_set_ClusterMembers (v : bytes) (m : ClusterMembers) : ClusterMembers :=
  mkClusterMembers (ClusterMembers_MemberId m) (ClusterMembers_HighMemberId m) v.

Definition ClusterMembers_RangeCheck (m : ClusterMembers) (actingVersion schemaVersion : Z) : option string :=
  first_error
    [ check_required ClusterMembers_MemberId_field actingVersion (ClusterMembers_MemberId m)
    ; check_required ClusterMembers_HighMemberId_field actingVersion (ClusterMembers_HighMemberId m)
    ; check_ascii (ClusterMembers_ClusterMembers m) ].

Definition ClusterMembers_Encode (m : ClusterMembers) (doRangeCheck : bool) : M bytes unit :=
  when doRangeCheck (fail_if (ClusterMembers_RangeCheck m 16 16)) ;;;
  WriteInt32 (ClusterMembers_MemberId m) ;;;
  WriteInt32 (ClusterMembers_HighMemberId m) ;;;
  WriteUint32 (u32 (zlen (ClusterMembers_ClusterMembers m))) ;;;
  WriteBytes (ClusterMembers_ClusterMembers m).

Definition ClusterMembers_Decode (actingVersion blockLength : Z) (doRangeCheck : bool) : M (bytes * ClusterMembers) unit :=
  decode_field ClusterMembers_MemberId_field actingVersion ReadInt32 ClusterMembers_set_MemberId ;;;
  decode_field ClusterMembers_HighMemberId_field actingVersion ReadInt32 ClusterMembers_set_HighMemberId ;;;
  skip_block actingVersion 16 blockLength 8 ;;;
  decode_data ClusterMembers_ClusterMembers_field actingVersion ClusterMembers_set_ClusterMembers ;;;
  when doRangeCheck (checked (fun m => ClusterMembers_RangeCheck m actingVersion 16)).

#[export] Instance ClusterMembers_codec : Codec ClusterMembers := {|
  SbeBlockLength := 8; SbeTemplateId := 106; SbeSchemaId := 111; SbeSchemaVersion := 16;
  zero := mkClusterMembers 0 0 [];
  RangeCheck := ClusterMembers_RangeCheck; Encode := ClusterMembers_Encode; Decode := ClusterMembers_Decode;
  valid m := is_i32 (ClusterMembers_MemberId m) /\ is_i32 (ClusterMembers_HighMemberId m) /\ zlen
    (ClusterMembers_ClusterMembers m) < 4294967296;
  fixed_part m := le_split 4 (ClusterMembers_MemberId m) ++ le_split 4 (ClusterMembers_HighMemberId m);
  data_part m := data_bytes (ClusterMembers_ClusterMembers m) |}.

#[export] Instance ClusterMembers_laws : CodecLaws ClusterMembers.
Proof. codec_laws ClusterMembers_codec ClusterMembers_Encode ClusterMembers_Decode. Qed.

(** ** ClusterMembersChange *)

Record ClusterMembersChange : Type := mkClusterMembersChange { ClusterMembersChange_CorrelationId : Z;
  ClusterMembersChange_LeaderMemberId : Z; ClusterMembersChange_ActiveMembers : bytes;
  ClusterMembersChange_PassiveMembers : bytes }.

Definition ClusterMembersChange_CorrelationId_field : field := mkField 1 0 0 false (-9223372036854775807) 9223372036854775807 (-9223372036854775808).
Definition ClusterMembersChange_LeaderMemberId_field : field := mkField 2 0 0 false (-2147483647) 2147483647 (-2147483648).
Definition ClusterMembersChange_ActiveMembers_field : data_field := mkDataField 0 0 "US-ASCII" 4.
Definition ClusterMembersChange_PassiveMembers_field : data_field := mkDataField 0 0 "US-ASCII" 4.
Definition ClusterMembersChange_set_CorrelationId (v : Z) (m : ClusterMembersChange) : ClusterMembersChange :=
  mkClusterMembersChange v (ClusterMembersChange_LeaderMemberId m) (ClusterMembersChange_ActiveMembers m)
  (ClusterMembersChange_PassiveMembers m).
Definition ClusterMembersChange_set_LeaderMemberId (v : Z) (m : ClusterMembersChange) : ClusterMembersChange :=
  mkClusterMembersChange (ClusterMembersChange_CorrelationId m) v (ClusterMembersChange_ActiveMembers m)
  (ClusterMembersChange_PassiveMembers m).
Definition ClusterMembersChange_set_ActiveMembers (v : bytes) (m : ClusterMembersChange) : ClusterMembersChange
  := mkClusterMembersChange (ClusterMembersChange_CorrelationId m) (ClusterMembersChange_LeaderMemberId m) v
  (ClusterMembersChange_PassiveMembers m).
Definition ClusterMembersChange_set_PassiveMembers (v : bytes) (m : ClusterMembersChange) : ClusterMembersChange
  := mkClusterMembersChange (ClusterMembersChange_CorrelationId m) (ClusterMembersChange_LeaderMemberId m)
  (ClusterMembersChange_ActiveMembers m) v.

Definition ClusterMembersChange_RangeCheck (m : ClusterMembersChange) (actingVersion schemaVersion : Z) : option string :=
  first_error
    [ check_required ClusterMembersChange_CorrelationId_field actingVersion (ClusterMembersChange_CorrelationId m)
    ; check_required ClusterMembersChange_LeaderMemberId_field actingVersion (ClusterMembersChange_LeaderMemberId m)
    ; check_ascii (ClusterMembersChange_ActiveMembers m)
    ; check_ascii (ClusterMembersChange_PassiveMembers m) ].

Definition ClusterMembersChange_Encode (m : ClusterMembersChange) (doRangeCheck : bool) : M bytes unit :=
  when doRangeCheck (fail_if (ClusterMembersChange_RangeCheck m 16 16)) ;;;
  WriteInt64 (ClusterMembersChange_CorrelationId m) ;;;
  WriteInt32 (ClusterMembersChange_LeaderMemberId m) ;;;
  WriteUint32 (u32 (zlen (ClusterMembersChange_ActiveMembers m))) ;;;
  WriteBytes (ClusterMembersChange_ActiveMembers m) ;;;
  WriteUint32 (u32 (zlen (ClusterMembersChange_PassiveMembers m))) ;;;
  WriteBytes (ClusterMembersChange_PassiveMembers m).

Definition ClusterMembersChange_Decode (actingVersion blockLength : Z) (doRangeCheck : bool) : M (bytes * ClusterMembersChange) unit :=
  decode_field ClusterMembersChange_CorrelationId_field actingVersion ReadInt64 ClusterMembersChange_set_CorrelationId ;;;
  decode_field ClusterMembersChange_LeaderMemberId_field actingVersion ReadInt32 ClusterMembersChange_set_LeaderMemberId ;;;
  skip_block actingVersion 16 blockLength 12 ;;;
  decode_data ClusterMembersChange_ActiveMembers_field actingVersion ClusterMembersChange_set_ActiveMembers ;;;
  decode_data ClusterMembersChange_PassiveMembers_field actingVersion ClusterMembersChange_set_PassiveMembers ;;;
  when doRangeCheck (checked (fun m => ClusterMembersChange_RangeCheck m actingVersion 16)).

#[export] Instance ClusterMembersChange_codec : Codec ClusterMembersChange := {|
  SbeBlockLength := 12; SbeTemplateId := 71; SbeSchemaId := 111; SbeSchemaVersion := 16;
  zero := mkClusterMembersChange 0 0 [] [];
  RangeCheck := ClusterMembersChange_RangeCheck; Encode := ClusterMembersChange_Encode; Decode := ClusterMembersChange_Decode;
  valid m := is_i64 (ClusterMembersChange_CorrelationId m) /\ is_i32 (ClusterMembersChange_LeaderMemberId m) /\ zlen
    (ClusterMembersChange_ActiveMembers m) < 4294967296 /\ zlen (ClusterMembersChange_PassiveMembers m) <
    4294967296;
  fixed_part m := le_split 8 (ClusterMembersChange_CorrelationId m) ++ le_split 4 (ClusterMembersChange_LeaderMemberId m);
  data_part m := data_bytes (ClusterMembersChange_ActiveMembers m) ++ data_bytes (ClusterMembersChange_PassiveMembers m) |}.

#[export] Instance ClusterMembersChange_laws : CodecLaws ClusterMembersChange.
Proof. codec_laws ClusterMembersChange_codec ClusterMembersChange_Encode ClusterMembersChange_Decode. Qed.

(** ** ClusterMembersQuery *)

Record ClusterMembersQuery : Type := mkClusterMembersQuery { ClusterMembersQuery_CorrelationId : Z;
  ClusterMembersQuery_Extended : Z }.

Definition ClusterMembersQuery_CorrelationId_field : field := mkField 1 0 0 false (-9223372036854775807) 9223372036854775807 (-9223372036854775808).
Definition ClusterMembersQuery_Extended_field : field := mkField 2 5 0 true 0 0 0.
Definition ClusterMembersQuery_set_CorrelationId (v : Z) (m : ClusterMembersQuery) : ClusterMembersQuery :=
  mkClusterMembersQuery v (ClusterMembersQuery_Extended m).
Definition ClusterMembersQuery_set_Extended (v : Z) (m : ClusterMembersQuery) : ClusterMembersQuery :=
  mkClusterMembersQuery (ClusterMembersQuery_CorrelationId m) v.

Definition ClusterMembersQuery_RangeCheck (m : ClusterMembersQuery) (actingVersion schemaVersion : Z) : option string :=
  first_error
    [ check_required ClusterMembersQuery_CorrelationId_field actingVersion (ClusterMembersQuery_CorrelationId m)
    ; check_enum BooleanTypeValues actingVersion schemaVersion (ClusterMembersQuery_Extended m) ].

Definition ClusterMembersQuery_Encode (m : ClusterMembersQuery) (doRangeCheck : bool) : M bytes unit :=
  when doRangeCheck (fail_if (ClusterMembersQuery_RangeCheck m 16 16)) ;;;
  WriteInt64 (ClusterMembersQuery_CorrelationId m) ;;;
  WriteInt32 (ClusterMembersQuery_Extended m).

Definition ClusterMembersQuery_Decode (actingVersion blockLength : Z) (doRangeCheck : bool) : M (bytes * ClusterMembersQuery) unit :=
  decode_field ClusterMembersQuery_CorrelationId_field actingVersion ReadInt64 ClusterMembersQuery_set_CorrelationId ;;;
  decode_enum ClusterMembersQuery_Extended_field actingVersion ReadInt32 ClusterMembersQuery_set_Extended ;;;
  skip_block actingVersion 16 blockLength 12 ;;;
  when doRangeCheck (checked (fun m => ClusterMembersQuery_RangeCheck m actingVersion 16)).

#[export] Instance ClusterMembersQuery_codec : Codec ClusterMembersQuery := {|
  SbeBlockLength := 12; SbeTemplateId := 34; SbeSchemaId := 111; SbeSchemaVersion := 16;
  zero := mkClusterMembersQuery 0 0;
  RangeCheck := ClusterMembersQuery_RangeCheck; Encode := ClusterMembersQuery_Encode; Decode := ClusterMembersQuery_Decode;
  valid m := is_i64 (ClusterMembersQuery_CorrelationId m) /\ is_i32 (ClusterMembersQuery_Extended m);
  fixed_part m := le_split 8 (ClusterMembersQuery_CorrelationId m) ++ le_split 4 (ClusterMembersQuery_Extended m);
  data_part m := [] |}.

#[export] Instance ClusterMembersQuery_laws : CodecLaws ClusterMembersQuery.
Proof. codec_laws ClusterMembersQuery_codec ClusterMembersQuery_Encode ClusterMembersQuery_Decode. Qed.

(** ** ClusterMembersResponse *)

Record ClusterMembersResponse : Type := mkClusterMembersResponse { ClusterMembersResponse_CorrelationId : Z;
  ClusterMembersResponse_LeaderMemberId : Z; ClusterMembersResponse_ActiveMembers : bytes;
  ClusterMembersResponse_PassiveFollowers : bytes }.

Definition ClusterMembersResponse_CorrelationId_field : field := mkField 1 0 0 false (-9223372036854775807) 9223372036854775807 (-9223372036854775808).
Definition ClusterMembersResponse_LeaderMemberId_field : field := mkField 2 0 0 false (-2147483647) 2147483647 (-2147483648).
Definition ClusterMembersResponse_ActiveMembers_field : data_field := mkDataField 0 0 "US-ASCII" 4.
Definition ClusterMembersResponse_PassiveFollowers_field : data_field := mkDataField 0 0 "US-ASCII" 4.
Definition ClusterMembersResponse_set_CorrelationId (v : Z) (m : ClusterMembersResponse) :
  ClusterMembersResponse := mkClusterMembersResponse v (ClusterMembersResponse_LeaderMemberId m)
  (ClusterMembersResponse_ActiveMembers m) (ClusterMembersResponse_PassiveFollowers m).
Definition ClusterMembersResponse_set_LeaderMemberId (v : Z) (m : ClusterMembersResponse) :
  ClusterMembersResponse := mkClusterMembersResponse (ClusterMembersResponse_CorrelationId m) v
  (ClusterMembersResponse_ActiveMembers m) (ClusterMembersResponse_PassiveFollowers m).
Definition ClusterMembersResponse_set_ActiveMembers (v : bytes) (m : ClusterMembersResponse) :
  ClusterMembersResponse := mkClusterMembersResponse (ClusterMembersResponse_CorrelationId m)
  (ClusterMembersResponse_LeaderMemberId m) v (ClusterMembersResponse_PassiveFollowers m).
Definition ClusterMembersResponse_set_PassiveFollowers (v : bytes) (m : ClusterMembersResponse) :
  ClusterMembersResponse := mkClusterMembersResponse (ClusterMembersResponse_CorrelationId m)
  (ClusterMembersResponse_LeaderMemberId m) (ClusterMembersResponse_ActiveMembers m) v.

Definition ClusterMembersResponse_RangeCheck (m : ClusterMembersResponse) (actingVersion schemaVersion : Z) : option string :=
  first_error
    [ check_required ClusterMembersResponse_CorrelationId_field actingVersion (ClusterMembersResponse_CorrelationId m)
    ; check_required ClusterMembersResponse_LeaderMemberId_field actingVersion (ClusterMembersResponse_LeaderMemberId m)
    ; check_ascii (ClusterMembersResponse_ActiveMembers m)
    ; check_ascii (ClusterMembersResponse_PassiveFollowers m) ].

Definition ClusterMembersResponse_Encode (m : ClusterMembersResponse) (doRangeCheck : bool) : M bytes unit :=
  when doRangeCheck (fail_if (ClusterMembersResponse_RangeCheck m 16 16)) ;;;
  WriteInt64 (ClusterMembersResponse_CorrelationId m) ;;;
  WriteInt32 (ClusterMembersResponse_LeaderMemberId m) ;;;
  WriteUint32 (u32 (zlen (ClusterMembersResponse_ActiveMembers m))) ;;;
  WriteBytes (ClusterMembersResponse_ActiveMembers m) ;;;
  WriteUint32 (u32 (zlen (ClusterMembersResponse_PassiveFollowers m))) ;;;
  WriteBytes (ClusterMembersResponse_PassiveFollowers m).

Definition ClusterMembersResponse_Decode (actingVersion blockLength : Z) (doRangeCheck : bool) : M (bytes * ClusterMembersResponse) unit :=
  decode_field ClusterMembersResponse_CorrelationId_field actingVersion ReadInt64 ClusterMembersResponse_set_CorrelationId ;;;
  decode_field ClusterMembersResponse_LeaderMemberId_field actingVersion ReadInt32 ClusterMembersResponse_set_LeaderMemberId ;;;
  skip_block actingVersion 16 blockLength 12 ;;;
  decode_data ClusterMembersResponse_ActiveMembers_field actingVersion ClusterMembersResponse_set_ActiveMembers ;;;
  decode_data ClusterMembersResponse_PassiveFollowers_field actingVersion ClusterMembersResponse_set_PassiveFollowers ;;;
  when doRangeCheck (checked (fun m => ClusterMembersResponse_RangeCheck m actingVersion 16)).

#[export] Instance ClusterMembersResponse_codec : Codec ClusterMembersResponse := {|
  SbeBlockLength := 12; SbeTemplateId := 41; SbeSchemaId := 111; SbeSchemaVersion := 16;
  zero := mkClusterMembersResponse 0 0 [] [];
  RangeCheck := ClusterMembersResponse_RangeCheck; Encode := ClusterMembersResponse_Encode; Decode := ClusterMembersResponse_Decode;
  valid m := is_i64 (ClusterMembersResponse_CorrelationId m) /\ is_i32 (ClusterMembersResponse_LeaderMemberId m) /\ zlen
    (ClusterMembersResponse_ActiveMembers m) < 4294967296 /\ zlen (ClusterMembersResponse_PassiveFollowers m) <
    4294967296;
  fixed_part m := le_split 8 (ClusterMembersResponse_CorrelationId m) ++ le_split 4 (ClusterMembersResponse_LeaderMemberId m);
  data_part m := data_bytes (ClusterMembersResponse_ActiveMembers m) ++ data_bytes (ClusterMembersResponse_PassiveFollowers m) |}.

#[export] Instance ClusterMembersResponse_laws : CodecLaws ClusterMembersResponse.
Proof. codec_laws ClusterMembersResponse_codec ClusterMembersResponse_Encode ClusterMembersResponse_Decode. Qed.

(** ** ClusterSession *)

Record ClusterSession : Type := mkClusterSession { ClusterSession_ClusterSessionId : Z;
  ClusterSession_CorrelationId : Z; ClusterSession_OpenedLogPosition : Z; ClusterSession_TimeOfLastActivity : Z;
  ClusterSession_CloseReason : Z; ClusterSession_ResponseStreamId : Z; ClusterSession_ResponseChannel : bytes }.

Definition ClusterSession_ClusterSessionId_field : field := mkField 1 0 0 false (-9223372036854775807) 9223372036854775807 (-9223372036854775808).
Definition ClusterSession_CorrelationId_field : field := mkField 2 0 0 false (-9223372036854775807) 9223372036854775807 (-9223372036854775808).
Definition ClusterSession_OpenedLogPosition_field : field := mkField 3 0 0 false (-9223372036854775807) 9223372036854775807 (-9223372036854775808).
Definition ClusterSession_TimeOfLastActivity_field : field := mkField 4 0 0 false (-9223372036854775807) 9223372036854775807 (-9223372036854775808).
Definition ClusterSession_CloseReason_field : field := mkField 5 0 0 false 0 0 0.
Definition ClusterSession_ResponseStreamId_field : field := mkField 6 0 0 false (-2147483647) 2147483647 (-2147483648).
Definition ClusterSession_ResponseChannel_field : data_field := mkDataField 0 0 "US-ASCII" 4.
Definition ClusterSession_set_ClusterSessionId (v : Z) (m : ClusterSession) : ClusterSession := mkClusterSession
  v (ClusterSession_CorrelationId m) (ClusterSession_OpenedLogPosition m) (ClusterSession_TimeOfLastActivity m)
  (ClusterSession_CloseReason m) (ClusterSession_ResponseStreamId m) (ClusterSession_ResponseChannel m).
Definition ClusterSession_set_CorrelationId (v : Z) (m : ClusterSession) : ClusterSession := mkClusterSession
  (ClusterSession_ClusterSessionId m) v (ClusterSession_OpenedLogPosition m) (ClusterSession_TimeOfLastActivity
  m) (ClusterSession_CloseReason m) (ClusterSession_ResponseStreamId m) (ClusterSession_ResponseChannel m).
Definition ClusterSession_set_OpenedLogPosition (v : Z) (m : ClusterSession) : ClusterSession :=
  mkClusterSession (ClusterSession_ClusterSessionId m) (ClusterSession_CorrelationId m) v
  (ClusterSession_TimeOfLastActivity m) (ClusterSession_CloseReason m) (ClusterSession_ResponseStreamId m)
  (ClusterSession_ResponseChannel m).
Definition ClusterSession_set_TimeOfLastActivity (v : Z) (m : ClusterSession) : ClusterSession :=
  mkClusterSession (ClusterSession_ClusterSessionId m) (ClusterSession_CorrelationId m)
  (ClusterSession_OpenedLogPosition m) v (ClusterSession_CloseReason m) (ClusterSession_ResponseStreamId m)
  (ClusterSession_ResponseChannel m).
Definition ClusterSession_set_CloseReason (v : Z) (m : ClusterSession) : ClusterSession := mkClusterSession
  (ClusterSession_ClusterSessionId m) (ClusterSession_CorrelationId m) (ClusterSession_OpenedLogPosition m)
  (ClusterSession_TimeOfLastActivity m) v (ClusterSession_ResponseStreamId m) (ClusterSession_ResponseChannel
  m).
Definition ClusterSession_set_ResponseStreamId (v : Z) (m : ClusterSession) : ClusterSession := mkClusterSession
  (ClusterSession_ClusterSessionId m) (ClusterSession_CorrelationId m) (ClusterSession_OpenedLogPosition m)
  (ClusterSession_TimeOfLastActivity m) (ClusterSession_CloseReason m) v (ClusterSession_ResponseChannel m).
Definition ClusterSession_set_ResponseChannel (v : bytes) (m : ClusterSession) : ClusterSession :=
  mkClusterSession (ClusterSession_ClusterSessionId m) (ClusterSession_CorrelationId m)
  (ClusterSession_OpenedLogPosition m) (ClusterSession_TimeOfLastActivity m) (ClusterSession_CloseReason m)
  (ClusterSession_ResponseStreamId m) v.

Definition ClusterSession_RangeCheck (m : ClusterSession) (actingVersion schemaVersion : Z) : option string :=
  first_error
    [ check_required ClusterSession_ClusterSessionId_field actingVersion (ClusterSession_ClusterSessionId m)
    ; check_required ClusterSession_CorrelationId_field actingVersion (ClusterSession_CorrelationId m)
    ; check_required ClusterSession_OpenedLogPosition_field actingVersion (ClusterSession_OpenedLogPosition m)
    ; check_required ClusterSession_TimeOfLastActivity_field actingVersion (ClusterSession_TimeOfLastActivity m)
    ; check_enum CloseReasonValues actingVersion schemaVersion (ClusterSession_CloseReason m)
    ; check_required ClusterSession_ResponseStreamId_field actingVersion (ClusterSession_ResponseStreamId m)
    ; check_ascii (ClusterSession_ResponseChannel m) ].

Definition ClusterSession_Encode (m : ClusterSession) (doRangeCheck : bool) : M bytes unit :=
  when doRangeCheck (fail_if (ClusterSession_RangeCheck m 16 16)) ;;;
  WriteInt64 (ClusterSession_ClusterSessionId m) ;;;
  WriteInt64 (ClusterSession_CorrelationId m) ;;;
  WriteInt64 (ClusterSession_OpenedLogPosition m) ;;;
  WriteInt64 (ClusterSession_TimeOfLastActivity m) ;;;
  WriteInt32 (ClusterSession_CloseReason m) ;;;
  WriteInt32 (ClusterSession_ResponseStreamId m) ;;;
  WriteUint32 (u32 (zlen (ClusterSession_ResponseChannel m))) ;;;
  WriteBytes (ClusterSession_ResponseChannel m).

Definition ClusterSession_Decode (actingVersion blockLength : Z) (doRangeCheck : bool) : M (bytes * ClusterSession) unit :=
  decode_field ClusterSession_ClusterSessionId_field actingVersion ReadInt64 ClusterSession_set_ClusterSessionId ;;;
  decode_field ClusterSession_CorrelationId_field actingVersion ReadInt64 ClusterSession_set_CorrelationId ;;;
  decode_field ClusterSession_OpenedLogPosition_field actingVersion ReadInt64 ClusterSession_set_OpenedLogPosition ;;;
  decode_field ClusterSession_TimeOfLastActivity_field actingVersion ReadInt64 ClusterSession_set_TimeOfLastActivity ;;;
  decode_enum ClusterSession_CloseReason_field actingVersion ReadInt32 ClusterSession_set_CloseReason ;;;
  decode_field ClusterSession_ResponseStreamId_field actingVersion ReadInt32 ClusterSession_set_ResponseStreamId ;;;
  skip_block actingVersion 16 blockLength 40 ;;;
  decode_data ClusterSession_ResponseChannel_field actingVersion ClusterSession_set_ResponseChannel ;;;
  when doRangeCheck (checked (fun m => ClusterSession_RangeCheck m actingVersion 16)).

#[export] Instance ClusterSession_codec : Codec ClusterSession := {|
  SbeBlockLength := 40; SbeTemplateId := 103; SbeSchemaId := 111; SbeSchemaVersion := 16;
  zero := mkClusterSession 0 0 0 0 0 0 [];
  RangeCheck := ClusterSession_RangeCheck; Encode := ClusterSession_Encode; Decode := ClusterSession_Decode;
  valid m := is_i64 (ClusterSession_ClusterSessionId m) /\ is_i64 (ClusterSession_CorrelationId m) /\ is_i64
    (ClusterSession_OpenedLogPosition m) /\ is_i64 (ClusterSession_TimeOfLastActivity m) /\ is_i32
    (ClusterSession_CloseReason m) /\ is_i32 (ClusterSession_ResponseStreamId m) /\ zlen
    (ClusterSession_ResponseChannel m) < 4294967296;
  fixed_part m := le_split 8 (ClusterSession_ClusterSessionId m) ++ le_split 8 (ClusterSession_CorrelationId m) ++ le_split 8
    (ClusterSession_OpenedLogPosition m) ++ le_split 8 (ClusterSession_TimeOfLastActivity m) ++ le_split 4
    (ClusterSession_CloseReason m) ++ le_split 4 (ClusterSession_ResponseStreamId m);
  data_part m := data_bytes (ClusterSession_ResponseChannel m) |}.

#[export] Instance ClusterSession_laws : CodecLaws ClusterSession.
Proof. codec_laws ClusterSession_codec ClusterSession_Encode ClusterSession_Decode. Qed.

(** ** CommitPosition *)

Record CommitPosition : Type := mkCommitPosition { CommitPosition_LeadershipTermId : Z;
  CommitPosition_LogPosition : Z; CommitPosition_LeaderMemberId : Z }.

Definition CommitPosition_LeadershipTermId_field : field := mkField 1 0 0 false (-9223372036854775807) 9223372036854775807 (-9223372036854775808).
Definition CommitPosition_LogPosition_field : field := mkField 2 0 0 false (-9223372036854775807) 9223372036854775807 (-9223372036854775808).
Definition CommitPosition_LeaderMemberId_field : field := mkField 3 0 0 false (-2147483647) 2147483647 (-2147483648).
Definition CommitPosition_set_LeadershipTermId (v : Z) (m : CommitPosition) : CommitPosition := mkCommitPosition
  v (CommitPosition_LogPosition m) (CommitPosition_LeaderMemberId m).
Definition CommitPosition_set_LogPosition (v : Z) (m : CommitPosition) : CommitPosition := mkCommitPosition
  (CommitPosition_LeadershipTermId m) v (CommitPosition_LeaderMemberId m).
Definition CommitPosition_set_LeaderMemberId (v : Z) (m : CommitPosition) : CommitPosition := mkCommitPosition
  (CommitPosition_LeadershipTermId m) (CommitPosition_LogPosition m) v.

Definition CommitPosition_RangeCheck (m : CommitPosition) (actingVersion schemaVersion : Z) : option string :=
  first_error
    [ check_required CommitPosition_LeadershipTermId_field actingVersion (CommitPosition_LeadershipTermId m)
    ; check_required CommitPosition_LogPosition_field actingVersion (CommitPosition_LogPosition m)
    ; check_required CommitPosition_LeaderMemberId_field actingVersion (CommitPosition_LeaderMemberId m) ].

Definition CommitPosition_Encode (m : CommitPosition) (doRangeCheck : bool) : M bytes unit :=
  when doRangeCheck (fail_if (CommitPosition_RangeCheck m 16 16)) ;;;
  WriteInt64 (CommitPosition_LeadershipTermId m) ;;;
  WriteInt64 (CommitPosition_LogPosition m) ;;;
  WriteInt32 (CommitPosition_LeaderMemberId m).

Definition CommitPosition_Decode (actingVersion blockLength : Z) (doRangeCheck : bool) : M (bytes * CommitPosition) unit :=
  decode_field CommitPosition_LeadershipTermId_field actingVersion ReadInt64 CommitPosition_set_LeadershipTermId ;;;
  decode_field CommitPosition_LogPosition_field actingVersion ReadInt64 CommitPosition_set_LogPosition ;;;
  decode_field CommitPosition_LeaderMemberId_field actingVersion ReadInt32 CommitPosition_set_LeaderMemberId ;;;
  skip_block actingVersion 16 blockLength 20 ;;;
  when doRangeCheck (checked (fun m => CommitPosition_RangeCheck m actingVersion 16)).

#[export] Instance CommitPosition_codec : Codec CommitPosition := {|
  SbeBlockLength := 20; SbeTemplateId := 55; SbeSchemaId := 111; SbeSchemaVersion := 16;
  zero := mkCommitPosition 0 0 0;
  RangeCheck := CommitPosition_RangeCheck; Encode := CommitPosition_Encode; Decode := CommitPosition_Decode;
  valid m := is_i64 (CommitPosition_LeadershipTermId m) /\ is_i64 (CommitPosition_LogPosition m) /\ is_i32
    (CommitPosition_LeaderMemberId m);
  fixed_part m := le_split 8 (CommitPosition_LeadershipTermId m) ++ le_split 8 (CommitPosition_LogPosition m) ++ le_split 4
    (CommitPosition_LeaderMemberId m);
  data_part m := [] |}.

#[export] Instance CommitPosition_laws : CodecLaws CommitPosition.
Proof. codec_laws CommitPosition_codec CommitPosition_Encode CommitPosition_Decode. Qed.

(** ** ConsensusModule *)

Record ConsensusModule : Type := mkConsensusModule { ConsensusModule_NextSessionId : Z;
  ConsensusModule_NextServiceSessionId : Z; ConsensusModule_LogServiceSessionId : Z;
  ConsensusModule_PendingMessageCapacity : Z }.

Definition ConsensusModule_NextSessionId_field : field := mkField 1 0 0 false (-9223372036854775807) 9223372036854775807 (-9223372036854775808).
Definition ConsensusModule_NextServiceSessionId_field : field := mkField 2 3 0 true (-9223372036854775807) 9223372036854775807 (-9223372036854775808).
Definition ConsensusModule_LogServiceSessionId_field : field := mkField 3 3 0 true (-9223372036854775807) 9223372036854775807 (-9223372036854775808).
Definition ConsensusModule_PendingMessageCapacity_field : field := mkField 4 3 0 true (-2147483647) 2147483647 0.
Definition ConsensusModule_set_NextSessionId (v : Z) (m : ConsensusModule) : ConsensusModule :=
  mkConsensusModule v (ConsensusModule_NextServiceSessionId m) (ConsensusModule_LogServiceSessionId m)
  (ConsensusModule_PendingMessageCapacity m).
Definition ConsensusModule_set_NextServiceSessionId (v : Z) (m : ConsensusModule) : ConsensusModule :=
  mkConsensusModule (ConsensusModule_NextSessionId m) v (ConsensusModule_LogServiceSessionId m)
  (ConsensusModule_PendingMessageCapacity m).
Definition ConsensusModule_set_LogServiceSessionId (v : Z) (m : ConsensusModule) : ConsensusModule :=
  mkConsensusModule (ConsensusModule_NextSessionId m) (ConsensusModule_NextServiceSessionId m) v
  (ConsensusModule_PendingMessageCapacity m).
Definition ConsensusModule_set_PendingMessageCapacity (v : Z) (m : ConsensusModule) : ConsensusModule :=
  mkConsensusModule (ConsensusModule_NextSessionId m) (ConsensusModule_NextServiceSessionId m)
  (ConsensusModule_LogServiceSessionId m) v.

Definition ConsensusModule_RangeCheck (m : ConsensusModule) (actingVersion schemaVersion : Z) : option string :=
  first_error
    [ check_required ConsensusModule_NextSessionId_field actingVersion (ConsensusModule_NextSessionId m)
    ; check_optional ConsensusModule_NextServiceSessionId_field actingVersion (ConsensusModule_NextServiceSessionId m)
    ; check_optional ConsensusModule_LogServiceSessionId_field actingVersion (ConsensusModule_LogServiceSessionId m)
    ; check_optional ConsensusModule_PendingMessageCapacity_field actingVersion (ConsensusModule_PendingMessageCapacity m) ].

Definition ConsensusModule_Encode (m : ConsensusModule) (doRangeCheck : bool) : M bytes unit :=
  when doRangeCheck (fail_if (ConsensusModule_RangeCheck m 16 16)) ;;;
  WriteInt64 (ConsensusModule_NextSessionId m) ;;;
  WriteInt64 (ConsensusModule_NextServiceSessionId m) ;;;
  WriteInt64 (ConsensusModule_LogServiceSessionId m) ;;;
  WriteInt32 (ConsensusModule_PendingMessageCapacity m).

Definition ConsensusModule_Decode (actingVersion blockLength : Z) (doRangeCheck : bool) : M (bytes * ConsensusModule) unit :=
  decode_field ConsensusModule_NextSessionId_field actingVersion ReadInt64 ConsensusModule_set_NextSessionId ;;;
  decode_field ConsensusModule_NextServiceSessionId_field actingVersion ReadInt64 ConsensusModule_set_NextServiceSessionId ;;;
  decode_field ConsensusModule_LogServiceSessionId_field actingVersion ReadInt64 ConsensusModule_set_LogServiceSessionId ;;;
  decode_field ConsensusModule_PendingMessageCapacity_field actingVersion ReadInt32 ConsensusModule_set_PendingMessageCapacity ;;;
  skip_block actingVersion 16 blockLength 28 ;;;
  when doRangeCheck (checked (fun m => ConsensusModule_RangeCheck m actingVersion 16)).

#[export] Instance ConsensusModule_codec : Codec ConsensusModule := {|
  SbeBlockLength := 28; SbeTemplateId := 105; SbeSchemaId := 111; SbeSchemaVersion := 16;
  zero := mkConsensusModule 0 0 0 0;
  RangeCheck := ConsensusModule_RangeCheck; Encode := ConsensusModule_Encode; Decode := ConsensusModule_Decode;
  valid m := is_i64 (ConsensusModule_NextSessionId m) /\ is_i64 (ConsensusModule_NextServiceSessionId m) /\ is_i64
    (ConsensusModule_LogServiceSessionId m) /\ is_i32 (ConsensusModule_PendingMessageCapacity m);
  fixed_part m := le_split 8 (ConsensusModule_NextSessionId m) ++ le_split 8 (ConsensusModule_NextServiceSessionId m) ++ le_split
    8 (ConsensusModule_LogServiceSessionId m) ++ le_split 4 (ConsensusModule_PendingMessageCapacity m);
  data_part m := [] |}.

#[export] Instance ConsensusModule_laws : CodecLaws ConsensusModule.
Proof. codec_laws ConsensusModule_codec ConsensusModule_Encode ConsensusModule_Decode. Qed.

(** ** HeartbeatRequest *)

Record HeartbeatRequest : Type := mkHeartbeatRequest { HeartbeatRequest_CorrelationId : Z;
  HeartbeatRequest_ResponseStreamId : Z; HeartbeatRequest_ResponseChannel : bytes;
  HeartbeatRequest_EncodedCredentials : bytes }.

Definition HeartbeatRequest_CorrelationId_field : field := mkField 1 0 0 false (-9223372036854775807) 9223372036854775807 (-9223372036854775808).
Definition HeartbeatRequest_ResponseStreamId_field : field := mkField 2 0 0 false (-2147483647) 2147483647 (-2147483648).
Definition HeartbeatRequest_ResponseChannel_field : data_field := mkDataField 0 0 "US-ASCII" 4.
Definition HeartbeatRequest_EncodedCredentials_field : data_field := mkDataField 0 0 "null" 4.
Definition HeartbeatRequest_set_CorrelationId (v : Z) (m : HeartbeatRequest) : HeartbeatRequest :=
  mkHeartbeatRequest v (HeartbeatRequest_ResponseStreamId m) (HeartbeatRequest_ResponseChannel m)
  (HeartbeatRequest_EncodedCredentials m).
Definition HeartbeatRequest_set_ResponseStreamId (v : Z) (m : HeartbeatRequest) : HeartbeatRequest :=
  mkHeartbeatRequest (HeartbeatRequest_CorrelationId m) v (HeartbeatRequest_ResponseChannel m)
  (HeartbeatRequest_EncodedCredentials m).
Definition HeartbeatRequest_set_ResponseChannel (v : bytes) (m : HeartbeatRequest) : HeartbeatRequest :=
  mkHeartbeatRequest (HeartbeatRequest_CorrelationId m) (HeartbeatRequest_ResponseStreamId m) v
  (HeartbeatRequest_EncodedCredentials m).
Definition HeartbeatRequest_set_EncodedCredentials (v : bytes) (m : HeartbeatRequest) : HeartbeatRequest :=
  mkHeartbeatRequest (HeartbeatRequest_CorrelationId m) (HeartbeatRequest_ResponseStreamId m)
  (HeartbeatRequest_ResponseChannel m) v.

Definition HeartbeatRequest_RangeCheck (m : HeartbeatRequest) (actingVersion schemaVersion : Z) : option string :=
  first_error
    [ check_required HeartbeatRequest_CorrelationId_field actingVersion (HeartbeatRequest_CorrelationId m)
    ; check_required HeartbeatRequest_ResponseStreamId_field actingVersion (HeartbeatRequest_ResponseStreamId m)
    ; check_ascii (HeartbeatRequest_ResponseChannel m) ].

Definition HeartbeatRequest_Encode (m : HeartbeatRequest) (doRangeCheck : bool) : M bytes unit :=
  when doRangeCheck (fail_if (HeartbeatRequest_RangeCheck m 16 16)) ;;;
  WriteInt64 (HeartbeatRequest_CorrelationId m) ;;;
  WriteInt32 (HeartbeatRequest_ResponseStreamId m) ;;;
  WriteUint32 (u32 (zlen (HeartbeatRequest_ResponseChannel m))) ;;;
  WriteBytes (HeartbeatRequest_ResponseChannel m) ;;;
  WriteUint32 (u32 (zlen (HeartbeatRequest_EncodedCredentials m))) ;;;
  WriteBytes (HeartbeatRequest_EncodedCredentials m).

Definition HeartbeatRequest_Decode (actingVersion blockLength : Z) (doRangeCheck : bool) : M (bytes * HeartbeatRequest) unit :=
  decode_field HeartbeatRequest_CorrelationId_field actingVersion ReadInt64 HeartbeatRequest_set_CorrelationId ;;;
  decode_field HeartbeatRequest_ResponseStreamId_field actingVersion ReadInt32 HeartbeatRequest_set_ResponseStreamId ;;;
  skip_block actingVersion 16 blockLength 12 ;;;
  decode_data HeartbeatRequest_ResponseChannel_field actingVersion HeartbeatRequest_set_ResponseChannel ;;;
  decode_data HeartbeatRequest_EncodedCredentials_field actingVersion HeartbeatRequest_set_EncodedCredentials ;;;
  when doRangeCheck (checked (fun m => HeartbeatRequest_RangeCheck m actingVersion 16)).

#[export] Instance HeartbeatRequest_codec : Codec HeartbeatRequest := {|
  SbeBlockLength := 12; SbeTemplateId := 79; SbeSchemaId := 111; SbeSchemaVersion := 16;
  zero := mkHeartbeatRequest 0 0 [] [];
  RangeCheck := HeartbeatRequest_RangeCheck; Encode := HeartbeatRequest_Encode; Decode := HeartbeatRequest_Decode;
  valid m := is_i64 (HeartbeatRequest_CorrelationId m) /\ is_i32 (HeartbeatRequest_ResponseStreamId m) /\ zlen
    (HeartbeatRequest_ResponseChannel m) < 4294967296 /\ zlen (HeartbeatRequest_EncodedCredentials m) <
    4294967296;
  fixed_part m := le_split 8 (HeartbeatRequest_CorrelationId m) ++ le_split 4 (HeartbeatRequest_ResponseStreamId m);
  data_part m := data_bytes (HeartbeatRequest_ResponseChannel m) ++ data_bytes (HeartbeatRequest_EncodedCredentials m) |}.

#[export] Instance HeartbeatRequest_laws : CodecLaws HeartbeatRequest.
Proof. codec_laws HeartbeatRequest_codec HeartbeatRequest_Encode HeartbeatRequest_Decode. Qed.

(** ** HeartbeatResponse *)

Record HeartbeatResponse : Type := mkHeartbeatResponse { HeartbeatResponse_CorrelationId : Z }.

Definition HeartbeatResponse_CorrelationId_field : field := mkField 1 0 0 false (-9223372036854775807) 9223372036854775807 (-9223372036854775808).
Definition HeartbeatResponse_set_CorrelationId (v : Z) (m : HeartbeatResponse) : HeartbeatResponse :=
  mkHeartbeatResponse v.

Definition HeartbeatResponse_RangeCheck (m : HeartbeatResponse) (actingVersion schemaVersion : Z) : option string :=
  first_error
    [ check_required HeartbeatResponse_CorrelationId_field actingVersion (HeartbeatResponse_CorrelationId m) ].

Definition HeartbeatResponse_Encode (m : HeartbeatResponse) (doRangeCheck : bool) : M bytes unit :=
  when doRangeCheck (fail_if (HeartbeatResponse_RangeCheck m 16 16)) ;;;
  WriteInt64 (HeartbeatResponse_CorrelationId m).

Definition HeartbeatResponse_Decode (actingVersion blockLength : Z) (doRangeCheck : bool) : M (bytes * HeartbeatResponse) unit :=
  decode_field HeartbeatResponse_CorrelationId_field actingVersion ReadInt64 HeartbeatResponse_set_CorrelationId ;;;
  skip_block actingVersion 16 blockLength 8 ;;;
  when doRangeCheck (checked (fun m => HeartbeatResponse_RangeCheck m actingVersion 16)).

#[export] Instance HeartbeatResponse_codec : Codec HeartbeatResponse := {|
  SbeBlockLength := 8; SbeTemplateId := 80; SbeSchemaId := 111; SbeSchemaVersion := 16;
  zero := mkHeartbeatResponse 0;
  RangeCheck := HeartbeatResponse_RangeCheck; Encode := HeartbeatResponse_Encode; Decode := HeartbeatResponse_Decode;
  valid m := is_i64 (HeartbeatResponse_CorrelationId m);
  fixed_part m := le_split 8 (HeartbeatResponse_CorrelationId m);
  data_part m := [] |}.

#[export] Instance HeartbeatResponse_laws : CodecLaws HeartbeatResponse.
Proof. codec_laws HeartbeatResponse_codec HeartbeatResponse_Encode HeartbeatResponse_Decode. Qed.

(** ** JoinCluster *)

Record JoinCluster : Type := mkJoinCluster { JoinCluster_LeadershipTermId : Z; JoinCluster_MemberId : Z }.

Definition JoinCluster_LeadershipTermId_field : field := mkField 1 0 0 false (-9223372036854775807) 9223372036854775807 (-9223372036854775808).
Definition JoinCluster_MemberId_field : field := mkField 2 0 0 false (-2147483647) 2147483647 (-2147483648).
Definition JoinCluster_set_LeadershipTermId (v : Z) (m : JoinCluster) : JoinCluster := mkJoinCluster v
  (JoinCluster_MemberId m).
Definition JoinCluster_set_MemberId (v : Z) (m : JoinCluster) : JoinCluster := mkJoinCluster
  (JoinCluster_LeadershipTermId m) v.

Definition JoinCluster_RangeCheck (m : JoinCluster) (actingVersion schemaVersion : Z) : option string :=
  first_error
    [ check_required JoinCluster_LeadershipTermId_field actingVersion (JoinCluster_LeadershipTermId m)
    ; check_required JoinCluster_MemberId_field actingVersion (JoinCluster_MemberId m) ].

Definition JoinCluster_Encode (m : JoinCluster) (doRangeCheck : bool) : M bytes unit :=
  when doRangeCheck (fail_if (JoinCluster_RangeCheck m 16 16)) ;;;
  WriteInt64 (JoinCluster_LeadershipTermId m) ;;;
  WriteInt32 (JoinCluster_MemberId m).

Definition JoinCluster_Decode (actingVersion blockLength : Z) (doRangeCheck : bool) : M (bytes * JoinCluster) unit :=
  decode_field JoinCluster_LeadershipTermId_field actingVersion ReadInt64 JoinCluster_set_LeadershipTermId ;;;
  decode_field JoinCluster_MemberId_field actingVersion ReadInt32 JoinCluster_set_MemberId ;;;
  skip_block actingVersion 16 blockLength 12 ;;;
  when doRangeCheck (checked (fun m => JoinCluster_RangeCheck m actingVersion 16)).

#[export] Instance JoinCluster_codec : Codec JoinCluster := {|
  SbeBlockLength := 12; SbeTemplateId := 74; SbeSchemaId := 111; SbeSchemaVersion := 16;
  zero := mkJoinCluster 0 0;
  RangeCheck := JoinCluster_RangeCheck; Encode := JoinCluster_Encode; Decode := JoinCluster_Decode;
  valid m := is_i64 (JoinCluster_LeadershipTermId m) /\ is_i32 (JoinCluster_MemberId m);
  fixed_part m := le_split 8 (JoinCluster_LeadershipTermId m) ++ le_split 4 (JoinCluster_MemberId m);
  data_part m := [] |}.

#[export] Instance JoinCluster_laws : CodecLaws JoinCluster.
Proof. codec_laws JoinCluster_codec JoinCluster_Encode JoinCluster_Decode. Qed.

(** ** JoinLog *)

Record JoinLog : Type := mkJoinLog { JoinLog_LogPosition : Z; JoinLog_MaxLogPosition : Z; JoinLog_MemberId : Z;
  JoinLog_LogSessionId : Z; JoinLog_LogStreamId : Z; JoinLog_IsStartup : Z; JoinLog_Role : Z; JoinLog_IsStandby
  : Z; JoinLog_LogChannel : bytes }.

Definition JoinLog_LogPosition_field : field := mkField 1 0 0 false (-9223372036854775807) 9223372036854775807 (-9223372036854775808).
Definition JoinLog_MaxLogPosition_field : field := mkField 2 0 0 false (-9223372036854775807) 9223372036854775807 (-9223372036854775808).
Definition JoinLog_MemberId_field : field := mkField 3 0 0 false (-2147483647) 2147483647 (-2147483648).
Definition JoinLog_LogSessionId_field : field := mkField 4 0 0 false (-2147483647) 2147483647 (-2147483648).
Definition JoinLog_LogStreamId_field : field := mkField 5 0 0 false (-2147483647) 2147483647 (-2147483648).
Definition JoinLog_IsStartup_field : field := mkField 6 0 0 false 0 0 0.
Definition JoinLog_Role_field : field := mkField 7 0 0 false (-2147483647) 2147483647 (-2147483648).
Definition JoinLog_IsStandby_field : field := mkField 9 16 0 true 0 0 0.
Definition JoinLog_LogChannel_field : data_field := mkDataField 0 0 "US-ASCII" 4.
Definition JoinLog_set_LogPosition (v : Z) (m : JoinLog) : JoinLog := mkJoinLog v (JoinLog_MaxLogPosition m)
  (JoinLog_MemberId m) (JoinLog_LogSessionId m) (JoinLog_LogStreamId m) (JoinLog_IsStartup m) (JoinLog_Role m)
  (JoinLog_IsStandby m) (JoinLog_LogChannel m).
Definition JoinLog_set_MaxLogPosition (v : Z) (m : JoinLog) : JoinLog := mkJoinLog (JoinLog_LogPosition m) v
  (JoinLog_MemberId m) (JoinLog_LogSessionId m) (JoinLog_LogStreamId m) (JoinLog_IsStartup m) (JoinLog_Role m)
  (JoinLog_IsStandby m) (JoinLog_LogChannel m).
Definition JoinLog_set_MemberId (v : Z) (m : JoinLog) : JoinLog := mkJoinLog (JoinLog_LogPosition m)
  (JoinLog_MaxLogPosition m) v (JoinLog_LogSessionId m) (JoinLog_LogStreamId m) (JoinLog_IsStartup m)
  (JoinLog_Role m) (JoinLog_IsStandby m) (JoinLog_LogChannel m).
Definition JoinLog_set_LogSessionId (v : Z) (m : JoinLog) : JoinLog := mkJoinLog (JoinLog_LogPosition m)
  (JoinLog_MaxLogPosition m) (JoinLog_MemberId m) v (JoinLog_LogStreamId m) (JoinLog_IsStartup m) (JoinLog_Role
  m) (JoinLog_IsStandby m) (JoinLog_LogChannel m).
Definition JoinLog_set_LogStreamId (v : Z) (m : JoinLog) : JoinLog := mkJoinLog (JoinLog_LogPosition m)
  (JoinLog_MaxLogPosition m) (JoinLog_MemberId m) (JoinLog_LogSessionId m) v (JoinLog_IsStartup m) (JoinLog_Role
  m) (JoinLog_IsStandby m) (JoinLog_LogChannel m).
Definition JoinLog_set_IsStartup (v : Z) (m : JoinLog) : JoinLog := mkJoinLog (JoinLog_LogPosition m)
  (JoinLog_MaxLogPosition m) (JoinLog_MemberId m) (JoinLog_LogSessionId m) (JoinLog_LogStreamId m) v
  (JoinLog_Role m) (JoinLog_IsStandby m) (JoinLog_LogChannel m).
Definition JoinLog_set_Role (v : Z) (m : JoinLog) : JoinLog := mkJoinLog (JoinLog_LogPosition m)
  (JoinLog_MaxLogPosition m) (JoinLog_MemberId m) (JoinLog_LogSessionId m) (JoinLog_LogStreamId m)
  (JoinLog_IsStartup m) v (JoinLog_IsStandby m) (JoinLog_LogChannel m).
Definition JoinLog_set_IsStandby (v : Z) (m : JoinLog) : JoinLog := mkJoinLog (JoinLog_LogPosition m)
  (JoinLog_MaxLogPosition m) (JoinLog_MemberId m) (JoinLog_LogSessionId m) (JoinLog_LogStreamId m)
  (JoinLog_IsStartup m) (JoinLog_Role m) v (JoinLog_LogChannel m).
Definition JoinLog_set_LogChannel (v : bytes) (m : JoinLog) : JoinLog := mkJoinLog (JoinLog_LogPosition m)
  (JoinLog_MaxLogPosition m) (JoinLog_MemberId m) (JoinLog_LogSessionId m) (JoinLog_LogStreamId m)
  (JoinLog_IsStartup m) (JoinLog_Role m) (JoinLog_IsStandby m) v.

Definition JoinLog_RangeCheck (m : JoinLog) (actingVersion schemaVersion : Z) : option string :=
  first_error
    [ check_required JoinLog_LogPosition_field actingVersion (JoinLog_LogPosition m)
    ; check_required JoinLog_MaxLogPosition_field actingVersion (JoinLog_MaxLogPosition m)
    ; check_required JoinLog_MemberId_field actingVersion (JoinLog_MemberId m)
    ; check_required JoinLog_LogSessionId_field actingVersion (JoinLog_LogSessionId m)
    ; check_required JoinLog_LogStreamId_field actingVersion (JoinLog_LogStreamId m)
    ; check_enum BooleanTypeValues actingVersion schemaVersion (JoinLog_IsStartup m)
    ; check_required JoinLog_Role_field actingVersion (JoinLog_Role m)
    ; check_enum BooleanTypeValues actingVersion schemaVersion (JoinLog_IsStandby m)
    ; check_ascii (JoinLog_LogChannel m) ].

Definition JoinLog_Encode (m : JoinLog) (doRangeCheck : bool) : M bytes unit :=
  when doRangeCheck (fail_if (JoinLog_RangeCheck m 16 16)) ;;;
  WriteInt64 (JoinLog_LogPosition m) ;;;
  WriteInt64 (JoinLog_MaxLogPosition m) ;;;
  WriteInt32 (JoinLog_MemberId m) ;;;
  WriteInt32 (JoinLog_LogSessionId m) ;;;
  WriteInt32 (JoinLog_LogStreamId m) ;;;
  WriteInt32 (JoinLog_IsStartup m) ;;;
  WriteInt32 (JoinLog_Role m) ;;;
  WriteInt32 (JoinLog_IsStandby m) ;;;
  WriteUint32 (u32 (zlen (JoinLog_LogChannel m))) ;;;
  WriteBytes (JoinLog_LogChannel m).

Definition JoinLog_Decode (actingVersion blockLength : Z) (doRangeCheck : bool) : M (bytes * JoinLog) unit :=
  decode_field JoinLog_LogPosition_field actingVersion ReadInt64 JoinLog_set_LogPosition ;;;
  decode_field JoinLog_MaxLogPosition_field actingVersion ReadInt64 JoinLog_set_MaxLogPosition ;;;
  decode_field JoinLog_MemberId_field actingVersion ReadInt32 JoinLog_set_MemberId ;;;
  decode_field JoinLog_LogSessionId_field actingVersion ReadInt32 JoinLog_set_LogSessionId ;;;
  decode_field JoinLog_LogStreamId_field actingVersion ReadInt32 JoinLog_set_LogStreamId ;;;
  decode_enum JoinLog_IsStartup_field actingVersion ReadInt32 JoinLog_set_IsStartup ;;;
  decode_field JoinLog_Role_field actingVersion ReadInt32 JoinLog_set_Role ;;;
  decode_enum JoinLog_IsStandby_field actingVersion ReadInt32 JoinLog_set_IsStandby ;;;
  skip_block actingVersion 16 blockLength 40 ;;;
  decode_data JoinLog_LogChannel_field actingVersion JoinLog_set_LogChannel ;;;
  when doRangeCheck (checked (fun m => JoinLog_RangeCheck m actingVersion 16)).

#[export] Instance JoinLog_codec : Codec JoinLog := {|
  SbeBlockLength := 40; SbeTemplateId := 40; SbeSchemaId := 111; SbeSchemaVersion := 16;
  zero := mkJoinLog 0 0 0 0 0 0 0 0 [];
  RangeCheck := JoinLog_RangeCheck; Encode := JoinLog_Encode; Decode := JoinLog_Decode;
  valid m := is_i64 (JoinLog_LogPosition m) /\ is_i64 (JoinLog_MaxLogPosition m) /\ is_i32 (JoinLog_MemberId m) /\ is_i32
    (JoinLog_LogSessionId m) /\ is_i32 (JoinLog_LogStreamId m) /\ is_i32 (JoinLog_IsStartup m) /\ is_i32
    (JoinLog_Role m) /\ is_i32 (JoinLog_IsStandby m) /\ zlen (JoinLog_LogChannel m) < 4294967296;
  fixed_part m := le_split 8 (JoinLog_LogPosition m) ++ le_split 8 (JoinLog_MaxLogPosition m) ++ le_split 4 (JoinLog_MemberId m)
    ++ le_split 4 (JoinLog_LogSessionId m) ++ le_split 4 (JoinLog_LogStreamId m) ++ le_split 4
    (JoinLog_IsStartup m) ++ le_split 4 (JoinLog_Role m) ++ le_split 4 (JoinLog_IsStandby m);
  data_part m := data_bytes (JoinLog_LogChannel m) |}.

#[export] Instance JoinLog_laws : CodecLaws JoinLog.
Proof. codec_laws JoinLog_codec JoinLog_Encode JoinLog_Decode. Qed.

(** ** MembershipChangeEvent *)

Record MembershipChangeEvent : Type := mkMembershipChangeEvent { MembershipChangeEvent_LeadershipTermId : Z;
  MembershipChangeEvent_LogPosition : Z; MembershipChangeEvent_Timestamp : Z;
  MembershipChangeEvent_LeaderMemberId : Z; MembershipChangeEvent_ClusterSize : Z;
  MembershipChangeEvent_ChangeType : Z; MembershipChangeEvent_MemberId : Z; MembershipChangeEvent_ClusterMembers
  : bytes }.

Definition MembershipChangeEvent_LeadershipTermId_field : field := mkField 1 0 0 false (-9223372036854775807) 9223372036854775807 (-9223372036854775808).
Definition MembershipChangeEvent_LogPosition_field : field := mkField 2 0 0 false (-9223372036854775807) 9223372036854775807 (-9223372036854775808).
Definition MembershipChangeEvent_Timestamp_field : field := mkField 3 0 0 false (-9223372036854775807) 9223372036854775807 (-9223372036854775808).
Definition MembershipChangeEvent_LeaderMemberId_field : field := mkField 4 0 0 false (-2147483647) 2147483647 (-2147483648).
Definition MembershipChangeEvent_ClusterSize_field : field := mkField 5 0 0 false (-2147483647) 2147483647 (-2147483648).
Definition MembershipChangeEvent_ChangeType_field : field := mkField 6 0 0 false 0 0 0.
Definition MembershipChangeEvent_MemberId_field : field := mkField 7 0 0 false (-2147483647) 2147483647 (-2147483648).
Definition MembershipChangeEvent_ClusterMembers_field : data_field := mkDataField 0 0 "US-ASCII" 4.
Definition MembershipChangeEvent_set_LeadershipTermId (v : Z) (m : MembershipChangeEvent) :
  MembershipChangeEvent := mkMembershipChangeEvent v (MembershipChangeEvent_LogPosition m)
  (MembershipChangeEvent_Timestamp m) (MembershipChangeEvent_LeaderMemberId m)
  (MembershipChangeEvent_ClusterSize m) (MembershipChangeEvent_ChangeType m) (MembershipChangeEvent_MemberId m)
  (MembershipChangeEvent_ClusterMembers m).
Definition MembershipChangeEvent_set_LogPosition (v : Z) (m : MembershipChangeEvent) : MembershipChangeEvent :=
  mkMembershipChangeEvent (MembershipChangeEvent_LeadershipTermId m) v (MembershipChangeEvent_Timestamp m)
  (MembershipChangeEvent_LeaderMemberId m) (MembershipChangeEvent_ClusterSize m)
  (MembershipChangeEvent_ChangeType m) (MembershipChangeEvent_MemberId m) (MembershipChangeEvent_ClusterMembers
  m).
Definition MembershipChangeEvent_set_Timestamp (v : Z) (m : MembershipChangeEvent) : MembershipChangeEvent :=
  mkMembershipChangeEvent (MembershipChangeEvent_LeadershipTermId m) (MembershipChangeEvent_LogPosition m) v
  (MembershipChangeEvent_LeaderMemberId m) (MembershipChangeEvent_ClusterSize m)
  (MembershipChangeEvent_ChangeType m) (MembershipChangeEvent_MemberId m) (MembershipChangeEvent_ClusterMembers
  m).
Definition MembershipChangeEvent_set_LeaderMemberId (v : Z) (m : MembershipChangeEvent) : MembershipChangeEvent
  := mkMembershipChangeEvent (MembershipChangeEvent_LeadershipTermId m) (MembershipChangeEvent_LogPosition m)
  (MembershipChangeEvent_Timestamp m) v (MembershipChangeEvent_ClusterSize m) (MembershipChangeEvent_ChangeType
  m) (MembershipChangeEvent_MemberId m) (MembershipChangeEvent_ClusterMembers m).
Definition MembershipChangeEvent_set_ClusterSize (v : Z) (m : MembershipChangeEvent) : MembershipChangeEvent :=
  mkMembershipChangeEvent (MembershipChangeEvent_LeadershipTermId m) (MembershipChangeEvent_LogPosition m)
  (MembershipChangeEvent_Timestamp m) (MembershipChangeEvent_LeaderMemberId m) v
  (MembershipChangeEvent_ChangeType m) (MembershipChangeEvent_MemberId m) (MembershipChangeEvent_ClusterMembers
  m).
Definition MembershipChangeEvent_set_ChangeType (v : Z) (m : MembershipChangeEvent) : MembershipChangeEvent :=
  mkMembershipChangeEvent (MembershipChangeEvent_LeadershipTermId m) (MembershipChangeEvent_LogPosition m)
  (MembershipChangeEvent_Timestamp m) (MembershipChangeEvent_LeaderMemberId m)
  (MembershipChangeEvent_ClusterSize m) v (MembershipChangeEvent_MemberId m)
  (MembershipChangeEvent_ClusterMembers m).
Definition MembershipChangeEvent_set_MemberId (v : Z) (m : MembershipChangeEvent) : MembershipChangeEvent :=
  mkMembershipChangeEvent (MembershipChangeEvent_LeadershipTermId m) (MembershipChangeEvent_LogPosition m)
  (MembershipChangeEvent_Timestamp m) (MembershipChangeEvent_LeaderMemberId m)
  (MembershipChangeEvent_ClusterSize m) (MembershipChangeEvent_ChangeType m) v
  (MembershipChangeEvent_ClusterMembers m).
Definition MembershipChangeEvent_set_ClusterMembers (v : bytes) (m : MembershipChangeEvent) :
  MembershipChangeEvent := mkMembershipChangeEvent (MembershipChangeEvent_LeadershipTermId m)
  (MembershipChangeEvent_LogPosition m) (MembershipChangeEvent_Timestamp m)
  (MembershipChangeEvent_LeaderMemberId m) (MembershipChangeEvent_ClusterSize m)
  (MembershipChangeEvent_ChangeType m) (MembershipChangeEvent_MemberId m) v.

Definition MembershipChangeEvent_RangeCheck (m : MembershipChangeEvent) (actingVersion schemaVersion : Z) : option string :=
  first_error
    [ check_required MembershipChangeEvent_LeadershipTermId_field actingVersion (MembershipChangeEvent_LeadershipTermId m)
    ; check_required MembershipChangeEvent_LogPosition_field actingVersion (MembershipChangeEvent_LogPosition m)
    ; check_required MembershipChangeEvent_Timestamp_field actingVersion (MembershipChangeEvent_Timestamp m)
    ; check_required MembershipChangeEvent_LeaderMemberId_field actingVersion (MembershipChangeEvent_LeaderMemberId m)
    ; check_required MembershipChangeEvent_ClusterSize_field actingVersion (MembershipChangeEvent_ClusterSize m)
    ; check_enum ChangeTypeValues actingVersion schemaVersion (MembershipChangeEvent_ChangeType m)
    ; check_required MembershipChangeEvent_MemberId_field actingVersion (MembershipChangeEvent_MemberId m)
    ; check_ascii (MembershipChangeEvent_ClusterMembers m) ].

Definition MembershipChangeEvent_Encode (m : MembershipChangeEvent) (doRangeCheck : bool) : M bytes unit :=
  when doRangeCheck (fail_if (MembershipChangeEvent_RangeCheck m 16 16)) ;;;
  WriteInt64 (MembershipChangeEvent_LeadershipTermId m) ;;;
  WriteInt64 (MembershipChangeEvent_LogPosition m) ;;;
  WriteInt64 (MembershipChangeEvent_Timestamp m) ;;;
  WriteInt32 (MembershipChangeEvent_LeaderMemberId m) ;;;
  WriteInt32 (MembershipChangeEvent_ClusterSize m) ;;;
  WriteInt32 (MembershipChangeEvent_ChangeType m) ;;;
  WriteInt32 (MembershipChangeEvent_MemberId m) ;;;
  WriteUint32 (u32 (zlen (MembershipChangeEvent_ClusterMembers m))) ;;;
  WriteBytes (MembershipChangeEvent_ClusterMembers m).

Definition MembershipChangeEvent_Decode (actingVersion blockLength : Z) (doRangeCheck : bool) : M (bytes * MembershipChangeEvent) unit :=
  decode_field MembershipChangeEvent_LeadershipTermId_field actingVersion ReadInt64 MembershipChangeEvent_set_LeadershipTermId ;;;
  decode_field MembershipChangeEvent_LogPosition_field actingVersion ReadInt64 MembershipChangeEvent_set_LogPosition ;;;
  decode_field MembershipChangeEvent_Timestamp_field actingVersion ReadInt64 MembershipChangeEvent_set_Timestamp ;;;
  decode_field MembershipChangeEvent_LeaderMemberId_field actingVersion ReadInt32 MembershipChangeEvent_set_LeaderMemberId ;;;
  decode_field MembershipChangeEvent_ClusterSize_field actingVersion ReadInt32 MembershipChangeEvent_set_ClusterSize ;;;
  decode_enum MembershipChangeEvent_ChangeType_field actingVersion ReadInt32 MembershipChangeEvent_set_ChangeType ;;;
  decode_field MembershipChangeEvent_MemberId_field actingVersion ReadInt32 MembershipChangeEvent_set_MemberId ;;;
  skip_block actingVersion 16 blockLength 40 ;;;
  decode_data MembershipChangeEvent_ClusterMembers_field actingVersion MembershipChangeEvent_set_ClusterMembers ;;;
  when doRangeCheck (checked (fun m => MembershipChangeEvent_RangeCheck m actingVersion 16)).

#[export] Instance MembershipChangeEvent_codec : Codec MembershipChangeEvent := {|
  SbeBlockLength := 40; SbeTemplateId := 25; SbeSchemaId := 111; SbeSchemaVersion := 16;
  zero := mkMembershipChangeEvent 0 0 0 0 0 0 0 [];
  RangeCheck := MembershipChangeEvent_RangeCheck; Encode := MembershipChangeEvent_Encode; Decode := MembershipChangeEvent_Decode;
  valid m := is_i64 (MembershipChangeEvent_LeadershipTermId m) /\ is_i64 (MembershipChangeEvent_LogPosition m) /\ is_i64
    (MembershipChangeEvent_Timestamp m) /\ is_i32 (MembershipChangeEvent_LeaderMemberId m) /\ is_i32
    (MembershipChangeEvent_ClusterSize m) /\ is_i32 (MembershipChangeEvent_ChangeType m) /\ is_i32
    (MembershipChangeEvent_MemberId m) /\ zlen (MembershipChangeEvent_ClusterMembers m) < 4294967296;
  fixed_part m := le_split 8 (MembershipChangeEvent_LeadershipTermId m) ++ le_split 8 (MembershipChangeEvent_LogPosition m) ++
    le_split 8 (MembershipChangeEvent_Timestamp m) ++ le_split 4 (MembershipChangeEvent_LeaderMemberId m) ++
    le_split 4 (MembershipChangeEvent_ClusterSize m) ++ le_split 4 (MembershipChangeEvent_ChangeType m) ++
    le_split 4 (MembershipChangeEvent_MemberId m);
  data_part m := data_bytes (MembershipChangeEvent_ClusterMembers m) |}.

#[export] Instance MembershipChangeEvent_laws : CodecLaws MembershipChangeEvent.
Proof. codec_laws MembershipChangeEvent_codec MembershipChangeEvent_Encode MembershipChangeEvent_Decode. Qed.

(** ** NewLeaderEvent *)

Record NewLeaderEvent : Type := mkNewLeaderEvent { NewLeaderEvent_LeadershipTermId : Z;
  NewLeaderEvent_ClusterSessionId : Z; NewLeaderEvent_LeaderMemberId : Z; NewLeaderEvent_IngressEndpoints :
  bytes }.

Definition NewLeaderEvent_LeadershipTermId_field : field := mkField 1 0 0 false (-9223372036854775807) 9223372036854775807 (-9223372036854775808).
Definition NewLeaderEvent_ClusterSessionId_field : field := mkField 2 0 0 false (-9223372036854775807) 9223372036854775807 (-9223372036854775808).
Definition NewLeaderEvent_LeaderMemberId_field : field := mkField 3 0 0 false (-2147483647) 2147483647 (-2147483648).
Definition NewLeaderEvent_IngressEndpoints_field : data_field := mkDataField 0 0 "US-ASCII" 4.
Definition NewLeaderEvent_set_LeadershipTermId (v : Z) (m : NewLeaderEvent) : NewLeaderEvent := mkNewLeaderEvent
  v (NewLeaderEvent_ClusterSessionId m) (NewLeaderEvent_LeaderMemberId m) (NewLeaderEvent_IngressEndpoints m).
Definition NewLeaderEvent_set_ClusterSessionId (v : Z) (m : NewLeaderEvent) : NewLeaderEvent := mkNewLeaderEvent
  (NewLeaderEvent_LeadershipTermId m) v (NewLeaderEvent_LeaderMemberId m) (NewLeaderEvent_IngressEndpoints m).
Definition NewLeaderEvent_set_LeaderMemberId (v : Z) (m : NewLeaderEvent) : NewLeaderEvent := mkNewLeaderEvent
  (NewLeaderEvent_LeadershipTermId m) (NewLeaderEvent_ClusterSessionId m) v (NewLeaderEvent_IngressEndpoints m).
Definition NewLeaderEvent_set_IngressEndpoints (v : bytes) (m : NewLeaderEvent) : NewLeaderEvent :=
  mkNewLeaderEvent (NewLeaderEvent_LeadershipTermId m) (NewLeaderEvent_ClusterSessionId m)
  (NewLeaderEvent_LeaderMemberId m) v.

Definition NewLeaderEvent_RangeCheck (m : NewLeaderEvent) (actingVersion schemaVersion : Z) : option string :=
  first_error
    [ check_required NewLeaderEvent_LeadershipTermId_field actingVersion (NewLeaderEvent_LeadershipTermId m)
    ; check_required NewLeaderEvent_ClusterSessionId_field actingVersion (NewLeaderEvent_ClusterSessionId m)
    ; check_required NewLeaderEvent_LeaderMemberId_field actingVersion (NewLeaderEvent_LeaderMemberId m)
    ; check_ascii (NewLeaderEvent_IngressEndpoints m) ].

Definition NewLeaderEvent_Encode (m : NewLeaderEvent) (doRangeCheck : bool) : M bytes unit :=
  when doRangeCheck (fail_if (NewLeaderEvent_RangeCheck m 16 16)) ;;;
  WriteInt64 (NewLeaderEvent_LeadershipTermId m) ;;;
  WriteInt64 (NewLeaderEvent_ClusterSessionId m) ;;;
  WriteInt32 (NewLeaderEvent_LeaderMemberId m) ;;;
  WriteUint32 (u32 (zlen (NewLeaderEvent_IngressEndpoints m))) ;;;
  WriteBytes (NewLeaderEvent_IngressEndpoints m).

Definition NewLeaderEvent_Decode (actingVersion blockLength : Z) (doRangeCheck : bool) : M (bytes * NewLeaderEvent) unit :=
  decode_field NewLeaderEvent_LeadershipTermId_field actingVersion ReadInt64 NewLeaderEvent_set_LeadershipTermId ;;;
  decode_field NewLeaderEvent_ClusterSessionId_field actingVersion ReadInt64 NewLeaderEvent_set_ClusterSessionId ;;;
  decode_field NewLeaderEvent_LeaderMemberId_field actingVersion ReadInt32 NewLeaderEvent_set_LeaderMemberId ;;;
  skip_block actingVersion 16 blockLength 20 ;;;
  decode_data NewLeaderEvent_IngressEndpoints_field actingVersion NewLeaderEvent_set_IngressEndpoints ;;;
  when doRangeCheck (checked (fun m => NewLeaderEvent_RangeCheck m actingVersion 16)).

#[export] Instance NewLeaderEvent_codec : Codec NewLeaderEvent := {|
  SbeBlockLength := 20; SbeTemplateId := 6; SbeSchemaId := 111; SbeSchemaVersion := 16;
  zero := mkNewLeaderEvent 0 0 0 [];
  RangeCheck := NewLeaderEvent_RangeCheck; Encode := NewLeaderEvent_Encode; Decode := NewLeaderEvent_Decode;
  valid m := is_i64 (NewLeaderEvent_LeadershipTermId m) /\ is_i64 (NewLeaderEvent_ClusterSessionId m) /\ is_i32
    (NewLeaderEvent_LeaderMemberId m) /\ zlen (NewLeaderEvent_IngressEndpoints m) < 4294967296;
  fixed_part m := le_split 8 (NewLeaderEvent_LeadershipTermId m) ++ le_split 8 (NewLeaderEvent_ClusterSessionId m) ++ le_split 4
    (NewLeaderEvent_LeaderMemberId m);
  data_part m := data_bytes (NewLeaderEvent_IngressEndpoints m) |}.

#[export] Instance NewLeaderEvent_laws : CodecLaws NewLeaderEvent.
Proof. codec_laws NewLeaderEvent_codec NewLeaderEvent_Encode NewLeaderEvent_Decode. Qed.

(** ** NewLeadershipTerm *)

Record NewLeadershipTerm : Type := mkNewLeadershipTerm { NewLeadershipTerm_LogLeadershipTermId : Z;
  NewLeadershipTerm_NextLeadershipTermId : Z; NewLeadershipTerm_NextTermBaseLogPosition : Z;
  NewLeadershipTerm_NextLogPosition : Z; NewLeadershipTerm_LeadershipTermId : Z;
  NewLeadershipTerm_TermBaseLogPosition : Z; NewLeadershipTerm_LogPosition : Z;
  NewLeadershipTerm_LeaderRecordingId : Z; NewLeadershipTerm_Timestamp : Z; NewLeadershipTerm_LeaderMemberId :
  Z; NewLeadershipTerm_LogSessionId : Z; NewLeadershipTerm_AppVersion : Z; NewLeadershipTerm_IsStartup : Z;
  NewLeadershipTerm_CommitPosition : Z }.

Definition NewLeadershipTerm_LogLeadershipTermId_field : field := mkField 1 0 0 false (-9223372036854775807) 9223372036854775807 (-9223372036854775808).
Definition NewLeadershipTerm_NextLeadershipTermId_field : field := mkField 2 0 0 false (-9223372036854775807) 9223372036854775807 (-9223372036854775808).
Definition NewLeadershipTerm_NextTermBaseLogPosition_field : field := mkField 3 0 0 false (-9223372036854775807) 9223372036854775807 (-9223372036854775808).
Definition NewLeadershipTerm_NextLogPosition_field : field := mkField 4 0 0 false (-9223372036854775807) 9223372036854775807 (-9223372036854775808).
Definition NewLeadershipTerm_LeadershipTermId_field : field := mkField 5 0 0 false (-9223372036854775807) 9223372036854775807 (-9223372036854775808).
Definition NewLeadershipTerm_TermBaseLogPosition_field : field := mkField 6 0 0 false (-9223372036854775807) 9223372036854775807 (-9223372036854775808).
Definition NewLeadershipTerm_LogPosition_field : field := mkField 7 0 0 false (-9223372036854775807) 9223372036854775807 (-9223372036854775808).
Definition NewLeadershipTerm_LeaderRecordingId_field : field := mkField 8 0 0 false (-9223372036854775807) 9223372036854775807 (-9223372036854775808).
Definition NewLeadershipTerm_Timestamp_field : field := mkField 9 0 0 false (-9223372036854775807) 9223372036854775807 (-9223372036854775808).
Definition NewLeadershipTerm_LeaderMemberId_field : field := mkField 10 0 0 false (-2147483647) 2147483647 (-2147483648).
Definition NewLeadershipTerm_LogSessionId_field : field := mkField 11 0 0 false (-2147483647) 2147483647 (-2147483648).
Definition NewLeadershipTerm_AppVersion_field : field := mkField 12 0 0 true 1 16777215 0.
Definition NewLeadershipTerm_IsStartup_field : field := mkField 13 0 0 false 0 0 0.
Definition NewLeadershipTerm_CommitPosition_field : field := mkField 14 15 0 false (-9223372036854775807) 9223372036854775807 (-9223372036854775808).
Definition NewLeadershipTerm_set_LogLeadershipTermId (v : Z) (m : NewLeadershipTerm) : NewLeadershipTerm :=
  mkNewLeadershipTerm v (NewLeadershipTerm_NextLeadershipTermId m) (NewLeadershipTerm_NextTermBaseLogPosition m)
  (NewLeadershipTerm_NextLogPosition m) (NewLeadershipTerm_LeadershipTermId m)
  (NewLeadershipTerm_TermBaseLogPosition m) (NewLeadershipTerm_LogPosition m)
  (NewLeadershipTerm_LeaderRecordingId m) (NewLeadershipTerm_Timestamp m) (NewLeadershipTerm_LeaderMemberId m)
  (NewLeadershipTerm_LogSessionId m) (NewLeadershipTerm_AppVersion m) (NewLeadershipTerm_IsStartup m)
  (NewLeadershipTerm_CommitPosition m).
Definition NewLeadershipTerm_set_NextLeadershipTermId (v : Z) (m : NewLeadershipTerm) : NewLeadershipTerm :=
  mkNewLeadershipTerm (NewLeadershipTerm_LogLeadershipTermId m) v (NewLeadershipTerm_NextTermBaseLogPosition m)
  (NewLeadershipTerm_NextLogPosition m) (NewLeadershipTerm_LeadershipTermId m)
  (NewLeadershipTerm_TermBaseLogPosition m) (NewLeadershipTerm_LogPosition m)
  (NewLeadershipTerm_LeaderRecordingId m) (NewLeadershipTerm_Timestamp m) (NewLeadershipTerm_LeaderMemberId m)
  (NewLeadershipTerm_LogSessionId m) (NewLeadershipTerm_AppVersion m) (NewLeadershipTerm_IsStartup m)
  (NewLeadershipTerm_CommitPosition m).
Definition NewLeadershipTerm_set_NextTermBaseLogPosition (v : Z) (m : NewLeadershipTerm) : NewLeadershipTerm :=
  mkNewLeadershipTerm (NewLeadershipTerm_LogLeadershipTermId m) (NewLeadershipTerm_NextLeadershipTermId m) v
  (NewLeadershipTerm_NextLogPosition m) (NewLeadershipTerm_LeadershipTermId m)
  (NewLeadershipTerm_TermBaseLogPosition m) (NewLeadershipTerm_LogPosition m)
  (NewLeadershipTerm_LeaderRecordingId m) (NewLeadershipTerm_Timestamp m) (NewLeadershipTerm_LeaderMemberId m)
  (NewLeadershipTerm_LogSessionId m) (NewLeadershipTerm_AppVersion m) (NewLeadershipTerm_IsStartup m)
  (NewLeadershipTerm_CommitPosition m).
Definition NewLeadershipTerm_set_NextLogPosition (v : Z) (m : NewLeadershipTerm) : NewLeadershipTerm :=
  mkNewLeadershipTerm (NewLeadershipTerm_LogLeadershipTermId m) (NewLeadershipTerm_NextLeadershipTermId m)
  (NewLeadershipTerm_NextTermBaseLogPosition m) v (NewLeadershipTerm_LeadershipTermId m)
  (NewLeadershipTerm_TermBaseLogPosition m) (NewLeadershipTerm_LogPosition m)
  (NewLeadershipTerm_LeaderRecordingId m) (NewLeadershipTerm_Timestamp m) (NewLeadershipTerm_LeaderMemberId m)
  (NewLeadershipTerm_LogSessionId m) (NewLeadershipTerm_AppVersion m) (NewLeadershipTerm_IsStartup m)
  (NewLeadershipTerm_CommitPosition m).
Definition NewLeadershipTerm_set_LeadershipTermId (v : Z) (m : NewLeadershipTerm) : NewLeadershipTerm :=
  mkNewLeadershipTerm (NewLeadershipTerm_LogLeadershipTermId m) (NewLeadershipTerm_NextLeadershipTermId m)
  (NewLeadershipTerm_NextTermBaseLogPosition m) (NewLeadershipTerm_NextLogPosition m) v
  (NewLeadershipTerm_TermBaseLogPosition m) (NewLeadershipTerm_LogPosition m)
  (NewLeadershipTerm_LeaderRecordingId m) (NewLeadershipTerm_Timestamp m) (NewLeadershipTerm_LeaderMemberId m)
  (NewLeadershipTerm_LogSessionId m) (NewLeadershipTerm_AppVersion m) (NewLeadershipTerm_IsStartup m)
  (NewLeadershipTerm_CommitPosition m).
Definition NewLeadershipTerm_set_TermBaseLogPosition (v : Z) (m : NewLeadershipTerm) : NewLeadershipTerm :=
  mkNewLeadershipTerm (NewLeadershipTerm_LogLeadershipTermId m) (NewLeadershipTerm_NextLeadershipTermId m)
  (NewLeadershipTerm_NextTermBaseLogPosition m) (NewLeadershipTerm_NextLogPosition m)
  (NewLeadershipTerm_LeadershipTermId m) v (NewLeadershipTerm_LogPosition m)
  (NewLeadershipTerm_LeaderRecordingId m) (NewLeadershipTerm_Timestamp m) (NewLeadershipTerm_LeaderMemberId m)
  (NewLeadershipTerm_LogSessionId m) (NewLeadershipTerm_AppVersion m) (NewLeadershipTerm_IsStartup m)
  (NewLeadershipTerm_CommitPosition m).
Definition NewLeadershipTerm_set_LogPosition (v : Z) (m : NewLeadershipTerm) : NewLeadershipTerm :=
  mkNewLeadershipTerm (NewLeadershipTerm_LogLeadershipTermId m) (NewLeadershipTerm_NextLeadershipTermId m)
  (NewLeadershipTerm_NextTermBaseLogPosition m) (NewLeadershipTerm_NextLogPosition m)
  (NewLeadershipTerm_LeadershipTermId m) (NewLeadershipTerm_TermBaseLogPosition m) v
  (NewLeadershipTerm_LeaderRecordingId m) (NewLeadershipTerm_Timestamp m) (NewLeadershipTerm_LeaderMemberId m)
  (NewLeadershipTerm_LogSessionId m) (NewLeadershipTerm_AppVersion m) (NewLeadershipTerm_IsStartup m)
  (NewLeadershipTerm_CommitPosition m).
Definition NewLeadershipTerm_set_LeaderRecordingId (v : Z) (m : NewLeadershipTerm) : NewLeadershipTerm :=
  mkNewLeadershipTerm (NewLeadershipTerm_LogLeadershipTermId m) (NewLeadershipTerm_NextLeadershipTermId m)
  (NewLeadershipTerm_NextTermBaseLogPosition m) (NewLeadershipTerm_NextLogPosition m)
  (NewLeadershipTerm_LeadershipTermId m) (NewLeadershipTerm_TermBaseLogPosition m)
  (NewLeadershipTerm_LogPosition m) v (NewLeadershipTerm_Timestamp m) (NewLeadershipTerm_LeaderMemberId m)
  (NewLeadershipTerm_LogSessionId m) (NewLeadershipTerm_AppVersion m) (NewLeadershipTerm_IsStartup m)
  (NewLeadershipTerm_CommitPosition m).
Definition NewLeadershipTerm_set_Timestamp (v : Z) (m : NewLeadershipTerm) : NewLeadershipTerm :=
  mkNewLeadershipTerm (NewLeadershipTerm_LogLeadershipTermId m) (NewLeadershipTerm_NextLeadershipTermId m)
  (NewLeadershipTerm_NextTermBaseLogPosition m) (NewLeadershipTerm_NextLogPosition m)
  (NewLeadershipTerm_LeadershipTermId m) (NewLeadershipTerm_TermBaseLogPosition m)
  (NewLeadershipTerm_LogPosition m) (NewLeadershipTerm_LeaderRecordingId m) v (NewLeadershipTerm_LeaderMemberId
  m) (NewLeadershipTerm_LogSessionId m) (NewLeadershipTerm_AppVersion m) (NewLeadershipTerm_IsStartup m)
  (NewLeadershipTerm_CommitPosition m).
Definition NewLeadershipTerm_set_LeaderMemberId (v : Z) (m : NewLeadershipTerm) : NewLeadershipTerm :=
  mkNewLeadershipTerm (NewLeadershipTerm_LogLeadershipTermId m) (NewLeadershipTerm_NextLeadershipTermId m)
  (NewLeadershipTerm_NextTermBaseLogPosition m) (NewLeadershipTerm_NextLogPosition m)
  (NewLeadershipTerm_LeadershipTermId m) (NewLeadershipTerm_TermBaseLogPosition m)
  (NewLeadershipTerm_LogPosition m) (NewLeadershipTerm_LeaderRecordingId m) (NewLeadershipTerm_Timestamp m) v
  (NewLeadershipTerm_LogSessionId m) (NewLeadershipTerm_AppVersion m) (NewLeadershipTerm_IsStartup m)
  (NewLeadershipTerm_CommitPosition m).
Definition NewLeadershipTerm_set_LogSessionId (v : Z) (m : NewLeadershipTerm) : NewLeadershipTerm :=
  mkNewLeadershipTerm (NewLeadershipTerm_LogLeadershipTermId m) (NewLeadershipTerm_NextLeadershipTermId m)
  (NewLeadershipTerm_NextTermBaseLogPosition m) (NewLeadershipTerm_NextLogPosition m)
  (NewLeadershipTerm_LeadershipTermId m) (NewLeadershipTerm_TermBaseLogPosition m)
  (NewLeadershipTerm_LogPosition m) (NewLeadershipTerm_LeaderRecordingId m) (NewLeadershipTerm_Timestamp m)
  (NewLeadershipTerm_LeaderMemberId m) v (NewLeadershipTerm_AppVersion m) (NewLeadershipTerm_IsStartup m)
  (NewLeadershipTerm_CommitPosition m).
Definition NewLeadershipTerm_set_AppVersion (v : Z) (m : NewLeadershipTerm) : NewLeadershipTerm :=
  mkNewLeadershipTerm (NewLeadershipTerm_LogLeadershipTermId m) (NewLeadershipTerm_NextLeadershipTermId m)
  (NewLeadershipTerm_NextTermBaseLogPosition m) (NewLeadershipTerm_NextLogPosition m)
  (NewLeadershipTerm_LeadershipTermId m) (NewLeadershipTerm_TermBaseLogPosition m)
  (NewLeadershipTerm_LogPosition m) (NewLeadershipTerm_LeaderRecordingId m) (NewLeadershipTerm_Timestamp m)
  (NewLeadershipTerm_LeaderMemberId m) (NewLeadershipTerm_LogSessionId m) v (NewLeadershipTerm_IsStartup m)
  (NewLeadershipTerm_CommitPosition m).
Definition NewLeadershipTerm_set_IsStartup (v : Z) (m : NewLeadershipTerm) : NewLeadershipTerm :=
  mkNewLeadershipTerm (NewLeadershipTerm_LogLeadershipTermId m) (NewLeadershipTerm_NextLeadershipTermId m)
  (NewLeadershipTerm_NextTermBaseLogPosition m) (NewLeadershipTerm_NextLogPosition m)
  (NewLeadershipTerm_LeadershipTermId m) (NewLeadershipTerm_TermBaseLogPosition m)
  (NewLeadershipTerm_LogPosition m) (NewLeadershipTerm_LeaderRecordingId m) (NewLeadershipTerm_Timestamp m)
  (NewLeadershipTerm_LeaderMemberId m) (NewLeadershipTerm_LogSessionId m) (NewLeadershipTerm_AppVersion m) v
  (NewLeadershipTerm_CommitPosition m).
Definition NewLeadershipTerm_set_CommitPosition (v : Z) (m : NewLeadershipTerm) : NewLeadershipTerm :=
  mkNewLeadershipTerm (NewLeadershipTerm_LogLeadershipTermId m) (NewLeadershipTerm_NextLeadershipTermId m)
  (NewLeadershipTerm_NextTermBaseLogPosition m) (NewLeadershipTerm_NextLogPosition m)
  (NewLeadershipTerm_LeadershipTermId m) (NewLeadershipTerm_TermBaseLogPosition m)
  (NewLeadershipTerm_LogPosition m) (NewLeadershipTerm_LeaderRecordingId m) (NewLeadershipTerm_Timestamp m)
  (NewLeadershipTerm_LeaderMemberId m) (NewLeadershipTerm_LogSessionId m) (NewLeadershipTerm_AppVersion m)
  (NewLeadershipTerm_IsStartup m) v.

Definition NewLeadershipTerm_RangeCheck (m : NewLeadershipTerm) (actingVersion schemaVersion : Z) : option string :=
  first_error
    [ check_required NewLeadershipTerm_LogLeadershipTermId_field actingVersion (NewLeadershipTerm_LogLeadershipTermId m)
    ; check_required NewLeadershipTerm_NextLeadershipTermId_field actingVersion (NewLeadershipTerm_NextLeadershipTermId m)
    ; check_required NewLeadershipTerm_NextTermBaseLogPosition_field actingVersion (NewLeadershipTerm_NextTermBaseLogPosition m)
    ; check_required NewLeadershipTerm_NextLogPosition_field actingVersion (NewLeadershipTerm_NextLogPosition m)
    ; check_required NewLeadershipTerm_LeadershipTermId_field actingVersion (NewLeadershipTerm_LeadershipTermId m)
    ; check_required NewLeadershipTerm_TermBaseLogPosition_field actingVersion (NewLeadershipTerm_TermBaseLogPosition m)
    ; check_required NewLeadershipTerm_LogPosition_field actingVersion (NewLeadershipTerm_LogPosition m)
    ; check_required NewLeadershipTerm_LeaderRecordingId_field actingVersion (NewLeadershipTerm_LeaderRecordingId m)
    ; check_required NewLeadershipTerm_Timestamp_field actingVersion (NewLeadershipTerm_Timestamp m)
    ; check_required NewLeadershipTerm_LeaderMemberId_field actingVersion (NewLeadershipTerm_LeaderMemberId m)
    ; check_required NewLeadershipTerm_LogSessionId_field actingVersion (NewLeadershipTerm_LogSessionId m)
    ; check_optional NewLeadershipTerm_AppVersion_field actingVersion (NewLeadershipTerm_AppVersion m)
    ; check_enum BooleanTypeValues actingVersion schemaVersion (NewLeadershipTerm_IsStartup m)
    ; check_required NewLeadershipTerm_CommitPosition_field actingVersion (NewLeadershipTerm_CommitPosition m) ].

Definition NewLeadershipTerm_Encode (m : NewLeadershipTerm) (doRangeCheck : bool) : M bytes unit :=
  when doRangeCheck (fail_if (NewLeadershipTerm_RangeCheck m 16 16)) ;;;
  WriteInt64 (NewLeadershipTerm_LogLeadershipTermId m) ;;;
  WriteInt64 (NewLeadershipTerm_NextLeadershipTermId m) ;;;
  WriteInt64 (NewLeadershipTerm_NextTermBaseLogPosition m) ;;;
  WriteInt64 (NewLeadershipTerm_NextLogPosition m) ;;;
  WriteInt64 (NewLeadershipTerm_LeadershipTermId m) ;;;
  WriteInt64 (NewLeadershipTerm_TermBaseLogPosition m) ;;;
  WriteInt64 (NewLeadershipTerm_LogPosition m) ;;;
  WriteInt64 (NewLeadershipTerm_LeaderRecordingId m) ;;;
  WriteInt64 (NewLeadershipTerm_Timestamp m) ;;;
  WriteInt32 (NewLeadershipTerm_LeaderMemberId m) ;;;
  WriteInt32 (NewLeadershipTerm_LogSessionId m) ;;;
  WriteInt32 (NewLeadershipTerm_AppVersion m) ;;;
  WriteInt32 (NewLeadershipTerm_IsStartup m) ;;;
  WriteInt64 (NewLeadershipTerm_CommitPosition m).

Definition NewLeadershipTerm_Decode (actingVersion blockLength : Z) (doRangeCheck : bool) : M (bytes * NewLeadershipTerm) unit :=
  decode_field NewLeadershipTerm_LogLeadershipTermId_field actingVersion ReadInt64 NewLeadershipTerm_set_LogLeadershipTermId ;;;
  decode_field NewLeadershipTerm_NextLeadershipTermId_field actingVersion ReadInt64 NewLeadershipTerm_set_NextLeadershipTermId ;;;
  decode_field NewLeadershipTerm_NextTermBaseLogPosition_field actingVersion ReadInt64 NewLeadershipTerm_set_NextTermBaseLogPosition ;;;
  decode_field NewLeadershipTerm_NextLogPosition_field actingVersion ReadInt64 NewLeadershipTerm_set_NextLogPosition ;;;
  decode_field NewLeadershipTerm_LeadershipTermId_field actingVersion ReadInt64 NewLeadershipTerm_set_LeadershipTermId ;;;
  decode_field NewLeadershipTerm_TermBaseLogPosition_field actingVersion ReadInt64 NewLeadershipTerm_set_TermBaseLogPosition ;;;
  decode_field NewLeadershipTerm_LogPosition_field actingVersion ReadInt64 NewLeadershipTerm_set_LogPosition ;;;
  decode_field NewLeadershipTerm_LeaderRecordingId_field actingVersion ReadInt64 NewLeadershipTerm_set_LeaderRecordingId ;;;
  decode_field NewLeadershipTerm_Timestamp_field actingVersion ReadInt64 NewLeadershipTerm_set_Timestamp ;;;
  decode_field NewLeadershipTerm_LeaderMemberId_field actingVersion ReadInt32 NewLeadershipTerm_set_LeaderMemberId ;;;
  decode_field NewLeadershipTerm_LogSessionId_field actingVersion ReadInt32 NewLeadershipTerm_set_LogSessionId ;;;
  decode_field NewLeadershipTerm_AppVersion_field actingVersion ReadInt32 NewLeadershipTerm_set_AppVersion ;;;
  decode_enum NewLeadershipTerm_IsStartup_field actingVersion ReadInt32 NewLeadershipTerm_set_IsStartup ;;;
  decode_field NewLeadershipTerm_CommitPosition_field actingVersion ReadInt64 NewLeadershipTerm_set_CommitPosition ;;;
  skip_block actingVersion 16 blockLength 96 ;;;
  when doRangeCheck (checked (fun m => NewLeadershipTerm_RangeCheck m actingVersion 16)).

#[export] Instance NewLeadershipTerm_codec : Codec NewLeadershipTerm := {|
  SbeBlockLength := 96; SbeTemplateId := 53; SbeSchemaId := 111; SbeSchemaVersion := 16;
  zero := mkNewLeadershipTerm 0 0 0 0 0 0 0 0 0 0 0 0 0 0;
  RangeCheck := NewLeadershipTerm_RangeCheck; Encode := NewLeadershipTerm_Encode; Decode := NewLeadershipTerm_Decode;
  valid m := is_i64 (NewLeadershipTerm_LogLeadershipTermId m) /\ is_i64 (NewLeadershipTerm_NextLeadershipTermId m) /\ is_i64
    (NewLeadershipTerm_NextTermBaseLogPosition m) /\ is_i64 (NewLeadershipTerm_NextLogPosition m) /\ is_i64
    (NewLeadershipTerm_LeadershipTermId m) /\ is_i64 (NewLeadershipTerm_TermBaseLogPosition m) /\ is_i64
    (NewLeadershipTerm_LogPosition m) /\ is_i64 (NewLeadershipTerm_LeaderRecordingId m) /\ is_i64
    (NewLeadershipTerm_Timestamp m) /\ is_i32 (NewLeadershipTerm_LeaderMemberId m) /\ is_i32
    (NewLeadershipTerm_LogSessionId m) /\ is_i32 (NewLeadershipTerm_AppVersion m) /\ is_i32
    (NewLeadershipTerm_IsStartup m) /\ is_i64 (NewLeadershipTerm_CommitPosition m);
  fixed_part m := le_split 8 (NewLeadershipTerm_LogLeadershipTermId m) ++ le_split 8 (NewLeadershipTerm_NextLeadershipTermId m) ++
    le_split 8 (NewLeadershipTerm_NextTermBaseLogPosition m) ++ le_split 8 (NewLeadershipTerm_NextLogPosition m)
    ++ le_split 8 (NewLeadershipTerm_LeadershipTermId m) ++ le_split 8 (NewLeadershipTerm_TermBaseLogPosition m)
    ++ le_split 8 (NewLeadershipTerm_LogPosition m) ++ le_split 8 (NewLeadershipTerm_LeaderRecordingId m) ++
    le_split 8 (NewLeadershipTerm_Timestamp m) ++ le_split 4 (NewLeadershipTerm_LeaderMemberId m) ++ le_split 4
    (NewLeadershipTerm_LogSessionId m) ++ le_split 4 (NewLeadershipTerm_AppVersion m) ++ le_split 4
    (NewLeadershipTerm_IsStartup m) ++ le_split 8 (NewLeadershipTerm_CommitPosition m);
  data_part m := [] |}.

#[export] Instance NewLeadershipTerm_laws : CodecLaws NewLeadershipTerm.
Proof. codec_laws NewLeadershipTerm_codec NewLeadershipTerm_Encode NewLeadershipTerm_Decode. Qed.

(** ** NewLeadershipTermEvent *)

Record NewLeadershipTermEvent : Type := mkNewLeadershipTermEvent { NewLeadershipTermEvent_LeadershipTermId : Z;
  NewLeadershipTermEvent_LogPosition : Z; NewLeadershipTermEvent_Timestamp : Z;
  NewLeadershipTermEvent_TermBaseLogPosition : Z; NewLeadershipTermEvent_LeaderMemberId : Z;
  NewLeadershipTermEvent_LogSessionId : Z; NewLeadershipTermEvent_TimeUnit : Z;
  NewLeadershipTermEvent_AppVersion : Z }.

Definition NewLeadershipTermEvent_LeadershipTermId_field : field := mkField 1 0 0 false (-9223372036854775807) 9223372036854775807 (-9223372036854775808).
Definition NewLeadershipTermEvent_LogPosition_field : field := mkField 2 0 0 false (-9223372036854775807) 9223372036854775807 (-9223372036854775808).
Definition NewLeadershipTermEvent_Timestamp_field : field := mkField 3 0 0 false (-9223372036854775807) 9223372036854775807 (-9223372036854775808).
Definition NewLeadershipTermEvent_TermBaseLogPosition_field : field := mkField 4 0 0 false (-9223372036854775807) 9223372036854775807 (-9223372036854775808).
Definition NewLeadershipTermEvent_LeaderMemberId_field : field := mkField 5 0 0 false (-2147483647) 2147483647 (-2147483648).
Definition NewLeadershipTermEvent_LogSessionId_field : field := mkField 6 0 0 false (-2147483647) 2147483647 (-2147483648).
Definition NewLeadershipTermEvent_TimeUnit_field : field := mkField 7 4 0 true 0 0 0.
Definition NewLeadershipTermEvent_AppVersion_field : field := mkField 8 4 0 true 1 16777215 0.
Definition NewLeadershipTermEvent_set_LeadershipTermId (v : Z) (m : NewLeadershipTermEvent) :
  NewLeadershipTermEvent := mkNewLeadershipTermEvent v (NewLeadershipTermEvent_LogPosition m)
  (NewLeadershipTermEvent_Timestamp m) (NewLeadershipTermEvent_TermBaseLogPosition m)
  (NewLeadershipTermEvent_LeaderMemberId m) (NewLeadershipTermEvent_LogSessionId m)
  (NewLeadershipTermEvent_TimeUnit m) (NewLeadershipTermEvent_AppVersion m).
Definition NewLeadershipTermEvent_set_LogPosition (v : Z) (m : NewLeadershipTermEvent) : NewLeadershipTermEvent
  := mkNewLeadershipTermEvent (NewLeadershipTermEvent_LeadershipTermId m) v (NewLeadershipTermEvent_Timestamp m)
  (NewLeadershipTermEvent_TermBaseLogPosition m) (NewLeadershipTermEvent_LeaderMemberId m)
  (NewLeadershipTermEvent_LogSessionId m) (NewLeadershipTermEvent_TimeUnit m) (NewLeadershipTermEvent_AppVersion
  m).
Definition NewLeadershipTermEvent_set_Timestamp (v : Z) (m : NewLeadershipTermEvent) : NewLeadershipTermEvent :=
  mkNewLeadershipTermEvent (NewLeadershipTermEvent_LeadershipTermId m) (NewLeadershipTermEvent_LogPosition m) v
  (NewLeadershipTermEvent_TermBaseLogPosition m) (NewLeadershipTermEvent_LeaderMemberId m)
  (NewLeadershipTermEvent_LogSessionId m) (NewLeadershipTermEvent_TimeUnit m) (NewLeadershipTermEvent_AppVersion
  m).
Definition NewLeadershipTermEvent_set_TermBaseLogPosition (v : Z) (m : NewLeadershipTermEvent) :
  NewLeadershipTermEvent := mkNewLeadershipTermEvent (NewLeadershipTermEvent_LeadershipTermId m)
  (NewLeadershipTermEvent_LogPosition m) (NewLeadershipTermEvent_Timestamp m) v
  (NewLeadershipTermEvent_LeaderMemberId m) (NewLeadershipTermEvent_LogSessionId m)
  (NewLeadershipTermEvent_TimeUnit m) (NewLeadershipTermEvent_AppVersion m).
Definition NewLeadershipTermEvent_set_LeaderMemberId (v : Z) (m : NewLeadershipTermEvent) :
  NewLeadershipTermEvent := mkNewLeadershipTermEvent (NewLeadershipTermEvent_LeadershipTermId m)
  (NewLeadershipTermEvent_LogPosition m) (NewLeadershipTermEvent_Timestamp m)
  (NewLeadershipTermEvent_TermBaseLogPosition m) v (NewLeadershipTermEvent_LogSessionId m)
  (NewLeadershipTermEvent_TimeUnit m) (NewLeadershipTermEvent_AppVersion m).
Definition NewLeadershipTermEvent_set_LogSessionId (v : Z) (m : NewLeadershipTermEvent) : NewLeadershipTermEvent
  := mkNewLeadershipTermEvent (NewLeadershipTermEvent_LeadershipTermId m) (NewLeadershipTermEvent_LogPosition m)
  (NewLeadershipTermEvent_Timestamp m) (NewLeadershipTermEvent_TermBaseLogPosition m)
  (NewLeadershipTermEvent_LeaderMemberId m) v (NewLeadershipTermEvent_TimeUnit m)
  (NewLeadershipTermEvent_AppVersion m).
Definition NewLeadershipTermEvent_set_TimeUnit (v : Z) (m : NewLeadershipTermEvent) : NewLeadershipTermEvent :=
  mkNewLeadershipTermEvent (NewLeadershipTermEvent_LeadershipTermId m) (NewLeadershipTermEvent_LogPosition m)
  (NewLeadershipTermEvent_Timestamp m) (NewLeadershipTermEvent_TermBaseLogPosition m)
  (NewLeadershipTermEvent_LeaderMemberId m) (NewLeadershipTermEvent_LogSessionId m) v
  (NewLeadershipTermEvent_AppVersion m).
Definition NewLeadershipTermEvent_set_AppVersion (v : Z) (m : NewLeadershipTermEvent) : NewLeadershipTermEvent
  := mkNewLeadershipTermEvent (NewLeadershipTermEvent_LeadershipTermId m) (NewLeadershipTermEvent_LogPosition m)
  (NewLeadershipTermEvent_Timestamp m) (NewLeadershipTermEvent_TermBaseLogPosition m)
  (NewLeadershipTermEvent_LeaderMemberId m) (NewLeadershipTermEvent_LogSessionId m)
  (NewLeadershipTermEvent_TimeUnit m) v.

Definition NewLeadershipTermEvent_RangeCheck (m : NewLeadershipTermEvent) (actingVersion schemaVersion : Z) : option string :=
  first_error
    [ check_required NewLeadershipTermEvent_LeadershipTermId_field actingVersion (NewLeadershipTermEvent_LeadershipTermId m)
    ; check_required NewLeadershipTermEvent_LogPosition_field actingVersion (NewLeadershipTermEvent_LogPosition m)
    ; check_required NewLeadershipTermEvent_Timestamp_field actingVersion (NewLeadershipTermEvent_Timestamp m)
    ; check_required NewLeadershipTermEvent_TermBaseLogPosition_field actingVersion (NewLeadershipTermEvent_TermBaseLogPosition m)
    ; check_required NewLeadershipTermEvent_LeaderMemberId_field actingVersion (NewLeadershipTermEvent_LeaderMemberId m)
    ; check_required NewLeadershipTermEvent_LogSessionId_field actingVersion (NewLeadershipTermEvent_LogSessionId m)
    ; check_enum ClusterTimeUnitValues actingVersion schemaVersion (NewLeadershipTermEvent_TimeUnit m)
    ; check_optional NewLeadershipTermEvent_AppVersion_field actingVersion (NewLeadershipTermEvent_AppVersion m) ].

Definition NewLeadershipTermEvent_Encode (m : NewLeadershipTermEvent) (doRangeCheck : bool) : M bytes unit :=
  when doRangeCheck (fail_if (NewLeadershipTermEvent_RangeCheck m 16 16)) ;;;
  WriteInt64 (NewLeadershipTermEvent_LeadershipTermId m) ;;;
  WriteInt64 (NewLeadershipTermEvent_LogPosition m) ;;;
  WriteInt64 (NewLeadershipTermEvent_Timestamp m) ;;;
  WriteInt64 (NewLeadershipTermEvent_TermBaseLogPosition m) ;;;
  WriteInt32 (NewLeadershipTermEvent_LeaderMemberId m) ;;;
  WriteInt32 (NewLeadershipTermEvent_LogSessionId m) ;;;
  WriteInt32 (NewLeadershipTermEvent_TimeUnit m) ;;;
  WriteInt32 (NewLeadershipTermEvent_AppVersion m).

Definition NewLeadershipTermEvent_Decode (actingVersion blockLength : Z) (doRangeCheck : bool) : M (bytes * NewLeadershipTermEvent) unit :=
  decode_field NewLeadershipTermEvent_LeadershipTermId_field actingVersion ReadInt64 NewLeadershipTermEvent_set_LeadershipTermId ;;;
  decode_field NewLeadershipTermEvent_LogPosition_field actingVersion ReadInt64 NewLeadershipTermEvent_set_LogPosition ;;;
  decode_field NewLeadershipTermEvent_Timestamp_field actingVersion ReadInt64 NewLeadershipTermEvent_set_Timestamp ;;;
  decode_field NewLeadershipTermEvent_TermBaseLogPosition_field actingVersion ReadInt64 NewLeadershipTermEvent_set_TermBaseLogPosition ;;;
  decode_field NewLeadershipTermEvent_LeaderMemberId_field actingVersion ReadInt32 NewLeadershipTermEvent_set_LeaderMemberId ;;;
  decode_field NewLeadershipTermEvent_LogSessionId_field actingVersion ReadInt32 NewLeadershipTermEvent_set_LogSessionId ;;;
  decode_enum NewLeadershipTermEvent_TimeUnit_field actingVersion ReadInt32 NewLeadershipTermEvent_set_TimeUnit ;;;
  decode_field NewLeadershipTermEvent_AppVersion_field actingVersion ReadInt32 NewLeadershipTermEvent_set_AppVersion ;;;
  skip_block actingVersion 16 blockLength 48 ;;;
  when doRangeCheck (checked (fun m => NewLeadershipTermEvent_RangeCheck m actingVersion 16)).

#[export] Instance NewLeadershipTermEvent_codec : Codec NewLeadershipTermEvent := {|
  SbeBlockLength := 48; SbeTemplateId := 24; SbeSchemaId := 111; SbeSchemaVersion := 16;
  zero := mkNewLeadershipTermEvent 0 0 0 0 0 0 0 0;
  RangeCheck := NewLeadershipTermEvent_RangeCheck; Encode := NewLeadershipTermEvent_Encode; Decode := NewLeadershipTermEvent_Decode;
  valid m := is_i64 (NewLeadershipTermEvent_LeadershipTermId m) /\ is_i64 (NewLeadershipTermEvent_LogPosition m) /\ is_i64
    (NewLeadershipTermEvent_Timestamp m) /\ is_i64 (NewLeadershipTermEvent_TermBaseLogPosition m) /\ is_i32
    (NewLeadershipTermEvent_LeaderMemberId m) /\ is_i32 (NewLeadershipTermEvent_LogSessionId m) /\ is_i32
    (NewLeadershipTermEvent_TimeUnit m) /\ is_i32 (NewLeadershipTermEvent_AppVersion m);
  fixed_part m := le_split 8 (NewLeadershipTermEvent_LeadershipTermId m) ++ le_split 8 (NewLeadershipTermEvent_LogPosition m) ++
    le_split 8 (NewLeadershipTermEvent_Timestamp m) ++ le_split 8 (NewLeadershipTermEvent_TermBaseLogPosition m)
    ++ le_split 4 (NewLeadershipTermEvent_LeaderMemberId m) ++ le_split 4 (NewLeadershipTermEvent_LogSessionId
    m) ++ le_split 4 (NewLeadershipTermEvent_TimeUnit m) ++ le_split 4 (NewLeadershipTermEvent_AppVersion m);
  data_part m := [] |}.

#[export] Instance NewLeadershipTermEvent_laws : CodecLaws NewLeadershipTermEvent.
Proof. codec_laws NewLeadershipTermEvent_codec NewLeadershipTermEvent_Encode NewLeadershipTermEvent_Decode. Qed.

(** ** PendingMessageTracker *)

Record PendingMessageTracker : Type := mkPendingMessageTracker { PendingMessageTracker_NextServiceSessionId : Z;
  PendingMessageTracker_LogServiceSessionId : Z; PendingMessageTracker_PendingMessageCapacity : Z;
  PendingMessageTracker_ServiceId : Z }.

Definition PendingMessageTracker_NextServiceSessionId_field : field := mkField 1 0 0 false (-9223372036854775807) 9223372036854775807 (-9223372036854775808).
Definition PendingMessageTracker_LogServiceSessionId_field : field := mkField 2 0 0 false (-9223372036854775807) 9223372036854775807 (-9223372036854775808).
Definition PendingMessageTracker_PendingMessageCapacity_field : field := mkField 3 0 0 true (-2147483647) 2147483647 0.
Definition PendingMessageTracker_ServiceId_field : field := mkField 4 0 0 false (-2147483647) 2147483647 (-2147483648).
Definition PendingMessageTracker_set_NextServiceSessionId (v : Z) (m : PendingMessageTracker) :
  PendingMessageTracker := mkPendingMessageTracker v (PendingMessageTracker_LogServiceSessionId m)
  (PendingMessageTracker_PendingMessageCapacity m) (PendingMessageTracker_ServiceId m).
Definition PendingMessageTracker_set_LogServiceSessionId (v : Z) (m : PendingMessageTracker) :
  PendingMessageTracker := mkPendingMessageTracker (PendingMessageTracker_NextServiceSessionId m) v
  (PendingMessageTracker_PendingMessageCapacity m) (PendingMessageTracker_ServiceId m).
Definition PendingMessageTracker_set_PendingMessageCapacity (v : Z) (m : PendingMessageTracker) :
  PendingMessageTracker := mkPendingMessageTracker (PendingMessageTracker_NextServiceSessionId m)
  (PendingMessageTracker_LogServiceSessionId m) v (PendingMessageTracker_ServiceId m).
Definition PendingMessageTracker_set_ServiceId (v : Z) (m : PendingMessageTracker) : PendingMessageTracker :=
  mkPendingMessageTracker (PendingMessageTracker_NextServiceSessionId m)
  (PendingMessageTracker_LogServiceSessionId m) (PendingMessageTracker_PendingMessageCapacity m) v.

Definition PendingMessageTracker_RangeCheck (m : PendingMessageTracker) (actingVersion schemaVersion : Z) : option string :=
  first_error
    [ check_required PendingMessageTracker_NextServiceSessionId_field actingVersion (PendingMessageTracker_NextServiceSessionId m)
    ; check_required PendingMessageTracker_LogServiceSessionId_field actingVersion (PendingMessageTracker_LogServiceSessionId m)
    ; check_optional PendingMessageTracker_PendingMessageCapacity_field actingVersion (PendingMessageTracker_PendingMessageCapacity m)
    ; check_required PendingMessageTracker_ServiceId_field actingVersion (PendingMessageTracker_ServiceId m) ].

Definition PendingMessageTracker_Encode (m : PendingMessageTracker) (doRangeCheck : bool) : M bytes unit :=
  when doRangeCheck (fail_if (PendingMessageTracker_RangeCheck m 16 16)) ;;;
  WriteInt64 (PendingMessageTracker_NextServiceSessionId m) ;;;
  WriteInt64 (PendingMessageTracker_LogServiceSessionId m) ;;;
  WriteInt32 (PendingMessageTracker_PendingMessageCapacity m) ;;;
  WriteInt32 (PendingMessageTracker_ServiceId m).

Definition PendingMessageTracker_Decode (actingVersion blockLength : Z) (doRangeCheck : bool) : M (bytes * PendingMessageTracker) unit :=
  decode_field PendingMessageTracker_NextServiceSessionId_field actingVersion ReadInt64 PendingMessageTracker_set_NextServiceSessionId ;;;
  decode_field PendingMessageTracker_LogServiceSessionId_field actingVersion ReadInt64 PendingMessageTracker_set_LogServiceSessionId ;;;
  decode_field PendingMessageTracker_PendingMessageCapacity_field actingVersion ReadInt32 PendingMessageTracker_set_PendingMessageCapacity ;;;
  decode_field PendingMessageTracker_ServiceId_field actingVersion ReadInt32 PendingMessageTracker_set_ServiceId ;;;
  skip_block actingVersion 16 blockLength 24 ;;;
  when doRangeCheck (checked (fun m => PendingMessageTracker_RangeCheck m actingVersion 16)).

#[export] Instance PendingMessageTracker_codec : Codec PendingMessageTracker := {|
  SbeBlockLength := 24; SbeTemplateId := 107; SbeSchemaId := 111; SbeSchemaVersion := 16;
  zero := mkPendingMessageTracker 0 0 0 0;
  RangeCheck := PendingMessageTracker_RangeCheck; Encode := PendingMessageTracker_Encode; Decode := PendingMessageTracker_Decode;
  valid m := is_i64 (PendingMessageTracker_NextServiceSessionId m) /\ is_i64 (PendingMessageTracker_LogServiceSessionId m) /\
    is_i32 (PendingMessageTracker_PendingMessageCapacity m) /\ is_i32 (PendingMessageTracker_ServiceId m);
  fixed_part m := le_split 8 (PendingMessageTracker_NextServiceSessionId m) ++ le_split 8
    (PendingMessageTracker_LogServiceSessionId m) ++ le_split 4 (PendingMessageTracker_PendingMessageCapacity m)
    ++ le_split 4 (PendingMessageTracker_ServiceId m);
  data_part m := [] |}.

#[export] Instance PendingMessageTracker_laws : CodecLaws PendingMessageTracker.
Proof. codec_laws PendingMessageTracker_codec PendingMessageTracker_Encode PendingMessageTracker_Decode. Qed.

(** ** RemoveMember *)

Record RemoveMember : Type := mkRemoveMember { RemoveMember_MemberId : Z; RemoveMember_IsPassive : Z }.

Definition RemoveMember_MemberId_field : field := mkField 1 0 0 false (-2147483647) 2147483647 (-2147483648).
Definition RemoveMember_IsPassive_field : field := mkField 2 0 0 false 0 0 0.
Definition RemoveMember_set_MemberId (v : Z) (m : RemoveMember) : RemoveMember := mkRemoveMember v
  (RemoveMember_IsPassive m).
Definition RemoveMember_set_IsPassive (v : Z) (m : RemoveMember) : RemoveMember := mkRemoveMember
  (RemoveMember_MemberId m) v.

Definition RemoveMember_RangeCheck (m : RemoveMember) (actingVersion schemaVersion : Z) : option string :=
  first_error
    [ check_required RemoveMember_MemberId_field actingVersion (RemoveMember_MemberId m)
    ; check_enum BooleanTypeValues actingVersion schemaVersion (RemoveMember_IsPassive m) ].

Definition RemoveMember_Encode (m : RemoveMember) (doRangeCheck : bool) : M bytes unit :=
  when doRangeCheck (fail_if (RemoveMember_RangeCheck m 16 16)) ;;;
  WriteInt32 (RemoveMember_MemberId m) ;;;
  WriteInt32 (RemoveMember_IsPassive m).

Definition RemoveMember_Decode (actingVersion blockLength : Z) (doRangeCheck : bool) : M (bytes * RemoveMember) unit :=
  decode_field RemoveMember_MemberId_field actingVersion ReadInt32 RemoveMember_set_MemberId ;;;
  decode_enum RemoveMember_IsPassive_field actingVersion ReadInt32 RemoveMember_set_IsPassive ;;;
  skip_block actingVersion 16 blockLength 8 ;;;
  when doRangeCheck (checked (fun m => RemoveMember_RangeCheck m actingVersion 16)).

#[export] Instance RemoveMember_codec : Codec RemoveMember := {|
  SbeBlockLength := 8; SbeTemplateId := 35; SbeSchemaId := 111; SbeSchemaVersion := 16;
  zero := mkRemoveMember 0 0;
  RangeCheck := RemoveMember_RangeCheck; Encode := RemoveMember_Encode; Decode := RemoveMember_Decode;
  valid m := is_i32 (RemoveMember_MemberId m) /\ is_i32 (RemoveMember_IsPassive m);
  fixed_part m := le_split 4 (RemoveMember_MemberId m) ++ le_split 4 (RemoveMember_IsPassive m);
  data_part m := [] |}.

#[export] Instance RemoveMember_laws : CodecLaws RemoveMember.
Proof. codec_laws RemoveMember_codec RemoveMember_Encode RemoveMember_Decode. Qed.

(** ** RequestServiceAck *)

Record RequestServiceAck : Type := mkRequestServiceAck { RequestServiceAck_LogPosition : Z }.

Definition RequestServiceAck_LogPosition_field : field := mkField 1 0 0 false (-9223372036854775807) 9223372036854775807 (-9223372036854775808).
Definition RequestServiceAck_set_LogPosition (v : Z) (m : RequestServiceAck) : RequestServiceAck :=
  mkRequestServiceAck v.

Definition RequestServiceAck_RangeCheck (m : RequestServiceAck) (actingVersion schemaVersion : Z) : option string :=
  first_error
    [ check_required RequestServiceAck_LogPosition_field actingVersion (RequestServiceAck_LogPosition m) ].

Definition RequestServiceAck_Encode (m : RequestServiceAck) (doRangeCheck : bool) : M bytes unit :=
  when doRangeCheck (fail_if (RequestServiceAck_RangeCheck m 16 16)) ;;;
  WriteInt64 (RequestServiceAck_LogPosition m).

Definition RequestServiceAck_Decode (actingVersion blockLength : Z) (doRangeCheck : bool) : M (bytes * RequestServiceAck) unit :=
  decode_field RequestServiceAck_LogPosition_field actingVersion ReadInt64 RequestServiceAck_set_LogPosition ;;;
  skip_block actingVersion 16 blockLength 8 ;;;
  when doRangeCheck (checked (fun m => RequestServiceAck_RangeCheck m actingVersion 16)).

#[export] Instance RequestServiceAck_codec : Codec RequestServiceAck := {|
  SbeBlockLength := 8; SbeTemplateId := 108; SbeSchemaId := 111; SbeSchemaVersion := 16;
  zero := mkRequestServiceAck 0;
  RangeCheck := RequestServiceAck_RangeCheck; Encode := RequestServiceAck_Encode; Decode := RequestServiceAck_Decode;
  valid m := is_i64 (RequestServiceAck_LogPosition m);
  fixed_part m := le_split 8 (RequestServiceAck_LogPosition m);
  data_part m := [] |}.

#[export] Instance RequestServiceAck_laws : CodecLaws RequestServiceAck.
Proof. codec_laws RequestServiceAck_codec RequestServiceAck_Encode RequestServiceAck_Decode. Qed.

(** ** RequestVote *)

Record RequestVote : Type := mkRequestVote { RequestVote_LogLeadershipTermId : Z; RequestVote_LogPosition : Z;
  RequestVote_CandidateTermId : Z; RequestVote_CandidateMemberId : Z; RequestVote_ProtocolVersion : Z }.

Definition RequestVote_LogLeadershipTermId_field : field := mkField 1 0 0 false (-9223372036854775807) 9223372036854775807 (-9223372036854775808).
Definition RequestVote_LogPosition_field : field := mkField 2 0 0 false (-9223372036854775807) 9223372036854775807 (-9223372036854775808).
Definition RequestVote_CandidateTermId_field : field := mkField 3 0 0 false (-9223372036854775807) 9223372036854775807 (-9223372036854775808).
Definition RequestVote_CandidateMemberId_field : field := mkField 4 0 0 false (-2147483647) 2147483647 (-2147483648).
Definition RequestVote_ProtocolVersion_field : field := mkField 5 9 0 true 1 16777215 0.
Definition RequestVote_set_LogLeadershipTermId (v : Z) (m : RequestVote) : RequestVote := mkRequestVote v
  (RequestVote_LogPosition m) (RequestVote_CandidateTermId m) (RequestVote_CandidateMemberId m)
  (RequestVote_ProtocolVersion m).
Definition RequestVote_set_LogPosition (v : Z) (m : RequestVote) : RequestVote := mkRequestVote
  (RequestVote_LogLeadershipTermId m) v (RequestVote_CandidateTermId m) (RequestVote_CandidateMemberId m)
  (RequestVote_ProtocolVersion m).
Definition RequestVote_set_CandidateTermId (v : Z) (m : RequestVote) : RequestVote := mkRequestVote
  (RequestVote_LogLeadershipTermId m) (RequestVote_LogPosition m) v (RequestVote_CandidateMemberId m)
  (RequestVote_ProtocolVersion m).
Definition RequestVote_set_CandidateMemberId (v : Z) (m : RequestVote) : RequestVote := mkRequestVote
  (RequestVote_LogLeadershipTermId m) (RequestVote_LogPosition m) (RequestVote_CandidateTermId m) v
  (RequestVote_ProtocolVersion m).
Definition RequestVote_set_ProtocolVersion (v : Z) (m : RequestVote) : RequestVote := mkRequestVote
  (RequestVote_LogLeadershipTermId m) (RequestVote_LogPosition m) (RequestVote_CandidateTermId m)
  (RequestVote_CandidateMemberId m) v.

Definition RequestVote_RangeCheck (m : RequestVote) (actingVersion schemaVersion : Z) : option string :=
  first_error
    [ check_required RequestVote_LogLeadershipTermId_field actingVersion (RequestVote_LogLeadershipTermId m)
    ; check_required RequestVote_LogPosition_field actingVersion (RequestVote_LogPosition m)
    ; check_required RequestVote_CandidateTermId_field actingVersion (RequestVote_CandidateTermId m)
    ; check_required RequestVote_CandidateMemberId_field actingVersion (RequestVote_CandidateMemberId m)
    ; check_optional RequestVote_ProtocolVersion_field actingVersion (RequestVote_ProtocolVersion m) ].

Definition RequestVote_Encode (m : RequestVote) (doRangeCheck : bool) : M bytes unit :=
  when doRangeCheck (fail_if (RequestVote_RangeCheck m 16 16)) ;;;
  WriteInt64 (RequestVote_LogLeadershipTermId m) ;;;
  WriteInt64 (RequestVote_LogPosition m) ;;;
  WriteInt64 (RequestVote_CandidateTermId m) ;;;
  WriteInt32 (RequestVote_CandidateMemberId m) ;;;
  WriteInt32 (RequestVote_ProtocolVersion m).

Definition RequestVote_Decode (actingVersion blockLength : Z) (doRangeCheck : bool) : M (bytes * RequestVote) unit :=
  decode_field RequestVote_LogLeadershipTermId_field actingVersion ReadInt64 RequestVote_set_LogLeadershipTermId ;;;
  decode_field RequestVote_LogPosition_field actingVersion ReadInt64 RequestVote_set_LogPosition ;;;
  decode_field RequestVote_CandidateTermId_field actingVersion ReadInt64 RequestVote_set_CandidateTermId ;;;
  decode_field RequestVote_CandidateMemberId_field actingVersion ReadInt32 RequestVote_set_CandidateMemberId ;;;
  decode_field RequestVote_ProtocolVersion_field actingVersion ReadInt32 RequestVote_set_ProtocolVersion ;;;
  skip_block actingVersion 16 blockLength 32 ;;;
  when doRangeCheck (checked (fun m => RequestVote_RangeCheck m actingVersion 16)).

#[export] Instance RequestVote_codec : Codec RequestVote := {|
  SbeBlockLength := 32; SbeTemplateId := 51; SbeSchemaId := 111; SbeSchemaVersion := 16;
  zero := mkRequestVote 0 0 0 0 0;
  RangeCheck := RequestVote_RangeCheck; Encode := RequestVote_Encode; Decode := RequestVote_Decode;
  valid m := is_i64 (RequestVote_LogLeadershipTermId m) /\ is_i64 (RequestVote_LogPosition m) /\ is_i64
    (RequestVote_CandidateTermId m) /\ is_i32 (RequestVote_CandidateMemberId m) /\ is_i32
    (RequestVote_ProtocolVersion m);
  fixed_part m := le_split 8 (RequestVote_LogLeadershipTermId m) ++ le_split 8 (RequestVote_LogPosition m) ++ le_split 8
    (RequestVote_CandidateTermId m) ++ le_split 4 (RequestVote_CandidateMemberId m) ++ le_split 4
    (RequestVote_ProtocolVersion m);
  data_part m := [] |}.

#[export] Instance RequestVote_laws : CodecLaws RequestVote.
Proof. codec_laws RequestVote_codec RequestVote_Encode RequestVote_Decode. Qed.

(** ** ScheduleTimer *)

Record ScheduleTimer : Type := mkScheduleTimer { ScheduleTimer_CorrelationId : Z; ScheduleTimer_Deadline : Z }.

Definition ScheduleTimer_CorrelationId_field : field := mkField 1 0 0 false (-9223372036854775807) 9223372036854775807 (-9223372036854775808).
Definition ScheduleTimer_Deadline_field : field := mkField 2 0 0 false (-9223372036854775807) 9223372036854775807 (-9223372036854775808).
Definition ScheduleTimer_set_CorrelationId (v : Z) (m : ScheduleTimer) : ScheduleTimer := mkScheduleTimer v
  (ScheduleTimer_Deadline m).
Definition ScheduleTimer_set_Deadline (v : Z) (m : ScheduleTimer) : ScheduleTimer := mkScheduleTimer
  (ScheduleTimer_CorrelationId m) v.

Definition ScheduleTimer_RangeCheck (m : ScheduleTimer) (actingVersion schemaVersion : Z) : option string :=
  first_error
    [ check_required ScheduleTimer_CorrelationId_field actingVersion (ScheduleTimer_CorrelationId m)
    ; check_required ScheduleTimer_Deadline_field actingVersion (ScheduleTimer_Deadline m) ].

Definition ScheduleTimer_Encode (m : ScheduleTimer) (doRangeCheck : bool) : M bytes unit :=
  when doRangeCheck (fail_if (ScheduleTimer_RangeCheck m 16 16)) ;;;
  WriteInt64 (ScheduleTimer_CorrelationId m) ;;;
  WriteInt64 (ScheduleTimer_Deadline m).

Definition ScheduleTimer_Decode (actingVersion blockLength : Z) (doRangeCheck : bool) : M (bytes * ScheduleTimer) unit :=
  decode_field ScheduleTimer_CorrelationId_field actingVersion ReadInt64 ScheduleTimer_set_CorrelationId ;;;
  decode_field ScheduleTimer_Deadline_field actingVersion ReadInt64 ScheduleTimer_set_Deadline ;;;
  skip_block actingVersion 16 blockLength 16 ;;;
  when doRangeCheck (checked (fun m => ScheduleTimer_RangeCheck m actingVersion 16)).

#[export] Instance ScheduleTimer_codec : Codec ScheduleTimer := {|
  SbeBlockLength := 16; SbeTemplateId := 31; SbeSchemaId := 111; SbeSchemaVersion := 16;
  zero := mkScheduleTimer 0 0;
  RangeCheck := ScheduleTimer_RangeCheck; Encode := ScheduleTimer_Encode; Decode := ScheduleTimer_Decode;
  valid m := is_i64 (ScheduleTimer_CorrelationId m) /\ is_i64 (ScheduleTimer_Deadline m);
  fixed_part m := le_split 8 (ScheduleTimer_CorrelationId m) ++ le_split 8 (ScheduleTimer_Deadline m);
  data_part m := [] |}.

#[export] Instance ScheduleTimer_laws : CodecLaws ScheduleTimer.
Proof. codec_laws ScheduleTimer_codec ScheduleTimer_Encode ScheduleTimer_Decode. Qed.

(** ** ServiceAck *)

Record ServiceAck : Type := mkServiceAck { ServiceAck_LogPosition : Z; ServiceAck_Timestamp : Z;
  ServiceAck_AckId : Z; ServiceAck_RelevantId : Z; ServiceAck_ServiceId : Z }.

Definition ServiceAck_LogPosition_field : field := mkField 1 0 0 false (-9223372036854775807) 9223372036854775807 (-9223372036854775808).
Definition ServiceAck_Timestamp_field : field := mkField 2 0 0 false (-9223372036854775807) 9223372036854775807 (-9223372036854775808).
Definition ServiceAck_AckId_field : field := mkField 3 0 0 false (-9223372036854775807) 9223372036854775807 (-9223372036854775808).
Definition ServiceAck_RelevantId_field : field := mkField 4 0 0 false (-9223372036854775807) 9223372036854775807 (-9223372036854775808).
Definition ServiceAck_ServiceId_field : field := mkField 5 0 0 false (-2147483647) 2147483647 (-2147483648).
Definition ServiceAck_set_LogPosition (v : Z) (m : ServiceAck) : ServiceAck := mkServiceAck v
  (ServiceAck_Timestamp m) (ServiceAck_AckId m) (ServiceAck_RelevantId m) (ServiceAck_ServiceId m).
Definition ServiceAck_set_Timestamp (v : Z) (m : ServiceAck) : ServiceAck := mkServiceAck
  (ServiceAck_LogPosition m) v (ServiceAck_AckId m) (ServiceAck_RelevantId m) (ServiceAck_ServiceId m).
Definition ServiceAck_set_AckId (v : Z) (m : ServiceAck) : ServiceAck := mkServiceAck (ServiceAck_LogPosition m)
  (ServiceAck_Timestamp m) v (ServiceAck_RelevantId m) (ServiceAck_ServiceId m).
Definition ServiceAck_set_RelevantId (v : Z) (m : ServiceAck) : ServiceAck := mkServiceAck
  (ServiceAck_LogPosition m) (ServiceAck_Timestamp m) (ServiceAck_AckId m) v (ServiceAck_ServiceId m).
Definition ServiceAck_set_ServiceId (v : Z) (m : ServiceAck) : ServiceAck := mkServiceAck
  (ServiceAck_LogPosition m) (ServiceAck_Timestamp m) (ServiceAck_AckId m) (ServiceAck_RelevantId m) v.

Definition ServiceAck_RangeCheck (m : ServiceAck) (actingVersion schemaVersion : Z) : option string :=
  first_error
    [ check_required ServiceAck_LogPosition_field actingVersion (ServiceAck_LogPosition m)
    ; check_required ServiceAck_Timestamp_field actingVersion (ServiceAck_Timestamp m)
    ; check_required ServiceAck_AckId_field actingVersion (ServiceAck_AckId m)
    ; check_required ServiceAck_RelevantId_field actingVersion (ServiceAck_RelevantId m)
    ; check_required ServiceAck_ServiceId_field actingVersion (ServiceAck_ServiceId m) ].

Definition ServiceAck_Encode (m : ServiceAck) (doRangeCheck : bool) : M bytes unit :=
  when doRangeCheck (fail_if (ServiceAck_RangeCheck m 16 16)) ;;;
  WriteInt64 (ServiceAck_LogPosition m) ;;;
  WriteInt64 (ServiceAck_Timestamp m) ;;;
  WriteInt64 (ServiceAck_AckId m) ;;;
  WriteInt64 (ServiceAck_RelevantId m) ;;;
  WriteInt32 (ServiceAck_ServiceId m).

Definition ServiceAck_Decode (actingVersion blockLength : Z) (doRangeCheck : bool) : M (bytes * ServiceAck) unit :=
  decode_field ServiceAck_LogPosition_field actingVersion ReadInt64 ServiceAck_set_LogPosition ;;;
  decode_field ServiceAck_Timestamp_field actingVersion ReadInt64 ServiceAck_set_Timestamp ;;;
  decode_field ServiceAck_AckId_field actingVersion ReadInt64 ServiceAck_set_AckId ;;;
  decode_field ServiceAck_RelevantId_field actingVersion ReadInt64 ServiceAck_set_RelevantId ;;;
  decode_field ServiceAck_ServiceId_field actingVersion ReadInt32 ServiceAck_set_ServiceId ;;;
  skip_block actingVersion 16 blockLength 36 ;;;
  when doRangeCheck (checked (fun m => ServiceAck_RangeCheck m actingVersion 16)).

#[export] Instance ServiceAck_codec : Codec ServiceAck := {|
  SbeBlockLength := 36; SbeTemplateId := 33; SbeSchemaId := 111; SbeSchemaVersion := 16;
  zero := mkServiceAck 0 0 0 0 0;
  RangeCheck := ServiceAck_RangeCheck; Encode := ServiceAck_Encode; Decode := ServiceAck_Decode;
  valid m := is_i64 (ServiceAck_LogPosition m) /\ is_i64 (ServiceAck_Timestamp m) /\ is_i64 (ServiceAck_AckId m) /\ is_i64
    (ServiceAck_RelevantId m) /\ is_i32 (ServiceAck_ServiceId m);
  fixed_part m := le_split 8 (ServiceAck_LogPosition m) ++ le_split 8 (ServiceAck_Timestamp m) ++ le_split 8 (ServiceAck_AckId m)
    ++ le_split 8 (ServiceAck_RelevantId m) ++ le_split 4 (ServiceAck_ServiceId m);
  data_part m := [] |}.

#[export] Instance ServiceAck_laws : CodecLaws ServiceAck.
Proof. codec_laws ServiceAck_codec ServiceAck_Encode ServiceAck_Decode. Qed.

(** ** ServiceTerminationPosition *)

Record ServiceTerminationPosition : Type := mkServiceTerminationPosition {
  ServiceTerminationPosition_LogPosition : Z }.

Definition ServiceTerminationPosition_LogPosition_field : field := mkField 1 0 0 false (-9223372036854775807) 9223372036854775807 (-9223372036854775808).
Definition ServiceTerminationPosition_set_LogPosition (v : Z) (m : ServiceTerminationPosition) :
  ServiceTerminationPosition := mkServiceTerminationPosition v.

Definition ServiceTerminationPosition_RangeCheck (m : ServiceTerminationPosition) (actingVersion schemaVersion : Z) : option string :=
  first_error
    [ check_required ServiceTerminationPosition_LogPosition_field actingVersion (ServiceTerminationPosition_LogPosition m) ].

Definition ServiceTerminationPosition_Encode (m : ServiceTerminationPosition) (doRangeCheck : bool) : M bytes unit :=
  when doRangeCheck (fail_if (ServiceTerminationPosition_RangeCheck m 16 16)) ;;;
  WriteInt64 (ServiceTerminationPosition_LogPosition m).

Definition ServiceTerminationPosition_Decode (actingVersion blockLength : Z) (doRangeCheck : bool) : M (bytes * ServiceTerminationPosition) unit :=
  decode_field ServiceTerminationPosition_LogPosition_field actingVersion ReadInt64 ServiceTerminationPosition_set_LogPosition ;;;
  skip_block actingVersion 16 blockLength 8 ;;;
  when doRangeCheck (checked (fun m => ServiceTerminationPosition_RangeCheck m actingVersion 16)).

#[export] Instance ServiceTerminationPosition_codec : Codec ServiceTerminationPosition := {|
  SbeBlockLength := 8; SbeTemplateId := 42; SbeSchemaId := 111; SbeSchemaVersion := 16;
  zero := mkServiceTerminationPosition 0;
  RangeCheck := ServiceTerminationPosition_RangeCheck; Encode := ServiceTerminationPosition_Encode; Decode := ServiceTerminationPosition_Decode;
  valid m := is_i64 (ServiceTerminationPosition_LogPosition m);
  fixed_part m := le_split 8 (ServiceTerminationPosition_LogPosition m);
  data_part m := [] |}.

#[export] Instance ServiceTerminationPosition_laws : CodecLaws ServiceTerminationPosition.
Proof. codec_laws ServiceTerminationPosition_codec ServiceTerminationPosition_Encode ServiceTerminationPosition_Decode. Qed.

(** ** SessionCloseEvent *)

Record SessionCloseEvent : Type := mkSessionCloseEvent { SessionCloseEvent_LeadershipTermId : Z;
  SessionCloseEvent_ClusterSessionId : Z; SessionCloseEvent_Timestamp : Z; SessionCloseEvent_CloseReason : Z }.

Definition SessionCloseEvent_LeadershipTermId_field : field := mkField 1 0 0 false (-9223372036854775807) 9223372036854775807 (-9223372036854775808).
Definition SessionCloseEvent_ClusterSessionId_field : field := mkField 2 0 0 false (-9223372036854775807) 9223372036854775807 (-9223372036854775808).
Definition SessionCloseEvent_Timestamp_field : field := mkField 3 0 0 false (-9223372036854775807) 9223372036854775807 (-9223372036854775808).
Definition SessionCloseEvent_CloseReason_field : field := mkField 4 0 0 false 0 0 0.
Definition SessionCloseEvent_set_LeadershipTermId (v : Z) (m : SessionCloseEvent) : SessionCloseEvent :=
  mkSessionCloseEvent v (SessionCloseEvent_ClusterSessionId m) (SessionCloseEvent_Timestamp m)
  (SessionCloseEvent_CloseReason m).
Definition SessionCloseEvent_set_ClusterSessionId (v : Z) (m : SessionCloseEvent) : SessionCloseEvent :=
  mkSessionCloseEvent (SessionCloseEvent_LeadershipTermId m) v (SessionCloseEvent_Timestamp m)
  (SessionCloseEvent_CloseReason m).
Definition SessionCloseEvent_set_Timestamp (v : Z) (m : SessionCloseEvent) : SessionCloseEvent :=
  mkSessionCloseEvent (SessionCloseEvent_LeadershipTermId m) (SessionCloseEvent_ClusterSessionId m) v
  (SessionCloseEvent_CloseReason m).
Definition SessionCloseEvent_set_CloseReason (v : Z) (m : SessionCloseEvent) : SessionCloseEvent :=
  mkSessionCloseEvent (SessionCloseEvent_LeadershipTermId m) (SessionCloseEvent_ClusterSessionId m)
  (SessionCloseEvent_Timestamp m) v.

Definition SessionCloseEvent_RangeCheck (m : SessionCloseEvent) (actingVersion schemaVersion : Z) : option string :=
  first_error
    [ check_required SessionCloseEvent_LeadershipTermId_field actingVersion (SessionCloseEvent_LeadershipTermId m)
    ; check_required SessionCloseEvent_ClusterSessionId_field actingVersion (SessionCloseEvent_ClusterSessionId m)
    ; check_required SessionCloseEvent_Timestamp_field actingVersion (SessionCloseEvent_Timestamp m)
    ; check_enum CloseReasonValues actingVersion schemaVersion (SessionCloseEvent_CloseReason m) ].

Definition SessionCloseEvent_Encode (m : SessionCloseEvent) (doRangeCheck : bool) : M bytes unit :=
  when doRangeCheck (fail_if (SessionCloseEvent_RangeCheck m 16 16)) ;;;
  WriteInt64 (SessionCloseEvent_LeadershipTermId m) ;;;
  WriteInt64 (SessionCloseEvent_ClusterSessionId m) ;;;
  WriteInt64 (SessionCloseEvent_Timestamp m) ;;;
  WriteInt32 (SessionCloseEvent_CloseReason m).

Definition SessionCloseEvent_Decode (actingVersion blockLength : Z) (doRangeCheck : bool) : M (bytes * SessionCloseEvent) unit :=
  decode_field SessionCloseEvent_LeadershipTermId_field actingVersion ReadInt64 SessionCloseEvent_set_LeadershipTermId ;;;
  decode_field SessionCloseEvent_ClusterSessionId_field actingVersion ReadInt64 SessionCloseEvent_set_ClusterSessionId ;;;
  decode_field SessionCloseEvent_Timestamp_field actingVersion ReadInt64 SessionCloseEvent_set_Timestamp ;;;
  decode_enum SessionCloseEvent_CloseReason_field actingVersion ReadInt32 SessionCloseEvent_set_CloseReason ;;;
  skip_block actingVersion 16 blockLength 28 ;;;
  when doRangeCheck (checked (fun m => SessionCloseEvent_RangeCheck m actingVersion 16)).

#[export] Instance SessionCloseEvent_codec : Codec SessionCloseEvent := {|
  SbeBlockLength := 28; SbeTemplateId := 22; SbeSchemaId := 111; SbeSchemaVersion := 16;
  zero := mkSessionCloseEvent 0 0 0 0;
  RangeCheck := SessionCloseEvent_RangeCheck; Encode := SessionCloseEvent_Encode; Decode := SessionCloseEvent_Decode;
  valid m := is_i64 (SessionCloseEvent_LeadershipTermId m) /\ is_i64 (SessionCloseEvent_ClusterSessionId m) /\ is_i64
    (SessionCloseEvent_Timestamp m) /\ is_i32 (SessionCloseEvent_CloseReason m);
  fixed_part m := le_split 8 (SessionCloseEvent_LeadershipTermId m) ++ le_split 8 (SessionCloseEvent_ClusterSessionId m) ++
    le_split 8 (SessionCloseEvent_Timestamp m) ++ le_split 4 (SessionCloseEvent_CloseReason m);
  data_part m := [] |}.

#[export] Instance SessionCloseEvent_laws : CodecLaws SessionCloseEvent.
Proof. codec_laws SessionCloseEvent_codec SessionCloseEvent_Encode SessionCloseEvent_Decode. Qed.

(** ** SessionCloseRequest *)

Record SessionCloseRequest : Type := mkSessionCloseRequest { SessionCloseRequest_LeadershipTermId : Z;
  SessionCloseRequest_ClusterSessionId : Z }.

Definition SessionCloseRequest_LeadershipTermId_field : field := mkField 1 0 0 false (-9223372036854775807) 9223372036854775807 (-9223372036854775808).
Definition SessionCloseRequest_ClusterSessionId_field : field := mkField 2 0 0 false (-9223372036854775807) 9223372036854775807 (-9223372036854775808).
Definition SessionCloseRequest_set_LeadershipTermId (v : Z) (m : SessionCloseRequest) : SessionCloseRequest :=
  mkSessionCloseRequest v (SessionCloseRequest_ClusterSessionId m).
Definition SessionCloseRequest_set_ClusterSessionId (v : Z) (m : SessionCloseRequest) : SessionCloseRequest :=
  mkSessionCloseRequest (SessionCloseRequest_LeadershipTermId m) v.

Definition SessionCloseRequest_RangeCheck (m : SessionCloseRequest) (actingVersion schemaVersion : Z) : option string :=
  first_error
    [ check_required SessionCloseRequest_LeadershipTermId_field actingVersion (SessionCloseRequest_LeadershipTermId m)
    ; check_required SessionCloseRequest_ClusterSessionId_field actingVersion (SessionCloseRequest_ClusterSessionId m) ].

Definition SessionCloseRequest_Encode (m : SessionCloseRequest) (doRangeCheck : bool) : M bytes unit :=
  when doRangeCheck (fail_if (SessionCloseRequest_RangeCheck m 16 16)) ;;;
  WriteInt64 (SessionCloseRequest_LeadershipTermId m) ;;;
  WriteInt64 (SessionCloseRequest_ClusterSessionId m).

Definition SessionCloseRequest_Decode (actingVersion blockLength : Z) (doRangeCheck : bool) : M (bytes * SessionCloseRequest) unit :=
  decode_field SessionCloseRequest_LeadershipTermId_field actingVersion ReadInt64 SessionCloseRequest_set_LeadershipTermId ;;;
  decode_field SessionCloseRequest_ClusterSessionId_field actingVersion ReadInt64 SessionCloseRequest_set_ClusterSessionId ;;;
  skip_block actingVersion 16 blockLength 16 ;;;
  when doRangeCheck (checked (fun m => SessionCloseRequest_RangeCheck m actingVersion 16)).

#[export] Instance SessionCloseRequest_codec : Codec SessionCloseRequest := {|
  SbeBlockLength := 16; SbeTemplateId := 4; SbeSchemaId := 111; SbeSchemaVersion := 16;
  zero := mkSessionCloseRequest 0 0;
  RangeCheck := SessionCloseRequest_RangeCheck; Encode := SessionCloseRequest_Encode; Decode := SessionCloseRequest_Decode;
  valid m := is_i64 (SessionCloseRequest_LeadershipTermId m) /\ is_i64 (SessionCloseRequest_ClusterSessionId m);
  fixed_part m := le_split 8 (SessionCloseRequest_LeadershipTermId m) ++ le_split 8 (SessionCloseRequest_ClusterSessionId m);
  data_part m := [] |}.

#[export] Instance SessionCloseRequest_laws : CodecLaws SessionCloseRequest.
Proof. codec_laws SessionCloseRequest_codec SessionCloseRequest_Encode SessionCloseRequest_Decode. Qed.

(** ** SessionConnectRequest *)

Record SessionConnectRequest : Type := mkSessionConnectRequest { SessionConnectRequest_CorrelationId : Z;
  SessionConnectRequest_ResponseStreamId : Z; SessionConnectRequest_Version : Z;
  SessionConnectRequest_ResponseChannel : bytes; SessionConnectRequest_EncodedCredentials : bytes;
  SessionConnectRequest_ClientInfo : bytes }.

Definition SessionConnectRequest_CorrelationId_field : field := mkField 1 0 0 false (-9223372036854775807) 9223372036854775807 (-9223372036854775808).
Definition SessionConnectRequest_ResponseStreamId_field : field := mkField 2 0 0 false (-2147483647) 2147483647 (-2147483648).
Definition SessionConnectRequest_Version_field : field := mkField 3 2 0 true 1 16777215 0.
Definition SessionConnectRequest_ResponseChannel_field : data_field := mkDataField 0 0 "US-ASCII" 4.
Definition SessionConnectRequest_EncodedCredentials_field : data_field := mkDataField 0 0 "null" 4.
Definition SessionConnectRequest_ClientInfo_field : data_field := mkDataField 14 0 "US-ASCII" 4.
Definition SessionConnectRequest_set_CorrelationId (v : Z) (m : SessionConnectRequest) : SessionConnectRequest
  := mkSessionConnectRequest v (SessionConnectRequest_ResponseStreamId m) (SessionConnectRequest_Version m)
  (SessionConnectRequest_ResponseChannel m) (SessionConnectRequest_EncodedCredentials m)
  (SessionConnectRequest_ClientInfo m).
Definition SessionConnectRequest_set_ResponseStreamId (v : Z) (m : SessionConnectRequest) :
  SessionConnectRequest := mkSessionConnectRequest (SessionConnectRequest_CorrelationId m) v
  (SessionConnectRequest_Version m) (SessionConnectRequest_ResponseChannel m)
  (SessionConnectRequest_EncodedCredentials m) (SessionConnectRequest_ClientInfo m).
Definition SessionConnectRequest_set_Version (v : Z) (m : SessionConnectRequest) : SessionConnectRequest :=
  mkSessionConnectRequest (SessionConnectRequest_CorrelationId m) (SessionConnectRequest_ResponseStreamId m) v
  (SessionConnectRequest_ResponseChannel m) (SessionConnectRequest_EncodedCredentials m)
  (SessionConnectRequest_ClientInfo m).
Definition SessionConnectRequest_set_ResponseChannel (v : bytes) (m : SessionConnectRequest) :
  SessionConnectRequest := mkSessionConnectRequest (SessionConnectRequest_CorrelationId m)
  (SessionConnectRequest_ResponseStreamId m) (SessionConnectRequest_Version m) v
  (SessionConnectRequest_EncodedCredentials m) (SessionConnectRequest_ClientInfo m).
Definition SessionConnectRequest_set_EncodedCredentials (v : bytes) (m : SessionConnectRequest) :
  SessionConnectRequest := mkSessionConnectRequest (SessionConnectRequest_CorrelationId m)
  (SessionConnectRequest_ResponseStreamId m) (SessionConnectRequest_Version m)
  (SessionConnectRequest_ResponseChannel m) v (SessionConnectRequest_ClientInfo m).
Definition SessionConnectRequest_set_ClientInfo (v : bytes) (m : SessionConnectRequest) : SessionConnectRequest
  := mkSessionConnectRequest (SessionConnectRequest_CorrelationId m) (SessionConnectRequest_ResponseStreamId m)
  (SessionConnectRequest_Version m) (SessionConnectRequest_ResponseChannel m)
  (SessionConnectRequest_EncodedCredentials m) v.

Definition SessionConnectRequest_RangeCheck (m : SessionConnectRequest) (actingVersion schemaVersion : Z) : option string :=
  first_error
    [ check_required SessionConnectRequest_CorrelationId_field actingVersion (SessionConnectRequest_CorrelationId m)
    ; check_required SessionConnectRequest_ResponseStreamId_field actingVersion (SessionConnectRequest_ResponseStreamId m)
    ; check_optional SessionConnectRequest_Version_field actingVersion (SessionConnectRequest_Version m)
    ; check_ascii (SessionConnectRequest_ResponseChannel m)
    ; check_ascii (SessionConnectRequest_ClientInfo m) ].

Definition SessionConnectRequest_Encode (m : SessionConnectRequest) (doRangeCheck : bool) : M bytes unit :=
  when doRangeCheck (fail_if (SessionConnectRequest_RangeCheck m 16 16)) ;;;
  WriteInt64 (SessionConnectRequest_CorrelationId m) ;;;
  WriteInt32 (SessionConnectRequest_ResponseStreamId m) ;;;
  WriteInt32 (SessionConnectRequest_Version m) ;;;
  WriteUint32 (u32 (zlen (SessionConnectRequest_ResponseChannel m))) ;;;
  WriteBytes (SessionConnectRequest_ResponseChannel m) ;;;
  WriteUint32 (u32 (zlen (SessionConnectRequest_EncodedCredentials m))) ;;;
  WriteBytes (SessionConnectRequest_EncodedCredentials m) ;;;
  WriteUint32 (u32 (zlen (SessionConnectRequest_ClientInfo m))) ;;;
  WriteBytes (SessionConnectRequest_ClientInfo m).

Definition SessionConnectRequest_Decode (actingVersion blockLength : Z) (doRangeCheck : bool) : M (bytes * SessionConnectRequest) unit :=
  decode_field SessionConnectRequest_CorrelationId_field actingVersion ReadInt64 SessionConnectRequest_set_CorrelationId ;;;
  decode_field SessionConnectRequest_ResponseStreamId_field actingVersion ReadInt32 SessionConnectRequest_set_ResponseStreamId ;;;
  decode_field SessionConnectRequest_Version_field actingVersion ReadInt32 SessionConnectRequest_set_Version ;;;
  skip_block actingVersion 16 blockLength 16 ;;;
  decode_data SessionConnectRequest_ResponseChannel_field actingVersion SessionConnectRequest_set_ResponseChannel ;;;
  decode_data SessionConnectRequest_EncodedCredentials_field actingVersion SessionConnectRequest_set_EncodedCredentials ;;;
  decode_data SessionConnectRequest_ClientInfo_field actingVersion SessionConnectRequest_set_ClientInfo ;;;
  when doRangeCheck (checked (fun m => SessionConnectRequest_RangeCheck m actingVersion 16)).

#[export] Instance SessionConnectRequest_codec : Codec SessionConnectRequest := {|
  SbeBlockLength := 16; SbeTemplateId := 3; SbeSchemaId := 111; SbeSchemaVersion := 16;
  zero := mkSessionConnectRequest 0 0 0 [] [] [];
  RangeCheck := SessionConnectRequest_RangeCheck; Encode := SessionConnectRequest_Encode; Decode := SessionConnectRequest_Decode;
  valid m := is_i64 (SessionConnectRequest_CorrelationId m) /\ is_i32 (SessionConnectRequest_ResponseStreamId m) /\ is_i32
    (SessionConnectRequest_Version m) /\ zlen (SessionConnectRequest_ResponseChannel m) < 4294967296 /\ zlen
    (SessionConnectRequest_EncodedCredentials m) < 4294967296 /\ zlen (SessionConnectRequest_ClientInfo m) <
    4294967296;
  fixed_part m := le_split 8 (SessionConnectRequest_CorrelationId m) ++ le_split 4 (SessionConnectRequest_ResponseStreamId m) ++
    le_split 4 (SessionConnectRequest_Version m);
  data_part m := data_bytes (SessionConnectRequest_ResponseChannel m) ++ data_bytes (SessionConnectRequest_EncodedCredentials m)
    ++ data_bytes (SessionConnectRequest_ClientInfo m) |}.

#[export] Instance SessionConnectRequest_laws : CodecLaws SessionConnectRequest.
Proof. codec_laws SessionConnectRequest_codec SessionConnectRequest_Encode SessionConnectRequest_Decode. Qed.

(** ** SessionEvent *)

Record SessionEvent : Type := mkSessionEvent { SessionEvent_ClusterSessionId : Z; SessionEvent_CorrelationId :
  Z; SessionEvent_LeadershipTermId : Z; SessionEvent_LeaderMemberId : Z; SessionEvent_Code : Z;
  SessionEvent_Version : Z; SessionEvent_LeaderHeartbeatTimeoutNs : Z; SessionEvent_Detail : bytes }.

Definition SessionEvent_ClusterSessionId_field : field := mkField 1 0 0 false (-9223372036854775807) 9223372036854775807 (-9223372036854775808).
Definition SessionEvent_CorrelationId_field : field := mkField 2 0 0 false (-9223372036854775807) 9223372036854775807 (-9223372036854775808).
Definition SessionEvent_LeadershipTermId_field : field := mkField 3 0 0 false (-9223372036854775807) 9223372036854775807 (-9223372036854775808).
Definition SessionEvent_LeaderMemberId_field : field := mkField 4 0 0 false (-2147483647) 2147483647 (-2147483648).
Definition SessionEvent_Code_field : field := mkField 5 0 0 false 0 0 0.
Definition SessionEvent_Version_field : field := mkField 6 6 0 true 1 16777215 0.
Definition SessionEvent_LeaderHeartbeatTimeoutNs_field : field := mkField 8 13 0 true (-9223372036854775807) 9223372036854775807 (-9223372036854775808).
Definition SessionEvent_Detail_field : data_field := mkDataField 0 0 "US-ASCII" 4.
Definition SessionEvent_set_ClusterSessionId (v : Z) (m : SessionEvent) : SessionEvent := mkSessionEvent v
  (SessionEvent_CorrelationId m) (SessionEvent_LeadershipTermId m) (SessionEvent_LeaderMemberId m)
  (SessionEvent_Code m) (SessionEvent_Version m) (SessionEvent_LeaderHeartbeatTimeoutNs m) (SessionEvent_Detail
  m).
Definition SessionEvent_set_CorrelationId (v : Z) (m : SessionEvent) : SessionEvent := mkSessionEvent
  (SessionEvent_ClusterSessionId m) v (SessionEvent_LeadershipTermId m) (SessionEvent_LeaderMemberId m)
  (SessionEvent_Code m) (SessionEvent_Version m) (SessionEvent_LeaderHeartbeatTimeoutNs m) (SessionEvent_Detail
  m).
Definition SessionEvent_set_LeadershipTermId (v : Z) (m : SessionEvent) : SessionEvent := mkSessionEvent
  (SessionEvent_ClusterSessionId m) (SessionEvent_CorrelationId m) v (SessionEvent_LeaderMemberId m)
  (SessionEvent_Code m) (SessionEvent_Version m) (SessionEvent_LeaderHeartbeatTimeoutNs m) (SessionEvent_Detail
  m).
Definition SessionEvent_set_LeaderMemberId (v : Z) (m : SessionEvent) : SessionEvent := mkSessionEvent
  (SessionEvent_ClusterSessionId m) (SessionEvent_CorrelationId m) (SessionEvent_LeadershipTermId m) v
  (SessionEvent_Code m) (SessionEvent_Version m) (SessionEvent_LeaderHeartbeatTimeoutNs m) (SessionEvent_Detail
  m).
Definition SessionEvent_set_Code (v : Z) (m : SessionEvent) : SessionEvent := mkSessionEvent
  (SessionEvent_ClusterSessionId m) (SessionEvent_CorrelationId m) (SessionEvent_LeadershipTermId m)
  (SessionEvent_LeaderMemberId m) v (SessionEvent_Version m) (SessionEvent_LeaderHeartbeatTimeoutNs m)
  (SessionEvent_Detail m).
Definition SessionEvent_set_Version (v : Z) (m : SessionEvent) : SessionEvent := mkSessionEvent
  (SessionEvent_ClusterSessionId m) (SessionEvent_CorrelationId m) (SessionEvent_LeadershipTermId m)
  (SessionEvent_LeaderMemberId m) (SessionEvent_Code m) v (SessionEvent_LeaderHeartbeatTimeoutNs m)
  (SessionEvent_Detail m).
Definition SessionEvent_set_LeaderHeartbeatTimeoutNs (v : Z) (m : SessionEvent) : SessionEvent := mkSessionEvent
  (SessionEvent_ClusterSessionId m) (SessionEvent_CorrelationId m) (SessionEvent_LeadershipTermId m)
  (SessionEvent_LeaderMemberId m) (SessionEvent_Code m) (SessionEvent_Version m) v (SessionEvent_Detail m).
Definition SessionEvent_set_Detail (v : bytes) (m : SessionEvent) : SessionEvent := mkSessionEvent
  (SessionEvent_ClusterSessionId m) (SessionEvent_CorrelationId m) (SessionEvent_LeadershipTermId m)
  (SessionEvent_LeaderMemberId m) (SessionEvent_Code m) (SessionEvent_Version m)
  (SessionEvent_LeaderHeartbeatTimeoutNs m) v.

Definition SessionEvent_RangeCheck (m : SessionEvent) (actingVersion schemaVersion : Z) : option string :=
  first_error
    [ check_required SessionEvent_ClusterSessionId_field actingVersion (SessionEvent_ClusterSessionId m)
    ; check_required SessionEvent_CorrelationId_field actingVersion (SessionEvent_CorrelationId m)
    ; check_required SessionEvent_LeadershipTermId_field actingVersion (SessionEvent_LeadershipTermId m)
    ; check_required SessionEvent_LeaderMemberId_field actingVersion (SessionEvent_LeaderMemberId m)
    ; check_enum EventCodeValues actingVersion schemaVersion (SessionEvent_Code m)
    ; check_optional SessionEvent_Version_field actingVersion (SessionEvent_Version m)
    ; check_optional SessionEvent_LeaderHeartbeatTimeoutNs_field actingVersion (SessionEvent_LeaderHeartbeatTimeoutNs m)
    ; check_ascii (SessionEvent_Detail m) ].

Definition SessionEvent_Encode (m : SessionEvent) (doRangeCheck : bool) : M bytes unit :=
  when doRangeCheck (fail_if (SessionEvent_RangeCheck m 16 16)) ;;;
  WriteInt64 (SessionEvent_ClusterSessionId m) ;;;
  WriteInt64 (SessionEvent_CorrelationId m) ;;;
  WriteInt64 (SessionEvent_LeadershipTermId m) ;;;
  WriteInt32 (SessionEvent_LeaderMemberId m) ;;;
  WriteInt32 (SessionEvent_Code m) ;;;
  WriteInt32 (SessionEvent_Version m) ;;;
  WriteInt64 (SessionEvent_LeaderHeartbeatTimeoutNs m) ;;;
  WriteUint32 (u32 (zlen (SessionEvent_Detail m))) ;;;
  WriteBytes (SessionEvent_Detail m).

Definition SessionEvent_Decode (actingVersion blockLength : Z) (doRangeCheck : bool) : M (bytes * SessionEvent) unit :=
  decode_field SessionEvent_ClusterSessionId_field actingVersion ReadInt64 SessionEvent_set_ClusterSessionId ;;;
  decode_field SessionEvent_CorrelationId_field actingVersion ReadInt64 SessionEvent_set_CorrelationId ;;;
  decode_field SessionEvent_LeadershipTermId_field actingVersion ReadInt64 SessionEvent_set_LeadershipTermId ;;;
  decode_field SessionEvent_LeaderMemberId_field actingVersion ReadInt32 SessionEvent_set_LeaderMemberId ;;;
  decode_enum SessionEvent_Code_field actingVersion ReadInt32 SessionEvent_set_Code ;;;
  decode_field SessionEvent_Version_field actingVersion ReadInt32 SessionEvent_set_Version ;;;
  decode_field SessionEvent_LeaderHeartbeatTimeoutNs_field actingVersion ReadInt64 SessionEvent_set_LeaderHeartbeatTimeoutNs ;;;
  skip_block actingVersion 16 blockLength 44 ;;;
  decode_data SessionEvent_Detail_field actingVersion SessionEvent_set_Detail ;;;
  when doRangeCheck (checked (fun m => SessionEvent_RangeCheck m actingVersion 16)).

#[export] Instance SessionEvent_codec : Codec SessionEvent := {|
  SbeBlockLength := 44; SbeTemplateId := 2; SbeSchemaId := 111; SbeSchemaVersion := 16;
  zero := mkSessionEvent 0 0 0 0 0 0 0 [];
  RangeCheck := SessionEvent_RangeCheck; Encode := SessionEvent_Encode; Decode := SessionEvent_Decode;
  valid m := is_i64 (SessionEvent_ClusterSessionId m) /\ is_i64 (SessionEvent_CorrelationId m) /\ is_i64
    (SessionEvent_LeadershipTermId m) /\ is_i32 (SessionEvent_LeaderMemberId m) /\ is_i32 (SessionEvent_Code m)
    /\ is_i32 (SessionEvent_Version m) /\ is_i64 (SessionEvent_LeaderHeartbeatTimeoutNs m) /\ zlen
    (SessionEvent_Detail m) < 4294967296;
  fixed_part m := le_split 8 (SessionEvent_ClusterSessionId m) ++ le_split 8 (SessionEvent_CorrelationId m) ++ le_split 8
    (SessionEvent_LeadershipTermId m) ++ le_split 4 (SessionEvent_LeaderMemberId m) ++ le_split 4
    (SessionEvent_Code m) ++ le_split 4 (SessionEvent_Version m) ++ le_split 8
    (SessionEvent_LeaderHeartbeatTimeoutNs m);
  data_part m := data_bytes (SessionEvent_Detail m) |}.

#[export] Instance SessionEvent_laws : CodecLaws SessionEvent.
Proof. codec_laws SessionEvent_codec SessionEvent_Encode SessionEvent_Decode. Qed.

(** ** SessionKeepAlive *)

Record SessionKeepAlive : Type := mkSessionKeepAlive { SessionKeepAlive_LeadershipTermId : Z;
  SessionKeepAlive_ClusterSessionId : Z }.

Definition SessionKeepAlive_LeadershipTermId_field : field := mkField 1 0 0 false (-9223372036854775807) 9223372036854775807 (-9223372036854775808).
Definition SessionKeepAlive_ClusterSessionId_field : field := mkField 2 0 0 false (-9223372036854775807) 9223372036854775807 (-9223372036854775808).
Definition SessionKeepAlive_set_LeadershipTermId (v : Z) (m : SessionKeepAlive) : SessionKeepAlive :=
  mkSessionKeepAlive v (SessionKeepAlive_ClusterSessionId m).
Definition SessionKeepAlive_set_ClusterSessionId (v : Z) (m : SessionKeepAlive) : SessionKeepAlive :=
  mkSessionKeepAlive (SessionKeepAlive_LeadershipTermId m) v.

Definition SessionKeepAlive_RangeCheck (m : SessionKeepAlive) (actingVersion schemaVersion : Z) : option string :=
  first_error
    [ check_required SessionKeepAlive_LeadershipTermId_field actingVersion (SessionKeepAlive_LeadershipTermId m)
    ; check_required SessionKeepAlive_ClusterSessionId_field actingVersion (SessionKeepAlive_ClusterSessionId m) ].

Definition SessionKeepAlive_Encode (m : SessionKeepAlive) (doRangeCheck : bool) : M bytes unit :=
  when doRangeCheck (fail_if (SessionKeepAlive_RangeCheck m 16 16)) ;;;
  WriteInt64 (SessionKeepAlive_LeadershipTermId m) ;;;
  WriteInt64 (SessionKeepAlive_ClusterSessionId m).

Definition SessionKeepAlive_Decode (actingVersion blockLength : Z) (doRangeCheck : bool) : M (bytes * SessionKeepAlive) unit :=
  decode_field SessionKeepAlive_LeadershipTermId_field actingVersion ReadInt64 SessionKeepAlive_set_LeadershipTermId ;;;
  decode_field SessionKeepAlive_ClusterSessionId_field actingVersion ReadInt64 SessionKeepAlive_set_ClusterSessionId ;;;
  skip_block actingVersion 16 blockLength 16 ;;;
  when doRangeCheck (checked (fun m => SessionKeepAlive_RangeCheck m actingVersion 16)).

#[export] Instance SessionKeepAlive_codec : Codec SessionKeepAlive := {|
  SbeBlockLength := 16; SbeTemplateId := 5; SbeSchemaId := 111; SbeSchemaVersion := 16;
  zero := mkSessionKeepAlive 0 0;
  RangeCheck := SessionKeepAlive_RangeCheck; Encode := SessionKeepAlive_Encode; Decode := SessionKeepAlive_Decode;
  valid m := is_i64 (SessionKeepAlive_LeadershipTermId m) /\ is_i64 (SessionKeepAlive_ClusterSessionId m);
  fixed_part m := le_split 8 (SessionKeepAlive_LeadershipTermId m) ++ le_split 8 (SessionKeepAlive_ClusterSessionId m);
  data_part m := [] |}.

#[export] Instance SessionKeepAlive_laws : CodecLaws SessionKeepAlive.
Proof. codec_laws SessionKeepAlive_codec SessionKeepAlive_Encode SessionKeepAlive_Decode. Qed.

(** ** SessionMessageHeader *)

Record SessionMessageHeader : Type := mkSessionMessageHeader { SessionMessageHeader_LeadershipTermId : Z;
  SessionMessageHeader_ClusterSessionId : Z; SessionMessageHeader_Timestamp : Z }.

Definition SessionMessageHeader_LeadershipTermId_field : field := mkField 1 0 0 false (-9223372036854775807) 9223372036854775807 (-9223372036854775808).
Definition SessionMessageHeader_ClusterSessionId_field : field := mkField 2 0 0 false (-9223372036854775807) 9223372036854775807 (-9223372036854775808).
Definition SessionMessageHeader_Timestamp_field : field := mkField 3 0 0 false (-9223372036854775807) 9223372036854775807 (-9223372036854775808).
Definition SessionMessageHeader_set_LeadershipTermId (v : Z) (m : SessionMessageHeader) : SessionMessageHeader
  := mkSessionMessageHeader v (SessionMessageHeader_ClusterSessionId m) (SessionMessageHeader_Timestamp m).
Definition SessionMessageHeader_set_ClusterSessionId (v : Z) (m : SessionMessageHeader) : SessionMessageHeader
  := mkSessionMessageHeader (SessionMessageHeader_LeadershipTermId m) v (SessionMessageHeader_Timestamp m).
Definition SessionMessageHeader_set_Timestamp (v : Z) (m : SessionMessageHeader) : SessionMessageHeader :=
  mkSessionMessageHeader (SessionMessageHeader_LeadershipTermId m) (SessionMessageHeader_ClusterSessionId m) v.

Definition SessionMessageHeader_RangeCheck (m : SessionMessageHeader) (actingVersion schemaVersion : Z) : option string :=
  first_error
    [ check_required SessionMessageHeader_LeadershipTermId_field actingVersion (SessionMessageHeader_LeadershipTermId m)
    ; check_required SessionMessageHeader_ClusterSessionId_field actingVersion (SessionMessageHeader_ClusterSessionId m)
    ; check_required SessionMessageHeader_Timestamp_field actingVersion (SessionMessageHeader_Timestamp m) ].

Definition SessionMessageHeader_Encode (m : SessionMessageHeader) (doRangeCheck : bool) : M bytes unit :=
  when doRangeCheck (fail_if (SessionMessageHeader_RangeCheck m 16 16)) ;;;
  WriteInt64 (SessionMessageHeader_LeadershipTermId m) ;;;
  WriteInt64 (SessionMessageHeader_ClusterSessionId m) ;;;
  WriteInt64 (SessionMessageHeader_Timestamp m).

Definition SessionMessageHeader_Decode (actingVersion blockLength : Z) (doRangeCheck : bool) : M (bytes * SessionMessageHeader) unit :=
  decode_field SessionMessageHeader_LeadershipTermId_field actingVersion ReadInt64 SessionMessageHeader_set_LeadershipTermId ;;;
  decode_field SessionMessageHeader_ClusterSessionId_field actingVersion ReadInt64 SessionMessageHeader_set_ClusterSessionId ;;;
  decode_field SessionMessageHeader_Timestamp_field actingVersion ReadInt64 SessionMessageHeader_set_Timestamp ;;;
  skip_block actingVersion 16 blockLength 24 ;;;
  when doRangeCheck (checked (fun m => SessionMessageHeader_RangeCheck m actingVersion 16)).

#[export] Instance SessionMessageHeader_codec : Codec SessionMessageHeader := {|
  SbeBlockLength := 24; SbeTemplateId := 1; SbeSchemaId := 111; SbeSchemaVersion := 16;
  zero := mkSessionMessageHeader 0 0 0;
  RangeCheck := SessionMessageHeader_RangeCheck; Encode := SessionMessageHeader_Encode; Decode := SessionMessageHeader_Decode;
  valid m := is_i64 (SessionMessageHeader_LeadershipTermId m) /\ is_i64 (SessionMessageHeader_ClusterSessionId m) /\ is_i64
    (SessionMessageHeader_Timestamp m);
  fixed_part m := le_split 8 (SessionMessageHeader_LeadershipTermId m) ++ le_split 8 (SessionMessageHeader_ClusterSessionId m) ++
    le_split 8 (SessionMessageHeader_Timestamp m);
  data_part m := [] |}.

#[export] Instance SessionMessageHeader_laws : CodecLaws SessionMessageHeader.
Proof. codec_laws SessionMessageHeader_codec SessionMessageHeader_Encode SessionMessageHeader_Decode. Qed.

(** ** SessionOpenEvent *)

Record SessionOpenEvent : Type := mkSessionOpenEvent { SessionOpenEvent_LeadershipTermId : Z;
  SessionOpenEvent_CorrelationId : Z; SessionOpenEvent_ClusterSessionId : Z; SessionOpenEvent_Timestamp : Z;
  SessionOpenEvent_ResponseStreamId : Z; SessionOpenEvent_ResponseChannel : bytes;
  SessionOpenEvent_EncodedPrincipal : bytes }.

Definition SessionOpenEvent_LeadershipTermId_field : field := mkField 1 0 0 false (-9223372036854775807) 9223372036854775807 (-9223372036854775808).
Definition SessionOpenEvent_CorrelationId_field : field := mkField 2 0 0 false (-9223372036854775807) 9223372036854775807 (-9223372036854775808).
Definition SessionOpenEvent_ClusterSessionId_field : field := mkField 3 0 0 false (-9223372036854775807) 9223372036854775807 (-9223372036854775808).
Definition SessionOpenEvent_Timestamp_field : field := mkField 4 0 0 false (-9223372036854775807) 9223372036854775807 (-9223372036854775808).
Definition SessionOpenEvent_ResponseStreamId_field : field := mkField 6 0 0 false (-2147483647) 2147483647 (-2147483648).
Definition SessionOpenEvent_ResponseChannel_field : data_field := mkDataField 0 0 "US-ASCII" 4.
Definition SessionOpenEvent_EncodedPrincipal_field : data_field := mkDataField 0 0 "null" 4.
Definition SessionOpenEvent_set_LeadershipTermId (v : Z) (m : SessionOpenEvent) : SessionOpenEvent :=
  mkSessionOpenEvent v (SessionOpenEvent_CorrelationId m) (SessionOpenEvent_ClusterSessionId m)
  (SessionOpenEvent_Timestamp m) (SessionOpenEvent_ResponseStreamId m) (SessionOpenEvent_ResponseChannel m)
  (SessionOpenEvent_EncodedPrincipal m).
Definition SessionOpenEvent_set_CorrelationId (v : Z) (m : SessionOpenEvent) : SessionOpenEvent :=
  mkSessionOpenEvent (SessionOpenEvent_LeadershipTermId m) v (SessionOpenEvent_ClusterSessionId m)
  (SessionOpenEvent_Timestamp m) (SessionOpenEvent_ResponseStreamId m) (SessionOpenEvent_ResponseChannel m)
  (SessionOpenEvent_EncodedPrincipal m).
Definition SessionOpenEvent_set_ClusterSessionId (v : Z) (m : SessionOpenEvent) : SessionOpenEvent :=
  mkSessionOpenEvent (SessionOpenEvent_LeadershipTermId m) (SessionOpenEvent_CorrelationId m) v
  (SessionOpenEvent_Timestamp m) (SessionOpenEvent_ResponseStreamId m) (SessionOpenEvent_ResponseChannel m)
  (SessionOpenEvent_EncodedPrincipal m).
Definition SessionOpenEvent_set_Timestamp (v : Z) (m : SessionOpenEvent) : SessionOpenEvent :=
  mkSessionOpenEvent (SessionOpenEvent_LeadershipTermId m) (SessionOpenEvent_CorrelationId m)
  (SessionOpenEvent_ClusterSessionId m) v (SessionOpenEvent_ResponseStreamId m)
  (SessionOpenEvent_ResponseChannel m) (SessionOpenEvent_EncodedPrincipal m).
Definition SessionOpenEvent_set_ResponseStreamId (v : Z) (m : SessionOpenEvent) : SessionOpenEvent :=
  mkSessionOpenEvent (SessionOpenEvent_LeadershipTermId m) (SessionOpenEvent_CorrelationId m)
  (SessionOpenEvent_ClusterSessionId m) (SessionOpenEvent_Timestamp m) v (SessionOpenEvent_ResponseChannel m)
  (SessionOpenEvent_EncodedPrincipal m).
Definition SessionOpenEvent_set_ResponseChannel (v : bytes) (m : SessionOpenEvent) : SessionOpenEvent :=
  mkSessionOpenEvent (SessionOpenEvent_LeadershipTermId m) (SessionOpenEvent_CorrelationId m)
  (SessionOpenEvent_ClusterSessionId m) (SessionOpenEvent_Timestamp m) (SessionOpenEvent_ResponseStreamId m) v
  (SessionOpenEvent_EncodedPrincipal m).
Definition SessionOpenEvent_set_EncodedPrincipal (v : bytes) (m : SessionOpenEvent) : SessionOpenEvent :=
  mkSessionOpenEvent (SessionOpenEvent_LeadershipTermId m) (SessionOpenEvent_CorrelationId m)
  (SessionOpenEvent_ClusterSessionId m) (SessionOpenEvent_Timestamp m) (SessionOpenEvent_ResponseStreamId m)
  (SessionOpenEvent_ResponseChannel m) v.

Definition SessionOpenEvent_RangeCheck (m : SessionOpenEvent) (actingVersion schemaVersion : Z) : option string :=
  first_error
    [ check_required SessionOpenEvent_LeadershipTermId_field actingVersion (SessionOpenEvent_LeadershipTermId m)
    ; check_required SessionOpenEvent_CorrelationId_field actingVersion (SessionOpenEvent_CorrelationId m)
    ; check_required SessionOpenEvent_ClusterSessionId_field actingVersion (SessionOpenEvent_ClusterSessionId m)
    ; check_required SessionOpenEvent_Timestamp_field actingVersion (SessionOpenEvent_Timestamp m)
    ; check_required SessionOpenEvent_ResponseStreamId_field actingVersion (SessionOpenEvent_ResponseStreamId m)
    ; check_ascii (SessionOpenEvent_ResponseChannel m) ].

Definition SessionOpenEvent_Encode (m : SessionOpenEvent) (doRangeCheck : bool) : M bytes unit :=
  when doRangeCheck (fail_if (SessionOpenEvent_RangeCheck m 16 16)) ;;;
  WriteInt64 (SessionOpenEvent_LeadershipTermId m) ;;;
  WriteInt64 (SessionOpenEvent_CorrelationId m) ;;;
  WriteInt64 (SessionOpenEvent_ClusterSessionId m) ;;;
  WriteInt64 (SessionOpenEvent_Timestamp m) ;;;
  WriteInt32 (SessionOpenEvent_ResponseStreamId m) ;;;
  WriteUint32 (u32 (zlen (SessionOpenEvent_ResponseChannel m))) ;;;
  WriteBytes (SessionOpenEvent_ResponseChannel m) ;;;
  WriteUint32 (u32 (zlen (SessionOpenEvent_EncodedPrincipal m))) ;;;
  WriteBytes (SessionOpenEvent_EncodedPrincipal m).

Definition SessionOpenEvent_Decode (actingVersion blockLength : Z) (doRangeCheck : bool) : M (bytes * SessionOpenEvent) unit :=
  decode_field SessionOpenEvent_LeadershipTermId_field actingVersion ReadInt64 SessionOpenEvent_set_LeadershipTermId ;;;
  decode_field SessionOpenEvent_CorrelationId_field actingVersion ReadInt64 SessionOpenEvent_set_CorrelationId ;;;
  decode_field SessionOpenEvent_ClusterSessionId_field actingVersion ReadInt64 SessionOpenEvent_set_ClusterSessionId ;;;
  decode_field SessionOpenEvent_Timestamp_field actingVersion ReadInt64 SessionOpenEvent_set_Timestamp ;;;
  decode_field SessionOpenEvent_ResponseStreamId_field actingVersion ReadInt32 SessionOpenEvent_set_ResponseStreamId ;;;
  skip_block actingVersion 16 blockLength 36 ;;;
  decode_data SessionOpenEvent_ResponseChannel_field actingVersion SessionOpenEvent_set_ResponseChannel ;;;
  decode_data SessionOpenEvent_EncodedPrincipal_field actingVersion SessionOpenEvent_set_EncodedPrincipal ;;;
  when doRangeCheck (checked (fun m => SessionOpenEvent_RangeCheck m actingVersion 16)).

#[export] Instance SessionOpenEvent_codec : Codec SessionOpenEvent := {|
  SbeBlockLength := 36; SbeTemplateId := 21; SbeSchemaId := 111; SbeSchemaVersion := 16;
  zero := mkSessionOpenEvent 0 0 0 0 0 [] [];
  RangeCheck := SessionOpenEvent_RangeCheck; Encode := SessionOpenEvent_Encode; Decode := SessionOpenEvent_Decode;
  valid m := is_i64 (SessionOpenEvent_LeadershipTermId m) /\ is_i64 (SessionOpenEvent_CorrelationId m) /\ is_i64
    (SessionOpenEvent_ClusterSessionId m) /\ is_i64 (SessionOpenEvent_Timestamp m) /\ is_i32
    (SessionOpenEvent_ResponseStreamId m) /\ zlen (SessionOpenEvent_ResponseChannel m) < 4294967296 /\ zlen
    (SessionOpenEvent_EncodedPrincipal m) < 4294967296;
  fixed_part m := le_split 8 (SessionOpenEvent_LeadershipTermId m) ++ le_split 8 (SessionOpenEvent_CorrelationId m) ++ le_split 8
    (SessionOpenEvent_ClusterSessionId m) ++ le_split 8 (SessionOpenEvent_Timestamp m) ++ le_split 4
    (SessionOpenEvent_ResponseStreamId m);
  data_part m := data_bytes (SessionOpenEvent_ResponseChannel m) ++ data_bytes (SessionOpenEvent_EncodedPrincipal m) |}.

#[export] Instance SessionOpenEvent_laws : CodecLaws SessionOpenEvent.
Proof. codec_laws SessionOpenEvent_codec SessionOpenEvent_Encode SessionOpenEvent_Decode. Qed.

(** ** SnapshotMarker *)

Record SnapshotMarker : Type := mkSnapshotMarker { SnapshotMarker_TypeId : Z; SnapshotMarker_LogPosition : Z;
  SnapshotMarker_LeadershipTermId : Z; SnapshotMarker_Index : Z; SnapshotMarker_Mark : Z;
  SnapshotMarker_TimeUnit : Z; SnapshotMarker_AppVersion : Z }.

Definition SnapshotMarker_TypeId_field : field := mkField 1 0 0 false (-9223372036854775807) 9223372036854775807 (-9223372036854775808).
Definition SnapshotMarker_LogPosition_field : field := mkField 2 0 0 false (-9223372036854775807) 9223372036854775807 (-9223372036854775808).
Definition SnapshotMarker_LeadershipTermId_field : field := mkField 3 0 0 false (-9223372036854775807) 9223372036854775807 (-9223372036854775808).
Definition SnapshotMarker_Index_field : field := mkField 4 0 0 false (-2147483647) 2147483647 (-2147483648).
Definition SnapshotMarker_Mark_field : field := mkField 5 0 0 false 0 0 0.
Definition SnapshotMarker_TimeUnit_field : field := mkField 6 4 0 true 0 0 0.
Definition SnapshotMarker_AppVersion_field : field := mkField 7 4 0 true 1 16777215 0.
Definition SnapshotMarker_set_TypeId (v : Z) (m : SnapshotMarker) : SnapshotMarker := mkSnapshotMarker v
  (SnapshotMarker_LogPosition m) (SnapshotMarker_LeadershipTermId m) (SnapshotMarker_Index m)
  (SnapshotMarker_Mark m) (SnapshotMarker_TimeUnit m) (SnapshotMarker_AppVersion m).
Definition SnapshotMarker_set_LogPosition (v : Z) (m : SnapshotMarker) : SnapshotMarker := mkSnapshotMarker
  (SnapshotMarker_TypeId m) v (SnapshotMarker_LeadershipTermId m) (SnapshotMarker_Index m) (SnapshotMarker_Mark
  m) (SnapshotMarker_TimeUnit m) (SnapshotMarker_AppVersion m).
Definition SnapshotMarker_set_LeadershipTermId (v : Z) (m : SnapshotMarker) : SnapshotMarker := mkSnapshotMarker
  (SnapshotMarker_TypeId m) (SnapshotMarker_LogPosition m) v (SnapshotMarker_Index m) (SnapshotMarker_Mark m)
  (SnapshotMarker_TimeUnit m) (SnapshotMarker_AppVersion m).
Definition SnapshotMarker_set_Index (v : Z) (m : SnapshotMarker) : SnapshotMarker := mkSnapshotMarker
  (SnapshotMarker_TypeId m) (SnapshotMarker_LogPosition m) (SnapshotMarker_LeadershipTermId m) v
  (SnapshotMarker_Mark m) (SnapshotMarker_TimeUnit m) (SnapshotMarker_AppVersion m).
Definition SnapshotMarker_set_Mark (v : Z) (m : SnapshotMarker) : SnapshotMarker := mkSnapshotMarker
  (SnapshotMarker_TypeId m) (SnapshotMarker_LogPosition m) (SnapshotMarker_LeadershipTermId m)
  (SnapshotMarker_Index m) v (SnapshotMarker_TimeUnit m) (SnapshotMarker_AppVersion m).
Definition SnapshotMarker_set_TimeUnit (v : Z) (m : SnapshotMarker) : SnapshotMarker := mkSnapshotMarker
  (SnapshotMarker_TypeId m) (SnapshotMarker_LogPosition m) (SnapshotMarker_LeadershipTermId m)
  (SnapshotMarker_Index m) (SnapshotMarker_Mark m) v (SnapshotMarker_AppVersion m).
Definition SnapshotMarker_set_AppVersion (v : Z) (m : SnapshotMarker) : SnapshotMarker := mkSnapshotMarker
  (SnapshotMarker_TypeId m) (SnapshotMarker_LogPosition m) (SnapshotMarker_LeadershipTermId m)
  (SnapshotMarker_Index m) (SnapshotMarker_Mark m) (SnapshotMarker_TimeUnit m) v.

Definition SnapshotMarker_RangeCheck (m : SnapshotMarker) (actingVersion schemaVersion : Z) : option string :=
  first_error
    [ check_required SnapshotMarker_TypeId_field actingVersion (SnapshotMarker_TypeId m)
    ; check_required SnapshotMarker_LogPosition_field actingVersion (SnapshotMarker_LogPosition m)
    ; check_required SnapshotMarker_LeadershipTermId_field actingVersion (SnapshotMarker_LeadershipTermId m)
    ; check_required SnapshotMarker_Index_field actingVersion (SnapshotMarker_Index m)
    ; check_enum SnapshotMarkValues actingVersion schemaVersion (SnapshotMarker_Mark m)
    ; check_enum ClusterTimeUnitValues actingVersion schemaVersion (SnapshotMarker_TimeUnit m)
    ; check_optional SnapshotMarker_AppVersion_field actingVersion (SnapshotMarker_AppVersion m) ].

Definition SnapshotMarker_Encode (m : SnapshotMarker) (doRangeCheck : bool) : M bytes unit :=
  when doRangeCheck (fail_if (SnapshotMarker_RangeCheck m 16 16)) ;;;
  WriteInt64 (SnapshotMarker_TypeId m) ;;;
  WriteInt64 (SnapshotMarker_LogPosition m) ;;;
  WriteInt64 (SnapshotMarker_LeadershipTermId m) ;;;
  WriteInt32 (SnapshotMarker_Index m) ;;;
  WriteInt32 (SnapshotMarker_Mark m) ;;;
  WriteInt32 (SnapshotMarker_TimeUnit m) ;;;
  WriteInt32 (SnapshotMarker_AppVersion m).

Definition SnapshotMarker_Decode (actingVersion blockLength : Z) (doRangeCheck : bool) : M (bytes * SnapshotMarker) unit :=
  decode_field SnapshotMarker_TypeId_field actingVersion ReadInt64 SnapshotMarker_set_TypeId ;;;
  decode_field SnapshotMarker_LogPosition_field actingVersion ReadInt64 SnapshotMarker_set_LogPosition ;;;
  decode_field SnapshotMarker_LeadershipTermId_field actingVersion ReadInt64 SnapshotMarker_set_LeadershipTermId ;;;
  decode_field SnapshotMarker_Index_field actingVersion ReadInt32 SnapshotMarker_set_Index ;;;
  decode_enum SnapshotMarker_Mark_field actingVersion ReadInt32 SnapshotMarker_set_Mark ;;;
  decode_enum SnapshotMarker_TimeUnit_field actingVersion ReadInt32 SnapshotMarker_set_TimeUnit ;;;
  decode_field SnapshotMarker_AppVersion_field actingVersion ReadInt32 SnapshotMarker_set_AppVersion ;;;
  skip_block actingVersion 16 blockLength 40 ;;;
  when doRangeCheck (checked (fun m => SnapshotMarker_RangeCheck m actingVersion 16)).

#[export] Instance SnapshotMarker_codec : Codec SnapshotMarker := {|
  SbeBlockLength := 40; SbeTemplateId := 100; SbeSchemaId := 111; SbeSchemaVersion := 16;
  zero := mkSnapshotMarker 0 0 0 0 0 0 0;
  RangeCheck := SnapshotMarker_RangeCheck; Encode := SnapshotMarker_Encode; Decode := SnapshotMarker_Decode;
  valid m := is_i64 (SnapshotMarker_TypeId m) /\ is_i64 (SnapshotMarker_LogPosition m) /\ is_i64
    (SnapshotMarker_LeadershipTermId m) /\ is_i32 (SnapshotMarker_Index m) /\ is_i32 (SnapshotMarker_Mark m) /\
    is_i32 (SnapshotMarker_TimeUnit m) /\ is_i32 (SnapshotMarker_AppVersion m);
  fixed_part m := le_split 8 (SnapshotMarker_TypeId m) ++ le_split 8 (SnapshotMarker_LogPosition m) ++ le_split 8
    (SnapshotMarker_LeadershipTermId m) ++ le_split 4 (SnapshotMarker_Index m) ++ le_split 4
    (SnapshotMarker_Mark m) ++ le_split 4 (SnapshotMarker_TimeUnit m) ++ le_split 4 (SnapshotMarker_AppVersion
    m);
  data_part m := [] |}.

#[export] Instance SnapshotMarker_laws : CodecLaws SnapshotMarker.
Proof. codec_laws SnapshotMarker_codec SnapshotMarker_Encode SnapshotMarker_Decode. Qed.

(** ** SnapshotRecordingQuery *)

Record SnapshotRecordingQuery : Type := mkSnapshotRecordingQuery { SnapshotRecordingQuery_CorrelationId : Z;
  SnapshotRecordingQuery_RequestMemberId : Z }.

Definition SnapshotRecordingQuery_CorrelationId_field : field := mkField 1 0 0 false (-9223372036854775807) 9223372036854775807 (-9223372036854775808).
Definition SnapshotRecordingQuery_RequestMemberId_field : field := mkField 2 0 0 false (-2147483647) 2147483647 (-2147483648).
Definition SnapshotRecordingQuery_set_CorrelationId (v : Z) (m : SnapshotRecordingQuery) :
  SnapshotRecordingQuery := mkSnapshotRecordingQuery v (SnapshotRecordingQuery_RequestMemberId m).
Definition SnapshotRecordingQuery_set_RequestMemberId (v : Z) (m : SnapshotRecordingQuery) :
  SnapshotRecordingQuery := mkSnapshotRecordingQuery (SnapshotRecordingQuery_CorrelationId m) v.

Definition SnapshotRecordingQuery_RangeCheck (m : SnapshotRecordingQuery) (actingVersion schemaVersion : Z) : option string :=
  first_error
    [ check_required SnapshotRecordingQuery_CorrelationId_field actingVersion (SnapshotRecordingQuery_CorrelationId m)
    ; check_required SnapshotRecordingQuery_RequestMemberId_field actingVersion (SnapshotRecordingQuery_RequestMemberId m) ].

Definition SnapshotRecordingQuery_Encode (m : SnapshotRecordingQuery) (doRangeCheck : bool) : M bytes unit :=
  when doRangeCheck (fail_if (SnapshotRecordingQuery_RangeCheck m 16 16)) ;;;
  WriteInt64 (SnapshotRecordingQuery_CorrelationId m) ;;;
  WriteInt32 (SnapshotRecordingQuery_RequestMemberId m).

Definition SnapshotRecordingQuery_Decode (actingVersion blockLength : Z) (doRangeCheck : bool) : M (bytes * SnapshotRecordingQuery) unit :=
  decode_field SnapshotRecordingQuery_CorrelationId_field actingVersion ReadInt64 SnapshotRecordingQuery_set_CorrelationId ;;;
  decode_field SnapshotRecordingQuery_RequestMemberId_field actingVersion ReadInt32 SnapshotRecordingQuery_set_RequestMemberId ;;;
  skip_block actingVersion 16 blockLength 12 ;;;
  when doRangeCheck (checked (fun m => SnapshotRecordingQuery_RangeCheck m actingVersion 16)).

#[export] Instance SnapshotRecordingQuery_codec : Codec SnapshotRecordingQuery := {|
  SbeBlockLength := 12; SbeTemplateId := 72; SbeSchemaId := 111; SbeSchemaVersion := 16;
  zero := mkSnapshotRecordingQuery 0 0;
  RangeCheck := SnapshotRecordingQuery_RangeCheck; Encode := SnapshotRecordingQuery_Encode; Decode := SnapshotRecordingQuery_Decode;
  valid m := is_i64 (SnapshotRecordingQuery_CorrelationId m) /\ is_i32 (SnapshotRecordingQuery_RequestMemberId m);
  fixed_part m := le_split 8 (SnapshotRecordingQuery_CorrelationId m) ++ le_split 4 (SnapshotRecordingQuery_RequestMemberId m);
  data_part m := [] |}.

#[export] Instance SnapshotRecordingQuery_laws : CodecLaws SnapshotRecordingQuery.
Proof. codec_laws SnapshotRecordingQuery_codec SnapshotRecordingQuery_Encode SnapshotRecordingQuery_Decode. Qed.

(** ** StopCatchup *)

Record StopCatchup : Type := mkStopCatchup { StopCatchup_LeadershipTermId : Z; StopCatchup_FollowerMemberId : Z
  }.

Definition StopCatchup_LeadershipTermId_field : field := mkField 1 0 0 false (-9223372036854775807) 9223372036854775807 (-9223372036854775808).
Definition StopCatchup_FollowerMemberId_field : field := mkField 2 0 0 false (-2147483647) 2147483647 (-2147483648).
Definition StopCatchup_set_LeadershipTermId (v : Z) (m : StopCatchup) : StopCatchup := mkStopCatchup v
  (StopCatchup_FollowerMemberId m).
Definition StopCatchup_set_FollowerMemberId (v : Z) (m : StopCatchup) : StopCatchup := mkStopCatchup
  (StopCatchup_LeadershipTermId m) v.

Definition StopCatchup_RangeCheck (m : StopCatchup) (actingVersion schemaVersion : Z) : option string :=
  first_error
    [ check_required StopCatchup_LeadershipTermId_field actingVersion (StopCatchup_LeadershipTermId m)
    ; check_required StopCatchup_FollowerMemberId_field actingVersion (StopCatchup_FollowerMemberId m) ].

Definition StopCatchup_Encode (m : StopCatchup) (doRangeCheck : bool) : M bytes unit :=
  when doRangeCheck (fail_if (StopCatchup_RangeCheck m 16 16)) ;;;
  WriteInt64 (StopCatchup_LeadershipTermId m) ;;;
  WriteInt32 (StopCatchup_FollowerMemberId m).

Definition StopCatchup_Decode (actingVersion blockLength : Z) (doRangeCheck : bool) : M (bytes * StopCatchup) unit :=
  decode_field StopCatchup_LeadershipTermId_field actingVersion ReadInt64 StopCatchup_set_LeadershipTermId ;;;
  decode_field StopCatchup_FollowerMemberId_field actingVersion ReadInt32 StopCatchup_set_FollowerMemberId ;;;
  skip_block actingVersion 16 blockLength 12 ;;;
  when doRangeCheck (checked (fun m => StopCatchup_RangeCheck m actingVersion 16)).

#[export] Instance StopCatchup_codec : Codec StopCatchup := {|
  SbeBlockLength := 12; SbeTemplateId := 57; SbeSchemaId := 111; SbeSchemaVersion := 16;
  zero := mkStopCatchup 0 0;
  RangeCheck := StopCatchup_RangeCheck; Encode := StopCatchup_Encode; Decode := StopCatchup_Decode;
  valid m := is_i64 (StopCatchup_LeadershipTermId m) /\ is_i32 (StopCatchup_FollowerMemberId m);
  fixed_part m := le_split 8 (StopCatchup_LeadershipTermId m) ++ le_split 4 (StopCatchup_FollowerMemberId m);
  data_part m := [] |}.

#[export] Instance StopCatchup_laws : CodecLaws StopCatchup.
Proof. codec_laws StopCatchup_codec StopCatchup_Encode StopCatchup_Decode. Qed.

(** ** TerminationAck *)

Record TerminationAck : Type := mkTerminationAck { TerminationAck_LeadershipTermId : Z;
  TerminationAck_LogPosition : Z; TerminationAck_MemberId : Z }.

Definition TerminationAck_LeadershipTermId_field : field := mkField 1 0 0 false (-9223372036854775807) 9223372036854775807 (-9223372036854775808).
Definition TerminationAck_LogPosition_field : field := mkField 2 0 0 false (-9223372036854775807) 9223372036854775807 (-9223372036854775808).
Definition TerminationAck_MemberId_field : field := mkField 3 0 0 false (-2147483647) 2147483647 (-2147483648).
Definition TerminationAck_set_LeadershipTermId (v : Z) (m : TerminationAck) : TerminationAck := mkTerminationAck
  v (TerminationAck_LogPosition m) (TerminationAck_MemberId m).
Definition TerminationAck_set_LogPosition (v : Z) (m : TerminationAck) : TerminationAck := mkTerminationAck
  (TerminationAck_LeadershipTermId m) v (TerminationAck_MemberId m).
Definition TerminationAck_set_MemberId (v : Z) (m : TerminationAck) : TerminationAck := mkTerminationAck
  (TerminationAck_LeadershipTermId m) (TerminationAck_LogPosition m) v.

Definition TerminationAck_RangeCheck (m : TerminationAck) (actingVersion schemaVersion : Z) : option string :=
  first_error
    [ check_required TerminationAck_LeadershipTermId_field actingVersion (TerminationAck_LeadershipTermId m)
    ; check_required TerminationAck_LogPosition_field actingVersion (TerminationAck_LogPosition m)
    ; check_required TerminationAck_MemberId_field actingVersion (TerminationAck_MemberId m) ].

Definition TerminationAck_Encode (m : TerminationAck) (doRangeCheck : bool) : M bytes unit :=
  when doRangeCheck (fail_if (TerminationAck_RangeCheck m 16 16)) ;;;
  WriteInt64 (TerminationAck_LeadershipTermId m) ;;;
  WriteInt64 (TerminationAck_LogPosition m) ;;;
  WriteInt32 (TerminationAck_MemberId m).

Definition TerminationAck_Decode (actingVersion blockLength : Z) (doRangeCheck : bool) : M (bytes * TerminationAck) unit :=
  decode_field TerminationAck_LeadershipTermId_field actingVersion ReadInt64 TerminationAck_set_LeadershipTermId ;;;
  decode_field TerminationAck_LogPosition_field actingVersion ReadInt64 TerminationAck_set_LogPosition ;;;
  decode_field TerminationAck_MemberId_field actingVersion ReadInt32 TerminationAck_set_MemberId ;;;
  skip_block actingVersion 16 blockLength 20 ;;;
  when doRangeCheck (checked (fun m => TerminationAck_RangeCheck m actingVersion 16)).

#[export] Instance TerminationAck_codec : Codec TerminationAck := {|
  SbeBlockLength := 20; SbeTemplateId := 76; SbeSchemaId := 111; SbeSchemaVersion := 16;
  zero := mkTerminationAck 0 0 0;
  RangeCheck := TerminationAck_RangeCheck; Encode := TerminationAck_Encode; Decode := TerminationAck_Decode;
  valid m := is_i64 (TerminationAck_LeadershipTermId m) /\ is_i64 (TerminationAck_LogPosition m) /\ is_i32
    (TerminationAck_MemberId m);
  fixed_part m := le_split 8 (TerminationAck_LeadershipTermId m) ++ le_split 8 (TerminationAck_LogPosition m) ++ le_split 4
    (TerminationAck_MemberId m);
  data_part m := [] |}.

#[export] Instance TerminationAck_laws : CodecLaws TerminationAck.
Proof. codec_laws TerminationAck_codec TerminationAck_Encode TerminationAck_Decode. Qed.

(** ** TerminationPosition *)

Record TerminationPosition : Type := mkTerminationPosition { TerminationPosition_LeadershipTermId : Z;
  TerminationPosition_LogPosition : Z }.

Definition TerminationPosition_LeadershipTermId_field : field := mkField 1 0 0 false (-9223372036854775807) 9223372036854775807 (-9223372036854775808).
Definition TerminationPosition_LogPosition_field : field := mkField 2 0 0 false (-9223372036854775807) 9223372036854775807 (-9223372036854775808).
Definition TerminationPosition_set_LeadershipTermId (v : Z) (m : TerminationPosition) : TerminationPosition :=
  mkTerminationPosition v (TerminationPosition_LogPosition m).
Definition TerminationPosition_set_LogPosition (v : Z) (m : TerminationPosition) : TerminationPosition :=
  mkTerminationPosition (TerminationPosition_LeadershipTermId m) v.

Definition TerminationPosition_RangeCheck (m : TerminationPosition) (actingVersion schemaVersion : Z) : option string :=
  first_error
    [ check_required TerminationPosition_LeadershipTermId_field actingVersion (TerminationPosition_LeadershipTermId m)
    ; check_required TerminationPosition_LogPosition_field actingVersion (TerminationPosition_LogPosition m) ].

Definition TerminationPosition_Encode (m : TerminationPosition) (doRangeCheck : bool) : M bytes unit :=
  when doRangeCheck (fail_if (TerminationPosition_RangeCheck m 16 16)) ;;;
  WriteInt64 (TerminationPosition_LeadershipTermId m) ;;;
  WriteInt64 (TerminationPosition_LogPosition m).

Definition TerminationPosition_Decode (actingVersion blockLength : Z) (doRangeCheck : bool) : M (bytes * TerminationPosition) unit :=
  decode_field TerminationPosition_LeadershipTermId_field actingVersion ReadInt64 TerminationPosition_set_LeadershipTermId ;;;
  decode_field TerminationPosition_LogPosition_field actingVersion ReadInt64 TerminationPosition_set_LogPosition ;;;
  skip_block actingVersion 16 blockLength 16 ;;;
  when doRangeCheck (checked (fun m => TerminationPosition_RangeCheck m actingVersion 16)).

#[export] Instance TerminationPosition_codec : Codec TerminationPosition := {|
  SbeBlockLength := 16; SbeTemplateId := 75; SbeSchemaId := 111; SbeSchemaVersion := 16;
  zero := mkTerminationPosition 0 0;
  RangeCheck := TerminationPosition_RangeCheck; Encode := TerminationPosition_Encode; Decode := TerminationPosition_Decode;
  valid m := is_i64 (TerminationPosition_LeadershipTermId m) /\ is_i64 (TerminationPosition_LogPosition m);
  fixed_part m := le_split 8 (TerminationPosition_LeadershipTermId m) ++ le_split 8 (TerminationPosition_LogPosition m);
  data_part m := [] |}.

#[export] Instance TerminationPosition_laws : CodecLaws TerminationPosition.
Proof. codec_laws TerminationPosition_codec TerminationPosition_Encode TerminationPosition_Decode. Qed.

(** ** Timer *)

Record Timer : Type := mkTimer { Timer_CorrelationId : Z; Timer_Deadline : Z }.

Definition Timer_CorrelationId_field : field := mkField 1 0 0 false (-9223372036854775807) 9223372036854775807 (-9223372036854775808).
Definition Timer_Deadline_field : field := mkField 2 0 0 false (-9223372036854775807) 9223372036854775807 (-9223372036854775808).
Definition Timer_set_CorrelationId (v : Z) (m : Timer) : Timer := mkTimer v (Timer_Deadline m).
Definition Timer_set_Deadline (v : Z) (m : Timer) : Timer := mkTimer (Timer_CorrelationId m) v.

Definition Timer_RangeCheck (m : Timer) (actingVersion schemaVersion : Z) : option string :=
  first_error
    [ check_required Timer_CorrelationId_field actingVersion (Timer_CorrelationId m)
    ; check_required Timer_Deadline_field actingVersion (Timer_Deadline m) ].

Definition Timer_Encode (m : Timer) (doRangeCheck : bool) : M bytes unit :=
  when doRangeCheck (fail_if (Timer_RangeCheck m 16 16)) ;;;
  WriteInt64 (Timer_CorrelationId m) ;;;
  WriteInt64 (Timer_Deadline m).

Definition Timer_Decode (actingVersion blockLength : Z) (doRangeCheck : bool) : M (bytes * Timer) unit :=
  decode_field Timer_CorrelationId_field actingVersion ReadInt64 Timer_set_CorrelationId ;;;
  decode_field Timer_Deadline_field actingVersion ReadInt64 Timer_set_Deadline ;;;
  skip_block actingVersion 16 blockLength 16 ;;;
  when doRangeCheck (checked (fun m => Timer_RangeCheck m actingVersion 16)).

#[export] Instance Timer_codec : Codec Timer := {|
  SbeBlockLength := 16; SbeTemplateId := 104; SbeSchemaId := 111; SbeSchemaVersion := 16;
  zero := mkTimer 0 0;
  RangeCheck := Timer_RangeCheck; Encode := Timer_Encode; Decode := Timer_Decode;
  valid m := is_i64 (Timer_CorrelationId m) /\ is_i64 (Timer_Deadline m);
  fixed_part m := le_split 8 (Timer_CorrelationId m) ++ le_split 8 (Timer_Deadline m);
  data_part m := [] |}.

#[export] Instance Timer_laws : CodecLaws Timer.
Proof. codec_laws Timer_codec Timer_Encode Timer_Decode. Qed.

(** ** TimerEvent *)

Record TimerEvent : Type := mkTimerEvent { TimerEvent_LeadershipTermId : Z; TimerEvent_CorrelationId : Z;
  TimerEvent_Timestamp : Z }.

Definition TimerEvent_LeadershipTermId_field : field := mkField 1 0 0 false (-9223372036854775807) 9223372036854775807 (-9223372036854775808).
Definition TimerEvent_CorrelationId_field : field := mkField 2 0 0 false (-9223372036854775807) 9223372036854775807 (-9223372036854775808).
Definition TimerEvent_Timestamp_field : field := mkField 3 0 0 false (-9223372036854775807) 9223372036854775807 (-9223372036854775808).
Definition TimerEvent_set_LeadershipTermId (v : Z) (m : TimerEvent) : TimerEvent := mkTimerEvent v
  (TimerEvent_CorrelationId m) (TimerEvent_Timestamp m).
Definition TimerEvent_set_CorrelationId (v : Z) (m : TimerEvent) : TimerEvent := mkTimerEvent
  (TimerEvent_LeadershipTermId m) v (TimerEvent_Timestamp m).
Definition TimerEvent_set_Timestamp (v : Z) (m : TimerEvent) : TimerEvent := mkTimerEvent
  (TimerEvent_LeadershipTermId m) (TimerEvent_CorrelationId m) v.

Definition TimerEvent_RangeCheck (m : TimerEvent) (actingVersion schemaVersion : Z) : option string :=
  first_error
    [ check_required TimerEvent_LeadershipTermId_field actingVersion (TimerEvent_LeadershipTermId m)
    ; check_required TimerEvent_CorrelationId_field actingVersion (TimerEvent_CorrelationId m)
    ; check_required TimerEvent_Timestamp_field actingVersion (TimerEvent_Timestamp m) ].

Definition TimerEvent_Encode (m : TimerEvent) (doRangeCheck : bool) : M bytes unit :=
  when doRangeCheck (fail_if (TimerEvent_RangeCheck m 16 16)) ;;;
  WriteInt64 (TimerEvent_LeadershipTermId m) ;;;
  WriteInt64 (TimerEvent_CorrelationId m) ;;;
  WriteInt64 (TimerEvent_Timestamp m).

Definition TimerEvent_Decode (actingVersion blockLength : Z) (doRangeCheck : bool) : M (bytes * TimerEvent) unit :=
  decode_field TimerEvent_LeadershipTermId_field actingVersion ReadInt64 TimerEvent_set_LeadershipTermId ;;;
  decode_field TimerEvent_CorrelationId_field actingVersion ReadInt64 TimerEvent_set_CorrelationId ;;;
  decode_field TimerEvent_Timestamp_field actingVersion ReadInt64 TimerEvent_set_Timestamp ;;;
  skip_block actingVersion 16 blockLength 24 ;;;
  when doRangeCheck (checked (fun m => TimerEvent_RangeCheck m actingVersion 16)).

#[export] Instance TimerEvent_codec : Codec TimerEvent := {|
  SbeBlockLength := 24; SbeTemplateId := 20; SbeSchemaId := 111; SbeSchemaVersion := 16;
  zero := mkTimerEvent 0 0 0;
  RangeCheck := TimerEvent_RangeCheck; Encode := TimerEvent_Encode; Decode := TimerEvent_Decode;
  valid m := is_i64 (TimerEvent_LeadershipTermId m) /\ is_i64 (TimerEvent_CorrelationId m) /\ is_i64 (TimerEvent_Timestamp m);
  fixed_part m := le_split 8 (TimerEvent_LeadershipTermId m) ++ le_split 8 (TimerEvent_CorrelationId m) ++ le_split 8
    (TimerEvent_Timestamp m);
  data_part m := [] |}.

#[export] Instance TimerEvent_laws : CodecLaws TimerEvent.
Proof. codec_laws TimerEvent_codec TimerEvent_Encode TimerEvent_Decode. Qed.

(** ** Vote *)

Record Vote : Type := mkVote { Vote_CandidateTermId : Z; Vote_LogLeadershipTermId : Z; Vote_LogPosition : Z;
  Vote_CandidateMemberId : Z; Vote_FollowerMemberId : Z; Vote_Vote : Z }.

Definition Vote_CandidateTermId_field : field := mkField 1 0 0 false (-9223372036854775807) 9223372036854775807 (-9223372036854775808).
Definition Vote_LogLeadershipTermId_field : field := mkField 2 0 0 false (-9223372036854775807) 9223372036854775807 (-9223372036854775808).
Definition Vote_LogPosition_field : field := mkField 3 0 0 false (-9223372036854775807) 9223372036854775807 (-9223372036854775808).
Definition Vote_CandidateMemberId_field : field := mkField 4 0 0 false (-2147483647) 2147483647 (-2147483648).
Definition Vote_FollowerMemberId_field : field := mkField 5 0 0 false (-2147483647) 2147483647 (-2147483648).
Definition Vote_Vote_field : field := mkField 6 0 0 false 0 0 0.
Definition Vote_set_CandidateTermId (v : Z) (m : Vote) : Vote := mkVote v (Vote_LogLeadershipTermId m)
  (Vote_LogPosition m) (Vote_CandidateMemberId m) (Vote_FollowerMemberId m) (Vote_Vote m).
Definition Vote_set_LogLeadershipTermId (v : Z) (m : Vote) : Vote := mkVote (Vote_CandidateTermId m) v
  (Vote_LogPosition m) (Vote_CandidateMemberId m) (Vote_FollowerMemberId m) (Vote_Vote m).
Definition Vote_set_LogPosition (v : Z) (m : Vote) : Vote := mkVote (Vote_CandidateTermId m)
  (Vote_LogLeadershipTermId m) v (Vote_CandidateMemberId m) (Vote_FollowerMemberId m) (Vote_Vote m).
Definition Vote_set_CandidateMemberId (v : Z) (m : Vote) : Vote := mkVote (Vote_CandidateTermId m)
  (Vote_LogLeadershipTermId m) (Vote_LogPosition m) v (Vote_FollowerMemberId m) (Vote_Vote m).
Definition Vote_set_FollowerMemberId (v : Z) (m : Vote) : Vote := mkVote (Vote_CandidateTermId m)
  (Vote_LogLeadershipTermId m) (Vote_LogPosition m) (Vote_CandidateMemberId m) v (Vote_Vote m).
Definition Vote_set_Vote (v : Z) (m : Vote) : Vote := mkVote (Vote_CandidateTermId m) (Vote_LogLeadershipTermId
  m) (Vote_LogPosition m) (Vote_CandidateMemberId m) (Vote_FollowerMemberId m) v.

Definition Vote_RangeCheck (m : Vote) (actingVersion schemaVersion : Z) : option string :=
  first_error
    [ check_required Vote_CandidateTermId_field actingVersion (Vote_CandidateTermId m)
    ; check_required Vote_LogLeadershipTermId_field actingVersion (Vote_LogLeadershipTermId m)
    ; check_required Vote_LogPosition_field actingVersion (Vote_LogPosition m)
    ; check_required Vote_CandidateMemberId_field actingVersion (Vote_CandidateMemberId m)
    ; check_required Vote_FollowerMemberId_field actingVersion (Vote_FollowerMemberId m)
    ; check_enum BooleanTypeValues actingVersion schemaVersion (Vote_Vote m) ].

Definition Vote_Encode (m : Vote) (doRangeCheck : bool) : M bytes unit :=
  when doRangeCheck (fail_if (Vote_RangeCheck m 16 16)) ;;;
  WriteInt64 (Vote_CandidateTermId m) ;;;
  WriteInt64 (Vote_LogLeadershipTermId m) ;;;
  WriteInt64 (Vote_LogPosition m) ;;;
  WriteInt32 (Vote_CandidateMemberId m) ;;;
  WriteInt32 (Vote_FollowerMemberId m) ;;;
  WriteInt32 (Vote_Vote m).

Definition Vote_Decode (actingVersion blockLength : Z) (doRangeCheck : bool) : M (bytes * Vote) unit :=
  decode_field Vote_CandidateTermId_field actingVersion ReadInt64 Vote_set_CandidateTermId ;;;
  decode_field Vote_LogLeadershipTermId_field actingVersion ReadInt64 Vote_set_LogLeadershipTermId ;;;
  decode_field Vote_LogPosition_field actingVersion ReadInt64 Vote_set_LogPosition ;;;
  decode_field Vote_CandidateMemberId_field actingVersion ReadInt32 Vote_set_CandidateMemberId ;;;
  decode_field Vote_FollowerMemberId_field actingVersion ReadInt32 Vote_set_FollowerMemberId ;;;
  decode_enum Vote_Vote_field actingVersion ReadInt32 Vote_set_Vote ;;;
  skip_block actingVersion 16 blockLength 36 ;;;
  when doRangeCheck (checked (fun m => Vote_RangeCheck m actingVersion 16)).

#[export] Instance Vote_codec : Codec Vote := {|
  SbeBlockLength := 36; SbeTemplateId := 52; SbeSchemaId := 111; SbeSchemaVersion := 16;
  zero := mkVote 0 0 0 0 0 0;
  RangeCheck := Vote_RangeCheck; Encode := Vote_Encode; Decode := Vote_Decode;
  valid m := is_i64 (Vote_CandidateTermId m) /\ is_i64 (Vote_LogLeadershipTermId m) /\ is_i64 (Vote_LogPosition m) /\ is_i32
    (Vote_CandidateMemberId m) /\ is_i32 (Vote_FollowerMemberId m) /\ is_i32 (Vote_Vote m);
  fixed_part m := le_split 8 (Vote_CandidateTermId m) ++ le_split 8 (Vote_LogLeadershipTermId m) ++ le_split 8 (Vote_LogPosition
    m) ++ le_split 4 (Vote_CandidateMemberId m) ++ le_split 4 (Vote_FollowerMemberId m) ++ le_split 4 (Vote_Vote
    m);
  data_part m := [] |}.

#[export] Instance Vote_laws : CodecLaws Vote.
Proof. codec_laws Vote_codec Vote_Encode Vote_Decode. Qed.
