(* ===== verification/ClusterGroups.v ===== *)
(** * The messages of the cluster with repeating groups

    cluster/codecs: the four messages that hold lists of members or snapshots, as generated;
    an element is a record of its own with its codec, a message has the lists of them. *)

From S2P Require Import Prelude Sbe SbeGroup.

Local Open Scope m_scope.

Local Abbreviation bytes := (list Init.Byte.byte).

(** ** BackupResponseSnapshots *)

Record BackupResponseSnapshots : Type := mkBackupResponseSnapshots { BackupResponseSnapshots_RecordingId : Z;
  BackupResponseSnapshots_LeadershipTermId : Z; BackupResponseSnapshots_TermBaseLogPosition : Z;
  BackupResponseSnapshots_LogPosition : Z; BackupResponseSnapshots_Timestamp : Z;
  BackupResponseSnapshots_ServiceId : Z }.

Definition BackupResponseSnapshots_RecordingId_field : field := mkField 10 0 0 false (-9223372036854775807) 9223372036854775807 (-9223372036854775808).
Definition BackupResponseSnapshots_LeadershipTermId_field : field := mkField 11 0 0 false (-9223372036854775807) 9223372036854775807 (-9223372036854775808).
Definition BackupResponseSnapshots_TermBaseLogPosition_field : field := mkField 12 0 0 false (-9223372036854775807) 9223372036854775807 (-9223372036854775808).
Definition BackupResponseSnapshots_LogPosition_field : field := mkField 13 0 0 false (-9223372036854775807) 9223372036854775807 (-9223372036854775808).
Definition BackupResponseSnapshots_Timestamp_field : field := mkField 14 0 0 false (-9223372036854775807) 9223372036854775807 (-9223372036854775808).
Definition BackupResponseSnapshots_ServiceId_field : field := mkField 15 0 0 false (-2147483647) 2147483647 (-2147483648).
Definition BackupResponseSnapshots_set_RecordingId (v : Z) (m : BackupResponseSnapshots) :
  BackupResponseSnapshots := mkBackupResponseSnapshots v (BackupResponseSnapshots_LeadershipTermId m)
  (BackupResponseSnapshots_TermBaseLogPosition m) (BackupResponseSnapshots_LogPosition m)
  (BackupResponseSnapshots_Timestamp m) (BackupResponseSnapshots_ServiceId m).
Definition BackupResponseSnapshots_set_LeadershipTermId (v : Z) (m : BackupResponseSnapshots) :
  BackupResponseSnapshots := mkBackupResponseSnapshots (BackupResponseSnapshots_RecordingId m) v
  (BackupResponseSnapshots_TermBaseLogPosition m) (BackupResponseSnapshots_LogPosition m)
  (BackupResponseSnapshots_Timestamp m) (BackupResponseSnapshots_ServiceId m).
Definition BackupResponseSnapshots_set_TermBaseLogPosition (v : Z) (m : BackupResponseSnapshots) :
  BackupResponseSnapshots := mkBackupResponseSnapshots (BackupResponseSnapshots_RecordingId m)
  (BackupResponseSnapshots_LeadershipTermId m) v (BackupResponseSnapshots_LogPosition m)
  (BackupResponseSnapshots_Timestamp m) (BackupResponseSnapshots_ServiceId m).
Definition BackupResponseSnapshots_set_LogPosition (v : Z) (m : BackupResponseSnapshots) :
  BackupResponseSnapshots := mkBackupResponseSnapshots (BackupResponseSnapshots_RecordingId m)
  (BackupResponseSnapshots_LeadershipTermId m) (BackupResponseSnapshots_TermBaseLogPosition m) v
  (BackupResponseSnapshots_Timestamp m) (BackupResponseSnapshots_ServiceId m).
Definition BackupResponseSnapshots_set_Timestamp (v : Z) (m : BackupResponseSnapshots) : BackupResponseSnapshots
  := mkBackupResponseSnapshots (BackupResponseSnapshots_RecordingId m) (BackupResponseSnapshots_LeadershipTermId
  m) (BackupResponseSnapshots_TermBaseLogPosition m) (BackupResponseSnapshots_LogPosition m) v
  (BackupResponseSnapshots_ServiceId m).
Definition BackupResponseSnapshots_set_ServiceId (v : Z) (m : BackupResponseSnapshots) : BackupResponseSnapshots
  := mkBackupResponseSnapshots (BackupResponseSnapshots_RecordingId m) (BackupResponseSnapshots_LeadershipTermId
  m) (BackupResponseSnapshots_TermBaseLogPosition m) (BackupResponseSnapshots_LogPosition m)
  (BackupResponseSnapshots_Timestamp m) v.

Definition BackupResponseSnapshots_RangeCheck (m : BackupResponseSnapshots) (actingVersion schemaVersion : Z) : option string :=
  first_error
    [ check_required BackupResponseSnapshots_RecordingId_field actingVersion (BackupResponseSnapshots_RecordingId m)
    ; check_required BackupResponseSnapshots_LeadershipTermId_field actingVersion (BackupResponseSnapshots_LeadershipTermId m)
    ; check_required BackupResponseSnapshots_TermBaseLogPosition_field actingVersion (BackupResponseSnapshots_TermBaseLogPosition m)
    ; check_required BackupResponseSnapshots_LogPosition_field actingVersion (BackupResponseSnapshots_LogPosition m)
    ; check_required BackupResponseSnapshots_Timestamp_field actingVersion (BackupResponseSnapshots_Timestamp m)
    ; check_required BackupResponseSnapshots_ServiceId_field actingVersion (BackupResponseSnapshots_ServiceId m) ].

Definition BackupResponseSnapshots_Encode (m : BackupResponseSnapshots) : M bytes unit :=
  WriteInt64 (BackupResponseSnapshots_RecordingId m) ;;;
  WriteInt64 (BackupResponseSnapshots_LeadershipTermId m) ;;;
  WriteInt64 (BackupResponseSnapshots_TermBaseLogPosition m) ;;;
  WriteInt64 (BackupResponseSnapshots_LogPosition m) ;;;
  WriteInt64 (BackupResponseSnapshots_Timestamp m) ;;;
  WriteInt32 (BackupResponseSnapshots_ServiceId m).

Definition BackupResponseSnapshots_Decode (actingVersion blockLength : Z) : M (bytes * BackupResponseSnapshots) unit :=
  decode_field BackupResponseSnapshots_RecordingId_field actingVersion ReadInt64 BackupResponseSnapshots_set_RecordingId ;;;
  decode_field BackupResponseSnapshots_LeadershipTermId_field actingVersion ReadInt64 BackupResponseSnapshots_set_LeadershipTermId ;;;
  decode_field BackupResponseSnapshots_TermBaseLogPosition_field actingVersion ReadInt64 BackupResponseSnapshots_set_TermBaseLogPosition ;;;
  decode_field BackupResponseSnapshots_LogPosition_field actingVersion ReadInt64 BackupResponseSnapshots_set_LogPosition ;;;
  decode_field BackupResponseSnapshots_Timestamp_field actingVersion ReadInt64 BackupResponseSnapshots_set_Timestamp ;;;
  decode_field BackupResponseSnapshots_ServiceId_field actingVersion ReadInt32 BackupResponseSnapshots_set_ServiceId ;;;
  skip_block actingVersion 16 blockLength 44.

#[export] Instance BackupResponseSnapshots_codec : ElementCodec BackupResponseSnapshots := {|
  ElementBlockLength := 44; ElementSchemaVersion := 16; element_zero := mkBackupResponseSnapshots 0 0 0 0 0 0;
  element_Encode := BackupResponseSnapshots_Encode; element_Decode := BackupResponseSnapshots_Decode; element_RangeCheck := BackupResponseSnapshots_RangeCheck;
  element_valid m := is_i64 (BackupResponseSnapshots_RecordingId m) /\ is_i64 (BackupResponseSnapshots_LeadershipTermId m) /\ is_i64
    (BackupResponseSnapshots_TermBaseLogPosition m) /\ is_i64 (BackupResponseSnapshots_LogPosition m) /\ is_i64
    (BackupResponseSnapshots_Timestamp m) /\ is_i32 (BackupResponseSnapshots_ServiceId m);
  element_bytes m := le_split 8 (BackupResponseSnapshots_RecordingId m) ++ le_split 8 (BackupResponseSnapshots_LeadershipTermId m) ++
    le_split 8 (BackupResponseSnapshots_TermBaseLogPosition m) ++ le_split 8
    (BackupResponseSnapshots_LogPosition m) ++ le_split 8 (BackupResponseSnapshots_Timestamp m) ++ le_split 4
    (BackupResponseSnapshots_ServiceId m) |}.

#[export] Instance BackupResponseSnapshots_laws : ElementLaws BackupResponseSnapshots.
Proof. element_laws BackupResponseSnapshots_codec BackupResponseSnapshots_Encode BackupResponseSnapshots_Decode. Qed.

(** ** BackupResponse *)

Record BackupResponse : Type := mkBackupResponse { BackupResponse_CorrelationId : Z;
  BackupResponse_LogRecordingId : Z; BackupResponse_LogLeadershipTermId : Z;
  BackupResponse_LogTermBaseLogPosition : Z; BackupResponse_LastLeadershipTermId : Z;
  BackupResponse_LastTermBaseLogPosition : Z; BackupResponse_CommitPositionCounterId : Z;
  BackupResponse_LeaderMemberId : Z; BackupResponse_MemberId : Z; BackupResponse_Snapshots : list
  BackupResponseSnapshots; BackupResponse_ClusterMembers : bytes }.

Definition BackupResponse_CorrelationId_field : field := mkField 1 0 0 false (-9223372036854775807) 9223372036854775807 (-9223372036854775808).
Definition BackupResponse_LogRecordingId_field : field := mkField 2 0 0 false (-9223372036854775807) 9223372036854775807 (-9223372036854775808).
Definition BackupResponse_LogLeadershipTermId_field : field := mkField 3 0 0 false (-9223372036854775807) 9223372036854775807 (-9223372036854775808).
Definition BackupResponse_LogTermBaseLogPosition_field : field := mkField 4 0 0 false (-9223372036854775807) 9223372036854775807 (-9223372036854775808).
Definition BackupResponse_LastLeadershipTermId_field : field := mkField 5 0 0 false (-9223372036854775807) 9223372036854775807 (-9223372036854775808).
Definition BackupResponse_LastTermBaseLogPosition_field : field := mkField 6 0 0 false (-9223372036854775807) 9223372036854775807 (-9223372036854775808).
Definition BackupResponse_CommitPositionCounterId_field : field := mkField 7 0 0 false (-2147483647) 2147483647 (-2147483648).
Definition BackupResponse_LeaderMemberId_field : field := mkField 8 0 0 false (-2147483647) 2147483647 (-2147483648).
Definition BackupResponse_MemberId_field : field := mkField 17 10 0 false (-2147483647) 2147483647 (-2147483648).
Definition BackupResponse_Snapshots_group : group_field := mkGroupField 9 0 0.
Definition BackupResponse_ClusterMembers_field : data_field := mkDataField 0 0 "US-ASCII" 4.
Definition BackupResponse_set_CorrelationId (v : Z) (m : BackupResponse) : BackupResponse := mkBackupResponse v
  (BackupResponse_LogRecordingId m) (BackupResponse_LogLeadershipTermId m)
  (BackupResponse_LogTermBaseLogPosition m) (BackupResponse_LastLeadershipTermId m)
  (BackupResponse_LastTermBaseLogPosition m) (BackupResponse_CommitPositionCounterId m)
  (BackupResponse_LeaderMemberId m) (BackupResponse_MemberId m) (BackupResponse_Snapshots m)
  (BackupResponse_ClusterMembers m).
Definition BackupResponse_set_LogRecordingId (v : Z) (m : BackupResponse) : BackupResponse := mkBackupResponse
  (BackupResponse_CorrelationId m) v (BackupResponse_LogLeadershipTermId m)
  (BackupResponse_LogTermBaseLogPosition m) (BackupResponse_LastLeadershipTermId m)
  (BackupResponse_LastTermBaseLogPosition m) (BackupResponse_CommitPositionCounterId m)
  (BackupResponse_LeaderMemberId m) (BackupResponse_MemberId m) (BackupResponse_Snapshots m)
  (BackupResponse_ClusterMembers m).
Definition BackupResponse_set_LogLeadershipTermId (v : Z) (m : BackupResponse) : BackupResponse :=
  mkBackupResponse (BackupResponse_CorrelationId m) (BackupResponse_LogRecordingId m) v
  (BackupResponse_LogTermBaseLogPosition m) (BackupResponse_LastLeadershipTermId m)
  (BackupResponse_LastTermBaseLogPosition m) (BackupResponse_CommitPositionCounterId m)
  (BackupResponse_LeaderMemberId m) (BackupResponse_MemberId m) (BackupResponse_Snapshots m)
  (BackupResponse_ClusterMembers m).
Definition BackupResponse_set_LogTermBaseLogPosition (v : Z) (m : BackupResponse) : BackupResponse :=
  mkBackupResponse (BackupResponse_CorrelationId m) (BackupResponse_LogRecordingId m)
  (BackupResponse_LogLeadershipTermId m) v (BackupResponse_LastLeadershipTermId m)
  (BackupResponse_LastTermBaseLogPosition m) (BackupResponse_CommitPositionCounterId m)
  (BackupResponse_LeaderMemberId m) (BackupResponse_MemberId m) (BackupResponse_Snapshots m)
  (BackupResponse_ClusterMembers m).
Definition BackupResponse_set_LastLeadershipTermId (v : Z) (m : BackupResponse) : BackupResponse :=
  mkBackupResponse (BackupResponse_CorrelationId m) (BackupResponse_LogRecordingId m)
  (BackupResponse_LogLeadershipTermId m) (BackupResponse_LogTermBaseLogPosition m) v
  (BackupResponse_LastTermBaseLogPosition m) (BackupResponse_CommitPositionCounterId m)
  (BackupResponse_LeaderMemberId m) (BackupResponse_MemberId m) (BackupResponse_Snapshots m)
  (BackupResponse_ClusterMembers m).
Definition BackupResponse_set_LastTermBaseLogPosition (v : Z) (m : BackupResponse) : BackupResponse :=
  mkBackupResponse (BackupResponse_CorrelationId m) (BackupResponse_LogRecordingId m)
  (BackupResponse_LogLeadershipTermId m) (BackupResponse_LogTermBaseLogPosition m)
  (BackupResponse_LastLeadershipTermId m) v (BackupResponse_CommitPositionCounterId m)
  (BackupResponse_LeaderMemberId m) (BackupResponse_MemberId m) (BackupResponse_Snapshots m)
  (BackupResponse_ClusterMembers m).
Definition BackupResponse_set_CommitPositionCounterId (v : Z) (m : BackupResponse) : BackupResponse :=
  mkBackupResponse (BackupResponse_CorrelationId m) (BackupResponse_LogRecordingId m)
  (BackupResponse_LogLeadershipTermId m) (BackupResponse_LogTermBaseLogPosition m)
  (BackupResponse_LastLeadershipTermId m) (BackupResponse_LastTermBaseLogPosition m) v
  (BackupResponse_LeaderMemberId m) (BackupResponse_MemberId m) (BackupResponse_Snapshots m)
  (BackupResponse_ClusterMembers m).
Definition BackupResponse_set_LeaderMemberId (v : Z) (m : BackupResponse) : BackupResponse := mkBackupResponse
  (BackupResponse_CorrelationId m) (BackupResponse_LogRecordingId m) (BackupResponse_LogLeadershipTermId m)
  (BackupResponse_LogTermBaseLogPosition m) (BackupResponse_LastLeadershipTermId m)
  (BackupResponse_LastTermBaseLogPosition m) (BackupResponse_CommitPositionCounterId m) v
  (BackupResponse_MemberId m) (BackupResponse_Snapshots m) (BackupResponse_ClusterMembers m).
Definition BackupResponse_set_MemberId (v : Z) (m : BackupResponse) : BackupResponse := mkBackupResponse
  (BackupResponse_CorrelationId m) (BackupResponse_LogRecordingId m) (BackupResponse_LogLeadershipTermId m)
  (BackupResponse_LogTermBaseLogPosition m) (BackupResponse_LastLeadershipTermId m)
  (BackupResponse_LastTermBaseLogPosition m) (BackupResponse_CommitPositionCounterId m)
  (BackupResponse_LeaderMemberId m) v (BackupResponse_Snapshots m) (BackupResponse_ClusterMembers m).
Definition BackupResponse_set_Snapshots (v : list BackupResponseSnapshots) (m : BackupResponse) : BackupResponse
  := mkBackupResponse (BackupResponse_CorrelationId m) (BackupResponse_LogRecordingId m)
  (BackupResponse_LogLeadershipTermId m) (BackupResponse_LogTermBaseLogPosition m)
  (BackupResponse_LastLeadershipTermId m) (BackupResponse_LastTermBaseLogPosition m)
  (BackupResponse_CommitPositionCounterId m) (BackupResponse_LeaderMemberId m) (BackupResponse_MemberId m) v
  (BackupResponse_ClusterMembers m).
Definition BackupResponse_set_ClusterMembers (v : bytes) (m : BackupResponse) : BackupResponse :=
  mkBackupResponse (BackupResponse_CorrelationId m) (BackupResponse_LogRecordingId m)
  (BackupResponse_LogLeadershipTermId m) (BackupResponse_LogTermBaseLogPosition m)
  (BackupResponse_LastLeadershipTermId m) (BackupResponse_LastTermBaseLogPosition m)
  (BackupResponse_CommitPositionCounterId m) (BackupResponse_LeaderMemberId m) (BackupResponse_MemberId m)
  (BackupResponse_Snapshots m) v.

Definition BackupResponse_RangeCheck (m : BackupResponse) (actingVersion schemaVersion : Z) : option string :=
  first_error
    [ check_required BackupResponse_CorrelationId_field actingVersion (BackupResponse_CorrelationId m)
    ; check_required BackupResponse_LogRecordingId_field actingVersion (BackupResponse_LogRecordingId m)
    ; check_required BackupResponse_LogLeadershipTermId_field actingVersion (BackupResponse_LogLeadershipTermId m)
    ; check_required BackupResponse_LogTermBaseLogPosition_field actingVersion (BackupResponse_LogTermBaseLogPosition m)
    ; check_required BackupResponse_LastLeadershipTermId_field actingVersion (BackupResponse_LastLeadershipTermId m)
    ; check_required BackupResponse_LastTermBaseLogPosition_field actingVersion (BackupResponse_LastTermBaseLogPosition m)
    ; check_required BackupResponse_CommitPositionCounterId_field actingVersion (BackupResponse_CommitPositionCounterId m)
    ; check_required BackupResponse_LeaderMemberId_field actingVersion (BackupResponse_LeaderMemberId m)
    ; check_required BackupResponse_MemberId_field actingVersion (BackupResponse_MemberId m)
    ; check_group (BackupResponse_Snapshots m) actingVersion schemaVersion
    ; check_ascii (BackupResponse_ClusterMembers m) ].

Definition BackupResponse_Encode (m : BackupResponse) (doRangeCheck : bool) : M bytes unit :=
  when doRangeCheck (fail_if (BackupResponse_RangeCheck m 16 16)) ;;;
  WriteInt64 (BackupResponse_CorrelationId m) ;;;
  WriteInt64 (BackupResponse_LogRecordingId m) ;;;
  WriteInt64 (BackupResponse_LogLeadershipTermId m) ;;;
  WriteInt64 (BackupResponse_LogTermBaseLogPosition m) ;;;
  WriteInt64 (BackupResponse_LastLeadershipTermId m) ;;;
  WriteInt64 (BackupResponse_LastTermBaseLogPosition m) ;;;
  WriteInt32 (BackupResponse_CommitPositionCounterId m) ;;;
  WriteInt32 (BackupResponse_LeaderMemberId m) ;;;
  WriteInt32 (BackupResponse_MemberId m) ;;;
  WriteGroup (BackupResponse_Snapshots m) ;;;
  WriteUint32 (u32 (zlen (BackupResponse_ClusterMembers m))) ;;;
  WriteBytes (BackupResponse_ClusterMembers m).

Definition BackupResponse_Decode (actingVersion blockLength : Z) (doRangeCheck : bool) : M (bytes * BackupResponse) unit :=
  decode_field BackupResponse_CorrelationId_field actingVersion ReadInt64 BackupResponse_set_CorrelationId ;;;
  decode_field BackupResponse_LogRecordingId_field actingVersion ReadInt64 BackupResponse_set_LogRecordingId ;;;
  decode_field BackupResponse_LogLeadershipTermId_field actingVersion ReadInt64 BackupResponse_set_LogLeadershipTermId ;;;
  decode_field BackupResponse_LogTermBaseLogPosition_field actingVersion ReadInt64 BackupResponse_set_LogTermBaseLogPosition ;;;
  decode_field BackupResponse_LastLeadershipTermId_field actingVersion ReadInt64 BackupResponse_set_LastLeadershipTermId ;;;
  decode_field BackupResponse_LastTermBaseLogPosition_field actingVersion ReadInt64 BackupResponse_set_LastTermBaseLogPosition ;;;
  decode_field BackupResponse_CommitPositionCounterId_field actingVersion ReadInt32 BackupResponse_set_CommitPositionCounterId ;;;
  decode_field BackupResponse_LeaderMemberId_field actingVersion ReadInt32 BackupResponse_set_LeaderMemberId ;;;
  decode_field BackupResponse_MemberId_field actingVersion ReadInt32 BackupResponse_set_MemberId ;;;
  skip_block actingVersion 16 blockLength 60 ;;;
  decode_group BackupResponse_Snapshots BackupResponse_set_Snapshots BackupResponse_Snapshots_group actingVersion ;;;
  decode_data BackupResponse_ClusterMembers_field actingVersion BackupResponse_set_ClusterMembers ;;;
  when doRangeCheck (checked (fun m => BackupResponse_RangeCheck m actingVersion 16)).

#[export] Instance BackupResponse_codec : Codec BackupResponse := {|
  SbeBlockLength := 60; SbeTemplateId := 78; SbeSchemaId := 111; SbeSchemaVersion := 16;
  zero := mkBackupResponse 0 0 0 0 0 0 0 0 0 [] [];
  RangeCheck := BackupResponse_RangeCheck; Encode := BackupResponse_Encode; Decode := BackupResponse_Decode;
  valid m := is_i64 (BackupResponse_CorrelationId m) /\ is_i64 (BackupResponse_LogRecordingId m) /\ is_i64
    (BackupResponse_LogLeadershipTermId m) /\ is_i64 (BackupResponse_LogTermBaseLogPosition m) /\ is_i64
    (BackupResponse_LastLeadershipTermId m) /\ is_i64 (BackupResponse_LastTermBaseLogPosition m) /\ is_i32
    (BackupResponse_CommitPositionCounterId m) /\ is_i32 (BackupResponse_LeaderMemberId m) /\ is_i32
    (BackupResponse_MemberId m) /\ group_valid (BackupResponse_Snapshots m) /\ zlen
    (BackupResponse_ClusterMembers m) < 4294967296;
  fixed_part m := le_split 8 (BackupResponse_CorrelationId m) ++ le_split 8 (BackupResponse_LogRecordingId m) ++ le_split 8
    (BackupResponse_LogLeadershipTermId m) ++ le_split 8 (BackupResponse_LogTermBaseLogPosition m) ++ le_split 8
    (BackupResponse_LastLeadershipTermId m) ++ le_split 8 (BackupResponse_LastTermBaseLogPosition m) ++ le_split
    4 (BackupResponse_CommitPositionCounterId m) ++ le_split 4 (BackupResponse_LeaderMemberId m) ++ le_split 4
    (BackupResponse_MemberId m);
  data_part m := group_bytes (BackupResponse_Snapshots m) ++ data_bytes (BackupResponse_ClusterMembers m) |}.

#[export] Instance BackupResponse_laws : CodecLaws BackupResponse.
Proof. codec_laws BackupResponse_codec BackupResponse_Encode BackupResponse_Decode. Qed.

(** ** ClusterMembersExtendedResponseActiveMembers *)

Record ClusterMembersExtendedResponseActiveMembers : Type := mkClusterMembersExtendedResponseActiveMembers {
  ClusterMembersExtendedResponseActiveMembers_LeadershipTermId : Z;
  ClusterMembersExtendedResponseActiveMembers_LogPosition : Z;
  ClusterMembersExtendedResponseActiveMembers_TimeOfLastAppendNs : Z;
  ClusterMembersExtendedResponseActiveMembers_MemberId : Z;
  ClusterMembersExtendedResponseActiveMembers_IngressEndpoint : bytes;
  ClusterMembersExtendedResponseActiveMembers_ConsensusEndpoint : bytes;
  ClusterMembersExtendedResponseActiveMembers_LogEndpoint : bytes;
  ClusterMembersExtendedResponseActiveMembers_CatchupEndpoint : bytes;
  ClusterMembersExtendedResponseActiveMembers_ArchiveEndpoint : bytes }.

Definition ClusterMembersExtendedResponseActiveMembers_LeadershipTermId_field : field := mkField 6 0 0 false (-9223372036854775807) 9223372036854775807 (-9223372036854775808).
Definition ClusterMembersExtendedResponseActiveMembers_LogPosition_field : field := mkField 7 0 0 false (-9223372036854775807) 9223372036854775807 (-9223372036854775808).
Definition ClusterMembersExtendedResponseActiveMembers_TimeOfLastAppendNs_field : field := mkField 8 0 0 false (-9223372036854775807) 9223372036854775807 (-9223372036854775808).
Definition ClusterMembersExtendedResponseActiveMembers_MemberId_field : field := mkField 9 0 0 false (-2147483647) 2147483647 (-2147483648).
Definition ClusterMembersExtendedResponseActiveMembers_IngressEndpoint_field : data_field := mkDataField 0 0 "US-ASCII" 4.
Definition ClusterMembersExtendedResponseActiveMembers_ConsensusEndpoint_field : data_field := mkDataField 0 0 "US-ASCII" 4.
Definition ClusterMembersExtendedResponseActiveMembers_LogEndpoint_field : data_field := mkDataField 0 0 "US-ASCII" 4.
Definition ClusterMembersExtendedResponseActiveMembers_CatchupEndpoint_field : data_field := mkDataField 0 0 "US-ASCII" 4.
Definition ClusterMembersExtendedResponseActiveMembers_ArchiveEndpoint_field : data_field := mkDataField 0 0 "US-ASCII" 4.
Definition ClusterMembersExtendedResponseActiveMembers_set_LeadershipTermId (v : Z) (m :
  ClusterMembersExtendedResponseActiveMembers) : ClusterMembersExtendedResponseActiveMembers :=
  mkClusterMembersExtendedResponseActiveMembers v (ClusterMembersExtendedResponseActiveMembers_LogPosition m)
  (ClusterMembersExtendedResponseActiveMembers_TimeOfLastAppendNs m)
  (ClusterMembersExtendedResponseActiveMembers_MemberId m)
  (ClusterMembersExtendedResponseActiveMembers_IngressEndpoint m)
  (ClusterMembersExtendedResponseActiveMembers_ConsensusEndpoint m)
  (ClusterMembersExtendedResponseActiveMembers_LogEndpoint m)
  (ClusterMembersExtendedResponseActiveMembers_CatchupEndpoint m)
  (ClusterMembersExtendedResponseActiveMembers_ArchiveEndpoint m).
Definition ClusterMembersExtendedResponseActiveMembers_set_LogPosition (v : Z) (m :
  ClusterMembersExtendedResponseActiveMembers) : ClusterMembersExtendedResponseActiveMembers :=
  mkClusterMembersExtendedResponseActiveMembers (ClusterMembersExtendedResponseActiveMembers_LeadershipTermId m)
  v (ClusterMembersExtendedResponseActiveMembers_TimeOfLastAppendNs m)
  (ClusterMembersExtendedResponseActiveMembers_MemberId m)
  (ClusterMembersExtendedResponseActiveMembers_IngressEndpoint m)
  (ClusterMembersExtendedResponseActiveMembers_ConsensusEndpoint m)
  (ClusterMembersExtendedResponseActiveMembers_LogEndpoint m)
  (ClusterMembersExtendedResponseActiveMembers_CatchupEndpoint m)
  (ClusterMembersExtendedResponseActiveMembers_ArchiveEndpoint m).
Definition ClusterMembersExtendedResponseActiveMembers_set_TimeOfLastAppendNs (v : Z) (m :
  ClusterMembersExtendedResponseActiveMembers) : ClusterMembersExtendedResponseActiveMembers :=
  mkClusterMembersExtendedResponseActiveMembers (ClusterMembersExtendedResponseActiveMembers_LeadershipTermId m)
  (ClusterMembersExtendedResponseActiveMembers_LogPosition m) v
  (ClusterMembersExtendedResponseActiveMembers_MemberId m)
  (ClusterMembersExtendedResponseActiveMembers_IngressEndpoint m)
  (ClusterMembersExtendedResponseActiveMembers_ConsensusEndpoint m)
  (ClusterMembersExtendedResponseActiveMembers_LogEndpoint m)
  (ClusterMembersExtendedResponseActiveMembers_CatchupEndpoint m)
  (ClusterMembersExtendedResponseActiveMembers_ArchiveEndpoint m).
Definition ClusterMembersExtendedResponseActiveMembers_set_MemberId (v : Z) (m :
  ClusterMembersExtendedResponseActiveMembers) : ClusterMembersExtendedResponseActiveMembers :=
  mkClusterMembersExtendedResponseActiveMembers (ClusterMembersExtendedResponseActiveMembers_LeadershipTermId m)
  (ClusterMembersExtendedResponseActiveMembers_LogPosition m)
  (ClusterMembersExtendedResponseActiveMembers_TimeOfLastAppendNs m) v
  (ClusterMembersExtendedResponseActiveMembers_IngressEndpoint m)
  (ClusterMembersExtendedResponseActiveMembers_ConsensusEndpoint m)
  (ClusterMembersExtendedResponseActiveMembers_LogEndpoint m)
  (ClusterMembersExtendedResponseActiveMembers_CatchupEndpoint m)
  (ClusterMembersExtendedResponseActiveMembers_ArchiveEndpoint m).
Definition ClusterMembersExtendedResponseActiveMembers_set_IngressEndpoint (v : bytes) (m :
  ClusterMembersExtendedResponseActiveMembers) : ClusterMembersExtendedResponseActiveMembers :=
  mkClusterMembersExtendedResponseActiveMembers (ClusterMembersExtendedResponseActiveMembers_LeadershipTermId m)
  (ClusterMembersExtendedResponseActiveMembers_LogPosition m)
  (ClusterMembersExtendedResponseActiveMembers_TimeOfLastAppendNs m)
  (ClusterMembersExtendedResponseActiveMembers_MemberId m) v
  (ClusterMembersExtendedResponseActiveMembers_ConsensusEndpoint m)
  (ClusterMembersExtendedResponseActiveMembers_LogEndpoint m)
  (ClusterMembersExtendedResponseActiveMembers_CatchupEndpoint m)
  (ClusterMembersExtendedResponseActiveMembers_ArchiveEndpoint m).
Definition ClusterMembersExtendedResponseActiveMembers_set_ConsensusEndpoint (v : bytes) (m :
  ClusterMembersExtendedResponseActiveMembers) : ClusterMembersExtendedResponseActiveMembers :=
  mkClusterMembersExtendedResponseActiveMembers (ClusterMembersExtendedResponseActiveMembers_LeadershipTermId m)
  (ClusterMembersExtendedResponseActiveMembers_LogPosition m)
  (ClusterMembersExtendedResponseActiveMembers_TimeOfLastAppendNs m)
  (ClusterMembersExtendedResponseActiveMembers_MemberId m)
  (ClusterMembersExtendedResponseActiveMembers_IngressEndpoint m) v
  (ClusterMembersExtendedResponseActiveMembers_LogEndpoint m)
  (ClusterMembersExtendedResponseActiveMembers_CatchupEndpoint m)
  (ClusterMembersExtendedResponseActiveMembers_ArchiveEndpoint m).
Definition ClusterMembersExtendedResponseActiveMembers_set_LogEndpoint (v : bytes) (m :
  ClusterMembersExtendedResponseActiveMembers) : ClusterMembersExtendedResponseActiveMembers :=
  mkClusterMembersExtendedResponseActiveMembers (ClusterMembersExtendedResponseActiveMembers_LeadershipTermId m)
  (ClusterMembersExtendedResponseActiveMembers_LogPosition m)
  (ClusterMembersExtendedResponseActiveMembers_TimeOfLastAppendNs m)
  (ClusterMembersExtendedResponseActiveMembers_MemberId m)
  (ClusterMembersExtendedResponseActiveMembers_IngressEndpoint m)
  (ClusterMembersExtendedResponseActiveMembers_ConsensusEndpoint m) v
  (ClusterMembersExtendedResponseActiveMembers_CatchupEndpoint m)
  (ClusterMembersExtendedResponseActiveMembers_ArchiveEndpoint m).
Definition ClusterMembersExtendedResponseActiveMembers_set_CatchupEndpoint (v : bytes) (m :
  ClusterMembersExtendedResponseActiveMembers) : ClusterMembersExtendedResponseActiveMembers :=
  mkClusterMembersExtendedResponseActiveMembers (ClusterMembersExtendedResponseActiveMembers_LeadershipTermId m)
  (ClusterMembersExtendedResponseActiveMembers_LogPosition m)
  (ClusterMembersExtendedResponseActiveMembers_TimeOfLastAppendNs m)
  (ClusterMembersExtendedResponseActiveMembers_MemberId m)
  (ClusterMembersExtendedResponseActiveMembers_IngressEndpoint m)
  (ClusterMembersExtendedResponseActiveMembers_ConsensusEndpoint m)
  (ClusterMembersExtendedResponseActiveMembers_LogEndpoint m) v
  (ClusterMembersExtendedResponseActiveMembers_ArchiveEndpoint m).
Definition ClusterMembersExtendedResponseActiveMembers_set_ArchiveEndpoint (v : bytes) (m :
  ClusterMembersExtendedResponseActiveMembers) : ClusterMembersExtendedResponseActiveMembers :=
  mkClusterMembersExtendedResponseActiveMembers (ClusterMembersExtendedResponseActiveMembers_LeadershipTermId m)
  (ClusterMembersExtendedResponseActiveMembers_LogPosition m)
  (ClusterMembersExtendedResponseActiveMembers_TimeOfLastAppendNs m)
  (ClusterMembersExtendedResponseActiveMembers_MemberId m)
  (ClusterMembersExtendedResponseActiveMembers_IngressEndpoint m)
  (ClusterMembersExtendedResponseActiveMembers_ConsensusEndpoint m)
  (ClusterMembersExtendedResponseActiveMembers_LogEndpoint m)
  (ClusterMembersExtendedResponseActiveMembers_CatchupEndpoint m) v.

Definition ClusterMembersExtendedResponseActiveMembers_RangeCheck (m : ClusterMembersExtendedResponseActiveMembers) (actingVersion schemaVersion : Z) : option string :=
  first_error
    [ check_required ClusterMembersExtendedResponseActiveMembers_LeadershipTermId_field actingVersion (ClusterMembersExtendedResponseActiveMembers_LeadershipTermId m)
    ; check_required ClusterMembersExtendedResponseActiveMembers_LogPosition_field actingVersion (ClusterMembersExtendedResponseActiveMembers_LogPosition m)
    ; check_required ClusterMembersExtendedResponseActiveMembers_TimeOfLastAppendNs_field actingVersion (ClusterMembersExtendedResponseActiveMembers_TimeOfLastAppendNs m)
    ; check_required ClusterMembersExtendedResponseActiveMembers_MemberId_field actingVersion (ClusterMembersExtendedResponseActiveMembers_MemberId m)
    ; check_ascii (ClusterMembersExtendedResponseActiveMembers_IngressEndpoint m)
    ; check_ascii (ClusterMembersExtendedResponseActiveMembers_ConsensusEndpoint m)
    ; check_ascii (ClusterMembersExtendedResponseActiveMembers_LogEndpoint m)
    ; check_ascii (ClusterMembersExtendedResponseActiveMembers_CatchupEndpoint m)
    ; check_ascii (ClusterMembersExtendedResponseActiveMembers_ArchiveEndpoint m) ].

Definition ClusterMembersExtendedResponseActiveMembers_Encode (m : ClusterMembersExtendedResponseActiveMembers) : M bytes unit :=
  WriteInt64 (ClusterMembersExtendedResponseActiveMembers_LeadershipTermId m) ;;;
  WriteInt64 (ClusterMembersExtendedResponseActiveMembers_LogPosition m) ;;;
  WriteInt64 (ClusterMembersExtendedResponseActiveMembers_TimeOfLastAppendNs m) ;;;
  WriteInt32 (ClusterMembersExtendedResponseActiveMembers_MemberId m) ;;;
  WriteUint32 (u32 (zlen (ClusterMembersExtendedResponseActiveMembers_IngressEndpoint m))) ;;;
  WriteBytes (ClusterMembersExtendedResponseActiveMembers_IngressEndpoint m) ;;;
  WriteUint32 (u32 (zlen (ClusterMembersExtendedResponseActiveMembers_ConsensusEndpoint m))) ;;;
  WriteBytes (ClusterMembersExtendedResponseActiveMembers_ConsensusEndpoint m) ;;;
  WriteUint32 (u32 (zlen (ClusterMembersExtendedResponseActiveMembers_LogEndpoint m))) ;;;
  WriteBytes (ClusterMembersExtendedResponseActiveMembers_LogEndpoint m) ;;;
  WriteUint32 (u32 (zlen (ClusterMembersExtendedResponseActiveMembers_CatchupEndpoint m))) ;;;
  WriteBytes (ClusterMembersExtendedResponseActiveMembers_CatchupEndpoint m) ;;;
  WriteUint32 (u32 (zlen (ClusterMembersExtendedResponseActiveMembers_ArchiveEndpoint m))) ;;;
  WriteBytes (ClusterMembersExtendedResponseActiveMembers_ArchiveEndpoint m).

Definition ClusterMembersExtendedResponseActiveMembers_Decode (actingVersion blockLength : Z) : M (bytes * ClusterMembersExtendedResponseActiveMembers) unit :=
  decode_field ClusterMembersExtendedResponseActiveMembers_LeadershipTermId_field actingVersion ReadInt64 ClusterMembersExtendedResponseActiveMembers_set_LeadershipTermId ;;;
  decode_field ClusterMembersExtendedResponseActiveMembers_LogPosition_field actingVersion ReadInt64 ClusterMembersExtendedResponseActiveMembers_set_LogPosition ;;;
  decode_field ClusterMembersExtendedResponseActiveMembers_TimeOfLastAppendNs_field actingVersion ReadInt64 ClusterMembersExtendedResponseActiveMembers_set_TimeOfLastAppendNs ;;;
  decode_field ClusterMembersExtendedResponseActiveMembers_MemberId_field actingVersion ReadInt32 ClusterMembersExtendedResponseActiveMembers_set_MemberId ;;;
  skip_block actingVersion 16 blockLength 28 ;;;
  decode_data ClusterMembersExtendedResponseActiveMembers_IngressEndpoint_field actingVersion ClusterMembersExtendedResponseActiveMembers_set_IngressEndpoint ;;;
  decode_data ClusterMembersExtendedResponseActiveMembers_ConsensusEndpoint_field actingVersion ClusterMembersExtendedResponseActiveMembers_set_ConsensusEndpoint ;;;
  decode_data ClusterMembersExtendedResponseActiveMembers_LogEndpoint_field actingVersion ClusterMembersExtendedResponseActiveMembers_set_LogEndpoint ;;;
  decode_data ClusterMembersExtendedResponseActiveMembers_CatchupEndpoint_field actingVersion ClusterMembersExtendedResponseActiveMembers_set_CatchupEndpoint ;;;
  decode_data ClusterMembersExtendedResponseActiveMembers_ArchiveEndpoint_field actingVersion ClusterMembersExtendedResponseActiveMembers_set_ArchiveEndpoint.

#[export] Instance ClusterMembersExtendedResponseActiveMembers_codec : ElementCodec ClusterMembersExtendedResponseActiveMembers := {|
  ElementBlockLength := 28; ElementSchemaVersion := 16; element_zero := mkClusterMembersExtendedResponseActiveMembers 0 0 0 0 [] [] [] [] [];
  element_Encode := ClusterMembersExtendedResponseActiveMembers_Encode; element_Decode := ClusterMembersExtendedResponseActiveMembers_Decode; element_RangeCheck := ClusterMembersExtendedResponseActiveMembers_RangeCheck;
  element_valid m := is_i64 (ClusterMembersExtendedResponseActiveMembers_LeadershipTermId m) /\ is_i64
    (ClusterMembersExtendedResponseActiveMembers_LogPosition m) /\ is_i64
    (ClusterMembersExtendedResponseActiveMembers_TimeOfLastAppendNs m) /\ is_i32
    (ClusterMembersExtendedResponseActiveMembers_MemberId m) /\ zlen
    (ClusterMembersExtendedResponseActiveMembers_IngressEndpoint m) < 4294967296 /\ zlen
    (ClusterMembersExtendedResponseActiveMembers_ConsensusEndpoint m) < 4294967296 /\ zlen
    (ClusterMembersExtendedResponseActiveMembers_LogEndpoint m) < 4294967296 /\ zlen
    (ClusterMembersExtendedResponseActiveMembers_CatchupEndpoint m) < 4294967296 /\ zlen
    (ClusterMembersExtendedResponseActiveMembers_ArchiveEndpoint m) < 4294967296;
  element_bytes m := le_split 8 (ClusterMembersExtendedResponseActiveMembers_LeadershipTermId m) ++ le_split 8
    (ClusterMembersExtendedResponseActiveMembers_LogPosition m) ++ le_split 8
    (ClusterMembersExtendedResponseActiveMembers_TimeOfLastAppendNs m) ++ le_split 4
    (ClusterMembersExtendedResponseActiveMembers_MemberId m) ++ data_bytes
    (ClusterMembersExtendedResponseActiveMembers_IngressEndpoint m) ++ data_bytes
    (ClusterMembersExtendedResponseActiveMembers_ConsensusEndpoint m) ++ data_bytes
    (ClusterMembersExtendedResponseActiveMembers_LogEndpoint m) ++ data_bytes
    (ClusterMembersExtendedResponseActiveMembers_CatchupEndpoint m) ++ data_bytes
    (ClusterMembersExtendedResponseActiveMembers_ArchiveEndpoint m) |}.

#[export] Instance ClusterMembersExtendedResponseActiveMembers_laws : ElementLaws ClusterMembersExtendedResponseActiveMembers.
Proof. element_laws ClusterMembersExtendedResponseActiveMembers_codec ClusterMembersExtendedResponseActiveMembers_Encode ClusterMembersExtendedResponseActiveMembers_Decode. Qed.

(** ** ClusterMembersExtendedResponsePassiveMembers *)

Record ClusterMembersExtendedResponsePassiveMembers : Type := mkClusterMembersExtendedResponsePassiveMembers {
  ClusterMembersExtendedResponsePassiveMembers_LeadershipTermId : Z;
  ClusterMembersExtendedResponsePassiveMembers_LogPosition : Z;
  ClusterMembersExtendedResponsePassiveMembers_TimeOfLastAppendNs : Z;
  ClusterMembersExtendedResponsePassiveMembers_MemberId : Z;
  ClusterMembersExtendedResponsePassiveMembers_IngressEndpoint : bytes;
  ClusterMembersExtendedResponsePassiveMembers_ConsensusEndpoint : bytes;
  ClusterMembersExtendedResponsePassiveMembers_LogEndpoint : bytes;
  ClusterMembersExtendedResponsePassiveMembers_CatchupEndpoint : bytes;
  ClusterMembersExtendedResponsePassiveMembers_ArchiveEndpoint : bytes }.

Definition ClusterMembersExtendedResponsePassiveMembers_LeadershipTermId_field : field := mkField 16 0 0 false (-9223372036854775807) 9223372036854775807 (-9223372036854775808).
Definition ClusterMembersExtendedResponsePassiveMembers_LogPosition_field : field := mkField 17 0 0 false (-9223372036854775807) 9223372036854775807 (-9223372036854775808).
Definition ClusterMembersExtendedResponsePassiveMembers_TimeOfLastAppendNs_field : field := mkField 18 0 0 false (-9223372036854775807) 9223372036854775807 (-9223372036854775808).
Definition ClusterMembersExtendedResponsePassiveMembers_MemberId_field : field := mkField 19 0 0 false (-2147483647) 2147483647 (-2147483648).
Definition ClusterMembersExtendedResponsePassiveMembers_IngressEndpoint_field : data_field := mkDataField 0 0 "US-ASCII" 4.
Definition ClusterMembersExtendedResponsePassiveMembers_ConsensusEndpoint_field : data_field := mkDataField 0 0 "US-ASCII" 4.
Definition ClusterMembersExtendedResponsePassiveMembers_LogEndpoint_field : data_field := mkDataField 0 0 "US-ASCII" 4.
Definition ClusterMembersExtendedResponsePassiveMembers_CatchupEndpoint_field : data_field := mkDataField 0 0 "US-ASCII" 4.
Definition ClusterMembersExtendedResponsePassiveMembers_ArchiveEndpoint_field : data_field := mkDataField 0 0 "US-ASCII" 4.
Definition ClusterMembersExtendedResponsePassiveMembers_set_LeadershipTermId (v : Z) (m :
  ClusterMembersExtendedResponsePassiveMembers) : ClusterMembersExtendedResponsePassiveMembers :=
  mkClusterMembersExtendedResponsePassiveMembers v (ClusterMembersExtendedResponsePassiveMembers_LogPosition m)
  (ClusterMembersExtendedResponsePassiveMembers_TimeOfLastAppendNs m)
  (ClusterMembersExtendedResponsePassiveMembers_MemberId m)
  (ClusterMembersExtendedResponsePassiveMembers_IngressEndpoint m)
  (ClusterMembersExtendedResponsePassiveMembers_ConsensusEndpoint m)
  (ClusterMembersExtendedResponsePassiveMembers_LogEndpoint m)
  (ClusterMembersExtendedResponsePassiveMembers_CatchupEndpoint m)
  (ClusterMembersExtendedResponsePassiveMembers_ArchiveEndpoint m).
Definition ClusterMembersExtendedResponsePassiveMembers_set_LogPosition (v : Z) (m :
  ClusterMembersExtendedResponsePassiveMembers) : ClusterMembersExtendedResponsePassiveMembers :=
  mkClusterMembersExtendedResponsePassiveMembers (ClusterMembersExtendedResponsePassiveMembers_LeadershipTermId
  m) v (ClusterMembersExtendedResponsePassiveMembers_TimeOfLastAppendNs m)
  (ClusterMembersExtendedResponsePassiveMembers_MemberId m)
  (ClusterMembersExtendedResponsePassiveMembers_IngressEndpoint m)
  (ClusterMembersExtendedResponsePassiveMembers_ConsensusEndpoint m)
  (ClusterMembersExtendedResponsePassiveMembers_LogEndpoint m)
  (ClusterMembersExtendedResponsePassiveMembers_CatchupEndpoint m)
  (ClusterMembersExtendedResponsePassiveMembers_ArchiveEndpoint m).
Definition ClusterMembersExtendedResponsePassiveMembers_set_TimeOfLastAppendNs (v : Z) (m :
  ClusterMembersExtendedResponsePassiveMembers) : ClusterMembersExtendedResponsePassiveMembers :=
  mkClusterMembersExtendedResponsePassiveMembers (ClusterMembersExtendedResponsePassiveMembers_LeadershipTermId
  m) (ClusterMembersExtendedResponsePassiveMembers_LogPosition m) v
  (ClusterMembersExtendedResponsePassiveMembers_MemberId m)
  (ClusterMembersExtendedResponsePassiveMembers_IngressEndpoint m)
  (ClusterMembersExtendedResponsePassiveMembers_ConsensusEndpoint m)
  (ClusterMembersExtendedResponsePassiveMembers_LogEndpoint m)
  (ClusterMembersExtendedResponsePassiveMembers_CatchupEndpoint m)
  (ClusterMembersExtendedResponsePassiveMembers_ArchiveEndpoint m).
Definition ClusterMembersExtendedResponsePassiveMembers_set_MemberId (v : Z) (m :
  ClusterMembersExtendedResponsePassiveMembers) : ClusterMembersExtendedResponsePassiveMembers :=
  mkClusterMembersExtendedResponsePassiveMembers (ClusterMembersExtendedResponsePassiveMembers_LeadershipTermId
  m) (ClusterMembersExtendedResponsePassiveMembers_LogPosition m)
  (ClusterMembersExtendedResponsePassiveMembers_TimeOfLastAppendNs m) v
  (ClusterMembersExtendedResponsePassiveMembers_IngressEndpoint m)
  (ClusterMembersExtendedResponsePassiveMembers_ConsensusEndpoint m)
  (ClusterMembersExtendedResponsePassiveMembers_LogEndpoint m)
  (ClusterMembersExtendedResponsePassiveMembers_CatchupEndpoint m)
  (ClusterMembersExtendedResponsePassiveMembers_ArchiveEndpoint m).
Definition ClusterMembersExtendedResponsePassiveMembers_set_IngressEndpoint (v : bytes) (m :
  ClusterMembersExtendedResponsePassiveMembers) : ClusterMembersExtendedResponsePassiveMembers :=
  mkClusterMembersExtendedResponsePassiveMembers (ClusterMembersExtendedResponsePassiveMembers_LeadershipTermId
  m) (ClusterMembersExtendedResponsePassiveMembers_LogPosition m)
  (ClusterMembersExtendedResponsePassiveMembers_TimeOfLastAppendNs m)
  (ClusterMembersExtendedResponsePassiveMembers_MemberId m) v
  (ClusterMembersExtendedResponsePassiveMembers_ConsensusEndpoint m)
  (ClusterMembersExtendedResponsePassiveMembers_LogEndpoint m)
  (ClusterMembersExtendedResponsePassiveMembers_CatchupEndpoint m)
  (ClusterMembersExtendedResponsePassiveMembers_ArchiveEndpoint m).
Definition ClusterMembersExtendedResponsePassiveMembers_set_ConsensusEndpoint (v : bytes) (m :
  ClusterMembersExtendedResponsePassiveMembers) : ClusterMembersExtendedResponsePassiveMembers :=
  mkClusterMembersExtendedResponsePassiveMembers (ClusterMembersExtendedResponsePassiveMembers_LeadershipTermId
  m) (ClusterMembersExtendedResponsePassiveMembers_LogPosition m)
  (ClusterMembersExtendedResponsePassiveMembers_TimeOfLastAppendNs m)
  (ClusterMembersExtendedResponsePassiveMembers_MemberId m)
  (ClusterMembersExtendedResponsePassiveMembers_IngressEndpoint m) v
  (ClusterMembersExtendedResponsePassiveMembers_LogEndpoint m)
  (ClusterMembersExtendedResponsePassiveMembers_CatchupEndpoint m)
  (ClusterMembersExtendedResponsePassiveMembers_ArchiveEndpoint m).
Definition ClusterMembersExtendedResponsePassiveMembers_set_LogEndpoint (v : bytes) (m :
  ClusterMembersExtendedResponsePassiveMembers) : ClusterMembersExtendedResponsePassiveMembers :=
  mkClusterMembersExtendedResponsePassiveMembers (ClusterMembersExtendedResponsePassiveMembers_LeadershipTermId
  m) (ClusterMembersExtendedResponsePassiveMembers_LogPosition m)
  (ClusterMembersExtendedResponsePassiveMembers_TimeOfLastAppendNs m)
  (ClusterMembersExtendedResponsePassiveMembers_MemberId m)
  (ClusterMembersExtendedResponsePassiveMembers_IngressEndpoint m)
  (ClusterMembersExtendedResponsePassiveMembers_ConsensusEndpoint m) v
  (ClusterMembersExtendedResponsePassiveMembers_CatchupEndpoint m)
  (ClusterMembersExtendedResponsePassiveMembers_ArchiveEndpoint m).
Definition ClusterMembersExtendedResponsePassiveMembers_set_CatchupEndpoint (v : bytes) (m :
  ClusterMembersExtendedResponsePassiveMembers) : ClusterMembersExtendedResponsePassiveMembers :=
  mkClusterMembersExtendedResponsePassiveMembers (ClusterMembersExtendedResponsePassiveMembers_LeadershipTermId
  m) (ClusterMembersExtendedResponsePassiveMembers_LogPosition m)
  (ClusterMembersExtendedResponsePassiveMembers_TimeOfLastAppendNs m)
  (ClusterMembersExtendedResponsePassiveMembers_MemberId m)
  (ClusterMembersExtendedResponsePassiveMembers_IngressEndpoint m)
  (ClusterMembersExtendedResponsePassiveMembers_ConsensusEndpoint m)
  (ClusterMembersExtendedResponsePassiveMembers_LogEndpoint m) v
  (ClusterMembersExtendedResponsePassiveMembers_ArchiveEndpoint m).
Definition ClusterMembersExtendedResponsePassiveMembers_set_ArchiveEndpoint (v : bytes) (m :
  ClusterMembersExtendedResponsePassiveMembers) : ClusterMembersExtendedResponsePassiveMembers :=
  mkClusterMembersExtendedResponsePassiveMembers (ClusterMembersExtendedResponsePassiveMembers_LeadershipTermId
  m) (ClusterMembersExtendedResponsePassiveMembers_LogPosition m)
  (ClusterMembersExtendedResponsePassiveMembers_TimeOfLastAppendNs m)
  (ClusterMembersExtendedResponsePassiveMembers_MemberId m)
  (ClusterMembersExtendedResponsePassiveMembers_IngressEndpoint m)
  (ClusterMembersExtendedResponsePassiveMembers_ConsensusEndpoint m)
  (ClusterMembersExtendedResponsePassiveMembers_LogEndpoint m)
  (ClusterMembersExtendedResponsePassiveMembers_CatchupEndpoint m) v.

Definition ClusterMembersExtendedResponsePassiveMembers_RangeCheck (m : ClusterMembersExtendedResponsePassiveMembers) (actingVersion schemaVersion : Z) : option string :=
  first_error
    [ check_required ClusterMembersExtendedResponsePassiveMembers_LeadershipTermId_field actingVersion (ClusterMembersExtendedResponsePassiveMembers_LeadershipTermId m)
    ; check_required ClusterMembersExtendedResponsePassiveMembers_LogPosition_field actingVersion (ClusterMembersExtendedResponsePassiveMembers_LogPosition m)
    ; check_required ClusterMembersExtendedResponsePassiveMembers_TimeOfLastAppendNs_field actingVersion (ClusterMembersExtendedResponsePassiveMembers_TimeOfLastAppendNs m)
    ; check_required ClusterMembersExtendedResponsePassiveMembers_MemberId_field actingVersion (ClusterMembersExtendedResponsePassiveMembers_MemberId m)
    ; check_ascii (ClusterMembersExtendedResponsePassiveMembers_IngressEndpoint m)
    ; check_ascii (ClusterMembersExtendedResponsePassiveMembers_ConsensusEndpoint m)
    ; check_ascii (ClusterMembersExtendedResponsePassiveMembers_LogEndpoint m)
    ; check_ascii (ClusterMembersExtendedResponsePassiveMembers_CatchupEndpoint m)
    ; check_ascii (ClusterMembersExtendedResponsePassiveMembers_ArchiveEndpoint m) ].

Definition ClusterMembersExtendedResponsePassiveMembers_Encode (m : ClusterMembersExtendedResponsePassiveMembers) : M bytes unit :=
  WriteInt64 (ClusterMembersExtendedResponsePassiveMembers_LeadershipTermId m) ;;;
  WriteInt64 (ClusterMembersExtendedResponsePassiveMembers_LogPosition m) ;;;
  WriteInt64 (ClusterMembersExtendedResponsePassiveMembers_TimeOfLastAppendNs m) ;;;
  WriteInt32 (ClusterMembersExtendedResponsePassiveMembers_MemberId m) ;;;
  WriteUint32 (u32 (zlen (ClusterMembersExtendedResponsePassiveMembers_IngressEndpoint m))) ;;;
  WriteBytes (ClusterMembersExtendedResponsePassiveMembers_IngressEndpoint m) ;;;
  WriteUint32 (u32 (zlen (ClusterMembersExtendedResponsePassiveMembers_ConsensusEndpoint m))) ;;;
  WriteBytes (ClusterMembersExtendedResponsePassiveMembers_ConsensusEndpoint m) ;;;
  WriteUint32 (u32 (zlen (ClusterMembersExtendedResponsePassiveMembers_LogEndpoint m))) ;;;
  WriteBytes (ClusterMembersExtendedResponsePassiveMembers_LogEndpoint m) ;;;
  WriteUint32 (u32 (zlen (ClusterMembersExtendedResponsePassiveMembers_CatchupEndpoint m))) ;;;
  WriteBytes (ClusterMembersExtendedResponsePassiveMembers_CatchupEndpoint m) ;;;
  WriteUint32 (u32 (zlen (ClusterMembersExtendedResponsePassiveMembers_ArchiveEndpoint m))) ;;;
  WriteBytes (ClusterMembersExtendedResponsePassiveMembers_ArchiveEndpoint m).

Definition ClusterMembersExtendedResponsePassiveMembers_Decode (actingVersion blockLength : Z) : M (bytes * ClusterMembersExtendedResponsePassiveMembers) unit :=
  decode_field ClusterMembersExtendedResponsePassiveMembers_LeadershipTermId_field actingVersion ReadInt64 ClusterMembersExtendedResponsePassiveMembers_set_LeadershipTermId ;;;
  decode_field ClusterMembersExtendedResponsePassiveMembers_LogPosition_field actingVersion ReadInt64 ClusterMembersExtendedResponsePassiveMembers_set_LogPosition ;;;
  decode_field ClusterMembersExtendedResponsePassiveMembers_TimeOfLastAppendNs_field actingVersion ReadInt64 ClusterMembersExtendedResponsePassiveMembers_set_TimeOfLastAppendNs ;;;
  decode_field ClusterMembersExtendedResponsePassiveMembers_MemberId_field actingVersion ReadInt32 ClusterMembersExtendedResponsePassiveMembers_set_MemberId ;;;
  skip_block actingVersion 16 blockLength 28 ;;;
  decode_data ClusterMembersExtendedResponsePassiveMembers_IngressEndpoint_field actingVersion ClusterMembersExtendedResponsePassiveMembers_set_IngressEndpoint ;;;
  decode_data ClusterMembersExtendedResponsePassiveMembers_ConsensusEndpoint_field actingVersion ClusterMembersExtendedResponsePassiveMembers_set_ConsensusEndpoint ;;;
  decode_data ClusterMembersExtendedResponsePassiveMembers_LogEndpoint_field actingVersion ClusterMembersExtendedResponsePassiveMembers_set_LogEndpoint ;;;
  decode_data ClusterMembersExtendedResponsePassiveMembers_CatchupEndpoint_field actingVersion ClusterMembersExtendedResponsePassiveMembers_set_CatchupEndpoint ;;;
  decode_data ClusterMembersExtendedResponsePassiveMembers_ArchiveEndpoint_field actingVersion ClusterMembersExtendedResponsePassiveMembers_set_ArchiveEndpoint.

#[export] Instance ClusterMembersExtendedResponsePassiveMembers_codec : ElementCodec ClusterMembersExtendedResponsePassiveMembers := {|
  ElementBlockLength := 28; ElementSchemaVersion := 16; element_zero := mkClusterMembersExtendedResponsePassiveMembers 0 0 0 0 [] [] [] [] [];
  element_Encode := ClusterMembersExtendedResponsePassiveMembers_Encode; element_Decode := ClusterMembersExtendedResponsePassiveMembers_Decode; element_RangeCheck := ClusterMembersExtendedResponsePassiveMembers_RangeCheck;
  element_valid m := is_i64 (ClusterMembersExtendedResponsePassiveMembers_LeadershipTermId m) /\ is_i64
    (ClusterMembersExtendedResponsePassiveMembers_LogPosition m) /\ is_i64
    (ClusterMembersExtendedResponsePassiveMembers_TimeOfLastAppendNs m) /\ is_i32
    (ClusterMembersExtendedResponsePassiveMembers_MemberId m) /\ zlen
    (ClusterMembersExtendedResponsePassiveMembers_IngressEndpoint m) < 4294967296 /\ zlen
    (ClusterMembersExtendedResponsePassiveMembers_ConsensusEndpoint m) < 4294967296 /\ zlen
    (ClusterMembersExtendedResponsePassiveMembers_LogEndpoint m) < 4294967296 /\ zlen
    (ClusterMembersExtendedResponsePassiveMembers_CatchupEndpoint m) < 4294967296 /\ zlen
    (ClusterMembersExtendedResponsePassiveMembers_ArchiveEndpoint m) < 4294967296;
  element_bytes m := le_split 8 (ClusterMembersExtendedResponsePassiveMembers_LeadershipTermId m) ++ le_split 8
    (ClusterMembersExtendedResponsePassiveMembers_LogPosition m) ++ le_split 8
    (ClusterMembersExtendedResponsePassiveMembers_TimeOfLastAppendNs m) ++ le_split 4
    (ClusterMembersExtendedResponsePassiveMembers_MemberId m) ++ data_bytes
    (ClusterMembersExtendedResponsePassiveMembers_IngressEndpoint m) ++ data_bytes
    (ClusterMembersExtendedResponsePassiveMembers_ConsensusEndpoint m) ++ data_bytes
    (ClusterMembersExtendedResponsePassiveMembers_LogEndpoint m) ++ data_bytes
    (ClusterMembersExtendedResponsePassiveMembers_CatchupEndpoint m) ++ data_bytes
    (ClusterMembersExtendedResponsePassiveMembers_ArchiveEndpoint m) |}.

#[export] Instance ClusterMembersExtendedResponsePassiveMembers_laws : ElementLaws ClusterMembersExtendedResponsePassiveMembers.
Proof. element_laws ClusterMembersExtendedResponsePassiveMembers_codec ClusterMembersExtendedResponsePassiveMembers_Encode ClusterMembersExtendedResponsePassiveMembers_Decode. Qed.

(** ** ClusterMembersExtendedResponse *)

Record ClusterMembersExtendedResponse : Type := mkClusterMembersExtendedResponse {
  ClusterMembersExtendedResponse_CorrelationId : Z; ClusterMembersExtendedResponse_CurrentTimeNs : Z;
  ClusterMembersExtendedResponse_LeaderMemberId : Z; ClusterMembersExtendedResponse_MemberId : Z;
  ClusterMembersExtendedResponse_ActiveMembers : list ClusterMembersExtendedResponseActiveMembers;
  ClusterMembersExtendedResponse_PassiveMembers : list ClusterMembersExtendedResponsePassiveMembers }.

Definition ClusterMembersExtendedResponse_CorrelationId_field : field := mkField 1 0 0 false (-9223372036854775807) 9223372036854775807 (-9223372036854775808).
Definition ClusterMembersExtendedResponse_CurrentTimeNs_field : field := mkField 2 0 0 false (-9223372036854775807) 9223372036854775807 (-9223372036854775808).
Definition ClusterMembersExtendedResponse_LeaderMemberId_field : field := mkField 3 0 0 false (-2147483647) 2147483647 (-2147483648).
Definition ClusterMembersExtendedResponse_MemberId_field : field := mkField 4 0 0 false (-2147483647) 2147483647 (-2147483648).
Definition ClusterMembersExtendedResponse_ActiveMembers_group : group_field := mkGroupField 5 0 0.
Definition ClusterMembersExtendedResponse_PassiveMembers_group : group_field := mkGroupField 15 0 0.
Definition ClusterMembersExtendedResponse_set_CorrelationId (v : Z) (m : ClusterMembersExtendedResponse) :
  ClusterMembersExtendedResponse := mkClusterMembersExtendedResponse v
  (ClusterMembersExtendedResponse_CurrentTimeNs m) (ClusterMembersExtendedResponse_LeaderMemberId m)
  (ClusterMembersExtendedResponse_MemberId m) (ClusterMembersExtendedResponse_ActiveMembers m)
  (ClusterMembersExtendedResponse_PassiveMembers m).
Definition ClusterMembersExtendedResponse_set_CurrentTimeNs (v : Z) (m : ClusterMembersExtendedResponse) :
  ClusterMembersExtendedResponse := mkClusterMembersExtendedResponse
  (ClusterMembersExtendedResponse_CorrelationId m) v (ClusterMembersExtendedResponse_LeaderMemberId m)
  (ClusterMembersExtendedResponse_MemberId m) (ClusterMembersExtendedResponse_ActiveMembers m)
  (ClusterMembersExtendedResponse_PassiveMembers m).
Definition ClusterMembersExtendedResponse_set_LeaderMemberId (v : Z) (m : ClusterMembersExtendedResponse) :
  ClusterMembersExtendedResponse := mkClusterMembersExtendedResponse
  (ClusterMembersExtendedResponse_CorrelationId m) (ClusterMembersExtendedResponse_CurrentTimeNs m) v
  (ClusterMembersExtendedResponse_MemberId m) (ClusterMembersExtendedResponse_ActiveMembers m)
  (ClusterMembersExtendedResponse_PassiveMembers m).
Definition ClusterMembersExtendedResponse_set_MemberId (v : Z) (m : ClusterMembersExtendedResponse) :
  ClusterMembersExtendedResponse := mkClusterMembersExtendedResponse
  (ClusterMembersExtendedResponse_CorrelationId m) (ClusterMembersExtendedResponse_CurrentTimeNs m)
  (ClusterMembersExtendedResponse_LeaderMemberId m) v (ClusterMembersExtendedResponse_ActiveMembers m)
  (ClusterMembersExtendedResponse_PassiveMembers m).
Definition ClusterMembersExtendedResponse_set_ActiveMembers (v : list
  ClusterMembersExtendedResponseActiveMembers) (m : ClusterMembersExtendedResponse) :
  ClusterMembersExtendedResponse := mkClusterMembersExtendedResponse
  (ClusterMembersExtendedResponse_CorrelationId m) (ClusterMembersExtendedResponse_CurrentTimeNs m)
  (ClusterMembersExtendedResponse_LeaderMemberId m) (ClusterMembersExtendedResponse_MemberId m) v
  (ClusterMembersExtendedResponse_PassiveMembers m).
Definition ClusterMembersExtendedResponse_set_PassiveMembers (v : list
  ClusterMembersExtendedResponsePassiveMembers) (m : ClusterMembersExtendedResponse) :
  ClusterMembersExtendedResponse := mkClusterMembersExtendedResponse
  (ClusterMembersExtendedResponse_CorrelationId m) (ClusterMembersExtendedResponse_CurrentTimeNs m)
  (ClusterMembersExtendedResponse_LeaderMemberId m) (ClusterMembersExtendedResponse_MemberId m)
  (ClusterMembersExtendedResponse_ActiveMembers m) v.

Definition ClusterMembersExtendedResponse_RangeCheck (m : ClusterMembersExtendedResponse) (actingVersion schemaVersion : Z) : option string :=
  first_error
    [ check_required ClusterMembersExtendedResponse_CorrelationId_field actingVersion (ClusterMembersExtendedResponse_CorrelationId m)
    ; check_required ClusterMembersExtendedResponse_CurrentTimeNs_field actingVersion (ClusterMembersExtendedResponse_CurrentTimeNs m)
    ; check_required ClusterMembersExtendedResponse_LeaderMemberId_field actingVersion (ClusterMembersExtendedResponse_LeaderMemberId m)
    ; check_required ClusterMembersExtendedResponse_MemberId_field actingVersion (ClusterMembersExtendedResponse_MemberId m)
    ; check_group (ClusterMembersExtendedResponse_ActiveMembers m) actingVersion schemaVersion
    ; check_group (ClusterMembersExtendedResponse_PassiveMembers m) actingVersion schemaVersion ].

Definition ClusterMembersExtendedResponse_Encode (m : ClusterMembersExtendedResponse) (doRangeCheck : bool) : M bytes unit :=
  when doRangeCheck (fail_if (ClusterMembersExtendedResponse_RangeCheck m 16 16)) ;;;
  WriteInt64 (ClusterMembersExtendedResponse_CorrelationId m) ;;;
  WriteInt64 (ClusterMembersExtendedResponse_CurrentTimeNs m) ;;;
  WriteInt32 (ClusterMembersExtendedResponse_LeaderMemberId m) ;;;
  WriteInt32 (ClusterMembersExtendedResponse_MemberId m) ;;;
  WriteGroup (ClusterMembersExtendedResponse_ActiveMembers m) ;;;
  WriteGroup (ClusterMembersExtendedResponse_PassiveMembers m).

Definition ClusterMembersExtendedResponse_Decode (actingVersion blockLength : Z) (doRangeCheck : bool) : M (bytes * ClusterMembersExtendedResponse) unit :=
  decode_field ClusterMembersExtendedResponse_CorrelationId_field actingVersion ReadInt64 ClusterMembersExtendedResponse_set_CorrelationId ;;;
  decode_field ClusterMembersExtendedResponse_CurrentTimeNs_field actingVersion ReadInt64 ClusterMembersExtendedResponse_set_CurrentTimeNs ;;;
  decode_field ClusterMembersExtendedResponse_LeaderMemberId_field actingVersion ReadInt32 ClusterMembersExtendedResponse_set_LeaderMemberId ;;;
  decode_field ClusterMembersExtendedResponse_MemberId_field actingVersion ReadInt32 ClusterMembersExtendedResponse_set_MemberId ;;;
  skip_block actingVersion 16 blockLength 24 ;;;
  decode_group ClusterMembersExtendedResponse_ActiveMembers ClusterMembersExtendedResponse_set_ActiveMembers ClusterMembersExtendedResponse_ActiveMembers_group actingVersion ;;;
  decode_group ClusterMembersExtendedResponse_PassiveMembers ClusterMembersExtendedResponse_set_PassiveMembers ClusterMembersExtendedResponse_PassiveMembers_group actingVersion ;;;
  when doRangeCheck (checked (fun m => ClusterMembersExtendedResponse_RangeCheck m actingVersion 16)).

#[export] Instance ClusterMembersExtendedResponse_codec : Codec ClusterMembersExtendedResponse := {|
  SbeBlockLength := 24; SbeTemplateId := 43; SbeSchemaId := 111; SbeSchemaVersion := 16;
  zero := mkClusterMembersExtendedResponse 0 0 0 0 [] [];
  RangeCheck := ClusterMembersExtendedResponse_RangeCheck; Encode := ClusterMembersExtendedResponse_Encode; Decode := ClusterMembersExtendedResponse_Decode;
  valid m := is_i64 (ClusterMembersExtendedResponse_CorrelationId m) /\ is_i64 (ClusterMembersExtendedResponse_CurrentTimeNs
    m) /\ is_i32 (ClusterMembersExtendedResponse_LeaderMemberId m) /\ is_i32
    (ClusterMembersExtendedResponse_MemberId m) /\ group_valid (ClusterMembersExtendedResponse_ActiveMembers m)
    /\ group_valid (ClusterMembersExtendedResponse_PassiveMembers m);
  fixed_part m := le_split 8 (ClusterMembersExtendedResponse_CorrelationId m) ++ le_split 8
    (ClusterMembersExtendedResponse_CurrentTimeNs m) ++ le_split 4
    (ClusterMembersExtendedResponse_LeaderMemberId m) ++ le_split 4 (ClusterMembersExtendedResponse_MemberId m);
  data_part m := group_bytes (ClusterMembersExtendedResponse_ActiveMembers m) ++ group_bytes
    (ClusterMembersExtendedResponse_PassiveMembers m) |}.

#[export] Instance ClusterMembersExtendedResponse_laws : CodecLaws ClusterMembersExtendedResponse.
Proof. codec_laws ClusterMembersExtendedResponse_codec ClusterMembersExtendedResponse_Encode ClusterMembersExtendedResponse_Decode. Qed.

(** ** SnapshotRecordingsSnapshots *)

Record SnapshotRecordingsSnapshots : Type := mkSnapshotRecordingsSnapshots {
  SnapshotRecordingsSnapshots_RecordingId : Z; SnapshotRecordingsSnapshots_LeadershipTermId : Z;
  SnapshotRecordingsSnapshots_TermBaseLogPosition : Z; SnapshotRecordingsSnapshots_LogPosition : Z;
  SnapshotRecordingsSnapshots_Timestamp : Z; SnapshotRecordingsSnapshots_ServiceId : Z }.

Definition SnapshotRecordingsSnapshots_RecordingId_field : field := mkField 4 0 0 false (-9223372036854775807) 9223372036854775807 (-9223372036854775808).
Definition SnapshotRecordingsSnapshots_LeadershipTermId_field : field := mkField 5 0 0 false (-9223372036854775807) 9223372036854775807 (-9223372036854775808).
Definition SnapshotRecordingsSnapshots_TermBaseLogPosition_field : field := mkField 6 0 0 false (-9223372036854775807) 9223372036854775807 (-9223372036854775808).
Definition SnapshotRecordingsSnapshots_LogPosition_field : field := mkField 7 0 0 false (-9223372036854775807) 9223372036854775807 (-9223372036854775808).
Definition SnapshotRecordingsSnapshots_Timestamp_field : field := mkField 8 0 0 false (-9223372036854775807) 9223372036854775807 (-9223372036854775808).
Definition SnapshotRecordingsSnapshots_ServiceId_field : field := mkField 9 0 0 false (-2147483647) 2147483647 (-2147483648).
Definition SnapshotRecordingsSnapshots_set_RecordingId (v : Z) (m : SnapshotRecordingsSnapshots) :
  SnapshotRecordingsSnapshots := mkSnapshotRecordingsSnapshots v (SnapshotRecordingsSnapshots_LeadershipTermId
  m) (SnapshotRecordingsSnapshots_TermBaseLogPosition m) (SnapshotRecordingsSnapshots_LogPosition m)
  (SnapshotRecordingsSnapshots_Timestamp m) (SnapshotRecordingsSnapshots_ServiceId m).
Definition SnapshotRecordingsSnapshots_set_LeadershipTermId (v : Z) (m : SnapshotRecordingsSnapshots) :
  SnapshotRecordingsSnapshots := mkSnapshotRecordingsSnapshots (SnapshotRecordingsSnapshots_RecordingId m) v
  (SnapshotRecordingsSnapshots_TermBaseLogPosition m) (SnapshotRecordingsSnapshots_LogPosition m)
  (SnapshotRecordingsSnapshots_Timestamp m) (SnapshotRecordingsSnapshots_ServiceId m).
Definition SnapshotRecordingsSnapshots_set_TermBaseLogPosition (v : Z) (m : SnapshotRecordingsSnapshots) :
  SnapshotRecordingsSnapshots := mkSnapshotRecordingsSnapshots (SnapshotRecordingsSnapshots_RecordingId m)
  (SnapshotRecordingsSnapshots_LeadershipTermId m) v (SnapshotRecordingsSnapshots_LogPosition m)
  (SnapshotRecordingsSnapshots_Timestamp m) (SnapshotRecordingsSnapshots_ServiceId m).
Definition SnapshotRecordingsSnapshots_set_LogPosition (v : Z) (m : SnapshotRecordingsSnapshots) :
  SnapshotRecordingsSnapshots := mkSnapshotRecordingsSnapshots (SnapshotRecordingsSnapshots_RecordingId m)
  (SnapshotRecordingsSnapshots_LeadershipTermId m) (SnapshotRecordingsSnapshots_TermBaseLogPosition m) v
  (SnapshotRecordingsSnapshots_Timestamp m) (SnapshotRecordingsSnapshots_ServiceId m).
Definition SnapshotRecordingsSnapshots_set_Timestamp (v : Z) (m : SnapshotRecordingsSnapshots) :
  SnapshotRecordingsSnapshots := mkSnapshotRecordingsSnapshots (SnapshotRecordingsSnapshots_RecordingId m)
  (SnapshotRecordingsSnapshots_LeadershipTermId m) (SnapshotRecordingsSnapshots_TermBaseLogPosition m)
  (SnapshotRecordingsSnapshots_LogPosition m) v (SnapshotRecordingsSnapshots_ServiceId m).
Definition SnapshotRecordingsSnapshots_set_ServiceId (v : Z) (m : SnapshotRecordingsSnapshots) :
  SnapshotRecordingsSnapshots := mkSnapshotRecordingsSnapshots (SnapshotRecordingsSnapshots_RecordingId m)
  (SnapshotRecordingsSnapshots_LeadershipTermId m) (SnapshotRecordingsSnapshots_TermBaseLogPosition m)
  (SnapshotRecordingsSnapshots_LogPosition m) (SnapshotRecordingsSnapshots_Timestamp m) v.

Definition SnapshotRecordingsSnapshots_RangeCheck (m : SnapshotRecordingsSnapshots) (actingVersion schemaVersion : Z) : option string :=
  first_error
    [ check_required SnapshotRecordingsSnapshots_RecordingId_field actingVersion (SnapshotRecordingsSnapshots_RecordingId m)
    ; check_required SnapshotRecordingsSnapshots_LeadershipTermId_field actingVersion (SnapshotRecordingsSnapshots_LeadershipTermId m)
    ; check_required SnapshotRecordingsSnapshots_TermBaseLogPosition_field actingVersion (SnapshotRecordingsSnapshots_TermBaseLogPosition m)
    ; check_required SnapshotRecordingsSnapshots_LogPosition_field actingVersion (SnapshotRecordingsSnapshots_LogPosition m)
    ; check_required SnapshotRecordingsSnapshots_Timestamp_field actingVersion (SnapshotRecordingsSnapshots_Timestamp m)
    ; check_required SnapshotRecordingsSnapshots_ServiceId_field actingVersion (SnapshotRecordingsSnapshots_ServiceId m) ].

Definition SnapshotRecordingsSnapshots_Encode (m : SnapshotRecordingsSnapshots) : M bytes unit :=
  WriteInt64 (SnapshotRecordingsSnapshots_RecordingId m) ;;;
  WriteInt64 (SnapshotRecordingsSnapshots_LeadershipTermId m) ;;;
  WriteInt64 (SnapshotRecordingsSnapshots_TermBaseLogPosition m) ;;;
  WriteInt64 (SnapshotRecordingsSnapshots_LogPosition m) ;;;
  WriteInt64 (SnapshotRecordingsSnapshots_Timestamp m) ;;;
  WriteInt32 (SnapshotRecordingsSnapshots_ServiceId m).

Definition SnapshotRecordingsSnapshots_Decode (actingVersion blockLength : Z) : M (bytes * SnapshotRecordingsSnapshots) unit :=
  decode_field SnapshotRecordingsSnapshots_RecordingId_field actingVersion ReadInt64 SnapshotRecordingsSnapshots_set_RecordingId ;;;
  decode_field SnapshotRecordingsSnapshots_LeadershipTermId_field actingVersion ReadInt64 SnapshotRecordingsSnapshots_set_LeadershipTermId ;;;
  decode_field SnapshotRecordingsSnapshots_TermBaseLogPosition_field actingVersion ReadInt64 SnapshotRecordingsSnapshots_set_TermBaseLogPosition ;;;
  decode_field SnapshotRecordingsSnapshots_LogPosition_field actingVersion ReadInt64 SnapshotRecordingsSnapshots_set_LogPosition ;;;
  decode_field SnapshotRecordingsSnapshots_Timestamp_field actingVersion ReadInt64 SnapshotRecordingsSnapshots_set_Timestamp ;;;
  decode_field SnapshotRecordingsSnapshots_ServiceId_field actingVersion ReadInt32 SnapshotRecordingsSnapshots_set_ServiceId ;;;
  skip_block actingVersion 16 blockLength 44.

#[export] Instance SnapshotRecordingsSnapshots_codec : ElementCodec SnapshotRecordingsSnapshots := {|
  ElementBlockLength := 44; ElementSchemaVersion := 16; element_zero := mkSnapshotRecordingsSnapshots 0 0 0 0 0 0;
  element_Encode := SnapshotRecordingsSnapshots_Encode; element_Decode := SnapshotRecordingsSnapshots_Decode; element_RangeCheck := SnapshotRecordingsSnapshots_RangeCheck;
  element_valid m := is_i64 (SnapshotRecordingsSnapshots_RecordingId m) /\ is_i64 (SnapshotRecordingsSnapshots_LeadershipTermId m) /\
    is_i64 (SnapshotRecordingsSnapshots_TermBaseLogPosition m) /\ is_i64
    (SnapshotRecordingsSnapshots_LogPosition m) /\ is_i64 (SnapshotRecordingsSnapshots_Timestamp m) /\ is_i32
    (SnapshotRecordingsSnapshots_ServiceId m);
  element_bytes m := le_split 8 (SnapshotRecordingsSnapshots_RecordingId m) ++ le_split 8
    (SnapshotRecordingsSnapshots_LeadershipTermId m) ++ le_split 8
    (SnapshotRecordingsSnapshots_TermBaseLogPosition m) ++ le_split 8 (SnapshotRecordingsSnapshots_LogPosition
    m) ++ le_split 8 (SnapshotRecordingsSnapshots_Timestamp m) ++ le_split 4
    (SnapshotRecordingsSnapshots_ServiceId m) |}.

#[export] Instance SnapshotRecordingsSnapshots_laws : ElementLaws SnapshotRecordingsSnapshots.
Proof. element_laws SnapshotRecordingsSnapshots_codec SnapshotRecordingsSnapshots_Encode SnapshotRecordingsSnapshots_Decode. Qed.

(** ** SnapshotRecordings *)

Record SnapshotRecordings : Type := mkSnapshotRecordings { SnapshotRecordings_CorrelationId : Z;
  SnapshotRecordings_Snapshots : list SnapshotRecordingsSnapshots; SnapshotRecordings_MemberEndpoints : bytes }.

Definition SnapshotRecordings_CorrelationId_field : field := mkField 1 0 0 false (-9223372036854775807) 9223372036854775807 (-9223372036854775808).
Definition SnapshotRecordings_Snapshots_group : group_field := mkGroupField 3 0 0.
Definition SnapshotRecordings_MemberEndpoints_field : data_field := mkDataField 0 0 "US-ASCII" 4.
Definition SnapshotRecordings_set_CorrelationId (v : Z) (m : SnapshotRecordings) : SnapshotRecordings :=
  mkSnapshotRecordings v (SnapshotRecordings_Snapshots m) (SnapshotRecordings_MemberEndpoints m).
Definition SnapshotRecordings_set_Snapshots (v : list SnapshotRecordingsSnapshots) (m : SnapshotRecordings) :
  SnapshotRecordings := mkSnapshotRecordings (SnapshotRecordings_CorrelationId m) v
  (SnapshotRecordings_MemberEndpoints m).
Definition SnapshotRecordings_set_MemberEndpoints (v : bytes) (m : SnapshotRecordings) : SnapshotRecordings :=
  mkSnapshotRecordings (SnapshotRecordings_CorrelationId m) (SnapshotRecordings_Snapshots m) v.

Definition SnapshotRecordings_RangeCheck (m : SnapshotRecordings) (actingVersion schemaVersion : Z) : option string :=
  first_error
    [ check_required SnapshotRecordings_CorrelationId_field actingVersion (SnapshotRecordings_CorrelationId m)
    ; check_group (SnapshotRecordings_Snapshots m) actingVersion schemaVersion
    ; check_ascii (SnapshotRecordings_MemberEndpoints m) ].

Definition SnapshotRecordings_Encode (m : SnapshotRecordings) (doRangeCheck : bool) : M bytes unit :=
  when doRangeCheck (fail_if (SnapshotRecordings_RangeCheck m 16 16)) ;;;
  WriteInt64 (SnapshotRecordings_CorrelationId m) ;;;
  WriteGroup (SnapshotRecordings_Snapshots m) ;;;
  WriteUint32 (u32 (zlen (SnapshotRecordings_MemberEndpoints m))) ;;;
  WriteBytes (SnapshotRecordings_MemberEndpoints m).

Definition SnapshotRecordings_Decode (actingVersion blockLength : Z) (doRangeCheck : bool) : M (bytes * SnapshotRecordings) unit :=
  decode_field SnapshotRecordings_CorrelationId_field actingVersion ReadInt64 SnapshotRecordings_set_CorrelationId ;;;
  skip_block actingVersion 16 blockLength 8 ;;;
  decode_group SnapshotRecordings_Snapshots SnapshotRecordings_set_Snapshots SnapshotRecordings_Snapshots_group actingVersion ;;;
  decode_data SnapshotRecordings_MemberEndpoints_field actingVersion SnapshotRecordings_set_MemberEndpoints ;;;
  when doRangeCheck (checked (fun m => SnapshotRecordings_RangeCheck m actingVersion 16)).

#[export] Instance SnapshotRecordings_codec : Codec SnapshotRecordings := {|
  SbeBlockLength := 8; SbeTemplateId := 73; SbeSchemaId := 111; SbeSchemaVersion := 16;
  zero := mkSnapshotRecordings 0 [] [];
  RangeCheck := SnapshotRecordings_RangeCheck; Encode := SnapshotRecordings_Encode; Decode := SnapshotRecordings_Decode;
  valid m := is_i64 (SnapshotRecordings_CorrelationId m) /\ group_valid (SnapshotRecordings_Snapshots m) /\ zlen
    (SnapshotRecordings_MemberEndpoints m) < 4294967296;
  fixed_part m := le_split 8 (SnapshotRecordings_CorrelationId m);
  data_part m := group_bytes (SnapshotRecordings_Snapshots m) ++ data_bytes (SnapshotRecordings_MemberEndpoints m) |}.

#[export] Instance SnapshotRecordings_laws : CodecLaws SnapshotRecordings.
Proof. codec_laws SnapshotRecordings_codec SnapshotRecordings_Encode SnapshotRecordings_Decode. Qed.

(** ** StandbySnapshotSnapshots *)

Record StandbySnapshotSnapshots : Type := mkStandbySnapshotSnapshots { StandbySnapshotSnapshots_RecordingId : Z;
  StandbySnapshotSnapshots_LeadershipTermId : Z; StandbySnapshotSnapshots_TermBaseLogPosition : Z;
  StandbySnapshotSnapshots_LogPosition : Z; StandbySnapshotSnapshots_Timestamp : Z;
  StandbySnapshotSnapshots_ServiceId : Z; StandbySnapshotSnapshots_ArchiveEndpoint : bytes }.

Definition StandbySnapshotSnapshots_RecordingId_field : field := mkField 5 0 0 false (-9223372036854775807) 9223372036854775807 (-9223372036854775808).
Definition StandbySnapshotSnapshots_LeadershipTermId_field : field := mkField 6 0 0 false (-9223372036854775807) 9223372036854775807 (-9223372036854775808).
Definition StandbySnapshotSnapshots_TermBaseLogPosition_field : field := mkField 7 0 0 false (-9223372036854775807) 9223372036854775807 (-9223372036854775808).
Definition StandbySnapshotSnapshots_LogPosition_field : field := mkField 8 0 0 false (-9223372036854775807) 9223372036854775807 (-9223372036854775808).
Definition StandbySnapshotSnapshots_Timestamp_field : field := mkField 9 0 0 false (-9223372036854775807) 9223372036854775807 (-9223372036854775808).
Definition StandbySnapshotSnapshots_ServiceId_field : field := mkField 10 0 0 false (-2147483647) 2147483647 (-2147483648).
Definition StandbySnapshotSnapshots_ArchiveEndpoint_field : data_field := mkDataField 0 0 "US-ASCII" 4.
Definition StandbySnapshotSnapshots_set_RecordingId (v : Z) (m : StandbySnapshotSnapshots) :
  StandbySnapshotSnapshots := mkStandbySnapshotSnapshots v (StandbySnapshotSnapshots_LeadershipTermId m)
  (StandbySnapshotSnapshots_TermBaseLogPosition m) (StandbySnapshotSnapshots_LogPosition m)
  (StandbySnapshotSnapshots_Timestamp m) (StandbySnapshotSnapshots_ServiceId m)
  (StandbySnapshotSnapshots_ArchiveEndpoint m).
Definition StandbySnapshotSnapshots_set_LeadershipTermId (v : Z) (m : StandbySnapshotSnapshots) :
  StandbySnapshotSnapshots := mkStandbySnapshotSnapshots (StandbySnapshotSnapshots_RecordingId m) v
  (StandbySnapshotSnapshots_TermBaseLogPosition m) (StandbySnapshotSnapshots_LogPosition m)
  (StandbySnapshotSnapshots_Timestamp m) (StandbySnapshotSnapshots_ServiceId m)
  (StandbySnapshotSnapshots_ArchiveEndpoint m).
Definition StandbySnapshotSnapshots_set_TermBaseLogPosition (v : Z) (m : StandbySnapshotSnapshots) :
  StandbySnapshotSnapshots := mkStandbySnapshotSnapshots (StandbySnapshotSnapshots_RecordingId m)
  (StandbySnapshotSnapshots_LeadershipTermId m) v (StandbySnapshotSnapshots_LogPosition m)
  (StandbySnapshotSnapshots_Timestamp m) (StandbySnapshotSnapshots_ServiceId m)
  (StandbySnapshotSnapshots_ArchiveEndpoint m).
Definition StandbySnapshotSnapshots_set_LogPosition (v : Z) (m : StandbySnapshotSnapshots) :
  StandbySnapshotSnapshots := mkStandbySnapshotSnapshots (StandbySnapshotSnapshots_RecordingId m)
  (StandbySnapshotSnapshots_LeadershipTermId m) (StandbySnapshotSnapshots_TermBaseLogPosition m) v
  (StandbySnapshotSnapshots_Timestamp m) (StandbySnapshotSnapshots_ServiceId m)
  (StandbySnapshotSnapshots_ArchiveEndpoint m).
Definition StandbySnapshotSnapshots_set_Timestamp (v : Z) (m : StandbySnapshotSnapshots) :
  StandbySnapshotSnapshots := mkStandbySnapshotSnapshots (StandbySnapshotSnapshots_RecordingId m)
  (StandbySnapshotSnapshots_LeadershipTermId m) (StandbySnapshotSnapshots_TermBaseLogPosition m)
  (StandbySnapshotSnapshots_LogPosition m) v (StandbySnapshotSnapshots_ServiceId m)
  (StandbySnapshotSnapshots_ArchiveEndpoint m).
Definition StandbySnapshotSnapshots_set_ServiceId (v : Z) (m : StandbySnapshotSnapshots) :
  StandbySnapshotSnapshots := mkStandbySnapshotSnapshots (StandbySnapshotSnapshots_RecordingId m)
  (StandbySnapshotSnapshots_LeadershipTermId m) (StandbySnapshotSnapshots_TermBaseLogPosition m)
  (StandbySnapshotSnapshots_LogPosition m) (StandbySnapshotSnapshots_Timestamp m) v
  (StandbySnapshotSnapshots_ArchiveEndpoint m).
Definition StandbySnapshotSnapshots_set_ArchiveEndpoint (v : bytes) (m : StandbySnapshotSnapshots) :
  StandbySnapshotSnapshots := mkStandbySnapshotSnapshots (StandbySnapshotSnapshots_RecordingId m)
  (StandbySnapshotSnapshots_LeadershipTermId m) (StandbySnapshotSnapshots_TermBaseLogPosition m)
  (StandbySnapshotSnapshots_LogPosition m) (StandbySnapshotSnapshots_Timestamp m)
  (StandbySnapshotSnapshots_ServiceId m) v.

Definition StandbySnapshotSnapshots_RangeCheck (m : StandbySnapshotSnapshots) (actingVersion schemaVersion : Z) : option string :=
  first_error
    [ check_required StandbySnapshotSnapshots_RecordingId_field actingVersion (StandbySnapshotSnapshots_RecordingId m)
    ; check_required StandbySnapshotSnapshots_LeadershipTermId_field actingVersion (StandbySnapshotSnapshots_LeadershipTermId m)
    ; check_required StandbySnapshotSnapshots_TermBaseLogPosition_field actingVersion (StandbySnapshotSnapshots_TermBaseLogPosition m)
    ; check_required StandbySnapshotSnapshots_LogPosition_field actingVersion (StandbySnapshotSnapshots_LogPosition m)
    ; check_required StandbySnapshotSnapshots_Timestamp_field actingVersion (StandbySnapshotSnapshots_Timestamp m)
    ; check_required StandbySnapshotSnapshots_ServiceId_field actingVersion (StandbySnapshotSnapshots_ServiceId m)
    ; check_ascii (StandbySnapshotSnapshots_ArchiveEndpoint m) ].

Definition StandbySnapshotSnapshots_Encode (m : StandbySnapshotSnapshots) : M bytes unit :=
  WriteInt64 (StandbySnapshotSnapshots_RecordingId m) ;;;
  WriteInt64 (StandbySnapshotSnapshots_LeadershipTermId m) ;;;
  WriteInt64 (StandbySnapshotSnapshots_TermBaseLogPosition m) ;;;
  WriteInt64 (StandbySnapshotSnapshots_LogPosition m) ;;;
  WriteInt64 (StandbySnapshotSnapshots_Timestamp m) ;;;
  WriteInt32 (StandbySnapshotSnapshots_ServiceId m) ;;;
  WriteUint32 (u32 (zlen (StandbySnapshotSnapshots_ArchiveEndpoint m))) ;;;
  WriteBytes (StandbySnapshotSnapshots_ArchiveEndpoint m).

Definition StandbySnapshotSnapshots_Decode (actingVersion blockLength : Z) : M (bytes * StandbySnapshotSnapshots) unit :=
  decode_field StandbySnapshotSnapshots_RecordingId_field actingVersion ReadInt64 StandbySnapshotSnapshots_set_RecordingId ;;;
  decode_field StandbySnapshotSnapshots_LeadershipTermId_field actingVersion ReadInt64 StandbySnapshotSnapshots_set_LeadershipTermId ;;;
  decode_field StandbySnapshotSnapshots_TermBaseLogPosition_field actingVersion ReadInt64 StandbySnapshotSnapshots_set_TermBaseLogPosition ;;;
  decode_field StandbySnapshotSnapshots_LogPosition_field actingVersion ReadInt64 StandbySnapshotSnapshots_set_LogPosition ;;;
  decode_field StandbySnapshotSnapshots_Timestamp_field actingVersion ReadInt64 StandbySnapshotSnapshots_set_Timestamp ;;;
  decode_field StandbySnapshotSnapshots_ServiceId_field actingVersion ReadInt32 StandbySnapshotSnapshots_set_ServiceId ;;;
  skip_block actingVersion 16 blockLength 44 ;;;
  decode_data StandbySnapshotSnapshots_ArchiveEndpoint_field actingVersion StandbySnapshotSnapshots_set_ArchiveEndpoint.

#[export] Instance StandbySnapshotSnapshots_codec : ElementCodec StandbySnapshotSnapshots := {|
  ElementBlockLength := 44; ElementSchemaVersion := 16; element_zero := mkStandbySnapshotSnapshots 0 0 0 0 0 0 [];
  element_Encode := StandbySnapshotSnapshots_Encode; element_Decode := StandbySnapshotSnapshots_Decode; element_RangeCheck := StandbySnapshotSnapshots_RangeCheck;
  element_valid m := is_i64 (StandbySnapshotSnapshots_RecordingId m) /\ is_i64 (StandbySnapshotSnapshots_LeadershipTermId m) /\
    is_i64 (StandbySnapshotSnapshots_TermBaseLogPosition m) /\ is_i64 (StandbySnapshotSnapshots_LogPosition m)
    /\ is_i64 (StandbySnapshotSnapshots_Timestamp m) /\ is_i32 (StandbySnapshotSnapshots_ServiceId m) /\ zlen
    (StandbySnapshotSnapshots_ArchiveEndpoint m) < 4294967296;
  element_bytes m := le_split 8 (StandbySnapshotSnapshots_RecordingId m) ++ le_split 8 (StandbySnapshotSnapshots_LeadershipTermId m)
    ++ le_split 8 (StandbySnapshotSnapshots_TermBaseLogPosition m) ++ le_split 8
    (StandbySnapshotSnapshots_LogPosition m) ++ le_split 8 (StandbySnapshotSnapshots_Timestamp m) ++ le_split 4
    (StandbySnapshotSnapshots_ServiceId m) ++ data_bytes (StandbySnapshotSnapshots_ArchiveEndpoint m) |}.

#[export] Instance StandbySnapshotSnapshots_laws : ElementLaws StandbySnapshotSnapshots.
Proof. element_laws StandbySnapshotSnapshots_codec StandbySnapshotSnapshots_Encode StandbySnapshotSnapshots_Decode. Qed.

(** ** StandbySnapshot *)

Record StandbySnapshot : Type := mkStandbySnapshot { StandbySnapshot_CorrelationId : Z; StandbySnapshot_Version
  : Z; StandbySnapshot_ResponseStreamId : Z; StandbySnapshot_Snapshots : list StandbySnapshotSnapshots;
  StandbySnapshot_ResponseChannel : bytes; StandbySnapshot_EncodedCredentials : bytes }.

Definition StandbySnapshot_CorrelationId_field : field := mkField 1 0 0 false (-9223372036854775807) 9223372036854775807 (-9223372036854775808).
Definition StandbySnapshot_Version_field : field := mkField 2 0 0 false (-2147483647) 2147483647 (-2147483648).
Definition StandbySnapshot_ResponseStreamId_field : field := mkField 3 0 0 false (-2147483647) 2147483647 (-2147483648).
Definition StandbySnapshot_Snapshots_group : group_field := mkGroupField 4 0 0.
Definition StandbySnapshot_ResponseChannel_field : data_field := mkDataField 0 0 "US-ASCII" 4.
Definition StandbySnapshot_EncodedCredentials_field : data_field := mkDataField 0 0 "null" 4.
Definition StandbySnapshot_set_CorrelationId (v : Z) (m : StandbySnapshot) : StandbySnapshot :=
  mkStandbySnapshot v (StandbySnapshot_Version m) (StandbySnapshot_ResponseStreamId m)
  (StandbySnapshot_Snapshots m) (StandbySnapshot_ResponseChannel m) (StandbySnapshot_EncodedCredentials m).
Definition StandbySnapshot_set_Version (v : Z) (m : StandbySnapshot) : StandbySnapshot := mkStandbySnapshot
  (StandbySnapshot_CorrelationId m) v (StandbySnapshot_ResponseStreamId m) (StandbySnapshot_Snapshots m)
  (StandbySnapshot_ResponseChannel m) (StandbySnapshot_EncodedCredentials m).
Definition StandbySnapshot_set_ResponseStreamId (v : Z) (m : StandbySnapshot) : StandbySnapshot :=
  mkStandbySnapshot (StandbySnapshot_CorrelationId m) (StandbySnapshot_Version m) v (StandbySnapshot_Snapshots
  m) (StandbySnapshot_ResponseChannel m) (StandbySnapshot_EncodedCredentials m).
Definition StandbySnapshot_set_Snapshots (v : list StandbySnapshotSnapshots) (m : StandbySnapshot) :
  StandbySnapshot := mkStandbySnapshot (StandbySnapshot_CorrelationId m) (StandbySnapshot_Version m)
  (StandbySnapshot_ResponseStreamId m) v (StandbySnapshot_ResponseChannel m) (StandbySnapshot_EncodedCredentials
  m).
Definition StandbySnapshot_set_ResponseChannel (v : bytes) (m : StandbySnapshot) : StandbySnapshot :=
  mkStandbySnapshot (StandbySnapshot_CorrelationId m) (StandbySnapshot_Version m)
  (StandbySnapshot_ResponseStreamId m) (StandbySnapshot_Snapshots m) v (StandbySnapshot_EncodedCredentials m).
Definition StandbySnapshot_set_EncodedCredentials (v : bytes) (m : StandbySnapshot) : StandbySnapshot :=
  mkStandbySnapshot (StandbySnapshot_CorrelationId m) (StandbySnapshot_Version m)
  (StandbySnapshot_ResponseStreamId m) (StandbySnapshot_Snapshots m) (StandbySnapshot_ResponseChannel m) v.

Definition StandbySnapshot_RangeCheck (m : StandbySnapshot) (actingVersion schemaVersion : Z) : option string :=
  first_error
    [ check_required StandbySnapshot_CorrelationId_field actingVersion (StandbySnapshot_CorrelationId m)
    ; check_required StandbySnapshot_Version_field actingVersion (StandbySnapshot_Version m)
    ; check_required StandbySnapshot_ResponseStreamId_field actingVersion (StandbySnapshot_ResponseStreamId m)
    ; check_group (StandbySnapshot_Snapshots m) actingVersion schemaVersion
    ; check_ascii (StandbySnapshot_ResponseChannel m) ].

Definition StandbySnapshot_Encode (m : StandbySnapshot) (doRangeCheck : bool) : M bytes unit :=
  when doRangeCheck (fail_if (StandbySnapshot_RangeCheck m 16 16)) ;;;
  WriteInt64 (StandbySnapshot_CorrelationId m) ;;;
  WriteInt32 (StandbySnapshot_Version m) ;;;
  WriteInt32 (StandbySnapshot_ResponseStreamId m) ;;;
  WriteGroup (StandbySnapshot_Snapshots m) ;;;
  WriteUint32 (u32 (zlen (StandbySnapshot_ResponseChannel m))) ;;;
  WriteBytes (StandbySnapshot_ResponseChannel m) ;;;
  WriteUint32 (u32 (zlen (StandbySnapshot_EncodedCredentials m))) ;;;
  WriteBytes (StandbySnapshot_EncodedCredentials m).

Definition StandbySnapshot_Decode (actingVersion blockLength : Z) (doRangeCheck : bool) : M (bytes * StandbySnapshot) unit :=
  decode_field StandbySnapshot_CorrelationId_field actingVersion ReadInt64 StandbySnapshot_set_CorrelationId ;;;
  decode_field StandbySnapshot_Version_field actingVersion ReadInt32 StandbySnapshot_set_Version ;;;
  decode_field StandbySnapshot_ResponseStreamId_field actingVersion ReadInt32 StandbySnapshot_set_ResponseStreamId ;;;
  skip_block actingVersion 16 blockLength 16 ;;;
  decode_group StandbySnapshot_Snapshots StandbySnapshot_set_Snapshots StandbySnapshot_Snapshots_group actingVersion ;;;
  decode_data StandbySnapshot_ResponseChannel_field actingVersion StandbySnapshot_set_ResponseChannel ;;;
  decode_data StandbySnapshot_EncodedCredentials_field actingVersion StandbySnapshot_set_EncodedCredentials ;;;
  when doRangeCheck (checked (fun m => StandbySnapshot_RangeCheck m actingVersion 16)).

#[export] Instance StandbySnapshot_codec : Codec StandbySnapshot := {|
  SbeBlockLength := 16; SbeTemplateId := 81; SbeSchemaId := 111; SbeSchemaVersion := 16;
  zero := mkStandbySnapshot 0 0 0 [] [] [];
  RangeCheck := StandbySnapshot_RangeCheck; Encode := StandbySnapshot_Encode; Decode := StandbySnapshot_Decode;
  valid m := is_i64 (StandbySnapshot_CorrelationId m) /\ is_i32 (StandbySnapshot_Version m) /\ is_i32
    (StandbySnapshot_ResponseStreamId m) /\ group_valid (StandbySnapshot_Snapshots m) /\ zlen
    (StandbySnapshot_ResponseChannel m) < 4294967296 /\ zlen (StandbySnapshot_EncodedCredentials m) < 4294967296;
  fixed_part m := le_split 8 (StandbySnapshot_CorrelationId m) ++ le_split 4 (StandbySnapshot_Version m) ++ le_split 4
    (StandbySnapshot_ResponseStreamId m);
  data_part m := group_bytes (StandbySnapshot_Snapshots m) ++ data_bytes (StandbySnapshot_ResponseChannel m) ++ data_bytes
    (StandbySnapshot_EncodedCredentials m) |}.

#[export] Instance StandbySnapshot_laws : CodecLaws StandbySnapshot.
Proof. codec_laws StandbySnapshot_codec StandbySnapshot_Encode StandbySnapshot_Decode. Qed.
