(* ===== verification/ClusterTypes.v ===== *)
(** * The enumerations and composites of the cluster

    cluster/codecs: the types that the fields of the messages have, as for the archive. *)

From S2P Require Import Prelude Sbe SbeTypes SbeGroup ClusterCodecs ClusterGroups.

Local Open Scope m_scope.

Local Abbreviation bytes := (list Init.Byte.byte).

(** ** Enumerations *)

Definition AdminRequestType_Encode (e : Z) : M bytes unit := WriteInt32 e.
Definition AdminRequestType_Decode (actingVersion : Z) : M (bytes * Z) unit := ReadInt32 (fun v _ => v).
Definition AdminRequestType_RangeCheck (e actingVersion schemaVersion : Z) : option string := check_enum
  AdminRequestTypeValues actingVersion schemaVersion e.
Definition AdminRequestType_EncodedLength : Z := 4.
Definition AdminRequestType_accessors : list enum_value := [mkEnumValue AdminRequestType.SNAPSHOT 0 0].
Definition AdminRequestType_wire : wire Z := enum_wire AdminRequestType_Encode AdminRequestType_Decode
  AdminRequestType_RangeCheck AdminRequestTypeValues AdminRequestType_EncodedLength is_i32.

Definition AdminResponseCode_Encode (e : Z) : M bytes unit := WriteInt32 e.
Definition AdminResponseCode_Decode (actingVersion : Z) : M (bytes * Z) unit := ReadInt32 (fun v _ => v).
Definition AdminResponseCode_RangeCheck (e actingVersion schemaVersion : Z) : option string := check_enum
  AdminResponseCodeValues actingVersion schemaVersion e.
Definition AdminResponseCode_EncodedLength : Z := 4.
Definition AdminResponseCode_accessors : list enum_value := [mkEnumValue AdminResponseCode.OK 0 0; mkEnumValue
  AdminResponseCode.ERROR 0 0; mkEnumValue AdminResponseCode.UNAUTHORISED_ACCESS 0 0].
Definition AdminResponseCode_wire : wire Z := enum_wire AdminResponseCode_Encode AdminResponseCode_Decode
  AdminResponseCode_RangeCheck AdminResponseCodeValues AdminResponseCode_EncodedLength is_i32.

Definition BooleanType_Encode (e : Z) : M bytes unit := WriteInt32 e.
Definition BooleanType_Decode (actingVersion : Z) : M (bytes * Z) unit := ReadInt32 (fun v _ => v).
Definition BooleanType_RangeCheck (e actingVersion schemaVersion : Z) : option string := check_enum
  BooleanTypeValues actingVersion schemaVersion e.
Definition BooleanType_EncodedLength : Z := 4.
Definition BooleanType_accessors : list enum_value := [mkEnumValue BooleanType.FALSE 0 0; mkEnumValue
  BooleanType.TRUE 0 0].
Definition BooleanType_wire : wire Z := enum_wire BooleanType_Encode BooleanType_Decode BooleanType_RangeCheck
  BooleanTypeValues BooleanType_EncodedLength is_i32.

Definition ChangeType_Encode (e : Z) : M bytes unit := WriteInt32 e.
Definition ChangeType_Decode (actingVersion : Z) : M (bytes * Z) unit := ReadInt32 (fun v _ => v).
Definition ChangeType_RangeCheck (e actingVersion schemaVersion : Z) : option string := check_enum ChangeTypeValues
  actingVersion schemaVersion e.
Definition ChangeType_EncodedLength : Z := 4.
Definition ChangeType_accessors : list enum_value := [mkEnumValue ChangeType.JOIN 0 0; mkEnumValue ChangeType.QUIT
  0 0].
Definition ChangeType_wire : wire Z := enum_wire ChangeType_Encode ChangeType_Decode ChangeType_RangeCheck
  ChangeTypeValues ChangeType_EncodedLength is_i32.

Definition CloseReason_Encode (e : Z) : M bytes unit := WriteInt32 e.
Definition CloseReason_Decode (actingVersion : Z) : M (bytes * Z) unit := ReadInt32 (fun v _ => v).
Definition CloseReason_RangeCheck (e actingVersion schemaVersion : Z) : option string := check_enum
  CloseReasonValues actingVersion schemaVersion e.
Definition CloseReason_EncodedLength : Z := 4.
Definition CloseReason_accessors : list enum_value := [mkEnumValue CloseReason.CLIENT_ACTION 0 0; mkEnumValue
  CloseReason.SERVICE_ACTION 0 0; mkEnumValue CloseReason.TIMEOUT 0 0].
Definition CloseReason_wire : wire Z := enum_wire CloseReason_Encode CloseReason_Decode CloseReason_RangeCheck
  CloseReasonValues CloseReason_EncodedLength is_i32.

Definition ClusterAction_Encode (e : Z) : M bytes unit := WriteInt32 e.
Definition ClusterAction_Decode (actingVersion : Z) : M (bytes * Z) unit := ReadInt32 (fun v _ => v).
Definition ClusterAction_RangeCheck (e actingVersion schemaVersion : Z) : option string := check_enum
  ClusterActionValues actingVersion schemaVersion e.
Definition ClusterAction_EncodedLength : Z := 4.
Definition ClusterAction_accessors : list enum_value := [mkEnumValue ClusterAction.SUSPEND 0 0; mkEnumValue
  ClusterAction.RESUME 0 0; mkEnumValue ClusterAction.SNAPSHOT 0 0].
Definition ClusterAction_wire : wire Z := enum_wire ClusterAction_Encode ClusterAction_Decode
  ClusterAction_RangeCheck ClusterActionValues ClusterAction_EncodedLength is_i32.

Definition ClusterTimeUnit_Encode (e : Z) : M bytes unit := WriteInt32 e.
Definition ClusterTimeUnit_Decode (actingVersion : Z) : M (bytes * Z) unit := ReadInt32 (fun v _ => v).
Definition ClusterTimeUnit_RangeCheck (e actingVersion schemaVersion : Z) : option string := check_enum
  ClusterTimeUnitValues actingVersion schemaVersion e.
Definition ClusterTimeUnit_EncodedLength : Z := 4.
Definition ClusterTimeUnit_accessors : list enum_value := [mkEnumValue ClusterTimeUnit.MILLIS 0 0; mkEnumValue
  ClusterTimeUnit.MICROS 0 0; mkEnumValue ClusterTimeUnit.NANOS 0 0].
Definition ClusterTimeUnit_wire : wire Z := enum_wire ClusterTimeUnit_Encode ClusterTimeUnit_Decode
  ClusterTimeUnit_RangeCheck ClusterTimeUnitValues ClusterTimeUnit_EncodedLength is_i32.

Definition EventCode_Encode (e : Z) : M bytes unit := WriteInt32 e.
Definition EventCode_Decode (actingVersion : Z) : M (bytes * Z) unit := ReadInt32 (fun v _ => v).
Definition EventCode_RangeCheck (e actingVersion schemaVersion : Z) : option string := check_enum EventCodeValues
  actingVersion schemaVersion e.
Definition EventCode_EncodedLength : Z := 4.
Definition EventCode_accessors : list enum_value := [mkEnumValue EventCode.OK 0 0; mkEnumValue EventCode.ERROR 0 0;
  mkEnumValue EventCode.REDIRECT 0 0; mkEnumValue EventCode.AUTHENTICATION_REJECTED 0 0; mkEnumValue
  EventCode.CLOSED 0 0].
Definition EventCode_wire : wire Z := enum_wire EventCode_Encode EventCode_Decode EventCode_RangeCheck
  EventCodeValues EventCode_EncodedLength is_i32.

Definition SnapshotMark_Encode (e : Z) : M bytes unit := WriteInt32 e.
Definition SnapshotMark_Decode (actingVersion : Z) : M (bytes * Z) unit := ReadInt32 (fun v _ => v).
Definition SnapshotMark_RangeCheck (e actingVersion schemaVersion : Z) : option string := check_enum
  SnapshotMarkValues actingVersion schemaVersion e.
Definition SnapshotMark_EncodedLength : Z := 4.
Definition SnapshotMark_accessors : list enum_value := [mkEnumValue SnapshotMark.BEGIN 0 0; mkEnumValue
  SnapshotMark.SECTION 0 0; mkEnumValue SnapshotMark.END 0 0].
Definition SnapshotMark_wire : wire Z := enum_wire SnapshotMark_Encode SnapshotMark_Decode SnapshotMark_RangeCheck
  SnapshotMarkValues SnapshotMark_EncodedLength is_i32.

(** ** Composites *)

Record GroupSizeEncoding : Type := mkGroupSizeEncoding { GroupSizeEncoding_BlockLength : Z;
  GroupSizeEncoding_NumInGroup : Z }.
Definition GroupSizeEncoding_BlockLength_field : field := mkField 0 0 0 false 0 65534 65535.
Definition GroupSizeEncoding_NumInGroup_field : field := mkField 0 0 0 false 0 65534 65535.
Definition GroupSizeEncoding_set_BlockLength (v : Z) (m : GroupSizeEncoding) : GroupSizeEncoding :=
  mkGroupSizeEncoding v (GroupSizeEncoding_NumInGroup m).
Definition GroupSizeEncoding_set_NumInGroup (v : Z) (m : GroupSizeEncoding) : GroupSizeEncoding :=
  mkGroupSizeEncoding (GroupSizeEncoding_BlockLength m) v.

Definition GroupSizeEncoding_Encode (m : GroupSizeEncoding) : M bytes unit :=
  WriteUint16 (GroupSizeEncoding_BlockLength m) ;;;
  WriteUint16 (GroupSizeEncoding_NumInGroup m).

Definition GroupSizeEncoding_Decode (actingVersion : Z) : M (bytes * GroupSizeEncoding) unit :=
  decode_field GroupSizeEncoding_BlockLength_field actingVersion ReadUint16 GroupSizeEncoding_set_BlockLength ;;;
  decode_field GroupSizeEncoding_NumInGroup_field actingVersion ReadUint16 GroupSizeEncoding_set_NumInGroup.

Definition GroupSizeEncoding_RangeCheck (m : GroupSizeEncoding) (actingVersion schemaVersion : Z) : option string :=
  first_error
    [ check_required GroupSizeEncoding_BlockLength_field actingVersion (GroupSizeEncoding_BlockLength m)
    ; check_required GroupSizeEncoding_NumInGroup_field actingVersion (GroupSizeEncoding_NumInGroup m) ].

Definition GroupSizeEncoding_EncodedLength : Z := 4.

Definition GroupSizeEncoding_wire : wire GroupSizeEncoding := {|
w_Encode := GroupSizeEncoding_Encode; w_Decode := GroupSizeEncoding_Decode; w_RangeCheck :=
    GroupSizeEncoding_RangeCheck; w_EncodedLength := GroupSizeEncoding_EncodedLength;
  w_zero := mkGroupSizeEncoding 0 0;
  w_valid m := is_u16 (GroupSizeEncoding_BlockLength m) /\ is_u16 (GroupSizeEncoding_NumInGroup m);
w_in_range m := in_field GroupSizeEncoding_BlockLength_field (GroupSizeEncoding_BlockLength m) /\ in_field
    GroupSizeEncoding_NumInGroup_field (GroupSizeEncoding_NumInGroup m);
  w_bytes m := le_split 2 (GroupSizeEncoding_BlockLength m) ++ le_split 2 (GroupSizeEncoding_NumInGroup m) |}.

Record MessageHeader : Type := mkMessageHeader { MessageHeader_BlockLength : Z; MessageHeader_TemplateId : Z;
  MessageHeader_SchemaId : Z; MessageHeader_Version : Z }.
Definition MessageHeader_BlockLength_field : field := mkField 0 0 0 false 0 65534 65535.
Definition MessageHeader_TemplateId_field : field := mkField 0 0 0 false 0 65534 65535.
Definition MessageHeader_SchemaId_field : field := mkField 0 0 0 false 0 65534 65535.
Definition MessageHeader_Version_field : field := mkField 0 0 0 false 0 65534 65535.
Definition MessageHeader_set_BlockLength (v : Z) (m : MessageHeader) : MessageHeader := mkMessageHeader v
  (MessageHeader_TemplateId m) (MessageHeader_SchemaId m) (MessageHeader_Version m).
Definition MessageHeader_set_TemplateId (v : Z) (m : MessageHeader) : MessageHeader := mkMessageHeader
  (MessageHeader_BlockLength m) v (MessageHeader_SchemaId m) (MessageHeader_Version m).
Definition MessageHeader_set_SchemaId (v : Z) (m : MessageHeader) : MessageHeader := mkMessageHeader
  (MessageHeader_BlockLength m) (MessageHeader_TemplateId m) v (MessageHeader_Version m).
Definition MessageHeader_set_Version (v : Z) (m : MessageHeader) : MessageHeader := mkMessageHeader
  (MessageHeader_BlockLength m) (MessageHeader_TemplateId m) (MessageHeader_SchemaId m) v.

Definition MessageHeader_Encode (m : MessageHeader) : M bytes unit :=
  WriteUint16 (MessageHeader_BlockLength m) ;;;
  WriteUint16 (MessageHeader_TemplateId m) ;;;
  WriteUint16 (MessageHeader_SchemaId m) ;;;
  WriteUint16 (MessageHeader_Version m).

Definition MessageHeader_Decode (actingVersion : Z) : M (bytes * MessageHeader) unit :=
  decode_field MessageHeader_BlockLength_field actingVersion ReadUint16 MessageHeader_set_BlockLength ;;;
  decode_field MessageHeader_TemplateId_field actingVersion ReadUint16 MessageHeader_set_TemplateId ;;;
  decode_field MessageHeader_SchemaId_field actingVersion ReadUint16 MessageHeader_set_SchemaId ;;;
  decode_field MessageHeader_Version_field actingVersion ReadUint16 MessageHeader_set_Version.

Definition MessageHeader_RangeCheck (m : MessageHeader) (actingVersion schemaVersion : Z) : option string :=
  first_error
    [ check_required MessageHeader_BlockLength_field actingVersion (MessageHeader_BlockLength m)
    ; check_required MessageHeader_TemplateId_field actingVersion (MessageHeader_TemplateId m)
    ; check_required MessageHeader_SchemaId_field actingVersion (MessageHeader_SchemaId m)
    ; check_required MessageHeader_Version_field actingVersion (MessageHeader_Version m) ].

Definition MessageHeader_EncodedLength : Z := 8.

Definition MessageHeader_wire : wire MessageHeader := {|
w_Encode := MessageHeader_Encode; w_Decode := MessageHeader_Decode; w_RangeCheck := MessageHeader_RangeCheck;
    w_EncodedLength := MessageHeader_EncodedLength;
  w_zero := mkMessageHeader 0 0 0 0;
w_valid m := is_u16 (MessageHeader_BlockLength m) /\ is_u16 (MessageHeader_TemplateId m) /\ is_u16
    (MessageHeader_SchemaId m) /\ is_u16 (MessageHeader_Version m);
w_in_range m := in_field MessageHeader_BlockLength_field (MessageHeader_BlockLength m) /\ in_field
    MessageHeader_TemplateId_field (MessageHeader_TemplateId m) /\ in_field MessageHeader_SchemaId_field
    (MessageHeader_SchemaId m) /\ in_field MessageHeader_Version_field (MessageHeader_Version m);
w_bytes m := le_split 2 (MessageHeader_BlockLength m) ++ le_split 2 (MessageHeader_TemplateId m) ++ le_split 2
    (MessageHeader_SchemaId m) ++ le_split 2 (MessageHeader_Version m) |}.

Record VarAsciiEncoding : Type := mkVarAsciiEncoding { VarAsciiEncoding_Length : Z; VarAsciiEncoding_VarData : Z }.
Definition VarAsciiEncoding_Length_field : field := mkField 0 0 0 false 0 1073741824 4294967295.
Definition VarAsciiEncoding_VarData_field : field := mkField 0 0 0 false 0 254 255.
Definition VarAsciiEncoding_set_Length (v : Z) (m : VarAsciiEncoding) : VarAsciiEncoding := mkVarAsciiEncoding v
  (VarAsciiEncoding_VarData m).
Definition VarAsciiEncoding_set_VarData (v : Z) (m : VarAsciiEncoding) : VarAsciiEncoding := mkVarAsciiEncoding
  (VarAsciiEncoding_Length m) v.

Definition VarAsciiEncoding_Encode (m : VarAsciiEncoding) : M bytes unit :=
  WriteUint32 (VarAsciiEncoding_Length m) ;;;
  WriteUint8 (VarAsciiEncoding_VarData m).

Definition VarAsciiEncoding_Decode (actingVersion : Z) : M (bytes * VarAsciiEncoding) unit :=
  decode_field VarAsciiEncoding_Length_field actingVersion ReadUint32 VarAsciiEncoding_set_Length ;;;
  decode_field VarAsciiEncoding_VarData_field actingVersion ReadUint8 VarAsciiEncoding_set_VarData.

Definition VarAsciiEncoding_RangeCheck (m : VarAsciiEncoding) (actingVersion schemaVersion : Z) : option string :=
  first_error
    [ check_required VarAsciiEncoding_Length_field actingVersion (VarAsciiEncoding_Length m)
    ; check_required VarAsciiEncoding_VarData_field actingVersion (VarAsciiEncoding_VarData m) ].

Definition VarAsciiEncoding_EncodedLength : Z := -1.

Definition VarAsciiEncoding_wire : wire VarAsciiEncoding := {|
w_Encode := VarAsciiEncoding_Encode; w_Decode := VarAsciiEncoding_Decode; w_RangeCheck :=
    VarAsciiEncoding_RangeCheck; w_EncodedLength := VarAsciiEncoding_EncodedLength;
  w_zero := mkVarAsciiEncoding 0 0;
  w_valid m := is_u32 (VarAsciiEncoding_Length m) /\ is_u8 (VarAsciiEncoding_VarData m);
w_in_range m := in_field VarAsciiEncoding_Length_field (VarAsciiEncoding_Length m) /\ in_field
    VarAsciiEncoding_VarData_field (VarAsciiEncoding_VarData m);
  w_bytes m := le_split 4 (VarAsciiEncoding_Length m) ++ le_split 1 (VarAsciiEncoding_VarData m) |}.

Record VarDataEncoding : Type := mkVarDataEncoding { VarDataEncoding_Length : Z; VarDataEncoding_VarData : Z }.
Definition VarDataEncoding_Length_field : field := mkField 0 0 0 false 0 1073741824 4294967295.
Definition VarDataEncoding_VarData_field : field := mkField 0 0 0 false 0 254 255.
Definition VarDataEncoding_set_Length (v : Z) (m : VarDataEncoding) : VarDataEncoding := mkVarDataEncoding v
  (VarDataEncoding_VarData m).
Definition VarDataEncoding_set_VarData (v : Z) (m : VarDataEncoding) : VarDataEncoding := mkVarDataEncoding
  (VarDataEncoding_Length m) v.

Definition VarDataEncoding_Encode (m : VarDataEncoding) : M bytes unit :=
  WriteUint32 (VarDataEncoding_Length m) ;;;
  WriteUint8 (VarDataEncoding_VarData m).

Definition VarDataEncoding_Decode (actingVersion : Z) : M (bytes * VarDataEncoding) unit :=
  decode_field VarDataEncoding_Length_field actingVersion ReadUint32 VarDataEncoding_set_Length ;;;
  decode_field VarDataEncoding_VarData_field actingVersion ReadUint8 VarDataEncoding_set_VarData.

Definition VarDataEncoding_RangeCheck (m : VarDataEncoding) (actingVersion schemaVersion : Z) : option string :=
  first_error
    [ check_required VarDataEncoding_Length_field actingVersion (VarDataEncoding_Length m)
    ; check_required VarDataEncoding_VarData_field actingVersion (VarDataEncoding_VarData m) ].

Definition VarDataEncoding_EncodedLength : Z := -1.

Definition VarDataEncoding_wire : wire VarDataEncoding := {|
w_Encode := VarDataEncoding_Encode; w_Decode := VarDataEncoding_Decode; w_RangeCheck := VarDataEncoding_RangeCheck;
    w_EncodedLength := VarDataEncoding_EncodedLength;
  w_zero := mkVarDataEncoding 0 0;
  w_valid m := is_u32 (VarDataEncoding_Length m) /\ is_u8 (VarDataEncoding_VarData m);
w_in_range m := in_field VarDataEncoding_Length_field (VarDataEncoding_Length m) /\ in_field
    VarDataEncoding_VarData_field (VarDataEncoding_VarData m);
  w_bytes m := le_split 4 (VarDataEncoding_Length m) ++ le_split 1 (VarDataEncoding_VarData m) |}.

(** All of them. *)
Definition cluster_types : list {A : Type & wire A} :=
  [ existT (P := wire) Z AdminRequestType_wire
  ; existT (P := wire) Z AdminResponseCode_wire
  ; existT (P := wire) Z BooleanType_wire
  ; existT (P := wire) Z ChangeType_wire
  ; existT (P := wire) Z CloseReason_wire
  ; existT (P := wire) Z ClusterAction_wire
  ; existT (P := wire) Z ClusterTimeUnit_wire
  ; existT (P := wire) Z EventCode_wire
  ; existT (P := wire) Z SnapshotMark_wire
  ; existT (P := wire) GroupSizeEncoding GroupSizeEncoding_wire
  ; existT (P := wire) MessageHeader MessageHeader_wire
  ; existT (P := wire) VarAsciiEncoding VarAsciiEncoding_wire
  ; existT (P := wire) VarDataEncoding VarDataEncoding_wire ].

Lemma cluster_AdminRequestType_laws : wire_ok AdminRequestType_wire.
Proof. enum_laws AdminRequestType_wire AdminRequestType_RangeCheck. Qed.
Lemma cluster_AdminResponseCode_laws : wire_ok AdminResponseCode_wire.
Proof. enum_laws AdminResponseCode_wire AdminResponseCode_RangeCheck. Qed.
Lemma cluster_BooleanType_laws : wire_ok BooleanType_wire.
Proof. enum_laws BooleanType_wire BooleanType_RangeCheck. Qed.
Lemma cluster_ChangeType_laws : wire_ok ChangeType_wire.
Proof. enum_laws ChangeType_wire ChangeType_RangeCheck. Qed.
Lemma cluster_CloseReason_laws : wire_ok CloseReason_wire.
Proof. enum_laws CloseReason_wire CloseReason_RangeCheck. Qed.
Lemma cluster_ClusterAction_laws : wire_ok ClusterAction_wire.
Proof. enum_laws ClusterAction_wire ClusterAction_RangeCheck. Qed.
Lemma cluster_ClusterTimeUnit_laws : wire_ok ClusterTimeUnit_wire.
Proof. enum_laws ClusterTimeUnit_wire ClusterTimeUnit_RangeCheck. Qed.
Lemma cluster_EventCode_laws : wire_ok EventCode_wire.
Proof. enum_laws EventCode_wire EventCode_RangeCheck. Qed.
Lemma cluster_SnapshotMark_laws : wire_ok SnapshotMark_wire.
Proof. enum_laws SnapshotMark_wire SnapshotMark_RangeCheck. Qed.
Lemma cluster_GroupSizeEncoding_laws : wire_ok GroupSizeEncoding_wire.
Proof. composite_laws GroupSizeEncoding_wire GroupSizeEncoding_Encode GroupSizeEncoding_Decode
    GroupSizeEncoding_RangeCheck. Qed.
Lemma cluster_MessageHeader_laws : wire_ok MessageHeader_wire.
Proof. composite_laws MessageHeader_wire MessageHeader_Encode MessageHeader_Decode MessageHeader_RangeCheck. Qed.
Lemma cluster_VarAsciiEncoding_laws : wire_ok VarAsciiEncoding_wire.
Proof. composite_laws VarAsciiEncoding_wire VarAsciiEncoding_Encode VarAsciiEncoding_Decode
    VarAsciiEncoding_RangeCheck. Qed.
Lemma cluster_VarDataEncoding_laws : wire_ok VarDataEncoding_wire.
Proof. composite_laws VarDataEncoding_wire VarDataEncoding_Encode VarDataEncoding_Decode
    VarDataEncoding_RangeCheck. Qed.

(** Every enumeration and composite of the cluster is written in the length that it says, and read
    back as it was by every version; when bytes are missing the decoder says so; and what the
    range check of this version lets pass is what is in the range. *)
Theorem cluster_types_marshalled : Forall (fun t => wire_ok (projT2 t)) cluster_types.
Proof.
  repeat apply Forall_cons_2;
    [exact cluster_AdminRequestType_laws
    |exact cluster_AdminResponseCode_laws
    |exact cluster_BooleanType_laws
    |exact cluster_ChangeType_laws
    |exact cluster_CloseReason_laws
    |exact cluster_ClusterAction_laws
    |exact cluster_ClusterTimeUnit_laws
    |exact cluster_EventCode_laws
    |exact cluster_SnapshotMark_laws
    |exact cluster_GroupSizeEncoding_laws
    |exact cluster_MessageHeader_laws
    |exact cluster_VarAsciiEncoding_laws
    |exact cluster_VarDataEncoding_laws|].
  apply Forall_nil_2.
Qed.

(** ** Initial values

    What the code generator offers to begin a message with. *)

Definition AddPassiveMember_Init (m : AddPassiveMember) : AddPassiveMember := m.
Definition AdminRequest_Init (m : AdminRequest) : AdminRequest := m.
Definition AdminResponse_Init (m : AdminResponse) : AdminResponse := m.
Definition AppendPosition_Init (m : AppendPosition) : AppendPosition := m.
Definition BackupQuery_Init (m : BackupQuery) : BackupQuery := BackupQuery_set_LogPosition (-9223372036854775808)
  (BackupQuery_set_Version 0 m).
Definition BackupResponse_Init (m : BackupResponse) : BackupResponse := m.
Definition BackupResponseSnapshots_Init (m : BackupResponseSnapshots) : BackupResponseSnapshots := m.
Definition CancelTimer_Init (m : CancelTimer) : CancelTimer := m.
Definition CanvassPosition_Init (m : CanvassPosition) : CanvassPosition := CanvassPosition_set_ProtocolVersion 0 m.
Definition CatchupPosition_Init (m : CatchupPosition) : CatchupPosition := m.
Definition Challenge_Init (m : Challenge) : Challenge := m.
Definition ChallengeResponse_Init (m : ChallengeResponse) : ChallengeResponse := m.
Definition ClientSession_Init (m : ClientSession) : ClientSession := m.
Definition CloseSession_Init (m : CloseSession) : CloseSession := m.
Definition ClusterActionRequest_Init (m : ClusterActionRequest) : ClusterActionRequest :=
  ClusterActionRequest_set_Flags (-2147483648) m.
Definition ClusterMembers_Init (m : ClusterMembers) : ClusterMembers := m.
Definition ClusterMembersChange_Init (m : ClusterMembersChange) : ClusterMembersChange := m.
Definition ClusterMembersExtendedResponse_Init (m : ClusterMembersExtendedResponse) :
  ClusterMembersExtendedResponse := m.
Definition ClusterMembersExtendedResponseActiveMembers_Init (m : ClusterMembersExtendedResponseActiveMembers) :
  ClusterMembersExtendedResponseActiveMembers := m.
Definition ClusterMembersExtendedResponsePassiveMembers_Init (m : ClusterMembersExtendedResponsePassiveMembers) :
  ClusterMembersExtendedResponsePassiveMembers := m.
Definition ClusterMembersQuery_Init (m : ClusterMembersQuery) : ClusterMembersQuery := m.
Definition ClusterMembersResponse_Init (m : ClusterMembersResponse) : ClusterMembersResponse := m.
Definition ClusterSession_Init (m : ClusterSession) : ClusterSession := m.
Definition CommitPosition_Init (m : CommitPosition) : CommitPosition := m.
Definition ConsensusModule_Init (m : ConsensusModule) : ConsensusModule :=
  ConsensusModule_set_PendingMessageCapacity 0 (ConsensusModule_set_LogServiceSessionId (-9223372036854775808)
  (ConsensusModule_set_NextServiceSessionId (-9223372036854775808) m)).
Definition GroupSizeEncoding_Init (m : GroupSizeEncoding) : GroupSizeEncoding := m.
Definition HeartbeatRequest_Init (m : HeartbeatRequest) : HeartbeatRequest := m.
Definition HeartbeatResponse_Init (m : HeartbeatResponse) : HeartbeatResponse := m.
Definition JoinCluster_Init (m : JoinCluster) : JoinCluster := m.
Definition JoinLog_Init (m : JoinLog) : JoinLog := m.
Definition MembershipChangeEvent_Init (m : MembershipChangeEvent) : MembershipChangeEvent := m.
Definition MessageHeader_Init (m : MessageHeader) : MessageHeader := m.
Definition NewLeaderEvent_Init (m : NewLeaderEvent) : NewLeaderEvent := m.
Definition NewLeadershipTerm_Init (m : NewLeadershipTerm) : NewLeadershipTerm := NewLeadershipTerm_set_AppVersion 0
  m.
Definition NewLeadershipTermEvent_Init (m : NewLeadershipTermEvent) : NewLeadershipTermEvent :=
  NewLeadershipTermEvent_set_AppVersion 0 m.
Definition PendingMessageTracker_Init (m : PendingMessageTracker) : PendingMessageTracker :=
  PendingMessageTracker_set_PendingMessageCapacity 0 m.
Definition RemoveMember_Init (m : RemoveMember) : RemoveMember := m.
Definition RequestServiceAck_Init (m : RequestServiceAck) : RequestServiceAck := m.
Definition RequestVote_Init (m : RequestVote) : RequestVote := RequestVote_set_ProtocolVersion 0 m.
Definition ScheduleTimer_Init (m : ScheduleTimer) : ScheduleTimer := m.
Definition ServiceAck_Init (m : ServiceAck) : ServiceAck := m.
Definition ServiceTerminationPosition_Init (m : ServiceTerminationPosition) : ServiceTerminationPosition := m.
Definition SessionCloseEvent_Init (m : SessionCloseEvent) : SessionCloseEvent := m.
Definition SessionCloseRequest_Init (m : SessionCloseRequest) : SessionCloseRequest := m.
Definition SessionConnectRequest_Init (m : SessionConnectRequest) : SessionConnectRequest :=
  SessionConnectRequest_set_Version 0 m.
Definition SessionEvent_Init (m : SessionEvent) : SessionEvent := SessionEvent_set_LeaderHeartbeatTimeoutNs
  (-9223372036854775808) (SessionEvent_set_Version 0 m).
Definition SessionKeepAlive_Init (m : SessionKeepAlive) : SessionKeepAlive := m.
Definition SessionMessageHeader_Init (m : SessionMessageHeader) : SessionMessageHeader := m.
Definition SessionOpenEvent_Init (m : SessionOpenEvent) : SessionOpenEvent := m.
Definition SnapshotMarker_Init (m : SnapshotMarker) : SnapshotMarker := SnapshotMarker_set_AppVersion 0 m.
Definition SnapshotRecordingQuery_Init (m : SnapshotRecordingQuery) : SnapshotRecordingQuery := m.
Definition SnapshotRecordings_Init (m : SnapshotRecordings) : SnapshotRecordings := m.
Definition SnapshotRecordingsSnapshots_Init (m : SnapshotRecordingsSnapshots) : SnapshotRecordingsSnapshots := m.
Definition StandbySnapshot_Init (m : StandbySnapshot) : StandbySnapshot := m.
Definition StandbySnapshotSnapshots_Init (m : StandbySnapshotSnapshots) : StandbySnapshotSnapshots := m.
Definition StopCatchup_Init (m : StopCatchup) : StopCatchup := m.
Definition TerminationAck_Init (m : TerminationAck) : TerminationAck := m.
Definition TerminationPosition_Init (m : TerminationPosition) : TerminationPosition := m.
Definition Timer_Init (m : Timer) : Timer := m.
Definition TimerEvent_Init (m : TimerEvent) : TimerEvent := m.
Definition VarAsciiEncoding_Init (m : VarAsciiEncoding) : VarAsciiEncoding := m.
Definition VarDataEncoding_Init (m : VarDataEncoding) : VarDataEncoding := m.
Definition Vote_Init (m : Vote) : Vote := m.

(** A message is begun with its optional fields missing, and is otherwise left as it is. *)
Theorem cluster_begun_without_optional :
  (forall m, BackupQuery_Init m = BackupQuery_set_LogPosition (NullValue BackupQuery_LogPosition_field)
    (BackupQuery_set_Version (NullValue BackupQuery_Version_field) m)) /\
  (forall m, CanvassPosition_Init m = CanvassPosition_set_ProtocolVersion (NullValue
    CanvassPosition_ProtocolVersion_field) m) /\
  (forall m, ClusterActionRequest_Init m = ClusterActionRequest_set_Flags (NullValue
    ClusterActionRequest_Flags_field) m) /\
  (forall m, ConsensusModule_Init m = ConsensusModule_set_PendingMessageCapacity (NullValue
    ConsensusModule_PendingMessageCapacity_field) (ConsensusModule_set_LogServiceSessionId (NullValue
    ConsensusModule_LogServiceSessionId_field) (ConsensusModule_set_NextServiceSessionId (NullValue
    ConsensusModule_NextServiceSessionId_field) m))) /\
  (forall m, NewLeadershipTerm_Init m = NewLeadershipTerm_set_AppVersion (NullValue
    NewLeadershipTerm_AppVersion_field) m) /\
  (forall m, NewLeadershipTermEvent_Init m = NewLeadershipTermEvent_set_AppVersion (NullValue
    NewLeadershipTermEvent_AppVersion_field) m) /\
  (forall m, PendingMessageTracker_Init m = PendingMessageTracker_set_PendingMessageCapacity (NullValue
    PendingMessageTracker_PendingMessageCapacity_field) m) /\
  (forall m, RequestVote_Init m = RequestVote_set_ProtocolVersion (NullValue RequestVote_ProtocolVersion_field) m) /\
  (forall m, SessionConnectRequest_Init m = SessionConnectRequest_set_Version (NullValue
    SessionConnectRequest_Version_field) m) /\
  (forall m, SessionEvent_Init m = SessionEvent_set_LeaderHeartbeatTimeoutNs (NullValue
    SessionEvent_LeaderHeartbeatTimeoutNs_field) (SessionEvent_set_Version (NullValue SessionEvent_Version_field)
    m)) /\
  (forall m, SnapshotMarker_Init m = SnapshotMarker_set_AppVersion (NullValue SnapshotMarker_AppVersion_field) m).
Proof. repeat split. Qed.
