(* ===== verification/ClusterPackets.v ===== *)
(** * The packets of the cluster

    cluster/codecs/encoders.go: the messages that a clustered service sends, marshalled behind
    their header, and the buffers with a header that are filled again and again; and what all
    messages of the cluster have in common. *)

From S2P Require Import Prelude Sbe SbePacket SbeGroup ClusterCodecs ClusterGroups.

Local Open Scope m_scope.

Local Abbreviation bytes := (list Init.Byte.byte).

Definition ClusterSchemaId : Z := 111.
Definition ClusterSchemaVersion : Z := 16.

(** ** encoders.go *)

Definition ServiceAckRequestPacket (rangeChecking : bool) (logPosition timestamp ackID relevantID serviceID : Z) : bytes + string :=
  packet (mkServiceAck logPosition timestamp ackID relevantID serviceID) rangeChecking.

Definition SnapshotMarkerPacket (rangeChecking : bool) (typeId logPosition leadershipTermId index mark timeUnit appVersion : Z) : bytes + string :=
  packet (mkSnapshotMarker typeId logPosition leadershipTermId index mark timeUnit appVersion) rangeChecking.

Definition ClientSessionPacket (rangeChecking : bool) (clusterSessionId responseStreamId : Z) (responseChannel encodedPrincipal : bytes) : bytes + string :=
  packet (mkClientSession clusterSessionId responseStreamId responseChannel encodedPrincipal) rangeChecking.

Definition CloseSessionRequestPacket (rangeChecking : bool) (clusterSessionId : Z) : bytes + string :=
  packet (mkCloseSession clusterSessionId) rangeChecking.

(** The header in front of a block that is filled in later. *)
Definition MakeClusterMessageBuffer (templateId blockLength : Z) : bytes :=
  le_split 2 blockLength ++ le_split 2 templateId ++ le_split 2 ClusterSchemaId ++ le_split 2 ClusterSchemaVersion ++
  replicate (Z.to_nat blockLength) Byte.x00.

(** [PutInt64] into such a buffer. *)
Definition put_int64 (offset : nat) (v : Z) (buf : bytes) : bytes :=
  take offset buf ++ le_split 8 v ++ drop (offset + 8) buf.

(** ** All messages *)

Record message_kind : Type := kind { km_type : Type; km_codec : Codec km_type }.

Definition messages : list message_kind :=
  [kind AddPassiveMember _; kind AdminRequest _; kind AdminResponse _; kind AppendPosition _;
    kind BackupQuery _; kind CancelTimer _; kind CanvassPosition _; kind CatchupPosition _;
    kind Challenge _; kind ChallengeResponse _; kind ClientSession _; kind CloseSession _;
    kind ClusterActionRequest _; kind ClusterMembers _; kind ClusterMembersChange _;
    kind ClusterMembersQuery _; kind ClusterMembersResponse _; kind ClusterSession _;
    kind CommitPosition _; kind ConsensusModule _; kind HeartbeatRequest _;
    kind HeartbeatResponse _; kind JoinCluster _; kind JoinLog _; kind MembershipChangeEvent _;
    kind NewLeaderEvent _; kind NewLeadershipTerm _; kind NewLeadershipTermEvent _;
    kind PendingMessageTracker _; kind RemoveMember _; kind RequestServiceAck _; kind RequestVote _;
    kind ScheduleTimer _; kind ServiceAck _; kind ServiceTerminationPosition _;
    kind SessionCloseEvent _; kind SessionCloseRequest _; kind SessionConnectRequest _;
    kind SessionEvent _; kind SessionKeepAlive _; kind SessionMessageHeader _;
    kind SessionOpenEvent _; kind SnapshotMarker _; kind SnapshotRecordingQuery _;
    kind StopCatchup _; kind TerminationAck _; kind TerminationPosition _; kind Timer _;
    kind TimerEvent _; kind Vote _; kind BackupResponse _; kind ClusterMembersExtendedResponse _;
    kind SnapshotRecordings _; kind StandbySnapshot _ ].

Definition template_id (k : message_kind) : Z := @SbeTemplateId _ (km_codec k).

(** The codec of [A] does what it should: a message that is valid for its types and in the
    ranges of its fields is marshalled to bytes from which it is read back, whatever follows
    them, and a part of which is not read; a newer sender may have more in its block. A message
    out of range is refused when ranges are checked. *)
Definition marshals (A : Type) `{Codec A} : Prop :=
  header_fits A /\
  forall (a : A) (check : bool), valid a ->
    match (if check then RangeCheck a ClusterSchemaVersion ClusterSchemaVersion else None) with
    | Some e => packet a check = inr e
    | None =>
        exists bs, packet a check = inl bs /\ unpacket check bs = Some a /\
          (forall p q : bytes, bs = p ++ q -> q <> [] -> @unpacket A _ check p = None) /\
          forall v more rest, ClusterSchemaVersion < v -> (check = true -> RangeCheck a v ClusterSchemaVersion = None) ->
            Decode v (SbeBlockLength (A := A) + zlen more) check
              (take (Z.to_nat (SbeBlockLength (A := A))) (drop 8 bs) ++ more ++ drop (8 + Z.to_nat (SbeBlockLength (A := A))) bs ++ rest, zero)
            = Ret tt (rest, a)
    end.

Lemma packet_bytes {A} `{CodecLaws A} (a : A) check :
  header_fits A -> valid a ->
  (check = true -> RangeCheck a (SbeSchemaVersion (A := A)) (SbeSchemaVersion (A := A)) = None) ->
  exists hb, length hb = 8%nat /\ packet a check = inl (hb ++ fixed_part a ++ data_part a).
Proof.
  intros (Hb & Ht & Hs & Hv) Hvalid Hok.
  destruct (header_roundtrip (header_of A) [] Hb Ht Hs Hv) as (hb & Henc & Hlen & _). exists hb. split; [done|].
  unfold packet. erewrite bind_Ret by exact Henc. by rewrite encode_ok.
Qed.

Lemma codec_marshals (A : Type) `{CodecLaws A} :
  header_fits A -> SbeSchemaVersion (A := A) = ClusterSchemaVersion -> marshals A.
Proof.
  intros Hfits Hsv. split; [exact Hfits|]. intros a check Hvalid. rewrite <- Hsv.
  pose proof (packet_reads a check Hfits Hvalid) as Hp.
  destruct (if check then _ else _) as [e|] eqn:Hc; [exact Hp|].
  assert (Hok : check = true -> RangeCheck a (SbeSchemaVersion (A := A)) (SbeSchemaVersion (A := A)) = None) by (by intros ->).
  destruct Hp as (bs & Hbs & Hun & Hshort). exists bs. split_and!; [done..|].
  intros v more rest Hv Hcheck. destruct (packet_bytes a check Hfits Hvalid Hok) as (hb & Hlen & Heq).
  rewrite Hbs in Heq. injection Heq as ->. pose proof (block_length a Hvalid) as Hbl.
  rewrite <- Hbl at 2 3. unfold zlen at 2 3. rewrite !Nat2Z.id.
  rewrite <- Hlen, drop_app_length, take_app_length, <- drop_drop, drop_app_length, drop_app_length.
  apply decode_ok; [done|by right|exact Hcheck].
Qed.

(** C26. All messages of the cluster are marshalled and read back, by newer versions as well, and no
    two of them have the same template id. *)
Theorem messages_marshalled : Forall (fun k => @marshals (km_type k) (km_codec k)) messages /\ NoDup (template_id <$> messages).
Proof.
  split.
  - unfold messages. repeat (apply Forall_cons_2; [cbn [km_type km_codec]; apply codec_marshals; [apply _|by vm_compute|reflexivity]|]). apply Forall_nil_2.
  - apply (bool_decide_unpack _). by vm_compute.
Qed.
