(* ===== verification/Memory.v ===== *)
(** * Raw memory and [atomic.Buffer]

    A [Buffer] of src/aeron/atomic/buffer.go is an address and a length over raw
    memory; several buffers, flyweight fields and claims alias the same bytes. Memory
    is one finite map from addresses to bytes; an access to an address outside of
    its domain is a fault. The Go accessors are computations over that memory, each
    with its [BoundsCheck]; the lemmas give their effect with the total reads [rd] and
    writes [wr] when the buffer is mapped. [Memcpy] of src/aeron/util/bits.go is here
    because the buffer's bulk copies are built on it. *)

From S2P Require Import Prelude.

Local Open Scope m_scope.

Abbreviation mem := (gmap Z Init.Byte.byte).

(** ** Total reads and writes *)

Fixpoint rd (m : mem) (a : Z) (n : nat) : list Init.Byte.byte :=
  match n with
  | O => []
  | S n' => default Byte.x00 (m !! a) :: rd m (a + 1) n'
  end.

Fixpoint wr (m : mem) (a : Z) (bs : list Init.Byte.byte) : mem :=
  match bs with
  | [] => m
  | b :: bs' => wr (<[a := b]> m) (a + 1) bs'
  end.

Fixpoint mapped (m : mem) (a : Z) (n : nat) : bool :=
  match n with
  | O => true
  | S n' => match m !! a with Some _ => mapped m (a + 1) n' | None => false end
  end.

Definition rd_u8 (m : mem) (a : Z) : Z := le_combine (rd m a 1).
Definition rd_u16 (m : mem) (a : Z) : Z := le_combine (rd m a 2).
Definition rd_i32 (m : mem) (a : Z) : Z := i32 (le_combine (rd m a 4)).
Definition rd_i64 (m : mem) (a : Z) : Z := i64 (le_combine (rd m a 8)).

(** [n] bytes from [a] on are addressable and mapped. *)
Definition region_ok (m : mem) (a n : Z) : Prop :=
  0 <= a /\ 0 <= n /\ a + n <= 18446744073709551616 /\
  forall i, a <= i < a + n -> is_Some (m !! i).

(** What is mapped in [m] still is in [m']. *)
Definition keeps (m m' : mem) : Prop := forall i, is_Some (m !! i) -> is_Some (m' !! i).

Lemma length_rd m a n : length (rd m a n) = n.
Proof. revert a. induction n; intros; simpl; auto. Qed.

Lemma rd_lookup m a n i : (i < n)%nat ->
  rd m a n !! i = Some (default Byte.x00 (m !! (a + Z.of_nat i))).
Proof.
  revert a i. induction n as [|n IH]; intros a i Hi; [lia|].
  destruct i as [|i]; simpl; [do 3 f_equal; lia|].
  rewrite IH by lia. do 3 f_equal. lia.
Qed.

Lemma rd_ext m m' a n :
  (forall i, a <= i < a + Z.of_nat n -> m !! i = m' !! i) -> rd m a n = rd m' a n.
Proof.
  revert a. induction n as [|n IH]; intros a H; simpl; [done|].
  f_equal; [rewrite H by lia; done|]. apply IH. intros. apply H. lia.
Qed.

Lemma rd_app m a n k : rd m a (n + k) = rd m a n ++ rd m (a + Z.of_nat n) k.
Proof.
  revert a. induction n as [|n IH]; intros a.
  - simpl. f_equal. lia.
  - simpl. f_equal. rewrite IH. do 2 f_equal. lia.
Qed.

Lemma wr_app m a l k : wr m a (l ++ k) = wr (wr m a l) (a + zlen l) k.
Proof.
  revert m a. induction l as [|b l IH]; intros m a.
  - unfold zlen. simpl. f_equal. lia.
  - simpl. rewrite IH. f_equal. unfold zlen. simpl. lia.
Qed.

Lemma wr_lookup_ne m a bs i : ~ (a <= i < a + zlen bs) -> wr m a bs !! i = m !! i.
Proof.
  unfold zlen. revert m a. induction bs as [|b bs IH]; intros m a Hi; simpl in *; [done|].
  rewrite IH by lia. rewrite lookup_insert_ne; [done|lia].
Qed.

Lemma wr_lookup_in m a bs i :
  a <= i < a + zlen bs -> wr m a bs !! i = bs !! Z.to_nat (i - a).
Proof.
  unfold zlen. revert m a. induction bs as [|b bs IH]; intros m a Hi; simpl in *; [lia|].
  destruct (decide (i = a)) as [->|Hne].
  - rewrite wr_lookup_ne by lia. rewrite lookup_insert_eq.
    by replace (Z.to_nat (a - a)) with 0%nat by lia.
  - rewrite IH by lia.
    by replace (Z.to_nat (i - a)) with (S (Z.to_nat (i - (a + 1)))) by lia.
Qed.

Lemma rd_wr_same m a bs n : n = length bs -> rd (wr m a bs) a n = bs.
Proof.
  intros ->. apply list_eq_same_length with (n := length bs); [done|by rewrite length_rd|].
  intros i x y Hi Hx Hy. rewrite rd_lookup in Hx by done.
  rewrite wr_lookup_in in Hx by (unfold zlen; lia).
  replace (Z.to_nat (a + Z.of_nat i - a)) with i in Hx by lia.
  rewrite Hy in Hx. simpl in Hx. congruence.
Qed.

Lemma rd_wr_disj m a bs a' n :
  a' + Z.of_nat n <= a \/ a + zlen bs <= a' -> rd (wr m a bs) a' n = rd m a' n.
Proof. intros. apply rd_ext. intros. apply wr_lookup_ne. lia. Qed.

(** Reading inside a written block. *)
Lemma rd_wr_in m a bs a' n :
  a <= a' -> a' + Z.of_nat n <= a + zlen bs ->
  rd (wr m a bs) a' n = sub_list (Z.to_nat (a' - a)) n bs.
Proof.
  intros H1 H2. unfold zlen in *.
  assert (Hl : length (sub_list (Z.to_nat (a' - a)) n bs) = n) by (apply length_sub_list; lia).
  apply list_eq_same_length with (n := n); [done|by rewrite length_rd|].
  intros i x y Hi Hx Hy. rewrite rd_lookup in Hx by done.
  rewrite wr_lookup_in in Hx by (unfold zlen; lia).
  unfold sub_list in Hy. rewrite lookup_take, lookup_drop in Hy by done.
  rewrite decide_True in Hy by lia.
  replace (Z.to_nat (a' + Z.of_nat i - a)) with (Z.to_nat (a' - a) + i)%nat in Hx by lia.
  rewrite Hy in Hx. simpl in Hx. congruence.
Qed.

Lemma mapped_region m a n :
  (forall i, a <= i < a + Z.of_nat n -> is_Some (m !! i)) -> mapped m a n = true.
Proof.
  revert a. induction n as [|n IH]; intros a H; simpl; [done|].
  destruct (H a) as [? ->]; [lia|]. apply IH. intros. apply H. lia.
Qed.

Lemma keeps_refl m : keeps m m.
Proof. by intros i. Qed.

Lemma keeps_trans m1 m2 m3 : keeps m1 m2 -> keeps m2 m3 -> keeps m1 m3.
Proof. unfold keeps. eauto. Qed.

Lemma keeps_wr m a bs : keeps m (wr m a bs).
Proof.
  intros i H. destruct (decide (a <= i < a + zlen bs)) as [Hin|Hout].
  - rewrite wr_lookup_in by done. apply lookup_lt_is_Some. unfold zlen in Hin. lia.
  - by rewrite wr_lookup_ne.
Qed.

Lemma region_ok_keeps m m' a n : keeps m m' -> region_ok m a n -> region_ok m' a n.
Proof. intros Hk (?&?&?&H). repeat split; try done. auto. Qed.

Lemma region_ok_wr m a n a' bs : region_ok m a n -> region_ok (wr m a' bs) a n.
Proof. apply region_ok_keeps, keeps_wr. Qed.

Lemma region_ok_sub m a n a' n' :
  region_ok m a n -> a <= a' -> 0 <= n' -> a' + n' <= a + n -> region_ok m a' n'.
Proof. intros (?&?&?&H) ???. repeat split; try lia. intros. apply H. lia. Qed.

Lemma region_mapped m a n k :
  region_ok m a n -> Z.of_nat k <= n -> mapped m a k = true.
Proof. intros (?&?&?&H) ?. apply mapped_region. intros. apply H. lia. Qed.

#[export] Hint Resolve region_ok_wr keeps_refl keeps_wr : m_ok.

(** ** Loads and stores of the machine *)

Definition load (a : Z) (n : nat) : M mem (list Init.Byte.byte) :=
  fun m => if mapped m a n then Ret (rd m a n) m else Exc EFault m.

Definition store (a : Z) (bs : list Init.Byte.byte) : M mem unit :=
  fun m => if mapped m a (length bs) then Ret tt (wr m a bs) else Exc EFault m.

(** Pointer arithmetic: [uintptr] addition wraps at 64 bits; converting a negative
    signed offset sign-extends. *)
Definition ptr_add (p off : Z) : Z := u64 (p + off).

Lemma load_ok m a n k :
  region_ok m a n -> Z.of_nat k <= n -> load a k m = Ret (rd m a k) m.
Proof. intros. unfold load. by erewrite region_mapped. Qed.

Lemma store_ok m a n bs :
  region_ok m a n -> zlen bs <= n -> store a bs m = Ret tt (wr m a bs).
Proof. intros. unfold store. by erewrite region_mapped. Qed.

(** ** [util.Memcpy] *)

(** One of the three loops of [Memcpy]: while [i < bound], copy [step] bytes. *)
Fixpoint Memcpy_loop (step : nat) (fuel : nat) (dest src i bound : Z) : M mem Z :=
  if i <? bound then
    match fuel with
    | O => raise EFuel
    | S fuel' =>
        let! bs := load (ptr_add src i) step in
        store (ptr_add dest i) bs ;;;
        Memcpy_loop step fuel' dest src (i32 (i + Z.of_nat step)) bound
    end
  else ret i.

Definition Memcpy (dest src length : Z) : M mem unit :=
  let fuel := Z.to_nat length in
  let i8 := Z.shiftr length 3 in
  let! i := Memcpy_loop 8 fuel dest src 0 i8 in
  let i4 := Z.shiftr (i32 (length - i)) 2 in
  let! i := Memcpy_loop 4 fuel dest src i i4 in
  let! i := Memcpy_loop 1 fuel dest src i length in
  ret tt.

(** ** [atomic.Buffer] *)

Record Buffer : Type := mkBuffer { bufferPtr : Z; buf_length : Z }.

#[export] Instance Buffer_eq_dec : EqDecision Buffer.
Proof. solve_decision. Defined.

Definition Buffer_Wrap (buffer length : Z) : Buffer :=
  {| bufferPtr := buffer; buf_length := length |}.
Definition Ptr (buf : Buffer) : Z := bufferPtr buf.
Definition Capacity (buf : Buffer) : Z := buf_length buf.

Definition BoundsCheck (index length myLength : Z) : M mem unit :=
  if i32 (index + length) >? myLength then raise EFatal else ret tt.

Fixpoint Fill_loop (fuel : nat) (buf : Buffer) (ix b : Z) : M mem unit :=
  if ix <? buf_length buf then
    match fuel with
    | O => raise EFuel
    | S fuel' =>
        store (ptr_add (bufferPtr buf) ix) [byte.of_Z b] ;;;
        Fill_loop fuel' buf (ix + 1) b
    end
  else ret tt.

Definition Fill (buf : Buffer) (b : Z) : M mem unit :=
  if buf_length buf =? 0 then ret tt
  else Fill_loop (Z.to_nat (buf_length buf)) buf 0 b.

(** The accessors: a bounds check, then a load or store of the value's width. *)

Definition get_bytes (n : nat) (buf : Buffer) (offset : Z) : M mem (list Init.Byte.byte) :=
  BoundsCheck offset (Z.of_nat n) (buf_length buf) ;;;
  load (ptr_add (bufferPtr buf) offset) n.

Definition put_bytes (n : nat) (buf : Buffer) (offset value : Z) : M mem unit :=
  BoundsCheck offset (Z.of_nat n) (buf_length buf) ;;;
  store (ptr_add (bufferPtr buf) offset) (le_split n value).

Definition GetUInt8 (buf : Buffer) (offset : Z) : M mem Z :=
  let! bs := get_bytes 1 buf offset in ret (le_combine bs).
Definition GetUInt16 (buf : Buffer) (offset : Z) : M mem Z :=
  let! bs := get_bytes 2 buf offset in ret (le_combine bs).
Definition GetInt32 (buf : Buffer) (offset : Z) : M mem Z :=
  let! bs := get_bytes 4 buf offset in ret (i32 (le_combine bs)).
Definition GetInt64 (buf : Buffer) (offset : Z) : M mem Z :=
  let! bs := get_bytes 8 buf offset in ret (i64 (le_combine bs)).
Definition PutUInt8 : Buffer -> Z -> Z -> M mem unit := put_bytes 1.
Definition PutInt8 : Buffer -> Z -> Z -> M mem unit := put_bytes 1.
Definition PutUInt16 : Buffer -> Z -> Z -> M mem unit := put_bytes 2.
Definition PutInt32 : Buffer -> Z -> Z -> M mem unit := put_bytes 4.
Definition PutInt64 : Buffer -> Z -> Z -> M mem unit := put_bytes 8.

Definition GetAndAddInt64 (buf : Buffer) (offset delta : Z) : M mem Z :=
  BoundsCheck offset 8 (buf_length buf) ;;;
  let uptr := ptr_add (bufferPtr buf) offset in
  let! bs := load uptr 8 in
  let newVal := u64 (le_combine bs + u64 delta) in
  store uptr (le_split 8 newVal) ;;;
  ret (i64 (i64 newVal - delta)).

(** The volatile and ordered variants differ from the plain ones in their memory
    ordering only; a computation here runs alone between its interleaving points. *)
Definition GetInt32Volatile : Buffer -> Z -> M mem Z := GetInt32.
Definition GetInt64Volatile : Buffer -> Z -> M mem Z := GetInt64.
Definition PutInt64Ordered : Buffer -> Z -> Z -> M mem unit := put_bytes 8.
Definition PutInt32Ordered : Buffer -> Z -> Z -> M mem unit := put_bytes 4.
Definition PutIntOrdered (buf : Buffer) (offset value : Z) : M mem unit :=
  put_bytes 4 buf offset (i32 value).

Definition CompareAndSetInt64 (buf : Buffer) (offset expectedValue updateValue : Z) : M mem bool :=
  let! cur := GetInt64 buf offset in
  if cur =? expectedValue then PutInt64 buf offset updateValue ;;; ret true else ret false.

Definition CompareAndSetInt32 (buf : Buffer) (offset expectedValue updateValue : Z) : M mem bool :=
  let! cur := GetInt32 buf offset in
  if cur =? expectedValue then PutInt32 buf offset updateValue ;;; ret true else ret false.

Definition PutBytes (buf : Buffer) (index : Z) (srcBuffer : Buffer) (srcint32 length : Z)
  : M mem unit :=
  BoundsCheck index length (buf_length buf) ;;;
  BoundsCheck srcint32 length (buf_length srcBuffer) ;;;
  Memcpy (ptr_add (bufferPtr buf) index) (ptr_add (bufferPtr srcBuffer) srcint32) length.

(** [make([]byte, length)] panics on a negative length. *)
Definition GetBytesArray (buf : Buffer) (offset length : Z) : M mem (list Init.Byte.byte) :=
  BoundsCheck offset length (buf_length buf) ;;;
  if length <? 0 then panic "makeslice: len out of range"
  else load (ptr_add (bufferPtr buf) offset) (Z.to_nat length).

(** [GetBytes] fills the slice [b], of length [blen]. *)
Definition GetBytes (buf : Buffer) (offset : Z) (blen : nat) : M mem (list Init.Byte.byte) :=
  BoundsCheck offset (i32 (Z.of_nat blen)) (buf_length buf) ;;;
  load (ptr_add (bufferPtr buf) offset) blen.

(** [WriteBytes] appends to the [bytes.Buffer] [dest]; [Grow] panics on a negative
    count. *)
Definition WriteBytes (buf : Buffer) (dest : list Init.Byte.byte) (offset length : Z)
  : M mem (list Init.Byte.byte) :=
  BoundsCheck offset length (buf_length buf) ;;;
  if length <? 0 then panic "bytes.Buffer.Grow: negative count"
  else
    let! bs := load (ptr_add (bufferPtr buf) offset) (Z.to_nat length) in
    ret (dest ++ bs).

(** The source is a Go slice, outside of the mapped memory: [&bArr[0]] panics on an
    empty slice, and a negative start is an access outside of it. *)
Definition PutBytesArray (buf : Buffer) (index : Z) (arr : list Init.Byte.byte)
  (srcint32 length : Z) : M mem unit :=
  BoundsCheck index length (buf_length buf) ;;;
  BoundsCheck srcint32 length (i32 (zlen arr)) ;;;
  match arr with
  | [] => panic "index out of range [0] with length 0"
  | _ =>
      if srcint32 <? 0 then raise EFault
      else store (ptr_add (bufferPtr buf) index)
             (sub_list (Z.to_nat srcint32) (Z.to_nat length) arr)
  end.

(** ** The effect of the accessors on a mapped buffer *)

(** The buffer's bytes are mapped and its length is an [int32]. *)
Definition buf_ok (m : mem) (b : Buffer) : Prop :=
  region_ok m (bufferPtr b) (buf_length b) /\ buf_length b < 2147483648.

Lemma buf_ok_wr m b a bs : buf_ok m b -> buf_ok (wr m a bs) b.
Proof. intros [? ?]. split; [by apply region_ok_wr|done]. Qed.

Lemma buf_ok_keeps m m' b : keeps m m' -> buf_ok m b -> buf_ok m' b.
Proof. intros ? [? ?]. split; [by eapply region_ok_keeps|done]. Qed.

Lemma buf_ok_length m b : buf_ok m b -> 0 <= buf_length b < 2147483648.
Proof. intros [(?&?&?&?) ?]. lia. Qed.

Lemma buf_ok_sub m b off n :
  buf_ok m b -> 0 <= off -> 0 <= n -> off + n <= buf_length b ->
  region_ok m (bufferPtr b + off) n.
Proof. intros [H ?] ???. eapply region_ok_sub; [exact H| |lia|]; lia. Qed.

#[export] Hint Resolve buf_ok_wr : m_ok.

Lemma ptr_add_ok m b off n :
  buf_ok m b -> 0 <= off -> 0 < n -> off + n <= buf_length b ->
  ptr_add (bufferPtr b) off = bufferPtr b + off.
Proof. intros [(?&?&?&?) ?] ???. unfold ptr_add. wrap_simpl. done. Qed.

Lemma BoundsCheck_pass m index length myLength :
  0 <= index -> 0 <= length -> index + length <= myLength -> myLength < 2147483648 ->
  BoundsCheck index length myLength m = Ret tt m.
Proof.
  intros. unfold BoundsCheck. wrap_simpl.
  by replace (index + length >? myLength) with false by lia.
Qed.

Lemma BoundsCheck_stop m index length myLength :
  0 <= index -> 0 <= length -> myLength < index + length < 2147483648 ->
  BoundsCheck index length myLength m = Exc EFatal m.
Proof.
  intros. unfold BoundsCheck. wrap_simpl.
  by replace (index + length >? myLength) with true by lia.
Qed.

Section Accessors.
Context (m : mem) (b : Buffer) (off : Z) (Hb : buf_ok m b) (Hoff : 0 <= off).

Lemma get_bytes_ok n :
  (0 < n)%nat -> off + Z.of_nat n <= buf_length b ->
  get_bytes n b off m = Ret (rd m (bufferPtr b + off) n) m.
Proof using All.
  intros Hn Hle. unfold get_bytes. pose proof (buf_ok_length _ _ Hb).
  erewrite bind_Ret by (apply BoundsCheck_pass; lia).
  erewrite ptr_add_ok; [|done|done| |exact Hle]; [|lia].
  eapply load_ok; [eapply buf_ok_sub; [done|done| |exact Hle]|]; lia.
Qed.

Lemma put_bytes_ok n v :
  (0 < n)%nat -> off + Z.of_nat n <= buf_length b ->
  put_bytes n b off v m = Ret tt (wr m (bufferPtr b + off) (le_split n v)).
Proof using All.
  intros Hn Hle. unfold put_bytes. pose proof (buf_ok_length _ _ Hb).
  erewrite bind_Ret by (apply BoundsCheck_pass; lia).
  erewrite ptr_add_ok; [|done|done| |exact Hle]; [|lia].
  eapply store_ok; [eapply buf_ok_sub; [done|done| |exact Hle]|]; [lia|].
  unfold zlen. rewrite length_le_split. lia.
Qed.

Lemma GetUInt8_ok : off + 1 <= buf_length b ->
  GetUInt8 b off m = Ret (rd_u8 m (bufferPtr b + off)) m.
Proof using All. intros. unfold GetUInt8. by erewrite bind_Ret by (apply get_bytes_ok; lia). Qed.

Lemma GetUInt16_ok : off + 2 <= buf_length b ->
  GetUInt16 b off m = Ret (rd_u16 m (bufferPtr b + off)) m.
Proof using All. intros. unfold GetUInt16. by erewrite bind_Ret by (apply get_bytes_ok; lia). Qed.

Lemma GetInt32_ok : off + 4 <= buf_length b ->
  GetInt32 b off m = Ret (rd_i32 m (bufferPtr b + off)) m.
Proof using All. intros. unfold GetInt32. by erewrite bind_Ret by (apply get_bytes_ok; lia). Qed.

Lemma GetInt64_ok : off + 8 <= buf_length b ->
  GetInt64 b off m = Ret (rd_i64 m (bufferPtr b + off)) m.
Proof using All. intros. unfold GetInt64. by erewrite bind_Ret by (apply get_bytes_ok; lia). Qed.

Lemma GetBytesArray_ok n : 0 <= n -> off + n <= buf_length b ->
  GetBytesArray b off n m = Ret (rd m (bufferPtr b + off) (Z.to_nat n)) m.
Proof using All.
  intros Hn Hle. unfold GetBytesArray. pose proof (buf_ok_length _ _ Hb).
  erewrite bind_Ret by (apply BoundsCheck_pass; lia).
  rewrite (proj2 (Z.ltb_ge n 0)) by lia.
  destruct (decide (n = 0)) as [->|]; [done|].
  rewrite (ptr_add_ok m b off n) by (done || lia).
  eapply load_ok; [eapply buf_ok_sub; [done|done| |exact Hle]|]; lia.
Qed.

Lemma WriteBytes_ok dest n : 0 <= n -> off + n <= buf_length b ->
  WriteBytes b dest off n m = Ret (dest ++ rd m (bufferPtr b + off) (Z.to_nat n)) m.
Proof using All.
  intros Hn Hle. unfold WriteBytes. pose proof (buf_ok_length _ _ Hb).
  erewrite bind_Ret by (apply BoundsCheck_pass; lia).
  rewrite (proj2 (Z.ltb_ge n 0)) by lia.
  destruct (decide (n = 0)) as [->|]; [done|].
  rewrite (ptr_add_ok m b off n) by (done || lia).
  by erewrite bind_Ret by (eapply load_ok; [eapply buf_ok_sub; [done|done| |exact Hle]|]; lia).
Qed.
End Accessors.

(** ** Reads after writes, for each width *)

Lemma zlen_le_split n v : zlen (le_split n v) = Z.of_nat n.
Proof. unfold zlen. by rewrite length_le_split. Qed.

Lemma rd_u8_wr m a v : 0 <= v < 256 -> rd_u8 (wr m a (le_split 1 v)) a = v.
Proof.
  intros. unfold rd_u8. rewrite rd_wr_same by (by rewrite length_le_split).
  rewrite le_combine_split. by rewrite Z.mod_small.
Qed.

Lemma rd_u16_wr m a v : 0 <= v < 65536 -> rd_u16 (wr m a (le_split 2 v)) a = v.
Proof.
  intros. unfold rd_u16. rewrite rd_wr_same by (by rewrite length_le_split).
  rewrite le_combine_split. by rewrite Z.mod_small.
Qed.

Lemma rd_i32_wr m a v : is_i32 v -> rd_i32 (wr m a (le_split 4 v)) a = v.
Proof.
  unfold is_i32. intros. unfold rd_i32. rewrite rd_wr_same by (by rewrite length_le_split).
  rewrite le_combine_split. change (2 ^ (Z.of_nat 4 * 8)) with 4294967296.
  rewrite i32_mod. by apply i32_small.
Qed.

Lemma rd_i64_wr m a v : is_i64 v -> rd_i64 (wr m a (le_split 8 v)) a = v.
Proof.
  unfold is_i64. intros. unfold rd_i64. rewrite rd_wr_same by (by rewrite length_le_split).
  rewrite le_combine_split. change (2 ^ (Z.of_nat 8 * 8)) with 18446744073709551616.
  rewrite i64_mod. by apply i64_small.
Qed.

Section Disjoint.
Context (m : mem) (a a' : Z) (bs : list Init.Byte.byte).

Lemma rd_u8_disj : a' + 1 <= a \/ a + zlen bs <= a' -> rd_u8 (wr m a bs) a' = rd_u8 m a'.
Proof using Type. intros. unfold rd_u8. rewrite rd_wr_disj; [done|lia]. Qed.
Lemma rd_u16_disj : a' + 2 <= a \/ a + zlen bs <= a' -> rd_u16 (wr m a bs) a' = rd_u16 m a'.
Proof using Type. intros. unfold rd_u16. rewrite rd_wr_disj; [done|lia]. Qed.
Lemma rd_i32_disj : a' + 4 <= a \/ a + zlen bs <= a' -> rd_i32 (wr m a bs) a' = rd_i32 m a'.
Proof using Type. intros. unfold rd_i32. rewrite rd_wr_disj; [done|lia]. Qed.
Lemma rd_i64_disj : a' + 8 <= a \/ a + zlen bs <= a' -> rd_i64 (wr m a bs) a' = rd_i64 m a'.
Proof using Type. intros. unfold rd_i64. rewrite rd_wr_disj; [done|lia]. Qed.
End Disjoint.

Lemma rd_i32_range m a : is_i32 (rd_i32 m a).
Proof. apply i32_range. Qed.
Lemma rd_i64_range m a : is_i64 (rd_i64 m a).
Proof. apply i64_range. Qed.

(** Simplify a typed read of a memory built by writes, the addresses being compared
    with [lia]. *)
Ltac mem_side := unfold zlen in *; rewrite ?length_le_split, ?length_rd in *; lia.
Ltac mem_simpl :=
  repeat first
    [ rewrite -> rd_i32_disj by mem_side | rewrite -> rd_i64_disj by mem_side
    | rewrite -> rd_u8_disj by mem_side | rewrite -> rd_u16_disj by mem_side
    | rewrite -> rd_wr_disj by mem_side
    | rewrite -> rd_i32_wr by (unfold is_i32; lia) | rewrite -> rd_i64_wr by (unfold is_i64; lia)
    | rewrite -> rd_u8_wr by lia | rewrite -> rd_u16_wr by lia ].

(** ** [Memcpy] copies exactly [length] bytes *)

Definition disjoint (a n a' n' : Z) : Prop := a + n <= a' \/ a' + n' <= a.

Section MemcpyCorrect.
Context (m : mem) (d s n : Z).
Context (Hs : region_ok m s n) (Hd : region_ok m d n).
Context (Hdis : disjoint d n s n) (Hn : n < 2147483648).

(** The memory once the first [i] bytes are copied. *)
Definition copied (i : Z) : mem := wr m d (rd m s (Z.to_nat i)).

Lemma copied_step i k :
  0 <= i -> i + Z.of_nat k <= n ->
  bind (load (ptr_add s i) k) (fun bs => store (ptr_add d i) bs) (copied i)
  = Ret tt (copied (i + Z.of_nat k)).
Proof using All.
  intros Hi Hk. pose proof Hs as (?&?&?&?). pose proof Hd as (?&?&?&?).
  unfold disjoint in Hdis.
  destruct k as [|k].
  { unfold bind, load, store. simpl. do 2 f_equal. lia. }
  unfold ptr_add. wrap_simpl.
  assert (Hz : zlen (rd m s (Z.to_nat i)) = i) by (unfold zlen; rewrite length_rd; lia).
  erewrite bind_Ret.
  2: { apply (load_ok _ _ (Z.of_nat (S k))); [|lia].
       eapply region_ok_sub; [apply region_ok_wr, Hs| | |]; lia. }
  unfold copied. rewrite rd_wr_disj by lia.
  rewrite (store_ok _ _ (Z.of_nat (S k))).
  2: { eapply region_ok_sub; [apply region_ok_wr, Hd| | |]; lia. }
  2: { unfold zlen. rewrite length_rd. lia. }
  f_equal. rewrite Z2Nat.inj_add, Nat2Z.id by lia. rewrite rd_app, wr_app, Hz.
  do 2 f_equal. lia.
Qed.

Lemma Memcpy_loop_ok step fuel i bound :
  (0 < step)%nat -> 0 <= i <= n -> bound - i <= Z.of_nat fuel ->
  (forall j, 0 <= j < bound -> j + Z.of_nat step <= n) ->
  exists i', i <= i' <= n /\ bound <= i' /\
    Memcpy_loop step fuel d s i bound (copied i) = Ret i' (copied i').
Proof using All.
  intros Hstep. revert i. induction fuel as [|fuel IH]; intros i Hi Hf Hb.
  - exists i. simpl. rewrite (proj2 (Z.ltb_ge i bound)) by lia. split_and!; [lia..|done].
  - simpl. destruct (Z.ltb_spec i bound) as [Hlt|Hge].
    2: { exists i. split_and!; [lia..|done]. }
    pose proof (Hb i ltac:(lia)).
    destruct (IH (i + Z.of_nat step)) as (i' & ? & ? & Hrun); [lia..|done|].
    exists i'. split_and!; [lia..|].
    pose proof (copied_step i step ltac:(lia) ltac:(lia)) as Hc.
    apply bind_inv_Ret in Hc as (bs & s1 & Hl & Hst).
    erewrite bind_Ret by exact Hl. erewrite bind_Ret by exact Hst.
    wrap_simpl. exact Hrun.
Qed.

Lemma Memcpy_ok : Memcpy d s n m = Ret tt (wr m d (rd m s (Z.to_nat n))).
Proof using All.
  pose proof Hs as (?&?&?&?). unfold Memcpy.
  assert (Hc0 : m = copied 0) by done. rewrite Hc0 at 1.
  pose proof (Z.shiftr_div_pow2 n 3 ltac:(lia)) as Hq8. change (2 ^ 3) with 8 in Hq8.
  destruct (Memcpy_loop_ok 8 (Z.to_nat n) 0 (Z.shiftr n 3)) as (i & ? & ? & Hr1);
    [rewrite ?Hq8; dlia..|].
  erewrite bind_Ret by exact Hr1. wrap_simpl.
  pose proof (Z.shiftr_div_pow2 (n - i) 2 ltac:(lia)) as Hq4. change (2 ^ 2) with 4 in Hq4.
  destruct (Memcpy_loop_ok 4 (Z.to_nat n) i (Z.shiftr (n - i) 2)) as (j & ? & ? & Hr2);
    [rewrite ?Hq4; dlia..|].
  erewrite bind_Ret by exact Hr2.
  destruct (Memcpy_loop_ok 1 (Z.to_nat n) j n) as (k & ? & ? & Hr3); [lia..|].
  erewrite bind_Ret by exact Hr3.
  by replace k with n by lia.
Qed.
End MemcpyCorrect.

(** Copying needs the written range mapped only; the buffer may claim more than there is. *)
Lemma PutBytes_region m b index src si n :
  buf_ok m src -> region_ok m (bufferPtr b + index) n -> buf_length b < 2147483648 ->
  0 <= index -> 0 <= si -> index + n <= buf_length b -> si + n <= buf_length src ->
  disjoint (bufferPtr b + index) n (bufferPtr src + si) n ->
  PutBytes b index src si n m
  = Ret tt (wr m (bufferPtr b + index) (rd m (bufferPtr src + si) (Z.to_nat n))).
Proof.
  intros Hsrc Hr ????? Hdis. unfold PutBytes. pose proof (buf_ok_length _ _ Hsrc).
  pose proof Hr as (? & ? & ? & _).
  erewrite bind_Ret by (apply BoundsCheck_pass; lia).
  erewrite bind_Ret by (apply BoundsCheck_pass; lia).
  destruct (decide (n = 0)) as [->|]; [done|].
  replace (ptr_add (bufferPtr b) index) with (bufferPtr b + index) by (unfold ptr_add; rewrite u64_small; lia).
  rewrite (ptr_add_ok m src si n) by (done || lia).
  apply Memcpy_ok; [eapply buf_ok_sub; done || lia|done|done|lia].
Qed.

Lemma PutBytes_ok m b index src si n :
  buf_ok m b -> buf_ok m src -> 0 <= index -> 0 <= si -> 0 <= n ->
  index + n <= buf_length b -> si + n <= buf_length src ->
  disjoint (bufferPtr b) (buf_length b) (bufferPtr src) (buf_length src) ->
  PutBytes b index src si n m
  = Ret tt (wr m (bufferPtr b + index) (rd m (bufferPtr src + si) (Z.to_nat n))).
Proof.
  intros Hb Hsrc ????? Hdis. unfold disjoint in *. pose proof (buf_ok_length _ _ Hb).
  pose proof (buf_ok_length _ _ Hsrc).
  apply PutBytes_region; [done|eapply buf_ok_sub; done || lia|unfold disjoint; lia..].
Qed.

Lemma PutBytesArray_region m b index arr :
  arr <> [] -> region_ok m (bufferPtr b + index) (zlen arr) -> buf_length b < 2147483648 ->
  0 <= index -> index + zlen arr <= buf_length b ->
  PutBytesArray b index arr 0 (zlen arr) m = Ret tt (wr m (bufferPtr b + index) arr).
Proof.
  intros Hne Hr ? ? ?. pose proof Hr as (? & ? & ? & _). unfold PutBytesArray.
  assert (0 < zlen arr) by (destruct arr; [done|unfold zlen; simpl; lia]).
  erewrite bind_Ret by (apply BoundsCheck_pass; lia).
  erewrite bind_Ret by (apply BoundsCheck_pass; rewrite ?i32_small; lia).
  destruct arr as [|x arr0] eqn:E; [done|]. rewrite <- E in *. clear E x arr0.
  rewrite (proj2 (Z.ltb_ge 0 0)) by lia.
  replace (ptr_add (bufferPtr b) index) with (bufferPtr b + index) by (unfold ptr_add; rewrite u64_small; lia).
  replace (sub_list _ _ _) with arr
    by (unfold sub_list; rewrite drop_0, take_ge; [done|unfold zlen; lia]).
  by apply (store_ok _ _ (zlen arr)).
Qed.

Lemma CompareAndSetInt64_ok m b off old new :
  buf_ok m b -> 0 <= off -> off + 8 <= buf_length b ->
  CompareAndSetInt64 b off old new m =
  if decide (rd_i64 m (bufferPtr b + off) = old)
  then Ret true (wr m (bufferPtr b + off) (le_split 8 new)) else Ret false m.
Proof.
  intros. unfold CompareAndSetInt64. erewrite bind_Ret by (apply GetInt64_ok; done || lia).
  case_decide as Hd.
  - rewrite (proj2 (Z.eqb_eq _ _) Hd).
    by erewrite bind_Ret by (apply (put_bytes_ok m b off); done || lia).
  - by rewrite (proj2 (Z.eqb_neq _ _) Hd).
Qed.

(** ** Frame conditions: what a computation leaves alone *)

(** [m'] agrees with [m] outside of [[a, a+n)]. *)
Definition only_in (m m' : mem) (a n : Z) : Prop :=
  forall i, ~ (a <= i < a + n) -> m' !! i = m !! i.

(** ... outside of [[a, a+n)] and [[b, b+k)]. *)
Definition only_in2 (m m' : mem) (a n b k : Z) : Prop :=
  forall i, ~ (a <= i < a + n) -> ~ (b <= i < b + k) -> m' !! i = m !! i.

Lemma only_in_refl m a n : only_in m m a n.
Proof. done. Qed.

Lemma only_in_wr m a n a' bs :
  a <= a' -> a' + zlen bs <= a + n -> only_in m (wr m a' bs) a n.
Proof. intros ?? i ?. apply wr_lookup_ne. lia. Qed.

Lemma only_in_trans m1 m2 m3 a n :
  only_in m1 m2 a n -> only_in m2 m3 a n -> only_in m1 m3 a n.
Proof. unfold only_in. intros H1 H2 i Hi. rewrite H2, H1 by done. done. Qed.

(** A chain of writes inside [[a, a+n)] changes nothing outside of it. *)
Lemma only_in_wr_chain m m1 a n a' bs :
  only_in m m1 a n -> a <= a' -> a' + zlen bs <= a + n -> only_in m (wr m1 a' bs) a n.
Proof. intros. eapply only_in_trans; [done|]. by apply only_in_wr. Qed.

Lemma only_in_weaken m m' a n a' n' :
  only_in m m' a n -> a' <= a -> a + n <= a' + n' -> only_in m m' a' n'.
Proof. intros H ?? i ?. apply H. lia. Qed.

Lemma only_in_rd m m' a n a' k :
  only_in m m' a n -> disjoint a n a' (Z.of_nat k) -> rd m' a' k = rd m a' k.
Proof. unfold disjoint. intros H ?. apply rd_ext. intros. apply H. lia. Qed.

Lemma only_in2_of m m1 m2 a n b k :
  only_in m m1 b k -> only_in m1 m2 a n -> only_in2 m m2 a n b k.
Proof. intros H1 H2 i ??. by rewrite H2, H1. Qed.

Lemma only_in2_rd m m' a n b k a' l :
  only_in2 m m' a n b k -> disjoint a n a' (Z.of_nat l) -> disjoint b k a' (Z.of_nat l) ->
  rd m' a' l = rd m a' l.
Proof. unfold disjoint. intros H ??. apply rd_ext. intros. apply H; lia. Qed.

#[global] Arguments rd : simpl never.
#[global] Arguments wr : simpl never.
#[global] Arguments rd_u8 : simpl never.
#[global] Arguments rd_u16 : simpl never.
#[global] Arguments rd_i32 : simpl never.
#[global] Arguments rd_i64 : simpl never.
#[global] Arguments ptr_add : simpl never.

(** ** The stores by name, and the database that evaluates accessors *)

Section Stores.
Context (m : mem) (b : Buffer) (off v : Z) (Hb : buf_ok m b) (Hoff : 0 <= off).

Lemma PutUInt8_ok : off + 1 <= buf_length b ->
  PutUInt8 b off v m = Ret tt (wr m (bufferPtr b + off) (le_split 1 v)).
Proof using All. intros. apply put_bytes_ok; done || lia. Qed.
Lemma PutInt8_ok : off + 1 <= buf_length b ->
  PutInt8 b off v m = Ret tt (wr m (bufferPtr b + off) (le_split 1 v)).
Proof using All. intros. apply put_bytes_ok; done || lia. Qed.
Lemma PutUInt16_ok : off + 2 <= buf_length b ->
  PutUInt16 b off v m = Ret tt (wr m (bufferPtr b + off) (le_split 2 v)).
Proof using All. intros. apply put_bytes_ok; done || lia. Qed.
Lemma PutInt32_ok : off + 4 <= buf_length b ->
  PutInt32 b off v m = Ret tt (wr m (bufferPtr b + off) (le_split 4 v)).
Proof using All. intros. apply put_bytes_ok; done || lia. Qed.
Lemma PutInt32Ordered_ok : off + 4 <= buf_length b ->
  PutInt32Ordered b off v m = Ret tt (wr m (bufferPtr b + off) (le_split 4 v)).
Proof using All. intros. apply put_bytes_ok; done || lia. Qed.
Lemma PutInt64_ok : off + 8 <= buf_length b ->
  PutInt64 b off v m = Ret tt (wr m (bufferPtr b + off) (le_split 8 v)).
Proof using All. intros. apply put_bytes_ok; done || lia. Qed.
Lemma PutInt64Ordered_ok : off + 8 <= buf_length b ->
  PutInt64Ordered b off v m = Ret tt (wr m (bufferPtr b + off) (le_split 8 v)).
Proof using All. intros. apply put_bytes_ok; done || lia. Qed.
Lemma GetInt32Volatile_ok : off + 4 <= buf_length b ->
  GetInt32Volatile b off m = Ret (rd_i32 m (bufferPtr b + off)) m.
Proof using Hb Hoff. apply GetInt32_ok; done. Qed.
Lemma GetInt64Volatile_ok : off + 8 <= buf_length b ->
  GetInt64Volatile b off m = Ret (rd_i64 m (bufferPtr b + off)) m.
Proof using Hb Hoff. apply GetInt64_ok; done. Qed.
End Stores.

#[export] Hint Resolve GetUInt8_ok GetUInt16_ok GetInt32_ok GetInt64_ok GetInt32Volatile_ok
  GetInt64Volatile_ok PutUInt8_ok PutInt8_ok PutUInt16_ok PutInt32_ok PutInt32Ordered_ok
  PutInt64_ok PutInt64Ordered_ok PutBytes_ok GetBytesArray_ok WriteBytes_ok : m_ok.
#[export] Hint Extern 8 (_ <= _) => lia : m_ok.
#[export] Hint Extern 8 (_ < _) => lia : m_ok.
#[export] Hint Extern 8 (_ <= _ < _) => lia : m_ok.

(** ** Memory safety of the bounds checks *)

(** The accessors never touch memory outside of the buffer, provided that offset and
    length are not negative and do not overflow: a check that passes implies that the
    access is inside. *)
Theorem BoundsCheck_sound m index length myLength :
  0 <= index -> 0 <= length -> index + length < 2147483648 ->
  BoundsCheck index length myLength m = Ret tt m -> index + length <= myLength.
Proof.
  intros ???. unfold BoundsCheck. wrap_simpl.
  destruct (index + length >? myLength) eqn:E; [done|]. lia.
Qed.

(** Without those provisos the check lets accesses outside of the buffer through: a
    negative offset, and an offset whose sum with the length wraps around. *)
Theorem BoundsCheck_unsound_cases m :
  BoundsCheck (-4) 4 16 m = Ret tt m /\ BoundsCheck 2147483647 4 16 m = Ret tt m.
Proof. done. Qed.

Lemma BoundsCheck_sound_witness : 8 + 4 <= 16.
Proof. by apply (BoundsCheck_sound ∅ 8 4 16). Defined.

(** [Memcpy] copies the range, eight, four and then one bytes at a time: afterwards the
    destination holds what the source held, when the two do not overlap. *)
Theorem Memcpy_copies m d s n :
  region_ok m d n -> region_ok m s n -> disjoint d n s n -> n < 2147483648 ->
  exists m', Memcpy d s n m = Ret tt m' /\ rd m' d (Z.to_nat n) = rd m s (Z.to_nat n) /\
    only_in m m' d n.
Proof.
  intros Hd Hs Hdis Hn. eexists. split; [by apply Memcpy_ok|]. pose proof Hd as (? & ? & _).
  assert (Hz : zlen (rd m s (Z.to_nat n)) = n) by (unfold zlen; rewrite length_rd; lia).
  split.
  - apply rd_wr_same. by rewrite length_rd.
  - apply only_in_wr; lia.
Qed.

(** ** Slices of a read *)

Lemma take_rd m a n k : take n (rd m a k) = rd m a (n `min` k).
Proof.
  destruct (decide (n <= k)%nat) as [H|H].
  - rewrite Nat.min_l by done. replace k with (n + (k - n))%nat at 1 by lia.
    rewrite rd_app, take_app_le, take_ge; by rewrite ?length_rd.
  - rewrite Nat.min_r by lia. apply take_ge. rewrite length_rd. lia.
Qed.

Lemma drop_rd m a n k : drop n (rd m a k) = rd m (a + Z.of_nat n) (k - n).
Proof.
  destruct (decide (n <= k)%nat) as [H|H].
  - replace k with (n + (k - n))%nat at 1 by lia.
    rewrite rd_app, drop_app_ge, length_rd, Nat.sub_diag; [done|by rewrite length_rd].
  - rewrite drop_ge by (rewrite length_rd; lia). by replace (k - n)%nat with 0%nat by lia.
Qed.

Lemma zlen_rd m a n : zlen (rd m a n) = Z.of_nat n.
Proof. unfold zlen. by rewrite length_rd. Qed.

(** ** Fresh memory *)

(** [n] zero bytes from address 0 on. *)
Definition zero_mem (n : Z) : mem := wr ∅ 0 (replicate (Z.to_nat n) Byte.x00).

Lemma region_ok_zero n a k :
  0 <= a -> 0 <= k -> a + k <= n -> n <= 18446744073709551616 -> region_ok (zero_mem n) a k.
Proof.
  intros. split_and!; try lia. intros i Hi. unfold zero_mem.
  rewrite wr_lookup_in by (unfold zlen; rewrite length_replicate; lia).
  apply lookup_lt_is_Some. rewrite length_replicate. lia.
Qed.

Lemma zero_mem_lookup n i : 0 <= i < n -> zero_mem n !! i = Some Byte.x00.
Proof.
  intros. unfold zero_mem. rewrite wr_lookup_in by (unfold zlen; rewrite length_replicate; lia).
  apply lookup_replicate. split; [done|lia].
Qed.

Lemma rd_zero n a k : rd (zero_mem n) a k = replicate k Byte.x00.
Proof.
  revert a. induction k as [|k IH]; intros a; [done|].
  change (rd (zero_mem n) a (S k)) with (default Byte.x00 (zero_mem n !! a) :: rd (zero_mem n) (a + 1) k).
  rewrite IH. cbn [replicate]. f_equal.
  destruct (decide (0 <= a < n)) as [Hin|Hout].
  - by rewrite zero_mem_lookup.
  - unfold zero_mem. rewrite wr_lookup_ne; [done|]. unfold zlen. rewrite length_replicate. lia.
Qed.

Lemma rd_i32_zero n a : rd_i32 (zero_mem n) a = 0.
Proof. unfold rd_i32. by rewrite rd_zero. Qed.
Lemma rd_i64_zero n a : rd_i64 (zero_mem n) a = 0.
Proof. unfold rd_i64. by rewrite rd_zero. Qed.

#[global] Opaque zero_mem.

(** Four zero bytes read as zero. *)
Lemma rd_i32_clean m a : (forall i, a <= i < a + 4 -> m !! i = Some Byte.x00) -> rd_i32 m a = 0.
Proof.
  intros H. unfold rd_i32. rewrite (rd_ext m (wr m a [Byte.x00; Byte.x00; Byte.x00; Byte.x00])).
  - by rewrite rd_wr_same.
  - intros i Hi. rewrite wr_lookup_in by (unfold zlen; simpl; lia). rewrite H by lia.
    assert (i - a = 0 \/ i - a = 1 \/ i - a = 2 \/ i - a = 3) as [->|[->|[->| ->]]] by lia; done.
Qed.

(** The atomic addition returns the old value and leaves the wrapped sum. *)
Lemma GetAndAddInt64_ok m b off d :
  buf_ok m b -> 0 <= off -> off + 8 <= buf_length b ->
  let p := bufferPtr b + off in
  exists m', GetAndAddInt64 b off d m = Ret (rd_i64 m p) m' /\
    rd_i64 m' p = i64 (rd_i64 m p + d) /\ only_in m m' p 8 /\ keeps m m'.
Proof.
  intros Hb ? ? p. pose proof (buf_ok_length _ _ Hb). unfold GetAndAddInt64.
  erewrite bind_Ret by (apply BoundsCheck_pass; lia).
  rewrite (ptr_add_ok m b off 8) by (done || lia). fold p.
  assert (Hr : region_ok m p 8) by (eapply region_ok_sub; [apply Hb|unfold p; lia..]).
  erewrite bind_Ret by (apply (load_ok _ _ 8); [exact Hr|lia]).
  erewrite bind_Ret by (apply (store_ok _ _ 8); [exact Hr|by rewrite zlen_le_split]).
  set (v := u64 _). unfold ret. eexists. split; [|split; [|split]].
  - f_equal. unfold v, u64. rewrite i64_mod. unfold rd_i64.
    rewrite <- (i64_add_sub (le_combine _) d). f_equal. f_equal.
    rewrite <- (i64_mod (_ + _ mod _)). rewrite Z.add_mod_idemp_r by lia. apply i64_mod.
  - unfold rd_i64. rewrite rd_wr_same by (by rewrite length_le_split).
    rewrite le_combine_split. change (2 ^ (Z.of_nat 8 * 8)) with 18446744073709551616. rewrite i64_mod.
    unfold v, u64. rewrite i64_mod, <- (i64_mod (_ + _ mod _)), Z.add_mod_idemp_r, i64_mod by lia.
    unfold i64. f_equal. dlia.
  - apply only_in_wr; rewrite ?zlen_le_split; lia.
  - apply keeps_wr.
Qed.
