(* ===== verification/Atomics.v ===== *)
(** * Atomic scalars

    src/aeron/atomic/boolean.go, int.go and long.go: the values that goroutines share, each
    operation one access; [MakeBuffer] of src/aeron/atomic/buffer.go; and the size of a
    flyweight, src/aeron/flyweight/flyweight.go. *)

From S2P Require Import Prelude Memory.

Local Open Scope m_scope.

(** ** boolean.go *)

Definition True_ : Z := 1.
Definition False_ : Z := 0.

(** The state is the value of the [Bool], an [int32]. *)
Definition int_of (b : bool) : Z := if b then True_ else False_.

Definition Bool_Get : M Z bool := fun v => Ret (v =? True_) v.
Definition Bool_Set (val : bool) : M Z unit := fun _ => Ret tt (int_of val).
Definition Bool_CompareAndSet (oldVal newVal : bool) : M Z bool := fun v =>
  if v =? int_of oldVal then Ret true (int_of newVal) else Ret false v.

(** ** int.go and long.go *)

Definition Int_Get : M Z Z := fun v => Ret v v.
Definition Int_Set (v : Z) : M Z unit := fun _ => Ret tt v.
Definition Int_Add (delta : Z) : M Z Z := fun v => Ret (i32 (v + delta)) (i32 (v + delta)).
Definition Int_Inc : M Z Z := Int_Add 1.

Definition Long_Get : M Z Z := fun v => Ret v v.
Definition Long_Set (v : Z) : M Z unit := fun _ => Ret tt v.
Definition Long_Add (delta : Z) : M Z Z := fun v => Ret (i64 (v + delta)) (i64 (v + delta)).
Definition Long_Inc : M Z Z := Long_Add 1.

(** ** flyweight.go *)

Record FWBase : Type := mkFWBase { fw_size : Z }.
Definition FWBase_Size : M FWBase Z := fun m => Ret (fw_size m) m.
Definition FWBase_SetSize (size : Z) : M FWBase unit := fun _ => Ret tt (mkFWBase size).

(** ** MakeBuffer *)

(** What its arguments are: pointers, slices of bytes, values that convert to an [int32], and
    anything else. *)
Inductive buffer_arg : Type :=
| ArgPointer (ptr : Z)
| ArgUintptr (ptr : Z)
| ArgBytes (ptr len : Z)
| ArgInt (v : Z)
| ArgOther.

(** The address of the first byte. *)
Definition first_byte {S} (ptr len : Z) : M S Z := if len =? 0 then panic "index out of range" else ret ptr.

Definition MakeBuffer {S} (args : list buffer_arg) : M S Buffer :=
  match args with
  | [ArgPointer ptr] => ret (mkBuffer ptr 0)
  | [ArgBytes ptr len] => let! p := first_byte ptr len in ret (mkBuffer p (i32 len))
  | [arg; lenArg] =>
      let bufLen := match lenArg with ArgInt v | ArgUintptr v => i32 v | _ => 0 end in
      match arg with
      | ArgUintptr ptr | ArgPointer ptr => ret (mkBuffer ptr bufLen)
      | ArgBytes ptr len => let! p := first_byte ptr len in ret (mkBuffer p bufLen)
      | _ => ret (mkBuffer 0 bufLen)
      end
  | _ => ret (mkBuffer 0 0)
  end.

(** ** Goroutines *)

(** Their operations on one value, in the order in which they come, with what each gets. *)
Fixpoint interleaved {A} (ops : list (M Z A)) (v : Z) : list A * Z :=
  match ops with
  | [] => ([], v)
  | op :: ops' =>
      match op v with
      | Ret a v' => let '(r, v'') := interleaved ops' v' in (a :: r, v'')
      | Exc _ v' => ([], v')
      end
  end.

Lemma closed_stays n : interleaved (replicate n (Bool_CompareAndSet false true)) True_ = (replicate n false, True_).
Proof. induction n as [|n IH]; [done|]. cbn in *. by rewrite IH. Qed.

(** However many goroutines close something at the same time, with the compare-and-set of their
    closed flag, exactly one of them, the first, goes on to close it. *)
Theorem closed_once n :
  interleaved (replicate (S n) (Bool_CompareAndSet false true)) False_ = (true :: replicate n false, True_).
Proof. cbn. by rewrite closed_stays. Qed.

(** However many goroutines increment a counter, every one of them gets a value of its own, as
    long as there are no more of them than values. *)
Theorem increments_differ n v :
  is_i64 v -> Z.of_nat n < 18446744073709551616 -> NoDup (interleaved (replicate n Long_Inc) v).1.
Proof.
  intros Hv Hn.
  assert (Hval : forall k v i x, (interleaved (replicate k Long_Inc) v).1 !! i = Some x -> x = i64 (v + 1 + Z.of_nat i)).
  { clear. induction k as [|k IH]; intros v i x Hx; [done|]. cbn [replicate interleaved Long_Inc Long_Add] in Hx.
    specialize (IH (i64 (v + 1))). destruct (interleaved (replicate k Long_Inc) (i64 (v + 1))) as [r v'] eqn:E. cbn [fst] in *.
    destruct i as [|i]; cbn in Hx; [injection Hx as <-; f_equal; lia|].
    apply IH in Hx as ->. unfold i64. replace (Z.of_nat (S i)) with (Z.of_nat i + 1) by lia. dlia. }
  assert (Hlen : forall k v, length (interleaved (replicate k Long_Inc) v).1 = k).
  { clear. induction k as [|k IH]; intros v; [done|]. cbn [replicate interleaved Long_Inc Long_Add].
    specialize (IH (i64 (v + 1))). destruct (interleaved _ _) as [r v']. cbn in *. by rewrite IH. }
  apply NoDup_alt. intros i j x Hi Hj.
  pose proof (lookup_lt_Some _ _ _ Hi) as Hli. pose proof (lookup_lt_Some _ _ _ Hj) as Hlj. rewrite Hlen in Hli, Hlj.
  apply Hval in Hi, Hj. subst x. unfold i64 in Hj. unfold is_i64 in Hv. dlia.
Qed.
