(* ===== verification/Bits.v ===== *)
(** * Bit recipes of src/aeron/util

    [AlignInt32], [NumberOfTrailingZeroes], [FastMod3] and [IsPowerOfTwo] of bits.go,
    and the packed semantic versions of version.go, each with the arithmetic function
    it stands for. *)

From S2P Require Import Prelude.

(** ** Definitions *)

Definition CacheLineLength : Z := 64.
Definition SizeOfInt32 : Z := 4.
Definition SizeOfInt64 : Z := 8.

Definition AlignInt32 (value alignment : Z) : Z :=
  Z.land (i32 (value + i32 (alignment - 1))) (Z.lnot (i32 (alignment - 1))).

Definition ntz_table : list Z :=
  [0; 1; 2; 24; 3; 19; 6; 25;
   22; 4; 20; 10; 16; 7; 12; 26;
   31; 23; 18; 5; 21; 9; 15; 11;
   30; 17; 8; 14; 29; 13; 28; 27].

(** The argument is a [uint32]; the shifted product is below 32, so the table access
    is always in range. *)
Definition NumberOfTrailingZeroes (value : Z) : Z :=
  if value =? 0 then 32
  else
    let value := u32 (Z.land value (u32 (- value)) * 0x04D7651F) in
    nth (Z.to_nat (Z.shiftr value 27)) ntz_table 0.

Definition mod3_table : list Z :=
  [0; 1; 2; 0; 1; 2; 0; 1; 2; 0; 1; 2;
   0; 1; 2; 0; 1; 2; 0; 1; 2; 0; 1; 2; 0; 1; 2; 0; 1; 2; 0; 1; 2;
   0; 1; 2; 0; 1; 2; 0; 1; 2; 0; 1; 2; 0; 1; 2; 0; 1; 2; 0; 1; 2;
   0; 1; 2; 0; 1; 2; 0; 1].

(** The argument is a [uint64]; [None] is the index-out-of-range panic. *)
Definition FastMod3 (value : Z) : option Z :=
  let value := u64 (Z.shiftr value 16 + Z.land value 0xFFFF) in
  let value := u64 (Z.shiftr value 8 + Z.land value 0x00FF) in
  let value := u64 (Z.shiftr value 4 + Z.land value 0x000F) in
  mod3_table !! Z.to_nat value.

Definition IsPowerOfTwo (value : Z) : bool :=
  (value >? 0) && (Z.land value (i64 (Z.lnot value + 1)) =? value).

Definition SemanticVersionCompose (major minor patch : Z) : Z :=
  Z.lor (Z.lor (Z.shiftl major 16) (Z.shiftl minor 8)) patch.
Definition SemanticVersionMajor (version : Z) : Z := u8 (Z.land (Z.shiftr version 16) 0xFF).
Definition SemanticVersionMinor (version : Z) : Z := u8 (Z.land (Z.shiftr version 8) 0xFF).
Definition SemanticVersionPatch (version : Z) : Z := u8 (Z.land version 0xFF).

(** ** Alignment *)

(** The least multiple of [a] that is at least [v]. *)
Definition align_up (v a : Z) : Z := ((v + (a - 1)) / a) * a.

Lemma align_up_spec v a : 0 < a -> v <= align_up v a < v + a /\ align_up v a mod a = 0.
Proof.
  intros Ha. unfold align_up. split; [|by rewrite Z.mod_mul by lia].
  pose proof (Z.div_mod (v + (a - 1)) a ltac:(lia)).
  pose proof (Z.mod_pos_bound (v + (a - 1)) a Ha). lia.
Qed.

Lemma align_up_add v w a : 0 < a -> v mod a = 0 -> align_up (v + w) a = v + align_up w a.
Proof.
  intros Ha Hv. apply Z.mod_divide in Hv as [q ->]; [|lia]. unfold align_up.
  rewrite <- Z.add_assoc, Z.div_add_l by lia. lia.
Qed.

Lemma align_up_id v a : 0 < a -> v mod a = 0 -> align_up v a = v.
Proof.
  intros Ha Hv. replace v with (v + 0) at 1 by lia. rewrite align_up_add by done.
  unfold align_up. rewrite Z.div_small; lia.
Qed.

(** On a power-of-two alignment and without [int32] overflow, [AlignInt32] is
    rounding up to the next multiple of the alignment. *)
Lemma AlignInt32_up v k :
  0 <= k <= 30 -> 0 <= v -> v + 2 ^ k <= 2147483648 ->
  AlignInt32 v (2 ^ k) = align_up v (2 ^ k).
Proof.
  intros Hk Hv Hov. unfold AlignInt32, align_up.
  pose proof (Z.pow_pos_nonneg 2 k ltac:(lia) ltac:(lia)).
  rewrite (i32_small (2 ^ k - 1)) by lia. rewrite i32_small by lia.
  rewrite <- Z.ldiff_land. replace (2 ^ k - 1) with (Z.ones k) by (rewrite Z.ones_equiv; lia).
  rewrite Z.ldiff_ones_r by lia.
  by rewrite Z.shiftl_mul_pow2, Z.shiftr_div_pow2 by lia.
Qed.

Lemma AlignInt32_32 v : 0 <= v <= 2147483616 -> AlignInt32 v 32 = align_up v 32.
Proof. intros. apply (AlignInt32_up v 5); lia. Qed.

Lemma AlignInt32_4 v : 0 <= v <= 2147483644 -> AlignInt32 v 4 = align_up v 4.
Proof. intros. apply (AlignInt32_up v 2); lia. Qed.

Lemma AlignInt32_8 v : 0 <= v <= 2147483640 -> AlignInt32 v 8 = align_up v 8.
Proof. intros. apply (AlignInt32_up v 3); lia. Qed.

(** ** Isolating the lowest set bit *)

Lemma pos_odd_part v : 0 < v -> exists k q, 0 <= k /\ 0 <= q /\ v = 2 ^ k * (2 * q + 1).
Proof.
  intros Hv. destruct v as [|p|p]; try lia. clear Hv. induction p as [p IH|p IH|].
  - exists 0, (Zpos p). split_and!; lia.
  - destruct IH as (k & q & ? & ? & E). exists (k + 1), q. split_and!; [lia..|].
    rewrite Z.pow_add_r by lia. change (2 ^ 1) with 2.
    replace (Zpos p~0) with (2 * Zpos p) by lia. rewrite E. ring.
  - exists 0, 0. split_and!; lia.
Qed.

(** The bits of [2^k * (2q+1)] and of its predecessor. *)
Lemma odd_part_bits k q i : 0 <= k -> 0 <= i ->
  Z.testbit (2 ^ k * (2 * q + 1)) i =
    if i <? k then false else if i =? k then true else Z.testbit q (i - k - 1).
Proof.
  intros. rewrite Z.mul_comm. rewrite <- Z.shiftl_mul_pow2 by lia. rewrite Z.shiftl_spec by lia.
  destruct (Z.ltb_spec i k); [by rewrite Z.testbit_neg_r by lia|].
  destruct (Z.eqb_spec i k) as [->|].
  - rewrite Z.sub_diag. apply Z.testbit_odd_0.
  - rewrite <- (Z.testbit_odd_succ q) by lia. f_equal. lia.
Qed.

Lemma odd_part_pred_bits k q i : 0 <= k -> 0 <= i ->
  Z.testbit (2 ^ k * (2 * q + 1) - 1) i =
    if i <? k then true else if i =? k then false else Z.testbit q (i - k - 1).
Proof.
  intros. replace (2 ^ k * (2 * q + 1) - 1) with (Z.ones k + Z.shiftl (2 * q) k)
    by (rewrite Z.shiftl_mul_pow2, Z.ones_equiv by lia; lia).
  rewrite Z.add_nocarry_lxor.
  2: { apply Z.bits_inj'. intros j ?. rewrite Z.land_spec, Z.bits_0, Z.shiftl_spec by lia.
       destruct (decide (j < k)); [rewrite (Z.testbit_neg_r _ (j - k)) by lia; apply andb_false_r|].
       by rewrite Z.ones_spec_high by lia. }
  rewrite Z.lxor_spec, Z.shiftl_spec by lia.
  destruct (Z.ltb_spec i k).
  - rewrite Z.ones_spec_low by lia. by rewrite Z.testbit_neg_r by lia.
  - rewrite Z.ones_spec_high by lia. rewrite xorb_false_l.
    destruct (Z.eqb_spec i k) as [->|].
    + rewrite Z.sub_diag. apply Z.testbit_even_0.
    + rewrite <- (Z.testbit_even_succ q) by lia. f_equal. lia.
Qed.

Lemma land_opp_odd_part k q : 0 <= k ->
  Z.land (2 ^ k * (2 * q + 1)) (- (2 ^ k * (2 * q + 1))) = 2 ^ k.
Proof.
  intros. set (v := 2 ^ k * (2 * q + 1)).
  replace (- v) with (Z.lnot (v - 1)) by (unfold Z.lnot; lia).
  apply Z.bits_inj'. intros i ?.
  rewrite Z.land_spec, Z.lnot_spec by lia. unfold v.
  rewrite odd_part_bits, odd_part_pred_bits by lia.
  rewrite Z.pow2_bits_eqb by lia.
  destruct (Z.ltb_spec i k); destruct (Z.eqb_spec i k); try lia;
    destruct (Z.eqb_spec k i); try lia; try done.
  apply andb_negb_r.
Qed.

Lemma land_opp_u32 v : 0 <= v < 4294967296 -> Z.land v (u32 (- v)) = Z.land v (- v).
Proof.
  intros. unfold u32. change 4294967296 with (2 ^ 32) in *.
  rewrite <- Z.land_ones by lia. rewrite (Z.land_comm (- v)), Z.land_assoc.
  f_equal. rewrite Z.land_ones by lia. apply Z.mod_small. lia.
Qed.

(** The de Bruijn table maps each of the 32 isolated bits to its index. *)
Lemma ntz_table_correct k : 0 <= k < 32 ->
  nth (Z.to_nat (Z.shiftr (u32 (2 ^ k * 0x04D7651F)) 27)) ntz_table 0 = k.
Proof.
  intros Hk.
  assert (Hall : forallb (fun n => nth (Z.to_nat (Z.shiftr (u32 (2 ^ Z.of_nat n * 0x04D7651F)) 27))
                                     ntz_table 0 =? Z.of_nat n) (seq 0 32) = true) by reflexivity.
  rewrite forallb_forall in Hall. specialize (Hall (Z.to_nat k)).
  rewrite Z2Nat.id in Hall by lia. apply Z.eqb_eq, Hall, in_seq. lia.
Qed.

Lemma ntz_odd_part k q :
  0 <= k -> 0 <= q -> 2 ^ k * (2 * q + 1) < 4294967296 ->
  NumberOfTrailingZeroes (2 ^ k * (2 * q + 1)) = k.
Proof.
  intros Hk Hq Hlt. pose proof (Z.pow_pos_nonneg 2 k ltac:(lia) Hk) as Hp.
  unfold NumberOfTrailingZeroes.
  rewrite (proj2 (Z.eqb_neq _ 0)) by nia.
  rewrite land_opp_u32, land_opp_odd_part by nia.
  apply ntz_table_correct. split; [done|].
  apply (Z.pow_lt_mono_r_iff 2); [lia..|]. change (2 ^ 32) with 4294967296. nia.
Qed.

(** For every [uint32], [NumberOfTrailingZeroes] is the exponent of the greatest power
    of two that divides it, and 32 on zero. *)
Theorem NumberOfTrailingZeroes_spec v :
  0 <= v < 4294967296 ->
  (v = 0 /\ NumberOfTrailingZeroes v = 32) \/
  (0 <= NumberOfTrailingZeroes v < 32 /\
   exists q, v = 2 ^ NumberOfTrailingZeroes v * q /\ Z.odd q = true).
Proof.
  intros Hv. destruct (decide (v = 0)) as [->|Hne]; [by left|right].
  destruct (pos_odd_part v) as (k & q & ? & ? & ->); [lia|].
  rewrite ntz_odd_part by lia.
  pose proof (Z.pow_pos_nonneg 2 k ltac:(lia) ltac:(lia)). split.
  - split; [done|]. apply (Z.pow_lt_mono_r_iff 2); [lia..|].
    change (2 ^ 32) with 4294967296. nia.
  - exists (2 * q + 1). split; [done|]. by rewrite Z.add_comm, Z.odd_add_mul_2.
Qed.

Lemma NumberOfTrailingZeroes_pow2 k : 0 <= k < 32 -> NumberOfTrailingZeroes (2 ^ k) = k.
Proof.
  intros. replace (2 ^ k) with (2 ^ k * (2 * 0 + 1)) by lia. apply ntz_odd_part; [lia..|].
  change 4294967296 with (2 ^ 32). rewrite Z.mul_1_r. apply Z.pow_lt_mono_r; lia.
Qed.

Lemma NumberOfTrailingZeroes_spec_witness :
  (65536 = 0 /\ NumberOfTrailingZeroes 65536 = 32) \/
  (0 <= NumberOfTrailingZeroes 65536 < 32 /\
   exists q, 65536 = 2 ^ NumberOfTrailingZeroes 65536 * q /\ Z.odd q = true).
Proof. apply (NumberOfTrailingZeroes_spec 65536). lia. Defined.

(** ** Powers of two *)

(** [IsPowerOfTwo] decides being a power of two, for every positive [int64]. *)
Lemma IsPowerOfTwo_spec v :
  is_i64 v -> IsPowerOfTwo v = true <-> exists k, 0 <= k /\ v = 2 ^ k.
Proof.
  unfold is_i64, IsPowerOfTwo. intros Hv. rewrite andb_true_iff, Z.gtb_lt, Z.eqb_eq.
  destruct (decide (0 < v)) as [Hpos|].
  2: { split; [lia|]. intros (k & Hk & ->). pose proof (Z.pow_pos_nonneg 2 k). lia. }
  replace (Z.lnot v + 1) with (- v) by (unfold Z.lnot; lia). rewrite i64_small by lia.
  destruct (pos_odd_part v Hpos) as (k & q & Hk & Hq & ->).
  pose proof (Z.pow_pos_nonneg 2 k ltac:(lia) Hk).
  rewrite land_opp_odd_part by done. split.
  - intros [_ E]. exists k. auto.
  - intros (j & Hj & E). split; [done|]. rewrite E.
    destruct (decide (j = k)) as [->|Hne]; [done|].
    assert (q = 0) as ->; [|lia].
    assert (k < j) by (apply (Z.pow_lt_mono_r_iff 2); [lia..|]; destruct (decide (q = 0)); [subst; exfalso; apply Hne; apply (Z.pow_inj_r 2); lia|nia]).
    replace j with (k + (1 + (j - k - 1))) in E by lia.
    rewrite !Z.pow_add_r in E by lia. change (2 ^ 1) with 2 in E.
    apply Z.mul_reg_l in E; lia.
Qed.

(** ** Remainder by three *)

Lemma mod3_table_correct i : 0 <= i < 62 -> mod3_table !! Z.to_nat i = Some (i mod 3).
Proof.
  intros Hi.
  assert (Hall : forallb (fun n => bool_decide (mod3_table !! n = Some (Z.of_nat n mod 3))) (seq 0 62) = true)
    by reflexivity.
  rewrite forallb_forall in Hall. specialize (Hall (Z.to_nat i)).
  rewrite Z2Nat.id in Hall by lia. apply bool_decide_eq_true in Hall; [done|]. apply in_seq. lia.
Qed.

Lemma shift_mask v k : 0 <= k ->
  Z.shiftr v k + Z.land v (Z.ones k) = v / 2 ^ k + v mod 2 ^ k.
Proof. intros. by rewrite Z.shiftr_div_pow2, Z.land_ones by lia. Qed.

(** The folding of [FastMod3] stays in the table and computes the remainder, for every
    32-bit value. *)
Lemma FastMod3_mod3 v : 0 <= v < 4294967296 -> FastMod3 v = Some (v mod 3).
Proof.
  intros Hv. unfold FastMod3.
  change 65535 with (Z.ones 16). change 255 with (Z.ones 8). change 15 with (Z.ones 4).
  rewrite (shift_mask v 16 ltac:(lia)). change (2 ^ 16) with 65536.
  set (v1 := v / 65536 + v mod 65536). assert (H1 : 0 <= v1 <= 0x1FFFE /\ v1 mod 3 = v mod 3).
  { unfold v1. dlia. }
  rewrite (u64_small v1) by lia. clearbody v1.
  rewrite (shift_mask v1 8 ltac:(lia)). change (2 ^ 8) with 256.
  set (v2 := v1 / 256 + v1 mod 256). assert (H2 : 0 <= v2 <= 0x2FD /\ v2 mod 3 = v mod 3).
  { unfold v2. dlia. }
  rewrite (u64_small v2) by lia. clearbody v2.
  rewrite (shift_mask v2 4 ltac:(lia)). change (2 ^ 4) with 16.
  set (v3 := v2 / 16 + v2 mod 16). assert (H3 : 0 <= v3 <= 0x3D /\ v3 mod 3 = v mod 3).
  { unfold v3. dlia. }
  rewrite (u64_small v3) by lia. rewrite mod3_table_correct by lia. f_equal. lia.
Qed.

(** [FastMod3], which finds the partition of a term, is the remainder by three for every
    value of 32 bits; for greater ones its table does not suffice and it panics. *)
Theorem FastMod3_spec v :
  0 <= v < 4294967296 -> FastMod3 v = Some (v mod 3) /\ FastMod3 (2 ^ 40) = None.
Proof. intros. split; [by apply FastMod3_mod3|done]. Qed.

Lemma FastMod3_spec_witness : FastMod3 4294967295 = Some 0 /\ FastMod3 (2 ^ 40) = None.
Proof. apply (FastMod3_spec 4294967295). lia. Defined.

(** ** Semantic versions *)

Lemma version_sum major minor patch :
  0 <= major < 256 -> 0 <= minor < 256 -> 0 <= patch < 256 ->
  SemanticVersionCompose major minor patch = (major * 256 + minor) * 256 + patch.
Proof.
  intros. unfold SemanticVersionCompose.
  replace (Z.shiftl major 16) with (Z.shiftl (Z.shiftl major 8) 8)
    by (rewrite Z.shiftl_shiftl by lia; done).
  rewrite <- Z.shiftl_lor. by rewrite !lor_shiftl_add by lia.
Qed.

(** Packing a version and taking its parts are inverse on bytes. *)
Theorem SemanticVersion_roundtrip major minor patch :
  0 <= major < 256 -> 0 <= minor < 256 -> 0 <= patch < 256 ->
  let v := SemanticVersionCompose major minor patch in
  SemanticVersionMajor v = major /\ SemanticVersionMinor v = minor /\
  SemanticVersionPatch v = patch.
Proof.
  intros. subst v. rewrite version_sum by lia.
  unfold SemanticVersionMajor, SemanticVersionMinor, SemanticVersionPatch, u8.
  change 255 with (Z.ones 8). rewrite !Z.land_ones, !Z.shiftr_div_pow2 by lia.
  change (2 ^ 16) with 65536. change (2 ^ 8) with 256. split_and!; dlia.
Qed.

Lemma SemanticVersion_roundtrip_witness :
  let v := SemanticVersionCompose 1 44 1 in
  SemanticVersionMajor v = 1 /\ SemanticVersionMinor v = 44 /\ SemanticVersionPatch v = 1.
Proof. apply (SemanticVersion_roundtrip 1 44 1); lia. Defined.
