(* ===== verification/Flyweight.v ===== *)
(** * Flyweight fields

    The fields of src/aeron/flyweight/fields.go: typed views of a buffer that keep the
    absolute address of their bytes. A flyweight's [Wrap] lays its fields out one after
    the other; each field's [Wrap] returns the number of bytes it takes. *)

From S2P Require Import Prelude Memory Bits.

Local Open Scope m_scope.

(** ** Fixed width fields *)

Record Int32Field : Type := mkInt32Field { f32_offset : Z }.
Record Int64Field : Type := mkInt64Field { f64_offset : Z }.

Definition Int32Field_Wrap (buffer : Buffer) (offset : Z) : M mem (Int32Field * Z) :=
  BoundsCheck (i32 offset) 4 (Capacity buffer) ;;;
  ret (mkInt32Field (ptr_add (Ptr buffer) offset), 4).
Definition Int32Field_Get (fld : Int32Field) : M mem Z :=
  let! bs := load (f32_offset fld) 4 in ret (i32 (le_combine bs)).
Definition Int32Field_Set (fld : Int32Field) (value : Z) : M mem unit :=
  store (f32_offset fld) (le_split 4 value).
Definition Int32Field_CAS (fld : Int32Field) (curValue newValue : Z) : M mem bool :=
  let! cur := Int32Field_Get fld in
  if cur =? curValue then Int32Field_Set fld newValue ;;; ret true else ret false.

Definition Int64Field_Wrap (buffer : Buffer) (offset : Z) : M mem (Int64Field * Z) :=
  BoundsCheck (i32 offset) 8 (Capacity buffer) ;;;
  ret (mkInt64Field (ptr_add (Ptr buffer) offset), 8).
Definition Int64Field_Get (fld : Int64Field) : M mem Z :=
  let! bs := load (f64_offset fld) 8 in ret (i64 (le_combine bs)).
Definition Int64Field_Set (fld : Int64Field) (value : Z) : M mem unit :=
  store (f64_offset fld) (le_split 8 value).
Definition Int64Field_GetAndAddInt64 (fld : Int64Field) (value : Z) : M mem Z :=
  let! cur := Int64Field_Get fld in
  let n := i64 (cur + value) in
  Int64Field_Set fld n ;;;
  ret (i64 (n - value)).
Definition Int64Field_CAS (fld : Int64Field) (curValue newValue : Z) : M mem bool :=
  let! cur := Int64Field_Get fld in
  if cur =? curValue then Int64Field_Set fld newValue ;;; ret true else ret false.

(** ** Strings

    [StringField] keeps a pointer to its owner, whose size it adjusts: the owner's
    size is passed in and out of [StringField_Set]. *)

Record StringField : Type := mkStringField { str_lenOffset : Z; str_dataOffset : Z }.

Definition StringField_Wrap (buffer : Buffer) (offset : Z) (align : bool)
  : M mem (StringField * Z) :=
  let off := if align then AlignInt32 (i32 offset) 4 else i32 offset in
  let offsetAdjustment := if align then off - offset else 0 in
  BoundsCheck off 4 (Capacity buffer) ;;;
  let lenOffset := ptr_add (Ptr buffer) off in
  let! bs := load lenOffset 4 in
  let l := i32 (le_combine bs) in
  BoundsCheck (i32 (off + 4)) l (Capacity buffer) ;;;
  ret (mkStringField lenOffset (ptr_add (Ptr buffer) (i32 (off + 4))), 4 + l + offsetAdjustment).

Definition StringField_Get (fld : StringField) : M mem (list Init.Byte.byte) :=
  let! bs := load (str_lenOffset fld) 4 in
  let length := i32 (le_combine bs) in
  if length <? 0 then panic "makeslice: len out of range"
  else load (str_dataOffset fld) (Z.to_nat length).

Definition StringField_Set (fld : StringField) (value : list Init.Byte.byte) (size : Z)
  : M mem Z :=
  let length := i32 (zlen value) in
  let! bs := load (str_lenOffset fld) 4 in
  let prevLen := i32 (le_combine bs) in
  store (str_lenOffset fld) (le_split 4 length) ;;;
  match value with
  | [] => panic "index out of range [0] with length 0"
  | _ =>
      store (str_dataOffset fld) (sub_list 0 (Z.to_nat length) value) ;;;
      ret (size - prevLen + length)
  end.

(** ** Raw data *)

Definition RawDataField : Type := Buffer.
Definition RawDataField_Wrap (buffer : Buffer) (offset length : Z) : M mem (RawDataField * Z) :=
  ret (Buffer_Wrap (ptr_add (Ptr buffer) offset) length, length).
Definition RawDataField_Get (f : RawDataField) : Buffer := f.

(** The padding's size: from [offset] to the last [alignment] boundary at or before
    [offset + size]. *)
Definition Padding_length (offset size alignment : Z) : Z :=
  let maxLength := i32 (i32 offset + size) in
  let newLen := i32 (i32 (maxLength - Z.rem maxLength alignment) - i32 offset) in
  if newLen <? 0 then i32 (newLen + alignment) else newLen.

Definition Padding_Wrap (buffer : Buffer) (offset size alignment : Z) : M mem (RawDataField * Z) :=
  if alignment =? 0 then panic "integer divide by zero"
  else RawDataField_Wrap buffer offset (Padding_length offset size alignment).

Record LengthAndRawDataField : Type :=
  mkLengthAndRawDataField { lrd_lenOffset : Z; lrd_buf : Buffer }.

Definition lrd_Length (lenOffset : Z) : M mem Z :=
  let! bs := load lenOffset 4 in ret (i32 (le_combine bs)).
Definition LengthAndRawDataField_Length (fld : LengthAndRawDataField) : M mem Z :=
  lrd_Length (lrd_lenOffset fld).
Definition LengthAndRawDataField_SetLength (fld : LengthAndRawDataField) (length : Z) : M mem unit :=
  store (lrd_lenOffset fld) (le_split 4 length).

Definition LengthAndRawDataField_Wrap (buffer : Buffer) (rawOffset : Z)
  : M mem (LengthAndRawDataField * Z) :=
  let offset := AlignInt32 (i32 rawOffset) 4 in
  let offsetAdjustment := offset - rawOffset in
  BoundsCheck offset 4 (Capacity buffer) ;;;
  let lenOffset := ptr_add (Ptr buffer) offset in
  let! len := lrd_Length lenOffset in
  BoundsCheck (i32 (offset + 4)) len (Capacity buffer) ;;;
  let ptr := ptr_add (Ptr buffer) (i32 (offset + 4)) in
  let buf := Buffer_Wrap ptr (i32 (Capacity buffer - offset)) in
  ret (mkLengthAndRawDataField lenOffset buf, 4 + len + offsetAdjustment).

Definition LengthAndRawDataField_CopyBuffer (fld : LengthAndRawDataField) (buffer : Buffer)
  (offset length : Z) : M mem unit :=
  LengthAndRawDataField_SetLength fld length ;;;
  PutBytes (lrd_buf fld) 0 buffer offset length.

Definition LengthAndRawDataField_CopyString (fld : LengthAndRawDataField)
  (data : list Init.Byte.byte) : M mem unit :=
  LengthAndRawDataField_SetLength fld (i32 (zlen data)) ;;;
  PutBytesArray (lrd_buf fld) 0 data 0 (i32 (zlen data)).

Definition LengthAndRawDataField_GetAsBuffer (fld : LengthAndRawDataField) : Buffer := lrd_buf fld.

Definition LengthAndRawDataField_GetAsASCII (fld : LengthAndRawDataField)
  : M mem (list Init.Byte.byte) :=
  let! len := LengthAndRawDataField_Length fld in
  if len <? 0 then panic "makeslice: len out of range"
  else GetBytes (lrd_buf fld) 0 (Z.to_nat len).

(** ** The effect of the fields *)

Definition f32_ok (m : mem) (f : Int32Field) : Prop := region_ok m (f32_offset f) 4.
Definition f64_ok (m : mem) (f : Int64Field) : Prop := region_ok m (f64_offset f) 8.
Definition f32_val (m : mem) (f : Int32Field) : Z := rd_i32 m (f32_offset f).
Definition f64_val (m : mem) (f : Int64Field) : Z := rd_i64 m (f64_offset f).

Lemma f32_ok_wr m f a bs : f32_ok m f -> f32_ok (wr m a bs) f.
Proof. apply region_ok_wr. Qed.
Lemma f64_ok_wr m f a bs : f64_ok m f -> f64_ok (wr m a bs) f.
Proof. apply region_ok_wr. Qed.

Lemma Int32Field_Get_ok m f : f32_ok m f -> Int32Field_Get f m = Ret (f32_val m f) m.
Proof. intros H. unfold Int32Field_Get. by erewrite bind_Ret by (eapply load_ok; [exact H|lia]). Qed.

Lemma Int64Field_Get_ok m f : f64_ok m f -> Int64Field_Get f m = Ret (f64_val m f) m.
Proof. intros H. unfold Int64Field_Get. by erewrite bind_Ret by (eapply load_ok; [exact H|lia]). Qed.

Lemma Int32Field_Set_ok m f v :
  f32_ok m f -> Int32Field_Set f v m = Ret tt (wr m (f32_offset f) (le_split 4 v)).
Proof. intros H. eapply store_ok; [exact H|]. by rewrite zlen_le_split. Qed.

Lemma Int64Field_Set_ok m f v :
  f64_ok m f -> Int64Field_Set f v m = Ret tt (wr m (f64_offset f) (le_split 8 v)).
Proof. intros H. eapply store_ok; [exact H|]. by rewrite zlen_le_split. Qed.

#[export] Hint Resolve f32_ok_wr f64_ok_wr Int32Field_Get_ok Int64Field_Get_ok
  Int32Field_Set_ok Int64Field_Set_ok : m_ok.

Lemma Int64Field_GetAndAdd_ok m f v :
  f64_ok m f ->
  Int64Field_GetAndAddInt64 f v m
  = Ret (f64_val m f) (wr m (f64_offset f) (le_split 8 (i64 (f64_val m f + v)))).
Proof.
  intros H. unfold Int64Field_GetAndAddInt64. do 2 mstep. unfold ret. f_equal.
  rewrite i64_add_sub. apply i64_small, i64_range.
Qed.

Lemma Int32Field_CAS_ok m f old new :
  f32_ok m f ->
  Int32Field_CAS f old new m =
  if decide (f32_val m f = old) then Ret true (wr m (f32_offset f) (le_split 4 new)) else Ret false m.
Proof.
  intros H. unfold Int32Field_CAS. mstep. case_decide as E.
  - rewrite (proj2 (Z.eqb_eq _ _) E). by mstep.
  - by rewrite (proj2 (Z.eqb_neq _ _) E).
Qed.

Lemma Int64Field_CAS_ok m f old new :
  f64_ok m f ->
  Int64Field_CAS f old new m =
  if decide (f64_val m f = old) then Ret true (wr m (f64_offset f) (le_split 8 new)) else Ret false m.
Proof.
  intros H. unfold Int64Field_CAS. mstep. case_decide as E.
  - rewrite (proj2 (Z.eqb_eq _ _) E). by mstep.
  - by rewrite (proj2 (Z.eqb_neq _ _) E).
Qed.

(** ** Strings and raw data in memory *)

Lemma Int32Field_Wrap_ok m b off :
  buf_ok m b -> 0 <= off -> off + 4 <= buf_length b ->
  Int32Field_Wrap b off m = Ret (mkInt32Field (bufferPtr b + off), 4) m.
Proof.
  intros Hb ? ?. pose proof (buf_ok_length _ _ Hb). unfold Int32Field_Wrap. wrap_simpl.
  erewrite bind_Ret by (apply BoundsCheck_pass; unfold Capacity; lia).
  unfold Ptr. by rewrite (ptr_add_ok m b off 4) by (done || lia).
Qed.

Lemma Int64Field_Wrap_ok m b off :
  buf_ok m b -> 0 <= off -> off + 8 <= buf_length b ->
  Int64Field_Wrap b off m = Ret (mkInt64Field (bufferPtr b + off), 8) m.
Proof.
  intros Hb ? ?. pose proof (buf_ok_length _ _ Hb). unfold Int64Field_Wrap. wrap_simpl.
  erewrite bind_Ret by (apply BoundsCheck_pass; unfold Capacity; lia).
  unfold Ptr. by rewrite (ptr_add_ok m b off 8) by (done || lia).
Qed.

#[export] Hint Resolve Int32Field_Wrap_ok Int64Field_Wrap_ok : m_ok.

(** Wrapping a string at an aligned offset where its length is [l]. *)
Lemma StringField_Wrap_ok m b off :
  let l := rd_i32 m (bufferPtr b + off) in
  buf_ok m b -> 0 <= off -> off mod 4 = 0 -> 0 <= l -> off + 4 + l <= buf_length b ->
  StringField_Wrap b off true m =
  Ret (mkStringField (bufferPtr b + off) (ptr_add (bufferPtr b) (off + 4)), 4 + l) m.
Proof.
  intros l Hb Hoff Hal Hl Hin. pose proof (buf_ok_length _ _ Hb). unfold StringField_Wrap.
  rewrite (i32_small off) by lia. rewrite AlignInt32_4 by lia. rewrite align_up_id by (done || lia).
  erewrite bind_Ret by (apply BoundsCheck_pass; unfold Capacity; lia).
  unfold Ptr. rewrite (ptr_add_ok m b off 4) by (done || lia).
  erewrite bind_Ret.
  2: { apply (load_ok _ _ 4); [eapply region_ok_sub; [apply Hb|..]|]; lia. }
  change (i32 (le_combine (rd m (bufferPtr b + off) 4))) with l.
  rewrite (i32_small (off + 4)) by lia.
  erewrite bind_Ret by (apply BoundsCheck_pass; unfold Capacity; lia).
  unfold ret. do 2 f_equal. lia.
Qed.

(** A string field in a buffer: its length and its bytes. *)
Definition string_in (m : mem) (b : Buffer) (off : Z) (s : list Init.Byte.byte) : Prop :=
  rd_i32 m (bufferPtr b + off) = zlen s /\ rd m (bufferPtr b + off + 4) (length s) = s /\
  off + 4 + zlen s <= buf_length b.

Definition string_field (b : Buffer) (off : Z) : StringField :=
  mkStringField (bufferPtr b + off) (ptr_add (bufferPtr b) (off + 4)).

Lemma load_rd m b off n :
  buf_ok m b -> 0 <= off -> off + Z.of_nat n <= buf_length b ->
  load (ptr_add (bufferPtr b) off) n m = Ret (rd m (bufferPtr b + off) n) m.
Proof.
  intros Hb ? ?. destruct n as [|n]; [done|].
  rewrite (ptr_add_ok m b off (Z.of_nat (S n))) by (done || lia).
  apply (load_ok _ _ (Z.of_nat (S n))); [eapply region_ok_sub; [apply Hb|..]|]; lia.
Qed.

Lemma StringField_Get_ok m b off s :
  buf_ok m b -> 0 <= off -> string_in m b off s ->
  StringField_Get (string_field b off) m = Ret s m.
Proof.
  intros Hb Hoff (Hl & Hd & Hin). pose proof (zlen_nonneg s). unfold StringField_Get, string_field.
  cbn [str_lenOffset str_dataOffset].
  erewrite bind_Ret by (apply (load_ok _ _ 4); [eapply region_ok_sub; [apply Hb|..]|]; lia).
  change (i32 (le_combine _)) with (rd_i32 m (bufferPtr b + off)). rewrite Hl.
  rewrite (proj2 (Z.ltb_ge _ _)) by lia.
  rewrite load_rd by (done || unfold zlen in *; lia).
  unfold zlen. rewrite Nat2Z.id, Z.add_assoc. by rewrite Hd.
Qed.

(** Setting a string that fits where the length was zero. *)
Lemma StringField_Set_ok m b off s size :
  buf_ok m b -> 0 <= off -> off + 4 + zlen s <= buf_length b -> s <> [] ->
  rd_i32 m (bufferPtr b + off) = 0 ->
  StringField_Set (string_field b off) s size m =
  Ret (size + zlen s) (wr (wr m (bufferPtr b + off) (le_split 4 (zlen s))) (bufferPtr b + off + 4) s).
Proof.
  intros Hb Hoff Hin Hne Hl. pose proof (zlen_nonneg s). pose proof (buf_ok_length _ _ Hb).
  unfold StringField_Set, string_field. cbn [str_lenOffset str_dataOffset].
  rewrite i32_small by lia.
  erewrite bind_Ret by (apply (load_ok _ _ 4); [eapply region_ok_sub; [apply Hb|..]|]; lia).
  change (i32 (le_combine _)) with (rd_i32 m (bufferPtr b + off)). rewrite Hl.
  erewrite bind_Ret by (apply (store_ok _ _ 4); [eapply region_ok_sub; [apply Hb|..]|rewrite zlen_le_split]; lia).
  assert (0 < zlen s) by (destruct s; [done|unfold zlen; simpl; lia]).
  destruct s as [|x s0] eqn:E; [done|]. rewrite <- E in *. clear E x s0.
  replace (sub_list 0 (Z.to_nat (zlen s)) s) with s
    by (unfold sub_list; rewrite drop_0, take_ge; [done|unfold zlen; lia]).
  rewrite (ptr_add_ok m b (off + 4) (zlen s)) by (done || lia). rewrite Z.add_assoc.
  erewrite bind_Ret.
  2: { eapply (store_ok _ _ (zlen s)); [|lia]. apply region_ok_wr.
       eapply region_ok_sub; [apply Hb|..]; lia. }
  unfold ret. f_equal. lia.
Qed.

(** Wrapping raw data at any offset: its length is at the next aligned one. The data's
    buffer claims four bytes more than there are. *)
Definition data_field (b : Buffer) (off : Z) : LengthAndRawDataField :=
  mkLengthAndRawDataField (bufferPtr b + off) (mkBuffer (ptr_add (bufferPtr b) (off + 4)) (buf_length b - off)).

Lemma lrd_Length_ok m a : region_ok m a 4 -> lrd_Length a m = Ret (rd_i32 m a) m.
Proof. intros Hr. unfold lrd_Length. by erewrite bind_Ret by (apply (load_ok _ _ 4); [exact Hr|lia]). Qed.

Lemma LengthAndRawDataField_Wrap_ok m b raw :
  let off := align_up raw 4 in
  let l := rd_i32 m (bufferPtr b + off) in
  buf_ok m b -> 0 <= raw -> 0 <= l -> off + 4 + l <= buf_length b ->
  LengthAndRawDataField_Wrap b raw m = Ret (data_field b off, 4 + l + (off - raw)) m.
Proof.
  intros off l Hb Hraw Hl Hin. pose proof (buf_ok_length _ _ Hb).
  pose proof (align_up_spec raw 4 ltac:(lia)) as [? _]. fold off in H0.
  unfold LengthAndRawDataField_Wrap. rewrite (i32_small raw), AlignInt32_4 by lia. fold off.
  erewrite bind_Ret by (apply BoundsCheck_pass; unfold Capacity; lia).
  unfold Ptr. rewrite (ptr_add_ok m b off 4) by (done || lia).
  erewrite bind_Ret by (apply lrd_Length_ok; eapply region_ok_sub; [apply Hb|lia..]). fold l.
  rewrite (i32_small (off + 4)) by lia.
  erewrite bind_Ret by (apply BoundsCheck_pass; unfold Capacity; lia).
  unfold Capacity. rewrite i32_small by lia. done.
Qed.

