(* ===== verification/MarkFile.v ===== *)
(** * The mark file of a service container

    cluster/mark_file.go and mark_file_header_flyweight.go: a mapped file by which others see
    that a container is there; its header, and how it is filled in by the constructor of the
    agent. The version is what tells that the rest can be read. *)

From S2P Require Import Prelude Memory Bits Flyweight.

Local Open Scope m_scope.

Definition HeaderLength : Z := 8 * 1024.
Definition ErrorBufferLength : Z := 1024 * 1024.

Record MarkFileHeaderFlyweight : Type := mkMarkFileHeader {
  mf_Version : Int32Field;
  mf_ComponentType : Int32Field;
  mf_ActivityTimestamp : Int64Field;
  mf_StartTimestamp : Int64Field;
  mf_Pid : Int64Field;
  mf_CandidateTermId : Int64Field;
  mf_ArchiveStreamId : Int32Field;
  mf_ServiceStreamId : Int32Field;
  mf_ConsensusModuleStreamId : Int32Field;
  mf_IngressStreamId : Int32Field;
  mf_MemberId : Int32Field;
  mf_ServiceId : Int32Field;
  mf_HeaderLength : Int32Field;
  mf_ErrorBufferLength : Int32Field;
  mf_ClusterId : Int32Field;
  mf_size : Z }.

Definition MarkFileHeaderFlyweight_Wrap (buf : Buffer) (offset : Z) : M mem MarkFileHeaderFlyweight :=
  let pos := offset in
  let! (version, n) := Int32Field_Wrap buf pos in let pos := pos + n in
  let! (componentType, n) := Int32Field_Wrap buf pos in let pos := pos + n in
  let! (activity, n) := Int64Field_Wrap buf pos in let pos := pos + n in
  let! (start, n) := Int64Field_Wrap buf pos in let pos := pos + n in
  let! (pid, n) := Int64Field_Wrap buf pos in let pos := pos + n in
  let! (candidate, n) := Int64Field_Wrap buf pos in let pos := pos + n in
  let! (archiveStream, n) := Int32Field_Wrap buf pos in let pos := pos + n in
  let! (serviceStream, n) := Int32Field_Wrap buf pos in let pos := pos + n in
  let! (consensusStream, n) := Int32Field_Wrap buf pos in let pos := pos + n in
  let! (ingressStream, n) := Int32Field_Wrap buf pos in let pos := pos + n in
  let! (memberId, n) := Int32Field_Wrap buf pos in let pos := pos + n in
  let! (serviceId, n) := Int32Field_Wrap buf pos in let pos := pos + n in
  let! (headerLength, n) := Int32Field_Wrap buf pos in let pos := pos + n in
  let! (errorLength, n) := Int32Field_Wrap buf pos in let pos := pos + n in
  let! (clusterId, n) := Int32Field_Wrap buf pos in
  ret (mkMarkFileHeader version componentType activity start pid candidate archiveStream serviceStream consensusStream
         ingressStream memberId serviceId headerLength errorLength clusterId (HeaderLength + ErrorBufferLength)).

Record ClusterMarkFile : Type := mkMarkFile { cmf_buffer : Buffer; cmf_flyweight : MarkFileHeaderFlyweight }.

(** [map_file] is the new file of the given size that was mapped, if that succeeds; [pid] and
    [now] are the process and the time. *)
Definition NewClusterMarkFile (map_file : option Z) (pid now : Z) : M mem (option ClusterMarkFile) :=
  match map_file with
  | None => ret None
  | Some ptr =>
      let b := Buffer_Wrap ptr (HeaderLength + ErrorBufferLength) in
      let! fly := MarkFileHeaderFlyweight_Wrap b 0 in
      Int64Field_Set (mf_CandidateTermId fly) (-1) ;;;
      Int32Field_Set (mf_ComponentType fly) 2 ;;;
      Int32Field_Set (mf_HeaderLength fly) HeaderLength ;;;
      Int32Field_Set (mf_ErrorBufferLength fly) ErrorBufferLength ;;;
      Int64Field_Set (mf_Pid fly) pid ;;;
      Int64Field_Set (mf_StartTimestamp fly) now ;;;
      ret (Some (mkMarkFile b fly))
  end.

Definition SignalReady (cmf : ClusterMarkFile) : M mem unit :=
  PutInt32Ordered (cmf_buffer cmf) 0 (i32 (SemanticVersionCompose 0 3 0)).

Definition SignalFailedStart (cmf : ClusterMarkFile) : M mem unit := Int32Field_Set (mf_Version (cmf_flyweight cmf)) (-1).

Definition UpdateActivityTimestamp (cmf : ClusterMarkFile) (timestamp : Z) : M mem unit :=
  Int64Field_Set (mf_ActivityTimestamp (cmf_flyweight cmf)) timestamp.

(** What the options of a container put into the mark file. *)
Record mark_options : Type := mkMarkOptions {
  mo_archiveStream : Z; mo_serviceStream : Z; mo_consensusStream : Z; mo_serviceId : Z; mo_clusterId : Z }.

(** The end of [NewClusteredServiceAgent]. *)
Definition mark_agent (cmf : ClusterMarkFile) (o : mark_options) (now : Z) : M mem unit :=
  let fly := cmf_flyweight cmf in
  Int32Field_Set (mf_ArchiveStreamId fly) (mo_archiveStream o) ;;;
  Int32Field_Set (mf_ServiceStreamId fly) (mo_serviceStream o) ;;;
  Int32Field_Set (mf_ConsensusModuleStreamId fly) (mo_consensusStream o) ;;;
  Int32Field_Set (mf_IngressStreamId fly) (-1) ;;;
  Int32Field_Set (mf_MemberId fly) (-1) ;;;
  Int32Field_Set (mf_ServiceId fly) (mo_serviceId o) ;;;
  Int32Field_Set (mf_ClusterId fly) (mo_clusterId o) ;;;
  UpdateActivityTimestamp cmf now ;;;
  SignalReady cmf.

(** [joinActiveLog] *)
Definition mark_member (cmf : ClusterMarkFile) (memberId : Z) : M mem unit := Int32Field_Set (mf_MemberId (cmf_flyweight cmf)) memberId.

(** ** The header *)

(** What is in the header besides the version, at the addresses where others look for it. *)
Definition marked (m : mem) (ptr : Z) (o : mark_options) (pid started active : Z) : Prop :=
  rd_i32 m (ptr + 4) = 2 /\ rd_i64 m (ptr + 8) = active /\ rd_i64 m (ptr + 16) = started /\ rd_i64 m (ptr + 24) = pid /\
  rd_i64 m (ptr + 32) = -1 /\ rd_i32 m (ptr + 40) = mo_archiveStream o /\ rd_i32 m (ptr + 44) = mo_serviceStream o /\
  rd_i32 m (ptr + 48) = mo_consensusStream o /\ rd_i32 m (ptr + 52) = -1 /\ rd_i32 m (ptr + 56) = -1 /\
  rd_i32 m (ptr + 60) = mo_serviceId o /\ rd_i32 m (ptr + 64) = HeaderLength /\ rd_i32 m (ptr + 68) = ErrorBufferLength /\
  rd_i32 m (ptr + 72) = mo_clusterId o.

Definition mark_options_ok (o : mark_options) : Prop :=
  is_i32 (mo_archiveStream o) /\ is_i32 (mo_serviceStream o) /\ is_i32 (mo_consensusStream o) /\ is_i32 (mo_serviceId o) /\ is_i32 (mo_clusterId o).

Section Header.
Context (ptr : Z).
Local Abbreviation size := (HeaderLength + ErrorBufferLength).

Definition mark_layout : MarkFileHeaderFlyweight :=
  mkMarkFileHeader (mkInt32Field ptr) (mkInt32Field (ptr + 4)) (mkInt64Field (ptr + 8)) (mkInt64Field (ptr + 16))
    (mkInt64Field (ptr + 24)) (mkInt64Field (ptr + 32)) (mkInt32Field (ptr + 40)) (mkInt32Field (ptr + 44)) (mkInt32Field (ptr + 48))
    (mkInt32Field (ptr + 52)) (mkInt32Field (ptr + 56)) (mkInt32Field (ptr + 60)) (mkInt32Field (ptr + 64)) (mkInt32Field (ptr + 68))
    (mkInt32Field (ptr + 72)) size.

Lemma mark_wrap m : buf_ok m (mkBuffer ptr size) -> MarkFileHeaderFlyweight_Wrap (mkBuffer ptr size) 0 m = Ret mark_layout m.
Proof using Type.
  intros Hb. unfold MarkFileHeaderFlyweight_Wrap.
  repeat (cbv beta iota zeta; first
    [ erewrite bind_Ret by (apply Int32Field_Wrap_ok; [exact Hb|cbn; lia|cbn; unfold HeaderLength, ErrorBufferLength; lia])
    | erewrite bind_Ret by (apply Int64Field_Wrap_ok; [exact Hb|cbn; lia|cbn; unfold HeaderLength, ErrorBufferLength; lia]) ]).
  unfold mark_layout, ret. cbn [bufferPtr]. repeat (f_equal; try lia).
Qed.

(** A field of the header is set. *)
Lemma set32 m o v : region_ok m ptr size -> 0 <= o -> o + 4 <= 76 ->
  Int32Field_Set (mkInt32Field (ptr + o)) v m = Ret tt (wr m (ptr + o) (le_split 4 v)).
Proof using Type.
  intros Hr ? ?. apply Int32Field_Set_ok. eapply region_ok_sub; [exact Hr|..]; cbn; unfold HeaderLength, ErrorBufferLength; lia.
Qed.
Lemma set64 m o v : region_ok m ptr size -> 0 <= o -> o + 8 <= 76 ->
  Int64Field_Set (mkInt64Field (ptr + o)) v m = Ret tt (wr m (ptr + o) (le_split 8 v)).
Proof using Type.
  intros Hr ? ?. apply Int64Field_Set_ok. eapply region_ok_sub; [exact Hr|..]; cbn; unfold HeaderLength, ErrorBufferLength; lia.
Qed.
End Header.

(** Reads behind a number of writes to other fields. *)
Ltac read_back :=
  repeat first
    [ rewrite rd_i32_wr by done | rewrite rd_i64_wr by done
    | rewrite rd_i32_disj by (rewrite zlen_le_split; lia) | rewrite rd_i64_disj by (rewrite zlen_le_split; lia) ].

Ltac set_fields :=
  repeat first
    [ erewrite bind_Ret by (apply set32; [repeat apply region_ok_wr; assumption|lia|lia])
    | erewrite bind_Ret by (apply set64; [repeat apply region_ok_wr; assumption|lia|lia]) ].

(** What is written, in order. *)
Definition made (ptr pid started : Z) (m : mem) : mem :=
  wr (wr (wr (wr (wr (wr m (ptr + 32) (le_split 8 (-1))) (ptr + 4) (le_split 4 2)) (ptr + 64) (le_split 4 HeaderLength))
    (ptr + 68) (le_split 4 ErrorBufferLength)) (ptr + 24) (le_split 8 pid)) (ptr + 16) (le_split 8 started).

Definition filled (ptr : Z) (o : mark_options) (active : Z) (m : mem) : mem :=
  wr (wr (wr (wr (wr (wr (wr (wr m (ptr + 40) (le_split 4 (mo_archiveStream o))) (ptr + 44) (le_split 4 (mo_serviceStream o)))
    (ptr + 48) (le_split 4 (mo_consensusStream o))) (ptr + 52) (le_split 4 (-1))) (ptr + 56) (le_split 4 (-1)))
    (ptr + 60) (le_split 4 (mo_serviceId o))) (ptr + 72) (le_split 4 (mo_clusterId o))) (ptr + 8) (le_split 8 active).

Definition the_mark (ptr : Z) : ClusterMarkFile := mkMarkFile (mkBuffer ptr (HeaderLength + ErrorBufferLength)) (mark_layout ptr).

Section Announce.
Context (ptr : Z) (Htop : 0 <= ptr /\ ptr + (HeaderLength + ErrorBufferLength) < 18446744073709551616).

Lemma mark_buf_ok m : region_ok m ptr (HeaderLength + ErrorBufferLength) -> buf_ok m (mkBuffer ptr (HeaderLength + ErrorBufferLength)).
Proof using Htop. intros Hr. split; cbn; [done|unfold HeaderLength, ErrorBufferLength in *; lia]. Qed.

Lemma NewClusterMarkFile_ok m pid started :
  region_ok m ptr (HeaderLength + ErrorBufferLength) ->
  NewClusterMarkFile (Some ptr) pid started m = Ret (Some (the_mark ptr)) (made ptr pid started m).
Proof using Htop.
  intros Hr. unfold NewClusterMarkFile, Buffer_Wrap. erewrite bind_Ret by (apply mark_wrap, mark_buf_ok, Hr).
  cbn [mf_CandidateTermId mf_ComponentType mf_HeaderLength mf_ErrorBufferLength mf_Pid mf_StartTimestamp mark_layout]. set_fields. reflexivity.
Qed.

Lemma mark_agent_ok m o active :
  region_ok m ptr (HeaderLength + ErrorBufferLength) ->
  mark_agent (the_mark ptr) o active m = SignalReady (the_mark ptr) (filled ptr o active m).
Proof using Htop.
  intros Hr. unfold mark_agent, UpdateActivityTimestamp.
  cbn [the_mark cmf_flyweight mf_ArchiveStreamId mf_ServiceStreamId mf_ConsensusModuleStreamId mf_IngressStreamId mf_MemberId mf_ServiceId
    mf_ClusterId mf_ActivityTimestamp mark_layout]. set_fields. reflexivity.
Qed.

Lemma SignalReady_ok m :
  region_ok m ptr (HeaderLength + ErrorBufferLength) ->
  SignalReady (the_mark ptr) m = Ret tt (wr m ptr (le_split 4 (SemanticVersionCompose 0 3 0))).
Proof using Htop.
  intros Hr. unfold SignalReady. cbn [the_mark cmf_buffer]. rewrite PutInt32Ordered_ok; [|by apply mark_buf_ok|cbn; lia|cbn; unfold HeaderLength, ErrorBufferLength; lia].
  cbn [bufferPtr]. by rewrite Z.add_0_r.
Qed.

Lemma marked_filled m o pid started active :
  is_i64 pid -> is_i64 started -> is_i64 active -> mark_options_ok o ->
  marked (filled ptr o active (made ptr pid started m)) ptr o pid started active.
Proof using Type. intros Hpid Hst Hact (Ha & Hs & Hc & Hsi & Hcl). unfold marked, filled, made. split_and!; by read_back. Qed.

Lemma marked_wr m o pid started active v :
  marked m ptr o pid started active -> marked (wr m ptr (le_split 4 v)) ptr o pid started active.
Proof using Type. unfold marked. intros Hm. by rewrite !rd_i32_disj, !rd_i64_disj by (rewrite zlen_le_split; lia). Qed.
End Announce.

(** The constructor of an agent on a new mark file: it returns, and writes to the header only;
    the version is the last thing that is written, so that whoever sees it sees the rest. *)
Theorem mark_file_announced m ptr o pid started active :
  region_ok m ptr (HeaderLength + ErrorBufferLength) -> 0 <= ptr /\ ptr + (HeaderLength + ErrorBufferLength) < 18446744073709551616 ->
  is_i64 pid -> is_i64 started -> is_i64 active -> mark_options_ok o ->
  exists cmf m1 mr m2,
    NewClusterMarkFile (Some ptr) pid started m = Ret (Some cmf) m1 /\ mark_agent cmf o active m1 = Ret tt m2 /\
    SignalReady cmf mr = Ret tt m2 /\ rd_i32 mr ptr = rd_i32 m ptr /\ marked mr ptr o pid started active /\
    rd_i32 m2 ptr = SemanticVersionCompose 0 3 0 /\ marked m2 ptr o pid started active /\ only_in m m2 ptr 76.
Proof.
  intros Hr Htop Hpid Hst Hact Ho.
  assert (region_ok (made ptr pid started m) ptr (HeaderLength + ErrorBufferLength)) as Hr1 by (by repeat apply region_ok_wr).
  assert (region_ok (filled ptr o active (made ptr pid started m)) ptr (HeaderLength + ErrorBufferLength)) as Hr2 by (by repeat apply region_ok_wr).
  pose proof (marked_filled ptr m o pid started active Hpid Hst Hact Ho) as Hm.
  eexists _, _, (filled ptr o active (made ptr pid started m)), _. split_and!.
  - by apply NewClusterMarkFile_ok.
  - rewrite mark_agent_ok by done. by apply SignalReady_ok.
  - by apply SignalReady_ok.
  - unfold filled, made. by read_back.
  - exact Hm.
  - apply rd_i32_wr. done.
  - by apply marked_wr.
  - unfold filled, made. repeat (apply only_in_wr_chain; [|lia|rewrite zlen_le_split; lia]). apply only_in_refl.
Qed.
