(* ===== verification/RingBuffer.v ===== *)
(** * The many-to-one ring buffer

    src/aeron/ringbuffer: the buffer through which every thread of every client sends
    commands to the media driver. Producers claim space by moving the tail with a
    compare-and-swap, then write their record, its length last; the driver consumes
    records and moves the head. Positions only grow; the capacity is a power of two, so
    the low bits of a position are its index. *)

From S2P Require Import Prelude Memory Bits.

Local Open Scope m_scope.

(** ** recorddesc.go *)

Module RecordDescriptor.
Definition HeaderLength : Z := 8.
Definition RecordAlignment : Z := 8.
Definition PaddingMsgTypeID : Z := -1.
End RecordDescriptor.

Definition LengthOffset (recordOffset : Z) : Z := recordOffset.
Definition TypeOffset (recordOffset : Z) : Z := i32 (recordOffset + 4).
Definition EncodedMsgOffset (recordOffset : Z) : Z := i32 (recordOffset + RecordDescriptor.HeaderLength).

Definition makeHeader (length msgTypeID : Z) : Z :=
  Z.lor (i64 (Z.shiftl (Z.land msgTypeID 0xFFFFFFFF) 32)) (Z.land length 0xFFFFFFFF).

Definition checkMsgTypeID (msgTypeID : Z) : M mem unit :=
  if msgTypeID <? 1 then panic "Message type id must be greater than zero" else ret tt.

(** ** manytoone.go *)

Definition insufficientCapacity : Z := -2.

Module descriptor.
Definition tailPositionOffset : Z := CacheLineLength * 2.
Definition headCachePositionOffset : Z := CacheLineLength * 4.
Definition headPositionOffset : Z := CacheLineLength * 6.
Definition correlationCounterOffset : Z := CacheLineLength * 8.
Definition consumerHeartbeatOffset : Z := CacheLineLength * 10.
Definition trailerLength : Z := CacheLineLength * 12.
End descriptor.

Record ManyToOne : Type := mkManyToOne {
  rb_buffer : Buffer;
  rb_capacity : Z;
  rb_maxMsgLength : Z;
  headPositionIndex : Z;
  headCachePositionIndex : Z;
  tailPositionIndex : Z;
  correlationIDCounterIndex : Z;
  consumerHeartbeatIndex : Z }.

(** The result of the power-of-two test is not used. *)
Definition ManyToOne_Init (buffer : Buffer) : M mem ManyToOne :=
  let capacity := i32 (Capacity buffer - descriptor.trailerLength) in
  if capacity <=? 0 then panic "Undelying buffer capacity is infufficient"
  else
    let _ := IsPowerOfTwo capacity in
    ret {| rb_buffer := buffer;
           rb_capacity := capacity;
           rb_maxMsgLength := Z.quot capacity 8;
           headPositionIndex := i32 (capacity + descriptor.headPositionOffset);
           headCachePositionIndex := i32 (capacity + descriptor.headCachePositionOffset);
           tailPositionIndex := i32 (capacity + descriptor.tailPositionOffset);
           correlationIDCounterIndex := i32 (capacity + descriptor.correlationCounterOffset);
           consumerHeartbeatIndex := i32 (capacity + descriptor.consumerHeartbeatOffset) |}.

Definition NextCorrelationID (rb : ManyToOne) : M mem Z :=
  GetAndAddInt64 (rb_buffer rb) (correlationIDCounterIndex rb) 1.
Definition ConsumerHeartbeatTime (rb : ManyToOne) : M mem Z :=
  GetInt64Volatile (rb_buffer rb) (consumerHeartbeatIndex rb).
Definition setConsumerHeartbeatTime (rb : ManyToOne) (time : Z) : M mem unit :=
  PutInt64Ordered (rb_buffer rb) (consumerHeartbeatIndex rb) time.
Definition producerPosition (rb : ManyToOne) : M mem Z :=
  GetInt64Volatile (rb_buffer rb) (tailPositionIndex rb).
Definition consumerPosition (rb : ManyToOne) : M mem Z :=
  GetInt64Volatile (rb_buffer rb) (headPositionIndex rb).

(** The first test of a round, against the head known so far: [Some head'] goes on with
    the head that is known then, [None] is insufficient capacity. *)
Definition check_available (rb : ManyToOne) (requiredCapacity tail head : Z) : M mem (option Z) :=
  let availableCapacity := i32 (rb_capacity rb - i32 (i64 (tail - head))) in
  if requiredCapacity >? availableCapacity then
    let! head := GetInt64Volatile (rb_buffer rb) (headPositionIndex rb) in
    if requiredCapacity >? i32 (rb_capacity rb - i32 (i64 (tail - head))) then ret None
    else
      PutInt64Ordered (rb_buffer rb) (headCachePositionIndex rb) head ;;;
      ret (Some head)
  else ret (Some head).

(** The second: a record that would cross the end of the buffer goes to its start, behind
    a padding record, if the head leaves room there. *)
Definition check_wrap (rb : ManyToOne) (requiredCapacity tailIndex head : Z)
  : M mem (option (Z * Z)) :=
  let mask := i32 (rb_capacity rb - 1) in
  let toBufferEndLength := i32 (rb_capacity rb - tailIndex) in
  if requiredCapacity >? toBufferEndLength then
    let headIndex := i32 (Z.land head mask) in
    if requiredCapacity >? headIndex then
      let! head := GetInt64Volatile (rb_buffer rb) (headPositionIndex rb) in
      let headIndex := i32 (Z.land head mask) in
      if requiredCapacity >? headIndex then ret None
      else
        PutInt64Ordered (rb_buffer rb) (headCachePositionIndex rb) head ;;;
        ret (Some (head, toBufferEndLength))
    else ret (Some (head, toBufferEndLength))
  else ret (Some (head, 0)).

(** The loop of [claimCapacity]: the tail and the padding of a successful swap. Between
    the read and the swap of an uninterrupted run the tail cannot change, so one round is
    enough; the fuel allows more. *)
Fixpoint claim_loop (fuel : nat) (rb : ManyToOne) (requiredCapacity head : Z)
  : M mem (option (Z * Z)) :=
  match fuel with
  | O => raise EFuel
  | S fuel' =>
      let mask := i32 (rb_capacity rb - 1) in
      let! tail := GetInt64Volatile (rb_buffer rb) (tailPositionIndex rb) in
      let! avail := check_available rb requiredCapacity tail head in
      match avail with
      | None => ret None
      | Some head =>
          let tailIndex := i32 (Z.land tail mask) in
          let! wrap := check_wrap rb requiredCapacity tailIndex head in
          match wrap with
          | None => ret None
          | Some (head, padding) =>
              let! swapped := CompareAndSetInt64 (rb_buffer rb) (tailPositionIndex rb) tail
                                (i64 (i64 (tail + requiredCapacity) + padding)) in
              if swapped then ret (Some (tailIndex, padding))
              else claim_loop fuel' rb requiredCapacity head
          end
      end
  end.

Definition claimCapacity (rb : ManyToOne) (requiredCapacity : Z) : M mem Z :=
  let! head := GetInt64Volatile (rb_buffer rb) (headCachePositionIndex rb) in
  let! claimed := claim_loop 2 rb requiredCapacity head in
  match claimed with
  | None => ret insufficientCapacity
  | Some (tailIndex, padding) =>
      if negb (0 =? padding) then
        PutInt64Ordered (rb_buffer rb) tailIndex
          (makeHeader padding RecordDescriptor.PaddingMsgTypeID) ;;;
        ret 0
      else ret tailIndex
  end.

Definition checkMsgLength (rb : ManyToOne) (length : Z) : M mem unit :=
  if length >? rb_maxMsgLength rb then panic "encoded message exceeds maxMsgLength" else ret tt.

Definition ManyToOne_Write (rb : ManyToOne) (msgTypeID : Z) (srcBuffer : Buffer) (srcIndex length : Z)
  : M mem bool :=
  checkMsgTypeID msgTypeID ;;;
  checkMsgLength rb length ;;;
  let recordLength := i32 (length + RecordDescriptor.HeaderLength) in
  let requiredCapacity := AlignInt32 recordLength RecordDescriptor.RecordAlignment in
  let! recordIndex := claimCapacity rb requiredCapacity in
  if negb (insufficientCapacity =? recordIndex) then
    PutInt64Ordered (rb_buffer rb) recordIndex (makeHeader (i32 (- recordLength)) msgTypeID) ;;;
    PutBytes (rb_buffer rb) (EncodedMsgOffset recordIndex) srcBuffer srcIndex length ;;;
    PutInt32Ordered (rb_buffer rb) (LengthOffset recordIndex) recordLength ;;;
    ret true
  else ret false.

(** ** Headers *)

(** A header is the length in the low and the type in the high four bytes. *)
Lemma makeHeader_bytes length msgTypeID :
  is_i32 length -> is_i32 msgTypeID ->
  le_split 8 (makeHeader length msgTypeID) = le_split 4 length ++ le_split 4 msgTypeID.
Proof.
  unfold is_i32. intros Hl Ht. unfold makeHeader.
  change 0xFFFFFFFF with (Z.ones 32). rewrite !Z.land_ones by lia. change (2 ^ 32) with 4294967296.
  pose proof (Z.mod_pos_bound length 4294967296 ltac:(lia)).
  pose proof (Z.mod_pos_bound msgTypeID 4294967296 ltac:(lia)).
  assert (Hi : i64 (Z.shiftl (msgTypeID mod 4294967296) 32) = Z.shiftl msgTypeID 32).
  { rewrite !Z.shiftl_mul_pow2 by lia. change (2 ^ 32) with 4294967296.
    unfold i64. destruct (decide (0 <= msgTypeID)).
    - rewrite (Z.mod_small msgTypeID), Z.mod_small; lia.
    - replace (msgTypeID mod 4294967296) with (msgTypeID + 4294967296) by dlia.
      replace ((msgTypeID + 4294967296) * 4294967296 + 9223372036854775808)
        with (msgTypeID * 4294967296 + 9223372036854775808 + 1 * 18446744073709551616) by lia.
      rewrite Z.mod_add, Z.mod_small; lia. }
  rewrite Hi, lor_shiftl_add by (change (2 ^ 32) with 4294967296; lia).
  change (2 ^ 32) with 4294967296.
  apply le_combine_inj; [by rewrite length_app, !length_le_split|].
  rewrite le_combine_split, le_combine_app, !le_combine_split, length_le_split.
  rewrite Z.lor_comm.
  change (2 ^ (Z.of_nat 8 * 8)) with 18446744073709551616. change (Z.of_nat 4 * 8) with 32.
  change (2 ^ 32) with 4294967296. rewrite lor_shiftl_add by (change (2 ^ 32) with 4294967296; lia).
  change (2 ^ 32) with 4294967296.
  rewrite (Z.mod_eq msgTypeID) by lia. set (q := msgTypeID / 4294967296).
  replace ((msgTypeID - 4294967296 * q) * 4294967296 + length mod 4294967296)
    with (msgTypeID * 4294967296 + length mod 4294967296 + - q * 18446744073709551616) by lia.
  rewrite <- (Z.mod_add _ (- q)) by lia. apply Z.mod_small.
  unfold q. dlia.
Qed.

(** ** What a claim may do *)

(** The padding that a claim needs, or [None] when there is no room: the specification of
    [claimCapacity], on the true head. *)
Definition claim_spec (cap head tail req : Z) : option Z :=
  if req >? cap - (tail - head) then None
  else if req >? cap - tail mod cap then
    if req >? head mod cap then None else Some (cap - tail mod cap)
  else Some 0.

(** By how much a claim moves the tail. *)
Definition claim_total (cap head tail req : Z) : Z :=
  match claim_spec cap head tail req with Some p => req + p | None => 0 end.

(** The index of the record once it is claimed. *)
Definition claim_index (cap tail padding : Z) : Z := if padding =? 0 then tail mod cap else 0.

(** A claim stays behind the head by a lap at most, and its record does not cross the end
    of the buffer. *)
Lemma claim_spec_fits cap head tail req p :
  0 < cap -> 0 <= head <= tail -> tail <= head + cap -> 0 < req <= cap ->
  claim_spec cap head tail req = Some p ->
  0 <= p /\ tail + req + p <= head + cap /\
  0 <= claim_index cap tail p /\ claim_index cap tail p + req <= cap /\
  (tail + p) mod cap = claim_index cap tail p /\
  (p = 0 \/ tail mod cap + p = cap).
Proof.
  unfold claim_spec, claim_index. intros Hc Hh Ht Hr.
  pose proof (Z.mod_pos_bound tail cap Hc). pose proof (Z.mod_pos_bound head cap Hc).
  destruct (Z.gtb_spec req (cap - (tail - head))); [done|].
  destruct (Z.gtb_spec req (cap - tail mod cap)) as [Hw|Hw].
  - destruct (Z.gtb_spec req (head mod cap)); [done|]. intros [= <-].
    rewrite (proj2 (Z.eqb_neq (cap - tail mod cap) 0)) by lia.
    pose proof (Z.div_mod tail cap ltac:(lia)). pose proof (Z.div_mod head cap ltac:(lia)).
    assert (Hlap : head / cap = tail / cap).
    { assert (head / cap <= tail / cap) by (apply Z.div_le_mono; lia).
      assert (tail / cap < head / cap + 1 \/ tail / cap = head / cap + 1) as [|Heq] by nia; [lia|].
      exfalso. nia. }
    assert (Hmod : (tail + (cap - tail mod cap)) mod cap = 0).
    { replace (tail + (cap - tail mod cap)) with ((tail / cap + 1) * cap) by lia.
      apply Z.mod_mul. lia. }
    rewrite Hlap in *. split_and!; lia.
  - intros [= <-]. rewrite Z.eqb_refl, !Z.add_0_r. split_and!; lia.
Qed.

(** ** Well-formed ring buffers *)

Record rb_ok (m : mem) (rb : ManyToOne) (head tail hc : Z) : Prop := {
  ro_buf : buf_ok m (rb_buffer rb);
  ro_cap : exists k, 6 <= k <= 29 /\ rb_capacity rb = 2 ^ k;
  ro_len : buf_length (rb_buffer rb) = rb_capacity rb + 768;
  ro_max : rb_maxMsgLength rb = rb_capacity rb / 8;
  ro_tailIx : tailPositionIndex rb = rb_capacity rb + 128;
  ro_cacheIx : headCachePositionIndex rb = rb_capacity rb + 256;
  ro_headIx : headPositionIndex rb = rb_capacity rb + 384;
  ro_tail : rd_i64 m (bufferPtr (rb_buffer rb) + (rb_capacity rb + 128)) = tail;
  ro_cache : rd_i64 m (bufferPtr (rb_buffer rb) + (rb_capacity rb + 256)) = hc;
  ro_head : rd_i64 m (bufferPtr (rb_buffer rb) + (rb_capacity rb + 384)) = head;
  ro_order : 0 <= hc <= head /\ head <= tail <= head + rb_capacity rb /\ tail < 4611686018427387904;
  ro_stale : tail - hc <= 2 * rb_capacity rb;
  ro_align : head mod 8 = 0 /\ tail mod 8 = 0 }.

Lemma rb_cap_range m rb head tail hc :
  rb_ok m rb head tail hc -> 64 <= rb_capacity rb <= 536870912 /\ rb_capacity rb mod 8 = 0 /\
  forall z, Z.land z (i32 (rb_capacity rb - 1)) = z mod rb_capacity rb.
Proof.
  intros Hrb. destruct (ro_cap _ _ _ _ _ Hrb) as (k & Hk & ->).
  assert (64 <= 2 ^ k) by (apply (Z.pow_le_mono_r 2 6); lia).
  assert (2 ^ k <= 536870912) by (apply (Z.pow_le_mono_r 2 _ 29); lia).
  split_and!; try lia.
  - replace k with (k - 3 + 3) by lia. rewrite Z.pow_add_r by lia. apply Z.mod_mul. lia.
  - intros z. rewrite i32_small by lia.
    replace (2 ^ k - 1) with (Z.ones k) by (rewrite Z.ones_equiv; lia). apply Z.land_ones. lia.
Qed.

Section Claim.
Context (m : mem) (rb : ManyToOne) (head tail hc : Z) (Hrb : rb_ok m rb head tail hc).

Local Abbreviation cap := (rb_capacity rb).
Local Abbreviation p0 := (bufferPtr (rb_buffer rb)).

Lemma trailer_get o : 0 <= o -> o + 8 <= 768 ->
  GetInt64Volatile (rb_buffer rb) (cap + o) m = Ret (rd_i64 m (p0 + (cap + o))) m.
Proof using Hrb.
  intros. pose proof (rb_cap_range _ _ _ _ _ Hrb) as [? _]. pose proof (ro_len _ _ _ _ _ Hrb).
  apply GetInt64Volatile_ok; [apply Hrb|lia..].
Qed.

(** Setting the head cache to any head between the old one and the true one. *)
Lemma set_cache h :
  hc <= h <= head ->
  let m' := wr m (p0 + (cap + 256)) (le_split 8 h) in
  PutInt64Ordered (rb_buffer rb) (headCachePositionIndex rb) h m = Ret tt m' /\
  rb_ok m' rb head tail h /\ only_in m m' (p0 + cap) 384.
Proof using Hrb.
  intros Hh m'. pose proof (rb_cap_range _ _ _ _ _ Hrb) as [? _].
  destruct Hrb as [Hb Hc Hl Hm H1 H2 H3 H4 H5 H6 (? & ? & ?) Hs Ha]. split_and!.
  - rewrite H2. apply PutInt64Ordered_ok; [done|lia..].
  - constructor; unfold m'; try done; [by apply buf_ok_wr|mem_simpl; done|apply rd_i64_wr|mem_simpl; done|lia..].
    unfold is_i64. lia.
  - apply only_in_wr; rewrite ?zlen_le_split; lia.
Qed.

Lemma head_available req h :
  0 <= h <= head -> tail - h <= 2 * cap -> 0 < req <= cap ->
  (req >? i32 (cap - i32 (i64 (tail - h)))) = (req >? cap - (tail - h)).
Proof using Hrb.
  intros. pose proof (rb_cap_range _ _ _ _ _ Hrb) as [? _].
  destruct (ro_order _ _ _ _ _ Hrb) as (? & ? & ?). wrap_simpl. done.
Qed.

Lemma check_available_ok req :
  0 < req <= cap ->
  if req >? cap - (tail - head) then check_available rb req tail hc m = Ret None m
  else exists h m', check_available rb req tail hc m = Ret (Some h) m' /\
       hc <= h <= head /\ req <= cap - (tail - h) /\
       rb_ok m' rb head tail h /\ only_in m m' (p0 + cap) 384.
Proof using Hrb.
  intros Hreq. destruct (ro_order _ _ _ _ _ Hrb) as (? & ? & ?). pose proof (ro_stale _ _ _ _ _ Hrb).
  unfold check_available. rewrite head_available by lia.
  destruct (Z.gtb_spec req (cap - (tail - hc))) as [Hg|Hg].
  - erewrite bind_Ret by (rewrite (ro_headIx _ _ _ _ _ Hrb); apply trailer_get; lia).
    rewrite (ro_head _ _ _ _ _ Hrb), head_available by lia.
    destruct (Z.gtb_spec req (cap - (tail - head))) as [|Hg2]; [done|].
    destruct (set_cache head ltac:(lia)) as (Hput & Hok & Ho).
    eexists head, _. split; [by erewrite bind_Ret by exact Hput|]. split_and!; try done; lia.
  - replace (req >? cap - (tail - head)) with false by lia.
    exists hc, m. split_and!; try done; lia.
Qed.
End Claim.

(** When a record that fits behind head [h] has to wrap, [h] is in the tail's lap. *)
Lemma same_lap cap h head tail req :
  0 < cap -> 0 <= h <= head -> head <= tail -> req <= cap - (tail - h) -> cap - tail mod cap < req ->
  h mod cap <= head mod cap.
Proof.
  intros. pose proof (Z.mod_pos_bound tail cap). pose proof (Z.mod_pos_bound head cap).
  pose proof (Z.mod_pos_bound h cap).
  pose proof (Z.div_mod tail cap ltac:(lia)). pose proof (Z.div_mod head cap ltac:(lia)).
  pose proof (Z.div_mod h cap ltac:(lia)).
  assert (h / cap <= head / cap) by (apply Z.div_le_mono; lia).
  assert (head / cap <= tail / cap) by (apply Z.div_le_mono; lia).
  assert (tail / cap <= h / cap) by nia.
  replace (head / cap) with (h / cap) in * by lia. lia.
Qed.

Section Claim2.
Context (m : mem) (rb : ManyToOne) (head tail hc : Z) (Hrb : rb_ok m rb head tail hc).

Local Abbreviation cap := (rb_capacity rb).
Local Abbreviation p0 := (bufferPtr (rb_buffer rb)).

Lemma check_wrap_ok req :
  0 < req <= cap -> req <= cap - (tail - hc) ->
  if req >? cap - tail mod cap then
    if req >? head mod cap then check_wrap rb req (tail mod cap) hc m = Ret None m
    else exists h m', check_wrap rb req (tail mod cap) hc m = Ret (Some (h, cap - tail mod cap)) m' /\
         hc <= h /\ rb_ok m' rb head tail h /\ only_in m m' (p0 + cap) 384
  else check_wrap rb req (tail mod cap) hc m = Ret (Some (hc, 0)) m.
Proof using Hrb.
  intros Hreq Hav. destruct (ro_order _ _ _ _ _ Hrb) as (? & ? & ?).
  destruct (rb_cap_range _ _ _ _ _ Hrb) as (? & _ & Hland).
  pose proof (Z.mod_pos_bound tail cap ltac:(lia)). pose proof (Z.mod_pos_bound head cap ltac:(lia)).
  pose proof (Z.mod_pos_bound hc cap ltac:(lia)).
  unfold check_wrap. rewrite !Hland. rewrite (i32_small (cap - _)), (i32_small (hc mod cap)) by lia.
  destruct (Z.gtb_spec req (cap - tail mod cap)) as [Hw|]; [|done].
  destruct (Z.gtb_spec req (hc mod cap)) as [Hg|Hg].
  - erewrite bind_Ret by (rewrite (ro_headIx _ _ _ _ _ Hrb); apply (trailer_get m rb head tail hc Hrb); lia).
    rewrite (ro_head _ _ _ _ _ Hrb), Hland, (i32_small (head mod cap)) by lia.
    destruct (Z.gtb_spec req (head mod cap)); [done|].
    destruct (set_cache m rb head tail hc Hrb head ltac:(lia)) as (Hput & Hok & Ho).
    eexists head, _. split; [by erewrite bind_Ret by exact Hput|]. split_and!; try done; lia.
  - pose proof (same_lap cap hc head tail req). replace (req >? head mod cap) with false by lia.
    exists hc, m. split_and!; try done; lia.
Qed.

(** Moving the tail. *)
Lemma set_tail tail' :
  tail <= tail' <= head + cap -> tail' < 4611686018427387904 -> tail' mod 8 = 0 ->
  tail' - hc <= 2 * cap ->
  let m' := wr m (p0 + (cap + 128)) (le_split 8 tail') in
  CompareAndSetInt64 (rb_buffer rb) (tailPositionIndex rb) tail tail' m = Ret true m' /\
  rb_ok m' rb head tail' hc /\ only_in m m' (p0 + cap) 384.
Proof using Hrb.
  intros Ht Hb' Ha' Hs' m'. pose proof (rb_cap_range _ _ _ _ _ Hrb) as [? _].
  destruct Hrb as [Hb Hc Hl Hm H1 H2 H3 H4 H5 H6 (? & ? & ?) Hs Ha]. split_and!.
  - rewrite H1, CompareAndSetInt64_ok by (done || lia). by rewrite decide_True.
  - constructor; unfold m'; try done; [by apply buf_ok_wr|apply rd_i64_wr|mem_simpl; done|mem_simpl; done|lia|].
    + unfold is_i64. lia.
    + by destruct Ha.
  - apply only_in_wr; rewrite ?zlen_le_split; lia.
Qed.
End Claim2.

Section ClaimLoop.
Context (m : mem) (rb : ManyToOne) (head tail hc : Z) (Hrb : rb_ok m rb head tail hc).

Local Abbreviation cap := (rb_capacity rb).
Local Abbreviation p0 := (bufferPtr (rb_buffer rb)).

(** An uninterrupted claim succeeds exactly when the specification says so, with the
    padding it says, although it looks at the cached head first. *)
Lemma claim_loop_ok req :
  0 < req <= cap -> req mod 8 = 0 -> tail + 2 * cap < 4611686018427387904 ->
  exists hc' m',
    claim_loop 2 rb req hc m
    = Ret ((fun p => (tail mod cap, p)) <$> claim_spec cap head tail req) m' /\
    rb_ok m' rb head (tail + claim_total cap head tail req) hc' /\
    only_in m m' (p0 + cap) 384.
Proof using Hrb.
  intros Hreq Hal Hbig. destruct (ro_order _ _ _ _ _ Hrb) as (? & ? & ?).
  destruct (rb_cap_range _ _ _ _ _ Hrb) as (? & Hcal & Hland).
  pose proof (Z.mod_pos_bound tail cap ltac:(lia)).
  pose proof (claim_spec_fits cap head tail req) as Hfits.
  unfold claim_total, claim_spec in *. unfold claim_loop at 1. fold claim_loop.
  erewrite bind_Ret by (rewrite (ro_tailIx _ _ _ _ _ Hrb); apply (trailer_get m rb head tail hc Hrb); lia).
  rewrite (ro_tail _ _ _ _ _ Hrb).
  pose proof (check_available_ok m rb head tail hc Hrb req Hreq) as Hav.
  destruct (req >? cap - (tail - head)).
  { exists hc, m. rewrite Z.add_0_r. split_and!; [by erewrite bind_Ret by exact Hav|done|apply only_in_refl]. }
  destruct Hav as (h & m1 & Hav & Hh & Hfit & Hrb1 & Ho1). erewrite bind_Ret by exact Hav. cbv iota.
  rewrite Hland, (i32_small (tail mod cap)) by lia.
  pose proof (check_wrap_ok m1 rb head tail h Hrb1 req Hreq Hfit) as Hwr.
  assert (Hswap : forall p h' m2, rb_ok m2 rb head tail h' -> h <= h' -> only_in m m2 (p0 + cap) 384 ->
    0 <= p <= cap -> tail + req + p <= head + cap -> p mod 8 = 0 ->
    exists m', only_in m m' (p0 + cap) 384 /\
      bind (CompareAndSetInt64 (rb_buffer rb) (tailPositionIndex rb) tail (i64 (i64 (tail + req) + p)))
        (fun b => if b then ret (Some (tail mod cap, p)) else claim_loop 1 rb req h') m2
      = Ret (Some (tail mod cap, p)) m' /\ rb_ok m' rb head (tail + (req + p)) h').
  { intros p h' m2 Hrb2 Hh' Ho2 Hp Hle Hp8.
    rewrite (i64_small (tail + req)) by lia. rewrite i64_small by lia.
    destruct (set_tail m2 rb head tail h' Hrb2 (tail + req + p)) as (Hcas & Hok & Ho3); [lia|lia| |lia|].
    { destruct (ro_align _ _ _ _ _ Hrb). clear -H5 Hal Hp8. dlia. }
    eexists. split; [eapply only_in_trans; [exact Ho2|exact Ho3]|].
    split; [by erewrite bind_Ret by exact Hcas|by rewrite (Z.add_assoc tail)]. }
  assert (Htc8 : (cap - tail mod cap) mod 8 = 0).
  { destruct (ro_align _ _ _ _ _ Hrb) as [_ Hta].
    pose proof (Z.div_mod tail cap ltac:(lia)) as Hdm.
    apply Z.mod_divide in Hcal as [q Hq]; [|lia]. apply Z.mod_divide in Hta as [t Ht]; [|lia].
    apply Z.mod_divide; [lia|]. exists (q - (t - q * (tail / cap))). rewrite Hq in *. lia. }
  destruct (req >? cap - tail mod cap).
  - destruct (req >? head mod cap).
    + exists h, m1. rewrite Z.add_0_r. split_and!; [by erewrite bind_Ret by exact Hwr|done|done].
    + destruct Hwr as (h2 & m2 & Hwr & Hh2 & Hrb2 & Ho2). erewrite bind_Ret by exact Hwr. cbv iota beta.
      destruct (Hfits (cap - tail mod cap)) as (? & ? & _); [lia|lia|lia|lia|done|].
      destruct (Hswap (cap - tail mod cap) h2 m2) as (m3 & ? & ? & ?); try done; [|lia|].
      * by eapply only_in_trans.
      * by exists h2, m3.
  - erewrite bind_Ret by exact Hwr. cbv iota beta.
    destruct (Hfits 0) as (? & ? & _); [lia|lia|lia|lia|done|].
    destruct (Hswap 0 h m1) as (m3 & ? & ? & ?); try done; [lia|].
    by exists h, m3.
Qed.
End ClaimLoop.

(** ** The ring as a sequence of records *)

Inductive entry : Type :=
| Msg (msgTypeID : Z) (data : list Init.Byte.byte)
| Pad (length : Z).

Definition rec_space (len : Z) : Z := align_up (len + 8) 8.
Definition entry_space (e : entry) : Z :=
  match e with Msg _ d => rec_space (zlen d) | Pad n => n end.

(** A committed entry at address [a]. *)
Definition entry_at (m : mem) (a : Z) (e : entry) : Prop :=
  match e with
  | Msg t d => rd_i32 m a = zlen d + 8 /\ rd_i32 m (a + 4) = t /\ rd m (a + 8) (length d) = d
  | Pad n => rd_i32 m a = n /\ rd_i32 m (a + 4) = -1
  end.

(** How much of an entry is in use, at least a header. *)
Definition entry_used (e : entry) : Z := match e with Msg _ d => zlen d + 8 | Pad _ => 8 end.

(** The entries [es] are in the buffer at [base] from position [pos] on, none across the
    buffer's end. *)
Fixpoint ring_seg (m : mem) (base cap pos : Z) (es : list entry) : Prop :=
  match es with
  | [] => True
  | e :: es' =>
      pos mod cap + entry_space e <= cap /\ entry_used e <= entry_space e /\
      entry_at m (base + pos mod cap) e /\ ring_seg m base cap (pos + entry_space e) es'
  end.

Fixpoint ring_space (es : list entry) : Z :=
  match es with [] => 0 | e :: es' => entry_space e + ring_space es' end.

Lemma ring_space_app es fs : ring_space (es ++ fs) = ring_space es + ring_space fs.
Proof. induction es as [|e es IH]; simpl; [done|]. rewrite IH. lia. Qed.

Lemma ring_seg_app m base cap pos es fs :
  ring_seg m base cap pos (es ++ fs) <->
  ring_seg m base cap pos es /\ ring_seg m base cap (pos + ring_space es) fs.
Proof.
  revert pos. induction es as [|e es IH]; intros pos; simpl.
  - rewrite Z.add_0_r. tauto.
  - rewrite IH. replace (pos + entry_space e + ring_space es)
      with (pos + (entry_space e + ring_space es)) by lia. tauto.
Qed.

Lemma entry_used_ge e : 8 <= entry_used e.
Proof. destruct e; simpl; [|lia]. pose proof (zlen_nonneg data). lia. Qed.

Lemma ring_space_nonneg m base cap pos es : ring_seg m base cap pos es -> 0 <= ring_space es.
Proof.
  revert pos. induction es as [|e es IH]; intros pos; simpl; [done|]. intros (? & ? & _ & Hs).
  apply IH in Hs. pose proof (entry_used_ge e). lia.
Qed.

(** The indices of positions inside a record that does not cross the end. *)
Lemma index_add cap a j : 0 < cap -> 0 <= j -> a mod cap + j < cap -> (a + j) mod cap = a mod cap + j.
Proof.
  intros. pose proof (Z.mod_pos_bound a cap ltac:(lia)). rewrite <- Z.add_mod_idemp_l by lia.
  apply Z.mod_small. lia.
Qed.

(** Positions less than a lap apart have different indices. *)
Lemma index_inj cap a b : 0 < cap -> 0 < b - a < cap -> a mod cap <> b mod cap.
Proof.
  intros Hc Hab E. assert (Hz : (b - a) mod cap = 0).
  { rewrite Zminus_mod, E, Z.sub_diag. apply Z.mod_0_l. lia. }
  rewrite Z.mod_small in Hz; lia.
Qed.

Lemma entry_at_ext m m' a e :
  (forall i, a <= i < a + entry_used e -> m' !! i = m !! i) -> entry_at m a e -> entry_at m' a e.
Proof.
  intros H. pose proof (entry_used_ge e).
  assert (H4 : forall b, a <= b -> b + 4 <= a + entry_used e -> rd_i32 m' b = rd_i32 m b).
  { intros. unfold rd_i32. do 2 f_equal. apply rd_ext. intros. apply H. lia. }
  destruct e as [t d|n]; cbn [entry_at entry_used] in *; rewrite !H4 by lia; [|done].
  intros (? & ? & Hd). split_and!; try done. rewrite <- Hd at 2. apply rd_ext.
  intros. apply H. unfold zlen. lia.
Qed.

(** Entries depend on the bytes at their positions only. *)
Lemma ring_seg_ext m m' base cap pos es :
  0 < cap ->
  (forall q, pos <= q < pos + ring_space es -> m' !! (base + q mod cap) = m !! (base + q mod cap)) ->
  ring_seg m base cap pos es -> ring_seg m' base cap pos es.
Proof.
  intros Hc. revert pos. induction es as [|e es IH]; intros pos Hext; cbn [ring_seg ring_space] in *; [done|].
  intros (H1 & H2 & H3 & H4). pose proof (ring_space_nonneg _ _ _ _ _ H4). pose proof (entry_used_ge e).
  split_and!; try done.
  - eapply entry_at_ext; [|exact H3]. intros i Hi.
    pose proof (Hext (pos + (i - (base + pos mod cap))) ltac:(lia)) as Hq.
    rewrite index_add in Hq by lia. by replace (base + (pos mod cap + (i - (base + pos mod cap)))) with i in Hq by lia.
  - apply IH; [|done]. intros q Hq. apply Hext. lia.
Qed.

(** ** Writing *)

Lemma rb_ok_ext m m' rb head tail hc :
  rb_ok m rb head tail hc -> keeps m m' -> only_in m m' (bufferPtr (rb_buffer rb)) (rb_capacity rb) ->
  rb_ok m' rb head tail hc.
Proof.
  intros Hrb Hk Ho. pose proof (rb_cap_range _ _ _ _ _ Hrb) as [? _].
  assert (H8 : forall o, 0 <= o -> rd_i64 m' (bufferPtr (rb_buffer rb) + (rb_capacity rb + o))
                              = rd_i64 m (bufferPtr (rb_buffer rb) + (rb_capacity rb + o))).
  { intros. unfold rd_i64. do 2 f_equal. apply rd_ext. intros. apply Ho. lia. }
  destruct Hrb as [Hb Hc Hl Hm H1 H2 H3 H4 H5 H6 Hord Hs Ha].
  constructor; rewrite ?H8 by lia; try done. by eapply buf_ok_keeps.
Qed.

(** What a write adds to the ring. *)
Definition written (cap head tail : Z) (msgTypeID : Z) (data : list Init.Byte.byte) : list entry :=
  match claim_spec cap head tail (rec_space (zlen data)) with
  | None => []
  | Some p => (if p =? 0 then [] else [Pad p]) ++ [Msg msgTypeID data]
  end.

(** It takes the space of the claim. *)
Lemma written_space cap head tail ty d :
  ring_space (written cap head tail ty d) = claim_total cap head tail (rec_space (zlen d)).
Proof.
  unfold written, claim_total. destruct (claim_spec _ _ _ _) as [p|]; [|done].
  destruct (Z.eqb_spec p 0) as [->|]; cbn [app ring_space entry_space]; lia.
Qed.

(** The memory changes at the positions of the claim, and in the trailer at the tail and
    at the head cache only. *)
Definition ring_only (m m' : mem) (rb : ManyToOne) (pos n : Z) : Prop :=
  forall i, ~ (bufferPtr (rb_buffer rb) + rb_capacity rb <= i
               < bufferPtr (rb_buffer rb) + rb_capacity rb + 384) ->
    (forall q, pos <= q < pos + n -> i <> bufferPtr (rb_buffer rb) + q mod rb_capacity rb) ->
    m' !! i = m !! i.

Lemma ring_only_trans m1 m2 m3 rb pos n :
  ring_only m1 m2 rb pos n -> ring_only m2 m3 rb pos n -> ring_only m1 m3 rb pos n.
Proof. intros H1 H2 i ? ?. by rewrite H2, H1. Qed.

(** Writing [len] bytes at the index of position [a]. *)
Lemma ring_only_wr m rb pos n a j bs :
  0 < rb_capacity rb -> pos <= a -> a + (j + zlen bs) <= pos + n -> 0 <= j ->
  a mod rb_capacity rb + (j + zlen bs) <= rb_capacity rb ->
  ring_only m (wr m (bufferPtr (rb_buffer rb) + (a mod rb_capacity rb + j)) bs) rb pos n.
Proof.
  intros Hc Ha Hn Hj Hin i _ Hq. apply wr_lookup_ne. intros Hi.
  set (p0 := bufferPtr (rb_buffer rb)) in *. set (cap := rb_capacity rb) in *.
  apply (Hq (a + (i - (p0 + a mod cap)))); [lia|]. rewrite index_add by lia. lia.
Qed.

Section Write.
Context (m : mem) (rb : ManyToOne) (head tail hc : Z) (Hrb : rb_ok m rb head tail hc).
Context (Hbig : tail + 2 * rb_capacity rb < 4611686018427387904).

Local Abbreviation cap := (rb_capacity rb).
Local Abbreviation p0 := (bufferPtr (rb_buffer rb)).

(** The claim, with the padding record written. *)
Lemma claimCapacity_ok req :
  8 <= req <= cap -> req mod 8 = 0 ->
  exists m' hc',
    claimCapacity rb req m =
    Ret (match claim_spec cap head tail req with
         | Some p => claim_index cap tail p | None => insufficientCapacity end) m' /\
    rb_ok m' rb head (tail + claim_total cap head tail req) hc' /\ keeps m m' /\
    ring_only m m' rb tail (claim_total cap head tail req) /\
    match claim_spec cap head tail req with
    | Some p => ring_seg m' p0 cap tail (if p =? 0 then [] else [Pad p])
    | None => True
    end.
Proof using All.
  intros Hreq Hal. destruct (ro_order _ _ _ _ _ Hrb) as (? & ? & ?).
  destruct (rb_cap_range _ _ _ _ _ Hrb) as (? & _ & _). pose proof (ro_len _ _ _ _ _ Hrb).
  pose proof (Z.mod_pos_bound tail cap ltac:(lia)).
  destruct (claim_loop_ok m rb head tail hc Hrb req ltac:(lia) Hal Hbig) as (hc1 & m1 & Hrun & Hrb1 & Ho1).
  assert (Hk1 : keeps m m1).
  { intros i Hi. destruct (decide (p0 + cap <= i < p0 + cap + 384)) as [Hin|Hout]; [|by rewrite Ho1].
    destruct (ro_buf _ _ _ _ _ Hrb1) as [(_ & _ & _ & Hreg) _]. apply Hreg. lia. }
  assert (Hr1 : ring_only m m1 rb tail (claim_total cap head tail req)) by (intros i Hi _; by apply Ho1).
  unfold claimCapacity.
  erewrite bind_Ret by (rewrite (ro_cacheIx _ _ _ _ _ Hrb); apply (trailer_get m rb head tail hc Hrb); lia).
  rewrite (ro_cache _ _ _ _ _ Hrb). erewrite bind_Ret by exact Hrun.
  pose proof (claim_spec_fits cap head tail req) as Hfits. unfold claim_total in *.
  destruct (claim_spec cap head tail req) as [p|]; cbn [fmap option_fmap option_map].
  2: { exists m1, hc1. split_and!; try done. }
  destruct (Hfits p) as (Hp & Hle & Hi0 & Hi1 & Hmod & Hcase); [lia|lia|lia|lia|done|].
  unfold claim_index in *. rewrite (Z.eqb_sym 0 p).
  destruct (Z.eqb_spec p 0) as [->|Hne]; cbn [negb].
  { exists m1, hc1. split_and!; try done. }
  destruct Hcase as [|Hcase]; [lia|].
  assert (Hp8 : 8 <= p).
  { destruct (ro_align _ _ _ _ _ Hrb1) as [_ H8]. destruct (ro_align _ _ _ _ _ Hrb) as [_ H8'].
    clear -H8 H8' Hal Hne Hp. dlia. }
  assert (Hpi : is_i32 p) by (unfold is_i32; lia).
  set (m2 := wr m1 (p0 + (tail mod cap + 0)) (le_split 8 (makeHeader p RecordDescriptor.PaddingMsgTypeID))).
  assert (Hr2 : ring_only m1 m2 rb tail (req + p)).
  { apply ring_only_wr; rewrite ?zlen_le_split; lia. }
  exists m2, hc1. split_and!.
  - erewrite bind_Ret; [done|].
    rewrite PutInt64Ordered_ok by (apply Hrb1 || lia). unfold m2. by rewrite Z.add_0_r.
  - eapply rb_ok_ext; [exact Hrb1|apply keeps_wr|].
    apply only_in_wr; rewrite ?zlen_le_split; lia.
  - eapply keeps_trans; [exact Hk1|apply keeps_wr].
  - by eapply ring_only_trans.
  - cbn [ring_seg entry_space entry_used entry_at]. split_and!; [lia|lia| | |done];
      unfold m2; rewrite makeHeader_bytes by (done || (vm_compute; intuition congruence));
      rewrite wr_app, zlen_le_split, Z.add_0_r; change (Z.of_nat 4) with 4;
      unfold is_i32, RecordDescriptor.PaddingMsgTypeID in *; mem_simpl; done.
Qed.

(** A write either adds the message to the end of the ring, behind a padding entry when
    the record had to wrap, or leaves the ring as it was and reports failure. It fails
    exactly when the specification finds no room behind the head. *)
Lemma Write_ok es msgTypeID src so len :
  ring_seg m p0 cap head es -> head + ring_space es = tail ->
  1 <= msgTypeID < 2147483648 -> 0 <= len <= rb_maxMsgLength rb ->
  buf_ok m src -> 0 <= so -> so + len <= buf_length src ->
  disjoint p0 (buf_length (rb_buffer rb)) (bufferPtr src) (buf_length src) ->
  let data := rd m (bufferPtr src + so) (Z.to_nat len) in
  exists m' hc',
    ManyToOne_Write rb msgTypeID src so len m =
    Ret (bool_decide (is_Some (claim_spec cap head tail (rec_space len)))) m' /\
    rb_ok m' rb head (tail + claim_total cap head tail (rec_space len)) hc' /\
    ring_seg m' p0 cap head (es ++ written cap head tail msgTypeID data) /\
    ring_only m m' rb tail (claim_total cap head tail (rec_space len)).
Proof using All.
  intros Hes Hsp Ht Hlen Hsrc Hso Hin Hdis data.
  destruct (rb_cap_range _ _ _ _ _ Hrb) as (? & _ & _). pose proof (ro_len _ _ _ _ _ Hrb) as Hbl.
  rewrite (ro_max _ _ _ _ _ Hrb) in Hlen. assert (len <= cap / 8) by lia.
  assert (len + 16 <= cap /\ len <= 67108864) by dlia.
  pose proof (align_up_spec (len + 8) 8 ltac:(lia)) as [? Hal8]. fold (rec_space len) in *.
  assert (Hdl : zlen data = len) by (unfold data; rewrite zlen_rd; lia).
  destruct (claimCapacity_ok (rec_space len) ltac:(lia) Hal8) as (m1 & hc1 & Hrun & Hrb1 & Hk1 & Hr1 & Hpad).
  unfold ManyToOne_Write, checkMsgTypeID. rewrite (proj2 (Z.ltb_ge _ _)) by lia. rewrite bind_ret_l.
  unfold checkMsgLength. rewrite (ro_max _ _ _ _ _ Hrb). replace (len >? cap / 8) with false by lia.
  rewrite bind_ret_l. unfold RecordDescriptor.HeaderLength, RecordDescriptor.RecordAlignment.
  rewrite (i32_small (len + 8)), AlignInt32_8 by lia. fold (rec_space len).
  erewrite bind_Ret by exact Hrun.
  destruct (ro_order _ _ _ _ _ Hrb) as (? & ? & ?).
  assert (Hold : forall m', ring_only m m' rb tail (claim_total cap head tail (rec_space len)) ->
                   tail + claim_total cap head tail (rec_space len) <= head + cap ->
                   ring_seg m' p0 cap head es).
  { intros m' Hr Hle. eapply ring_seg_ext; [lia| |exact Hes]. intros q Hq. apply Hr.
    - pose proof (Z.mod_pos_bound q cap ltac:(lia)). lia.
    - intros q' Hq' E. apply (index_inj cap q q'); lia. }
  pose proof (claim_spec_fits cap head tail (rec_space len)) as Hfits.
  unfold written. rewrite Hdl. unfold claim_total in *.
  destruct (claim_spec cap head tail (rec_space len)) as [p|] eqn:Hspec.
  2: { exists m1, hc1. rewrite bool_decide_false by (intros [? [=]]). rewrite app_nil_r.
       split_and!; try done. apply Hold; [done|lia]. }
  destruct (Hfits p) as (Hp & Hle & Hi0 & Hi1 & Hmod & Hcase); [lia|lia|lia|lia|done|].
  clear Hfits. set (idx := claim_index cap tail p) in *.
  rewrite bool_decide_true by (by eexists). rewrite (proj2 (Z.eqb_neq insufficientCapacity idx))
    by (unfold insufficientCapacity; lia). cbn [negb].
  assert (Hb1 : buf_ok m1 (rb_buffer rb)) by apply Hrb1.
  erewrite bind_Ret by (apply PutInt64Ordered_ok; done || lia).
  rewrite makeHeader_bytes by (unfold is_i32; wrap_simpl; lia). rewrite i32_small by lia.
  unfold EncodedMsgOffset, LengthOffset, RecordDescriptor.HeaderLength. rewrite (i32_small (idx + 8)) by lia.
  set (m2 := wr m1 (p0 + idx) _).
  assert (Hdata : rd m2 (bufferPtr src + so) (Z.to_nat len) = data).
  { unfold m2. rewrite rd_wr_disj by (rewrite zlen_app, !zlen_le_split; unfold disjoint in *; lia).
    unfold data. apply rd_ext. intros i Hi. apply Hr1; unfold disjoint in *; [lia|].
    intros q Hq. pose proof (Z.mod_pos_bound q cap ltac:(lia)). lia. }
  erewrite bind_Ret by (apply PutBytes_ok; try lia; try done;
    [by apply buf_ok_wr|apply buf_ok_wr; by eapply buf_ok_keeps]).
  rewrite Hdata. set (m3 := wr m2 _ data).
  erewrite bind_Ret by (apply PutInt32Ordered_ok; [by do 2 apply buf_ok_wr|lia..]).
  set (m4 := wr m3 _ _). exists m4, hc1. split; [done|].
  assert (Hnew : forall mm j bs, 0 <= j -> j + zlen bs <= rec_space len ->
            ring_only mm (wr mm (p0 + (idx + j)) bs) rb (tail + p) (rec_space len)).
  { intros mm j bs Hj Hbs. rewrite <- Hmod. apply ring_only_wr; rewrite ?Hmod; lia. }
  assert (Hr4' : ring_only m1 m4 rb (tail + p) (rec_space len)).
  { apply (ring_only_trans m1 m2); [|apply (ring_only_trans m2 m3)]; unfold m2, m3, m4.
    - replace (p0 + idx) with (p0 + (idx + 0)) by lia. apply Hnew; rewrite ?zlen_app, ?zlen_le_split; lia.
    - apply Hnew; lia.
    - replace (p0 + idx) with (p0 + (idx + 0)) by lia. apply Hnew; rewrite ?zlen_le_split; lia. }
  assert (Hr4 : ring_only m m4 rb tail (rec_space len + p)).
  { apply (ring_only_trans m m1); [done|]. intros i Hi1' Hi2'. apply Hr4'; [done|].
    intros q Hq. apply Hi2'. lia. }
  split_and!; [|apply ring_seg_app; split; [apply Hold; [done|lia]|]|done].
  - eapply rb_ok_ext; [exact Hrb1|unfold m4, m3, m2; do 2 (eapply keeps_trans; [apply keeps_wr|]); apply keeps_wr|].
    unfold m4, m3, m2. repeat (apply only_in_wr_chain; [|rewrite ?zlen_app, ?zlen_le_split; lia..]).
    apply only_in_refl.
  - rewrite Hsp. apply ring_seg_app.
    assert (Hps : ring_space (if p =? 0 then [] else [Pad p]) = p).
    { destruct (Z.eqb_spec p 0); simpl; lia. }
    split.
    + eapply ring_seg_ext; [lia| |exact Hpad]. rewrite Hps. intros q Hq. apply Hr4'.
      * pose proof (Z.mod_pos_bound q cap ltac:(lia)). lia.
      * intros q' Hq' E. apply (index_inj cap q q'); lia.
    + rewrite Hps. cbn [ring_seg entry_space entry_used entry_at]. rewrite Hmod, Hdl.
      split_and!; [lia|lia|..|done]; unfold m4, m3, m2; rewrite wr_app, zlen_le_split;
        change (Z.of_nat 4) with 4; mem_simpl; try done.
      rewrite Z.add_assoc. by rewrite rd_wr_same.
Qed.
End Write.

(** ** What the ring buffer promises *)

(** C29. Writing a message to the ring: it succeeds exactly when there is room between the
    tail and the consumer's head; then the message is behind the records that were there,
    after padding if it would cross the end of the buffer, and the tail has moved past it.
    Otherwise nothing is written and the tail stays. The records not yet consumed are
    intact, and nothing outside of the claimed space and of the trailer's tail and head
    cache changes. *)
Theorem Write_appends m rb head tail hc es msgTypeID src so len :
  rb_ok m rb head tail hc -> tail + 2 * rb_capacity rb < 4611686018427387904 ->
  ring_seg m (bufferPtr (rb_buffer rb)) (rb_capacity rb) head es -> head + ring_space es = tail ->
  1 <= msgTypeID < 2147483648 -> 0 <= len <= rb_maxMsgLength rb ->
  buf_ok m src -> 0 <= so -> so + len <= buf_length src ->
  disjoint (bufferPtr (rb_buffer rb)) (buf_length (rb_buffer rb)) (bufferPtr src) (buf_length src) ->
  let data := rd m (bufferPtr src + so) (Z.to_nat len) in
  let total := claim_total (rb_capacity rb) head tail (rec_space len) in
  exists m' hc',
    ManyToOne_Write rb msgTypeID src so len m =
    Ret (bool_decide (is_Some (claim_spec (rb_capacity rb) head tail (rec_space len)))) m' /\
    rb_ok m' rb head (tail + total) hc' /\
    ring_seg m' (bufferPtr (rb_buffer rb)) (rb_capacity rb) head
      (es ++ written (rb_capacity rb) head tail msgTypeID data) /\
    ring_only m m' rb tail total.
Proof. intros Hrb Hroom ? ? ? ? ? ? ? ?. by apply (Write_ok m rb head tail hc Hrb Hroom). Qed.

(** What a write refuses by a panic, with nothing written: a message type that is not
    positive, and a message longer than an eighth of the capacity. *)
Theorem Write_refuses m rb head tail hc msgTypeID src so len :
  rb_ok m rb head tail hc ->
  (msgTypeID < 1 -> exists e, ManyToOne_Write rb msgTypeID src so len m = Exc e m) /\
  (1 <= msgTypeID -> rb_capacity rb / 8 < len ->
   exists e, ManyToOne_Write rb msgTypeID src so len m = Exc e m).
Proof.
  intros Hrb. unfold ManyToOne_Write, checkMsgTypeID, checkMsgLength. rewrite (ro_max _ _ _ _ _ Hrb).
  split.
  - intros. rewrite (proj2 (Z.ltb_lt _ _)) by lia. by eexists.
  - intros. rewrite (proj2 (Z.ltb_ge _ _)) by lia. rewrite bind_ret_l.
    replace (len >? rb_capacity rb / 8) with true by lia. by eexists.
Qed.
