(* ===== verification/RingConcurrent.v ===== *)
(** * Concurrent claims on the ring buffer

    [claimCapacity] of src/aeron/ringbuffer/manytoone.go with every access to the shared
    counters as a step of its own: any number of producers, in this and in other
    processes, and the driver that consumes, interleave between the accesses. The steps
    are those of [claim_loop], [check_available] and [check_wrap] of [RingBuffer], in the
    code's own arithmetic: indexes are masked with the capacity less one, which is the
    position modulo the capacity because the capacity is a power of two, and sums wrap at
    their width. *)

From S2P Require Import Prelude Memory Bits RingBuffer.

(** The counters in the trailer of the buffer. *)
Record counters : Type := mkCounters { c_tail : Z; c_head : Z; c_cache : Z }.

(** Where a producer is, with its local variables: what it accesses next. *)
Inductive producer : Type :=
| PStart (req : Z)                        (* reads the head cache *)
| PTail (req head : Z)                    (* reads the tail *)
| PHead1 (req tail : Z)                   (* reads the head: not enough capacity *)
| PCache1 (req tail head : Z)             (* writes the head cache *)
| PHead2 (req tail : Z)                   (* reads the head: no room at the start *)
| PCache2 (req tail head : Z)             (* writes the head cache *)
| PSwap (req tail head padding : Z)       (* swaps the tail *)
| PClaimed (req tail padding : Z)         (* owns the claim *)
| PFailed (req : Z).                      (* insufficient capacity *)

Section Machine.
Context (cap : Z).

(** [tailIndex] and [headIndex]: the position masked. *)
Definition masked_index (position : Z) : Z := i32 (Z.land position (i32 (cap - 1))).
Definition toBufferEndLength (tail : Z) : Z := i32 (cap - masked_index tail).

(** After the capacity test: the padding and where to go on. *)
Definition after_available (req tail head : Z) : producer :=
  if req >? toBufferEndLength tail then
    if req >? masked_index head then PHead2 req tail
    else PSwap req tail head (toBufferEndLength tail)
  else PSwap req tail head 0.

Definition producer_step (p : producer) (c : counters) : producer * counters :=
  match p with
  | PStart req => (PTail req (c_cache c), c)
  | PTail req head =>
      let tail := c_tail c in
      (if req >? i32 (cap - i32 (i64 (tail - head))) then PHead1 req tail
       else after_available req tail head, c)
  | PHead1 req tail =>
      let head := c_head c in
      (if req >? i32 (cap - i32 (i64 (tail - head))) then PFailed req else PCache1 req tail head, c)
  | PCache1 req tail head => (after_available req tail head, mkCounters (c_tail c) (c_head c) head)
  | PHead2 req tail =>
      let head := c_head c in
      (if req >? masked_index head then PFailed req else PCache2 req tail head, c)
  | PCache2 req tail head =>
      (PSwap req tail head (toBufferEndLength tail), mkCounters (c_tail c) (c_head c) head)
  | PSwap req tail head padding =>
      if c_tail c =? tail
      then (PClaimed req tail padding,
            mkCounters (i64 (i64 (tail + req) + padding)) (c_head c) (c_cache c))
      else (PTail req head, c)
  | PClaimed _ _ _ | PFailed _ => (p, c)
  end.

(** A claim: the position it starts at, its record's length and the padding before it. *)
Record claim : Type := mkClaim' { cl_tail : Z; cl_req : Z; cl_padding : Z }.
Definition claim_end (c : claim) : Z := cl_tail c + cl_req c + cl_padding c.

(** The system; [st_claims] is the history of the claims, newest first. *)
Record system : Type := mkSystem {
  st_counters : counters; st_producers : list producer; st_claims : list claim }.

(** What a swap that succeeds adds to the history. *)
Definition new_claim (p : producer) (c : counters) : list claim :=
  match p with
  | PSwap req tail _ padding => if c_tail c =? tail then [mkClaim' tail req padding] else []
  | _ => []
  end.

(** The counters fit their integers: the tail is not about to pass the largest [int64],
    and no producer holds on to a head, or the cache to its value, for so long that two
    gigabytes less the capacity are claimed in the meantime, since the code takes the
    distance of the two as an [int32]. *)
Definition timely (p : producer) (c : counters) : Prop :=
  c_tail c + 2 * cap < 9223372036854775808 /\
  match p with
  | PTail _ head => c_tail c - head < 2147483648 - cap
  | PHead1 _ tail => - (2147483648 - cap) < tail - c_head c
  | _ => True
  end.

Definition idle (p : producer) : Prop :=
  match p with PClaimed _ _ _ | PFailed _ => True | _ => False end.

Inductive step : system -> system -> Prop :=
| step_producer s i p :
    st_producers s !! i = Some p -> timely p (st_counters s) ->
    step s (mkSystem (producer_step p (st_counters s)).2
              (<[i := (producer_step p (st_counters s)).1]> (st_producers s))
              (new_claim p (st_counters s) ++ st_claims s))
| step_next s i p req :
    st_producers s !! i = Some p -> idle p -> 0 < req <= cap ->
    step s (mkSystem (st_counters s) (<[i := PStart req]> (st_producers s)) (st_claims s))
| step_consume s head :
    c_head (st_counters s) <= head <= c_tail (st_counters s) ->
    step s (mkSystem (mkCounters (c_tail (st_counters s)) head (c_cache (st_counters s)))
              (st_producers s) (st_claims s)).

Definition initial (n : nat) : system :=
  mkSystem (mkCounters 0 0 0) (replicate n (PFailed 0)) [].

Inductive reachable (n : nat) : system -> Prop :=
| reach_init : reachable n (initial n)
| reach_step s s' : reachable n s -> step s s' -> reachable n s'.

(** ** The invariant *)

Context (Hpow : exists k, 0 <= k <= 30 /\ cap = 2 ^ k).

Lemma cap_range : 0 < cap <= 1073741824.
Proof using Hpow.
  destruct Hpow as (k & Hk & ->).
  pose proof (Z.pow_pos_nonneg 2 k). pose proof (Z.pow_le_mono_r 2 k 30).
  change (2 ^ 30) with 1073741824 in *. lia.
Qed.

(** With a capacity that is a power of two the mask takes the position modulo it. *)
Lemma masked_index_mod position : masked_index position = position mod cap.
Proof using Hpow.
  pose proof cap_range. pose proof (Z.mod_pos_bound position cap).
  unfold masked_index. rewrite (i32_small (cap - 1)) by lia.
  destruct Hpow as (k & Hk & E).
  replace (Z.land position (cap - 1)) with (position mod cap); [apply i32_small; lia|].
  rewrite E. replace (2 ^ k - 1) with (Z.ones k) by (rewrite Z.ones_equiv; lia).
  by rewrite Z.land_ones by lia.
Qed.

Lemma toBufferEndLength_mod tail : toBufferEndLength tail = cap - tail mod cap.
Proof using Hpow.
  pose proof cap_range. pose proof (Z.mod_pos_bound tail cap).
  unfold toBufferEndLength. rewrite masked_index_mod. apply i32_small. lia.
Qed.

Lemma swapped_tail tail req padding :
  0 <= tail -> tail + 2 * cap < 9223372036854775808 -> 0 < req <= cap -> 0 <= padding <= cap ->
  i64 (i64 (tail + req) + padding) = tail + req + padding.
Proof using Type. intros. rewrite (i64_small (tail + req)), i64_small by lia. done. Qed.

(** A claim that was made behind [head]. *)
Definition claim_ok (head : Z) (req tail padding : Z) : Prop :=
  0 < req /\ 0 <= padding /\ tail + req + padding <= head + cap /\
  (tail + padding) mod cap + req <= cap.

(** What a producer knows about its local variables. A head newer than its tail means
    that the tail has moved, and the swap will fail. *)
Definition producer_inv (c : counters) (p : producer) : Prop :=
  match p with
  | PStart req => 0 < req <= cap
  | PTail req head => 0 < req <= cap /\ 0 <= head <= c_head c
  | PHead1 req tail => 0 < req <= cap /\ 0 <= tail <= c_tail c
  | PHead2 req tail => 0 < req <= cap /\ 0 <= tail <= c_tail c /\
      tail + req <= c_head c + cap /\ cap - tail mod cap < req
  | PCache1 req tail head =>
      0 < req <= cap /\ 0 <= head <= c_head c /\ 0 <= tail <= c_tail c /\ req <= cap - (tail - head)
  | PCache2 req tail head =>
      0 < req <= cap /\ 0 <= head <= c_head c /\ 0 <= tail <= c_tail c /\
      tail + req <= head + cap /\ cap - tail mod cap < req /\ req <= head mod cap
  | PSwap req tail head padding =>
      0 < req <= cap /\ 0 <= head <= c_head c /\ 0 <= tail <= c_tail c /\
      (head <= tail -> claim_ok head req tail padding)
  | PClaimed _ _ _ | PFailed _ => True
  end.

(** The claims follow each other without gap up to the tail. *)
Fixpoint chained (claims : list claim) (tail : Z) : Prop :=
  match claims with
  | [] => tail = 0
  | c :: claims' => claim_end c = tail /\ chained claims' (cl_tail c)
  end.

Record inv (s : system) : Prop := {
  iv_order : 0 <= c_cache (st_counters s) <= c_head (st_counters s) /\
    c_head (st_counters s) <= c_tail (st_counters s) <= c_head (st_counters s) + cap;
  iv_producers : Forall (producer_inv (st_counters s)) (st_producers s);
  iv_chain : chained (st_claims s) (c_tail (st_counters s));
  iv_claims : Forall (fun c => 0 < cl_req c /\ 0 <= cl_padding c /\
    (cl_tail c + cl_padding c) mod cap + cl_req c <= cap) (st_claims s) }.

Lemma producer_inv_mono c c' p :
  c_head c <= c_head c' -> c_tail c <= c_tail c' -> producer_inv c p -> producer_inv c' p.
Proof using Hpow.
  pose proof cap_range as Hcap. intros ? ?. destruct p; simpl; intuition lia. Qed.

(** A claim the specification allows is a good one. *)
Lemma claim_ok_spec head tail req p :
  0 < req <= cap -> 0 <= head <= tail -> tail <= head + cap ->
  claim_spec cap head tail req = Some p -> claim_ok head req tail p.
Proof using Hpow.
  pose proof cap_range as Hcap.
  intros Hr Hh Ht Hs. destruct (claim_spec_fits cap head tail req p) as (? & ? & ? & ? & Hm & _); try done; [lia|].
  unfold claim_ok. rewrite Hm. lia.
Qed.

Lemma after_available_inv c req tail head :
  0 < req <= cap -> 0 <= head <= c_head c -> 0 <= tail <= c_tail c -> req <= cap - (tail - head) ->
  producer_inv c (after_available req tail head).
Proof using Hpow.
  pose proof cap_range as Hcap.
  intros Hr Hh Ht Ha. unfold after_available. rewrite !toBufferEndLength_mod, !masked_index_mod.
  destruct (Z.gtb_spec req (cap - tail mod cap)) as [Hw|Hw].
  - destruct (Z.gtb_spec req (head mod cap)) as [Hg|Hg]; cbn [producer_inv].
    + split_and!; lia.
    + split_and!; try lia. intros. apply claim_ok_spec; try lia.
      unfold claim_spec. replace (req >? cap - (tail - head)) with false by lia.
      replace (req >? cap - tail mod cap) with true by lia. by replace (req >? head mod cap) with false by lia.
  - cbn [producer_inv]. split_and!; try lia. intros. apply claim_ok_spec; try lia.
    unfold claim_spec. replace (req >? cap - (tail - head)) with false by lia.
    by replace (req >? cap - tail mod cap) with false by lia.
Qed.

(** One access of one producer: its own facts, the counters' order, and that the
    counters it shares only grow. *)
Lemma producer_step_inv p c :
  0 <= c_cache c <= c_head c -> c_head c <= c_tail c <= c_head c + cap ->
  timely p c -> producer_inv c p ->
  let '(p', c') := producer_step p c in
  producer_inv c' p' /\ 0 <= c_cache c' <= c_head c' /\ c_head c' = c_head c /\
  c_tail c <= c_tail c' <= c_head c' + cap.
Proof using Hpow.
  pose proof cap_range as Hcap.
  intros Hc Ho [Hmax Ht] Hp. destruct p; cbn [producer_step]; cbn [producer_inv timely] in *.
  - simpl. lia.
  - rewrite (i64_small (_ - _)) by lia. rewrite (i32_small (_ - head)), i32_small by lia.
    split; [|lia]. destruct (Z.gtb_spec req (cap - (c_tail c - head))).
    + simpl. lia.
    + apply after_available_inv; lia.
  - rewrite (i64_small (_ - _)) by lia. rewrite (i32_small (tail - _)), i32_small by lia.
    split; [|lia]. destruct (Z.gtb_spec req (cap - (tail - c_head c))); simpl; [done|lia].
  - destruct Hp as (? & ? & ? & ?). split; [|simpl; lia].
    apply (producer_inv_mono c); [simpl; lia..|]. apply after_available_inv; lia.
  - destruct Hp as (? & ? & ? & ?). split; [|lia]. rewrite masked_index_mod.
    destruct (Z.gtb_spec req (c_head c mod cap)); simpl; [done|]. split_and!; lia.
  - destruct Hp as (? & ? & ? & ? & ? & ?). split; [|simpl; lia].
    cbn [producer_inv c_head c_tail]. rewrite toBufferEndLength_mod.
    split_and!; try lia. intros. apply claim_ok_spec; try lia.
    unfold claim_spec. replace (req >? cap - (tail - head)) with false by lia.
    replace (req >? cap - tail mod cap) with true by lia. by replace (req >? head mod cap) with false by lia.
  - destruct Hp as (? & ? & ? & Hok). destruct (Z.eqb_spec (c_tail c) tail) as [E|E]; simpl; [|lia].
    destruct Hok as (? & ? & ? & ?); [lia|]. split; [done|]. rewrite swapped_tail by lia. lia.
  - simpl. lia.
  - simpl. lia.
Qed.

Lemma inv_initial n : inv (initial n).
Proof using Hpow.
  pose proof cap_range as Hcap.
  constructor; simpl; try lia; [|constructor]. apply Forall_replicate. done.
Qed.

Lemma inv_step s s' : inv s -> step s s' -> inv s'.
Proof using Hpow.
  pose proof cap_range as Hcap.
  intros [[Hc Ho] Hp Hch Hcl] Hs. destruct Hs as [s i p Hi Ht|s i p req Hi _ Hr|s head Hh]; simpl in *.
  - pose proof (Forall_lookup_1 _ _ _ _ Hp Hi) as Hpi.
    pose proof (producer_step_inv p (st_counters s) Hc Ho Ht Hpi) as Hst.
    destruct (producer_step p (st_counters s)) as [p' c'] eqn:E. destruct Hst as (Hp' & Hc' & Hh & Ht').
    constructor; simpl; [lia| | |].
    + apply Forall_insert; [|done]. eapply Forall_impl; [exact Hp|].
      intros q. apply producer_inv_mono; lia.
    + destruct p; cbn [new_claim producer_step] in *; try (injection E as <- <-; done).
      destruct (Z.eqb_spec (c_tail (st_counters s)) tail); injection E as <- <-; [|done].
      destruct Ht as [? _], Hpi as (? & ? & ? & Hok). destruct Hok as (? & ? & ? & ?); [lia|].
      cbn [chained claim_end cl_tail cl_req cl_padding c_tail]. rewrite swapped_tail by lia.
      split; [done|]. by subst.
    + destruct p; cbn [new_claim]; try done.
      destruct (Z.eqb_spec (c_tail (st_counters s)) tail); [|done]. constructor; [|done].
      destruct Hpi as (? & ? & ? & Hok). simpl. destruct Hok as (? & ? & ? & ?); lia.
  - constructor; simpl; try done. apply Forall_insert; done.
  - constructor; simpl; try done; [lia|]. eapply Forall_impl; [exact Hp|].
    intros q. apply producer_inv_mono; simpl; lia.
Qed.

Lemma inv_reachable n s : reachable n s -> inv s.
Proof using Hpow.
  pose proof cap_range as Hcap. induction 1; [apply inv_initial|by eapply inv_step]. Qed.

(** ** What the claims own *)

(** The addresses of a claim's record, as offsets in the buffer. *)
Definition owns (c : claim) (i : Z) : Prop :=
  (cl_tail c + cl_padding c) mod cap <= i < (cl_tail c + cl_padding c) mod cap + cl_req c.

Lemma chained_before claims tail j c :
  chained claims tail -> Forall (fun c => 0 < cl_req c /\ 0 <= cl_padding c /\
    (cl_tail c + cl_padding c) mod cap + cl_req c <= cap) claims ->
  claims !! j = Some c -> claim_end c <= tail.
Proof using Type.
  revert tail j. induction claims as [|c0 claims IH]; intros tail j Hch Hf Hj; [done|].
  destruct Hch as [He Hch]. apply Forall_cons in Hf as [H0 Hf].
  destruct j as [|j]; simpl in Hj; [injection Hj as <-; lia|].
  pose proof (IH _ _ Hch Hf Hj). unfold claim_end in *. lia.
Qed.

Lemma chained_ordered claims tail i j c d :
  chained claims tail -> Forall (fun c => 0 < cl_req c /\ 0 <= cl_padding c /\
    (cl_tail c + cl_padding c) mod cap + cl_req c <= cap) claims ->
  (i < j)%nat -> claims !! i = Some c -> claims !! j = Some d -> claim_end d <= cl_tail c.
Proof using Type.
  revert tail i j. induction claims as [|c0 claims IH]; intros tail i j Hch Hf Hij Hi Hj; [done|].
  destruct Hch as [He Hch]. apply Forall_cons in Hf as [H0 Hf].
  destruct j as [|j]; [lia|]. destruct i as [|i]; simpl in *.
  - injection Hi as <-. by eapply chained_before.
  - eapply IH; [exact Hch|done| |done|done]. lia.
Qed.

(** Two records of claims that are not consumed yet share no byte of the buffer. *)
Lemma claims_apart_ok n s i j c d k :
  reachable n s -> st_claims s !! i = Some c -> st_claims s !! j = Some d -> i <> j ->
  c_head (st_counters s) <= cl_tail c -> c_head (st_counters s) <= cl_tail d ->
  owns c k -> owns d k -> False.
Proof using Hpow.
  pose proof cap_range as Hcap.
  intros Hr Hi Hj Hne Hc Hd Oc Od. destruct (inv_reachable n s Hr) as [[_ Ho] _ Hch Hcl].
  enough (H : forall i j c d, (i < j)%nat -> st_claims s !! i = Some c -> st_claims s !! j = Some d ->
            c_head (st_counters s) <= cl_tail d -> owns c k -> owns d k -> False).
  { destruct (decide (i < j)%nat); [by apply (H i j c d)|]. apply (H j i d c); try done. lia. }
  clear - Hch Hcl Ho Hcap. intros i j c d Hij Hi Hj Hd Oc Od.
  pose proof (chained_ordered _ _ _ _ _ _ Hch Hcl Hij Hi Hj) as Hord.
  pose proof (chained_before _ _ _ _ Hch Hcl Hi) as Hend.
  destruct (Forall_lookup_1 _ _ _ _ Hcl Hi) as (? & ? & ?).
  destruct (Forall_lookup_1 _ _ _ _ Hcl Hj) as (? & ? & ?).
  unfold owns, claim_end in *.
  set (a := cl_tail d + cl_padding d) in *. set (b := cl_tail c + cl_padding c) in *.
  apply (index_inj cap (a + (k - a mod cap)) (b + (k - b mod cap))); [lia|unfold a, b in *; lia|].
  rewrite !index_add by lia. lia.
Qed.

(** ** A producer alone *)

Fixpoint run_alone (n : nat) (p : producer) (c : counters) : producer * counters :=
  match n with
  | O => (p, c)
  | S n' => let '(p', c') := producer_step p c in run_alone n' p' c'
  end.

Lemma run_alone_done n p c : idle p -> run_alone n p c = (p, c).
Proof using Type. intros Hi. induction n as [|n IH]; [done|]. by destruct p. Qed.

Lemma run_alone_S n p c :
  run_alone (S n) p c = run_alone n (producer_step p c).1 (producer_step p c).2.
Proof using Type. cbn [run_alone]. by destruct (producer_step p c). Qed.

Lemma run_swap n req tail h p head cache :
  0 <= tail -> tail + 2 * cap < 9223372036854775808 -> 0 < req <= cap -> 0 <= p <= cap ->
  run_alone (S n) (PSwap req tail h p) (mkCounters tail head cache) =
  (PClaimed req tail p, mkCounters (tail + req + p) head cache).
Proof using Type.
  intros. rewrite run_alone_S. cbn [producer_step c_tail c_head c_cache]. rewrite Z.eqb_refl.
  rewrite swapped_tail by done. by apply run_alone_done.
Qed.

(** From the capacity test on, with a head that passed it. *)
Lemma run_after_available n req tail h head cache :
  0 < req <= cap -> 0 <= h <= head -> head <= tail -> req <= cap - (tail - h) ->
  tail + 2 * cap < 9223372036854775808 ->
  exists cache',
    run_alone (S (S (S n))) (after_available req tail h) (mkCounters tail head cache) =
    match claim_spec cap head tail req with
    | Some p => (PClaimed req tail p, mkCounters (tail + req + p) head cache')
    | None => (PFailed req, mkCounters tail head cache')
    end.
Proof using Hpow.
  pose proof cap_range as Hcap.
  intros Hr Hh Ht Ha Hmax. pose proof (Z.mod_pos_bound tail cap).
  unfold after_available, claim_spec. rewrite !toBufferEndLength_mod, !masked_index_mod.
  replace (req >? cap - (tail - head)) with false by lia.
  destruct (Z.gtb_spec req (cap - tail mod cap)) as [Hw|Hw].
  2: { exists cache. by rewrite run_swap by lia. }
  pose proof (same_lap cap h head tail req).
  destruct (Z.gtb_spec req (h mod cap)) as [Hg|Hg].
  - rewrite run_alone_S. cbn [producer_step fst snd c_tail c_head c_cache]. rewrite masked_index_mod.
    destruct (Z.gtb_spec req (head mod cap)); [exists cache; by rewrite run_alone_done|].
    exists head. rewrite run_alone_S. cbn [producer_step fst snd c_tail c_head c_cache].
    rewrite toBufferEndLength_mod. by rewrite run_swap by lia.
  - replace (req >? head mod cap) with false by lia. exists cache. by rewrite run_swap by lia.
Qed.

(** A producer that is not interrupted does what the specification of a claim says, like
    the sequential [claimCapacity]. *)
Lemma run_alone_spec_ok req tail head cache :
  0 < req <= cap -> 0 <= cache <= head -> head <= tail <= head + cap -> tail - cache <= 2 * cap ->
  cap <= 536870912 -> tail + 2 * cap < 9223372036854775808 ->
  exists cache',
    run_alone 7 (PStart req) (mkCounters tail head cache) =
    match claim_spec cap head tail req with
    | Some p => (PClaimed req tail p, mkCounters (tail + req + p) head cache')
    | None => (PFailed req, mkCounters tail head cache')
    end.
Proof using Hpow.
  pose proof cap_range as Hcap.
  intros Hr Hc Ht Hs Hc2 Hmax.
  rewrite run_alone_S. cbn [producer_step fst snd c_tail c_head c_cache].
  rewrite run_alone_S. cbn [producer_step fst snd c_tail c_head c_cache].
  rewrite (i64_small (tail - cache)) by lia. rewrite (i32_small (tail - cache)), (i32_small (cap - _)) by lia.
  destruct (Z.gtb_spec req (cap - (tail - cache))) as [Hg|Hg].
  2: { apply (run_after_available 2); lia. }
  rewrite run_alone_S. cbn [producer_step fst snd c_tail c_head c_cache].
  rewrite (i64_small (tail - head)) by lia. rewrite (i32_small (tail - head)), (i32_small (cap - _)) by lia.
  destruct (Z.gtb_spec req (cap - (tail - head))) as [Hg2|Hg2].
  - exists cache. rewrite run_alone_done by done. unfold claim_spec.
    by replace (req >? cap - (tail - head)) with true by lia.
  - rewrite run_alone_S. cbn [producer_step fst snd c_tail c_head c_cache].
    apply (run_after_available 0); lia.
Qed.
End Machine.

(** ** What the claims promise *)

(** C18. The capacity is a power of two, up to a gigabyte. Producers of several processes
    claim space at the same time, their accesses to the counters interleaved in any way
    with each other's and the consumer's, as long as each access is timely ([timely]): no
    producer holds on to a head, nor the cache to its value, while two gigabytes less the
    capacity are claimed, so that the distance of tail and head, which the code takes as an
    [int32], fits, and the tail is not about to pass the largest [int64]. Then two claims that
    are not consumed yet share no byte of the buffer. *)
Theorem claims_apart cap n s i j c d k :
  (exists e, 0 <= e <= 30 /\ cap = 2 ^ e) -> reachable cap n s ->
  st_claims s !! i = Some c -> st_claims s !! j = Some d -> i <> j ->
  c_head (st_counters s) <= cl_tail c -> c_head (st_counters s) <= cl_tail d ->
  ~ (owns cap c k /\ owns cap d k).
Proof. intros Hpow ? ? ? ? ? ? [? ?]. by eapply (claims_apart_ok cap Hpow n s i j c d k). Qed.

(** A producer that is not interrupted returns after at most seven accesses, with the
    claim that the specification of the sequential [claimCapacity] describes. *)
Theorem run_alone_spec cap req tail head cache :
  (exists e, 0 <= e <= 29 /\ cap = 2 ^ e) ->
  0 < req <= cap -> 0 <= cache <= head -> head <= tail <= head + cap ->
  tail - cache <= 2 * cap -> tail + 2 * cap < 9223372036854775808 ->
  exists cache',
    run_alone cap 7 (PStart req) (mkCounters tail head cache) =
    match claim_spec cap head tail req with
    | Some p => (PClaimed req tail p, mkCounters (tail + req + p) head cache')
    | None => (PFailed req, mkCounters tail head cache')
    end.
Proof.
  intros (e & He & ->) ? ? ? ? ?. apply run_alone_spec_ok; try lia.
  - exists e. split; [lia|done].
  - apply (Z.pow_le_mono_r 2 e 29); lia.
Qed.
