(* ===== verification/Broadcast.v ===== *)
(** * The broadcast receiver

    src/aeron/broadcast: the driver transmits its answers to all clients through one ring
    of records without waiting for anybody. A receiver follows the transmitter's tail and
    must notice when the transmitter has lapped it: the transmitter announces how far it
    will write (the tail intent) before it writes. The record format is that of the ring
    buffer. *)

From S2P Require Import Prelude Memory Bits RingBuffer.

Local Open Scope m_scope.

(** ** receiver.go *)

Module BufferDescriptor.
Definition tailIntentCounterOffset : Z := 0.
Definition tailCounterOffset : Z := 8.
Definition latestCounterOffset : Z := 16.
Definition trailerLength : Z := CacheLineLength * 2.
End BufferDescriptor.

Record Receiver : Type := mkReceiver {
  rc_buffer : Buffer;
  rc_capacity : Z;
  rc_mask : Z;
  tailIntentCounterIndex : Z;
  tailCounterIndex : Z;
  latestCounterIndex : Z;
  recordOffset : Z;
  cursor : Z;
  nextRecord : Z;
  lappedCount : Z }.

(** What [receiveNext] changes. *)
Definition set_record (r : Receiver) (offset cur next lapped : Z) : Receiver :=
  mkReceiver (rc_buffer r) (rc_capacity r) (rc_mask r) (tailIntentCounterIndex r)
    (tailCounterIndex r) (latestCounterIndex r) offset cur next lapped.

Definition NewReceiver (buffer : Buffer) : option Receiver :=
  let capacity := i32 (Capacity buffer - BufferDescriptor.trailerLength) in
  if IsPowerOfTwo capacity then
    Some {| rc_buffer := buffer;
            rc_capacity := capacity;
            rc_mask := capacity - 1;
            tailIntentCounterIndex := i32 (capacity + BufferDescriptor.tailIntentCounterOffset);
            tailCounterIndex := i32 (capacity + BufferDescriptor.tailCounterOffset);
            latestCounterIndex := i32 (capacity + BufferDescriptor.latestCounterOffset);
            recordOffset := 0; cursor := 0; nextRecord := 0; lappedCount := 0 |}
  else None.

Definition validate (r : Receiver) (cur : Z) : M mem bool :=
  let! intent := GetInt64Volatile (rc_buffer r) (tailIntentCounterIndex r) in
  ret (i64 (cur + rc_capacity r) >? intent).
Definition Validate (r : Receiver) : M mem bool := validate r (cursor r).

Definition Receiver_typeID (r : Receiver) : M mem Z := GetInt32 (rc_buffer r) (TypeOffset (recordOffset r)).
Definition Receiver_offset (r : Receiver) : Z := EncodedMsgOffset (recordOffset r).
Definition Receiver_length (r : Receiver) : M mem Z :=
  let! len := GetInt32 (rc_buffer r) (LengthOffset (recordOffset r)) in
  ret (i32 (len - RecordDescriptor.HeaderLength)).

Definition receiveNext (r : Receiver) : M mem (bool * Receiver) :=
  let! tail := GetInt64Volatile (rc_buffer r) (tailCounterIndex r) in
  let cur := nextRecord r in
  if tail >? cur then
    let! valid := validate r cur in
    let! (cur, lapped) :=
      if negb valid then
        let! latest := GetInt64 (rc_buffer r) (latestCounterIndex r) in
        ret (latest, i64 (lappedCount r + 1))
      else ret (cur, lappedCount r) in
    let recOffset := i32 (Z.land cur (rc_mask r)) in
    let! len := GetInt32 (rc_buffer r) (LengthOffset recOffset) in
    let next := i64 (cur + AlignInt32 len RecordDescriptor.RecordAlignment) in
    let! typ := GetInt32 (rc_buffer r) (TypeOffset recOffset) in
    if RecordDescriptor.PaddingMsgTypeID =? typ then
      let! len := GetInt32 (rc_buffer r) (LengthOffset 0) in
      ret (true, set_record r 0 next (i64 (next + AlignInt32 len RecordDescriptor.RecordAlignment)) lapped)
    else ret (true, set_record r recOffset cur next lapped)
  else ret (false, r).

(** ** copyreceiver.go *)

Definition Handler (U : Type) : Type := Z -> Buffer -> Z -> Z -> M (mem * U) unit.

Record CopyReceiver : Type := mkCopyReceiver { cr_receiver : Receiver; cr_scratch : Buffer }.

(** Scroll to the latest record; the fuel bounds the records that may be there. *)
Fixpoint scroll (fuel : nat) (r : Receiver) : M mem Receiver :=
  match fuel with
  | O => raise EFuel
  | S fuel' =>
      let! (available, r) := receiveNext r in
      if available then scroll fuel' r else ret r
  end.

(** The 4096 byte scratch buffer is allocated by the runtime, at [scratch]. *)
Definition NewCopyReceiver (fuel : nat) (r : Receiver) (scratch : Z) : M mem CopyReceiver :=
  let! r := scroll fuel r in
  ret (mkCopyReceiver r (Buffer_Wrap scratch 4096)).

Definition CopyReceiver_Receive {U} (bcast : CopyReceiver) (handler : Handler U)
  : M (mem * U) (Z * CopyReceiver) :=
  let lastSeenLappedCount := lappedCount (cr_receiver bcast) in
  let! (available, r) := on_fst (receiveNext (cr_receiver bcast)) in
  let bcast := mkCopyReceiver r (cr_scratch bcast) in
  if available then
    if negb (lastSeenLappedCount =? lappedCount r) then panic "Unable to keep up with broadcast buffer"
    else
      let! len := on_fst (Receiver_length r) in
      if len >? Capacity (cr_scratch bcast) then panic "Buffer required size"
      else
        let! msgTypeID := on_fst (Receiver_typeID r) in
        on_fst (PutBytes (cr_scratch bcast) 0 (rc_buffer r) (Receiver_offset r) len) ;;;
        let! valid := on_fst (Validate r) in
        if negb valid then panic "Unable to keep up with broadcast buffer"
        else
          handler msgTypeID (cr_scratch bcast) 0 len ;;;
          ret (1, bcast)
  else ret (0, bcast).

(** ** Well-formed receivers *)

Record bc_ok (m : mem) (r : Receiver) (tail intent : Z) : Prop := {
  bo_buf : buf_ok m (rc_buffer r);
  bo_cap : exists k, 6 <= k <= 29 /\ rc_capacity r = 2 ^ k;
  bo_mask : rc_mask r = rc_capacity r - 1;
  bo_len : buf_length (rc_buffer r) = rc_capacity r + 128;
  bo_intentIx : tailIntentCounterIndex r = rc_capacity r;
  bo_tailIx : tailCounterIndex r = rc_capacity r + 8;
  bo_latestIx : latestCounterIndex r = rc_capacity r + 16;
  bo_intent : rd_i64 m (bufferPtr (rc_buffer r) + rc_capacity r) = intent;
  bo_tail : rd_i64 m (bufferPtr (rc_buffer r) + (rc_capacity r + 8)) = tail;
  bo_next : 0 <= nextRecord r < 4611686018427387904 }.

Lemma bc_cap_range m r tail intent :
  bc_ok m r tail intent -> 64 <= rc_capacity r <= 536870912 /\ rc_capacity r mod 8 = 0 /\
  forall z, Z.land z (rc_mask r) = z mod rc_capacity r.
Proof.
  intros Hr. rewrite (bo_mask _ _ _ _ Hr). destruct (bo_cap _ _ _ _ Hr) as (k & Hk & ->).
  assert (64 <= 2 ^ k) by (apply (Z.pow_le_mono_r 2 6); lia).
  assert (2 ^ k <= 536870912) by (apply (Z.pow_le_mono_r 2 _ 29); lia).
  split_and!; try lia.
  - replace k with (k - 3 + 3) by lia. rewrite Z.pow_add_r by lia. apply Z.mod_mul. lia.
  - intros z. replace (2 ^ k - 1) with (Z.ones k) by (rewrite Z.ones_equiv; lia). apply Z.land_ones. lia.
Qed.

(** A transmitter's entry: padding fills the rest of the buffer. *)
Definition pad_ok (cap pos n : Z) : Prop := pos mod cap + n = cap /\ n mod 8 = 0 /\ 8 <= n.

Section Receive.
Context (m : mem) (r : Receiver) (tail intent : Z) (Hr : bc_ok m r tail intent).

Local Abbreviation cap := (rc_capacity r).
Local Abbreviation p0 := (bufferPtr (rc_buffer r)).
Local Abbreviation next := (nextRecord r).

Lemma validate_ok cur :
  0 <= cur < 4611686019501129728 -> validate r cur m = Ret (cur + cap >? intent) m.
Proof using Hr.
  intros. destruct (bc_cap_range _ _ _ _ Hr) as (? & _ & _). pose proof (bo_len _ _ _ _ Hr).
  unfold validate. rewrite (bo_intentIx _ _ _ _ Hr).
  erewrite bind_Ret by (apply GetInt64Volatile_ok; [apply Hr|lia..]).
  rewrite (bo_intent _ _ _ _ Hr), i64_small by lia. done.
Qed.

Lemma Get_tail : GetInt64Volatile (rc_buffer r) (tailCounterIndex r) m = Ret tail m.
Proof using Hr.
  destruct (bc_cap_range _ _ _ _ Hr) as (? & _ & _). pose proof (bo_len _ _ _ _ Hr).
  rewrite (bo_tailIx _ _ _ _ Hr). rewrite GetInt64Volatile_ok by (apply Hr || lia).
  by rewrite (bo_tail _ _ _ _ Hr).
Qed.

(** Nothing new. *)
Lemma receiveNext_none : tail <= next -> receiveNext r m = Ret (false, r) m.
Proof using Hr.
  intros. unfold receiveNext. erewrite bind_Ret by apply Get_tail.
  by replace (tail >? next) with false by lia.
Qed.

(** The header of an entry at an index. *)
Lemma Get_header i :
  0 <= i -> i + 8 <= cap ->
  GetInt32 (rc_buffer r) (LengthOffset i) m = Ret (rd_i32 m (p0 + i)) m /\
  GetInt32 (rc_buffer r) (TypeOffset i) m = Ret (rd_i32 m (p0 + i + 4)) m.
Proof using Hr.
  intros. destruct (bc_cap_range _ _ _ _ Hr) as (? & _ & _). pose proof (bo_len _ _ _ _ Hr).
  unfold LengthOffset, TypeOffset. rewrite i32_small by lia. rewrite <- Z.add_assoc.
  split; apply GetInt32_ok; try apply Hr; lia.
Qed.

(** The receiver at the message that [receiveNext] finds at position [pos]. *)
Definition at_record (pos : Z) (d : list Init.Byte.byte) : Receiver :=
  set_record r (pos mod cap) pos (pos + rec_space (zlen d)) (lappedCount r).

(** The next entry is a message: the receiver moves to it. *)
Lemma receiveNext_msg t d :
  next < tail -> intent < next + cap -> 1 <= t ->
  ring_seg m p0 cap next [Msg t d] ->
  receiveNext r m = Ret (true, at_record next d) m.
Proof using Hr.
  intros Ht Hi Htype (Hin & Hused & (Hlen & Hty & _) & _). cbn [entry_space entry_used] in *.
  destruct (bc_cap_range _ _ _ _ Hr) as (? & _ & Hland). pose proof (bo_next _ _ _ _ Hr).
  pose proof (Z.mod_pos_bound next cap ltac:(lia)). pose proof (zlen_nonneg d).
  destruct (Get_header (next mod cap)) as [HL HT]; [lia..|].
  unfold receiveNext. erewrite bind_Ret by apply Get_tail.
  replace (tail >? next) with true by lia. erewrite bind_Ret by (apply validate_ok; lia).
  replace (next + cap >? intent) with true by lia. cbn [negb]. rewrite bind_ret_l.
  rewrite Hland, i32_small by lia.
  erewrite bind_Ret by exact HL. erewrite bind_Ret by exact HT. rewrite Hlen, Hty.
  unfold RecordDescriptor.PaddingMsgTypeID, RecordDescriptor.RecordAlignment.
  rewrite (proj2 (Z.eqb_neq _ _)) by lia. rewrite AlignInt32_8 by lia.
  fold (rec_space (zlen d)). unfold rec_space in *. by rewrite i64_small by lia.
Qed.

(** The next entry is padding: the receiver skips it and moves to the message behind it,
    at the start of the buffer. *)
Lemma receiveNext_pad n t d :
  next < tail -> intent < next + cap -> 1 <= t -> pad_ok cap next n ->
  ring_seg m p0 cap next [Pad n; Msg t d] ->
  receiveNext r m = Ret (true, at_record (next + n) d) m.
Proof using Hr.
  intros Ht Hi Htype (Hp & Hp8 & Hp1) (Hin & _ & (Hlen & Hty) & Hin2 & Hused & (Hlen2 & Hty2 & _) & _).
  cbn [entry_space entry_used] in *.
  destruct (bc_cap_range _ _ _ _ Hr) as (? & _ & Hland). pose proof (bo_next _ _ _ _ Hr).
  pose proof (Z.mod_pos_bound next cap ltac:(lia)). pose proof (zlen_nonneg d).
  assert (Hz : (next + n) mod cap = 0).
  { rewrite Z.add_mod by lia. rewrite (Z.mod_eq n cap) by lia.
    destruct (decide (next mod cap = 0)).
    - replace n with cap by lia. rewrite Z.div_same by lia.
      replace (next mod cap + (cap - cap * 1)) with 0 by lia. apply Z.mod_0_l. lia.
    - rewrite Z.div_small by lia. replace (next mod cap + (n - cap * 0)) with cap by lia. apply Z.mod_same. lia. }
  rewrite Hz in *. rewrite Z.add_0_r in Hlen2, Hty2.
  destruct (Get_header (next mod cap)) as [HL HT]; [lia..|].
  destruct (Get_header 0) as [HL2 HT2]; [lia..|].
  unfold receiveNext. erewrite bind_Ret by apply Get_tail.
  replace (tail >? next) with true by lia. erewrite bind_Ret by (apply validate_ok; lia).
  replace (next + cap >? intent) with true by lia. cbn [negb]. rewrite bind_ret_l.
  rewrite Hland, i32_small by lia.
  erewrite bind_Ret by exact HL. erewrite bind_Ret by exact HT. rewrite Hlen, Hty.
  unfold RecordDescriptor.PaddingMsgTypeID, RecordDescriptor.RecordAlignment. rewrite Z.eqb_refl.
  erewrite bind_Ret by exact HL2. rewrite Z.add_0_r, Hlen2.
  rewrite !AlignInt32_8 by lia. rewrite (align_up_id n) by (done || lia).
  fold (rec_space (zlen d)). unfold at_record. rewrite Hz. unfold rec_space in *.
  rewrite (i64_small (next + n)), i64_small by lia. done.
Qed.

(** The transmitter is a lap ahead: the receiver notices, counts it and jumps to the
    latest record. *)
Lemma receiveNext_lapped t d latest :
  next < tail -> next + cap <= intent -> 1 <= t ->
  rd_i64 m (p0 + (cap + 16)) = latest -> 0 <= latest < 4611686018427387904 ->
  ring_seg m p0 cap latest [Msg t d] -> 0 <= lappedCount r < 9223372036854775807 ->
  receiveNext r m =
  Ret (true, set_record r (latest mod cap) latest (latest + rec_space (zlen d)) (lappedCount r + 1)) m.
Proof using Hr.
  intros Ht Hi Htype Hlat Hlr (Hin & Hused & (Hlen & Hty & _) & _) Hcount. cbn [entry_space entry_used] in *.
  destruct (bc_cap_range _ _ _ _ Hr) as (? & _ & Hland). pose proof (bo_next _ _ _ _ Hr).
  pose proof (bo_len _ _ _ _ Hr).
  pose proof (Z.mod_pos_bound latest cap ltac:(lia)). pose proof (zlen_nonneg d).
  destruct (Get_header (latest mod cap)) as [HL HT]; [lia..|].
  unfold receiveNext. erewrite bind_Ret by apply Get_tail.
  replace (tail >? next) with true by lia. erewrite bind_Ret by (apply validate_ok; lia).
  replace (next + cap >? intent) with false by lia. cbn [negb].
  rewrite bind_assoc. rewrite (bo_latestIx _ _ _ _ Hr).
  erewrite bind_Ret by (apply GetInt64_ok; [apply Hr|lia..]). rewrite bind_ret_l, Hlat.
  rewrite Hland, (i32_small (latest mod cap)) by lia.
  erewrite bind_Ret by exact HL. erewrite bind_Ret by exact HT. rewrite Hlen, Hty.
  unfold RecordDescriptor.PaddingMsgTypeID, RecordDescriptor.RecordAlignment.
  rewrite (proj2 (Z.eqb_neq _ _)) by lia. rewrite AlignInt32_8 by lia.
  fold (rec_space (zlen d)). unfold rec_space in *. rewrite !i64_small by lia. done.
Qed.
End Receive.

(** ** A validated copy is intact *)

(** While the receiver copies, the transmitter may write at the positions from the tail it
    had up to its tail intent. If the validation after the copy passes, none of these is
    in the record. *)
Lemma validated_intact m m' base cap pos e intent :
  0 < cap -> ring_seg m base cap pos [e] ->
  (forall i, base <= i < base + cap ->
     (forall q, pos + entry_space e <= q < intent -> i <> base + q mod cap) -> m' !! i = m !! i) ->
  intent < pos + cap ->
  entry_at m' (base + pos mod cap) e.
Proof.
  intros Hc (Hin & Hused & He & _) Hext Hint. eapply entry_at_ext; [|exact He].
  pose proof (entry_used_ge e). pose proof (Z.mod_pos_bound pos cap Hc).
  intros i Hi. apply Hext; [lia|]. intros q Hq E.
  apply (index_inj cap (pos + (i - (base + pos mod cap))) q); [lia|lia|].
  rewrite index_add by lia. lia.
Qed.

(** ** Receiving *)

Lemma length_offset r pos d m tail intent t :
  bc_ok m r tail intent -> ring_seg m (bufferPtr (rc_buffer r)) (rc_capacity r) pos [Msg t d] ->
  let r' := at_record r pos d in
  Receiver_length r' m = Ret (zlen d) m /\ Receiver_typeID r' m = Ret t m /\ Receiver_offset r' = pos mod rc_capacity r + 8.
Proof.
  intros Hr (Hin & Hused & (Hlen & Hty & _) & _) r'. cbn [entry_space entry_used] in *.
  destruct (bc_cap_range _ _ _ _ Hr) as (? & _ & _). pose proof (zlen_nonneg d).
  pose proof (Z.mod_pos_bound pos (rc_capacity r) ltac:(lia)).
  destruct (Get_header m r tail intent Hr (pos mod rc_capacity r)) as [HL HT]; [lia..|].
  unfold Receiver_length, Receiver_typeID, Receiver_offset, EncodedMsgOffset, RecordDescriptor.HeaderLength, r'.
  cbn [at_record set_record rc_buffer recordOffset].
  split_and!.
  - erewrite bind_Ret by exact HL. rewrite Hlen. unfold ret. f_equal. rewrite i32_small; lia.
  - by rewrite HT, Hty.
  - rewrite i32_small; lia.
Qed.

(** One receive hands the next message over: its type and a copy of its bytes at the start
    of the scratch buffer. *)
Lemma Receive_msg_ok {U} m r tail intent scratch (handler : Handler U) u t d pad :
  bc_ok m r tail intent -> buf_ok m scratch ->
  disjoint (bufferPtr scratch) (buf_length scratch) (bufferPtr (rc_buffer r)) (buf_length (rc_buffer r)) ->
  nextRecord r < tail -> intent < nextRecord r + rc_capacity r -> 1 <= t ->
  (pad = [] \/ exists n, pad = [Pad n] /\ pad_ok (rc_capacity r) (nextRecord r) n) ->
  ring_seg m (bufferPtr (rc_buffer r)) (rc_capacity r) (nextRecord r) (pad ++ [Msg t d]) ->
  zlen d <= buf_length scratch ->
  let pos := nextRecord r + ring_space pad in
  let r' := at_record r pos d in
  let m' := wr m (bufferPtr scratch) d in
  CopyReceiver_Receive (mkCopyReceiver r scratch) handler (m, u) =
  bind (handler t scratch 0 (zlen d)) (fun _ => ret (1, mkCopyReceiver r' scratch)) (m', u).
Proof.
  intros Hr Hsc Hdis Ht Hi Htype Hpad Hseg Hlen pos r' m'.
  destruct (bc_cap_range _ _ _ _ Hr) as (? & _ & _). pose proof (bo_next _ _ _ _ Hr).
  pose proof (bo_len _ _ _ _ Hr). pose proof (zlen_nonneg d).
  assert (Hnext : receiveNext r m = Ret (true, r') m /\ 0 <= ring_space pad <= rc_capacity r).
  { pose proof (Z.mod_pos_bound (nextRecord r) (rc_capacity r) ltac:(lia)).
    destruct Hpad as [->|(n & -> & Hn)]; unfold r', pos; simpl ring_space; rewrite ?Z.add_0_r.
    - split; [|lia]. by apply (receiveNext_msg m r tail intent Hr t).
    - split; [|destruct Hn; lia]. by apply (receiveNext_pad m r tail intent Hr n t). }
  destruct Hnext as [Hnext Hsp]. apply ring_seg_app in Hseg as [_ Hseg]. fold pos in Hseg.
  destruct (length_offset r pos d m tail intent t Hr Hseg) as (HL & HT & HO). fold r' in HL, HT, HO.
  destruct Hseg as (Hin & Hused & (_ & _ & Hdat) & _). cbn [entry_space entry_used] in *.
  pose proof (Z.mod_pos_bound pos (rc_capacity r) ltac:(lia)).
  unfold CopyReceiver_Receive. cbn [cr_receiver cr_scratch].
  erewrite bind_Ret by (apply on_fst_Ret, Hnext). cbv beta iota.
  change (lappedCount r') with (lappedCount r). rewrite Z.eqb_refl. cbn [negb].
  erewrite bind_Ret by (apply on_fst_Ret, HL).
  unfold Capacity. replace (zlen d >? buf_length scratch) with false by lia.
  erewrite bind_Ret by (apply on_fst_Ret, HT). rewrite HO.
  change (rc_buffer r') with (rc_buffer r).
  erewrite bind_Ret by (apply on_fst_Ret, PutBytes_ok; try done; [apply Hr|lia..]).
  rewrite Z.add_0_r. rewrite Z.add_assoc. replace (Z.to_nat (zlen d)) with (length d) by (unfold zlen; lia). rewrite Hdat. fold m'.
  assert (Hr' : bc_ok m' r tail intent).
  { destruct Hr as [Hb Hc Hm Hl ? ? ? ? ? ?]. unfold disjoint in Hdis.
    constructor; try done; unfold m'; [by apply buf_ok_wr|mem_simpl; done..]. }
  erewrite bind_Ret.
  2: { apply on_fst_Ret. change (Validate r' m') with (validate r (cursor r') m').
       apply (validate_ok m' r tail intent Hr'). change (cursor r') with pos. unfold pos. lia. }
  change (cursor r') with pos. replace (pos + rc_capacity r >? intent) with true by (unfold pos; lia).
  done.
Qed.

(** ** What the receiver promises *)

(** ** Skipping what is there *)

(** What a transmitter writes at once: a message, perhaps behind padding. *)
Definition packet : Type := option Z * (Z * list Init.Byte.byte).

Definition packet_entries (p : packet) : list entry :=
  match p with (Some n, (t, d)) => [Pad n; Msg t d] | (None, (t, d)) => [Msg t d] end.

Fixpoint packets_ok (cap pos : Z) (ps : list packet) : Prop :=
  match ps with
  | [] => True
  | p :: ps' =>
      1 <= p.2.1 /\ match p.1 with Some n => pad_ok cap pos n | None => True end /\
      packets_ok cap (pos + ring_space (packet_entries p)) ps'
  end.

Lemma packet_space_pos p :
  match p.1 with Some n => 8 <= n | None => True end -> 0 < ring_space (packet_entries p).
Proof.
  destruct p as [[n|] [t d]]; cbn; intros; pose proof (zlen_nonneg d);
    pose proof (align_up_spec (zlen d + 8) 8 ltac:(lia)); unfold rec_space; lia.
Qed.

(** A new copying receiver is behind everything that was transmitted before; it needs one
    round more than there are messages. *)
Lemma scroll_skips m intent tail ps : forall r fuel,
  bc_ok m r tail intent -> intent < nextRecord r + rc_capacity r ->
  packets_ok (rc_capacity r) (nextRecord r) ps ->
  ring_seg m (bufferPtr (rc_buffer r)) (rc_capacity r) (nextRecord r) (concat (map packet_entries ps)) ->
  nextRecord r + ring_space (concat (map packet_entries ps)) = tail -> tail < 4611686018427387904 ->
  (length ps < fuel)%nat ->
  exists r', scroll fuel r m = Ret r' m /\ bc_ok m r' tail intent /\ nextRecord r' = tail /\
    rc_buffer r' = rc_buffer r /\ lappedCount r' = lappedCount r.
Proof.
  induction ps as [|p ps IH]; intros r [|fuel] Hr Hint Hps Hseg Htail Hlt Hfuel; cbn [length] in Hfuel; try lia.
  { cbn [concat map ring_space] in Htail. exists r. cbn [scroll].
    erewrite bind_Ret by (eapply receiveNext_none; [exact Hr|lia]). split_and!; done || lia. }
  destruct Hps as (Ht & Hpad & Hps). cbn [map concat] in Hseg, Htail.
  apply ring_seg_app in Hseg as [Hseg1 Hseg2]. rewrite ring_space_app in Htail.
  pose proof (ring_space_nonneg _ _ _ _ _ Hseg2) as Hrest.
  assert (Hpos : 0 < ring_space (packet_entries p)).
  { apply packet_space_pos. destruct p as [[n|] ?]; [apply Hpad|done]. }
  pose proof (bo_next _ _ _ _ Hr).
  assert (Hnext : exists r1, receiveNext r m = Ret (true, r1) m /\ bc_ok m r1 tail intent /\
    nextRecord r1 = nextRecord r + ring_space (packet_entries p) /\ rc_capacity r1 = rc_capacity r /\
    rc_buffer r1 = rc_buffer r /\ lappedCount r1 = lappedCount r).
  { destruct p as [[n|] [t d]]; cbn [fst snd packet_entries] in *.
    - exists (at_record r (nextRecord r + n) d). split; [by apply receiveNext_pad with tail intent t; try lia|].
      cbn [ring_space entry_space] in *. split_and!; [|cbn; lia|done..].
      destruct Hr. constructor; try done. cbn. lia.
    - exists (at_record r (nextRecord r) d). split; [by apply receiveNext_msg with tail intent t; try lia|].
      cbn [ring_space entry_space] in *. split_and!; [|cbn; lia|done..].
      destruct Hr. constructor; try done. cbn. lia. }
  destruct Hnext as (r1 & Hrun & Hr1 & Hn & Hc & Hb & Hl).
  destruct (IH r1 fuel) as (r' & Hs & Hr' & Hn' & Hb' & Hl'); rewrite ?Hc, ?Hb, ?Hn; try done; try lia.
  exists r'. cbn [scroll]. erewrite bind_Ret by exact Hrun. split_and!; try done; congruence.
Qed.

(** One receive on a receiver that keeps up hands the next message over: its type and
    a copy of its bytes at the start of the scratch buffer, skipping padding at the end of
    the buffer; the receiver is then behind that message. *)
Theorem Receive_delivers {U} m r tail intent scratch (handler : Handler U) u t d pad :
  bc_ok m r tail intent -> buf_ok m scratch ->
  disjoint (bufferPtr scratch) (buf_length scratch) (bufferPtr (rc_buffer r)) (buf_length (rc_buffer r)) ->
  nextRecord r < tail -> intent < nextRecord r + rc_capacity r -> 1 <= t ->
  (pad = [] \/ exists n, pad = [Pad n] /\ pad_ok (rc_capacity r) (nextRecord r) n) ->
  ring_seg m (bufferPtr (rc_buffer r)) (rc_capacity r) (nextRecord r) (pad ++ [Msg t d]) ->
  zlen d <= buf_length scratch ->
  let r' := at_record r (nextRecord r + ring_space pad) d in
  CopyReceiver_Receive (mkCopyReceiver r scratch) handler (m, u) =
  bind (handler t scratch 0 (zlen d)) (fun _ => ret (1, mkCopyReceiver r' scratch))
    (wr m (bufferPtr scratch) d, u).
Proof. intros. by eapply Receive_msg_ok. Qed.

(** C37. The transmitter may write while the receiver copies: at the positions from behind
    the record up to the tail intent it announced. When [Validate] passes, none of its
    writes has touched the record, so what was copied is what was sent. *)
Theorem Validate_means_intact m m' r tail intent pos t d :
  bc_ok m' r tail intent -> 0 <= pos < 4611686018427387904 ->
  ring_seg m (bufferPtr (rc_buffer r)) (rc_capacity r) pos [Msg t d] ->
  (forall i, bufferPtr (rc_buffer r) <= i < bufferPtr (rc_buffer r) + rc_capacity r ->
     (forall q, pos + rec_space (zlen d) <= q < intent ->
        i <> bufferPtr (rc_buffer r) + q mod rc_capacity r) -> m' !! i = m !! i) ->
  Validate (at_record r pos d) m' = Ret true m' ->
  entry_at m' (bufferPtr (rc_buffer r) + pos mod rc_capacity r) (Msg t d).
Proof.
  intros Hr Hpos Hseg Hext Hval. destruct (bc_cap_range _ _ _ _ Hr) as (? & _ & _).
  change (Validate (at_record r pos d) m') with (validate r pos m') in Hval.
  rewrite (validate_ok m' r tail intent Hr pos) in Hval by lia. injection Hval as Hval.
  eapply (validated_intact m m'); [lia|exact Hseg|exact Hext|lia].
Qed.

(** A receiver that was overtaken by a lap does not hand over what it finds: it counts
    the lap, moves to the latest record and stops the caller. *)
Theorem Receive_lapped_stops {U} m r tail intent scratch (handler : Handler U) u t d latest :
  bc_ok m r tail intent -> nextRecord r < tail -> nextRecord r + rc_capacity r <= intent -> 1 <= t ->
  rd_i64 m (bufferPtr (rc_buffer r) + (rc_capacity r + 16)) = latest ->
  0 <= latest < 4611686018427387904 ->
  ring_seg m (bufferPtr (rc_buffer r)) (rc_capacity r) latest [Msg t d] ->
  0 <= lappedCount r < 9223372036854775807 ->
  receiveNext r m = Ret (true, set_record r (latest mod rc_capacity r) latest
                                 (latest + rec_space (zlen d)) (lappedCount r + 1)) m /\
  CopyReceiver_Receive (mkCopyReceiver r scratch) handler (m, u) =
  Exc (EPanic "Unable to keep up with broadcast buffer") (m, u).
Proof.
  intros Hr ? ? ? ? ? ? ?. pose proof (receiveNext_lapped m r tail intent Hr t d latest) as Hn.
  split; [by apply Hn|]. unfold CopyReceiver_Receive. cbn [cr_receiver cr_scratch].
  erewrite bind_Ret by (by apply on_fst_Ret, Hn). cbn [lappedCount set_record].
  rewrite (proj2 (Z.eqb_neq _ _)) by lia. done.
Qed.
