(* ===== verification/Cnc.v ===== *)
(** * The command and control file

    counters/counters.go: the metadata at the start of the file that the driver shares with
    its clients, and the division of the rest into the buffers of the two. *)

From S2P Require Import Prelude Memory Bits Flyweight.

Local Open Scope m_scope.

Definition CurrentCncVersion : Z := 512.

Record MetaDataFlyweight : Type := mkMetaData {
  CncVersion : Int32Field;
  toDriverBufLen : Int32Field; toClientBufLen : Int32Field; metadataBufLen : Int32Field;
  valuesBufLen : Int32Field; errorLogLen : Int32Field;
  ClientLivenessTo : Int64Field; DriverStartTimestamp : Int64Field; DriverPid : Int64Field;
  ToDriverBuf : RawDataField; ToClientsBuf : RawDataField; MetaDataBuf : RawDataField;
  ValuesBuf : RawDataField; ErrorBuf : RawDataField;
  cnc_size : Z }.

(** The five buffers are adjacent, with the lengths that the metadata gives. *)
Definition MetaDataFlyweight_Wrap (buf : Buffer) (offset : Z) : M mem MetaDataFlyweight :=
  let pos := offset in
  let! (version, n) := Int32Field_Wrap buf pos in let pos := pos + n in
  let! (driverLen, n) := Int32Field_Wrap buf pos in let pos := pos + n in
  let! (clientLen, n) := Int32Field_Wrap buf pos in let pos := pos + n in
  let! (metaLen, n) := Int32Field_Wrap buf pos in let pos := pos + n in
  let! (valuesLen, n) := Int32Field_Wrap buf pos in let pos := pos + n in
  let! (errorLen, n) := Int32Field_Wrap buf pos in let pos := pos + n in
  let! (liveness, n) := Int64Field_Wrap buf pos in let pos := pos + n in
  let! (start, n) := Int64Field_Wrap buf pos in let pos := pos + n in
  let! (pid, n) := Int64Field_Wrap buf pos in let pos := pos + n in
  let pos := AlignInt32 (i32 pos) (CacheLineLength * 2) in
  let! len := Int32Field_Get driverLen in
  let! (toDriver, n) := RawDataField_Wrap buf pos len in let pos := pos + n in
  let! len := Int32Field_Get clientLen in
  let! (toClients, n) := RawDataField_Wrap buf pos len in let pos := pos + n in
  let! len := Int32Field_Get metaLen in
  let! (meta, n) := RawDataField_Wrap buf pos len in let pos := pos + n in
  let! len := Int32Field_Get valuesLen in
  let! (values, n) := RawDataField_Wrap buf pos len in let pos := pos + n in
  let! len := Int32Field_Get errorLen in
  let! (errors, n) := RawDataField_Wrap buf pos len in let pos := pos + n in
  ret (mkMetaData version driverLen clientLen metaLen valuesLen errorLen liveness start pid
         toDriver toClients meta values errors (pos - offset)).

(** Why a file was not mapped. *)
Inductive cncError : Type := ErrMap | ErrCncVersion (version : Z).

(** [map_file] is the mapping of the whole file: its address and its size, if it succeeds.
    [MakeBuffer] converts the size to an int32. The layout is read before the version is. *)
Definition MapFile (map_file : option (Z * Z)) : M mem (MetaDataFlyweight * Z + cncError) :=
  match map_file with
  | None => ret (inr ErrMap)
  | Some (ptr, size) =>
      let cncBuffer := Buffer_Wrap ptr (i32 size) in
      let! meta := MetaDataFlyweight_Wrap cncBuffer 0 in
      let! cncVer := Int32Field_Get (CncVersion meta) in
      if negb (CurrentCncVersion =? cncVer) then ret (inr (ErrCncVersion cncVer))
      else ret (inl (meta, ptr))
  end.

(** ** The layout *)

(** A mapped file whose metadata gives the five lengths [d], [c], [k], [v] and [e], which fit
    in it. *)
Record cnc_file (m : mem) (ptr size version d c k v e : Z) : Prop := {
  cn_region : region_ok m ptr size;
  cn_top : ptr + size < 18446744073709551616;
  cn_size : 128 + d + c + k + v + e <= size < 2147483648;
  cn_lengths : 0 <= d /\ 0 <= c /\ 0 <= k /\ 0 <= v /\ 0 <= e;
  cn_version : rd_i32 m ptr = version;
  cn_driver : rd_i32 m (ptr + 4) = d;
  cn_clients : rd_i32 m (ptr + 8) = c;
  cn_meta : rd_i32 m (ptr + 12) = k;
  cn_values : rd_i32 m (ptr + 16) = v;
  cn_errors : rd_i32 m (ptr + 20) = e }.

Definition cnc_layout (ptr d c k v e : Z) : MetaDataFlyweight := {|
  CncVersion := mkInt32Field ptr;
  toDriverBufLen := mkInt32Field (ptr + 4); toClientBufLen := mkInt32Field (ptr + 8);
  metadataBufLen := mkInt32Field (ptr + 12); valuesBufLen := mkInt32Field (ptr + 16);
  errorLogLen := mkInt32Field (ptr + 20);
  ClientLivenessTo := mkInt64Field (ptr + 24); DriverStartTimestamp := mkInt64Field (ptr + 32);
  DriverPid := mkInt64Field (ptr + 40);
  ToDriverBuf := mkBuffer (ptr + 128) d; ToClientsBuf := mkBuffer (ptr + 128 + d) c;
  MetaDataBuf := mkBuffer (ptr + 128 + d + c) k; ValuesBuf := mkBuffer (ptr + 128 + d + c + k) v;
  ErrorBuf := mkBuffer (ptr + 128 + d + c + k + v) e;
  cnc_size := 128 + d + c + k + v + e |}.

Section Layout.
Context (m : mem) (ptr size version d c k v e : Z) (Hf : cnc_file m ptr size version d c k v e).

Lemma cnc_buffer_ok : buf_ok m (mkBuffer ptr size).
Proof using Hf. destruct Hf. split; cbn; [done|lia]. Qed.

(** One of the buffers behind the metadata. *)
Lemma cnc_part_ok pos len : 0 <= pos -> 0 <= len -> pos + len <= size -> buf_ok m (mkBuffer (ptr + pos) len).
Proof using Hf.
  intros. destruct Hf. split; cbn; [|lia]. eapply region_ok_sub; [exact cn_region0|lia..].
Qed.

Lemma cnc_length o : 0 <= o -> o + 4 <= 128 -> Int32Field_Get (mkInt32Field (ptr + o)) m = Ret (rd_i32 m (ptr + o)) m.
Proof using Hf.
  intros. destruct Hf as [Hr ? ? ? _ _ _ _ _ _]. apply Int32Field_Get_ok. eapply region_ok_sub; [exact Hr|..]; cbn; lia.
Qed.

Lemma raw_wrap pos len (k' : RawDataField * Z -> M mem MetaDataFlyweight) :
  0 <= pos -> 0 <= len -> pos + len <= size ->
  bind (RawDataField_Wrap (mkBuffer ptr size) pos len) k' m = k' (mkBuffer (ptr + pos) len, len) m.
Proof using Hf.
  intros. destruct Hf as [(Hp1&Hp2&Hp3&_) ? ? _ _ _ _ _ _ _]. unfold RawDataField_Wrap, Buffer_Wrap, Ptr, ptr_add.
  rewrite bind_ret_l. cbn [bufferPtr]. by rewrite u64_small by lia.
Qed.

Lemma MetaDataFlyweight_Wrap_ok :
  MetaDataFlyweight_Wrap (mkBuffer ptr size) 0 m = Ret (cnc_layout ptr d c k v e) m.
Proof using Hf.
  pose proof cnc_buffer_ok as Hb. pose proof (cn_size _ _ _ _ _ _ _ _ _ Hf). pose proof (cn_lengths _ _ _ _ _ _ _ _ _ Hf).
  unfold MetaDataFlyweight_Wrap.
  repeat (erewrite bind_Ret;
    [|first [ apply Int64Field_Wrap_ok; [exact Hb|cbn; lia..] | apply Int32Field_Wrap_ok; [exact Hb|cbn; lia..] ]];
    cbv beta iota zeta).
  change (AlignInt32 _ _) with 128. cbn [bufferPtr].
  change (ptr + (0 + 4)) with (ptr + 4). change (ptr + (0 + 4 + 4)) with (ptr + 8).
  change (ptr + (0 + 4 + 4 + 4)) with (ptr + 12). change (ptr + (0 + 4 + 4 + 4 + 4)) with (ptr + 16).
  change (ptr + (0 + 4 + 4 + 4 + 4 + 4)) with (ptr + 20). change (ptr + (0 + 4 + 4 + 4 + 4 + 4 + 4)) with (ptr + 24).
  change (ptr + (0 + 4 + 4 + 4 + 4 + 4 + 4 + 8)) with (ptr + 32). change (ptr + (0 + 4 + 4 + 4 + 4 + 4 + 4 + 8 + 8)) with (ptr + 40).
  erewrite bind_Ret by (apply cnc_length; lia). rewrite (cn_driver _ _ _ _ _ _ _ _ _ Hf), raw_wrap by lia. cbv beta iota zeta.
  erewrite bind_Ret by (apply cnc_length; lia). rewrite (cn_clients _ _ _ _ _ _ _ _ _ Hf), raw_wrap by lia. cbv beta iota zeta.
  erewrite bind_Ret by (apply cnc_length; lia). rewrite (cn_meta _ _ _ _ _ _ _ _ _ Hf), raw_wrap by lia. cbv beta iota zeta.
  erewrite bind_Ret by (apply cnc_length; lia). rewrite (cn_values _ _ _ _ _ _ _ _ _ Hf), raw_wrap by lia. cbv beta iota zeta.
  erewrite bind_Ret by (apply cnc_length; lia). rewrite (cn_errors _ _ _ _ _ _ _ _ _ Hf), raw_wrap by lia. cbv beta iota zeta.
  unfold ret, cnc_layout. rewrite !Z.add_assoc, Z.add_0_r, Z.sub_0_r. done.
Qed.
End Layout.

(** A file of the current version is divided, behind its metadata, in the five buffers of
    the lengths it gives: each is mapped memory, and they follow each other without a gap. A
    file of another version is refused. *)
Lemma MapFile_ok m ptr size version d c k v e :
  cnc_file m ptr size version d c k v e ->
  MapFile (Some (ptr, size)) m =
    Ret (if decide (version = CurrentCncVersion) then inl (cnc_layout ptr d c k v e, ptr) else inr (ErrCncVersion version)) m /\
  let l := cnc_layout ptr d c k v e in
  Forall (buf_ok m) [ToDriverBuf l; ToClientsBuf l; MetaDataBuf l; ValuesBuf l; ErrorBuf l] /\
  map buf_length [ToDriverBuf l; ToClientsBuf l; MetaDataBuf l; ValuesBuf l; ErrorBuf l] = [d; c; k; v; e] /\
  bufferPtr (ToClientsBuf l) = bufferPtr (ToDriverBuf l) + d /\ bufferPtr (MetaDataBuf l) = bufferPtr (ToClientsBuf l) + c /\
  bufferPtr (ValuesBuf l) = bufferPtr (MetaDataBuf l) + k /\ bufferPtr (ErrorBuf l) = bufferPtr (ValuesBuf l) + v.
Proof.
  intros Hf. pose proof (cn_size _ _ _ _ _ _ _ _ _ Hf). pose proof (cn_lengths _ _ _ _ _ _ _ _ _ Hf). split.
  - unfold MapFile, Buffer_Wrap. rewrite i32_small by lia.
    erewrite bind_Ret by (eapply MetaDataFlyweight_Wrap_ok; exact Hf).
    cbn [CncVersion cnc_layout]. rewrite <- (Z.add_0_r ptr) at 1.
    erewrite bind_Ret by (eapply cnc_length; [exact Hf|lia..]). rewrite Z.add_0_r, (cn_version _ _ _ _ _ _ _ _ _ Hf).
    case_decide; [subst version|]; [done|]. rewrite (proj2 (Z.eqb_neq _ _)) by done. done.
  - cbn zeta. split; [|done]. cbn [ToDriverBuf ToClientsBuf MetaDataBuf ValuesBuf ErrorBuf cnc_layout].
    rewrite <- !Z.add_assoc. repeat (apply Forall_cons; split); [..|by apply Forall_nil]; (eapply cnc_part_ok; [exact Hf|lia..]).
Qed.
