(* ===== verification/Counters.v ===== *)
(** * Counters

    src/aeron/counters: the driver keeps counters in two files, their values and their
    metadata (state, type, key, label). The client reads them by id or by scanning the
    metadata for a type and a key. *)

From S2P Require Import Prelude Memory Bits.

Local Open Scope m_scope.

(** ** reader.go *)

Definition CounterLength : Z := CacheLineLength * 2.
Definition FullLabelLength : Z := CacheLineLength * 6.
Definition LabelOffset : Z := CacheLineLength * 2.
Definition MetadataLength : Z := LabelOffset + FullLabelLength.
Definition MaxKeyLength : Z := CacheLineLength * 2 - 4 * 2 - 8.
Definition TypeIdOffset : Z := 4.
Definition FreeForReuseDeadlineOffset : Z := TypeIdOffset + 4.
Definition KeyOffset : Z := FreeForReuseDeadlineOffset + 8.
Definition RecordReclaimed : Z := -1.
Definition RecordUnused : Z := 0.
Definition RecordAllocated : Z := 1.
Definition NullCounterId : Z := -1.
Definition RegistrationIdOffset : Z := 8.
Definition OwnerIdOffset : Z := RegistrationIdOffset + 8.

Record Reader : Type := mkReader { rd_metaData : Buffer; rd_values : Buffer; maxCounterID : Z }.

Record Counter : Type := mkCounter {
  ctr_Id : Z; ctr_TypeId : Z; ctr_Value : Z; ctr_Label : list Init.Byte.byte }.

Definition NewReader (values metaData : Buffer) : Reader :=
  mkReader metaData values (Z.quot (Capacity values) CounterLength - 1).

Definition counterOffset (counterId : Z) : Z := i32 (counterId * CounterLength).

Definition labelValue (r : Reader) (metaDataOffset : Z) : M mem (list Init.Byte.byte) :=
  let! labelSize := GetInt32 (rd_metaData r) (i32 (metaDataOffset + LabelOffset)) in
  GetBytesArray (rd_metaData r) (i32 (i32 (metaDataOffset + LabelOffset) + 4)) labelSize.

(** The label is read into a slice of capacity [FullLabelLength]; reslicing it to a longer
    or negative length panics. *)
Definition labelValueUnsafe (r : Reader) (metaDataOffset : Z) : M mem (list Init.Byte.byte) :=
  let! labelSize := GetInt32 (rd_metaData r) (i32 (metaDataOffset + LabelOffset)) in
  if (labelSize <? 0) || (labelSize >? FullLabelLength) then panic "slice bounds out of range"
  else GetBytes (rd_metaData r) (i32 (i32 (metaDataOffset + LabelOffset) + 4)) (Z.to_nat labelSize).

(** [Scan] and [ScanUnsafe] differ in how the label's bytes become a string; the second
    takes the address of its first byte. *)
Definition bytes_copied (label : list Init.Byte.byte) : M mem (list Init.Byte.byte) := ret label.
Definition bytes_unsafe (label : list Init.Byte.byte) : M mem (list Init.Byte.byte) :=
  match label with [] => panic "index out of range [0] with length 0" | _ => ret label end.

Fixpoint scan_loop {U} (fuel : nat) (r : Reader) (cb : Counter -> M (mem * U) unit)
  (bytesToString : list Init.Byte.byte -> M mem (list Init.Byte.byte)) (id i : Z) : M (mem * U) unit :=
  if i <? Capacity (rd_metaData r) then
    match fuel with
    | O => raise EFuel
    | S fuel' =>
        let! recordStatus := on_fst (GetInt32Volatile (rd_metaData r) i) in
        if RecordUnused =? recordStatus then ret tt
        else
          (if RecordAllocated =? recordStatus then
             let! typeId := on_fst (GetInt32 (rd_metaData r) (i32 (i + TypeIdOffset))) in
             let! label := on_fst (labelValueUnsafe r i) in
             let! value := on_fst (GetInt64Volatile (rd_values r) (counterOffset id)) in
             let! text := on_fst (bytesToString label) in
             cb (mkCounter id typeId value text)
           else ret tt) ;;;
          scan_loop fuel' r cb bytesToString (i32 (id + 1)) (i32 (i + MetadataLength))
    end
  else ret tt.

Definition scan {U} (r : Reader) (cb : Counter -> M (mem * U) unit)
  (bytesToString : list Init.Byte.byte -> M mem (list Init.Byte.byte)) : M (mem * U) unit :=
  scan_loop (Z.to_nat (Capacity (rd_metaData r))) r cb bytesToString 0 0.

Definition Scan {U} (r : Reader) (cb : Counter -> M (mem * U) unit) : M (mem * U) unit :=
  scan r cb bytes_copied.
Definition ScanUnsafe {U} (r : Reader) (cb : Counter -> M (mem * U) unit) : M (mem * U) unit :=
  scan r cb bytes_unsafe.

(** The key of the record at an offset. *)
Definition keyBuffer (r : Reader) (metaDataOffset : Z) : Buffer :=
  Buffer_Wrap (ptr_add (Ptr (rd_metaData r)) (i32 (metaDataOffset + KeyOffset))) MaxKeyLength.

(** The loop of [ScanForType] over the ids that are left; the callback says whether to go
    on. *)
Fixpoint scan_type_loop {U} (ids : list nat) (r : Reader) (typeId : Z)
  (callback : Z -> Buffer -> M (mem * U) bool) : M (mem * U) unit :=
  match ids with
  | [] => ret tt
  | id :: ids' =>
      let counterId := i32 (Z.of_nat id) in
      let metaDataOffset := i32 (counterId * MetadataLength) in
      let! recordStatus := on_fst (GetInt32Volatile (rd_metaData r) metaDataOffset) in
      if recordStatus =? RecordUnused then ret tt
      else if RecordAllocated =? recordStatus then
        let! thisTypeId := on_fst (GetInt32 (rd_metaData r) (i32 (metaDataOffset + 4))) in
        if thisTypeId =? typeId then
          let! go := callback counterId (keyBuffer r metaDataOffset) in
          if go : bool then scan_type_loop ids' r typeId callback else ret tt
        else scan_type_loop ids' r typeId callback
      else scan_type_loop ids' r typeId callback
  end.

Definition ScanForType {U} (r : Reader) (typeId : Z) (callback : Z -> Buffer -> M (mem * U) bool)
  : M (mem * U) unit :=
  scan_type_loop (seq 0 (Z.to_nat (maxCounterID r))) r typeId callback.

(** A nil key filter accepts every key. *)
Fixpoint find_loop (ids : list nat) (r : Reader) (typeId : Z)
  (keyFilter : option (Buffer -> M mem bool)) : M mem Z :=
  match ids with
  | [] => ret NullCounterId
  | id :: ids' =>
      let metaDataOffset := i32 (i32 (Z.of_nat id) * MetadataLength) in
      let! recordStatus := GetInt32Volatile (rd_metaData r) metaDataOffset in
      if recordStatus =? RecordUnused then ret NullCounterId
      else if RecordAllocated =? recordStatus then
        let! thisTypeId := GetInt32 (rd_metaData r) (i32 (metaDataOffset + 4)) in
        if thisTypeId =? typeId then
          let! found := match keyFilter with
                        | None => ret true
                        | Some f => f (keyBuffer r metaDataOffset)
                        end in
          if found : bool then ret (i32 (Z.of_nat id)) else find_loop ids' r typeId keyFilter
        else find_loop ids' r typeId keyFilter
      else find_loop ids' r typeId keyFilter
  end.

Definition FindCounter (r : Reader) (typeId : Z) (keyFilter : option (Buffer -> M mem bool)) : M mem Z :=
  find_loop (seq 0 (Z.to_nat (maxCounterID r))) r typeId keyFilter.

(** The range test of the accessors by id. *)
Definition valid_id (r : Reader) (counterId : Z) : bool :=
  negb ((counterId <? 0) || (counterId >=? i32 (maxCounterID r))).

Inductive counterError : Type := ErrCounterId | ErrKeyOffset | ErrRecordStatus | ErrKeyLength.

Definition validateCounterIdAndOffset (r : Reader) (counterId offset : Z) : option counterError :=
  if negb (valid_id r counterId) then Some ErrCounterId
  else if (offset <? 0) || (offset >=? MaxKeyLength) then Some ErrKeyOffset
  else None.

(** The tests shared by the key accessors, for a part of [size] bytes; then [k] reads it. *)
Definition key_part {A} (r : Reader) (counterId offset size : Z)
  (k : Z -> M mem (A + counterError)) : M mem (A + counterError) :=
  match validateCounterIdAndOffset r counterId (i32 (offset + size)) with
  | Some err => ret (inr err)
  | None =>
      let metaDataOffset := i32 (counterId * MetadataLength) in
      let! recordStatus := GetInt32Volatile (rd_metaData r) metaDataOffset in
      if negb (recordStatus =? RecordAllocated) then ret (inr ErrRecordStatus)
      else k (i32 (i32 (metaDataOffset + KeyOffset) + offset))
  end.

Definition GetKeyPartInt32 (r : Reader) (counterId offset : Z) : M mem (Z + counterError) :=
  key_part r counterId offset 4 (fun at_ =>
    let! v := GetInt32 (rd_metaData r) at_ in ret (inl v)).
Definition GetKeyPartInt64 (r : Reader) (counterId offset : Z) : M mem (Z + counterError) :=
  key_part r counterId offset 8 (fun at_ =>
    let! v := GetInt64 (rd_metaData r) at_ in ret (inl v)).
Definition GetKeyPartString (r : Reader) (counterId offset : Z)
  : M mem (list Init.Byte.byte + counterError) :=
  key_part r counterId offset 4 (fun lengthOffset =>
    let! length := GetInt32 (rd_metaData r) lengthOffset in
    if (length <? 0) || (i32 (offset + length) >? MaxKeyLength) then ret (inr ErrKeyLength)
    else
      let! bs := GetBytesArray (rd_metaData r) (i32 (lengthOffset + 4)) length in ret (inl bs)).

Definition GetCounterValue (r : Reader) (counterId : Z) : M mem Z :=
  if negb (valid_id r counterId) then ret 0
  else GetInt64Volatile (rd_values r) (counterOffset counterId).
Definition GetCounterRegistrationId (r : Reader) (counterId : Z) : M mem Z :=
  if negb (valid_id r counterId) then ret 0
  else GetInt64Volatile (rd_values r) (i32 (counterOffset counterId + RegistrationIdOffset)).
Definition GetCounterOwnerId (r : Reader) (counterId : Z) : M mem Z :=
  if negb (valid_id r counterId) then ret 0
  else GetInt64Volatile (rd_values r) (i32 (counterOffset counterId + OwnerIdOffset)).
Definition GetCounterTypeId (r : Reader) (counterId : Z) : M mem Z :=
  if negb (valid_id r counterId) then ret (-1)
  else GetInt32 (rd_metaData r) (i32 (i32 (counterId * MetadataLength) + TypeIdOffset)).
Definition IsCounterAllocated (r : Reader) (counterId : Z) : M mem bool :=
  if valid_id r counterId then
    let! status := GetInt32Volatile (rd_metaData r) (i32 (counterId * MetadataLength)) in
    ret (status =? RecordAllocated)
  else ret false.

(** ** readable_counter.go and atomic_counter.go *)

Record ReadableCounter : Type := mkReadableCounter {
  rdc_Reader : Reader; rdc_RegistrationId : Z; rdc_CounterId : Z;
  rdc_metaDataOffset : Z; rdc_valueOffset : Z; rdc_isClosed : bool }.

Definition NewReadableRegisteredCounter (r : Reader) (registrationId counterId : Z)
  : option ReadableCounter :=
  if negb (valid_id r counterId) then None
  else Some (mkReadableCounter r registrationId counterId (i32 (counterId * MetadataLength))
               (i32 (counterId * CounterLength)) false).
Definition NewReadableCounter (r : Reader) (counterId : Z) : option ReadableCounter :=
  NewReadableRegisteredCounter r (-1) counterId.
Definition ReadableCounter_State (rc : ReadableCounter) : M mem Z :=
  GetInt32Volatile (rd_metaData (rdc_Reader rc)) (rdc_metaDataOffset rc).
Definition ReadableCounter_Label (rc : ReadableCounter) : M mem (list Init.Byte.byte) :=
  labelValue (rdc_Reader rc) (rdc_metaDataOffset rc).
Definition ReadableCounter_Get (rc : ReadableCounter) : M mem Z :=
  GetInt64Volatile (rd_values (rdc_Reader rc)) (rdc_valueOffset rc).
Definition ReadableCounter_Close (rc : ReadableCounter) : ReadableCounter :=
  mkReadableCounter (rdc_Reader rc) (rdc_RegistrationId rc) (rdc_CounterId rc)
    (rdc_metaDataOffset rc) (rdc_valueOffset rc) true.

Record AtomicCounter : Type := mkAtomicCounter {
  atc_Reader : Reader; atc_CounterId : Z; atc_metaDataOffset : Z; atc_valueOffset : Z }.

Definition NewAtomicCounter (r : Reader) (counterId : Z) : option AtomicCounter :=
  if negb (valid_id r counterId) then None
  else Some (mkAtomicCounter r counterId (i32 (counterId * MetadataLength))
               (i32 (counterId * CounterLength))).
Definition AtomicCounter_State (ac : AtomicCounter) : M mem Z :=
  GetInt32Volatile (rd_metaData (atc_Reader ac)) (atc_metaDataOffset ac).
Definition AtomicCounter_Label (ac : AtomicCounter) : M mem (list Init.Byte.byte) :=
  labelValue (atc_Reader ac) (atc_metaDataOffset ac).
Definition AtomicCounter_Get (ac : AtomicCounter) : M mem Z :=
  GetInt64Volatile (rd_values (atc_Reader ac)) (atc_valueOffset ac).
Definition AtomicCounter_GetWeak (ac : AtomicCounter) : M mem Z :=
  GetInt64 (rd_values (atc_Reader ac)) (atc_valueOffset ac).
Definition AtomicCounter_Set (ac : AtomicCounter) (value : Z) : M mem unit :=
  PutInt64Ordered (rd_values (atc_Reader ac)) (atc_valueOffset ac) value.
Definition AtomicCounter_SetWeak (ac : AtomicCounter) (value : Z) : M mem unit :=
  PutInt64 (rd_values (atc_Reader ac)) (atc_valueOffset ac) value.

(** ** Well-formed counter files *)

(** Files with room for [n] counters. *)
Record ctr_ok (m : mem) (r : Reader) (n : Z) : Prop := {
  ck_meta : buf_ok m (rd_metaData r);
  ck_values : buf_ok m (rd_values r);
  ck_n : 1 <= n <= 1048576;
  ck_meta_len : buf_length (rd_metaData r) = n * 512;
  ck_values_len : buf_length (rd_values r) = n * 128;
  ck_max : maxCounterID r = n - 1 }.

Lemma NewReader_ok m values metaData n :
  buf_ok m metaData -> buf_ok m values -> 1 <= n <= 1048576 ->
  buf_length metaData = n * 512 -> buf_length values = n * 128 ->
  ctr_ok m (NewReader values metaData) n.
Proof.
  intros. constructor; try done. unfold NewReader, Capacity, CounterLength, CacheLineLength.
  cbn [maxCounterID]. rewrite H3. rewrite Z.quot_mul; lia.
Qed.

(** The records of the metadata file. *)
Definition rec_status (m : mem) (r : Reader) (id : Z) : Z := rd_i32 m (bufferPtr (rd_metaData r) + id * 512).
Definition rec_type (m : mem) (r : Reader) (id : Z) : Z := rd_i32 m (bufferPtr (rd_metaData r) + (id * 512 + 4)).
Definition rec_label_size (m : mem) (r : Reader) (id : Z) : Z :=
  rd_i32 m (bufferPtr (rd_metaData r) + (id * 512 + 128)).
Definition rec_label (m : mem) (r : Reader) (id : Z) : list Init.Byte.byte :=
  rd m (bufferPtr (rd_metaData r) + (id * 512 + 132)) (Z.to_nat (rec_label_size m r id)).
Definition ctr_value (m : mem) (r : Reader) (id : Z) : Z := rd_i64 m (bufferPtr (rd_values r) + id * 128).
Definition rec_counter (m : mem) (r : Reader) (id : Z) : Counter :=
  mkCounter id (rec_type m r id) (ctr_value m r id) (rec_label m r id).

Section Records.
Context (m : mem) (r : Reader) (n : Z) (Hr : ctr_ok m r n).

Lemma Get_status id : 0 <= id < n ->
  GetInt32Volatile (rd_metaData r) (id * 512) m = Ret (rec_status m r id) m.
Proof using Hr. intros. destruct Hr. apply GetInt32Volatile_ok; [done|lia..]. Qed.

Lemma Get_type id : 0 <= id < n ->
  GetInt32 (rd_metaData r) (id * 512 + 4) m = Ret (rec_type m r id) m.
Proof using Hr. intros. destruct Hr. apply GetInt32_ok; [done|lia..]. Qed.

Lemma Get_value id : 0 <= id < n ->
  GetInt64Volatile (rd_values r) (counterOffset id) m = Ret (ctr_value m r id) m.
Proof using Hr.
  intros. destruct Hr. unfold counterOffset, CounterLength, CacheLineLength. rewrite i32_small by lia.
  apply GetInt64Volatile_ok; [done|lia..].
Qed.

Lemma Get_label id : 0 <= id < n -> 0 <= rec_label_size m r id <= 380 ->
  labelValueUnsafe r (id * 512) m = Ret (rec_label m r id) m.
Proof using Hr.
  intros Hid Hl. destruct Hr as [Hm Hv Hn Hml Hvl Hmax]. pose proof (buf_ok_length _ _ Hm).
  unfold labelValueUnsafe, LabelOffset, FullLabelLength, CacheLineLength. wrap_simpl.
  change (64 * 2) with 128. change (64 * 6) with 384.
  erewrite bind_Ret by (apply GetInt32_ok; [done|lia..]). fold (rec_label_size m r id).
  replace ((rec_label_size m r id <? 0) || (rec_label_size m r id >? 384)) with false by lia.
  unfold GetBytes. rewrite Z2Nat.id by lia. wrap_simpl.
  erewrite bind_Ret by (apply BoundsCheck_pass; lia).
  replace (id * 512 + 128 + 4) with (id * 512 + 132) by lia.
  destruct (decide (rec_label_size m r id = 0)) as [E|].
  { unfold rec_label. rewrite E. done. }
  rewrite (ptr_add_ok m (rd_metaData r) _ (rec_label_size m r id)) by (done || lia).
  eapply load_ok; [eapply (buf_ok_sub m (rd_metaData r) (id * 512 + 132) (rec_label_size m r id)); done || lia|lia].
Qed.
End Records.

(** ** Scanning *)

(** The reference: the counters that are allocated, up to the first unused record. *)
Fixpoint live_counters (m : mem) (r : Reader) (id : Z) (k : nat) : list Counter :=
  match k with
  | O => []
  | S k' =>
      if rec_status m r id =? RecordUnused then []
      else if rec_status m r id =? RecordAllocated
           then rec_counter m r id :: live_counters m r (id + 1) k'
           else live_counters m r (id + 1) k'
  end.

(** A callback that acts as [cstep] and leaves the memory alone. *)
Definition calls {U} (m : mem) (cb : Counter -> M (mem * U) unit) (cstep : Counter -> U -> U) : Prop :=
  forall c u, cb c (m, u) = Ret tt (m, cstep c u).

Lemma scan_loop_ok {U} m r n (cb : Counter -> M (mem * U) unit) cstep :
  ctr_ok m r n -> calls m cb cstep ->
  (forall id, 0 <= id < n -> rec_status m r id = RecordAllocated -> 0 <= rec_label_size m r id <= 380) ->
  forall k fuel id u,
    0 <= id -> id + Z.of_nat k = n -> (k <= fuel)%nat ->
    scan_loop fuel r cb bytes_copied id (id * 512) (m, u) =
    Ret tt (m, fold_left (fun u c => cstep c u) (live_counters m r id k) u).
Proof.
  intros Hr Hcb Hlab. pose proof Hr as [Hm Hv Hn Hml Hvl Hmax].
  induction k as [|k IH]; intros fuel id u Hid Hk Hf.
  - destruct fuel; cbn [scan_loop live_counters fold_left]; unfold Capacity;
      rewrite (proj2 (Z.ltb_ge _ _)) by lia; done.
  - destruct fuel as [|fuel]; [lia|]. cbn [scan_loop live_counters]. unfold Capacity.
    rewrite (proj2 (Z.ltb_lt _ _)) by lia.
    erewrite bind_Ret by (apply on_fst_Ret, (Get_status m r n Hr); lia).
    rewrite (Z.eqb_sym RecordUnused), (Z.eqb_sym RecordAllocated).
    destruct (Z.eqb_spec (rec_status m r id) RecordUnused); [done|].
    assert (Hrec : forall u, scan_loop fuel r cb bytes_copied (i32 (id + 1)) (i32 (id * 512 + MetadataLength)) (m, u)
              = Ret tt (m, fold_left (fun u c => cstep c u) (live_counters m r (id + 1) k) u)).
    { intros u'. change MetadataLength with 512. wrap_simpl.
      replace (id * 512 + 512) with ((id + 1) * 512) by lia. apply IH; lia. }
    destruct (Z.eqb_spec (rec_status m r id) RecordAllocated) as [Ha|Ha].
    + rewrite bind_assoc. unfold TypeIdOffset. rewrite (i32_small (id * 512 + 4)) by lia.
      erewrite bind_Ret by (apply on_fst_Ret, (Get_type m r n Hr); lia).
      rewrite bind_assoc. erewrite bind_Ret by (apply on_fst_Ret, (Get_label m r n Hr); [lia|apply Hlab; done || lia]).
      rewrite bind_assoc. erewrite bind_Ret by (apply on_fst_Ret, (Get_value m r n Hr); lia).
      rewrite bind_assoc. erewrite bind_Ret by (apply on_fst_Ret; reflexivity).
      erewrite bind_Ret by apply Hcb. rewrite Hrec. done.
    + rewrite bind_ret_l. apply Hrec.
Qed.

Lemma Scan_ok {U} m r n (cb : Counter -> M (mem * U) unit) cstep u :
  ctr_ok m r n -> calls m cb cstep ->
  (forall id, 0 <= id < n -> rec_status m r id = RecordAllocated -> 0 <= rec_label_size m r id <= 380) ->
  Scan r cb (m, u) =
  Ret tt (m, fold_left (fun u c => cstep c u) (live_counters m r 0 (Z.to_nat n)) u).
Proof.
  intros Hr Hcb Hlab. pose proof Hr as [Hm Hv Hn Hml Hvl Hmax]. unfold Scan, scan.
  change 0 with (0 * 512) at 2. apply scan_loop_ok with n; try done; unfold Capacity; lia.
Qed.

(** ** Finding *)

(** A record that [FindCounter] looks for. *)
Definition rec_matches (m : mem) (r : Reader) (typeId : Z) (p : Z -> bool) (id : Z) : Prop :=
  rec_status m r id = RecordAllocated /\ rec_type m r id = typeId /\ p id = true.

Definition filters (m : mem) (r : Reader) (n : Z) (keyFilter : option (Buffer -> M mem bool)) (p : Z -> bool) : Prop :=
  forall id, 0 <= id < n ->
    match keyFilter with
    | Some f => f (keyBuffer r (id * 512)) m = Ret (p id) m
    | None => p id = true
    end.

Lemma find_loop_ok m r n typeId keyFilter p :
  ctr_ok m r n -> filters m r n keyFilter p ->
  forall k id, (id + k <= Z.to_nat (n - 1))%nat ->
  exists c, find_loop (seq id k) r typeId keyFilter m = Ret c m /\
    ((Z.of_nat id <= c < Z.of_nat (id + k) /\ rec_matches m r typeId p c /\
      forall j, Z.of_nat id <= j < c -> rec_status m r j <> RecordUnused /\ ~ rec_matches m r typeId p j) \/
     (c = NullCounterId /\
      forall j, Z.of_nat id <= j < Z.of_nat (id + k) -> rec_matches m r typeId p j ->
        exists i, Z.of_nat id <= i < j /\ rec_status m r i = RecordUnused)).
Proof.
  intros Hr Hf. pose proof Hr as [Hm Hv Hn Hml Hvl Hmax].
  induction k as [|k IH]; intros id Hk; cbn [seq find_loop].
  { exists NullCounterId. split; [done|]. right. split; [done|]. intros. lia. }
  change MetadataLength with 512. rewrite (i32_small (Z.of_nat id)) by lia.
  rewrite (i32_small (Z.of_nat id * 512)) by lia.
  erewrite bind_Ret by (apply (Get_status m r n Hr); lia).
  destruct (Z.eqb_spec (rec_status m r (Z.of_nat id)) RecordUnused) as [Hu|Hu].
  { exists NullCounterId. split; [done|]. right. split; [done|]. intros j Hj Hmj.
    exists (Z.of_nat id). split; [|done].
    destruct (decide (j = Z.of_nat id)) as [->|]; [|lia]. destruct Hmj as [Ha _]. by rewrite Hu in Ha. }
  assert (Hskip : ~ rec_matches m r typeId p (Z.of_nat id) ->
    exists c, find_loop (seq (S id) k) r typeId keyFilter m = Ret c m /\
    ((Z.of_nat id <= c < Z.of_nat (id + S k) /\ rec_matches m r typeId p c /\
      forall j, Z.of_nat id <= j < c -> rec_status m r j <> RecordUnused /\ ~ rec_matches m r typeId p j) \/
     (c = NullCounterId /\
      forall j, Z.of_nat id <= j < Z.of_nat (id + S k) -> rec_matches m r typeId p j ->
        exists i, Z.of_nat id <= i < j /\ rec_status m r i = RecordUnused))).
  { intros Hno. destruct (IH (S id) ltac:(lia)) as (c & Hrun & Hc). exists c. split; [done|].
    destruct Hc as [(? & ? & Hj)|(-> & Hj)]; [left|right].
    - split_and!; [lia|lia|done|]. intros j ?.
      destruct (decide (j = Z.of_nat id)) as [->|]; [done|apply Hj; lia].
    - split; [done|]. intros j Hr' Hmj. destruct (decide (j = Z.of_nat id)) as [->|]; [done|].
      destruct (Hj j ltac:(lia) Hmj) as (i & ? & ?). exists i. split; [lia|done]. }
  rewrite (Z.eqb_sym RecordAllocated).
  destruct (Z.eqb_spec (rec_status m r (Z.of_nat id)) RecordAllocated) as [Ha|Ha];
    [|apply Hskip; by intros [? _]].
  rewrite (i32_small (_ + 4)) by lia. erewrite bind_Ret by (apply (Get_type m r n Hr); lia).
  destruct (Z.eqb_spec (rec_type m r (Z.of_nat id)) typeId) as [Ht|Ht];
    [|apply Hskip; by intros (_ & ? & _)].
  erewrite bind_Ret.
  2: { specialize (Hf (Z.of_nat id) ltac:(lia)). destruct keyFilter; [exact Hf|].
       rewrite <- Hf. reflexivity. }
  destruct (p (Z.of_nat id)) eqn:Hp; [|apply Hskip; intros (_ & _ & ?); congruence].
  exists (Z.of_nat id). split; [done|]. left. split_and!; [lia|lia|done|intros; lia].
Qed.

Lemma valid_id_in m r n id : ctr_ok m r n -> 0 <= id < n - 1 -> valid_id r id = true.
Proof. intros Hr ?. destruct Hr. unfold valid_id. rewrite ck_max0, i32_small by lia. lia. Qed.

Lemma Get_type_id m r n id :
  ctr_ok m r n -> 0 <= id < n - 1 -> GetCounterTypeId r id m = Ret (rec_type m r id) m.
Proof.
  intros Hr Hid. pose proof Hr as [Hm Hv Hn Hml Hvl Hmax]. unfold GetCounterTypeId. rewrite (valid_id_in m r n) by done. cbn [negb].
  change MetadataLength with 512. change TypeIdOffset with 4. rewrite !i32_small by (rewrite ?i32_small; lia). apply (Get_type m r n Hr). lia.
Qed.

(** ** The theorems on counters *)

Lemma FindCounter_found m r n typeId keyFilter p :
  ctr_ok m r n -> filters m r n keyFilter p ->
  exists c, FindCounter r typeId keyFilter m = Ret c m /\
    ((0 <= c < n - 1 /\ rec_matches m r typeId p c /\
      forall j, 0 <= j < c -> rec_status m r j <> RecordUnused /\ ~ rec_matches m r typeId p j) \/
     (c = NullCounterId /\
      forall j, 0 <= j < n - 1 -> rec_matches m r typeId p j ->
        exists i, 0 <= i < j /\ rec_status m r i = RecordUnused)).
Proof.
  intros Hr Hf. pose proof (ck_n _ _ _ Hr). unfold FindCounter. rewrite (ck_max _ _ _ Hr).
  destruct (find_loop_ok m r n typeId keyFilter p Hr Hf (Z.to_nat (n - 1)) 0 ltac:(lia)) as (c & Hrun & Hc).
  exists c. split; [done|]. rewrite Nat.add_0_l, Z2Nat.id in Hc by lia. exact Hc.
Qed.

(** [FindCounter] returns the first allocated counter of the type that the filter
    accepts; when it returns -1, no such counter comes before the first unused record. *)
Theorem FindCounter_first m r n typeId keyFilter p :
  ctr_ok m r n -> filters m r n keyFilter p ->
  exists c, FindCounter r typeId keyFilter m = Ret c m /\
    ((0 <= c < n - 1 /\ rec_matches m r typeId p c /\
      forall j, 0 <= j < c -> rec_status m r j <> RecordUnused /\ ~ rec_matches m r typeId p j) \/
     (c = NullCounterId /\
      forall j, 0 <= j < n - 1 -> rec_matches m r typeId p j ->
        exists i, 0 <= i < j /\ rec_status m r i = RecordUnused)).
Proof. apply FindCounter_found. Qed.

(** [Scan] calls back once for each allocated counter up to the first unused record, in
    the order of their ids, with its type, value and label. *)
Theorem Scan_live_counters m r n (u : list Counter) :
  ctr_ok m r n ->
  (forall id, 0 <= id < n -> rec_status m r id = RecordAllocated -> 0 <= rec_label_size m r id <= 380) ->
  Scan r (fun c '(m, u) => Ret tt (m, u ++ [c])) (m, u) =
  Ret tt (m, u ++ live_counters m r 0 (Z.to_nat n)).
Proof.
  intros Hr Hlab. rewrite (Scan_ok m r n _ (fun c u => u ++ [c])) by done. do 2 f_equal.
  generalize (live_counters m r 0 (Z.to_nat n)). intros cs. revert u.
  induction cs as [|c cs IH]; intros u; cbn [fold_left]; [by rewrite app_nil_r|].
  by rewrite IH, <- app_assoc.
Qed.

(** The last counter of the files is out of reach by id: its value reads as zero, whatever
    it is, and it is reported as not allocated. *)
Theorem last_counter_unreachable m r n :
  ctr_ok m r n ->
  GetCounterValue r (n - 1) m = Ret 0 m /\ IsCounterAllocated r (n - 1) m = Ret false m /\
  NewAtomicCounter r (n - 1) = None.
Proof.
  intros [Hm Hv Hn Hml Hvl Hmax].
  assert (Hid : valid_id r (n - 1) = false).
  { unfold valid_id. rewrite Hmax, i32_small by lia. lia. }
  unfold GetCounterValue, IsCounterAllocated, NewAtomicCounter. by rewrite Hid.
Qed.

(** A value that is set is the value that is read, by the counter and by its id, and no
    other counter changes. *)
Theorem AtomicCounter_set_get m r n id v :
  ctr_ok m r n -> 0 <= id < n - 1 -> is_i64 v ->
  exists ac m', NewAtomicCounter r id = Some ac /\ AtomicCounter_Set ac v m = Ret tt m' /\
    AtomicCounter_Get ac m' = Ret v m' /\ GetCounterValue r id m' = Ret v m' /\
    (forall id', 0 <= id' < n -> id' <> id -> ctr_value m' r id' = ctr_value m r id').
Proof.
  intros Hr Hid Hv. pose proof Hr as [Hm Hva Hn Hml Hvl Hmax].
  unfold NewAtomicCounter. rewrite (valid_id_in m r n) by done. cbn [negb].
  eexists _, _. split; [done|]. unfold AtomicCounter_Set, AtomicCounter_Get, GetCounterValue.
  cbn [atc_Reader atc_valueOffset]. rewrite (valid_id_in m r n) by done. cbn [negb].
  unfold counterOffset. change CounterLength with 128. rewrite i32_small by lia.
  split; [apply PutInt64Ordered_ok; [done|lia..]|].
  rewrite !GetInt64Volatile_ok by (try apply buf_ok_wr; done || lia).
  unfold ctr_value. rewrite rd_i64_wr by done. split_and!; try done.
  intros id' Hid' Hne. rewrite rd_i64_disj; [done|]. rewrite zlen_le_split. lia.
Qed.

(** A four byte key part that ends where the key ends is refused, though it is inside. *)
Theorem key_part_at_end_refused m r n id :
  ctr_ok m r n -> 0 <= id < n - 1 ->
  GetKeyPartInt32 r id (MaxKeyLength - 4) m = Ret (inr ErrKeyOffset) m.
Proof.
  intros Hr Hid. unfold GetKeyPartInt32, key_part, validateCounterIdAndOffset.
  rewrite (valid_id_in m r n) by done. done.
Qed.

(** A string in the key may run over the end of the key: the test of its length leaves
    out the length's own four bytes. The last four bytes returned are not the key's. *)
Theorem key_string_runs_over m r n id :
  ctr_ok m r n -> 0 <= id < n - 1 -> rec_status m r id = RecordAllocated ->
  rd_i32 m (bufferPtr (rd_metaData r) + (id * 512 + 16)) = MaxKeyLength ->
  GetKeyPartString r id 0 m =
  Ret (inl (rd m (bufferPtr (rd_metaData r) + (id * 512 + 20)) 112)) m /\
  id * 512 + 20 + 112 = id * 512 + KeyOffset + MaxKeyLength + 4.
Proof.
  intros Hr Hid Hs Hl. pose proof Hr as [Hm Hva Hn Hml Hvl Hmax].
  split; [|unfold KeyOffset, FreeForReuseDeadlineOffset, TypeIdOffset, MaxKeyLength, CacheLineLength; lia].
  unfold GetKeyPartString, key_part, validateCounterIdAndOffset.
  rewrite (valid_id_in m r n) by done. cbn [negb]. change (i32 (0 + 4)) with 4.
  change ((4 <? 0) || (4 >=? MaxKeyLength)) with false. cbv iota.
  change MetadataLength with 512. rewrite (i32_small (id * 512)) by lia.
  erewrite bind_Ret by (apply (Get_status m r n Hr); lia). rewrite Hs, Z.eqb_refl. cbn [negb]. cbv beta.
  change KeyOffset with 16. rewrite (i32_small (id * 512 + 16)), Z.add_0_r, (i32_small (id * 512 + 16)) by lia.
  erewrite bind_Ret by (apply GetInt32_ok; [done|lia..]). rewrite Hl.
  change ((MaxKeyLength <? 0) || (i32 (0 + MaxKeyLength) >? MaxKeyLength)) with false. cbv iota.
  change MaxKeyLength with 112. rewrite (i32_small (_ + 4)) by lia.
  erewrite bind_Ret by (apply GetBytesArray_ok; [done|lia..]).
  replace (id * 512 + 16 + 4) with (id * 512 + 20) by lia. done.
Qed.
