(* ===== verification/LogBuffer.v ===== *)
(** * Log buffers, frames and positions

    The package src/aeron/logbuffer: the data frame header layout
    (DataFrameHeader.go), the frame accessors (FrameDescriptor.go), the header view
    given to fragment handlers (header.go), buffer claims (claim.go), the metadata
    section with its tail counters and log rotation (descriptor.go), and the division
    of a log file in three term buffers and the metadata (logbuffers.go). *)

From S2P Require Import Prelude Memory Bits Flyweight.

Local Open Scope m_scope.

(** ** DataFrameHeader.go *)

Module DataFrameHeader.
Definition FrameLengthFieldOffset : Z := 0.
Definition VersionFieldOffset : Z := 4.
Definition FlagsFieldOffset : Z := 5.
Definition TypeFieldOffset : Z := 6.
Definition TermOffsetFieldOffset : Z := 8.
Definition SessionIDFieldOffset : Z := 12.
Definition StreamIDFieldOffset : Z := 16.
Definition TermIDFieldOffset : Z := 20.
Definition ReservedValueFieldOffset : Z := 24.
Definition DataOffset : Z := 32.
Definition Length : Z := 32.
Definition TypePad : Z := 0x00.
Definition TypeData : Z := 0x01.
Definition CurrentVersion : Z := 0x0.
End DataFrameHeader.

(** ** FrameDescriptor.go *)

Definition FrameAlignment : Z := 32.

Definition flagsOffset (frameOffset : Z) : Z := i32 (frameOffset + DataFrameHeader.FlagsFieldOffset).
Definition lengthOffset (frameOffset : Z) : Z := i32 (frameOffset + DataFrameHeader.FrameLengthFieldOffset).
Definition termIdOffset (frameOffset : Z) : Z := i32 (frameOffset + DataFrameHeader.TermIDFieldOffset).
Definition sessionIdOffset (frameOffset : Z) : Z := i32 (frameOffset + DataFrameHeader.SessionIDFieldOffset).
Definition streamIdOffset (frameOffset : Z) : Z := i32 (frameOffset + DataFrameHeader.StreamIDFieldOffset).
Definition typeOffset (frameOffset : Z) : Z := i32 (frameOffset + DataFrameHeader.TypeFieldOffset).
Definition reservedValueOffset (frameOffset : Z) : Z :=
  i32 (frameOffset + DataFrameHeader.ReservedValueFieldOffset).

Definition ComputeMaxMessageLength (capacity : Z) : Z := Z.quot capacity 8.

Definition GetFlags (logBuffer : Buffer) (frameOffset : Z) : M mem Z :=
  GetUInt8 logBuffer (flagsOffset frameOffset).
Definition GetTermId (logBuffer : Buffer) (frameOffset : Z) : M mem Z :=
  GetInt32Volatile logBuffer (termIdOffset frameOffset).
Definition GetSessionId (logBuffer : Buffer) (frameOffset : Z) : M mem Z :=
  GetInt32Volatile logBuffer (sessionIdOffset frameOffset).
Definition GetStreamId (logBuffer : Buffer) (frameOffset : Z) : M mem Z :=
  GetInt32Volatile logBuffer (streamIdOffset frameOffset).
Definition GetFrameLength (logBuffer : Buffer) (frameOffset : Z) : M mem Z :=
  GetInt32Volatile logBuffer (lengthOffset frameOffset).
Definition GetReservedValue (logBuffer : Buffer) (frameOffset : Z) : M mem Z :=
  GetInt64Volatile logBuffer (reservedValueOffset frameOffset).
Definition SetFrameLength (logBuffer : Buffer) (frameOffset frameLength : Z) : M mem unit :=
  PutInt32Ordered logBuffer (lengthOffset frameOffset) frameLength.
Definition IsPaddingFrame (logBuffer : Buffer) (frameOffset : Z) : M mem bool :=
  let! t := GetUInt16 logBuffer (typeOffset frameOffset) in
  ret (t =? DataFrameHeader.TypePad).
Definition SetFrameType (logBuffer : Buffer) (frameOffset typ : Z) : M mem unit :=
  PutUInt16 logBuffer (typeOffset frameOffset) typ.
Definition FrameFlags (logBuffer : Buffer) (frameOffset flags : Z) : M mem unit :=
  PutUInt8 logBuffer (flagsOffset frameOffset) flags.

(** ** header.go *)

Record Header : Type := mkHeader {
  hdr_buffer : Buffer;
  hdr_offset : Z;
  hdr_initialTermID : Z;
  hdr_positionBitsToShift : Z }.

Definition Header_Wrap (hdr : Header) (ptr length : Z) : Header :=
  mkHeader (Buffer_Wrap ptr length) (hdr_offset hdr) (hdr_initialTermID hdr)
    (hdr_positionBitsToShift hdr).
Definition Header_SetOffset (hdr : Header) (offset : Z) : Header :=
  mkHeader (hdr_buffer hdr) offset (hdr_initialTermID hdr) (hdr_positionBitsToShift hdr).
Definition Header_SetInitialTermID (hdr : Header) (initialTermID : Z) : Header :=
  mkHeader (hdr_buffer hdr) (hdr_offset hdr) initialTermID (hdr_positionBitsToShift hdr).
Definition Header_SetPositionBitsToShift (hdr : Header) (bits : Z) : Header :=
  mkHeader (hdr_buffer hdr) (hdr_offset hdr) (hdr_initialTermID hdr) bits.

Definition Header_Flags (hdr : Header) : M mem Z := GetFlags (hdr_buffer hdr) (hdr_offset hdr).
Definition Header_FrameLength (hdr : Header) : M mem Z := GetFrameLength (hdr_buffer hdr) (hdr_offset hdr).
Definition Header_TermId (hdr : Header) : M mem Z := GetTermId (hdr_buffer hdr) (hdr_offset hdr).
Definition Header_SessionId (hdr : Header) : M mem Z := GetSessionId (hdr_buffer hdr) (hdr_offset hdr).
Definition Header_StreamId (hdr : Header) : M mem Z := GetStreamId (hdr_buffer hdr) (hdr_offset hdr).
Definition Header_GetReservedValue (hdr : Header) : M mem Z :=
  GetReservedValue (hdr_buffer hdr) (hdr_offset hdr).
Definition Header_SetReservedValue (hdr : Header) (reservedValue : Z) : M mem unit :=
  PutInt64 (hdr_buffer hdr) (reservedValueOffset (hdr_offset hdr)) reservedValue.
Definition Header_SetSessionId (hdr : Header) (value : Z) : M mem unit :=
  PutInt32 (hdr_buffer hdr) (sessionIdOffset (hdr_offset hdr)) value.

Definition computePosition (activeTermId termOffset positionBitsToShift initialTermId : Z) : Z :=
  let termCount := i32 (activeTermId - initialTermId) in
  i64 (i64 (Z.shiftl termCount (u32 positionBitsToShift)) + termOffset).

Definition Header_Position (hdr : Header) : M mem Z :=
  let! frameLength := Header_FrameLength hdr in
  let resultingOffset := AlignInt32 (i32 (hdr_offset hdr + frameLength)) FrameAlignment in
  let! termId := Header_TermId hdr in
  ret (computePosition termId resultingOffset (hdr_positionBitsToShift hdr) (hdr_initialTermID hdr)).

(** ** claim.go *)

Record Claim : Type := mkClaim { claim_buffer : Buffer }.

Definition Claim_Wrap (buf : Buffer) (offset length : Z) : M mem Claim :=
  BoundsCheck offset length (Capacity buf) ;;;
  ret (mkClaim (Buffer_Wrap (ptr_add (Ptr buf) offset) length)).
Definition Claim_Buffer (claim : Claim) : Buffer := claim_buffer claim.
Definition Claim_Offset (claim : Claim) : Z := DataFrameHeader.Length.
Definition Claim_Length (claim : Claim) : Z :=
  i32 (Capacity (claim_buffer claim) - DataFrameHeader.Length).
Definition Claim_ReservedValue (claim : Claim) : M mem Z :=
  GetInt64 (claim_buffer claim) DataFrameHeader.ReservedValueFieldOffset.
Definition Claim_SetReservedValue (claim : Claim) (value : Z) : M mem unit :=
  PutInt64 (claim_buffer claim) DataFrameHeader.ReservedValueFieldOffset value.
Definition Claim_Commit (claim : Claim) : M mem unit :=
  let frameLength := Capacity (claim_buffer claim) in
  PutInt32Ordered (claim_buffer claim) DataFrameHeader.FrameLengthFieldOffset frameLength.
Definition Claim_Abort (claim : Claim) : M mem unit :=
  let frameLength := Capacity (claim_buffer claim) in
  PutUInt16 (claim_buffer claim) DataFrameHeader.TypeFieldOffset DataFrameHeader.TypePad ;;;
  PutInt32Ordered (claim_buffer claim) DataFrameHeader.FrameLengthFieldOffset frameLength.

(** ** descriptor.go *)

Definition PartitionCount : Z := 3.
Definition LogMetaDataSectionIndex : Z := PartitionCount.
Definition TermMinLength : Z := 64 * 1024.
Definition termMaxLength : Z := 1024 * 1024 * 1024.
Definition pageMinSize : Z := 4 * 1024.
Definition pageMaxSize : Z := 1024 * 1024 * 1024.
Definition maxSingleMappingSize : Z := 0x7FFFFFFF.
Definition LogMetaDataLength : Z := pageMinSize.

Record LogBufferMetaData : Type := mkLogBufferMetaData {
  TailCounter : list Int64Field;
  ActiveTermCountOff : Int32Field;
  EndOfStreamPosOff : Int64Field;
  IsConnected : Int32Field;
  ActiveTransportCountOff : Int32Field;
  CorrelationId : Int64Field;
  InitTermID : Int32Field;
  DefaultFrameHdrLen : Int32Field;
  MTULen : Int32Field;
  TermLen : Int32Field;
  PageSize : Int32Field;
  DefaultFrameHeader : RawDataField;
  meta_size : Z }.

Definition LogBufferMetaData_Wrap (buf : Buffer) (offset : Z) : M mem LogBufferMetaData :=
  let pos := offset in
  let! (tail0, n) := Int64Field_Wrap buf pos in let pos := pos + n in
  let! (tail1, n) := Int64Field_Wrap buf pos in let pos := pos + n in
  let! (tail2, n) := Int64Field_Wrap buf pos in let pos := pos + n in
  let! (activeTermCount, n) := Int32Field_Wrap buf pos in let pos := pos + n in
  let! (_, n) := Padding_Wrap buf pos (CacheLineLength * 2) CacheLineLength in let pos := pos + n in
  let! (endOfStreamPos, n) := Int64Field_Wrap buf pos in let pos := pos + n in
  let! (isConnected, n) := Int32Field_Wrap buf pos in let pos := pos + n in
  let! (activeTransportCount, n) := Int32Field_Wrap buf pos in let pos := pos + n in
  let! (_, n) := Padding_Wrap buf pos (CacheLineLength * 2) CacheLineLength in let pos := pos + n in
  let! (correlationId, n) := Int64Field_Wrap buf pos in let pos := pos + n in
  let! (initTermID, n) := Int32Field_Wrap buf pos in let pos := pos + n in
  let! (defaultFrameHdrLen, n) := Int32Field_Wrap buf pos in let pos := pos + n in
  let! (mtuLen, n) := Int32Field_Wrap buf pos in let pos := pos + n in
  let! (termLen, n) := Int32Field_Wrap buf pos in let pos := pos + n in
  let! (pageSize, n) := Int32Field_Wrap buf pos in let pos := pos + n in
  let! (_, n) := Padding_Wrap buf pos CacheLineLength CacheLineLength in let pos := pos + n in
  let! (defaultFrameHeader, n) := RawDataField_Wrap buf pos DataFrameHeader.Length in let pos := pos + n in
  let! (_, n) := Padding_Wrap buf pos (CacheLineLength * 2) CacheLineLength in let pos := pos + n in
  ret {| TailCounter := [tail0; tail1; tail2];
         ActiveTermCountOff := activeTermCount;
         EndOfStreamPosOff := endOfStreamPos;
         IsConnected := isConnected;
         ActiveTransportCountOff := activeTransportCount;
         CorrelationId := correlationId;
         InitTermID := initTermID;
         DefaultFrameHdrLen := defaultFrameHdrLen;
         MTULen := mtuLen;
         TermLen := termLen;
         PageSize := pageSize;
         DefaultFrameHeader := defaultFrameHeader;
         meta_size := pos - offset |}.

Definition ActiveTransportCount (meta : LogBufferMetaData) : M mem Z :=
  Int32Field_Get (ActiveTransportCountOff meta).

Definition checkTermLength (termLength : Z) : M mem unit :=
  if termLength <? TermMinLength then panic "Term length less than min size"
  else if termLength >? termMaxLength then panic "Term length greater than max size"
  else if negb (IsPowerOfTwo termLength) then panic "Term length not a power of 2"
  else ret tt.

Definition computeTermLength (logLength : Z) : Z :=
  Z.quot (i32 (logLength - LogMetaDataLength)) PartitionCount.

Definition checkPageSize (pageSize : Z) : M mem unit :=
  if pageSize <? pageMinSize then panic "Page size less than min size"
  else if pageSize >? pageMaxSize then panic "Page Size greater than max size"
  else if negb (IsPowerOfTwo pageSize) then panic "Page size not a power of 2"
  else ret tt.

Definition TermID (rawTail : Z) : Z := i32 (Z.shiftr rawTail 32).

Definition indexByTermCount (termCount : Z) : Z := Z.rem termCount PartitionCount.

(** Slice and array indexing: out of range panics. *)
Definition index_or_panic {S A} (l : list A) (i : Z) : M S A :=
  if i <? 0 then panic "index out of range"
  else match l !! Z.to_nat i with Some x => ret x | None => panic "index out of range" end.

(** The loop of [RotateLog]: retry the compare-and-swap while the tail still belongs to
    the expected term. Between the read and the compare-and-swap of an uninterrupted run
    the tail cannot change, so one round is enough; the fuel allows more. *)
Fixpoint RotateLog_loop (fuel : nat) (tail : Int64Field) (expectedTermId newRawTail : Z)
  : M mem unit :=
  match fuel with
  | O => raise EFuel
  | S fuel' =>
      let! rawTail := Int64Field_Get tail in
      if negb (expectedTermId =? TermID rawTail) then ret tt
      else
        let! swapped := Int64Field_CAS tail rawTail newRawTail in
        if swapped then ret tt else RotateLog_loop fuel' tail expectedTermId newRawTail
  end.

Definition RotateLog (meta : LogBufferMetaData) (currentTermCount currentTermId : Z) : M mem unit :=
  let nextTermId := i32 (currentTermId + 1) in
  let nextTermCount := i32 (currentTermCount + 1) in
  let nextIndex := indexByTermCount nextTermCount in
  let expectedTermId := i32 (nextTermId - PartitionCount) in
  let newRawTail := i64 (nextTermId * Z.shiftl 1 32) in
  let! tail := index_or_panic (TailCounter meta) nextIndex in
  RotateLog_loop 2 tail expectedTermId newRawTail ;;;
  let! _ := Int32Field_CAS (ActiveTermCountOff meta) currentTermCount nextTermCount in
  ret tt.

(** ** logbuffers.go

    The memory mapping of the log file is the operating system's: [MapExisting offset
    length] is the base address of a mapping of the file, if it succeeds (length 0 maps
    the whole file). A nil entry of [mmapFiles] is [None]. *)

Record LogBuffers : Type := mkLogBuffers {
  mmapFiles : list (option Z);
  lb_buffers : list Buffer;
  lb_meta : LogBufferMetaData;
  refCount : Z }.

(** [GetMemoryPtr] of a nil file is a nil dereference. *)
Definition GetMemoryPtr (f : option Z) : M mem Z :=
  match f with Some p => ret p | None => panic "nil pointer dereference" end.

Section Mapping.
Context (MapExisting : Z -> Z -> option Z).

(** The terms of a log mapped one by one: each is appended to [mmapFiles] and its
    buffer wrapped around entry [i+1]. *)
Fixpoint map_terms (idxs : list nat) (termLength : Z) (files : list (option Z)) (bufs : list Buffer)
  : M mem (list (option Z) * list Buffer) :=
  match idxs with
  | [] => ret (files, bufs)
  | i :: idxs' =>
      match MapExisting (Z.of_nat i * termLength) termLength with
      | None => panic "Failed to map the log buffer"
      | Some base =>
          let files := files ++ [Some base] in
          let! f := index_or_panic files (Z.of_nat i + 1) in
          let! basePtr := GetMemoryPtr f in
          map_terms idxs' termLength files (bufs ++ [Buffer_Wrap basePtr termLength])
      end
  end.

Definition LogBuffers_Wrap (logLength : Z) : M mem LogBuffers :=
  let termLength := computeTermLength (i32 logLength) in
  checkTermLength termLength ;;;
  if logLength <? maxSingleMappingSize then
    match MapExisting 0 0 with
    | None => panic "MapExisting"
    | Some basePtr =>
        let terms := map (fun i => Buffer_Wrap (ptr_add basePtr (Z.of_nat i * termLength)) termLength)
                       (seq 0 3) in
        let metaBuf := Buffer_Wrap (ptr_add basePtr (logLength - LogMetaDataLength)) LogMetaDataLength in
        let! meta := LogBufferMetaData_Wrap metaBuf 0 in
        ret (mkLogBuffers [Some basePtr] (terms ++ [metaBuf]) meta 0)
    end
  else
    let files := replicate 4 None in
    let metaDataSectionOffset := termLength * LogMetaDataSectionIndex in
    let metaDataSectionLength := logLength - metaDataSectionOffset in
    match MapExisting metaDataSectionOffset metaDataSectionLength with
    | None => panic "Failed to map the log buffer"
    | Some base =>
        let! (files, bufs) := map_terms (seq 0 3) termLength (files ++ [Some base]) [] in
        let! f := index_or_panic files 0 in
        let! metaDataBasePtr := GetMemoryPtr f in
        let metaBuf := Buffer_Wrap metaDataBasePtr LogMetaDataLength in
        let! meta := LogBufferMetaData_Wrap metaBuf 0 in
        ret (mkLogBuffers files (bufs ++ [metaBuf]) meta 0)
    end.
End Mapping.

(** [Close] unmaps every file, and keeps the last error; [Unmap] is the operating system's. *)
Section Unmapping.
Context (Unmap : option Z -> M mem (option string)).

Fixpoint close_files (files : list (option Z)) (err : option string) : M mem (option string) :=
  match files with
  | [] => ret err
  | f :: files' => let! err := Unmap f in close_files files' err
  end.

Definition LogBuffers_Close (l : LogBuffers) : M mem (LogBuffers * option string) :=
  let! err := close_files (mmapFiles l) None in
  ret (mkLogBuffers [] (lb_buffers l) (lb_meta l) (refCount l), err).
End Unmapping.

Definition LogBuffers_Meta (l : LogBuffers) : LogBufferMetaData := lb_meta l.
Definition LogBuffers_Buffer (l : LogBuffers) (index : Z) : M mem Buffer :=
  index_or_panic (lb_buffers l) index.
Definition IncRef (l : LogBuffers) : LogBuffers * Z :=
  (mkLogBuffers (mmapFiles l) (lb_buffers l) (lb_meta l) (refCount l + 1), refCount l + 1).
Definition DecRef (l : LogBuffers) : LogBuffers * Z :=
  (mkLogBuffers (mmapFiles l) (lb_buffers l) (lb_meta l) (refCount l - 1), refCount l - 1).

#[global] Arguments TermID : simpl never.
#[global] Arguments computePosition : simpl never.

(** ** The effect of the frame accessors *)

Section FrameAccess.
Context (m : mem) (b : Buffer) (off : Z) (Hb : buf_ok m b) (Hoff : 0 <= off).
Context (Hin : off + 32 <= buf_length b).

Local Ltac frame := pose proof (buf_ok_length _ _ Hb);
  unfold flagsOffset, lengthOffset, termIdOffset, sessionIdOffset, streamIdOffset,
    typeOffset, reservedValueOffset, DataFrameHeader.FlagsFieldOffset,
    DataFrameHeader.FrameLengthFieldOffset, DataFrameHeader.TermIDFieldOffset,
    DataFrameHeader.SessionIDFieldOffset, DataFrameHeader.StreamIDFieldOffset,
    DataFrameHeader.TypeFieldOffset, DataFrameHeader.ReservedValueFieldOffset;
  wrap_simpl; rewrite ?Z.add_0_r, ?Z.add_assoc.

Lemma GetFlags_ok : GetFlags b off m = Ret (rd_u8 m (bufferPtr b + off + 5)) m.
Proof using All. unfold GetFlags. frame. rewrite <- Z.add_assoc. apply GetUInt8_ok; lia || done. Qed.
Lemma GetTermId_ok : GetTermId b off m = Ret (rd_i32 m (bufferPtr b + off + 20)) m.
Proof using All. unfold GetTermId. frame. rewrite <- Z.add_assoc. apply GetInt32_ok; lia || done. Qed.
Lemma GetSessionId_ok : GetSessionId b off m = Ret (rd_i32 m (bufferPtr b + off + 12)) m.
Proof using All. unfold GetSessionId. frame. rewrite <- Z.add_assoc. apply GetInt32_ok; lia || done. Qed.
Lemma GetStreamId_ok : GetStreamId b off m = Ret (rd_i32 m (bufferPtr b + off + 16)) m.
Proof using All. unfold GetStreamId. frame. rewrite <- Z.add_assoc. apply GetInt32_ok; lia || done. Qed.
Lemma GetFrameLength_ok : GetFrameLength b off m = Ret (rd_i32 m (bufferPtr b + off)) m.
Proof using All. unfold GetFrameLength. frame. apply GetInt32_ok; lia || done. Qed.
Lemma GetReservedValue_ok : GetReservedValue b off m = Ret (rd_i64 m (bufferPtr b + off + 24)) m.
Proof using All. unfold GetReservedValue. frame. rewrite <- Z.add_assoc. apply GetInt64_ok; lia || done. Qed.
Lemma IsPaddingFrame_ok :
  IsPaddingFrame b off m = Ret (rd_u16 m (bufferPtr b + off + 6) =? 0) m.
Proof using All.
  unfold IsPaddingFrame. frame.
  erewrite bind_Ret by (apply GetUInt16_ok; lia || done). by rewrite Z.add_assoc.
Qed.
Lemma SetFrameLength_ok v :
  SetFrameLength b off v m = Ret tt (wr m (bufferPtr b + off) (le_split 4 v)).
Proof using All. unfold SetFrameLength. frame. apply PutInt32Ordered_ok; lia || done. Qed.
Lemma SetFrameType_ok v :
  SetFrameType b off v m = Ret tt (wr m (bufferPtr b + off + 6) (le_split 2 v)).
Proof using All. unfold SetFrameType. frame. rewrite <- Z.add_assoc. apply PutUInt16_ok; lia || done. Qed.
Lemma FrameFlags_ok v :
  FrameFlags b off v m = Ret tt (wr m (bufferPtr b + off + 5) (le_split 1 v)).
Proof using All. unfold FrameFlags. frame. rewrite <- Z.add_assoc. apply PutUInt8_ok; lia || done. Qed.
End FrameAccess.

#[export] Hint Resolve GetFlags_ok GetTermId_ok GetSessionId_ok GetStreamId_ok GetFrameLength_ok
  GetReservedValue_ok IsPaddingFrame_ok SetFrameLength_ok SetFrameType_ok FrameFlags_ok : m_ok.

(** ** Layout of the metadata section *)

(** The fields of a metadata section that starts at address [base]. *)
Definition meta_layout (base : Z) : LogBufferMetaData := {|
  TailCounter := [mkInt64Field base; mkInt64Field (base + 8); mkInt64Field (base + 16)];
  ActiveTermCountOff := mkInt32Field (base + 24);
  EndOfStreamPosOff := mkInt64Field (base + 128);
  IsConnected := mkInt32Field (base + 136);
  ActiveTransportCountOff := mkInt32Field (base + 140);
  CorrelationId := mkInt64Field (base + 256);
  InitTermID := mkInt32Field (base + 264);
  DefaultFrameHdrLen := mkInt32Field (base + 268);
  MTULen := mkInt32Field (base + 272);
  TermLen := mkInt32Field (base + 276);
  PageSize := mkInt32Field (base + 280);
  DefaultFrameHeader := mkBuffer (base + 320) 32;
  meta_size := 448 |}.

Lemma Padding_Wrap_val m b off size al n :
  al <> 0 -> Padding_length off size al = n ->
  Padding_Wrap b off size al m = Ret (mkBuffer (ptr_add (bufferPtr b) off) n, n) m.
Proof. intros ? <-. unfold Padding_Wrap. by rewrite (proj2 (Z.eqb_neq al 0)). Qed.

(** Wrapping the metadata of a log puts every field at its offset in the section. *)
Lemma LogBufferMetaData_Wrap_layout m b :
  buf_ok m b -> LogMetaDataLength <= buf_length b ->
  LogBufferMetaData_Wrap b 0 m = Ret (meta_layout (bufferPtr b)) m.
Proof.
  unfold LogMetaDataLength, pageMinSize. intros Hb Hlen. unfold LogBufferMetaData_Wrap.
  repeat (erewrite bind_Ret;
          [|first [ apply Int64Field_Wrap_ok; [done|simpl; lia..]
                  | apply Int32Field_Wrap_ok; [done|simpl; lia..]
                  | eapply Padding_Wrap_val; [done|vm_compute; reflexivity]
                  | reflexivity ]];
          cbv beta iota zeta).
  unfold Ptr. rewrite (ptr_add_ok m b _ 32) by (done || (simpl; lia)).
  by rewrite Z.add_0_r.
Qed.

(** ** Raw tails *)

(** A raw tail packs the term id above the offset in the term. *)
Definition raw_tail (termId off : Z) : Z := termId * 4294967296 + off.

Lemma TermID_raw termId off :
  is_i32 termId -> 0 <= off < 4294967296 -> TermID (raw_tail termId off) = termId.
Proof.
  unfold is_i32, TermID, raw_tail. intros. rewrite Z.shiftr_div_pow2 by lia.
  change (2 ^ 32) with 4294967296. rewrite Z.div_add_l, Z.div_small by lia.
  rewrite i32_small; lia.
Qed.

Lemma raw_tail_offset termId off :
  0 <= off < 4294967296 -> Z.land (raw_tail termId off) 0xFFFFFFFF = off.
Proof.
  intros. change 0xFFFFFFFF with (Z.ones 32). rewrite Z.land_ones by lia.
  change (2 ^ 32) with 4294967296. unfold raw_tail.
  rewrite Z.add_comm, Z.mod_add by lia. by apply Z.mod_small.
Qed.

Lemma raw_tail_split raw :
  is_i64 raw -> raw = raw_tail (TermID raw) (Z.land raw 0xFFFFFFFF).
Proof.
  unfold is_i64. intros H. change 0xFFFFFFFF with (Z.ones 32). rewrite Z.land_ones by lia.
  unfold TermID, raw_tail. rewrite Z.shiftr_div_pow2 by lia. change (2 ^ 32) with 4294967296.
  rewrite i32_small by dlia. dlia.
Qed.

Lemma raw_tail_range termId off :
  is_i32 termId -> 0 <= off < 4294967296 -> is_i64 (raw_tail termId off).
Proof. unfold is_i32, is_i64, raw_tail. lia. Qed.

Lemma TermID_range raw : is_i32 (TermID raw).
Proof. apply i32_range. Qed.

Lemma offset_range raw : 0 <= Z.land raw 0xFFFFFFFF < 4294967296.
Proof.
  change 0xFFFFFFFF with (Z.ones 32). rewrite Z.land_ones by lia.
  apply Z.mod_pos_bound. lia.
Qed.

#[global] Arguments raw_tail : simpl never.

(** ** Log rotation *)

Section Rotation.
Context (m : mem) (base : Z) (Hm : region_ok m base 448).

Definition tail_addr (i : Z) : Z := base + 8 * i.

Lemma tail_field (m' : mem) i :
  0 <= i < 3 ->
  index_or_panic (TailCounter (meta_layout base)) i m' = Ret (mkInt64Field (tail_addr i)) m'.
Proof using Type.
  intros Hi. unfold tail_addr.
  assert (i = 0 \/ i = 1 \/ i = 2) as [->|[->| ->]] by lia;
    unfold index_or_panic, ret; simpl; do 2 f_equal; lia.
Qed.

(** The memory after [RotateLog]: the next partition's tail starts the next term if it
    still belongs to the term three before, and the active term count advances if it
    still is the given one. *)
Definition rotated (tc tid : Z) : mem :=
  let i := (tc + 1) mod 3 in
  let m1 := if decide (TermID (rd_i64 m (tail_addr i)) = i32 (tid + 1 - 3))
            then wr m (tail_addr i) (le_split 8 (raw_tail (i32 (tid + 1)) 0)) else m in
  if decide (rd_i32 m (base + 24) = tc) then wr m1 (base + 24) (le_split 4 (tc + 1)) else m1.

Lemma RotateLog_loop_ok i e v :
  0 <= i < 3 ->
  RotateLog_loop 2 (mkInt64Field (tail_addr i)) e v m =
  Ret tt (if decide (TermID (rd_i64 m (tail_addr i)) = e)
          then wr m (tail_addr i) (le_split 8 v) else m).
Proof using Hm.
  intros Hi.
  assert (Hf : f64_ok m (mkInt64Field (tail_addr i)))
    by (eapply region_ok_sub; [exact Hm| | |]; unfold tail_addr; simpl; lia).
  cbn [RotateLog_loop]. mstep. unfold f64_val. cbn [f64_offset].
  case_decide as E.
  - rewrite (proj2 (Z.eqb_eq _ _) (eq_sym E)). cbn [negb].
    erewrite bind_Ret by (rewrite Int64Field_CAS_ok by done; by rewrite decide_True).
    done.
  - rewrite (proj2 (Z.eqb_neq _ _)); [done|congruence].
Qed.

Lemma RotateLog_ok tc tid :
  0 <= tc < 2147483647 -> is_i32 tid ->
  RotateLog (meta_layout base) tc tid m = Ret tt (rotated tc tid).
Proof using Hm.
  intros Htc Htid. unfold RotateLog, rotated, indexByTermCount, PartitionCount.
  pose proof (Z.mod_pos_bound (tc + 1) 3 ltac:(lia)).
  rewrite (i32_small (tc + 1)) by lia. rewrite Z.rem_mod_nonneg by lia.
  erewrite bind_Ret by (apply tail_field; lia).
  erewrite bind_Ret by (apply RotateLog_loop_ok; lia).
  rewrite i32_sub_i32.
  assert (Hv : i64 (i32 (tid + 1) * Z.shiftl 1 32) = raw_tail (i32 (tid + 1)) 0).
  { change (Z.shiftl 1 32) with 4294967296. unfold raw_tail. rewrite Z.add_0_r.
    apply i64_small. pose proof (i32_range (tid + 1)). unfold is_i32 in *. lia. }
  rewrite Hv.
  set (m1 := if decide (TermID _ = _) then _ else _).
  assert (Hf : f32_ok m1 (mkInt32Field (base + 24))).
  { unfold m1. case_decide; [apply region_ok_wr|];
      (eapply region_ok_sub; [exact Hm| | |]; simpl; lia). }
  assert (Hr : rd_i32 m1 (base + 24) = rd_i32 m (base + 24)).
  { unfold m1. case_decide; [|done]. apply rd_i32_disj. right. rewrite zlen_le_split.
    unfold tail_addr. lia. }
  unfold bind. cbn [ActiveTermCountOff meta_layout]. rewrite Int32Field_CAS_ok by done.
  unfold f32_val. cbn [f32_offset].
  rewrite Hr. by case_decide.
Qed.
End Rotation.

(** ** The rotation invariant

    With [tc] the active term count: the active partition holds term [init + tc], the
    one after it still holds the term it had three terms before the next, and so on. *)

Record log_inv (m : mem) (base init tc : Z) : Prop := {
  li_region : region_ok m base 448;
  li_init : rd_i32 m (base + 264) = init;
  li_count : rd_i32 m (base + 24) = tc;
  li_active : TermID (rd_i64 m (tail_addr base (tc mod 3))) = i32 (init + tc);
  li_next : TermID (rd_i64 m (tail_addr base ((tc + 1) mod 3))) = i32 (init + tc - 2);
  li_last : TermID (rd_i64 m (tail_addr base ((tc + 2) mod 3))) = i32 (init + tc - 1) }.

Lemma partitions_distinct tc :
  0 <= tc -> tc mod 3 <> (tc + 1) mod 3 /\ tc mod 3 <> (tc + 2) mod 3 /\
             (tc + 1) mod 3 <> (tc + 2) mod 3.
Proof. intros. split_and!; dlia. Qed.

Lemma only_in_rotated m base tc tid :
  0 <= tc -> only_in m (rotated m base tc tid) base 448.
Proof.
  intros. unfold rotated. pose proof (Z.mod_pos_bound (tc + 1) 3 ltac:(lia)).
  repeat case_decide;
    repeat (eapply only_in_trans; [|apply only_in_wr; rewrite ?zlen_le_split; unfold tail_addr; lia]);
    apply only_in_refl.
Qed.

(** Rotating a log moves it to the next term: the next partition becomes the active
    one, its tail starts the new term at offset zero, and the invariant holds for the
    next term count; nothing outside of the metadata is written. *)
Lemma RotateLog_moves m base init tc :
  log_inv m base init tc -> 0 <= tc < 2147483647 ->
  exists m', RotateLog (meta_layout base) tc (i32 (init + tc)) m = Ret tt m' /\
    log_inv m' base init (tc + 1) /\
    rd_i64 m' (tail_addr base ((tc + 1) mod 3)) = raw_tail (i32 (init + (tc + 1))) 0 /\
    only_in m m' base 448.
Proof.
  intros [Hr Hi Hc Ha Hn Hl] Htc. exists (rotated m base tc (i32 (init + tc))).
  enough (log_inv (rotated m base tc (i32 (init + tc))) base init (tc + 1) /\
          rd_i64 (rotated m base tc (i32 (init + tc))) (tail_addr base ((tc + 1) mod 3))
          = raw_tail (i32 (init + (tc + 1))) 0) as [? ?].
  { split_and!; [apply RotateLog_ok; [done|lia|apply i32_range]|done|done|].
    apply only_in_rotated. lia. }
  pose proof (Z.mod_pos_bound tc 3 ltac:(lia)). pose proof (Z.mod_pos_bound (tc + 1) 3 ltac:(lia)).
  pose proof (Z.mod_pos_bound (tc + 2) 3 ltac:(lia)).
  destruct (partitions_distinct tc ltac:(lia)) as (?&?&?).
  unfold rotated.
  replace (i32 (i32 (init + tc) + 1 - 3)) with (i32 (init + tc - 2))
    by (replace (i32 (init + tc) + 1 - 3) with (i32 (init + tc) + -2) by lia;
        rewrite i32_add_i32; f_equal; lia).
  rewrite i32_add_i32, !decide_True by done.
  set (raw := raw_tail _ 0).
  assert (is_i64 raw) by (apply raw_tail_range; [apply i32_range|lia]).
  unfold is_i64 in *. unfold tail_addr in *.
  split; [constructor; unfold tail_addr|].
  - by do 2 apply region_ok_wr.
  - mem_simpl. done.
  - mem_simpl. done.
  - mem_simpl. unfold raw. rewrite TermID_raw by (apply i32_range || lia). f_equal. lia.
  - replace (tc + 1 + 1) with (tc + 2) by lia. mem_simpl. rewrite Hl. f_equal. lia.
  - replace (tc + 1 + 2) with (tc + 1 * 3) by lia. rewrite Z.mod_add by lia. mem_simpl.
    rewrite Ha. f_equal. lia.
  - mem_simpl. unfold raw. do 2 f_equal. lia.
Qed.

(** A producer that was overtaken rotates with the old term count and id: its rotation
    leaves the log as it is. *)
Lemma RotateLog_stale m base init tc :
  log_inv m base init (tc + 1) -> 0 <= tc < 2147483647 ->
  RotateLog (meta_layout base) tc (i32 (init + tc)) m = Ret tt m.
Proof.
  intros [Hr Hi Hc Ha Hn Hl] Htc. rewrite RotateLog_ok by (done || apply i32_range).
  f_equal. unfold rotated.
  rewrite (decide_False (P := rd_i32 m (base + 24) = tc)) by lia.
  rewrite decide_False; [done|]. rewrite Ha. unfold i32. dlia.
Qed.

(** Two producers find the term full and both rotate: the first rotation moves the log to
    the next term, whose partition becomes the active one with its tail at offset zero; the
    second one leaves everything as it is. Nothing outside of the metadata is written. *)
Theorem RotateLog_next_term m base init tc :
  log_inv m base init tc -> 0 <= tc < 2147483647 ->
  let rotate := RotateLog (meta_layout base) tc (i32 (init + tc)) in
  exists m', rotate m = Ret tt m' /\ log_inv m' base init (tc + 1) /\
    rd_i64 m' (tail_addr base ((tc + 1) mod 3)) = raw_tail (i32 (init + (tc + 1))) 0 /\
    only_in m m' base 448 /\ rotate m' = Ret tt m'.
Proof.
  intros Hl Htc rotate. destruct (RotateLog_moves m base init tc Hl Htc) as (m' & ? & Hl' & ? & ?).
  exists m'. split_and!; try done. by apply RotateLog_stale.
Qed.

(** ** Positions *)

(** Without overflow, a position is the number of whole terms since the first one times
    the term length, plus the offset. *)
Lemma computePosition_exact termId off bits init :
  is_i32 (termId - init) -> 0 <= off -> 0 <= bits <= 30 -> 0 <= termId - init -> off <= 2 ^ bits ->
  computePosition termId off bits init = (termId - init) * 2 ^ bits + off.
Proof.
  unfold is_i32, computePosition. intros H1 H2 H3 H4 H5.
  pose proof (Z.pow_pos_nonneg 2 bits ltac:(lia) ltac:(lia)).
  assert (2 ^ bits <= 1073741824) by (apply (Z.pow_le_mono_r 2 bits 30); lia).
  rewrite (u32_small bits), (i32_small (termId - init)) by lia.
  rewrite Z.shiftl_mul_pow2 by lia.
  assert (0 <= (termId - init) * 2 ^ bits <= 2147483647 * 1073741824)
    by (split; [apply Z.mul_nonneg_nonneg|apply Z.mul_le_mono_nonneg]; lia).
  rewrite (i64_small (_ * _)), i64_small by lia. done.
Qed.

(** ** The division of a log file *)

(** A log file with a legal term length below one gigabyte is divided in three adjacent
    term buffers and the metadata section after them. *)
Lemma LogBuffers_Wrap_ok (MapExisting : Z -> Z -> option Z) m base bits :
  16 <= bits <= 29 ->
  let termLength := 2 ^ bits in
  let logLength := 3 * termLength + LogMetaDataLength in
  MapExisting 0 0 = Some base -> region_ok m base logLength ->
  LogBuffers_Wrap MapExisting logLength m =
  Ret {| mmapFiles := [Some base];
         lb_buffers := [mkBuffer base termLength; mkBuffer (base + termLength) termLength;
                        mkBuffer (base + 2 * termLength) termLength;
                        mkBuffer (base + 3 * termLength) LogMetaDataLength];
         lb_meta := meta_layout (base + 3 * termLength);
         refCount := 0 |} m.
Proof.
  intros Hbits termLength logLength Hmap Hreg.
  assert (Hmin : 65536 <= termLength) by (apply (Z.pow_le_mono_r 2 16 bits); lia).
  assert (Hmax : termLength <= 536870912) by (apply (Z.pow_le_mono_r 2 bits 29); lia).
  assert (HT : exists k, 0 <= k /\ termLength = 2 ^ k) by (exists bits; split; [lia|done]).
  pose proof Hreg as (?&?&?&?). unfold LogBuffers_Wrap, logLength in *.
  clear logLength. clearbody termLength.
  unfold LogMetaDataLength, pageMinSize in *.
  assert (Hct : computeTermLength (i32 (3 * termLength + 4 * 1024)) = termLength).
  { unfold computeTermLength, LogMetaDataLength, pageMinSize, PartitionCount. wrap_simpl. dlia. }
  rewrite Hct.
  erewrite bind_Ret.
  2: { unfold checkTermLength, TermMinLength, termMaxLength.
       rewrite (proj2 (Z.ltb_ge _ _)) by lia. replace (termLength >? 1024 * 1024 * 1024) with false by lia.
       rewrite (proj2 (IsPowerOfTwo_spec termLength ltac:(unfold is_i64; lia)));
         done. }
  rewrite (proj2 (Z.ltb_lt _ _)) by (unfold maxSingleMappingSize; lia). rewrite Hmap.
  unfold ptr_add. cbn [map seq].
  rewrite !u64_small by lia.
  erewrite bind_Ret.
  2: { apply LogBufferMetaData_Wrap_layout; [|unfold LogMetaDataLength, pageMinSize; simpl; lia].
       split; [|simpl; lia]. eapply region_ok_sub; [exact Hreg| | |]; simpl; lia. }
  unfold ret, Buffer_Wrap. cbn [bufferPtr app].
  replace (base + (3 * termLength + 4 * 1024 - 4 * 1024)) with (base + 3 * termLength) by lia.
  replace (base + Z.of_nat 0 * termLength) with base by lia.
  replace (base + Z.of_nat 1 * termLength) with (base + termLength) by lia. done.
Qed.

(** A log with terms of one gigabyte, the length [termMaxLength] allows, is never
    wrapped: its size does not fit the [int32] that the term length is computed from. *)
Theorem LogBuffers_Wrap_gigabyte (MapExisting : Z -> Z -> option Z) m :
  LogBuffers_Wrap MapExisting (3 * termMaxLength + LogMetaDataLength) m
  = Exc (EPanic "Term length less than min size") m.
Proof. reflexivity. Qed.
