(* ===== verification/Command.v ===== *)
(** * Commands and events as flyweights

    src/aeron/command/control.go and flyweights.go, and src/aeron/driver/flyweights.go:
    the messages that clients send to the media driver and those that the driver sends
    back. A flyweight is its fields, each with the address of its bytes, and its size; the
    size of a message with a string changes when the string is set. *)

From S2P Require Import Prelude Memory Bits Flyweight LogBuffer.

Local Open Scope m_scope.

(** ** control.go *)

Module control.
Definition AddPublication : Z := 0x01.
Definition RemovePublication : Z := 0x02.
Definition AddExclusivePublication : Z := 0x03.
Definition AddSubscription : Z := 0x04.
Definition RemoveSubscription : Z := 0x05.
Definition ClientKeepalive : Z := 0x06.
Definition AddDestination : Z := 0x07.
Definition RemoveDestination : Z := 0x08.
Definition AddCounter : Z := 0x09.
Definition RemoveCounter : Z := 0x0A.
Definition ClientClose : Z := 0x0B.
Definition AddRcvDestination : Z := 0x0C.
Definition RemoveRcvDestination : Z := 0x0D.

Definition ErrorCodeChannelEndpointError : Z := 4.
End control.

(** ** command/flyweights.go *)

Record CorrelatedMessage : Type := mkCorrelatedMessage {
  cor_ClientID : Int64Field; cor_CorrelationID : Int64Field; cor_size : Z }.

Definition CorrelatedMessage_Wrap (buf : Buffer) (offset : Z) : M mem CorrelatedMessage :=
  let pos := offset in
  let! (ClientID, n) := Int64Field_Wrap buf pos in
  let pos := pos + n in
  let! (CorrelationID, n) := Int64Field_Wrap buf pos in
  let pos := pos + n in
  ret (mkCorrelatedMessage ClientID CorrelationID (pos - offset)).

Record ImageMessage : Type := mkImageMessage {
  im_CorrelationID : Int64Field; im_SubscriptionRegistrationID : Int64Field;
  im_StreamID : Int32Field; im_Channel : StringField; im_size : Z }.

Definition ImageMessage_Wrap (buf : Buffer) (offset : Z) : M mem ImageMessage :=
  let pos := offset in
  let! (CorrelationID, n) := Int64Field_Wrap buf pos in
  let pos := pos + n in
  let! (SubscriptionRegistrationID, n) := Int64Field_Wrap buf pos in
  let pos := pos + n in
  let! (StreamID, n) := Int32Field_Wrap buf pos in
  let pos := pos + n in
  let! (Channel, n) := StringField_Wrap buf pos true in
  let pos := pos + n in
  ret (mkImageMessage CorrelationID SubscriptionRegistrationID StreamID Channel (pos - offset)).

Record PublicationMessage : Type := mkPublicationMessage {
  pm_ClientID : Int64Field; pm_CorrelationID : Int64Field;
  pm_StreamID : Int32Field; pm_Channel : StringField; pm_size : Z }.

Definition PublicationMessage_Wrap (buf : Buffer) (offset : Z) : M mem PublicationMessage :=
  let pos := offset in
  let! (ClientID, n) := Int64Field_Wrap buf pos in
  let pos := pos + n in
  let! (CorrelationID, n) := Int64Field_Wrap buf pos in
  let pos := pos + n in
  let! (StreamID, n) := Int32Field_Wrap buf pos in
  let pos := pos + n in
  let! (Channel, n) := StringField_Wrap buf pos true in
  let pos := pos + n in
  ret (mkPublicationMessage ClientID CorrelationID StreamID Channel (pos - offset)).

Record SubscriptionMessage : Type := mkSubscriptionMessage {
  sm_ClientID : Int64Field; sm_CorrelationID : Int64Field;
  sm_RegistrationCorrelationID : Int64Field;
  sm_StreamID : Int32Field; sm_Channel : StringField; sm_size : Z }.

Definition SubscriptionMessage_Wrap (buf : Buffer) (offset : Z) : M mem SubscriptionMessage :=
  let pos := offset in
  let! (ClientID, n) := Int64Field_Wrap buf pos in
  let pos := pos + n in
  let! (CorrelationID, n) := Int64Field_Wrap buf pos in
  let pos := pos + n in
  let! (RegistrationCorrelationID, n) := Int64Field_Wrap buf pos in
  let pos := pos + n in
  let! (StreamID, n) := Int32Field_Wrap buf pos in
  let pos := pos + n in
  let! (Channel, n) := StringField_Wrap buf pos true in
  let pos := pos + n in
  ret (mkSubscriptionMessage ClientID CorrelationID RegistrationCorrelationID StreamID Channel
         (pos - offset)).

Record RemoveMessage : Type := mkRemoveMessage {
  rm_ClientID : Int64Field; rm_CorrelationID : Int64Field; rm_RegistrationID : Int64Field;
  rm_size : Z }.

Definition RemoveMessage_Wrap (buf : Buffer) (offset : Z) : M mem RemoveMessage :=
  let pos := offset in
  let! (ClientID, n) := Int64Field_Wrap buf pos in
  let pos := pos + n in
  let! (CorrelationID, n) := Int64Field_Wrap buf pos in
  let pos := pos + n in
  let! (RegistrationID, n) := Int64Field_Wrap buf pos in
  let pos := pos + n in
  ret (mkRemoveMessage ClientID CorrelationID RegistrationID (pos - offset)).

Record DestinationMessage : Type := mkDestinationMessage {
  dm_ClientID : Int64Field; dm_CorrelationID : Int64Field;
  dm_RegistrationCorrelationID : Int64Field; dm_Channel : StringField; dm_size : Z }.

Definition DestinationMessage_Wrap (buf : Buffer) (offset : Z) : M mem DestinationMessage :=
  let pos := offset in
  let! (ClientID, n) := Int64Field_Wrap buf pos in
  let pos := pos + n in
  let! (CorrelationID, n) := Int64Field_Wrap buf pos in
  let pos := pos + n in
  let! (RegistrationCorrelationID, n) := Int64Field_Wrap buf pos in
  let pos := pos + n in
  let! (Channel, n) := StringField_Wrap buf pos true in
  let pos := pos + n in
  ret (mkDestinationMessage ClientID CorrelationID RegistrationCorrelationID Channel (pos - offset)).

(** The two variable fields of a counter message: the label is wrapped again whenever it
    is set, behind the key of that time. *)
Record CounterMessage : Type := mkCounterMessage {
  cm_buf : Buffer; cm_offset : Z;
  cm_ClientID : Int64Field; cm_CorrelationID : Int64Field; cm_CounterTypeID : Int32Field;
  cm_key : LengthAndRawDataField; cm_label : LengthAndRawDataField; cm_size : Z }.

Definition set_label (m : CounterMessage) (label : LengthAndRawDataField) (size : Z) : CounterMessage :=
  mkCounterMessage (cm_buf m) (cm_offset m) (cm_ClientID m) (cm_CorrelationID m) (cm_CounterTypeID m)
    (cm_key m) label size.

Definition getLabelOffset (key : LengthAndRawDataField) : M mem Z :=
  let! len := LengthAndRawDataField_Length key in
  ret (8 + 8 + 4 + 4 + len).

Definition wrapLabel (buf : Buffer) (offset : Z) (key : LengthAndRawDataField) : M mem LengthAndRawDataField :=
  let! off := getLabelOffset key in
  let! (label, _) := LengthAndRawDataField_Wrap buf (offset + off) in
  ret label.

Definition counter_size (key label : LengthAndRawDataField) : M mem Z :=
  let! off := getLabelOffset key in
  let! len := LengthAndRawDataField_Length label in
  ret (off + 4 + len).

Definition CounterMessage_Wrap (buf : Buffer) (offset : Z) : M mem CounterMessage :=
  let pos := offset in
  let! (ClientID, n) := Int64Field_Wrap buf pos in
  let pos := pos + n in
  let! (CorrelationID, n) := Int64Field_Wrap buf pos in
  let pos := pos + n in
  let! (CounterTypeID, n) := Int32Field_Wrap buf pos in
  let pos := pos + n in
  let! (key, n) := LengthAndRawDataField_Wrap buf pos in
  let! label := wrapLabel buf offset key in
  let! size := counter_size key label in
  ret (mkCounterMessage buf offset ClientID CorrelationID CounterTypeID key label size).

Definition CopyKeyBuffer (m : CounterMessage) (buffer : Buffer) (offset length : Z) : M mem unit :=
  LengthAndRawDataField_CopyBuffer (cm_key m) buffer offset length.

Definition CopyLabelBuffer (m : CounterMessage) (buffer : Buffer) (offset length : Z)
  : M mem CounterMessage :=
  let! label := wrapLabel (cm_buf m) (cm_offset m) (cm_key m) in
  LengthAndRawDataField_CopyBuffer label buffer offset length ;;;
  let! size := counter_size (cm_key m) label in
  ret (set_label m label size).

Definition CopyLabelString (m : CounterMessage) (s : list Init.Byte.byte) : M mem CounterMessage :=
  let! label := wrapLabel (cm_buf m) (cm_offset m) (cm_key m) in
  LengthAndRawDataField_CopyString label s ;;;
  let! size := counter_size (cm_key m) label in
  ret (set_label m label size).

(** ** driver/flyweights.go *)

Record errorMessage : Type := mkErrorMessage {
  em_offendingCommandCorrelationID : Int64Field; em_errorCode : Int32Field;
  em_errorMessage : StringField; em_size : Z }.

Definition errorMessage_Wrap (buf : Buffer) (offset : Z) : M mem errorMessage :=
  let pos := offset in
  let! (offendingCommandCorrelationID, n) := Int64Field_Wrap buf pos in
  let pos := pos + n in
  let! (errorCode, n) := Int32Field_Wrap buf pos in
  let pos := pos + n in
  let! (message, n) := StringField_Wrap buf pos true in
  let pos := pos + n in
  ret (mkErrorMessage offendingCommandCorrelationID errorCode message (pos - offset)).

Record publicationReady : Type := mkPublicationReady {
  pr_correlationID : Int64Field; pr_registrationID : Int64Field; pr_sessionID : Int32Field;
  pr_streamID : Int32Field; pr_publicationLimitOffset : Int32Field;
  pr_channelStatusIndicatorID : Int32Field; pr_logFileName : StringField; pr_size : Z }.

Definition publicationReady_Wrap (buf : Buffer) (offset : Z) : M mem publicationReady :=
  let pos := offset in
  let! (correlationID, n) := Int64Field_Wrap buf pos in
  let pos := pos + n in
  let! (registrationID, n) := Int64Field_Wrap buf pos in
  let pos := pos + n in
  let! (sessionID, n) := Int32Field_Wrap buf pos in
  let pos := pos + n in
  let! (streamID, n) := Int32Field_Wrap buf pos in
  let pos := pos + n in
  let! (publicationLimitOffset, n) := Int32Field_Wrap buf pos in
  let pos := pos + n in
  let! (channelStatusIndicatorID, n) := Int32Field_Wrap buf pos in
  let pos := pos + n in
  let! (logFileName, n) := StringField_Wrap buf pos true in
  let pos := pos + n in
  ret (mkPublicationReady correlationID registrationID sessionID streamID publicationLimitOffset
         channelStatusIndicatorID logFileName (pos - offset)).

Record subscriptionReady : Type := mkSubscriptionReady {
  sr_correlationID : Int64Field; sr_channelStatusIndicatorID : Int32Field; sr_size : Z }.

Definition subscriptionReady_Wrap (buf : Buffer) (offset : Z) : M mem subscriptionReady :=
  let pos := offset in
  let! (correlationID, n) := Int64Field_Wrap buf pos in
  let pos := pos + n in
  let! (channelStatusIndicatorID, n) := Int32Field_Wrap buf pos in
  let pos := pos + n in
  ret (mkSubscriptionReady correlationID channelStatusIndicatorID (pos - offset)).

Record imageReadyHeader : Type := mkImageReadyHeader {
  ir_correlationID : Int64Field; ir_sessionID : Int32Field; ir_streamID : Int32Field;
  ir_subsRegistrationID : Int64Field; ir_subsPosID : Int32Field;
  ir_logFile : StringField; ir_sourceIdentity : StringField; ir_size : Z }.

Definition imageReadyHeader_Wrap (buf : Buffer) (offset : Z) : M mem imageReadyHeader :=
  let pos := offset in
  let! (correlationID, n) := Int64Field_Wrap buf pos in
  let pos := pos + n in
  let! (sessionID, n) := Int32Field_Wrap buf pos in
  let pos := pos + n in
  let! (streamID, n) := Int32Field_Wrap buf pos in
  let pos := pos + n in
  let! (subsRegistrationID, n) := Int64Field_Wrap buf pos in
  let pos := pos + n in
  let! (subsPosID, n) := Int32Field_Wrap buf pos in
  let pos := pos + n in
  let! (logFile, n) := StringField_Wrap buf pos true in
  let pos := pos + n in
  let! (sourceIdentity, n) := StringField_Wrap buf pos true in
  let pos := pos + n in
  ret (mkImageReadyHeader correlationID sessionID streamID subsRegistrationID subsPosID logFile
         sourceIdentity (pos - offset)).

Record counterUpdate : Type := mkCounterUpdate {
  cu_correlationID : Int64Field; cu_counterID : Int32Field; cu_size : Z }.

Definition counterUpdate_Wrap (buf : Buffer) (offset : Z) : M mem counterUpdate :=
  let pos := offset in
  let! (correlationID, n) := Int64Field_Wrap buf pos in
  let pos := pos + n in
  let! (counterID, n) := Int32Field_Wrap buf pos in
  let pos := pos + n in
  ret (mkCounterUpdate correlationID counterID (pos - offset)).

Record clientTimeout : Type := mkClientTimeout { ct_clientID : Int64Field; ct_size : Z }.

Definition clientTimeout_Wrap (buf : Buffer) (offset : Z) : M mem clientTimeout :=
  let pos := offset in
  let! (clientID, n) := Int64Field_Wrap buf pos in
  let pos := pos + n in
  ret (mkClientTimeout clientID (pos - offset)).

(** ** Where the fields are *)

Section Layouts.
Context (m : mem) (b : Buffer) (off : Z).
Context (Hb : buf_ok m b) (Hoff : 0 <= off) (Hal : off mod 4 = 0).

Local Abbreviation p := (bufferPtr b).
Local Abbreviation at64 k := (mkInt64Field (p + (off + k))).
Local Abbreviation at32 k := (mkInt32Field (p + (off + k))).
Local Abbreviation strlen k := (rd_i32 m (p + (off + k))).

(** A string at an aligned offset in the message. *)
Definition string_at (k : Z) : Prop := 0 <= strlen k /\ off + k + 4 + strlen k <= buf_length b.

Lemma StringField_Wrap_at k :
  0 <= k -> k mod 4 = 0 -> string_at k ->
  StringField_Wrap b (off + k) true m = Ret (string_field b (off + k), 4 + strlen k) m.
Proof using All.
  intros Hk Hk4 [Hl Hin]. rewrite StringField_Wrap_ok; [done|done|lia| |done|lia].
  rewrite Z.add_mod, Hal, Hk4 by lia. done.
Qed.

(** At any offset: the string starts at the next aligned one. *)
Lemma StringField_Wrap_up pos k :
  0 <= pos -> pos <= off + k < pos + 4 -> k mod 4 = 0 -> 0 <= k -> string_at k ->
  StringField_Wrap b pos true m = Ret (string_field b (off + k), off + k + 4 + strlen k - pos) m.
Proof using All.
  intros Hp Hpk Hk4 Hk Hs. pose proof (buf_ok_length _ _ Hb). pose proof Hs as [? ?].
  pose proof (StringField_Wrap_at k Hk Hk4 Hs) as Hw. unfold StringField_Wrap in *.
  assert (Hup : AlignInt32 (i32 pos) 4 = off + k).
  { rewrite i32_small, AlignInt32_4 by lia. unfold align_up. dlia. }
  rewrite Hup. rewrite (i32_small (off + k)), AlignInt32_4, align_up_id in Hw by dlia.
  apply bind_inv_Ret in Hw as (? & ? & Hc & Hw). erewrite bind_Ret by exact Hc.
  apply bind_inv_Ret in Hw as (? & ? & Hl & Hw). erewrite bind_Ret by exact Hl.
  apply bind_inv_Ret in Hw as (? & ? & Hd & Hw). erewrite bind_Ret by exact Hd.
  unfold ret in *. injection Hw as -> -> ? ->. do 2 f_equal. lia.
Qed.

Ltac wrap_ints :=
  repeat (erewrite bind_Ret;
    [|first [ apply Int64Field_Wrap_ok; [done|lia..] | apply Int32Field_Wrap_ok; [done|lia..] ]];
    cbv beta iota zeta).
Ltac wrap_str k :=
  match goal with |- context [StringField_Wrap b ?pos true] => replace pos with (off + k) by lia end;
  erewrite bind_Ret by (apply StringField_Wrap_at; [lia|done|assumption]); cbv beta iota zeta.
Ltac wrap_done := unfold ret; f_equal; f_equal; solve [lia|f_equal; lia|done].

Lemma CorrelatedMessage_Wrap_ok :
  off + 16 <= buf_length b ->
  CorrelatedMessage_Wrap b off m = Ret (mkCorrelatedMessage (at64 0) (at64 8) 16) m.
Proof using All. intros. unfold CorrelatedMessage_Wrap. wrap_ints. wrap_done. Qed.

Lemma ImageMessage_Wrap_ok :
  off + 20 <= buf_length b -> string_at 20 ->
  ImageMessage_Wrap b off m =
  Ret (mkImageMessage (at64 0) (at64 8) (at32 16) (string_field b (off + 20)) (24 + strlen 20)) m.
Proof using All. intros. unfold ImageMessage_Wrap. wrap_ints. wrap_str 20. wrap_done. Qed.

Lemma PublicationMessage_Wrap_ok :
  off + 20 <= buf_length b -> string_at 20 ->
  PublicationMessage_Wrap b off m =
  Ret (mkPublicationMessage (at64 0) (at64 8) (at32 16) (string_field b (off + 20)) (24 + strlen 20)) m.
Proof using All. intros. unfold PublicationMessage_Wrap. wrap_ints. wrap_str 20. wrap_done. Qed.

Lemma SubscriptionMessage_Wrap_ok :
  off + 28 <= buf_length b -> string_at 28 ->
  SubscriptionMessage_Wrap b off m =
  Ret (mkSubscriptionMessage (at64 0) (at64 8) (at64 16) (at32 24) (string_field b (off + 28))
         (32 + strlen 28)) m.
Proof using All. intros. unfold SubscriptionMessage_Wrap. wrap_ints. wrap_str 28. wrap_done. Qed.

Lemma RemoveMessage_Wrap_ok :
  off + 24 <= buf_length b ->
  RemoveMessage_Wrap b off m = Ret (mkRemoveMessage (at64 0) (at64 8) (at64 16) 24) m.
Proof using All. intros. unfold RemoveMessage_Wrap. wrap_ints. wrap_done. Qed.

Lemma DestinationMessage_Wrap_ok :
  off + 24 <= buf_length b -> string_at 24 ->
  DestinationMessage_Wrap b off m =
  Ret (mkDestinationMessage (at64 0) (at64 8) (at64 16) (string_field b (off + 24)) (28 + strlen 24)) m.
Proof using All. intros. unfold DestinationMessage_Wrap. wrap_ints. wrap_str 24. wrap_done. Qed.

Lemma errorMessage_Wrap_ok :
  off + 12 <= buf_length b -> string_at 12 ->
  errorMessage_Wrap b off m =
  Ret (mkErrorMessage (at64 0) (at32 8) (string_field b (off + 12)) (16 + strlen 12)) m.
Proof using All. intros. unfold errorMessage_Wrap. wrap_ints. wrap_str 12. wrap_done. Qed.

Lemma publicationReady_Wrap_ok :
  off + 32 <= buf_length b -> string_at 32 ->
  publicationReady_Wrap b off m =
  Ret (mkPublicationReady (at64 0) (at64 8) (at32 16) (at32 20) (at32 24) (at32 28)
         (string_field b (off + 32)) (36 + strlen 32)) m.
Proof using All. intros. unfold publicationReady_Wrap. wrap_ints. wrap_str 32. wrap_done. Qed.

Lemma subscriptionReady_Wrap_ok :
  off + 12 <= buf_length b ->
  subscriptionReady_Wrap b off m = Ret (mkSubscriptionReady (at64 0) (at32 8) 12) m.
Proof using All. intros. unfold subscriptionReady_Wrap. wrap_ints. wrap_done. Qed.

Lemma counterUpdate_Wrap_ok :
  off + 12 <= buf_length b ->
  counterUpdate_Wrap b off m = Ret (mkCounterUpdate (at64 0) (at32 8) 12) m.
Proof using All. intros. unfold counterUpdate_Wrap. wrap_ints. wrap_done. Qed.

Lemma clientTimeout_Wrap_ok :
  off + 8 <= buf_length b -> clientTimeout_Wrap b off m = Ret (mkClientTimeout (at64 0) 8) m.
Proof using All. intros. unfold clientTimeout_Wrap. wrap_ints. wrap_done. Qed.

(** The second string of an image's message comes behind the first one, aligned. *)
Lemma imageReadyHeader_Wrap_ok :
  off + 28 <= buf_length b -> string_at 28 ->
  let k := align_up (32 + strlen 28) 4 in
  string_at k ->
  imageReadyHeader_Wrap b off m =
  Ret (mkImageReadyHeader (at64 0) (at32 8) (at32 12) (at64 16) (at32 24) (string_field b (off + 28))
         (string_field b (off + k)) (k + 4 + strlen k)) m.
Proof using All.
  intros Hin Hs k [Hk1 Hk2]. pose proof Hs as [? ?]. pose proof (buf_ok_length _ _ Hb).
  pose proof (align_up_spec (32 + strlen 28) 4 ltac:(lia)) as [? Hk4]. fold k in H1, Hk4.
  unfold imageReadyHeader_Wrap. wrap_ints. wrap_str 28.
  erewrite bind_Ret by (apply (StringField_Wrap_up _ k); [lia|lia|done|lia|by split]). cbv beta iota zeta. wrap_done.
Qed.
End Layouts.
