(* ===== verification/Proxy.v ===== *)
(** * The driver proxy

    src/aeron/driver/proxy.go: every operation takes the next correlation id, lays its
    command out in a fresh buffer of 512 bytes and writes it to the ring that leads to the
    media driver. *)

From S2P Require Import Prelude Memory Bits Flyweight RingBuffer LogBuffer Command.

Local Open Scope m_scope.

Record Proxy : Type := mkProxy { toDriverCommandBuffer : ManyToOne; px_clientID : Z }.

Definition Proxy_Init (buffer : ManyToOne) : M mem Proxy :=
  let! clientID := NextCorrelationID buffer in
  ret (mkProxy buffer clientID).

Definition ClientID (driver : Proxy) : Z := px_clientID driver.
Definition TimeOfLastDriverKeepalive (driver : Proxy) : M mem Z :=
  ConsumerHeartbeatTime (toDriverCommandBuffer driver).
Definition Proxy_NextCorrelationID (driver : Proxy) : M mem Z :=
  NextCorrelationID (toDriverCommandBuffer driver).

(** The only error of the proxy. *)
Inductive proxyError : Type := ErrCouldNotWrite.

(** [make([]byte, n)]: the runtime gives zeroed memory at an address of its choice. *)
Definition make_bytes (a n : Z) : M mem Buffer :=
  fun m => Ret (mkBuffer a n) (wr m a (replicate (Z.to_nat n) Byte.x00)).

(** A filler lays a command out and returns its type and length. [messageBuffer] is where
    the runtime allocates the buffer. *)
Definition Filler : Type := Buffer -> M mem (Z * Z).

Definition writeCommandToDriver (driver : Proxy) (messageBuffer : Z) (filler : Filler)
  : M mem (option proxyError) :=
  let! buffer := make_bytes messageBuffer 512 in
  let! (msgTypeID, length) := filler buffer in
  let! written := ManyToOne_Write (toDriverCommandBuffer driver) (i32 msgTypeID) buffer 0 (i32 length) in
  ret (if written then None else Some ErrCouldNotWrite).

(** What the operations that return an id make of the result. *)
Definition id_or_error (correlationID : Z) (err : option proxyError) : Z * option proxyError :=
  match err with None => (correlationID, None) | Some e => (0, Some e) end.

Definition subscription_filler (clientID correlationID streamID : Z) (channel : list Init.Byte.byte) : Filler :=
  fun buffer =>
  let! message := SubscriptionMessage_Wrap buffer 0 in
  Int64Field_Set (sm_ClientID message) clientID ;;;
  Int64Field_Set (sm_CorrelationID message) correlationID ;;;
  Int64Field_Set (sm_RegistrationCorrelationID message) (-1) ;;;
  Int32Field_Set (sm_StreamID message) streamID ;;;
  let! size := StringField_Set (sm_Channel message) channel (sm_size message) in
  ret (control.AddSubscription, size).

Definition AddSubscription (driver : Proxy) (channel : list Init.Byte.byte) (streamID : Z) (a : Z)
  : M mem (Z * option proxyError) :=
  let! correlationID := NextCorrelationID (toDriverCommandBuffer driver) in
  let! err := writeCommandToDriver driver a
                (subscription_filler (px_clientID driver) correlationID streamID channel) in
  ret (id_or_error correlationID err).

Definition remove_filler (msgTypeID clientID correlationID registrationID : Z) : Filler :=
  fun buffer =>
  let! message := RemoveMessage_Wrap buffer 0 in
  Int64Field_Set (rm_ClientID message) clientID ;;;
  Int64Field_Set (rm_CorrelationID message) correlationID ;;;
  Int64Field_Set (rm_RegistrationID message) registrationID ;;;
  ret (msgTypeID, rm_size message).

Definition RemoveSubscription (driver : Proxy) (registrationID : Z) (a : Z) : M mem (option proxyError) :=
  let! correlationID := NextCorrelationID (toDriverCommandBuffer driver) in
  writeCommandToDriver driver a
    (remove_filler control.RemoveSubscription (px_clientID driver) correlationID registrationID).

Definition publication_filler (msgTypeID clientID correlationID streamID : Z)
  (channel : list Init.Byte.byte) : Filler :=
  fun buffer =>
  let! message := PublicationMessage_Wrap buffer 0 in
  Int64Field_Set (pm_ClientID message) clientID ;;;
  Int64Field_Set (pm_CorrelationID message) correlationID ;;;
  Int32Field_Set (pm_StreamID message) streamID ;;;
  let! size := StringField_Set (pm_Channel message) channel (pm_size message) in
  ret (msgTypeID, size).

Definition AddPublication (driver : Proxy) (channel : list Init.Byte.byte) (streamID : Z) (a : Z)
  : M mem (Z * option proxyError) :=
  let! correlationID := NextCorrelationID (toDriverCommandBuffer driver) in
  let! err := writeCommandToDriver driver a
                (publication_filler control.AddPublication (px_clientID driver) correlationID streamID channel) in
  ret (id_or_error correlationID err).

Definition AddExclusivePublication (driver : Proxy) (channel : list Init.Byte.byte) (streamID : Z) (a : Z)
  : M mem (Z * option proxyError) :=
  let! correlationID := NextCorrelationID (toDriverCommandBuffer driver) in
  let! err := writeCommandToDriver driver a
                (publication_filler control.AddExclusivePublication (px_clientID driver) correlationID
                   streamID channel) in
  ret (id_or_error correlationID err).

Definition RemovePublication (driver : Proxy) (registrationID : Z) (a : Z) : M mem (option proxyError) :=
  let! correlationID := NextCorrelationID (toDriverCommandBuffer driver) in
  writeCommandToDriver driver a
    (remove_filler control.RemovePublication (px_clientID driver) correlationID registrationID).

Definition close_filler (clientID correlationID : Z) : Filler :=
  fun buffer =>
  let! message := CorrelatedMessage_Wrap buffer 0 in
  Int64Field_Set (cor_ClientID message) clientID ;;;
  Int64Field_Set (cor_CorrelationID message) correlationID ;;;
  ret (control.ClientClose, cor_size message).

Definition ClientClose (driver : Proxy) (a : Z) : M mem (option proxyError) :=
  let! correlationID := NextCorrelationID (toDriverCommandBuffer driver) in
  writeCommandToDriver driver a (close_filler (px_clientID driver) correlationID).

Definition destination_filler (msgTypeID clientID correlationID registrationID : Z)
  (channel : list Init.Byte.byte) : Filler :=
  fun buffer =>
  let! message := DestinationMessage_Wrap buffer 0 in
  Int64Field_Set (dm_RegistrationCorrelationID message) registrationID ;;;
  let! size := StringField_Set (dm_Channel message) channel (dm_size message) in
  Int64Field_Set (dm_CorrelationID message) correlationID ;;;
  Int64Field_Set (dm_ClientID message) clientID ;;;
  ret (msgTypeID, size).

Definition AddDestination (driver : Proxy) (registrationID : Z) (channel : list Init.Byte.byte) (a : Z)
  : M mem (Z * option proxyError) :=
  let! correlationID := NextCorrelationID (toDriverCommandBuffer driver) in
  let! err := writeCommandToDriver driver a
                (destination_filler control.AddDestination (px_clientID driver) correlationID
                   registrationID channel) in
  ret (id_or_error correlationID err).

Definition RemoveDestination (driver : Proxy) (registrationID : Z) (channel : list Init.Byte.byte) (a : Z)
  : M mem (Z * option proxyError) :=
  let! correlationID := NextCorrelationID (toDriverCommandBuffer driver) in
  let! err := writeCommandToDriver driver a
                (destination_filler control.RemoveDestination (px_clientID driver) correlationID
                   registrationID channel) in
  ret (id_or_error correlationID err).

(** This one does not report the error. *)
Definition AddRcvDestination (driver : Proxy) (registrationID : Z) (channel : list Init.Byte.byte) (a : Z)
  : M mem (Z * option proxyError) :=
  let! correlationID := NextCorrelationID (toDriverCommandBuffer driver) in
  let! err := writeCommandToDriver driver a
                (destination_filler control.AddRcvDestination (px_clientID driver) correlationID
                   registrationID channel) in
  ret (match err with None => (correlationID, None) | Some _ => (0, None) end).

Definition RemoveRcvDestination (driver : Proxy) (registrationID : Z) (channel : list Init.Byte.byte) (a : Z)
  : M mem (Z * option proxyError) :=
  let! correlationID := NextCorrelationID (toDriverCommandBuffer driver) in
  let! err := writeCommandToDriver driver a
                (destination_filler control.RemoveRcvDestination (px_clientID driver) correlationID
                   registrationID channel) in
  ret (id_or_error correlationID err).

Definition counter_filler (clientID correlationID typeId : Z) (keyBuffer : Buffer) (keyOffset keyLength : Z)
  (labelBuffer : Buffer) (labelOffset labelLength : Z) : Filler :=
  fun buffer =>
  let! message := CounterMessage_Wrap buffer 0 in
  Int64Field_Set (cm_ClientID message) clientID ;;;
  Int64Field_Set (cm_CorrelationID message) correlationID ;;;
  Int32Field_Set (cm_CounterTypeID message) typeId ;;;
  CopyKeyBuffer message keyBuffer keyOffset keyLength ;;;
  let! message := CopyLabelBuffer message labelBuffer labelOffset labelLength in
  ret (control.AddCounter, cm_size message).

Definition AddCounter (driver : Proxy) (typeId : Z) (keyBuffer : Buffer) (keyOffset keyLength : Z)
  (labelBuffer : Buffer) (labelOffset labelLength : Z) (a : Z) : M mem (Z * option proxyError) :=
  let! correlationID := NextCorrelationID (toDriverCommandBuffer driver) in
  let! err := writeCommandToDriver driver a
                (counter_filler (px_clientID driver) correlationID typeId keyBuffer keyOffset keyLength
                   labelBuffer labelOffset labelLength) in
  ret (id_or_error correlationID err).

Definition counter_label_filler (clientID correlationID typeId : Z) (label : list Init.Byte.byte) : Filler :=
  fun buffer =>
  let! message := CounterMessage_Wrap buffer 0 in
  Int64Field_Set (cm_ClientID message) clientID ;;;
  Int64Field_Set (cm_CorrelationID message) correlationID ;;;
  Int32Field_Set (cm_CounterTypeID message) typeId ;;;
  let! message := CopyLabelString message label in
  ret (control.AddCounter, cm_size message).

Definition AddCounterByLabel (driver : Proxy) (typeId : Z) (label : list Init.Byte.byte) (a : Z)
  : M mem (Z * option proxyError) :=
  let! correlationID := NextCorrelationID (toDriverCommandBuffer driver) in
  let! err := writeCommandToDriver driver a
                (counter_label_filler (px_clientID driver) correlationID typeId label) in
  ret (id_or_error correlationID err).

Definition RemoveCounter (driver : Proxy) (registrationId : Z) (a : Z) : M mem (Z * option proxyError) :=
  let! correlationId := NextCorrelationID (toDriverCommandBuffer driver) in
  let! err := writeCommandToDriver driver a
                (remove_filler control.RemoveCounter (px_clientID driver) correlationId registrationId) in
  ret (id_or_error correlationId err).

(** ** What the fillers leave in the buffer *)

(** The bytes of the commands. *)
Definition bytes64 (v : Z) : list Init.Byte.byte := le_split 8 v.
Definition bytes32 (v : Z) : list Init.Byte.byte := le_split 4 v.
Definition bytes_str (s : list Init.Byte.byte) : list Init.Byte.byte := bytes32 (zlen s) ++ s.

(** A filler that puts [bytes] at the start of a zeroed buffer of 512 bytes and nothing
    outside of the buffer. *)
Definition fills (filler : Filler) (msgTypeID : Z) (bytes : list Init.Byte.byte) (m : mem) (a : Z) : Prop :=
  exists m', filler (mkBuffer a 512) m = Ret (msgTypeID, zlen bytes) m' /\
    rd m' a (length bytes) = bytes /\ only_in m m' a 512 /\ keeps m m'.

Definition zeroed (m : mem) (a : Z) : Prop :=
  buf_ok m (mkBuffer a 512) /\ forall i, a <= i < a + 512 -> m !! i = Some Byte.x00.

(** Reading what was written piece by piece. *)
Lemma rd_pieces m a xs ys :
  rd m a (length xs) = xs -> rd m (a + zlen xs) (length ys) = ys ->
  rd m a (length (xs ++ ys)) = xs ++ ys.
Proof. intros Hx Hy. rewrite length_app, rd_app. unfold zlen in Hy. by rewrite Hx, Hy. Qed.

Lemma zeroed_i32 m a off : zeroed m a -> 0 <= off -> off + 4 <= 512 -> rd_i32 m (a + off) = 0.
Proof. intros [_ Hz] ? ?. apply rd_i32_clean. intros. apply Hz. lia. Qed.

(** Each field set writes its bytes; afterwards the pieces are read back. *)
Lemma rd_wr_at m a bs a' n : a' = a -> n = length bs -> rd (wr m a bs) a' n = bs.
Proof. intros ->. apply rd_wr_same. Qed.

Ltac set_fields :=
  cbn [bufferPtr buf_length]; rewrite ?Z.add_0_l, ?Z.add_0_r;
  repeat (erewrite bind_Ret;
    [|first [ apply Int64Field_Set_ok | apply Int32Field_Set_ok ];
      unfold f64_ok, f32_ok; cbn [f64_offset f32_offset]; repeat apply region_ok_wr;
      eapply region_ok_sub; [eassumption|lia..]]);
  cbn [f64_offset f32_offset].

Ltac read_back :=
  repeat apply rd_pieces; rewrite ?zlen_app, ?zlen_le_split; rewrite ?length_le_split; mem_simpl;
  first [apply rd_wr_at; [lia|by rewrite ?length_le_split] | done].

Ltac fills_done :=
  split; [unfold bytes_str, bytes64, bytes32; read_back|];
  split; [repeat (apply only_in_wr_chain; [|rewrite ?zlen_le_split; lia..]); apply only_in_refl
         |repeat (eapply keeps_trans; [|apply keeps_wr]); apply keeps_refl].

Lemma remove_fills ty client corr reg m a :
  zeroed m a ->
  fills (remove_filler ty client corr reg) ty (bytes64 client ++ bytes64 corr ++ bytes64 reg) m a.
Proof.
  intros [Hb Hz]. pose proof Hb as [Hr _]. cbn [bufferPtr buf_length] in Hr. unfold remove_filler.
  eexists. split.
  - erewrite bind_Ret by (apply RemoveMessage_Wrap_ok; done). cbn [rm_ClientID rm_CorrelationID rm_RegistrationID rm_size bufferPtr].
    set_fields. reflexivity.
  - fills_done.
Qed.

Lemma close_fills client corr m a :
  zeroed m a ->
  fills (close_filler client corr) control.ClientClose (bytes64 client ++ bytes64 corr) m a.
Proof.
  intros [Hb Hz]. pose proof Hb as [Hr _]. cbn [bufferPtr buf_length] in Hr. unfold close_filler.
  eexists. split.
  - erewrite bind_Ret by (apply CorrelatedMessage_Wrap_ok; done).
    cbn [cor_ClientID cor_CorrelationID cor_size]. set_fields. reflexivity.
  - fills_done.
Qed.

(** Where a string may be set in a fresh message. *)
Lemma fresh_string m a k : zeroed m a -> 0 <= k -> k + 4 <= 512 -> string_at m (mkBuffer a 512) 0 k.
Proof.
  intros Hz ? ?. unfold string_at. cbn [bufferPtr buf_length]. rewrite Z.add_0_l, zeroed_i32 by (done || lia). lia.
Qed.

Lemma publication_fills ty client corr stream ch m a :
  zeroed m a -> ch <> [] -> zlen ch <= 488 ->
  fills (publication_filler ty client corr stream ch) ty
    (bytes64 client ++ bytes64 corr ++ bytes32 stream ++ bytes_str ch) m a.
Proof.
  intros Hze Hne Hlen. pose proof Hze as [Hb Hz]. pose proof Hb as [Hr _]. cbn [bufferPtr buf_length] in Hr.
  pose proof (zlen_nonneg ch). unfold publication_filler. eexists. split.
  - erewrite bind_Ret by (apply PublicationMessage_Wrap_ok; [done..|apply fresh_string; done || lia]).
    cbn [pm_ClientID pm_CorrelationID pm_StreamID pm_Channel pm_size].
    set_fields.
    erewrite bind_Ret.
    2: { apply StringField_Set_ok; [by repeat apply buf_ok_wr|lia|cbn; lia|done|].
         cbn [bufferPtr]. mem_simpl. apply zeroed_i32; done || lia. }
    rewrite zeroed_i32 by (done || lia). unfold ret. f_equal. f_equal.
    unfold bytes_str, bytes64, bytes32. rewrite !zlen_app, !zlen_le_split. lia.
  - cbn [bufferPtr]. fills_done.
Qed.

Lemma subscription_fills client corr stream ch m a :
  zeroed m a -> ch <> [] -> zlen ch <= 480 ->
  fills (subscription_filler client corr stream ch) control.AddSubscription
    (bytes64 client ++ bytes64 corr ++ bytes64 (-1) ++ bytes32 stream ++ bytes_str ch) m a.
Proof.
  intros Hze Hne Hlen. pose proof Hze as [Hb Hz]. pose proof Hb as [Hr _]. cbn [bufferPtr buf_length] in Hr.
  pose proof (zlen_nonneg ch). unfold subscription_filler. eexists. split.
  - erewrite bind_Ret by (apply SubscriptionMessage_Wrap_ok; [done..|apply fresh_string; done || lia]).
    cbn [sm_ClientID sm_CorrelationID sm_RegistrationCorrelationID sm_StreamID sm_Channel sm_size].
    set_fields.
    erewrite bind_Ret.
    2: { apply StringField_Set_ok; [by repeat apply buf_ok_wr|lia|cbn; lia|done|].
         cbn [bufferPtr]. mem_simpl. apply zeroed_i32; done || lia. }
    rewrite zeroed_i32 by (done || lia). unfold ret. f_equal. f_equal.
    unfold bytes_str, bytes64, bytes32. rewrite !zlen_app, !zlen_le_split. lia.
  - cbn [bufferPtr]. fills_done.
Qed.

Lemma destination_fills ty client corr reg ch m a :
  zeroed m a -> ch <> [] -> zlen ch <= 484 ->
  fills (destination_filler ty client corr reg ch) ty
    (bytes64 client ++ bytes64 corr ++ bytes64 reg ++ bytes_str ch) m a.
Proof.
  intros Hze Hne Hlen. pose proof Hze as [Hb Hz]. pose proof Hb as [Hr _]. cbn [bufferPtr buf_length] in Hr.
  pose proof (zlen_nonneg ch). unfold destination_filler. eexists. split.
  - erewrite bind_Ret by (apply DestinationMessage_Wrap_ok; [done..|apply fresh_string; done || lia]).
    cbn [dm_ClientID dm_CorrelationID dm_RegistrationCorrelationID dm_Channel dm_size].
    set_fields.
    erewrite bind_Ret.
    2: { apply StringField_Set_ok; [by repeat apply buf_ok_wr|lia|cbn; lia|done|].
         cbn [bufferPtr]. mem_simpl. apply zeroed_i32; done || lia. }
    set_fields.
    rewrite zeroed_i32 by (done || lia). unfold ret. f_equal. f_equal.
    unfold bytes_str, bytes64, bytes32. rewrite !zlen_app, !zlen_le_split. lia.
  - cbn [bufferPtr]. fills_done.
Qed.

(** ** Counter messages *)

(** The fields as the message lays them out, with the label aligned. *)
Definition counter_layout (client corr typeId : Z) (key label : list Init.Byte.byte)
  : list Init.Byte.byte :=
  bytes64 client ++ bytes64 corr ++ bytes32 typeId ++ bytes_str key ++
  replicate (Z.to_nat (align_up (zlen key) 4 - zlen key)) Byte.x00 ++ bytes_str label.

(** What its size says is sent: the size leaves the alignment out. *)
Definition counter_bytes (client corr typeId : Z) (key label : list Init.Byte.byte)
  : list Init.Byte.byte :=
  take (Z.to_nat (28 + zlen key + zlen label)) (counter_layout client corr typeId key label).

Lemma align_up_shift n k : 0 <= n -> align_up (4 * k + n) 4 = 4 * k + align_up n 4.
Proof. intros. unfold align_up. dlia. Qed.

(** The key's length is at offset 20, the label behind the key. *)
Section LabelAt.
Context (m : mem) (b : Buffer) (klen : Z).
Context (Hb : buf_ok m b) (Hk : rd_i32 m (bufferPtr b + 20) = klen) (Hk0 : 0 <= klen).
Local Abbreviation off := (24 + align_up klen 4).
Context (Hin : off + 4 <= buf_length b).

Lemma data_field_length o :
  0 <= o -> o + 4 <= buf_length b ->
  LengthAndRawDataField_Length (data_field b o) m = Ret (rd_i32 m (bufferPtr b + o)) m.
Proof using Hb.
  intros. unfold LengthAndRawDataField_Length. apply lrd_Length_ok.
  eapply region_ok_sub; [apply Hb|..]; cbn [data_field lrd_lenOffset]; lia.
Qed.

Lemma getLabelOffset_ok : getLabelOffset (data_field b 20) m = Ret (24 + klen) m.
Proof using Hb Hk Hk0 Hin.
  pose proof (align_up_spec klen 4 ltac:(lia)). unfold getLabelOffset.
  erewrite bind_Ret by (apply data_field_length; lia). by rewrite Hk.
Qed.

Lemma wrapLabel_ok :
  0 <= rd_i32 m (bufferPtr b + off) -> off + 4 + rd_i32 m (bufferPtr b + off) <= buf_length b ->
  wrapLabel b 0 (data_field b 20) m = Ret (data_field b off) m.
Proof using All.
  intros. unfold wrapLabel. erewrite bind_Ret by apply getLabelOffset_ok.
  assert (Hup : align_up (0 + (24 + klen)) 4 = off) by (rewrite Z.add_0_l; exact (align_up_shift klen 6 Hk0)).
  erewrite bind_Ret by (apply LengthAndRawDataField_Wrap_ok; rewrite ?Hup; done || lia).
  by rewrite Hup.
Qed.

Lemma counter_size_ok :
  counter_size (data_field b 20) (data_field b off) m = Ret (28 + klen + rd_i32 m (bufferPtr b + off)) m.
Proof using All.
  pose proof (align_up_spec klen 4 ltac:(lia)).
  unfold counter_size. erewrite bind_Ret by apply getLabelOffset_ok.
  erewrite bind_Ret by (apply data_field_length; lia). unfold ret. f_equal. lia.
Qed.
End LabelAt.

Section CounterFill.
Context (m : mem) (a : Z) (Hze : zeroed m a).

Local Abbreviation b := (mkBuffer a 512).
Local Abbreviation key_fld := (data_field b 20).

Lemma CounterMessage_Wrap_ok :
  CounterMessage_Wrap b 0 m =
  Ret (mkCounterMessage b 0 (mkInt64Field a) (mkInt64Field (a + 8)) (mkInt32Field (a + 16)) key_fld
         (data_field b 24) 28) m.
Proof using Hze.
  pose proof Hze as [Hb Hz]. unfold CounterMessage_Wrap.
  repeat (erewrite bind_Ret;
    [|first [ apply Int64Field_Wrap_ok; [done|simpl; lia..] | apply Int32Field_Wrap_ok; [done|simpl; lia..] ]];
    cbv beta iota zeta).
  cbn [bufferPtr]. rewrite !Z.add_0_l, Z.add_0_r. change (8 + 8) with 16. change (16 + 4) with 20.
  pose proof (zeroed_i32 m a 20 Hze ltac:(lia) ltac:(lia)) as H20.
  pose proof (zeroed_i32 m a 24 Hze ltac:(lia) ltac:(lia)) as H24.
  assert (Hkey : LengthAndRawDataField_Wrap b 20 m = Ret (key_fld, 4) m).
  { rewrite LengthAndRawDataField_Wrap_ok; change (align_up 20 4) with 20; cbn [bufferPtr buf_length];
      rewrite ?H20; done || lia. }
  erewrite bind_Ret by exact Hkey. cbv beta iota.
  erewrite bind_Ret by (apply (wrapLabel_ok m b 0); change (24 + align_up 0 4) with 24;
    cbn [bufferPtr buf_length]; rewrite ?H24; done || lia).
  erewrite bind_Ret by (apply (counter_size_ok m b 0); change (24 + align_up 0 4) with 24;
    cbn [bufferPtr buf_length]; done || lia).
  change (24 + align_up 0 4) with 24. cbn [bufferPtr]. by rewrite H24.
Qed.

Lemma rd_clean a' n : a <= a' -> a' + Z.of_nat n <= a + 512 -> rd m a' n = replicate n Byte.x00.
Proof using Hze.
  destruct Hze as [_ Hz]. revert a'. induction n as [|n IH]; intros a' H1 H2; [done|].
  change (rd m a' (S n)) with (default Byte.x00 (m !! a') :: rd m (a' + 1) n).
  rewrite Hz by lia. cbn [replicate]. f_equal. apply IH; lia.
Qed.

(** The memory with the fixed fields and the key set. *)
Definition keyed_mem (client corr typeId : Z) (key : list Init.Byte.byte) : mem :=
  wr (wr (wr (wr (wr m a (bytes64 client)) (a + 8) (bytes64 corr)) (a + 16) (bytes32 typeId))
        (a + 20) (bytes32 (zlen key))) (a + 24) key.

Definition labelled_mem (client corr typeId : Z) (key label : list Init.Byte.byte) : mem :=
  wr (wr (keyed_mem client corr typeId key) (a + (24 + align_up (zlen key) 4)) (bytes32 (zlen label)))
    (a + (24 + align_up (zlen key) 4) + 4) label.

Lemma labelled_layout client corr typeId key label :
  28 + align_up (zlen key) 4 + zlen label <= 512 ->
  let m' := labelled_mem client corr typeId key label in
  rd m' a (length (counter_layout client corr typeId key label)) = counter_layout client corr typeId key label /\
  only_in m m' a 512 /\ keeps m m'.
Proof using Hze.
  intros Hin m'. pose proof (zlen_nonneg key). pose proof (zlen_nonneg label).
  pose proof (align_up_spec (zlen key) 4 ltac:(lia)) as [? _].
  unfold m', labelled_mem, keyed_mem, counter_layout, bytes_str, bytes64, bytes32. split; [|split].
  - repeat apply rd_pieces; rewrite ?zlen_app, ?zlen_le_split, ?length_le_split, ?length_replicate;
      rewrite ?Z2Nat.id by lia.
    all: rewrite ?zlen_replicate, ?Z2Nat.id by lia.
    all: mem_simpl; try (apply rd_wr_at; [lia|by rewrite ?length_le_split]).
    apply rd_clean; lia.
  - repeat (apply only_in_wr_chain; [|rewrite ?zlen_le_split; lia..]); apply only_in_refl.
  - repeat (eapply keeps_trans; [|apply keeps_wr]); apply keeps_refl.
Qed.
End CounterFill.

(** A filler that leaves the labelled memory fills the message. *)
Lemma counter_fills_intro filler client corr typeId key label m a :
  zeroed m a -> 28 + align_up (zlen key) 4 + zlen label <= 512 ->
  filler (mkBuffer a 512) m =
    Ret (control.AddCounter, 28 + zlen key + zlen label) (labelled_mem m a client corr typeId key label) ->
  fills filler control.AddCounter (counter_bytes client corr typeId key label) m a.
Proof.
  intros Hze Hin Hrun. pose proof (zlen_nonneg key). pose proof (zlen_nonneg label).
  pose proof (align_up_spec (zlen key) 4 ltac:(lia)) as [? _].
  destruct (labelled_layout m a Hze client corr typeId key label Hin) as (Hrd & Ho & Hk).
  assert (Hlen : length (counter_bytes client corr typeId key label) = Z.to_nat (28 + zlen key + zlen label)).
  { unfold counter_bytes, counter_layout, bytes_str, bytes64, bytes32. rewrite length_take.
    rewrite !length_app, !length_le_split, length_replicate. unfold zlen in *. lia. }
  eexists. split; [|split; [|by split]].
  - rewrite Hrun. do 2 f_equal. unfold zlen at 3. rewrite Hlen. lia.
  - rewrite Hlen. unfold counter_bytes. rewrite <- Hrd, take_rd. f_equal.
    unfold counter_layout, bytes_str, bytes64, bytes32.
    rewrite !length_app, !length_le_split, length_replicate. unfold zlen in *. lia.
Qed.

Lemma ptr_add_at a off m : zeroed m a -> 0 <= off < 512 -> ptr_add a off = a + off.
Proof. intros [[(? & ? & ? & _) _] _] ?. cbn in *. unfold ptr_add. apply u64_small. lia. Qed.

(** Copying a key or a label into the message: its length, then its bytes. *)
Lemma data_CopyBuffer_ok m a off src so n :
  buf_ok m (mkBuffer a 512) -> buf_ok m src -> 0 <= off -> 0 <= n -> off + 4 + n <= 512 ->
  0 <= so -> so + n <= buf_length src -> disjoint a 512 (bufferPtr src) (buf_length src) ->
  LengthAndRawDataField_CopyBuffer (data_field (mkBuffer a 512) off) src so n m =
  Ret tt (wr (wr m (a + off) (bytes32 n)) (a + off + 4) (rd m (bufferPtr src + so) (Z.to_nat n))).
Proof.
  intros Hb Hsrc ? ? ? ? ? Hd. pose proof Hb as [Hr _]. cbn [bufferPtr buf_length] in Hr.
  pose proof Hr as (? & _ & ? & _). unfold disjoint in Hd.
  unfold LengthAndRawDataField_CopyBuffer, LengthAndRawDataField_SetLength, data_field.
  cbn [lrd_lenOffset lrd_buf bufferPtr buf_length].
  erewrite bind_Ret by (apply (store_ok _ _ 4); [eapply region_ok_sub; [exact Hr|lia..]|by rewrite zlen_le_split]).
  set (q := ptr_add a (off + 4)).
  assert (Hq : n = 0 \/ q = a + off + 4) by (unfold q, ptr_add; destruct (decide (n = 0)); [by left|right];
    rewrite u64_small; lia).
  assert (Hq0 : 0 <= q < 18446744073709551616) by (apply Z.mod_pos_bound; lia).
  rewrite PutBytes_region; cbn [bufferPtr buf_length]; rewrite ?Z.add_0_r.
  - destruct Hq as [->| ->]; [done|]. unfold bytes32. by mem_simpl.
  - by apply buf_ok_wr.
  - destruct Hq as [->| ->]; [by repeat split; try lia; intros; lia|]. apply region_ok_wr.
    eapply region_ok_sub; [exact Hr|lia..].
  - lia.
  - lia.
  - lia.
  - lia.
  - lia.
  - unfold disjoint. destruct Hq as [->| ->]; lia.
Qed.

Lemma counter_fills client corr typeId kb ko kl lb lo ll m a :
  zeroed m a -> buf_ok m kb -> buf_ok m lb -> 0 <= ko -> 0 <= kl -> ko + kl <= buf_length kb ->
  0 <= lo -> 0 <= ll -> lo + ll <= buf_length lb ->
  disjoint a 512 (bufferPtr kb) (buf_length kb) -> disjoint a 512 (bufferPtr lb) (buf_length lb) ->
  28 + align_up kl 4 + ll <= 512 ->
  fills (counter_filler client corr typeId kb ko kl lb lo ll) control.AddCounter
    (counter_bytes client corr typeId (rd m (bufferPtr kb + ko) (Z.to_nat kl))
       (rd m (bufferPtr lb + lo) (Z.to_nat ll))) m a.
Proof.
  intros Hze Hkb Hlb ? ? ? ? ? ? Hdk Hdl Hin.
  set (key := rd m (bufferPtr kb + ko) (Z.to_nat kl)). set (label := rd m (bufferPtr lb + lo) (Z.to_nat ll)).
  assert (Hzk : zlen key = kl) by (unfold key; rewrite zlen_rd; lia).
  assert (Hzl : zlen label = ll) by (unfold label; rewrite zlen_rd; lia).
  pose proof (align_up_spec kl 4 ltac:(lia)) as [? _].
  apply counter_fills_intro; [done|rewrite Hzk, Hzl; lia|]. unfold counter_filler.
  pose proof Hze as [Hb Hz]. pose proof Hb as [Hr _]. cbn [bufferPtr buf_length] in Hr.
  erewrite bind_Ret by (by apply CounterMessage_Wrap_ok).
  cbn [cm_ClientID cm_CorrelationID cm_CounterTypeID]. set_fields.
  unfold CopyKeyBuffer. cbn [cm_key].
  erewrite bind_Ret by (apply data_CopyBuffer_ok; [by repeat apply buf_ok_wr..|lia|lia|lia|lia|lia|done]).
  unfold disjoint in Hdk, Hdl.
  assert (Hkey : wr (wr (wr (wr (wr m a (le_split 8 client)) (a + 8) (le_split 8 corr)) (a + 16)
      (le_split 4 typeId)) (a + 20) (bytes32 kl)) (a + 20 + 4)
      (rd (wr (wr (wr m a (le_split 8 client)) (a + 8) (le_split 8 corr)) (a + 16) (le_split 4 typeId))
         (bufferPtr kb + ko) (Z.to_nat kl)) = keyed_mem m a client corr typeId key).
  { unfold keyed_mem. rewrite Hzk. mem_simpl. by rewrite <- Z.add_assoc. }
  rewrite Hkey. clear Hkey. set (m1 := keyed_mem m a client corr typeId key).
  assert (H20 : rd_i32 m1 (a + 20) = kl).
  { unfold m1, keyed_mem, bytes32, bytes64. rewrite Hzk. mem_simpl. done. }
  assert (Hoff : rd_i32 m1 (a + (24 + align_up kl 4)) = 0).
  { unfold m1, keyed_mem, bytes32, bytes64. mem_simpl. apply zeroed_i32; done || lia. }
  assert (Hb1 : buf_ok m1 (mkBuffer a 512)) by (by repeat apply buf_ok_wr).
  assert (Hlab : rd m1 (bufferPtr lb + lo) (Z.to_nat ll) = label).
  { unfold m1, keyed_mem, bytes32, bytes64. mem_simpl. done. }
  unfold CopyLabelBuffer. cbn [cm_buf cm_offset cm_key]. rewrite !bind_assoc.
  erewrite bind_Ret by (apply (wrapLabel_ok m1 (mkBuffer a 512) kl); cbn [bufferPtr buf_length]; rewrite ?Hoff; done || lia).
  rewrite !bind_assoc.
  erewrite bind_Ret by (apply data_CopyBuffer_ok; [done|by repeat apply buf_ok_wr|lia|lia|lia|lia|lia|done]).
  rewrite Hlab.
  change (wr (wr m1 _ _) _ _) with (wr (wr m1 (a + (24 + align_up kl 4)) (bytes32 ll)) (a + (24 + align_up kl 4) + 4) label).
  replace (wr (wr m1 _ _) _ _) with (labelled_mem m a client corr typeId key label)
    by (unfold labelled_mem; by rewrite Hzk, Hzl).
  set (m2 := labelled_mem m a client corr typeId key label).
  assert (Hl2 : rd_i32 m2 (a + (24 + align_up kl 4)) = ll).
  { unfold m2, labelled_mem, bytes32. rewrite Hzk, Hzl. mem_simpl. done. }
  assert (Hk2 : rd_i32 m2 (a + 20) = kl).
  { unfold m2, labelled_mem, bytes32. rewrite Hzk. mem_simpl. done. }
  rewrite bind_assoc.
  erewrite bind_Ret by (apply (counter_size_ok m2 (mkBuffer a 512) kl); cbn [bufferPtr buf_length];
    [by repeat apply buf_ok_wr|done|done|lia]).
  cbn [bufferPtr]. rewrite Hl2, Hzk, Hzl. done.
Qed.

(** A counter with a label only: the key is empty. *)
Lemma data_CopyString_ok m a off s :
  buf_ok m (mkBuffer a 512) -> 0 <= off -> off + 4 + zlen s <= 512 -> s <> [] ->
  LengthAndRawDataField_CopyString (data_field (mkBuffer a 512) off) s m =
  Ret tt (wr (wr m (a + off) (bytes32 (zlen s))) (a + off + 4) s).
Proof.
  intros Hb ? ? Hne. pose proof Hb as [Hr _]. cbn [bufferPtr buf_length] in Hr.
  pose proof Hr as (? & _ & ? & _). assert (0 < zlen s) by (destruct s; [done|unfold zlen; simpl; lia]).
  unfold LengthAndRawDataField_CopyString, LengthAndRawDataField_SetLength, data_field.
  cbn [lrd_lenOffset lrd_buf bufferPtr buf_length]. rewrite i32_small by lia.
  erewrite bind_Ret by (apply (store_ok _ _ 4); [eapply region_ok_sub; [exact Hr|lia..]|by rewrite zlen_le_split]).
  replace (ptr_add a (off + 4)) with (a + off + 4) by (unfold ptr_add; rewrite u64_small; lia).
  rewrite PutBytesArray_region; cbn [bufferPtr buf_length]; rewrite ?Z.add_0_r; [done|done| |lia|lia|lia].
  apply region_ok_wr. eapply region_ok_sub; [exact Hr|lia..].
Qed.

Lemma counter_label_fills client corr typeId label m a :
  zeroed m a -> label <> [] -> zlen label <= 484 ->
  fills (counter_label_filler client corr typeId label) control.AddCounter
    (bytes64 client ++ bytes64 corr ++ bytes32 typeId ++ bytes_str [] ++ bytes_str label) m a.
Proof.
  intros Hze Hne Hlen. pose proof Hze as [Hb Hz]. pose proof Hb as [Hr _]. cbn [bufferPtr buf_length] in Hr.
  pose proof (zlen_nonneg label). unfold counter_label_filler. eexists. split.
  - erewrite bind_Ret by (by apply CounterMessage_Wrap_ok).
    cbn [cm_ClientID cm_CorrelationID cm_CounterTypeID]. set_fields.
    set (m1 := wr _ _ (le_split 4 typeId)).
    assert (Hb1 : buf_ok m1 (mkBuffer a 512)) by (by repeat apply buf_ok_wr).
    assert (H20 : rd_i32 m1 (a + 20) = 0) by (unfold m1; mem_simpl; apply zeroed_i32; done || lia).
    assert (H24 : rd_i32 m1 (a + 24) = 0) by (unfold m1; mem_simpl; apply zeroed_i32; done || lia).
    unfold CopyLabelString. cbn [cm_buf cm_offset cm_key]. rewrite !bind_assoc.
    erewrite bind_Ret by (apply (wrapLabel_ok m1 (mkBuffer a 512) 0); change (24 + align_up 0 4) with 24;
      cbn [bufferPtr buf_length]; rewrite ?H24; done || lia).
    change (24 + align_up 0 4) with 24. rewrite !bind_assoc.
    erewrite bind_Ret by (apply data_CopyString_ok; done || lia).
    rewrite bind_assoc.
    erewrite bind_Ret.
    2: { apply (counter_size_ok _ (mkBuffer a 512) 0); cbn [bufferPtr buf_length]; [by repeat apply buf_ok_wr| |done|by change (24 + align_up 0 4) with 24; lia].
         unfold bytes32. mem_simpl. done. }
    change (24 + align_up 0 4) with 24. unfold bytes32. cbn [bufferPtr cm_size set_label]. mem_simpl.
    unfold bytes_str, bytes64, bytes32. rewrite !zlen_app, !zlen_le_split.
    unfold bind, ret. cbn [cm_size set_label]. f_equal. f_equal. change (zlen []) with 0. lia.
  - split.
    + unfold bytes_str, bytes64, bytes32. repeat apply rd_pieces; rewrite ?zlen_app, ?zlen_le_split;
        change (zlen []) with 0; rewrite ?length_le_split; mem_simpl; try (apply rd_wr_at; [lia|by rewrite ?length_le_split]).
      * rewrite (rd_clean m a Hze) by lia. done.
      * done.
    + split; [repeat (apply only_in_wr_chain; [|unfold bytes32; rewrite ?zlen_le_split; lia..]); apply only_in_refl
             |repeat (eapply keeps_trans; [|apply keeps_wr]); apply keeps_refl].
Qed.

(** ** Sending a command *)

(** The proxy's ring: its records, and the correlation counter in its trailer. *)
Record proxy_ok (m : mem) (driver : Proxy) (head tail hc next : Z) (es : list entry) : Prop := {
  po_rb : rb_ok m (toDriverCommandBuffer driver) head tail hc;
  po_corrIx : correlationIDCounterIndex (toDriverCommandBuffer driver)
              = rb_capacity (toDriverCommandBuffer driver) + 512;
  po_next : rd_i64 m (bufferPtr (rb_buffer (toDriverCommandBuffer driver))
                      + (rb_capacity (toDriverCommandBuffer driver) + 512)) = next;
  po_seg : ring_seg m (bufferPtr (rb_buffer (toDriverCommandBuffer driver)))
             (rb_capacity (toDriverCommandBuffer driver)) head es;
  po_tail : head + ring_space es = tail }.

(** The runtime allocates outside of the ring. *)
Definition fresh_at (driver : Proxy) (a : Z) : Prop :=
  0 <= a /\ a + 512 <= 18446744073709551616 /\
  disjoint (bufferPtr (rb_buffer (toDriverCommandBuffer driver)))
    (buf_length (rb_buffer (toDriverCommandBuffer driver))) a 512.

Lemma make_bytes_zeroed m a :
  0 <= a -> a + 512 <= 18446744073709551616 ->
  make_bytes a 512 m = Ret (mkBuffer a 512) (wr m a (replicate 512 Byte.x00)) /\
  zeroed (wr m a (replicate 512 Byte.x00)) a.
Proof.
  intros. split; [done|].
  assert (Hz : forall i, a <= i < a + 512 -> wr m a (replicate 512 Byte.x00) !! i = Some Byte.x00).
  { intros i Hi. rewrite wr_lookup_in by (rewrite zlen_replicate; lia). apply lookup_replicate_2. lia. }
  split; [|done]. split; [|cbn; lia]. cbn [bufferPtr buf_length]. split_and!; try lia.
  intros i Hi. by rewrite Hz.
Qed.

Section Send.
Context (m : mem) (driver : Proxy) (head tail hc next : Z) (es : list entry) (a : Z).
Context (Hp : proxy_ok m driver head tail hc next es) (Ha : fresh_at driver a).

Local Abbreviation rb := (toDriverCommandBuffer driver).
Local Abbreviation p0 := (bufferPtr (rb_buffer rb)).
Local Abbreviation cap := (rb_capacity rb).

(** Changes outside of the ring and in the counter keep the ring. *)
Lemma proxy_ok_ext m1 next1 :
  keeps m m1 -> (forall i, p0 <= i < p0 + cap + 512 -> m1 !! i = m !! i) ->
  rd_i64 m1 (p0 + (cap + 512)) = next1 ->
  proxy_ok m1 driver head tail hc next1 es.
Proof using Hp.
  intros Hk Hsame Hn. destruct Hp as [Hrb Hix _ Hseg Hsp].
  destruct (rb_cap_range _ _ _ _ _ Hrb) as (? & _ & _).
  assert (H8 : forall o, 0 <= o -> o + 8 <= 512 -> rd_i64 m1 (p0 + (cap + o)) = rd_i64 m (p0 + (cap + o))).
  { intros. unfold rd_i64. do 2 f_equal. apply rd_ext. intros. apply Hsame. lia. }
  constructor; try done.
  - destruct Hrb as [Hb Hc Hl Hm H1 H2 H3 H4 H5 H6 Hord Hst Hal].
    constructor; rewrite ?H8 by lia; try done. by eapply buf_ok_keeps.
  - eapply ring_seg_ext; [lia| |exact Hseg]. intros q Hq. apply Hsame.
    pose proof (Z.mod_pos_bound q cap ltac:(lia)). lia.
Qed.

(** Taking the next id. *)
Lemma next_id_ok :
  next < 9223372036854775807 ->
  exists m1, NextCorrelationID rb m = Ret next m1 /\
    only_in m m1 (p0 + (cap + 512)) 8 /\ keeps m m1 /\
    rd_i64 m1 (p0 + (cap + 512)) = next + 1.
Proof using Hp.
  intros. destruct Hp as [Hrb Hix Hnx Hseg Hsp].
  destruct (rb_cap_range _ _ _ _ _ Hrb) as (? & _ & _). pose proof (ro_len _ _ _ _ _ Hrb).
  assert (Hr : is_i64 next) by (rewrite <- Hnx; apply i64_range). unfold is_i64 in Hr.
  destruct (GetAndAddInt64_ok m (rb_buffer rb) (cap + 512) 1 (ro_buf _ _ _ _ _ Hrb) ltac:(lia) ltac:(lia))
    as (m1 & Hrun & Hval & Ho & Hk).
  exists m1. unfold NextCorrelationID. rewrite Hix, Hrun, Hval, Hnx. split_and!; try done. apply i64_small. lia.
Qed.

(** The memory that a filler finds: the new buffer, the counter and nothing else changed. *)
Definition prepared (m1 : mem) : Prop :=
  zeroed m1 a /\ keeps m m1 /\
  forall i, ~ (a <= i < a + 512) -> ~ (p0 + (cap + 512) <= i < p0 + (cap + 520)) -> m1 !! i = m !! i.

(** A buffer apart from the ring and from the new one reads the same. *)
Lemma prepared_rd m1 b o n :
  prepared m1 -> disjoint a 512 (bufferPtr b) (buf_length b) ->
  disjoint p0 (buf_length (rb_buffer rb)) (bufferPtr b) (buf_length b) ->
  0 <= o -> 0 <= n -> o + n <= buf_length b ->
  rd m1 (bufferPtr b + o) (Z.to_nat n) = rd m (bufferPtr b + o) (Z.to_nat n).
Proof using Hp.
  intros (_ & _ & Hout). pose proof (ro_len _ _ _ _ _ (po_rb _ _ _ _ _ _ _ Hp)).
  destruct (rb_cap_range _ _ _ _ _ (po_rb _ _ _ _ _ _ _ Hp)) as (? & _ & _).
  unfold disjoint. intros. apply rd_ext. intros. apply Hout; lia.
Qed.

(** Whether there is room for a command of [n] bytes. *)
Definition accepted (n : Z) : bool := bool_decide (is_Some (claim_spec cap head tail (rec_space n))).
Definition tail_after (n : Z) : Z := tail + claim_total cap head tail (rec_space n).

(** The ring after a command, whether it was accepted or not. *)
Definition sent (ty : Z) (bytes : list Init.Byte.byte) (m' : mem) : Prop :=
  (exists hc', proxy_ok m' driver head (tail_after (zlen bytes)) hc' (next + 1)
                 (es ++ written cap head tail ty bytes)) /\
  (forall i, ~ (p0 <= i < p0 + buf_length (rb_buffer rb)) -> ~ (a <= i < a + 512) -> m' !! i = m !! i).

Lemma send_ok (filler : Z -> Filler) ty bytes :
  next < 9223372036854775807 -> tail + 2 * cap < 4611686018427387904 -> 4096 <= cap ->
  1 <= ty < 2147483648 -> zlen bytes <= 512 ->
  (forall m1, prepared m1 -> fills (filler next) ty bytes m1 a) ->
  exists m1 m',
    NextCorrelationID rb m = Ret next m1 /\
    writeCommandToDriver driver a (filler next) m1
      = Ret (if accepted (zlen bytes) then None else Some ErrCouldNotWrite) m' /\
    sent ty bytes m'.
Proof using All.
  intros Hnx Hroom Hcap Hty Hlen Hfill. pose proof Ha as (? & ? & Hdis). unfold disjoint in Hdis.
  pose proof (zlen_nonneg bytes). pose proof (ro_len _ _ _ _ _ (po_rb _ _ _ _ _ _ _ Hp)) as Hbl.
  pose proof (ro_max _ _ _ _ _ (po_rb _ _ _ _ _ _ _ Hp)) as Hmax.
  destruct (next_id_ok Hnx) as (m1 & Hrun1 & Ho1 & Hk1 & Hv1).
  destruct (make_bytes_zeroed m1 a ltac:(lia) ltac:(lia)) as [Hmk Hz].
  set (m2 := wr m1 a (replicate 512 Byte.x00)) in *.
  assert (Ho2 : only_in m1 m2 a 512) by (apply only_in_wr; rewrite ?zlen_replicate; lia).
  destruct (Hfill m2) as (m3 & Hrun3 & Hrd & Ho3 & Hk3).
  { split; [done|]. split; [eapply keeps_trans; [exact Hk1|apply keeps_wr]|].
    intros i ? ?. rewrite Ho2, Ho1 by lia. done. }
  assert (Hk : keeps m m3) by (eapply keeps_trans; [exact Hk1|eapply keeps_trans; [apply keeps_wr|exact Hk3]]).
  assert (Ho13 : only_in m1 m3 a 512) by (eapply only_in_trans; eassumption).
  destruct (rb_cap_range _ _ _ _ _ (po_rb _ _ _ _ _ _ _ Hp)) as (? & _ & _).
  assert (Hp3 : proxy_ok m3 driver head tail hc (next + 1) es).
  { apply proxy_ok_ext; [done| |].
    - intros i Hi. rewrite Ho13, Ho1 by lia. done.
    - rewrite <- Hv1. unfold rd_i64. do 2 f_equal. apply (only_in_rd _ _ _ _ _ _ Ho13). unfold disjoint. lia. }
  destruct Hp3 as [Hrb3 Hix3 Hnx3 Hseg3 Hsp3].
  assert (Hb3 : buf_ok m3 (mkBuffer a 512)).
  { eapply buf_ok_keeps; [exact Hk3|apply Hz]. }
  destruct (Write_ok m3 rb head tail hc Hrb3 Hroom es ty (mkBuffer a 512) 0 (zlen bytes) Hseg3 Hsp3 Hty)
    as (m' & hc' & Hrun & Hrb' & Hseg' & Ho').
  { rewrite Hmax. dlia. }
  { done. }
  { lia. }
  { cbn [buf_length]. lia. }
  { unfold disjoint. cbn [bufferPtr buf_length]. lia. }
  exists m1, m'. split; [done|]. cbn [bufferPtr] in Hseg'. rewrite Z.add_0_r in Hseg'.
  unfold zlen in Hseg' at 1. rewrite Nat2Z.id, Hrd in Hseg'.
  split.
  - unfold writeCommandToDriver. erewrite bind_Ret by exact Hmk. erewrite bind_Ret by exact Hrun3.
    cbv beta iota. rewrite !i32_small by lia. erewrite bind_Ret by exact Hrun. done.
  - assert (Hin : forall q, p0 <= p0 + q mod cap < p0 + cap)
      by (intros q; pose proof (Z.mod_pos_bound q cap ltac:(lia)); lia).
    split; [exists hc'; constructor; try done|].
    + rewrite <- Hnx3. unfold rd_i64. do 2 f_equal. apply rd_ext. intros i Hi. apply Ho'; [lia|].
      intros q _. specialize (Hin q). lia.
    + by rewrite ring_space_app, Z.add_assoc, Hsp3, written_space.
    + intros i Hi1 Hi2. rewrite Ho'; [rewrite Ho13, Ho1 by lia; done|lia|].
      intros q _. specialize (Hin q). lia.
Qed.
End Send.

(** ** The commands of a client *)

Inductive command : Type :=
| CAddSubscription (channel : list Init.Byte.byte) (streamID : Z)
| CRemoveSubscription (registrationID : Z)
| CAddPublication (channel : list Init.Byte.byte) (streamID : Z)
| CAddExclusivePublication (channel : list Init.Byte.byte) (streamID : Z)
| CRemovePublication (registrationID : Z)
| CClientClose
| CAddDestination (registrationID : Z) (channel : list Init.Byte.byte)
| CRemoveDestination (registrationID : Z) (channel : list Init.Byte.byte)
| CAddRcvDestination (registrationID : Z) (channel : list Init.Byte.byte)
| CRemoveRcvDestination (registrationID : Z) (channel : list Init.Byte.byte)
| CAddCounter (typeId : Z) (kb : Buffer) (ko kl : Z) (lb : Buffer) (lo ll : Z)
| CAddCounterByLabel (typeId : Z) (label : list Init.Byte.byte)
| CRemoveCounter (registrationID : Z).

(** Each command is issued by its operation; those that answer with an error only are given
    no id. *)
Definition no_id (op : M mem (option proxyError)) : M mem (option Z * option proxyError) :=
  let! err := op in ret (None, err).
Definition with_id (op : M mem (Z * option proxyError)) : M mem (option Z * option proxyError) :=
  let! (id, err) := op in ret (Some id, err).

Definition issue (driver : Proxy) (a : Z) (c : command) : M mem (option Z * option proxyError) :=
  match c with
  | CAddSubscription ch s => with_id (AddSubscription driver ch s a)
  | CRemoveSubscription r => no_id (RemoveSubscription driver r a)
  | CAddPublication ch s => with_id (AddPublication driver ch s a)
  | CAddExclusivePublication ch s => with_id (AddExclusivePublication driver ch s a)
  | CRemovePublication r => no_id (RemovePublication driver r a)
  | CClientClose => no_id (ClientClose driver a)
  | CAddDestination r ch => with_id (AddDestination driver r ch a)
  | CRemoveDestination r ch => with_id (RemoveDestination driver r ch a)
  | CAddRcvDestination r ch => with_id (AddRcvDestination driver r ch a)
  | CRemoveRcvDestination r ch => with_id (RemoveRcvDestination driver r ch a)
  | CAddCounter t kb ko kl lb lo ll => with_id (AddCounter driver t kb ko kl lb lo ll a)
  | CAddCounterByLabel t l => with_id (AddCounterByLabel driver t l a)
  | CRemoveCounter r => with_id (RemoveCounter driver r a)
  end.

(** The wire format: the type and the bytes of a command. *)
Definition command_type (c : command) : Z :=
  match c with
  | CAddSubscription _ _ => control.AddSubscription
  | CRemoveSubscription _ => control.RemoveSubscription
  | CAddPublication _ _ => control.AddPublication
  | CAddExclusivePublication _ _ => control.AddExclusivePublication
  | CRemovePublication _ => control.RemovePublication
  | CClientClose => control.ClientClose
  | CAddDestination _ _ => control.AddDestination
  | CRemoveDestination _ _ => control.RemoveDestination
  | CAddRcvDestination _ _ => control.AddRcvDestination
  | CRemoveRcvDestination _ _ => control.RemoveRcvDestination
  | CAddCounter _ _ _ _ _ _ _ | CAddCounterByLabel _ _ => control.AddCounter
  | CRemoveCounter _ => control.RemoveCounter
  end.

Definition command_bytes (m : mem) (client id : Z) (c : command) : list Init.Byte.byte :=
  bytes64 client ++ bytes64 id ++
  match c with
  | CAddSubscription ch s => bytes64 (-1) ++ bytes32 s ++ bytes_str ch
  | CAddPublication ch s | CAddExclusivePublication ch s => bytes32 s ++ bytes_str ch
  | CRemoveSubscription r | CRemovePublication r | CRemoveCounter r => bytes64 r
  | CClientClose => []
  | CAddDestination r ch | CRemoveDestination r ch | CAddRcvDestination r ch
  | CRemoveRcvDestination r ch => bytes64 r ++ bytes_str ch
  | CAddCounter t kb ko kl lb lo ll =>
      bytes32 t ++ bytes_str (rd m (bufferPtr kb + ko) (Z.to_nat kl))
      ++ bytes_str (rd m (bufferPtr lb + lo) (Z.to_nat ll))
  | CAddCounterByLabel t l => bytes32 t ++ bytes_str [] ++ bytes_str l
  end.

(** What fits in a message of 512 bytes; a counter's key is made of whole words, as the
    length of the message demands. *)
Definition sendable (driver : Proxy) (m : mem) (a : Z) (c : command) : Prop :=
  match c with
  | CAddSubscription ch _ => ch <> [] /\ zlen ch <= 480
  | CAddPublication ch _ | CAddExclusivePublication ch _ => ch <> [] /\ zlen ch <= 488
  | CAddDestination _ ch | CRemoveDestination _ ch | CAddRcvDestination _ ch
  | CRemoveRcvDestination _ ch => ch <> [] /\ zlen ch <= 484
  | CRemoveSubscription _ | CRemovePublication _ | CRemoveCounter _ | CClientClose => True
  | CAddCounter _ kb ko kl lb lo ll =>
      let ring := rb_buffer (toDriverCommandBuffer driver) in
      let apart b := buf_ok m b /\ disjoint a 512 (bufferPtr b) (buf_length b) /\
                     disjoint (bufferPtr ring) (buf_length ring) (bufferPtr b) (buf_length b) in
      apart kb /\ apart lb /\ 0 <= ko /\ 0 <= kl /\ ko + kl <= buf_length kb /\
      0 <= lo /\ 0 <= ll /\ lo + ll <= buf_length lb /\ kl mod 4 = 0 /\ 28 + kl + ll <= 512
  | CAddCounterByLabel _ l => l <> [] /\ zlen l <= 484
  end.

(** What the caller is told. *)
Definition answer (id : Z) (ok : bool) (c : command) : option Z * option proxyError :=
  match c with
  | CRemoveSubscription _ | CRemovePublication _ | CClientClose =>
      (None, if ok then None else Some ErrCouldNotWrite)
  | CAddRcvDestination _ _ => (Some (if ok then id else 0), None)
  | _ => if ok then (Some id, None) else (Some 0, Some ErrCouldNotWrite)
  end.

Lemma counter_bytes_whole client id t key label :
  zlen key mod 4 = 0 ->
  counter_bytes client id t key label =
  bytes64 client ++ bytes64 id ++ bytes32 t ++ bytes_str key ++ bytes_str label.
Proof.
  intros Hk. pose proof (zlen_nonneg key). unfold counter_bytes, counter_layout.
  rewrite align_up_id by (done || lia).
  rewrite Z.sub_diag. change (replicate (Z.to_nat 0) Byte.x00) with (@nil Init.Byte.byte).
  rewrite app_nil_l, take_ge; [done|]. unfold bytes_str, bytes64, bytes32. rewrite !length_app, !length_le_split.
  unfold zlen. lia.
Qed.

Section Issue.
Context (m : mem) (driver : Proxy) (head tail hc next : Z) (es : list entry) (a : Z).
Context (Hp : proxy_ok m driver head tail hc next es) (Ha : fresh_at driver a).

(** What the filler of a command leaves, in the memory that it finds. *)
Definition command_filler (c : command) (id : Z) : Filler :=
  let client := px_clientID driver in
  match c with
  | CAddSubscription ch s => subscription_filler client id s ch
  | CAddPublication ch s | CAddExclusivePublication ch s => publication_filler (command_type c) client id s ch
  | CRemoveSubscription r | CRemovePublication r | CRemoveCounter r => remove_filler (command_type c) client id r
  | CClientClose => close_filler client id
  | CAddDestination r ch | CRemoveDestination r ch | CAddRcvDestination r ch
  | CRemoveRcvDestination r ch => destination_filler (command_type c) client id r ch
  | CAddCounter t kb ko kl lb lo ll => counter_filler client id t kb ko kl lb lo ll
  | CAddCounterByLabel t l => counter_label_filler client id t l
  end.

Lemma command_fills c id m1 :
  sendable driver m a c -> prepared m driver a m1 ->
  fills (command_filler c id) (command_type c) (command_bytes m (px_clientID driver) id c) m1 a.
Proof using Hp.
  intros Hs Hprep. pose proof Hprep as (Hz & Hk & _). destruct c; cbn [sendable] in Hs;
    unfold command_filler, command_type, command_bytes; cbv zeta.
  all: try (apply subscription_fills; tauto).
  all: try (apply publication_fills; tauto).
  all: try (apply destination_fills; tauto).
  all: try (by apply remove_fills).
  - rewrite app_nil_r. by apply close_fills.
  - cbv zeta in Hs. destruct Hs as ((? & ? & Hdk) & (? & ? & Hdl) & Hs). destruct_and! Hs.
    rewrite <- (prepared_rd m driver head tail hc next es a Hp m1 kb ko kl),
      <- (prepared_rd m driver head tail hc next es a Hp m1 lb lo ll) by done.
    rewrite <- counter_bytes_whole by (by rewrite zlen_rd, Z2Nat.id).
    apply counter_fills; try done; try (by eapply buf_ok_keeps). rewrite align_up_id by (done || lia). lia.
  - apply counter_label_fills; tauto.
Qed.

Lemma command_length c id :
  sendable driver m a c -> zlen (command_bytes m (px_clientID driver) id c) <= 512.
Proof using Type.
  intros Hs. destruct c; cbn [sendable] in Hs; unfold command_bytes, bytes_str, bytes64, bytes32;
    rewrite ?zlen_app, ?zlen_le_split; change (zlen []) with 0; try lia.
  cbv zeta in Hs. rewrite !zlen_rd. lia.
Qed.

(** An operation takes the next id and writes its command. *)
Lemma issue_runs c m1 err m' :
  NextCorrelationID (toDriverCommandBuffer driver) m = Ret next m1 ->
  writeCommandToDriver driver a (command_filler c next) m1 = Ret err m' ->
  issue driver a c m = Ret (answer next (match err with None => true | _ => false end) c) m'.
Proof using Type.
  intros H1 H2. destruct c; cbn [issue]; unfold with_id, no_id, AddSubscription, RemoveSubscription,
    AddPublication, AddExclusivePublication, RemovePublication, ClientClose, AddDestination, RemoveDestination,
    AddRcvDestination, RemoveRcvDestination, AddCounter, AddCounterByLabel, RemoveCounter;
    rewrite !bind_assoc; (erewrite bind_Ret by exact H1); rewrite ?bind_assoc;
    (erewrite bind_Ret by exact H2); by destruct err as [[]|].
Qed.
Lemma issue_ok c :
  next < 9223372036854775807 -> tail + 2 * rb_capacity (toDriverCommandBuffer driver) < 4611686018427387904 ->
  4096 <= rb_capacity (toDriverCommandBuffer driver) -> sendable driver m a c ->
  let bytes := command_bytes m (px_clientID driver) next c in
  exists m', issue driver a c m = Ret (answer next (accepted driver head tail (zlen bytes)) c) m' /\
    sent m driver head tail next es a (command_type c) bytes m'.
Proof using Hp Ha.
  intros Hn Hr Hc Hs bytes. pose proof (command_length c next Hs) as Hlen.
  destruct (send_ok m driver head tail hc next es a Hp Ha (command_filler c) (command_type c) bytes Hn Hr Hc)
    as (m1 & m' & H1 & H2 & Hsent).
  - destruct c; cbv; done.
  - done.
  - intros m1 Hm1. by apply command_fills.
  - exists m'. split; [|done]. rewrite (issue_runs c m1 _ m' H1 H2). by destruct (accepted _ _ _ _).
Qed.
End Issue.

(** ** What the driver receives *)

(** C8. A command of the proxy that is sendable: its channel or label, where it has one, is not
    empty, the command fits in 512 bytes, and the key of a counter is a whole number of words (a
    longer rest is lost, see [AddCounter_cuts_label]); the ring has at least 4096 bytes, and its
    counters are not near the largest integer. The operation takes the next correlation id and
    appends the command's wire format, the client's and the correlation id first, to the records
    of the ring, and the caller gets the id. When there is no room the records stay as they
    were, and the caller is told so, except by AddRcvDestination, which answers the id 0 and no
    error. *)
Theorem commands_arrive m driver head tail hc next es a c :
  proxy_ok m driver head tail hc next es -> fresh_at driver a -> sendable driver m a c ->
  next < 9223372036854775807 -> tail + 2 * rb_capacity (toDriverCommandBuffer driver) < 4611686018427387904 ->
  4096 <= rb_capacity (toDriverCommandBuffer driver) ->
  let cap := rb_capacity (toDriverCommandBuffer driver) in
  let bytes := command_bytes m (px_clientID driver) next c in
  let room := claim_spec cap head tail (rec_space (zlen bytes)) in
  exists m' hc',
    issue driver a c m = Ret (answer next (bool_decide (is_Some room)) c) m' /\
    proxy_ok m' driver head (tail + claim_total cap head tail (rec_space (zlen bytes))) hc' (next + 1)
      (es ++ match room with
             | Some p => (if p =? 0 then [] else [Pad p]) ++ [Msg (command_type c) bytes]
             | None => [] end).
Proof.
  intros Hp Ha Hs Hn Hr Hc cap bytes room.
  destruct (issue_ok m driver head tail hc next es a Hp Ha c Hn Hr Hc Hs) as (m' & Hrun & (hc' & Hp') & _).
  by exists m', hc'.
Qed.

(** The one operation that hides a failure: with no room in the ring,
    [AddRcvDestination] sends nothing and reports no error, but the id 0, where the other
    destinations' operations report that the command could not be written. *)
Theorem AddRcvDestination_hides_error m driver head tail hc next es a reg ch :
  proxy_ok m driver head tail hc next es -> fresh_at driver a -> ch <> [] -> zlen ch <= 484 ->
  next < 9223372036854775807 -> tail + 2 * rb_capacity (toDriverCommandBuffer driver) < 4611686018427387904 ->
  4096 <= rb_capacity (toDriverCommandBuffer driver) ->
  claim_spec (rb_capacity (toDriverCommandBuffer driver)) head tail (rec_space (28 + zlen ch)) = None ->
  exists m1 m2 m3 hc',
    AddRcvDestination driver reg ch a m = Ret (0, None) m1 /\
    proxy_ok m1 driver head tail hc' (next + 1) es /\
    AddDestination driver reg ch a m = Ret (0, Some ErrCouldNotWrite) m2 /\
    RemoveRcvDestination driver reg ch a m = Ret (0, Some ErrCouldNotWrite) m3.
Proof.
  intros Hp Ha Hne Hlen Hn Hr Hc Hfull.
  assert (Hsend : forall c : command,
    sendable driver m a c -> zlen (command_bytes m (px_clientID driver) next c) = 28 + zlen ch ->
    exists m', issue driver a c m = Ret (answer next false c) m' /\
      exists hc', proxy_ok m' driver head tail hc' (next + 1) es).
  { intros c Hs Hl. destruct (issue_ok m driver head tail hc next es a Hp Ha c Hn Hr Hc Hs)
      as (m' & Hrun & (hc' & Hp') & _). rewrite Hl in *.
    unfold accepted, tail_after, claim_total, written in *. rewrite Hl, Hfull in *.
    rewrite app_nil_r, Z.add_0_r in Hp'. exists m'. split; [exact Hrun|by exists hc']. }
  assert (Hl : forall c, c = CAddRcvDestination reg ch \/ c = CAddDestination reg ch \/ c = CRemoveRcvDestination reg ch ->
    zlen (command_bytes m (px_clientID driver) next c) = 28 + zlen ch).
  { intros c [-> |[-> | ->]]; unfold command_bytes, bytes_str, bytes64, bytes32;
      rewrite !zlen_app, !zlen_le_split; lia. }
  destruct (Hsend (CAddRcvDestination reg ch)) as (m1 & H1 & hc' & Hp1); [done|auto|].
  destruct (Hsend (CAddDestination reg ch)) as (m2 & H2 & _); [done|auto|].
  destruct (Hsend (CRemoveRcvDestination reg ch)) as (m3 & H3 & _); [done|auto|].
  assert (Hid : forall op r m', with_id op m = Ret r m' -> exists id err, op m = Ret (id, err) m' /\ r = (Some id, err)).
  { intros op r m' H. apply bind_inv_Ret in H as ([id err] & mm & Hop & H). unfold ret in H.
    injection H as <- <-. by exists id, err. }
  apply Hid in H1 as (? & ? & -> & [= <- <-]). apply Hid in H2 as (? & ? & -> & [= <- <-]).
  apply Hid in H3 as (? & ? & -> & [= <- <-]). by exists m1, m2, m3, hc'.
Qed.

(** A counter's key that is not made of whole words: the label starts at the next word,
    but the message's length does not count the bytes skipped, so the end of the label is
    not sent. *)
Theorem AddCounter_cuts_label m driver head tail hc next es a typeId kb ko kl lb lo ll :
  proxy_ok m driver head tail hc next es -> fresh_at driver a ->
  let ring := rb_buffer (toDriverCommandBuffer driver) in
  let apart b := buf_ok m b /\ disjoint a 512 (bufferPtr b) (buf_length b) /\
                 disjoint (bufferPtr ring) (buf_length ring) (bufferPtr b) (buf_length b) in
  apart kb -> apart lb -> 0 <= ko -> 0 < kl -> ko + kl <= buf_length kb ->
  0 <= lo -> 4 <= ll -> lo + ll <= buf_length lb -> kl mod 4 <> 0 -> 28 + align_up kl 4 + ll <= 512 ->
  next < 9223372036854775807 -> tail + 2 * rb_capacity (toDriverCommandBuffer driver) < 4611686018427387904 ->
  4096 <= rb_capacity (toDriverCommandBuffer driver) ->
  claim_spec (rb_capacity (toDriverCommandBuffer driver)) head tail (rec_space (28 + kl + ll)) = Some 0 ->
  let label := rd m (bufferPtr lb + lo) (Z.to_nat ll) in
  let missing := align_up kl 4 - kl in
  exists m' hc' before,
    AddCounter driver typeId kb ko kl lb lo ll a m = Ret (next, None) m' /\
    0 < missing < 4 /\
    proxy_ok m' driver head (tail + rec_space (28 + kl + ll)) hc' (next + 1)
      (es ++ [Msg control.AddCounter (before ++ bytes32 ll ++ take (Z.to_nat (ll - missing)) label)]).
Proof.
  intros Hp Ha ring apart (? & ? & Hdk) (? & ? & Hdl) ? ? ? ? ? ? Hmod Hin Hn Hr Hc Hroom label missing.
  pose proof (align_up_spec kl 4 ltac:(lia)) as [? Hal].
  assert (0 < missing < 4) by (unfold missing; destruct (decide (align_up kl 4 = kl)) as [E|]; [rewrite E in Hal|]; lia).
  set (key := rd m (bufferPtr kb + ko) (Z.to_nat kl)).
  assert (Hzk : zlen key = kl) by (unfold key; rewrite zlen_rd; lia).
  assert (Hzl : zlen label = ll) by (unfold label; rewrite zlen_rd; lia).
  set (bytes := counter_bytes (px_clientID driver) next typeId key label).
  assert (Hbytes : bytes = (bytes64 (px_clientID driver) ++ bytes64 next ++ bytes32 typeId ++ bytes_str key ++
      replicate (Z.to_nat missing) Byte.x00) ++ bytes32 ll ++ take (Z.to_nat (ll - missing)) label).
  { unfold bytes, counter_bytes, counter_layout, bytes_str at 2. rewrite Hzk, Hzl. fold missing. rewrite !app_assoc.
    rewrite take_app_ge; [f_equal; f_equal|]; rewrite !length_app; unfold bytes_str, bytes64, bytes32;
    rewrite ?length_app, ?length_le_split, ?length_replicate; unfold zlen in *; lia. }
  assert (Hzb : zlen bytes = 28 + kl + ll).
  { rewrite Hbytes. unfold bytes_str, bytes64, bytes32. rewrite !zlen_app, !zlen_le_split, zlen_replicate.
    unfold zlen at 2. rewrite length_take. unfold zlen in *. lia. }
  destruct (send_ok m driver head tail hc next es a Hp Ha
    (fun id => counter_filler (px_clientID driver) id typeId kb ko kl lb lo ll) control.AddCounter bytes Hn Hr Hc)
    as (m1 & m' & Hrun1 & Hrun2 & (hc' & Hp') & _); [done|lia| |].
  - intros m1 Hprep. pose proof Hprep as (Hz & Hk & _). unfold bytes, key, label.
    rewrite <- (prepared_rd m driver head tail hc next es a Hp m1 kb ko kl),
      <- (prepared_rd m driver head tail hc next es a Hp m1 lb lo ll) by (done || lia).
    apply counter_fills; try done; try lia; by eapply buf_ok_keeps.
  - unfold accepted, tail_after, claim_total, written in *. rewrite Hzb in *. rewrite Hroom in *. cbn in Hp'.
    rewrite Z.add_0_r, Hbytes in Hp'. exists m', hc'. eexists. split; [|split; [done|exact Hp']].
    unfold AddCounter. erewrite bind_Ret by exact Hrun1. by erewrite bind_Ret by exact Hrun2.
Qed.
