(* ===== verification/ListenerAdapter.v ===== *)
(** * The driver listener adapter

    src/aeron/driver/listeneradapter.go: what the media driver broadcasts is decoded with the
    flyweights of [Command] and handed to a listener, the interface that the client
    conductor implements. *)

From S2P Require Import Prelude Memory Bits Flyweight RingBuffer Broadcast LogBuffer Command Proxy.

Local Open Scope m_scope.

Local Abbreviation bytes := (list Init.Byte.byte).

Module Events.
Definition OnError : Z := 0x0F01.
Definition OnAvailableImage : Z := 0x0F02.
Definition OnPublicationReady : Z := 0x0F03.
Definition OnOperationSuccess : Z := 0x0F04.
Definition OnUnavailableImage : Z := 0x0F05.
Definition OnExclusivePublicationReady : Z := 0x0F06.
Definition OnSubscriptionReady : Z := 0x0F07.
Definition OnCounterReady : Z := 0x0F08.
Definition OnUnavailableCounter : Z := 0x0F09.
Definition OnClientTimeout : Z := 0x0F0A.
End Events.

(** The listener's callbacks, over a state [U] beside the memory. *)
Class Listener (U : Type) : Type := {
  OnNewPublication : forall (streamID sessionID positionLimitCounterID channelStatusIndicatorID : Z)
    (logFileName : bytes) (correlationID registrationID : Z), M (mem * U) unit;
  OnNewExclusivePublication : forall (streamID sessionID positionLimitCounterID channelStatusIndicatorID : Z)
    (logFileName : bytes) (correlationID registrationID : Z), M (mem * U) unit;
  OnAvailableImage : forall (streamID sessionID : Z) (logFilename sourceIdentity : bytes)
    (subscriberPositionID subsRegID correlationID : Z), M (mem * U) unit;
  OnUnavailableImage : forall (correlationID subscriptionRegistrationID : Z), M (mem * U) unit;
  OnOperationSuccess : forall (correlationID : Z), M (mem * U) unit;
  OnErrorResponse : forall (offendingCommandCorrelationID errorCode : Z) (errorMessage : bytes),
    M (mem * U) unit;
  OnChannelEndpointError : forall (correlationID : Z) (errorMessage : bytes), M (mem * U) unit;
  OnSubscriptionReady : forall (correlationID channelStatusIndicatorID : Z), M (mem * U) unit;
  OnAvailableCounter : forall (correlationID counterID : Z), M (mem * U) unit;
  OnUnavailableCounter : forall (correlationID counterID : Z), M (mem * U) unit;
  OnClientTimeout : forall (clientID : Z), M (mem * U) unit }.

(** [strings.Contains]. *)
Fixpoint starts_with (sub s : bytes) : bool :=
  match sub, s with
  | [], _ => true
  | x :: sub', y :: s' => bool_decide (x = y) && starts_with sub' s'
  | _ :: _, [] => false
  end.

Fixpoint contains (sub s : bytes) : bool :=
  starts_with sub s || match s with [] => false | _ :: s' => contains sub s' end.

Definition address_in_use : bytes := String.list_byte_of_string "Address already in use".

Section Adapter.
Context {U : Type} `{Listener U}.

(** The two publication messages differ in the callback. *)
Definition on_publication_ready
  (callback : Z -> Z -> Z -> Z -> bytes -> Z -> Z -> M (mem * U) unit) (buffer : Buffer) (offset : Z)
  : M (mem * U) unit :=
  let! msg := on_fst (publicationReady_Wrap buffer offset) in
  let! streamID := on_fst (Int32Field_Get (pr_streamID msg)) in
  let! sessionID := on_fst (Int32Field_Get (pr_sessionID msg)) in
  let! positionLimitCounterID := on_fst (Int32Field_Get (pr_publicationLimitOffset msg)) in
  let! channelStatusIndicatorID := on_fst (Int32Field_Get (pr_channelStatusIndicatorID msg)) in
  let! correlationID := on_fst (Int64Field_Get (pr_correlationID msg)) in
  let! registrationID := on_fst (Int64Field_Get (pr_registrationID msg)) in
  let! logFileName := on_fst (StringField_Get (pr_logFileName msg)) in
  callback streamID sessionID positionLimitCounterID channelStatusIndicatorID logFileName
    correlationID registrationID.

Definition on_subscription_ready (buffer : Buffer) (offset : Z) : M (mem * U) unit :=
  let! msg := on_fst (subscriptionReady_Wrap buffer offset) in
  let! correlationID := on_fst (Int64Field_Get (sr_correlationID msg)) in
  let! channelStatusIndicatorID := on_fst (Int32Field_Get (sr_channelStatusIndicatorID msg)) in
  OnSubscriptionReady correlationID channelStatusIndicatorID.

Definition on_available_image (buffer : Buffer) (offset : Z) : M (mem * U) unit :=
  let! header := on_fst (imageReadyHeader_Wrap buffer offset) in
  let! streamID := on_fst (Int32Field_Get (ir_streamID header)) in
  let! sessionID := on_fst (Int32Field_Get (ir_sessionID header)) in
  let! logFileName := on_fst (StringField_Get (ir_logFile header)) in
  let! sourceIdentity := on_fst (StringField_Get (ir_sourceIdentity header)) in
  let! subsPosID := on_fst (Int32Field_Get (ir_subsPosID header)) in
  let! subsRegID := on_fst (Int64Field_Get (ir_subsRegistrationID header)) in
  let! correlationID := on_fst (Int64Field_Get (ir_correlationID header)) in
  OnAvailableImage streamID sessionID logFileName sourceIdentity subsPosID subsRegID correlationID.

Definition on_operation_success (buffer : Buffer) (offset : Z) : M (mem * U) unit :=
  let! msg := on_fst (CorrelatedMessage_Wrap buffer offset) in
  let! correlationID := on_fst (Int64Field_Get (cor_CorrelationID msg)) in
  OnOperationSuccess correlationID.

Definition on_unavailable_image (buffer : Buffer) (offset : Z) : M (mem * U) unit :=
  let! msg := on_fst (ImageMessage_Wrap buffer offset) in
  let! correlationID := on_fst (Int64Field_Get (im_CorrelationID msg)) in
  let! subscriptionRegistrationID := on_fst (Int64Field_Get (im_SubscriptionRegistrationID msg)) in
  OnUnavailableImage correlationID subscriptionRegistrationID.

(** The text is looked at only when the code does not decide. *)
Definition on_error (buffer : Buffer) (offset : Z) : M (mem * U) unit :=
  let! msg := on_fst (errorMessage_Wrap buffer offset) in
  let! code := on_fst (Int32Field_Get (em_errorCode msg)) in
  let! endpoint :=
    if code =? control.ErrorCodeChannelEndpointError then ret true
    else let! text := on_fst (StringField_Get (em_errorMessage msg)) in
         ret (contains address_in_use text) in
  if endpoint then
    let! id := on_fst (Int64Field_Get (em_offendingCommandCorrelationID msg)) in
    let! text := on_fst (StringField_Get (em_errorMessage msg)) in
    OnChannelEndpointError id text
  else
    let! id := on_fst (Int64Field_Get (em_offendingCommandCorrelationID msg)) in
    let! code := on_fst (Int32Field_Get (em_errorCode msg)) in
    let! text := on_fst (StringField_Get (em_errorMessage msg)) in
    OnErrorResponse id code text.

Definition on_counter (callback : Z -> Z -> M (mem * U) unit) (buffer : Buffer) (offset : Z)
  : M (mem * U) unit :=
  let! msg := on_fst (counterUpdate_Wrap buffer offset) in
  let! correlationID := on_fst (Int64Field_Get (cu_correlationID msg)) in
  let! counterID := on_fst (Int32Field_Get (cu_counterID msg)) in
  callback correlationID counterID.

Definition on_client_timeout (buffer : Buffer) (offset : Z) : M (mem * U) unit :=
  let! msg := on_fst (clientTimeout_Wrap buffer offset) in
  let! clientID := on_fst (Int64Field_Get (ct_clientID msg)) in
  OnClientTimeout clientID.

(** The handler of [ReceiveMessages]; events of unknown types are ignored. *)
Definition adapter_handler (msgTypeID : Z) (buffer : Buffer) (offset length : Z) : M (mem * U) unit :=
  if msgTypeID =? Events.OnPublicationReady then on_publication_ready OnNewPublication buffer offset
  else if msgTypeID =? Events.OnExclusivePublicationReady then
    on_publication_ready OnNewExclusivePublication buffer offset
  else if msgTypeID =? Events.OnSubscriptionReady then on_subscription_ready buffer offset
  else if msgTypeID =? Events.OnAvailableImage then on_available_image buffer offset
  else if msgTypeID =? Events.OnOperationSuccess then on_operation_success buffer offset
  else if msgTypeID =? Events.OnUnavailableImage then on_unavailable_image buffer offset
  else if msgTypeID =? Events.OnError then on_error buffer offset
  else if msgTypeID =? Events.OnCounterReady then on_counter OnAvailableCounter buffer offset
  else if msgTypeID =? Events.OnUnavailableCounter then on_counter OnUnavailableCounter buffer offset
  else if msgTypeID =? Events.OnClientTimeout then on_client_timeout buffer offset
  else ret tt.

Definition ReceiveMessages (broadcastReceiver : CopyReceiver) : M (mem * U) (Z * CopyReceiver) :=
  CopyReceiver_Receive broadcastReceiver adapter_handler.

(** ** The events of the driver and their wire format *)

Inductive driver_event : Type :=
| EPublicationReady (exclusive : bool) (correlationID registrationID sessionID streamID
    positionLimitCounterID channelStatusIndicatorID : Z) (logFileName : bytes)
| ESubscriptionReady (correlationID channelStatusIndicatorID : Z)
| EAvailableImage (correlationID sessionID streamID subsRegID subsPosID : Z)
    (logFileName sourceIdentity : bytes)
| EOperationSuccess (clientID correlationID : Z)
| EUnavailableImage (correlationID subscriptionRegistrationID streamID : Z) (channel : bytes)
| EError (offendingCommandCorrelationID errorCode : Z) (errorMessage : bytes)
| ECounter (available : bool) (correlationID counterID : Z)
| EClientTimeout (clientID : Z).

Definition event_type (e : driver_event) : Z :=
  match e with
  | EPublicationReady x _ _ _ _ _ _ _ =>
      if x then Events.OnExclusivePublicationReady else Events.OnPublicationReady
  | ESubscriptionReady _ _ => Events.OnSubscriptionReady
  | EAvailableImage _ _ _ _ _ _ _ => Events.OnAvailableImage
  | EOperationSuccess _ _ => Events.OnOperationSuccess
  | EUnavailableImage _ _ _ _ => Events.OnUnavailableImage
  | EError _ _ _ => Events.OnError
  | ECounter a _ _ => if a then Events.OnCounterReady else Events.OnUnavailableCounter
  | EClientTimeout _ => Events.OnClientTimeout
  end.

Definition word_padding (n : Z) : bytes := replicate (Z.to_nat (align_up n 4 - n)) Byte.x00.

Definition event_bytes (e : driver_event) : bytes :=
  match e with
  | EPublicationReady _ corr reg session stream limit status log =>
      bytes64 corr ++ bytes64 reg ++ bytes32 session ++ bytes32 stream ++ bytes32 limit ++
      bytes32 status ++ bytes_str log
  | ESubscriptionReady corr status => bytes64 corr ++ bytes32 status
  | EAvailableImage corr session stream reg pos log source =>
      bytes64 corr ++ bytes32 session ++ bytes32 stream ++ bytes64 reg ++ bytes32 pos ++
      bytes_str log ++ word_padding (zlen log) ++ bytes_str source
  | EOperationSuccess client corr => bytes64 client ++ bytes64 corr
  | EUnavailableImage corr reg stream ch => bytes64 corr ++ bytes64 reg ++ bytes32 stream ++ bytes_str ch
  | EError corr code text => bytes64 corr ++ bytes32 code ++ bytes_str text
  | ECounter _ corr id => bytes64 corr ++ bytes32 id
  | EClientTimeout client => bytes64 client
  end.

(** The call of the listener that an event stands for. *)
Definition deliver (e : driver_event) : M (mem * U) unit :=
  match e with
  | EPublicationReady x corr reg session stream limit status log =>
      (if x then OnNewExclusivePublication else OnNewPublication) stream session limit status log corr reg
  | ESubscriptionReady corr status => OnSubscriptionReady corr status
  | EAvailableImage corr session stream reg pos log source =>
      OnAvailableImage stream session log source pos reg corr
  | EOperationSuccess _ corr => OnOperationSuccess corr
  | EUnavailableImage corr reg _ _ => OnUnavailableImage corr reg
  | EError corr code text =>
      if (code =? control.ErrorCodeChannelEndpointError) || contains address_in_use text
      then OnChannelEndpointError corr text else OnErrorResponse corr code text
  | ECounter a corr id => (if a then OnAvailableCounter else OnUnavailableCounter) corr id
  | EClientTimeout client => OnClientTimeout client
  end.

(** The values are of their widths. *)
Definition event_ok (e : driver_event) : Prop :=
  match e with
  | EPublicationReady _ corr reg session stream limit status _ =>
      is_i64 corr /\ is_i64 reg /\ is_i32 session /\ is_i32 stream /\ is_i32 limit /\ is_i32 status
  | ESubscriptionReady corr status => is_i64 corr /\ is_i32 status
  | EAvailableImage corr session stream reg pos _ _ =>
      is_i64 corr /\ is_i32 session /\ is_i32 stream /\ is_i64 reg /\ is_i32 pos
  | EOperationSuccess client corr => is_i64 client /\ is_i64 corr
  | EUnavailableImage corr reg stream _ => is_i64 corr /\ is_i64 reg /\ is_i32 stream
  | EError corr code _ => is_i64 corr /\ is_i32 code
  | ECounter _ corr id => is_i64 corr /\ is_i32 id
  | EClientTimeout client => is_i64 client
  end.
End Adapter.

(** ** Reading an event back *)

Lemma rd_split m a (xs ys : bytes) :
  rd m a (length (xs ++ ys)) = xs ++ ys ->
  rd m a (length xs) = xs /\ rd m (a + zlen xs) (length ys) = ys.
Proof.
  rewrite length_app, rd_app. intros E. by apply app_inj_1 in E; [|by rewrite length_rd].
Qed.

Lemma rd_bytes64 m a v : is_i64 v -> rd m a (length (bytes64 v)) = bytes64 v -> rd_i64 m a = v.
Proof.
  unfold is_i64, bytes64, rd_i64. rewrite length_le_split. intros Hv ->. rewrite le_combine_split.
  change (2 ^ (Z.of_nat 8 * 8)) with 18446744073709551616. rewrite i64_mod. by apply i64_small.
Qed.

Lemma rd_bytes32 m a v : is_i32 v -> rd m a (length (bytes32 v)) = bytes32 v -> rd_i32 m a = v.
Proof.
  unfold is_i32, bytes32, rd_i32. rewrite length_le_split. intros Hv ->. rewrite le_combine_split.
  change (2 ^ (Z.of_nat 4 * 8)) with 4294967296. rewrite i32_mod. by apply i32_small.
Qed.

Lemma zlen_bytes64 v : zlen (bytes64 v) = 8.
Proof. apply (zlen_le_split 8). Qed.
Lemma zlen_bytes32 v : zlen (bytes32 v) = 4.
Proof. apply (zlen_le_split 4). Qed.
Lemma zlen_bytes_str s : zlen (bytes_str s) = 4 + zlen s.
Proof. unfold bytes_str. by rewrite zlen_app, zlen_bytes32. Qed.

Section Decode.
Context {U : Type} (m : mem) (u : U) (b : Buffer) (Hb : buf_ok m b).

Lemma get32 k v :
  rd_i32 m (bufferPtr b + (0 + k)) = v -> 0 <= k -> k + 4 <= buf_length b ->
  on_fst (Int32Field_Get (mkInt32Field (bufferPtr b + (0 + k)))) (m, u) = Ret v (m, u).
Proof using Hb.
  intros <- ? ?. apply on_fst_Ret, Int32Field_Get_ok. eapply region_ok_sub; [apply Hb|cbn [f32_offset]; lia..].
Qed.

Lemma get64 k v :
  rd_i64 m (bufferPtr b + (0 + k)) = v -> 0 <= k -> k + 8 <= buf_length b ->
  on_fst (Int64Field_Get (mkInt64Field (bufferPtr b + (0 + k)))) (m, u) = Ret v (m, u).
Proof using Hb.
  intros <- ? ?. apply on_fst_Ret, Int64Field_Get_ok. eapply region_ok_sub; [apply Hb|cbn [f64_offset]; lia..].
Qed.

Lemma getstr k s :
  string_in m b (0 + k) s -> 0 <= k ->
  on_fst (StringField_Get (string_field b (0 + k))) (m, u) = Ret s (m, u).
Proof using Hb. intros ? ?. apply on_fst_Ret, StringField_Get_ok; [done|lia|done]. Qed.

(** A string read back where it is. *)
Lemma str_in k s :
  rd m (bufferPtr b + k) (length (bytes_str s)) = bytes_str s -> 0 <= k -> k + 4 + zlen s <= buf_length b ->
  string_in m b (0 + k) s /\ string_at m b 0 k.
Proof using Hb.
  intros Hs ? ?. unfold bytes_str in Hs. apply rd_split in Hs as [H1 H2]. rewrite zlen_bytes32 in H2.
  pose proof (buf_ok_length _ _ Hb). pose proof (zlen_nonneg s).
  apply rd_bytes32 in H1; [|unfold is_i32; lia]. rewrite Z.add_0_l in *.
  split; [by split_and!|]. split; rewrite ?Z.add_0_l, H1; lia.
Qed.
End Decode.

(** Split what was read in its fields. *)
Ltac fields_of H :=
  let H1 := fresh "F" in
  match type of H with
  | rd _ _ (length (_ ++ _)) = _ =>
      apply rd_split in H as [H1 H];
      rewrite ?zlen_bytes64, ?zlen_bytes32, ?zlen_bytes_str in H; fields_of H
  | _ => idtac
  end.

Ltac field_values :=
  repeat match goal with
    | F : rd _ _ (length (bytes64 _)) = _ |- _ => apply rd_bytes64 in F; [|done]
    | F : rd _ _ (length (bytes32 _)) = _ |- _ => apply rd_bytes32 in F; [|done]
    end.

(** Find the field's value among the hypotheses, by its address. *)
Ltac by_address :=
  match goal with
  | F : rd_i32 ?m ?x = _ |- rd_i32 ?m ?y = _ => replace y with x by lia; exact F
  | F : rd_i64 ?m ?x = _ |- rd_i64 ?m ?y = _ => replace y with x by lia; exact F
  | F : string_in _ _ _ _ |- string_in _ _ _ _ => exact F
  end.

Ltac get_fields :=
  repeat (erewrite bind_Ret;
    [|first [ apply get32; [done|by_address|lia..] | apply get64; [done|by_address|lia..]
            | apply getstr; [done|by_address|lia] ]]).

Section Dispatch.
Context {U : Type} `{Listener U} (m : mem) (u : U) (b : Buffer) (Hb : buf_ok m b).

(** A string that ends a message. *)
Ltac last_string H k :=
  pose proof (buf_ok_length _ _ Hb);
  match type of H with rd _ ?x (length (bytes_str ?s)) = _ =>
    pose proof (zlen_nonneg s);
    replace x with (bufferPtr b + k) in H by lia; apply (str_in m b Hb) in H as [? ?]; [|lia..] end.

Ltac start H :=
  unfold event_bytes in *; rewrite ?zlen_app, ?zlen_bytes64, ?zlen_bytes32, ?zlen_bytes_str in *;
  cbn [event_ok] in *; destruct_and?; fields_of H; field_values.

Lemma publication_decodes callback x corr reg session stream limit status log :
  let e := EPublicationReady x corr reg session stream limit status log in
  event_ok e -> zlen (event_bytes e) <= buf_length b ->
  rd m (bufferPtr b) (length (event_bytes e)) = event_bytes e ->
  on_publication_ready callback b 0 (m, u) = callback stream session limit status log corr reg (m, u).
Proof using Hb.
  intros e Hok Hlen Hrd. unfold e in *. start Hrd. last_string Hrd 32. unfold on_publication_ready.
  erewrite bind_Ret by (apply on_fst_Ret, publicationReady_Wrap_ok; done || lia).
  cbn [pr_correlationID pr_registrationID pr_sessionID pr_streamID pr_publicationLimitOffset
       pr_channelStatusIndicatorID pr_logFileName]. by get_fields.
Qed.

Lemma image_decodes corr session stream reg pos log source :
  let e := EAvailableImage corr session stream reg pos log source in
  event_ok e -> zlen (event_bytes e) <= buf_length b ->
  rd m (bufferPtr b) (length (event_bytes e)) = event_bytes e ->
  on_available_image b 0 (m, u) = OnAvailableImage stream session log source pos reg corr (m, u).
Proof using Hb.
  intros e Hok Hlen Hrd. unfold e in *. pose proof (zlen_nonneg log). pose proof (zlen_nonneg source).
  pose proof (align_up_spec (zlen log) 4 ltac:(lia)) as [? _]. unfold event_bytes, word_padding in *.
  rewrite ?zlen_app, ?zlen_bytes64, ?zlen_bytes32, ?zlen_bytes_str, zlen_replicate in *.
  rewrite Z2Nat.id in Hlen by lia.
  cbn [event_ok] in *; destruct_and?; fields_of Hrd; field_values.
  rewrite zlen_replicate, Z2Nat.id in Hrd by lia.
  match goal with F : rd m _ (length (bytes_str log)) = _ |- _ => last_string F 28 end.
  assert (Hk : align_up (32 + rd_i32 m (bufferPtr b + (0 + 28))) 4 = 32 + align_up (zlen log) 4).
  { match goal with F : string_in m b _ log |- _ => rewrite (proj1 F) end. exact (align_up_shift (zlen log) 8 ltac:(lia)). }
  last_string Hrd (32 + align_up (zlen log) 4). unfold on_available_image.
  erewrite bind_Ret by (apply on_fst_Ret, imageReadyHeader_Wrap_ok; rewrite ?Hk; done || lia).
  rewrite Hk. cbn [ir_correlationID ir_sessionID ir_streamID ir_subsRegistrationID ir_subsPosID ir_logFile ir_sourceIdentity].
  by get_fields.
Qed.

Lemma error_decodes corr code text :
  let e := EError corr code text in
  event_ok e -> zlen (event_bytes e) <= buf_length b ->
  rd m (bufferPtr b) (length (event_bytes e)) = event_bytes e ->
  on_error b 0 (m, u) = deliver e (m, u).
Proof using Hb.
  intros e Hok Hlen Hrd. unfold e in *. start Hrd. last_string Hrd 12. unfold on_error.
  erewrite bind_Ret by (apply on_fst_Ret, errorMessage_Wrap_ok; done || lia).
  cbn [em_offendingCommandCorrelationID em_errorCode em_errorMessage]. get_fields. cbn [deliver].
  destruct (code =? control.ErrorCodeChannelEndpointError); cbn [orb].
  - rewrite bind_ret_l. by get_fields.
  - rewrite bind_assoc. get_fields. rewrite bind_ret_l.
    destruct (contains address_in_use text); by get_fields.
Qed.

(** Every event becomes its call. *)
Lemma adapter_decodes e :
  event_ok e -> zlen (event_bytes e) <= buf_length b ->
  rd m (bufferPtr b) (length (event_bytes e)) = event_bytes e ->
  adapter_handler (event_type e) b 0 (zlen (event_bytes e)) (m, u) = deliver e (m, u).
Proof using Hb.
  destruct e as [[]| | | | | |[]| ]; intros Hok Hlen Hrd; cbv [event_type];
    unfold adapter_handler; cbn [Z.eqb Pos.eqb Events.OnPublicationReady Events.OnExclusivePublicationReady Events.OnSubscriptionReady
      Events.OnAvailableImage Events.OnOperationSuccess Events.OnUnavailableImage Events.OnError
      Events.OnCounterReady Events.OnUnavailableCounter Events.OnClientTimeout].
  - eapply publication_decodes; eassumption.
  - eapply publication_decodes; eassumption.
  - start Hrd. unfold on_subscription_ready.
    erewrite bind_Ret by (apply on_fst_Ret, subscriptionReady_Wrap_ok; done || lia).
    cbn [sr_correlationID sr_channelStatusIndicatorID]. by get_fields.
  - by apply image_decodes.
  - start Hrd. unfold on_operation_success.
    erewrite bind_Ret by (apply on_fst_Ret, CorrelatedMessage_Wrap_ok; done || lia).
    cbn [cor_CorrelationID]. by get_fields.
  - start Hrd. last_string Hrd 20. unfold on_unavailable_image.
    erewrite bind_Ret by (apply on_fst_Ret, ImageMessage_Wrap_ok; done || lia).
    cbn [im_CorrelationID im_SubscriptionRegistrationID]. by get_fields.
  - by apply error_decodes.
  - start Hrd. unfold on_counter.
    erewrite bind_Ret by (apply on_fst_Ret, counterUpdate_Wrap_ok; done || lia).
    cbn [cu_correlationID cu_counterID]. by get_fields.
  - start Hrd. unfold on_counter.
    erewrite bind_Ret by (apply on_fst_Ret, counterUpdate_Wrap_ok; done || lia).
    cbn [cu_correlationID cu_counterID]. by get_fields.
  - start Hrd. unfold on_client_timeout.
    erewrite bind_Ret by (apply on_fst_Ret, clientTimeout_Wrap_ok; done || lia).
    cbn [ct_clientID]. by get_fields.
Qed.
End Dispatch.

(** ** What the listener is told *)

(** C9. One round of the adapter on what the driver broadcast: the next event in the broadcast
    buffer, in its wire format, becomes the call of the listener with its values; the error
    event becomes a channel endpoint error by its code or by its text. The adapter is then
    behind that event. *)
Theorem ReceiveMessages_dispatches {U} `{Listener U} m r tail intent scratch u pad e :
  bc_ok m r tail intent -> buf_ok m scratch ->
  disjoint (bufferPtr scratch) (buf_length scratch) (bufferPtr (rc_buffer r)) (buf_length (rc_buffer r)) ->
  nextRecord r < tail -> intent < nextRecord r + rc_capacity r ->
  (pad = [] \/ exists n, pad = [Pad n] /\ pad_ok (rc_capacity r) (nextRecord r) n) ->
  ring_seg m (bufferPtr (rc_buffer r)) (rc_capacity r) (nextRecord r)
    (pad ++ [Msg (event_type e) (event_bytes e)]) ->
  event_ok e -> zlen (event_bytes e) <= buf_length scratch ->
  let r' := at_record r (nextRecord r + ring_space pad) (event_bytes e) in
  ReceiveMessages (mkCopyReceiver r scratch) (m, u) =
  bind (deliver e) (fun _ => ret (1, mkCopyReceiver r' scratch))
    (wr m (bufferPtr scratch) (event_bytes e), u).
Proof.
  intros Hr Hs Hd Hn Hi Hpad Hseg Hok Hlen r'. unfold ReceiveMessages.
  erewrite Receive_msg_ok; try eassumption; [|by destruct e as [[]| | | | | |[]| ]].
  unfold bind at 1 2. rewrite adapter_decodes; [done|by apply buf_ok_wr|done|done|].
  by apply rd_wr_same.
Qed.

(** An event of a type that the adapter does not know is passed over: the listener is not
    called and the adapter goes on behind it. *)
Theorem ReceiveMessages_ignores_unknown {U} `{Listener U} m r tail intent scratch u t d :
  bc_ok m r tail intent -> buf_ok m scratch ->
  disjoint (bufferPtr scratch) (buf_length scratch) (bufferPtr (rc_buffer r)) (buf_length (rc_buffer r)) ->
  nextRecord r < tail -> intent < nextRecord r + rc_capacity r ->
  1 <= t -> ~ (Events.OnError <= t <= Events.OnClientTimeout) ->
  ring_seg m (bufferPtr (rc_buffer r)) (rc_capacity r) (nextRecord r) [Msg t d] ->
  zlen d <= buf_length scratch ->
  ReceiveMessages (mkCopyReceiver r scratch) (m, u) =
  Ret (1, mkCopyReceiver (at_record r (nextRecord r) d) scratch) (wr m (bufferPtr scratch) d, u).
Proof.
  intros Hr Hs Hd Hn Hi Ht Hun Hseg Hlen. unfold ReceiveMessages.
  erewrite (Receive_msg_ok m r tail intent scratch adapter_handler u t d []); try eassumption; [|by left].
  cbn [ring_space]. rewrite Z.add_0_r. unfold bind, adapter_handler.
  unfold Events.OnError, Events.OnClientTimeout in Hun.
  rewrite !(proj2 (Z.eqb_neq t _)); [done|..];
    unfold Events.OnPublicationReady, Events.OnExclusivePublicationReady, Events.OnSubscriptionReady,
      Events.OnAvailableImage, Events.OnOperationSuccess, Events.OnUnavailableImage, Events.OnError,
      Events.OnCounterReady, Events.OnUnavailableCounter, Events.OnClientTimeout; lia.
Qed.
