(* ===== verification/TermSpec.v ===== *)
(** * Terms as sequences of frames

    The abstract view of a term buffer: a segment of a term is a list of frames laid out
    one after the other, each rounded up to [FrameAlignment]. The appender is specified
    as extending such a list and the reader as walking it. A message longer than the
    maximum payload becomes the frames of its [fragments]. *)

From S2P Require Import Prelude Memory Bits Flyweight LogBuffer.

(** ** Frames *)

Record frame : Type := mkFrame {
  fr_flags : Z;
  fr_type : Z;
  fr_session : Z;
  fr_stream : Z;
  fr_termId : Z;
  fr_data : list Init.Byte.byte }.

Definition frame_length (f : frame) : Z := 32 + zlen (fr_data f).
Definition frame_space (f : frame) : Z := align_up (frame_length f) 32.
Definition is_padding (f : frame) : bool := fr_type f =? DataFrameHeader.TypePad.

(** The committed frame [f] is in memory at offset [off] of the term at [base]. *)
Record frame_at (m : mem) (base off : Z) (f : frame) : Prop := {
  fa_length : rd_i32 m (base + off) = frame_length f;
  fa_version : rd_u8 m (base + off + 4) = DataFrameHeader.CurrentVersion;
  fa_flags : rd_u8 m (base + off + 5) = fr_flags f;
  fa_type : rd_u16 m (base + off + 6) = fr_type f;
  fa_offset : rd_i32 m (base + off + 8) = off;
  fa_session : rd_i32 m (base + off + 12) = fr_session f;
  fa_stream : rd_i32 m (base + off + 16) = fr_stream f;
  fa_termId : rd_i32 m (base + off + 20) = fr_termId f;
  fa_data : rd m (base + off + 32) (length (fr_data f)) = fr_data f }.

(** The frames [fs] are laid out from offset [off] on. *)
Fixpoint log_seg (m : mem) (base off : Z) (fs : list frame) : Prop :=
  match fs with
  | [] => True
  | f :: fs' => frame_at m base off f /\ log_seg m base (off + frame_space f) fs'
  end.

Fixpoint seg_space (fs : list frame) : Z :=
  match fs with [] => 0 | f :: fs' => frame_space f + seg_space fs' end.

Lemma frame_length_ge f : 32 <= frame_length f.
Proof. unfold frame_length. pose proof (zlen_nonneg (fr_data f)). lia. Qed.

Lemma frame_space_spec f :
  frame_length f <= frame_space f < frame_length f + 32 /\ frame_space f mod 32 = 0.
Proof. apply align_up_spec. lia. Qed.

Lemma frame_space_pos f : 32 <= frame_space f.
Proof. pose proof (frame_space_spec f). pose proof (frame_length_ge f). lia. Qed.

Lemma seg_space_nonneg fs : 0 <= seg_space fs.
Proof.
  induction fs as [|f fs IH]; simpl; [done|]. pose proof (frame_space_pos f). lia.
Qed.

Lemma seg_space_app fs gs : seg_space (fs ++ gs) = seg_space fs + seg_space gs.
Proof. induction fs as [|f fs IH]; simpl; [done|]. rewrite IH. lia. Qed.

Lemma log_seg_app m base off fs gs :
  log_seg m base off (fs ++ gs) <->
  log_seg m base off fs /\ log_seg m base (off + seg_space fs) gs.
Proof.
  revert off. induction fs as [|f fs IH]; intros off; simpl.
  - rewrite Z.add_0_r. tauto.
  - rewrite IH. replace (off + frame_space f + seg_space fs)
      with (off + (frame_space f + seg_space fs)) by lia. tauto.
Qed.

(** Frames depend on their own bytes only. *)
Lemma rd_typed_ext m m' a n :
  (forall i, a <= i < a + n -> m' !! i = m !! i) ->
  (forall b, a <= b -> b + 1 <= a + n -> rd_u8 m' b = rd_u8 m b) /\
  (forall b, a <= b -> b + 2 <= a + n -> rd_u16 m' b = rd_u16 m b) /\
  (forall b, a <= b -> b + 4 <= a + n -> rd_i32 m' b = rd_i32 m b).
Proof.
  intros H. unfold rd_u8, rd_u16, rd_i32.
  split_and!; intros; (rewrite (rd_ext m' m); [done|intros; apply H; lia]).
Qed.

Lemma frame_at_ext m m' base off f :
  (forall i, base + off <= i < base + off + frame_length f -> m' !! i = m !! i) ->
  frame_at m base off f -> frame_at m' base off f.
Proof.
  intros H [? ? ? ? ? ? ? ? Hd].
  destruct (rd_typed_ext m m' (base + off) (frame_length f)) as (H1 & H2 & H4).
  { intros. apply H. lia. }
  pose proof (frame_length_ge f).
  constructor; try (first [rewrite H1 by lia|rewrite H2 by lia|rewrite H4 by lia]; done).
  rewrite <- Hd at 2. apply rd_ext. intros. apply H. unfold frame_length, zlen. lia.
Qed.

Lemma log_seg_ext m m' base off fs :
  (forall i, base + off <= i < base + off + seg_space fs -> m' !! i = m !! i) ->
  log_seg m base off fs -> log_seg m' base off fs.
Proof.
  revert off. induction fs as [|f fs IH]; intros off H; simpl in *; [done|].
  intros [Hf Hs]. pose proof (frame_space_spec f). pose proof (seg_space_nonneg fs). split.
  - eapply frame_at_ext; [|done]. intros. apply H. lia.
  - apply IH; [|done]. intros. apply H. pose proof (frame_space_pos f). lia.
Qed.

(** ** Fragments of a message *)

(** The chunks of [data] of at most [n] bytes, each with its fragment flags: begin on
    the first, end on the last. *)
Fixpoint fragments_from (fuel : nat) (n : nat) (flags : Z) (data : list Init.Byte.byte)
  : list (Z * list Init.Byte.byte) :=
  match fuel, data with
  | S fuel', _ :: _ =>
      let flags := if (length data <=? n)%nat then Z.lor flags 0x40 else flags in
      (flags, take n data) :: fragments_from fuel' n 0 (drop n data)
  | _, _ => []
  end.

Definition fragments (n : nat) (data : list Init.Byte.byte) : list (Z * list Init.Byte.byte) :=
  fragments_from (length data) n 0x80 data.

(** The data frames that carry chunks. *)
Definition data_frames (session stream termId : Z) (chunks : list (Z * list Init.Byte.byte))
  : list frame :=
  map (fun c => mkFrame c.1 DataFrameHeader.TypeData session stream termId c.2) chunks.

(** Cutting a message loses nothing. *)
Lemma fragments_from_concat fuel n flags data :
  (0 < n)%nat -> (length data <= fuel)%nat ->
  concat (map snd (fragments_from fuel n flags data)) = data.
Proof.
  intros Hn. revert flags data. induction fuel as [|fuel IH]; intros flags data Hf.
  - by destruct data; simpl in *; [|lia].
  - destruct data as [|b data]; [done|]. cbn [fragments_from map concat snd].
    rewrite IH; [by rewrite take_drop|]. rewrite length_drop. simpl in *. lia.
Qed.

(** Bytes taken by the frames of a chunked message when a full frame is aligned. *)
Lemma fragments_from_space fuel n flags data s st t :
  (0 < n)%nat -> (length data <= fuel)%nat -> (Z.of_nat n + 32) mod 32 = 0 ->
  let l := zlen data in
  seg_space (data_frames s st t (fragments_from fuel n flags data)) =
  l / Z.of_nat n * (Z.of_nat n + 32) +
  (if l mod Z.of_nat n >? 0 then align_up (l mod Z.of_nat n + 32) 32 else 0).
Proof.
  intros Hn Hf Hal. revert flags data Hf. induction fuel as [|fuel IH]; intros flags data Hf l.
  { destruct data; [|simpl in Hf; lia]. subst l. change (zlen []) with 0.
    by rewrite Z.div_0_l, Z.mod_0_l by lia. }
  destruct data as [|b data].
  { subst l. change (zlen []) with 0. by rewrite Z.div_0_l, Z.mod_0_l by lia. }
  cbn [fragments_from data_frames map seg_space]. fold (data_frames s st t).
  set (d := b :: data) in *. assert (Hd : 0 < zlen d) by (unfold zlen, d; simpl; lia).
  unfold data_frames in IH. rewrite IH.
  2: { rewrite length_drop. unfold d. simpl in *. lia. }
  unfold frame_space, frame_length. cbn [fr_data snd].
  assert (Hzt : zlen (take n d) = Z.min (Z.of_nat n) l) by (unfold l, zlen; rewrite length_take; lia).
  assert (Hzd : zlen (drop n d) = l - Z.min (Z.of_nat n) l) by (unfold l, zlen; rewrite length_drop; lia).
  rewrite Hzt, Hzd. fold l in Hd. clearbody l. clear IH Hzt Hzd Hf.
  destruct (decide (Z.of_nat n <= l)) as [Hle|Hgt].
  - rewrite Z.min_l by lia. rewrite align_up_id by (lia || (rewrite Z.add_comm; done)).
    assert (Hq : l / Z.of_nat n = (l - Z.of_nat n) / Z.of_nat n + 1)
      by (rewrite <- Z.div_add by lia; f_equal; lia).
    assert (Hr : l mod Z.of_nat n = (l - Z.of_nat n) mod Z.of_nat n)
      by (rewrite <- (Z.mod_add (l - _) 1) by lia; f_equal; lia).
    rewrite Hq, Hr. ring.
  - rewrite Z.min_r by lia. rewrite Z.sub_diag, Z.div_0_l, Z.mod_0_l by lia.
    rewrite Z.div_small, Z.mod_small by lia. replace (l >? 0) with true by lia.
    simpl. rewrite (Z.add_comm l 32). lia.
Qed.
