(* ===== verification/Appender.v ===== *)
(** * The term appender

    src/aeron/logbuffer/term/appender.go: producers claim space in a term by adding to
    the partition's raw tail, then write their frames in the claimed space, the positive
    frame length last. *)

From S2P Require Import Prelude Memory Bits Flyweight LogBuffer TermSpec.

Local Open Scope m_scope.

Definition AppenderTripped : Z := -1.
Definition AppenderFailed : Z := -2.
Definition beginFrag : Z := 0x80.
Definition endFrag : Z := 0x40.
Definition unfragmented : Z := Z.lor 0x80 0x40.

(** A user callback that computes the reserved value of a frame. *)
Definition ReservedValueSupplier : Type := Buffer -> Z -> Z -> M mem Z.
Definition DefaultReservedValueSupplier : ReservedValueSupplier := fun _ _ _ => ret 0.

Record headerWriter : Type := mkHeaderWriter { hw_sessionID : Z; hw_streamID : Z }.

Definition headerWriter_fill (defaultHdr : Buffer) : M mem headerWriter :=
  let! sessionID := GetInt32 defaultHdr DataFrameHeader.SessionIDFieldOffset in
  let! streamID := GetInt32 defaultHdr DataFrameHeader.StreamIDFieldOffset in
  ret (mkHeaderWriter sessionID streamID).

Definition headerWriter_write (header : headerWriter) (termBuffer : Buffer)
  (offset length termID : Z) : M mem unit :=
  PutInt32Ordered termBuffer offset (i32 (- length)) ;;;
  PutInt8 termBuffer (i32 (offset + DataFrameHeader.VersionFieldOffset)) DataFrameHeader.CurrentVersion ;;;
  PutUInt8 termBuffer (i32 (offset + DataFrameHeader.FlagsFieldOffset)) unfragmented ;;;
  PutUInt16 termBuffer (i32 (offset + DataFrameHeader.TypeFieldOffset)) DataFrameHeader.TypeData ;;;
  PutInt32 termBuffer (i32 (offset + DataFrameHeader.TermOffsetFieldOffset)) offset ;;;
  PutInt32 termBuffer (i32 (offset + DataFrameHeader.SessionIDFieldOffset)) (hw_sessionID header) ;;;
  PutInt32 termBuffer (i32 (offset + DataFrameHeader.StreamIDFieldOffset)) (hw_streamID header) ;;;
  PutInt32 termBuffer (i32 (offset + DataFrameHeader.TermIDFieldOffset)) termID.

Record Appender : Type := mkAppender {
  termBuffer : Buffer;
  tailCounter : Int64Field;
  app_headerWriter : headerWriter }.

Definition MakeAppender (logBuffers : LogBuffers) (partitionIndex : Z) : M mem Appender :=
  let! buf := LogBuffers_Buffer logBuffers partitionIndex in
  let! tail := index_or_panic (TailCounter (LogBuffers_Meta logBuffers)) partitionIndex in
  let header := RawDataField_Get (DefaultFrameHeader (LogBuffers_Meta logBuffers)) in
  let! hw := headerWriter_fill header in
  ret (mkAppender buf tail hw).

Definition RawTail (appender : Appender) : M mem Z := Int64Field_Get (tailCounter appender).
Definition SetRawTail (appender : Appender) (v : Z) : M mem unit :=
  Int64Field_Set (tailCounter appender) v.
Definition getAndAddRawTail (appender : Appender) (alignedLength : Z) : M mem Z :=
  Int64Field_GetAndAddInt64 (tailCounter appender) alignedLength.
Definition SetTailTermID (appender : Appender) (termID : Z) : M mem unit :=
  Int64Field_Set (tailCounter appender) (i64 (Z.shiftl termID 32)).

Definition minInt32 (v1 v2 : Z) : Z := if v1 <? v2 then v1 else v2.

Definition handleEndOfLogCondition (termID : Z) (termBuffer : Buffer) (termOffset : Z)
  (header : headerWriter) (termLength : Z) : M mem Z :=
  if termOffset <=? termLength then
    when (termOffset <? termLength)
      (let paddingLength := i32 (termLength - termOffset) in
       headerWriter_write header termBuffer termOffset paddingLength termID ;;;
       SetFrameType termBuffer termOffset DataFrameHeader.TypePad ;;;
       SetFrameLength termBuffer termOffset paddingLength) ;;;
    ret AppenderTripped
  else ret AppenderFailed.

(** [Claim] wraps its argument around the claimed frame; [None]: it is left alone. *)
Definition Appender_Claim (appender : Appender) (length : Z) : M mem (Z * Z * option Claim) :=
  let frameLength := i32 (length + DataFrameHeader.Length) in
  let alignedLength := AlignInt32 frameLength FrameAlignment in
  let! rawTail := getAndAddRawTail appender alignedLength in
  let termLength := Capacity (termBuffer appender) in
  let termID := TermID rawTail in
  let termOffset := Z.land rawTail 0xFFFFFFFF in
  let resultingOffset := i64 (termOffset + alignedLength) in
  if resultingOffset >? termLength then
    let! resultingOffset := handleEndOfLogCondition termID (termBuffer appender) (i32 termOffset)
                              (app_headerWriter appender) termLength in
    ret (resultingOffset, termID, None)
  else
    let offset := i32 termOffset in
    headerWriter_write (app_headerWriter appender) (termBuffer appender) offset frameLength termID ;;;
    let! claim := Claim_Wrap (termBuffer appender) offset frameLength in
    ret (resultingOffset, termID, Some claim).

(** The reserved value of a frame, when there is a supplier. *)
Definition put_reserved (sup : option ReservedValueSupplier) (termBuffer : Buffer)
  (offset frameLength : Z) : M mem unit :=
  match sup with
  | Some f =>
      let! reservedValue := f termBuffer offset frameLength in
      PutInt64 termBuffer (i32 (offset + DataFrameHeader.ReservedValueFieldOffset)) reservedValue
  | None => ret tt
  end.

Definition AppendUnfragmentedMessage (appender : Appender) (srcBuffer : Buffer)
  (srcOffset length : Z) (reservedValueSupplier : option ReservedValueSupplier) : M mem (Z * Z) :=
  let frameLength := i32 (length + DataFrameHeader.Length) in
  let alignedLength := AlignInt32 frameLength FrameAlignment in
  let! rawTail := getAndAddRawTail appender alignedLength in
  let termLength := Capacity (termBuffer appender) in
  let termID := TermID rawTail in
  let termOffset := Z.land rawTail 0xFFFFFFFF in
  let resultingOffset := i64 (termOffset + alignedLength) in
  if resultingOffset >? termLength then
    let! resultingOffset := handleEndOfLogCondition termID (termBuffer appender) (i32 termOffset)
                              (app_headerWriter appender) termLength in
    ret (resultingOffset, termID)
  else
    let offset := i32 termOffset in
    headerWriter_write (app_headerWriter appender) (termBuffer appender) offset frameLength termID ;;;
    PutBytes (termBuffer appender) (i32 (offset + DataFrameHeader.Length)) srcBuffer srcOffset length ;;;
    put_reserved reservedValueSupplier (termBuffer appender) offset frameLength ;;;
    SetFrameLength (termBuffer appender) offset frameLength ;;;
    ret (resultingOffset, termID).

Definition AppendUnfragmentedMessage2 (appender : Appender)
  (srcBufferOne : Buffer) (srcOffsetOne lengthOne : Z)
  (srcBufferTwo : Buffer) (srcOffsetTwo lengthTwo : Z)
  (reservedValueSupplier : option ReservedValueSupplier) : M mem (Z * Z) :=
  let frameLength := i32 (i32 (lengthOne + lengthTwo) + DataFrameHeader.Length) in
  let alignedLength := AlignInt32 frameLength FrameAlignment in
  let! rawTail := getAndAddRawTail appender alignedLength in
  let termLength := Capacity (termBuffer appender) in
  let termID := TermID rawTail in
  let termOffset := Z.land rawTail 0xFFFFFFFF in
  let resultingOffset := i64 (termOffset + alignedLength) in
  if resultingOffset >? termLength then
    let! resultingOffset := handleEndOfLogCondition termID (termBuffer appender) (i32 termOffset)
                              (app_headerWriter appender) termLength in
    ret (resultingOffset, termID)
  else
    let offset := i32 termOffset in
    let dataOffset := i32 (offset + DataFrameHeader.Length) in
    headerWriter_write (app_headerWriter appender) (termBuffer appender) offset frameLength
      (TermID rawTail) ;;;
    PutBytes (termBuffer appender) dataOffset srcBufferOne srcOffsetOne lengthOne ;;;
    PutBytes (termBuffer appender) (i32 (dataOffset + lengthOne)) srcBufferTwo srcOffsetTwo lengthTwo ;;;
    put_reserved reservedValueSupplier (termBuffer appender) offset frameLength ;;;
    SetFrameLength (termBuffer appender) offset frameLength ;;;
    ret (resultingOffset, termID).

(** The space of a fragmented message; a zero payload length is a division by zero. *)
Definition fragmented_length (length maxPayloadLength : Z) : Z :=
  let numMaxPayloads := Z.quot length maxPayloadLength in
  let remainingPayload := Z.rem length maxPayloadLength in
  let lastFrameLength :=
    if remainingPayload >? 0
    then AlignInt32 (i32 (remainingPayload + DataFrameHeader.Length)) FrameAlignment else 0 in
  i32 (i32 (numMaxPayloads * i32 (maxPayloadLength + DataFrameHeader.Length)) + lastFrameLength).

(** Calling a nil supplier is a nil dereference: the fragmented path does not test. *)
Definition put_reserved_always (sup : option ReservedValueSupplier) (termBuffer : Buffer)
  (offset frameLength : Z) : M mem unit :=
  match sup with
  | Some _ => put_reserved sup termBuffer offset frameLength
  | None => panic "nil pointer dereference"
  end.

(** The loop of [AppendFragmentedMessage], one frame per round; every round with a
    positive payload length writes at least one byte. *)
Fixpoint append_fragments (appender : Appender) (srcBuffer : Buffer)
  (srcOffset length maxPayloadLength : Z) (sup : option ReservedValueSupplier) (termID : Z)
  (fuel : nat) (flags remaining offset : Z) : M mem unit :=
  if remaining >? 0 then
    match fuel with
    | O => raise EFuel
    | S fuel' =>
        let bytesToWrite := minInt32 remaining maxPayloadLength in
        let frameLength := i32 (bytesToWrite + DataFrameHeader.Length) in
        let alignedLength := AlignInt32 frameLength FrameAlignment in
        headerWriter_write (app_headerWriter appender) (termBuffer appender) offset frameLength termID ;;;
        PutBytes (termBuffer appender) (i32 (offset + DataFrameHeader.Length)) srcBuffer
          (i32 (srcOffset + i32 (length - remaining))) bytesToWrite ;;;
        let flags := if remaining <=? maxPayloadLength then Z.lor flags endFrag else flags in
        FrameFlags (termBuffer appender) offset flags ;;;
        put_reserved_always sup (termBuffer appender) offset frameLength ;;;
        SetFrameLength (termBuffer appender) offset frameLength ;;;
        append_fragments appender srcBuffer srcOffset length maxPayloadLength sup termID fuel'
          0 (i32 (remaining - bytesToWrite)) (i32 (offset + alignedLength))
    end
  else ret tt.

Definition AppendFragmentedMessage (appender : Appender) (srcBuffer : Buffer)
  (srcOffset length maxPayloadLength : Z) (reservedValueSupplier : option ReservedValueSupplier)
  : M mem (Z * Z) :=
  if maxPayloadLength =? 0 then panic "integer divide by zero"
  else
    let requiredLength := fragmented_length length maxPayloadLength in
    let! rawTail := getAndAddRawTail appender requiredLength in
    let termLength := Capacity (termBuffer appender) in
    let termID := TermID rawTail in
    let termOffset := Z.land rawTail 0xFFFFFFFF in
    let resultingOffset := i64 (termOffset + requiredLength) in
    if resultingOffset >? termLength then
      let! resultingOffset := handleEndOfLogCondition termID (termBuffer appender) (i32 termOffset)
                                (app_headerWriter appender) termLength in
      ret (resultingOffset, termID)
    else
      append_fragments appender srcBuffer srcOffset length maxPayloadLength reservedValueSupplier
        termID (Z.to_nat length) beginFrag length (i32 termOffset) ;;;
      ret (resultingOffset, termID).

(** The two sources of a vectored message: their buffers, offsets and lengths. *)
Record sources : Type := mkSources {
  one_buf : Buffer; one_off : Z; one_len : Z;
  two_buf : Buffer; two_off : Z; two_len : Z }.

(** The inner loop of [AppendFragmentedMessage2]: fill one payload from the first source
    while it lasts, then from the second. It returns the positions in both. *)
Fixpoint fill_payload (appender : Appender) (src : sources) (fuel : nat)
  (bytesToWrite bytesWritten payloadOffset posOne posTwo : Z) : M mem (Z * Z) :=
  if bytesWritten <? bytesToWrite then
    match fuel with
    | O => raise EFuel
    | S fuel' =>
        let remainingOne := i32 (one_len src - posOne) in
        if remainingOne >? 0 then
          let numBytes := minInt32 (i32 (bytesToWrite - bytesWritten)) remainingOne in
          PutBytes (termBuffer appender) payloadOffset (one_buf src) (i32 (one_off src + posOne)) numBytes ;;;
          fill_payload appender src fuel' bytesToWrite (i32 (bytesWritten + numBytes))
            (i32 (payloadOffset + numBytes)) (i32 (posOne + numBytes)) posTwo
        else
          let numBytes := minInt32 (i32 (bytesToWrite - bytesWritten)) (i32 (two_len src - posTwo)) in
          PutBytes (termBuffer appender) payloadOffset (two_buf src) (i32 (two_off src + posTwo)) numBytes ;;;
          fill_payload appender src fuel' bytesToWrite (i32 (bytesWritten + numBytes))
            (i32 (payloadOffset + numBytes)) posOne (i32 (posTwo + numBytes))
    end
  else ret (posOne, posTwo).

Fixpoint append_fragments2 (appender : Appender) (src : sources) (maxPayloadLength : Z)
  (sup : option ReservedValueSupplier) (termID : Z)
  (fuel : nat) (flags remaining frameOffset posOne posTwo : Z) : M mem unit :=
  if remaining >? 0 then
    match fuel with
    | O => raise EFuel
    | S fuel' =>
        let bytesToWrite := minInt32 remaining maxPayloadLength in
        let frameLength := i32 (bytesToWrite + DataFrameHeader.Length) in
        let alignedLength := AlignInt32 frameLength FrameAlignment in
        headerWriter_write (app_headerWriter appender) (termBuffer appender) frameOffset frameLength termID ;;;
        let! (posOne, posTwo) :=
          fill_payload appender src (Z.to_nat bytesToWrite) bytesToWrite 0
            (i32 (frameOffset + DataFrameHeader.Length)) posOne posTwo in
        let flags := if remaining <=? maxPayloadLength then Z.lor flags endFrag else flags in
        FrameFlags (termBuffer appender) frameOffset flags ;;;
        put_reserved_always sup (termBuffer appender) frameOffset frameLength ;;;
        SetFrameLength (termBuffer appender) frameOffset frameLength ;;;
        append_fragments2 appender src maxPayloadLength sup termID fuel'
          0 (i32 (remaining - bytesToWrite)) (i32 (frameOffset + alignedLength)) posOne posTwo
    end
  else ret tt.

Definition AppendFragmentedMessage2 (appender : Appender)
  (srcBufferOne : Buffer) (srcOffsetOne lengthOne : Z)
  (srcBufferTwo : Buffer) (srcOffsetTwo lengthTwo : Z)
  (maxPayloadLength : Z) (reservedValueSupplier : option ReservedValueSupplier) : M mem (Z * Z) :=
  let length := i32 (lengthOne + lengthTwo) in
  if maxPayloadLength =? 0 then panic "integer divide by zero"
  else
    let requiredLength := fragmented_length length maxPayloadLength in
    let! rawTail := getAndAddRawTail appender requiredLength in
    let termLength := Capacity (termBuffer appender) in
    let termID := TermID rawTail in
    let termOffset := Z.land rawTail 0xFFFFFFFF in
    let resultingOffset := i64 (termOffset + requiredLength) in
    if resultingOffset >? termLength then
      let! resultingOffset := handleEndOfLogCondition termID (termBuffer appender) (i32 termOffset)
                                (app_headerWriter appender) termLength in
      ret (resultingOffset, termID)
    else
      append_fragments2 appender
        (mkSources srcBufferOne srcOffsetOne lengthOne srcBufferTwo srcOffsetTwo lengthTwo)
        maxPayloadLength reservedValueSupplier termID (Z.to_nat length)
        beginFrag length (i32 termOffset) 0 0 ;;;
      ret (resultingOffset, termID).

(** ** The memory a frame write leaves *)

Definition hw_ok (hw : headerWriter) : Prop := is_i32 (hw_sessionID hw) /\ is_i32 (hw_streamID hw).

(** Suppliers are user code: they may read memory but not write it. *)
Definition supplier_reads (sup : ReservedValueSupplier) : Prop :=
  forall b off len m, exists v, sup b off len m = Ret v m.
Definition opt_supplier_reads (sup : option ReservedValueSupplier) : Prop :=
  match sup with Some f => supplier_reads f | None => True end.

Definition opt_wr (m : mem) (a : Z) (n : nat) (v : option Z) : mem :=
  match v with Some v => wr m a (le_split n v) | None => m end.

(** After [headerWriter_write]: the negated length marks the frame as in progress. *)
Definition header_mem (m : mem) (base off len tid : Z) (hw : headerWriter) : mem :=
  let a := base + off in
  wr (wr (wr (wr (wr (wr (wr (wr m a (le_split 4 (- len)))
    (a + 4) (le_split 1 0)) (a + 5) (le_split 1 0xC0)) (a + 6) (le_split 2 1))
    (a + 8) (le_split 4 off)) (a + 12) (le_split 4 (hw_sessionID hw)))
    (a + 16) (le_split 4 (hw_streamID hw))) (a + 20) (le_split 4 tid).

(** After the payload, the flags, the reserved value and the frame length. *)
Definition commit_mem (m : mem) (base off tid : Z) (hw : headerWriter)
  (data : list Init.Byte.byte) (fl res : option Z) : mem :=
  let a := base + off in
  let len := 32 + zlen data in
  wr (opt_wr (opt_wr (wr (header_mem m base off len tid hw) (a + 32) data) (a + 5) 1 fl)
        (a + 24) 8 res) a (le_split 4 len).

Lemma headerWriter_write_ok m hw b off len tid :
  buf_ok m b -> 0 <= off -> off + 32 <= buf_length b -> -2147483648 < len < 2147483648 ->
  headerWriter_write hw b off len tid m = Ret tt (header_mem m (bufferPtr b) off len tid hw).
Proof.
  intros Hb Hoff Hin Hlen. pose proof (buf_ok_length _ _ Hb).
  unfold headerWriter_write, DataFrameHeader.VersionFieldOffset, DataFrameHeader.FlagsFieldOffset,
    DataFrameHeader.TypeFieldOffset, DataFrameHeader.TermOffsetFieldOffset,
    DataFrameHeader.SessionIDFieldOffset, DataFrameHeader.StreamIDFieldOffset,
    DataFrameHeader.TermIDFieldOffset.
  wrap_simpl. unfold header_mem. rewrite <- !Z.add_assoc.
  repeat (erewrite bind_Ret;
    [|first [apply PutInt32Ordered_ok | apply PutInt8_ok | apply PutUInt8_ok
            | apply PutUInt16_ok | apply PutInt32_ok]; [by auto 10 with m_ok|lia..]]).
  apply PutInt32_ok; [by auto 10 with m_ok|lia..].
Qed.

Lemma keeps_opt_wr m a n v : keeps m (opt_wr m a n v).
Proof. destruct v; [apply keeps_wr|apply keeps_refl]. Qed.

Lemma keeps_header_mem m base off len tid hw : keeps m (header_mem m base off len tid hw).
Proof. unfold header_mem. repeat (eapply keeps_trans; [|apply keeps_wr]). apply keeps_refl. Qed.

Lemma keeps_commit_mem m base off tid hw data fl res :
  keeps m (commit_mem m base off tid hw data fl res).
Proof.
  unfold commit_mem. eapply keeps_trans; [apply keeps_header_mem|].
  eapply keeps_trans; [apply keeps_wr|]. eapply keeps_trans; [apply keeps_opt_wr|].
  eapply keeps_trans; [apply keeps_opt_wr|]. apply keeps_wr.
Qed.

Lemma only_in_header_mem m base off len tid hw :
  only_in m (header_mem m base off len tid hw) (base + off) 32.
Proof.
  unfold header_mem.
  repeat (apply only_in_wr_chain; [|rewrite ?zlen_le_split; lia..]). apply only_in_refl.
Qed.

Lemma only_in_commit_mem m base off tid hw data fl res :
  only_in m (commit_mem m base off tid hw data fl res) (base + off) (32 + zlen data).
Proof.
  unfold commit_mem, header_mem. pose proof (zlen_nonneg data). destruct fl, res; simpl;
  repeat (apply only_in_wr_chain; [|rewrite ?zlen_le_split; lia..]); apply only_in_refl.
Qed.

(** The frame is there. *)
Lemma frame_at_commit_mem m base off tid hw data fl res :
  hw_ok hw -> is_i32 tid -> 0 <= off < 2147483648 -> 32 + zlen data < 2147483648 ->
  (forall v, fl = Some v -> 0 <= v < 256) ->
  frame_at (commit_mem m base off tid hw data fl res) base off
    (mkFrame (default unfragmented fl) DataFrameHeader.TypeData
       (hw_sessionID hw) (hw_streamID hw) tid data).
Proof.
  intros [Hs Hst] Ht Hoff Hlen Hfl. pose proof (zlen_nonneg data) as Hn.
  unfold is_i32 in *. unfold commit_mem, header_mem.
  assert (Hfl' : forall v, fl = Some v -> 0 <= v < 256) by done. clear Hfl.
  destruct fl as [v|]; [specialize (Hfl' v eq_refl)|]; destruct res; cbn [opt_wr default from_option];
    (constructor; cbn [fr_flags fr_type fr_session fr_stream fr_termId fr_data];
     unfold frame_length; cbn [fr_data]; mem_simpl; try done).
  all: try (rewrite rd_wr_same; done).
Qed.

(** ** Appending *)

(** What the appender relies on: the term buffer and the tail counter are mapped and
    apart, and the term length is a multiple of the frame alignment. *)
Record app_ok (m : mem) (app : Appender) : Prop := {
  ao_buf : buf_ok m (termBuffer app);
  ao_align : buf_length (termBuffer app) mod 32 = 0;
  ao_max : buf_length (termBuffer app) <= 1073741824;
  ao_tail : f64_ok m (tailCounter app);
  ao_disj : disjoint (bufferPtr (termBuffer app)) (buf_length (termBuffer app))
              (f64_offset (tailCounter app)) 8;
  ao_hw : hw_ok (app_headerWriter app) }.

(** A source of bytes apart from the term and its tail counter. *)
Record src_ok (m : mem) (app : Appender) (src : Buffer) (off len : Z) : Prop := {
  so_buf : buf_ok m src;
  so_off : 0 <= off;
  so_len : 0 <= len;
  so_in : off + len <= buf_length src;
  so_disj : disjoint (bufferPtr (termBuffer app)) (buf_length (termBuffer app))
              (bufferPtr src) (buf_length src);
  so_tail : disjoint (f64_offset (tailCounter app)) 8 (bufferPtr src) (buf_length src) }.

Lemma app_ok_keeps m m' app : keeps m m' -> app_ok m app -> app_ok m' app.
Proof.
  intros Hk [? ? ? ? ? ?]. constructor; try done.
  - by eapply buf_ok_keeps.
  - by eapply region_ok_keeps.
Qed.

Lemma src_ok_keeps m m' app src off len : keeps m m' -> src_ok m app src off len -> src_ok m' app src off len.
Proof. intros Hk [? ? ? ? ? ?]. constructor; try done. by eapply buf_ok_keeps. Qed.

(** The message in memory. *)
Definition message (m : mem) (src : Buffer) (off len : Z) : list Init.Byte.byte :=
  rd m (bufferPtr src + off) (Z.to_nat len).

Lemma zlen_message m src off len : 0 <= len -> zlen (message m src off len) = len.
Proof. intros. unfold message. rewrite zlen_rd. lia. Qed.

(** The memory once [n] more bytes are claimed. *)
Definition claim_mem (m : mem) (app : Appender) (tid off : Z) : mem :=
  wr m (f64_offset (tailCounter app)) (le_split 8 (raw_tail tid off)).

Lemma keeps_claim_mem m app tid off : keeps m (claim_mem m app tid off).
Proof. apply keeps_wr. Qed.

Lemma getAndAddRawTail_ok m app tid off n :
  app_ok m app -> f64_val m (tailCounter app) = raw_tail tid off ->
  is_i32 tid -> 0 <= off -> 0 <= n -> off + n < 4294967296 ->
  getAndAddRawTail app n m = Ret (raw_tail tid off) (claim_mem m app tid (off + n)).
Proof.
  intros [] Hv Ht ? ? ?. unfold getAndAddRawTail.
  rewrite Int64Field_GetAndAdd_ok by done. rewrite Hv. unfold claim_mem.
  do 3 f_equal. unfold raw_tail, is_i32 in *. rewrite i64_small; lia.
Qed.

Lemma message_claim m app tid off' src off len :
  src_ok m app src off len ->
  message (claim_mem m app tid off') src off len = message m src off len.
Proof.
  intros []. unfold message, claim_mem, disjoint in *. apply rd_wr_disj.
  rewrite zlen_le_split. lia.
Qed.

Lemma put_reserved_ok m sup b off flen :
  opt_supplier_reads sup -> buf_ok m b -> 0 <= off -> off + 32 <= buf_length b ->
  exists res, put_reserved sup b off flen m = Ret tt (opt_wr m (bufferPtr b + off + 24) 8 res).
Proof.
  intros Hsup Hb Hoff Hin. pose proof (buf_ok_length _ _ Hb).
  destruct sup as [f|]; [|by exists None]. destruct (Hsup b off flen m) as [v Hv].
  exists (Some v). unfold put_reserved, DataFrameHeader.ReservedValueFieldOffset.
  erewrite bind_Ret by exact Hv. wrap_simpl. simpl. rewrite <- Z.add_assoc.
  apply PutInt64_ok; done || lia.
Qed.

(** Everything about a claim that fits in the term: the frame's offsets are in range. *)
Lemma frame_fits off len cap :
  0 <= off -> 0 <= len -> off + align_up (len + 32) 32 <= cap -> cap <= 1073741824 ->
  len + 32 <= align_up (len + 32) 32 /\ off + 32 + len <= cap /\
  AlignInt32 (i32 (len + 32)) 32 = align_up (len + 32) 32.
Proof.
  intros. pose proof (align_up_spec (len + 32) 32 ltac:(lia)) as [? _].
  split_and!; [lia..|]. wrap_simpl. apply AlignInt32_32. lia.
Qed.

Section Unfragmented.
Context (m : mem) (app : Appender) (tid off : Z).
Context (Happ : app_ok m app) (Htid : is_i32 tid) (Hoff : 0 <= off).
Context (Htail : f64_val m (tailCounter app) = raw_tail tid off).

Let tb := termBuffer app.

(** An unfragmented message that fits is one committed frame at the old tail. *)
Lemma AppendUnfragmentedMessage_ok src so len sup :
  src_ok m app src so len -> opt_supplier_reads sup ->
  off + align_up (len + 32) 32 <= buf_length tb ->
  exists res,
    AppendUnfragmentedMessage app src so len sup m =
    Ret (off + align_up (len + 32) 32, tid)
      (commit_mem (claim_mem m app tid (off + align_up (len + 32) 32))
         (bufferPtr tb) off tid (app_headerWriter app) (message m src so len) None res).
Proof using All.
  intros Hsrc Hsup Hfit. pose proof Happ as [Hb Hal Hmax Ht Hd Hhw].
  pose proof Hsrc as [Hsb ? ? ? Hdis ?]. fold tb in Hb, Hmax, Hd, Hal, Hdis.
  destruct (frame_fits off len (buf_length tb)) as (? & ? & HA); [lia..|].
  set (space := align_up (len + 32) 32) in *.
  unfold AppendUnfragmentedMessage, DataFrameHeader.Length, FrameAlignment. rewrite HA.
  erewrite bind_Ret by (apply getAndAddRawTail_ok; done || lia).
  rewrite TermID_raw, raw_tail_offset by (done || lia). fold tb. unfold Capacity.
  set (m1 := claim_mem m app tid (off + space)).
  wrap_simpl. replace (off + space >? buf_length tb) with false by lia.
  assert (Hb1 : buf_ok m1 tb) by (eapply buf_ok_keeps; [apply keeps_claim_mem|done]).
  assert (Hs1 : buf_ok m1 src) by (eapply buf_ok_keeps; [apply keeps_claim_mem|done]).
  erewrite bind_Ret by (apply headerWriter_write_ok; done || lia).
  set (m2 := header_mem _ _ _ _ _ _).
  assert (Hk : keeps m1 m2) by apply keeps_header_mem.
  erewrite bind_Ret by (apply PutBytes_ok; try lia; try done; by eapply buf_ok_keeps).
  assert (Hdata : rd m2 (bufferPtr src + so) (Z.to_nat len) = message m src so len).
  { rewrite <- (message_claim m app tid (off + space) src so len) by done.
    eapply only_in_rd; [apply only_in_header_mem|]. unfold disjoint in *. lia. }
  rewrite Hdata. clear Hdata.
  destruct (put_reserved_ok (wr m2 (bufferPtr tb + (off + 32)) (message m src so len))
              sup tb off (len + 32)) as [res Hres]; [done| |lia..|].
  { apply buf_ok_wr. by eapply buf_ok_keeps. }
  erewrite bind_Ret by exact Hres.
  erewrite bind_Ret.
  2: { apply SetFrameLength_ok; [|lia..].
       eapply buf_ok_keeps; [apply keeps_opt_wr|]. apply buf_ok_wr. by eapply buf_ok_keeps. }
  exists res. unfold ret. f_equal. unfold commit_mem. cbn [opt_wr].
  rewrite zlen_message by lia. rewrite (Z.add_comm 32 len), Z.add_assoc. done.
Qed.
End Unfragmented.

(** ** The end of the log *)

Definition pad_mem (m : mem) (base off len tid : Z) (hw : headerWriter) : mem :=
  wr (wr (header_mem m base off len tid hw) (base + off + 6) (le_split 2 0))
    (base + off) (le_split 4 len).

(** The padding frame that fills the rest of a term. *)
Definition pad_frame (m : mem) (base off len tid : Z) (hw : headerWriter) : frame :=
  mkFrame unfragmented DataFrameHeader.TypePad (hw_sessionID hw) (hw_streamID hw) tid
    (rd m (base + off + 32) (Z.to_nat (len - 32))).

Section EndOfLog.
Context (m : mem) (b : Buffer) (hw : headerWriter) (tid off : Z).
Context (Hb : buf_ok m b) (Hhw : hw_ok hw) (Htid : is_i32 tid) (Hoff : 0 <= off < 4294967296).
Context (Hal : off mod 32 = 0) (Hcap : buf_length b mod 32 = 0) (Hmax : buf_length b <= 1073741824).

Let len := buf_length b - off.

(** Inside the term: the rest becomes one padding frame and the appender trips. *)
Lemma handleEndOfLog_pad :
  off < buf_length b ->
  handleEndOfLogCondition tid b (i32 off) hw (buf_length b) m =
  Ret AppenderTripped (pad_mem m (bufferPtr b) off len tid hw).
Proof using Hb Hoff Hal Hcap Hmax.
  intros Hlt. unfold handleEndOfLogCondition, when. wrap_simpl.
  assert (32 <= len) by (unfold len; dlia).
  rewrite (proj2 (Z.leb_le _ _)), (proj2 (Z.ltb_lt _ _)) by lia. fold len.
  rewrite bind_assoc.
  erewrite bind_Ret by (apply headerWriter_write_ok; unfold len in *; done || lia).
  rewrite bind_assoc.
  erewrite bind_Ret by (apply SetFrameType_ok; [|unfold len in *; lia..];
    eapply buf_ok_keeps; [apply keeps_header_mem|done]).
  erewrite bind_Ret by (apply SetFrameLength_ok; [|unfold len in *; lia..];
    apply buf_ok_wr; eapply buf_ok_keeps; [apply keeps_header_mem|done]).
  done.
Qed.

Lemma frame_at_pad_mem :
  off < buf_length b ->
  frame_at (pad_mem m (bufferPtr b) off len tid hw) (bufferPtr b) off
    (pad_frame m (bufferPtr b) off len tid hw) /\
  frame_space (pad_frame m (bufferPtr b) off len tid hw) = len.
Proof using Hb Hhw Htid Hoff Hal Hcap Hmax.
  intros Hlt. pose proof Hhw as [Hs Hst]. unfold is_i32 in *.
  assert (32 <= len /\ len mod 32 = 0) as [? ?] by (unfold len; dlia).
  assert (Hl : frame_length (pad_frame m (bufferPtr b) off len tid hw) = len)
    by (unfold frame_length, pad_frame; cbn [fr_data]; rewrite zlen_rd; lia).
  split; [|unfold frame_space; rewrite Hl; by apply align_up_id].
  unfold pad_mem, header_mem. unfold len in *.
  constructor; cbn [pad_frame fr_flags fr_type fr_session fr_stream fr_termId fr_data];
    rewrite ?Hl; mem_simpl; try done.
  rewrite length_rd. by mem_simpl.
Qed.

(** Exactly at the end: nothing to pad. *)
Lemma handleEndOfLog_at_end :
  off = buf_length b ->
  handleEndOfLogCondition tid b (i32 off) hw (buf_length b) m = Ret AppenderTripped m.
Proof using Hmax Hoff.
  intros Heq. unfold handleEndOfLogCondition. wrap_simpl.
  rewrite (proj2 (Z.leb_le _ _)) by lia. by rewrite (proj2 (Z.ltb_ge _ _)) by lia.
Qed.

(** Past the end: another producer already tripped. *)
Lemma handleEndOfLog_past :
  buf_length b < off < 2147483648 ->
  handleEndOfLogCondition tid b (i32 off) hw (buf_length b) m = Ret AppenderFailed m.
Proof using Hoff.
  intros Hgt. unfold handleEndOfLogCondition. wrap_simpl.
  by rewrite (proj2 (Z.leb_gt _ _)) by lia.
Qed.

Lemma keeps_pad_mem : keeps m (pad_mem m (bufferPtr b) off len tid hw).
Proof using Type.
  unfold pad_mem. eapply keeps_trans; [apply keeps_header_mem|].
  eapply keeps_trans; apply keeps_wr.
Qed.

Lemma only_in_pad_mem : only_in m (pad_mem m (bufferPtr b) off len tid hw) (bufferPtr b + off) 32.
Proof using Type.
  unfold pad_mem.
  repeat (apply only_in_wr_chain; [|rewrite ?zlen_le_split; lia..]). apply only_in_refl.
Qed.
End EndOfLog.

(** What an append that does not fit does after its claim. *)
Definition end_of_log (app : Appender) (tid off : Z) : M mem Z :=
  handleEndOfLogCondition tid (termBuffer app) (i32 off) (app_headerWriter app)
    (buf_length (termBuffer app)).

Section DoesNotFit.
Context (m : mem) (app : Appender) (tid off : Z).
Context (Happ : app_ok m app) (Htid : is_i32 tid) (Hoff : 0 <= off).
Context (Htail : f64_val m (tailCounter app) = raw_tail tid off).

Lemma AppendUnfragmentedMessage_full src so len sup :
  0 <= len <= 1073741824 -> off + align_up (len + 32) 32 < 4294967296 ->
  buf_length (termBuffer app) < off + align_up (len + 32) 32 ->
  AppendUnfragmentedMessage app src so len sup m =
  bind (end_of_log app tid off) (fun r => ret (r, tid))
    (claim_mem m app tid (off + align_up (len + 32) 32)).
Proof using All.
  intros Hlen Hov Hfull. pose proof (align_up_spec (len + 32) 32 ltac:(lia)) as [? _].
  unfold AppendUnfragmentedMessage, DataFrameHeader.Length, FrameAlignment.
  rewrite (i32_small (len + 32)), AlignInt32_32 by lia.
  erewrite bind_Ret by (apply getAndAddRawTail_ok; done || lia).
  rewrite TermID_raw, raw_tail_offset by (done || lia). unfold Capacity. wrap_simpl.
  by replace (off + align_up (len + 32) 32 >? buf_length (termBuffer app)) with true by lia.
Qed.

Lemma Appender_Claim_full len :
  0 <= len <= 1073741824 -> off + align_up (len + 32) 32 < 4294967296 ->
  buf_length (termBuffer app) < off + align_up (len + 32) 32 ->
  Appender_Claim app len m =
  bind (end_of_log app tid off) (fun r => ret (r, tid, None))
    (claim_mem m app tid (off + align_up (len + 32) 32)).
Proof using All.
  intros Hlen Hov Hfull. pose proof (align_up_spec (len + 32) 32 ltac:(lia)) as [? _].
  unfold Appender_Claim, DataFrameHeader.Length, FrameAlignment.
  rewrite (i32_small (len + 32)), AlignInt32_32 by lia.
  erewrite bind_Ret by (apply getAndAddRawTail_ok; done || lia).
  rewrite TermID_raw, raw_tail_offset by (done || lia). unfold Capacity. wrap_simpl.
  by replace (off + align_up (len + 32) 32 >? buf_length (termBuffer app)) with true by lia.
Qed.

Lemma AppendFragmentedMessage_full src so len P sup :
  P <> 0 -> 0 <= fragmented_length len P -> off + fragmented_length len P < 4294967296 ->
  buf_length (termBuffer app) < off + fragmented_length len P ->
  AppendFragmentedMessage app src so len P sup m =
  bind (end_of_log app tid off) (fun r => ret (r, tid))
    (claim_mem m app tid (off + fragmented_length len P)).
Proof using All.
  intros HP Hge Hov Hfull. unfold AppendFragmentedMessage.
  rewrite (proj2 (Z.eqb_neq P 0)) by done.
  erewrite bind_Ret by (apply getAndAddRawTail_ok; done || lia).
  rewrite TermID_raw, raw_tail_offset by (done || lia). unfold Capacity. wrap_simpl.
  by replace (off + fragmented_length len P >? buf_length (termBuffer app)) with true by lia.
Qed.
End DoesNotFit.

(** ** Fragmented messages *)

Lemma endFrag_flags fl : fl = 0x80 \/ fl = 0 -> 0 <= fl < 256 /\ 0 <= Z.lor fl endFrag < 256.
Proof. intros [-> | ->]; vm_compute; intuition congruence. Qed.

(** The frames of a chunk list, in the terms of an appender. *)
Definition app_frames (app : Appender) (tid : Z) (chunks : list (Z * list Init.Byte.byte)) : list frame :=
  data_frames (hw_sessionID (app_headerWriter app)) (hw_streamID (app_headerWriter app)) tid chunks.

(** The memory outside of the claimed space is untouched and the frames are there. *)
Record appended (m m' : mem) (base off : Z) (fs : list frame) : Prop := {
  ap_frames : log_seg m' base off fs;
  ap_only : only_in m m' (base + off) (seg_space fs);
  ap_keeps : keeps m m' }.

Lemma appended_nil m base off : appended m m base off [].
Proof. constructor; [done|apply only_in_refl|apply keeps_refl]. Qed.

Lemma appended_cons m m1 m' base off f fs :
  frame_at m1 base off f -> only_in m m1 (base + off) (frame_length f) -> keeps m m1 ->
  appended m1 m' base (off + frame_space f) fs -> appended m m' base off (f :: fs).
Proof.
  intros Hf Ho Hk [Hs Ho' Hk']. pose proof (frame_space_spec f). pose proof (seg_space_nonneg fs).
  constructor; simpl.
  - split; [|done]. eapply frame_at_ext; [|done]. intros i Hi. apply Ho'. lia.
  - apply (only_in_trans m m1).
    + eapply only_in_weaken; [exact Ho|lia..].
    + eapply only_in_weaken; [exact Ho'|pose proof (frame_space_pos f); lia..].
  - by eapply keeps_trans.
Qed.

(** The end of a round of either loop: once the payload is in, the flags, the reserved value
    and the length make it a frame. *)
Lemma frame_close m app tid f fl off data :
  app_ok m app -> supplier_reads f -> 0 <= fl < 256 -> 0 <= off ->
  off + 32 + zlen data <= buf_length (termBuffer app) ->
  let tb := termBuffer app in
  let hw := app_headerWriter app in
  let n := zlen data in
  exists res, forall A (k : M mem A),
    (FrameFlags tb off fl ;;;
     put_reserved_always (Some f) tb off (n + 32) ;;;
     SetFrameLength tb off (n + 32) ;;; k)
      (wr (header_mem m (bufferPtr tb) off (n + 32) tid hw) (bufferPtr tb + (off + 32)) data) =
    k (commit_mem m (bufferPtr tb) off tid hw data (Some fl) res).
Proof.
  intros Happ Hsup Hfl Hoff Hfit tb hw n. destruct Happ as [Hb Hal Hmax _ _ _]. fold tb in Hb, Hmax, Hfit.
  pose proof (zlen_nonneg data). fold n in Hfit, H.
  set (m3 := wr _ _ _).
  assert (Hb3 : buf_ok m3 tb) by (apply buf_ok_wr; eapply buf_ok_keeps; [apply keeps_header_mem|done]).
  set (m4 := wr m3 (bufferPtr tb + off + 5) (le_split 1 fl)).
  destruct (put_reserved_ok m4 (Some f) tb off (n + 32)) as [res Hres];
    [done|by apply buf_ok_wr|lia..|].
  exists res. intros A k. unfold put_reserved_always.
  erewrite bind_Ret by (apply FrameFlags_ok; done || lia). fold m4.
  erewrite bind_Ret by exact Hres.
  erewrite bind_Ret.
  2: { apply SetFrameLength_ok; [|lia..]. eapply buf_ok_keeps; [apply keeps_opt_wr|]. by apply buf_ok_wr. }
  unfold commit_mem. cbn [opt_wr]. unfold m4, m3. fold n.
  rewrite (Z.add_comm 32 n), <- (Z.add_assoc (bufferPtr tb) off 32). done.
Qed.

(** Both loops write the frames of the fragments of the bytes [D] that their sources hold:
    [loop fuel flags remaining offset] is one of them, and a round writes the next frame. *)
Section FragmentLoop.
Context (app : Appender) (P tid : Z) (D : list Init.Byte.byte).
Context (HP : 0 < P) (Htid : is_i32 tid).
Context (holds : mem -> Prop) (loop : nat -> Z -> Z -> Z -> M mem unit).

Let tb := termBuffer app.
Let hw := app_headerWriter app.

(** What is left of [D] when [r] bytes remain. *)
Definition remaining_bytes (r : Z) : list Init.Byte.byte := drop (Z.to_nat (zlen D - r)) D.

Definition stable_holds : Prop := forall m m' o n,
  holds m -> keeps m m' -> only_in m m' (bufferPtr tb + o) n -> 0 <= o -> o + n <= buf_length tb -> holds m'.
Definition loop_round : Prop := forall m fuel fl r off,
  app_ok m app -> holds m -> fl = 0x80 \/ fl = 0 -> 0 < r <= zlen D -> 0 <= off ->
  let n := Z.min r P in
  off + align_up (n + 32) 32 <= buf_length tb ->
  exists res,
    loop (S fuel) fl r off m =
    loop fuel 0 (r - n) (off + align_up (n + 32) 32)
      (commit_mem m (bufferPtr tb) off tid hw (take (Z.to_nat P) (remaining_bytes r))
         (Some (if r <=? P then Z.lor fl endFrag else fl)) res).
Context (Hstable : stable_holds) (Hround : loop_round).
Context (Hdone : forall fuel fl off m, loop fuel fl 0 off m = Ret tt m).

Lemma remaining_all r : r = zlen D -> remaining_bytes r = D.
Proof using Type. intros ->. unfold remaining_bytes. by rewrite Z.sub_diag, drop_0. Qed.

Lemma zlen_remaining r : 0 <= r <= zlen D -> zlen (remaining_bytes r) = r.
Proof using Type. intros. unfold remaining_bytes, zlen in *. rewrite length_drop. lia. Qed.

Lemma zlen_take_remaining r :
  0 <= r <= zlen D -> zlen (take (Z.to_nat P) (remaining_bytes r)) = Z.min r P.
Proof using HP. intros Hr. pose proof (zlen_remaining r Hr). unfold zlen in *. rewrite length_take. lia. Qed.

Lemma remaining_drop r :
  0 <= r <= zlen D -> drop (Z.to_nat P) (remaining_bytes r) = remaining_bytes (r - Z.min r P).
Proof using HP.
  intros. unfold remaining_bytes. rewrite drop_drop. destruct (decide (r <= P)).
  - rewrite Z.min_l by lia. rewrite !drop_ge; [done|..]; unfold zlen in *; lia.
  - f_equal. lia.
Qed.

(** The first fragment of the rest of a message, and those after it. *)
Lemma app_frames_step fuel fl r :
  0 < r <= zlen D ->
  app_frames app tid (fragments_from (S fuel) (Z.to_nat P) fl (remaining_bytes r)) =
  mkFrame (if r <=? P then Z.lor fl endFrag else fl) DataFrameHeader.TypeData
    (hw_sessionID hw) (hw_streamID hw) tid (take (Z.to_nat P) (remaining_bytes r)) ::
  app_frames app tid (fragments_from fuel (Z.to_nat P) 0 (remaining_bytes (r - Z.min r P))).
Proof using HP.
  intros Hr. pose proof (zlen_remaining r ltac:(lia)) as Hl. rewrite <- remaining_drop by lia.
  set (rest := remaining_bytes r) in *.
  destruct rest as [|b bs] eqn:Em; [unfold zlen in Hl; simpl in Hl; lia|].
  cbn [fragments_from app_frames data_frames map fst snd]. unfold endFrag.
  destruct (Z.leb_spec r P), (Nat.leb_spec (length (b :: bs)) (Z.to_nat P)); unfold zlen in *; try lia; done.
Qed.

(** The loop writes the frames of the fragments of the rest of the message. *)
Lemma fragment_loop_ok fuel : forall m fl r off,
  app_ok m app -> holds m -> fl = 0x80 \/ fl = 0 ->
  0 <= r <= zlen D -> 0 <= off -> (Z.to_nat r <= fuel)%nat ->
  let fs := app_frames app tid (fragments_from fuel (Z.to_nat P) fl (remaining_bytes r)) in
  off + seg_space fs <= buf_length tb ->
  exists m', loop fuel fl r off m = Ret tt m' /\ appended m m' (bufferPtr tb) off fs.
Proof using All.
  induction fuel as [|fuel IH]; intros m fl r off Happ Hsrc Hfl Hr Hoff Hfuel fs Hfit.
  { replace r with 0 by lia. exists m. split; [apply Hdone|apply appended_nil]. }
  destruct (decide (r = 0)) as [->|Hne].
  { exists m. split; [apply Hdone|]. unfold fs, remaining_bytes.
    rewrite drop_ge by (unfold zlen; lia). apply appended_nil. }
  unfold fs in *. rewrite app_frames_step in * by lia. clear fs.
  pose proof (zlen_take_remaining r ltac:(lia)) as Hz.
  set (n := Z.min r P) in *. assert (0 < n <= r) by (unfold n; lia).
  set (data := take _ _) in *.
  set (fr := mkFrame _ _ _ _ _ _) in *. set (rest := app_frames _ _ _) in *. cbn [seg_space] in Hfit.
  assert (Hlen : frame_length fr = 32 + n) by (unfold frame_length, fr; cbn [fr_data]; lia).
  assert (Hsp : frame_space fr = align_up (n + 32) 32) by (unfold frame_space; f_equal; lia).
  pose proof (seg_space_nonneg rest).
  destruct (Hround m fuel fl r off) as [res Hrun]; try done; [lia|fold n; lia|].
  fold n data in Hrun. set (m1 := commit_mem _ _ _ _ _ _ _ _) in Hrun.
  assert (Hk1 : keeps m m1) by apply keeps_commit_mem.
  assert (Ho1 : only_in m m1 (bufferPtr tb + off) (frame_length fr))
    by (unfold frame_length, fr; apply only_in_commit_mem).
  pose proof Happ as [Hb ? Hmax ? ? Hhw]. fold tb in Hb, Hmax.
  pose proof (frame_space_spec fr). pose proof (frame_space_pos fr).
  destruct (IH m1 0 (r - n) (off + align_up (n + 32) 32)) as (m' & Hrest & Hap);
    [by eapply app_ok_keeps| |by right|lia..|fold rest; rewrite <- Hsp; lia|].
  { eapply Hstable; [done|done|exact Ho1|lia|fold tb; lia]. }
  exists m'. split; [by rewrite Hrun|].
  rewrite <- Hsp in Hap. apply (appended_cons m m1); [|done..].
  apply (frame_at_commit_mem m (bufferPtr tb) off tid hw _ (Some _) res);
    [done|done|lia|rewrite Hz; lia|].
  intros v [= <-]. destruct (endFrag_flags fl Hfl). by case_match.
Qed.
End FragmentLoop.

Section MessageLoop.
Context (app : Appender) (src : Buffer) (so len P tid : Z) (f : ReservedValueSupplier).
Context (D : list Init.Byte.byte).
Context (HP : 0 < P) (Hsup : supplier_reads f) (HD : zlen D = len).

(** The source holds [D]. *)
Definition src_holds (m : mem) : Prop := src_ok m app src so len /\ message m src so len = D.

Lemma src_holds_stable : stable_holds app src_holds.
Proof using Type.
  intros m m' o n [Hs Hm] Hk Ho Ho1 Ho2. split; [by eapply src_ok_keeps|].
  destruct Hs as [? ? ? ? Hdis ?]. rewrite <- Hm. eapply only_in_rd; [exact Ho|].
  unfold disjoint in *. lia.
Qed.

(** The bytes a round reads. *)
Lemma src_holds_read m r : 0 < r <= len -> src_holds m ->
  rd m (bufferPtr src + (so + (len - r))) (Z.to_nat (Z.min r P)) = take (Z.to_nat P) (remaining_bytes D r).
Proof using HP HD.
  intros Hr [_ <-]. unfold remaining_bytes, message. rewrite zlen_rd, drop_rd, take_rd.
  rewrite <- (Z.add_assoc _ so). f_equal; [lia|]. lia.
Qed.

Lemma append_fragments_round : loop_round app P tid D src_holds (append_fragments app src so len P (Some f) tid).
Proof using HP Hsup HD.
  intros m fuel fl r off Happ Hh Hfl Hr Hoff n Hfit. pose proof Happ as [Hb Hal Hmax Ht Hd Hhw].
  pose proof Hh as [[Hsb ? ? ? Hdis ?] _]. pose proof (buf_ok_length _ _ Hsb). rewrite HD in Hr.
  assert (Hmin : minInt32 r P = n) by (unfold minInt32, n; destruct (Z.ltb_spec r P); lia).
  assert (Hn : 0 < n <= r) by (unfold n; lia).
  destruct (frame_fits off n (buf_length (termBuffer app))) as (? & ? & HA); [lia..|].
  cbn [append_fragments]. rewrite Hmin. unfold DataFrameHeader.Length, FrameAlignment. rewrite HA.
  replace (r >? 0) with true by lia. wrap_simpl.
  erewrite bind_Ret by (apply headerWriter_write_ok; done || lia).
  set (m2 := header_mem _ _ _ _ _ _).
  assert (Hk : keeps m m2) by apply keeps_header_mem.
  assert (Hh2 : src_holds m2).
  { eapply src_holds_stable; [exact Hh|done|apply only_in_header_mem|lia|lia]. }
  erewrite bind_Ret by (apply PutBytes_ok; try lia; try done; by eapply buf_ok_keeps).
  pose proof (src_holds_read _ _ Hr Hh2) as Hdata. fold n in Hdata. rewrite Hdata. clear Hdata.
  set (data := take _ _).
  assert (Hz : zlen data = n) by (unfold data, n; apply (zlen_take_remaining _ _ HP); lia).
  unfold m2. rewrite <- Hz.
  destruct (frame_close m app tid f (if r <=? P then Z.lor fl endFrag else fl) off data) as [res Hres];
    [done|done|destruct (endFrag_flags fl Hfl); by case_match|lia..|].
  exists res. apply Hres.
Qed.

Lemma append_fragments_done fuel fl off m : append_fragments app src so len P (Some f) tid fuel fl 0 off m = Ret tt m.
Proof using Type. by destruct fuel. Qed.
End MessageLoop.

(** The claim of a fragmented message is the space of its frames, when a full frame is
    aligned. *)
Lemma fragmented_length_space app tid P data :
  0 < P -> (P + 32) mod 32 = 0 ->
  let fs := app_frames app tid (fragments (Z.to_nat P) data) in
  seg_space fs <= 1073741824 -> zlen data <= 1073741824 -> P <= 1073741824 ->
  fragmented_length (zlen data) P = seg_space fs.
Proof.
  intros HP Hal fs Hle Hlen HPmax. pose proof (seg_space_nonneg fs).
  unfold fs, app_frames, fragments in *.
  rewrite fragments_from_space in * by (rewrite ?Z2Nat.id by lia; lia || done).
  rewrite !Z2Nat.id in * by lia. pose proof (zlen_nonneg data). set (l := zlen data) in *.
  unfold fragmented_length, DataFrameHeader.Length, FrameAlignment.
  rewrite Z.quot_div_nonneg, Z.rem_mod_nonneg by lia.
  pose proof (Z.mod_pos_bound l P ltac:(lia)). pose proof (Z.mod_le l P ltac:(lia) ltac:(lia)).
  pose proof (Z.div_pos l P ltac:(lia) ltac:(lia)).
  rewrite (i32_small (P + 32)), (i32_small (l mod P + 32)) by lia.
  rewrite AlignInt32_32 by lia.
  assert (0 <= if l mod P >? 0 then align_up (l mod P + 32) 32 else 0).
  { case_match; [|lia]. pose proof (align_up_spec (l mod P + 32) 32 ltac:(lia)). lia. }
  assert (0 <= l / P * (P + 32)) by (apply Z.mul_nonneg_nonneg; lia).
  rewrite (i32_small (_ * _)), i32_small by lia. done.
Qed.

(** A fragmented message that fits becomes the frames of its fragments at the old tail,
    and the tail moves over them. *)
Lemma AppendFragmentedMessage_ok m app tid off src so len P sup :
  app_ok m app -> is_i32 tid -> 0 <= off -> f64_val m (tailCounter app) = raw_tail tid off ->
  src_ok m app src so len -> supplier_reads sup ->
  0 < P <= 1073741824 -> (P + 32) mod 32 = 0 ->
  let fs := app_frames app tid (fragments (Z.to_nat P) (message m src so len)) in
  off + seg_space fs <= buf_length (termBuffer app) -> len <= 1073741824 ->
  exists m',
    AppendFragmentedMessage app src so len P (Some sup) m = Ret (off + seg_space fs, tid) m' /\
    appended (claim_mem m app tid (off + seg_space fs)) m' (bufferPtr (termBuffer app)) off fs.
Proof.
  intros Happ Htid Hoff Htail Hsrc Hsup HP Hal fs Hfit Hlen.
  pose proof (seg_space_nonneg fs). pose proof Happ as [Hb ? ? ? ? ?]. pose proof Hsrc as [? ? ? ? ? ?].
  unfold AppendFragmentedMessage. rewrite (proj2 (Z.eqb_neq P 0)) by lia.
  assert (Hreq : fragmented_length len P = seg_space fs).
  { rewrite <- (zlen_message m src so len) at 1 by lia.
    apply fragmented_length_space; [lia|done|..]; fold fs; rewrite ?zlen_message; lia. }
  rewrite Hreq. erewrite bind_Ret by (apply getAndAddRawTail_ok; done || lia).
  rewrite TermID_raw, raw_tail_offset by (done || lia). unfold Capacity. wrap_simpl.
  replace (off + seg_space fs >? buf_length (termBuffer app)) with false by lia.
  set (m1 := claim_mem _ _ _ _).
  set (D := message m src so len) in *.
  assert (HD : zlen D = len) by (apply zlen_message; lia).
  assert (HDl : length D = Z.to_nat len) by (unfold zlen in HD; lia).
  destruct (fragment_loop_ok app P tid D ltac:(lia) Htid (src_holds app src so len D)
              (append_fragments app src so len P (Some sup) tid)
              (src_holds_stable _ _ _ _ _) (append_fragments_round app src so len P tid sup D ltac:(lia) Hsup HD)
              (append_fragments_done app src so len P tid sup) (Z.to_nat len) m1 0x80 len off)
    as (m' & Hrun & Hap); rewrite ?HD; try lia.
  - eapply app_ok_keeps; [apply keeps_claim_mem|done].
  - split; [eapply src_ok_keeps; [apply keeps_claim_mem|done]|by apply message_claim].
  - rewrite remaining_all by lia. unfold fs, fragments in Hfit. by rewrite HDl in Hfit.
  - exists m'. erewrite bind_Ret by exact Hrun. split; [done|].
    rewrite remaining_all in Hap by lia. unfold fs, fragments. by rewrite HDl.
Qed.

(** ** Buffer claims *)

Section Claims.
Context (m : mem) (app : Appender) (tid off len : Z).
Context (Happ : app_ok m app) (Htid : is_i32 tid) (Hoff : 0 <= off) (Hlen : 0 <= len).
Context (Htail : f64_val m (tailCounter app) = raw_tail tid off).
Context (Hfit : off + align_up (len + 32) 32 <= buf_length (termBuffer app)).

Let tb := termBuffer app.
Let space := align_up (len + 32) 32.

(** The frame a claim covers. *)
Definition claimed : Claim := mkClaim (mkBuffer (bufferPtr (termBuffer app) + off) (len + 32)).

Lemma Appender_Claim_ok :
  Appender_Claim app len m =
  Ret (off + space, tid, Some claimed)
    (header_mem (claim_mem m app tid (off + space)) (bufferPtr tb) off (len + 32) tid
       (app_headerWriter app)).
Proof using All.
  pose proof Happ as [Hb Hal Hmax Ht Hd Hhw]. fold tb in Hb, Hmax, Hd, Hal.
  pose proof Hfit as Hfit'. fold tb in Hfit'.
  destruct (frame_fits off len (buf_length tb)) as (? & ? & HA); [lia..|]. fold space in Hfit', HA.
  unfold Appender_Claim, DataFrameHeader.Length, FrameAlignment. rewrite HA.
  erewrite bind_Ret by (apply getAndAddRawTail_ok; done || lia).
  rewrite TermID_raw, raw_tail_offset by (done || lia). fold tb.
  unfold Capacity. wrap_simpl. replace (off + space >? buf_length tb) with false by lia.
  set (m1 := claim_mem _ _ _ _).
  assert (Hb1 : buf_ok m1 tb) by (eapply buf_ok_keeps; [apply keeps_claim_mem|done]).
  erewrite bind_Ret by (apply headerWriter_write_ok; done || lia).
  unfold Claim_Wrap. rewrite bind_assoc.
  erewrite bind_Ret by (apply BoundsCheck_pass; unfold Capacity; lia).
  rewrite bind_ret_l. unfold ret, claimed, Buffer_Wrap, Ptr.
  by rewrite (ptr_add_ok m tb off 32) by (done || lia).
Qed.

(** The memory when the claim's user has filled the payload in. *)
Definition filled_mem (data : list Init.Byte.byte) : mem :=
  wr (header_mem (claim_mem m app tid (off + space)) (bufferPtr tb) off (len + 32) tid
        (app_headerWriter app)) (bufferPtr tb + off + 32) data.

Lemma buf_ok_claim m' : buf_ok m' tb -> buf_ok m' (claim_buffer claimed).
Proof using Happ Hoff Hlen Hfit.
  intros Hb'. pose proof Happ as [Hb Hal Hmax Ht Hd Hhw]. fold tb in Hb, Hmax.
  pose proof Hfit as Hfit'. fold tb in Hfit'.
  destruct (frame_fits off len (buf_length tb)) as (? & ? & HA); [lia..|]. fold space in Hfit', HA.
  split; [|simpl; lia]. apply buf_ok_sub; simpl; try lia; done.
Qed.

(** Filling the payload through the claim's buffer. *)
Lemma claim_fill_ok data m' :
  data <> [] -> zlen data = len -> buf_ok m' tb ->
  PutBytesArray (Claim_Buffer claimed) (Claim_Offset claimed) data 0 (Claim_Length claimed) m' =
  Ret tt (wr m' (bufferPtr tb + off + 32) data).
Proof using Happ Hoff Hlen Hfit.
  intros Hne Hz Hb'. pose proof Happ as [_ _ Hmax _ _ _]. pose proof (buf_ok_claim m' Hb') as Hc.
  pose proof (buf_ok_length _ _ Hc) as Hl. cbn [claimed claim_buffer buf_length] in Hl.
  unfold PutBytesArray, Claim_Buffer, Claim_Offset, Claim_Length, Capacity, DataFrameHeader.Length.
  cbn [claimed claim_buffer buf_length]. rewrite Z.add_simpl_r, Hz. rewrite !i32_small by lia.
  erewrite bind_Ret by (apply BoundsCheck_pass; lia).
  erewrite bind_Ret by (apply BoundsCheck_pass; lia).
  destruct data as [|x data]; [done|]. rewrite (proj2 (Z.ltb_ge 0 0)) by lia.
  assert (0 < len) by (rewrite <- Hz; unfold zlen; simpl; lia).
  replace (sub_list _ _ _) with (x :: data)
    by (unfold sub_list; rewrite drop_0, take_ge; [done|unfold zlen in Hz; lia]).
  change (mkBuffer _ _) with (claim_buffer claimed) in *.
  rewrite (ptr_add_ok m' (claim_buffer claimed) 32 len) by (first [done|lia|unfold claimed; cbn; lia]).
  cbn [claimed claim_buffer bufferPtr].
  apply store_ok with len; [|lia].
  eapply region_ok_sub; [apply Hc|..]; unfold claimed, tb; cbn [claim_buffer bufferPtr buf_length]; lia.
Qed.

(** Filling a claim and committing it leaves the frame of an append. *)
Lemma Claim_Commit_ok data :
  zlen data = len ->
  Claim_Commit claimed (filled_mem data) =
  Ret tt (commit_mem (claim_mem m app tid (off + space)) (bufferPtr tb) off tid
            (app_headerWriter app) data None None).
Proof using All.
  intros Hz. pose proof Happ as [Hb Hal Hmax Ht Hd Hhw]. fold tb in Hb, Hmax.
  unfold Claim_Commit.
  erewrite PutInt32Ordered_ok; [| |done|unfold claimed, DataFrameHeader.FrameLengthFieldOffset, DataFrameHeader.TypeFieldOffset; simpl; lia].
  2: { apply buf_ok_claim, buf_ok_wr. eapply buf_ok_keeps; [|done].
       eapply keeps_trans; [apply keeps_claim_mem|apply keeps_header_mem]. }
  f_equal. unfold commit_mem, filled_mem, DataFrameHeader.FrameLengthFieldOffset, Capacity.
  cbn [claimed claim_buffer bufferPtr buf_length opt_wr]. rewrite Hz, Z.add_0_r, (Z.add_comm 32).
  done.
Qed.

(** Aborting it leaves a padding frame, which readers skip. *)
Lemma Claim_Abort_ok data :
  zlen data = len ->
  exists m', Claim_Abort claimed (filled_mem data) = Ret tt m' /\
    frame_at m' (bufferPtr tb) off
      (mkFrame unfragmented DataFrameHeader.TypePad (hw_sessionID (app_headerWriter app))
         (hw_streamID (app_headerWriter app)) tid data).
Proof using All.
  intros Hz. pose proof Happ as [Hb Hal Hmax Ht Hd Hhw]. fold tb in Hb, Hmax.
  pose proof Hfit as Hfit'. fold tb in Hfit'.
  destruct (frame_fits off len (buf_length tb)) as (? & ? & HA); [lia..|]. fold space in Hfit', HA.
  assert (Hf : buf_ok (filled_mem data) (claim_buffer claimed)).
  { apply buf_ok_claim, buf_ok_wr. eapply buf_ok_keeps; [|done].
    eapply keeps_trans; [apply keeps_claim_mem|apply keeps_header_mem]. }
  unfold Claim_Abort.
  erewrite bind_Ret by (apply PutUInt16_ok; [done|done|unfold claimed, DataFrameHeader.FrameLengthFieldOffset, DataFrameHeader.TypeFieldOffset; simpl; lia]).
  erewrite PutInt32Ordered_ok; [|by apply buf_ok_wr|done|unfold claimed, DataFrameHeader.FrameLengthFieldOffset, DataFrameHeader.TypeFieldOffset; simpl; lia].
  eexists. split; [done|].
  destruct Hhw as [Hs Hst]. unfold is_i32 in *. unfold filled_mem, header_mem.
  unfold DataFrameHeader.FrameLengthFieldOffset, DataFrameHeader.TypeFieldOffset,
    DataFrameHeader.TypePad, Capacity.
  cbn [claimed claim_buffer bufferPtr buf_length]. rewrite Z.add_0_r. fold tb.
  constructor; cbn [fr_flags fr_type fr_session fr_stream fr_termId fr_data];
    unfold frame_length; cbn [fr_data]; rewrite ?Hz; mem_simpl; try done; try lia.
  by rewrite rd_wr_same.
Qed.
End Claims.
