(* ===== verification/Reader.v ===== *)
(** * The term reader

    src/aeron/logbuffer/term/reader.go: a reader walks the committed frames of a term
    from an offset on, gives each data frame to a handler, skips padding, and stops at a
    limit or at the first frame that is not committed. A handler is user code: a
    computation over the memory and a state [U] of its own. *)

From S2P Require Import Prelude Memory Bits Flyweight LogBuffer TermSpec.

Local Open Scope m_scope.

(** fragmenthandler.go *)
Definition FragmentHandler (U : Type) : Type := Buffer -> Z -> Z -> Header -> M (mem * U) unit.

(** controlledfragmenthandler.go *)
Inductive ControlledPollAction : Type :=
| ControlledPollActionAbort
| ControlledPollActionBreak
| ControlledPollActionCommit
| ControlledPollActionContinue.

#[export] Instance ControlledPollAction_eq_dec : EqDecision ControlledPollAction.
Proof. solve_decision. Defined.

Definition ControlledFragmentHandler (U : Type) : Type :=
  Buffer -> Z -> Z -> Header -> M (mem * U) ControlledPollAction.

(** The loop shared by [Read] and [BoundedRead]; [limit] is the term's capacity in the
    first and the given offset limit in the second. A committed frame advances the offset
    by 32 at least, so the capacity bounds the number of rounds. The header is the one the
    caller owns; it is returned as the loop leaves it. *)
Fixpoint read_loop {U} (fuel : nat) (termBuffer : Buffer) (limit : Z)
  (handler : FragmentHandler U) (fragmentLimit : Z)
  (header : Header) (termOffset fragmentsRead : Z) : M (mem * U) (Z * Z * Header) :=
  if (fragmentsRead <? fragmentLimit) && (termOffset <? limit) then
    match fuel with
    | O => raise EFuel
    | S fuel' =>
        let! frameLength := on_fst (GetFrameLength termBuffer termOffset) in
        if frameLength <=? 0 then ret (termOffset, fragmentsRead, header)
        else
          let fragmentOffset := termOffset in
          let termOffset := i32 (termOffset + AlignInt32 frameLength FrameAlignment) in
          let! padding := on_fst (IsPaddingFrame termBuffer fragmentOffset) in
          if negb padding then
            let header := Header_Wrap header (Ptr termBuffer) (Capacity termBuffer) in
            let header := Header_SetOffset header fragmentOffset in
            handler termBuffer (i32 (fragmentOffset + DataFrameHeader.Length))
              (i32 (frameLength - DataFrameHeader.Length)) header ;;;
            read_loop fuel' termBuffer limit handler fragmentLimit header termOffset (fragmentsRead + 1)
          else
            read_loop fuel' termBuffer limit handler fragmentLimit header termOffset fragmentsRead
    end
  else ret (termOffset, fragmentsRead, header).

Definition Read {U} (termBuffer : Buffer) (termOffset : Z) (handler : FragmentHandler U)
  (fragmentLimit : Z) (header : Header) : M (mem * U) (Z * Z * Header) :=
  let capacity := Capacity termBuffer in
  read_loop (Z.to_nat capacity) termBuffer capacity handler fragmentLimit header termOffset 0.

Definition BoundedRead {U} (termBuffer : Buffer) (termOffset offsetLimit : Z)
  (handler : FragmentHandler U) (fragmentLimit : Z) (header : Header) : M (mem * U) (Z * Z * Header) :=
  read_loop (Z.to_nat offsetLimit) termBuffer offsetLimit handler fragmentLimit header termOffset 0.

(** ** The reader walks the frames *)

(** The header view of the frame at [off]. *)
Definition header_at (header : Header) (b : Buffer) (off : Z) : Header :=
  Header_SetOffset (Header_Wrap header (Ptr b) (Capacity b)) off.

(** Where a segment ends: at the end of the term, or where no frame is committed. *)
Definition seg_end (m : mem) (b : Buffer) (off : Z) : Prop :=
  buf_length b <= off \/ (off + 32 <= buf_length b /\ rd_i32 m (bufferPtr b + off) <= 0).

Section Walk.
Context {U : Type} (hstep : Z -> frame -> U -> U).

(** The reference reader: over a list of frames instead of memory. *)
Fixpoint walk (limit fragmentLimit off n : Z) (fs : list frame) (u : U) : Z * Z * U :=
  match fs with
  | [] => (off, n, u)
  | f :: fs' =>
      if (n <? fragmentLimit) && (off <? limit) then
        if is_padding f then walk limit fragmentLimit (off + frame_space f) n fs' u
        else walk limit fragmentLimit (off + frame_space f) (n + 1) fs' (hstep off f u)
      else (off, n, u)
  end.

(** A handler that acts on frames as [hstep] and leaves the memory alone. *)
Definition handles (m : mem) (b : Buffer) (handler : FragmentHandler U) : Prop :=
  forall off f u header,
    frame_at m (bufferPtr b) off f -> is_padding f = false ->
    0 <= off -> off + frame_length f <= buf_length b ->
    handler b (off + 32) (zlen (fr_data f)) (header_at header b off) (m, u)
    = Ret tt (m, hstep off f u).

Context (m : mem) (b : Buffer) (handler : FragmentHandler U).
Context (Hb : buf_ok m b) (Hmax : buf_length b <= 1073741824).
Context (Hh : handles m b handler).

(** Reading memory that holds a segment is walking the segment's frames. *)
Lemma read_loop_walk fs : forall fuel limit fragmentLimit header off n u,
  log_seg m (bufferPtr b) off fs -> seg_end m b (off + seg_space fs) ->
  0 <= off -> off + seg_space fs <= buf_length b -> limit <= buf_length b ->
  limit - off <= Z.of_nat fuel ->
  exists header',
    read_loop fuel b limit handler fragmentLimit header off n (m, u) =
    (let '(off', n', u') := walk limit fragmentLimit off n fs u in
     Ret (off', n', header') (m, u')).
Proof using All.
  induction fs as [|f fs IH]; intros fuel limit fragmentLimit header off n u Hseg Hend Hoff Hfit Hlim Hfuel.
  - cbn [walk]. exists header. simpl in Hend. rewrite Z.add_0_r in Hend.
    unfold read_loop at 1. destruct fuel as [|fuel]; fold (@read_loop U);
      destruct (Z.ltb_spec n fragmentLimit), (Z.ltb_spec off limit); cbn [andb]; try done; try lia.
    destruct Hend as [|[Hin Hle]]; [lia|].
    erewrite bind_Ret by (apply on_fst_Ret, GetFrameLength_ok; done || lia).
    by rewrite (proj2 (Z.leb_le _ _)) by lia.
  - cbn [walk log_seg seg_space] in *. destruct Hseg as [Hf Hseg].
    pose proof (frame_space_spec f) as [Hsp _]. pose proof (frame_length_ge f).
    pose proof (seg_space_nonneg fs).
    destruct ((n <? fragmentLimit) && (off <? limit)) eqn:Hgo.
    2: { exists header. destruct fuel; cbn [read_loop]; by rewrite Hgo. }
    assert (off < limit) by lia. destruct fuel as [|fuel]; [lia|].
    cbn [read_loop]. rewrite Hgo.
    erewrite bind_Ret by (apply on_fst_Ret, GetFrameLength_ok; done || lia).
    rewrite (fa_length _ _ _ _ Hf). rewrite (proj2 (Z.leb_gt _ _)) by lia.
    erewrite bind_Ret by (apply on_fst_Ret, IsPaddingFrame_ok; done || lia).
    rewrite (fa_type _ _ _ _ Hf).
    change (fr_type f =? 0) with (is_padding f).
    unfold FrameAlignment. rewrite AlignInt32_32 by lia. fold (frame_space f).
    rewrite (i32_small (off + frame_space f)) by lia.
    rewrite Z.add_assoc in Hend, Hfit.
    destruct (is_padding f) eqn:Hpad; cbn [negb].
    + apply IH; try done; lia.
    + fold (header_at header b off).
      unfold DataFrameHeader.Length. wrap_simpl.
      replace (frame_length f - 32) with (zlen (fr_data f)) by (unfold frame_length; lia).
      erewrite bind_Ret by (apply Hh; done || lia).
      apply IH; try done; lia.
Qed.

Lemma Read_walk fs fragmentLimit header off u :
  log_seg m (bufferPtr b) off fs -> seg_end m b (off + seg_space fs) ->
  0 <= off -> off + seg_space fs <= buf_length b ->
  exists header',
    Read b off handler fragmentLimit header (m, u) =
    (let '(off', n', u') := walk (buf_length b) fragmentLimit off 0 fs u in
     Ret (off', n', header') (m, u')).
Proof using All.
  intros. apply read_loop_walk; unfold Capacity; try done; pose proof (buf_ok_length _ _ Hb); lia.
Qed.
End Walk.
