(* ===== verification/FragmentAssembler.v ===== *)
(** * Fragment assemblers

    src/aeron/fragmentassembler.go and controlledfragmentassembler.go: handlers that
    reassemble fragmented messages per session and give whole messages to a delegate.
    The map from session id to a [bytes.Buffer] is a finite map to the bytes collected so
    far; an entry that was reset stays in the map with no bytes. *)

From S2P Require Import Prelude Memory Bits Flyweight LogBuffer TermSpec Appender Reader.

Local Open Scope m_scope.

(** ** Definitions *)

(** What a delegate is given: a range of a mapped buffer (an unfragmented message, not
    copied) or of the assembler's own buffer. *)
Inductive msgview : Type :=
| MappedView (buffer : Buffer) (offset length : Z)
| HeapView (bytes : list Init.Byte.byte) (offset length : Z).

Abbreviation builders := (gmap Z (list Init.Byte.byte)).

Definition Delegate (U : Type) : Type := msgview -> Header -> M (mem * U) unit.

(** A delegate runs beside the assembler's own state. *)
Definition on_user {B U A} (c : M (mem * U) A) : M (mem * (B * U)) A :=
  fun '(m, (bm, u)) =>
    match c (m, u) with
    | Ret a (m', u') => Ret a (m', (bm, u'))
    | Exc e (m', u') => Exc e (m', (bm, u'))
    end.

Definition get_builders {U} : M (mem * (builders * U)) builders :=
  fun s => Ret s.2.1 s.
Definition put_builder {U} (sid : Z) (bytes : list Init.Byte.byte) : M (mem * (builders * U)) unit :=
  fun '(m, (bm, u)) => Ret tt (m, (<[sid := bytes]> bm, u)).

(** [FragmentAssembler.Clear]. *)
Definition Clear {U} : M (mem * (builders * U)) unit :=
  fun '(m, (_, u)) => Ret tt (m, (∅, u)).

Definition OnFragment {U} (delegate : Delegate U) : FragmentHandler (builders * U) :=
  fun buffer offset length header =>
  let! flags := on_fst (Header_Flags header) in
  if Z.land flags unfragmented =? unfragmented then
    on_user (delegate (MappedView buffer offset length) header)
  else if Z.land flags beginFrag =? beginFrag then
    let! sid := on_fst (Header_SessionId header) in
    (* a new builder or the session's old one, reset *)
    put_builder sid [] ;;;
    let! bytes := on_fst (WriteBytes buffer [] offset length) in
    put_builder sid bytes
  else
    let! sid := on_fst (Header_SessionId header) in
    let! bm := get_builders in
    match bm !! sid with
    | Some ((_ :: _) as bytes) =>
        let! bytes := on_fst (WriteBytes buffer bytes offset length) in
        put_builder sid bytes ;;;
        if Z.land flags endFrag =? endFrag then
          let msgLength := zlen bytes in
          on_user (delegate (HeapView bytes 0 (i32 msgLength)) header) ;;;
          put_builder sid []
        else ret tt
    | _ => ret tt
    end.

(** controlledfragmentassembler.go: the delegate's action is returned; when it aborts the
    message, the last fragment is taken out of the builder again. *)
Definition ControlledDelegate (U : Type) : Type := msgview -> Header -> M (mem * U) ControlledPollAction.

Definition ControlledOnFragment {U} (delegate : ControlledDelegate U)
  : ControlledFragmentHandler (builders * U) :=
  fun buffer offset length header =>
  let! flags := on_fst (Header_Flags header) in
  if Z.land flags unfragmented =? unfragmented then
    on_user (delegate (MappedView buffer offset length) header)
  else if Z.land flags beginFrag =? beginFrag then
    let! sid := on_fst (Header_SessionId header) in
    put_builder sid [] ;;;
    let! bytes := on_fst (WriteBytes buffer [] offset length) in
    put_builder sid bytes ;;;
    ret ControlledPollActionContinue
  else
    let! sid := on_fst (Header_SessionId header) in
    let! bm := get_builders in
    match bm !! sid with
    | Some ((_ :: _) as old) =>
        let limit := zlen old in
        let! bytes := on_fst (WriteBytes buffer old offset length) in
        put_builder sid bytes ;;;
        if Z.land flags endFrag =? endFrag then
          let msgLength := zlen bytes in
          let! action := on_user (delegate (HeapView bytes 0 (i32 msgLength)) header) in
          if decide (action = ControlledPollActionAbort) then
            put_builder sid (take (Z.to_nat limit) bytes) ;;; ret action
          else
            put_builder sid [] ;;; ret action
        else ret ControlledPollActionContinue
    | _ => ret ControlledPollActionContinue
    end.

(** ** The assembler as a function on frames *)

(** What the assembler reads of a frame. *)
Lemma frame_reads m b off f header :
  buf_ok m b -> frame_at m (bufferPtr b) off f -> 0 <= off -> off + frame_length f <= buf_length b ->
  Header_Flags (header_at header b off) m = Ret (fr_flags f) m /\
  Header_SessionId (header_at header b off) m = Ret (fr_session f) m /\
  (forall dest, WriteBytes b dest (off + 32) (zlen (fr_data f)) m = Ret (dest ++ fr_data f) m).
Proof.
  intros Hb Hf Hoff Hin. pose proof (frame_length_ge f). split_and!.
  - unfold Header_Flags. rewrite <- (fa_flags _ _ _ _ Hf). destruct b; apply GetFlags_ok; done || lia.
  - unfold Header_SessionId. rewrite <- (fa_session _ _ _ _ Hf). destruct b; apply GetSessionId_ok; done || lia.
  - intros dest.
    assert (Hdat : rd m (bufferPtr b + (off + 32)) (Z.to_nat (zlen (fr_data f))) = fr_data f).
    { rewrite Z.add_assoc. unfold zlen. rewrite Nat2Z.id. apply (fa_data _ _ _ _ Hf). }
    rewrite <- Hdat at 2.
    apply WriteBytes_ok; try done; unfold frame_length in *; lia || apply zlen_nonneg.
Qed.

Section AsmStep.
Context {U : Type} (dstep : frame -> list Init.Byte.byte -> U -> U).

(** One fragment: the builders and what the delegate has received. *)
Definition asm_step (off : Z) (f : frame) (s : builders * U) : builders * U :=
  let '(bm, u) := s in
  if Z.land (fr_flags f) unfragmented =? unfragmented then (bm, dstep f (fr_data f) u)
  else if Z.land (fr_flags f) beginFrag =? beginFrag then (<[fr_session f := fr_data f]> bm, u)
  else match bm !! fr_session f with
       | Some ((_ :: _) as bytes) =>
           let bytes := bytes ++ fr_data f in
           if Z.land (fr_flags f) endFrag =? endFrag
           then (<[fr_session f := []]> bm, dstep f bytes u)
           else (<[fr_session f := bytes]> bm, u)
       | _ => (bm, u)
       end.

(** A delegate that acts as [dstep] on the message's bytes. *)
Definition delegates (m : mem) (b : Buffer) (delegate : Delegate U) : Prop :=
  (forall off f u header, frame_at m (bufferPtr b) off f -> 0 <= off ->
     off + frame_length f <= buf_length b ->
     delegate (MappedView b (off + 32) (zlen (fr_data f))) (header_at header b off) (m, u)
     = Ret tt (m, dstep f (fr_data f) u)) /\
  (forall off f u header bytes, frame_at m (bufferPtr b) off f -> 0 <= off ->
     off + frame_length f <= buf_length b ->
     delegate (HeapView bytes 0 (i32 (zlen bytes))) (header_at header b off) (m, u)
     = Ret tt (m, dstep f bytes u)).

Context (m : mem) (b : Buffer) (delegate : Delegate U).
Context (Hb : buf_ok m b) (Hmax : buf_length b <= 1073741824) (Hd : delegates m b delegate).

Lemma on_user_Ret {B A} (c : M (mem * U) A) (bm : B) m1 u a m' u' :
  c (m1, u) = Ret a (m', u') -> on_user c (m1, (bm, u)) = Ret a (m', (bm, u')).
Proof using Type. unfold on_user. by intros ->. Qed.

(** The assembler is the handler that [asm_step] describes. *)
Lemma OnFragment_handles : handles asm_step m b (OnFragment delegate).
Proof using All.
  intros off f [bm u] header Hf _ Hoff Hin. pose proof (frame_length_ge f).
  destruct (frame_reads m b off f header Hb Hf Hoff Hin) as (Hfl & Hsid & Hw).
  unfold OnFragment, asm_step.
  erewrite bind_Ret by (apply on_fst_Ret, Hfl).
  destruct (Z.land (fr_flags f) unfragmented =? unfragmented).
  { apply on_user_Ret. by apply Hd. }
  destruct (Z.land (fr_flags f) beginFrag =? beginFrag).
  { erewrite bind_Ret by (apply on_fst_Ret, Hsid). unfold bind at 1, put_builder.
    erewrite bind_Ret by (apply on_fst_Ret, Hw). cbv beta iota. by rewrite insert_insert_eq. }
  erewrite bind_Ret by (apply on_fst_Ret, Hsid). unfold bind at 1, get_builders. cbn [fst snd].
  destruct (bm !! fr_session f) as [[|x bytes]|]; try done.
  erewrite bind_Ret by (apply on_fst_Ret, Hw). unfold bind at 1, put_builder.
  destruct (Z.land (fr_flags f) endFrag =? endFrag); [|done].
  erewrite bind_Ret by (apply on_user_Ret; by apply Hd). cbv beta iota. by rewrite insert_insert_eq.
Qed.
End AsmStep.

(** ** Reassembly *)

Section Reassembly.
Context {U : Type} (dstep : frame -> list Init.Byte.byte -> U -> U).

(** Run the assembler over frames, in order; the offsets do not matter to it. *)
Definition asm_run (fs : list frame) (s : builders * U) : builders * U :=
  fold_left (fun s f => asm_step dstep 0 f s) fs s.

Lemma asm_run_app fs gs s : asm_run (fs ++ gs) s = asm_run gs (asm_run fs s).
Proof using Type. apply fold_left_app. Qed.

Context (session stream termId : Z).
Local Abbreviation frames := (data_frames session stream termId).

(** The fragments after the first: they extend what is collected, and the last one
    delivers it. *)
Lemma asm_run_rest fuel n data bm u bytes :
  (0 < n)%nat -> (length data <= fuel)%nat -> data <> [] -> bytes <> [] ->
  bm !! session = Some bytes ->
  exists f, asm_run (frames (fragments_from fuel n 0 data)) (bm, u)
            = (<[session := []]> bm, dstep f (bytes ++ data) u) /\ fr_session f = session.
Proof using Type.
  intros Hn. revert data bm bytes. induction fuel as [|fuel IH]; intros data bm bytes Hf Hne Hby Hbm.
  { destruct data; simpl in *; [done|lia]. }
  destruct data as [|x data]; [done|]. cbn [fragments_from data_frames map asm_run fold_left].
  destruct bytes as [|y bytes]; [done|].
  unfold asm_step at 2. cbn [fr_flags fr_session fr_data fst snd]. rewrite Hbm.
  destruct (Nat.leb_spec (length (x :: data)) n) as [Hle|Hgt].
  - change (Z.lor 0 64) with 64. cbn [Z.eqb]. simpl (Z.land 64 _ =? _).
    rewrite (take_ge (x :: data)), (drop_ge (x :: data)) by lia. eexists. split; [by destruct fuel|done].
  - simpl (Z.land 0 _ =? _). fold (asm_run (frames (fragments_from fuel n 0 (drop n (x :: data))))).
    set (b1 := (y :: bytes) ++ take n (x :: data)).
    destruct (IH (drop n (x :: data)) (<[session := b1]> bm) b1) as (f & Hrun & Hs).
    + rewrite length_drop. simpl in *. lia.
    + intros E. apply (f_equal length) in E. rewrite length_drop in E. simpl in *. lia.
    + done.
    + apply lookup_insert_eq.
    + exists f. split; [|done]. etransitivity; [exact Hrun|].
      rewrite insert_insert_eq. unfold b1. by rewrite <- app_assoc, take_drop.
Qed.

(** A fragmented message goes through whole: the delegate gets exactly its bytes, once,
    whatever was collected for the session before, and the session's buffer is empty
    afterwards. *)
Lemma asm_run_fragments n data bm u :
  (0 < n)%nat -> (n < length data)%nat ->
  exists f, asm_run (frames (fragments n data)) (bm, u)
            = (<[session := []]> bm, dstep f data u) /\ fr_session f = session.
Proof using Type.
  intros Hn Hlen. unfold fragments. destruct (length data) as [|fuel] eqn:Hl; [lia|].
  destruct data as [|x data]; [done|]. cbn [fragments_from data_frames map asm_run fold_left].
  rewrite Hl. destruct (Nat.leb_spec (S fuel) n) as [|_]; [lia|].
  unfold asm_step at 2. cbn [fr_flags fr_session fr_data fst snd].
  simpl (Z.land 128 _ =? _). cbv iota.
  assert (Htk : take n (x :: data) <> []) by (destruct n; [lia|done]).
  destruct (asm_run_rest fuel n (drop n (x :: data)) (<[session := take n (x :: data)]> bm) u
              (take n (x :: data))) as (f & Hrun & Hs); [done| | |done|apply lookup_insert_eq|].
  - rewrite length_drop, Hl. lia.
  - intros E. apply (f_equal length) in E. rewrite length_drop, Hl in E. simpl in E. lia.
  - exists f. split; [|done]. etransitivity; [exact Hrun|].
    by rewrite insert_insert_eq, take_drop.
Qed.

(** A message that fits one frame is passed on as it is. *)
Lemma asm_run_unfragmented data bm u :
  asm_run [mkFrame unfragmented DataFrameHeader.TypeData session stream termId data] (bm, u)
  = (bm, dstep (mkFrame unfragmented DataFrameHeader.TypeData session stream termId data) data u).
Proof using Type. done. Qed.
End Reassembly.

(** ** What an observer behind an assembler gets *)

Abbreviation msg_log := (list (Z * list Init.Byte.byte)).

(** A delegate that keeps every message with its session, newest first. *)
Definition recorder : Delegate msg_log :=
  fun view header =>
  let! sid := on_fst (Header_SessionId header) in
  let! bytes := match view with
                | MappedView b off len => on_fst (GetBytesArray b off len)
                | HeapView bytes off len => ret (sub_list (Z.to_nat off) (Z.to_nat len) bytes)
                end in
  fun '(m, u) => Ret tt (m, (sid, bytes) :: u).

(** A message as the delegate sees it: the length it is given is an [int32]. *)
Definition cut32 (bytes : list Init.Byte.byte) : list Init.Byte.byte :=
  take (Z.to_nat (i32 (zlen bytes))) bytes.
Definition record_cut (f : frame) (bytes : list Init.Byte.byte) (u : msg_log) : msg_log :=
  (fr_session f, cut32 bytes) :: u.

Lemma cut32_id bytes : zlen bytes < 2147483648 -> cut32 bytes = bytes.
Proof.
  intros. unfold cut32. pose proof (zlen_nonneg bytes). rewrite i32_small by lia.
  unfold zlen. rewrite Nat2Z.id. by apply take_ge.
Qed.

Lemma recorder_delegates m b :
  buf_ok m b -> delegates record_cut m b recorder.
Proof.
  intros Hb. split; intros off f u header; intros.
  - destruct (frame_reads m b off f header) as (_ & Hsid & _); try done.
    pose proof (buf_ok_length _ _ Hb). pose proof (zlen_nonneg (fr_data f)). unfold frame_length in *.
    unfold recorder. erewrite bind_Ret by (apply on_fst_Ret, Hsid).
    erewrite bind_Ret by (apply on_fst_Ret, GetBytesArray_ok; done || lia).
    unfold record_cut. rewrite cut32_id by lia. rewrite Z.add_assoc. unfold zlen. rewrite Nat2Z.id.
    by rewrite (fa_data _ _ _ _ H).
  - destruct (frame_reads m b off f header) as (_ & Hsid & _); try done.
    unfold recorder. erewrite bind_Ret by (apply on_fst_Ret, Hsid). done.
Qed.

(** ** Sessions do not interfere *)

Section Sessions.
Definition of_session (s : Z) (u : msg_log) : msg_log := filter (fun p => p.1 = s) u.

Lemma asm_step_other s f bm u :
  fr_session f <> s ->
  let '(bm', u') := asm_step record_cut 0 f (bm, u) in
  bm' !! s = bm !! s /\ of_session s u' = of_session s u.
Proof using Type.
  intros Hne. unfold asm_step, of_session, record_cut.
  repeat case_match; simplify_eq; split; try done;
    rewrite ?lookup_insert_ne by done; try done; by rewrite filter_cons_False.
Qed.

Lemma asm_step_same f bm1 bm2 u1 u2 s :
  fr_session f = s -> bm1 !! s = bm2 !! s -> of_session s u1 = of_session s u2 ->
  (asm_step record_cut 0 f (bm1, u1)).1 !! s = (asm_step record_cut 0 f (bm2, u2)).1 !! s /\
  of_session s (asm_step record_cut 0 f (bm1, u1)).2
  = of_session s (asm_step record_cut 0 f (bm2, u2)).2.
Proof using Type.
  intros Hs Hbm Hu. subst s. unfold asm_step, of_session, record_cut in *. rewrite <- Hbm.
  repeat case_match; simplify_eq/=; split; try done;
    rewrite ?lookup_insert_eq; try congruence; rewrite !filter_cons_True by done; congruence.
Qed.

(** Whatever the interleaving of the sessions' fragments, a session's messages are those
    that its own fragments alone produce. *)
Lemma asm_run_sessions s (p : frame -> bool) fs : forall bm1 bm2 u1 u2,
  (forall f, f ∈ fs -> p f = true <-> fr_session f = s) ->
  bm1 !! s = bm2 !! s -> of_session s u1 = of_session s u2 ->
  of_session s (asm_run record_cut fs (bm1, u1)).2
  = of_session s (asm_run record_cut (List.filter p fs) (bm2, u2)).2.
Proof using Type.
  induction fs as [|f fs IH]; intros bm1 bm2 u1 u2 Hp Hb Hu; [done|].
  assert (Hp' : forall f, f ∈ fs -> p f = true <-> fr_session f = s) by (intros; apply Hp; by right).
  pose proof (Hp f ltac:(left)) as Hf. cbn [List.filter]. destruct (p f).
  - cbn [asm_run fold_left].
    destruct (asm_step_same f bm1 bm2 u1 u2 s (proj1 Hf eq_refl) Hb Hu) as [H1 H2].
    destruct (asm_step record_cut 0 f (bm1, u1)), (asm_step record_cut 0 f (bm2, u2)).
    by apply IH.
  - assert (Hs : fr_session f <> s) by (intros E; by apply Hf in E). cbn [asm_run fold_left].
    pose proof (asm_step_other s f bm1 u1 Hs) as H1.
    destruct (asm_step record_cut 0 f (bm1, u1)). destruct H1. apply IH; [done|congruence..].
Qed.
End Sessions.

(** ** Fragments given to an assembler one after the other *)

Section Feed.
Context (m : mem) (b : Buffer) (header : Header).
Context (Hb : buf_ok m b) (Hmax : buf_length b <= 1073741824).

(** The frames at the given offsets of the term buffer, as a poll would pass them on. *)
Fixpoint feed {U} (delegate : Delegate U) (ofs : list (Z * frame)) : M (mem * (builders * U)) unit :=
  match ofs with
  | [] => ret tt
  | (off, f) :: ofs' =>
      OnFragment delegate b (off + 32) (zlen (fr_data f)) (header_at header b off) ;;;
      feed delegate ofs'
  end.

Definition in_term (o : Z * frame) : Prop :=
  frame_at m (bufferPtr b) o.1 o.2 /\ is_padding o.2 = false /\
  0 <= o.1 /\ o.1 + frame_length o.2 <= buf_length b.

Lemma feed_run ofs : forall s,
  Forall in_term ofs ->
  feed recorder ofs (m, s) = Ret tt (m, asm_run record_cut (map snd ofs) s).
Proof using Hb Hmax.
  induction ofs as [|[off f] ofs IH]; intros s Hin; [done|].
  apply Forall_cons in Hin as [(Hf & Hp & Ho & Hl) Hin]. cbn [feed map snd asm_run fold_left].
  erewrite bind_Ret by (by apply (OnFragment_handles record_cut m b recorder Hb Hmax (recorder_delegates m b Hb))).
  by rewrite IH by done.
Qed.
End Feed.

(** C36. Fragments of any number of sessions, interleaved in any way: what the assembler
    delivers for one session is what it delivers when it is given that session's fragments
    alone. *)
Theorem OnFragment_sessions_independent m b header s ofs bm :
  buf_ok m b -> buf_length b <= 1073741824 -> Forall (in_term m b) ofs ->
  let own := List.filter (fun o => fr_session o.2 =? s) ofs in
  exists s1 s2,
    feed b header recorder ofs (m, (bm, [])) = Ret tt (m, s1) /\
    feed b header recorder own (m, (bm, [])) = Ret tt (m, s2) /\
    of_session s s1.2 = of_session s s2.2.
Proof.
  intros Hb Hmax Hin own. eexists _, _. split; [by apply feed_run|]. split.
  { apply feed_run; [done..|]. apply Forall_forall. intros x Hx%list_elem_of_In%filter_In.
    destruct Hx as [Hx _]. by apply (proj1 (Forall_forall _ _) Hin), list_elem_of_In. }
  replace (map snd own) with (List.filter (fun f => fr_session f =? s) (map snd ofs)).
  { apply asm_run_sessions; [|done..]. intros f _. lia. }
  unfold own. clear. induction ofs as [|[off f] ofs IH]; [done|]. cbn [List.filter map snd].
  destruct (fr_session f =? s); cbn [map snd]; by rewrite IH.
Qed.

(** The fragments of a message, in order, wherever they are: the assembler delivers the
    message once and whole, whatever was left over of its session before, and is ready
    for the next one. *)
Theorem OnFragment_reassembles m b header session stream termId n data offs bm :
  buf_ok m b -> buf_length b <= 1073741824 -> (0 < n < length data)%nat ->
  zlen data < 2147483648 ->
  let frames := data_frames session stream termId (fragments n data) in
  length offs = length frames -> Forall (in_term m b) (zip offs frames) ->
  feed b header recorder (zip offs frames) (m, (bm, [])) =
  Ret tt (m, (<[session := []]> bm, [(session, data)])).
Proof.
  intros Hb Hmax Hn Hlen frames Hz Hin. rewrite (feed_run m b header Hb Hmax) by done.
  change (map snd (zip offs frames)) with ((zip offs frames).*2). rewrite snd_zip by lia. unfold frames.
  destruct (asm_run_fragments record_cut session stream termId n data bm []) as (f & Hrun & Hs); [lia..|].
  rewrite Hrun. unfold record_cut. by rewrite cut32_id, Hs.
Qed.

(** ** The controlled assembler *)

Section Controlled.
Context {U : Type} (dstep : frame -> list Init.Byte.byte -> U -> ControlledPollAction * U).

Definition casm_step (off : Z) (f : frame) (s : builders * U) : ControlledPollAction * (builders * U) :=
  let '(bm, u) := s in
  if Z.land (fr_flags f) unfragmented =? unfragmented then
    let '(a, u') := dstep f (fr_data f) u in (a, (bm, u'))
  else if Z.land (fr_flags f) beginFrag =? beginFrag then
    (ControlledPollActionContinue, (<[fr_session f := fr_data f]> bm, u))
  else match bm !! fr_session f with
       | Some ((_ :: _) as old) =>
           let bytes := old ++ fr_data f in
           if Z.land (fr_flags f) endFrag =? endFrag then
             let '(a, u') := dstep f bytes u in
             if decide (a = ControlledPollActionAbort) then (a, (bm, u'))
             else (a, (<[fr_session f := []]> bm, u'))
           else (ControlledPollActionContinue, (<[fr_session f := bytes]> bm, u))
       | _ => (ControlledPollActionContinue, (bm, u))
       end.

(** A delegate that acts as [dstep] on the message's bytes, over any memory that still
    has the frame. *)
Definition cdelegates (b : Buffer) (delegate : ControlledDelegate U) : Prop :=
  (forall m off f u header, buf_ok m b -> frame_at m (bufferPtr b) off f -> 0 <= off ->
     off + frame_length f <= buf_length b ->
     delegate (MappedView b (off + 32) (zlen (fr_data f))) (header_at header b off) (m, u)
     = Ret (dstep f (fr_data f) u).1 (m, (dstep f (fr_data f) u).2)) /\
  (forall m off f u header bytes, buf_ok m b -> frame_at m (bufferPtr b) off f -> 0 <= off ->
     off + frame_length f <= buf_length b ->
     delegate (HeapView bytes 0 (i32 (zlen bytes))) (header_at header b off) (m, u)
     = Ret (dstep f bytes u).1 (m, (dstep f bytes u).2)).

Lemma ControlledOnFragment_step m b delegate off f bm u header :
  buf_ok m b -> cdelegates b delegate ->
  frame_at m (bufferPtr b) off f -> 0 <= off -> off + frame_length f <= buf_length b ->
  ControlledOnFragment delegate b (off + 32) (zlen (fr_data f)) (header_at header b off) (m, (bm, u))
  = Ret (casm_step off f (bm, u)).1 (m, (casm_step off f (bm, u)).2).
Proof using Type.
  intros Hb Hd Hf Hoff Hin. pose proof (frame_length_ge f).
  destruct (frame_reads m b off f header Hb Hf Hoff Hin) as (Hfl & Hsid & Hw).
  unfold ControlledOnFragment, casm_step.
  erewrite bind_Ret by (apply on_fst_Ret, Hfl).
  destruct (Z.land (fr_flags f) unfragmented =? unfragmented).
  { erewrite on_user_Ret by (by apply Hd). by destruct (dstep f (fr_data f) u). }
  destruct (Z.land (fr_flags f) beginFrag =? beginFrag).
  { erewrite bind_Ret by (apply on_fst_Ret, Hsid). unfold bind at 1, put_builder.
    erewrite bind_Ret by (apply on_fst_Ret, Hw). unfold bind, ret. cbn. by rewrite insert_insert_eq. }
  erewrite bind_Ret by (apply on_fst_Ret, Hsid). unfold bind at 1, get_builders. cbn [fst snd].
  destruct (bm !! fr_session f) as [[|x bytes]|] eqn:Hbm; try done.
  erewrite bind_Ret by (apply on_fst_Ret, Hw). unfold bind at 1, put_builder.
  destruct (Z.land (fr_flags f) endFrag =? endFrag); [|done].
  erewrite bind_Ret by (apply on_user_Ret; by apply Hd). cbv beta iota.
  destruct (dstep f ((x :: bytes) ++ fr_data f) u) as [a u']. cbn [fst snd].
  destruct (decide (a = ControlledPollActionAbort)); unfold bind, ret; rewrite insert_insert_eq; [|done].
  unfold zlen. rewrite Nat2Z.id, take_app_length. by rewrite insert_id.
Qed.

(** An aborted message leaves the assembler as it was, so that the fragment, which the
    poll does not consume, delivers the same message when it comes again. *)
Lemma casm_abort_ok off f bm u bm' u' :
  casm_step off f (bm, u) = (ControlledPollActionAbort, (bm', u')) -> bm' = bm.
Proof using Type.
  unfold casm_step. repeat case_match; intros [=]; by subst.
Qed.
End Controlled.

(** A delegate that aborts a message: the controlled assembler reports it and is as it
    was, so that the fragment, which the poll does not consume, delivers the same message
    when it comes again. *)
Theorem ControlledOnFragment_abort {U} (dstep : frame -> list Init.Byte.byte -> U -> ControlledPollAction * U)
  m b (delegate : ControlledDelegate U) off f bm u header bm' u' m' :
  buf_ok m b -> cdelegates dstep b delegate ->
  frame_at m (bufferPtr b) off f -> 0 <= off -> off + frame_length f <= buf_length b ->
  ControlledOnFragment delegate b (off + 32) (zlen (fr_data f)) (header_at header b off) (m, (bm, u))
  = Ret ControlledPollActionAbort (m', (bm', u')) ->
  m' = m /\ bm' = bm.
Proof.
  intros Hb Hd Hf Hoff Hin Hrun.
  rewrite (ControlledOnFragment_step dstep m b delegate off f bm u header Hb Hd Hf Hoff Hin) in Hrun.
  destruct (casm_step dstep off f (bm, u)) as [a s] eqn:E. cbn [fst snd] in Hrun.
  injection Hrun as -> <- ->. split; [done|]. by apply (casm_abort_ok dstep off f bm u bm' u').
Qed.
