(* ===== verification/Publication.v ===== *)
(** * Publications

    src/aeron/publication.go and position.go: a publication appends messages to the
    active term of its log while its position is below the limit the driver allows, and
    rotates the log when a term is full. *)

From S2P Require Import Prelude Memory Bits Flyweight LogBuffer TermSpec Appender.

Local Open Scope m_scope.

(** ** position.go *)

Record Position : Type := mkPosition { pos_buffer : Buffer; pos_id : Z; pos_offset : Z }.

Definition NewPosition (buffer : Buffer) (id : Z) : M mem Position :=
  let offset := i32 (i32 (id * 2) * CacheLineLength) in
  (* the counter is read for the log message *)
  let! _ := GetInt64 buffer offset in
  ret (mkPosition buffer id offset).
Definition Position_get (pos : Position) : M mem Z := GetInt64 (pos_buffer pos) (pos_offset pos).
Definition Position_set (pos : Position) (value : Z) : M mem unit :=
  PutInt64 (pos_buffer pos) (pos_offset pos) value.

(** ** publication.go *)

Definition NotConnected : Z := -1.
Definition BackPressured : Z := -2.
Definition AdminAction : Z := -3.
Definition PublicationClosed : Z := -4.
Definition MaxPositionExceeded : Z := -5.

Record Publication : Type := mkPublication {
  pub_channel : string;
  pub_regID : Z;
  pub_originalRegID : Z;
  maxPossiblePosition : Z;
  pub_streamID : Z;
  pub_sessionID : Z;
  pub_initialTermID : Z;
  maxPayloadLength : Z;
  maxMessageLength : Z;
  positionBitsToShift : Z;
  pubLimit : Position;
  channelStatusIndicatorID : Z;
  pub_isClosed : bool;
  pub_metaData : LogBufferMetaData;
  appenders : list Appender }.

(** The conductor fills the identity fields in afterwards; here they are zero. *)
Definition NewPublication (logBuffers : LogBuffers) : M mem Publication :=
  let! buf0 := LogBuffers_Buffer logBuffers 0 in
  let termBufferCapacity := Capacity buf0 in
  let meta := LogBuffers_Meta logBuffers in
  let! initialTermID := Int32Field_Get (InitTermID meta) in
  let! mtu := Int32Field_Get (MTULen meta) in
  let! app0 := MakeAppender logBuffers 0 in
  let! app1 := MakeAppender logBuffers 1 in
  let! app2 := MakeAppender logBuffers 2 in
  ret {| pub_channel := ""; pub_regID := 0; pub_originalRegID := 0;
         maxPossiblePosition := i64 (termBufferCapacity * Z.shiftl 1 31);
         pub_streamID := 0; pub_sessionID := 0;
         pub_initialTermID := initialTermID;
         maxPayloadLength := i32 (mtu - DataFrameHeader.Length);
         maxMessageLength := ComputeMaxMessageLength termBufferCapacity;
         positionBitsToShift := NumberOfTrailingZeroes (u32 termBufferCapacity);
         pubLimit := mkPosition (mkBuffer 0 0) 0 0;
         channelStatusIndicatorID := 0;
         pub_isClosed := false;
         pub_metaData := meta;
         appenders := [app0; app1; app2] |}.

Definition Publication_IsClosed (pub : Publication) : bool := pub_isClosed pub.
Definition Publication_IsConnected (pub : Publication) : M mem bool :=
  if Publication_IsClosed pub then ret false
  else let! c := Int32Field_Get (IsConnected (pub_metaData pub)) in ret (c =? 1).
Definition IsOriginal (pub : Publication) : bool := pub_originalRegID pub =? pub_regID pub.

Definition computeTermBeginPosition (activeTermID positionBitsToShift initialTermID : Z) : Z :=
  let termCount := i32 (activeTermID - initialTermID) in
  i64 (Z.shiftl termCount (u32 positionBitsToShift)).

Definition nextPartitionIndex (currentIndex : Z) : option Z := FastMod3 (u64 (u64 currentIndex + 1)).

Definition Publication_Position (pub : Publication) : M mem Z :=
  if Publication_IsClosed pub then ret PublicationClosed
  else
    let! termCount := Int32Field_Get (ActiveTermCountOff (pub_metaData pub)) in
    let termIndex := Z.rem termCount PartitionCount in
    let! termAppender := index_or_panic (appenders pub) termIndex in
    let! rawTail := RawTail termAppender in
    let termOffset := Z.land rawTail 0xFFFFFFFF in
    let termId := TermID rawTail in
    ret (i64 (computeTermBeginPosition termId (positionBitsToShift pub) (pub_initialTermID pub)
              + termOffset)).

Definition checkForMaxMessageLength (pub : Publication) (length : Z) : M mem unit :=
  if length >? maxMessageLength pub then panic "Encoded message exceeds maxMessageLength"
  else ret tt.
Definition checkForMaxPayloadLength (pub : Publication) (length : Z) : M mem unit :=
  if length >? maxPayloadLength pub then panic "Encoded message exceeds maxPayloadLength"
  else ret tt.

Definition newPosition (pub : Publication) (termCount termOffset termId position resultingOffset : Z)
  : M mem Z :=
  if resultingOffset >? 0 then ret (i64 (i64 (position - termOffset) + resultingOffset))
  else if i64 (position + termOffset) >? maxPossiblePosition pub then ret MaxPositionExceeded
  else
    RotateLog (pub_metaData pub) termCount termId ;;;
    ret AdminAction.

Definition backPressureStatus (pub : Publication) (currentPosition messageLength : Z) : M mem Z :=
  if i64 (currentPosition + messageLength) >=? maxPossiblePosition pub then ret MaxPositionExceeded
  else
    let! c := Int32Field_Get (IsConnected (pub_metaData pub)) in
    if c =? 1 then ret BackPressured else ret NotConnected.

(** A nil supplier is replaced by the default one. *)
Definition supplier_or_default (sup : option ReservedValueSupplier) : ReservedValueSupplier :=
  match sup with Some f => f | None => DefaultReservedValueSupplier end.

Definition Offer (pub : Publication) (buffer : Buffer) (offset length : Z)
  (reservedValueSupplier : option ReservedValueSupplier) : M mem Z :=
  if Publication_IsClosed pub then ret PublicationClosed
  else
    let sup := supplier_or_default reservedValueSupplier in
    let! limit := Position_get (pubLimit pub) in
    let! termCount := Int32Field_Get (ActiveTermCountOff (pub_metaData pub)) in
    let termIndex := Z.rem termCount PartitionCount in
    let! termAppender := index_or_panic (appenders pub) termIndex in
    let! rawTail := RawTail termAppender in
    let termOffset := Z.land rawTail 0xFFFFFFFF in
    let termId := TermID rawTail in
    let position := i64 (computeTermBeginPosition termId (positionBitsToShift pub) (pub_initialTermID pub)
                         + termOffset) in
    let! initTermID := Int32Field_Get (InitTermID (pub_metaData pub)) in
    if negb (termCount =? i32 (termId - initTermID)) then ret AdminAction
    else if position >=? limit then backPressureStatus pub position length
    else
      let! (resultingOffset, termId) :=
        if length <=? maxPayloadLength pub then
          AppendUnfragmentedMessage termAppender buffer offset length (Some sup)
        else
          (checkForMaxMessageLength pub length ;;;
           AppendFragmentedMessage termAppender buffer offset length (maxPayloadLength pub) (Some sup)) in
      newPosition pub termCount termOffset termId position resultingOffset.

Definition Offer2 (pub : Publication) (bufferOne : Buffer) (offsetOne lengthOne : Z)
  (bufferTwo : Buffer) (offsetTwo lengthTwo : Z)
  (reservedValueSupplier : option ReservedValueSupplier) : M mem Z :=
  if lengthOne <? 0 then ret 0
  else if lengthTwo <? 0 then ret 0
  else
    let length := i32 (lengthOne + lengthTwo) in
    if length <? 0 then panic "Length overflow"
    else if Publication_IsClosed pub then ret PublicationClosed
    else
      let sup := supplier_or_default reservedValueSupplier in
      let! limit := Position_get (pubLimit pub) in
      let! termCount := Int32Field_Get (ActiveTermCountOff (pub_metaData pub)) in
      let termIndex := Z.rem termCount PartitionCount in
      let! termAppender := index_or_panic (appenders pub) termIndex in
      let! rawTail := RawTail termAppender in
      let termOffset := Z.land rawTail 0xFFFFFFFF in
      let termId := TermID rawTail in
      let position := i64 (computeTermBeginPosition termId (positionBitsToShift pub) (pub_initialTermID pub)
                           + termOffset) in
      let! initTermID := Int32Field_Get (InitTermID (pub_metaData pub)) in
      if negb (termCount =? i32 (termId - initTermID)) then ret AdminAction
      else if position >=? limit then backPressureStatus pub position length
      else
        let! (resultingOffset, termId) :=
          if length <=? maxPayloadLength pub then
            AppendUnfragmentedMessage2 termAppender bufferOne offsetOne lengthOne
              bufferTwo offsetTwo lengthTwo (Some sup)
          else
            (checkForMaxMessageLength pub length ;;;
             AppendFragmentedMessage2 termAppender bufferOne offsetOne lengthOne
               bufferTwo offsetTwo lengthTwo (maxPayloadLength pub) (Some sup)) in
        newPosition pub termCount termOffset termId position resultingOffset.

Definition set_closed (pub : Publication) : Publication := {|
  pub_channel := pub_channel pub; pub_regID := pub_regID pub;
  pub_originalRegID := pub_originalRegID pub; maxPossiblePosition := maxPossiblePosition pub;
  pub_streamID := pub_streamID pub; pub_sessionID := pub_sessionID pub;
  pub_initialTermID := pub_initialTermID pub; maxPayloadLength := maxPayloadLength pub;
  maxMessageLength := maxMessageLength pub; positionBitsToShift := positionBitsToShift pub;
  pubLimit := pubLimit pub; channelStatusIndicatorID := channelStatusIndicatorID pub;
  pub_isClosed := true; pub_metaData := pub_metaData pub; appenders := appenders pub |}.

(** [Close] of a publication ([None]: a nil pointer) asks the conductor to release it, the
    first time only. *)
Definition Publication_Close {S E} (releasePublication : Z -> M S (option E))
  (pub : option Publication) : M S (option E * option Publication) :=
  match pub with
  | Some pub =>
      if pub_isClosed pub then ret (None, Some pub)
      else
        let pub := set_closed pub in
        let! err := releasePublication (pub_regID pub) in
        ret (err, Some pub)
  | None => ret (None, None)
  end.

(** [TryClaim] also wraps its claim argument around the claimed frame, if there is one. *)
Definition TryClaim (pub : Publication) (length : Z) : M mem (Z * option Claim) :=
  if Publication_IsClosed pub then ret (PublicationClosed, None)
  else
    checkForMaxPayloadLength pub length ;;;
    let! limit := Position_get (pubLimit pub) in
    let! termCount := Int32Field_Get (ActiveTermCountOff (pub_metaData pub)) in
    let termIndex := Z.rem termCount PartitionCount in
    let! termAppender := index_or_panic (appenders pub) termIndex in
    let! rawTail := RawTail termAppender in
    let termOffset := Z.land rawTail 0xFFFFFFFF in
    let position := i64 (computeTermBeginPosition (TermID rawTail) (positionBitsToShift pub)
                           (pub_initialTermID pub) + termOffset) in
    if position <? limit then
      let! (resultingOffset, termId, claim) := Appender_Claim termAppender length in
      let! p := newPosition pub termCount termOffset termId position resultingOffset in
      ret (p, claim)
    else
      let! p := backPressureStatus pub position length in
      ret (p, None).

(** ** Well-formed publications *)

(** A partition of the log: its appender, its tail counter in the metadata, its term
    buffer of the log's term length apart from the metadata. *)
Record part_ok (m : mem) (base T i : Z) (app : Appender) : Prop := {
  pt_app : app_ok m app;
  pt_tail : f64_offset (tailCounter app) = tail_addr base i;
  pt_length : buf_length (termBuffer app) = T;
  pt_disj : disjoint (bufferPtr (termBuffer app)) T base 448 }.

Definition term_length (pub : Publication) : Z := 2 ^ positionBitsToShift pub.

(** The appender of the partition that term count [tc] uses. *)
Definition active_app (pub : Publication) (tc : Z) : option Appender :=
  appenders pub !! Z.to_nat (tc mod 3).
Definition active_term (pub : Publication) (tc : Z) : Z := i32 (pub_initialTermID pub + tc).

(** An open publication over the log whose metadata is at [base], in its term number
    [tc] with the tail at [off]. *)
Record pub_ok (m : mem) (pub : Publication) (base tc off : Z) : Prop := {
  po_open : pub_isClosed pub = false;
  po_meta : pub_metaData pub = meta_layout base;
  po_count : 0 <= tc < 2147483648;
  po_log : log_inv m base (pub_initialTermID pub) tc;
  po_bits : 16 <= positionBitsToShift pub <= 30;
  po_parts : forall i, 0 <= i < 3 -> exists app,
      appenders pub !! Z.to_nat i = Some app /\ part_ok m base (term_length pub) i app;
  po_tail : rd_i64 m (tail_addr base (tc mod 3)) = raw_tail (active_term pub tc) off;
  po_off : 0 <= off < 2147483648 /\ off mod 32 = 0;
  po_max_pos : maxPossiblePosition pub = term_length pub * 2147483648;
  po_max_msg : maxMessageLength pub = term_length pub / 8;
  po_payload : 0 < maxPayloadLength pub <= 65536 /\ (maxPayloadLength pub + 32) mod 32 = 0;
  po_limit : buf_ok m (pos_buffer (pubLimit pub)) /\ 0 <= pos_offset (pubLimit pub) /\
             pos_offset (pubLimit pub) + 8 <= buf_length (pos_buffer (pubLimit pub)) }.

(** The position limit the driver has set. *)
Definition limit_val (m : mem) (pub : Publication) : Z :=
  rd_i64 m (bufferPtr (pos_buffer (pubLimit pub)) + pos_offset (pubLimit pub)).

(** The frames of a message: one, or its fragments. *)
Definition msg_frames (pub : Publication) (app : Appender) (tid : Z) (data : list Init.Byte.byte)
  : list frame :=
  if zlen data <=? maxPayloadLength pub
  then app_frames app tid [(unfragmented, data)]
  else app_frames app tid (fragments (Z.to_nat (maxPayloadLength pub)) data).

Section PubReads.
Context (m : mem) (pub : Publication) (base tc off : Z) (Hpub : pub_ok m pub base tc off).
Context (app : Appender) (Happ : active_app pub tc = Some app).

Local Abbreviation T := (term_length pub).
Local Abbreviation tid := (active_term pub tc).

Lemma term_length_range : 65536 <= T <= 1073741824 /\ T mod 32 = 0.
Proof using Hpub.
  destruct (po_bits _ _ _ _ _ Hpub). unfold term_length. split; [split|].
  - apply (Z.pow_le_mono_r 2 16); lia.
  - apply (Z.pow_le_mono_r 2 _ 30); lia.
  - replace (positionBitsToShift pub) with (positionBitsToShift pub - 5 + 5) by lia.
    rewrite Z.pow_add_r by lia. change (2 ^ 5) with 32. apply Z.mod_mul. lia.
Qed.

Lemma part_index : 0 <= tc mod 3 < 3.
Proof using Type. apply Z.mod_pos_bound. lia. Qed.

Lemma active_part : part_ok m base T (tc mod 3) app.
Proof using Hpub Happ.
  destruct (po_parts _ _ _ _ _ Hpub (tc mod 3) part_index) as (app' & Hl & Hp).
  unfold active_app in Happ. rewrite Happ in Hl. by injection Hl as <-.
Qed.

Lemma active_app_ok : app_ok m app /\ f64_val m (tailCounter app) = raw_tail tid off.
Proof using Hpub Happ.
  destruct active_part as [H1 H2 H3 H4]. split; [done|].
  unfold f64_val. rewrite H2. by apply po_tail.
Qed.

Lemma meta_field_ok o : 0 <= o -> o + 4 <= 448 ->
  f32_ok m (mkInt32Field (base + o)).
Proof using Hpub.
  intros. destruct (po_log _ _ _ _ _ Hpub) as [Hr _ _ _ _ _].
  eapply region_ok_sub; [exact Hr| | |]; simpl; lia.
Qed.

Lemma Get_termCount : Int32Field_Get (ActiveTermCountOff (pub_metaData pub)) m = Ret tc m.
Proof using Hpub.
  rewrite (po_meta _ _ _ _ _ Hpub). rewrite Int32Field_Get_ok by (apply meta_field_ok; lia).
  unfold f32_val. cbn. by rewrite (li_count _ _ _ _ (po_log _ _ _ _ _ Hpub)).
Qed.

Lemma Get_initTermID :
  Int32Field_Get (InitTermID (pub_metaData pub)) m = Ret (pub_initialTermID pub) m.
Proof using Hpub.
  rewrite (po_meta _ _ _ _ _ Hpub). rewrite Int32Field_Get_ok by (apply meta_field_ok; lia).
  unfold f32_val. cbn. by rewrite (li_init _ _ _ _ (po_log _ _ _ _ _ Hpub)).
Qed.

Lemma Get_isConnected :
  Int32Field_Get (IsConnected (pub_metaData pub)) m = Ret (rd_i32 m (base + 136)) m.
Proof using Hpub.
  rewrite (po_meta _ _ _ _ _ Hpub). apply Int32Field_Get_ok, meta_field_ok; lia.
Qed.

Lemma Get_limit : Position_get (pubLimit pub) m = Ret (limit_val m pub) m.
Proof using Hpub. destruct (po_limit _ _ _ _ _ Hpub) as (? & ? & ?). by apply GetInt64_ok. Qed.

Lemma Get_appender : index_or_panic (appenders pub) (Z.rem tc PartitionCount) m = Ret app m.
Proof using Hpub Happ.
  pose proof (po_count _ _ _ _ _ Hpub). pose proof part_index.
  unfold index_or_panic, PartitionCount. rewrite Z.rem_mod_nonneg by lia.
  rewrite (proj2 (Z.ltb_ge _ _)) by lia. unfold active_app in Happ. by rewrite Happ.
Qed.

Lemma Get_rawTail : RawTail app m = Ret (raw_tail tid off) m.
Proof using Hpub Happ.
  destruct active_app_ok as [[] <-]. by apply Int64Field_Get_ok.
Qed.

Lemma rawTail_split :
  TermID (raw_tail tid off) = tid /\ Z.land (raw_tail tid off) 0xFFFFFFFF = off.
Proof using Hpub.
  destruct (po_off _ _ _ _ _ Hpub). split; [apply TermID_raw|apply raw_tail_offset]; try lia.
  apply i32_range.
Qed.

Lemma term_count : i32 (tid - pub_initialTermID pub) = tc.
Proof using Hpub.
  pose proof (po_count _ _ _ _ _ Hpub). unfold active_term. rewrite i32_sub_i32.
  rewrite Z.add_simpl_l. apply i32_small. lia.
Qed.

Lemma term_begin :
  computeTermBeginPosition tid (positionBitsToShift pub) (pub_initialTermID pub) = tc * T.
Proof using Hpub.
  pose proof (po_count _ _ _ _ _ Hpub). pose proof (po_bits _ _ _ _ _ Hpub).
  pose proof term_length_range as [? _].
  unfold computeTermBeginPosition. rewrite term_count, u32_small by lia.
  rewrite Z.shiftl_mul_pow2 by lia. fold T. apply i64_small. nia.
Qed.

Lemma position_range : 0 <= tc * T /\ tc * T + off < 2305843011361177600.
Proof using Hpub.
  pose proof (po_count _ _ _ _ _ Hpub). destruct (po_off _ _ _ _ _ Hpub).
  pose proof term_length_range as [? _]. nia.
Qed.
End PubReads.

(** ** What appends keep *)

Lemma log_inv_ext m m' base init tc :
  (forall i, base <= i < base + 448 -> m' !! i = m !! i) ->
  log_inv m base init tc -> log_inv m' base init tc.
Proof.
  intros Hext [Hr Hi Hc Ha Hn Hl].
  assert (H4 : forall o, 0 <= o -> o + 4 <= 448 -> rd_i32 m' (base + o) = rd_i32 m (base + o)).
  { intros. unfold rd_i32. do 2 f_equal. apply rd_ext. intros. apply Hext. lia. }
  assert (H8 : forall i, 0 <= i mod 3 < 3 -> rd_i64 m' (tail_addr base (i mod 3)) = rd_i64 m (tail_addr base (i mod 3))).
  { intros. unfold rd_i64, tail_addr. do 2 f_equal. apply rd_ext. intros. apply Hext. lia. }
  constructor; rewrite ?H4, ?H8 by (lia || apply Z.mod_pos_bound; lia); try done.
  destruct Hr as (? & ? & ? & Hr). split_and!; try done. intros i Hin. rewrite Hext by done. by apply Hr.
Qed.

(** Moving the active tail inside its term. *)
Lemma log_inv_tail m base init tc off :
  log_inv m base init tc -> 0 <= tc -> 0 <= off < 4294967296 ->
  log_inv (wr m (tail_addr base (tc mod 3)) (le_split 8 (raw_tail (i32 (init + tc)) off))) base init tc.
Proof.
  intros [Hr Hi Hc Ha Hn Hl] Htc Hoff.
  pose proof (Z.mod_pos_bound tc 3 ltac:(lia)). pose proof (Z.mod_pos_bound (tc + 1) 3 ltac:(lia)).
  pose proof (Z.mod_pos_bound (tc + 2) 3 ltac:(lia)).
  destruct (partitions_distinct tc ltac:(lia)) as (?&?&?).
  pose proof (raw_tail_range (i32 (init + tc)) off (i32_range _) Hoff) as Hrt. unfold is_i64 in Hrt.
  set (raw := raw_tail _ off) in *.
  constructor; unfold tail_addr in *; [by apply region_ok_wr|mem_simpl; done..| |mem_simpl; done|mem_simpl; done].
  mem_simpl. unfold raw. apply TermID_raw; [apply i32_range|lia].
Qed.

Lemma part_ok_keeps m m' base T i app : keeps m m' -> part_ok m base T i app -> part_ok m' base T i app.
Proof. intros Hk [? ? ? ?]. constructor; try done. by eapply app_ok_keeps. Qed.

(** A publication whose memory changed, with a new term count or tail. *)
Lemma pub_ok_moved m m' pub base tc off tc' off' :
  pub_ok m pub base tc off -> keeps m m' ->
  log_inv m' base (pub_initialTermID pub) tc' -> 0 <= tc' < 2147483648 ->
  rd_i64 m' (tail_addr base (tc' mod 3)) = raw_tail (active_term pub tc') off' ->
  0 <= off' < 2147483648 -> off' mod 32 = 0 ->
  pub_ok m' pub base tc' off'.
Proof.
  intros [? ? ? ? ? Hp ? ? ? ? ? [? ?]] Hk Hlog Htc Htail Hoff Hal. constructor; try done.
  - intros i Hi. destruct (Hp i Hi) as (app & ? & ?). exists app. split; [done|].
    by eapply part_ok_keeps.
  - split; [by eapply buf_ok_keeps|done].
Qed.

Section PubAppend.
Context (m : mem) (pub : Publication) (base tc off : Z) (Hpub : pub_ok m pub base tc off).
Context (app : Appender) (Happ : active_app pub tc = Some app).

Local Abbreviation T := (term_length pub).
Local Abbreviation P := (maxPayloadLength pub).
Local Abbreviation tid := (active_term pub tc).
Local Abbreviation tb := (termBuffer app).

(** After a claim up to [off'] and writes inside the term buffer only. *)
Lemma pub_ok_written m' off' o n :
  only_in (claim_mem m app tid off') m' (bufferPtr tb + o) n -> keeps (claim_mem m app tid off') m' ->
  0 <= o -> o + n <= T -> 0 <= off' < 2147483648 -> off' mod 32 = 0 ->
  pub_ok m' pub base tc off'.
Proof using Hpub Happ.
  intros Ho Hk ? ? ? ?. destruct (active_part m pub base tc off Hpub app Happ) as [Ha Ht Hl Hd].
  pose proof (po_count _ _ _ _ _ Hpub). pose proof (part_index tc).
  assert (Hext : forall i, base <= i < base + 448 -> m' !! i = claim_mem m app tid off' !! i).
  { intros i Hi. apply Ho. unfold disjoint in Hd. lia. }
  assert (is_i64 (raw_tail tid off')) by (apply raw_tail_range; [apply i32_range|lia]).
  apply (pub_ok_moved m _ _ _ tc off); try done.
  - eapply keeps_trans; [apply keeps_claim_mem|done].
  - eapply log_inv_ext; [exact Hext|]. unfold claim_mem. rewrite Ht.
    apply log_inv_tail; [by apply po_log with off|lia..].
  - transitivity (rd_i64 (claim_mem m app tid off') (tail_addr base (tc mod 3))).
    + unfold rd_i64. do 2 f_equal. apply rd_ext. intros. apply Hext. unfold tail_addr in *. lia.
    + unfold claim_mem. rewrite Ht. by apply rd_i64_wr.
Qed.

(** The append of [Offer], whichever of the two it is. *)
Definition append_message (b : Buffer) (o len : Z) (sup : ReservedValueSupplier) : M mem (Z * Z) :=
  if len <=? P then AppendUnfragmentedMessage app b o len (Some sup)
  else (checkForMaxMessageLength pub len ;;;
        AppendFragmentedMessage app b o len P (Some sup)).

Lemma Offer_open b o len sup :
  Offer pub b o len sup m =
  if tc * T + off >=? limit_val m pub then backPressureStatus pub (tc * T + off) len m
  else bind (append_message b o len (supplier_or_default sup))
         (fun r => newPosition pub tc off r.2 (tc * T + off) r.1) m.
Proof using Hpub Happ.
  pose proof (position_range m pub base tc off Hpub).
  destruct (po_off _ _ _ _ _ Hpub).
  unfold Offer, Publication_IsClosed. rewrite (po_open _ _ _ _ _ Hpub).
  erewrite bind_Ret by (eapply Get_limit; done).
  erewrite bind_Ret by (eapply Get_termCount; done).
  erewrite bind_Ret by (eapply Get_appender; done).
  erewrite bind_Ret by (eapply Get_rawTail; done).
  destruct (rawTail_split m pub base tc off Hpub) as [-> ->].
  erewrite bind_Ret by (eapply Get_initTermID; done).
  erewrite term_count, term_begin by done. rewrite Z.eqb_refl. cbn [negb].
  rewrite i64_small by lia.
  destruct (tc * T + off >=? limit_val m pub); [done|].
  unfold append_message, bind. destruct (if len <=? P then _ else _) as [[]|]; done.
Qed.

Lemma newPosition_advanced ro m' :
  0 < ro <= T -> newPosition pub tc off tid (tc * T + off) ro m' = Ret (tc * T + ro) m'.
Proof using Hpub.
  intros. pose proof (position_range m pub base tc off Hpub). destruct (po_off _ _ _ _ _ Hpub).
  pose proof (term_length_range m pub base tc off Hpub).
  unfold newPosition. replace (ro >? 0) with true by lia. unfold ret. f_equal.
  rewrite (i64_small (_ - _)) by lia. rewrite i64_small by lia. lia.
Qed.

Lemma seg_space_single fl data :
  seg_space (app_frames app tid [(fl, data)]) = align_up (zlen data + 32) 32.
Proof using Type.
  cbn [app_frames data_frames map seg_space]. unfold frame_space, frame_length. cbn [fr_data snd].
  rewrite (Z.add_comm 32). lia.
Qed.

(** The space of a message no longer than the publication allows: its headers and padding at
    most double it. *)
Lemma msg_space_twice data :
  zlen data <= T / 8 ->
  32 <= seg_space (msg_frames pub app tid data) <= 2 * zlen data + 64 /\
  seg_space (msg_frames pub app tid data) mod 32 = 0.
Proof using Hpub.
  intros Hlen. pose proof (term_length_range m pub base tc off Hpub) as [? _].
  destruct (po_payload _ _ _ _ _ Hpub) as [? Hal]. pose proof (zlen_nonneg data).
  assert (zlen data <= 134217728) by dlia.
  unfold msg_frames. destruct (Z.leb_spec (zlen data) P) as [Hle|Hgt].
  { rewrite seg_space_single. pose proof (align_up_spec (zlen data + 32) 32 ltac:(lia)). lia. }
  unfold app_frames, fragments.
  rewrite fragments_from_space by (rewrite ?Z2Nat.id by lia; lia || done).
  rewrite Z2Nat.id by lia.
  pose proof (Z.mod_pos_bound (zlen data) P ltac:(lia)).
  pose proof (Z.div_mod (zlen data) P ltac:(lia)) as Hdm.
  pose proof (align_up_spec (zlen data mod P + 32) 32 ltac:(lia)) as [? ?].
  assert (1 <= zlen data / P) by (apply Z.div_le_lower_bound; lia).
  assert (32 <= P) by dlia.
  set (q := zlen data / P) in *.
  assert (q * (P + 32) <= 2 * (P * q)) by nia.
  assert ((q * (P + 32)) mod 32 = 0) by (rewrite Z.mul_mod, Hal, Z.mul_0_r by lia; done).
  assert (P + 32 <= q * (P + 32)) by nia.
  destruct (zlen data mod P >? 0); dlia.
Qed.

Lemma msg_space_bound data :
  zlen data <= T / 8 ->
  32 <= seg_space (msg_frames pub app tid data) <= 805306368 /\
  seg_space (msg_frames pub app tid data) mod 32 = 0.
Proof using Hpub.
  intros Hlen. destruct (msg_space_twice data Hlen) as [? ?].
  pose proof (term_length_range m pub base tc off Hpub) as [? _].
  assert (zlen data <= 134217728) by dlia. lia.
Qed.

Lemma append_message_fits b o len sup :
  src_ok m app b o len -> supplier_reads sup -> len <= maxMessageLength pub ->
  let fs := msg_frames pub app tid (message m b o len) in
  off + seg_space fs <= T ->
  exists m', append_message b o len sup m = Ret (off + seg_space fs, tid) m' /\
    appended (claim_mem m app tid (off + seg_space fs)) m' (bufferPtr tb) off fs.
Proof using Hpub Happ.
  intros Hsrc Hsup Hmax fs Hfit. rewrite (po_max_msg _ _ _ _ _ Hpub) in Hmax.
  destruct (active_app_ok m pub base tc off Hpub app Happ) as [Ha Htail].
  destruct (active_part m pub base tc off Hpub app Happ) as [_ _ Hl _].
  pose proof (term_length_range m pub base tc off Hpub) as [? _].
  pose proof (so_len _ _ _ _ _ Hsrc). destruct (po_off _ _ _ _ _ Hpub).
  assert (Htid : is_i32 tid) by apply i32_range.
  unfold append_message, fs, msg_frames in *. rewrite zlen_message in * by lia.
  destruct (Z.leb_spec len P) as [Hle|Hgt].
  - rewrite seg_space_single, zlen_message in * by lia.
    destruct (AppendUnfragmentedMessage_ok m app tid off Ha Htid ltac:(lia) Htail b o len (Some sup))
      as [res Hrun]; [done..|lia|].
    eexists. split; [exact Hrun|].
    eapply appended_cons; [|apply only_in_commit_mem|apply keeps_commit_mem|apply appended_nil].
    cbn [fst snd]. apply (frame_at_commit_mem _ _ _ _ _ _ None); try done; [apply Ha|].
    cbn [fr_data]. rewrite zlen_message by lia. pose proof (align_up_spec (len + 32) 32 ltac:(lia)). lia.
  - unfold checkForMaxMessageLength. rewrite (po_max_msg _ _ _ _ _ Hpub).
    replace (len >? T / 8) with false by lia. rewrite bind_ret_l.
    destruct (po_payload _ _ _ _ _ Hpub).
    apply AppendFragmentedMessage_ok; try done; try lia. dlia.
Qed.

(** What either offer does with the result of its append of [data]. *)
Definition offered_at (append : M mem (Z * Z)) : M mem Z :=
  bind append (fun r => newPosition pub tc off r.2 (tc * T + off) r.1).

(** A message accepted: the position returned is the old one plus the space of its
    frames, the frames are committed at the old tail, and the tail is past them. *)
Lemma offered_fits append data m' :
  zlen data <= T / 8 ->
  let fs := msg_frames pub app tid data in
  off + seg_space fs <= T ->
  append m = Ret (off + seg_space fs, tid) m' ->
  appended (claim_mem m app tid (off + seg_space fs)) m' (bufferPtr tb) off fs ->
  offered_at append m = Ret (tc * T + off + seg_space fs) m' /\
  pub_ok m' pub base tc (off + seg_space fs).
Proof using Hpub Happ.
  intros Hlen fs Hfit Hrun Hap. pose proof (term_length_range m pub base tc off Hpub) as [? _].
  destruct (po_off _ _ _ _ _ Hpub) as [? Hoff].
  destruct (msg_space_bound data Hlen) as [? Hal]. fold fs in H1, Hal.
  split; [|eapply pub_ok_written; [apply Hap|apply Hap|lia..| |]].
  - unfold offered_at. erewrite bind_Ret by exact Hrun. cbn [fst snd].
    rewrite newPosition_advanced by lia. f_equal. lia.
  - lia.
  - rewrite Z.add_mod, Hoff, Hal by lia. done.
Qed.

Lemma Offer_fits b o len sup :
  src_ok m app b o len -> supplier_reads (supplier_or_default sup) ->
  len <= maxMessageLength pub -> tc * T + off < limit_val m pub ->
  let fs := msg_frames pub app tid (message m b o len) in
  off + seg_space fs <= T ->
  exists m', Offer pub b o len sup m = Ret (tc * T + off + seg_space fs) m' /\
    pub_ok m' pub base tc (off + seg_space fs) /\
    appended (claim_mem m app tid (off + seg_space fs)) m' (bufferPtr tb) off fs.
Proof using Hpub Happ.
  intros Hsrc Hsup Hmax Hlim fs Hfit. pose proof (so_len _ _ _ _ _ Hsrc).
  destruct (append_message_fits b o len _ Hsrc Hsup Hmax Hfit) as (m' & Hrun & Hap).
  rewrite (po_max_msg _ _ _ _ _ Hpub) in Hmax.
  destruct (offered_fits _ (message m b o len) m' ltac:(by rewrite zlen_message by lia) Hfit Hrun Hap) as [Hoff Hp].
  exists m'. split; [|done].
  rewrite Offer_open. by replace (tc * T + off >=? limit_val m pub) with false by lia.
Qed.

(** The end of a term *)

Lemma append_message_full b o len sup :
  0 <= len <= maxMessageLength pub ->
  let fs := msg_frames pub app tid (message m b o len) in
  T < off + seg_space fs ->
  append_message b o len sup m =
  bind (end_of_log app tid off) (fun r => ret (r, tid)) (claim_mem m app tid (off + seg_space fs)).
Proof using Hpub Happ.
  intros Hlen fs Hfull. rewrite (po_max_msg _ _ _ _ _ Hpub) in Hlen.
  destruct (active_app_ok m pub base tc off Hpub app Happ) as [Ha Htail].
  destruct (active_part m pub base tc off Hpub app Happ) as [_ _ Hl _].
  pose proof (term_length_range m pub base tc off Hpub) as [? _].
  destruct (po_off _ _ _ _ _ Hpub). destruct (po_payload _ _ _ _ _ Hpub).
  assert (Htid : is_i32 tid) by apply i32_range. assert (len <= 134217728) by dlia.
  destruct (msg_space_bound (message m b o len)) as [Hb _]; [rewrite zlen_message; lia|].
  fold fs in Hb. unfold append_message, fs, msg_frames in *. rewrite zlen_message in * by lia.
  destruct (Z.leb_spec len P) as [Hle|Hgt].
  - rewrite seg_space_single, zlen_message in * by lia.
    apply AppendUnfragmentedMessage_full; try done; lia.
  - unfold checkForMaxMessageLength. rewrite (po_max_msg _ _ _ _ _ Hpub).
    replace (len >? T / 8) with false by lia. rewrite bind_ret_l.
    assert (Hreq : fragmented_length len P
                   = seg_space (app_frames app tid (fragments (Z.to_nat P) (message m b o len)))).
    { rewrite <- (zlen_message m b o len) at 1 by lia.
      apply fragmented_length_space; rewrite ?zlen_message; try lia; done. }
    rewrite <- Hreq in *. apply AppendFragmentedMessage_full; try done; lia.
Qed.

(** The frames that the end of the log leaves: the padding, unless the tail is already
    at or past the end. *)
Definition end_frames (m0 : mem) : list frame :=
  if off <? T then [pad_frame m0 (bufferPtr tb) off (T - off) tid (app_headerWriter app)] else [].

Lemma end_frames_space m0 : off <= T -> seg_space (end_frames m0) = T - off.
Proof using Hpub.
  intros Hle. pose proof (term_length_range m pub base tc off Hpub) as [? ?].
  destruct (po_off _ _ _ _ _ Hpub).
  unfold end_frames. destruct (Z.ltb_spec off T); cbn [seg_space]; [|lia].
  unfold frame_space, frame_length, pad_frame. cbn [fr_data]. rewrite zlen_rd.
  assert (32 <= T - off) by dlia.
  replace (32 + Z.of_nat (Z.to_nat (T - off - 32))) with (T - off) by lia.
  rewrite align_up_id; [lia|lia|dlia].
Qed.

Lemma end_of_log_ok m0 :
  app_ok m0 app ->
  exists r m', end_of_log app tid off m0 = Ret r m' /\ r < 0 /\ keeps m0 m' /\
    log_seg m' (bufferPtr tb) off (end_frames m0) /\
    only_in m0 m' (bufferPtr tb + Z.min off T) (T - Z.min off T).
Proof using Hpub Happ.
  intros Ha. destruct (active_part m pub base tc off Hpub app Happ) as [_ _ Hl _].
  pose proof (term_length_range m pub base tc off Hpub) as [? ?].
  destruct (po_off _ _ _ _ _ Hpub). destruct Ha as [Hb Hal Hmax _ _ Hhw].
  unfold end_of_log, end_frames. destruct (Z.ltb_spec off T) as [Hlt|Hge].
  - rewrite handleEndOfLog_pad by (done || lia).
    destruct (frame_at_pad_mem m0 tb (app_headerWriter app) tid off Hb Hhw (i32_range _)
                ltac:(lia) ltac:(done) Hal Hmax ltac:(lia)) as [Hf _].
    rewrite Hl in *. eexists _, _. split; [done|]. split_and!; try done.
    + rewrite <- Hl. apply keeps_pad_mem.
    + rewrite Z.min_l by lia. eapply only_in_weaken; [rewrite <- Hl; apply only_in_pad_mem|lia|dlia].
  - destruct (decide (off = T)).
    + rewrite handleEndOfLog_at_end by (done || lia). eexists _, _.
      split_and!; try done. apply keeps_refl.
    + rewrite handleEndOfLog_past by (done || lia). eexists _, _.
      split_and!; try done. apply keeps_refl.
Qed.

(** A message that does not fit: the rest of the term is padded, the log rotates to the
    next term, and the caller is told to try again. *)
Lemma offered_rotates append data :
  zlen data <= T / 8 ->
  let fs := msg_frames pub app tid data in
  off <= T < off + seg_space fs -> tc < 2147483647 ->
  append m = bind (end_of_log app tid off) (fun r => ret (r, tid))
               (claim_mem m app tid (off + seg_space fs)) ->
  exists m', offered_at append m = Ret AdminAction m' /\
    pub_ok m' pub base (tc + 1) 0 /\ keeps m m' /\
    log_seg m' (bufferPtr tb) off (end_frames (claim_mem m app tid (off + seg_space fs))) /\
    (forall i, ~ (base <= i < base + 448) -> ~ (bufferPtr tb + off <= i < bufferPtr tb + T) ->
       m' !! i = m !! i).
Proof using Hpub Happ.
  intros Hlen fs Hfull Htc Hrun.
  destruct (active_part m pub base tc off Hpub app Happ) as [Ha Ht Hl Hd].
  pose proof (term_length_range m pub base tc off Hpub) as [? ?].
  pose proof (position_range m pub base tc off Hpub). pose proof (po_count _ _ _ _ _ Hpub).
  destruct (po_off _ _ _ _ _ Hpub). pose proof (part_index tc).
  destruct (msg_space_bound data Hlen) as [Hb Hal].
  fold fs in Hb, Hal. set (m0 := claim_mem m app tid (off + seg_space fs)) in *.
  destruct (end_of_log_ok m0) as (r & m1 & Hend & Hr & Hk1 & Hseg & Ho1).
  { eapply app_ok_keeps; [apply keeps_claim_mem|done]. }
  rewrite Z.min_l in Ho1 by lia.
  assert (Hp1 : pub_ok m1 pub base tc (off + seg_space fs)).
  { eapply pub_ok_written; [exact Ho1|done|lia..|]. rewrite Z.add_mod, H4, Hal by lia. done. }
  destruct (RotateLog_moves m1 base (pub_initialTermID pub) tc) as (m' & Hrot & Hlog & Htail & Ho2);
    [by apply po_log with (off + seg_space fs)|lia|].
  assert (Hk2 : keeps m1 m').
  { intros i Hi. destruct (decide (base <= i < base + 448)) as [Hin|Hout]; [|by rewrite Ho2].
    destruct (li_region _ _ _ _ Hlog) as (_ & _ & _ & Hreg). by apply Hreg. }
  exists m'. split_and!.
  - unfold offered_at.
    erewrite bind_Ret by (rewrite Hrun; erewrite bind_Ret by exact Hend; done). cbn [fst snd].
    unfold newPosition. replace (r >? 0) with false by lia. rewrite i64_small by lia.
    rewrite (po_max_pos _ _ _ _ _ Hpub). replace (_ >? T * 2147483648) with false by nia.
    rewrite (po_meta _ _ _ _ _ Hpub). erewrite bind_Ret by exact Hrot. done.
  - eapply pub_ok_moved; [exact Hp1|done|done|lia|exact Htail|lia|done].
  - eapply keeps_trans; [apply keeps_claim_mem|]. by eapply keeps_trans.
  - eapply log_seg_ext; [|exact Hseg]. intros i Hi. apply Ho2. unfold disjoint in Hd.
    pose proof (end_frames_space m0). lia.
  - intros i Hi1 Hi2. rewrite Ho2 by done. rewrite Ho1 by lia.
    unfold m0, claim_mem. apply wr_lookup_ne. rewrite zlen_le_split, Ht. unfold tail_addr. lia.
Qed.

Lemma Offer_rotates b o len sup :
  0 <= len <= maxMessageLength pub -> tc * T + off < limit_val m pub ->
  let fs := msg_frames pub app tid (message m b o len) in
  off <= T < off + seg_space fs -> tc < 2147483647 ->
  exists m', Offer pub b o len sup m = Ret AdminAction m' /\
    pub_ok m' pub base (tc + 1) 0 /\ keeps m m' /\
    log_seg m' (bufferPtr tb) off (end_frames (claim_mem m app tid (off + seg_space fs))) /\
    (forall i, ~ (base <= i < base + 448) -> ~ (bufferPtr tb + off <= i < bufferPtr tb + T) ->
       m' !! i = m !! i).
Proof using Hpub Happ.
  intros Hlen Hlim fs Hfull Htc.
  pose proof (append_message_full b o len (supplier_or_default sup) Hlen (proj2 Hfull)) as Hrun.
  rewrite (po_max_msg _ _ _ _ _ Hpub) in Hlen.
  rewrite Offer_open. replace (tc * T + off >=? limit_val m pub) with false by lia.
  by apply offered_rotates; [rewrite zlen_message; lia|..].
Qed.
End PubAppend.

(** ** Rejected offers *)

Section PubReject.
Context (m : mem) (pub : Publication) (base tc off : Z) (Hpub : pub_ok m pub base tc off).

Local Abbreviation T := (term_length pub).

(** Why an offer at the limit is refused. *)
Definition reject_status (m0 : mem) (pos len : Z) : Z :=
  if pos + len >=? maxPossiblePosition pub then MaxPositionExceeded
  else if rd_i32 m0 (base + 136) =? 1 then BackPressured else NotConnected.

Lemma backPressureStatus_ok pos len :
  0 <= pos < 4611686018427387904 -> is_i32 len ->
  backPressureStatus pub pos len m = Ret (reject_status m pos len) m.
Proof using Hpub.
  unfold is_i32. intros. unfold backPressureStatus, reject_status. rewrite i64_small by lia.
  destruct (pos + len >=? maxPossiblePosition pub); [done|].
  erewrite bind_Ret by (eapply Get_isConnected; done). by destruct (_ =? 1).
Qed.

Lemma active_app_exists : exists app, active_app pub tc = Some app.
Proof using Hpub.
  destruct (po_parts _ _ _ _ _ Hpub (tc mod 3) (part_index tc)) as (app & ? & _). by exists app.
Qed.

Lemma Offer_limited b o len sup :
  is_i32 len -> limit_val m pub <= tc * T + off ->
  Offer pub b o len sup m = Ret (reject_status m (tc * T + off) len) m.
Proof using Hpub.
  intros Hlen Hlim. destruct active_app_exists as [app Happ].
  pose proof (position_range m pub base tc off Hpub). destruct (po_off _ _ _ _ _ Hpub).
  rewrite (Offer_open m pub base tc off Hpub app Happ).
  replace (tc * T + off >=? limit_val m pub) with true by lia.
  apply backPressureStatus_ok; [lia|done].
Qed.

(** A message longer than the publication allows stops the caller before anything is
    claimed. *)
Lemma Offer_too_long b o len sup :
  tc * T + off < limit_val m pub -> maxPayloadLength pub < len -> maxMessageLength pub < len ->
  Offer pub b o len sup m = Exc (EPanic "Encoded message exceeds maxMessageLength") m.
Proof using Hpub.
  intros Hlim HP HM. destruct active_app_exists as [app Happ].
  rewrite (Offer_open m pub base tc off Hpub app Happ).
  replace (tc * T + off >=? limit_val m pub) with false by lia.
  apply bind_Exc. unfold append_message, checkForMaxMessageLength.
  rewrite (proj2 (Z.leb_gt _ _)) by lia. by replace (len >? maxMessageLength pub) with true by lia.
Qed.

Lemma Publication_Position_ok : Publication_Position pub m = Ret (tc * T + off) m.
Proof using Hpub.
  destruct active_app_exists as [app Happ].
  pose proof (position_range m pub base tc off Hpub). destruct (po_off _ _ _ _ _ Hpub).
  unfold Publication_Position, Publication_IsClosed. rewrite (po_open _ _ _ _ _ Hpub).
  erewrite bind_Ret by (eapply Get_termCount; done).
  erewrite bind_Ret by (eapply Get_appender; done).
  erewrite bind_Ret by (eapply Get_rawTail; done).
  destruct (rawTail_split m pub base tc off Hpub) as [-> ->].
  erewrite term_begin by done. by rewrite i64_small by lia.
Qed.
End PubReject.

(** ** Claims *)

Section PubClaim.
Context (m : mem) (pub : Publication) (base tc off : Z) (Hpub : pub_ok m pub base tc off).
Context (app : Appender) (Happ : active_app pub tc = Some app).

Local Abbreviation T := (term_length pub).
Local Abbreviation tid := (active_term pub tc).
Local Abbreviation tb := (termBuffer app).

Lemma TryClaim_open len :
  len <= maxPayloadLength pub ->
  TryClaim pub len m =
  if tc * T + off <? limit_val m pub
  then bind (Appender_Claim app len) (fun r =>
         bind (newPosition pub tc off r.1.2 (tc * T + off) r.1.1) (fun p => ret (p, r.2))) m
  else bind (backPressureStatus pub (tc * T + off) len) (fun p => ret (p, None)) m.
Proof using Hpub Happ.
  intros HP. pose proof (position_range m pub base tc off Hpub).
  destruct (po_off _ _ _ _ _ Hpub).
  unfold TryClaim, Publication_IsClosed. rewrite (po_open _ _ _ _ _ Hpub).
  unfold checkForMaxPayloadLength. replace (len >? maxPayloadLength pub) with false by lia.
  rewrite bind_ret_l.
  erewrite bind_Ret by (eapply Get_limit; done).
  erewrite bind_Ret by (eapply Get_termCount; done).
  erewrite bind_Ret by (eapply Get_appender; done).
  erewrite bind_Ret by (eapply Get_rawTail; done).
  destruct (rawTail_split m pub base tc off Hpub) as [-> ->].
  erewrite term_begin by done. rewrite i64_small by lia.
  destruct (tc * T + off <? limit_val m pub); [|done].
  unfold bind. destruct (Appender_Claim app len m) as [[[]]|]; done.
Qed.

(** A claim that fits: a claim over the frame at the old tail, marked as in progress. *)
Lemma TryClaim_fits len :
  0 <= len <= maxPayloadLength pub -> tc * T + off < limit_val m pub ->
  let space := align_up (len + 32) 32 in
  off + space <= T ->
  let m' := header_mem (claim_mem m app tid (off + space)) (bufferPtr tb) off (len + 32) tid
              (app_headerWriter app) in
  TryClaim pub len m = Ret (tc * T + off + space, Some (claimed app off len)) m' /\
  pub_ok m' pub base tc (off + space).
Proof using Hpub Happ.
  intros Hlen Hlim space Hfit m'.
  destruct (active_app_ok m pub base tc off Hpub app Happ) as [Ha Htail].
  destruct (active_part m pub base tc off Hpub app Happ) as [_ _ Hl _].
  destruct (po_off _ _ _ _ _ Hpub) as [? Hoff].
  pose proof (term_length_range m pub base tc off Hpub) as [? _].
  pose proof (align_up_spec (len + 32) 32 ltac:(lia)) as [? Hal]. fold space in H1, Hal.
  split.
  - rewrite TryClaim_open by lia. rewrite (proj2 (Z.ltb_lt _ _)) by lia.
    erewrite bind_Ret by (apply (Appender_Claim_ok m app tid off len); try done; [apply i32_range|lia..]).
    cbn [fst snd]. fold space.
    erewrite bind_Ret by (apply (newPosition_advanced m pub base tc off Hpub); lia).
    unfold ret. do 2 f_equal. lia.
  - eapply (pub_ok_written m pub base tc off Hpub app Happ); [apply only_in_header_mem|apply keeps_header_mem|lia..|].
    rewrite Z.add_mod, Hoff, Hal by lia. done.
Qed.
End PubClaim.

(** ** New publications *)

(** The conductor sets the limit counter of a new publication. *)
Definition set_limit (pub : Publication) (limit : Position) : Publication := {|
  pub_channel := pub_channel pub; pub_regID := pub_regID pub;
  pub_originalRegID := pub_originalRegID pub; maxPossiblePosition := maxPossiblePosition pub;
  pub_streamID := pub_streamID pub; pub_sessionID := pub_sessionID pub;
  pub_initialTermID := pub_initialTermID pub; maxPayloadLength := maxPayloadLength pub;
  maxMessageLength := maxMessageLength pub; positionBitsToShift := positionBitsToShift pub;
  pubLimit := limit; channelStatusIndicatorID := channelStatusIndicatorID pub;
  pub_isClosed := pub_isClosed pub; pub_metaData := pub_metaData pub; appenders := appenders pub |}.

(** A log as [LogBuffers_Wrap] divides it, in term [tc] with the tail at [off]. *)
Record log_ok (m : mem) (lb : LogBuffers) (log bits tc off : Z) : Prop := {
  lo_bits : 16 <= bits <= 30;
  lo_region : region_ok m log (3 * 2 ^ bits + LogMetaDataLength);
  lo_buffers : lb_buffers lb = [mkBuffer log (2 ^ bits); mkBuffer (log + 2 ^ bits) (2 ^ bits);
                 mkBuffer (log + 2 * 2 ^ bits) (2 ^ bits);
                 mkBuffer (log + 3 * 2 ^ bits) LogMetaDataLength];
  lo_meta : lb_meta lb = meta_layout (log + 3 * 2 ^ bits);
  lo_count : 0 <= tc < 2147483648;
  lo_inv : let base := log + 3 * 2 ^ bits in log_inv m base (rd_i32 m (base + 264)) tc;
  lo_tail : let base := log + 3 * 2 ^ bits in
    rd_i64 m (tail_addr base (tc mod 3)) = raw_tail (i32 (rd_i32 m (base + 264) + tc)) off;
  lo_off : 0 <= off < 2147483648 /\ off mod 32 = 0;
  lo_mtu : let mtu := rd_i32 m (log + 3 * 2 ^ bits + 272) in 32 < mtu <= 65568 /\ mtu mod 32 = 0 }.

Section NewPub.
Context (m : mem) (lb : LogBuffers) (log bits tc off : Z) (Hlog : log_ok m lb log bits tc off).

Local Abbreviation T := (2 ^ bits).
Local Abbreviation base := (log + 3 * 2 ^ bits).

Lemma log_T_range : 65536 <= T <= 1073741824 /\ T mod 32 = 0.
Proof using Hlog.
  destruct (lo_bits _ _ _ _ _ _ Hlog). split; [split|].
  - apply (Z.pow_le_mono_r 2 16); lia.
  - apply (Z.pow_le_mono_r 2 _ 30); lia.
  - replace bits with (bits - 5 + 5) by lia.
    rewrite Z.pow_add_r by lia. change (2 ^ 5) with 32. apply Z.mod_mul. lia.
Qed.

(** The appender over partition [i]. *)
Definition part_appender (i : Z) : Appender :=
  mkAppender (mkBuffer (log + i * T) T) (mkInt64Field (tail_addr base i))
    (mkHeaderWriter (rd_i32 m (base + 332)) (rd_i32 m (base + 336))).

Lemma MakeAppender_ok i : 0 <= i < 3 -> MakeAppender lb i m = Ret (part_appender i) m.
Proof using Hlog.
  intros Hi. pose proof log_T_range as [? _]. pose proof (lo_region _ _ _ _ _ _ Hlog) as Hreg.
  unfold LogMetaDataLength, pageMinSize in Hreg.
  unfold MakeAppender, LogBuffers_Buffer, LogBuffers_Meta.
  rewrite (lo_buffers _ _ _ _ _ _ Hlog), (lo_meta _ _ _ _ _ _ Hlog).
  erewrite (bind_Ret _ _ _ (mkBuffer (log + i * T) T)).
  2: { assert (i = 0 \/ i = 1 \/ i = 2) as [->|[->| ->]] by lia; unfold index_or_panic; simpl;
       unfold ret; do 2 f_equal; lia. }
  erewrite bind_Ret by (by apply tail_field).
  assert (Hh : buf_ok m (mkBuffer (base + 320) 32)).
  { split; [eapply region_ok_sub; [exact Hreg|..]|]; simpl; lia. }
  unfold RawDataField_Get, headerWriter_fill. cbn [DefaultFrameHeader meta_layout].
  unfold DataFrameHeader.SessionIDFieldOffset, DataFrameHeader.StreamIDFieldOffset.
  rewrite bind_assoc. erewrite bind_Ret by (apply GetInt32_ok; simpl; done || lia).
  rewrite bind_assoc. erewrite bind_Ret by (apply GetInt32_ok; simpl; done || lia).
  rewrite bind_ret_l. unfold ret, part_appender. cbn [bufferPtr].
  replace (base + 320 + 12) with (base + 332) by lia.
  replace (base + 320 + 16) with (base + 336) by lia. done.
Qed.

Lemma part_appender_ok i : 0 <= i < 3 -> part_ok m base T i (part_appender i).
Proof using Hlog.
  intros Hi. pose proof log_T_range as [? ?]. pose proof (lo_region _ _ _ _ _ _ Hlog) as Hreg.
  unfold LogMetaDataLength, pageMinSize in Hreg.
  assert (i * T + T <= 3 * T) by nia. assert (0 <= i * T) by nia.
  constructor; [|done..|unfold disjoint; simpl; lia].
  constructor; unfold disjoint, part_appender;
    cbn [termBuffer bufferPtr buf_length tailCounter f64_offset app_headerWriter]; try lia.
  - split; [eapply region_ok_sub; [exact Hreg|..]|]; cbn [bufferPtr buf_length]; lia.
  - eapply region_ok_sub; [exact Hreg|..]; unfold tail_addr; cbn [f64_offset]; lia.
  - unfold tail_addr. lia.
  - split; apply rd_i32_range.
Qed.

(** The publication over the log, before the conductor names it. *)
Definition new_publication : Publication := {|
  pub_channel := ""; pub_regID := 0; pub_originalRegID := 0;
  maxPossiblePosition := T * 2147483648;
  pub_streamID := 0; pub_sessionID := 0;
  pub_initialTermID := rd_i32 m (base + 264);
  maxPayloadLength := rd_i32 m (base + 272) - 32;
  maxMessageLength := T / 8;
  positionBitsToShift := bits;
  pubLimit := mkPosition (mkBuffer 0 0) 0 0;
  channelStatusIndicatorID := 0;
  pub_isClosed := false;
  pub_metaData := meta_layout base;
  appenders := map part_appender [0; 1; 2] |}.

Lemma NewPublication_new : NewPublication lb m = Ret new_publication m.
Proof using Hlog.
  pose proof log_T_range as [? ?]. pose proof (lo_region _ _ _ _ _ _ Hlog) as Hreg.
  unfold LogMetaDataLength, pageMinSize in Hreg. pose proof (lo_bits _ _ _ _ _ _ Hlog).
  destruct (lo_mtu _ _ _ _ _ _ Hlog) as [? Hmtu].
  assert (Hf : forall o, 0 <= o -> o + 4 <= 448 -> f32_ok m (mkInt32Field (base + o))).
  { intros. eapply region_ok_sub; [exact Hreg|..]; simpl; lia. }
  assert (Hbits : NumberOfTrailingZeroes (u32 T) = bits).
  { rewrite u32_small by lia. apply NumberOfTrailingZeroes_pow2. lia. }
  unfold NewPublication. unfold LogBuffers_Buffer at 1. unfold LogBuffers_Meta.
  rewrite (lo_buffers _ _ _ _ _ _ Hlog), (lo_meta _ _ _ _ _ _ Hlog).
  erewrite (bind_Ret _ _ _ (mkBuffer log T)) by done.
  erewrite bind_Ret by (apply Int32Field_Get_ok, Hf; lia).
  erewrite bind_Ret by (apply Int32Field_Get_ok, Hf; lia).
  erewrite bind_Ret by (apply MakeAppender_ok; lia).
  erewrite bind_Ret by (apply MakeAppender_ok; lia).
  erewrite bind_Ret by (apply MakeAppender_ok; lia).
  unfold ret, new_publication, f32_val, Capacity, ComputeMaxMessageLength, DataFrameHeader.Length.
  cbn [buf_length f32_offset]. rewrite Hbits. change (Z.shiftl 1 31) with 2147483648.
  change (f32_offset (MTULen (meta_layout base))) with (base + 272).
  rewrite i64_small, i32_small, Z.quot_div_nonneg by lia. done.
Qed.

(** A new publication over a log is well-formed as soon as its limit counter is. *)
Lemma new_publication_ok limit :
  buf_ok m (pos_buffer limit) -> 0 <= pos_offset limit ->
  pos_offset limit + 8 <= buf_length (pos_buffer limit) ->
  pub_ok m (set_limit new_publication limit) base tc off.
Proof using Hlog.
  intros Hl1 Hl2 Hl3. destruct (lo_mtu _ _ _ _ _ _ Hlog) as [? Hmtu].
  constructor; try done.
  - exact (lo_count _ _ _ _ _ _ Hlog).
  - exact (lo_inv _ _ _ _ _ _ Hlog).
  - exact (lo_bits _ _ _ _ _ _ Hlog).
  - intros i Hi. exists (part_appender i). split; [|by apply part_appender_ok].
    by assert (i = 0 \/ i = 1 \/ i = 2) as [->|[->| ->]] by lia.
  - exact (lo_tail _ _ _ _ _ _ Hlog).
  - exact (lo_off _ _ _ _ _ _ Hlog).
  - cbn [maxPayloadLength set_limit new_publication]. split; [lia|]. by rewrite Z.sub_simpl_r.
Qed.
End NewPub.

(** ** What publications promise *)

(** What an offer of [data] does to an open publication in term [tc] with the tail at [off]:
    at the limit nothing is written and the status says why; below it a message that fits
    in the term is appended as its frames, and one that does not fit ends the term. *)
Definition offer_does (m : mem) (pub : Publication) (base tc off : Z) (app : Appender)
  (data : list Init.Byte.byte) (offer : M mem Z) : Prop :=
  let pos := tc * term_length pub + off in
  let fs := msg_frames pub app (active_term pub tc) data in
  let end_ := off + seg_space fs in
  let term := bufferPtr (termBuffer app) in
  if decide (limit_val m pub <= pos)
  then offer m = Ret (reject_status pub base m pos (zlen data)) m
  else if decide (end_ <= term_length pub)
  then exists m', offer m = Ret (pos + seg_space fs) m' /\ pub_ok m' pub base tc end_ /\
         appended (claim_mem m app (active_term pub tc) end_) m' term off fs
  else exists m', offer m = Ret AdminAction m' /\ pub_ok m' pub base (tc + 1) 0 /\
         log_seg m' term off (end_frames pub tc off app (claim_mem m app (active_term pub tc) end_)) /\
         (forall i, ~ (base <= i < base + 448) -> ~ (term + off <= i < term + term_length pub) ->
            m' !! i = m !! i).

Lemma Offer_does m pub base tc off app b o len sup :
  pub_ok m pub base tc off -> active_app pub tc = Some app -> tc < 2147483647 ->
  off <= term_length pub -> src_ok m app b o len -> supplier_reads (supplier_or_default sup) ->
  len <= maxMessageLength pub ->
  offer_does m pub base tc off app (message m b o len) (Offer pub b o len sup).
Proof.
  intros Hpub Happ Htc Hoff Hsrc Hsup Hlen.
  pose proof (so_len _ _ _ _ _ Hsrc). pose proof (term_length_range _ _ _ _ _ Hpub) as [? _].
  rewrite (po_max_msg _ _ _ _ _ Hpub) in Hlen.
  assert (term_length pub / 8 <= term_length pub) by (apply Z.div_le_upper_bound; lia).
  unfold offer_does. rewrite zlen_message by lia.
  destruct (decide (limit_val m pub <= _)) as [Hl|Hl].
  { apply (Offer_limited m pub base tc off Hpub); [unfold is_i32; lia|done]. }
  rewrite <- (po_max_msg _ _ _ _ _ Hpub) in Hlen.
  destruct (decide (_ <= term_length pub)) as [Hf|Hf].
  - apply (Offer_fits m pub base tc off Hpub app Happ); done || lia.
  - destruct (Offer_rotates m pub base tc off Hpub app Happ b o len sup) as (m' & ? & ? & _ & ? & ?);
      [lia|lia|lia|done|]. by exists m'.
Qed.

(** C2. The contract of [Offer] on an open publication, for a message that is not longer
    than the maximum: at the limit nothing is written and the status says why; below it a
    message that fits in the term is appended as its frames, nothing else changes, and the
    new position is returned; one that does not fit ends the term with padding, rotates
    the log and asks for a retry. *)
Theorem Offer_contract m pub base tc off app b o len sup :
  pub_ok m pub base tc off -> active_app pub tc = Some app -> tc < 2147483647 ->
  off <= term_length pub -> src_ok m app b o len -> supplier_reads (supplier_or_default sup) ->
  len <= maxMessageLength pub ->
  let pos := tc * term_length pub + off in
  let tid := active_term pub tc in
  let fs := msg_frames pub app tid (message m b o len) in
  let end_ := off + seg_space fs in
  let term := bufferPtr (termBuffer app) in
  if decide (limit_val m pub <= pos)
  then Offer pub b o len sup m = Ret (reject_status pub base m pos len) m
  else if decide (end_ <= term_length pub)
  then exists m', Offer pub b o len sup m = Ret (pos + seg_space fs) m' /\
         pub_ok m' pub base tc end_ /\ appended (claim_mem m app tid end_) m' term off fs
  else exists m', Offer pub b o len sup m = Ret AdminAction m' /\ pub_ok m' pub base (tc + 1) 0 /\
         log_seg m' term off (end_frames pub tc off app (claim_mem m app tid end_)) /\
         (forall i, ~ (base <= i < base + 448) -> ~ (term + off <= i < term + term_length pub) ->
            m' !! i = m !! i).
Proof.
  intros Hpub Happ Htc Hoff Hsrc Hsup Hlen.
  pose proof (Offer_does m pub base tc off app b o len sup Hpub Happ Htc Hoff Hsrc Hsup Hlen) as Hd.
  unfold offer_does in Hd. rewrite zlen_message in Hd by (apply (so_len _ _ _ _ _ Hsrc)). exact Hd.
Qed.

(** What stops an offer before anything is written: a message longer than
    [maxMessageLength] panics, and after [Close], which calls the conductor once and not
    again, every operation answers that the publication is closed. *)
Theorem Offer_refused {S E} (release : Z -> M S (option E)) m pub base tc off b o len sup s err s' :
  pub_ok m pub base tc off -> tc * term_length pub + off < limit_val m pub ->
  maxPayloadLength pub < len -> maxMessageLength pub < len ->
  release (pub_regID pub) s = Ret err s' ->
  Offer pub b o len sup m = Exc (EPanic "Encoded message exceeds maxMessageLength") m /\
  exists pub', Publication_Close release (Some pub) s = Ret (err, Some pub') s' /\
    Publication_Close release (Some pub') s' = Ret (None, Some pub') s' /\
    Offer pub' b o len sup m = Ret PublicationClosed m /\
    TryClaim pub' len m = Ret (PublicationClosed, None) m /\
    Publication_Position pub' m = Ret PublicationClosed m.
Proof.
  intros Hpub ? ? ? Hrel. split; [by apply (Offer_too_long m pub base tc off Hpub)|].
  exists (set_closed pub). unfold Publication_Close. rewrite (po_open _ _ _ _ _ Hpub).
  by erewrite bind_Ret by exact Hrel.
Qed.

(** A claim of a frame that fits: the user fills its payload through the claim's
    buffer; [Commit] then leaves the very frame of an append of that payload, and [Abort] a
    padding frame that readers skip. Either way the publication has moved past it. *)
Theorem TryClaim_commit_abort m pub base tc off app data :
  pub_ok m pub base tc off -> active_app pub tc = Some app -> data <> [] ->
  zlen data <= maxPayloadLength pub -> tc * term_length pub + off < limit_val m pub ->
  let space := align_up (zlen data + 32) 32 in
  off + space <= term_length pub ->
  let hw := app_headerWriter app in
  let fr ty := mkFrame unfragmented ty (hw_sessionID hw) (hw_streamID hw) (active_term pub tc) data in
  let term := bufferPtr (termBuffer app) in
  exists claim m1 m2 mc ma,
    TryClaim pub (zlen data) m = Ret (tc * term_length pub + off + space, Some claim) m1 /\
    pub_ok m1 pub base tc (off + space) /\ rd_i32 m1 (term + off) < 0 /\
    PutBytesArray (Claim_Buffer claim) (Claim_Offset claim) data 0 (Claim_Length claim) m1 = Ret tt m2 /\
    Claim_Commit claim m2 = Ret tt mc /\ frame_at mc term off (fr DataFrameHeader.TypeData) /\
    Claim_Abort claim m2 = Ret tt ma /\ frame_at ma term off (fr DataFrameHeader.TypePad).
Proof.
  intros Hpub Happ Hne HP Hlim space Hfit hw fr term. pose proof (zlen_nonneg data).
  destruct (TryClaim_fits m pub base tc off Hpub app Happ (zlen data)) as [Hrun Hpub']; [lia|done..|].
  fold space in Hrun, Hpub'.
  destruct (active_app_ok m pub base tc off Hpub app Happ) as [Ha Htail].
  destruct (active_part m pub base tc off Hpub app Happ) as [_ _ Hl _].
  destruct (po_off _ _ _ _ _ Hpub) as [? _]. pose proof (ao_max _ _ Ha).
  pose proof (align_up_spec (zlen data + 32) 32 ltac:(lia)) as [? _]. fold space in H2.
  assert (Htid : is_i32 (active_term pub tc)) by apply i32_range.
  set (m1 := header_mem _ _ _ _ _ _) in Hrun, Hpub'.
  assert (Hb1 : buf_ok m1 (termBuffer app)).
  { eapply buf_ok_keeps; [|apply (ao_buf _ _ Ha)].
    eapply keeps_trans; [apply keeps_claim_mem|apply keeps_header_mem]. }
  destruct (Claim_Abort_ok m app (active_term pub tc) off (zlen data)) with data as (ma & Hma & Hfa);
    try done; [lia..|rewrite Hl; fold space; lia|].
  eexists (claimed app off (zlen data)), m1, _, _, ma. split; [exact Hrun|]. split; [exact Hpub'|].
  split.
  { unfold m1, header_mem. mem_simpl. lia. }
  split.
  { apply (claim_fill_ok m app off (zlen data)); try done; [lia..|].
    rewrite Hl. fold space. lia. }
  split.
  { apply (Claim_Commit_ok m app (active_term pub tc) off (zlen data)); try done; [lia..|].
    rewrite Hl. fold space. lia. }
  split; [|by split].
  apply (frame_at_commit_mem _ term off _ hw data None None); try done; try lia. apply (ao_hw _ _ Ha).
Qed.

(** A publication made over a log and given its limit counter satisfies the invariant
    that the operations rely on, with the position of the log's tail; the limits on its
    messages are those of the log. *)
Theorem NewPublication_ok m lb log bits tc off limit :
  log_ok m lb log bits tc off ->
  buf_ok m (pos_buffer limit) -> 0 <= pos_offset limit ->
  pos_offset limit + 8 <= buf_length (pos_buffer limit) ->
  exists pub, NewPublication lb m = Ret pub m /\
    pub_ok m (set_limit pub limit) (log + 3 * 2 ^ bits) tc off /\
    Publication_Position (set_limit pub limit) m = Ret (tc * 2 ^ bits + off) m /\
    maxPayloadLength pub = rd_i32 m (log + 3 * 2 ^ bits + 272) - 32 /\
    maxMessageLength pub = 2 ^ bits / 8.
Proof.
  intros Hlog ? ? ?. exists (new_publication m log bits).
  pose proof (new_publication_ok m lb log bits tc off Hlog limit) as Hok.
  split_and!; [by apply NewPublication_new with tc off|by apply Hok| |done..].
  erewrite Publication_Position_ok by (by apply Hok). done.
Qed.

(** ** A publication from the outside

    What its users see of a publication: the answers of its offers, and the messages that are
    in its log. *)

(** An answer of [Offer]: the message is in the log and the position is behind it, or it is not
    and the status says why. *)
Inductive offered : Type :=
| Accepted (position : Z)
| Refused (status : Z).

Definition offered_value (o : offered) : Z := match o with Accepted p => p | Refused s => s end.
Definition offered_ok (o : offered) : Prop := match o with Accepted p => 0 < p | Refused s => s < 0 end.

(** The answers to come, and what was sent. *)
Record channel : Type := mkChannel { answers : list offered; delivered : list (list Init.Byte.byte) }.

Definition channel_Offer (msg : list Init.Byte.byte) : M channel Z := fun p =>
  match answers p with
  | [] => Exc EFuel p
  | a :: rest =>
      Ret (offered_value a) (mkChannel rest (match a with Accepted _ => delivered p ++ [msg] | Refused _ => delivered p end))
  end.
