(* ===== verification/OfferConcurrent.v ===== *)
(** * Offering from several goroutines

    [Offer] and [TryClaim] of src/aeron/publication.go, the appends of
    src/aeron/logbuffer/term/appender.go and [RotateLog] of src/aeron/logbuffer/descriptor.go
    with every access to the shared words as a step of its own. A publication is shared: any
    number of goroutines, in this and in other processes, offer on one log and interleave
    between the accesses, and the driver moves the position limit. What a goroutine writes
    into the space it has claimed is its own, and is not a step here; [Publication] has it.

    A raw tail is a term id and an offset in one word, so adding to the tail claims space in
    the term that the word says, whatever term the goroutine thinks it is in. *)

From S2P Require Import Prelude Memory Bits Flyweight LogBuffer TermSpec Appender Publication.

(** The words in the log's metadata, and those of the driver. *)
Record shared : Type := mkShared {
  sh_closed : bool; sh_connected : bool; sh_limit : Z; sh_count : Z; sh_tails : list Z }.

Definition set_count (c : Z) (s : shared) : shared :=
  mkShared (sh_closed s) (sh_connected s) (sh_limit s) c (sh_tails s).
Definition set_tails (ts : list Z) (s : shared) : shared :=
  mkShared (sh_closed s) (sh_connected s) (sh_limit s) (sh_count s) ts.

(** A message of so many bytes is offered, or space for it claimed. *)
Record request : Type := mkRequest { rq_claim : bool; rq_length : Z }.

(** Where a producer is, with its local variables: what it accesses next. *)
Inductive producer : Type :=
| PStart (rq : request)                                 (* reads the closed flag *)
| PLimit (rq : request)                                 (* reads the position limit *)
| PCount (rq : request) (limit : Z)                     (* reads the active term count *)
| PTail (rq : request) (limit termCount : Z)            (* reads the raw tail *)
| PBack (rq : request) (position : Z)                   (* reads the connected flag *)
| PAdd (rq : request) (termCount termOffset position : Z)  (* adds to the raw tail *)
| PRotate (termCount termId : Z)                        (* reads the next partition's tail *)
| PSwap (termCount termId rawTail : Z)                  (* swaps the next partition's tail *)
| PCas (termCount : Z)                                  (* swaps the active term count *)
| PDone (result : Z)
| PPanic.

(** All the ways a step can go. *)
Ltac split_ifs := repeat match goal with |- context [if ?b then _ else _] => destruct b end.

Section Machine.
Context (pub : Publication).

Local Abbreviation T := (term_length pub).
Local Abbreviation init := (pub_initialTermID pub).

Definition tail_at (ts : list Z) (i : Z) : option Z := if i <? 0 then None else ts !! Z.to_nat i.

(** The space the append claims. *)
Definition required_length (rq : request) : Z :=
  if rq_claim rq || (rq_length rq <=? maxPayloadLength pub)
  then AlignInt32 (i32 (rq_length rq + DataFrameHeader.Length)) FrameAlignment
  else fragmented_length (rq_length rq) (maxPayloadLength pub).

(** A message too long is a panic, of [TryClaim] at once and of [Offer] before it claims. *)
Definition too_long (rq : request) : bool :=
  if rq_claim rq then rq_length rq >? maxPayloadLength pub
  else (rq_length rq >? maxPayloadLength pub) && (rq_length rq >? maxMessageLength pub).

(** The number of a tail's term. The initial term id in the metadata never changes, and is that of
    the publication ([pub_ok] of [Publication]). *)
Definition partition_of (rawTail : Z) : Z := i32 (TermID rawTail - init).

(** The tail has been read: only [Offer] compares the term with the count. *)
Definition after_tail (rq : request) (limit termCount rawTail : Z) : producer :=
  let termOffset := Z.land rawTail 0xFFFFFFFF in
  let position := i64 (computeTermBeginPosition (TermID rawTail) (positionBitsToShift pub) init + termOffset) in
  if negb (rq_claim rq) && negb (termCount =? partition_of rawTail) then PDone AdminAction
  else if position >=? limit then PBack rq position
  else if too_long rq then PPanic
  else PAdd rq termCount termOffset position.

(** The space is claimed, or the claim is past the end of the term. *)
Definition after_add (termCount termOffset position req rawTail : Z) : producer :=
  let resultingOffset := i64 (Z.land rawTail 0xFFFFFFFF + req) in
  if resultingOffset >? T then
    if i64 (position + termOffset) >? maxPossiblePosition pub then PDone MaxPositionExceeded
    else PRotate termCount (TermID rawTail)
  else PDone (i64 (i64 (position - termOffset) + resultingOffset)).

Definition next_index (termCount : Z) : Z := indexByTermCount (i32 (termCount + 1)).
Definition expected_id (termId : Z) : Z := i32 (i32 (termId + 1) - PartitionCount).
Definition new_raw_tail (termId : Z) : Z := i64 (i32 (termId + 1) * Z.shiftl 1 32).

Definition offer_step (p : producer) (s : shared) : producer * shared :=
  match p with
  | PStart rq =>
      (if sh_closed s then PDone PublicationClosed
       else if rq_claim rq && too_long rq then PPanic else PLimit rq, s)
  | PLimit rq => (PCount rq (sh_limit s), s)
  | PCount rq limit => (PTail rq limit (sh_count s), s)
  | PTail rq limit termCount =>
      (match tail_at (sh_tails s) (indexByTermCount termCount) with
       | Some rawTail => after_tail rq limit termCount rawTail
       | None => PPanic
       end, s)
  | PBack rq position =>
      (PDone (if i64 (position + rq_length rq) >=? maxPossiblePosition pub then MaxPositionExceeded
              else if sh_connected s then BackPressured else NotConnected), s)
  | PAdd rq termCount termOffset position =>
      let i := indexByTermCount termCount in
      match tail_at (sh_tails s) i with
      | Some rawTail =>
          (after_add termCount termOffset position (required_length rq) rawTail,
           set_tails (<[Z.to_nat i := i64 (rawTail + required_length rq)]> (sh_tails s)) s)
      | None => (PPanic, s)
      end
  | PRotate termCount termId =>
      (match tail_at (sh_tails s) (next_index termCount) with
       | Some rawTail =>
           if negb (expected_id termId =? TermID rawTail) then PCas termCount
           else PSwap termCount termId rawTail
       | None => PPanic
       end, s)
  | PSwap termCount termId rawTail =>
      let i := next_index termCount in
      match tail_at (sh_tails s) i with
      | Some raw =>
          if raw =? rawTail
          then (PCas termCount, set_tails (<[Z.to_nat i := new_raw_tail termId]> (sh_tails s)) s)
          else (PRotate termCount termId, s)
      | None => (PPanic, s)
      end
  | PCas termCount =>
      (PDone AdminAction, if sh_count s =? termCount then set_count (i32 (termCount + 1)) s else s)
  | PDone _ | PPanic => (p, s)
  end.

(** A claim on a term: who made it, the term's number, where in the term it starts and how
    long it is. *)
Record claim : Type := mkClaim' { cl_by : nat; cl_term : Z; cl_off : Z; cl_req : Z }.
Definition claim_end (c : claim) : Z := cl_off c + cl_req c.

(** The system; [st_claims] is the history of the claims, newest first. *)
Record system : Type := mkSystem {
  st_shared : shared; st_producers : list producer; st_claims : list claim }.

(** What an access adds to the history. *)
Definition new_claim (i : nat) (p : producer) (s : shared) : list claim :=
  match p with
  | PAdd rq termCount _ _ =>
      match tail_at (sh_tails s) (indexByTermCount termCount) with
      | Some raw => [mkClaim' i (partition_of raw) (Z.land raw 0xFFFFFFFF) (required_length rq)]
      | None => []
      end
  | _ => []
  end.

(** The log is not at its very end: the offset of a tail fits its half of the word, and the
    terms are not used up. *)
Definition room (p : producer) (s : shared) : Prop :=
  match p with
  | PAdd rq termCount _ _ =>
      forall raw, tail_at (sh_tails s) (indexByTermCount termCount) = Some raw ->
        Z.land raw 0xFFFFFFFF + required_length rq < 4294967296
  | PSwap _ _ rawTail => partition_of rawTail < 2147483645
  | PCas termCount => termCount < 2147483647
  | _ => True
  end.

Definition idle (p : producer) : Prop :=
  match p with PDone _ | PPanic => True | _ => False end.

(** [patience] is what is assumed of the time between two accesses of one producer. *)
Inductive step (patience : producer -> shared -> Prop) : system -> system -> Prop :=
| step_producer s i p :
    st_producers s !! i = Some p -> room p (st_shared s) -> patience p (st_shared s) ->
    step patience s
      (mkSystem (offer_step p (st_shared s)).2 (<[i := (offer_step p (st_shared s)).1]> (st_producers s))
         (new_claim i p (st_shared s) ++ st_claims s))
| step_next s i p rq :
    st_producers s !! i = Some p -> idle p -> 0 < required_length rq ->
    step patience s (mkSystem (st_shared s) (<[i := PStart rq]> (st_producers s)) (st_claims s))
| step_driver s closed connected limit :
    step patience s
      (mkSystem (mkShared closed connected limit (sh_count (st_shared s)) (sh_tails (st_shared s)))
         (st_producers s) (st_claims s)).

(** The driver starts a log in its first term; the two other partitions stand for the terms
    before it. *)
Definition initial (n : nat) : system :=
  mkSystem (mkShared false false 0 0 [raw_tail init 0; raw_tail (i32 (init - 2)) 0; raw_tail (i32 (init - 1)) 0])
    (replicate n (PDone 0)) [].

Inductive reachable (patience : producer -> shared -> Prop) (n : nat) : system -> Prop :=
| reach_init : reachable patience n (initial n)
| reach_step s s' : reachable patience n s -> step patience s s' -> reachable patience n s'.

Definition always (p : producer) (s : shared) : Prop := True.

(** A producer does not sleep so long before it adds to the tail that the log has gone on by
    two terms since it read the term count. *)
Definition prompt (p : producer) (s : shared) : Prop :=
  match p with PAdd _ termCount _ _ => sh_count s <= termCount + 1 | _ => True end.

(** ** Tails *)

Context (Hinit : is_i32 init).

Local Abbreviation offset_of raw := (Z.land raw 0xFFFFFFFF).

Lemma tail_at_lookup ts i raw : tail_at ts i = Some raw -> 0 <= i /\ ts !! Z.to_nat i = Some raw.
Proof using Type. unfold tail_at. destruct (Z.ltb_spec i 0); [done|]. by intros. Qed.

(** The number of a term says its id. *)
Lemma term_id raw k : partition_of raw = k -> TermID raw = i32 (init + k).
Proof using Hinit.
  unfold partition_of. intros <-. pose proof (TermID_range raw) as Hr. unfold is_i32, i32 in *. dlia.
Qed.

Lemma partition_raw id off : is_i32 id -> 0 <= off < 4294967296 -> partition_of (raw_tail id off) = i32 (id - init).
Proof using Type. intros. unfold partition_of. by rewrite TermID_raw. Qed.

Lemma partition_term k off : -2147483648 <= k < 2147483648 -> 0 <= off < 4294967296 ->
  partition_of (raw_tail (i32 (init + k)) off) = k.
Proof using Type.
  intros. rewrite partition_raw by (done || apply i32_range). rewrite i32_sub_i32, Z.add_simpl_l. by apply i32_small.
Qed.

(** Adding to a tail moves its offset. *)
Lemma add_raw raw req :
  is_i64 raw -> 0 <= req -> offset_of raw + req < 4294967296 ->
  is_i64 (i64 (raw + req)) /\ TermID (i64 (raw + req)) = TermID raw /\ offset_of (i64 (raw + req)) = offset_of raw + req.
Proof using Type.
  intros Hr Hq Hroom. pose proof (offset_range raw) as Ho. split; [apply i64_range|].
  rewrite (raw_tail_split raw Hr) at 1 3.
  replace (raw_tail (TermID raw) (offset_of raw) + req) with (raw_tail (TermID raw) (offset_of raw + req)) by (unfold raw_tail; lia).
  assert (Hi : is_i64 (raw_tail (TermID raw) (offset_of raw + req))) by (apply raw_tail_range; [apply TermID_range|lia]).
  rewrite i64_small by (unfold is_i64 in Hi; lia).
  split; [apply TermID_raw|apply raw_tail_offset]; (apply TermID_range || lia).
Qed.

(** Opening a term: the third one after the one that was in the partition. *)
Lemma open_raw termId raw :
  TermID raw = expected_id termId -> -2 <= partition_of raw < 2147483645 ->
  is_i64 (new_raw_tail termId) /\ offset_of (new_raw_tail termId) = 0 /\
  partition_of (new_raw_tail termId) = partition_of raw + 3.
Proof using Hinit.
  intros Hid Hk. unfold new_raw_tail, expected_id, partition_of, PartitionCount in *.
  change (Z.shiftl 1 32) with 4294967296.
  replace (i32 (termId + 1) * 4294967296) with (raw_tail (i32 (termId + 1)) 0) by (unfold raw_tail; lia).
  assert (Hi : is_i64 (raw_tail (i32 (termId + 1)) 0)) by (apply raw_tail_range; [apply i32_range|lia]).
  rewrite i64_small by (unfold is_i64 in Hi; lia).
  split; [done|]. split; [by apply raw_tail_offset|].
  rewrite TermID_raw by (apply i32_range || lia). rewrite Hid in *.
  pose proof (i32_range (termId + 1)). set (id := i32 (termId + 1)) in *. unfold is_i32 in *. unfold i32 in *. dlia.
Qed.

(** ** Terms are filled without a gap *)

(** The claims on a term follow each other from its start up to [e]. *)
Fixpoint chained (claims : list claim) (e : Z) : Prop :=
  match claims with
  | [] => e = 0
  | c :: claims' => claim_end c = e /\ chained claims' (cl_off c)
  end.

Definition of_term (k : Z) (claims : list claim) : list claim := filter (fun c => cl_term c = k) claims.

Record tails_ok (ts : list Z) : Prop := {
  to_length : length ts = 3%nat;
  to_tail i raw : ts !! i = Some raw ->
    is_i64 raw /\ -2 <= partition_of raw /\ partition_of raw mod 3 = Z.of_nat i }.

(** The term is not opened yet, or its tail is the end of its claims. *)
Definition filled (ts : list Z) (claims : list claim) (k : Z) : Prop :=
  exists e, chained (of_term k claims) e /\
    forall i raw, ts !! i = Some raw -> k mod 3 = Z.of_nat i ->
      (partition_of raw = k -> e = offset_of raw) /\ (partition_of raw < k -> of_term k claims = []).

(** A producer that is about to swap has seen the term that it replaces. *)
Definition has_seen (p : producer) : Prop :=
  match p with
  | PSwap _ termId raw => TermID raw = expected_id termId
  | _ => True
  end.

Definition asks (p : producer) : Prop :=
  match p with
  | PStart rq | PLimit rq | PCount rq _ | PTail rq _ _ | PBack rq _ | PAdd rq _ _ _ => 0 < required_length rq
  | _ => True
  end.

Record inv (s : system) : Prop := {
  iv_tails : tails_ok (sh_tails (st_shared s));
  iv_seen : Forall (fun p => has_seen p /\ asks p) (st_producers s);
  iv_positive : Forall (fun c => 0 <= cl_off c /\ 0 < cl_req c) (st_claims s);
  iv_filled k : filled (sh_tails (st_shared s)) (st_claims s) k }.

Lemma tiled_initial n : inv (initial n).
Proof using Hinit.
  assert (Htl : forall i raw, sh_tails (st_shared (initial n)) !! i = Some raw ->
            is_i64 raw /\ offset_of raw = 0 /\
            ((i = 0%nat /\ partition_of raw = 0) \/ (i = 1%nat /\ partition_of raw = -2) \/ (i = 2%nat /\ partition_of raw = -1))).
  { intros i raw Hi. cbn [initial st_shared sh_tails] in Hi.
    assert (H0 : raw_tail init 0 = raw_tail (i32 (init + 0)) 0).
    { rewrite Z.add_0_r, i32_small; [done|unfold is_i32 in Hinit; lia]. }
    assert (Hall : forall k, is_i64 (raw_tail (i32 (init + k)) 0) /\ offset_of (raw_tail (i32 (init + k)) 0) = 0).
    { intros k. split; [apply raw_tail_range; [apply i32_range|lia]|by apply raw_tail_offset]. }
    destruct i as [|[|[|i]]]; [| | |done]; injection Hi as <-; rewrite ?H0.
    - destruct (Hall 0). split_and!; try done. left. split; [done|]. by apply partition_term.
    - destruct (Hall (-2)). split_and!; try done. right; left. split; [done|]. by apply (partition_term (-2)).
    - destruct (Hall (-1)). split_and!; try done. right; right. split; [done|]. by apply (partition_term (-1)). }
  constructor; [constructor; [done|]| |constructor|].
  - intros i raw Hi. destruct (Htl i raw Hi) as (? & ? & [[-> ->]|[[-> ->]|[-> ->]]]); by split_and!.
  - by apply Forall_replicate.
  - intros k. exists 0. split; [done|]. intros i raw Hi _. by destruct (Htl i raw Hi) as (? & -> & _).
Qed.

Lemma of_term_cons k c claims :
  of_term k (c :: claims) = if decide (cl_term c = k) then c :: of_term k claims else of_term k claims.
Proof using Type. unfold of_term. rewrite filter_cons. done. Qed.

Lemma insert_tail_cases (ts : list Z) (i j : nat) raw' raw :
  <[i := raw']> ts !! j = Some raw -> (i = j /\ raw = raw') \/ (i <> j /\ ts !! j = Some raw).
Proof using Type. intros H. apply list_lookup_insert_Some in H as [(-> & -> & _)|[? ?]]; [by left|by right]. Qed.

Section Change.
Context (ts : list Z) (Hts : tails_ok ts) (i : nat) (raw : Z) (Hi : ts !! i = Some raw).
Context (raw' : Z) (Hraw' : is_i64 raw').

Lemma tails_ok_insert :
  -2 <= partition_of raw' -> partition_of raw' mod 3 = partition_of raw mod 3 -> tails_ok (<[i := raw']> ts).
Proof using Hts Hi Hraw'.
  intros Hp Hm. destruct Hts as [Hl Ht]. constructor; [by rewrite length_insert|].
  intros j r Hj. apply insert_tail_cases in Hj as [[<- ->]|[_ Hj]]; [|by apply Ht].
  destruct (Ht i raw Hi) as (_ & _ & Hmod). split_and!; [done|done|]. by rewrite Hm.
Qed.

Lemma filled_add by_ req claims k :
  partition_of raw' = partition_of raw -> offset_of raw' = offset_of raw + req ->
  filled ts claims k ->
  filled (<[i := raw']> ts) (mkClaim' by_ (partition_of raw) (offset_of raw) req :: claims) k.
Proof using Hts Hi.
  intros Hp Ho (e & Hch & Htl). destruct (to_tail _ Hts i raw Hi) as (_ & _ & Hmod).
  unfold filled. rewrite of_term_cons. cbn [cl_term]. case_decide as Hk.
  - subst k. destruct (Htl i raw Hi Hmod) as [He _]. specialize (He eq_refl). subst e.
    exists (offset_of raw + req). split; [done|]. intros j r Hj Hjm.
    apply insert_tail_cases in Hj as [[<- ->]|[Hne _]]; [split; [done|lia]|lia].
  - exists e. split; [done|]. intros j r Hj Hjm. apply insert_tail_cases in Hj as [[<- ->]|[_ Hj]]; [|by apply (Htl j r)].
    rewrite Hp. split; [done|]. by apply (Htl i raw).
Qed.

Lemma filled_open claims k :
  partition_of raw' = partition_of raw + 3 -> offset_of raw' = 0 ->
  filled ts claims k -> filled (<[i := raw']> ts) claims k.
Proof using Hts Hi.
  intros Hp Ho (e & Hch & Htl). exists e. split; [done|]. intros j r Hj Hjm.
  apply insert_tail_cases in Hj as [[<- ->]|[_ Hj]]; [|by apply (Htl j r)].
  destruct (Htl i raw Hi Hjm) as [_ Hemp]. rewrite Hp. split; intros Hk.
  - rewrite Hemp in Hch by lia. by rewrite Ho.
  - apply Hemp. lia.
Qed.
End Change.

(** One access of one producer. *)
Lemma offer_step_inv i p s claims :
  tails_ok (sh_tails s) -> (forall k, filled (sh_tails s) claims k) -> room p s -> has_seen p -> asks p ->
  tails_ok (sh_tails (offer_step p s).2) /\
  (forall k, filled (sh_tails (offer_step p s).2) (new_claim i p s ++ claims) k) /\
  has_seen (offer_step p s).1 /\ asks (offer_step p s).1 /\
  Forall (fun c => 0 <= cl_off c /\ 0 < cl_req c) (new_claim i p s).
Proof using Hinit.
  intros Hts Hf Hr Hs Ha. destruct p; cbn [offer_step new_claim app fst snd]; cbn [asks has_seen room] in *.
  - split_and!; try done; by split_ifs.
  - split_and!; done.
  - split_and!; done.
  - destruct (tail_at _ _) as [raw|]; [|by split_and!]. split_and!; try done; unfold after_tail; by split_ifs.
  - split_and!; done.
  - destruct (tail_at _ _) as [raw|] eqn:E; [|by split_and!]. destruct (tail_at_lookup _ _ _ E) as [_ Hl].
    destruct (to_tail _ Hts _ _ Hl) as (Hi64 & Hp & Hm).
    destruct (add_raw raw (required_length rq) Hi64) as (Hi' & Hid & Ho); [lia|by apply Hr|].
    assert (Hp' : partition_of (i64 (raw + required_length rq)) = partition_of raw) by (unfold partition_of; by rewrite Hid).
    cbn [fst snd set_tails sh_tails]. split_and!.
    + eapply tails_ok_insert; try done; [by rewrite Hp'|by rewrite Hp'].
    + intros k. by apply filled_add.
    + unfold after_add. by split_ifs.
    + unfold after_add. by split_ifs.
    + constructor; [|done]. cbn. split; [apply offset_range|done].
  - destruct (tail_at _ _) as [raw|]; [|by split_and!]. split_and!; try done.
    + destruct (Z.eqb_spec (expected_id termId) (TermID raw)); cbn; done.
    + by split_ifs.
  - destruct (tail_at _ _) as [raw|] eqn:E; [|by split_and!]. destruct (tail_at_lookup _ _ _ E) as [_ Hl].
    destruct (to_tail _ Hts _ _ Hl) as (Hi64 & Hp & Hm).
    destruct (Z.eqb_spec raw rawTail) as [->|Hne]; [|by split_and!].
    destruct (open_raw termId rawTail Hs) as (Hi' & Ho & Hp'); [lia|].
    cbn [fst snd set_tails sh_tails]. split_and!; try done.
    + eapply tails_ok_insert; try done; [lia|]. rewrite Hp', Z.add_mod, Z.add_0_r, Z.mod_mod by lia. done.
    + intros k. by eapply filled_open.
  - split_and!; try done; by split_ifs.
  - by split_and!.
  - by split_and!.
Qed.

Lemma tiled_step patience s s' : inv s -> step patience s s' -> inv s'.
Proof using Hinit.
  intros [Hts Hseen Hpos Hf] Hs. destruct Hs as [s i p Hi Hr _|s i p rq Hi _ Hrq|s closed connected limit]; simpl in *.
  - destruct (Forall_lookup_1 _ _ _ _ Hseen Hi) as [Hp1 Hp2].
    destruct (offer_step_inv i p (st_shared s) (st_claims s) Hts Hf Hr Hp1 Hp2) as (? & ? & ? & ? & ?).
    constructor; simpl; [done| |by apply Forall_app|done]. by apply Forall_insert.
  - constructor; simpl; try done. by apply Forall_insert.
  - constructor; simpl; done.
Qed.

Lemma tiled_reachable patience n s : reachable patience n s -> inv s.
Proof using Hinit. induction 1; [apply tiled_initial|by eapply tiled_step]. Qed.

Lemma chained_below l e d :
  Forall (fun c => 0 <= cl_off c /\ 0 < cl_req c) l -> chained l e -> d ∈ l -> claim_end d <= e.
Proof using Type.
  revert e. induction l as [|c l IH]; intros e Hl Hch Hd; [by apply not_elem_of_nil in Hd|].
  apply Forall_cons in Hl as [Hc Hl]. destruct Hch as [He Hch]. apply elem_of_cons in Hd as [->|Hd]; [lia|].
  specialize (IH _ Hl Hch Hd). unfold claim_end in *. lia.
Qed.
(** The claims older than the one at [i], of its term. *)
Lemma chained_older claims i c :
  (forall k, exists e, chained (of_term k claims) e) -> claims !! i = Some c ->
  chained (of_term (cl_term c) (drop (S i) claims)) (cl_off c).
Proof using Type.
  revert i. induction claims as [|c0 claims IH]; intros i Hch Hi; [done|]. destruct i as [|i]; cbn in Hi.
  - injection Hi as ->. destruct (Hch (cl_term c)) as [e He]. rewrite of_term_cons, decide_True in He by done.
    by destruct He as [_ He].
  - apply (IH i); [|done]. intros k. destruct (Hch k) as [e He]. rewrite of_term_cons in He. case_decide; [|by exists e].
    destruct He as [_ He]. by exists (cl_off c0).
Qed.

Lemma older_lookup claims i j (d : claim) :
  (i < j)%nat -> claims !! j = Some d -> d ∈ drop (S i) claims.
Proof using Type.
  intros Hij Hj. apply (list_elem_of_lookup_2 _ (j - S i)). rewrite lookup_drop. by replace (S i + (j - S i))%nat with j by lia.
Qed.

Lemma terms_filled_ok patience n s i c :
  reachable patience n s -> st_claims s !! i = Some c ->
  (cl_off c = 0 \/
   exists j d, (i < j)%nat /\ st_claims s !! j = Some d /\ cl_term d = cl_term c /\ claim_end d = cl_off c) /\
  (forall j d, (i < j)%nat -> st_claims s !! j = Some d -> cl_term d = cl_term c -> claim_end d <= cl_off c).
Proof using Hinit.
  intros Hr Hi. destruct (tiled_reachable _ _ _ Hr) as [_ _ Hpos Hf].
  assert (Hch : chained (of_term (cl_term c) (drop (S i) (st_claims s))) (cl_off c)).
  { apply chained_older; [|done]. intros k. destruct (Hf k) as (e & He & _). by exists e. }
  assert (Hin : forall d, d ∈ of_term (cl_term c) (drop (S i) (st_claims s)) <-> cl_term d = cl_term c /\ d ∈ drop (S i) (st_claims s)).
  { intros d. unfold of_term. by rewrite list_elem_of_filter. }
  split.
  - destruct (of_term _ _) as [|d l] eqn:E; [by left|]. right. destruct Hch as [He _].
    destruct (proj1 (Hin d) ltac:(by left)) as [Hd Hdin]. apply list_elem_of_lookup in Hdin as [j Hj].
    rewrite lookup_drop in Hj. exists (S i + j)%nat, d. split_and!; [lia|done|done|done].
  - intros j d Hij Hj Hd. eapply chained_below; [|exact Hch|].
    + apply Forall_forall. intros d' Hd'%Hin. apply (proj1 (Forall_forall _ _) (Forall_drop _ (S i) _ Hpos)), Hd'.
    + apply Hin. split; [done|]. by eapply older_lookup.
Qed.

(** ** Prompt producers

    [H] is the newest term that is open: the active one, or the one after it, while a
    producer has opened it and is about to move the count. *)

Context (Hbits : 16 <= positionBitsToShift pub <= 30).

Record terms_ok (s : shared) (H : Z) : Prop := {
  te_count : 0 <= sh_count s <= H /\ H <= sh_count s + 1 /\ H < 2147483648;
  te_term i raw : sh_tails s !! i = Some raw -> H - 2 <= partition_of raw <= H;
  te_full i raw : sh_tails s !! i = Some raw -> 0 <= partition_of raw < H -> T < offset_of raw }.

(** The term is full, or closed already. *)
Definition past (ts : list Z) (k : Z) : Prop :=
  forall i raw, ts !! i = Some raw -> partition_of raw = k -> T < offset_of raw.

Definition last_claim (i : nat) (claims : list claim) : option claim :=
  head (filter (fun c => cl_by c = i) claims).

(** The position in the stream at which a claim ends. *)
Definition claim_position (c : claim) : Z := cl_term c * T + claim_end c.

Definition knows (s : shared) (H : Z) (claims : list claim) (i : nat) (p : producer) : Prop :=
  match p with
  | PTail _ _ k => 0 <= k <= sh_count s
  | PAdd _ k off position => 0 <= k <= sh_count s /\
      (sh_count s <= k + 1 -> position = k * T + off /\ 0 <= off < 4294967296)
  | PRotate k termId | PSwap k termId _ =>
      0 <= k <= sh_count s /\ termId = i32 (init + k) /\ past (sh_tails s) k
  | PCas k => 0 <= k <= sh_count s /\ k < H
  | PDone r => 0 < r -> exists c, last_claim i claims = Some c /\ claim_end c <= T /\ r = claim_position c
  | _ => True
  end.

(** What the accesses of the others may change. *)
Record later (s s' : shared) (H H' : Z) : Prop := {
  la_count : sh_count s <= sh_count s';
  la_term : H <= H';
  la_tail i raw' : sh_tails s' !! i = Some raw' ->
    (exists raw, sh_tails s !! i = Some raw /\ partition_of raw' = partition_of raw /\ offset_of raw <= offset_of raw') \/
    H < partition_of raw' }.

Lemma later_same s s' H : sh_count s' = sh_count s -> sh_tails s' = sh_tails s -> later s s' H H.
Proof using Type. intros Hc Ht. constructor; [lia|lia|]. rewrite Ht. intros i raw Hi. left. by exists raw. Qed.

Lemma knows_later i p s s' H H' claims claims' :
  terms_ok s H -> later s s' H H' -> last_claim i claims' = last_claim i claims ->
  knows s H claims i p -> knows s' H' claims' i p.
Proof using Type.
  intros Hok [Hc Ht Hl] Hlast. destruct (te_count _ _ Hok) as [? _].
  assert (Hpast : forall k, k <= sh_count s -> past (sh_tails s) k -> past (sh_tails s') k).
  { intros k Hk Hp j raw' Hj Hraw. destruct (Hl j raw' Hj) as [(raw & Hr & Hpr & Ho)|Hnew]; [|lia].
    enough (T < offset_of raw) by lia. by apply (Hp j); [|lia]. }
  destruct p; cbn [knows]; try done.
  - lia.
  - intros [Hk Hp]. split; [lia|]. intros. apply Hp. lia.
  - intros (Hk & Hid & Hp). split_and!; [lia|lia|done|]. apply Hpast; [lia|done].
  - intros (Hk & Hid & Hp). split_and!; [lia|lia|done|]. apply Hpast; [lia|done].
  - lia.
  - by rewrite Hlast.
Qed.

Lemma T_range : 65536 <= T <= 1073741824.
Proof using Hbits.
  unfold term_length. split; [apply (Z.pow_le_mono_r 2 16)|apply (Z.pow_le_mono_r 2 _ 30)]; lia.
Qed.

(** The tail in the partition of a term that is among the last three. *)
Lemma tail_of_term ts k H raw :
  tails_ok ts -> (forall i raw, ts !! i = Some raw -> H - 2 <= partition_of raw <= H) ->
  0 <= k -> H - 2 <= k <= H -> tail_at ts (indexByTermCount k) = Some raw ->
  ts !! Z.to_nat (k mod 3) = Some raw /\ partition_of raw = k.
Proof using Type.
  intros Hts Hin Hk HkH E. destruct (tail_at_lookup _ _ _ E) as [_ Hl].
  unfold indexByTermCount, PartitionCount in Hl. rewrite Z.rem_mod_nonneg in Hl by lia.
  split; [done|]. destruct (to_tail _ Hts _ _ Hl) as (_ & _ & Hm). pose proof (Hin _ _ Hl).
  rewrite Z2Nat.id in Hm by dlia. dlia.
Qed.

Lemma begin_position raw k off :
  partition_of raw = k -> 0 <= k < 2147483648 -> 0 <= off < 4294967296 ->
  i64 (computeTermBeginPosition (TermID raw) (positionBitsToShift pub) init + off) = k * T + off.
Proof using Hbits.
  intros Hp Hk Ho. pose proof T_range. unfold computeTermBeginPosition. fold (partition_of raw). rewrite Hp, u32_small by lia.
  rewrite Z.shiftl_mul_pow2 by lia. fold T. rewrite (i64_small (k * T)) by nia. apply i64_small. nia.
Qed.

(** What an access of the [i]th producer leaves. *)
Definition goes_on (i : nat) (p : producer) (s : shared) (H : Z) (claims : list claim) : Prop :=
  exists H', terms_ok (offer_step p s).2 H' /\ later s (offer_step p s).2 H H' /\
    knows (offer_step p s).2 H' (new_claim i p s ++ claims) i (offer_step p s).1.

Section Access.
Context (i : nat) (s : shared) (H : Z) (claims : list claim).
Context (Hts : tails_ok (sh_tails s)) (Hok : terms_ok s H).

(** An access that changes nothing that is shared. *)
Lemma goes_on_same p :
  (offer_step p s).2 = s -> new_claim i p s = [] -> knows s H claims i (offer_step p s).1 -> goes_on i p s H claims.
Proof using Hok. intros E En Hk. exists H. rewrite E, En. split_and!; [done|by apply later_same|done]. Qed.

Lemma tail_knows rq limit k : 0 <= k <= sh_count s -> goes_on i (PTail rq limit k) s H claims.
Proof using Hts Hok Hbits.
  intros Hk. destruct (te_count _ _ Hok) as (? & ? & ?). apply goes_on_same; [done..|]. cbn [offer_step fst].
  destruct (tail_at _ _) as [raw|] eqn:E; [|done]. unfold after_tail. split_ifs; try done.
  split; [done|]. intros Hc. destruct (tail_of_term _ k H raw Hts (te_term _ _ Hok) ltac:(lia) ltac:(lia) E) as [_ Hp].
  pose proof (offset_range raw). split; [|done]. apply begin_position; [done|lia|done].
Qed.

Lemma add_knows rq k off position :
  0 <= k <= sh_count s -> sh_count s <= k + 1 -> position = k * T + off -> 0 <= off < 4294967296 ->
  0 < required_length rq -> room (PAdd rq k off position) s -> goes_on i (PAdd rq k off position) s H claims.
Proof using Hts Hok Hbits Hinit.
  intros Hk Hc Hpos Ho Hreq Hroom. destruct (te_count _ _ Hok) as (? & ? & ?). unfold goes_on. cbn [offer_step new_claim].
  destruct (tail_at _ _) as [raw|] eqn:E.
  2: { exists H. split_and!; [done|by apply later_same|done]. }
  destruct (tail_of_term _ k H raw Hts (te_term _ _ Hok) ltac:(lia) ltac:(lia) E) as [Hl Hp].
  destruct (tail_at_lookup _ _ _ E) as [_ Hl']. destruct (to_tail _ Hts _ _ Hl') as (Hi64 & _ & Hm).
  specialize (Hroom raw E). pose proof (offset_range raw) as Hoff. pose proof T_range.
  destruct (add_raw raw (required_length rq) Hi64) as (_ & Hid & Hadd); [lia|done|].
  set (raw' := i64 (raw + required_length rq)) in *. set (ix := Z.to_nat (indexByTermCount k)) in *.
  assert (Hp' : partition_of raw' = k) by (unfold partition_of in *; by rewrite Hid).
  cbn [fst snd]. exists H. split_and!.
  - constructor; cbn [set_tails sh_count sh_tails]; [done| |].
    + intros j r [[<- ->]|[_ Hj]]%insert_tail_cases; [lia|by apply (te_term _ _ Hok j)].
    + intros j r [[<- ->]|[_ Hj]]%insert_tail_cases; [|by apply (te_full _ _ Hok j)].
      intros ?. pose proof (te_full _ _ Hok _ _ Hl' ltac:(lia)). lia.
  - constructor; cbn [set_tails sh_count sh_tails]; [lia|lia|].
    intros j r [[<- ->]|[_ Hj]]%insert_tail_cases; left; [exists raw|exists r; done]. split_and!; [done|lia|lia].
  - unfold after_add. rewrite i64_small by lia. destruct (Z.gtb_spec (offset_of raw + required_length rq) T) as [Hgt|Hle].
    + split_ifs; [done|]. cbn [knows set_tails sh_count sh_tails]. split_and!; [lia|lia|by apply term_id|].
      intros j r [[<- ->]|[Hne Hj]]%insert_tail_cases Hr; [lia|].
      exfalso. apply Hne. destruct (to_tail _ Hts _ _ Hj) as (_ & _ & Hmj). rewrite Hr in Hmj. rewrite Hp in Hm. lia.
    + intros _. exists (mkClaim' i (partition_of raw) (offset_of raw) (required_length rq)). split_and!.
      * unfold last_claim. cbn [app]. by rewrite filter_cons_True.
      * done.
      * subst position. rewrite (i64_small (_ - _)) by nia. rewrite i64_small by nia.
        unfold claim_position, claim_end. cbn [cl_term cl_off cl_req]. lia.
Qed.

Lemma next_tail k raw :
  0 <= k -> k < 2147483648 -> tail_at (sh_tails s) (next_index k) = Some raw ->
  k < 2147483647 /\ sh_tails s !! Z.to_nat ((k + 1) mod 3) = Some raw /\ partition_of raw mod 3 = (k + 1) mod 3.
Proof using Hts.
  intros Hk Hk2 E. destruct (tail_at_lookup _ _ _ E) as [H0 Hl]. unfold next_index, indexByTermCount, PartitionCount in *.
  destruct (decide (k = 2147483647)) as [->|Hne]; [by vm_compute in H0|].
  rewrite i32_small in * by lia. rewrite Z.rem_mod_nonneg in * by lia. split_and!; [lia|done|].
  destruct (to_tail _ Hts _ _ Hl) as (_ & _ & ->). rewrite Z2Nat.id; dlia.
Qed.

Lemma rotate_knows k termId :
  0 <= k <= sh_count s -> termId = i32 (init + k) -> past (sh_tails s) k ->
  goes_on i (PRotate k termId) s H claims.
Proof using Hts Hok Hinit.
  intros Hk Hid Hp. destruct (te_count _ _ Hok) as (? & ? & ?). apply goes_on_same; [done..|]. cbn [offer_step fst].
  destruct (tail_at _ _) as [raw|] eqn:E; [|done].
  destruct (next_tail k raw ltac:(lia) ltac:(lia) E) as (Hk' & Hl & Hm).
  destruct (Z.eqb_spec (expected_id termId) (TermID raw)) as [Heq|Hne]; cbn [negb knows]; [by split|].
  split; [done|]. destruct (decide (k = H)) as [->|]; [|lia]. exfalso. apply Hne. symmetry.
  pose proof (te_term _ _ Hok _ _ Hl). rewrite (term_id raw (H - 2)) by dlia.
  subst termId. unfold expected_id, PartitionCount. rewrite i32_add_i32, i32_sub_i32. f_equal. lia.
Qed.

Lemma swap_knows k termId raw :
  0 <= k <= sh_count s -> termId = i32 (init + k) -> past (sh_tails s) k -> TermID raw = expected_id termId ->
  room (PSwap k termId raw) s -> goes_on i (PSwap k termId raw) s H claims.
Proof using Hts Hok Hinit.
  intros Hk Hid Hp Hseen Hroom. destruct (te_count _ _ Hok) as (? & ? & ?). unfold goes_on. cbn [offer_step new_claim].
  destruct (tail_at _ _) as [r0|] eqn:E.
  2: { exists H. split_and!; [done|by apply later_same|done]. }
  destruct (Z.eqb_spec r0 raw) as [->|Hne]; cbn [fst snd].
  2: { exists H. split_and!; [done|by apply later_same|]. cbn [knows]. by split. }
  destruct (next_tail k raw ltac:(lia) ltac:(lia) E) as (Hk' & Hl & Hm).
  pose proof (te_term _ _ Hok _ _ Hl) as Hin. cbn [room] in Hroom.
  assert (Hpr : partition_of raw = k - 2).
  { unfold partition_of. rewrite Hseen, Hid. unfold expected_id, PartitionCount.
    rewrite i32_add_i32, (i32_sub_i32 (init + k + 1)), i32_sub_i32. rewrite i32_small; lia. }
  destruct (open_raw termId raw Hseen) as (_ & Ho & Hpn); [lia|].
  assert (H = k) as -> by lia.
  destruct (tail_at_lookup _ _ _ E) as [_ Hl']. destruct (to_tail _ Hts _ _ Hl') as (_ & _ & Hmi).
  assert (Hother : forall j r, sh_tails s !! j = Some r -> Z.to_nat (next_index k) <> j -> k - 1 <= partition_of r <= k).
  { intros j r Hj Hne. pose proof (te_term _ _ Hok _ _ Hj). destruct (to_tail _ Hts _ _ Hj) as (_ & _ & Hmj).
    enough (partition_of r <> k - 2) by lia. intros Er. apply Hne. rewrite Hpr in Hmi. rewrite Er in Hmj. lia. }
  exists (k + 1). split_and!.
  - constructor; cbn [set_tails sh_count sh_tails]; [lia| |].
    + intros j r [[<- ->]|[Hne Hj]]%insert_tail_cases; [lia|]. pose proof (Hother j r Hj Hne). lia.
    + intros j r [[<- ->]|[Hne Hj]]%insert_tail_cases; [lia|]. intros Hr. pose proof (Hother j r Hj Hne).
      destruct (decide (partition_of r = k)); [by apply (Hp j)|apply (te_full _ _ Hok j r Hj); lia].
  - constructor; cbn [set_tails sh_count sh_tails]; [lia|lia|].
    intros j r [[<- ->]|[_ Hj]]%insert_tail_cases; [right; lia|left; by exists r].
  - cbn [knows set_tails sh_count]. lia.
Qed.

Lemma cas_knows k : 0 <= k <= sh_count s -> k < H -> room (PCas k) s -> goes_on i (PCas k) s H claims.
Proof using Hok.
  intros Hk HkH Hroom. destruct (te_count _ _ Hok) as (? & ? & ?). cbn [room] in Hroom. unfold goes_on. cbn [offer_step new_claim fst snd].
  exists H. destruct (Z.eqb_spec (sh_count s) k) as [E|]; [|split_and!; [done|by apply later_same|done]].
  rewrite i32_small by lia. split_and!; [|constructor; cbn; [lia|lia|]|done].
  - destruct Hok. constructor; cbn; [lia|done|done].
  - intros j r Hj. left. by exists r.
Qed.

Lemma offer_step_knows p :
  room p s -> prompt p s -> has_seen p -> asks p -> knows s H claims i p -> goes_on i p s H claims.
Proof using Hts Hok Hbits Hinit.
  intros Hr Hpr Hseen Hask Hk. destruct p; cbn [knows prompt has_seen asks] in *.
  - apply goes_on_same; [done..|]. cbn. by split_ifs.
  - by apply goes_on_same.
  - apply goes_on_same; [done..|]. cbn. destruct (te_count _ _ Hok). lia.
  - by apply tail_knows.
  - apply goes_on_same; [done..|]. cbn. by split_ifs.
  - destruct Hk as [Hk Hpos]. destruct (Hpos Hpr). by apply add_knows.
  - destruct Hk as (? & ? & ?). by apply rotate_knows.
  - destruct Hk as (? & ? & ?). by apply swap_knows.
  - destruct Hk. by apply cas_knows.
  - by apply goes_on_same.
  - by apply goes_on_same.
Qed.
End Access.

Record prompt_inv (s : system) (H : Z) : Prop := {
  pi_inv : inv s;
  pi_terms : terms_ok (st_shared s) H;
  pi_knows i p : st_producers s !! i = Some p -> knows (st_shared s) H (st_claims s) i p }.

Lemma new_claim_by i p s c : c ∈ new_claim i p s -> cl_by c = i.
Proof using Type.
  destruct p; cbn [new_claim]; try by intros ?%not_elem_of_nil.
  destruct (tail_at _ _); [|by intros ?%not_elem_of_nil]. by intros ->%list_elem_of_singleton.
Qed.

Lemma last_claim_other i j p s claims : i <> j -> last_claim j (new_claim i p s ++ claims) = last_claim j claims.
Proof using Type.
  intros Hne. unfold last_claim. pose proof (new_claim_by i p s) as Hby.
  destruct (new_claim i p s) as [|c l] eqn:E; [done|].
  assert (l = []) as -> by (destruct p; cbn [new_claim] in E; try done; destruct (tail_at _ _); by simplify_eq).
  cbn [app]. rewrite filter_cons_False; [done|]. rewrite (Hby c); [done|by left].
Qed.

Lemma prompt_initial n : prompt_inv (initial n) 0.
Proof using Hinit.
  constructor; [apply tiled_initial| |].
  - destruct (iv_tails _ (tiled_initial n)) as [_ Ht].
    assert (Hp : forall i raw, sh_tails (st_shared (initial n)) !! i = Some raw -> -2 <= partition_of raw <= 0).
    { intros i raw Hi. destruct (Ht i raw Hi) as (_ & ? & _). split; [done|].
      cbn in Hi. destruct i as [|[|[|i]]]; [| | |done]; injection Hi as <-.
      - rewrite partition_raw by (done || lia). by rewrite Z.sub_diag.
      - by rewrite (partition_term (-2)).
      - by rewrite (partition_term (-1)). }
    constructor; cbn [initial st_shared sh_count]; [lia| |].
    + intros i raw Hi. pose proof (Hp i raw Hi). lia.
    + intros i raw Hi. pose proof (Hp i raw Hi). lia.
  - intros i p Hp. apply lookup_replicate in Hp as [-> _]. cbn. lia.
Qed.

Lemma prompt_step s s' H : prompt_inv s H -> step prompt s s' -> exists H', prompt_inv s' H'.
Proof using Hinit Hbits.
  intros [Hinv Ht Hk] Hs. pose proof (tiled_step _ _ _ Hinv Hs) as Hinv'. destruct Hinv as [Hts Hseen _ _].
  destruct Hs as [s i p Hi Hr Hpr|s i p rq Hi _ Hrq|s closed connected limit]; simpl in *.
  - destruct (Forall_lookup_1 _ _ _ _ Hseen Hi) as [Hp1 Hp2].
    destruct (offer_step_knows i _ H (st_claims s) Hts Ht p Hr Hpr Hp1 Hp2 (Hk i p Hi)) as (H' & Ht' & Hl & Hk').
    exists H'. constructor; [done|done|]. simpl. intros j q [(<- & <- & _)|[Hne Hj]]%list_lookup_insert_Some; [done|].
    eapply knows_later; [exact Ht|exact Hl|by apply last_claim_other|by apply Hk].
  - exists H. constructor; [done|done|]. simpl. intros j q [(<- & <- & _)|[Hne Hj]]%list_lookup_insert_Some; [done|by apply Hk].
  - exists H. constructor; [done|by destruct Ht|]. simpl. intros j q Hj.
    eapply knows_later; [exact Ht|by apply later_same|done|by apply Hk].
Qed.

Lemma prompt_reachable n s : reachable prompt n s -> exists H, prompt_inv s H.
Proof using Hinit Hbits.
  induction 1 as [|s s' _ [H IH] Hs]; [by exists 0; apply prompt_initial|by eapply prompt_step].
Qed.

Lemma last_claim_in i claims c : last_claim i claims = Some c -> cl_by c = i /\ exists a, claims !! a = Some c.
Proof using Type.
  unfold last_claim. intros Hc%head_Some_elem_of. apply list_elem_of_filter in Hc as [? Hin].
  by apply list_elem_of_lookup in Hin.
Qed.

(** Claims end at different positions. *)
Lemma positions_differ patience n s a b c d :
  reachable patience n s -> st_claims s !! a = Some c -> st_claims s !! b = Some d -> a <> b ->
  claim_end c <= T -> claim_end d <= T -> claim_position c <> claim_position d.
Proof using Hinit Hbits.
  intros Hr Hc Hd Hne Hcl Hdl. pose proof T_range.
  destruct (terms_filled_ok _ _ _ _ _ Hr Hc) as [_ Hc']. destruct (terms_filled_ok _ _ _ _ _ Hr Hd) as [_ Hd'].
  destruct (tiled_reachable _ _ _ Hr) as [_ _ Hpos _].
  pose proof (Forall_lookup_1 _ _ _ _ Hpos Hc). pose proof (Forall_lookup_1 _ _ _ _ Hpos Hd).
  unfold claim_position, claim_end in *. destruct (decide (cl_term c = cl_term d)) as [E|Hk]; [|nia].
  rewrite E. destruct (decide (a < b)%nat).
  - specialize (Hc' b d ltac:(lia) Hd ltac:(lia)). lia.
  - specialize (Hd' a c ltac:(lia) Hc ltac:(lia)). lia.
Qed.
End Machine.

(** C15. Goroutines offer at the same time, their accesses to the tails and to the term count
    interleaved in any way: however slow one of them is, every claim starts where an older
    claim on its term ends, or at the start of the term, and no older claim on the term
    reaches into it. *)
Theorem terms_filled pub n s i c :
  is_i32 (pub_initialTermID pub) -> reachable pub always n s -> st_claims s !! i = Some c ->
  (cl_off c = 0 \/
   exists j d, (i < j)%nat /\ st_claims s !! j = Some d /\ cl_term d = cl_term c /\ claim_end d = cl_off c) /\
  (forall j d, (i < j)%nat -> st_claims s !! j = Some d -> cl_term d = cl_term c -> claim_end d <= cl_off c).
Proof. intros. by eapply terms_filled_ok. Qed.

(** C16. Of goroutines that are prompt, one whose offer has returned a position has been told where
    in the stream its own, last claim ends, which is inside of its term; and no other one has
    been told the same. *)
Theorem offered_position pub n s i r :
  is_i32 (pub_initialTermID pub) -> 16 <= positionBitsToShift pub <= 30 ->
  reachable pub prompt n s -> st_producers s !! i = Some (PDone r) -> 0 < r ->
  (exists c, last_claim i (st_claims s) = Some c /\ claim_end c <= term_length pub /\ r = claim_position pub c) /\
  (forall j, i <> j -> st_producers s !! j <> Some (PDone r)).
Proof.
  intros Hi Hb Hr Hp Hpos. destruct (prompt_reachable pub Hi Hb n s Hr) as [H [_ _ Hk]].
  destruct (Hk i _ Hp Hpos) as (c & Hc & Hce & Hrc). split; [by exists c|].
  intros j Hne Hj. destruct (Hk j _ Hj Hpos) as (d & Hd & Hde & Hrd).
  apply last_claim_in in Hc as [Hby [a Ha]]. apply last_claim_in in Hd as [Hby' [b Hb']].
  apply (positions_differ pub Hi Hb prompt n s a b c d); try done; [|lia].
  intros <-. rewrite Ha in Hb'. injection Hb' as <-. lia.
Qed.

(** Between prompt producers the log goes from term to term without a hole: the active term is
    the one in its partition, so that an offer that is not overtaken is never told to try again
    because of it, and the terms before it are full. *)
Theorem active_term_open pub n s :
  is_i32 (pub_initialTermID pub) -> 16 <= positionBitsToShift pub <= 30 -> reachable pub prompt n s ->
  let ts := sh_tails (st_shared s) in let count := sh_count (st_shared s) in
  (exists raw, tail_at ts (indexByTermCount count) = Some raw /\ partition_of pub raw = count) /\
  (forall i raw, ts !! i = Some raw -> 0 <= partition_of pub raw < count -> term_length pub < Z.land raw 0xFFFFFFFF).
Proof.
  intros Hi Hb Hr ts count. destruct (prompt_reachable pub Hi Hb n s Hr) as [H [Hinv Hok _]].
  pose proof (iv_tails _ _ Hinv) as Hts. destruct (te_count _ _ _ Hok) as (? & ? & ?). fold count in H0, H1. split.
  - destruct (tail_at ts (indexByTermCount count)) as [raw|] eqn:E.
    + exists raw. split; [done|]. eapply (tail_of_term pub ts count H raw Hts); [apply (te_term _ _ _ Hok)|lia|lia|exact E].
    + exfalso. unfold tail_at, indexByTermCount, PartitionCount in E. rewrite Z.rem_mod_nonneg in E by lia.
      pose proof (Z.mod_pos_bound count 3 ltac:(lia)). rewrite (proj2 (Z.ltb_ge _ _)) in E by lia.
      apply lookup_ge_None in E. pose proof (to_length _ _ Hts) as Hl. fold ts in Hl. lia.
  - intros i raw Hl Hp. apply (te_full _ _ _ Hok i raw Hl). lia.
Qed.

(** ** A producer alone

    A producer that no other one interrupts does what [Offer] of [Publication] does in
    memory. *)

Section Alone.
Context (pub : Publication).

Local Abbreviation T := (term_length pub).

Fixpoint run_alone (n : nat) (p : producer) (s : shared) : producer * shared :=
  match n with
  | O => (p, s)
  | S n' => let '(p', s') := offer_step pub p s in run_alone n' p' s'
  end.

Lemma offer_run_S n p s : run_alone (S n) p s = run_alone n (offer_step pub p s).1 (offer_step pub p s).2.
Proof using Type. cbn [run_alone]. by destruct (offer_step pub p s). Qed.

Lemma offer_run_done n r s : run_alone n (PDone r) s = (PDone r, s).
Proof using Type. induction n as [|n IH]; [done|]. cbn [run_alone offer_step]. exact IH. Qed.

(** The shared words of a publication in memory. *)
Definition view (m : mem) (base : Z) : shared := {|
  sh_closed := pub_isClosed pub; sh_connected := rd_i32 m (base + 136) =? 1; sh_limit := limit_val m pub;
  sh_count := rd_i32 m (base + 24);
  sh_tails := [rd_i64 m (tail_addr base 0); rd_i64 m (tail_addr base 1); rd_i64 m (tail_addr base 2)] |}.

Definition active_offset (s : shared) : Z := Z.land (sh_tails s !!! Z.to_nat (sh_count s mod 3)) 0xFFFFFFFF.

Context (m : mem) (base tc off : Z) (Hpub : pub_ok m pub base tc off).
Context (app : Appender) (Happ : active_app pub tc = Some app).

Local Abbreviation tid := (active_term pub tc).

Lemma view_tail k : 0 <= k ->
  sh_tails (view m base) !! Z.to_nat (k mod 3) = Some (rd_i64 m (tail_addr base (k mod 3))) /\
  tail_at (sh_tails (view m base)) (indexByTermCount k) = Some (rd_i64 m (tail_addr base (k mod 3))).
Proof using Type.
  intros Hk. unfold tail_at, indexByTermCount, PartitionCount. rewrite Z.rem_mod_nonneg by lia.
  pose proof (Z.mod_pos_bound k 3 ltac:(lia)). rewrite (proj2 (Z.ltb_ge _ _)) by lia.
  assert (k mod 3 = 0 \/ k mod 3 = 1 \/ k mod 3 = 2) as [E|[E|E]] by lia; by rewrite E.
Qed.

Lemma required_space (data : list Init.Byte.byte) :
  zlen data <= maxMessageLength pub ->
  required_length pub (mkRequest false (zlen data)) = seg_space (msg_frames pub app tid data).
Proof using Hpub.
  rewrite (po_max_msg _ _ _ _ _ Hpub). intros Hmax. pose proof (term_length_range m pub base tc off Hpub) as [? _].
  pose proof (zlen_nonneg data). destruct (po_payload _ _ _ _ _ Hpub) as [? Hal].
  destruct (msg_space_bound m pub base tc off Hpub app data Hmax) as [Hb _].
  unfold required_length, msg_frames in *. cbn [rq_claim rq_length orb].
  assert (zlen data <= 134217728) by dlia.
  destruct (Z.leb_spec (zlen data) (maxPayloadLength pub)).
  - rewrite seg_space_single. unfold DataFrameHeader.Length, FrameAlignment.
    rewrite i32_small by lia. apply AlignInt32_32. lia.
  - apply fragmented_length_space; try done; lia.
Qed.

(** Up to the comparison with the limit. *)
Lemma run_open n len :
  0 <= len <= maxMessageLength pub ->
  run_alone (4 + n) (PStart (mkRequest false len)) (view m base) =
  run_alone n (if tc * T + off >=? limit_val m pub then PBack (mkRequest false len) (tc * T + off)
               else PAdd (mkRequest false len) tc off (tc * T + off)) (view m base).
Proof using Hpub Happ.
  intros Hlen. pose proof (po_count _ _ _ _ _ Hpub). pose proof (position_range m pub base tc off Hpub).
  destruct (po_off _ _ _ _ _ Hpub).
  assert (Hc : sh_count (view m base) = tc) by apply (li_count _ _ _ _ (po_log _ _ _ _ _ Hpub)).
  cbn [Nat.add]. rewrite !offer_run_S. cbn [offer_step fst snd]. cbn [view sh_closed]. rewrite (po_open _ _ _ _ _ Hpub).
  cbn [rq_claim andb offer_step fst snd]. rewrite Hc.
  rewrite (proj2 (view_tail tc ltac:(lia))). rewrite (po_tail _ _ _ _ _ Hpub).
  unfold after_tail, partition_of. destruct (rawTail_split m pub base tc off Hpub) as [-> ->].
  erewrite term_begin, term_count by done. rewrite Z.eqb_refl. cbn [rq_claim negb andb fst snd].
  rewrite i64_small by lia. cbn [view sh_limit]. destruct (_ >=? _); [done|].
  unfold too_long. cbn [rq_claim rq_length]. replace (len >? maxMessageLength pub) with false by lia.
  by rewrite andb_false_r.
Qed.

Lemma run_limited len :
  0 <= len <= maxMessageLength pub -> limit_val m pub <= tc * T + off ->
  run_alone 8 (PStart (mkRequest false len)) (view m base) =
  (PDone (reject_status pub base m (tc * T + off) len), view m base).
Proof using Hpub Happ.
  intros Hlen Hlim. pose proof (position_range m pub base tc off Hpub). pose proof (term_length_range m pub base tc off Hpub) as [? _].
  destruct (po_off _ _ _ _ _ Hpub). rewrite (po_max_msg _ _ _ _ _ Hpub) in Hlen. assert (len <= 134217728) by dlia.
  rewrite (run_open 4) by (rewrite (po_max_msg _ _ _ _ _ Hpub); lia).
  replace (tc * T + off >=? limit_val m pub) with true by lia. rewrite offer_run_S. cbn [offer_step fst snd rq_length].
  rewrite offer_run_done. unfold reject_status. by rewrite i64_small by lia.
Qed.

(** The claim, and what it leaves of the tails. *)
Lemma run_add n len req :
  required_length pub (mkRequest false len) = req -> 0 < req <= 805306368 -> off <= T -> tc < 2147483647 ->
  run_alone (S n) (PAdd (mkRequest false len) tc off (tc * T + off)) (view m base) =
  run_alone n (if off + req >? T then PRotate tc tid else PDone (tc * T + off + req))
    (set_tails (<[Z.to_nat (tc mod 3) := raw_tail tid (off + req)]> (sh_tails (view m base))) (view m base)).
Proof using Hpub Happ.
  intros Hreq Hr Hoff Htc. pose proof (po_count _ _ _ _ _ Hpub). pose proof (position_range m pub base tc off Hpub).
  pose proof (term_length_range m pub base tc off Hpub) as [? _]. destruct (po_off _ _ _ _ _ Hpub).
  rewrite offer_run_S. cbn [offer_step]. rewrite (proj2 (view_tail tc ltac:(lia))), (po_tail _ _ _ _ _ Hpub), Hreq.
  unfold after_add. destruct (rawTail_split m pub base tc off Hpub) as [-> ->].
  replace (raw_tail tid off + req) with (raw_tail tid (off + req)) by (unfold raw_tail; lia).
  assert (Hi : is_i64 (raw_tail tid (off + req))) by (apply raw_tail_range; [apply i32_range|lia]). unfold is_i64 in Hi.
  rewrite (i64_small (raw_tail _ _)), (i64_small (off + req)) by lia.
  unfold indexByTermCount, PartitionCount. rewrite Z.rem_mod_nonneg by lia. cbn [fst snd].
  destruct (off + req >? T); f_equal.
  - rewrite (po_max_pos _ _ _ _ _ Hpub), i64_small by lia. by replace (_ >? T * 2147483648) with false by nia.
  - f_equal. rewrite (i64_small (_ - _)) by lia. rewrite i64_small by lia. lia.
Qed.

(** The rotation: the next partition is opened, and then the count moves. *)
Lemma run_rotate req :
  0 < req <= 805306368 -> off <= T -> tc < 2147483647 ->
  let s1 := set_tails (<[Z.to_nat (tc mod 3) := raw_tail tid (off + req)]> (sh_tails (view m base))) (view m base) in
  exists s', run_alone 3 (PRotate tc tid) s1 = (PDone AdminAction, s') /\ sh_count s' = tc + 1 /\ active_offset s' = 0.
Proof using Hpub Happ.
  intros Hr Hoff Htc s1. pose proof (po_count _ _ _ _ _ Hpub) as Hcount. destruct (po_log _ _ _ _ _ Hpub) as [_ _ Hc _ Hn _].
  destruct (partitions_distinct tc ltac:(lia)) as (Hne & _ & _).
  pose proof (Z.mod_pos_bound tc 3 ltac:(lia)). pose proof (Z.mod_pos_bound (tc + 1) 3 ltac:(lia)).
  assert (Hix : Z.to_nat (tc mod 3) <> Z.to_nat ((tc + 1) mod 3)) by lia.
  assert (Hnx : next_index tc = (tc + 1) mod 3).
  { unfold next_index, indexByTermCount, PartitionCount. rewrite i32_small by lia. by apply Z.rem_mod_nonneg; lia. }
  assert (Hnext : tail_at (sh_tails s1) (next_index tc) = Some (rd_i64 m (tail_addr base ((tc + 1) mod 3)))).
  { unfold tail_at. rewrite Hnx, (proj2 (Z.ltb_ge _ _)) by lia. unfold s1. cbn [set_tails sh_tails].
    rewrite list_lookup_insert_ne by done. apply view_tail. lia. }
  assert (Hexp : expected_id tid = TermID (rd_i64 m (tail_addr base ((tc + 1) mod 3)))).
  { rewrite Hn. unfold expected_id, active_term, PartitionCount. rewrite i32_add_i32, i32_sub_i32. f_equal. lia. }
  assert (Hraw : new_raw_tail tid = raw_tail (i32 (tid + 1)) 0).
  { unfold new_raw_tail. change (Z.shiftl 1 32) with 4294967296. unfold raw_tail at 1. rewrite Z.add_0_r.
    apply i64_small. pose proof (i32_range (tid + 1)). unfold is_i32 in *. lia. }
  eexists. split.
  - rewrite offer_run_S. cbn [offer_step]. rewrite Hnext, Hexp, Z.eqb_refl. cbn [negb fst snd].
    rewrite offer_run_S. cbn [offer_step]. rewrite Hnext, Z.eqb_refl. cbn [fst snd].
    rewrite offer_run_S. cbn [offer_step fst snd]. unfold s1 at 2 3. cbn [set_tails view sh_count]. rewrite Hc, Z.eqb_refl.
    reflexivity.
  - cbn [set_count set_tails sh_count sh_tails]. unfold active_offset. cbn [set_count set_tails sh_count sh_tails].
    rewrite i32_small by lia. split; [done|]. rewrite Hnx, list_lookup_total_insert_eq by (cbn; rewrite length_insert; cbn; lia).
    rewrite Hraw. by apply raw_tail_offset.
Qed.
End Alone.

(** C17. A producer that is not interrupted is done after at most eight accesses, with the answer
    of [Offer] in memory; and the term count and the tail are those of the publication that
    [Offer] leaves. *)
Theorem offer_alone m pub base tc off app b o len sup :
  pub_ok m pub base tc off -> active_app pub tc = Some app -> src_ok m app b o len ->
  supplier_reads (supplier_or_default sup) -> len <= maxMessageLength pub -> off <= term_length pub ->
  tc < 2147483647 ->
  exists r m' s', Offer pub b o len sup m = Ret r m' /\
    run_alone pub 8 (PStart (mkRequest false len)) (view pub m base) = (PDone r, s') /\
    pub_ok m' pub base (sh_count s') (active_offset s').
Proof.
  intros Hpub Happ Hsrc Hsup Hlen Hoff Htc. pose proof (so_len _ _ _ _ _ Hsrc).
  pose proof (term_length_range m pub base tc off Hpub) as [? _].
  set (data := message m b o len). assert (Hz : zlen data = len) by (apply zlen_message; lia).
  pose proof (required_space pub m base tc off Hpub app data ltac:(lia)) as Hreq. rewrite Hz in Hreq.
  destruct (msg_space_bound m pub base tc off Hpub app data) as [Hb _].
  { rewrite Hz, <- (po_max_msg _ _ _ _ _ Hpub). done. }
  set (req := seg_space (msg_frames pub app (active_term pub tc) data)) in *.
  pose proof (po_max_msg _ _ _ _ _ Hpub). assert (len <= 134217728) by dlia. pose proof (po_count _ _ _ _ _ Hpub).
  destruct (Z.geb_spec (tc * term_length pub + off) (limit_val m pub)) as [Hlim|Hlim].
  - eexists _, m, (view pub m base). split; [eapply Offer_limited; [done|unfold is_i32; lia|lia]|].
    split; [eapply run_limited; done || lia|].
    assert (Hc : sh_count (view pub m base) = tc) by apply (li_count _ _ _ _ (po_log _ _ _ _ _ Hpub)).
    unfold active_offset. rewrite Hc. erewrite list_lookup_total_correct by (apply view_tail; lia).
    rewrite (po_tail _ _ _ _ _ Hpub). by rewrite (proj2 (rawTail_split m pub base tc off Hpub)).
  - rewrite (run_open pub m base tc off Hpub app Happ 4) by lia. replace (_ >=? _) with false by lia.
    rewrite (run_add pub m base tc off Hpub app Happ 3 len req Hreq) by lia.
    destruct (Z.gtb_spec (off + req) (term_length pub)) as [Hfull|Hfit].
    + destruct (Offer_rotates m pub base tc off Hpub app Happ b o len sup) as (m' & Hrun & Hp' & _); [lia|lia|done|done|].
      destruct (run_rotate pub m base tc off Hpub app Happ req) as (s' & Hs' & Hc & Ho); [lia|lia|lia|].
      exists AdminAction, m', s'. by rewrite Hs', Hc, Ho.
    + destruct (Offer_fits m pub base tc off Hpub app Happ b o len sup) as (m' & Hrun & Hp' & _); [done|done|done|lia|exact Hfit|].
      rewrite offer_run_done. eexists _, m', _. split; [exact Hrun|]. split; [done|].
      assert (Hc : sh_count (view pub m base) = tc) by apply (li_count _ _ _ _ (po_log _ _ _ _ _ Hpub)).
      unfold active_offset. cbn [set_tails sh_count sh_tails]. cbn [view sh_count] in Hc. cbn [view sh_count]. rewrite Hc.
      pose proof (Z.mod_pos_bound tc 3 ltac:(lia)). destruct (po_off _ _ _ _ _ Hpub).
      rewrite list_lookup_total_insert_eq by (cbn; lia). by rewrite raw_tail_offset by lia.
Qed.

(** ** Schedules

    An interleaving as a program: which producer makes how many accesses. *)

Inductive action : Type :=
| ANext (i : nat) (rq : request)
| ARun (i n : nat)
| ADriver (closed connected : bool) (limit : Z).

Definition room_b (pub : Publication) (p : producer) (s : shared) : bool :=
  match p with
  | PAdd rq termCount _ _ =>
      match tail_at (sh_tails s) (indexByTermCount termCount) with
      | Some raw => Z.land raw 0xFFFFFFFF + required_length pub rq <? 4294967296
      | None => true
      end
  | PSwap _ _ rawTail => partition_of pub rawTail <? 2147483645
  | PCas termCount => termCount <? 2147483647
  | _ => true
  end.

Definition prompt_b (p : producer) (s : shared) : bool :=
  match p with PAdd _ termCount _ _ => sh_count s <=? termCount + 1 | _ => true end.

Section Schedule.
Context (pub : Publication) (patient : producer -> shared -> bool).

Fixpoint access (n i : nat) (s : system) : option system :=
  match n with
  | O => Some s
  | S n' =>
      p ← st_producers s !! i;
      if room_b pub p (st_shared s) && patient p (st_shared s) then
        access n' i (mkSystem (offer_step pub p (st_shared s)).2
                       (<[i := (offer_step pub p (st_shared s)).1]> (st_producers s))
                       (new_claim pub i p (st_shared s) ++ st_claims s))
      else None
  end.

Definition act (s : system) (a : action) : option system :=
  match a with
  | ANext i rq =>
      p ← st_producers s !! i;
      match p with
      | PDone _ | PPanic =>
          if 0 <? required_length pub rq
          then Some (mkSystem (st_shared s) (<[i := PStart rq]> (st_producers s)) (st_claims s)) else None
      | _ => None
      end
  | ARun i n => access n i s
  | ADriver closed connected limit =>
      Some (mkSystem (mkShared closed connected limit (sh_count (st_shared s)) (sh_tails (st_shared s)))
              (st_producers s) (st_claims s))
  end.

Definition schedule (n : nat) (acts : list action) : option system :=
  fold_left (fun s a => s ← s; act s a) acts (Some (initial pub n)).

Context (patience : producer -> shared -> Prop) (Hpat : forall p s, patient p s = true -> patience p s).

Lemma room_b_ok p s : room_b pub p s = true -> room pub p s.
Proof using Type.
  destruct p; cbn; try done; [|lia..]. intros Hr raw Hraw. rewrite Hraw in Hr. lia.
Qed.

Lemma access_reachable n k i s s' :
  reachable pub patience n s -> access k i s = Some s' -> reachable pub patience n s'.
Proof using Hpat.
  revert s. induction k as [|k IH]; intros s Hs Ha; cbn in Ha; [by injection Ha as <-|].
  destruct (st_producers s !! i) as [p|] eqn:Hp; [|done]. cbn in Ha.
  destruct (room_b pub p (st_shared s) && patient p (st_shared s)) eqn:Hc; [|done].
  apply andb_prop in Hc as [Hr Ht]. eapply IH; [|exact Ha]. eapply reach_step; [done|].
  apply step_producer; [done|by apply room_b_ok|by apply Hpat].
Qed.

Lemma schedule_reachable n acts s : schedule n acts = Some s -> reachable pub patience n s.
Proof using Hpat.
  unfold schedule. assert (Hall : forall s0 acts, reachable pub patience n s0 ->
    forall s, fold_left (fun s a => s ← s; act s a) acts (Some s0) = Some s -> reachable pub patience n s).
  { clear acts s. intros s0 acts. revert s0. induction acts as [|a acts IH]; intros s0 Hs0 s Hf; cbn in Hf.
    - by injection Hf as <-.
    - destruct (act s0 a) as [s1|] eqn:Ha.
      2: { exfalso. clear - Hf. induction acts as [|a' acts IH]; [done|]. by apply IH. }
      apply (IH s1); [|done]. destruct a as [i rq|i k|closed connected limit]; cbn in Ha.
      + destruct (st_producers s0 !! i) as [p|] eqn:Hp; [|done]. cbn in Ha.
        destruct p; try done; destruct (Z.ltb_spec 0 (required_length pub rq)); try done; injection Ha as <-;
          (eapply reach_step; [done|]; by eapply step_next).
      + by eapply access_reachable.
      + injection Ha as <-. eapply reach_step; [done|]. apply step_driver. }
  intros Hf. eapply Hall; [apply reach_init|exact Hf].
Qed.
End Schedule.

(** ** A sleeper

    A log of the smallest terms, offered on by two goroutines. *)
Module Busy.

Definition publication : Publication := {|
  pub_channel := "aeron:ipc"; pub_regID := 1; pub_originalRegID := 1; maxPossiblePosition := 65536 * 2147483648;
  pub_streamID := 10; pub_sessionID := 5; pub_initialTermID := 7; maxPayloadLength := 1376; maxMessageLength := 8192;
  positionBitsToShift := 16; pubLimit := mkPosition (mkBuffer 0 0) 0 0; channelStatusIndicatorID := 0;
  pub_isClosed := false; pub_metaData := meta_layout 0; appenders := [] |}.

Definition short : request := mkRequest false 1000.
Definition long : request := mkRequest false 8192.

(** Seven of the longest messages fit a term, and the eighth rotates the log. *)
Definition fill_term (i : nat) : list action :=
  flat_map (fun _ => [ANext i long; ARun i 5]) (seq 0 7) ++ [ANext i long; ARun i 8].

(** The first goroutine sleeps where it is about to claim, while the second fills three terms. *)
Definition sleeping : list action :=
  [ADriver false true 1000000; ANext 0 short; ARun 0 4] ++ fill_term 1 ++ fill_term 1 ++ fill_term 1 ++ [ARun 0 1].

(** Both offer a message at the same time, their accesses taking turns. *)
Definition together : list action :=
  [ADriver false true 1000000; ANext 0 short; ANext 1 long; ARun 0 4; ARun 1 4; ARun 1 1; ARun 0 1].
End Busy.

(** A goroutine that is not prompt is misled: it has claimed space in a term three terms
    further on, and what its offer returns is the position it would have been at in the term
    that it had read. *)
Theorem sleeper_misled :
  exists s r c, reachable Busy.publication always 2 s /\ st_producers s !! 0%nat = Some (PDone r) /\
    last_claim 0 (st_claims s) = Some c /\ 0 < r /\ claim_end c <= term_length Busy.publication /\
    claim_position Busy.publication c = r + 3 * term_length Busy.publication.
Proof.
  destruct (schedule Busy.publication (fun _ _ => true) 2 Busy.sleeping) as [s|] eqn:E; [|by vm_compute in E].
  pose proof (schedule_reachable Busy.publication (fun _ _ => true) always (fun _ _ _ => I) 2 _ s E) as Hr.
  vm_compute in E. injection E as <-. eexists _, _, _. split; [exact Hr|]. split; [reflexivity|]. split; [reflexivity|].
  by vm_compute.
Qed.
