(* ===== verification/Vectored.v ===== *)
(** * Messages from two buffers

    [Offer2] of src/aeron/publication.go and the appends of src/aeron/logbuffer/term/appender.go
    behind it take a message in two parts, usually a header and a payload. They are shown to do
    what [Offer] does with the two parts in one buffer. *)

From S2P Require Import Prelude Memory Bits Flyweight LogBuffer TermSpec Appender Publication.

Local Open Scope m_scope.

(** ** One frame from two sources *)

Section Unfragmented.
Context (m : mem) (app : Appender) (tid off : Z).
Context (Happ : app_ok m app) (Htid : is_i32 tid) (Hoff : 0 <= off).
Context (Htail : f64_val m (tailCounter app) = raw_tail tid off).

Let tb := termBuffer app.

(** Two sources make one frame with the two messages in a row. *)
Lemma AppendUnfragmentedMessage2_ok s1 o1 l1 s2 o2 l2 sup :
  src_ok m app s1 o1 l1 -> src_ok m app s2 o2 l2 -> opt_supplier_reads sup ->
  off + align_up (l1 + l2 + 32) 32 <= buf_length tb ->
  exists res,
    AppendUnfragmentedMessage2 app s1 o1 l1 s2 o2 l2 sup m =
    Ret (off + align_up (l1 + l2 + 32) 32, tid)
      (commit_mem (claim_mem m app tid (off + align_up (l1 + l2 + 32) 32))
         (bufferPtr tb) off tid (app_headerWriter app)
         (message m s1 o1 l1 ++ message m s2 o2 l2) None res).
Proof using All.
  intros Hs1 Hs2 Hsup Hfit. pose proof Happ as [Hb Hal Hmax Ht Hd Hhw].
  pose proof Hs1 as [Hsb1 ? ? ? Hdis1 ?]. pose proof Hs2 as [Hsb2 ? ? ? Hdis2 ?].
  fold tb in Hb, Hmax, Hd, Hal, Hdis1, Hdis2.
  destruct (frame_fits off (l1 + l2) (buf_length tb)) as (? & ? & HA); [lia..|].
  set (space := align_up (l1 + l2 + 32) 32) in *.
  unfold AppendUnfragmentedMessage2, DataFrameHeader.Length, FrameAlignment.
  rewrite (i32_small (l1 + l2)), HA by lia.
  erewrite bind_Ret by (apply getAndAddRawTail_ok; done || lia).
  rewrite TermID_raw, raw_tail_offset by (done || lia). fold tb. unfold Capacity.
  set (m1 := claim_mem m app tid (off + space)).
  wrap_simpl. replace (off + space >? buf_length tb) with false by lia.
  assert (Hk1 : keeps m m1) by apply keeps_claim_mem.
  erewrite bind_Ret by (apply headerWriter_write_ok; (by eapply buf_ok_keeps) || lia).
  set (m2 := header_mem _ _ _ _ _ _).
  assert (Hk : keeps m m2) by (eapply keeps_trans; [done|apply keeps_header_mem]).
  erewrite bind_Ret by (apply PutBytes_ok; try lia; try done; by eapply buf_ok_keeps).
  assert (Hdata : forall s o l, src_ok m app s o l ->
            rd m2 (bufferPtr s + o) (Z.to_nat l) = message m s o l).
  { intros s o l Hs. rewrite <- (message_claim m app tid (off + space) s o l) by done.
    destruct Hs as [? ? ? ? Hdis ?]. fold tb in Hdis.
    eapply only_in_rd; [apply only_in_header_mem|]. unfold disjoint in *. lia. }
  rewrite (Hdata s1 o1 l1) by done. set (d1 := message m s1 o1 l1).
  assert (Hd1 : zlen d1 = l1) by (apply zlen_message; lia).
  assert (Hk3 : keeps m (wr m2 (bufferPtr tb + (off + 32)) d1)) by (eapply keeps_trans; [done|apply keeps_wr]).
  erewrite bind_Ret by (apply PutBytes_ok; try lia; try done; by eapply buf_ok_keeps).
  rewrite rd_wr_disj by (unfold disjoint in *; lia).
  rewrite (Hdata s2 o2 l2) by done. set (d2 := message m s2 o2 l2).
  assert (Hd2 : zlen d2 = l2) by (apply zlen_message; lia).
  replace (bufferPtr tb + (off + 32 + l1)) with (bufferPtr tb + (off + 32) + zlen d1) by lia.
  rewrite <- wr_app.
  destruct (put_reserved_ok (wr m2 (bufferPtr tb + (off + 32)) (d1 ++ d2))
              sup tb off (l1 + l2 + 32)) as [res Hres]; [done| |lia..|].
  { apply buf_ok_wr. by eapply buf_ok_keeps. }
  erewrite bind_Ret by exact Hres.
  erewrite bind_Ret.
  2: { apply SetFrameLength_ok; [|lia..].
       eapply buf_ok_keeps; [apply keeps_opt_wr|]. apply buf_ok_wr. by eapply buf_ok_keeps. }
  exists res. unfold ret. f_equal. unfold commit_mem. cbn [opt_wr].
  rewrite zlen_app, Hd1, Hd2. rewrite (Z.add_comm 32), Z.add_assoc. done.
Qed.

Lemma AppendUnfragmentedMessage2_full s1 o1 l1 s2 o2 l2 sup :
  0 <= l1 -> 0 <= l2 -> l1 + l2 <= 1073741824 -> off + align_up (l1 + l2 + 32) 32 < 4294967296 ->
  buf_length tb < off + align_up (l1 + l2 + 32) 32 ->
  AppendUnfragmentedMessage2 app s1 o1 l1 s2 o2 l2 sup m =
  bind (end_of_log app tid off) (fun r => ret (r, tid))
    (claim_mem m app tid (off + align_up (l1 + l2 + 32) 32)).
Proof using All.
  intros ? ? Hlen Hov Hfull. pose proof (align_up_spec (l1 + l2 + 32) 32 ltac:(lia)) as [? _].
  unfold AppendUnfragmentedMessage2, DataFrameHeader.Length, FrameAlignment.
  rewrite (i32_small (l1 + l2)), (i32_small (l1 + l2 + 32)), AlignInt32_32 by lia.
  erewrite bind_Ret by (apply getAndAddRawTail_ok; done || lia).
  rewrite TermID_raw, raw_tail_offset by (done || lia). unfold Capacity. wrap_simpl. fold tb.
  by replace (off + align_up (l1 + l2 + 32) 32 >? buf_length tb) with true by lia.
Qed.
End Unfragmented.

(** ** Fragments from two sources *)

Section Fill.
Context (app : Appender) (src : sources).
Context (D1 D2 : list Init.Byte.byte).

Let tb := termBuffer app.
Let D := D1 ++ D2.

(** Both sources hold their part. *)
Definition src2_holds (m : mem) : Prop :=
  src_holds app (one_buf src) (one_off src) (one_len src) D1 m /\
  src_holds app (two_buf src) (two_off src) (two_len src) D2 m.

Lemma src2_holds_stable : stable_holds app src2_holds.
Proof using Type.
  intros m m' o n [H1 H2] ? ? ? ?. split; by eapply src_holds_stable.
Qed.

Lemma src2_lengths m : src2_holds m -> zlen D1 = one_len src /\ zlen D2 = two_len src.
Proof using Type.
  intros [[[? ? ? ? ? ?] <-] [[? ? ? ? ? ?] <-]]. by rewrite !zlen_message by lia.
Qed.

(** The positions in both sources after [p] bytes. *)
Definition pos_one (p : Z) : Z := Z.min p (one_len src).
Definition pos_two (p : Z) : Z := p - pos_one p.

(** The bytes of a source from a position on. *)
Lemma src_holds_slice b o l X m p k :
  src_holds app b o l X m -> 0 <= p -> 0 <= k -> p + k <= l ->
  rd m (bufferPtr b + (o + p)) (Z.to_nat k) = sub_list (Z.to_nat p) (Z.to_nat k) X.
Proof using Type.
  intros [_ <-] ? ? ?. unfold sub_list, message. rewrite drop_rd, take_rd.
  rewrite <- (Z.add_assoc _ o). f_equal; lia.
Qed.

Lemma sub_list_app_l a b (X Y : list Init.Byte.byte) :
  (a + b <= length X)%nat -> sub_list a b (X ++ Y) = sub_list a b X.
Proof using Type.
  intros. unfold sub_list. rewrite drop_app_le, take_app_le; rewrite ?length_drop; [done|lia..].
Qed.

Lemma sub_list_app_r a b (X Y : list Init.Byte.byte) :
  (length X <= a)%nat -> sub_list a b (X ++ Y) = sub_list (a - length X) b Y.
Proof using Type. intros. unfold sub_list. by rewrite drop_app_ge. Qed.

Lemma slice_app (p a b c : Z) (X : list Init.Byte.byte) :
  0 <= p -> 0 <= a -> 0 <= b -> c = a + b ->
  sub_list (Z.to_nat p) (Z.to_nat a) X ++ sub_list (Z.to_nat (p + a)) (Z.to_nat b) X =
  sub_list (Z.to_nat p) (Z.to_nat c) X.
Proof using Type.
  intros ? ? ? ->. unfold sub_list. rewrite !Z2Nat.inj_add by lia. by rewrite <- drop_drop, take_take_drop.
Qed.

Lemma fill_payload_ok fuel : forall m w n po p,
  app_ok m app -> src2_holds m -> 0 <= w <= n -> n < 2147483648 -> (Z.to_nat (n - w) <= fuel)%nat ->
  0 <= p -> p + (n - w) <= zlen D -> 0 <= po -> po + (n - w) <= buf_length tb ->
  zlen D < 2147483648 ->
  fill_payload app src fuel n w po (pos_one p) (pos_two p) m =
  Ret (pos_one (p + (n - w)), pos_two (p + (n - w)))
    (wr m (bufferPtr tb + po) (sub_list (Z.to_nat p) (Z.to_nat (n - w)) D)).
Proof using Type.
  induction fuel as [|fuel IH]; intros m w n po p Happ Hh Hw Hn31 Hfuel Hp Hn Hpo Hfit HD.
  { replace (n - w) with 0 by lia. rewrite Z.add_0_r. cbn [fill_payload].
    by rewrite (proj2 (Z.ltb_ge w n)) by lia. }
  destruct (decide (w = n)) as [->|Hne].
  { rewrite Z.sub_diag, Z.add_0_r. cbn [fill_payload]. by rewrite Z.ltb_irrefl. }
  destruct (src2_lengths m Hh) as [H1 H2]. pose proof Happ as [Hb ? Hmax ? ? ?]. fold tb in Hb, Hmax.
  pose proof Hh as [[[Hb1 ? ? ? Hd1 ?] _] [[Hb2 ? ? ? Hd2 ?] _]].
  pose proof (buf_ok_length _ _ Hb1). pose proof (buf_ok_length _ _ Hb2).
  fold tb in Hd1, Hd2.
  assert (HDz : zlen D = one_len src + two_len src) by (unfold D; rewrite zlen_app; lia).
  cbn [fill_payload]. rewrite (proj2 (Z.ltb_lt w n)) by lia. unfold pos_two.
  assert (Hstep : forall q k, q = p + k -> 0 < k <= n - w ->
    forall m1, m1 = wr m (bufferPtr tb + po) (sub_list (Z.to_nat p) (Z.to_nat k) D) ->
    fill_payload app src fuel n (w + k) (po + k) (pos_one q) (pos_two q) m1 =
    Ret (pos_one (p + (n - w)), pos_two (p + (n - w)))
      (wr m (bufferPtr tb + po) (sub_list (Z.to_nat p) (Z.to_nat (n - w)) D))).
  { intros q k -> Hk m1 ->.
    assert (Hz : zlen (sub_list (Z.to_nat p) (Z.to_nat k) D) = k).
    { unfold zlen in *. rewrite length_sub_list; lia. }
    rewrite IH; try lia.
    - replace (p + k + (n - (w + k))) with (p + (n - w)) by lia. f_equal.
      rewrite <- (slice_app p k (n - (w + k)) (n - w)), wr_app, Hz by lia.
      f_equal. lia.
    - eapply app_ok_keeps; [apply keeps_wr|done].
    - eapply (src2_holds_stable m _ po k); [done|apply keeps_wr| |lia|fold tb; lia].
      fold tb. apply only_in_wr; lia. }
  assert (Hmin : forall a b, minInt32 a b = Z.min a b)
    by (intros; unfold minInt32; destruct (Z.ltb_spec a b); lia).
  rewrite !Hmin.
  destruct (Z.leb_spec (one_len src) p).
  - (* the second source *)
    replace (pos_one p) with (one_len src) by (unfold pos_one; lia). rewrite Z.sub_diag.
    wrap_simpl. cbn [Z.gtb Z.compare].
    fold tb. set (k := Z.min _ _) in *. assert (k = n - w) by (unfold k; lia).
    erewrite bind_Ret by (apply PutBytes_ok; try lia; done).
    wrap_simpl. fold tb. fold (pos_two (p + (n - w))).
    rewrite <- (Hstep (p + k) k eq_refl ltac:(lia) _ eq_refl).
    erewrite src_holds_slice by (apply Hh || lia). unfold D. rewrite sub_list_app_r by (unfold zlen in *; lia).
    replace (Z.to_nat p - length D1)%nat with (Z.to_nat (p - one_len src)) by (unfold zlen in *; lia).
    f_equal; unfold pos_two, pos_one; lia.
  - (* the first source *)
    replace (pos_one p) with p by (unfold pos_one; lia). wrap_simpl.
    replace (one_len src - p >? 0) with true by lia.
    fold tb. set (k := Z.min _ _) in *. assert (0 < k <= n - w /\ p + k <= one_len src) as [? ?] by (unfold k; lia).
    erewrite bind_Ret by (apply PutBytes_ok; try lia; done).
    wrap_simpl. fold tb. fold (pos_two (p + (n - w))).
    rewrite <- (Hstep (p + k) k eq_refl ltac:(lia) _ eq_refl).
    erewrite src_holds_slice by (apply Hh || lia). unfold D. rewrite sub_list_app_l by (unfold zlen in *; lia).
    f_equal; unfold pos_two, pos_one; lia.
Qed.
End Fill.

Section Fragments.
Context (app : Appender) (src : sources) (P tid : Z) (f : ReservedValueSupplier).
Context (D1 D2 : list Init.Byte.byte).
Context (HP : 0 < P) (Hsup : supplier_reads f) (HD : zlen (D1 ++ D2) <= 1073741824).

Local Abbreviation D := (D1 ++ D2).
Let tb := termBuffer app.

(** The loop with its positions where [r] bytes remain. *)
Definition fragments2_loop (fuel : nat) (fl r off : Z) : M mem unit :=
  append_fragments2 app src P (Some f) tid fuel fl r off
    (pos_one src (zlen D - r)) (pos_two src (zlen D - r)).

(** The payload of a round: the inner loop leaves the next chunk of the message. *)
Lemma round_payload m off r :
  app_ok m app -> src2_holds app src D1 D2 m -> 0 < r <= zlen D -> 0 <= off ->
  let n := Z.min r P in
  off + 32 + n <= buf_length tb ->
  fill_payload app src (Z.to_nat n) n 0 (off + 32) (pos_one src (zlen D - r)) (pos_two src (zlen D - r)) m =
  Ret (pos_one src (zlen D - (r - n)), pos_two src (zlen D - (r - n)))
    (wr m (bufferPtr tb + (off + 32)) (take (Z.to_nat P) (remaining_bytes D r))).
Proof using HP HD.
  intros Happ Hh Hr Hoff n Hfit. assert (Hn : 0 < n <= r) by (unfold n; lia).
  rewrite (fill_payload_ok app src D1 D2); try done; fold tb; try lia.
  rewrite Z.sub_0_r. replace (zlen D - r + n) with (zlen D - (r - n)) by lia.
  do 2 f_equal. unfold sub_list. fold (remaining_bytes D r).
  destruct (decide (P <= r)); [do 2 f_equal; lia|].
  pose proof (zlen_remaining D r ltac:(lia)). rewrite !take_ge; [done|unfold zlen in *; lia..].
Qed.

Lemma fragments2_round : loop_round app P tid D (src2_holds app src D1 D2) fragments2_loop.
Proof using HP HD Hsup.
  intros m fuel fl r off Happ Hh Hfl Hr Hoff n Hfit. pose proof Happ as [Hb Hal Hmax Ht Hd Hhw].
  assert (Hmin : minInt32 r P = n) by (unfold minInt32, n; destruct (Z.ltb_spec r P); lia).
  assert (Hn : 0 < n <= r) by (unfold n; lia).
  destruct (frame_fits off n (buf_length (termBuffer app))) as (? & ? & HA); [lia..|].
  unfold fragments2_loop. cbn [append_fragments2]. rewrite Hmin.
  unfold DataFrameHeader.Length, FrameAlignment. rewrite HA.
  replace (r >? 0) with true by lia. wrap_simpl.
  erewrite bind_Ret by (apply headerWriter_write_ok; done || lia).
  set (m2 := header_mem _ _ _ _ _ _).
  assert (Hk : keeps m m2) by apply keeps_header_mem.
  assert (Hh2 : src2_holds app src D1 D2 m2).
  { eapply src2_holds_stable; [exact Hh|done|apply only_in_header_mem|lia|lia]. }
  erewrite bind_Ret by (apply round_payload; [by eapply app_ok_keeps|done|lia|lia|change (off + 32 + n <= buf_length (termBuffer app)); lia]).
  fold n. set (data := take _ _). cbv beta match.
  assert (Hz : zlen data = n) by (unfold data, n; apply (zlen_take_remaining _ _ HP); lia).
  unfold m2. rewrite <- Hz.
  destruct (frame_close m app tid f (if r <=? P then Z.lor fl endFrag else fl) off data) as [res Hres];
    [done|done|destruct (endFrag_flags fl Hfl); by case_match|lia..|].
  exists res. apply Hres.
Qed.

Lemma fragments2_done fuel fl off m : fragments2_loop fuel fl 0 off m = Ret tt m.
Proof using Type. by destruct fuel. Qed.
End Fragments.

(** Two sources make the frames of the fragments of their messages in a row. *)
Lemma AppendFragmentedMessage2_ok m app tid off s1 o1 l1 s2 o2 l2 P sup :
  app_ok m app -> is_i32 tid -> 0 <= off -> f64_val m (tailCounter app) = raw_tail tid off ->
  src_ok m app s1 o1 l1 -> src_ok m app s2 o2 l2 -> supplier_reads sup ->
  0 < P <= 1073741824 -> (P + 32) mod 32 = 0 ->
  let fs := app_frames app tid (fragments (Z.to_nat P) (message m s1 o1 l1 ++ message m s2 o2 l2)) in
  off + seg_space fs <= buf_length (termBuffer app) -> l1 + l2 <= 1073741824 ->
  exists m',
    AppendFragmentedMessage2 app s1 o1 l1 s2 o2 l2 P (Some sup) m = Ret (off + seg_space fs, tid) m' /\
    appended (claim_mem m app tid (off + seg_space fs)) m' (bufferPtr (termBuffer app)) off fs.
Proof.
  intros Happ Htid Hoff Htail Hs1 Hs2 Hsup HP Hal fs Hfit Hlen.
  pose proof (seg_space_nonneg fs). pose proof Happ as [Hb ? ? ? ? ?].
  pose proof (so_len _ _ _ _ _ Hs1). pose proof (so_len _ _ _ _ _ Hs2).
  set (D1 := message m s1 o1 l1) in *. set (D2 := message m s2 o2 l2) in *.
  assert (HD : zlen (D1 ++ D2) = l1 + l2) by (rewrite zlen_app; unfold D1, D2; rewrite !zlen_message; lia).
  assert (HDl : length (D1 ++ D2) = Z.to_nat (l1 + l2)) by (unfold zlen in HD; lia).
  unfold AppendFragmentedMessage2. rewrite (proj2 (Z.eqb_neq P 0)) by lia.
  rewrite (i32_small (l1 + l2)) by lia.
  assert (Hreq : fragmented_length (l1 + l2) P = seg_space fs).
  { rewrite <- HD. apply fragmented_length_space; [lia|done|fold fs; lia..]. }
  rewrite Hreq. erewrite bind_Ret by (apply getAndAddRawTail_ok; done || lia).
  rewrite TermID_raw, raw_tail_offset by (done || lia). unfold Capacity. wrap_simpl.
  replace (off + seg_space fs >? buf_length (termBuffer app)) with false by lia.
  set (m1 := claim_mem _ _ _ _). set (src := mkSources _ _ _ _ _ _).
  destruct (fragment_loop_ok app P tid (D1 ++ D2) ltac:(lia) Htid (src2_holds app src D1 D2)
              (fragments2_loop app src P tid sup D1 D2) (src2_holds_stable _ _ _ _)
              (fragments2_round app src P tid sup D1 D2 ltac:(lia) Hsup ltac:(lia))
              (fragments2_done app src P tid sup D1 D2) (Z.to_nat (l1 + l2)) m1 0x80 (l1 + l2) off)
    as (m' & Hrun & Hap); rewrite ?HD; try lia.
  - eapply app_ok_keeps; [apply keeps_claim_mem|done].
  - split; (split; [eapply src_ok_keeps; [apply keeps_claim_mem|done]|by apply message_claim]).
  - rewrite remaining_all by lia. unfold fs, fragments in Hfit. by rewrite HDl in Hfit.
  - exists m'. unfold fragments2_loop in Hrun. rewrite HD, Z.sub_diag in Hrun.
    unfold pos_two, pos_one in Hrun. cbn [one_len src] in Hrun. rewrite Z.min_l in Hrun by lia.
    erewrite bind_Ret by exact Hrun. split; [done|].
    rewrite remaining_all in Hap by lia. unfold fs, fragments. by rewrite HDl.
Qed.

Lemma AppendFragmentedMessage2_full m app tid off s1 o1 l1 s2 o2 l2 P sup :
  app_ok m app -> is_i32 tid -> 0 <= off -> f64_val m (tailCounter app) = raw_tail tid off ->
  is_i32 (l1 + l2) -> let len := l1 + l2 in
  P <> 0 -> 0 <= fragmented_length len P -> off + fragmented_length len P < 4294967296 ->
  buf_length (termBuffer app) < off + fragmented_length len P ->
  AppendFragmentedMessage2 app s1 o1 l1 s2 o2 l2 P sup m =
  bind (end_of_log app tid off) (fun r => ret (r, tid))
    (claim_mem m app tid (off + fragmented_length len P)).
Proof.
  intros Happ Htid Hoff Htail Hi len HP Hge Hov Hfull. unfold AppendFragmentedMessage2, is_i32 in *.
  rewrite (i32_small (l1 + l2)) by lia. fold len. rewrite (proj2 (Z.eqb_neq P 0)) by done.
  erewrite bind_Ret by (apply getAndAddRawTail_ok; done || lia).
  rewrite TermID_raw, raw_tail_offset by (done || lia). unfold Capacity. wrap_simpl.
  by replace (off + fragmented_length len P >? buf_length (termBuffer app)) with true by lia.
Qed.

(** ** The same as one source *)

(** The bytes of the two parts are also in a row in one buffer. *)
Definition in_a_row (app : Appender) (src : sources) (b : Buffer) (o : Z) (D1 D2 : list Init.Byte.byte)
  (m : mem) : Prop :=
  src2_holds app src D1 D2 m /\ src_holds app b o (one_len src + two_len src) (D1 ++ D2) m.

Lemma in_a_row_stable app src b o D1 D2 : stable_holds app (in_a_row app src b o D1 D2).
Proof.
  intros m m' o' n [H1 H2] ? ? ? ?. split; [by eapply src2_holds_stable|by eapply src_holds_stable].
Qed.

Section SameLoop.
Context (app : Appender) (src : sources) (b : Buffer) (o P tid : Z) (f : ReservedValueSupplier).
Context (D1 D2 : list Init.Byte.byte).
Context (HP : 0 < P) (Hsup : supplier_reads f) (HD : zlen (D1 ++ D2) <= 1073741824).

Local Abbreviation D := (D1 ++ D2).
Local Abbreviation len := (one_len src + two_len src).
Local Abbreviation loop1 := (append_fragments app b o len P (Some f) tid).
Local Abbreviation loop2 := (fragments2_loop app src P tid f D1 D2).

(** The two loops do the same round by round. *)
Lemma fragment_loops_same fuel : forall m fl r off,
  app_ok m app -> in_a_row app src b o D1 D2 m -> fl = 0x80 \/ fl = 0 ->
  0 <= r <= zlen D -> 0 <= off ->
  off + seg_space (app_frames app tid (fragments_from fuel (Z.to_nat P) fl (remaining_bytes D r)))
    <= buf_length (termBuffer app) ->
  loop2 fuel fl r off m = loop1 fuel fl r off m.
Proof using HP Hsup HD.
  induction fuel as [|fuel IH]; intros m fl r off Happ Hh Hfl Hr Hoff Hfit; [by cbn|].
  destruct (decide (r = 0)) as [->|Hne]; [done|]. rewrite (app_frames_step _ _ _ _ HP) in Hfit by lia.
  pose proof (zlen_take_remaining _ D HP r ltac:(lia)) as Hz.
  pose proof Happ as [Hb Hal Hmax Ht Hd Hhw]. pose proof Hh as [[Ho1 Ho2] Hrow].
  assert (Hlen : zlen D = len).
  { destruct (src2_lengths app src D1 D2 m (proj1 Hh)) as [<- <-]. apply zlen_app. }
  pose proof Hrow as [[Hsb ? ? ? Hdis ?] _]. pose proof (buf_ok_length _ _ Hsb).
  set (n := Z.min r P) in *. set (data := take _ _) in *.
  set (fr := mkFrame _ _ _ _ _ _) in *. set (rest := app_frames _ _ _) in *. cbn [seg_space] in Hfit.
  assert (Hsp : frame_space fr = align_up (n + 32) 32).
  { unfold frame_space, frame_length, fr. cbn [fr_data]. rewrite Hz. f_equal. lia. }
  pose proof (seg_space_nonneg rest). rewrite Hsp in Hfit.
  assert (Hmin : minInt32 r P = n) by (unfold minInt32, n; destruct (Z.ltb_spec r P); lia).
  assert (Hn : 0 < n <= r) by (unfold n; lia).
  destruct (frame_fits off n (buf_length (termBuffer app))) as (? & ? & HA); [lia..|].
  unfold fragments2_loop. cbn [append_fragments2 append_fragments]. rewrite Hmin.
  unfold DataFrameHeader.Length, FrameAlignment. rewrite HA.
  replace (r >? 0) with true by lia. wrap_simpl.
  erewrite (bind_Ret (headerWriter_write _ _ _ _ _)) by (apply headerWriter_write_ok; done || lia).
  erewrite (bind_Ret (headerWriter_write _ _ _ _ _)) by (apply headerWriter_write_ok; done || lia).
  set (m2 := header_mem _ _ _ _ _ _).
  assert (Hk : keeps m m2) by apply keeps_header_mem.
  assert (Hh2 : in_a_row app src b o D1 D2 m2).
  { eapply in_a_row_stable; [exact Hh|done|apply only_in_header_mem|lia|lia]. }
  erewrite bind_Ret by (apply (round_payload app src P D1 D2 HP HD m2 off r);
    [by eapply app_ok_keeps|apply Hh2|lia|lia|change (off + 32 + n <= buf_length (termBuffer app)); lia]).
  erewrite (bind_Ret (PutBytes _ _ _ _ _)) by (apply PutBytes_ok; try lia; try done; by eapply buf_ok_keeps).
  cbv beta match. fold n data.
  pose proof (src_holds_read app b o len P D HP Hlen m2 r ltac:(lia) (proj2 Hh2)) as Hdata.
  fold n data in Hdata. rewrite Hdata. unfold m2.
  destruct (frame_close m app tid f (if r <=? P then Z.lor fl endFrag else fl) off data) as [res Hres];
    [done|done|destruct (endFrag_flags fl Hfl); by case_match|lia..|].
  rewrite Hz in Hres. rewrite !Hres. fold (fragments2_loop app src P tid f D1 D2).
  set (m3 := commit_mem _ _ _ _ _ _ _ _).
  apply IH; [|eapply in_a_row_stable; [exact Hh|apply keeps_commit_mem|apply only_in_commit_mem|lia|rewrite Hz; lia]
    |by right|lia|lia|fold n rest; lia].
  eapply app_ok_keeps; [apply keeps_commit_mem|done].
Qed.
End SameLoop.

Section SameAppend.
Context (m : mem) (app : Appender) (src : sources) (b : Buffer) (o tid off : Z).
Context (Happ : app_ok m app) (Htid : is_i32 tid) (Hoff : 0 <= off < 2147483648).
Context (Htail : f64_val m (tailCounter app) = raw_tail tid off).

Local Abbreviation len := (one_len src + two_len src).
Local Abbreviation D1 := (message m (one_buf src) (one_off src) (one_len src)).
Local Abbreviation D2 := (message m (two_buf src) (two_off src) (two_len src)).
Context (Hrow : in_a_row app src b o D1 D2 m).

Lemma row_zlen : zlen (D1 ++ D2) = len /\ 0 <= one_len src /\ 0 <= two_len src.
Proof using Hrow.
  destruct Hrow as [[[Hs1 _] [Hs2 _]] _].
  pose proof (so_len _ _ _ _ _ Hs1). pose proof (so_len _ _ _ _ _ Hs2).
  rewrite zlen_app, !zlen_message by lia. lia.
Qed.

Lemma row_claimed off' : in_a_row app src b o D1 D2 (claim_mem m app tid off').
Proof using Hrow.
  assert (Hc : forall s so l X, src_holds app s so l X m -> src_holds app s so l X (claim_mem m app tid off')).
  { intros s so l X [Hs HX]. split; [eapply src_ok_keeps; [apply keeps_claim_mem|done]|].
    by rewrite message_claim. }
  destruct Hrow as [[? ?] ?]. by split; [split|]; apply Hc.
Qed.

Lemma AppendUnfragmentedMessage2_same sup :
  opt_supplier_reads sup -> len <= 1073741824 ->
  AppendUnfragmentedMessage2 app (one_buf src) (one_off src) (one_len src)
    (two_buf src) (two_off src) (two_len src) sup m =
  AppendUnfragmentedMessage app b o len sup m.
Proof using All.
  intros Hsup Hlen. destruct row_zlen as (Hz & ? & ?). pose proof Happ as [Hb Hal Hmax ? ? ?].
  pose proof (align_up_spec (len + 32) 32 ltac:(lia)) as [? _].
  unfold AppendUnfragmentedMessage2, AppendUnfragmentedMessage, DataFrameHeader.Length, FrameAlignment.
  rewrite (i32_small len), (i32_small (len + 32)), AlignInt32_32 by lia.
  erewrite (bind_Ret (getAndAddRawTail _ _)) by (apply getAndAddRawTail_ok; done || lia).
  erewrite (bind_Ret (getAndAddRawTail _ _)) by (apply getAndAddRawTail_ok; done || lia).
  rewrite TermID_raw, raw_tail_offset by (done || lia). unfold Capacity. wrap_simpl.
  destruct (Z.gtb_spec (off + align_up (len + 32) 32) (buf_length (termBuffer app))); [done|].
  set (m1 := claim_mem _ _ _ _).
  assert (Ha1 : app_ok m1 app) by (eapply app_ok_keeps; [apply keeps_claim_mem|done]).
  wrap_simpl.
  erewrite (bind_Ret (headerWriter_write _ _ _ _ _)) by (apply headerWriter_write_ok; try apply Ha1; lia).
  erewrite (bind_Ret (headerWriter_write _ _ _ _ _)) by (apply headerWriter_write_ok; try apply Ha1; lia).
  set (m2 := header_mem _ _ _ _ _ _).
  assert (Hr2 : in_a_row app src b o D1 D2 m2).
  { eapply in_a_row_stable; [apply (row_claimed (off + align_up (len + 32) 32))|apply keeps_header_mem
      |apply only_in_header_mem|lia|lia]. }
  assert (Hb2 : buf_ok m2 (termBuffer app)) by (eapply buf_ok_keeps; [apply keeps_header_mem|apply Ha1]).
  destruct Hr2 as [[Hh1 Hh2] Hh]. pose proof Hh1 as [[? ? ? ? ? ?] HD1]. pose proof Hh2 as [[? ? ? ? ? ?] HD2].
  pose proof Hh as [[? ? ? ? ? ?] HD].
  erewrite (bind_Ret (PutBytes _ _ _ _ _) _ m2) by (apply PutBytes_ok; done || lia).
  fold (message m2 (one_buf src) (one_off src) (one_len src)). rewrite HD1.
  assert (Hz1 : zlen D1 = one_len src) by (apply zlen_message; lia).
  erewrite (bind_Ret (PutBytes _ _ _ _ _)) by (apply PutBytes_ok; try (done || lia); by apply buf_ok_wr).
  rewrite rd_wr_disj by (unfold disjoint in *; lia).
  fold (message m2 (two_buf src) (two_off src) (two_len src)). rewrite HD2.
  replace (bufferPtr (termBuffer app) + (off + 32 + one_len src))
    with (bufferPtr (termBuffer app) + (off + 32) + zlen D1) by lia.
  rewrite <- wr_app.
  erewrite (bind_Ret (PutBytes _ _ _ _ _) _ m2) by (apply PutBytes_ok; done || lia).
  fold (message m2 b o len). by rewrite HD.
Qed.

Lemma AppendFragmentedMessage2_same P f :
  supplier_reads f -> 0 < P <= 1073741824 -> (P + 32) mod 32 = 0 -> len <= 134217728 ->
  seg_space (app_frames app tid (fragments (Z.to_nat P) (D1 ++ D2))) <= 1073741824 ->
  AppendFragmentedMessage2 app (one_buf src) (one_off src) (one_len src)
    (two_buf src) (two_off src) (two_len src) P (Some f) m =
  AppendFragmentedMessage app b o len P (Some f) m.
Proof using All.
  intros Hsup HP Hal Hlen Hsp. destruct row_zlen as (Hz & ? & ?).
  pose proof (seg_space_nonneg (app_frames app tid (fragments (Z.to_nat P) (D1 ++ D2)))).
  unfold AppendFragmentedMessage2, AppendFragmentedMessage. rewrite (i32_small len) by lia.
  rewrite (proj2 (Z.eqb_neq P 0)) by lia.
  assert (Hreq : fragmented_length len P
                 = seg_space (app_frames app tid (fragments (Z.to_nat P) (D1 ++ D2)))).
  { rewrite <- Hz. apply fragmented_length_space; try done; lia. }
  rewrite Hreq. set (space := seg_space _) in *.
  erewrite (bind_Ret (getAndAddRawTail _ _)) by (apply getAndAddRawTail_ok; done || lia).
  erewrite (bind_Ret (getAndAddRawTail _ _)) by (apply getAndAddRawTail_ok; done || lia).
  rewrite TermID_raw, raw_tail_offset by (done || lia). unfold Capacity. wrap_simpl.
  destruct (Z.gtb_spec (off + space) (buf_length (termBuffer app))); [done|].
  set (m1 := claim_mem _ _ _ _).
  assert (HDl : length (D1 ++ D2) = Z.to_nat len) by (unfold zlen in Hz; lia).
  pose proof (fragment_loops_same app src b o P tid f D1 D2 ltac:(lia) Hsup ltac:(lia)
                (Z.to_nat len) m1 0x80 len off) as Hsame.
  unfold fragments2_loop in Hsame. rewrite Hz, Z.sub_diag in Hsame.
  unfold pos_two, pos_one in Hsame. rewrite Z.min_l in Hsame by lia.
  assert (Hloop : append_fragments2 app src P (Some f) tid (Z.to_nat len) beginFrag len off 0 0 m1 =
                  append_fragments app b o len P (Some f) tid (Z.to_nat len) beginFrag len off m1).
  { apply Hsame; [eapply app_ok_keeps; [apply keeps_claim_mem|done]|apply row_claimed|by left|lia|lia|].
    rewrite remaining_all by lia. unfold space, fragments in *. rewrite HDl in *. lia. }
  replace (mkSources _ _ _ _ _ _) with src by (by destruct src).
  unfold bind. by rewrite Hloop.
Qed.
End SameAppend.

(** ** Offering in two parts *)

Section Offer2.
Context (m : mem) (pub : Publication) (base tc off : Z) (Hpub : pub_ok m pub base tc off).
Context (app : Appender) (Happ : active_app pub tc = Some app).
Context (src : sources) (sup : option ReservedValueSupplier).
Context (Hone : src_ok m app (one_buf src) (one_off src) (one_len src)).
Context (Htwo : src_ok m app (two_buf src) (two_off src) (two_len src)).
Context (Hsup : supplier_reads (supplier_or_default sup)).

Local Abbreviation T := (term_length pub).
Local Abbreviation P := (maxPayloadLength pub).
Local Abbreviation tid := (active_term pub tc).
Local Abbreviation len := (one_len src + two_len src).
Local Abbreviation offer2 := (Offer2 pub (one_buf src) (one_off src) (one_len src)
                                (two_buf src) (two_off src) (two_len src) sup).

(** The message that the two parts make. *)
Definition message2 : list Init.Byte.byte :=
  message m (one_buf src) (one_off src) (one_len src) ++ message m (two_buf src) (two_off src) (two_len src).

(** The append of [Offer2], whichever of the two it is. *)
Definition append_message2 : M mem (Z * Z) :=
  if len <=? P
  then AppendUnfragmentedMessage2 app (one_buf src) (one_off src) (one_len src)
         (two_buf src) (two_off src) (two_len src) (Some (supplier_or_default sup))
  else (checkForMaxMessageLength pub len ;;;
        AppendFragmentedMessage2 app (one_buf src) (one_off src) (one_len src)
          (two_buf src) (two_off src) (two_len src) P (Some (supplier_or_default sup))).

Lemma zlen_message2 : zlen message2 = len /\ 0 <= one_len src /\ 0 <= two_len src.
Proof using Hone Htwo.
  pose proof (so_len _ _ _ _ _ Hone). pose proof (so_len _ _ _ _ _ Htwo).
  unfold message2. rewrite zlen_app, !zlen_message by lia. lia.
Qed.

Lemma Offer2_open :
  len < 2147483648 ->
  offer2 m =
  if tc * T + off >=? limit_val m pub then backPressureStatus pub (tc * T + off) len m
  else offered_at pub tc off append_message2 m.
Proof using Hpub Happ Hone Htwo.
  intros Hlen. destruct zlen_message2 as (_ & ? & ?).
  pose proof (position_range m pub base tc off Hpub). destruct (po_off _ _ _ _ _ Hpub).
  unfold Offer2, Publication_IsClosed. rewrite (po_open _ _ _ _ _ Hpub).
  rewrite (i32_small len) by lia.
  rewrite !(proj2 (Z.ltb_ge _ 0)) by lia.
  erewrite bind_Ret by (eapply Get_limit; done).
  erewrite bind_Ret by (eapply Get_termCount; done).
  erewrite bind_Ret by (eapply Get_appender; done).
  erewrite bind_Ret by (eapply Get_rawTail; done).
  destruct (rawTail_split m pub base tc off Hpub) as [-> ->].
  erewrite bind_Ret by (eapply Get_initTermID; done).
  erewrite term_count, term_begin by done. rewrite Z.eqb_refl. cbn [negb].
  rewrite i64_small by lia.
  destruct (tc * T + off >=? limit_val m pub); [done|].
  unfold offered_at, append_message2, bind. destruct (if len <=? P then _ else _) as [[]|]; done.
Qed.

Lemma append_message2_fits :
  len <= maxMessageLength pub ->
  let fs := msg_frames pub app tid message2 in
  off + seg_space fs <= T ->
  exists m', append_message2 m = Ret (off + seg_space fs, tid) m' /\
    appended (claim_mem m app tid (off + seg_space fs)) m' (bufferPtr (termBuffer app)) off fs.
Proof using Hpub Happ Hone Htwo Hsup.
  intros Hmax fs Hfit. rewrite (po_max_msg _ _ _ _ _ Hpub) in Hmax.
  destruct (active_app_ok m pub base tc off Hpub app Happ) as [Ha Htail].
  destruct (active_part m pub base tc off Hpub app Happ) as [_ _ Hl _].
  pose proof (term_length_range m pub base tc off Hpub) as [? _].
  destruct zlen_message2 as (Hz & ? & ?). destruct (po_off _ _ _ _ _ Hpub).
  assert (Htid : is_i32 tid) by apply i32_range.
  unfold append_message2, fs, msg_frames in *. rewrite Hz in *.
  destruct (Z.leb_spec len P) as [Hle|Hgt].
  - rewrite seg_space_single, Hz in *.
    destruct (AppendUnfragmentedMessage2_ok m app tid off Ha Htid ltac:(lia) Htail
                (one_buf src) (one_off src) (one_len src) (two_buf src) (two_off src) (two_len src)
                (Some (supplier_or_default sup))) as [res Hrun]; [done..|lia|].
    eexists. split; [exact Hrun|].
    eapply appended_cons; [|apply only_in_commit_mem|apply keeps_commit_mem|apply appended_nil].
    cbn [fst snd]. apply (frame_at_commit_mem _ _ _ _ _ _ None); try done; [apply Ha|].
    cbn [fr_data]. fold message2. pose proof (align_up_spec (len + 32) 32 ltac:(lia)). lia.
  - unfold checkForMaxMessageLength. rewrite (po_max_msg _ _ _ _ _ Hpub).
    replace (len >? T / 8) with false by lia. rewrite bind_ret_l.
    destruct (po_payload _ _ _ _ _ Hpub).
    apply AppendFragmentedMessage2_ok; try done; try lia; [|dlia]. unfold message2 in Hfit. by rewrite Hl.
Qed.

Lemma append_message2_full :
  len <= maxMessageLength pub ->
  let fs := msg_frames pub app tid message2 in
  T < off + seg_space fs ->
  append_message2 m =
  bind (end_of_log app tid off) (fun r => ret (r, tid)) (claim_mem m app tid (off + seg_space fs)).
Proof using Hpub Happ Hone Htwo.
  intros Hmax fs Hfull. rewrite (po_max_msg _ _ _ _ _ Hpub) in Hmax.
  destruct (active_app_ok m pub base tc off Hpub app Happ) as [Ha Htail].
  destruct (active_part m pub base tc off Hpub app Happ) as [_ _ Hl _].
  pose proof (term_length_range m pub base tc off Hpub) as [? _].
  destruct (po_off _ _ _ _ _ Hpub). destruct (po_payload _ _ _ _ _ Hpub).
  destruct zlen_message2 as (Hz & ? & ?).
  assert (Htid : is_i32 tid) by apply i32_range. assert (len <= 134217728) by dlia.
  destruct (msg_space_bound m pub base tc off Hpub app message2) as [Hb _]; [lia|].
  fold fs in Hb. unfold append_message2, fs, msg_frames in *. rewrite Hz in *.
  destruct (Z.leb_spec len P) as [Hle|Hgt].
  - rewrite seg_space_single, Hz in *. apply AppendUnfragmentedMessage2_full; try done; lia.
  - unfold checkForMaxMessageLength. rewrite (po_max_msg _ _ _ _ _ Hpub).
    replace (len >? T / 8) with false by lia. rewrite bind_ret_l.
    assert (Hreq : fragmented_length len P
                   = seg_space (app_frames app tid (fragments (Z.to_nat P) message2))).
    { rewrite <- Hz. apply fragmented_length_space; try lia; done. }
    rewrite <- Hreq in *. apply AppendFragmentedMessage2_full; try done; try (unfold is_i32; lia); lia.
Qed.

(** [Offer2] does to the publication what an offer of the whole message does. *)
Lemma Offer2_does :
  tc < 2147483647 -> off <= T -> len <= maxMessageLength pub ->
  offer_does m pub base tc off app message2 offer2.
Proof using Hpub Happ Hone Htwo Hsup.
  intros Htc Hoff Hlen. destruct zlen_message2 as (Hz & ? & ?).
  pose proof (term_length_range _ _ _ _ _ Hpub) as [? _].
  pose proof (position_range m pub base tc off Hpub). destruct (po_off _ _ _ _ _ Hpub).
  pose proof Hlen as Hlen'. rewrite (po_max_msg _ _ _ _ _ Hpub) in Hlen'.
  assert (T / 8 <= T) by (apply Z.div_le_upper_bound; lia).
  unfold offer_does. rewrite Hz, Offer2_open by lia.
  destruct (decide (limit_val m pub <= _)) as [Hl|Hl].
  { replace (tc * T + off >=? limit_val m pub) with true by lia.
    apply (backPressureStatus_ok m pub base tc off Hpub); [lia|unfold is_i32; lia]. }
  replace (tc * T + off >=? limit_val m pub) with false by lia.
  destruct (decide (_ <= T)) as [Hf|Hf].
  - destruct (append_message2_fits Hlen Hf) as (m' & Hrun & Hap).
    destruct (offered_fits m pub base tc off Hpub app Happ append_message2 message2 m') as [Hoff' Hp];
      [lia|done..|].
    by exists m'.
  - destruct (offered_rotates m pub base tc off Hpub app Happ append_message2 message2)
      as (m' & ? & ? & _ & ? & ?); [lia|lia|done|apply append_message2_full; lia|].
    by exists m'.
Qed.
End Offer2.

(** C13. A message offered in two parts is the message offered in one: whatever the state of the
    publication and the length of the message, [Offer2] gives the answer of [Offer] for a buffer
    that holds the two parts in a row, and leaves the same memory. *)
Theorem Offer2_is_Offer m pub base tc off app src b o sup :
  pub_ok m pub base tc off -> active_app pub tc = Some app ->
  src_ok m app (one_buf src) (one_off src) (one_len src) ->
  src_ok m app (two_buf src) (two_off src) (two_len src) ->
  src_ok m app b o (one_len src + two_len src) ->
  message m b o (one_len src + two_len src) = message2 m src ->
  supplier_reads (supplier_or_default sup) ->
  Offer2 pub (one_buf src) (one_off src) (one_len src) (two_buf src) (two_off src) (two_len src) sup m =
  Offer pub b o (one_len src + two_len src) sup m.
Proof.
  intros Hpub Happ H1 H2 Hb Hrow Hsup. destruct (zlen_message2 m app src H1 H2) as (Hz & ? & ?).
  pose proof (buf_ok_length _ _ (so_buf _ _ _ _ _ Hb)). pose proof (so_in _ _ _ _ _ Hb).
  pose proof (so_off _ _ _ _ _ Hb). destruct (po_payload _ _ _ _ _ Hpub).
  destruct (active_app_ok m pub base tc off Hpub app Happ) as [Ha Htail].
  destruct (po_off _ _ _ _ _ Hpub). pose proof (term_length_range _ _ _ _ _ Hpub) as [? _].
  rewrite (Offer2_open m pub base tc off Hpub app Happ src sup H1 H2) by lia.
  rewrite (Offer_open m pub base tc off Hpub app Happ).
  destruct (_ >=? _); [done|]. unfold offered_at, bind.
  assert (Hrows : in_a_row app src b o (message m (one_buf src) (one_off src) (one_len src))
                    (message m (two_buf src) (two_off src) (two_len src)) m) by done.
  enough (append_message2 pub app src sup m =
          append_message pub app b o (one_len src + two_len src) (supplier_or_default sup) m) as -> by done.
  unfold append_message2, append_message. destruct (Z.leb_spec (one_len src + two_len src) (maxPayloadLength pub)).
  { apply AppendUnfragmentedMessage2_same with (active_term pub tc) off; try done; [apply i32_range|lia]. }
  unfold bind. unfold checkForMaxMessageLength. rewrite (po_max_msg _ _ _ _ _ Hpub).
  destruct (Z.gtb_spec (one_len src + two_len src) (term_length pub / 8)); [done|]. cbn.
  destruct (msg_space_bound m pub base tc off Hpub app (message2 m src)) as [Hsp _]; [lia|].
  unfold msg_frames in Hsp. rewrite Hz, (proj2 (Z.leb_gt _ _)) in Hsp by lia.
  assert (term_length pub / 8 <= 134217728) by dlia.
  apply AppendFragmentedMessage2_same with (active_term pub tc) off; try done; try lia; [apply i32_range|]. unfold message2 in Hsp. lia.
Qed.
