(* ===== verification/Image.v ===== *)
(** * Images

    src/aeron/image_impl.go: the receiving end of a stream. An image keeps the position
    the subscriber has consumed to in a counter, finds the term buffer and the offset that
    belong to it, gives the committed frames after it to a handler, and advances it. *)

From S2P Require Import Prelude Memory Bits Flyweight LogBuffer TermSpec Appender Reader.
From S2P Require Import Publication.

Local Open Scope m_scope.

Record image : Type := mkImage {
  img_logBuffers : LogBuffers;
  img_termBuffers : list Buffer;
  img_subscriberPosition : Position;
  img_header : Header;
  img_isClosed : bool;
  img_isEos : bool;
  img_termLengthMask : Z;
  img_positionBitsToShift : Z;
  img_sessionID : Z;
  img_finalPosition : Z;
  img_subscriptionRegistrationID : Z;
  img_correlationID : Z }.

Definition nil_position : Position := mkPosition (mkBuffer 0 0) 0 0.

(** The conductor sets the subscriber position and the registration id afterwards. *)
Definition NewImage (sessionID correlationID : Z) (logBuffers : LogBuffers) : M mem image :=
  let! buf0 := LogBuffers_Buffer logBuffers 0 in
  let! buf1 := LogBuffers_Buffer logBuffers 1 in
  let! buf2 := LogBuffers_Buffer logBuffers 2 in
  let capacity := Capacity buf0 in
  let bits := NumberOfTrailingZeroes (u32 capacity) in
  let! initTermID := Int32Field_Get (InitTermID (LogBuffers_Meta logBuffers)) in
  let header := mkHeader (mkBuffer 0 0) 0 0 0 in
  let header := Header_SetInitialTermID header initTermID in
  let header := Header_SetPositionBitsToShift header bits in
  ret {| img_logBuffers := logBuffers;
         img_termBuffers := [buf0; buf1; buf2];
         img_subscriberPosition := nil_position;
         img_header := header;
         img_isClosed := false;
         img_isEos := false;
         img_termLengthMask := i32 (capacity - 1);
         img_positionBitsToShift := bits;
         img_sessionID := sessionID;
         img_finalPosition := 0;
         img_subscriptionRegistrationID := 0;
         img_correlationID := correlationID |}.

Definition set_header (img : image) (header : Header) : image :=
  mkImage (img_logBuffers img) (img_termBuffers img) (img_subscriberPosition img) header
    (img_isClosed img) (img_isEos img) (img_termLengthMask img) (img_positionBitsToShift img)
    (img_sessionID img) (img_finalPosition img) (img_subscriptionRegistrationID img)
    (img_correlationID img).

(** A conversion of a table lookup that panics out of range. *)
Definition indexByPosition (position positionBitsToShift : Z) : M mem Z :=
  let term := Z.shiftr (u64 position) positionBitsToShift in
  match FastMod3 term with Some i => ret i | None => panic "index out of range" end.

(** The term buffer and the offset in it that a position is at. *)
Definition locate (img : image) (position : Z) : M mem (Buffer * Z) :=
  let termOffset := Z.land (i32 position) (img_termLengthMask img) in
  let! index := indexByPosition position (img_positionBitsToShift img) in
  let! termBuffer := index_or_panic (img_termBuffers img) index in
  ret (termBuffer, termOffset).

(** The end of every poll: the position moves if frames were consumed. *)
Definition advance (img : image) (position offset termOffset : Z) : M mem unit :=
  let newPosition := i64 (position + i32 (offset - termOffset)) in
  when (newPosition >? position) (Position_set (img_subscriberPosition img) newPosition).

(** The handler is given the image's header; it is returned with the image as the poll
    leaves it. *)
Definition image_Poll {U} (img : image) (handler : FragmentHandler U) (fragmentLimit : Z)
  : M (mem * U) (Z * image) :=
  if img_isClosed img then ret (0, img)
  else
    let! position := on_fst (Position_get (img_subscriberPosition img)) in
    let! (termBuffer, termOffset) := on_fst (locate img position) in
    let! (offset, result, header) := Read termBuffer termOffset handler fragmentLimit (img_header img) in
    on_fst (advance img position offset termOffset) ;;;
    ret (result, set_header img header).

(** The loop of [BoundedPoll]; a committed frame advances the offset by 32 at least. *)
Fixpoint bounded_loop {U} (fuel : nat) (termBuffer : Buffer) (limitOffset : Z)
  (handler : FragmentHandler U) (fragmentLimit : Z) (header : Header) (offset fragmentsRead : Z)
  : M (mem * U) (Z * Z * Header) :=
  if (fragmentsRead <? fragmentLimit) && (offset <? limitOffset) then
    match fuel with
    | O => raise EFuel
    | S fuel' =>
        let! length := on_fst (GetFrameLength termBuffer offset) in
        if length <=? 0 then ret (offset, fragmentsRead, header)
        else
          let frameOffset := offset in
          let alignedLength := AlignInt32 length FrameAlignment in
          let offset := i32 (offset + alignedLength) in
          let! padding := on_fst (IsPaddingFrame termBuffer frameOffset) in
          if padding then
            bounded_loop fuel' termBuffer limitOffset handler fragmentLimit header offset fragmentsRead
          else
            let header := Header_SetOffset header frameOffset in
            handler termBuffer (i32 (frameOffset + DataFrameHeader.Length))
              (i32 (length - DataFrameHeader.Length)) header ;;;
            bounded_loop fuel' termBuffer limitOffset handler fragmentLimit header offset (fragmentsRead + 1)
    end
  else ret (offset, fragmentsRead, header).

Definition image_BoundedPoll {U} (img : image) (handler : FragmentHandler U)
  (limitPosition fragmentLimit : Z) : M (mem * U) (Z * image) :=
  if img_isClosed img then ret (0, img)
  else
    let! initialPosition := on_fst (Position_get (img_subscriberPosition img)) in
    let! (termBuffer, initialOffset) := on_fst (locate img initialPosition) in
    let capacity := Capacity termBuffer in
    let limitOffset := i32 (i32 (i64 (limitPosition - initialPosition)) + initialOffset) in
    let limitOffset := if limitOffset >? capacity then capacity else limitOffset in
    let header := Header_Wrap (img_header img) (Ptr termBuffer) (Capacity termBuffer) in
    let! (offset, fragmentsRead, header) :=
      bounded_loop (Z.to_nat limitOffset) termBuffer limitOffset handler fragmentLimit header
        initialOffset 0 in
    on_fst (advance img initialPosition offset initialOffset) ;;;
    ret (fragmentsRead, set_header img header).

(** ** Controlled polls *)

(** The loop returns the position and offset of the last commit, the offset reached, the
    fragments read and the header. *)
Fixpoint controlled_loop {U} (fuel : nat) (img : image) (termBuffer : Buffer) (capacity : Z)
  (handler : ControlledFragmentHandler U) (fragmentLimit : Z) (header : Header)
  (initialPosition initialOffset offset fragmentsRead : Z)
  : M (mem * U) (Z * Z * Z * Z * Header) :=
  if (fragmentsRead <? fragmentLimit) && (offset <? capacity) then
    match fuel with
    | O => raise EFuel
    | S fuel' =>
        let! length := on_fst (GetFrameLength termBuffer offset) in
        if length <=? 0 then ret (initialPosition, initialOffset, offset, fragmentsRead, header)
        else
          let frameOffset := offset in
          let alignedLength := AlignInt32 length FrameAlignment in
          let offset := i32 (offset + alignedLength) in
          let! padding := on_fst (IsPaddingFrame termBuffer frameOffset) in
          if padding then
            controlled_loop fuel' img termBuffer capacity handler fragmentLimit header
              initialPosition initialOffset offset fragmentsRead
          else
            let fragmentsRead := fragmentsRead + 1 in
            let header := Header_SetOffset header frameOffset in
            let! action := handler termBuffer (i32 (frameOffset + DataFrameHeader.Length))
                             (i32 (length - DataFrameHeader.Length)) header in
            match action with
            | ControlledPollActionAbort =>
                ret (initialPosition, initialOffset, i32 (offset - alignedLength), fragmentsRead - 1, header)
            | ControlledPollActionBreak => ret (initialPosition, initialOffset, offset, fragmentsRead, header)
            | ControlledPollActionCommit =>
                let initialPosition := i64 (initialPosition + i32 (offset - initialOffset)) in
                let initialOffset := offset in
                on_fst (Position_set (img_subscriberPosition img) initialPosition) ;;;
                controlled_loop fuel' img termBuffer capacity handler fragmentLimit header
                  initialPosition initialOffset offset fragmentsRead
            | ControlledPollActionContinue =>
                controlled_loop fuel' img termBuffer capacity handler fragmentLimit header
                  initialPosition initialOffset offset fragmentsRead
            end
    end
  else ret (initialPosition, initialOffset, offset, fragmentsRead, header).

Definition image_ControlledPoll {U} (img : image) (handler : ControlledFragmentHandler U)
  (fragmentLimit : Z) : M (mem * U) (Z * image) :=
  if img_isClosed img then ret (0, img)
  else
    let! initialPosition := on_fst (Position_get (img_subscriberPosition img)) in
    let! (termBuffer, initialOffset) := on_fst (locate img initialPosition) in
    let capacity := Capacity termBuffer in
    let header := Header_Wrap (img_header img) (Ptr termBuffer) (Capacity termBuffer) in
    let! (initialPosition, initialOffset, offset, fragmentsRead, header) :=
      controlled_loop (Z.to_nat capacity) img termBuffer capacity handler fragmentLimit header
        initialPosition initialOffset initialOffset 0 in
    on_fst (advance img initialPosition offset initialOffset) ;;;
    ret (fragmentsRead, set_header img header).

Definition image_Position (img : image) : M mem Z :=
  if img_isClosed img then ret (img_finalPosition img)
  else Position_get (img_subscriberPosition img).

Definition IsEndOfStream (img : image) : M mem bool :=
  if img_isClosed img then ret (img_isEos img)
  else
    let! pos := Position_get (img_subscriberPosition img) in
    let! eos := Int64Field_Get (EndOfStreamPosOff (LogBuffers_Meta (img_logBuffers img))) in
    ret (pos >=? eos).

Definition TermBufferLength (img : image) : Z := i32 (img_termLengthMask img + 1).
Definition image_ActiveTransportCount (img : image) : M mem Z :=
  ActiveTransportCount (LogBuffers_Meta (img_logBuffers img)).

Section Close.
Context (Unmap : option Z -> M mem (option string)).

(** The second [Close] of an image does nothing. *)
Definition image_Close (img : image) : M mem (image * option string) :=
  if img_isClosed img then ret (img, None)
  else
    let! finalPosition := Position_get (img_subscriberPosition img) in
    let! eos := Int64Field_Get (EndOfStreamPosOff (LogBuffers_Meta (img_logBuffers img))) in
    let! (lb, err) := LogBuffers_Close Unmap (img_logBuffers img) in
    ret ({| img_logBuffers := lb; img_termBuffers := img_termBuffers img;
            img_subscriberPosition := img_subscriberPosition img; img_header := img_header img;
            img_isClosed := true; img_isEos := finalPosition >=? eos;
            img_termLengthMask := img_termLengthMask img;
            img_positionBitsToShift := img_positionBitsToShift img;
            img_sessionID := img_sessionID img; img_finalPosition := finalPosition;
            img_subscriptionRegistrationID := img_subscriptionRegistrationID img;
            img_correlationID := img_correlationID img |}, err).
End Close.

(** ** Well-formed images *)

Record img_ok (m : mem) (img : image) : Prop := {
  io_open : img_isClosed img = false;
  io_bits : 16 <= img_positionBitsToShift img <= 30;
  io_mask : img_termLengthMask img = 2 ^ img_positionBitsToShift img - 1;
  io_terms : forall i, 0 <= i < 3 -> exists b, img_termBuffers img !! Z.to_nat i = Some b /\
      buf_ok m b /\ buf_length b = 2 ^ img_positionBitsToShift img /\
      disjoint (bufferPtr b) (buf_length b)
        (bufferPtr (pos_buffer (img_subscriberPosition img)) + pos_offset (img_subscriberPosition img)) 8;
  io_pos : buf_ok m (pos_buffer (img_subscriberPosition img)) /\
      0 <= pos_offset (img_subscriberPosition img) /\
      pos_offset (img_subscriberPosition img) + 8 <= buf_length (pos_buffer (img_subscriberPosition img)) }.

Definition pos_addr (img : image) : Z :=
  bufferPtr (pos_buffer (img_subscriberPosition img)) + pos_offset (img_subscriberPosition img).

(** The position of an image, and the term buffer of a term count. *)
Definition pos_val (m : mem) (img : image) : Z := rd_i64 m (pos_addr img).
Definition img_term (img : image) (tc : Z) : option Buffer := img_termBuffers img !! Z.to_nat (tc mod 3).
Definition img_T (img : image) : Z := 2 ^ img_positionBitsToShift img.

(** The memory with the position moved, if it moves. *)
Definition moved (m : mem) (img : image) (pos : Z) : mem :=
  if pos >? pos_val m img then wr m (pos_addr img) (le_split 8 pos) else m.

Lemma pow2_divides_i32 z k : 0 <= k <= 31 -> i32 z mod 2 ^ k = z mod 2 ^ k.
Proof.
  intros Hk. unfold i32. pose proof (Z.pow_pos_nonneg 2 k ltac:(lia) ltac:(lia)).
  assert (H32 : 4294967296 = 2 ^ (32 - k) * 2 ^ k)
    by (rewrite <- Z.pow_add_r by lia; change 4294967296 with (2 ^ 32); f_equal; lia).
  assert (H31 : 2147483648 = 2 ^ (31 - k) * 2 ^ k)
    by (rewrite <- Z.pow_add_r by lia; change 2147483648 with (2 ^ 31); f_equal; lia).
  rewrite (Z.mod_eq (z + 2147483648)) by lia.
  set (q := (z + 2147483648) / 4294967296).
  replace (z + 2147483648 - 4294967296 * q - 2147483648) with (z + - q * 2 ^ (32 - k) * 2 ^ k)
    by (rewrite H32; lia).
  apply Z.mod_add. lia.
Qed.

Section ImageOps.
Context (m : mem) (img : image) (Himg : img_ok m img).
Context (tc off : Z) (Htc : 0 <= tc < 2147483648) (Hoff : 0 <= off < img_T img).

Lemma img_T_range : 65536 <= img_T img <= 1073741824.
Proof using Himg.
  destruct (io_bits _ _ Himg). unfold img_T. split.
  - apply (Z.pow_le_mono_r 2 16); lia.
  - apply (Z.pow_le_mono_r 2 _ 30); lia.
Qed.

Lemma img_position_range : 0 <= tc * img_T img + off < 2305843009213693952.
Proof using Himg Htc Hoff. pose proof img_T_range. nia. Qed.

Lemma img_term_ok b : img_term img tc = Some b ->
  buf_ok m b /\ buf_length b = img_T img /\ disjoint (bufferPtr b) (img_T img) (pos_addr img) 8.
Proof using Himg.
  intros Hb. destruct (io_terms _ _ Himg (tc mod 3)) as (b' & Hl & H1 & H2 & H3);
    [apply Z.mod_pos_bound; lia|].
  unfold img_term in Hb. rewrite Hb in Hl. injection Hl as <-. rewrite H2 in H3. done.
Qed.

(** A position is in the partition of its term, at its offset in the term. *)
Lemma locate_ok b :
  img_term img tc = Some b -> locate img (tc * img_T img + off) m = Ret (b, off) m.
Proof using Himg Htc Hoff.
  intros Hb. pose proof (io_bits _ _ Himg). pose proof img_T_range. pose proof img_position_range.
  pose proof (Z.mod_pos_bound tc 3 ltac:(lia)).
  assert (Hland : Z.land (i32 (tc * img_T img + off)) (img_termLengthMask img) = off).
  { rewrite (io_mask _ _ Himg).
    replace (2 ^ img_positionBitsToShift img - 1) with (Z.ones (img_positionBitsToShift img))
      by (rewrite Z.ones_equiv; lia).
    rewrite Z.land_ones, pow2_divides_i32 by lia. fold (img_T img).
    rewrite Z.add_comm, Z.mod_add by lia. apply Z.mod_small. lia. }
  unfold locate, indexByPosition. rewrite u64_small by lia.
  rewrite Z.shiftr_div_pow2 by lia. fold (img_T img).
  rewrite Z.div_add_l, Z.div_small, Z.add_0_r by lia.
  rewrite FastMod3_mod3 by lia. rewrite bind_ret_l, Hland.
  unfold index_or_panic. rewrite (proj2 (Z.ltb_ge _ _)) by lia.
  unfold img_term in Hb. rewrite Hb. done.
Qed.

Lemma Get_position : Position_get (img_subscriberPosition img) m = Ret (pos_val m img) m.
Proof using Himg. destruct (io_pos _ _ Himg) as (? & ? & ?). by apply GetInt64_ok. Qed.

Lemma moved_val pos :
  is_i64 pos -> pos_val m img <= pos -> pos_val (moved m img pos) img = pos.
Proof using Type.
  intros Hr Hle. unfold moved. destruct (Z.gtb_spec pos (pos_val m img)); [|lia].
  by apply rd_i64_wr.
Qed.
End ImageOps.

Lemma advance_ok m img tc off off' :
  img_ok m img -> 0 <= tc < 2147483648 -> 0 <= off -> off <= off' <= img_T img ->
  pos_val m img = tc * img_T img + off ->
  advance img (tc * img_T img + off) off' off m = Ret tt (moved m img (tc * img_T img + off')).
Proof.
  intros Himg Htc Hoff H' Hpos. pose proof (img_T_range m img Himg).
  destruct (io_pos _ _ Himg) as (? & ? & ?). assert (0 <= tc * img_T img < 2305843009213693952) by nia.
  unfold advance, moved, when. rewrite i32_small by lia. rewrite i64_small by lia.
  rewrite Hpos. replace (tc * img_T img + off + (off' - off)) with (tc * img_T img + off') by lia.
  destruct (_ >? _); [|done]. by apply PutInt64_ok.
Qed.

Lemma img_ok_keeps m m' img : keeps m m' -> img_ok m img -> img_ok m' img.
Proof.
  intros Hk [H1 H2 H3 H4 H5]. constructor; try done.
  - intros i Hi. destruct (H4 i Hi) as (b & ? & ? & ?). exists b. split; [done|].
    split; [by eapply buf_ok_keeps|done].
  - destruct H5. split; [by eapply buf_ok_keeps|done].
Qed.

Lemma walk_range {U} (hstep : Z -> frame -> U -> U) limit fl off n fs u :
  let r := walk hstep limit fl off n fs u in
  off <= r.1.1 <= off + seg_space fs /\ n <= r.1.2.
Proof.
  revert off n u. induction fs as [|f fs IH]; intros off n u; cbn [walk seg_space].
  - simpl. lia.
  - pose proof (frame_space_pos f). pose proof (seg_space_nonneg fs).
    destruct (_ && _); [|simpl; lia].
    destruct (is_padding f); [specialize (IH (off + frame_space f) n u)
                             |specialize (IH (off + frame_space f) (n + 1) (hstep off f u))];
      simpl in *; lia.
Qed.

Section ImagePolls.
Context {U : Type} (hstep : Z -> frame -> U -> U).
Context (m : mem) (img : image) (Himg : img_ok m img).
Context (tc off : Z) (Htc : 0 <= tc < 2147483648) (Hoff : 0 <= off < img_T img).
Context (Hpos : pos_val m img = tc * img_T img + off).
Context (b : Buffer) (Hb : img_term img tc = Some b).
Context (fs : list frame) (Hseg : log_seg m (bufferPtr b) off fs).
Context (Hend : seg_end m b (off + seg_space fs)) (Hfit : off + seg_space fs <= img_T img).
Context (handler : FragmentHandler U) (Hh : handles hstep m b handler).

(** A poll walks the committed frames after the image's position and moves the position
    over what was consumed. *)
Lemma image_Poll_walk fragmentLimit u :
  exists header,
    image_Poll img handler fragmentLimit (m, u) =
    (let '(off', n, u') := walk hstep (img_T img) fragmentLimit off 0 fs u in
     Ret (n, set_header img header) (moved m img (tc * img_T img + off'), u')).
Proof using All.
  destruct (img_term_ok m img Himg tc b Hb) as (Hbo & Hbl & _). pose proof (img_T_range m img Himg).
  destruct (Read_walk hstep m b handler Hbo ltac:(lia) Hh fs fragmentLimit (img_header img) off u)
    as [header Hread]; [done|done|lia|lia|].
  exists header. unfold image_Poll. rewrite (io_open _ _ Himg).
  erewrite bind_Ret by (eapply on_fst_Ret, Get_position; done). rewrite Hpos.
  erewrite bind_Ret by (eapply on_fst_Ret, locate_ok; done).
  rewrite Hbl in Hread. pose proof (walk_range hstep (img_T img) fragmentLimit off 0 fs u) as Hw.
  destruct (walk hstep (img_T img) fragmentLimit off 0 fs u) as [[off' n] u']. simpl in Hw.
  erewrite bind_Ret by exact Hread. cbv beta iota.
  by erewrite bind_Ret by (apply on_fst_Ret, advance_ok; done || lia).
Qed.
End ImagePolls.

(** ** Bounded polls *)

(** The loop of [BoundedPoll], written out in the image, is the reader's. *)
Lemma bounded_loop_read {U} fuel b limit (handler : FragmentHandler U) fl header off n s :
  hdr_buffer header = mkBuffer (Ptr b) (Capacity b) ->
  bounded_loop fuel b limit handler fl header off n s = read_loop fuel b limit handler fl header off n s.
Proof.
  revert header off n s. induction fuel as [|fuel IH]; intros header off n s Hh; [done|].
  cbn [bounded_loop read_loop]. destruct (_ && _); [|done].
  assert (Hw : Header_Wrap header (Ptr b) (Capacity b) = header).
  { destruct header. simpl in Hh. subst. done. }
  rewrite Hw. unfold bind. destruct (on_fst (GetFrameLength b off) s) as [len s1|]; [|done].
  destruct (len <=? 0); [done|]. destruct (on_fst (IsPaddingFrame b off) s1) as [[] s2|]; [|..|done].
  - by apply IH.
  - cbn [negb]. destruct (handler _ _ _ _ s2) as [[] s3|]; [|done]. by apply IH.
Qed.

Section ImageBounded.
Context {U : Type} (hstep : Z -> frame -> U -> U).
Context (m : mem) (img : image) (Himg : img_ok m img).
Context (tc off : Z) (Htc : 0 <= tc < 2147483648) (Hoff : 0 <= off < img_T img).
Context (Hpos : pos_val m img = tc * img_T img + off).
Context (b : Buffer) (Hb : img_term img tc = Some b).
Context (fs : list frame) (Hseg : log_seg m (bufferPtr b) off fs).
Context (Hend : seg_end m b (off + seg_space fs)) (Hfit : off + seg_space fs <= img_T img).
Context (handler : FragmentHandler U) (Hh : handles hstep m b handler).

(** A bounded poll walks the frames that start before the limit position, when the limit
    is less than 2 GB away. *)
Lemma image_BoundedPoll_walk limitPosition fragmentLimit u :
  -2147483648 <= limitPosition - pos_val m img < 2147483648 - img_T img ->
  exists header,
    image_BoundedPoll img handler limitPosition fragmentLimit (m, u) =
    (let limit := Z.min (img_T img) (limitPosition - tc * img_T img) in
     let '(off', n, u') := walk hstep limit fragmentLimit off 0 fs u in
     Ret (n, set_header img header) (moved m img (tc * img_T img + off'), u')).
Proof using All.
  intros Hlim. destruct (img_term_ok m img Himg tc b Hb) as (Hbo & Hbl & _).
  pose proof (img_T_range m img Himg). pose proof (img_position_range m img Himg tc off Htc Hoff).
  rewrite Hpos in Hlim.
  set (limit := Z.min (img_T img) (limitPosition - tc * img_T img)).
  set (h0 := Header_Wrap (img_header img) (Ptr b) (img_T img)).
  destruct (read_loop_walk hstep m b handler Hbo ltac:(lia) Hh fs (Z.to_nat limit) limit fragmentLimit
              h0 off 0 u) as [header Hread]; [done|done|lia|lia|unfold limit; lia|unfold limit; lia|].
  exists header. unfold image_BoundedPoll. rewrite (io_open _ _ Himg).
  erewrite bind_Ret by (eapply on_fst_Ret, Get_position; done). rewrite Hpos.
  erewrite bind_Ret by (eapply on_fst_Ret, locate_ok; done).
  unfold Capacity. rewrite !Hbl. rewrite i64_small by lia.
  rewrite (i32_small (limitPosition - _)) by lia. rewrite i32_small by lia.
  assert (Hl : (if limitPosition - (tc * img_T img + off) + off >? img_T img then img_T img
                else limitPosition - (tc * img_T img + off) + off) = limit).
  { unfold limit. destruct (Z.gtb_spec (limitPosition - (tc * img_T img + off) + off) (img_T img)); lia. }
  rewrite Hl. pose proof (walk_range hstep limit fragmentLimit off 0 fs u) as Hw.
  destruct (walk hstep limit fragmentLimit off 0 fs u) as [[off' n] u']. simpl in Hw.
  erewrite bind_Ret by (rewrite bounded_loop_read; [exact Hread|simpl; unfold Capacity; by rewrite Hbl]). cbv beta iota.
  by erewrite bind_Ret by (apply on_fst_Ret, advance_ok; done || lia).
Qed.
End ImageBounded.

(** ** The controlled poll walks until told to stop *)

Section Controlled.
(** What a handler does may depend on the position that the subscriber has committed, which
    anyone can read while the poll is under way. *)
Context {U : Type} (hstep : Z -> Z -> frame -> U -> ControlledPollAction * U).

(** The reference, in the term that starts at position [base] with [p] committed: the handler's
    action decides whether a frame counts as consumed, and a commit makes the position behind
    the frame the one that is seen from the next frame on. *)
Fixpoint cwalk (base limit fragmentLimit p off n : Z) (fs : list frame) (u : U) : Z * Z * U :=
  match fs with
  | [] => (off, n, u)
  | f :: fs' =>
      if (n <? fragmentLimit) && (off <? limit) then
        if is_padding f then cwalk base limit fragmentLimit p (off + frame_space f) n fs' u
        else
          let '(action, u') := hstep p off f u in
          match action with
          | ControlledPollActionAbort => (off, n, u')
          | ControlledPollActionBreak => (off + frame_space f, n + 1, u')
          | ControlledPollActionCommit =>
              cwalk base limit fragmentLimit (base + (off + frame_space f)) (off + frame_space f) (n + 1) fs' u'
          | ControlledPollActionContinue =>
              cwalk base limit fragmentLimit p (off + frame_space f) (n + 1) fs' u'
          end
      else (off, n, u)
  end.

Lemma cwalk_range base limit fl p off n fs u :
  off <= (cwalk base limit fl p off n fs u).1.1 <= off + seg_space fs.
Proof using Type.
  revert p off n u. induction fs as [|f fs IH]; intros p off n u; cbn [cwalk seg_space]; [simpl; lia|].
  pose proof (frame_space_pos f). pose proof (seg_space_nonneg fs).
  destruct (_ && _); [|simpl; lia].
  destruct (is_padding f).
  { specialize (IH p (off + frame_space f) n u). lia. }
  destruct (hstep p off f u) as [[] u']; try (simpl; lia).
  - specialize (IH (base + (off + frame_space f)) (off + frame_space f) (n + 1) u'). lia.
  - specialize (IH p (off + frame_space f) (n + 1) u'). lia.
Qed.

Context (m : mem) (img : image) (Himg : img_ok m img).
Context (tc : Z) (Htc : 0 <= tc < 2147483648).
Context (b : Buffer) (Hb : img_term img tc = Some b).

(** A controlled handler that acts as [hstep] says for the position that the counter holds. *)
Definition chandles (handler : ControlledFragmentHandler U) : Prop :=
  forall m' off f u header,
    only_in m m' (pos_addr img) 8 ->
    frame_at m (bufferPtr b) off f -> is_padding f = false ->
    0 <= off -> off + frame_length f <= buf_length b ->
    handler b (off + 32) (zlen (fr_data f)) (header_at header b off) (m', u)
    = let r := hstep (pos_val m' img) off f u in Ret r.1 (m', r.2).

Context (handler : ControlledFragmentHandler U) (Hh : chandles handler).

(** What the loop has done: the position counter holds the last committed position. *)
Record committed (m' : mem) (p o : Z) : Prop := {
  cm_only : only_in m m' (pos_addr img) 8;
  cm_keeps : keeps m m';
  cm_val : pos_val m' img = p;
  cm_pos : p = tc * img_T img + o }.

Lemma committed_set m1 p o off :
  committed m1 p o -> 0 <= o -> o <= off <= img_T img ->
  exists m2, Position_set (img_subscriberPosition img) (tc * img_T img + off) m1 = Ret tt m2 /\
    committed m2 (tc * img_T img + off) off.
Proof using Himg Htc.
  intros [Ho Hk Hv Hp] ? ?. pose proof (img_T_range m img Himg).
  destruct (io_pos _ _ (img_ok_keeps _ _ _ Hk Himg)) as (? & ? & ?).
  eexists. split; [by apply PutInt64_ok|]. constructor; [..|done].
  - apply only_in_wr_chain; [done|unfold pos_addr; rewrite ?zlen_le_split; lia..].
  - eapply keeps_trans; [done|apply keeps_wr].
  - apply rd_i64_wr. unfold is_i64. nia.
Qed.

Lemma controlled_loop_walk fs : forall fuel fragmentLimit header off n u m1 p o,
  committed m1 p o -> 0 <= o <= off ->
  hdr_buffer header = mkBuffer (Ptr b) (Capacity b) ->
  log_seg m (bufferPtr b) off fs -> seg_end m b (off + seg_space fs) ->
  off + seg_space fs <= img_T img -> img_T img - off <= Z.of_nat fuel ->
  exists header' m2 p' o',
    controlled_loop fuel img b (img_T img) handler fragmentLimit header p o off n (m1, u) =
    (let '(off', n', u') := cwalk (tc * img_T img) (img_T img) fragmentLimit p off n fs u in
     Ret (p', o', off', n', header') (m2, u')) /\
    committed m2 p' o' /\ 0 <= o' <= (cwalk (tc * img_T img) (img_T img) fragmentLimit p off n fs u).1.1.
Proof using All.
  destruct (img_term_ok m img Himg tc b Hb) as (Hbo & Hbl & Hd). pose proof (img_T_range m img Himg).
  induction fs as [|f fs IH];
    intros fuel fl header off n u m1 p o Hc Ho Hhb Hseg Hend Hfit Hfuel; cbn [cwalk log_seg seg_space] in *.
  - exists header, m1, p, o. split; [|split; [done|simpl; lia]]. rewrite Z.add_0_r in Hend.
    destruct fuel as [|fuel]; cbn [controlled_loop];
      destruct (Z.ltb_spec n fl), (Z.ltb_spec off (img_T img)); cbn [andb]; try done; try lia.
    destruct Hend as [|[Hin Hle]]; [lia|].
    assert (Hb1 : buf_ok m1 b) by (eapply buf_ok_keeps; [apply Hc|done]).
    erewrite bind_Ret by (apply on_fst_Ret, GetFrameLength_ok; done || lia).
    replace (rd_i32 m1 (bufferPtr b + off)) with (rd_i32 m (bufferPtr b + off)).
    2: { unfold rd_i32. do 2 f_equal. symmetry. eapply only_in_rd; [apply Hc|]. unfold disjoint in *. lia. }
    by rewrite (proj2 (Z.leb_le _ _)) by lia.
  - destruct Hseg as [Hf Hseg]. pose proof (frame_space_spec f) as [Hsp _].
    pose proof (frame_length_ge f). pose proof (seg_space_nonneg fs). rewrite Z.add_assoc in Hend, Hfit.
    destruct ((n <? fl) && (off <? img_T img)) eqn:Hgo.
    2: { exists header, m1, p, o. split; [|split; [done|simpl; lia]].
         destruct fuel; cbn [controlled_loop]; by rewrite Hgo. }
    assert (off < img_T img) by lia. destruct fuel as [|fuel]; [lia|].
    assert (Hb1 : buf_ok m1 b) by (eapply buf_ok_keeps; [apply Hc|done]).
    assert (Hf1 : frame_at m1 (bufferPtr b) off f).
    { eapply frame_at_ext; [|exact Hf]. intros i Hi. apply (cm_only _ _ _ Hc). unfold disjoint in *. lia. }
    cbn [controlled_loop]. rewrite Hgo.
    erewrite bind_Ret by (apply on_fst_Ret, GetFrameLength_ok; done || lia).
    rewrite (fa_length _ _ _ _ Hf1), (proj2 (Z.leb_gt _ _)) by lia.
    erewrite bind_Ret by (apply on_fst_Ret, IsPaddingFrame_ok; done || lia).
    rewrite (fa_type _ _ _ _ Hf1). change (fr_type f =? 0) with (is_padding f).
    unfold FrameAlignment. rewrite AlignInt32_32 by lia. fold (frame_space f).
    rewrite (i32_small (off + frame_space f)) by lia.
    destruct (is_padding f) eqn:Hpad; [apply IH; try done; lia|].
    unfold DataFrameHeader.Length. rewrite (i32_small (off + 32)), (i32_small (frame_length f - 32)) by lia.
    replace (frame_length f - 32) with (zlen (fr_data f)) by (unfold frame_length; lia).
    assert (Hhd : Header_SetOffset header off = header_at header b off).
    { unfold header_at. destruct header. simpl in Hhb. subst. done. }
    rewrite Hhd. erewrite bind_Ret by (apply Hh; try done; [apply Hc|lia..]). rewrite (cm_val _ _ _ Hc).
    destruct (hstep p off f u) as [action u'] eqn:Hs. cbn [fst snd].
    destruct action.
    + exists (header_at header b off), m1, p, o. rewrite i32_small by lia.
      replace (off + frame_space f - frame_space f) with off by lia. rewrite Z.add_simpl_r.
      split; [done|split; [done|simpl; lia]].
    + exists (header_at header b off), m1, p, o. split; [done|split; [done|simpl; lia]].
    + pose proof (cm_pos _ _ _ Hc) as Hp.
      destruct (committed_set m1 p o (off + frame_space f) Hc ltac:(lia) ltac:(lia)) as (m2 & Hset & Hc2).
      rewrite (i32_small (_ - o)) by lia. rewrite i64_small by (rewrite Hp; nia).
      replace (p + (off + frame_space f - o)) with (tc * img_T img + (off + frame_space f)) by lia.
      erewrite bind_Ret by (apply on_fst_Ret, Hset).
      apply IH; try done; lia.
    + apply IH; try done; lia.
Qed.

(** A controlled poll hands out frames until the handler aborts or breaks. Whether it
    commits on the way or not, the position ends behind the last consumed frame; an
    aborted frame is not consumed. *)
Lemma image_ControlledPoll_walk fs off fragmentLimit u :
  0 <= off < img_T img -> pos_val m img = tc * img_T img + off ->
  log_seg m (bufferPtr b) off fs -> seg_end m b (off + seg_space fs) ->
  off + seg_space fs <= img_T img ->
  exists header m',
    image_ControlledPoll img handler fragmentLimit (m, u) =
    (let '(off', n, u') := cwalk (tc * img_T img) (img_T img) fragmentLimit (tc * img_T img + off) off 0 fs u in
     Ret (n, set_header img header) (m', u')) /\
    only_in m m' (pos_addr img) 8 /\
    pos_val m' img = tc * img_T img + (cwalk (tc * img_T img) (img_T img) fragmentLimit (tc * img_T img + off) off 0 fs u).1.1.
Proof using All.
  intros Hoff Hpos Hseg Hend Hfit. destruct (img_term_ok m img Himg tc b Hb) as (Hbo & Hbl & _).
  pose proof (img_T_range m img Himg).
  set (h0 := Header_Wrap (img_header img) (Ptr b) (img_T img)).
  destruct (controlled_loop_walk fs (Z.to_nat (img_T img)) fragmentLimit h0 off 0 u m
              (tc * img_T img + off) off) as (header & m2 & p & o & Hrun & [Ho Hk Hv Hp] & Hle);
    [constructor; done || apply keeps_refl|lia|simpl; unfold Capacity; by rewrite Hbl|done|done|done|lia|].
  pose proof (cwalk_range (tc * img_T img) (img_T img) fragmentLimit (tc * img_T img + off) off 0 fs u) as Hw.
  destruct (cwalk (tc * img_T img) (img_T img) fragmentLimit (tc * img_T img + off) off 0 fs u) as [[off' n] u']. simpl in Hw, Hle.
  exists header, (moved m2 img (tc * img_T img + off')). cbn [fst].
  assert (0 <= tc * img_T img + off' < 2305843010287435776) by nia.
  split_and!.
  - unfold image_ControlledPoll. rewrite (io_open _ _ Himg).
    erewrite bind_Ret by (eapply on_fst_Ret, Get_position; done). rewrite Hpos.
    erewrite bind_Ret by (eapply on_fst_Ret, locate_ok; done).
    unfold Capacity. rewrite !Hbl. erewrite bind_Ret by exact Hrun. cbv beta iota. rewrite Hp.
    by erewrite bind_Ret by (apply on_fst_Ret, advance_ok; (by eapply img_ok_keeps) || lia).
  - unfold moved. destruct (_ >? _); [|done].
    apply only_in_wr_chain; [done|rewrite ?zlen_le_split; lia..].
  - apply moved_val; [unfold is_i64; lia|]. lia.
Qed.
End Controlled.

(** ** Limits more than 2 GB away *)

(** The distance to the limit position is cut to 32 bits: a poll in the first term with
    the largest position as its limit reads nothing at all, whatever is committed. *)
Lemma BoundedPoll_far_limit_ok {U} m img off b (handler : FragmentHandler U) fragmentLimit u :
  img_ok m img -> 0 <= off < img_T img -> pos_val m img = off -> img_term img 0 = Some b ->
  exists header,
    image_BoundedPoll img handler 9223372036854775807 fragmentLimit (m, u) =
    Ret (0, set_header img header) (m, u).
Proof.
  intros Himg Hoff Hpos Hb. pose proof (img_T_range m img Himg).
  destruct (img_term_ok m img Himg 0 b Hb) as (Hbo & Hbl & _).
  exists (Header_Wrap (img_header img) (Ptr b) (Capacity b)).
  unfold image_BoundedPoll. rewrite (io_open _ _ Himg).
  erewrite bind_Ret by (eapply on_fst_Ret, Get_position; done). rewrite Hpos.
  erewrite bind_Ret.
  2: { apply on_fst_Ret. replace off with (0 * img_T img + off) at 1 by lia.
       eapply (locate_ok m img Himg 0 off); try done. }
  rewrite i64_small by lia.
  assert (Hw : i32 (i32 (9223372036854775807 - off) + off) = -1).
  { rewrite i32_add_i32. by replace (9223372036854775807 - off + off) with 9223372036854775807 by lia. }
  rewrite Hw. replace (-1 >? Capacity b) with false by (unfold Capacity; lia).
  change (Z.to_nat (-1)) with 0%nat.
  erewrite bind_Ret.
  2: { cbn [bounded_loop]. replace (off <? -1) with false by lia. by rewrite andb_false_r. }
  cbv beta iota. unfold advance. rewrite Z.sub_diag.
  change (i32 0) with 0. rewrite Z.add_0_r, i64_small by lia.
  replace (off >? off) with false by lia. done.
Qed.

(** ** What images promise *)

(** [Poll] of an open image is the walk over the frames of its term: from its position
    it gives the data frames to the handler in order, at most [fragmentLimit] of them, skips
    padding, stops where no frame is committed, and moves the position to where it stopped. *)
Theorem Poll_walks {U} (hstep : Z -> frame -> U -> U) m img tc off b fs handler fragmentLimit u :
  img_ok m img -> 0 <= tc < 2147483648 -> 0 <= off < img_T img ->
  pos_val m img = tc * img_T img + off -> img_term img tc = Some b ->
  log_seg m (bufferPtr b) off fs -> seg_end m b (off + seg_space fs) ->
  off + seg_space fs <= img_T img -> handles hstep m b handler ->
  exists header off' n u',
    walk hstep (img_T img) fragmentLimit off 0 fs u = (off', n, u') /\
    image_Poll img handler fragmentLimit (m, u) =
      Ret (n, set_header img header) (moved m img (tc * img_T img + off'), u').
Proof.
  intros. destruct (image_Poll_walk hstep m img H tc off H0 H1 H2 b H3 fs H4 H5 H6 handler H7 fragmentLimit u)
    as [header Hrun].
  destruct (walk hstep (img_T img) fragmentLimit off 0 fs u) as [[off' n] u']. by exists header, off', n, u'.
Qed.

(** [BoundedPoll], with a limit less than two gigabytes away, is the same walk, stopped
    at the limit as well. *)
Theorem BoundedPoll_walks {U} (hstep : Z -> frame -> U -> U) m img tc off b fs handler
  limitPosition fragmentLimit u :
  img_ok m img -> 0 <= tc < 2147483648 -> 0 <= off < img_T img ->
  pos_val m img = tc * img_T img + off -> img_term img tc = Some b ->
  log_seg m (bufferPtr b) off fs -> seg_end m b (off + seg_space fs) ->
  off + seg_space fs <= img_T img -> handles hstep m b handler ->
  -2147483648 <= limitPosition - pos_val m img < 2147483648 - img_T img ->
  let limit := Z.min (img_T img) (limitPosition - tc * img_T img) in
  exists header off' n u',
    walk hstep limit fragmentLimit off 0 fs u = (off', n, u') /\
    image_BoundedPoll img handler limitPosition fragmentLimit (m, u) =
      Ret (n, set_header img header) (moved m img (tc * img_T img + off'), u').
Proof.
  intros. destruct (image_BoundedPoll_walk hstep m img H tc off H0 H1 H2 b H3 fs H4 H5 H6 handler H7
                      limitPosition fragmentLimit u H8) as [header Hrun]. fold limit in Hrun. cbv zeta in Hrun.
  destruct (walk hstep limit fragmentLimit off 0 fs u) as [[off' n] u']. by exists header, off', n, u'.
Qed.

(** C35. [ControlledPoll] does what the handler's actions say: after an abort the frame is not
    consumed and the poll ends, after a break the poll ends behind the frame, after a commit or
    a continue it goes on. During the poll the position counter holds what was committed: a
    handler that reads it, or that shares the memory with a reader, finds the position of the
    start until a commit, and behind the committed frame from then on. In the end the position is
    behind the last consumed frame, and nothing but the position changes. *)
Theorem ControlledPoll_obeys {U} (hstep : Z -> Z -> frame -> U -> ControlledPollAction * U) m img tc off b fs
  handler fragmentLimit u :
  img_ok m img -> 0 <= tc < 2147483648 -> img_term img tc = Some b ->
  chandles hstep m img b handler ->
  0 <= off < img_T img -> pos_val m img = tc * img_T img + off ->
  log_seg m (bufferPtr b) off fs -> seg_end m b (off + seg_space fs) ->
  off + seg_space fs <= img_T img ->
  exists header m' off' n u',
    cwalk hstep (tc * img_T img) (img_T img) fragmentLimit (tc * img_T img + off) off 0 fs u = (off', n, u') /\
    image_ControlledPoll img handler fragmentLimit (m, u) = Ret (n, set_header img header) (m', u') /\
    pos_val m' img = tc * img_T img + off' /\ only_in m m' (pos_addr img) 8.
Proof.
  intros. destruct (image_ControlledPoll_walk hstep m img H tc H0 b H1 handler H2 fs off fragmentLimit u)
    as (header & m' & Hrun & Ho & Hp); try done.
  destruct (cwalk hstep (tc * img_T img) (img_T img) fragmentLimit (tc * img_T img + off) off 0 fs u) as [[off' n] u'].
  by exists header, m', off', n, u'.
Qed.

(** A limit far ahead reads nothing: the distance to it is cut to an [int32], and the
    greatest position as the limit gives an image in its first term an offset limit of -1. *)
Theorem BoundedPoll_far_limit {U} m img off b (handler : FragmentHandler U) fragmentLimit u :
  img_ok m img -> 0 <= off < img_T img -> pos_val m img = off -> img_term img 0 = Some b ->
  exists header,
    image_BoundedPoll img handler 9223372036854775807 fragmentLimit (m, u) =
    Ret (0, set_header img header) (m, u).
Proof. intros. by eapply BoundedPoll_far_limit_ok. Qed.
