(* ===== verification/Stream.v ===== *)
(** * From publication to image

    The publication, the log and the image put together: what is offered on one side is
    what a fragment assembler behind the image's polls delivers on the other. *)

From S2P Require Import Prelude Memory Bits Flyweight LogBuffer TermSpec Appender Reader.
From S2P Require Import FragmentAssembler Publication Image.

Local Open Scope m_scope.

(** ** Terms as the publication leaves them *)

(** The active term holds exactly the frames [fs], and zeroes after them. *)
Record term_holds (m : mem) (pub : Publication) (base tc : Z) (app : Appender) (fs : list frame)
  : Prop := {
  th_pub : pub_ok m pub base tc (seg_space fs);
  th_app : active_app pub tc = Some app;
  th_seg : log_seg m (bufferPtr (termBuffer app)) 0 fs;
  th_clean : forall i, bufferPtr (termBuffer app) + seg_space fs <= i
      < bufferPtr (termBuffer app) + term_length pub -> m !! i = Some Byte.x00;
  th_fit : seg_space fs <= term_length pub }.

(** What an append may change: the term buffer and its tail counter. *)
Definition append_only (m m' : mem) (app : Appender) : Prop :=
  only_in2 m m' (bufferPtr (termBuffer app)) (buf_length (termBuffer app))
    (f64_offset (tailCounter app)) 8.

Lemma append_only_trans m1 m2 m3 app :
  append_only m1 m2 app -> append_only m2 m3 app -> append_only m1 m3 app.
Proof. intros H1 H2 i ? ?. by rewrite H2, H1. Qed.

Lemma message_append_only m m' app src off len :
  src_ok m app src off len -> append_only m m' app -> message m' src off len = message m src off len.
Proof.
  intros [] Ho. unfold message. eapply only_in2_rd; [exact Ho|..]; unfold disjoint in *; lia.
Qed.

Section Extend.
Context (m : mem) (pub : Publication) (base tc : Z) (app : Appender) (fs : list frame).
Context (Hth : term_holds m pub base tc app fs) (Htc : tc < 2147483647).

Local Abbreviation T := (term_length pub).

(** The frames of an append that fits extend the term. *)
Lemma appended_extends m' new :
  pub_ok m' pub base tc (seg_space fs + seg_space new) ->
  appended (claim_mem m app (active_term pub tc) (seg_space fs + seg_space new)) m'
    (bufferPtr (termBuffer app)) (seg_space fs) new ->
  seg_space fs + seg_space new <= T ->
  term_holds m' pub base tc app (fs ++ new) /\ append_only m m' app /\ keeps m m'.
Proof using Hth Htc.
  intros Hpub Hap Hfit. destruct Hth as [Hp Ha Hs Hc Hf].
  destruct (active_part _ _ _ _ _ Hp app Ha) as [Hao Ht Hl Hd].
  pose proof (seg_space_nonneg new). pose proof (seg_space_nonneg fs).
  assert (Ho : append_only m m' app).
  { intros i Hi1 Hi2. rewrite (ap_only _ _ _ _ _ Hap) by lia.
    unfold claim_mem. apply wr_lookup_ne. rewrite zlen_le_split. lia. }
  assert (Htb : forall i, bufferPtr (termBuffer app) <= i < bufferPtr (termBuffer app) + T ->
            ~ (bufferPtr (termBuffer app) + seg_space fs <= i
               < bufferPtr (termBuffer app) + seg_space fs + seg_space new) -> m' !! i = m !! i).
  { intros i Hi1 Hi2. rewrite (ap_only _ _ _ _ _ Hap) by lia.
    unfold claim_mem. apply wr_lookup_ne. rewrite zlen_le_split. pose proof (part_index tc).
    unfold disjoint in Hd. rewrite Ht. unfold tail_addr. lia. }
  split_and!; [|done|].
  - constructor; try done; rewrite ?seg_space_app; try done.
    + apply log_seg_app. rewrite Z.add_0_l. split; [|apply (ap_frames _ _ _ _ _ Hap)].
      eapply log_seg_ext; [|exact Hs]. intros i Hi. apply Htb; lia.
    + intros i Hi. rewrite Htb by lia. apply Hc. lia.
  - eapply keeps_trans; [apply keeps_claim_mem|apply (ap_keeps _ _ _ _ _ Hap)].
Qed.

Lemma reject_status_neg m0 pos len : reject_status pub base m0 pos len < 0.
Proof using Type. unfold reject_status. destruct (_ >=? _); [done|]. by destruct (_ =? 1). Qed.

(** An offer that returns a position has extended the term by the message's frames. *)
Lemma Offer_extends b o len sup r m' :
  src_ok m app b o len -> supplier_reads (supplier_or_default sup) ->
  len <= maxMessageLength pub ->
  Offer pub b o len sup m = Ret r m' -> 0 < r ->
  let fs' := fs ++ msg_frames pub app (active_term pub tc) (message m b o len) in
  r = tc * T + seg_space fs' /\ term_holds m' pub base tc app fs' /\
  append_only m m' app /\ keeps m m'.
Proof using Hth Htc.
  intros Hsrc Hsup Hmax Hrun Hr fs'. pose proof Hth as [Hp Ha Hs Hc Hf].
  pose proof (Offer_does _ _ _ _ _ app b o len sup Hp Ha Htc Hf Hsrc Hsup Hmax) as Hd.
  unfold offer_does in Hd. rewrite Hrun in Hd.
  destruct (decide _); [injection Hd as -> _; pose proof (reject_status_neg m (tc * T + seg_space fs) (zlen (message m b o len))); lia|].
  destruct (decide _).
  - destruct Hd as (m1 & [= -> ->] & Hpub & Hap). unfold fs'. rewrite seg_space_app.
    split; [lia|]. by apply appended_extends.
  - destruct Hd as (m1 & [= -> _] & _). done.
Qed.
End Extend.

(** ** Offering several messages *)

Definition source : Type := Buffer * Z * Z.
Definition src_message (m : mem) (s : source) : list Init.Byte.byte :=
  let '(b, o, len) := s in message m b o len.
Definition source_ok (m : mem) (pub : Publication) (app : Appender) (s : source) : Prop :=
  let '(b, o, len) := s in src_ok m app b o len /\ len <= maxMessageLength pub.

Fixpoint offer_all (pub : Publication) (sup : option ReservedValueSupplier) (srcs : list source)
  : M mem (list Z) :=
  match srcs with
  | [] => ret []
  | (b, o, len) :: srcs' =>
      let! r := Offer pub b o len sup in
      let! rs := offer_all pub sup srcs' in
      ret (r :: rs)
  end.

Definition all_frames (pub : Publication) (app : Appender) (tid : Z)
  (msgs : list (list Init.Byte.byte)) : list frame :=
  concat (map (msg_frames pub app tid) msgs).

Lemma source_ok_kept m m' pub app s :
  append_only m m' app -> keeps m m' -> source_ok m pub app s ->
  source_ok m' pub app s /\ src_message m' s = src_message m s.
Proof.
  destruct s as [[b o] len]. intros Ho Hk [Hs Hl]. split.
  - split; [by eapply src_ok_keeps|done].
  - by eapply message_append_only.
Qed.

Lemma offer_all_holds pub base tc app sup srcs : forall m fs rs m',
  tc < 2147483647 -> supplier_reads (supplier_or_default sup) ->
  term_holds m pub base tc app fs -> Forall (source_ok m pub app) srcs ->
  offer_all pub sup srcs m = Ret rs m' -> Forall (fun r => 0 < r) rs ->
  term_holds m' pub base tc app
    (fs ++ all_frames pub app (active_term pub tc) (map (src_message m) srcs)).
Proof.
  induction srcs as [|[[b o] len] srcs IH]; intros m fs rs m' Htc Hsup Hth Hsrcs Hrun Hrs.
  - injection Hrun as <- <-. unfold all_frames. simpl. by rewrite app_nil_r.
  - apply Forall_cons in Hsrcs as [Hsl Hrest]. destruct Hsl as [Hs Hl].
    apply bind_inv_Ret in Hrun as (r & m1 & Hoff & Hrun).
    apply bind_inv_Ret in Hrun as (rs' & m2 & Hall & Hret). injection Hret as <- <-.
    apply Forall_cons in Hrs as [Hr Hrs'].
    destruct (Offer_extends m pub base tc app fs Hth Htc b o len sup r m1 Hs Hsup Hl Hoff Hr)
      as (_ & Hth1 & Ho & Hk).
    assert (Hkept : Forall (source_ok m1 pub app) srcs /\
                    map (src_message m1) srcs = map (src_message m) srcs).
    { clear -Hrest Ho Hk. induction Hrest as [|s srcs Hs _ [IH1 IH2]]; [done|].
      destruct (source_ok_kept _ _ _ _ _ Ho Hk Hs) as [H1 H2]. simpl. split; [by constructor|].
      by rewrite H2, IH2. }
    destruct Hkept as [Hok Hmsg].
    pose proof (IH m1 _ rs' m2 Htc Hsup Hth1 Hok Hall Hrs') as Hth2. rewrite Hmsg in Hth2.
    unfold all_frames in *. cbn [map concat]. by rewrite <- app_assoc in Hth2.
Qed.

(** ** What an observer behind an assembler gets *)

(** Reading without limits runs the handler over every frame. *)
Lemma walk_all {U} (hstep : Z -> frame -> U -> U) limit fl fs : forall off n u,
  Forall (fun f => is_padding f = false) fs -> off + seg_space fs <= limit ->
  n + zlen fs <= fl -> (forall o o' f u, hstep o f u = hstep o' f u) ->
  walk hstep limit fl off n fs u =
  (off + seg_space fs, n + zlen fs, fold_left (fun u f => hstep 0 f u) fs u).
Proof.
  induction fs as [|f fs IH]; intros off n u Hp Hl Hn He; cbn [walk seg_space fold_left].
  - unfold zlen. simpl. by rewrite !Z.add_0_r.
  - apply Forall_cons in Hp as [Hf Hp]. pose proof (frame_space_pos f). pose proof (seg_space_nonneg fs).
    assert (Hz : zlen (f :: fs) = zlen fs + 1) by (unfold zlen; simpl; lia).
    pose proof (zlen_nonneg fs). cbn [seg_space] in Hl. rewrite Hz in *.
    rewrite (proj2 (Z.ltb_lt n fl)), (proj2 (Z.ltb_lt off limit)) by lia. cbn [andb]. rewrite Hf.
    rewrite IH by (done || lia). rewrite (He off 0). do 2 f_equal; lia.
Qed.

Section Deliver.
Context (pub : Publication) (app : Appender) (tid : Z).
Context (HP : 0 < maxPayloadLength pub).
Local Abbreviation session := (hw_sessionID (app_headerWriter app)).

Lemma msg_frames_data data : Forall (fun f => is_padding f = false) (msg_frames pub app tid data).
Proof using Type.
  unfold msg_frames, app_frames, data_frames.
  case_match; apply Forall_map, Forall_true; done.
Qed.

Lemma all_frames_data msgs : Forall (fun f => is_padding f = false) (all_frames pub app tid msgs).
Proof using Type.
  unfold all_frames. apply Forall_concat, Forall_map, Forall_true. apply msg_frames_data.
Qed.

(** The assembler gives each message to its delegate once, in order. *)
Lemma asm_run_message data bm u :
  exists bm', asm_run record_cut (msg_frames pub app tid data) (bm, u)
              = (bm', (session, cut32 data) :: u).
Proof using HP.
  unfold msg_frames. destruct (Z.leb_spec (zlen data) (maxPayloadLength pub)).
  - eexists. done.
  - destruct (asm_run_fragments record_cut session (hw_streamID (app_headerWriter app)) tid
                (Z.to_nat (maxPayloadLength pub)) data bm u) as (f & Hrun & Hs);
      [lia|unfold zlen in *; lia|].
    eexists. unfold app_frames. rewrite Hrun. unfold record_cut. by rewrite Hs.
Qed.

Lemma asm_run_messages msgs : forall bm u,
  exists bm', asm_run record_cut (all_frames pub app tid msgs) (bm, u)
              = (bm', rev (map (fun d => (session, cut32 d)) msgs) ++ u).
Proof using HP.
  induction msgs as [|d msgs IH]; intros bm u; [by exists bm|].
  unfold all_frames in *. cbn [map concat]. rewrite asm_run_app.
  destruct (asm_run_message d bm u) as [bm1 ->]. destruct (IH bm1 ((session, cut32 d) :: u)) as [bm2 ->].
  exists bm2. simpl. by rewrite <- app_assoc.
Qed.
End Deliver.

(** ** End to end *)

(** A term as the publication leaves it ends where no frame is committed. *)
Lemma term_holds_end m pub base tc app fs :
  term_holds m pub base tc app fs -> seg_end m (termBuffer app) (seg_space fs).
Proof.
  intros [Hp Ha Hs Hc Hf]. destruct (active_part _ _ _ _ _ Hp app Ha) as [_ _ Hl _].
  pose proof (term_length_range _ _ _ _ _ Hp) as [_ HT]. destruct (po_off _ _ _ _ _ Hp) as [_ Hal].
  unfold seg_end. rewrite Hl. destruct (decide (term_length pub <= seg_space fs)); [by left|right].
  split; [dlia|]. rewrite rd_i32_clean; [done|]. intros i Hi. apply Hc.
  assert (seg_space fs + 32 <= term_length pub) by dlia. lia.
Qed.

(** What the messages' frames and the recorder make of a poll. *)
Lemma poll_delivers m pub base tc app fs msgs img bm fragmentLimit :
  term_holds m pub base tc app (fs ++ all_frames pub app (active_term pub tc) msgs) ->
  Forall (fun d => zlen d < 2147483648) msgs ->
  img_ok m img -> img_term img tc = Some (termBuffer app) ->
  pos_val m img = tc * term_length pub + seg_space fs -> seg_space fs < term_length pub ->
  zlen (all_frames pub app (active_term pub tc) msgs) <= fragmentLimit ->
  exists header bm',
    image_Poll img (OnFragment recorder) fragmentLimit (m, (bm, [])) =
    Ret (zlen (all_frames pub app (active_term pub tc) msgs), set_header img header)
      (moved m img (tc * term_length pub
                    + seg_space (fs ++ all_frames pub app (active_term pub tc) msgs)),
       (bm', rev (map (fun d => (hw_sessionID (app_headerWriter app), d)) msgs))).
Proof.
  set (new := all_frames pub app (active_term pub tc) msgs).
  intros Hth Hsmall Himg Hterm Hpos Hlt Hlim. pose proof (term_holds_end _ _ _ _ _ _ Hth) as Hend.
  destruct Hth as [Hp Ha Hs Hc Hf]. destruct (active_part _ _ _ _ _ Hp app Ha) as [Hao _ Hl _].
  destruct (img_term_ok m img Himg tc _ Hterm) as (Hbo & Hbl & _).
  assert (HT : img_T img = term_length pub) by congruence.
  apply log_seg_app in Hs as [_ Hs]. rewrite Z.add_0_l in Hs. rewrite seg_space_app in *.
  pose proof (term_length_range _ _ _ _ _ Hp) as [? _].
  pose proof (po_count _ _ _ _ _ Hp). pose proof (seg_space_nonneg fs).
  destruct (image_Poll_walk (asm_step record_cut) m img Himg tc (seg_space fs) ltac:(lia) ltac:(lia)
              ltac:(by rewrite HT) (termBuffer app) Hterm new Hs Hend ltac:(lia) (OnFragment recorder)
              (OnFragment_handles record_cut m (termBuffer app) recorder Hbo ltac:(lia) (recorder_delegates m _ Hbo))
              fragmentLimit (bm, [])) as [header Hpoll].
  destruct (po_payload _ _ _ _ _ Hp) as [[HP _] _].
  destruct (asm_run_messages pub app (active_term pub tc) HP msgs bm []) as [bm' Hasm].
  exists header, bm'. rewrite Hpoll, HT.
  rewrite walk_all; [|apply all_frames_data|lia|lia|done].
  unfold asm_run in Hasm. unfold new. rewrite Hasm. rewrite Z.add_0_l, app_nil_r.
  do 4 f_equal. apply map_ext_Forall. eapply Forall_impl; [exact Hsmall|].
  intros d Hd. by rewrite cut32_id.
Qed.

Lemma source_message_small m pub app srcs :
  Forall (source_ok m pub app) srcs -> Forall (fun d => zlen d < 2147483648) (map (src_message m) srcs).
Proof.
  intros H. apply Forall_map. eapply Forall_impl; [exact H|]. intros [[b o] len] [[? ? ? ? ? ?] _].
  simpl. rewrite zlen_message by lia. pose proof (buf_ok_length m b). intuition lia.
Qed.

(** Messages offered one after the other, each accepted, are what the next poll of an
    image at the same position delivers through a fragment assembler: every message once,
    whole, in order; the image then is where the publication is. *)
Theorem offers_are_delivered m pub base tc app fs srcs sup rs m' img bm fragmentLimit :
  tc < 2147483647 -> supplier_reads (supplier_or_default sup) ->
  term_holds m pub base tc app fs -> seg_space fs < term_length pub ->
  Forall (source_ok m pub app) srcs ->
  offer_all pub sup srcs m = Ret rs m' -> Forall (fun r => 0 < r) rs ->
  img_ok m' img -> img_term img tc = Some (termBuffer app) ->
  pos_val m' img = tc * term_length pub + seg_space fs ->
  let msgs := map (src_message m) srcs in
  zlen (all_frames pub app (active_term pub tc) msgs) <= fragmentLimit ->
  exists n header bm' position,
    image_Poll img (OnFragment recorder) fragmentLimit (m', (bm, [])) =
    Ret (n, set_header img header)
      (moved m' img position, (bm', rev (map (fun d => (hw_sessionID (app_headerWriter app), d)) msgs))) /\
    Publication_Position pub m' = Ret position m'.
Proof.
  intros Htc Hsup Hth Hlt Hsrcs Hrun Hrs Himg Hterm Hpos msgs Hlim.
  pose proof (offer_all_holds pub base tc app sup srcs m fs rs m' Htc Hsup Hth Hsrcs Hrun Hrs) as Hth'.
  destruct (poll_delivers m' pub base tc app fs msgs img bm fragmentLimit) as (header & bm' & Hpoll);
    try done; [by eapply source_message_small|].
  eexists _, header, bm', _. split; [exact Hpoll|].
  apply Publication_Position_ok with base. apply Hth'.
Qed.
