(* ===== verification/Queue.v ===== *)
(** * The log as a queue

    A publication and an image of its log, seen together while they are at work: offers of one
    or two buffers, polls with any limit, and what the driver does in between, in any order and
    over any number of terms. What the polls deliver is what was accepted, in order. *)

From S2P Require Import Prelude Memory Bits Flyweight LogBuffer TermSpec Appender Reader.
From S2P Require Import FragmentAssembler Publication Vectored Image Stream.

Local Open Scope m_scope.

Local Abbreviation bytes := (list Init.Byte.byte).

(** ** Both ends of a log *)

(** The image is over the log of the publication: the same term buffers, apart from each other,
    and its position counter outside of the metadata. *)
Record same_log (pub : Publication) (base : Z) (img : image) (session : Z) : Prop := {
  sl_length : img_T img = term_length pub;
  sl_terms : forall i app, 0 <= i < 3 -> appenders pub !! Z.to_nat i = Some app ->
      img_termBuffers img !! Z.to_nat i = Some (termBuffer app) /\
      hw_sessionID (app_headerWriter app) = session;
  sl_apart : forall i j a1 a2, 0 <= i < 3 -> 0 <= j < 3 -> i <> j ->
      appenders pub !! Z.to_nat i = Some a1 -> appenders pub !! Z.to_nat j = Some a2 ->
      disjoint (bufferPtr (termBuffer a1)) (term_length pub) (bufferPtr (termBuffer a2)) (term_length pub);
  sl_position : disjoint (pos_addr img) 8 base 448 }.

(** Where the term of a term count is. *)
Definition term_addr (pub : Publication) (t : Z) : Z :=
  match active_app pub t with Some app => bufferPtr (termBuffer app) | None => 0 end.

Definition clean (m : mem) (a n : Z) : Prop := forall i, a <= i < a + n -> m !! i = Some Byte.x00.
Definition same_on (m m' : mem) (a n : Z) : Prop := forall i, a <= i < a + n -> m' !! i = m !! i.

(** The part of the metadata that the publication relies on. *)
Definition same_meta (m m' : mem) (base : Z) : Prop := same_on m m' base 28 /\ same_on m m' (base + 264) 4.

Lemma same_on_sub m m' a n a' n' : same_on m m' a n -> a <= a' -> a' + n' <= a + n -> same_on m m' a' n'.
Proof. intros H ? ? i Hi. apply H. lia. Qed.

Lemma same_on_rd m m' a n a' k :
  same_on m m' a n -> a <= a' -> a' + Z.of_nat k <= a + n -> rd m' a' k = rd m a' k.
Proof. intros H ? ?. apply rd_ext. intros i Hi. apply H. lia. Qed.

Lemma only_in_same_on m m' a n a' n' : only_in m m' a n -> disjoint a n a' n' -> same_on m m' a' n'.
Proof. unfold disjoint. intros H ? i Hi. apply H. lia. Qed.

Lemma log_inv_meta m m' base init tc :
  keeps m m' -> same_meta m m' base -> log_inv m base init tc -> log_inv m' base init tc.
Proof.
  intros Hk [H1 H2] [Hr Hi Hc Ha Hn Hl].
  assert (H8 : forall i, 0 <= i mod 3 < 3 -> rd_i64 m' (tail_addr base (i mod 3)) = rd_i64 m (tail_addr base (i mod 3))).
  { intros. unfold rd_i64, tail_addr. by rewrite (same_on_rd m m' base 28) by (done || lia). }
  constructor; try (rewrite H8 by (apply Z.mod_pos_bound; lia); done).
  - by eapply region_ok_keeps.
  - unfold rd_i32 in *. by rewrite (same_on_rd m m' (base + 264) 4) by (done || lia).
  - unfold rd_i32 in *. by rewrite (same_on_rd m m' base 28) by (done || lia).
Qed.

Lemma pub_ok_meta m m' pub base tc off :
  keeps m m' -> same_meta m m' base -> pub_ok m pub base tc off -> pub_ok m' pub base tc off.
Proof.
  intros Hk Hm Hp. eapply pub_ok_moved; [exact Hp|done|..]; try apply Hp.
  - eapply log_inv_meta; [done|done|apply Hp].
  - rewrite <- (po_tail _ _ _ _ _ Hp). unfold rd_i64, tail_addr. pose proof (part_index tc).
    destruct Hm as [Hm _]. by rewrite (same_on_rd m m' base 28) by (done || lia).
Qed.

Lemma term_holds_same m m' pub base tc app fs :
  keeps m m' -> same_meta m m' base ->
  same_on m m' (bufferPtr (termBuffer app)) (term_length pub) ->
  term_holds m pub base tc app fs -> term_holds m' pub base tc app fs.
Proof.
  intros Hk Hm Hs [Hp Ha Hseg Hc Hf]. pose proof (seg_space_nonneg fs). constructor; try done.
  - by eapply pub_ok_meta.
  - eapply log_seg_ext; [|exact Hseg]. intros i Hi. apply Hs. lia.
  - intros i Hi. rewrite Hs by lia. by apply Hc.
Qed.

(** The term count that the metadata holds. *)
Definition term_count_of (m : mem) (base : Z) : Z := rd_i32 m (base + 24).

Lemma term_count_is m pub base tc off : pub_ok m pub base tc off -> term_count_of m base = tc.
Proof. intros Hp. apply (li_count _ _ _ _ (po_log _ _ _ _ _ Hp)). Qed.

(** ** Frames and messages *)

Definition data_only (fs : list frame) : list frame := List.filter (fun f => negb (is_padding f)) fs.

Lemma data_only_app fs gs : data_only (fs ++ gs) = data_only fs ++ data_only gs.
Proof. apply List.filter_app. Qed.

Lemma data_only_id fs : Forall (fun f => is_padding f = false) fs -> data_only fs = fs.
Proof. induction 1 as [|f fs Hf _ IH]; [done|]. unfold data_only in *. cbn [List.filter]. rewrite Hf. cbn. by rewrite IH. Qed.

(** A poll takes frames from the front, at least one if it may, and gives the data among them
    to the handler. *)
Lemma walk_takes {U} (hstep : Z -> frame -> U -> U) limit fl fs :
  (forall o o' f u, hstep o f u = hstep o' f u) -> forall off n u,
  exists gone rest n', fs = gone ++ rest /\
    walk hstep limit fl off n fs u =
    (off + seg_space gone, n', fold_left (fun u f => hstep 0 f u) (data_only gone) u) /\
    (n < fl -> off < limit -> fs <> [] -> gone <> []).
Proof.
  intros He. induction fs as [|f fs IH]; intros off n u; cbn [walk].
  { exists [], [], n. cbn. by rewrite Z.add_0_r. }
  destruct (Z.ltb_spec n fl), (Z.ltb_spec off limit); cbn [andb].
  2-4: exists [], (f :: fs), n; cbn; rewrite Z.add_0_r; split_and!; [done..|intros; lia].
  unfold data_only. destruct (is_padding f) eqn:Hp.
  - destruct (IH (off + frame_space f) n u) as (gone & rest & n' & -> & -> & _).
    exists (f :: gone), rest, n'. cbn [seg_space List.filter]. rewrite Hp. cbn [negb].
    split_and!; [done| |done]. do 2 f_equal. lia.
  - destruct (IH (off + frame_space f) (n + 1) (hstep off f u)) as (gone & rest & n' & -> & -> & _).
    exists (f :: gone), rest, n'. cbn [seg_space List.filter]. rewrite Hp. cbn [negb fold_left].
    rewrite (He off 0). split_and!; [done| |done]. do 2 f_equal. lia.
Qed.

(** What is delivered stays delivered. *)
Lemma asm_run_grows fs : forall bm u, exists l, (asm_run record_cut fs (bm, u)).2 = l ++ u.
Proof.
  induction fs as [|f fs IH]; intros bm u; [by exists []|].
  cbn [asm_run fold_left]. fold (asm_run record_cut fs).
  assert (H : exists l, (asm_step record_cut 0 f (bm, u)).2 = l ++ u).
  { unfold asm_step, record_cut. repeat case_match; try (by exists []); by eexists [_]. }
  destruct (asm_step record_cut 0 f (bm, u)) as [bm1 u1]. cbn [snd] in H. destruct H as [l ->].
  destruct (IH bm1 (l ++ u)) as [l' Hl]. exists (l' ++ l). unfold asm_run in Hl. by rewrite Hl, app_assoc.
Qed.

(** ** Runs *)

(** A client with a publication and an image: memory, the image's value, the assembler behind
    its polls with what was delivered, newest first. *)
Record config : Type := mkConfig { c_mem : mem; c_img : image; c_asm : builders * msg_log }.

Inductive event : Type :=
| Offered (data : bytes) (answer : Z)
| Polled (fragments : Z)
| Elsewhere.

Section Runs.
Context (pub : Publication) (base session : Z).

Local Abbreviation T := (term_length pub).
Local Abbreviation pos c := (pos_val (c_mem c) (c_img c)).
Local Abbreviation term_count c := (term_count_of (c_mem c) base).

(** An offer of a message, in one part or in two, from buffers outside of the log. *)
Inductive offer_of (m : mem) (app : Appender) : bytes -> M mem Z -> Prop :=
| offer_one b o len sup :
    src_ok m app b o len -> supplier_reads (supplier_or_default sup) -> len <= maxMessageLength pub ->
    offer_of m app (message m b o len) (Offer pub b o len sup)
| offer_two src sup :
    src_ok m app (one_buf src) (one_off src) (one_len src) ->
    src_ok m app (two_buf src) (two_off src) (two_len src) ->
    supplier_reads (supplier_or_default sup) -> one_len src + two_len src <= maxMessageLength pub ->
    offer_of m app (message2 m src)
      (Offer2 pub (one_buf src) (one_off src) (one_len src) (two_buf src) (two_off src) (two_len src) sup).

(** What the driver sees to: it lets the publication go at most half a term ahead of the
    image, and has the next term zeroed once the image is in the publication's term. And the
    log has not reached its last term. *)
Record driver_ok (c : config) : Prop := {
  dr_limit : limit_val (c_mem c) pub <= pos c + T / 2;
  dr_clean : term_count c * T <= pos c -> clean (c_mem c) (term_addr pub (term_count c + 1)) T;
  dr_count : term_count c < 2147483647 }.

(** What others may do in between: anything to the memory, except to the counters of the log,
    to the image's position, and to the terms from the image's to the publication's. *)
Record elsewhere_ok (c : config) (m' : mem) : Prop := {
  el_keeps : keeps (c_mem c) m';
  el_meta : same_meta (c_mem c) m' base;
  el_position : same_on (c_mem c) m' (pos_addr (c_img c)) 8;
  el_term : same_on (c_mem c) m' (term_addr pub (term_count c)) T;
  el_behind : pos c < term_count c * T -> same_on (c_mem c) m' (term_addr pub (term_count c - 1)) T }.

Inductive queue_step (c : config) : event -> config -> Prop :=
| step_offer app data offer r m' :
    driver_ok c -> active_app pub (term_count c) = Some app -> offer_of (c_mem c) app data offer ->
    offer (c_mem c) = Ret r m' -> queue_step c (Offered data r) (mkConfig m' (c_img c) (c_asm c))
| step_poll fragmentLimit n img' m' s' :
    driver_ok c ->
    image_Poll (c_img c) (OnFragment recorder) fragmentLimit (c_mem c, c_asm c) = Ret (n, img') (m', s') ->
    queue_step c (Polled n) (mkConfig m' img' s')
| step_elsewhere m' :
    elsewhere_ok c m' -> queue_step c Elsewhere (mkConfig m' (c_img c) (c_asm c)).

Inductive queue_run (c : config) : list event -> config -> Prop :=
| run_start : queue_run c [] c
| run_step es c1 e c2 : queue_run c es c1 -> queue_step c1 e c2 -> queue_run c (es ++ [e]) c2.

(** The messages that were accepted. *)
Definition accepted_of (e : event) : list bytes :=
  match e with Offered data r => if 0 <? r then [data] else [] | _ => [] end.
Definition accepted (es : list event) : list bytes := concat (map accepted_of es).

Lemma accepted_snoc es e : accepted (es ++ [e]) = accepted es ++ accepted_of e.
Proof using Type. unfold accepted. rewrite map_app, concat_app. cbn. by rewrite app_nil_r. Qed.

(** ** The state of the log *)

(** The frames that the image has still to read: the rest of the publication's term, or the
    rest of the term before and then that term. *)
Inductive pending (c : config) (tc : Z) (app : Appender) : list frame -> Prop :=
| pending_here gone rest :
    term_holds (c_mem c) pub base tc app (gone ++ rest) -> pos c = tc * T + seg_space gone ->
    pending c tc app rest
| pending_behind gone rest fs :
    0 < tc -> log_seg (c_mem c) (term_addr pub (tc - 1)) 0 (gone ++ rest) ->
    seg_space (gone ++ rest) = T -> rest <> [] -> pos c = (tc - 1) * T + seg_space gone ->
    term_holds (c_mem c) pub base tc app fs ->
    pending c tc app (rest ++ fs).

(** Reading what is pending delivers what was accepted. *)
Record queue_inv (c : config) (sent : list bytes) : Prop := {
  qi_img : img_ok (c_mem c) (c_img c);
  qi_log : same_log pub base (c_img c) session;
  qi_pending : exists tc app fs bm, pending c tc app fs /\
      asm_run record_cut (data_only fs) (c_asm c) = (bm, rev (map (pair session) sent)) }.

Lemma same_log_session img tc app :
  same_log pub base img session -> active_app pub tc = Some app ->
  hw_sessionID (app_headerWriter app) = session.
Proof using Type. intros [_ H _ _] Ha. by destruct (H (tc mod 3) app (part_index tc) Ha). Qed.

Lemma term_addr_apart img t1 t2 a1 a2 :
  same_log pub base img session -> active_app pub t1 = Some a1 -> active_app pub t2 = Some a2 ->
  t1 mod 3 <> t2 mod 3 ->
  disjoint (bufferPtr (termBuffer a1)) T (bufferPtr (termBuffer a2)) T.
Proof using Type. intros [_ _ H _] H1 H2 Hne. apply (H (t1 mod 3) (t2 mod 3)); [apply part_index|apply part_index|done..]. Qed.

Lemma img_term_is img tc app :
  same_log pub base img session -> active_app pub tc = Some app -> img_term img tc = Some (termBuffer app).
Proof using Type. intros [_ H _ _] Ha. by destruct (H (tc mod 3) app (part_index tc) Ha). Qed.

Lemma term_addr_is tc app : active_app pub tc = Some app -> term_addr pub tc = bufferPtr (termBuffer app).
Proof using Type. unfold term_addr. by intros ->. Qed.

Lemma pending_pub c tc app fs : pending c tc app fs ->
  active_app pub tc = Some app /\ exists cur, term_holds (c_mem c) pub base tc app cur.
Proof using Type. intros [gone rest Hth _|gone rest fs' _ _ _ _ _ Hth]; (split; [apply Hth|by eexists]). Qed.

(** Memory that changes outside of what is pending. *)
Lemma pending_same c c' tc app fs :
  keeps (c_mem c) (c_mem c') -> same_meta (c_mem c) (c_mem c') base -> pos c' = pos c ->
  same_on (c_mem c) (c_mem c') (term_addr pub tc) T ->
  (pos c < tc * T -> same_on (c_mem c) (c_mem c') (term_addr pub (tc - 1)) T) ->
  pending c tc app fs -> pending c' tc app fs.
Proof using Type.
  intros Hk Hm Hp Hterm Hbehind [gone rest Hth Hpos|gone rest fs' Htc Hseg Hfull Hne Hpos Hth].
  - eapply pending_here; [|by rewrite Hp]. eapply term_holds_same; [done|done| |done].
    by erewrite <- term_addr_is by apply Hth.
  - eapply pending_behind; try done; [|by rewrite Hp|].
    + eapply log_seg_ext; [|exact Hseg]. rewrite Hfull. intros i Hi. apply Hbehind; [|lia].
      rewrite seg_space_app in Hfull. destruct rest as [|f rest]; [done|]. cbn [seg_space] in Hfull.
      pose proof (frame_space_pos f). pose proof (seg_space_nonneg rest). lia.
    + eapply term_holds_same; [done|done| |done]. by erewrite <- term_addr_is by apply Hth.
Qed.

Lemma elsewhere_keeps c sent m' :
  elsewhere_ok c m' -> queue_inv c sent -> queue_inv (mkConfig m' (c_img c) (c_asm c)) sent.
Proof using Type.
  intros [Hk Hm Hpos Hterm Hbehind] [Himg Hlog (tc & app & fs & bm & Hpend & Hasm)].
  destruct (pending_pub c tc app fs Hpend) as (Ha & cur & Hth).
  rewrite (term_count_is _ _ _ _ _ (th_pub _ _ _ _ _ _ Hth)) in *.
  constructor; [by eapply img_ok_keeps|done|]. exists tc, app, fs, bm. split; [|done].
  eapply pending_same; [..|exact Hpend]; try done.
  unfold pos_val, rd_i64. by rewrite (same_on_rd (c_mem c) m' _ 8) by (done || lia).
Qed.

(** Moving the image's position changes nothing of the log. *)
Lemma moved_keeps m img p : keeps m (moved m img p).
Proof using Type. unfold moved. destruct (_ >? _); [apply keeps_wr|apply keeps_refl]. Qed.

Lemma moved_only m img p : only_in m (moved m img p) (pos_addr img) 8.
Proof using Type.
  unfold moved. destruct (_ >? _); [|apply only_in_refl]. apply only_in_wr; rewrite ?zlen_le_split; lia.
Qed.

Lemma moved_meta m img p : same_log pub base img session -> same_meta m (moved m img p) base.
Proof using Type.
  intros [_ _ _ Hd]. unfold disjoint in Hd. pose proof (moved_only m img p) as Ho.
  split; (eapply only_in_same_on; [exact Ho|unfold disjoint; lia]).
Qed.

Lemma moved_term m img p tc app :
  img_ok m img -> same_log pub base img session -> active_app pub tc = Some app ->
  same_on m (moved m img p) (bufferPtr (termBuffer app)) T.
Proof using Type.
  intros Himg Hl Ha. destruct (img_term_ok m img Himg tc (termBuffer app)) as (_ & _ & Hd);
    [by eapply img_term_is|].
  rewrite (sl_length _ _ _ _ Hl) in Hd.
  eapply only_in_same_on; [apply moved_only|]. unfold disjoint in *. lia.
Qed.

(** ** Polls *)

(** A poll in the term [t], of which the image has read [gone]. *)
Lemma poll_in_term m img t app gone rest s fragmentLimit :
  img_ok m img -> same_log pub base img session -> active_app pub t = Some app -> 0 <= t < 2147483648 ->
  log_seg m (bufferPtr (termBuffer app)) 0 (gone ++ rest) -> seg_space gone < T ->
  seg_space (gone ++ rest) <= T -> seg_end m (termBuffer app) (seg_space (gone ++ rest)) ->
  pos_val m img = t * T + seg_space gone ->
  exists header n taken left,
    rest = taken ++ left /\ (0 < fragmentLimit -> rest <> [] -> taken <> []) /\
    image_Poll img (OnFragment recorder) fragmentLimit (m, s) =
    Ret (n, set_header img header)
      (moved m img (t * T + seg_space (gone ++ taken)), asm_run record_cut (data_only taken) s) /\
    pos_val (moved m img (t * T + seg_space (gone ++ taken))) img = t * T + seg_space (gone ++ taken).
Proof using Type.
  intros Himg Hl Ha Ht Hseg Hlt Hfit Hend Hpos. pose proof (img_T_range m img Himg) as HT.
  pose proof (img_term_is img t app Hl Ha) as Hb. pose proof (sl_length _ _ _ _ Hl) as HTe.
  destruct (img_term_ok m img Himg t _ Hb) as (Hbo & Hbl & _). pose proof (seg_space_nonneg gone).
  apply log_seg_app in Hseg as [_ Hseg]. rewrite Z.add_0_l in Hseg. rewrite seg_space_app in *.
  destruct (image_Poll_walk (asm_step record_cut) m img Himg t (seg_space gone) Ht ltac:(lia)
              ltac:(by rewrite HTe) (termBuffer app) Hb rest Hseg Hend ltac:(lia) (OnFragment recorder)
              (OnFragment_handles record_cut m (termBuffer app) recorder Hbo ltac:(lia) (recorder_delegates m _ Hbo))
              fragmentLimit s) as [header Hpoll].
  destruct (walk_takes (asm_step record_cut) (img_T img) fragmentLimit rest ltac:(done) (seg_space gone) 0 s)
    as (taken & left & n & -> & Hw & Hsome).
  rewrite Hw in Hpoll. cbv zeta beta iota in Hpoll. rewrite HTe in Hpoll. rewrite seg_space_app in Hfit.
  pose proof (seg_space_nonneg taken). pose proof (seg_space_nonneg left).
  exists header, n, taken, left. rewrite seg_space_app. split_and!; [done|intros; apply Hsome; lia || done|exact Hpoll|].
  apply moved_val; [unfold is_i64; nia|lia].
Qed.

Lemma same_log_header img header :
  same_log pub base img session -> same_log pub base (set_header img header) session.
Proof using Type. by intros [? ? ? ?]. Qed.

Lemma img_ok_header m img header : img_ok m img -> img_ok m (set_header img header).
Proof using Type. by intros [? ? ? ? ?]. Qed.

(** The memory after a poll still holds what it held of the log. *)
Lemma term_holds_moved m img p tc app fs :
  img_ok m img -> same_log pub base img session ->
  term_holds m pub base tc app fs -> term_holds (moved m img p) pub base tc app fs.
Proof using Type.
  intros Himg Hl Hth. eapply term_holds_same; [apply moved_keeps|by apply moved_meta| |done].
  eapply moved_term; [done|done|apply Hth].
Qed.

Lemma zero_end m b : (forall i, bufferPtr b <= i < bufferPtr b + buf_length b -> m !! i = Some Byte.x00) ->
  65536 <= buf_length b -> seg_end m b 0.
Proof using Type.
  intros Hz Hl. right. split; [lia|]. rewrite rd_i32_clean; [done|]. intros. apply Hz. lia.
Qed.

Lemma part_exists tc m tc0 off : pub_ok m pub base tc0 off -> exists app, active_app pub tc = Some app.
Proof using Type.
  intros Hp. destruct (po_parts _ _ _ _ _ Hp (tc mod 3) (part_index tc)) as (app & ? & _). by exists app.
Qed.

Lemma seg_space_some (fs : list frame) : fs <> [] -> 0 < seg_space fs.
Proof using Type.
  destruct fs as [|f fs]; [done|]. intros _. cbn [seg_space]. pose proof (frame_space_pos f).
  pose proof (seg_space_nonneg fs). lia.
Qed.

(** Where the publication is, seen from the image: not behind it. *)
Lemma position_pending c tc app fs :
  pending c tc app fs -> Publication_Position pub (c_mem c) = Ret (pos c + seg_space fs) (c_mem c).
Proof using Type.
  intros [gone rest Hth Hpos|gone rest cur Htc Hseg Hfull Hne Hpos Hth];
    rewrite (Publication_Position_ok _ _ _ _ _ (th_pub _ _ _ _ _ _ Hth)); f_equal;
    rewrite !seg_space_app in *; lia.
Qed.

(** What a poll leaves pending, and what it has done to get there. *)
Definition polled (c : config) (tc : Z) (app : Appender) (fs : list frame) (fragmentLimit : Z) : Prop :=
  exists n img' m' taken left,
    fs = taken ++ left /\ (0 < fragmentLimit -> fs <> [] -> taken <> []) /\
    image_Poll (c_img c) (OnFragment recorder) fragmentLimit (c_mem c, c_asm c) =
    Ret (n, img') (m', asm_run record_cut (data_only taken) (c_asm c)) /\
    img_ok m' img' /\ same_log pub base img' session /\
    pending (mkConfig m' img' (asm_run record_cut (data_only taken) (c_asm c))) tc app left /\
    pos_val m' img' = pos c + seg_space taken.

Lemma poll_in_publication_term c tc app gone rest fragmentLimit :
  driver_ok c -> img_ok (c_mem c) (c_img c) -> same_log pub base (c_img c) session ->
  term_holds (c_mem c) pub base tc app (gone ++ rest) -> pos c = tc * T + seg_space gone ->
  polled c tc app rest fragmentLimit.
Proof using Type.
  intros [_ Hclean Hlast] Himg Hlog Hth Hpos. pose proof Hth as [Hp Ha Hseg Hc Hfit].
  pose proof (po_count _ _ _ _ _ Hp). rewrite (term_count_is _ _ _ _ _ Hp) in *.
  pose proof (seg_space_nonneg gone). pose proof (seg_space_nonneg rest).
  destruct (decide (seg_space gone < T)) as [Hlt|Hge].
  - destruct (poll_in_term (c_mem c) (c_img c) tc app gone rest (c_asm c) fragmentLimit)
      as (header & n & taken & left & -> & Hsome & Hpoll & Hval); try done; [by eapply term_holds_end|].
    eexists n, _, _, taken, left. split_and!; try done.
    + eapply img_ok_keeps; [apply moved_keeps|by apply img_ok_header].
    + by apply same_log_header.
    + eapply pending_here; [|exact Hval]. rewrite <- app_assoc. by apply term_holds_moved.
    + etransitivity; [exact Hval|]. rewrite seg_space_app. lia.
  - rewrite seg_space_app in Hfit. assert (rest = []) as ->.
    { destruct (decide (rest = [])) as [|Hne]; [done|]. pose proof (seg_space_some rest Hne). lia. }
    destruct (part_exists (tc + 1) _ _ _ Hp) as [app' Ha'].
    pose proof (term_length_range _ _ _ _ _ Hp) as [? _].
    pose proof (img_term_ok _ _ Himg (tc + 1) _ (img_term_is _ _ _ Hlog Ha')) as (_ & Hl' & _).
    rewrite (sl_length _ _ _ _ Hlog) in Hl'. rewrite (term_addr_is _ _ Ha') in Hclean.
    destruct (poll_in_term (c_mem c) (c_img c) (tc + 1) app' [] [] (c_asm c) fragmentLimit)
      as (header & n & taken & left & Hnil & Hsome & Hpoll & Hval); try done; try lia;
      try (cbn in *; lia).
    { apply zero_end; [|lia]. intros i Hi. apply Hclean; lia. }
    symmetry in Hnil. apply app_eq_nil in Hnil as [-> ->]. cbn in Hval, Hfit.
    eexists n, _, _, [], []. split_and!; try done.
    + eapply img_ok_keeps; [apply moved_keeps|by apply img_ok_header].
    + by apply same_log_header.
    + eapply pending_here; [by apply term_holds_moved|]. etransitivity; [exact Hval|]. lia.
    + etransitivity; [exact Hval|]. cbn. lia.
Qed.

Lemma poll_behind c tc app gone rest cur fragmentLimit :
  img_ok (c_mem c) (c_img c) -> same_log pub base (c_img c) session ->
  0 < tc -> log_seg (c_mem c) (term_addr pub (tc - 1)) 0 (gone ++ rest) ->
  seg_space (gone ++ rest) = T -> rest <> [] -> pos c = (tc - 1) * T + seg_space gone ->
  term_holds (c_mem c) pub base tc app cur ->
  polled c tc app (rest ++ cur) fragmentLimit.
Proof using Type.
  intros Himg Hlog Htc Hseg Hfull Hne Hpos Hth. pose proof Hth as [Hp Ha _ _ _].
  pose proof (po_count _ _ _ _ _ Hp). pose proof (seg_space_some rest Hne) as Hrest.
  destruct (part_exists (tc - 1) _ _ _ Hp) as [app' Ha'].
  pose proof (img_term_ok _ _ Himg (tc - 1) _ (img_term_is _ _ _ Hlog Ha')) as (_ & Hl' & _).
  rewrite (sl_length _ _ _ _ Hlog) in Hl'. rewrite (term_addr_is _ _ Ha') in Hseg.
  pose proof Hfull as Hsum. rewrite seg_space_app in Hsum.
  destruct (poll_in_term (c_mem c) (c_img c) (tc - 1) app' gone rest (c_asm c) fragmentLimit)
    as (header & n & taken & left & -> & Hsome & Hpoll & Hval); try done; try lia.
  { left. lia. }
  rewrite app_assoc in Hseg, Hfull. rewrite ?seg_space_app in Hsum, Hfull.
  eexists n, _, _, taken, (left ++ cur). split_and!; try done.
  - by rewrite app_assoc.
  - intros Hf _. by apply Hsome.
  - eapply img_ok_keeps; [apply moved_keeps|by apply img_ok_header].
  - by apply same_log_header.
  - destruct (decide (left = [])) as [->|Hleft].
    + eapply (pending_here _ _ _ []); [by apply term_holds_moved|]. etransitivity; [exact Hval|]. rewrite seg_space_app. cbn in *. lia.
    + eapply (pending_behind _ _ _ (gone ++ taken)); try done; [| |by apply term_holds_moved].
      * rewrite (term_addr_is _ _ Ha'). eapply log_seg_ext; [|exact Hseg].
        rewrite !seg_space_app. intros i Hi. eapply moved_term; [done|done|exact Ha'|lia].
      * rewrite !seg_space_app. lia.
  - etransitivity; [exact Hval|]. rewrite seg_space_app. lia.
Qed.

(** Every poll returns and keeps the invariant; when something is pending and its limit allows
    it, it moves the image. *)
Lemma poll_step c sent fragmentLimit :
  driver_ok c -> queue_inv c sent ->
  exists n img' m' s',
    image_Poll (c_img c) (OnFragment recorder) fragmentLimit (c_mem c, c_asm c) = Ret (n, img') (m', s') /\
    queue_inv (mkConfig m' img' s') sent /\
    (forall p, 0 < fragmentLimit -> Publication_Position pub (c_mem c) = Ret p (c_mem c) -> pos c < p ->
       pos c < pos_val m' img').
Proof using Type.
  intros Hdr [Himg Hlog (tc & app & fs & bm & Hpend & Hasm)].
  assert (polled c tc app fs fragmentLimit) as (n & img' & m' & taken & left & Hfs & Hsome & Hpoll & Himg' & Hlog' & Hpend' & Hval).
  { destruct Hpend; [by eapply poll_in_publication_term|by eapply poll_behind]. }
  eexists n, img', m', _. split; [exact Hpoll|]. split.
  - constructor; [done|done|]. exists tc, app, left, bm. split; [done|].
    cbn [c_asm]. rewrite <- asm_run_app, <- data_only_app, <- Hfs. done.
  - intros p Hl Hp Hlt. rewrite (position_pending _ _ _ _ Hpend) in Hp. injection Hp as <-.
    assert (fs <> []) by (intros ->; cbn in Hlt; lia).
    pose proof (seg_space_some taken (Hsome Hl H)). lia.
Qed.

(** ** Offers *)

(** Either offer does what the contract of offers says. *)
Lemma offer_of_does m tc off app data offer :
  pub_ok m pub base tc off -> active_app pub tc = Some app -> tc < 2147483647 -> off <= T ->
  offer_of m app data offer ->
  offer_does m pub base tc off app data offer /\ zlen data <= T / 8.
Proof using Type.
  intros Hp Ha Htc Hoff Hof. rewrite <- (po_max_msg _ _ _ _ _ Hp). destruct Hof as [b o len sup Hs Hsup Hl|src sup H1 H2 Hsup Hl].
  - split; [by apply Offer_does|]. pose proof (so_len _ _ _ _ _ Hs). by rewrite zlen_message.
  - split; [by apply Offer2_does|]. by destruct (zlen_message2 m app src H1 H2) as (-> & _ & _).
Qed.

(** The frames of a message deliver the message. *)
Lemma message_delivered app tid data bm sent :
  0 < maxPayloadLength pub -> zlen data < 2147483648 -> hw_sessionID (app_headerWriter app) = session ->
  exists bm', asm_run record_cut (data_only (msg_frames pub app tid data)) (bm, rev (map (pair session) sent))
              = (bm', rev (map (pair session) (sent ++ [data]))).
Proof using Type.
  intros HP Hz Hs. rewrite data_only_id by apply msg_frames_data.
  destruct (asm_run_message pub app tid HP data bm (rev (map (pair session) sent))) as [bm' ->].
  exists bm'. by rewrite map_app, rev_app_distr, cut32_id, Hs.
Qed.

Lemma end_frames_padding tc off app m : data_only (end_frames pub tc off app m) = [].
Proof using Type. unfold end_frames. by destruct (_ <? _). Qed.

(** What rotation leaves of the memory. *)
Lemma rotated_keeps m m' tc off app tc' off' :
  pub_ok m pub base tc off -> active_app pub tc = Some app -> pub_ok m' pub base tc' off' ->
  (forall i, ~ (base <= i < base + 448) ->
     ~ (bufferPtr (termBuffer app) + off <= i < bufferPtr (termBuffer app) + T) -> m' !! i = m !! i) ->
  keeps m m'.
Proof using Type.
  intros Hp Ha Hp' Ho i Hi. destruct (po_off _ _ _ _ _ Hp) as [? _].
  destruct (decide (base <= i < base + 448)) as [Hin|Hout].
  { destruct (li_region _ _ _ _ (po_log _ _ _ _ _ Hp')) as (_ & _ & _ & Hr). by apply Hr. }
  destruct (decide (bufferPtr (termBuffer app) + off <= i < bufferPtr (termBuffer app) + T)) as [Hin|Hout'].
  { destruct (po_parts _ _ _ _ _ Hp' (tc mod 3) (part_index tc)) as (app' & Ha' & [[[(_ & _ & _ & Hr) _] _ _ _ _ _] _ Hl _]).
    unfold active_app in Ha. rewrite Ha in Ha'. injection Ha' as <-. apply Hr. lia. }
  by rewrite Ho.
Qed.

(** The next term, which the driver has zeroed, starts empty. *)
Lemma rotated_term m m' img tc off app app' :
  same_log pub base img session -> 0 <= tc ->
  pub_ok m pub base tc off -> active_app pub tc = Some app -> active_app pub (tc + 1) = Some app' ->
  clean m (bufferPtr (termBuffer app')) T -> pub_ok m' pub base (tc + 1) 0 ->
  (forall i, ~ (base <= i < base + 448) ->
     ~ (bufferPtr (termBuffer app) + off <= i < bufferPtr (termBuffer app) + T) -> m' !! i = m !! i) ->
  term_holds m' pub base (tc + 1) app' [].
Proof using Type.
  intros Hl Htc Hp Ha Ha' Hc Hp' Ho. pose proof (term_length_range _ _ _ _ _ Hp) as [? _].
  destruct (po_off _ _ _ _ _ Hp) as [? _].
  destruct (partitions_distinct tc Htc) as (Hne & _ & _).
  pose proof (term_addr_apart img _ _ _ _ Hl Ha Ha' Hne) as Hd.
  destruct (active_part _ _ _ _ _ Hp' app' Ha') as [_ _ _ Hd']. unfold disjoint in *.
  constructor; try done; [|cbn; lia]. intros i Hi. cbn in Hi. rewrite Ho by lia. apply Hc; lia.
Qed.

(** The publication reaches the end of a term only when the image is in that term. *)
Lemma end_not_behind c tc app data off :
  driver_ok c -> pub_ok (c_mem c) pub base tc off -> zlen data <= T / 8 ->
  tc * T + off < limit_val (c_mem c) pub ->
  T < off + seg_space (msg_frames pub app (active_term pub tc) data) -> tc * T <= pos c.
Proof using Type.
  intros [Hlim _ _] Hp Hz Hl Hfull. pose proof (term_length_range _ _ _ _ _ Hp) as [? _].
  destruct (msg_space_twice (c_mem c) pub base tc off Hp app data Hz) as [? _]. dlia.
Qed.

(** The memory of the term up to the tail, when it rotates. *)
Lemma rotated_seg m m' tc app fs m0 :
  term_holds m pub base tc app fs ->
  log_seg m' (bufferPtr (termBuffer app)) (seg_space fs) (end_frames pub tc (seg_space fs) app m0) ->
  (forall i, ~ (base <= i < base + 448) ->
     ~ (bufferPtr (termBuffer app) + seg_space fs <= i < bufferPtr (termBuffer app) + T) -> m' !! i = m !! i) ->
  log_seg m' (bufferPtr (termBuffer app)) 0 (fs ++ end_frames pub tc (seg_space fs) app m0).
Proof using Type.
  intros [Hp Ha Hseg _ Hf] Hend Ho. destruct (active_part _ _ _ _ _ Hp app Ha) as [_ _ _ Hd].
  apply log_seg_app. rewrite Z.add_0_l. split; [|done]. eapply log_seg_ext; [|exact Hseg].
  intros i Hi. unfold disjoint in Hd. apply Ho; lia.
Qed.

(** The position counter is not touched by what happens in the log. *)
Lemma position_same m m' img tc app :
  img_ok m img -> same_log pub base img session -> active_app pub tc = Some app ->
  (forall i, ~ (base <= i < base + 448) ->
     ~ (bufferPtr (termBuffer app) <= i < bufferPtr (termBuffer app) + T) -> m' !! i = m !! i) ->
  pos_val m' img = pos_val m img.
Proof using Type.
  intros Himg Hl Ha Ho. destruct (img_term_ok m img Himg tc (termBuffer app)) as (_ & _ & Hd);
    [by eapply img_term_is|].
  rewrite (sl_length _ _ _ _ Hl) in Hd. pose proof (sl_position _ _ _ _ Hl) as Hd'. unfold disjoint in *.
  unfold pos_val, rd_i64. do 2 f_equal. apply rd_ext. intros i Hi. apply Ho; lia.
Qed.

Lemma end_of_term c tc app gone rest m' m0 :
  img_ok (c_mem c) (c_img c) -> same_log pub base (c_img c) session ->
  let cur := gone ++ rest in
  let pad := end_frames pub tc (seg_space cur) app m0 in
  term_holds (c_mem c) pub base tc app cur -> pos c = tc * T + seg_space gone ->
  clean (c_mem c) (term_addr pub (tc + 1)) T -> pub_ok m' pub base (tc + 1) 0 ->
  log_seg m' (bufferPtr (termBuffer app)) (seg_space cur) pad ->
  (forall i, ~ (base <= i < base + 448) ->
     ~ (bufferPtr (termBuffer app) + seg_space cur <= i < bufferPtr (termBuffer app) + T) ->
     m' !! i = c_mem c !! i) ->
  exists app', pending (mkConfig m' (c_img c) (c_asm c)) (tc + 1) app' (rest ++ pad).
Proof using Type.
  intros Himg Hlog cur pad Hth Hpos Hclean Hp' Hend Ho. pose proof Hth as [Hp Ha _ _ Hf].
  pose proof (po_count _ _ _ _ _ Hp). pose proof (seg_space_nonneg cur).
  destruct (part_exists (tc + 1) _ _ _ Hp) as [app' Ha']. rewrite (term_addr_is _ _ Ha') in Hclean.
  pose proof (rotated_seg _ _ _ _ _ _ Hth Hend Ho) as Hseg.
  assert (Hth' : term_holds m' pub base (tc + 1) app' []) by (eapply rotated_term; done || lia).
  assert (Hpos' : pos_val m' (c_img c) = pos c).
  { eapply position_same; [done|done|exact Ha|]. intros i ? ?. apply Ho; [done|lia]. }
  assert (Hfull : seg_space (cur ++ pad) = T).
  { rewrite seg_space_app. unfold pad. rewrite (end_frames_space _ _ _ _ _ Hp) by exact Hf. lia. }
  exists app'. unfold cur in Hseg, Hfull. fold cur pad in Hseg. rewrite <- app_assoc in Hfull.
  destruct (decide (rest ++ pad = [])) as [Hnil|Hne].
  - rewrite Hnil in *. eapply (pending_here _ _ _ []); [done|]. cbn [c_mem c_img]. rewrite Hpos', Hpos.
    rewrite app_nil_r in Hfull. cbn. lia.
  - rewrite <- (app_nil_r (rest ++ pad)). eapply (pending_behind _ _ _ gone); try done.
    + lia.
    + rewrite Z.add_simpl_r, (term_addr_is _ _ Ha). unfold cur in Hseg. by rewrite <- app_assoc in Hseg.
    + cbn [c_mem c_img]. rewrite Hpos'. lia.
Qed.

(** An append does nothing outside of its term and the metadata. *)
Lemma append_only_outside m m' tc off app :
  pub_ok m pub base tc off -> active_app pub tc = Some app -> append_only m m' app ->
  forall i, ~ (base <= i < base + 448) ->
    ~ (bufferPtr (termBuffer app) <= i < bufferPtr (termBuffer app) + T) -> m' !! i = m !! i.
Proof using Type.
  intros Hp Ha Ho i H1 H2. destruct (active_part _ _ _ _ _ Hp app Ha) as [_ Ht Hl _].
  pose proof (part_index tc). apply Ho; [by rewrite Hl|]. rewrite Ht. unfold tail_addr. lia.
Qed.

(** The publication's side of what is pending: appends extend it, and when the image is in the
    publication's term it is the end of that term. *)
Lemma pending_view c tc app fs :
  img_ok (c_mem c) (c_img c) -> same_log pub base (c_img c) session -> pending c tc app fs ->
  exists cur, term_holds (c_mem c) pub base tc app cur /\
    (forall m' new, term_holds m' pub base tc app (cur ++ new) -> append_only (c_mem c) m' app ->
       pending (mkConfig m' (c_img c) (c_asm c)) tc app (fs ++ new)) /\
    (tc * T <= pos c -> exists gone, cur = gone ++ fs /\ pos c = tc * T + seg_space gone).
Proof using Type.
  intros Himg Hlog [gone rest Hth Hpos|gone rest cur Htc Hseg Hfull Hne Hpos Hth];
    pose proof Hth as [Hp Ha _ _ _].
  - exists (gone ++ rest). split_and!; [done| |by exists gone].
    intros m' new Hth' Ho. eapply pending_here; [by rewrite app_assoc|]. rewrite <- Hpos.
    eapply position_same; [done|done|exact Ha|by eapply append_only_outside].
  - exists cur. split_and!; [done| |].
    + intros m' new Hth' Ho. pose proof (append_only_outside _ _ _ _ _ Hp Ha Ho) as Hout.
      destruct (part_exists (tc - 1) _ _ _ Hp) as [app' Ha']. rewrite (term_addr_is _ _ Ha') in Hseg.
      destruct (partitions_distinct (tc - 1) ltac:(lia)) as (Hne' & _ & _). rewrite Z.sub_add in Hne'.
      pose proof (term_addr_apart _ _ _ _ _ Hlog Ha' Ha Hne') as Hd.
      destruct (po_parts _ _ _ _ _ Hp ((tc - 1) mod 3) (part_index _)) as (app'' & Ha'' & [_ _ _ Hd']).
      unfold active_app in Ha'. rewrite Ha' in Ha''. injection Ha'' as <-. unfold disjoint in *.
      rewrite <- app_assoc. eapply (pending_behind _ _ _ gone); try done.
      * rewrite (term_addr_is _ _ Ha'). eapply log_seg_ext; [|exact Hseg]. rewrite Hfull.
        intros i Hi. apply Hout; lia.
      * rewrite <- Hpos. eapply position_same; [done|done|exact Ha|done].
    + intros Hle. exfalso. rewrite seg_space_app in Hfull. pose proof (seg_space_some rest Hne). lia.
Qed.

(** Every offer returns and keeps the invariant: a positive answer has added its message, any
    other answer is negative and has added nothing. *)
Lemma offer_step c sent app data offer :
  driver_ok c -> queue_inv c sent -> active_app pub (term_count c) = Some app ->
  offer_of (c_mem c) app data offer ->
  exists r m', offer (c_mem c) = Ret r m' /\ r <> 0 /\
    queue_inv (mkConfig m' (c_img c) (c_asm c)) (if 0 <? r then sent ++ [data] else sent).
Proof using Type.
  intros Hdr [Himg Hlog (tc & app0 & fs & bm & Hpend & Hasm)] Happ Hof.
  destruct (pending_view c tc app0 fs Himg Hlog Hpend) as (cur & Hth & Hgrow & Hin).
  pose proof Hth as [Hp Ha _ _ Hf]. pose proof (po_count _ _ _ _ _ Hp).
  rewrite (term_count_is _ _ _ _ _ Hp) in Happ. rewrite Happ in Ha. injection Ha as <-.
  assert (Htc : tc < 2147483647) by (rewrite <- (term_count_is _ _ _ _ _ Hp); apply Hdr).
  destruct (offer_of_does _ _ _ _ _ _ Hp Happ Htc Hf Hof) as [Hdoes Hz].
  pose proof (term_length_range _ _ _ _ _ Hp) as [? _]. destruct (po_payload _ _ _ _ _ Hp) as [? _].
  pose proof (seg_space_nonneg cur). unfold offer_does in Hdoes.
  set (new := msg_frames pub app (active_term pub tc) data) in *.
  destruct (decide (limit_val _ _ <= _)) as [Hl|Hl]; [|destruct (decide (_ <= T)) as [Hfit|Hfull]].
  - eexists _, _. split; [exact Hdoes|]. pose proof (reject_status_neg pub base (c_mem c) (tc * T + seg_space cur) (zlen data)).
    split; [lia|]. rewrite (proj2 (Z.ltb_ge _ _)) by lia. destruct c.
    constructor; [done|done|]. by exists tc, app, fs, bm.
  - destruct Hdoes as (m' & Hrun & Hp' & Hap). eexists _, m'. split; [exact Hrun|].
    destruct (msg_space_twice (c_mem c) pub base tc (seg_space cur) Hp app data Hz) as [Hnew _]. fold new in Hnew.
    assert (0 <= tc * T) by nia. split; [lia|]. rewrite (proj2 (Z.ltb_lt _ _)) by lia.
    destruct (appended_extends _ _ _ _ _ _ Hth Htc m' new Hp' Hap Hfit) as (Hth' & Ho & Hk).
    constructor; [by eapply img_ok_keeps|done|].
    destruct (message_delivered app (active_term pub tc) data bm sent) as [bm' Hmsg];
      [lia|dlia|by eapply same_log_session|]. fold new in Hmsg.
    exists tc, app, (fs ++ new), bm'. split; [by apply Hgrow|].
    cbn [c_asm]. rewrite data_only_app, asm_run_app. rewrite Hasm. exact Hmsg.
  - destruct Hdoes as (m' & Hrun & Hp' & Hend & Ho). eexists _, m'. split; [exact Hrun|]. split; [done|].
    change (0 <? AdminAction) with false. cbv iota.
    assert (Hbeh : tc * T <= pos c) by (eapply (end_not_behind c tc app data); [done|exact Hp|done|lia|fold new; lia]).
    destruct (Hin Hbeh) as (gone & -> & Hpos).
    destruct Hdr as [_ Hclean _]. rewrite (term_count_is _ _ _ _ _ Hp) in Hclean.
    destruct (end_of_term c tc app gone fs m' _ Himg Hlog Hth Hpos (Hclean Hbeh) Hp' Hend Ho) as [app' Hpend'].
    constructor; [eapply img_ok_keeps; [exact (rotated_keeps _ _ _ _ _ _ _ Hp Happ Hp' Ho)|done]|done|].
    eexists (tc + 1), app', _, bm. split; [exact Hpend'|].
    by rewrite data_only_app, end_frames_padding, app_nil_r.
Qed.

(** ** Runs keep the invariant *)

(** Both ends at the same position, and nothing delivered yet. *)
Record queue_start (c : config) : Prop := {
  qs_img : img_ok (c_mem c) (c_img c);
  qs_log : same_log pub base (c_img c) session;
  qs_term : exists tc app fs, term_holds (c_mem c) pub base tc app fs /\ pos c = tc * T + seg_space fs;
  qs_none : (c_asm c).2 = [] }.

Lemma queue_start_inv c : queue_start c -> queue_inv c [].
Proof using Type.
  intros [Himg Hlog (tc & app & fs & Hth & Hpos) Hnone]. constructor; [done|done|].
  exists tc, app, [], (c_asm c).1. split.
  - eapply (pending_here _ _ _ fs); [by rewrite app_nil_r|done].
  - destruct (c_asm c) as [bm u]. cbn in *. by subst.
Qed.

(** The answers of offers are never zero. *)
Definition answered (e : event) : Prop := match e with Offered _ r => r <> 0 | _ => True end.

Lemma queue_step_inv c e c' sent :
  queue_step c e c' -> queue_inv c sent -> queue_inv c' (sent ++ accepted_of e) /\ answered e.
Proof using Type.
  intros [app data offer r m' Hdr Ha Hof Hrun|fragmentLimit n img' m' s' Hdr Hrun|m' Hel] Hinv; cbn [accepted_of answered].
  - destruct (offer_step c sent app data offer Hdr Hinv Ha Hof) as (r' & m1 & Hrun' & Hr & Hinv').
    rewrite Hrun in Hrun'. injection Hrun' as <- <-. split; [|done]. destruct (0 <? r); [done|by rewrite app_nil_r].
  - destruct (poll_step c sent fragmentLimit Hdr Hinv) as (n1 & img1 & m1 & s1 & Hrun' & Hinv' & _).
    rewrite Hrun in Hrun'. injection Hrun' as <- <- <- <-. by rewrite app_nil_r.
  - split; [|done]. rewrite app_nil_r. by apply elsewhere_keeps.
Qed.

Lemma queue_run_inv c0 es c :
  queue_start c0 -> queue_run c0 es c -> queue_inv c (accepted es) /\ Forall answered es.
Proof using Type.
  intros Hs. induction 1 as [|es c1 e c2 _ [IH1 IH2] Hstep]; [split; [by apply queue_start_inv|done]|].
  destruct (queue_step_inv _ _ _ _ Hstep IH1) as [H1 H2]. rewrite accepted_snoc. split; [done|].
  apply Forall_app. by split; [|constructor].
Qed.
End Runs.

(** ** What a log promises *)

(** C1. A log is a queue. From a moment at which the image has read everything, and whatever
    offers (of one buffer or of two), polls (with any limit) and steps of the driver and of
    other programs follow, in any order and through any number of terms: what the polls have
    delivered, through a fragment assembler, are the messages whose offers were answered with a
    position, whole, once and in the order of the offers, up to some point; and when the image
    is where the publication is, they are all of them. *)
Theorem log_is_queue pub base session c0 es c :
  queue_start pub base session c0 -> queue_run pub base c0 es c ->
  let sent := map (pair session) (accepted es) in
  let delivered := rev (c_asm c).2 in
  (exists later, sent = delivered ++ later) /\
  (Publication_Position pub (c_mem c) = Ret (pos_val (c_mem c) (c_img c)) (c_mem c) -> delivered = sent).
Proof.
  intros Hs Hrun sent delivered.
  destruct (queue_run_inv pub base session c0 es c Hs Hrun) as [[_ _ (tc & app & fs & bm & Hpend & Hasm)] _].
  unfold sent, delivered. destruct (c_asm c) as [bm0 u] eqn:Hc. cbn [snd]. split.
  - destruct (asm_run_grows (data_only fs) bm0 u) as [l Hl]. rewrite Hasm in Hl. cbn [snd] in Hl.
    exists (rev l). rewrite <- rev_app_distr, <- Hl. by rewrite rev_involutive.
  - intros Hpos. rewrite (position_pending pub base c tc app fs Hpend) in Hpos. injection Hpos as Hpos.
    assert (fs = []) as ->.
    { destruct (decide (fs = [])) as [|Hne]; [done|]. pose proof (seg_space_some fs Hne). lia. }
    cbn in Hasm. injection Hasm as _ ->. by rewrite rev_involutive.
Qed.

(** C14. The log goes on: as long as the driver does its part, every offer is answered, and every
    poll returns; when the image is behind the publication and the limit of the poll is
    positive, the poll moves it. *)
Theorem log_goes_on pub base session c0 es c app data offer fragmentLimit :
  queue_start pub base session c0 -> queue_run pub base c0 es c -> driver_ok pub base c ->
  active_app pub (term_count_of (c_mem c) base) = Some app -> offer_of pub (c_mem c) app data offer ->
  0 < fragmentLimit ->
  (exists r m', offer (c_mem c) = Ret r m' /\ r <> 0) /\
  exists n img' m' s' p,
    image_Poll (c_img c) (OnFragment recorder) fragmentLimit (c_mem c, c_asm c) = Ret (n, img') (m', s') /\
    Publication_Position pub (c_mem c) = Ret p (c_mem c) /\
    (pos_val (c_mem c) (c_img c) < p -> pos_val (c_mem c) (c_img c) < pos_val m' img').
Proof.
  intros Hs Hrun Hdr Ha Hof Hl. destruct (queue_run_inv pub base session c0 es c Hs Hrun) as [Hinv _]. split.
  - destruct (offer_step pub base session c _ app data offer Hdr Hinv Ha Hof) as (r & m' & ? & ? & _). by exists r, m'.
  - destruct (poll_step pub base session c _ fragmentLimit Hdr Hinv) as (n & img' & m' & s' & Hpoll & _ & Hmove).
    destruct Hinv as [_ _ (tc & app' & fs & bm & Hpend & _)].
    pose proof (position_pending pub base c tc app' fs Hpend) as Hp.
    eexists n, img', m', s', _. split_and!; [done|exact Hp|]. intros Hlt. by eapply Hmove.
Qed.

(** ** The channel of the clients

    Clients that only offer see the publication through the answers of their offers:
    [channel_Offer] with a script of answers. *)

Definition offers (es : list event) : list (bytes * Z) :=
  concat (map (fun e => match e with Offered data r => [(data, r)] | _ => [] end) es).
Definition answer_of (r : Z) : offered := if 0 <? r then Accepted r else Refused r.

Fixpoint channel_offers (msgs : list bytes) : M channel (list Z) :=
  match msgs with
  | [] => ret []
  | msg :: msgs' =>
      let! r := channel_Offer msg in
      let! rs := channel_offers msgs' in
      ret (r :: rs)
  end.

Lemma channel_offers_replay l : forall sent,
  channel_offers l.*1 (mkChannel (map answer_of l.*2) sent) =
  Ret l.*2 (mkChannel [] (sent ++ concat (map (fun p => if 0 <? p.2 then [p.1] else []) l))).
Proof.
  induction l as [|[data r] l IH]; intros sent; cbn [fmap list_fmap map concat fst snd channel_offers].
  { by rewrite app_nil_r. }
  unfold bind at 1. unfold channel_Offer. cbn [answers delivered].
  assert (Hr : offered_value (answer_of r) = r) by (unfold answer_of; by destruct (0 <? r)).
  rewrite Hr. erewrite bind_Ret by apply IH. unfold ret, answer_of.
  destruct (0 <? r); cbn [app]; [by rewrite <- app_assoc|done].
Qed.

Lemma accepted_offers es : concat (map (fun p => if 0 <? p.2 then [p.1] else []) (offers es)) = accepted es.
Proof.
  unfold accepted, offers. induction es as [|[data r|n|] es IH]; cbn; [done| |done|done]. by rewrite IH.
Qed.

(** What the clients of a publication are proved against is what it does: the answers that the
    offers of a run get are a script whose every answer is an acceptance with a positive
    position or a refusal with a negative status, a channel with that script gives the same
    answers, and delivers what the log has accepted. *)
Theorem publication_is_channel pub base session c0 es c :
  queue_start pub base session c0 -> queue_run pub base c0 es c ->
  Forall offered_ok (map answer_of (offers es).*2) /\
  channel_offers (offers es).*1 (mkChannel (map answer_of (offers es).*2) []) =
    Ret (offers es).*2 (mkChannel [] (accepted es)).
Proof.
  intros Hs Hrun. destruct (queue_run_inv pub base session c0 es c Hs Hrun) as [_ Hans]. split.
  - clear -Hans. induction Hans as [|[data r|n|] es He _ IH]; cbn; try done.
    cbn in He. constructor; [|done]. unfold answer_of. destruct (Z.ltb_spec 0 r); cbn; lia.
  - rewrite channel_offers_replay, app_nil_l. by rewrite accepted_offers.
Qed.
