(* ===== verification/ChannelUri.v ===== *)
(** * Channel URIs

    src/aeron/channeluri.go: the parser and the printer of Aeron channel URIs,

      aeron-uri = "aeron:" media [ "?" param *( "|" param ) ]
      media     = *( "[^?:]" )       param = key "=" value
      key       = *( "[^=]" )        value = *( "[^|]" )

    optionally behind "aeron-spy:". A Go string is a sequence of bytes; [string(c)] of a
    byte [c] is its UTF-8 encoding, two bytes from 128 on. *)

From S2P Require Import Prelude.
From Stdlib Require Import Ascii.
From stdpp Require Import sorting pretty.

(** ** Strings *)

Fixpoint str_drop (n : nat) (s : string) : string :=
  match n, s with S n', String _ s' => str_drop n' s' | _, _ => s end.
Fixpoint str_take (n : nat) (s : string) : string :=
  match n, s with S n', String c s' => String c (str_take n' s') | _, _ => EmptyString end.

Fixpoint HasPrefix (s prefix : string) : bool :=
  match prefix, s with
  | EmptyString, _ => true
  | String c prefix', String c' s' => if decide (c = c') then HasPrefix s' prefix' else false
  | _, _ => false
  end.
Definition HasSuffix (s suffix : string) : bool :=
  (String.length suffix <=? String.length s)%nat &&
  bool_decide (str_drop (String.length s - String.length suffix) s = suffix).

(** [string(c)] of a byte. *)
Definition string_of_byte (c : ascii) : string :=
  let n := N_of_ascii c in
  if (n <? 128)%N then String c EmptyString
  else String (ascii_of_N (192 + n / 64)) (String (ascii_of_N (128 + n mod 64)) EmptyString).

(** ** channeluri.go *)

Record ChannelUri : Type := mkChannelUri {
  uri_prefix : string;
  uri_media : string;
  uri_params : gmap string string }.

Definition SpyQualifier : string := "aeron-spy".
Definition AeronScheme : string := "aeron".
Definition IpcMedia : string := "ipc".
Definition UdpMedia : string := "udp".
Definition MdcControlModeParamName : string := "control-mode".
Definition SessionIdParamName : string := "session-id".
Definition spyPrefix : string := SpyQualifier +:+ ":".
Definition aeronPrefix : string := AeronScheme +:+ ":".

Inductive parseState : Type := parseStateMedia | parseStateParamsKey | parseStateParamsValue.

Inductive parseError : Type := ErrPrefix | ErrColonInMedia | ErrNoMoreInput.

Definition set_media (uri : ChannelUri) (media : string) : ChannelUri :=
  mkChannelUri (uri_prefix uri) media (uri_params uri).
Definition set_param (uri : ChannelUri) (key value : string) : ChannelUri :=
  mkChannelUri (uri_prefix uri) (uri_media uri) (<[key := value]> (uri_params uri)).

Local Open Scope char_scope.

(** The loop of [ParseChannelUri] and the switch after it. The result is the URI, which is
    incomplete after an error, and the error. *)
Fixpoint parse_loop (s : string) (state : parseState) (value key : string) (uri : ChannelUri)
  : ChannelUri * option parseError :=
  match s with
  | EmptyString =>
      match state with
      | parseStateMedia => (set_media uri value, None)
      | parseStateParamsValue => (set_param uri key value, None)
      | parseStateParamsKey => (uri, Some ErrNoMoreInput)
      end
  | String c s' =>
      match state with
      | parseStateMedia =>
          if decide (c = "?") then parse_loop s' parseStateParamsKey "" key (set_media uri value)
          else if decide (c = ":") then (uri, Some ErrColonInMedia)
          else parse_loop s' parseStateMedia (value +:+ string_of_byte c) key uri
      | parseStateParamsKey =>
          if decide (c = "=") then parse_loop s' parseStateParamsValue "" value uri
          else parse_loop s' parseStateParamsKey (value +:+ string_of_byte c) key uri
      | parseStateParamsValue =>
          if decide (c = "|") then parse_loop s' parseStateParamsKey "" key (set_param uri key value)
          else parse_loop s' parseStateParamsValue (value +:+ string_of_byte c) key uri
      end
  end.

Definition ParseChannelUri (uriStr : string) : ChannelUri * option parseError :=
  let '(prefix, uriStr) :=
    if HasPrefix uriStr spyPrefix
    then (SpyQualifier, str_drop (String.length spyPrefix) uriStr) else (""%string, uriStr) in
  let uri := mkChannelUri prefix "" ∅ in
  if negb (HasPrefix uriStr aeronPrefix) then (uri, Some ErrPrefix)
  else parse_loop (str_drop (String.length aeronPrefix) uriStr) parseStateMedia "" "" uri.

Definition Scheme (uri : ChannelUri) : string := AeronScheme.
Definition IsIpc (uri : ChannelUri) : bool := bool_decide (uri_media uri = IpcMedia).
Definition IsUdp (uri : ChannelUri) : bool := bool_decide (uri_media uri = UdpMedia).
Definition SetPrefix (uri : ChannelUri) (prefix : string) : ChannelUri :=
  mkChannelUri prefix (uri_media uri) (uri_params uri).
Definition SetMedia (uri : ChannelUri) (media : string) : ChannelUri := set_media uri media.
Definition Uri_Set (uri : ChannelUri) (key value : string) : ChannelUri := set_param uri key value.
Definition Uri_Get (uri : ChannelUri) (key : string) : string := default ""%string (uri_params uri !! key).
Definition Uri_Remove (uri : ChannelUri) (key : string) : ChannelUri :=
  mkChannelUri (uri_prefix uri) (uri_media uri) (delete key (uri_params uri)).
Definition SetControlMode (uri : ChannelUri) (controlMode : string) : ChannelUri :=
  Uri_Set uri MdcControlModeParamName controlMode.

(** [strconv.Itoa] *)
Definition Itoa (z : Z) : string := pretty z.
Definition SetSessionID (uri : ChannelUri) (sessionID : Z) : ChannelUri := Uri_Set uri SessionIdParamName (Itoa sessionID).

(** [Clone] copies the parameters one by one in a new map. *)
Definition Clone (uri : ChannelUri) : ChannelUri :=
  mkChannelUri (uri_prefix uri) (uri_media uri)
    (foldl (fun params kv => <[kv.1 := kv.2]> params) ∅ (map_to_list (uri_params uri))).

Definition sortedKeys (params : gmap string string) : list string :=
  merge_sort String.le (map_to_list params).*1.

Definition Uri_String (uri : ChannelUri) : string :=
  let result :=
    if decide (uri_prefix uri = ""%string) then ""%string
    else uri_prefix uri +:+ (if HasSuffix (uri_prefix uri) ":" then ""%string else ":"%string) in
  let result := result +:+ aeronPrefix in
  let result := result +:+ uri_media uri in
  if decide (size (uri_params uri) = 0%nat) then result
  else
    let result := result +:+ "?" in
    let result := foldl (fun result k => result +:+ (k +:+ "=" +:+ Uri_Get uri k +:+ "|")) result
                    (sortedKeys (uri_params uri)) in
    str_take (String.length result - 1) result.

(** ** Lemmas on strings *)

Local Arguments String.append : simpl nomatch.

Lemma str_app_assoc (a b c : string) : (a +:+ b) +:+ c = a +:+ (b +:+ c).
Proof. induction a as [|x a IH]; [done|]. exact (f_equal (String x) IH). Qed.

Lemma str_app_nil_r (a : string) : a +:+ "" = a.
Proof. induction a as [|x a IH]; [done|]. exact (f_equal (String x) IH). Qed.

Lemma str_drop_app (a b : string) : str_drop (String.length a) (a +:+ b) = b.
Proof. by induction a. Qed.

Lemma str_take_app (a b : string) : str_take (String.length a) (a +:+ b) = a.
Proof. induction a as [|x a IH]; [by destruct b|]. exact (f_equal (String x) IH). Qed.

Lemma HasPrefix_app (a b : string) : HasPrefix (a +:+ b) a = true.
Proof. induction a as [|x a IH]; [by destruct b|]. cbn [HasPrefix String.append]. by rewrite decide_True. Qed.

(** The text of a component: ASCII, without the characters that end it. *)
Fixpoint plain (stop : list ascii) (s : string) : bool :=
  match s with
  | EmptyString => true
  | String c s' => (N_of_ascii c <? 128)%N && bool_decide (c ∉ stop) && plain stop s'
  end.

Lemma plain_cons stop c s :
  plain stop (String c s) = true -> string_of_byte c = String c "" /\ (c ∉ stop) /\ plain stop s = true.
Proof.
  cbn. rewrite !andb_true_iff. intros [[H1 H2] H3]. unfold string_of_byte. rewrite H1.
  apply bool_decide_eq_true in H2. done.
Qed.

(** ** Parsing what is printed *)

Lemma parse_media w rest v key uri :
  plain ["?"; ":"] w = true ->
  parse_loop (w +:+ rest) parseStateMedia v key uri = parse_loop rest parseStateMedia (v +:+ w) key uri.
Proof.
  revert v. induction w as [|c w IH]; intros v Hw; [by rewrite str_app_nil_r|].
  apply plain_cons in Hw as (Hc & Hs & Hw). cbn [parse_loop String.append]. rewrite !decide_False by set_solver.
  rewrite IH by done. rewrite Hc, str_app_assoc. done.
Qed.

Lemma parse_key w rest v key uri :
  plain ["="] w = true ->
  parse_loop (w +:+ rest) parseStateParamsKey v key uri = parse_loop rest parseStateParamsKey (v +:+ w) key uri.
Proof.
  revert v. induction w as [|c w IH]; intros v Hw; [by rewrite str_app_nil_r|].
  apply plain_cons in Hw as (Hc & Hs & Hw). cbn [parse_loop String.append]. rewrite !decide_False by set_solver.
  rewrite IH by done. rewrite Hc, str_app_assoc. done.
Qed.

Lemma parse_value w rest v key uri :
  plain ["|"] w = true ->
  parse_loop (w +:+ rest) parseStateParamsValue v key uri = parse_loop rest parseStateParamsValue (v +:+ w) key uri.
Proof.
  revert v. induction w as [|c w IH]; intros v Hw; [by rewrite str_app_nil_r|].
  apply plain_cons in Hw as (Hc & Hs & Hw). cbn [parse_loop String.append]. rewrite !decide_False by set_solver.
  rewrite IH by done. rewrite Hc, str_app_assoc. done.
Qed.

(** The text of parameters: "k=v|k=v". *)
Fixpoint print_params (kvs : list (string * string)) : string :=
  match kvs with
  | [] => ""
  | [(k, v)] => k +:+ "=" +:+ v
  | (k, v) :: kvs' => k +:+ "=" +:+ v +:+ "|" +:+ print_params kvs'
  end.

Definition param_ok (kv : string * string) : Prop := plain ["="] kv.1 = true /\ plain ["|"] kv.2 = true.

Definition set_params (uri : ChannelUri) (kvs : list (string * string)) : ChannelUri :=
  foldl (fun uri kv => set_param uri kv.1 kv.2) uri kvs.

Lemma parse_params kvs key uri :
  kvs <> [] -> Forall param_ok kvs ->
  parse_loop (print_params kvs) parseStateParamsKey "" key uri = (set_params uri kvs, None).
Proof.
  revert key uri. induction kvs as [|[k v] kvs IH]; intros key uri Hne Hok; [done|].
  apply Forall_cons in Hok as [[Hk Hv] Hok]. cbn [fst snd] in *.
  destruct kvs as [|kv kvs].
  - cbn [print_params]. rewrite parse_key by done. cbn [parse_loop String.append]. rewrite decide_True by done.
    rewrite <- (str_app_nil_r v) at 1. rewrite parse_value by done. done.
  - change (print_params ((k, v) :: kv :: kvs)) with (k +:+ "=" +:+ v +:+ "|" +:+ print_params (kv :: kvs)).
    rewrite parse_key by done. cbn [parse_loop String.append]. rewrite decide_True by done.
    rewrite parse_value by done. cbn [parse_loop String.append]. rewrite decide_True by done. by rewrite IH.
Qed.

(** What a URI is written as, with its parameters in a given order. *)
Definition uri_text (spy : bool) (media : string) (kvs : list (string * string)) : string :=
  (if spy then spyPrefix else "") +:+ aeronPrefix +:+ media +:+
  (if decide (kvs = []) then "" else "?" +:+ print_params kvs).

(** Parsing a text gives its media and its parameters; of several with the same key the
    last one counts. *)
Lemma parse_text spy media kvs :
  plain ["?"; ":"] media = true -> Forall param_ok kvs ->
  ParseChannelUri (uri_text spy media kvs) =
  (set_params (mkChannelUri (if spy then SpyQualifier else "") media ∅) kvs, None).
Proof.
  intros Hm Hok. unfold ParseChannelUri, uri_text.
  assert (Hrest : forall prefix, parse_loop (media +:+ (if decide (kvs = []) then "" else "?" +:+ print_params kvs))
                    parseStateMedia "" "" (mkChannelUri prefix "" ∅)
                  = (set_params (mkChannelUri prefix media ∅) kvs, None)).
  { intros prefix. rewrite parse_media by done. cbn [String.append]. case_decide as Hkv.
    - by subst kvs.
    - cbn [String.append]. cbn [parse_loop]. rewrite decide_True by done. by rewrite parse_params. }
  destruct spy.
  - rewrite HasPrefix_app, str_drop_app, HasPrefix_app, str_drop_app. apply Hrest.
  - set (rest := media +:+ _). change ("" +:+ aeronPrefix +:+ rest) with (aeronPrefix +:+ rest).
    change (HasPrefix (aeronPrefix +:+ rest) spyPrefix) with false. cbv iota beta.
    rewrite HasPrefix_app, str_drop_app. apply Hrest.
Qed.

(** ** Printing *)

Lemma foldl_app_text (f : string -> string) keys acc :
  foldl (fun r k => r +:+ f k) acc keys = acc +:+ foldr (fun k r => f k +:+ r) ""%string keys.
Proof.
  revert acc. induction keys as [|k keys IH]; intros acc; cbn; [by rewrite str_app_nil_r|].
  by rewrite IH, str_app_assoc.
Qed.

Lemma params_text (g : string -> string) keys :
  keys <> [] ->
  foldr (fun k r => (k +:+ "=" +:+ g k +:+ "|") +:+ r) ""%string keys
  = print_params (map (fun k => (k, g k)) keys) +:+ "|".
Proof.
  induction keys as [|k keys IH]; intros Hne; [done|]. destruct keys as [|k' keys].
  - cbn. rewrite str_app_nil_r. by rewrite !str_app_assoc.
  - cbn [foldr]. cbn [foldr] in IH. rewrite IH by done. cbn [map].
    change (print_params ((k, g k) :: (k', g k') :: map (fun k => (k, g k)) keys))
      with (k +:+ "=" +:+ g k +:+ "|" +:+ print_params ((k', g k') :: map (fun k => (k, g k)) keys)).
    by rewrite !str_app_assoc.
Qed.

Lemma str_take_last (a : string) c :
  str_take (String.length (a +:+ String c "") - 1) (a +:+ String c "") = a.
Proof.
  rewrite String.app_length. cbn. rewrite Nat.add_sub. apply str_take_app.
Qed.

(** The parameters in the order in which they are printed. *)
Definition sorted_params (uri : ChannelUri) : list (string * string) :=
  map (fun k => (k, Uri_Get uri k)) (sortedKeys (uri_params uri)).

Lemma sortedKeys_perm params : sortedKeys params ≡ₚ (map_to_list params).*1.
Proof. apply merge_sort_Permutation. Qed.

Lemma Uri_String_text spy uri :
  uri_prefix uri = (if spy : bool then SpyQualifier else "")%string ->
  Uri_String uri = uri_text spy (uri_media uri) (sorted_params uri).
Proof.
  intros Hp. unfold Uri_String, uri_text. rewrite Hp.
  assert (Hpre : (if decide ((if spy then SpyQualifier else "")%string = ""%string) then ""%string
    else (if spy then SpyQualifier else "")%string +:+
         (if HasSuffix (if spy then SpyQualifier else "")%string ":" then ""%string else ":"%string))
    = (if spy then spyPrefix else "")%string) by (by destruct spy).
  rewrite Hpre. set (pre := (if spy then spyPrefix else "")%string). clearbody pre. clear Hpre.
  unfold sorted_params. destruct (decide (size (uri_params uri) = 0%nat)) as [Hz|Hz].
  - assert (Hk : sortedKeys (uri_params uri) = []).
    { apply Permutation_nil_r. rewrite sortedKeys_perm.
      apply map_size_empty_inv in Hz. by rewrite Hz, map_to_list_empty. }
    rewrite Hk. cbn. by rewrite str_app_nil_r, str_app_assoc.
  - assert (Hk : sortedKeys (uri_params uri) <> []).
    { intros E. apply Hz. rewrite <- length_map_to_list, <- (length_fmap fst).
      by rewrite <- sortedKeys_perm, E. }
    rewrite (foldl_app_text (fun k => k +:+ "=" +:+ Uri_Get uri k +:+ "|")).
    rewrite params_text by done. rewrite <- str_app_assoc, str_take_last.
    rewrite decide_False by (intros E; apply Hk; by apply map_eq_nil in E). by rewrite !str_app_assoc.
Qed.

(** ** Round trip *)

Lemma set_params_eq uri kvs :
  set_params uri kvs =
  mkChannelUri (uri_prefix uri) (uri_media uri)
    (foldl (fun params kv => <[kv.1 := kv.2]> params) (uri_params uri) kvs).
Proof.
  revert uri. induction kvs as [|[k v] kvs IH]; intros uri; [by destruct uri|].
  change (set_params uri ((k, v) :: kvs)) with (set_params (set_param uri k v) kvs). by rewrite IH.
Qed.

(** Inserting bindings with distinct keys one by one. *)
Lemma foldl_insert_lookup (kvs : list (string * string)) (params : gmap string string) k :
  NoDup kvs.*1 ->
  foldl (fun params kv => <[kv.1 := kv.2]> params) params kvs !! k =
  match (list_to_map kvs : gmap string string) !! k with Some v => Some v | None => params !! k end.
Proof.
  revert params. induction kvs as [|[k0 v0] kvs IH]; intros params Hnd; cbn; [done|].
  apply NoDup_cons in Hnd as [Hni Hnd]. rewrite IH by done.
  destruct (decide (k = k0)) as [->|Hne].
  - rewrite lookup_insert_eq. rewrite not_elem_of_list_to_map_1 by done. by rewrite lookup_insert_eq.
  - by rewrite !lookup_insert_ne by done.
Qed.

Lemma sorted_params_keys uri : (sorted_params uri).*1 = sortedKeys (uri_params uri).
Proof. unfold sorted_params. rewrite <- list_fmap_compose. apply list_fmap_id. Qed.

Lemma sorted_params_map uri :
  foldl (fun params kv => <[kv.1 := kv.2]> params) ∅ (sorted_params uri) = uri_params uri.
Proof.
  assert (Hnd : NoDup (sorted_params uri).*1).
  { rewrite sorted_params_keys, sortedKeys_perm. apply NoDup_fst_map_to_list. }
  apply map_eq. intros k. rewrite foldl_insert_lookup by done. rewrite lookup_empty.
  destruct (uri_params uri !! k) as [v|] eqn:Hk.
  - assert (list_to_map (sorted_params uri) !! k = Some v) as ->; [|done].
    apply elem_of_list_to_map; [done|]. unfold sorted_params. apply list_elem_of_fmap. exists k.
    split; [unfold Uri_Get; by rewrite Hk|]. rewrite sortedKeys_perm.
    apply list_elem_of_fmap. exists (k, v). split; [done|]. by apply elem_of_map_to_list.
  - rewrite (not_elem_of_list_to_map_1 (sorted_params uri)); [done|].
    rewrite sorted_params_keys, sortedKeys_perm. intros Hin.
    apply list_elem_of_fmap in Hin as ([k' v] & -> & Hin). apply elem_of_map_to_list in Hin.
    cbn in Hk. congruence.
Qed.

(** A URI the grammar can write. *)
Record uri_ok (uri : ChannelUri) : Prop := {
  uo_prefix : uri_prefix uri = ""%string \/ uri_prefix uri = SpyQualifier;
  uo_media : plain ["?"; ":"] (uri_media uri) = true;
  uo_params : map_Forall (fun k v => param_ok (k, v)) (uri_params uri) }.

Lemma sorted_params_ok uri : uri_ok uri -> Forall param_ok (sorted_params uri).
Proof.
  intros [_ _ Hp]. apply Forall_forall. intros [k v] Hin. unfold sorted_params in Hin.
  apply list_elem_of_fmap in Hin as (k' & [= -> ->] & Hin). rewrite sortedKeys_perm in Hin.
  apply list_elem_of_fmap in Hin as ([k v] & -> & Hin). apply elem_of_map_to_list in Hin.
  cbn. unfold Uri_Get. rewrite Hin. by apply Hp.
Qed.

(** C40. Parsing what [String] prints gives the URI back, when the URI is one that the grammar can
    write: the prefix is empty or that of a spy, and the media, the keys and the values are ASCII
    and hold none of the separators of their place. Others do not come back, see
    [uri_non_ascii_reencoded]. *)
Theorem uri_parse_print uri :
  uri_ok uri -> ParseChannelUri (Uri_String uri) = (uri, None).
Proof.
  intros Hok. pose proof (sorted_params_ok uri Hok) as Hps. destruct Hok as [Hp Hm _].
  assert (exists spy : bool, uri_prefix uri = (if spy then SpyQualifier else "")%string) as [spy Hspy].
  { destruct Hp as [->| ->]; [by exists false|by exists true]. }
  rewrite (Uri_String_text spy) by done. rewrite parse_text by done.
  rewrite set_params_eq. cbn [uri_prefix uri_media uri_params]. rewrite sorted_params_map, <- Hspy.
  by destruct uri.
Qed.

Lemma uri_parse_print_witness :
  ParseChannelUri (Uri_String (mkChannelUri SpyQualifier "udp"
    {["endpoint"%string := "localhost:40456"%string; "mtu"%string := "1408"%string]}))
  = (mkChannelUri SpyQualifier "udp"
      {["endpoint"%string := "localhost:40456"%string; "mtu"%string := "1408"%string]}, None).
Proof.
  apply uri_parse_print. constructor; [by right|done|].
  apply map_Forall_insert_2; [done|]. apply map_Forall_singleton. done.
Defined.

(** Of parameters with the same key the last one written takes precedence. *)
Theorem uri_last_value_wins media kvs k v :
  plain ["?"; ":"] media = true -> Forall param_ok kvs -> param_ok (k, v) ->
  Uri_Get (ParseChannelUri (uri_text false media (kvs ++ [(k, v)]))).1 k = v.
Proof.
  intros Hm Hok Hkv. rewrite parse_text by (done || by apply Forall_app_2; [|constructor]).
  cbn [fst]. rewrite set_params_eq. unfold Uri_Get. cbn [uri_params].
  rewrite foldl_app. cbn. by rewrite lookup_insert_eq.
Qed.

Lemma uri_last_value_wins_witness :
  Uri_Get (ParseChannelUri "aeron:udp?mtu=1|ttl=2|mtu=3").1 "mtu" = "3"%string.
Proof.
  apply (uri_last_value_wins "udp" [("mtu"%string, "1"%string); ("ttl"%string, "2"%string)] "mtu" "3");
    [done|by repeat constructor|done].
Defined.

(** A key without a value, a colon in the media and a missing scheme are errors. *)
Theorem uri_errors :
  (forall s, HasPrefix s spyPrefix = false -> HasPrefix s aeronPrefix = false ->
     (ParseChannelUri s).2 = Some ErrPrefix) /\
  (forall media rest, plain ["?"; ":"] media = true ->
     (ParseChannelUri (aeronPrefix +:+ media +:+ String ":" rest)).2 = Some ErrColonInMedia) /\
  (forall media key, plain ["?"; ":"] media = true -> plain ["="] key = true ->
     (ParseChannelUri (aeronPrefix +:+ media +:+ String "?" key)).2 = Some ErrNoMoreInput).
Proof.
  assert (Hn : forall s, HasPrefix (aeronPrefix +:+ s) spyPrefix = false) by done.
  unfold ParseChannelUri. split_and!.
  - intros s -> ->. done.
  - intros media rest Hm. rewrite Hn, HasPrefix_app, str_drop_app, parse_media by done. done.
  - intros media key Hm Hk. rewrite Hn, HasPrefix_app, str_drop_app, parse_media by done.
    cbn [parse_loop negb]. rewrite decide_True by done.
    rewrite <- (str_app_nil_r key). by rewrite parse_key.
Qed.

(** Bytes outside of ASCII do not survive parsing: each is encoded again. The two bytes of
    the UTF-8 text of an accented letter become four. *)
Theorem uri_non_ascii_reencoded :
  let e_acute := String (ascii_of_N 195) (String (ascii_of_N 169) "") in
  let parsed := (ParseChannelUri ("aeron:ipc?alias=" +:+ e_acute)).1 in
  Uri_Get parsed "alias" <> e_acute /\ String.length (Uri_Get parsed "alias") = 4%nat.
Proof. vm_compute. split; [congruence|done]. Qed.

(** [Clone] copies every parameter. *)
Theorem Clone_eq uri : Clone uri = uri.
Proof.
  unfold Clone. destruct uri as [p m params]. cbn. f_equal. apply map_eq. intros k.
  rewrite foldl_insert_lookup by apply NoDup_fst_map_to_list. rewrite list_to_map_to_list, lookup_empty.
  by destruct (params !! k).
Qed.
