(* ===== verification/Subscription.v ===== *)
(** * Subscriptions

    src/aeron/subscription.go, imagelist.go and the interface of image.go: a subscription
    polls its images in turn, beginning with another one each time. Images are reached
    through an interface; the subscription's theorems rely on what the interface promises,
    and [image] of [Image] keeps the promise.

    The images are kept as a list of the objects; an operation on one of them updates it
    in place. The counters that name the channel's endpoints are those of [Counters]. *)

From S2P Require Import Prelude Memory Bits Flyweight LogBuffer TermSpec Appender Reader.
From S2P Require Import FragmentAssembler Publication Image ChannelUri.
From S2P Require Import Counters.
From Stdlib Require Import Ascii.

Local Open Scope m_scope.

(** ** image.go: the interface *)

Class ImageOps (I : Type) : Type := {
  Img_IsClosed : I -> bool;
  Img_Poll : forall {U}, I -> FragmentHandler U -> Z -> M (mem * U) (Z * I);
  Img_ControlledPoll : forall {U}, I -> ControlledFragmentHandler U -> Z -> M (mem * U) (Z * I);
  Img_SessionID : I -> Z;
  Img_CorrelationID : I -> Z }.

(** What the subscription relies on: a poll consumes at most [fragmentLimit] fragments,
    and does not change the identity of the image. *)
Class ImageLaws (I : Type) `{ImageOps I} : Prop := {
  poll_bounded : forall U (i : I) (handler : FragmentHandler U) limit s n i' s',
    0 < limit -> Img_Poll i handler limit s = Ret (n, i') s' ->
    0 <= n <= limit /\ Img_SessionID i' = Img_SessionID i /\ Img_CorrelationID i' = Img_CorrelationID i;
  controlled_poll_bounded : forall U (i : I) (handler : ControlledFragmentHandler U) limit s n i' s',
    0 < limit -> Img_ControlledPoll i handler limit s = Ret (n, i') s' ->
    0 <= n <= limit /\ Img_SessionID i' = Img_SessionID i /\ Img_CorrelationID i' = Img_CorrelationID i }.

#[export] Instance image_ops : ImageOps image := {
  Img_IsClosed := img_isClosed;
  Img_Poll := fun U => image_Poll;
  Img_ControlledPoll := fun U => image_ControlledPoll;
  Img_SessionID := img_sessionID;
  Img_CorrelationID := img_correlationID }.

(** ** subscription.go *)

Definition ChannelStatusNoIdAllocated : Z := -1.
Definition ChannelStatusErrored : Z := -1.
Definition ChannelStatusInitializing : Z := 0.
Definition ChannelStatusActive : Z := 1.
Definition ChannelStatusClosing : Z := 2.

Definition ChannelStatusString (channelStatus : Z) : string :=
  if channelStatus =? ChannelStatusErrored then "ChannelStatusErrored"
  else if channelStatus =? ChannelStatusInitializing then "ChannelStatusInitializing"
  else if channelStatus =? ChannelStatusActive then "ChannelStatusActive"
  else if channelStatus =? ChannelStatusClosing then "ChannelStatusClosing"
  else "Unknown".
Definition LocalSocketAddressStatusCounterTypeId : Z := 14.
Definition ChannelStatusIdOffset : Z := 0.
Definition LocalSocketAddressLengthOffset : Z := ChannelStatusIdOffset + 4.
Definition LocalSocketAddressStringOffset : Z := LocalSocketAddressLengthOffset + 4.

Record Subscription (I : Type) : Type := mkSubscription {
  sub_channel : string;
  sub_roundRobinIndex : Z;
  sub_registrationID : Z;
  sub_streamID : Z;
  sub_channelStatusID : Z;
  sub_images : list I;
  sub_isClosed : bool }.
Arguments mkSubscription {I}.
Arguments sub_channel {I}.
Arguments sub_roundRobinIndex {I}.
Arguments sub_registrationID {I}.
Arguments sub_streamID {I}.
Arguments sub_channelStatusID {I}.
Arguments sub_images {I}.
Arguments sub_isClosed {I}.

Section Sub.
Context {I : Type} `{ImageOps I}.

Definition NewSubscription (channel : string) (registrationID streamID channelStatusID : Z)
  : Subscription I :=
  mkSubscription channel 0 registrationID streamID channelStatusID [] false.

Definition set_poll (sub : Subscription I) (roundRobinIndex : Z) (images : list I) : Subscription I :=
  mkSubscription (sub_channel sub) roundRobinIndex (sub_registrationID sub) (sub_streamID sub)
    (sub_channelStatusID sub) images (sub_isClosed sub).

(** One of the two loops of a poll: the images with the indices [ixs], in order, while
    fragments may be read. [poll] is the image's [Poll] or [ControlledPoll]. *)
Fixpoint poll_images {U} (poll : I -> Z -> M (mem * U) (Z * I)) (fragmentLimit : Z)
  (ixs : list nat) (images : list I) (fragmentsRead : Z) : M (mem * U) (Z * list I) :=
  match ixs with
  | [] => ret (fragmentsRead, images)
  | i :: ixs' =>
      if fragmentsRead <? fragmentLimit then
        let! img := index_or_panic images (Z.of_nat i) in
        let! (newFrags, img) := poll img (fragmentLimit - fragmentsRead) in
        poll_images poll fragmentLimit ixs' (<[i := img]> images) (fragmentsRead + newFrags)
      else ret (fragmentsRead, images)
  end.

(** Where a poll starts, and the index kept for the next one. *)
Definition round_robin (roundRobinIndex : Z) (length : nat) : nat * Z :=
  let startingIndex := roundRobinIndex in
  if startingIndex >=? Z.of_nat length then (0%nat, 0)
  else (Z.to_nat startingIndex, roundRobinIndex + 1).

Definition poll_with {U} (poll : I -> Z -> M (mem * U) (Z * I)) (sub : Subscription I)
  (fragmentLimit : Z) : M (mem * U) (Z * Subscription I) :=
  let images := sub_images sub in
  let len := length images in
  if (0 <? len)%nat then
    let '(start, next) := round_robin (sub_roundRobinIndex sub) len in
    let! (fragmentsRead, images) := poll_images poll fragmentLimit (seq start (len - start)) images 0 in
    let! (fragmentsRead, images) := poll_images poll fragmentLimit (seq 0 start) images fragmentsRead in
    ret (fragmentsRead, set_poll sub next images)
  else ret (0, sub).

Definition Subscription_Poll {U} (sub : Subscription I) (handler : FragmentHandler U)
  (fragmentLimit : Z) : M (mem * U) (Z * Subscription I) :=
  poll_with (fun img limit => Img_Poll img handler limit) sub fragmentLimit.
Definition Subscription_ControlledPoll {U} (sub : Subscription I) (handler : ControlledFragmentHandler U)
  (fragmentLimit : Z) : M (mem * U) (Z * Subscription I) :=
  poll_with (fun img limit => Img_ControlledPoll img handler limit) sub fragmentLimit.

Definition hasImage (sub : Subscription I) (sessionID : Z) : bool :=
  existsb (fun img => Img_SessionID img =? sessionID) (sub_images sub).
Definition ImageBySessionID (sub : Subscription I) (sessionID : Z) : option I :=
  List.find (fun img => Img_SessionID img =? sessionID) (sub_images sub).
Definition Subscription_IsConnected (sub : Subscription I) : bool :=
  existsb (fun img => negb (Img_IsClosed img)) (sub_images sub).
Definition HasImages (sub : Subscription I) : bool := (0 <? length (sub_images sub))%nat.
Definition ImageCount (sub : Subscription I) : nat := length (sub_images sub).

Definition set_images (sub : Subscription I) (images : list I) : Subscription I :=
  set_poll sub (sub_roundRobinIndex sub) images.

(** [addImage] returns the images there were before. *)
Definition addImage (sub : Subscription I) (img : I) : list I * Subscription I :=
  (sub_images sub, set_images sub (sub_images sub ++ [img])).

(** The loop of [removeImage] from index [ix] on: the first image with the id is
    overwritten by the last one, and the list shortened. *)
Fixpoint remove_loop (rest : list I) (ix : nat) (images : list I) (correlationID : Z)
  : option (I * list I) :=
  match rest with
  | [] => None
  | img :: rest' =>
      if Img_CorrelationID img =? correlationID then
        match last images with
        | Some l => Some (img, take (length images - 1) (<[ix := l]> images))
        | None => None
        end
      else remove_loop rest' (S ix) images correlationID
  end.

Definition removeImage (sub : Subscription I) (correlationID : Z) : option I * Subscription I :=
  match remove_loop (sub_images sub) 0 (sub_images sub) correlationID with
  | Some (img, images) => (Some img, set_images sub images)
  | None => (None, sub)
  end.

(** [Close] empties the list; the images go to the conductor, which lingers them. *)
Definition Subscription_Close (sub : Subscription I) : option (Z * list I) * Subscription I :=
  if sub_isClosed sub then (None, sub)
  else (Some (sub_registrationID sub, sub_images sub),
        mkSubscription (sub_channel sub) (sub_roundRobinIndex sub) (sub_registrationID sub)
          (sub_streamID sub) (sub_channelStatusID sub) [] true).

Definition IsConnectedTo (sub : Subscription I) (pub : Publication) : bool :=
  bool_decide (sub_channel sub = pub_channel pub) && (sub_streamID sub =? pub_streamID pub) &&
  existsb (fun img => Img_SessionID img =? pub_sessionID pub) (sub_images sub).

(** ** Endpoints *)

(** The conductor's counters are those of [reader]. *)
Context (reader : Reader).

Definition ChannelStatus (sub : Subscription I) : M mem Z :=
  if sub_isClosed sub then ret ChannelStatusNoIdAllocated
  else if sub_channelStatusID sub =? -1 then ret ChannelStatusActive
  else GetCounterValue reader (sub_channelStatusID sub).

(** A Go string made of bytes. *)
Definition string_of_bytes (bs : list Init.Byte.byte) : string :=
  foldr (fun b s => String (ascii_of_N (Z.to_N (byte.unsigned b))) s) EmptyString bs.

(** The test and the read shared by the two callbacks of [ScanForType]: the address that
    a counter names, if it is one of this channel and active. *)
Definition bound_address (sub : Subscription I) (counterId : Z) (keyBuf : Buffer)
  : M mem (option string) :=
  let! channelStatusId := GetInt32 keyBuf ChannelStatusIdOffset in
  let! length := GetInt32 keyBuf LocalSocketAddressLengthOffset in
  if (channelStatusId =? sub_channelStatusID sub) && (length >? 0) then
    let! value := GetCounterValue reader counterId in
    if value =? ChannelStatusActive then
      let! bs := GetBytesArray keyBuf LocalSocketAddressStringOffset length in
      ret (Some (string_of_bytes bs))
    else ret None
  else ret None.

(** [ResolvedEndpoint] stops at the first address, [LocalSocketAddresses] collects all;
    the state of the scan is the addresses found so far. *)
Definition collect_address (sub : Subscription I) (first_only : bool) (counterId : Z) (keyBuf : Buffer)
  : M (mem * list string) bool :=
  let! found := on_fst (bound_address sub counterId keyBuf) in
  match found with
  | Some a => fun '(m, bindings) => Ret (negb first_only) (m, bindings ++ [a])
  | None => ret true
  end.

Definition scan_addresses (sub : Subscription I) (first_only : bool) : M mem (list string) :=
  fun m =>
    match ScanForType reader LocalSocketAddressStatusCounterTypeId
            (collect_address sub first_only) (m, []) with
    | Ret _ (m', bindings) => Ret bindings m'
    | Exc e (m', _) => Exc e m'
    end.

Definition ResolvedEndpoint (sub : Subscription I) : M mem string :=
  let! status := ChannelStatus sub in
  if negb (status =? ChannelStatusActive) then ret ""%string
  else
    let! bindings := scan_addresses sub true in
    ret (default ""%string (last bindings)).

Definition LocalSocketAddresses (sub : Subscription I) : M mem (list string) :=
  let! status := ChannelStatus sub in
  if negb (status =? ChannelStatusActive) then ret []
  else scan_addresses sub false.

(** [strings.LastIndex] of a colon, and the rest of the string from there. *)
Fixpoint last_colon (s : string) : option string :=
  match s with
  | EmptyString => None
  | String c s' =>
      match last_colon s' with
      | Some t => Some t
      | None => if decide (c = ":"%char) then Some s else None
      end
  end.

Definition TryResolveChannelEndpointPort (sub : Subscription I) : M mem string :=
  let! status := ChannelStatus sub in
  if negb (status =? ChannelStatusActive) then ret ""%string
  else
    let! addresses := LocalSocketAddresses sub in
    match addresses with
    | [resolvedEndpoint] =>
        match ParseChannelUri (sub_channel sub) with
        | (_, Some _) => ret (sub_channel sub)
        | (uri, None) =>
            let endpoint := Uri_Get uri "endpoint" in
            if HasSuffix endpoint ":0" then
              match last_colon resolvedEndpoint with
              | None => panic "slice bounds out of range"
              | Some port =>
                  ret (Uri_String (Uri_Set uri "endpoint"
                         (str_take (String.length endpoint - 2) endpoint +:+ port)))
              end
            else ret (sub_channel sub)
        end
    | _ => ret (sub_channel sub)
    end.
End Sub.

(** ** The image keeps the interface's promises *)

Lemma read_loop_bounded {U} fuel b limit (handler : FragmentHandler U) fl : forall header off n s r s',
  read_loop fuel b limit handler fl header off n s = Ret r s' ->
  n <= r.1.2 /\ (n <= fl -> r.1.2 <= fl).
Proof.
  induction fuel as [|fuel IH]; intros header off n s r s' Hrun; cbn [read_loop] in Hrun.
  - destruct ((n <? fl) && (off <? limit)); [done|]. injection Hrun as <- _. simpl. lia.
  - destruct ((n <? fl) && (off <? limit)) eqn:E; [|injection Hrun as <- _; simpl; lia].
    apply bind_inv_Ret in Hrun as (len & s1 & _ & Hrun).
    destruct (len <=? 0); [injection Hrun as <- _; simpl; lia|].
    apply bind_inv_Ret in Hrun as (pad & s2 & _ & Hrun).
    destruct pad; cbn [negb] in Hrun.
    + by apply IH in Hrun.
    + apply bind_inv_Ret in Hrun as ([] & s3 & _ & Hrun). apply IH in Hrun. lia.
Qed.

Lemma controlled_loop_bounded {U} fuel img b cap (handler : ControlledFragmentHandler U) fl :
  forall header p o off n s r s',
  controlled_loop fuel img b cap handler fl header p o off n s = Ret r s' ->
  n <= r.1.2 /\ (n <= fl -> r.1.2 <= fl).
Proof.
  induction fuel as [|fuel IH]; intros header p o off n s r s' Hrun; cbn [controlled_loop] in Hrun.
  - destruct ((n <? fl) && (off <? cap)); [done|]. injection Hrun as <- _. simpl. lia.
  - destruct ((n <? fl) && (off <? cap)) eqn:E; [|injection Hrun as <- _; simpl; lia].
    apply bind_inv_Ret in Hrun as (len & s1 & _ & Hrun).
    destruct (len <=? 0); [injection Hrun as <- _; simpl; lia|].
    apply bind_inv_Ret in Hrun as (pad & s2 & _ & Hrun).
    destruct pad; [by apply IH in Hrun|].
    apply bind_inv_Ret in Hrun as (action & s3 & _ & Hrun).
    destruct action; [injection Hrun as <- _; simpl; lia|injection Hrun as <- _; simpl; lia| |].
    + apply bind_inv_Ret in Hrun as ([] & s4 & _ & Hrun). apply IH in Hrun. lia.
    + apply IH in Hrun. lia.
Qed.

#[export] Instance image_laws : ImageLaws image.
Proof.
  split; intros U i handler limit s n i' s' Hl Hrun.
  - change (image_Poll i handler limit s = Ret (n, i') s') in Hrun. unfold image_Poll in Hrun.
    destruct (img_isClosed i); [injection Hrun as <- <- _; split_and!; done || lia|].
    apply bind_inv_Ret in Hrun as (pos & s1 & _ & Hrun).
    apply bind_inv_Ret in Hrun as ([b off] & s2 & _ & Hrun).
    apply bind_inv_Ret in Hrun as ([[off' n'] h] & s3 & Hr & Hrun).
    apply bind_inv_Ret in Hrun as ([] & s4 & _ & Hrun). injection Hrun as <- <- _.
    apply read_loop_bounded in Hr. simpl in Hr. split_and!; done || lia.
  - change (image_ControlledPoll i handler limit s = Ret (n, i') s') in Hrun.
    unfold image_ControlledPoll in Hrun.
    destruct (img_isClosed i); [injection Hrun as <- <- _; split_and!; done || lia|].
    apply bind_inv_Ret in Hrun as (pos & s1 & _ & Hrun).
    apply bind_inv_Ret in Hrun as ([b off] & s2 & _ & Hrun).
    apply bind_inv_Ret in Hrun as ([[[[p o] off'] n'] h] & s3 & Hr & Hrun).
    apply bind_inv_Ret in Hrun as ([] & s4 & _ & Hrun). injection Hrun as <- <- _.
    apply controlled_loop_bounded in Hr. simpl in Hr. split_and!; done || lia.
Qed.

(** ** Polling in turn *)

Section PollProps.
Context {I : Type} `{ImageOps I}.

(** The two loops of a poll are one loop over the rotated indices. *)
Lemma poll_images_app {U} (poll : I -> Z -> M (mem * U) (Z * I)) fl ixs ixs' images n s :
  poll_images poll fl (ixs ++ ixs') images n s =
  bind (poll_images poll fl ixs images n) (fun r => poll_images poll fl ixs' r.2 r.1) s.
Proof using Type.
  revert images n s. induction ixs as [|i ixs IH]; intros images n s; [done|].
  cbn [app poll_images]. destruct (Z.ltb_spec n fl).
  - unfold bind. destruct (index_or_panic images (Z.of_nat i) s) as [img s1|]; [|done].
    destruct (poll img (fl - n) s1) as [[k img'] s2|]; [|done]. apply IH.
  - rewrite bind_ret_l. cbn [fst snd]. destruct ixs' as [|j ixs']; [done|]. cbn [poll_images].
    by rewrite (proj2 (Z.ltb_ge _ _)) by lia.
Qed.

Definition rotation (start len : nat) : list nat := seq start (len - start) ++ seq 0 start.

Lemma rotation_perm start len : (start <= len)%nat -> rotation start len ≡ₚ seq 0 len.
Proof using Type.
  intros Hs. unfold rotation. rewrite Permutation_app_comm.
  replace len with (start + (len - start))%nat at 2 by lia. by rewrite seq_app.
Qed.

Lemma round_robin_start rr len :
  0 <= rr -> (0 < len)%nat -> ((round_robin rr len).1 < len)%nat /\ 0 <= (round_robin rr len).2.
Proof using Type. intros. unfold round_robin. destruct (rr >=? Z.of_nat len) eqn:E; cbn [fst snd]; lia. Qed.

(** The index at which each of a series of polls starts. *)
Fixpoint starts (k : nat) (rr : Z) (len : nat) : list nat :=
  match k with
  | O => []
  | S k' => (round_robin rr len).1 :: starts k' (round_robin rr len).2 len
  end.

(** The index kept after [k] polls. *)
Fixpoint rr_after (k : nat) (rr : Z) (len : nat) : Z :=
  match k with O => rr | S k' => rr_after k' (round_robin rr len).2 len end.

Lemma starts_app j k rr len : starts (j + k) rr len = starts j rr len ++ starts k (rr_after j rr len) len.
Proof using Type. revert rr. induction j as [|j IH]; intros rr; [done|]. cbn. by rewrite IH. Qed.

(** Up to the last image the polls start one further each time. *)
Lemma starts_from k : forall i len,
  (i + k <= len)%nat ->
  starts k (Z.of_nat i) len = seq i k /\ rr_after k (Z.of_nat i) len = Z.of_nat (i + k).
Proof using Type.
  induction k as [|k IH]; intros i len Hk; cbn [starts seq rr_after]; [split; [done|lia]|].
  unfold round_robin. replace (Z.of_nat i >=? Z.of_nat len) with false by lia. cbn [fst snd].
  rewrite Nat2Z.id. replace (Z.of_nat i + 1) with (Z.of_nat (S i)) by lia.
  destruct (IH (S i) len ltac:(lia)) as [-> ->]. split; [done|lia].
Qed.

(** Then the first image comes, and the count begins again. *)
Lemma starts_wrap len : starts 1 (Z.of_nat len) len = [0%nat] /\ rr_after 1 (Z.of_nat len) len = 0.
Proof using Type.
  cbn [starts rr_after]. unfold round_robin. by replace (Z.of_nat len >=? Z.of_nat len) with true by lia.
Qed.

Lemma starts_cover i len k :
  (i <= len)%nat -> (k < len)%nat -> k ∈ starts (len + 1) (Z.of_nat i) len.
Proof using Type.
  intros Hi Hk. replace (len + 1)%nat with ((len - i) + (1 + i))%nat by lia.
  rewrite !starts_app. destruct (starts_from (len - i) i len ltac:(lia)) as [-> ->].
  replace (i + (len - i))%nat with len by lia. destruct (starts_wrap len) as [-> ->].
  change 0 with (Z.of_nat 0). destruct (starts_from i 0 len ltac:(lia)) as [-> _].
  rewrite !elem_of_app, !elem_of_seq. lia.
Qed.

(** The index kept is never past the number of images, unless images went away. *)
Lemma round_robin_le rr len : 0 <= rr <= Z.of_nat len -> 0 <= (round_robin rr len).2 <= Z.of_nat len.
Proof using Type. intros. unfold round_robin. destruct (rr >=? Z.of_nat len) eqn:E; cbn [fst snd]; lia. Qed.
End PollProps.

(** ** The theorems on subscriptions *)

Section SubTheorems.
Context {I : Type} `{ImageLaws I}.

Definition ids (images : list I) : list (Z * Z) :=
  map (fun i => (Img_SessionID i, Img_CorrelationID i)) images.

(** A poll of one image that keeps its promise. *)
Definition keeps_promise {U} (poll : I -> Z -> M (mem * U) (Z * I)) : Prop :=
  forall i limit s n i' s', 0 < limit -> poll i limit s = Ret (n, i') s' ->
    0 <= n <= limit /\ Img_SessionID i' = Img_SessionID i /\ Img_CorrelationID i' = Img_CorrelationID i.

Lemma poll_images_bounded {U} (poll : I -> Z -> M (mem * U) (Z * I)) fl ixs :
  keeps_promise poll ->
  forall images n s r s', poll_images poll fl ixs images n s = Ret r s' ->
  n <= r.1 /\ (n <= fl -> r.1 <= fl) /\ ids r.2 = ids images.
Proof using Type.
  intros Hp. induction ixs as [|i ixs IH]; intros images n s r s' Hrun; cbn [poll_images] in Hrun.
  - injection Hrun as <- _. simpl. split_and!; done || lia.
  - destruct (Z.ltb_spec n fl); [|injection Hrun as <- _; simpl; split_and!; done || lia].
    apply bind_inv_Ret in Hrun as (img & s1 & Hix & Hrun).
    apply bind_inv_Ret in Hrun as ([k img'] & s2 & Hpoll & Hrun).
    apply Hp in Hpoll as (? & Hs & Hc); [|lia].
    apply IH in Hrun as (? & ? & Hids). split_and!; [lia|lia|]. rewrite Hids.
    unfold index_or_panic in Hix. destruct (Z.of_nat i <? 0); [done|]. rewrite Nat2Z.id in Hix.
    destruct (images !! i) as [x|] eqn:E; [|done]. injection Hix as -> _.
    unfold ids. rewrite list_fmap_insert. rewrite list_insert_id; [done|].
    rewrite list_lookup_fmap, E. simpl. by rewrite Hs, Hc.
Qed.

(** One poll of a subscription: at most [fragmentLimit] fragments, the images stay. *)
Lemma Subscription_Poll_bounded_ok {U} (sub : Subscription I) (handler : FragmentHandler U) fl s n sub' s' :
  0 <= fl -> Subscription_Poll sub handler fl s = Ret (n, sub') s' ->
  0 <= n <= fl /\ ids (sub_images sub') = ids (sub_images sub).
Proof using All.
  intros Hfl Hrun. unfold Subscription_Poll, poll_with in Hrun.
  destruct (0 <? length (sub_images sub))%nat; [|injection Hrun as <- <- _; split; done || lia].
  destruct (round_robin _ _) as [start next].
  assert (Hp : keeps_promise (fun img limit => Img_Poll img handler limit)).
  { intros i limit s0 k i' s0' Hl Hpoll. by eapply poll_bounded. }
  apply bind_inv_Ret in Hrun as ([n1 imgs1] & s1 & H1 & Hrun).
  apply bind_inv_Ret in Hrun as ([n2 imgs2] & s2 & H2 & Hrun). injection Hrun as <- <- _.
  apply (poll_images_bounded _ _ _ Hp) in H1 as (? & ? & Hi1), H2 as (? & ? & Hi2). simpl in *.
  split; [lia|congruence].
Qed.

(** A poll goes once over the images, beginning with the one whose turn it is. *)
Theorem Subscription_Poll_rotation {U} (sub : Subscription I) (handler : FragmentHandler U) fl s :
  sub_images sub <> [] -> 0 <= sub_roundRobinIndex sub ->
  let len := length (sub_images sub) in
  let start := (round_robin (sub_roundRobinIndex sub) len).1 in
  rotation start len ≡ₚ seq 0 len /\ rotation start len !! 0%nat = Some start /\
  Subscription_Poll sub handler fl s =
  bind (poll_images (fun img limit => Img_Poll img handler limit) fl (rotation start len) (sub_images sub) 0)
    (fun r => ret (r.1, set_poll sub (round_robin (sub_roundRobinIndex sub) len).2 r.2)) s.
Proof using Type.
  intros Hne Hrr len start. assert (Hlen : (0 < len)%nat).
  { unfold len. destruct (sub_images sub); [done|simpl; lia]. }
  destruct (round_robin_start (sub_roundRobinIndex sub) len Hrr Hlen) as [Hst _]. fold start in Hst.
  split_and!.
  - apply rotation_perm. lia.
  - unfold rotation. replace (len - start)%nat with (S (len - start - 1)) by lia. done.
  - unfold Subscription_Poll, poll_with, rotation. fold len.
    rewrite (proj2 (Nat.ltb_lt 0 len)) by done.
    unfold start. destruct (round_robin (sub_roundRobinIndex sub) len) as [st next]. cbn [fst snd].
    unfold bind. rewrite poll_images_app. unfold bind.
    destruct (poll_images _ _ _ _ _ _) as [[n1 imgs1] s1|]; [|done]. cbn [fst snd].
    by destruct (poll_images _ _ _ _ _ _) as [[n2 imgs2] s2|].
Qed.

(** In any series of polls, one more than there are images, every image comes first at
    least once. *)
Theorem round_robin_covers rr len k :
  0 <= rr <= Z.of_nat len -> (k < len)%nat -> k ∈ starts (len + 1) rr len.
Proof using Type.
  intros Hrr Hk. replace rr with (Z.of_nat (Z.to_nat rr)) by lia. apply starts_cover; lia.
Qed.

(** ** Adding and removing *)

Lemma remove_loop_ok (rest : list I) : forall pre cid,
  match remove_loop rest (length pre) (pre ++ rest) cid with
  | Some (img, images) => Img_CorrelationID img = cid /\ pre ++ rest ≡ₚ img :: images
  | None => Forall (fun i => Img_CorrelationID i <> cid) rest
  end.
Proof using Type.
  induction rest as [|x rest IH]; intros pre cid; cbn [remove_loop]; [constructor|].
  destruct (Z.eqb_spec (Img_CorrelationID x) cid) as [Hx|Hx].
  - destruct (last (pre ++ x :: rest)) as [l|] eqn:Hl.
    2: { apply last_None in Hl. by destruct pre. }
    split; [done|]. rewrite length_app. cbn [length].
    replace (length pre + S (length rest) - 1)%nat with (length pre + length rest)%nat by lia.
    rewrite insert_app_r_alt, Nat.sub_diag by lia. cbn [insert list_insert].
    rewrite take_app_ge by lia. replace (length pre + length rest - length pre)%nat with (length rest) by lia.
    destruct (decide (length rest = 0%nat)) as [Hz|Hz].
    + apply nil_length_inv in Hz as ->. rewrite last_snoc in Hl. injection Hl as <-. cbn. rewrite app_nil_r. by rewrite Permutation_app_comm.
    + assert (rest <> []) as Hne by (by intros ->). destruct (exists_last Hne) as (mid & z & ->).
      rewrite app_comm_cons, app_assoc, last_snoc in Hl. injection Hl as <-.
      rewrite length_app. cbn [length]. rewrite Nat.add_1_r. cbn [take].
      rewrite take_app_length. solve_Permutation.
  - pose proof (IH (pre ++ [x]) cid) as IHp. rewrite length_app, <- app_assoc in IHp. cbn [length app] in IHp.
    rewrite Nat.add_1_r in IHp. destruct (remove_loop rest (S (length pre)) (pre ++ x :: rest) cid) as [[img images]|];
      [done|by constructor].
Qed.

(** Removing takes out exactly one image with the correlation id; without such an image
    nothing changes. The order of the others is not kept. *)
Theorem removeImage_removes (sub : Subscription I) cid :
  match removeImage sub cid with
  | (Some img, sub') => Img_CorrelationID img = cid /\ sub_images sub ≡ₚ img :: sub_images sub'
  | (None, sub') => sub' = sub /\ Forall (fun i => Img_CorrelationID i <> cid) (sub_images sub)
  end.
Proof using Type.
  pose proof (remove_loop_ok (sub_images sub) [] cid) as Hr. cbn [length app] in Hr.
  unfold removeImage. destruct (remove_loop (sub_images sub) 0 (sub_images sub) cid) as [[img images]|]; done.
Qed.

(** An image that is added is found by its session, and removed by its correlation id
    when it is the only one with it: the subscription is as before. *)
Lemma addImage_found_and_removed (sub : Subscription I) img :
  let sub' := (addImage sub img).2 in
  hasImage sub' (Img_SessionID img) = true /\
  (Forall (fun i => Img_CorrelationID i <> Img_CorrelationID img) (sub_images sub) ->
   removeImage sub' (Img_CorrelationID img) = (Some img, sub)).
Proof using Type.
  cbn. split.
  - unfold hasImage. cbn. rewrite existsb_app. cbn. by rewrite Z.eqb_refl, orb_true_r.
  - intros Hne. unfold removeImage. cbn [sub_images set_images set_poll].
    assert (Hloop : forall pre rest, Forall (fun i => Img_CorrelationID i <> Img_CorrelationID img) rest ->
      remove_loop (rest ++ [img]) (length pre) (pre ++ rest ++ [img]) (Img_CorrelationID img)
      = Some (img, pre ++ rest)).
    { intros pre rest. revert pre. induction rest as [|x rest IH]; intros pre Hf; cbn [app remove_loop].
      - rewrite Z.eqb_refl, last_snoc. do 2 f_equal. rewrite length_app. cbn [length].
        rewrite Nat.add_sub, app_nil_r.
        rewrite take_insert_ge by lia. by rewrite take_app_length.
      - apply Forall_cons in Hf as [Hx Hf]. rewrite (proj2 (Z.eqb_neq _ _)) by done.
        pose proof (IH (pre ++ [x]) Hf) as IHp. rewrite length_app in IHp. cbn [length] in IHp.
        rewrite Nat.add_1_r, <- !app_assoc in IHp. cbn [app] in IHp. exact IHp. }
    pose proof (Hloop [] (sub_images sub) Hne) as Hl. cbn [length app] in Hl. rewrite Hl.
    by destruct sub.
Qed.

(** A poll of a subscription reads at most [fragmentLimit] fragments over all its
    images, whichever implementation of the interface they are, and keeps the images,
    their identities and their order. *)
Theorem Subscription_Poll_bounded {U} (sub : Subscription I) (handler : FragmentHandler U) fl s n sub' s' :
  0 <= fl -> Subscription_Poll sub handler fl s = Ret (n, sub') s' ->
  0 <= n <= fl /\ ids (sub_images sub') = ids (sub_images sub).
Proof using All. apply Subscription_Poll_bounded_ok. Qed.
End SubTheorems.
