(* ===== verification/ArchiveProxy.v ===== *)
(** * Sending requests to the archive

    archive/proxy.go: a request is marshalled and offered to the publication of the archive,
    again and again while the publication is not ready, until the timeout. The publication is
    seen through what its [Offer] answers, Publication.v says when it answers what. *)

From S2P Require Import Prelude Sbe SbePacket ArchiveCodecs ArchivePackets Publication.

Local Open Scope m_scope.

Local Abbreviation bytes := (list Init.Byte.byte).

(** The way to the archive: for every round of an offer the time since its start and the
    answer of the publication, and the messages that are in the log. *)
Record requests : Type := mkRequests { script : list (Z * offered); sent : list bytes }.

(** ** Offer *)

Fixpoint offer_loop (Timeout : Z) (buffer : bytes) (rounds : list (Z * offered)) (log : list bytes) (result : Z)
  : outcome requests Z :=
  match rounds with
  | [] => Exc EFuel (mkRequests [] log)
  | (since, answer) :: rounds' =>
      if since <? Timeout then
        let result := offered_value answer in
        let log := match answer with Accepted _ => log ++ [buffer] | Refused _ => log end in
        if (result =? NotConnected) || (result =? BackPressured) || (result =? AdminAction)
        then offer_loop Timeout buffer rounds' log result
        else Ret result (mkRequests rounds' log)
      else Ret result (mkRequests rounds' log)
  end.

Section Requests.
(** Of the archive that the proxy belongs to. *)
Context (RangeChecking : bool) (Timeout SessionID : Z).

Definition Proxy_Offer (buffer : bytes) : M requests Z := fun q => offer_loop Timeout buffer (script q) (sent q) 0.

(** The body of every request: marshal, then offer. *)
Definition request (marshalled : bytes + string) : M requests (option string) :=
  match marshalled with
  | inr err => ret (Some err)
  | inl buffer =>
      let! result := Proxy_Offer buffer in
      if result <? 0 then ret (Some "Offer failed"%string) else ret None
  end.

Definition ConnectRequest (correlationID responseStream : Z) (responseChannel : bytes) : M requests (option
  string) :=
  request (ConnectRequestPacket RangeChecking correlationID responseStream responseChannel).
Definition CloseSessionRequest : M requests (option string) :=
  request (CloseSessionRequestPacket RangeChecking SessionID).
Definition StartRecordingRequest (correlationID stream : Z) (isLocal autoStop : bool) (channel : bytes) : M
  requests (option string) :=
  request (StartRecordingRequest2Packet RangeChecking SessionID correlationID stream isLocal autoStop channel).
Definition StopRecordingRequest (correlationID stream : Z) (channel : bytes) : M requests (option string) :=
  request (StopRecordingRequestPacket RangeChecking SessionID correlationID stream channel).
Definition ReplayRequest (correlationID recordingID position length : Z) (replayChannel : bytes) (replayStream :
  Z) : M requests (option string) :=
  request (ReplayRequestPacket RangeChecking SessionID correlationID recordingID position length replayStream
    replayChannel).
Definition StopReplayRequest (correlationID replaySessionID : Z) : M requests (option string) :=
  request (StopReplayRequestPacket RangeChecking SessionID correlationID replaySessionID).
Definition ListRecordingsRequest (correlationID fromRecordingID recordCount : Z) : M requests (option string) :=
  request (ListRecordingsRequestPacket RangeChecking SessionID correlationID fromRecordingID recordCount).
Definition ListRecordingsForUriRequest (correlationID fromRecordingID recordCount stream : Z) (channel : bytes)
  : M requests (option string) :=
  request (ListRecordingsForUriRequestPacket RangeChecking SessionID correlationID fromRecordingID recordCount
    stream channel).
Definition ListRecordingRequest (correlationID fromRecordingID : Z) : M requests (option string) :=
  request (ListRecordingRequestPacket RangeChecking SessionID correlationID fromRecordingID).
Definition ExtendRecordingRequest (correlationID recordingID stream sourceLocation : Z) (autoStop : bool)
  (channel : bytes) : M requests (option string) :=
  request (ExtendRecordingRequest2Packet RangeChecking SessionID correlationID recordingID stream sourceLocation
    autoStop channel).
Definition RecordingPositionRequest (correlationID recordingID : Z) : M requests (option string) :=
  request (RecordingPositionRequestPacket RangeChecking SessionID correlationID recordingID).
Definition TruncateRecordingRequest (correlationID recordingID position : Z) : M requests (option string) :=
  request (TruncateRecordingRequestPacket RangeChecking SessionID correlationID recordingID position).
Definition StopRecordingSubscriptionRequest (correlationID subscriptionID : Z) : M requests (option string) :=
  request (StopRecordingSubscriptionPacket RangeChecking SessionID correlationID subscriptionID).
Definition StopRecordingByIdentityRequest (correlationID recordingID : Z) : M requests (option string) :=
  request (StopRecordingByIdentityPacket RangeChecking SessionID correlationID recordingID).
Definition StopPositionRequest (correlationID recordingID : Z) : M requests (option string) :=
  request (StopPositionPacket RangeChecking SessionID correlationID recordingID).
Definition FindLastMatchingRecordingRequest (correlationID minRecordingID sessionID stream : Z) (channel :
  bytes) : M requests (option string) :=
  request (FindLastMatchingRecordingPacket RangeChecking SessionID correlationID minRecordingID sessionID stream
    channel).
Definition ListRecordingSubscriptionsRequest (correlationID pseudoIndex subscriptionCount : Z) (applyStreamID :
  bool) (stream : Z) (channel : bytes) : M requests (option string) :=
  request (ListRecordingSubscriptionsPacket RangeChecking SessionID correlationID pseudoIndex subscriptionCount
    applyStreamID stream channel).
Definition BoundedReplayRequest (correlationID recordingID position length limitCounterID replayStream : Z)
  (replayChannel : bytes) : M requests (option string) :=
  request (BoundedReplayPacket RangeChecking SessionID correlationID recordingID position length limitCounterID
    replayStream replayChannel).
Definition StopAllReplaysRequest (correlationID recordingID : Z) : M requests (option string) :=
  request (StopAllReplaysPacket RangeChecking SessionID correlationID recordingID).
Definition CatalogHeaderRequest (version length nextRecordingID alignment : Z) : M requests (option string) :=
  request (CatalogHeaderPacket RangeChecking version length nextRecordingID alignment).
Definition ReplicateRequest (correlationID srcRecordingID dstRecordingID srcControlStreamID : Z)
  (srcControlChannel liveDestination : bytes) : M requests (option string) :=
  request (ReplicateRequestPacket RangeChecking SessionID correlationID srcRecordingID dstRecordingID
    srcControlStreamID srcControlChannel liveDestination).
Definition ReplicateRequest2 (correlationID srcRecordingID dstRecordingID stopPosition channelTagID
  srcControlStreamID : Z) (srcControlChannel liveDestination replicationChannel : bytes) : M requests (option
  string) :=
  request (ReplicateRequest2Packet RangeChecking SessionID correlationID srcRecordingID dstRecordingID
    stopPosition channelTagID srcControlStreamID srcControlChannel liveDestination replicationChannel).
Definition StopReplicationRequest (correlationID replicationID : Z) : M requests (option string) :=
  request (StopReplicationRequestPacket RangeChecking SessionID correlationID replicationID).
Definition StartPositionRequest (correlationID recordingID : Z) : M requests (option string) :=
  request (StartPositionRequestPacket RangeChecking SessionID correlationID recordingID).
Definition DetachSegmentsRequest (correlationID recordingID newStartPosition : Z) : M requests (option string)
  :=
  request (DetachSegmentsRequestPacket RangeChecking SessionID correlationID recordingID newStartPosition).
Definition DeleteDetachedSegmentsRequest (correlationID recordingID : Z) : M requests (option string) :=
  request (DeleteDetachedSegmentsRequestPacket RangeChecking SessionID correlationID recordingID).
Definition PurgeSegmentsRequest (correlationID recordingID newStartPosition : Z) : M requests (option string) :=
  request (PurgeSegmentsRequestPacket RangeChecking SessionID correlationID recordingID newStartPosition).
Definition AttachSegmentsRequest (correlationID recordingID : Z) : M requests (option string) :=
  request (AttachSegmentsRequestPacket RangeChecking SessionID correlationID recordingID).
Definition MigrateSegmentsRequest (correlationID srcRecordingID destRecordingID : Z) : M requests (option
  string) :=
  request (MigrateSegmentsRequestPacket RangeChecking SessionID correlationID srcRecordingID destRecordingID).
Definition AuthConnectRequest (correlationID responseStream : Z) (responseChannel encodedCredentials : bytes) :
  M requests (option string) :=
  request (AuthConnectRequestPacket RangeChecking correlationID responseStream responseChannel
    encodedCredentials).
Definition ChallengeResponse (correlationID : Z) (encodedCredentials : bytes) : M requests (option string) :=
  request (ChallengeResponsePacket RangeChecking SessionID correlationID encodedCredentials).
Definition KeepAliveRequest (correlationID : Z) : M requests (option string) :=
  request (KeepAliveRequestPacket RangeChecking SessionID correlationID).
Definition TaggedReplicateRequest (correlationID srcRecordingID dstRecordingID channelTagID subscriptionTagID
  srcControlStreamID : Z) (srcControlChannel liveDestination : bytes) : M requests (option string) :=
  request (TaggedReplicateRequestPacket RangeChecking SessionID correlationID srcRecordingID dstRecordingID
    channelTagID subscriptionTagID srcControlStreamID srcControlChannel liveDestination).
Definition PurgeRecordingRequest (correlationID replaySessionID : Z) : M requests (option string) :=
  request (PurgeRecordingRequestPacket RangeChecking SessionID correlationID replaySessionID).

(** ** All requests *)

Inductive call : Type :=
| CallConnectRequest (correlationID responseStream : Z) (responseChannel : bytes)
| CallCloseSessionRequest
| CallStartRecordingRequest (correlationID stream : Z) (isLocal autoStop : bool) (channel : bytes)
| CallStopRecordingRequest (correlationID stream : Z) (channel : bytes)
| CallReplayRequest (correlationID recordingID position length : Z) (replayChannel : bytes) (replayStream : Z)
| CallStopReplayRequest (correlationID replaySessionID : Z)
| CallListRecordingsRequest (correlationID fromRecordingID recordCount : Z)
| CallListRecordingsForUriRequest (correlationID fromRecordingID recordCount stream : Z) (channel : bytes)
| CallListRecordingRequest (correlationID fromRecordingID : Z)
| CallExtendRecordingRequest (correlationID recordingID stream sourceLocation : Z) (autoStop : bool) (channel :
    bytes)
| CallRecordingPositionRequest (correlationID recordingID : Z)
| CallTruncateRecordingRequest (correlationID recordingID position : Z)
| CallStopRecordingSubscriptionRequest (correlationID subscriptionID : Z)
| CallStopRecordingByIdentityRequest (correlationID recordingID : Z)
| CallStopPositionRequest (correlationID recordingID : Z)
| CallFindLastMatchingRecordingRequest (correlationID minRecordingID sessionID stream : Z) (channel : bytes)
| CallListRecordingSubscriptionsRequest (correlationID pseudoIndex subscriptionCount : Z) (applyStreamID : bool)
    (stream : Z) (channel : bytes)
| CallBoundedReplayRequest (correlationID recordingID position length limitCounterID replayStream : Z)
    (replayChannel : bytes)
| CallStopAllReplaysRequest (correlationID recordingID : Z)
| CallCatalogHeaderRequest (version length nextRecordingID alignment : Z)
| CallReplicateRequest (correlationID srcRecordingID dstRecordingID srcControlStreamID : Z) (srcControlChannel
    liveDestination : bytes)
| CallReplicateRequest2 (correlationID srcRecordingID dstRecordingID stopPosition channelTagID
    srcControlStreamID : Z) (srcControlChannel liveDestination replicationChannel : bytes)
| CallStopReplicationRequest (correlationID replicationID : Z)
| CallStartPositionRequest (correlationID recordingID : Z)
| CallDetachSegmentsRequest (correlationID recordingID newStartPosition : Z)
| CallDeleteDetachedSegmentsRequest (correlationID recordingID : Z)
| CallPurgeSegmentsRequest (correlationID recordingID newStartPosition : Z)
| CallAttachSegmentsRequest (correlationID recordingID : Z)
| CallMigrateSegmentsRequest (correlationID srcRecordingID destRecordingID : Z)
| CallAuthConnectRequest (correlationID responseStream : Z) (responseChannel encodedCredentials : bytes)
| CallChallengeResponse (correlationID : Z) (encodedCredentials : bytes)
| CallKeepAliveRequest (correlationID : Z)
| CallTaggedReplicateRequest (correlationID srcRecordingID dstRecordingID channelTagID subscriptionTagID
    srcControlStreamID : Z) (srcControlChannel liveDestination : bytes)
| CallPurgeRecordingRequest (correlationID replaySessionID : Z).

Definition run (c : call) : M requests (option string) :=
  match c with
  | CallConnectRequest correlationID responseStream responseChannel => ConnectRequest correlationID responseStream
      responseChannel
  | CallCloseSessionRequest  => CloseSessionRequest 
  | CallStartRecordingRequest correlationID stream isLocal autoStop channel => StartRecordingRequest correlationID
      stream isLocal autoStop channel
  | CallStopRecordingRequest correlationID stream channel => StopRecordingRequest correlationID stream channel
  | CallReplayRequest correlationID recordingID position length replayChannel replayStream => ReplayRequest
      correlationID recordingID position length replayChannel replayStream
  | CallStopReplayRequest correlationID replaySessionID => StopReplayRequest correlationID replaySessionID
  | CallListRecordingsRequest correlationID fromRecordingID recordCount => ListRecordingsRequest correlationID
      fromRecordingID recordCount
  | CallListRecordingsForUriRequest correlationID fromRecordingID recordCount stream channel =>
      ListRecordingsForUriRequest correlationID fromRecordingID recordCount stream channel
  | CallListRecordingRequest correlationID fromRecordingID => ListRecordingRequest correlationID fromRecordingID
  | CallExtendRecordingRequest correlationID recordingID stream sourceLocation autoStop channel =>
      ExtendRecordingRequest correlationID recordingID stream sourceLocation autoStop channel
  | CallRecordingPositionRequest correlationID recordingID => RecordingPositionRequest correlationID recordingID
  | CallTruncateRecordingRequest correlationID recordingID position => TruncateRecordingRequest correlationID
      recordingID position
  | CallStopRecordingSubscriptionRequest correlationID subscriptionID => StopRecordingSubscriptionRequest
      correlationID subscriptionID
  | CallStopRecordingByIdentityRequest correlationID recordingID => StopRecordingByIdentityRequest correlationID
      recordingID
  | CallStopPositionRequest correlationID recordingID => StopPositionRequest correlationID recordingID
  | CallFindLastMatchingRecordingRequest correlationID minRecordingID sessionID stream channel =>
      FindLastMatchingRecordingRequest correlationID minRecordingID sessionID stream channel
  | CallListRecordingSubscriptionsRequest correlationID pseudoIndex subscriptionCount applyStreamID stream channel
      => ListRecordingSubscriptionsRequest correlationID pseudoIndex subscriptionCount applyStreamID stream
      channel
  | CallBoundedReplayRequest correlationID recordingID position length limitCounterID replayStream replayChannel
      => BoundedReplayRequest correlationID recordingID position length limitCounterID replayStream
      replayChannel
  | CallStopAllReplaysRequest correlationID recordingID => StopAllReplaysRequest correlationID recordingID
  | CallCatalogHeaderRequest version length nextRecordingID alignment => CatalogHeaderRequest version length
      nextRecordingID alignment
  | CallReplicateRequest correlationID srcRecordingID dstRecordingID srcControlStreamID srcControlChannel
      liveDestination => ReplicateRequest correlationID srcRecordingID dstRecordingID srcControlStreamID
      srcControlChannel liveDestination
  | CallReplicateRequest2 correlationID srcRecordingID dstRecordingID stopPosition channelTagID srcControlStreamID
      srcControlChannel liveDestination replicationChannel => ReplicateRequest2 correlationID srcRecordingID
      dstRecordingID stopPosition channelTagID srcControlStreamID srcControlChannel liveDestination
      replicationChannel
  | CallStopReplicationRequest correlationID replicationID => StopReplicationRequest correlationID replicationID
  | CallStartPositionRequest correlationID recordingID => StartPositionRequest correlationID recordingID
  | CallDetachSegmentsRequest correlationID recordingID newStartPosition => DetachSegmentsRequest correlationID
      recordingID newStartPosition
  | CallDeleteDetachedSegmentsRequest correlationID recordingID => DeleteDetachedSegmentsRequest correlationID
      recordingID
  | CallPurgeSegmentsRequest correlationID recordingID newStartPosition => PurgeSegmentsRequest correlationID
      recordingID newStartPosition
  | CallAttachSegmentsRequest correlationID recordingID => AttachSegmentsRequest correlationID recordingID
  | CallMigrateSegmentsRequest correlationID srcRecordingID destRecordingID => MigrateSegmentsRequest
      correlationID srcRecordingID destRecordingID
  | CallAuthConnectRequest correlationID responseStream responseChannel encodedCredentials => AuthConnectRequest
      correlationID responseStream responseChannel encodedCredentials
  | CallChallengeResponse correlationID encodedCredentials => ChallengeResponse correlationID encodedCredentials
  | CallKeepAliveRequest correlationID => KeepAliveRequest correlationID
  | CallTaggedReplicateRequest correlationID srcRecordingID dstRecordingID channelTagID subscriptionTagID
      srcControlStreamID srcControlChannel liveDestination => TaggedReplicateRequest correlationID
      srcRecordingID dstRecordingID channelTagID subscriptionTagID srcControlStreamID srcControlChannel
      liveDestination
  | CallPurgeRecordingRequest correlationID replaySessionID => PurgeRecordingRequest correlationID replaySessionID
  end.

(** The message that a request is, with its fields. *)
Inductive message : Type :=
| Msg {A : Type} {C : Codec A} {L : CodecLaws A} (a : A).

Definition message_of (c : call) : message :=
  match c with
| CallConnectRequest correlationID responseStream responseChannel => Msg (mkConnectRequest correlationID
      responseStream SemanticVersion responseChannel)
| CallCloseSessionRequest  => Msg (mkCloseSessionRequest SessionID)
| CallStartRecordingRequest correlationID stream isLocal autoStop channel => Msg (mkStartRecordingRequest2
      SessionID correlationID stream (if isLocal then SourceLocation.LOCAL else SourceLocation.REMOTE) (if
      autoStop then BooleanType.TRUE else 0) channel)
| CallStopRecordingRequest correlationID stream channel => Msg (mkStopRecordingRequest SessionID correlationID
      stream channel)
| CallReplayRequest correlationID recordingID position length replayChannel replayStream => Msg (mkReplayRequest
      SessionID correlationID recordingID position length replayStream replayChannel)
| CallStopReplayRequest correlationID replaySessionID => Msg (mkStopReplayRequest SessionID correlationID
      replaySessionID)
| CallListRecordingsRequest correlationID fromRecordingID recordCount => Msg (mkListRecordingsRequest SessionID
      correlationID fromRecordingID recordCount)
| CallListRecordingsForUriRequest correlationID fromRecordingID recordCount stream channel => Msg
      (mkListRecordingsForUriRequest SessionID correlationID fromRecordingID recordCount stream channel)
| CallListRecordingRequest correlationID fromRecordingID => Msg (mkListRecordingRequest SessionID correlationID
      fromRecordingID)
| CallExtendRecordingRequest correlationID recordingID stream sourceLocation autoStop channel => Msg
      (mkExtendRecordingRequest2 SessionID correlationID recordingID stream sourceLocation (if autoStop then
      BooleanType.TRUE else 0) channel)
| CallRecordingPositionRequest correlationID recordingID => Msg (mkRecordingPositionRequest SessionID
      correlationID recordingID)
| CallTruncateRecordingRequest correlationID recordingID position => Msg (mkTruncateRecordingRequest SessionID
      correlationID recordingID position)
| CallStopRecordingSubscriptionRequest correlationID subscriptionID => Msg (mkStopRecordingSubscriptionRequest
      SessionID correlationID subscriptionID)
| CallStopRecordingByIdentityRequest correlationID recordingID => Msg (mkStopRecordingByIdentityRequest
      SessionID correlationID recordingID)
| CallStopPositionRequest correlationID recordingID => Msg (mkStopPositionRequest SessionID correlationID
      recordingID)
| CallFindLastMatchingRecordingRequest correlationID minRecordingID sessionID stream channel => Msg
      (mkFindLastMatchingRecordingRequest SessionID correlationID minRecordingID sessionID stream channel)
| CallListRecordingSubscriptionsRequest correlationID pseudoIndex subscriptionCount applyStreamID stream channel
      => Msg (mkListRecordingSubscriptionsRequest SessionID correlationID pseudoIndex subscriptionCount (if
      applyStreamID then BooleanType.TRUE else 0) stream channel)
| CallBoundedReplayRequest correlationID recordingID position length limitCounterID replayStream replayChannel
      => Msg (mkBoundedReplayRequest SessionID correlationID recordingID position length limitCounterID
      replayStream replayChannel)
| CallStopAllReplaysRequest correlationID recordingID => Msg (mkStopAllReplaysRequest SessionID correlationID
      recordingID)
| CallCatalogHeaderRequest version length nextRecordingID alignment => Msg (mkCatalogHeader version length
      nextRecordingID alignment 0)
| CallReplicateRequest correlationID srcRecordingID dstRecordingID srcControlStreamID srcControlChannel
      liveDestination => Msg (mkReplicateRequest SessionID correlationID srcRecordingID dstRecordingID
      srcControlStreamID srcControlChannel liveDestination)
| CallReplicateRequest2 correlationID srcRecordingID dstRecordingID stopPosition channelTagID srcControlStreamID
      srcControlChannel liveDestination replicationChannel => Msg (mkReplicateRequest2 SessionID correlationID
      srcRecordingID dstRecordingID stopPosition channelTagID 0 srcControlStreamID srcControlChannel
      liveDestination replicationChannel)
| CallStopReplicationRequest correlationID replicationID => Msg (mkStopReplicationRequest SessionID
      correlationID replicationID)
| CallStartPositionRequest correlationID recordingID => Msg (mkStartPositionRequest SessionID correlationID
      recordingID)
| CallDetachSegmentsRequest correlationID recordingID newStartPosition => Msg (mkDetachSegmentsRequest SessionID
      correlationID recordingID newStartPosition)
| CallDeleteDetachedSegmentsRequest correlationID recordingID => Msg (mkDeleteDetachedSegmentsRequest SessionID
      correlationID recordingID)
| CallPurgeSegmentsRequest correlationID recordingID newStartPosition => Msg (mkPurgeSegmentsRequest SessionID
      correlationID recordingID newStartPosition)
| CallAttachSegmentsRequest correlationID recordingID => Msg (mkAttachSegmentsRequest SessionID correlationID
      recordingID)
| CallMigrateSegmentsRequest correlationID srcRecordingID destRecordingID => Msg (mkMigrateSegmentsRequest
      SessionID correlationID srcRecordingID destRecordingID)
| CallAuthConnectRequest correlationID responseStream responseChannel encodedCredentials => Msg
      (mkAuthConnectRequest correlationID responseStream SemanticVersion responseChannel encodedCredentials)
| CallChallengeResponse correlationID encodedCredentials => Msg (mkChallengeResponse SessionID correlationID
      encodedCredentials)
| CallKeepAliveRequest correlationID => Msg (mkKeepAliveRequest SessionID correlationID)
| CallTaggedReplicateRequest correlationID srcRecordingID dstRecordingID channelTagID subscriptionTagID
      srcControlStreamID srcControlChannel liveDestination => Msg (mkTaggedReplicateRequest SessionID
      correlationID srcRecordingID dstRecordingID channelTagID subscriptionTagID srcControlStreamID
      srcControlChannel liveDestination)
| CallPurgeRecordingRequest correlationID replaySessionID => Msg (mkPurgeRecordingRequest SessionID
      correlationID replaySessionID)
  end.

Definition message_valid (m : message) : Prop := match m with Msg a => valid a end.
Definition message_error (m : message) : option string :=
  match m with
  | @Msg A C _ a => if RangeChecking then RangeCheck a (SbeSchemaVersion (A := A)) (SbeSchemaVersion (A := A)) else None
  end.

(** The receiver reads [m] from [bs], and from no shorter part. *)
Definition reads_as (bs : bytes) (m : message) : Prop :=
  match m with
  | @Msg A C _ a =>
      unpacket RangeChecking bs = Some a /\
      forall p q : bytes, bs = p ++ q -> q <> [] -> @unpacket A C RangeChecking p = None
  end.
Definition message_packet (m : message) : bytes + string := match m with Msg a => packet a RangeChecking end.

Lemma run_request c : run c = request (message_packet (message_of c)).
Proof using Type. by destruct c. Qed.

Lemma message_header_fits c : match message_of c with @Msg A C _ _ => @header_fits A C end.
Proof using Type. destruct c; unfold header_fits; cbn; lia. Qed.

Lemma message_marshalled c :
  message_valid (message_of c) ->
  match message_error (message_of c) with
  | Some e => message_packet (message_of c) = inr e
  | None => exists bs, message_packet (message_of c) = inl bs /\ reads_as bs (message_of c)
  end.
Proof using Type.
  pose proof (message_header_fits c) as Hf. revert Hf. generalize (message_of c) as m. intros [A C L a] Hf Hv.
  cbn [message_valid message_error message_packet reads_as] in *.
  by apply packet_reads.
Qed.
End Requests.

(** ** What is sent *)

(** An offer: the message is in the log once when the answer is a position, and not when it
    is a status; the answer is zero when the time was over before the first round. *)
Lemma offer_loop_spec Timeout buffer rounds log r q :
  Forall (fun p => offered_ok p.2) rounds -> r <= 0 ->
  forall result, offer_loop Timeout buffer rounds log r = Ret result q ->
    (0 < result /\ sent q = log ++ [buffer]) \/
    (result < 0 /\ sent q = log) \/
    (result = 0 /\ r = 0 /\ sent q = log /\ exists since answer, head rounds = Some (since, answer) /\ Timeout <= since).
Proof.
  revert log r. induction rounds as [|[since answer] rounds IH]; intros log r Hok Hr result; cbn [offer_loop]; [done|].
  apply Forall_cons in Hok as [Ho Hok]. cbn [snd] in Ho.
  destruct (Z.ltb_spec since Timeout) as [Ht|Ht].
  2:{ intros [= <- <-]. cbn [sent]. destruct (decide (r = 0)) as [->|]; [|right; left; split; [lia|done]].
      right; right. split_and!; [done..|]. by exists since, answer. }
  destruct answer as [p|s]; cbn [offered_ok offered_value] in *.
  - unfold NotConnected, BackPressured, AdminAction.
    rewrite (proj2 (Z.eqb_neq p (-1))), (proj2 (Z.eqb_neq p (-2))), (proj2 (Z.eqb_neq p (-3))) by lia.
    intros [= <- <-]. by left.
  - destruct (_ || _ || _).
    + intros Hrun. destruct (IH log s Hok ltac:(lia) result Hrun) as [?|[?|(? & ? & ?)]]; [by left|by right; left|lia].
    + intros [= <- <-]. right; left. by split.
Qed.

Section Sent.
Context (RangeChecking : bool) (Timeout SessionID : Z).

Lemma run_sent c q result q' :
  message_valid (message_of SessionID c) -> Forall (fun p => offered_ok p.2) (script q) ->
  run RangeChecking Timeout SessionID c q = Ret result q' ->
  match message_error RangeChecking (message_of SessionID c) with
  | Some e => result = Some e /\ q' = q
  | None =>
      match result with
      | Some _ => sent q' = sent q
      | None =>
          (exists bs, sent q' = sent q ++ [bs] /\ reads_as RangeChecking bs (message_of SessionID c)) \/
          (sent q' = sent q /\ exists since answer, head (script q) = Some (since, answer) /\ Timeout <= since)
      end
  end.
Proof using Type.
  intros Hv Hok. rewrite run_request. pose proof (message_marshalled RangeChecking SessionID c Hv) as Hm.
  destruct (message_error _ _) as [e|].
  - rewrite Hm. by intros [= <- <-].
  - destruct Hm as (bs & -> & Hr). cbn [request]. intros (r & q1 & Ho & Hk)%bind_inv_Ret.
    destruct (offer_loop_spec _ _ _ _ 0 q1 Hok ltac:(lia) r Ho) as [[Hp Hs]|[[Hp Hs]|(Hp & _ & Hs & Ht)]].
    + rewrite (proj2 (Z.ltb_ge r 0)) in Hk by lia. injection Hk as <- <-. left. by exists bs.
    + rewrite (proj2 (Z.ltb_lt r 0)) in Hk by lia. by injection Hk as <- <-.
    + subst r. injection Hk as <- <-. by right.
Qed.

(** C39. Every request of the proxy. When it reports no error exactly one message is behind the
    ones that were sent: the request with its parameters and the session of the archive, as
    the archive reads it, or else the timeout is over before the first round, which is
    reported as success. When it reports an error nothing is sent; a message that the range
    check refuses is never offered. *)
Theorem requests_sent c q result q' :
  message_valid (message_of SessionID c) -> Forall (fun p => offered_ok p.2) (script q) ->
  run RangeChecking Timeout SessionID c q = Ret result q' ->
  match message_error RangeChecking (message_of SessionID c) with
  | Some e => result = Some e /\ q' = q
  | None =>
      match result with
      | Some _ => sent q' = sent q
      | None =>
          (exists bs, sent q' = sent q ++ [bs] /\ reads_as RangeChecking bs (message_of SessionID c)) \/
          (sent q' = sent q /\ exists since answer, head (script q) = Some (since, answer) /\ Timeout <= since)
      end
  end.
Proof using Type. apply run_sent. Qed.
End Sent.

(** Enough rounds end an offer: one whose time is over, or one whose answer is final. *)
Lemma offer_returns Timeout buffer rounds log r :
  Exists (fun p => Timeout <= p.1 \/ (p.2 <> Refused NotConnected /\ p.2 <> Refused BackPressured /\ p.2 <> Refused AdminAction)) rounds ->
  Forall (fun p => offered_ok p.2) rounds ->
  exists result q, offer_loop Timeout buffer rounds log r = Ret result q.
Proof.
  revert log r. induction rounds as [|[since answer] rounds IH]; intros log r Hex Hok; [by inversion Hex|].
  apply Forall_cons in Hok as [Ho Hok]. cbn [offer_loop fst snd] in *.
  destruct (Z.ltb_spec since Timeout) as [Ht|Ht]; [|by eauto].
  destruct (_ || _ || _) eqn:E; [|by eauto].
  apply Exists_cons in Hex as [Hex|Hex]; [|by apply IH].
  cbn [fst snd] in Hex. destruct Hex as [?|(H1 & H2 & H3)]; [lia|].
  destruct answer as [p|s]; cbn [offered_ok offered_value] in *; unfold NotConnected, BackPressured, AdminAction in *.
  - lia.
  - exfalso. rewrite !orb_true_iff, !Z.eqb_eq in E. destruct E as [[->| ->]| ->]; naive_solver.
Qed.
