(* ===== verification/ArchiveControl.v ===== *)
(** * The responses of the archive

    archive/control.go: the handlers of the messages that the archive sends, and the polls that
    wait for one. The controls of a process are kept by their pointers, since a handler finds
    the control that waits for a response in the map of the correlation ids, which all controls
    share. The frames that a control can read are those of the one image of its response
    subscription, in order; Image.v and FragmentAssembler.v show that polling the image in
    memory is [deliver] and that the assembler is [assembled]. *)

From S2P Require Import Prelude Sbe ArchiveCodecs ArchivePackets ArchiveProxy.
From S2P Require Import Memory Flyweight LogBuffer TermSpec Appender Reader FragmentAssembler.

Local Open Scope m_scope.

Local Abbreviation bytes := (list Init.Byte.byte).

(** ** State *)

Record ControlResults : Type := mkResults {
  r_CorrelationId : Z;
  r_ControlResponse : option ControlResponse;
  r_RecordingDescriptors : list RecordingDescriptor;
  r_RecordingSubscriptionDescriptors : list RecordingSubscriptionDescriptor;
  r_IsPollComplete : bool;
  r_FragmentsReceived : Z;
  r_ErrorResponse : option string }.

Definition no_results : ControlResults := mkResults 0 None [] [] false 0 None.

Module ControlState.
Definition Error : Z := -1.
Definition New : Z := 1.
Definition ConnectRequestSent : Z := 2.
Definition Challenged : Z := 3.
Definition ConnectRequestOk : Z := 4.
Definition Connected : Z := 5.
Definition TimedOut : Z := 6.
End ControlState.

(** A control with what it reaches of its archive: the session, the requests, and the response
    subscription with the frames that wait in it. *)
Record Control : Type := mkControl {
  c_state : Z;
  c_err : option string;
  c_Results : ControlResults;
  c_SessionID : Z;
  c_fragmentAssembler : builders;
  c_requests : requests;
  c_pending : list frame;
  c_closed : bool;
  c_connected : bool }.

(** What the handlers use of the options and of the listeners of an archive. *)
Record Options : Type := mkOptions {
  RangeChecking : bool;
  Timeout : Z;
  AuthChallenge : option bytes;
  AuthResponse : bytes;
  has_ErrorListener : bool;
  has_RecordingSignalListener : bool }.

Inductive event : Type :=
| OnErrorEvent (what : string)
| OnRecordingSignal (e : RecordingSignalEvent).

(** The variables of the package, the controls, and the calls of listeners so far. *)
Record world : Type := mkWorld {
  w_controls : gmap nat Control;
  w_correlations : gmap Z nat;
  w_rangeChecking : bool;
  w_correlationID : Z;
  w_events : list (nat * event) }.

Definition W (A : Type) : Type := M world A.

Definition set_results (f : ControlResults -> ControlResults) (c : Control) : Control :=
  mkControl (c_state c) (c_err c) (f (c_Results c)) (c_SessionID c) (c_fragmentAssembler c) (c_requests c) (c_pending c) (c_closed c) (c_connected c).
Definition set_state (state : Z) (err : option string) (c : Control) : Control :=
  mkControl state err (c_Results c) (c_SessionID c) (c_fragmentAssembler c) (c_requests c) (c_pending c) (c_closed c) (c_connected c).
Definition set_SessionID (sid : Z) (c : Control) : Control :=
  mkControl (c_state c) (c_err c) (c_Results c) sid (c_fragmentAssembler c) (c_requests c) (c_pending c) (c_closed c) (c_connected c).
Definition set_assembler (b : builders) (c : Control) : Control :=
  mkControl (c_state c) (c_err c) (c_Results c) (c_SessionID c) b (c_requests c) (c_pending c) (c_closed c) (c_connected c).
Definition set_requests (q : requests) (c : Control) : Control :=
  mkControl (c_state c) (c_err c) (c_Results c) (c_SessionID c) (c_fragmentAssembler c) q (c_pending c) (c_closed c) (c_connected c).
Definition set_pending (fs : list frame) (c : Control) : Control :=
  mkControl (c_state c) (c_err c) (c_Results c) (c_SessionID c) (c_fragmentAssembler c) (c_requests c) fs (c_closed c) (c_connected c).
Definition set_closed (b : bool) (c : Control) : Control :=
  mkControl (c_state c) (c_err c) (c_Results c) (c_SessionID c) (c_fragmentAssembler c) (c_requests c) (c_pending c) b (c_connected c).

Definition set_ControlResponse (r : option ControlResponse) (x : ControlResults) : ControlResults :=
  mkResults (r_CorrelationId x) r (r_RecordingDescriptors x) (r_RecordingSubscriptionDescriptors x) (r_IsPollComplete x) (r_FragmentsReceived x) (r_ErrorResponse x).
Definition set_IsPollComplete (b : bool) (x : ControlResults) : ControlResults :=
  mkResults (r_CorrelationId x) (r_ControlResponse x) (r_RecordingDescriptors x) (r_RecordingSubscriptionDescriptors x) b (r_FragmentsReceived x) (r_ErrorResponse x).
Definition set_CorrelationId (z : Z) (x : ControlResults) : ControlResults :=
  mkResults z (r_ControlResponse x) (r_RecordingDescriptors x) (r_RecordingSubscriptionDescriptors x) (r_IsPollComplete x) (r_FragmentsReceived x) (r_ErrorResponse x).
Definition set_ErrorResponse (e : option string) (x : ControlResults) : ControlResults :=
  mkResults (r_CorrelationId x) (r_ControlResponse x) (r_RecordingDescriptors x) (r_RecordingSubscriptionDescriptors x) (r_IsPollComplete x) (r_FragmentsReceived x) e.
Definition add_descriptor (d : RecordingDescriptor) (x : ControlResults) : ControlResults :=
  mkResults (r_CorrelationId x) (r_ControlResponse x) (r_RecordingDescriptors x ++ [d]) (r_RecordingSubscriptionDescriptors x) (r_IsPollComplete x) (r_FragmentsReceived x + 1) (r_ErrorResponse x).
Definition add_subscription_descriptor (d : RecordingSubscriptionDescriptor) (x : ControlResults) : ControlResults :=
  mkResults (r_CorrelationId x) (r_ControlResponse x) (r_RecordingDescriptors x) (r_RecordingSubscriptionDescriptors x ++ [d]) (r_IsPollComplete x) (r_FragmentsReceived x + 1) (r_ErrorResponse x).
Definition clear_descriptors (x : ControlResults) : ControlResults :=
  mkResults (r_CorrelationId x) None [] [] false 0 (r_ErrorResponse x).

Definition with_controls (cs : gmap nat Control) (w : world) : world :=
  mkWorld cs (w_correlations w) (w_rangeChecking w) (w_correlationID w) (w_events w).
Definition with_correlations (m : gmap Z nat) (w : world) : world :=
  mkWorld (w_controls w) m (w_rangeChecking w) (w_correlationID w) (w_events w).
Definition with_rangeChecking (b : bool) (w : world) : world :=
  mkWorld (w_controls w) (w_correlations w) b (w_correlationID w) (w_events w).
Definition with_correlationID (z : Z) (w : world) : world :=
  mkWorld (w_controls w) (w_correlations w) (w_rangeChecking w) z (w_events w).
Definition with_events (es : list (nat * event)) (w : world) : world :=
  mkWorld (w_controls w) (w_correlations w) (w_rangeChecking w) (w_correlationID w) es.

(** A pointer to no control is nil. *)
Definition get_control (p : nat) : W Control := fun w =>
  match w_controls w !! p with Some c => Ret c w | None => Exc (EPanic "nil pointer dereference") w end.
Definition update_control (p : nat) (f : Control -> Control) : W unit := fun w =>
  match w_controls w !! p with
  | Some c => Ret tt (with_controls (<[p := f c]> (w_controls w)) w)
  | None => Exc (EPanic "nil pointer dereference") w
  end.
Definition emit (p : nat) (e : event) : W unit := fun w => Ret tt (with_events (w_events w ++ [(p, e)]) w).
Definition read_rangeChecking : W bool := fun w => Ret (w_rangeChecking w) w.
Definition write_rangeChecking (b : bool) : W unit := fun w => Ret tt (with_rangeChecking b w).
Definition load_correlation (id : Z) : W (option nat) := fun w => Ret (w_correlations w !! id) w.

(** ** Decoding *)

Definition decode_header (msg : bytes) : SbeGoMessageHeader * bytes * option string :=
  match SbeGoMessageHeader_Decode (msg, zero_header) with
  | Ret _ (buf, hdr) => (hdr, buf, None)
  | Exc (EError e) (buf, hdr) => (hdr, buf, Some e)
  | Exc _ (buf, hdr) => (hdr, buf, Some "panic"%string)
  end.

(** A message that is not complete is used as far as it was read by some of the handlers. *)
Definition decode_message (A : Type) `{Codec A} (hdr : SbeGoMessageHeader) (buf : bytes) (check : bool)
  : A * option string :=
  match Decode (Version hdr) (BlockLength hdr) check (buf, zero) with
  | Ret _ (_, a) => (a, None)
  | Exc (EError e) (_, a) => (a, Some e)
  | Exc _ (_, a) => (a, Some "panic"%string)
  end.

(** The template ids of [codecIds]. *)
Inductive kind : Type :=
| KControlResponse | KChallenge | KRecordingDescriptor | KRecordingSubscriptionDescriptor
| KRecordingSignalEvent | KOther.

Definition kind_of (hdr : SbeGoMessageHeader) : kind :=
  let t := TemplateId hdr in
  if t =? SbeTemplateId (A := ControlResponse) then KControlResponse
  else if t =? SbeTemplateId (A := Challenge) then KChallenge
  else if t =? SbeTemplateId (A := RecordingDescriptor) then KRecordingDescriptor
  else if t =? SbeTemplateId (A := RecordingSubscriptionDescriptor) then KRecordingSubscriptionDescriptor
  else if t =? SbeTemplateId (A := RecordingSignalEvent) then KRecordingSignalEvent
  else KOther.

(** ** Handlers *)

Section Handlers.
(** The options of the archive of a control. *)
Context (opts : nat -> Options).

Definition call_ErrorListener (p : nat) (what : string) : W unit :=
  when (has_ErrorListener (opts p)) (emit p (OnErrorEvent what)).
Definition call_RecordingSignalListener (p : nat) (e : RecordingSignalEvent) : W unit :=
  when (has_RecordingSignalListener (opts p)) (emit p (OnRecordingSignal e)).

(** [PollContext]: the control that polls, and the id it waits for. *)
Record PollContext : Type := mkPollContext { pc_control : nat; pc_correlationID : Z }.

Definition for_us (c : Control) (controlSessionId correlationId waited : Z) : bool :=
  (controlSessionId =? c_SessionID c) && (correlationId =? waited).

(** The response that [PollForResponse] waits for ends the poll; signals go to the listener,
    even when they are not complete; all else is ignored. *)
Definition controlFragmentHandler (context : PollContext) (msg : bytes) : W ControlledPollAction :=
  let p := pc_control context in
  let! ctl := get_control p in
  if r_IsPollComplete (c_Results ctl) then ret ControlledPollActionAbort
  else
    let '(hdr, buf, err) := decode_header msg in
    match err with
    | Some e => call_ErrorListener p e ;;; ret ControlledPollActionContinue
    | None =>
        let! found := load_correlation (pc_correlationID context) in
        match found with
        | None => call_ErrorListener p "failed to locate control" ;;; ret ControlledPollActionContinue
        | Some control =>
            let! check := read_rangeChecking in
            match kind_of hdr with
            | KControlResponse =>
                let '(response, err) := decode_message ControlResponse hdr buf check in
                match err with
                | Some e => call_ErrorListener p e ;;; ret ControlledPollActionContinue
                | None =>
                    let! c := get_control control in
                    if for_us c (ControlResponse_ControlSessionId response) (ControlResponse_CorrelationId response) (pc_correlationID context)
                    then
                      update_control control (set_results (fun r => set_IsPollComplete true (set_ControlResponse (Some response) r))) ;;;
                      ret ControlledPollActionBreak
                    else ret ControlledPollActionContinue
                end
            | KRecordingSignalEvent =>
                let '(signal, err) := decode_message RecordingSignalEvent hdr buf check in
                match err with Some e => call_ErrorListener p e | None => ret tt end ;;;
                call_RecordingSignalListener p signal ;;;
                ret ControlledPollActionContinue
            | _ => ret ControlledPollActionContinue
            end
        end
    end.

(** Requests are sent with the options and the session of the archive. *)
Definition Proxy_call (p : nat) (c : call) : W (option string) :=
  let! ctl := get_control p in
  match run (RangeChecking (opts p)) (Timeout (opts p)) (c_SessionID ctl) c (c_requests ctl) with
  | Ret err q => update_control p (set_requests q) ;;; ret err
  | Exc e q => update_control p (set_requests q) ;;; raise e
  end.

(** The handler of the connection: the response or the challenge of the connect request. A
    response that is not expected is reported as an error, and taken all the same. *)
Definition ConnectionControlFragmentHandler (context : PollContext) (msg : bytes) : W unit :=
  let p := pc_control context in
  let '(hdr, buf, err) := decode_header msg in
  match err with Some e => call_ErrorListener p e | None => ret tt end ;;;
  let! check := read_rangeChecking in
  match kind_of hdr with
  | KControlResponse =>
      let '(response, err) := decode_message ControlResponse hdr buf check in
      match err with
      | Some e => call_ErrorListener p e
      | None =>
          let! found := load_correlation (ControlResponse_CorrelationId response) in
          match found with
          | None => ret tt
          | Some control =>
              if ControlResponse_CorrelationId response =? pc_correlationID context then
                if negb (ControlResponse_Code response =? ControlResponseCode.OK) then
                  update_control control (set_state ControlState.Error (Some "Control Response failure"%string)) ;;;
                  call_ErrorListener p "Control Response failure"
                else
                  let! c := get_control control in
                  when (negb (c_state c =? ControlState.ConnectRequestSent))
                    (update_control control (set_state ControlState.Error (Some "Control Response not expecting response"%string)) ;;;
                     call_ErrorListener p "Control Response not expecting response") ;;;
                  update_control control (set_state ControlState.Connected None) ;;;
                  update_control control (set_SessionID (ControlResponse_ControlSessionId response))
              else ret tt
          end
      end
  | KChallenge =>
      let '(challenge, err) := decode_message Challenge hdr buf check in
      match err with Some e => call_ErrorListener p e | None => ret tt end ;;;
      let! found := load_correlation (Challenge_CorrelationId challenge) in
      match found with
      | None => ret tt
      | Some control =>
          if Challenge_CorrelationId challenge =? pc_correlationID context then
            let refused := match AuthChallenge (opts control) with
                           | Some expected => negb (bool_decide (expected = Challenge_EncodedChallenge challenge))
                           | None => false
                           end in
            if refused then
              let! c := get_control control in
              update_control control (set_state (c_state c) (Some "ChallengeResponse Unexpected"%string))
            else
              update_control control (set_state ControlState.Challenged None) ;;;
              update_control control (set_SessionID (Challenge_ControlSessionId challenge)) ;;;
              Proxy_call control (CallChallengeResponse (Challenge_CorrelationId challenge) (AuthResponse (opts control))) ;;;
              ret tt
          else ret tt
      end
  | _ => ret tt
  end.

(** Between requests: an error of this session ends the poll, and so do, too late, answers that
    nobody waits for; signals go to the listener, those of this session twice. *)
Definition errorResponseFragmentHandler (p : nat) (msg : bytes) : W ControlledPollAction :=
  let! ctl := get_control p in
  match r_ErrorResponse (c_Results ctl) with
  | Some _ => ret ControlledPollActionAbort
  | None =>
      let '(hdr, buf, err) := decode_header msg in
      match err with Some e => call_ErrorListener p e | None => ret tt end ;;;
      let! check := read_rangeChecking in
      match kind_of hdr with
      | KControlResponse =>
          let '(response, err) := decode_message ControlResponse hdr buf check in
          match err with
          | Some e => call_ErrorListener p e ;;; ret ControlledPollActionContinue
          | None =>
              if (ControlResponse_ControlSessionId response =? c_SessionID ctl)
                 && (ControlResponse_Code response =? ControlResponseCode.ERROR)
              then
                update_control p (set_results (set_ErrorResponse (Some "PollForErrorResponse received a ControlResponse"%string))) ;;;
                ret ControlledPollActionBreak
              else ret ControlledPollActionContinue
          end
      | KChallenge =>
          let '(challenge, err) := decode_message Challenge hdr buf check in
          match err with Some e => call_ErrorListener p e | None => ret tt end ;;;
          when (Challenge_ControlSessionId challenge =? c_SessionID ctl)
            (update_control p (set_results (set_ErrorResponse (Some "Received and ignoring challenge"%string)))) ;;;
          ret ControlledPollActionContinue
      | KRecordingDescriptor =>
          let '(rd, err) := decode_message RecordingDescriptor hdr buf check in
          match err with Some e => call_ErrorListener p e | None => ret tt end ;;;
          when (RecordingDescriptor_ControlSessionId rd =? c_SessionID ctl)
            (update_control p (set_results (set_ErrorResponse (Some "Received and ignoring recordingDescriptor"%string)))) ;;;
          ret ControlledPollActionContinue
      | KRecordingSubscriptionDescriptor =>
          let '(rsd, err) := decode_message RecordingSubscriptionDescriptor hdr buf check in
          match err with Some e => call_ErrorListener p e | None => ret tt end ;;;
          when (RecordingSubscriptionDescriptor_ControlSessionId rsd =? c_SessionID ctl)
            (update_control p (set_results (set_ErrorResponse (Some "Received and ignoring recordingsubscriptionDescriptor"%string)))) ;;;
          ret ControlledPollActionContinue
      | KRecordingSignalEvent =>
          let '(rse, err) := decode_message RecordingSignalEvent hdr buf check in
          match err with Some e => call_ErrorListener p e | None => ret tt end ;;;
          call_RecordingSignalListener p rse ;;;
          when (RecordingSignalEvent_ControlSessionId rse =? c_SessionID ctl) (call_RecordingSignalListener p rse) ;;;
          ret ControlledPollActionContinue
      | KOther => ret ControlledPollActionContinue
      end
  end.

(** The handler of [Poll]: the first response, of whatever session, ends the poll. *)
Definition onFragment (p : nat) (msg : bytes) : W ControlledPollAction :=
  let! ctl := get_control p in
  if r_IsPollComplete (c_Results ctl) then ret ControlledPollActionAbort
  else
    let '(hdr, buf, err) := decode_header msg in
    match err with
    | Some e => call_ErrorListener p e ;;; ret ControlledPollActionContinue
    | None =>
        let! check := read_rangeChecking in
        match kind_of hdr with
        | KControlResponse =>
            let '(response, err) := decode_message ControlResponse hdr buf check in
            match err with
            | Some e => call_ErrorListener p e ;;; ret ControlledPollActionContinue
            | None =>
                update_control p (set_results (fun r =>
                  set_CorrelationId (ControlResponse_CorrelationId response)
                    (set_IsPollComplete true (set_ControlResponse (Some response) r)))) ;;;
                ret ControlledPollActionBreak
            end
        | KRecordingSignalEvent =>
            let '(_, err) := decode_message RecordingSignalEvent hdr buf check in
            match err with Some e => call_ErrorListener p e | None => ret tt end ;;;
            ret ControlledPollActionContinue
        | _ => ret ControlledPollActionContinue
        end
    end.

(** Descriptors for the request are collected; the end of them, and any error, end the poll. *)
Definition DescriptorFragmentHandler (context : PollContext) (msg : bytes) : W unit :=
  let p := pc_control context in
  let '(hdr, buf, err) := decode_header msg in
  match err with
  | Some e => call_ErrorListener p e
  | None =>
      let! found := load_correlation (pc_correlationID context) in
      match found with
      | None => call_ErrorListener p "failed to locate control"
      | Some control =>
          let! check := read_rangeChecking in
          let! c := get_control control in
          match kind_of hdr with
          | KRecordingDescriptor =>
              let '(d, err) := decode_message RecordingDescriptor hdr buf check in
              match err with
              | Some e => call_ErrorListener p e
              | None =>
                  when (for_us c (RecordingDescriptor_ControlSessionId d) (RecordingDescriptor_CorrelationId d) (pc_correlationID context))
                    (update_control control (set_results (add_descriptor d)))
              end
          | KRecordingSubscriptionDescriptor =>
              let '(d, err) := decode_message RecordingSubscriptionDescriptor hdr buf check in
              match err with
              | Some e => call_ErrorListener p e
              | None =>
                  when (for_us c (RecordingSubscriptionDescriptor_ControlSessionId d) (RecordingSubscriptionDescriptor_CorrelationId d) (pc_correlationID context))
                    (update_control control (set_results (add_subscription_descriptor d)))
              end
          | KControlResponse =>
              let '(response, err) := decode_message ControlResponse hdr buf check in
              match err with
              | Some e => call_ErrorListener p e
              | None =>
                  when ((ControlResponse_ControlSessionId response =? c_SessionID c) &&
                        (((ControlResponse_CorrelationId response =? pc_correlationID context)
                          && (ControlResponse_Code response =? ControlResponseCode.RECORDING_UNKNOWN))
                         || (ControlResponse_Code response =? ControlResponseCode.ERROR)))
                    (update_control control (set_results (fun r => set_IsPollComplete true (set_ControlResponse (Some response) r))))
              end
          | KRecordingSignalEvent =>
              let '(signal, err) := decode_message RecordingSignalEvent hdr buf check in
              match err with
              | Some e => call_ErrorListener p e
              | None => call_RecordingSignalListener p signal
              end
          | _ => ret tt
          end
      end
  end.
End Handlers.

(** ** Polls *)

(** [Image.ControlledPoll] on the frames that wait: those that are left, and how many were
    handed over. *)
Fixpoint deliver {S} (handler : frame -> M S ControlledPollAction) (fragmentLimit n : Z) (fs : list frame)
  : M S (Z * list frame) :=
  match fs with
  | [] => ret (n, [])
  | f :: fs' =>
      if n <? fragmentLimit then
        if is_padding f then deliver handler fragmentLimit n fs'
        else
          let! action := handler f in
          match action with
          | ControlledPollActionAbort => ret (n, fs)
          | ControlledPollActionBreak => ret (n + 1, fs')
          | ControlledPollActionCommit | ControlledPollActionContinue => deliver handler fragmentLimit (n + 1) fs'
          end
      else ret (n, fs)
  end.

(** [ControlledFragmentAssembler.OnFragment] in front of a handler of messages. *)
Definition assembled {U} (delegate : bytes -> M U ControlledPollAction) (f : frame)
  : M (builders * U) ControlledPollAction := fun '(bm, u) =>
  let delegated (msg : bytes) (bm_of : ControlledPollAction -> builders) :=
    match delegate msg u with
    | Ret a u' => Ret a (bm_of a, u')
    | Exc e u' => Exc e (bm_of ControlledPollActionAbort, u')
    end in
  if Z.land (fr_flags f) unfragmented =? unfragmented then delegated (fr_data f) (fun _ => bm)
  else if Z.land (fr_flags f) beginFrag =? beginFrag then
    Ret ControlledPollActionContinue (<[fr_session f := fr_data f]> bm, u)
  else match bm !! fr_session f with
       | Some ((_ :: _) as old) =>
           if Z.land (fr_flags f) endFrag =? endFrag then
             delegated (old ++ fr_data f) (fun a =>
               if decide (a = ControlledPollActionAbort) then bm else <[fr_session f := []]> bm)
           else Ret ControlledPollActionContinue (<[fr_session f := old ++ fr_data f]> bm, u)
       | _ => Ret ControlledPollActionContinue (bm, u)
       end.

(** The frames of the control [p] are polled with a handler that keeps state of its own. *)
Definition ControlledPoll {X} (p : nat) (handler : frame -> M (X * world) ControlledPollAction) (fragmentLimit : Z)
  : M (X * world) Z := fun '(x, w) =>
  match w_controls w !! p with
  | None => Exc (EPanic "nil pointer dereference") (x, w)
  | Some c =>
      match deliver handler fragmentLimit 0 (c_pending c) (x, w) with
      | Ret (n, fs) (x', w') =>
          match update_control p (set_pending fs) w' with
          | Ret _ w'' => Ret n (x', w'')
          | Exc e w'' => Exc e (x', w'')
          end
      | Exc e s => Exc e s
      end
  end.

(** Run a computation of the world beside state of its own. *)
Definition on_world {X A} (c : W A) : M (X * world) A := fun '(x, w) =>
  match c w with Ret a w' => Ret a (x, w') | Exc e w' => Exc e (x, w') end.
Definition run_with {X A} (x : X) (c : M (X * world) A) : W A := fun w =>
  match c (x, w) with Ret a (_, w') => Ret a w' | Exc e (_, w') => Exc e w' end.

Section Polls.
Context (opts : nat -> Options).

Definition poll {X} (p : nat) (handler : frame -> M (X * world) ControlledPollAction) (fragmentLimit : Z)
  : M (X * world) Z :=
  on_world (write_rangeChecking (RangeChecking (opts p))) ;;;
  on_world (update_control p (set_results (fun r => set_IsPollComplete false (set_ControlResponse None r)))) ;;;
  ControlledPoll p handler fragmentLimit.

Definition controlFragmentLimit : Z := 10.

(** The assembler of [Poll] is kept by the control. *)
Definition Poll (p : nat) : W Z :=
  let! ctl := get_control p in
  when (r_IsPollComplete (c_Results ctl))
    (write_rangeChecking (RangeChecking (opts p)) ;;; update_control p (set_results (fun _ => no_results))) ;;;
  fun w =>
    match ControlledPoll p (assembled (onFragment opts p)) controlFragmentLimit (c_fragmentAssembler ctl, w) with
    | Ret n (bm, w') => (update_control p (set_assembler bm) ;;; ret n) w'
    | Exc e (bm, w') => (update_control p (set_assembler bm) ;;; raise e) w'
    end.

(** A round of a loop that waits: the frames that came in before its poll, whether the
    subscription is closed, and the time since the start after the poll. *)
Record tick : Type := mkTick { t_arrived : list frame; t_closed : bool; t_since : Z }.

Definition arrive (p : nat) (t : tick) : W unit :=
  update_control p (fun c => set_closed (t_closed t) (set_pending (c_pending c ++ t_arrived t) c)).

(** [PollForErrorResponse]: until there is an error, or nothing. *)
Fixpoint error_loop (p : nat) (ticks : list tick) (received : Z) : W (Z * option string) :=
  match ticks with
  | [] => raise EFuel
  | t :: ticks' =>
      arrive p t ;;;
      let! n := run_with tt (poll p (fun f => on_world (errorResponseFragmentHandler opts p (fr_data f))) 10) in
      let received := received + n in
      let! ctl := get_control p in
      match r_ErrorResponse (c_Results ctl) with
      | Some e => ret (received, Some e)
      | None => if n =? 0 then ret (received, None) else error_loop p ticks' received
      end
  end.

Definition PollForErrorResponse (p : nat) (ticks : list tick) : W (Z * option string) :=
  update_control p (set_results (set_ErrorResponse None)) ;;;
  let! ctl := get_control p in
  if negb (c_connected ctl) then ret (0, Some "not connected"%string)
  else error_loop p ticks 0.

(** [PollForResponse]: until the response, the end of the subscription or the timeout. The
    assembler lives as long as the call. *)
Fixpoint response_loop (p : nat) (correlationID : Z) (ticks : list tick) : M (builders * world) (Z * option string) :=
  match ticks with
  | [] => raise EFuel
  | t :: ticks' =>
      on_world (arrive p t) ;;;
      let! n := poll p (assembled (controlFragmentHandler opts (mkPollContext p correlationID))) 10 in
      let! ctl := on_world (get_control p) in
      if r_IsPollComplete (c_Results ctl) then
        match r_ControlResponse (c_Results ctl) with
        | None => raise (EPanic "nil pointer dereference")
        | Some response =>
            if negb (ControlResponse_Code response =? ControlResponseCode.OK)
            then ret (ControlResponse_RelevantId response, Some "Control Response failure"%string)
            else ret (ControlResponse_RelevantId response, None)
        end
      else if c_closed ctl then ret (0, Some "response channel from archive is not connected"%string)
      else if t_since t >? Timeout (opts p) then ret (0, Some "timeout"%string)
      else response_loop p correlationID ticks'
  end.

Definition PollForResponse (p : nat) (correlationID : Z) (ticks : list tick) : W (Z * option string) :=
  run_with ∅ (response_loop p correlationID ticks).

Definition descriptor_count (r : ControlResults) : Z :=
  zlen (r_RecordingDescriptors r) + zlen (r_RecordingSubscriptionDescriptors r).

(** [PollForDescriptors]: until they are complete, or as many as are wanted. *)
Fixpoint descriptor_loop (p : nat) (correlationID fragmentsWanted descriptorCount : Z) (ticks : list tick)
  : W (option string) :=
  match ticks with
  | [] => raise EFuel
  | t :: ticks' =>
      arrive p t ;;;
      let! fragments := run_with tt (poll p (fun f =>
        on_world (DescriptorFragmentHandler opts (mkPollContext p correlationID) (fr_data f) ;;; ret ControlledPollActionContinue))
        (fragmentsWanted - descriptorCount)) in
      let! ctl := get_control p in
      let descriptorCount := descriptor_count (c_Results ctl) in
      if r_IsPollComplete (c_Results ctl) || (descriptorCount >=? fragmentsWanted) then ret None
      else if c_closed ctl then ret (Some "response channel from archive is not connected"%string)
      else if t_since t >? Timeout (opts p) then ret (Some "PollNextDescriptor timeout"%string)
      else descriptor_loop p correlationID fragmentsWanted descriptorCount ticks'
  end.

Definition PollForDescriptors (p : nat) (correlationID fragmentsWanted : Z) (ticks : list tick) : W (option string) :=
  write_rangeChecking (RangeChecking (opts p)) ;;;
  update_control p (set_results clear_descriptors) ;;;
  descriptor_loop p correlationID fragmentsWanted 0 ticks.
End Polls.
