(* ===== verification/RecordingEvents.v ===== *)
(** * Recording events and counters

    archive/recordingevents.go: the adapter that polls the stream of recording events of an
    archive and calls the listeners; archive/recording_pos_counter.go: the counters by which the
    position of a recording is seen. *)

From S2P Require Import Prelude Memory Bits Flyweight LogBuffer Counters TermSpec Sbe SbePacket ArchiveCodecs ArchivePackets ArchiveProxy ArchiveControl.

Local Open Scope m_scope.

Local Abbreviation bytes := (list Init.Byte.byte).

(** ** The adapter *)

(** The listeners of an archive that are set. *)
Record ArchiveListeners : Type := mkListeners {
  l_Error : bool; l_Started : bool; l_Progress : bool; l_Stopped : bool }.

Inductive listener_call : Type :=
| ErrorListener (what : string)
| RecordingEventStartedListener (e : RecordingStarted)
| RecordingEventProgressListener (e : RecordingProgress)
| RecordingEventStoppedListener (e : RecordingStopped).

(** The variable of the package, the frames of the stream that were not polled, and the calls. *)
Record events_world : Type := mkEvents { ev_rangeChecking : bool; ev_pending : list frame; ev_calls : list listener_call }.

Definition E (T : Type) : Type := M events_world T.

Definition notify (c : listener_call) : E unit := fun w =>
  Ret tt (mkEvents (ev_rangeChecking w) (ev_pending w) (ev_calls w ++ [c])).

Section Adapter.
Context (listeners : ArchiveListeners).

(** A decoded event, or the error, for the listener if there is one. *)
Definition event_for {T} (name : string) (set : bool) (call : T -> listener_call) (m : T * option string) : E unit :=
  match m with
  | (_, Some err) => when (l_Error listeners) (notify (ErrorListener ("Decode() of " +:+ name +:+ " failed: " +:+ err)))
  | (e, None) => when set (notify (call e))
  end.

(** A header that is not complete is reported, and then used as far as it was read. *)
Definition reFragmentHandler (msg : bytes) : E unit := fun w =>
  (let '(hdr, buf, err) := decode_header msg in
   match err with
   | Some e => when (l_Error listeners) (notify (ErrorListener ("reFragmentHandler() failed to decode control message header: " +:+ e)))
   | None => ret tt
   end ;;;
   let check := ev_rangeChecking w in
   if TemplateId hdr =? SbeTemplateId (A := RecordingStarted) then
     event_for "RecordingStarted" (l_Started listeners) RecordingEventStartedListener (decode_message RecordingStarted hdr buf check)
   else if TemplateId hdr =? SbeTemplateId (A := RecordingProgress) then
     event_for "RecordingProgress" (l_Progress listeners) RecordingEventProgressListener (decode_message RecordingProgress hdr buf check)
   else if TemplateId hdr =? SbeTemplateId (A := RecordingStopped) then
     event_for "RecordingStopped" (l_Stopped listeners) RecordingEventStoppedListener (decode_message RecordingStopped hdr buf check)
   else ret tt) w.

(** [Subscription.Poll] *)
Fixpoint events_loop (handler : bytes -> E unit) (fragmentLimit n : Z) (fs : list frame) : E (Z * list frame) :=
  match fs with
  | [] => ret (n, [])
  | f :: fs' =>
      if n <? fragmentLimit then
        if is_padding f then events_loop handler fragmentLimit n fs'
        else handler (fr_data f) ;;; events_loop handler fragmentLimit (n + 1) fs'
      else ret (n, fs)
  end.

Definition PollWithContext (rangeChecking : bool) (handler : option (bytes -> E unit)) (fragmentLimit : Z) : E Z := fun w =>
  ((fun w => Ret tt (mkEvents rangeChecking (ev_pending w) (ev_calls w))) ;;;
   let h := match handler with Some h => h | None => reFragmentHandler end in
   let limit := if fragmentLimit =? 0 then 1 else fragmentLimit in
   let! r := events_loop h limit 0 (ev_pending w) in
   let '(n, rest) := r in
   (fun w => Ret n (mkEvents (ev_rangeChecking w) rest (ev_calls w)))) w.
End Adapter.

(** ** Counters of recordings *)

Definition RECORDING_POSITION_COUNTER_TYPE_ID : Z := 100.
Definition NULL_RECORDING_ID : Z := -1.
Definition RECORDING_ID_OFFSET : Z := 0.
Definition SESSION_ID_OFFSET : Z := 8.
Definition SOURCE_IDENTITY_LENGTH_OFFSET : Z := 12.

Definition FindCounterIdByRecording (r : Reader) (recordingId : Z) : M mem Z :=
  FindCounter r RECORDING_POSITION_COUNTER_TYPE_ID
    (Some (fun key => let! v := GetInt64 key RECORDING_ID_OFFSET in ret (v =? recordingId))).

Definition FindCounterIdBySession (r : Reader) (sessionId : Z) : M mem Z :=
  FindCounter r RECORDING_POSITION_COUNTER_TYPE_ID
    (Some (fun key => let! v := GetInt32 key SESSION_ID_OFFSET in ret (v =? sessionId))).

Definition GetRecordingId (r : Reader) (counterId : Z) : M mem Z :=
  let! t := GetCounterTypeId r counterId in
  if negb (t =? RECORDING_POSITION_COUNTER_TYPE_ID) then ret NULL_RECORDING_ID
  else
    let! v := GetKeyPartInt64 r counterId RECORDING_ID_OFFSET in
    match v with inl recordingId => ret recordingId | inr _ => ret NULL_RECORDING_ID end.

Definition GetSourceIdentity (r : Reader) (counterId : Z) : M mem bytes :=
  let! t := GetCounterTypeId r counterId in
  if negb (t =? RECORDING_POSITION_COUNTER_TYPE_ID) then ret []
  else
    let! v := GetKeyPartString r counterId SOURCE_IDENTITY_LENGTH_OFFSET in
    match v with inl identity => ret identity | inr _ => ret [] end.

Definition IsRecordingActive (r : Reader) (counterId recordingId : Z) : M mem bool :=
  let! v := GetKeyPartInt64 r counterId RECORDING_ID_OFFSET in
  ret (match v with inl recId => recId =? recordingId | inr _ => false end).

(** ** Counters that are found *)

Section RecordingCounters.
Context (m : mem) (r : Reader) (n : Z) (Hr : ctr_ok m r n).

(** The recording of a counter, as its key has it. *)
Definition rec_recording (id : Z) : Z := rd_i64 m (bufferPtr (rd_metaData r) + (id * 512 + 16)).

Lemma key_int64_read id : 0 <= id < n -> GetInt64 (keyBuffer r (id * 512)) RECORDING_ID_OFFSET m = Ret (rec_recording id) m.
Proof using Hr.
  intros Hid. pose proof Hr as [Hm Hv Hn Hml Hvl Hmax]. pose proof (buf_ok_length _ _ Hm).
  assert (keyBuffer r (id * 512) = mkBuffer (bufferPtr (rd_metaData r) + (id * 512 + 16)) MaxKeyLength) as ->.
  { unfold keyBuffer, Buffer_Wrap, Ptr. change KeyOffset with 16. rewrite i32_small by lia.
    by rewrite (ptr_add_ok m (rd_metaData r) (id * 512 + 16) 1) by (done || lia). }
  assert (buf_ok m (mkBuffer (bufferPtr (rd_metaData r) + (id * 512 + 16)) MaxKeyLength)) as Hb.
  { split; cbn; [|done]. apply (buf_ok_sub m (rd_metaData r)); [done|lia|done|unfold MaxKeyLength, CacheLineLength; lia]. }
  rewrite GetInt64_ok; [|exact Hb|done|by vm_compute]. cbn [bufferPtr]. unfold rec_recording, RECORDING_ID_OFFSET. by rewrite Z.add_0_r.
Qed.

Lemma recording_filters recordingId :
  filters m r n (Some (fun key => let! v := GetInt64 key RECORDING_ID_OFFSET in ret (v =? recordingId)))
    (fun id => rec_recording id =? recordingId).
Proof using Hr. intros id Hid. by erewrite bind_Ret by (by apply key_int64_read). Qed.

Lemma key_part_recording id :
  0 <= id < n - 1 -> rec_status m r id = RecordAllocated -> GetKeyPartInt64 r id RECORDING_ID_OFFSET m = Ret (inl (rec_recording id)) m.
Proof using Hr.
  intros Hid Hs. pose proof Hr as [Hm Hv Hn Hml Hvl Hmax]. unfold GetKeyPartInt64, key_part, validateCounterIdAndOffset.
  rewrite (valid_id_in m r n) by done. change (i32 (RECORDING_ID_OFFSET + 8)) with 8. cbn [negb Z.ltb Z.compare orb].
  change (8 >=? MaxKeyLength) with false. cbv iota zeta. change MetadataLength with 512. change KeyOffset with 16.
  rewrite (i32_small (id * 512)) by lia. erewrite bind_Ret by (apply (Get_status m r n Hr); lia). rewrite Hs. cbn [negb Z.eqb Pos.eqb RecordAllocated].
  unfold RECORDING_ID_OFFSET. rewrite Z.add_0_r, !i32_small by (rewrite ?i32_small; lia).
  erewrite bind_Ret by (apply GetInt64_ok; [done|lia..]). reflexivity.
Qed.
End RecordingCounters.

(** The counter that is found for a recording is one of that recording: it is allocated, of the
    type of recording positions, gives back the id of the recording and is said to be active for
    it and for no other; and it is the first such counter. When none is found, there is none
    before the first unused record. *)
Theorem recording_counter_found m r n recordingId :
  ctr_ok m r n ->
  exists c, FindCounterIdByRecording r recordingId m = Ret c m /\
    ((0 <= c < n - 1 /\ GetRecordingId r c m = Ret recordingId m /\
      (forall other, IsRecordingActive r c other m = Ret (recordingId =? other) m) /\
      forall j, 0 <= j < c -> rec_status m r j = RecordAllocated -> rec_type m r j = RECORDING_POSITION_COUNTER_TYPE_ID ->
        rec_recording m r j <> recordingId) \/
     (c = NullCounterId /\
      forall j, 0 <= j < n - 1 -> rec_status m r j = RecordAllocated -> rec_type m r j = RECORDING_POSITION_COUNTER_TYPE_ID ->
        rec_recording m r j = recordingId -> exists i, 0 <= i < j /\ rec_status m r i = RecordUnused)).
Proof.
  intros Hr. destruct (FindCounter_found m r n RECORDING_POSITION_COUNTER_TYPE_ID _ _ Hr (recording_filters m r n Hr recordingId)) as (c & Hrun & Hc).
  exists c. split; [exact Hrun|]. destruct Hc as [(Hc & (Hs & Ht & Hp) & Hj)|(-> & Hj)]; [left|right].
  - apply Z.eqb_eq in Hp. pose proof (key_part_recording m r n Hr c Hc Hs) as Hkey. split_and!; [lia|lia|..].
    + unfold GetRecordingId. erewrite bind_Ret by (by apply (Get_type_id m r n)). rewrite Ht. cbn [negb Z.eqb Pos.eqb RECORDING_POSITION_COUNTER_TYPE_ID].
      erewrite bind_Ret by exact Hkey. by rewrite Hp.
    + intros other. unfold IsRecordingActive. erewrite bind_Ret by exact Hkey. by rewrite Hp.
    + intros j Hjc Hsj Htj Hrj. destruct (Hj j Hjc) as [_ Hno]. apply Hno. split_and!; [done|done|by apply Z.eqb_eq].
  - split; [done|]. intros j Hjn Hsj Htj Hrj. apply (Hj j Hjn). split_and!; [done|done|by apply Z.eqb_eq].
Qed.

(** ** Events that are delivered *)

Inductive recording_event : Type :=
| EStarted (e : RecordingStarted) | EProgress (e : RecordingProgress) | EStopped (e : RecordingStopped).

(** An event in a frame of its own. *)
Definition carries (check : bool) (f : frame) (ev : recording_event) : Prop :=
  is_padding f = false /\
  match ev with
  | EStarted e => valid e /\ packet e check = inl (fr_data f)
  | EProgress e => valid e /\ packet e check = inl (fr_data f)
  | EStopped e => valid e /\ packet e check = inl (fr_data f)
  end.

Definition calls_for (l : ArchiveListeners) (ev : recording_event) : list listener_call :=
  match ev with
  | EStarted e => if l_Started l then [RecordingEventStartedListener e] else []
  | EProgress e => if l_Progress l then [RecordingEventProgressListener e] else []
  | EStopped e => if l_Stopped l then [RecordingEventStoppedListener e] else []
  end.

Lemma packet_decoded {A} `{CodecLaws A} (a : A) check bs :
  header_fits A -> valid a -> packet a check = inl bs ->
  exists buf, decode_header bs = (header_of A, buf, None) /\ decode_message A (header_of A) buf check = (a, None).
Proof.
  intros (Hb & Ht & Hs & Hv) Hvalid Hp. destruct (header_roundtrip (header_of A) [] Hb Ht Hs Hv) as (hb & Henc & _ & _).
  unfold packet in Hp. erewrite bind_Ret in Hp by exact Henc.
  assert (Hrc : check = true -> RangeCheck a (SbeSchemaVersion (A := A)) (SbeSchemaVersion (A := A)) = None).
  { intros ->. destruct (RangeCheck a _ _) as [e|] eqn:Er; [|done]. rewrite (encode_refused _ e) in Hp by done. discriminate. }
  rewrite encode_ok in Hp by done. injection Hp as <-. exists (fixed_part a ++ data_part a). split.
  - unfold decode_header. by erewrite header_read by done.
  - pose proof (decode_ok a (SbeSchemaVersion (A := A)) (SbeBlockLength (A := A)) [] check [] Hvalid (or_introl (conj eq_refl eq_refl)) Hrc) as Hdec.
    cbn [app] in Hdec. rewrite app_nil_r in Hdec. unfold decode_message. cbn [header_of Version BlockLength]. by rewrite Hdec.
Qed.

Lemma notify_when b c w : when b (notify c) w = Ret tt (mkEvents (ev_rangeChecking w) (ev_pending w) (ev_calls w ++ if b then [c] else [])).
Proof. destruct b; [done|]. cbn. rewrite app_nil_r. by destruct w. Qed.

(** A message by its template. *)
Lemma reFragmentHandler_message {A} `{CodecLaws A} l (a : A) bs w :
  header_fits A -> valid a -> packet a (ev_rangeChecking w) = inl bs ->
  exists buf, decode_message A (header_of A) buf (ev_rangeChecking w) = (a, None) /\
    reFragmentHandler l bs w =
    (if SbeTemplateId (A := A) =? SbeTemplateId (A := RecordingStarted) then
       event_for l "RecordingStarted" (l_Started l) RecordingEventStartedListener
         (decode_message RecordingStarted (header_of A) buf (ev_rangeChecking w))
     else if SbeTemplateId (A := A) =? SbeTemplateId (A := RecordingProgress) then
       event_for l "RecordingProgress" (l_Progress l) RecordingEventProgressListener
         (decode_message RecordingProgress (header_of A) buf (ev_rangeChecking w))
     else if SbeTemplateId (A := A) =? SbeTemplateId (A := RecordingStopped) then
       event_for l "RecordingStopped" (l_Stopped l) RecordingEventStoppedListener
         (decode_message RecordingStopped (header_of A) buf (ev_rangeChecking w))
     else ret tt) w.
Proof.
  intros Hfits Hv Hp. destruct (packet_decoded a _ _ Hfits Hv Hp) as (buf & Hh & Hd). exists buf. split; [exact Hd|].
  unfold reFragmentHandler. by rewrite Hh.
Qed.

Lemma reFragmentHandler_event l ev f w :
  carries (ev_rangeChecking w) f ev ->
  reFragmentHandler l (fr_data f) w = Ret tt (mkEvents (ev_rangeChecking w) (ev_pending w) (ev_calls w ++ calls_for l ev)).
Proof.
  intros [_ Hc]. destruct ev as [e|e|e]; destruct Hc as [Hv Hp];
    (eapply reFragmentHandler_message in Hp as (buf & Hd & ->); [|unfold header_fits; cbn; lia|exact Hv]).
  - rewrite Z.eqb_refl, Hd. apply notify_when.
  - rewrite (proj2 (Z.eqb_neq _ (SbeTemplateId (A := RecordingStarted)))) by (cbn; lia). rewrite Z.eqb_refl, Hd. apply notify_when.
  - rewrite (proj2 (Z.eqb_neq _ (SbeTemplateId (A := RecordingStarted)))) by (cbn; lia).
    rewrite (proj2 (Z.eqb_neq _ (SbeTemplateId (A := RecordingProgress)))) by (cbn; lia). rewrite Z.eqb_refl, Hd. apply notify_when.
Qed.

Lemma events_loop_events l limit evs : forall fs rest n w,
  Forall2 (carries (ev_rangeChecking w)) fs evs -> n + Z.of_nat (length fs) <= limit -> rest = [] \/ n + Z.of_nat (length fs) = limit ->
  events_loop (reFragmentHandler l) limit n (fs ++ rest) w =
  Ret (n + Z.of_nat (length fs), rest) (mkEvents (ev_rangeChecking w) (ev_pending w) (ev_calls w ++ concat (calls_for l <$> evs))).
Proof.
  induction evs as [|ev evs IH]; intros fs rest n w Hev Hlim Hrest.
  { apply Forall2_nil_inv_r in Hev as ->. cbn in *. rewrite app_nil_r, Z.add_0_r. destruct w as [chk pend calls]. destruct rest as [|f rest]; [done|].
    destruct Hrest as [?|Hrest]; [done|]. cbn [events_loop]. by rewrite (proj2 (Z.ltb_ge _ _)) by lia. }
  apply Forall2_cons_inv_r in Hev as (f & fs' & Hf & Hev & ->). cbn [app events_loop length] in *.
  rewrite (proj2 (Z.ltb_lt _ _)) by lia. destruct Hf as [Hpad Hf]. rewrite Hpad. erewrite bind_Ret by (apply reFragmentHandler_event; by split).
  rewrite IH; [|done|lia|destruct Hrest; [by left|right; lia]]. cbn [ev_rangeChecking ev_pending ev_calls fmap list_fmap concat].
  rewrite <- app_assoc. replace (n + 1 + Z.of_nat (length fs')) with (n + Z.of_nat (S (length fs'))) by lia. done.
Qed.

(** Events of an archive, one per frame, polled with the listeners of the archive: every event
    that is set a listener for is given to it, as it was sent and in order, and nothing else
    happens; the frames behind those that were asked for stay. *)
Theorem recording_events_delivered l check limit evs fs rest b calls :
  0 < limit -> Forall2 (carries check) fs evs -> Z.of_nat (length fs) <= limit -> rest = [] \/ Z.of_nat (length fs) = limit ->
  PollWithContext l check None limit (mkEvents b (fs ++ rest) calls) =
  Ret (Z.of_nat (length fs)) (mkEvents check rest (calls ++ concat (calls_for l <$> evs))).
Proof.
  intros Hpos Hev Hlim Hrest. unfold PollWithContext. erewrite bind_Ret by reflexivity. cbn [ev_pending ev_calls].
  rewrite (proj2 (Z.eqb_neq limit 0)) by lia. erewrite bind_Ret by (by apply (events_loop_events l limit evs)). reflexivity.
Qed.
