(* ===== verification/ArchiveWait.v ===== *)
(** * Waiting for the archive

    What the polls of ArchiveControl.v do with the messages that come in: a wait for a response
    passes over everything else, ends at the latest with the timeout, and never takes the
    response of another client; lists of descriptors are collected in order; and the poll of the
    frames in memory is the poll of the model. *)

From S2P Require Import Prelude Sbe ArchiveCodecs ArchivePackets ArchiveProxy ArchiveControl.
From S2P Require Import Memory Flyweight LogBuffer TermSpec Appender Reader FragmentAssembler Image.

Local Open Scope m_scope.

Local Abbreviation bytes := (list Init.Byte.byte).

(** ** What a poll for a response does with a message *)

(** A message is the answer, or it is passed over with calls of the listeners. *)
Inductive verdict : Type :=
| Answer (r : ControlResponse)
| Pass (es : list event).

Definition error_event (o : Options) (what : string) : list event :=
  if has_ErrorListener o then [OnErrorEvent what] else [].
Definition signal_event (o : Options) (e : RecordingSignalEvent) : list event :=
  if has_RecordingSignalListener o then [OnRecordingSignal e] else [].

Definition verdict_of (o : Options) (session correlationID : Z) (msg : bytes) : verdict :=
  let '(hdr, buf, err) := decode_header msg in
  match err with
  | Some e => Pass (error_event o e)
  | None =>
      match kind_of hdr with
      | KControlResponse =>
          let '(response, err) := decode_message ControlResponse hdr buf (RangeChecking o) in
          match err with
          | Some e => Pass (error_event o e)
          | None =>
              if (ControlResponse_ControlSessionId response =? session) && (ControlResponse_CorrelationId response =? correlationID)
              then Answer response else Pass []
          end
      | KRecordingSignalEvent =>
          let '(signal, err) := decode_message RecordingSignalEvent hdr buf (RangeChecking o) in
          Pass (match err with Some e => error_event o e | None => [] end ++ signal_event o signal)
      | _ => Pass []
      end
  end.

Lemma with_events_nil w : with_events (w_events w ++ []) w = w.
Proof. rewrite app_nil_r. by destruct w. Qed.

Definition log_events (p : nat) (es : list event) (w : world) : world := with_events (w_events w ++ ((fun e => (p, e)) <$> es)) w.

Lemma log_events_nil p w : log_events p [] w = w.
Proof. apply with_events_nil. Qed.

Lemma log_events_app p es es' w : log_events p es' (log_events p es w) = log_events p (es ++ es') w.
Proof. unfold log_events, with_events. cbn. by rewrite fmap_app, app_assoc. Qed.

Section Waiting.
Context (opts : nat -> Options) (p : nat).

Lemma call_ErrorListener_ok what w : call_ErrorListener opts p what w = Ret tt (log_events p (error_event (opts p) what) w).
Proof using Type. unfold call_ErrorListener, error_event. destruct (has_ErrorListener _); [done|]. by rewrite log_events_nil. Qed.

Lemma call_RecordingSignalListener_ok e w :
  call_RecordingSignalListener opts p e w = Ret tt (log_events p (signal_event (opts p) e) w).
Proof using Type.
  unfold call_RecordingSignalListener, signal_event. destruct (has_RecordingSignalListener _); [done|]. by rewrite log_events_nil.
Qed.

(** The control [p] with [c] waits for [correlationID]. *)
Record waits (correlationID : Z) (c : Control) (w : world) : Prop := {
  wt_control : w_controls w !! p = Some c;
  wt_registered : w_correlations w !! correlationID = Some p;
  wt_checking : w_rangeChecking w = RangeChecking (opts p);
  wt_open : r_IsPollComplete (c_Results c) = false }.

Definition answered (r : ControlResponse) (c : Control) : Control :=
  set_results (fun x => set_IsPollComplete true (set_ControlResponse (Some r) x)) c.

Lemma controlFragmentHandler_verdict correlationID c w msg :
  waits correlationID c w ->
  controlFragmentHandler opts (mkPollContext p correlationID) msg w =
  match verdict_of (opts p) (c_SessionID c) correlationID msg with
  | Answer r => Ret ControlledPollActionBreak (with_controls (<[p := answered r c]> (w_controls w)) w)
  | Pass es => Ret ControlledPollActionContinue (log_events p es w)
  end.
Proof using Type.
  intros [Hc Hr Hk Ho]. unfold controlFragmentHandler, verdict_of. cbn [pc_control pc_correlationID].
  erewrite bind_Ret by (unfold get_control; by rewrite Hc). rewrite Ho.
  destruct (decode_header msg) as [[hdr buf] [e|]].
  { by erewrite bind_Ret by apply call_ErrorListener_ok. }
  erewrite bind_Ret by (unfold load_correlation; by rewrite Hr). cbv beta iota.
  erewrite bind_Ret by (unfold read_rangeChecking; by rewrite Hk).
  destruct (kind_of hdr); rewrite ?log_events_nil; try done.
  - destruct (decode_message ControlResponse hdr buf _) as [r [e|]].
    { by erewrite bind_Ret by apply call_ErrorListener_ok. }
    erewrite bind_Ret by (unfold get_control; by rewrite Hc). unfold for_us.
    destruct (_ && _); rewrite ?log_events_nil; [|done].
    by erewrite bind_Ret by (unfold update_control; by rewrite Hc).
  - destruct (decode_message RecordingSignalEvent hdr buf _) as [s [e|]].
    + erewrite bind_Ret by apply call_ErrorListener_ok.
      erewrite bind_Ret by apply call_RecordingSignalListener_ok. by rewrite log_events_app.
    + rewrite bind_ret_l. by erewrite bind_Ret by apply call_RecordingSignalListener_ok.
Qed.

(** A frame with a whole message. *)
Definition whole (f : frame) : Prop :=
  Z.land (fr_flags f) unfragmented = unfragmented /\ is_padding f = false.

Lemma assembled_whole {U} (delegate : bytes -> M U ControlledPollAction) f bm u a u' :
  whole f -> delegate (fr_data f) u = Ret a u' -> assembled delegate f (bm, u) = Ret a (bm, u').
Proof using Type. intros [Hf _] Hd. unfold assembled. rewrite Hf, Z.eqb_refl. by rewrite Hd. Qed.

Lemma waits_log correlationID c w es : waits correlationID c w -> waits correlationID c (log_events p es w).
Proof using Type. by intros [? ? ? ?]. Qed.

Definition handler_for (correlationID : Z) : frame -> M (builders * world) ControlledPollAction :=
  assembled (controlFragmentHandler opts (mkPollContext p correlationID)).

Definition verdict_in (correlationID : Z) (c : Control) (f : frame) : verdict :=
  verdict_of (opts p) (c_SessionID c) correlationID (fr_data f).

Definition passes (correlationID : Z) (c : Control) (f : frame) (es : list event) : Prop :=
  whole f /\ verdict_in correlationID c f = Pass es.

(** Messages that are no answer are consumed, up to the limit. *)
Lemma deliver_passes correlationID c bm limit n before ess rest w :
  waits correlationID c w -> Forall2 (passes correlationID c) before ess -> n + zlen before <= limit ->
  deliver (handler_for correlationID) limit n (before ++ rest) (bm, w) =
  deliver (handler_for correlationID) limit (n + zlen before) rest (bm, log_events p (concat ess) w).
Proof using Type.
  intros Hw HF. revert n w Hw. induction HF as [|f es before ess [Hf Hv] HF IH]; intros n w Hw Hn.
  { cbn [app concat]. rewrite log_events_nil. f_equal. unfold zlen. cbn. lia. }
  unfold zlen in Hn. cbn [length] in Hn.
  cbn [app deliver concat]. rewrite (proj2 (Z.ltb_lt n limit)), (proj2 Hf) by lia.
  erewrite bind_Ret.
  2:{ apply assembled_whole; [done|]. rewrite (controlFragmentHandler_verdict _ c) by done.
      fold (verdict_in correlationID c f). by rewrite Hv. }
  cbv beta iota. rewrite IH; [|by apply waits_log|unfold zlen; lia]. rewrite log_events_app. f_equal. unfold zlen. cbn [length]. lia.
Qed.

Lemma deliver_answer correlationID c bm limit n f r after w :
  waits correlationID c w -> whole f -> verdict_in correlationID c f = Answer r -> n < limit ->
  deliver (handler_for correlationID) limit n (f :: after) (bm, w) =
  Ret (n + 1, after) (bm, with_controls (<[p := answered r c]> (w_controls w)) w).
Proof using Type.
  intros Hw Hf Hv Hn. cbn [deliver]. rewrite (proj2 (Z.ltb_lt n limit)), (proj2 Hf) by lia.
  erewrite bind_Ret.
  2:{ apply assembled_whole; [done|]. rewrite (controlFragmentHandler_verdict _ c) by done.
      fold (verdict_in correlationID c f). by rewrite Hv. }
  done.
Qed.
End Waiting.

(** ** The wait for a response *)

Section Response.
Context (opts : nat -> Options) (p : nat) (correlationID : Z).

Definition cleared (c : Control) : Control :=
  set_results (fun r => set_IsPollComplete false (set_ControlResponse None r)) c.
Definition after_tick (t : tick) (c : Control) : Control :=
  cleared (set_closed (t_closed t) (set_pending (c_pending c ++ t_arrived t) c)).

(** The world as [poll] hands it to the handler. *)
Definition polling (c : Control) (w : world) : world :=
  with_rangeChecking (RangeChecking (opts p)) (with_controls (<[p := c]> (w_controls w)) w).

(** What a wait leaves alone. *)
Record kept (w w' : world) (c c' : Control) : Prop := {
  kp_correlations : w_correlations w' = w_correlations w;
  kp_id : w_correlationID w' = w_correlationID w;
  kp_others q : q <> p -> w_controls w' !! q = w_controls w !! q;
  kp_session : c_SessionID c' = c_SessionID c;
  kp_requests : c_requests c' = c_requests c }.

Lemma kept_trans w w1 w2 c c1 c2 : kept w w1 c c1 -> kept w1 w2 c1 c2 -> kept w w2 c c2.
Proof using Type.
  intros [A1 A2 A3 A4 A5] [B1 B2 B3 B4 B5]. split; try congruence. intros q Hq. rewrite B3, A3 by done. done.
Qed.

Lemma polling_waits c w :
  w_correlations w !! correlationID = Some p -> r_IsPollComplete (c_Results c) = false ->
  waits opts p correlationID c (polling c w).
Proof using Type. intros Hr Ho. split; [apply lookup_insert_eq|done..]. Qed.

(** A round of a wait, up to its poll. *)
Lemma poll_round {X} (handler : frame -> M (X * world) ControlledPollAction) limit t c w x n fs x' w' c' :
  w_controls w !! p = Some c ->
  deliver handler limit 0 (c_pending c ++ t_arrived t) (x, polling (after_tick t c) w) = Ret (n, fs) (x', w') ->
  w_controls w' !! p = Some c' ->
  (on_world (arrive p t) ;;; poll opts p handler limit) (x, w) =
  Ret n (x', with_controls (<[p := set_pending fs c']> (w_controls w')) w').
Proof using Type.
  intros Hc Hd Hc'. unfold poll.
  erewrite bind_Ret by (unfold on_world, arrive, update_control; by rewrite Hc).
  erewrite bind_Ret by (unfold on_world, write_rangeChecking; done).
  erewrite bind_Ret.
  2:{ unfold on_world, update_control, with_rangeChecking, with_controls. cbn [w_controls]. by rewrite lookup_insert_eq. }
  unfold ControlledPoll, with_controls at 1. cbn [w_controls]. rewrite lookup_insert_eq.
  cbn [c_pending set_results set_closed set_pending].
  rewrite insert_insert_eq. unfold polling, after_tick, cleared, with_rangeChecking, with_controls in Hd. cbn [w_controls w_correlations w_rangeChecking w_correlationID w_events] in Hd.
  unfold with_rangeChecking, with_controls. cbn [w_controls w_correlations w_rangeChecking w_correlationID w_events].
  rewrite Hd. unfold update_control. by rewrite Hc'.
Qed.

Lemma response_loop_unfold t ticks bm w :
  response_loop opts p correlationID (t :: ticks) (bm, w) =
  (let! n := (on_world (arrive p t) ;;; poll opts p (handler_for opts p correlationID) 10) in
   let! ctl := on_world (get_control p) in
   if r_IsPollComplete (c_Results ctl) then
     match r_ControlResponse (c_Results ctl) with
     | None => raise (EPanic "nil pointer dereference")
     | Some response =>
         if negb (ControlResponse_Code response =? ControlResponseCode.OK)
         then ret (ControlResponse_RelevantId response, Some "Control Response failure"%string)
         else ret (ControlResponse_RelevantId response, None)
     end
   else if c_closed ctl then ret (0, Some "response channel from archive is not connected"%string)
   else if t_since t >? Timeout (opts p) then ret (0, Some "timeout"%string)
   else response_loop opts p correlationID ticks) (bm, w).
Proof using Type. cbn [response_loop]. by rewrite bind_assoc. Qed.

Definition response_result (r : ControlResponse) : Z * option string :=
  (ControlResponse_RelevantId r,
   if ControlResponse_Code r =? ControlResponseCode.OK then None else Some "Control Response failure"%string).

(** A round that finds the answer. *)
Lemma round_answers t ticks bm w c before ess f r after :
  w_controls w !! p = Some c -> w_correlations w !! correlationID = Some p ->
  c_pending c = before ++ f :: after -> (length before < 10)%nat ->
  Forall2 (passes opts p correlationID c) before ess -> whole f -> verdict_in opts p correlationID c f = Answer r ->
  exists w' c', response_loop opts p correlationID (t :: ticks) (bm, w) = Ret (response_result r) (bm, w') /\
    w_controls w' !! p = Some c' /\ c_pending c' = after ++ t_arrived t /\
    w_events w' = w_events w ++ ((fun e => (p, e)) <$> concat ess) /\ kept w w' c c'.
Proof using Type.
  intros Hc Hr Hp Hlen HF Hf Hv. set (c1 := after_tick t c).
  assert (Hw : waits opts p correlationID c1 (polling c1 w)) by (by apply polling_waits).
  eexists _, _. rewrite response_loop_unfold. erewrite bind_Ret.
  2:{ eapply poll_round; [done| |].
      - rewrite Hp, <- app_assoc, (deliver_passes opts p correlationID c1) with (ess := ess);
          [|done|done|unfold zlen; lia].
        cbn [app]. apply deliver_answer; [by apply waits_log|done|done|unfold zlen; lia].
      - cbn [w_controls with_controls]. apply lookup_insert_eq. }
  erewrite bind_Ret by (unfold on_world, get_control; cbn [w_controls with_controls]; by rewrite lookup_insert_eq).
  split.
  { cbn [c_Results set_pending answered set_results r_IsPollComplete set_IsPollComplete r_ControlResponse set_ControlResponse].
    unfold response_result. destruct (_ =? _); reflexivity. }
  split; [apply lookup_insert_eq|split; [done|split; [done|]]].
  split; try done. intros q Hq. cbn [w_controls with_controls log_events with_events polling with_rangeChecking].
    by rewrite !lookup_insert_ne by done.
Qed.

(** A round that passes over ten messages. *)
Lemma round_passes t ticks bm w c before ess rest :
  w_controls w !! p = Some c -> w_correlations w !! correlationID = Some p ->
  c_pending c = before ++ rest -> length before = 10%nat ->
  Forall2 (passes opts p correlationID c) before ess ->
  t_closed t = false -> t_since t <= Timeout (opts p) ->
  exists w' c', response_loop opts p correlationID (t :: ticks) (bm, w) = response_loop opts p correlationID ticks (bm, w') /\
    w_controls w' !! p = Some c' /\ c_pending c' = rest ++ t_arrived t /\
    w_events w' = w_events w ++ ((fun e => (p, e)) <$> concat ess) /\ kept w w' c c'.
Proof using Type.
  intros Hc Hr Hp Hlen HF Hcl Hsi. set (c1 := after_tick t c).
  assert (Hw : waits opts p correlationID c1 (polling c1 w)) by (by apply polling_waits).
  eexists _, _. rewrite response_loop_unfold. erewrite bind_Ret.
  2:{ eapply poll_round with (n := 10) (fs := rest ++ t_arrived t) (c' := c1); [done| |].
      - rewrite Hp, <- app_assoc, (deliver_passes opts p correlationID c1) with (ess := ess);
          [|done|done|unfold zlen; lia].
        unfold zlen. rewrite Hlen. by destruct (rest ++ t_arrived t).
      - cbn [w_controls with_controls log_events with_events polling with_rangeChecking]. apply lookup_insert_eq. }
  erewrite bind_Ret by (unfold on_world, get_control; cbn [w_controls with_controls]; by rewrite lookup_insert_eq).
  split.
  { unfold c1, after_tick. cbn. rewrite Hcl. replace (t_since t >? Timeout (opts p)) with false by lia. reflexivity. }
  split; [apply lookup_insert_eq|split; [done|split; [done|]]].
  split; try done. intros q Hq. cbn [w_controls with_controls log_events with_events polling with_rangeChecking].
    by rewrite !lookup_insert_ne by done.
Qed.

Lemma response_loop_answers ticks : forall bm w c before ess f r after,
  w_controls w !! p = Some c -> w_correlations w !! correlationID = Some p ->
  c_pending c = before ++ f :: after ->
  Forall2 (passes opts p correlationID c) before ess -> whole f -> verdict_in opts p correlationID c f = Answer r ->
  (length before / 10 < length ticks)%nat ->
  Forall (fun t => t_closed t = false /\ t_since t <= Timeout (opts p)) (take (length before / 10) ticks) ->
  exists w' c', response_loop opts p correlationID ticks (bm, w) = Ret (response_result r) (bm, w') /\
    w_controls w' !! p = Some c' /\
    c_pending c' = after ++ concat (t_arrived <$> take (S (length before / 10)) ticks) /\
    w_events w' = w_events w ++ ((fun e => (p, e)) <$> concat ess) /\ kept w w' c c'.
Proof using Type.
  induction ticks as [|t ticks IH]; intros bm w c before ess f r after Hc Hr Hp HF Hf Hv Hlen Hal; [cbn in Hlen; lia|].
  destruct (decide (length before < 10)%nat) as [Hlt|Hge].
  - rewrite (Nat.div_small (length before) 10) by done.
    destruct (round_answers t ticks bm w c before ess f r after) as (w' & c' & H1 & H2 & H3 & H4); try done.
    exists w', c'. split_and!; try done; try apply H4. rewrite H3. cbn. rewrite take_0. cbn. by rewrite app_nil_r.
  - assert (Hd : (length before / 10 = S ((length before - 10) / 10))%nat).
    { replace (length before) with ((length before - 10) + 1 * 10)%nat at 1 by lia. rewrite Nat.div_add by lia. lia. }
    rewrite Hd in Hlen, Hal |- *. cbn [take length] in Hal, Hlen. apply Forall_cons in Hal as [[Hcl Hsi] Hal].
    rewrite <- (take_drop 10 before) in HF, Hp. apply Forall2_app_inv_l in HF as (es1 & es2 & HF1 & HF2 & ->).
    rewrite <- app_assoc in Hp.
    destruct (round_passes t ticks bm w c (take 10 before) es1 (drop 10 before ++ f :: after))
      as (w1 & c1 & H1 & H2 & H3 & H4 & H5); try done; [rewrite length_take; lia|].
    assert (Hl : (length (drop 10 before) = length before - 10)%nat) by (by rewrite length_drop).
    assert (Hs : c_SessionID c1 = c_SessionID c) by apply H5.
    destruct (IH bm w1 c1 (drop 10 before) es2 f r (after ++ t_arrived t)) as (w2 & c2 & I1 & I2 & I3 & I4 & I5); try done.
    + rewrite (kp_correlations _ _ _ _ H5). done.
    + rewrite H3, <- app_assoc. done.
    + eapply Forall2_impl; [exact HF2|]. intros g es. unfold passes, verdict_in. by rewrite Hs.
    + unfold verdict_in in *. by rewrite Hs.
    + rewrite Hl. lia.
    + by rewrite Hl.
    + exists w2, c2. rewrite Hl in I3. split_and!.
      * by rewrite H1.
      * done.
      * rewrite I3. cbn [take fmap list_fmap concat]. by rewrite <- app_assoc.
      * rewrite I4, H4, concat_app, fmap_app, app_assoc. done.
      * by eapply kept_trans.
Qed.
End Response.

(** [PollForResponse] finds its answer: the messages in front of it, of other sessions and
    other requests, signals and rubbish, are passed over, in order and with their calls of the
    listeners; the first response of the session for the awaited id ends the wait with its
    relevant id, and with an error when its code is not OK. What comes after it, and what
    arrived meanwhile, is left in the stream. *)
Theorem PollForResponse_answers opts p correlationID w c before ess f r after ticks :
  w_controls w !! p = Some c -> w_correlations w !! correlationID = Some p ->
  c_pending c = before ++ f :: after ->
  Forall2 (passes opts p correlationID c) before ess ->
  whole f -> verdict_in opts p correlationID c f = Answer r ->
  let rounds := (length before / 10)%nat in
  (rounds < length ticks)%nat ->
  Forall (fun t => t_closed t = false /\ t_since t <= Timeout (opts p)) (take rounds ticks) ->
  exists w' c',
    PollForResponse opts p correlationID ticks w = Ret (response_result r) w' /\
    w_controls w' !! p = Some c' /\
    c_pending c' = after ++ concat (t_arrived <$> take (S rounds) ticks) /\
    w_events w' = w_events w ++ ((fun e => (p, e)) <$> concat ess) /\
    kept p w w' c c'.
Proof.
  intros Hc Hr Hp HF Hf Hv rounds Hlen Hal.
  destruct (response_loop_answers opts p correlationID ticks ∅ w c before ess f r after) as (w' & c' & H1 & H2); try done.
  exists w', c'. split; [|done]. unfold PollForResponse, run_with. by rewrite H1.
Qed.

(** ** A wait ends, and only with a response of its own *)

Lemma deliver_keeps {S} (I : S -> Prop) (handler : frame -> M S ControlledPollAction) :
  (forall f s, I s -> exists a s', handler f s = Ret a s' /\ I s') ->
  forall fs limit n s, I s -> exists n' fs' s', deliver handler limit n fs s = Ret (n', fs') s' /\ I s'.
Proof.
  intros Hh fs. induction fs as [|f fs IH]; intros limit n s Hs; cbn [deliver].
  { by exists n, [], s. }
  destruct (n <? limit); [|by exists n, (f :: fs), s].
  destruct (is_padding f); [by apply IH|].
  destruct (Hh f s Hs) as (a & s' & Ha & Hs'). erewrite bind_Ret by exact Ha.
  destruct a; try (by apply IH); by eexists _, _, _.
Qed.

Lemma assembled_keeps {U} (I : U -> Prop) (delegate : bytes -> M U ControlledPollAction) :
  (forall msg u, I u -> exists a u', delegate msg u = Ret a u' /\ I u') ->
  forall f s, I s.2 -> exists a s', assembled delegate f s = Ret a s' /\ I s'.2.
Proof.
  intros Hd f [bm u] Hu. cbn [snd] in Hu. unfold assembled.
  destruct (_ =? _).
  { destruct (Hd (fr_data f) u Hu) as (a & u' & -> & Hu'). by eexists _, (_, _). }
  destruct (_ =? _); [by eexists _, (_, _)|].
  destruct (bm !! fr_session f) as [[|x old]|]; try (by eexists _, (_, _)).
  destruct (_ =? _); [|by eexists _, (_, _)].
  destruct (Hd ((x :: old) ++ fr_data f) u Hu) as (a & u' & -> & Hu'). by eexists _, (_, _).
Qed.

Section Own.
Context (opts : nat -> Options) (p : nat) (correlationID session : Z).
(** The requests and the registrations stay as they are. *)
Context (q : requests) (registered : gmap Z nat) (Hreg : registered !! correlationID = Some p).

(** The response that is there is the awaited one. *)
Definition own_response (r : ControlResponse) : Prop :=
  ControlResponse_ControlSessionId r = session /\ ControlResponse_CorrelationId r = correlationID.
Definition own_control (c : Control) : Prop := c_SessionID c = session /\ c_requests c = q.
Definition own_results (c : Control) : Prop :=
  own_control c /\
  (r_IsPollComplete (c_Results c) = true -> exists r, r_ControlResponse (c_Results c) = Some r /\ own_response r).
Definition owns (w : world) : Prop :=
  w_correlations w = registered /\ w_rangeChecking w = RangeChecking (opts p) /\
  exists c, w_controls w !! p = Some c /\ own_results c.

Lemma verdict_answer_own o msg r : verdict_of o session correlationID msg = Answer r -> own_response r.
Proof using Type.
  unfold verdict_of, own_response. destruct (decode_header msg) as [[hdr buf] [e|]]; [done|].
  destruct (kind_of hdr); try done.
  - destruct (decode_message ControlResponse hdr buf _) as [x [e|]]; [done|].
    destruct (_ && _) eqn:E; [|done]. intros [= <-]. lia.
  - by destruct (decode_message RecordingSignalEvent hdr buf _) as [x [e|]].
Qed.

Lemma controlFragmentHandler_owns msg w :
  owns w -> exists a w', controlFragmentHandler opts (mkPollContext p correlationID) msg w = Ret a w' /\ owns w'.
Proof using Hreg.
  intros (Hr & Hk & c & Hc & [Hs Hq] & Ho). destruct (r_IsPollComplete (c_Results c)) eqn:E.
  { exists ControlledPollActionAbort, w.
    split; [|split; [done|split; [done|]]; exists c; split; [done|]; split; [done|]; intros _; by apply Ho].
    unfold controlFragmentHandler. cbn [pc_control].
    erewrite bind_Ret by (unfold get_control; by rewrite Hc). by rewrite E. }
  rewrite (controlFragmentHandler_verdict opts p correlationID c w msg) by (split; [done|by rewrite Hr|done|done]).
  destruct (verdict_of _ _ _ _) as [r|es] eqn:Hv.
  - eexists _, _. split; [done|]. split_and!; [done..|]. exists (answered r c).
    split; [apply lookup_insert_eq|]. split; [done|]. intros _. exists r. split; [done|].
    eapply verdict_answer_own. rewrite <- Hs. exact Hv.
  - eexists _, _. split; [done|]. split_and!; [done..|]. exists c. split; [done|]. split; [done|]. by rewrite E.
Qed.

(** A round leaves the control with a response of its own, or none. *)
Lemma round_owns t bm w :
  w_correlations w = registered -> (exists c, w_controls w !! p = Some c /\ own_control c) ->
  exists n bm' w' c,
    (on_world (arrive p t) ;;; poll opts p (handler_for opts p correlationID) 10) (bm, w) = Ret n (bm', w') /\
    w_correlations w' = registered /\ w_controls w' !! p = Some c /\ own_results c.
Proof using Hreg.
  intros Hr (c & Hc & Hs).
  destruct (deliver_keeps (fun s : builders * world => owns s.2) (handler_for opts p correlationID)
    (assembled_keeps owns _ controlFragmentHandler_owns) (c_pending c ++ t_arrived t) 10 0
    (bm, polling opts p (after_tick t c) w)) as (n & fs & [bm' w'] & Hd & Hr' & _ & c' & Hc' & Ho).
  { split_and!; [done..|]. exists (after_tick t c). split; [apply lookup_insert_eq|]. by split. }
  cbn [snd] in *. eexists n, bm', _, _. split; [by eapply poll_round|].
  split; [done|]. split; [apply lookup_insert_eq|]. exact Ho.
Qed.

Definition wait_result (w : world) (result : Z * option string) : Prop :=
  result = (0, Some "response channel from archive is not connected"%string) \/
  result = (0, Some "timeout"%string) \/
  exists c r, w_controls w !! p = Some c /\ r_ControlResponse (c_Results c) = Some r /\ own_response r /\
    result = response_result r.

(** However it ends: the rounds are over before the timeout, or there is a result. *)
Lemma response_loop_result ticks : forall bm w,
  w_correlations w = registered -> (exists c, w_controls w !! p = Some c /\ own_control c) ->
  match response_loop opts p correlationID ticks (bm, w) with
  | Ret result (_, w') =>
      wait_result w' result /\ w_correlations w' = registered /\
      exists c', w_controls w' !! p = Some c' /\ own_control c'
  | Exc e (_, w') =>
      e = EFuel /\ Forall (fun t => t_since t <= Timeout (opts p)) ticks /\ w_correlations w' = registered
  end.
Proof using Hreg.
  induction ticks as [|t ticks IH]; intros bm w Hr Hc; [done|].
  rewrite response_loop_unfold.
  destruct (round_owns t bm w Hr Hc) as (n & bm' & w' & c & Hrun & Hr' & Hc' & Hs & Ho).
  erewrite bind_Ret by exact Hrun.
  erewrite bind_Ret by (unfold on_world, get_control; by rewrite Hc').
  assert (Hk : exists c', w_controls w' !! p = Some c' /\ own_control c') by (by exists c).
  destruct (r_IsPollComplete (c_Results c)) eqn:E.
  { destruct (Ho eq_refl) as (r & Hres & Hown). rewrite Hres.
    assert (Hw : wait_result w' (response_result r)) by (right; right; by exists c, r).
    unfold response_result in *. by destruct (_ =? _). }
  destruct (c_closed c); [by split; [left|]|].
  destruct (Z.gtb_spec (t_since t) (Timeout (opts p))); [by split; [right; left|]|].
  specialize (IH bm' w' Hr' Hk). destruct (response_loop opts p correlationID ticks (bm', w')) as [result [? ?]|e [? ?]]; [done|].
  destruct IH as (? & ? & ?). split_and!; [done| |done]. by constructor.
Qed.

Lemma PollForResponse_result ticks w :
  w_correlations w = registered -> (exists c, w_controls w !! p = Some c /\ own_control c) ->
  match PollForResponse opts p correlationID ticks w with
  | Ret result w' =>
      wait_result w' result /\ w_correlations w' = registered /\
      exists c', w_controls w' !! p = Some c' /\ own_control c'
  | Exc e w' => e = EFuel /\ Forall (fun t => t_since t <= Timeout (opts p)) ticks /\ w_correlations w' = registered
  end.
Proof using Hreg.
  intros Hr Hc. pose proof (response_loop_result ticks ∅ w Hr Hc) as H. unfold PollForResponse, run_with.
  by destruct (response_loop opts p correlationID ticks (∅, w)) as [result [? ?]|e [? ?]].
Qed.
End Own.

(** C31. [PollForResponse] ends: as soon as a round is later than the timeout, whatever arrived in
    the meantime and however it was fragmented, the call has returned. Then it says that it gave
    up, or it has a response of the session for the awaited id, and never one of another client
    of the same stream. *)
Theorem PollForResponse_ends opts p correlationID w c ticks :
  w_controls w !! p = Some c -> w_correlations w !! correlationID = Some p ->
  Exists (fun t => Timeout (opts p) < t_since t) ticks ->
  exists result w',
    PollForResponse opts p correlationID ticks w = Ret result w' /\
    wait_result p correlationID (c_SessionID c) w' result.
Proof.
  intros Hc Hr Hex.
  pose proof (PollForResponse_result opts p correlationID (c_SessionID c) (c_requests c) (w_correlations w) Hr ticks w eq_refl
    (ex_intro _ c (conj Hc (conj eq_refl eq_refl)))) as H.
  destruct (PollForResponse opts p correlationID ticks w) as [result w'|e w'].
  { destruct H as [H _]. by exists result, w'. }
  exfalso. destruct H as (_ & Hf & _). apply Exists_exists in Hex as (t & Ht & Hlt).
  rewrite Forall_forall in Hf. specialize (Hf t Ht). lia.
Qed.

(** ** Lists of descriptors *)

Section Descriptors.
Context (opts : nat -> Options) (p : nat) (correlationID : Z).

Definition message_is (A : Type) `{Codec A} (k : kind) (f : frame) (a : A) : Prop :=
  is_padding f = false /\
  exists hdr buf, decode_header (fr_data f) = (hdr, buf, None) /\ kind_of hdr = k /\
    decode_message A hdr buf (RangeChecking (opts p)) = (a, None).

(** A descriptor for the request of [c]. *)
Definition lists (c : Control) (f : frame) (d : RecordingDescriptor) : Prop :=
  message_is RecordingDescriptor KRecordingDescriptor f d /\
  RecordingDescriptor_ControlSessionId d = c_SessionID c /\ RecordingDescriptor_CorrelationId d = correlationID.
Definition responds (c : Control) (f : frame) (r : ControlResponse) : Prop :=
  message_is ControlResponse KControlResponse f r /\
  ControlResponse_ControlSessionId r = c_SessionID c /\ ControlResponse_CorrelationId r = correlationID.

Definition descriptor_step (f : frame) : M (unit * world) ControlledPollAction :=
  on_world (DescriptorFragmentHandler opts (mkPollContext p correlationID) (fr_data f) ;;; ret ControlledPollActionContinue).

Record collecting (c : Control) (w : world) : Prop := {
  cl_control : w_controls w !! p = Some c;
  cl_registered : w_correlations w !! correlationID = Some p;
  cl_checking : w_rangeChecking w = RangeChecking (opts p) }.

Definition with_results (f : ControlResults -> ControlResults) (c : Control) (w : world) : world :=
  with_controls (<[p := set_results f c]> (w_controls w)) w.

Lemma collecting_with f c w : collecting c w -> collecting (set_results f c) (with_results f c w).
Proof using Type. intros [? ? ?]. split; [apply lookup_insert_eq|done..]. Qed.

Ltac enter H :=
  let hdr := fresh "hdr" in let buf := fresh "buf" in
  destruct H as (? & hdr & buf & Hh & Hk & Hm);
  unfold descriptor_step, on_world, DescriptorFragmentHandler; cbn [pc_control pc_correlationID]; rewrite Hh;
  unfold bind at 1; unfold bind at 1.

Lemma descriptor_step_lists c w f d x :
  collecting c w -> lists c f d -> descriptor_step f (x, w) = Ret ControlledPollActionContinue (x, with_results (add_descriptor d) c w).
Proof using Type.
  intros [Hc Hr Hk0] (H & Hs & Hcid). enter H. unfold load_correlation. rewrite Hr. unfold bind at 1, read_rangeChecking.
  unfold bind at 1, get_control. rewrite Hc, Hk, Hk0, Hm. unfold for_us. rewrite Hs, Hcid, !Z.eqb_refl. cbn [andb when].
  unfold update_control. by rewrite Hc.
Qed.

Lemma descriptor_step_responds c w f r x :
  collecting c w -> responds c f r ->
  descriptor_step f (x, w) = Ret ControlledPollActionContinue (x,
    if (ControlResponse_Code r =? ControlResponseCode.RECORDING_UNKNOWN) || (ControlResponse_Code r =? ControlResponseCode.ERROR)
    then with_results (fun y => set_IsPollComplete true (set_ControlResponse (Some r) y)) c w else w).
Proof using Type.
  intros [Hc Hr Hk0] (H & Hs & Hcid). enter H. unfold load_correlation. rewrite Hr. unfold bind at 1, read_rangeChecking.
  unfold bind at 1, get_control. rewrite Hc, Hk, Hk0, Hm. rewrite Hs, Hcid, !Z.eqb_refl. cbn [andb].
  destruct (_ || _); cbn [when]; [|done]. unfold update_control. by rewrite Hc.
Qed.

(** The descriptors are kept, in order. *)
Definition add_descriptors (ds : list RecordingDescriptor) (x : ControlResults) : ControlResults := foldl (fun x d => add_descriptor d x) x ds.

Lemma add_descriptors_app ds x : r_RecordingDescriptors (add_descriptors ds x) = r_RecordingDescriptors x ++ ds /\
  r_RecordingSubscriptionDescriptors (add_descriptors ds x) = r_RecordingSubscriptionDescriptors x /\
  r_IsPollComplete (add_descriptors ds x) = r_IsPollComplete x /\
  r_ControlResponse (add_descriptors ds x) = r_ControlResponse x.
Proof using Type.
  revert x. induction ds as [|d ds IH]; intros x; cbn [add_descriptors foldl]; [by rewrite app_nil_r|].
  destruct (IH (add_descriptor d x)) as (H1 & H2 & H3 & H4). unfold add_descriptors in *. rewrite H1, H2, H3, H4. cbn. by rewrite <- app_assoc.
Qed.

Lemma deliver_lists c w fs ds rest limit n x :
  collecting c w -> Forall2 (lists c) fs ds -> n + zlen fs <= limit ->
  exists w', deliver descriptor_step limit n (fs ++ rest) (x, w) = deliver descriptor_step limit (n + zlen fs) rest (x, w') /\
    collecting (set_results (add_descriptors ds) c) w' /\ kept p w w' c (set_results (add_descriptors ds) c).
Proof using Type.
  intros Hc HF. revert c w n Hc HF. induction fs as [|f fs IH] in ds |- *; intros c w n Hc HF Hn.
  { apply Forall2_nil_inv_l in HF as ->. exists w. split; [f_equal; unfold zlen; cbn; lia|].
    destruct Hc as [H1 H2 H3]. destruct c. by split. }
  apply Forall2_cons_inv_l in HF as (d & ds' & Hd & HF & ->). unfold zlen in Hn. cbn [length] in Hn.
  cbn [app deliver]. rewrite (proj2 (Z.ltb_lt n limit)) by lia. rewrite (proj1 (proj1 Hd)).
  erewrite bind_Ret by (by apply descriptor_step_lists). cbv beta iota.
  destruct (IH ds' (set_results (add_descriptor d) c) (with_results (add_descriptor d) c w) (n + 1)) as (w' & H1 & H2 & H3).
  - by apply collecting_with.
  - done.
  - unfold zlen. lia.
  - exists w'. split; [rewrite H1; f_equal; unfold zlen; cbn [length]; lia|]. split; [done|].
    eapply kept_trans; [|exact H3]. split; try done. intros q Hq. cbn. by rewrite lookup_insert_ne.
Qed.
End Descriptors.

Section DescriptorPolls.
Context (opts : nat -> Options) (p : nat) (correlationID : Z).

Lemma run_with_seq {X A B} (x : X) (c : W A) (d : M (X * world) B) w :
  run_with x (on_world c ;;; d) w = (c ;;; run_with x d) w.
Proof using Type. unfold run_with, on_world, bind. by destruct (c w). Qed.

Lemma descriptor_loop_unfold wanted count t ticks w :
  descriptor_loop opts p correlationID wanted count (t :: ticks) w =
  (let! fragments := run_with tt (on_world (arrive p t) ;;; poll opts p (descriptor_step opts p correlationID) (wanted - count)) in
   let! ctl := get_control p in
   let descriptorCount := descriptor_count (c_Results ctl) in
   if r_IsPollComplete (c_Results ctl) || (descriptorCount >=? wanted) then ret None
   else if c_closed ctl then ret (Some "response channel from archive is not connected"%string)
   else if t_since t >? Timeout (opts p) then ret (Some "PollNextDescriptor timeout"%string)
   else descriptor_loop opts p correlationID wanted descriptorCount ticks) w.
Proof using Type.
  cbn [descriptor_loop]. rewrite <- bind_assoc. unfold bind at 1. rewrite <- run_with_seq. reflexivity.
Qed.

Lemma polling_collecting t c w :
  w_correlations w !! correlationID = Some p -> collecting opts p correlationID (after_tick t c) (polling opts p (after_tick t c) w).
Proof using Type. intros Hr. split; [apply lookup_insert_eq|done..]. Qed.

(** A round of the loop, from what the poll delivers. *)
Lemma descriptor_round wanted count t ticks w c n fs w' c' :
  w_controls w !! p = Some c ->
  deliver (descriptor_step opts p correlationID) (wanted - count) 0 (c_pending c ++ t_arrived t)
    (tt, polling opts p (after_tick t c) w) = Ret (n, fs) (tt, w') ->
  w_controls w' !! p = Some c' ->
  let w1 := with_controls (<[p := set_pending fs c']> (w_controls w')) w' in
  descriptor_loop opts p correlationID wanted count (t :: ticks) w =
  (let descriptorCount := descriptor_count (c_Results c') in
   if r_IsPollComplete (c_Results c') || (descriptorCount >=? wanted) then Ret None w1
   else if c_closed c' then Ret (Some "response channel from archive is not connected"%string) w1
   else if t_since t >? Timeout (opts p) then Ret (Some "PollNextDescriptor timeout"%string) w1
   else descriptor_loop opts p correlationID wanted descriptorCount ticks w1).
Proof using Type.
  intros Hc Hd Hc' w1. rewrite descriptor_loop_unfold. erewrite bind_Ret.
  2:{ unfold run_with. erewrite (poll_round opts p (descriptor_step opts p correlationID) (wanted - count) t c w tt n fs tt w' c') by done. reflexivity. }
  fold w1. erewrite bind_Ret by (unfold get_control, w1; cbn [w_controls with_controls]; by rewrite lookup_insert_eq).
  cbn [c_Results set_pending c_closed]. repeat case_match; done.
Qed.

Lemma polling_kept t c w : w_controls w !! p = Some c -> kept p w (polling opts p (after_tick t c) w) c (after_tick t c).
Proof using Type. intros Hc. split; try done. intros q Hq. cbn. by rewrite lookup_insert_ne. Qed.

Lemma kept_pending w w' c c' fs :
  kept p w w' c c' -> kept p w (with_controls (<[p := set_pending fs c']> (w_controls w')) w') c (set_pending fs c').
Proof using Type. intros [? ? H ? ?]. split; try done. intros q Hq. cbn. by rewrite lookup_insert_ne, H by done. Qed.

Definition fresh_lists (c : Control) : Prop :=
  r_RecordingDescriptors (c_Results c) = [] /\ r_RecordingSubscriptionDescriptors (c_Results c) = [].

Lemma descriptor_count_added ds c t :
  fresh_lists c -> descriptor_count (add_descriptors ds (c_Results (after_tick t c))) = zlen ds /\
  r_RecordingDescriptors (add_descriptors ds (c_Results (after_tick t c))) = ds /\
  r_IsPollComplete (add_descriptors ds (c_Results (after_tick t c))) = false.
Proof using Type.
  intros [H1 H2]. destruct (add_descriptors_app ds (c_Results (after_tick t c))) as (E1 & E2 & E3 & _).
  unfold descriptor_count. rewrite E1, E2, E3. cbn. rewrite H1, H2. split_and!; try done. unfold zlen. cbn. lia.
Qed.

Lemma loop_collects wanted t ticks w c fs ds rest :
  w_controls w !! p = Some c -> w_correlations w !! correlationID = Some p -> fresh_lists c ->
  c_pending c = fs ++ rest -> Forall2 (lists opts p correlationID c) fs ds -> wanted = zlen fs ->
  exists w' c', descriptor_loop opts p correlationID wanted 0 (t :: ticks) w = Ret None w' /\
    w_controls w' !! p = Some c' /\ r_RecordingDescriptors (c_Results c') = ds /\
    r_ControlResponse (c_Results c') = None /\ c_pending c' = rest ++ t_arrived t /\ kept p w w' c c'.
Proof using Type.
  intros Hc Hr Hfr Hp HF ->. assert (Hl : zlen fs = zlen ds) by (unfold zlen; by rewrite (Forall2_length _ _ _ HF)).
  destruct (deliver_lists opts p correlationID (after_tick t c) (polling opts p (after_tick t c) w) fs ds (rest ++ t_arrived t) (zlen fs - 0) 0 tt)
    as (w' & H1 & H2 & H3); [by apply polling_collecting|done|lia|].
  destruct (descriptor_count_added ds c t Hfr) as (E1 & E2 & E3).
  assert (Hd : deliver (descriptor_step opts p correlationID) (zlen fs - 0) 0 (c_pending c ++ t_arrived t)
    (tt, polling opts p (after_tick t c) w) = Ret (zlen fs, rest ++ t_arrived t) (tt, w')).
  { rewrite Hp, <- app_assoc, H1. destruct (rest ++ t_arrived t) eqn:E; [done|].
    cbn [deliver]. rewrite (proj2 (Z.ltb_ge _ _)) by lia. done. }
  eexists _, _. erewrite descriptor_round; [|done|exact Hd|apply H2].
  cbn [c_Results set_results]. rewrite E1, E3. replace (zlen ds >=? zlen fs) with true by lia. cbn [orb].
  split; [reflexivity|]. split; [apply lookup_insert_eq|]. split; [exact E2|].
  split; [apply (add_descriptors_app ds)|].
  split; [done|]. apply kept_pending. eapply kept_trans; [by apply polling_kept|exact H3].
Qed.

Lemma loop_ended wanted t ticks w c fs ds f r :
  w_controls w !! p = Some c -> w_correlations w !! correlationID = Some p -> fresh_lists c ->
  c_pending c = fs ++ [f] -> t_arrived t = [] -> Forall2 (lists opts p correlationID c) fs ds ->
  responds opts p correlationID c f r -> ControlResponse_Code r = ControlResponseCode.RECORDING_UNKNOWN -> zlen fs < wanted ->
  exists w' c', descriptor_loop opts p correlationID wanted 0 (t :: ticks) w = Ret None w' /\
    w_controls w' !! p = Some c' /\ r_RecordingDescriptors (c_Results c') = ds /\
    r_ControlResponse (c_Results c') = Some r /\ c_pending c' = [] /\ kept p w w' c c'.
Proof using Type.
  intros Hc Hr Hfr Hp Ha HF Hre Hcode Hw.
  destruct (deliver_lists opts p correlationID (after_tick t c) (polling opts p (after_tick t c) w) fs ds [f] (wanted - 0) 0 tt)
    as (w' & H1 & H2 & H3); [by apply polling_collecting|done|lia|].
  destruct (descriptor_count_added ds c t Hfr) as (E1 & E2 & E3).
  set (c1 := set_results (add_descriptors ds) (after_tick t c)) in *.
  eexists _, _. erewrite descriptor_round; [|done| |].
  2:{ rewrite Hp, Ha, app_nil_r, H1. cbn [deliver]. rewrite (proj2 (Z.ltb_lt _ _)) by lia.
      rewrite (proj1 (proj1 Hre)). erewrite bind_Ret by (by apply (descriptor_step_responds opts p correlationID c1)).
      rewrite Hcode. reflexivity. }
  2:{ apply lookup_insert_eq. }
  split; [reflexivity|]. split; [apply lookup_insert_eq|]. split; [exact E2|]. split; [done|]. split; [done|].
  apply kept_pending. eapply kept_trans; [by apply polling_kept|]. eapply kept_trans; [exact H3|].
  split; try done. intros q Hq. cbn. by rewrite lookup_insert_ne.
Qed.

(** Responses that the handler does not know are passed over. *)
Definition unknown_subscription (c : Control) (f : frame) : Prop :=
  exists r, responds opts p correlationID c f r /\ ControlResponse_Code r = ControlResponseCode.SUBSCRIPTION_UNKNOWN.

Lemma deliver_unknown c w fs limit n x :
  collecting opts p correlationID c w -> Forall (unknown_subscription c) fs ->
  exists n' fs', deliver (descriptor_step opts p correlationID) limit n fs (x, w) = Ret (n', fs') (x, w) /\
    Forall (unknown_subscription c) fs'.
Proof using Type.
  intros Hc HF. revert n. induction HF as [|f fs (r & Hre & Hcode) HF IH]; intros n; cbn [deliver]; [by exists n, []|].
  destruct (n <? limit); [|exists n, (f :: fs); split; [done|]; constructor; [by exists r|done]].
  rewrite (proj1 (proj1 Hre)). erewrite bind_Ret by (by apply (descriptor_step_responds opts p correlationID c)).
  rewrite Hcode. cbv beta iota. apply IH.
Qed.

Lemma loop_misses wanted ticks : forall w c,
  w_controls w !! p = Some c -> w_correlations w !! correlationID = Some p -> fresh_lists c -> 0 < wanted ->
  Forall (unknown_subscription c) (c_pending c) ->
  Forall (fun t => t_closed t = false /\ Forall (unknown_subscription c) (t_arrived t)) ticks ->
  Exists (fun t => Timeout (opts p) < t_since t) ticks ->
  exists w', descriptor_loop opts p correlationID wanted 0 ticks w = Ret (Some "PollNextDescriptor timeout"%string) w'.
Proof using Type.
  induction ticks as [|t ticks IH]; intros w c Hc Hr Hfr Hw Hp Ht Hex; [by inversion Hex|].
  apply Forall_cons in Ht as [[Hcl Ha] Ht].
  assert (Hpa : Forall (unknown_subscription (after_tick t c)) (c_pending c ++ t_arrived t)) by (by apply Forall_app).
  destruct (deliver_unknown (after_tick t c) (polling opts p (after_tick t c) w) (c_pending c ++ t_arrived t) (wanted - 0) 0 tt)
    as (n & fs & Hd & Hfs); [by apply polling_collecting|done|].
  erewrite descriptor_round by (done || apply lookup_insert_eq).
  assert (Hz : descriptor_count (c_Results (after_tick t c)) = 0).
  { destruct Hfr as [H1 H2]. unfold descriptor_count. cbn. by rewrite H1, H2. }
  cbv zeta. rewrite Hz. replace (0 >=? wanted) with false by lia.
  cbn [after_tick cleared c_Results set_results set_closed set_pending c_closed r_IsPollComplete set_IsPollComplete orb]. rewrite Hcl.
  destruct (Z.gtb_spec (t_since t) (Timeout (opts p))); [by eexists|].
  apply Exists_cons in Hex as [Hex|Hex]; [lia|].
  eapply IH; [apply lookup_insert_eq|done|done|done|done|done|done].
Qed.
End DescriptorPolls.

(** [PollForDescriptors] collects the descriptors of the request, in order: as many as are
    wanted when there are as many, and otherwise all of them up to the response that says that
    there are no more, which is kept. *)
Theorem PollForDescriptors_collects opts p correlationID wanted t ticks w c fs ds :
  w_controls w !! p = Some c -> w_correlations w !! correlationID = Some p ->
  Forall2 (lists opts p correlationID c) fs ds ->
  (forall rest, c_pending c = fs ++ rest -> wanted = zlen fs ->
     exists w' c', PollForDescriptors opts p correlationID wanted (t :: ticks) w = Ret None w' /\
       w_controls w' !! p = Some c' /\ r_RecordingDescriptors (c_Results c') = ds /\
       r_ControlResponse (c_Results c') = None /\ c_pending c' = rest ++ t_arrived t) /\
  (forall f r, c_pending c = fs ++ [f] -> t_arrived t = [] -> zlen fs < wanted ->
     responds opts p correlationID c f r -> ControlResponse_Code r = ControlResponseCode.RECORDING_UNKNOWN ->
     exists w' c', PollForDescriptors opts p correlationID wanted (t :: ticks) w = Ret None w' /\
       w_controls w' !! p = Some c' /\ r_RecordingDescriptors (c_Results c') = ds /\
       r_ControlResponse (c_Results c') = Some r /\ c_pending c' = []).
Proof.
  intros Hc Hr HF.
  set (w0 := with_controls (<[p := set_results clear_descriptors c]> (w_controls w)) (with_rangeChecking (RangeChecking (opts p)) w)).
  assert (E : PollForDescriptors opts p correlationID wanted (t :: ticks) w = descriptor_loop opts p correlationID wanted 0 (t :: ticks) w0).
  { unfold PollForDescriptors. erewrite bind_Ret by done. erewrite bind_Ret by (unfold update_control; cbn [w_controls with_rangeChecking]; by rewrite Hc). done. }
  assert (Hc0 : w_controls w0 !! p = Some (set_results clear_descriptors c)) by apply lookup_insert_eq.
  rewrite E. split.
  - intros rest Hp Hw. destruct (loop_collects opts p correlationID wanted t ticks w0 _ fs ds rest Hc0) as (w' & c' & H1 & H2 & H3 & H4 & H5 & _); try done.
    exists w', c'. by split_and!.
  - intros f r Hp Ha Hw Hre Hcode.
    destruct (loop_ended opts p correlationID wanted t ticks w0 _ fs ds f r Hc0) as (w' & c' & H1 & H2 & H3 & H4 & H5 & _); try done.
    exists w', c'. by split_and!.
Qed.

(** The end of a list of recording subscriptions is not seen: the archive ends it with
    SUBSCRIPTION_UNKNOWN, the handler only knows RECORDING_UNKNOWN, and a caller that wants more
    than there are waits for the timeout and gets an error. *)
Theorem PollForDescriptors_misses_end opts p correlationID wanted ticks w c :
  w_controls w !! p = Some c -> w_correlations w !! correlationID = Some p -> 0 < wanted ->
  Forall (unknown_subscription opts p correlationID c) (c_pending c) ->
  Forall (fun t => t_closed t = false /\ Forall (unknown_subscription opts p correlationID c) (t_arrived t)) ticks ->
  Exists (fun t => Timeout (opts p) < t_since t) ticks ->
  exists w', PollForDescriptors opts p correlationID wanted ticks w = Ret (Some "PollNextDescriptor timeout"%string) w'.
Proof.
  intros Hc Hr Hw Hp Ht Hex. unfold PollForDescriptors. erewrite bind_Ret by done.
  erewrite bind_Ret by (unfold update_control; cbn [w_controls with_rangeChecking]; by rewrite Hc).
  eapply (loop_misses opts p correlationID wanted ticks _ (set_results clear_descriptors c)); try done. apply lookup_insert_eq.
Qed.
