(* ===== verification/ArchiveStream.v ===== *)
(** * The responses of the archive in memory

    Polling the image of the response subscription, whose frames are in the log in memory, with
    a fragment assembler in front of a handler of messages, is [deliver] of ArchiveControl.v on
    the list of those frames. *)

From S2P Require Import Prelude Memory Bits Flyweight LogBuffer TermSpec Appender Reader FragmentAssembler.
From S2P Require Import Publication Image ArchiveControl.

Local Open Scope m_scope.

Local Abbreviation bytes := (list Init.Byte.byte).

Section InMemory.
Context {U : Type} (h : bytes -> U -> ControlledPollAction * U).

(** The handlers of control.go start with [buffer.WriteBytes(buf, offset, length)]. *)
Definition message_delegate : ControlledDelegate U :=
  fun view header =>
  let! msg := match view with
              | MappedView b off len => on_fst (WriteBytes b [] off len)
              | HeapView bs off len => ret (sub_list (Z.to_nat off) (Z.to_nat len) bs)
              end in
  fun '(m, u) => let '(a, u') := h msg u in Ret a (m, u').

(** The length of a message is an [int32]. *)
Definition message_handler (msg : bytes) : M U ControlledPollAction := fun u => Ret (h (cut32 msg) u).1 (h (cut32 msg) u).2.
Definition message_step (f : frame) (msg : bytes) (u : U) : ControlledPollAction * U := h (cut32 msg) u.

Lemma message_delegate_ok b : cdelegates message_step b message_delegate.
Proof using Type.
  split; intros m off f u header.
  - intros Hb Hf Hoff Hin. destruct (frame_reads m b off f header Hb Hf Hoff Hin) as (_ & _ & Hw).
    unfold message_delegate. erewrite bind_Ret by apply on_fst_Ret, Hw. cbn [app].
    unfold message_step. pose proof (buf_ok_length _ _ Hb). unfold frame_length in *. rewrite cut32_id by lia. by destruct (h (fr_data f) u).
  - intros bs Hb Hf Hoff Hin. unfold message_delegate. rewrite bind_ret_l. unfold message_step.
    change (sub_list (Z.to_nat 0) (Z.to_nat (i32 (zlen bs))) bs) with (cut32 bs). by destruct (h (cut32 bs) u).
Qed.

Lemma assembled_step f off s :
  assembled message_handler f s = Ret (casm_step message_step off f s).1 (casm_step message_step off f s).2.
Proof using Type.
  destruct s as [bm u]. unfold assembled, casm_step, message_handler, message_step.
  destruct (_ =? _); [by destruct (h _ _)|]. destruct (_ =? _); [done|].
  destruct (bm !! fr_session f) as [[|x old]|]; try done.
  destruct (_ =? _); [|done]. destruct (h _ _) as [a u']. cbn [fst snd]. by destruct (decide _).
Qed.

(** The walk over the frames of a term, which all start in front of its end. *)
Lemma deliver_cwalk base T limit fs : forall p off n s,
  off + seg_space fs <= T ->
  exists n' fs' s' gone, deliver (assembled message_handler) limit n fs s = Ret (n', fs') s' /\
    fs = gone ++ fs' /\ cwalk (fun _ => casm_step message_step) base T limit p off n fs s = (off + seg_space gone, n', s').
Proof using Type.
  induction fs as [|f fs IH]; intros p off n s Hfit; cbn [deliver cwalk].
  { exists n, [], s, []. cbn. by rewrite Z.add_0_r. }
  cbn [seg_space] in Hfit. pose proof (frame_space_pos f). pose proof (seg_space_nonneg fs).
  rewrite (proj2 (Z.ltb_lt off T)), andb_true_r by lia.
  destruct (n <? limit).
  2:{ exists n, (f :: fs), s, []. cbn. by rewrite Z.add_0_r. }
  destruct (is_padding f).
  { destruct (IH p (off + frame_space f) n s) as (n' & fs' & s' & gone & H1 & -> & H3); [lia|].
    exists n', fs', s', (f :: gone). split; [done|]. split; [done|]. rewrite H3. cbn [seg_space]. do 2 f_equal. lia. }
  erewrite bind_Ret by apply (assembled_step f off).
  destruct (casm_step message_step off f s) as [a s'] eqn:Ha. cbn [fst snd].
  destruct a.
  - exists n, (f :: fs), s', []. cbn. by rewrite Z.add_0_r.
  - exists (n + 1), fs, s', [f]. split_and!; [done..|]. cbn. do 2 f_equal. lia.
  - destruct (IH (base + (off + frame_space f)) (off + frame_space f) (n + 1) s') as (n' & fs' & s'' & gone & H1 & -> & H3); [lia|].
    exists n', fs', s'', (f :: gone). split; [done|]. split; [done|]. rewrite H3. cbn [seg_space]. do 2 f_equal. lia.
  - destruct (IH p (off + frame_space f) (n + 1) s') as (n' & fs' & s'' & gone & H1 & -> & H3); [lia|].
    exists n', fs', s'', (f :: gone). split; [done|]. split; [done|]. rewrite H3. cbn [seg_space]. do 2 f_equal. lia.
Qed.

Lemma message_chandles m img tc b :
  img_ok m img -> 0 <= tc < 2147483648 -> img_term img tc = Some b ->
  chandles (fun _ => casm_step message_step) m img b (ControlledOnFragment message_delegate).
Proof using Type.
  intros Himg Htc Hb m' off f s header Ho Hf _ Hoff Hin. destruct s as [bm u].
  destruct (io_terms _ _ Himg (tc mod 3)) as (b' & Hb' & Hbok & Hlen & Hdis); [by apply Z.mod_pos_bound|].
  assert (b' = b) as -> by (unfold img_term in Hb; congruence).
  pose proof (frame_length_ge f). unfold disjoint in Hdis. fold (pos_addr img) in Hdis.
  assert (Hsame : forall i, bufferPtr b <= i < bufferPtr b + buf_length b -> m' !! i = m !! i) by (intros; apply Ho; lia).
  assert (Hbok' : buf_ok m' b).
  { destruct Hbok as [(? & ? & ? & Hr) ?]. split; [|done]. split_and!; [done..|]. intros i Hi. rewrite Hsame by lia. by apply Hr. }
  apply ControlledOnFragment_step; try done.
  - apply message_delegate_ok.
  - eapply frame_at_ext; [|exact Hf]. intros i Hi. apply Hsame. lia.
Qed.
End InMemory.

(** C32. The poll of the response stream in memory is the poll of the model: the frames that are
    committed in the term are assembled and handed to the handler as messages, up to the limit
    and as its actions say; the handler ends in the same state, the same frames are left, and
    the position of the image is behind those that are gone. *)
Theorem control_poll_in_memory {U} (h : bytes -> U -> ControlledPollAction * U) m img tc off b fs fragmentLimit bm u :
  img_ok m img -> 0 <= tc < 2147483648 -> img_term img tc = Some b ->
  0 <= off < img_T img -> pos_val m img = tc * img_T img + off ->
  log_seg m (bufferPtr b) off fs -> seg_end m b (off + seg_space fs) -> off + seg_space fs <= img_T img ->
  exists n fs' s' gone header m',
    deliver (assembled (message_handler h)) fragmentLimit 0 fs (bm, u) = Ret (n, fs') s' /\
    image_ControlledPoll img (ControlledOnFragment (message_delegate h)) fragmentLimit (m, (bm, u))
      = Ret (n, set_header img header) (m', s') /\
    fs = gone ++ fs' /\ pos_val m' img = tc * img_T img + off + seg_space gone.
Proof.
  intros Himg Htc Hb Hoff Hpos Hseg Hend Hfit.
  destruct (deliver_cwalk h (tc * img_T img) (img_T img) fragmentLimit fs (tc * img_T img + off) off 0 (bm, u) Hfit) as (n & fs' & s' & gone & H1 & H2 & H3).
  destruct (image_ControlledPoll_walk (fun _ => casm_step (message_step h)) m img Himg tc Htc b Hb _
    (message_chandles h m img tc b Himg Htc Hb) fs off fragmentLimit (bm, u)) as (header & m' & Hrun & Ho & Hp); try done.
  rewrite H3 in Hrun, Hp. cbn [fst snd] in Hrun, Hp. exists n, fs', s', gone, header, m'. split_and!; try done. rewrite Hp. lia.
Qed.
