(* ===== verification/Archive.v ===== *)
(** * The operations of the archive client

    archive/archive.go: an operation takes a new correlation id, registers it, sends its request
    and waits for the response, and the connection is made the same way. The mutex is not
    modelled, an operation is a step; the part of [NewArchive] in front of the connection is in
    [ArchiveSetup]. *)

From S2P Require Import Prelude Sbe ArchiveCodecs ArchivePackets ArchiveProxy ArchiveControl ArchiveWait.
From S2P Require Import TermSpec Reader ChannelUri Publication.

Local Open Scope m_scope.

Local Abbreviation bytes := (list Init.Byte.byte).

Definition RecordingPositionNull : Z := -1.
Definition RecordingLengthNull : Z := -1.
Definition RecordingLengthMax : Z := Z.shiftl 2 31 - 1.

Definition AddSessionIdToChannel (channel : string) (sessionID : Z) : string * option parseError :=
  let '(uri, err) := ParseChannelUri channel in
  match err with
  | Some e => (channel, Some e)
  | None => (Uri_String (Uri_Set uri "session-id" (Itoa sessionID)), None)
  end.

(** ** Correlation ids *)

Definition nextCorrelationID : W Z := fun w =>
  let id := i64 (w_correlationID w + 1) in Ret id (with_correlationID id w).

Definition store_correlation (id : Z) (p : nat) : W unit := fun w =>
  Ret tt (with_correlations (<[id := p]> (w_correlations w)) w).
Definition delete_correlation (id : Z) : W unit := fun w =>
  Ret tt (with_correlations (delete id (w_correlations w)) w).

(** [defer]: the cleanup runs however the body ends. *)
Definition deferred {S A} (body : M S A) (cleanup : S -> S) : M S A := fun s =>
  match body s with Ret a s' => Ret a (cleanup s') | Exc e s' => Exc e (cleanup s') end.

(** [ReplaySessionIdToSessionId]: the least significant 32 bits. *)
Definition ReplaySessionIdToSessionId (replaySessionID : Z) : Z := i32 replaySessionID.

Section Operations.
Context (opts : nat -> Options) (p : nat).

(** The frame of every operation: [finish] waits for what the request asks for. *)
Definition rpc {A} (request : Z -> call) (failed : string -> A) (finish : Z -> W A) : W A :=
  let! correlationID := nextCorrelationID in
  store_correlation correlationID p ;;;
  deferred
    (let! err := Proxy_call opts p (request correlationID) in
     match err with
     | Some e => ret (failed e)
     | None => finish correlationID
     end)
    (fun w => with_correlations (delete correlationID (w_correlations w)) w).

(** The rounds of the wait are the argument that stands for the time. *)
Context (ticks : list tick).

Definition rpc_response (request : Z -> call) : W (Z * option string) :=
  rpc request (fun e => (0, Some e)) (fun id => PollForResponse opts p id ticks).
Definition rpc_error (request : Z -> call) : W (option string) :=
  rpc request (fun e => Some e) (fun id => let! (_, err) := PollForResponse opts p id ticks in ret err).

Definition StartRecording (channel : bytes) (stream : Z) (isLocal autoStop : bool) : W (Z * option string) :=
  rpc_response (fun correlationID => CallStartRecordingRequest correlationID stream isLocal autoStop channel).
Definition StopRecording (channel : bytes) (stream : Z) : W (option string) :=
  rpc_error (fun correlationID => CallStopRecordingRequest correlationID stream channel).
Definition StopRecordingBySubscriptionId (subscriptionID : Z) : W (option string) :=
  rpc_error (fun correlationID => CallStopRecordingSubscriptionRequest correlationID subscriptionID).
Definition StartReplay (recordingID position length : Z) (replayChannel : bytes) (replayStream : Z) : W (Z *
  option string) :=
  rpc_response (fun correlationID => CallReplayRequest correlationID recordingID position length replayChannel
    replayStream).
Definition BoundedReplay (recordingID position length limitCounterID replayStream : Z) (replayChannel : bytes) :
  W (Z * option string) :=
  rpc_response (fun correlationID => CallBoundedReplayRequest correlationID recordingID position length
    limitCounterID replayStream replayChannel).
Definition StopReplay (replaySessionID : Z) : W (option string) :=
  rpc_error (fun correlationID => CallStopReplayRequest correlationID replaySessionID).
Definition StopAllReplays (recordingID : Z) : W (option string) :=
  rpc_error (fun correlationID => CallStopAllReplaysRequest correlationID recordingID).
Definition ExtendRecording (recordingID stream sourceLocation : Z) (autoStop : bool) (channel : bytes) : W (Z *
  option string) :=
  rpc_response (fun correlationID => CallExtendRecordingRequest correlationID recordingID stream sourceLocation
    autoStop channel).
Definition GetRecordingPosition (recordingID : Z) : W (Z * option string) :=
  rpc_response (fun correlationID => CallRecordingPositionRequest correlationID recordingID).
Definition TruncateRecording (recordingID position : Z) : W (option string) :=
  rpc_error (fun correlationID => CallTruncateRecordingRequest correlationID recordingID position).
Definition GetStartPosition (recordingID : Z) : W (Z * option string) :=
  rpc_response (fun correlationID => CallStartPositionRequest correlationID recordingID).
Definition GetStopPosition (recordingID : Z) : W (Z * option string) :=
  rpc_response (fun correlationID => CallStopPositionRequest correlationID recordingID).
Definition FindLastMatchingRecording (minRecordingID sessionID stream : Z) (channel : bytes) : W (Z * option
  string) :=
  rpc_response (fun correlationID => CallFindLastMatchingRecordingRequest correlationID minRecordingID sessionID
    stream channel).
Definition DetachSegments (recordingID newStartPosition : Z) : W (option string) :=
  rpc_error (fun correlationID => CallDetachSegmentsRequest correlationID recordingID newStartPosition).
Definition DeleteDetachedSegments (recordingID : Z) : W (Z * option string) :=
  rpc_response (fun correlationID => CallDeleteDetachedSegmentsRequest correlationID recordingID).
Definition PurgeSegments (recordingID newStartPosition : Z) : W (Z * option string) :=
  rpc_response (fun correlationID => CallPurgeSegmentsRequest correlationID recordingID newStartPosition).
Definition AttachSegments (recordingID : Z) : W (Z * option string) :=
  rpc_response (fun correlationID => CallAttachSegmentsRequest correlationID recordingID).
Definition MigrateSegments (recordingID position : Z) : W (Z * option string) :=
  rpc_response (fun correlationID => CallMigrateSegmentsRequest correlationID recordingID position).
Definition Replicate (srcRecordingID dstRecordingID srcControlStreamID : Z) (srcControlChannel liveDestination :
  bytes) : W (Z * option string) :=
  rpc_response (fun correlationID => CallReplicateRequest correlationID srcRecordingID dstRecordingID
    srcControlStreamID srcControlChannel liveDestination).
Definition Replicate2 (srcRecordingID dstRecordingID stopPosition channelTagID srcControlStreamID : Z)
  (srcControlChannel liveDestination replicationChannel : bytes) : W (Z * option string) :=
  rpc_response (fun correlationID => CallReplicateRequest2 correlationID srcRecordingID dstRecordingID
    stopPosition channelTagID srcControlStreamID srcControlChannel liveDestination replicationChannel).
Definition TaggedReplicate (srcRecordingID dstRecordingID channelTagID subscriptionTagID srcControlStreamID : Z)
  (srcControlChannel liveDestination : bytes) : W (Z * option string) :=
  rpc_response (fun correlationID => CallTaggedReplicateRequest correlationID srcRecordingID dstRecordingID
    channelTagID subscriptionTagID srcControlStreamID srcControlChannel liveDestination).
Definition StopReplication (replicationID : Z) : W (option string) :=
  rpc_error (fun correlationID => CallStopReplicationRequest correlationID replicationID).
Definition PurgeRecording (recordingID : Z) : W (option string) :=
  rpc_error (fun correlationID => CallPurgeRecordingRequest correlationID recordingID).

Definition StopRecordingByIdentity (recordingID : Z) : W (bool * option string) :=
  rpc (fun correlationID => CallStopRecordingByIdentityRequest correlationID recordingID) (fun e => (false, Some e))
    (fun id =>
       let! (res, err) := PollForResponse opts p id ticks in
       match err with
       | Some e => ret (false, Some e)
       | None => ret (res >=? 0, None)
       end).

(** ** Lists *)

(** The end of the operations that list: an error response is an error. *)
Definition list_results {A} (request : Z -> call) (count : Z) (results : ControlResults -> W A) (nothing : A)
  : W (A * option string) :=
  rpc request (fun e => (nothing, Some e))
    (fun id =>
       let! err := PollForDescriptors opts p id count ticks in
       match err with
       | Some e => ret (nothing, Some e)
       | None =>
           let! ctl := get_control p in
           match r_ControlResponse (c_Results ctl) with
           | Some response =>
               if ControlResponse_Code response =? ControlResponseCode.ERROR
               then ret (nothing, Some "response failed"%string)
               else let! ds := results (c_Results ctl) in ret (ds, None)
           | None => let! ds := results (c_Results ctl) in ret (ds, None)
           end
       end).

Definition ListRecordings (fromRecordingID recordCount : Z) : W (list RecordingDescriptor * option string) :=
  list_results (fun correlationID => CallListRecordingsRequest correlationID fromRecordingID recordCount) recordCount
    (fun r => ret (r_RecordingDescriptors r)) [].
Definition ListRecordingsForUri (fromRecordingID recordCount : Z) (channelFragment : bytes) (stream : Z)
  : W (list RecordingDescriptor * option string) :=
  list_results (fun correlationID => CallListRecordingsForUriRequest correlationID fromRecordingID recordCount stream channelFragment) recordCount
    (fun r => ret (r_RecordingDescriptors r)) [].
Definition ListRecordingSubscriptions (pseudoIndex subscriptionCount : Z) (applyStreamID : bool) (stream : Z) (channelFragment : bytes)
  : W (list RecordingSubscriptionDescriptor * option string) :=
  list_results (fun correlationID => CallListRecordingSubscriptionsRequest correlationID pseudoIndex subscriptionCount applyStreamID stream channelFragment)
    subscriptionCount (fun r => ret (r_RecordingSubscriptionDescriptors r)) [].

(** One recording: no more than one descriptor, and none when it is not known. *)
Definition ListRecording (recordingID : Z) : W (option RecordingDescriptor * option string) :=
  list_results (fun correlationID => CallListRecordingRequest correlationID recordingID) 1
    (fun r => match r_ControlResponse r with
              | Some response =>
                  if ControlResponse_Code response =? ControlResponseCode.RECORDING_UNKNOWN then ret None
                  else match r_RecordingDescriptors r with d :: _ => ret (Some d) | [] => panic "index out of range" end
              | None => match r_RecordingDescriptors r with d :: _ => ret (Some d) | [] => panic "index out of range" end
              end) None.

(** Not waited for. *)
Definition KeepAlive : W (option string) :=
  let! correlationID := nextCorrelationID in Proxy_call opts p (CallKeepAliveRequest correlationID).

(** ** Connecting *)

(** Fragments are handled one by one; the state of the control says how it went. *)
Fixpoint connect_loop (correlationID : Z) (rounds : list tick) : W unit :=
  let! ctl := get_control p in
  if negb (c_state ctl =? ControlState.Connected) && bool_decide (c_err ctl = None) then
    match rounds with
    | [] => raise EFuel
    | t :: rounds' =>
        arrive p t ;;;
        run_with tt (poll opts p (fun f =>
          on_world (ConnectionControlFragmentHandler opts (mkPollContext p correlationID) (fr_data f) ;;; ret ControlledPollActionContinue)) 1) ;;;
        if t_since t >? Timeout (opts p)
        then update_control p (set_state ControlState.TimedOut (Some "operation timed out"%string))
        else connect_loop correlationID rounds'
    end
  else ret tt.

(** The end of [NewArchive]. *)
Definition connect (AuthEnabled : bool) (ResponseStream : Z) (responseChannel AuthCredentials : bytes) : W (option string) :=
  update_control p (fun c => set_state ControlState.ConnectRequestSent (c_err c) c) ;;;
  let! correlationID := nextCorrelationID in
  store_correlation correlationID p ;;;
  deferred
    (let! err := Proxy_call opts p
       (if AuthEnabled then CallAuthConnectRequest correlationID ResponseStream responseChannel AuthCredentials
        else CallConnectRequest correlationID ResponseStream responseChannel) in
     match err with
     | Some e => ret (Some e)
     | None =>
         connect_loop correlationID ticks ;;;
         let! ctl := get_control p in ret (c_err ctl)
     end)
    (fun w => with_correlations (delete correlationID (w_correlations w)) w).

(** ** All operations that wait for a response *)

Inductive operation : Type :=
| OpStartRecording (channel : bytes) (stream : Z) (isLocal autoStop : bool)
| OpStopRecording (channel : bytes) (stream : Z)
| OpStopRecordingBySubscriptionId (subscriptionID : Z)
| OpStartReplay (recordingID position length : Z) (replayChannel : bytes) (replayStream : Z)
| OpBoundedReplay (recordingID position length limitCounterID replayStream : Z) (replayChannel : bytes)
| OpStopReplay (replaySessionID : Z)
| OpStopAllReplays (recordingID : Z)
| OpExtendRecording (recordingID stream sourceLocation : Z) (autoStop : bool) (channel : bytes)
| OpGetRecordingPosition (recordingID : Z)
| OpTruncateRecording (recordingID position : Z)
| OpGetStartPosition (recordingID : Z)
| OpGetStopPosition (recordingID : Z)
| OpFindLastMatchingRecording (minRecordingID sessionID stream : Z) (channel : bytes)
| OpDetachSegments (recordingID newStartPosition : Z)
| OpDeleteDetachedSegments (recordingID : Z)
| OpPurgeSegments (recordingID newStartPosition : Z)
| OpAttachSegments (recordingID : Z)
| OpMigrateSegments (recordingID position : Z)
| OpReplicate (srcRecordingID dstRecordingID srcControlStreamID : Z) (srcControlChannel liveDestination : bytes)
| OpReplicate2 (srcRecordingID dstRecordingID stopPosition channelTagID srcControlStreamID : Z)
    (srcControlChannel liveDestination replicationChannel : bytes)
| OpTaggedReplicate (srcRecordingID dstRecordingID channelTagID subscriptionTagID srcControlStreamID : Z)
    (srcControlChannel liveDestination : bytes)
| OpStopReplication (replicationID : Z)
| OpPurgeRecording (recordingID : Z).

(** The result is the relevant id of the response, for the operations that answer it. *)
Definition run_operation (o : operation) : W (option Z * option string) :=
  match o with
  | OpStartRecording channel stream isLocal autoStop => let! (id, err) := StartRecording channel stream isLocal
      autoStop in ret (Some id, err)
  | OpStopRecording channel stream => let! err := StopRecording channel stream in ret (None, err)
  | OpStopRecordingBySubscriptionId subscriptionID => let! err := StopRecordingBySubscriptionId subscriptionID in
      ret (None, err)
  | OpStartReplay recordingID position length replayChannel replayStream => let! (id, err) := StartReplay
      recordingID position length replayChannel replayStream in ret (Some id, err)
  | OpBoundedReplay recordingID position length limitCounterID replayStream replayChannel => let! (id, err) :=
      BoundedReplay recordingID position length limitCounterID replayStream replayChannel in ret (Some id, err)
  | OpStopReplay replaySessionID => let! err := StopReplay replaySessionID in ret (None, err)
  | OpStopAllReplays recordingID => let! err := StopAllReplays recordingID in ret (None, err)
  | OpExtendRecording recordingID stream sourceLocation autoStop channel => let! (id, err) := ExtendRecording
      recordingID stream sourceLocation autoStop channel in ret (Some id, err)
  | OpGetRecordingPosition recordingID => let! (id, err) := GetRecordingPosition recordingID in ret (Some id, err)
  | OpTruncateRecording recordingID position => let! err := TruncateRecording recordingID position in ret (None,
      err)
  | OpGetStartPosition recordingID => let! (id, err) := GetStartPosition recordingID in ret (Some id, err)
  | OpGetStopPosition recordingID => let! (id, err) := GetStopPosition recordingID in ret (Some id, err)
  | OpFindLastMatchingRecording minRecordingID sessionID stream channel => let! (id, err) :=
      FindLastMatchingRecording minRecordingID sessionID stream channel in ret (Some id, err)
  | OpDetachSegments recordingID newStartPosition => let! err := DetachSegments recordingID newStartPosition in
      ret (None, err)
  | OpDeleteDetachedSegments recordingID => let! (id, err) := DeleteDetachedSegments recordingID in ret (Some id,
      err)
  | OpPurgeSegments recordingID newStartPosition => let! (id, err) := PurgeSegments recordingID newStartPosition
      in ret (Some id, err)
  | OpAttachSegments recordingID => let! (id, err) := AttachSegments recordingID in ret (Some id, err)
  | OpMigrateSegments recordingID position => let! (id, err) := MigrateSegments recordingID position in ret (Some
      id, err)
  | OpReplicate srcRecordingID dstRecordingID srcControlStreamID srcControlChannel liveDestination => let! (id,
      err) := Replicate srcRecordingID dstRecordingID srcControlStreamID srcControlChannel liveDestination in
      ret (Some id, err)
  | OpReplicate2 srcRecordingID dstRecordingID stopPosition channelTagID srcControlStreamID srcControlChannel
      liveDestination replicationChannel => let! (id, err) := Replicate2 srcRecordingID dstRecordingID
      stopPosition channelTagID srcControlStreamID srcControlChannel liveDestination replicationChannel in ret
      (Some id, err)
  | OpTaggedReplicate srcRecordingID dstRecordingID channelTagID subscriptionTagID srcControlStreamID
      srcControlChannel liveDestination => let! (id, err) := TaggedReplicate srcRecordingID dstRecordingID
      channelTagID subscriptionTagID srcControlStreamID srcControlChannel liveDestination in ret (Some id, err)
  | OpStopReplication replicationID => let! err := StopReplication replicationID in ret (None, err)
  | OpPurgeRecording recordingID => let! err := PurgeRecording recordingID in ret (None, err)
  end.

Definition operation_request (o : operation) (correlationID : Z) : call :=
  match o with
  | OpStartRecording channel stream isLocal autoStop => CallStartRecordingRequest correlationID stream isLocal
      autoStop channel
  | OpStopRecording channel stream => CallStopRecordingRequest correlationID stream channel
  | OpStopRecordingBySubscriptionId subscriptionID => CallStopRecordingSubscriptionRequest correlationID
      subscriptionID
  | OpStartReplay recordingID position length replayChannel replayStream => CallReplayRequest correlationID
      recordingID position length replayChannel replayStream
  | OpBoundedReplay recordingID position length limitCounterID replayStream replayChannel =>
      CallBoundedReplayRequest correlationID recordingID position length limitCounterID replayStream
      replayChannel
  | OpStopReplay replaySessionID => CallStopReplayRequest correlationID replaySessionID
  | OpStopAllReplays recordingID => CallStopAllReplaysRequest correlationID recordingID
  | OpExtendRecording recordingID stream sourceLocation autoStop channel => CallExtendRecordingRequest
      correlationID recordingID stream sourceLocation autoStop channel
  | OpGetRecordingPosition recordingID => CallRecordingPositionRequest correlationID recordingID
  | OpTruncateRecording recordingID position => CallTruncateRecordingRequest correlationID recordingID position
  | OpGetStartPosition recordingID => CallStartPositionRequest correlationID recordingID
  | OpGetStopPosition recordingID => CallStopPositionRequest correlationID recordingID
  | OpFindLastMatchingRecording minRecordingID sessionID stream channel => CallFindLastMatchingRecordingRequest
      correlationID minRecordingID sessionID stream channel
  | OpDetachSegments recordingID newStartPosition => CallDetachSegmentsRequest correlationID recordingID
      newStartPosition
  | OpDeleteDetachedSegments recordingID => CallDeleteDetachedSegmentsRequest correlationID recordingID
  | OpPurgeSegments recordingID newStartPosition => CallPurgeSegmentsRequest correlationID recordingID
      newStartPosition
  | OpAttachSegments recordingID => CallAttachSegmentsRequest correlationID recordingID
  | OpMigrateSegments recordingID position => CallMigrateSegmentsRequest correlationID recordingID position
  | OpReplicate srcRecordingID dstRecordingID srcControlStreamID srcControlChannel liveDestination =>
      CallReplicateRequest correlationID srcRecordingID dstRecordingID srcControlStreamID srcControlChannel
      liveDestination
  | OpReplicate2 srcRecordingID dstRecordingID stopPosition channelTagID srcControlStreamID srcControlChannel
      liveDestination replicationChannel => CallReplicateRequest2 correlationID srcRecordingID dstRecordingID
      stopPosition channelTagID srcControlStreamID srcControlChannel liveDestination replicationChannel
  | OpTaggedReplicate srcRecordingID dstRecordingID channelTagID subscriptionTagID srcControlStreamID
      srcControlChannel liveDestination => CallTaggedReplicateRequest correlationID srcRecordingID
      dstRecordingID channelTagID subscriptionTagID srcControlStreamID srcControlChannel liveDestination
  | OpStopReplication replicationID => CallStopReplicationRequest correlationID replicationID
  | OpPurgeRecording recordingID => CallPurgeRecordingRequest correlationID recordingID
  end.
End Operations.

(** ** What the operations promise *)

Section Answered.
Context (opts : nat -> Options) (p : nat) (ticks : list tick).

Definition new_id (w : world) : Z := i64 (w_correlationID w + 1).

(** The request went out, or the timeout was over at once. *)
Definition request_out (o : operation) (w : world) (c c' : Control) : Prop :=
  (exists bs, sent (c_requests c') = sent (c_requests c) ++ [bs] /\
     reads_as (RangeChecking (opts p)) bs (message_of (c_SessionID c) (operation_request o (new_id w)))) \/
  (sent (c_requests c') = sent (c_requests c) /\
   exists since answer, head (script (c_requests c)) = Some (since, answer) /\ Timeout (opts p) <= since).

Lemma rpc_error_response request w :
  rpc_error opts p ticks request w = (let! (_, err) := rpc_response opts p ticks request in ret err) w.
Proof using Type.
  unfold rpc_error, rpc_response, rpc, deferred, bind, nextCorrelationID, store_correlation. cbv beta iota zeta.
  destruct (Proxy_call _ _ _ _) as [[e|] w1|e w1]; try done. by destruct (PollForResponse _ _ _ _ _) as [[x err] w2|e w2].
Qed.

(** The operations whose result is the id of the answer; the others only report an error. *)
Definition returns_id (o : operation) : bool :=
  match o with
  | OpStopRecording _ _ | OpStopRecordingBySubscriptionId _ | OpStopReplay _ | OpStopAllReplays _ | OpTruncateRecording _ _
  | OpDetachSegments _ _ | OpStopReplication _ | OpPurgeRecording _ => false
  | _ => true
  end.

Lemma run_operation_rpc o w :
  run_operation opts p ticks o w =
    (let! (id, err) := rpc_response opts p ticks (operation_request o) in ret (if returns_id o then Some id else None, err)) w.
Proof using Type.
  destruct o; cbn [returns_id]; first [done|cbn [run_operation operation_request]; unfold StopRecording,
       StopRecordingBySubscriptionId, StopReplay, StopAllReplays, TruncateRecording, DetachSegments, StopReplication, PurgeRecording, bind at 1;
       rewrite rpc_error_response; unfold bind; by destruct (rpc_response _ _ _ _ w) as [[? ?] ?|? ?]].
Qed.

Lemma Proxy_call_ok c w request :
  w_controls w !! p = Some c ->
  Proxy_call opts p request w =
  match run (RangeChecking (opts p)) (Timeout (opts p)) (c_SessionID c) request (c_requests c) with
  | Ret err q => Ret err (with_controls (<[p := set_requests q c]> (w_controls w)) w)
  | Exc e q => Exc e (with_controls (<[p := set_requests q c]> (w_controls w)) w)
  end.
Proof using Type.
  intros Hc. unfold Proxy_call. erewrite bind_Ret by (unfold get_control; by rewrite Hc).
  destruct (run _ _ _ _ _); by erewrite bind_Ret by (unfold update_control; by rewrite Hc).
Qed.

Lemma rpc_response_ok request w c x w' :
  w_controls w !! p = Some c -> message_valid (message_of (c_SessionID c) (request (new_id w))) ->
  Forall (fun a => offered_ok a.2) (script (c_requests c)) -> w_correlations w !! new_id w = None ->
  rpc_response opts p ticks request w = Ret (x, None) w' ->
  w_correlations w' = w_correlations w /\
  exists c' r, w_controls w' !! p = Some c' /\ r_ControlResponse (c_Results c') = Some r /\
    own_response (new_id w) (c_SessionID c) r /\ ControlResponse_Code r = ControlResponseCode.OK /\
    x = ControlResponse_RelevantId r /\
    exists q, run (RangeChecking (opts p)) (Timeout (opts p)) (c_SessionID c) (request (new_id w)) (c_requests c) = Ret None q /\
      c_requests c' = q.
Proof using Type.
  intros Hc Hv Hok Hfresh. unfold rpc_response, rpc. unfold bind at 1, nextCorrelationID. fold (new_id w).
  unfold bind at 1, store_correlation, deferred.
  set (w1 := with_correlations _ _). assert (Hc1 : w_controls w1 !! p = Some c) by done.
  unfold bind at 1. rewrite (Proxy_call_ok c w1 _ Hc1).
  destruct (run _ _ _ _ _) as [[e|] q|e q] eqn:Hrun; [done| |done].
  set (w2 := with_controls _ _).
  assert (Hreg : <[new_id w := p]> (w_correlations w) !! new_id w = Some p) by apply lookup_insert_eq.
  pose proof (PollForResponse_result opts p (new_id w) (c_SessionID c) q _ Hreg ticks w2 eq_refl) as H.
  destruct (PollForResponse _ _ _ _ w2) as [result w3|e w3]; [|done].
  intros [= -> <-]. destruct H as (Hres & Hcor & c3 & Hc3 & Hs3 & Hq3).
  { exists (set_requests q c). split; [apply lookup_insert_eq|done]. }
  split.
  { cbn [w_correlations with_correlations]. rewrite Hcor. by apply delete_insert_id. }
  destruct Hres as [?|[?|(c4 & r & Hc4 & Hr & Hown & Heq)]]; [done..|].
  rewrite Hc3 in Hc4. injection Hc4 as <-. exists c3, r. unfold response_result in Heq.
  destruct (ControlResponse_Code r =? ControlResponseCode.OK) eqn:E; injection Heq as ->; [|done].
  split_and!; try done; [lia|]. by exists q.
Qed.

Lemma requests_out o w c c' q :
  message_valid (message_of (c_SessionID c) (operation_request o (new_id w))) ->
  Forall (fun a => offered_ok a.2) (script (c_requests c)) ->
  run (RangeChecking (opts p)) (Timeout (opts p)) (c_SessionID c) (operation_request o (new_id w)) (c_requests c) = Ret None q ->
  c_requests c' = q -> request_out o w c c'.
Proof using Type.
  intros Hv Hok Hq Hreq. unfold request_out. rewrite Hreq.
  pose proof (run_sent _ _ _ _ _ _ _ Hv Hok Hq) as Hsent.
  destruct (message_error _ _); [by destruct Hsent|]. destruct Hsent as [?|[? ?]]; [by left|by right].
Qed.
End Answered.


(** ** Connecting *)

(** The response that the connection waits for. *)
Definition connect_response (o : Options) (correlationID : Z) (f : frame) (r : ControlResponse) : Prop :=
  is_padding f = false /\
  (exists hdr buf, decode_header (fr_data f) = (hdr, buf, None) /\ kind_of hdr = KControlResponse /\
     decode_message ControlResponse hdr buf (RangeChecking o) = (r, None)) /\
  ControlResponse_CorrelationId r = correlationID.

Lemma connection_handler_response opts p correlationID f r w c :
  connect_response (opts p) correlationID f r ->
  w_controls w !! p = Some c -> w_correlations w !! correlationID = Some p -> w_rangeChecking w = RangeChecking (opts p) ->
  ConnectionControlFragmentHandler opts (mkPollContext p correlationID) (fr_data f) w =
  if ControlResponse_Code r =? ControlResponseCode.OK then
    Ret tt (log_events p (if c_state c =? ControlState.ConnectRequestSent then [] else error_event (opts p) "Control Response not expecting response")
      (with_controls (<[p := set_SessionID (ControlResponse_ControlSessionId r) (set_state ControlState.Connected None c)]> (w_controls w)) w))
  else
    Ret tt (log_events p (error_event (opts p) "Control Response failure")
      (with_controls (<[p := set_state ControlState.Error (Some "Control Response failure"%string) c]> (w_controls w)) w)).
Proof.
  intros (_ & (hdr & buf & Hh & Hk & Hm) & Hid) Hc Hr Hx. unfold ConnectionControlFragmentHandler. cbn [pc_control pc_correlationID].
  rewrite Hh, Hk, bind_ret_l. erewrite bind_Ret by (unfold read_rangeChecking; by rewrite Hx). rewrite Hm.
  erewrite bind_Ret by (unfold load_correlation; by rewrite Hid, Hr). cbv beta iota. rewrite Hid, Z.eqb_refl.
  destruct (ControlResponse_Code r =? ControlResponseCode.OK); cbn [negb].
  2:{ erewrite bind_Ret by (unfold update_control; by rewrite Hc). by rewrite call_ErrorListener_ok. }
  erewrite bind_Ret by (unfold get_control; by rewrite Hc).
  destruct (c_state c =? ControlState.ConnectRequestSent); cbn [negb when].
  - rewrite bind_ret_l, log_events_nil. erewrite bind_Ret by (unfold update_control; by rewrite Hc).
    unfold update_control. cbn [w_controls with_controls]. by rewrite lookup_insert_eq, insert_insert_eq.
  - erewrite bind_Ret.
    2:{ erewrite bind_Ret by (unfold update_control; by rewrite Hc). apply call_ErrorListener_ok. }
    erewrite bind_Ret.
    2:{ unfold update_control. cbn [w_controls with_controls log_events with_events]. by rewrite lookup_insert_eq. }
    unfold update_control. cbn [w_controls with_controls log_events with_events].
    rewrite lookup_insert_eq, !insert_insert_eq. done.
Qed.

(** An authenticated connection reports an error that it is not: after the challenge the
    state is not the one that the response is expected in, so that the response that completes
    the connection is handed to the error listener as one that was not expected, and the
    connection is made all the same. *)
Theorem challenged_connection_reports opts p correlationID f r w c :
  connect_response (opts p) correlationID f r -> ControlResponse_Code r = ControlResponseCode.OK ->
  w_controls w !! p = Some c -> w_correlations w !! correlationID = Some p -> w_rangeChecking w = RangeChecking (opts p) ->
  c_state c = ControlState.Challenged -> has_ErrorListener (opts p) = true ->
  exists w' c',
    ConnectionControlFragmentHandler opts (mkPollContext p correlationID) (fr_data f) w = Ret tt w' /\
    w_controls w' !! p = Some c' /\ c_state c' = ControlState.Connected /\ c_err c' = None /\
    c_SessionID c' = ControlResponse_ControlSessionId r /\
    w_events w' = w_events w ++ [(p, OnErrorEvent "Control Response not expecting response")].
Proof.
  intros Hf Hcode Hc Hr Hx Hst Hl. eexists _, _.
  rewrite (connection_handler_response opts p correlationID f r w c) by done.
  rewrite Hcode, Hst. split; [reflexivity|]. split; [apply lookup_insert_eq|].
  split_and!; try done. cbn. unfold error_event. by rewrite Hl.
Qed.

Definition connect_call (AuthEnabled : bool) (correlationID ResponseStream : Z) (responseChannel AuthCredentials : bytes) : call :=
  if AuthEnabled then CallAuthConnectRequest correlationID ResponseStream responseChannel AuthCredentials
  else CallConnectRequest correlationID ResponseStream responseChannel.

Definition connected_control (r : ControlResponse) (c : Control) : Control :=
  if ControlResponse_Code r =? ControlResponseCode.OK
  then set_SessionID (ControlResponse_ControlSessionId r) (set_state ControlState.Connected None c)
  else set_state ControlState.Error (Some "Control Response failure"%string) c.

(** A message that is neither a response nor a challenge for the connection, and the calls of the
    error listener for it. *)
Definition passed_over (o : Options) (correlationID : Z) (msg : bytes) : option (list event) :=
  let '(hdr, buf, err) := decode_header msg in
  let es := match err with Some e => error_event o e | None => [] end in
  match kind_of hdr with
  | KControlResponse =>
      let '(response, err) := decode_message ControlResponse hdr buf (RangeChecking o) in
      match err with
      | Some e => Some (es ++ error_event o e)
      | None => if ControlResponse_CorrelationId response =? correlationID then None else Some es
      end
  | KChallenge =>
      let '(challenge, err) := decode_message Challenge hdr buf (RangeChecking o) in
      let es := es ++ match err with Some e => error_event o e | None => [] end in
      if Challenge_CorrelationId challenge =? correlationID then None else Some es
  | _ => Some es
  end.

Section Connecting.
Context (opts : nat -> Options) (p : nat) (correlationID : Z).

(** A frame in front of the response. *)
Definition ignored (f : frame) (es : list event) : Prop :=
  if is_padding f then es = [] else passed_over (opts p) correlationID (fr_data f) = Some es.

Lemma connection_handler_ignores msg es w :
  passed_over (opts p) correlationID msg = Some es -> w_rangeChecking w = RangeChecking (opts p) ->
  ConnectionControlFragmentHandler opts (mkPollContext p correlationID) msg w = Ret tt (log_events p es w).
Proof using Type.
  unfold passed_over, ConnectionControlFragmentHandler. cbn [pc_control pc_correlationID]. intros Hv Hx.
  destruct (decode_header msg) as [[hdr buf] err].
  set (es1 := match err with Some e => error_event (opts p) e | None => [] end) in *.
  assert (Hhead : match err with Some e => call_ErrorListener opts p e | None => ret tt end w = Ret tt (log_events p es1 w)).
  { subst es1. destruct err; [apply call_ErrorListener_ok|by rewrite log_events_nil]. }
  erewrite bind_Ret by exact Hhead. erewrite bind_Ret by (unfold read_rangeChecking; cbn; by rewrite Hx).
  destruct (kind_of hdr); try (by injection Hv as <-).
  - destruct (decode_message ControlResponse hdr buf (RangeChecking (opts p))) as [r [e|]].
    + injection Hv as <-. by rewrite call_ErrorListener_ok, log_events_app.
    + destruct (_ =? correlationID); [discriminate|]. injection Hv as <-. erewrite bind_Ret by reflexivity. by destruct (_ !! _).
  - destruct (decode_message Challenge hdr buf (RangeChecking (opts p))) as [ch err2].
    set (es2 := match err2 with Some e => error_event (opts p) e | None => [] end) in *.
    destruct (_ =? correlationID); [discriminate|]. injection Hv as <-.
    assert (Hnext : match err2 with Some e => call_ErrorListener opts p e | None => ret tt end (log_events p es1 w) = Ret tt (log_events p (es1 ++ es2) w)).
    { subst es2. destruct err2; [by rewrite call_ErrorListener_ok, log_events_app|by rewrite app_nil_r]. }
    erewrite bind_Ret by exact Hnext. erewrite bind_Ret by reflexivity. by destruct (_ !! _).
Qed.

Definition connection_step (f : frame) : M (unit * world) ControlledPollAction :=
  on_world (X := unit) (ConnectionControlFragmentHandler opts (mkPollContext p correlationID) (fr_data f) ;;; ret ControlledPollActionContinue).

(** A round over frames that are ignored: it handles one of them, or there is none but padding. *)
Lemma deliver_ignored before ess tail w :
  Forall2 ignored before ess -> w_rangeChecking w = RangeChecking (opts p) ->
  (exists d before' es ess', before = d ++ before' /\ ess = es ++ ess' /\ d <> [] /\ Forall2 ignored before' ess' /\
     deliver connection_step 1 0 (before ++ tail) (tt, w) = Ret (1, before' ++ tail) (tt, log_events p (concat es) w)) \/
  (concat ess = [] /\ deliver connection_step 1 0 (before ++ tail) (tt, w) = deliver connection_step 1 0 tail (tt, w)).
Proof using Type.
  intros HF Hx. induction HF as [|f es before ess Hf HF IH]; [by right|]. unfold ignored in Hf. cbn [app deliver].
  replace (0 <? 1) with true by done. destruct (is_padding f) eqn:Hpad.
  - subst es. destruct IH as [(d & before' & es & ess' & -> & -> & Hd & HF' & IH)|[Hc IH]].
    + left. exists (f :: d), before', ([] :: es), ess'. by split_and!.
    + right. by split.
  - left. exists [f], before, [es], ess. split_and!; [done..|]. cbn [concat]. rewrite app_nil_r.
    erewrite bind_Ret by (unfold connection_step, on_world; unfold bind at 1; rewrite (connection_handler_ignores _ _ _ Hf Hx); reflexivity).
    cbv beta iota. replace (0 + 1) with 1 by lia. by destruct (before ++ tail).
Qed.

(** The state that the loop starts in, and goes on in. *)
Definition connecting (c : Control) : Prop := c_err c = None /\ c_state c = ControlState.ConnectRequestSent.

Lemma connect_loop_unfold t ticks w c n fs w1 c1 :
  w_controls w !! p = Some c -> connecting c ->
  deliver connection_step 1 0 (c_pending c ++ t_arrived t) (tt, polling opts p (after_tick t c) w) = Ret (n, fs) (tt, w1) ->
  w_controls w1 !! p = Some c1 -> t_since t <= Timeout (opts p) ->
  connect_loop opts p correlationID (t :: ticks) w =
  connect_loop opts p correlationID ticks (with_controls (<[p := set_pending fs c1]> (w_controls w1)) w1).
Proof using Type.
  intros Hc [He Hst] Hd Hc1 Ht. cbn [connect_loop]. erewrite bind_Ret by (unfold get_control; by rewrite Hc).
  replace (negb (c_state c =? ControlState.Connected) && bool_decide (c_err c = None)) with true by (by rewrite Hst, He).
  rewrite <- bind_assoc. erewrite bind_Ret.
  2:{ rewrite <- run_with_seq. unfold run_with.
      match goal with |- context [poll opts p ?h 1] => change h with connection_step end.
      erewrite (poll_round opts p connection_step 1 t c w tt n fs tt w1 c1) by done. reflexivity. }
  by replace (t_since t >? Timeout (opts p)) with false by lia.
Qed.

Definition connected_events (r : ControlResponse) : list event :=
  if ControlResponse_Code r =? ControlResponseCode.OK then [] else error_event (opts p) "Control Response failure".

(** How the loop ends: with the response, or the refusal, and what is behind it still there. *)
Definition connection_answered (r : ControlResponse) (w w' : world) (c c' : Control) (es : list event) : Prop :=
  w_controls w' !! p = Some c' /\ w_correlations w' = w_correlations w /\ c_requests c' = c_requests c /\
  w_events w' = w_events w ++ ((fun e => (p, e)) <$> es ++ connected_events r) /\
  c_state c' = c_state (connected_control r c) /\ c_err c' = c_err (connected_control r c) /\
  c_SessionID c' = c_SessionID (connected_control r c).

(** The round that reads the response. *)
Lemma connect_round t ticks w c pads ess f rest r :
  w_controls w !! p = Some c -> connecting c -> w_correlations w !! correlationID = Some p ->
  c_pending c ++ t_arrived t = pads ++ f :: rest ->
  (let w1 := polling opts p (after_tick t c) w in
   deliver connection_step 1 0 (pads ++ f :: rest) (tt, w1) = deliver connection_step 1 0 (f :: rest) (tt, w1)) -> concat ess = [] ->
  connect_response (opts p) correlationID f r -> t_since t <= Timeout (opts p) ->
  exists w' c', connect_loop opts p correlationID (t :: ticks) w = Ret tt w' /\ c_pending c' = rest /\
    connection_answered r w w' c c' (concat ess).
Proof using Type.
  intros Hc [He Hst] Hreg HL Hpads Hess Hf Ht. cbv zeta in Hpads. set (c1 := after_tick t c) in *.
  assert (Hd : deliver connection_step 1 0 (c_pending c ++ t_arrived t) (tt, polling opts p c1 w) =
    Ret (1, rest) (tt, log_events p (connected_events r) (with_controls (<[p := connected_control r c1]> (w_controls w))
      (with_rangeChecking (RangeChecking (opts p)) w)))).
  { rewrite HL. etrans; [exact Hpads|]. cbn [deliver]. rewrite (proj1 Hf). replace (0 <? 1) with true by done.
    pose proof (connection_handler_response opts p correlationID f r (polling opts p c1 w) c1 Hf (lookup_insert_eq _ _ _) Hreg eq_refl) as Hh.
    match goal with |- _ = Ret _ (_, ?w2) => assert (Hstep : connection_step f (tt, polling opts p c1 w) = Ret ControlledPollActionContinue (tt, w2)) end.
    { unfold connection_step, on_world. unfold bind at 1. rewrite Hh. unfold connected_events, connected_control.
      replace (c_state c1 =? ControlState.ConnectRequestSent) with true by (unfold c1, after_tick; cbn; by rewrite Hst).
      destruct (ControlResponse_Code r =? ControlResponseCode.OK); unfold polling, log_events; cbn [w_controls with_rangeChecking with_controls];
        rewrite !insert_insert_eq; reflexivity. }
    erewrite bind_Ret by exact Hstep.
    cbv beta iota. replace (0 + 1) with 1 by lia. by destruct rest. }
  rewrite (connect_loop_unfold t ticks w c 1 rest _ (connected_control r c1) Hc (conj He Hst) Hd (lookup_insert_eq _ _ _) Ht).
  set (c' := set_pending rest (connected_control r c1)).
  assert (Hend : negb (c_state c' =? ControlState.Connected) && bool_decide (c_err c' = None) = false).
  { unfold c', connected_control. by destruct (_ =? ControlResponseCode.OK). }
  match goal with |- context [connect_loop _ _ _ ticks ?w1 = _] => exists w1 end. exists c'. split; [|split].
  - destruct ticks; cbn [connect_loop]; unfold bind, get_control; cbn [w_controls with_controls log_events with_events]; rewrite lookup_insert_eq, Hend; reflexivity.
  - done.
  - rewrite Hess. split; [apply lookup_insert_eq|]. unfold c', connected_control.
    split_and!; try done; by destruct (_ =? ControlResponseCode.OK).
Qed.

(** The loop finds the response: frames that are ignored are in front of it, and when it has
    arrived with the tick [a] it is handled at the latest as many rounds later as there are
    frames in front. *)
Lemma connect_loop_answers ticks : forall a w c before ess f after r,
  w_controls w !! p = Some c -> connecting c -> w_correlations w !! correlationID = Some p ->
  c_pending c ++ concat (t_arrived <$> ticks) = before ++ f :: after -> Forall2 ignored before ess ->
  connect_response (opts p) correlationID f r ->
  before ++ [f] `prefix_of` c_pending c ++ concat (t_arrived <$> take (S a) ticks) ->
  (a + length before < length ticks)%nat -> Forall (fun t => t_since t <= Timeout (opts p)) (take (S (a + length before)) ticks) ->
  exists w' c' k, connect_loop opts p correlationID ticks w = Ret tt w' /\ (k <= S (a + length before))%nat /\
    c_pending c ++ concat (t_arrived <$> take k ticks) = before ++ f :: c_pending c' /\
    connection_answered r w w' c c' (concat ess).
Proof using Type.
  induction ticks as [|t ticks IH]; intros a w c before ess f after r Hc Hconn Hreg Hall HF Hf Harr Hlen Htime; [cbn in Hlen; lia|].
  cbn [fmap list_fmap concat take] in Hall, Harr, Htime. rewrite app_assoc in Hall, Harr. apply Forall_cons in Htime as [Ht Htime].
  set (L := c_pending c ++ t_arrived t) in *. set (w1 := polling opts p (after_tick t c) w).
  assert (Hgo : forall d before' es ess' L' n, before = d ++ before' -> ess = es ++ ess' -> Forall2 ignored before' ess' -> L = d ++ L' ->
    (pred a + length before' < a + length before)%nat ->
    before' ++ [f] `prefix_of` L' ++ concat (t_arrived <$> take (S (pred a)) ticks) ->
    deliver connection_step 1 0 L (tt, w1) = Ret (n, L') (tt, log_events p (concat es) w1) ->
    exists w' c' k, connect_loop opts p correlationID (t :: ticks) w = Ret tt w' /\ (k <= S (a + length before))%nat /\
      c_pending c ++ concat (t_arrived <$> take k (t :: ticks)) = before ++ f :: c_pending c' /\
      connection_answered r w w' c c' (concat ess)).
  { intros d before' es ess' L' n Eb Ee HF' EL Hless Harr' Hd. destruct Hconn as [He Hst].
    rewrite (connect_loop_unfold t ticks w c n L' _ (after_tick t c) Hc (conj He Hst) Hd (lookup_insert_eq _ _ _) Ht).
    set (c2 := set_pending L' (after_tick t c)). match goal with |- context [connect_loop _ _ _ ticks ?w2 = _] => set (w2' := w2) end.
    destruct (IH (pred a) w2' c2 before' ess' f after r) as (w' & c' & k & Hl & Hk & Hp & Hc' & Hcor & Hreq & Hev & Hrest).
    - apply lookup_insert_eq.
    - done.
    - done.
    - cbn [c2 c_pending set_pending]. rewrite Eb, EL, <- !app_assoc in Hall. by apply app_inv_head in Hall.
    - done.
    - done.
    - exact Harr'.
    - cbn [length] in Hlen. lia.
    - replace (S (pred a + length before')) with (Nat.min (S (pred a + length before')) (a + length before)) by lia.
      rewrite <- take_take. by apply Forall_take.
    - exists w', c', (S k). split; [exact Hl|]. split; [lia|]. cbn [take fmap list_fmap concat]. split.
      + rewrite app_assoc. fold L. cbn [c2 c_pending set_pending] in Hp. rewrite EL, <- app_assoc, Hp, Eb. by rewrite <- app_assoc.
      + split; [done|]. split; [by rewrite Hcor|]. split; [by rewrite Hreq|]. split.
        * rewrite Hev, Ee, concat_app. cbn. by rewrite !fmap_app, <- !app_assoc.
        * unfold connected_control in *. by destruct (_ =? ControlResponseCode.OK). }
  assert (Hx : w_rangeChecking w1 = RangeChecking (opts p)) by done.
  destruct (app_eq_inv L _ before _ Hall) as [(k & EL & Hk)|(k & Eb & Hk)].
  - (* All in front of the response is there. *)
    destruct k as [|g k].
    + rewrite app_nil_r in EL. cbn [app] in Hk.
      assert (a <> 0%nat) as Ha.
      { intros ->. cbn in Harr. rewrite take_0 in Harr. cbn in Harr. rewrite app_nil_r, EL in Harr. apply prefix_length in Harr.
        rewrite length_app in Harr. simpl in Harr. lia. }
      destruct (deliver_ignored before ess [] w1 HF Hx) as [(d & before' & es & ess' & Eb & Ee & Hd & HF' & Hrun)|[Hc0 Hrun]].
      * rewrite !app_nil_r in Hrun. apply (Hgo d before' es ess' before' 1); [done|done|done|by rewrite EL| | |by rewrite EL].
        -- apply (f_equal length) in Eb. rewrite length_app in Eb. lia.
        -- replace (S (pred a)) with a by lia. rewrite EL, Eb, <- !app_assoc in Harr. by apply prefix_app_inv in Harr.
      * rewrite app_nil_r in Hrun. apply (Hgo before [] ess [] [] 0); [by rewrite app_nil_r|by rewrite app_nil_r|done|by rewrite EL, app_nil_r| | |].
        -- simpl. lia.
        -- replace (S (pred a)) with a by lia. rewrite EL in Harr. by apply prefix_app_inv in Harr.
        -- rewrite EL, Hrun, Hc0. cbn [deliver]. by rewrite log_events_nil.
    + injection Hk as <- Hk.
      destruct (deliver_ignored before ess (f :: k) w1 HF Hx) as [(d & before' & es & ess' & Eb & Ee & Hd & HF' & Hrun)|[Hc0 Hrun]].
      * apply (Hgo d before' es ess' (before' ++ f :: k) 1); [done|done|done|by rewrite EL, Eb, <- app_assoc| | |by rewrite EL].
        -- apply (f_equal length) in Eb. rewrite length_app in Eb. destruct d; [done|simpl in Eb; lia].
        -- rewrite <- app_assoc. apply prefix_app. by eexists.
      * destruct (connect_round t ticks w c before ess f k r) as (w' & c' & Hl & Hp' & Hans); try done.
        exists w', c', 1%nat. split; [exact Hl|]. split; [lia|]. split; [|done]. cbn [take fmap list_fmap concat]. rewrite take_0. cbn.
        rewrite app_nil_r, Hp'. exact EL.
  - (* Not all of it is there. *)
    assert (a <> 0%nat) as Ha.
    { intros ->. cbn in Harr. rewrite take_0 in Harr. cbn in Harr. rewrite app_nil_r, Eb in Harr. apply prefix_length in Harr.
      rewrite !length_app in Harr. simpl in Harr. lia. }
    rewrite Eb in HF. apply Forall2_app_inv_l in HF as (es1 & es2 & HF1 & HF2 & Ee).
    destruct (deliver_ignored L es1 [] w1 HF1 Hx) as [(d & L' & es & es1' & EL & E1 & Hd & HF' & Hrun)|[Hc0 Hrun]].
    + rewrite !app_nil_r in Hrun. apply (Hgo d (L' ++ k) es (es1' ++ es2) L' 1); [| | |done| | |done].
      * by rewrite Eb, EL, <- app_assoc.
      * by rewrite Ee, E1, <- app_assoc.
      * by apply Forall2_app.
      * apply (f_equal length) in EL. rewrite Eb, !length_app in *. lia.
      * replace (S (pred a)) with a by lia. rewrite Eb, EL, <- !app_assoc in Harr. apply prefix_app_inv in Harr. by rewrite <- app_assoc.
    + rewrite app_nil_r in Hrun. apply (Hgo L k es1 es2 [] 0); [done|done|done|by rewrite app_nil_r| | |].
      * rewrite Eb, length_app. lia.
      * replace (S (pred a)) with a by lia. rewrite Eb, <- !app_assoc in Harr. by apply prefix_app_inv in Harr.
      * rewrite Hrun, Hc0. cbn [deliver]. by rewrite log_events_nil.
Qed.
End Connecting.

(** C33. Connecting: the request goes out, and the archive answers it. Whatever else is in the
    stream in front of the answer, messages that are neither a response nor a challenge for this
    request, damaged ones and padding, is passed over, one message a round, with its calls of the
    error listener; the answer may arrive with any tick [a], and the rounds up to as many behind
    that tick as there are frames in front of the answer are in time. Then the session of the
    answer is the session of the archive from then on, or the refusal is what is reported; what
    arrived behind the answer is left in the stream, and the registration of the correlation id
    is gone. *)
Theorem connect_established opts p auth stream channel credentials ticks a w c before ess f after r q :
  w_controls w !! p = Some c -> c_err c = None -> w_correlations w !! new_id w = None ->
  run (RangeChecking (opts p)) (Timeout (opts p)) (c_SessionID c) (connect_call auth (new_id w) stream channel credentials) (c_requests c)
    = Ret None q ->
  c_pending c ++ concat (t_arrived <$> ticks) = before ++ f :: after ->
  Forall2 (ignored opts p (new_id w)) before ess -> connect_response (opts p) (new_id w) f r ->
  before ++ [f] `prefix_of` c_pending c ++ concat (t_arrived <$> take (S a) ticks) ->
  (a + length before < length ticks)%nat -> Forall (fun t => t_since t <= Timeout (opts p)) (take (S (a + length before)) ticks) ->
  exists w' c' k, w_controls w' !! p = Some c' /\ c_requests c' = q /\ (k <= S (a + length before))%nat /\
    c_pending c ++ concat (t_arrived <$> take k ticks) = before ++ f :: c_pending c' /\
    w_correlations w' = w_correlations w /\
    w_events w' = w_events w ++ ((fun e => (p, e)) <$> concat ess ++ connected_events opts p r) /\
    (if ControlResponse_Code r =? ControlResponseCode.OK then
       connect opts p ticks auth stream channel credentials w = Ret None w' /\
       c_state c' = ControlState.Connected /\ c_SessionID c' = ControlResponse_ControlSessionId r
     else
       connect opts p ticks auth stream channel credentials w = Ret (Some "Control Response failure"%string) w' /\
       c_state c' = ControlState.Error /\ c_SessionID c' = c_SessionID c).
Proof.
  intros Hc He Hfresh Hrun Hall HF Hf Harr Hlen Htime.
  set (c0 := set_state ControlState.ConnectRequestSent (c_err c) c).
  set (w1 := with_correlations (<[new_id w := p]> (w_correlations w)) (with_correlationID (new_id w)
               (with_controls (<[p := c0]> (w_controls w)) w))).
  set (w2 := with_controls (<[p := set_requests q c0]> (w_controls w1)) w1).
  assert (Hcall : Proxy_call opts p (connect_call auth (new_id w) stream channel credentials) w1 = Ret None w2).
  { rewrite (Proxy_call_ok opts p c0) by apply lookup_insert_eq. cbn [c0 set_state c_SessionID c_requests]. by rewrite Hrun. }
  destruct (connect_loop_answers opts p (new_id w) ticks a w2 (set_requests q c0) before ess f after r)
    as (w' & c' & k & Hl & Hk & Hpe & Hc' & Hcor & Hreq & Hev & Hs1 & Hs2 & Hs3);
    try done; [apply lookup_insert_eq|apply lookup_insert_eq|].
  set (w3 := with_correlations (delete (new_id w) (w_correlations w')) w').
  assert (Hconn : connect opts p ticks auth stream channel credentials w = Ret (c_err c') w3).
  { unfold connect. erewrite bind_Ret by (unfold update_control; by rewrite Hc). fold c0.
    erewrite bind_Ret by reflexivity. erewrite bind_Ret by reflexivity. change (i64 _) with (new_id w). fold w1.
    unfold deferred. fold (connect_call auth (new_id w) stream channel credentials).
    erewrite bind_Ret by exact Hcall. cbv beta iota. erewrite bind_Ret by exact Hl.
    unfold bind, get_control. by rewrite Hc'. }
  exists w3, c', k. split; [done|]. split; [done|]. split; [done|]. split; [done|].
  split; [cbn; rewrite Hcor; by apply delete_insert_id|]. split; [done|].
  rewrite Hconn. unfold connected_control in *.
  destruct (ControlResponse_Code r =? ControlResponseCode.OK); cbn in Hs1, Hs2, Hs3; by rewrite Hs2.
Qed.
