(* ===== verification/ArchiveRecorded.v ===== *)
(** * Recorded publications

    archive/archive.go: [AddRecordedPublication], [StopRecordingByPublication] and [Close]. The
    publication is what the client of the driver answers ([Client.v]); what is closed on the way
    is noted in the order in which it happens. *)

From S2P Require Import Prelude Sbe SbePacket ArchiveCodecs ArchivePackets ArchiveProxy ArchiveControl ArchiveWait Archive.
From S2P Require Import ChannelUri Publication.

Local Open Scope m_scope.

(** What a publication says of itself. *)
Record added_publication : Type := mkAdded {
  ap_channel : string;
  ap_streamID : Z;
  ap_sessionID : Z;
  ap_isOriginal : bool }.

Inductive closing : Type :=
| ClosePublication (sessionID : Z)
| CloseRequests
| CloseResponses
| CloseAeron.

Definition E (X : Type) : Type := M (world * list closing) X.

Definition note (e : closing) : E unit := fun '(w, es) => Ret tt (w, es ++ [e]).

Section Recorded.
Context (opts : nat -> Options) (p : nat) (ticks : list tick).

Definition session_channel (pub : added_publication) : string * option parseError :=
  AddSessionIdToChannel (ap_channel pub) (ap_sessionID pub).

Definition StopRecordingByPublication (pub : added_publication) : W (option string) :=
  match session_channel pub with
  | (_, Some _) => ret (Some "invalid channel"%string)
  | (channel, None) => StopRecording opts p ticks (String.list_byte_of_string channel) (ap_streamID pub)
  end.

(** [added] is the answer of the client to [AddPublication]. *)
Definition AddRecordedPublication (stream : Z) (added : added_publication + string)
  : E (option added_publication * option string) :=
  match added with
  | inr err => ret (None, Some err)
  | inl pub =>
      if negb (ap_isOriginal pub) then ret (None, Some "publication already added"%string)
      else
        let! correlationID := on_fst nextCorrelationID in
        on_fst (store_correlation correlationID p) ;;;
        deferred
          (match session_channel pub with
           | (_, Some _) => note (ClosePublication (ap_sessionID pub)) ;;; ret (None, Some "invalid channel"%string)
           | (channel, None) =>
               let! err := on_fst (Proxy_call opts p
                 (CallStartRecordingRequest correlationID stream true false (String.list_byte_of_string channel))) in
               match err with
               | Some e => note (ClosePublication (ap_sessionID pub)) ;;; ret (None, Some e)
               | None =>
                   let! (_, err) := on_fst (PollForResponse opts p correlationID ticks) in
                   match err with
                   | Some e => note (ClosePublication (ap_sessionID pub)) ;;; ret (None, Some e)
                   | None => ret (Some pub, None)
                   end
               end
           end)
          (fun '(w, es) => (with_correlations (delete correlationID (w_correlations w)) w, es))
  end.

(** [Close], with what [NewArchive] got as far as to make; the error of the request is dropped,
    the answer is that of the client. *)
Definition archive_Close (publication subscription : bool) (aeron : option (option string)) : E (option string) :=
  (if publication
   then (let! _ := on_fst (Proxy_call opts p CallCloseSessionRequest) in note CloseRequests)
   else ret tt) ;;;
  when subscription (note CloseResponses) ;;;
  match aeron with
  | Some err => note CloseAeron ;;; ret err
  | None => ret None
  end.
End Recorded.

(** With a channel that is understood, the recording is started as by [StartRecording]. *)
Lemma recorded_rpc opts p ticks stream pub channel w es :
  ap_isOriginal pub = true -> session_channel pub = (channel, None) ->
  AddRecordedPublication opts p ticks stream (inl pub) (w, es) =
  match StartRecording opts p ticks (String.list_byte_of_string channel) stream true false w with
  | Ret (_, None) w' => Ret (Some pub, None) (w', es)
  | Ret (_, Some e) w' => Ret (None, Some e) (w', es ++ [ClosePublication (ap_sessionID pub)])
  | Exc e w' => Exc e (w', es)
  end.
Proof.
  intros Ho Hch. unfold AddRecordedPublication, StartRecording, rpc_response, rpc. rewrite Ho. cbn [negb].
  unfold bind at 1 2, nextCorrelationID, store_correlation, on_fst at 1 2, deferred. rewrite Hch.
  unfold bind, nextCorrelationID, store_correlation, on_fst.
  destruct (Proxy_call _ _ _ _) as [[e|] w1|e w1]; try done. by destruct (PollForResponse _ _ _ _ _) as [[x [e|]] w2|e w2].
Qed.

Lemma recorded_other opts p ticks stream added w es :
  (forall pub, added = inl pub -> ap_isOriginal pub = false) ->
  exists err, AddRecordedPublication opts p ticks stream added (w, es) = Ret (None, Some err) (w, es).
Proof. intros Ho. destruct added as [pub|err]; [|by exists err]. cbn. rewrite Ho by done. by eexists. Qed.

Lemma recorded_bad_channel opts p ticks stream pub channel e w es :
  ap_isOriginal pub = true -> session_channel pub = (channel, Some e) ->
  exists w', AddRecordedPublication opts p ticks stream (inl pub) (w, es)
    = Ret (None, Some "invalid channel"%string) (w', es ++ [ClosePublication (ap_sessionID pub)]).
Proof.
  intros Ho Hch. cbn [AddRecordedPublication]. rewrite Ho. cbn [negb]. unfold bind at 1 2, nextCorrelationID, store_correlation, on_fst.
  unfold deferred. rewrite Hch. unfold bind, note, ret. by eexists.
Qed.

(** C11. A recorded publication, when the call returns; the request fits the layout of its message
    and the new correlation id is not in use. Without an error it is the new publication, which
    stays open; the request to record it, on the channel of its session and with the new
    correlation id, is the one message that was sent, or nothing was sent because the timeout was
    over before the first offer; the archive answered that id with the code OK; to stop
    recording by the publication is to stop recording that channel. With an error none is handed
    out: an original publication that was made for it is closed, and one that is not original is
    neither handed out nor closed. *)
Theorem recorded_or_closed opts p ticks stream added w es res err w' es' c :
  w_controls w !! p = Some c -> Forall (fun a => offered_ok a.2) (script (c_requests c)) -> w_correlations w !! new_id w = None ->
  (forall pub channel, added = inl pub -> session_channel pub = (channel, None) ->
     message_valid (message_of (c_SessionID c)
       (CallStartRecordingRequest (new_id w) stream true false (String.list_byte_of_string channel)))) ->
  AddRecordedPublication opts p ticks stream added (w, es) = Ret (res, err) (w', es') ->
  match res with
  | Some pub =>
      err = None /\ added = inl pub /\ es' = es /\ w_correlations w' = w_correlations w /\
      exists channel c' r, AddSessionIdToChannel (ap_channel pub) (ap_sessionID pub) = (channel, None) /\
        let bs := String.list_byte_of_string channel in
        w_controls w' !! p = Some c' /\ request_out opts p (OpStartRecording bs stream true false) w c c' /\
        ControlResponse_ControlSessionId r = c_SessionID c /\ ControlResponse_CorrelationId r = new_id w /\
        ControlResponse_Code r = ControlResponseCode.OK /\
        StopRecordingByPublication opts p ticks pub = StopRecording opts p ticks bs (ap_streamID pub)
  | None =>
      err <> None /\
      es' = es ++ match added with inl pub => if ap_isOriginal pub then [ClosePublication (ap_sessionID pub)] else [] | inr _ => [] end
  end.
Proof.
  intros Hc Hok Hfresh Hv Hrun.
  destruct added as [pub|e]; [|by injection Hrun as <- <- <- <-; rewrite app_nil_r].
  destruct (ap_isOriginal pub) eqn:Ho.
  2:{ destruct (recorded_other opts p ticks stream (inl pub) w es) as (e & He); [by intros ? [= <-]|].
      rewrite He in Hrun. injection Hrun as <- <- <- <-. by rewrite app_nil_r. }
  destruct (session_channel pub) as [channel [e|]] eqn:Hch.
  { destruct (recorded_bad_channel opts p ticks stream pub channel e w es Ho Hch) as (w1 & Hw1).
    rewrite Hw1 in Hrun. injection Hrun as <- <- <- <-. done. }
  rewrite (recorded_rpc opts p ticks stream pub channel w es Ho Hch) in Hrun.
  destruct (StartRecording _ _ _ _ _ _ _ w) as [[x [e|]] w1|e w1] eqn:Hs; [|injection Hrun as <- <- <- <-|done].
  { injection Hrun as <- <- <- <-. done. }
  destruct (rpc_response_ok opts p ticks _ w c x w1 Hc (Hv _ _ eq_refl Hch) Hok Hfresh Hs)
    as (Hcor & c' & r & Hc' & Hr & [Hsid Hid] & Hcode & _ & q & Hq & Hreq).
  split_and!; try done. exists channel, c', r. split; [exact Hch|]. split_and!; try done.
  - exact (requests_out opts p (OpStartRecording (String.list_byte_of_string channel) stream true false) w c c' q (Hv _ _ eq_refl Hch) Hok Hq Hreq).
  - unfold StopRecordingByPublication. by rewrite Hch.
Qed.
