(* ===== verification/ArchiveSetup.v ===== *)
(** * Setting up an archive

    archive/archive.go: [NewArchive] from the options to the connection, with the cleanup that is
    deferred when it fails, the listeners that it sets, and the subscription to the recording
    events; archive/options.go. What the client of the driver answers ([Client.v]) is a
    parameter: whether it connects, makes the subscription and the publication, and which
    endpoint the subscription has got. The levels of the logging library are a parameter too. *)

From S2P Require Import Prelude Sbe ArchiveCodecs ArchivePackets ArchiveProxy ArchiveControl ArchiveWait Archive.
From S2P Require Import TermSpec Reader Publication RecordingEvents ArchiveRecorded.

Local Open Scope m_scope.

Local Abbreviation bytes := (list Init.Byte.byte).

(** ** options.go *)

Record ArchiveOptions : Type := mkArchiveOptions {
  ao_RequestChannel : string; ao_RequestStream : Z;
  ao_ResponseChannel : string; ao_ResponseStream : Z;
  ao_RecordingEventsChannel : string; ao_RecordingEventsStream : Z;
  ao_ArchiveLoglevel : Z; ao_AeronLoglevel : Z;
  ao_Timeout : Z;
  ao_RangeChecking : bool;
  ao_AuthEnabled : bool; ao_AuthCredentials : bytes;
  ao_AuthChallenge : option bytes; ao_AuthResponse : bytes }.

Section Setup.
(** The levels of zap for debugging, which is its lowest, and for warnings. *)
Context (DebugLevel WarnLevel : Z).

(** Five seconds; the idle strategy sleeps. *)
Definition DefaultOptions : ArchiveOptions := {|
  ao_RequestChannel := "aeron:udp?endpoint=localhost:8010"; ao_RequestStream := 10;
  ao_ResponseChannel := "aeron:udp?endpoint=localhost:0"; ao_ResponseStream := 20;
  ao_RecordingEventsChannel := "aeron:udp?control-mode=dynamic|control=localhost:8030"; ao_RecordingEventsStream := 30;
  ao_ArchiveLoglevel := WarnLevel; ao_AeronLoglevel := WarnLevel;
  ao_Timeout := 5000000000;
  ao_RangeChecking := false;
  ao_AuthEnabled := false; ao_AuthCredentials := [];
  ao_AuthChallenge := None; ao_AuthResponse := [] |}.

Definition options_or_default (options : option ArchiveOptions) : ArchiveOptions :=
  match options with Some o => o | None => DefaultOptions end.

(** ** The listeners *)

(** Which of them are set; and whether the handlers of the context for new subscriptions and
    publications are replaced by listeners that log. *)
Record listeners_set : Type := mkListenersSet {
  ls_Listeners : ArchiveListeners;
  ls_RecordingSignalListener : bool;
  ls_ImageListeners : bool;
  ls_context_replaced : bool }.

Definition default_listeners : listeners_set := mkListenersSet (mkListeners true false false false) false false false.
Definition logging_listeners : listeners_set := mkListenersSet (mkListeners true true true true) true true true.

Definition initial_listeners (level : Z) : listeners_set :=
  if level >=? DebugLevel then logging_listeners else default_listeners.

(** What the handlers use of them. *)
Definition handler_options (o : ArchiveOptions) (l : listeners_set) : Options :=
  mkOptions (ao_RangeChecking o) (ao_Timeout o) (ao_AuthChallenge o) (ao_AuthResponse o)
    (l_Error (ls_Listeners l)) (ls_RecordingSignalListener l).

(** ** NewArchive *)

(** The answers of the client of the driver: errors of connecting, of the subscription, of the
    publication and of closing; the endpoints that the subscription gives when it is asked, with
    the time since the start after each; and what becomes of the requests that are offered. *)
Record client_answers : Type := mkClient {
  ca_connect : option string;
  ca_subscription : option string;
  ca_endpoint : string;
  ca_endpoints : list (string * Z);
  ca_publication : option string;
  ca_requests : list (Z * offered);
  ca_close : option string }.

Definition new_control (requests : list (Z * offered)) : Control :=
  mkControl 0 None no_results 0 ∅ (mkRequests requests []) [] false true.

Context (p : nat) (ticks : list tick).

(** The endpoint: asked for until it is there, and once more before the time is looked at. *)
Fixpoint resolve (timeout : Z) (responseChannel : string) (rounds : list (string * Z)) : W (string + string) :=
  if bool_decide (responseChannel = EmptyString) then
    match rounds with
    | [] => raise EFuel
    | (channel, since) :: rounds' =>
        if since >? timeout then ret (inr "Resolving channel endpoint failed"%string) else resolve timeout channel rounds'
    end
  else ret (inl responseChannel).

(** How far it got: the client, the subscription and the publication that were made. *)
Record made : Type := mkMade { md_aeron : bool; md_subscription : bool; md_publication : bool }.

Definition opts_with (o : Options) (opts : nat -> Options) : nat -> Options := fun q => if (q =? p)%nat then o else opts q.

(** The body: how far it got, and the error. *)
Definition NewArchive_body (opts : nat -> Options) (o : ArchiveOptions) (client : client_answers) : W (made * option string) :=
  (fun w => Ret tt (with_controls (<[p := new_control (ca_requests client)]> (w_controls w)) w)) ;;;
  match ca_connect client with
  | Some err => ret (mkMade false false false, Some err)
  | None =>
      match ca_subscription client with
      | Some err => ret (mkMade true false false, Some err)
      | None =>
          let! channel := resolve (ao_Timeout o) (ca_endpoint client) (ca_endpoints client) in
          match channel with
          | inr err => ret (mkMade true true false, Some err)
          | inl responseChannel =>
              match ca_publication client with
              | Some err => ret (mkMade true true false, Some err)
              | None =>
                  let! err := connect opts p ticks (ao_AuthEnabled o) (ao_ResponseStream o)
                                (String.list_byte_of_string responseChannel) (ao_AuthCredentials o) in
                  ret (mkMade true true true, err)
              end
          end
      end
  end.

(** With the deferred [Close], whose own error is dropped. *)
Definition NewArchive (opts : nat -> Options) (options : option ArchiveOptions) (client : client_answers)
  : E (option listeners_set * option string) :=
  let o := options_or_default options in
  let listeners := initial_listeners (ao_ArchiveLoglevel o) in
  let opts := opts_with (handler_options o listeners) opts in
  let! (m, err) := on_fst (NewArchive_body opts o client) in
  match err with
  | Some e =>
      let! _ := archive_Close opts p (md_publication m) (md_subscription m)
                  (if md_aeron m then Some (ca_close client) else None) in
      ret (None, Some e)
  | None => ret (Some listeners, None)
  end.
End Setup.

(** ** Recording events *)

(** The subscription of the adapter, if there is one, and the flag. *)
Record events_adapter : Type := mkAdapter { ea_subscription : option nat; ea_Enabled : bool }.

Definition EnableRecordingEvents (added : nat + string) : M events_adapter (option string) := fun a =>
  match added with
  | inl sub => Ret None (mkAdapter (Some sub) true)
  | inr err => Ret (Some err) a
  end.

(** [connected]: which subscriptions are. *)
Definition IsRecordingEventsConnected (connected : nat -> bool) : M events_adapter (bool * option string) := fun a =>
  if negb (ea_Enabled a) then Ret (false, Some "recording events not enabled"%string) a
  else match ea_subscription a with
       | Some sub => Ret (connected sub, None) a
       | None => Exc (EPanic "nil dereference") a
       end.

(** The subscription that is closed. *)
Definition DisableRecordingEvents : M events_adapter nat := fun a =>
  match ea_subscription a with
  | Some sub => Ret sub (mkAdapter (Some sub) false)
  | None => Exc (EPanic "nil dereference") a
  end.

Definition RecordingEventsPoll (listeners : ArchiveListeners) (rangeChecking : bool) : RecordingEvents.E Z :=
  PollWithContext listeners rangeChecking None 1.

(** ** What is left of it *)

Section Left.
Context (opts : nat -> Options) (p : nat).

(** The loop that connects ends connected, or with an error. *)
Lemma connect_loop_end id ticks w w' :
  connect_loop opts p id ticks w = Ret tt w' ->
  exists c, w_controls w' !! p = Some c /\ (c_state c = ControlState.Connected \/ c_err c <> None).
Proof.
  revert w. induction ticks as [|t ticks IH]; intros w H; cbn [connect_loop] in H;
    apply bind_inv_Ret in H as (c & w1 & Hg & H); unfold get_control in Hg; destruct (w_controls w !! p) as [c0|] eqn:Hc; try done;
    injection Hg as <- <-.
  all: destruct (negb (c_state c0 =? ControlState.Connected) && bool_decide (c_err c0 = None)) eqn:E.
  2, 4: injection H as <-; exists c0; split; [done|]; apply andb_false_iff in E as [E|E];
    [left; apply negb_false_iff in E; lia|right; by apply bool_decide_eq_false in E].
  - done.
  - apply bind_inv_Ret in H as (x1 & w2 & _ & H). apply bind_inv_Ret in H as (x2 & w3 & _ & H).
    destruct (t_since t >? Timeout (opts p)); [|by apply (IH w3)].
    unfold update_control in H. destruct (w_controls w3 !! p) as [c3|]; [|done]. injection H as <-.
    eexists. split; [apply lookup_insert_eq|]. by right.
Qed.

Lemma connect_end ticks auth stream channel credentials w err w' :
  connect opts p ticks auth stream channel credentials w = Ret err w' ->
  err = None -> exists c, w_controls w' !! p = Some c /\ c_state c = ControlState.Connected /\ c_err c = None.
Proof.
  intros H ->. unfold connect in H.
  apply bind_inv_Ret in H as (x0 & w0 & _ & H). apply bind_inv_Ret in H as (id & w1 & _ & H).
  apply bind_inv_Ret in H as (x2 & w2 & _ & H). unfold deferred in H.
  match type of H with match ?x with _ => _ end = _ => destruct x as [err w3|] eqn:Hb; [|done] end. injection H as -> <-.
  apply bind_inv_Ret in Hb as (e & w4 & _ & Hb). destruct e as [e|]; [done|].
  apply bind_inv_Ret in Hb as ([] & w5 & Hl & Hb). apply connect_loop_end in Hl as (c & Hc & Hor).
  unfold get_control, bind in Hb. rewrite Hc in Hb. injection Hb as He <-.
  exists c. split; [done|]. rewrite He in Hor. destruct Hor as [->|?]; done.
Qed.
End Left.

Section SetUp.
Context (DebugLevel WarnLevel : Z) (p : nat) (ticks : list tick) (opts : nat -> Options).

(** How far [NewArchive] gets with the answers of the client, when it is not interrupted. *)
Definition gets_to (o : ArchiveOptions) (client : client_answers) (w : world) : made :=
  let aeron := bool_decide (ca_connect client = None) in
  let subscription := aeron && bool_decide (ca_subscription client = None) in
  let found := match resolve (ao_Timeout o) (ca_endpoint client) (ca_endpoints client) w with Ret (inl _) _ => true | _ => false end in
  mkMade aeron subscription (subscription && found && bool_decide (ca_publication client = None)).

(** What is made is closed in the opposite order. *)
Definition closings (m : made) : list closing :=
  (if md_publication m then [CloseRequests] else []) ++ (if md_subscription m then [CloseResponses] else []) ++
  (if md_aeron m then [CloseAeron] else []).

Lemma resolve_same timeout channel rounds w x w' :
  resolve timeout channel rounds w = Ret x w' -> w' = w /\ forall w2, resolve timeout channel rounds w2 = Ret x w2.
Proof using Type.
  revert channel. induction rounds as [|[ch since] rounds IH]; intros channel H; cbn [resolve] in *;
    destruct (bool_decide (channel = EmptyString)); try done.
  - by injection H as <- <-.
  - destruct (since >? timeout); [by injection H as <- <-|by apply IH].
  - by injection H as <- <-.
Qed.

Lemma NewArchive_body_ok o client w m err w' :
  NewArchive_body p ticks opts o client w = Ret (m, err) w' ->
  m = gets_to o client w /\
  (err = None -> m = mkMade true true true /\
     exists c, w_controls w' !! p = Some c /\ c_state c = ControlState.Connected /\ c_err c = None).
Proof using Type.
  intros H. unfold NewArchive_body in H. apply bind_inv_Ret in H as ([] & w1 & _ & H). unfold gets_to.
  destruct (ca_connect client); [by injection H as <- <- <-|].
  destruct (ca_subscription client); [by injection H as <- <- <-|].
  apply bind_inv_Ret in H as (channel & w2 & Hr & H). apply resolve_same in Hr as [-> Hr]. rewrite Hr.
  destruct channel as [channel|e]; [|by injection H as <- <- <-].
  destruct (ca_publication client); [by injection H as <- <- <-|].
  apply bind_inv_Ret in H as (err' & w3 & Hc & H). injection H as <- <- <-. split; [done|]. intros He. split; [done|].
  by eapply connect_end.
Qed.

Lemma archive_Close_closes (m : made) aeron w es err w' es' :
  archive_Close opts p (md_publication m) (md_subscription m) (if md_aeron m then Some aeron else None) (w, es) = Ret err (w', es') ->
  es' = es ++ closings m.
Proof using Type.
  intros H. unfold archive_Close in H. apply bind_inv_Ret in H as ([] & [w1 es1] & H1 & H).
  apply bind_inv_Ret in H as ([] & [w2 es2] & H2 & H3).
  assert (es1 = es ++ if md_publication m then [CloseRequests] else []) as ->.
  { destruct (md_publication m); [|injection H1 as <- <-; by rewrite app_nil_r].
    apply bind_inv_Ret in H1 as (e & [w3 es3] & Hc & H1). injection H1 as <- <-. unfold on_fst in Hc.
    by destruct (Proxy_call _ _ _ w); [injection Hc as <- <- <-|]. }
  assert (es2 = (es ++ if md_publication m then [CloseRequests] else []) ++ if md_subscription m then [CloseResponses] else []) as ->.
  { destruct (md_subscription m); injection H2 as <- <-; [done|by rewrite app_nil_r]. }
  unfold closings. destruct (md_aeron m); injection H3 as <- <- <-; by rewrite <- ?app_assoc, ?app_nil_r.
Qed.
End SetUp.

(** C12. An archive that is set up, whatever the client of the driver and the archive answer, and
    however long they take: without an error nothing was closed and the control is connected;
    with an error, of the client, of the endpoint, of the request or of the archive, there is no
    archive, and just what was made is closed again, the last first. *)
Theorem archive_set_up DebugLevel WarnLevel p ticks opts options client w res err w' es :
  NewArchive DebugLevel WarnLevel p ticks opts options client (w, []) = Ret (res, err) (w', es) ->
  let o := options_or_default WarnLevel options in
  match err with
  | None =>
      res = Some (initial_listeners DebugLevel (ao_ArchiveLoglevel o)) /\ es = [] /\
      gets_to o client w = mkMade true true true /\
      exists c, w_controls w' !! p = Some c /\ c_state c = ControlState.Connected /\ c_err c = None
  | Some _ => res = None /\ es = closings (gets_to o client w)
  end.
Proof.
  intros H o. unfold NewArchive in H. fold o in H. set (opts1 := opts_with _ _ _) in H.
  apply bind_inv_Ret in H as ([m err1] & [w1 es1] & Hb & H). unfold on_fst in Hb.
  destruct (NewArchive_body p ticks opts1 o client w) as [[m' err'] w2|] eqn:E; [|done]. injection Hb as <- <- <- <-.
  apply NewArchive_body_ok in E as [-> Hnone]. destruct err' as [e|].
  - apply bind_inv_Ret in H as (e2 & [w3 es3] & Hc & H). injection H as <- <- <- <-. split; [done|].
    by apply archive_Close_closes in Hc.
  - injection H as <- <- <- <-. destruct (Hnone eq_refl) as [Hm Hc]. done.
Qed.

(** Debugging is the lowest level, so that the listeners that log are set at every level, and
    the handlers that the caller had in the context are replaced. *)
Theorem listeners_always_log DebugLevel level :
  DebugLevel <= level ->
  ls_context_replaced (initial_listeners DebugLevel level) = true /\ initial_listeners DebugLevel level = logging_listeners.
Proof. intros. unfold initial_listeners. by replace (level >=? DebugLevel) with true by lia. Qed.

(** The adapter for recording events after it was enabled and disabled: a second enabling takes
    the place of the first subscription, which is not closed; disabling one that was never
    enabled is a nil dereference. *)
Theorem recording_events_enabled sub sub' a connected :
  let enabled := mkAdapter (Some sub') true in
  bind (EnableRecordingEvents (inl sub)) (fun _ => EnableRecordingEvents (inl sub')) a = Ret None enabled /\
  IsRecordingEventsConnected connected enabled = Ret (connected sub', None) enabled /\
  bind DisableRecordingEvents (fun closed => bind (IsRecordingEventsConnected connected) (fun r => ret (closed, r))) enabled =
    Ret (sub', (false, Some "recording events not enabled"%string)) (mkAdapter (Some sub') false) /\
  DisableRecordingEvents (mkAdapter None false) = Exc (EPanic "nil dereference") (mkAdapter None false).
Proof. done. Qed.
