(* ===== verification/ReplayMerge.v ===== *)
(** * Merging a replay with the live stream

    archive/replaymerge/replaymerge.go: the state machine that replays a recording into a
    subscription until it has caught up with the live stream, adds the live destination, and
    drops the replay. The archive is that of ArchiveControl.v and ArchiveProxy.v; of the
    subscription and of its images the state has what their operations answer (Subscription.v
    and Image.v), and the commands that were given to it. *)

From S2P Require Import Prelude Sbe ArchiveCodecs ArchivePackets ArchiveProxy ArchiveControl ArchiveWait Archive.
From S2P Require Import TermSpec Reader ChannelUri Subscription.

Local Open Scope m_scope.

Local Abbreviation bytes := (list Init.Byte.byte).

Definition NullValue : Z := -1.
Definition LiveAddMaxWindow : Z := 32 * 1024 * 1024.
Definition ReplayRemoveThreshold : Z := 0.
(** [int64(5 * time.Millisecond)], a count of nanoseconds. *)
Definition MergeProgressTimeoutDefaultMs : Z := 5 * 1000000.

Inductive State : Type :=
| StateResolveReplayPort | StateGetRecordingPosition | StateReplay | StateCatchup
| StateAttemptLiveJoin | StateMerged | StateFailed | StateClosed.

#[export] Instance State_eq_dec : EqDecision State.
Proof. solve_decision. Defined.

(** ** What is around *)

(** An image as its operations show it. *)
Record image_view : Type := mkView {
  v_sessionID : Z; v_position : Z; v_closed : bool; v_termBufferLength : Z; v_activeTransportCount : Z }.

Inductive command : Type :=
| AddDestination (uri : string)
| RemoveDestination (uri : string).

#[export] Instance command_eq_dec : EqDecision command.
Proof. solve_decision. Defined.

(** The archive, the clock, the aeron client, the subscription with its images, by their
    pointers, and the commands to it so far. *)
Record env : Type := mkEnv {
  e_archive : world;
  e_nowMs : Z;
  e_aeronClosed : bool;
  e_nextCorrelationID : Z;
  e_publicationConnected : bool;
  e_resolvedEndpoint : string;
  e_images : gmap nat image_view;
  e_subscribed : list nat;
  e_streamID : Z;
  e_commands : list command }.

Record ReplayMerge : Type := mkReplayMerge {
  recordingId : Z;
  startPosition : Z;
  mergeProgressTimeoutMs : Z;
  replaySessionId : Z;
  activeCorrelationId : Z;
  nextTargetPosition : Z;
  positionOfLastProgress : Z;
  timeOfLastProgressMs : Z;
  isLiveAdded : bool;
  isReplayActive : bool;
  state : State;
  rm_image : option nat;
  replayDestination : string;
  liveDestination : string;
  replayEndpoint : string;
  replayChannelUri : ChannelUri }.

Definition set_replaySessionId (v : Z) (r : ReplayMerge) : ReplayMerge :=
  mkReplayMerge (recordingId r) (startPosition r) (mergeProgressTimeoutMs r) v (activeCorrelationId r) (nextTargetPosition r)
    (positionOfLastProgress r) (timeOfLastProgressMs r) (isLiveAdded r) (isReplayActive r) (state r) (rm_image r)
    (replayDestination r) (liveDestination r) (replayEndpoint r) (replayChannelUri r).
Definition set_activeCorrelationId (v : Z) (r : ReplayMerge) : ReplayMerge :=
  mkReplayMerge (recordingId r) (startPosition r) (mergeProgressTimeoutMs r) (replaySessionId r) v (nextTargetPosition r)
    (positionOfLastProgress r) (timeOfLastProgressMs r) (isLiveAdded r) (isReplayActive r) (state r) (rm_image r)
    (replayDestination r) (liveDestination r) (replayEndpoint r) (replayChannelUri r).
Definition set_nextTargetPosition (v : Z) (r : ReplayMerge) : ReplayMerge :=
  mkReplayMerge (recordingId r) (startPosition r) (mergeProgressTimeoutMs r) (replaySessionId r) (activeCorrelationId r) v
    (positionOfLastProgress r) (timeOfLastProgressMs r) (isLiveAdded r) (isReplayActive r) (state r) (rm_image r)
    (replayDestination r) (liveDestination r) (replayEndpoint r) (replayChannelUri r).
Definition set_positionOfLastProgress (v : Z) (r : ReplayMerge) : ReplayMerge :=
  mkReplayMerge (recordingId r) (startPosition r) (mergeProgressTimeoutMs r) (replaySessionId r) (activeCorrelationId r)
    (nextTargetPosition r) v (timeOfLastProgressMs r) (isLiveAdded r) (isReplayActive r) (state r) (rm_image r)
    (replayDestination r) (liveDestination r) (replayEndpoint r) (replayChannelUri r).
Definition set_timeOfLastProgressMs (v : Z) (r : ReplayMerge) : ReplayMerge :=
  mkReplayMerge (recordingId r) (startPosition r) (mergeProgressTimeoutMs r) (replaySessionId r) (activeCorrelationId r)
    (nextTargetPosition r) (positionOfLastProgress r) v (isLiveAdded r) (isReplayActive r) (state r) (rm_image r)
    (replayDestination r) (liveDestination r) (replayEndpoint r) (replayChannelUri r).
Definition set_isLiveAdded (v : bool) (r : ReplayMerge) : ReplayMerge :=
  mkReplayMerge (recordingId r) (startPosition r) (mergeProgressTimeoutMs r) (replaySessionId r) (activeCorrelationId r)
    (nextTargetPosition r) (positionOfLastProgress r) (timeOfLastProgressMs r) v (isReplayActive r) (state r) (rm_image r)
    (replayDestination r) (liveDestination r) (replayEndpoint r) (replayChannelUri r).
Definition set_isReplayActive (v : bool) (r : ReplayMerge) : ReplayMerge :=
  mkReplayMerge (recordingId r) (startPosition r) (mergeProgressTimeoutMs r) (replaySessionId r) (activeCorrelationId r)
    (nextTargetPosition r) (positionOfLastProgress r) (timeOfLastProgressMs r) (isLiveAdded r) v (state r) (rm_image r)
    (replayDestination r) (liveDestination r) (replayEndpoint r) (replayChannelUri r).
Definition set_rm_state (v : State) (r : ReplayMerge) : ReplayMerge :=
  mkReplayMerge (recordingId r) (startPosition r) (mergeProgressTimeoutMs r) (replaySessionId r) (activeCorrelationId r)
    (nextTargetPosition r) (positionOfLastProgress r) (timeOfLastProgressMs r) (isLiveAdded r) (isReplayActive r) v (rm_image r)
    (replayDestination r) (liveDestination r) (replayEndpoint r) (replayChannelUri r).
Definition set_rm_image (v : option nat) (r : ReplayMerge) : ReplayMerge :=
  mkReplayMerge (recordingId r) (startPosition r) (mergeProgressTimeoutMs r) (replaySessionId r) (activeCorrelationId r)
    (nextTargetPosition r) (positionOfLastProgress r) (timeOfLastProgressMs r) (isLiveAdded r) (isReplayActive r) (state r) v
    (replayDestination r) (liveDestination r) (replayEndpoint r) (replayChannelUri r).
Definition set_replayChannelUri (v : ChannelUri) (r : ReplayMerge) : ReplayMerge :=
  mkReplayMerge (recordingId r) (startPosition r) (mergeProgressTimeoutMs r) (replaySessionId r) (activeCorrelationId r)
    (nextTargetPosition r) (positionOfLastProgress r) (timeOfLastProgressMs r) (isLiveAdded r) (isReplayActive r) (state r) (rm_image r)
    (replayDestination r) (liveDestination r) (replayEndpoint r) v.

(** ** Steps *)

Definition R (A : Type) : Type := M (ReplayMerge * env) A.

Definition the_merge : R ReplayMerge := fun s => Ret s.1 s.
Definition the_env : R env := fun s => Ret s.2 s.
Definition modify (f : ReplayMerge -> ReplayMerge) : R unit := fun '(r, e) => Ret tt (f r, e).

Definition with_archive (w : world) (e : env) : env :=
  mkEnv w (e_nowMs e) (e_aeronClosed e) (e_nextCorrelationID e) (e_publicationConnected e) (e_resolvedEndpoint e)
    (e_images e) (e_subscribed e) (e_streamID e) (e_commands e).
Definition with_nextCorrelationID (z : Z) (e : env) : env :=
  mkEnv (e_archive e) (e_nowMs e) (e_aeronClosed e) z (e_publicationConnected e) (e_resolvedEndpoint e)
    (e_images e) (e_subscribed e) (e_streamID e) (e_commands e).
Definition with_commands (cs : list command) (e : env) : env :=
  mkEnv (e_archive e) (e_nowMs e) (e_aeronClosed e) (e_nextCorrelationID e) (e_publicationConnected e) (e_resolvedEndpoint e)
    (e_images e) (e_subscribed e) (e_streamID e) cs.

Definition on_archive {A} (c : W A) : R A := fun '(r, e) =>
  match c (e_archive e) with
  | Ret a w => Ret a (r, with_archive w e)
  | Exc x w => Exc x (r, with_archive w e)
  end.
Definition command_to_subscription (c : command) : R unit := fun '(r, e) => Ret tt (r, with_commands (e_commands e ++ [c]) e).

(** [Aeron.NextCorrelationID]: the counter of the ring to the driver. *)
Definition NextCorrelationID : R Z := fun '(r, e) =>
  Ret (e_nextCorrelationID e) (r, with_nextCorrelationID (i64 (e_nextCorrelationID e + 1)) e).

Definition image_of (i : nat) : R image_view := fun '(r, e) =>
  match e_images e !! i with Some v => Ret v (r, e) | None => Exc (EPanic "nil pointer dereference") (r, e) end.

(** Of the subscription. *)
Definition IsConnected (e : env) : bool :=
  existsb (fun i => match e_images e !! i with Some v => negb (v_closed v) | None => false end) (e_subscribed e).
Definition ImageBySessionID (e : env) (sessionID : Z) : option nat :=
  List.find (fun i => match e_images e !! i with Some v => v_sessionID v =? sessionID | None => false end) (e_subscribed e).

Section Merge.
(** The control of the archive, and the poll of an image. *)
Context (opts : nat -> Options) (p : nat) (image_Poll : nat -> Z -> M env Z).

Definition setState (newState : State) : R unit :=
  modify (fun r => set_activeCorrelationId NullValue (set_rm_state newState r)).

Definition stopReplay : R unit :=
  let! correlationId := NextCorrelationID in
  let! r := the_merge in
  let! err := on_archive (Proxy_call opts p (CallStopReplayRequest correlationId (replaySessionId r))) in
  match err with None => modify (set_isReplayActive false) | Some _ => ret tt end.

(** [shouldAddLiveDestination] and [shouldStopAndRemoveReplay], with the image they ask. *)
Definition shouldAddLiveDestination (r : ReplayMerge) (v : image_view) (position : Z) : bool :=
  let mn := Z.shiftr (v_termBufferLength v) 2 in
  let mn := if mn >? LiveAddMaxWindow then LiveAddMaxWindow else mn in
  negb (isLiveAdded r) && (i64 (nextTargetPosition r - position) <=? mn).
Definition shouldStopAndRemoveReplay (r : ReplayMerge) (v : image_view) (position : Z) : bool :=
  isLiveAdded r && (i64 (nextTargetPosition r - position) <=? ReplayRemoveThreshold) && (v_activeTransportCount v >=? 2).

Definition checkProgress (nowMs : Z) : R (option string) :=
  let! r := the_merge in
  ret (if nowMs >? i64 (timeOfLastProgressMs r + mergeProgressTimeoutMs r) then Some "ReplayMerge no progress"%string else None).

(** A response that was polled is the awaited one; an error of the archive is looked for where
    the poll does not put it. *)
Definition pollForResponse : R (bool * option string) :=
  let! r := the_merge in
  let! n := on_archive (Poll opts p) in
  let! ctl := on_archive (get_control p) in
  let results := c_Results ctl in
  if (n >? 0) && r_IsPollComplete results then
    match r_ControlResponse results with
    | None => panic "nil pointer dereference"
    | Some response =>
        match (if ControlResponse_ControlSessionId response =? c_SessionID ctl then r_ErrorResponse results else None) with
        | Some _ => ret (false, Some "archive response"%string)
        | None => ret (r_CorrelationId results =? activeCorrelationId r, None)
        end
    end
  else ret (false, None).

Definition polledRelevantId : R Z :=
  let! ctl := on_archive (get_control p) in
  match r_ControlResponse (c_Results ctl) with
  | Some response => ret (ControlResponse_RelevantId response)
  | None => panic "nil pointer dereference"
  end.

Definition resolveReplayPort (nowMs : Z) : R (Z * option string) :=
  let! e := the_env in
  let! r := the_merge in
  if decide (e_resolvedEndpoint e = ""%string) then ret (0, None)
  else
    match last_colon (e_resolvedEndpoint e) with
    | None => panic "slice bounds out of range"
    | Some port =>
        modify (set_replayChannelUri (Uri_Set (replayChannelUri r) "endpoint"
          (str_take (String.length (replayEndpoint r) - 2) (replayEndpoint r) +:+ port))) ;;;
        modify (set_timeOfLastProgressMs nowMs) ;;;
        setState StateGetRecordingPosition ;;;
        ret (1, None)
    end.

(** A request with a new correlation id, which is active when it could be sent. *)
Definition send (request : Z -> call) : R bool :=
  let! correlationId := NextCorrelationID in
  let! err := on_archive (Proxy_call opts p (request correlationId)) in
  match err with
  | None => modify (set_activeCorrelationId correlationId) ;;; ret true
  | Some _ => ret false
  end.

Definition getRecordingPosition (nowMs : Z) : R (Z * option string) :=
  let! r := the_merge in
  if activeCorrelationId r =? NullValue then
    let! sent := send (fun id => CallRecordingPositionRequest id (recordingId r)) in
    if sent then modify (set_timeOfLastProgressMs nowMs) ;;; ret (1, None) else ret (0, None)
  else
    let! (success, err) := pollForResponse in
    match err with
    | Some _ => ret (0, err)
    | None =>
        if success then
          let! position := polledRelevantId in
          modify (set_nextTargetPosition position) ;;;
          modify (set_activeCorrelationId NullValue) ;;;
          if position =? RecordingPositionNull then
            let! sent := send (fun id => CallStopPositionRequest id (recordingId r)) in
            if sent then modify (set_timeOfLastProgressMs nowMs) ;;; ret (2, None) else ret (1, None)
          else
            modify (set_timeOfLastProgressMs nowMs) ;;;
            setState StateReplay ;;;
            ret (1, None)
        else ret (1, None)
    end.

Definition replay (nowMs : Z) : R (Z * option string) :=
  let! r := the_merge in
  if activeCorrelationId r =? NullValue then
    let! e := the_env in
    let! sent := send (fun id => CallReplayRequest id (recordingId r) (startPosition r) RecordingLengthMax
                                   (String.list_byte_of_string (Uri_String (replayChannelUri r))) (e_streamID e)) in
    if sent then modify (set_timeOfLastProgressMs nowMs) ;;; ret (1, None) else ret (0, None)
  else
    let! (success, err) := pollForResponse in
    match err with
    | Some _ => ret (0, err)
    | None =>
        if success then
          modify (set_isReplayActive true) ;;;
          let! session := polledRelevantId in
          modify (set_replaySessionId session) ;;;
          modify (set_timeOfLastProgressMs nowMs) ;;;
          setState StateCatchup ;;;
          ret (1, None)
        else ret (0, None)
    end.

Definition catchup (nowMs : Z) : R (Z * option string) :=
  let! r := the_merge in
  let! e := the_env in
  (if bool_decide (rm_image r = None) && IsConnected e then
     modify (set_timeOfLastProgressMs nowMs) ;;;
     let image := ImageBySessionID e (i32 (replaySessionId r)) in
     modify (set_rm_image image) ;;;
     modify (set_positionOfLastProgress NullValue) ;;;
     match image with
     | Some i => let! v := image_of i in modify (set_positionOfLastProgress (v_position v))
     | None => ret tt
     end
   else ret tt) ;;;
  let! r := the_merge in
  match rm_image r with
  | None => ret (0, None)
  | Some i =>
      let! v := image_of i in
      let position := v_position v in
      if position >=? nextTargetPosition r then
        modify (set_timeOfLastProgressMs nowMs) ;;;
        modify (set_positionOfLastProgress position) ;;;
        setState StateAttemptLiveJoin ;;;
        ret (1, None)
      else if position >? positionOfLastProgress r then
        modify (set_timeOfLastProgressMs nowMs) ;;;
        modify (set_positionOfLastProgress position) ;;;
        ret (0, None)
      else if v_closed v then ret (0, Some "ReplayMerge Image closed unexpectedly."%string)
      else ret (0, None)
  end.

Definition attemptLiveJoin (nowMs : Z) : R (Z * option string) :=
  let! r := the_merge in
  if activeCorrelationId r =? NullValue then
    let! sent := send (fun id => CallRecordingPositionRequest id (recordingId r)) in
    ret (if sent then 1 else 0, None)
  else
    let! (success, err) := pollForResponse in
    match err with
    | Some _ => ret (0, err)
    | None =>
        if success then
          let! position := polledRelevantId in
          modify (set_nextTargetPosition position) ;;;
          modify (set_activeCorrelationId NullValue) ;;;
          (if position =? RecordingPositionNull then
             let! _ := send (fun id => CallRecordingPositionRequest id (recordingId r)) in ret tt
           else
             let! r := the_merge in
             let! nextState :=
               (match rm_image r with
                | None => ret StateCatchup
                | Some i =>
                    let! v := image_of i in
                    let position := v_position v in
                    if shouldAddLiveDestination r v position then
                      command_to_subscription (AddDestination (liveDestination r)) ;;;
                      modify (set_timeOfLastProgressMs nowMs) ;;;
                      modify (set_positionOfLastProgress position) ;;;
                      modify (set_isLiveAdded true) ;;;
                      ret StateCatchup
                    else if shouldStopAndRemoveReplay r v position then
                      command_to_subscription (RemoveDestination (replayDestination r)) ;;;
                      stopReplay ;;;
                      modify (set_timeOfLastProgressMs nowMs) ;;;
                      modify (set_positionOfLastProgress position) ;;;
                      ret StateMerged
                    else ret StateCatchup
                end) in
             setState nextState) ;;;
          ret (1, None)
        else ret (0, None)
    end.

(** The work of a state, then the check of the progress; either error fails the merge. *)
Definition work_of (s : State) (nowMs : Z) : option (R (Z * option string)) :=
  match s with
  | StateResolveReplayPort => Some (resolveReplayPort nowMs)
  | StateGetRecordingPosition => Some (getRecordingPosition nowMs)
  | StateReplay => Some (replay nowMs)
  | StateCatchup => Some (catchup nowMs)
  | StateAttemptLiveJoin => Some (attemptLiveJoin nowMs)
  | StateMerged | StateFailed | StateClosed => None
  end.

Definition DoWork : R (Z * option string) :=
  let! e := the_env in
  let nowMs := e_nowMs e in
  let! r := the_merge in
  match work_of (state r) nowMs with
  | None => ret (0, None)
  | Some work =>
      let! (workCount, err) := work in
      match err with
      | Some _ => setState StateFailed ;;; ret (workCount, err)
      | None =>
          let! err := checkProgress nowMs in
          match err with
          | Some _ => setState StateFailed ;;; ret (workCount, err)
          | None => ret (workCount, None)
          end
      end
  end.

Definition ReplayMerge_Poll (fragmentLimit : Z) : R (Z * option string) :=
  let! (workCount, err) := DoWork in
  match err with
  | Some _ => ret (workCount, err)
  | None =>
      let! r := the_merge in
      match rm_image r with
      | None => ret (workCount, None)
      | Some i => fun '(r, e) =>
          match image_Poll i fragmentLimit e with
          | Ret n e' => Ret (n, None) (r, e')
          | Exc x e' => Exc x (r, e')
          end
      end
  end.

Definition Close : R unit :=
  let! r := the_merge in
  let! e := the_env in
  let state := state r in
  if decide (state = StateClosed) then ret tt
  else
    when (negb (e_aeronClosed e))
      (when (negb (bool_decide (state = StateMerged))) (command_to_subscription (RemoveDestination (replayDestination r))) ;;;
       when (isReplayActive r && e_publicationConnected e) stopReplay) ;;;
    setState StateClosed.

Definition IsMerged (r : ReplayMerge) : bool := bool_decide (state r = StateMerged).
Definition HasFailed (r : ReplayMerge) : bool := bool_decide (state r = StateFailed).
End Merge.

(** ** Construction *)

Definition IpcChannel : string := "aeron:ipc".

Fixpoint str_contains (s sub : string) : bool :=
  HasPrefix s sub || match s with String _ s' => str_contains s' sub | EmptyString => false end.

(** The merge that is returned beside an error is not used. *)
Definition NewReplayMerge (channel replayChannel replayDestination liveDestination : string)
  (recordingId startPosition mergeProgressTimeoutMs : Z) : M env (option ReplayMerge * option string) :=
  if HasPrefix channel IpcChannel || HasPrefix replayChannel IpcChannel || HasPrefix replayDestination IpcChannel
     || HasPrefix liveDestination IpcChannel
  then ret (None, Some "IPC merging is not supported"%string)
  else if negb (str_contains channel "control-mode=manual")
  then ret (None, Some "Subscription URI must have 'control-mode=manual'"%string)
  else
    let rm uri endpoint state now :=
      mkReplayMerge recordingId startPosition mergeProgressTimeoutMs NullValue NullValue NullValue NullValue now
        false false state None replayDestination liveDestination endpoint uri in
    match ParseChannelUri replayChannel with
    | (uri, Some _) => ret (Some (rm uri ""%string StateResolveReplayPort 0), Some "Invalid replay channel"%string)
    | (uri, None) =>
        let uri := Uri_Set (Uri_Set uri "linger" "0") "eos" "false" in
        match ParseChannelUri replayDestination with
        | (_, Some _) => ret (Some (rm uri ""%string StateResolveReplayPort 0), Some "Invalid replay destination"%string)
        | (destination, None) =>
            let endpoint := Uri_Get destination "endpoint" in
            let '(uri, state) :=
              if HasSuffix endpoint ":0" then (uri, StateResolveReplayPort)
              else (Uri_Set uri "endpoint" endpoint, StateGetRecordingPosition) in
            fun e => Ret (Some (rm uri endpoint state (e_nowMs e)), None)
                       (with_commands (e_commands e ++ [AddDestination replayDestination]) e)
        end
    end.

(** ** What a step does *)

(** The outcome of a computation, when it returns. *)
Definition returns {S A} (c : M S A) (s : S) (Q : A -> S -> Prop) : Prop :=
  match c s with Ret a s' => Q a s' | Exc _ _ => True end.

Lemma returns_bind {S A B} (c : M S A) (k : A -> M S B) s (Q : B -> S -> Prop) :
  returns c s (fun a s' => returns (k a) s' Q) -> returns (bind c k) s Q.
Proof. unfold returns, bind. by destruct (c s). Qed.

Lemma returns_mono {S A} (c : M S A) s (Q Q' : A -> S -> Prop) :
  returns c s Q -> (forall a s', Q a s' -> Q' a s') -> returns c s Q'.
Proof. unfold returns. destruct (c s); auto. Qed.

Lemma returns_ret {S A} (a : A) s (Q : A -> S -> Prop) : Q a s -> returns (ret a) s Q.
Proof. done. Qed.

Lemma returns_Ret {S A} (c : M S A) s (Q : A -> S -> Prop) a s' : returns c s Q -> c s = Ret a s' -> Q a s'.
Proof. unfold returns. intros H E. by rewrite E in H. Qed.

Lemma returns_merge r e (Q : ReplayMerge -> ReplayMerge * env -> Prop) : Q r (r, e) -> returns the_merge (r, e) Q.
Proof. done. Qed.
Lemma returns_env r e (Q : env -> ReplayMerge * env -> Prop) : Q e (r, e) -> returns the_env (r, e) Q.
Proof. done. Qed.
Lemma returns_modify f r e (Q : unit -> ReplayMerge * env -> Prop) : Q tt (f r, e) -> returns (modify f) (r, e) Q.
Proof. done. Qed.
Lemma returns_setState s r e (Q : unit -> ReplayMerge * env -> Prop) :
  Q tt (set_activeCorrelationId NullValue (set_rm_state s r), e) -> returns (setState s) (r, e) Q.
Proof. done. Qed.
Lemma returns_command c r e (Q : unit -> ReplayMerge * env -> Prop) :
  Q tt (r, with_commands (e_commands e ++ [c]) e) -> returns (command_to_subscription c) (r, e) Q.
Proof. done. Qed.
Lemma returns_image i r e (Q : image_view -> ReplayMerge * env -> Prop) :
  (forall v, e_images e !! i = Some v -> Q v (r, e)) -> returns (image_of i) (r, e) Q.
Proof. intros H. unfold returns, image_of. destruct (e_images e !! i); [by apply H|done]. Qed.

(** What is around, but for the archive and the counter of correlation ids. *)
Definition same_env (e e' : env) : Prop :=
  e_commands e' = e_commands e /\ e_images e' = e_images e /\ e_nowMs e' = e_nowMs e.

Lemma same_env_refl e : same_env e e.
Proof. done. Qed.
Lemma same_env_trans e1 e2 e3 : same_env e1 e2 -> same_env e2 e3 -> same_env e1 e3.
Proof. unfold same_env. intuition congruence. Qed.

Lemma on_archive_returns {A} (c : W A) r e (Q : A -> ReplayMerge * env -> Prop) :
  (forall a e', same_env e e' -> Q a (r, e')) -> returns (on_archive c) (r, e) Q.
Proof. intros H. unfold returns, on_archive. destruct (c (e_archive e)); [|done]. by apply H. Qed.

Section Steps.
Context (opts : nat -> Options) (p : nat).

Lemma send_returns request r e (Q : bool -> ReplayMerge * env -> Prop) :
  (forall e', same_env e e' -> Q false (r, e')) ->
  (forall id e', same_env e e' -> Q true (set_activeCorrelationId id r, e')) ->
  returns (send opts p request) (r, e) Q.
Proof using Type.
  intros Hf Ht. unfold send. apply returns_bind. unfold returns at 1, NextCorrelationID.
  apply returns_bind, on_archive_returns. intros [err|] e' He.
  - apply returns_ret, Hf. by eapply same_env_trans; [|exact He].
  - unfold returns, bind, modify. cbn. apply Ht. by eapply same_env_trans; [|exact He].
Qed.

Lemma pollForResponse_returns r e (Q : bool * option string -> ReplayMerge * env -> Prop) :
  (forall x e', same_env e e' -> Q x (r, e')) -> returns (pollForResponse opts p) (r, e) Q.
Proof using Type.
  intros H. unfold pollForResponse. apply returns_bind, returns_merge.
  apply returns_bind, on_archive_returns. intros n e1 H1.
  apply returns_bind, on_archive_returns. intros ctl e2 H2.
  assert (same_env e e2) by (by eapply same_env_trans).
  destruct (_ && _); [|by apply returns_ret, H].
  destruct (r_ControlResponse _) as [response|]; [|done].
  destruct (if _ =? _ then _ else _); by apply returns_ret, H.
Qed.

Lemma polledRelevantId_returns r e (Q : Z -> ReplayMerge * env -> Prop) :
  (forall x e', same_env e e' -> Q x (r, e')) -> returns (polledRelevantId p) (r, e) Q.
Proof using Type.
  intros H. unfold polledRelevantId. apply returns_bind, on_archive_returns. intros ctl e1 H1.
  destruct (r_ControlResponse _); [|done]. by apply returns_ret, H.
Qed.

Lemma stopReplay_returns r e (Q : unit -> ReplayMerge * env -> Prop) :
  (forall e', same_env e e' -> Q tt (r, e')) ->
  (forall e', same_env e e' -> Q tt (set_isReplayActive false r, e')) ->
  returns (stopReplay opts p) (r, e) Q.
Proof using Type.
  intros Hf Ht. unfold stopReplay. apply returns_bind. unfold returns at 1, NextCorrelationID.
  apply returns_bind, returns_merge.
  apply returns_bind, on_archive_returns. intros [err|] e' He.
  - apply returns_ret, Hf. by eapply same_env_trans; [|exact He].
  - unfold returns, modify. apply Ht. by eapply same_env_trans; [|exact He].
Qed.
End Steps.

(** Step through a computation of the merge. *)
Ltac rstep :=
  match goal with
  | |- returns (bind _ _) _ _ => apply returns_bind
  | |- returns the_merge _ _ => apply returns_merge
  | |- returns the_env _ _ => apply returns_env
  | |- returns (modify _) _ _ => apply returns_modify
  | |- returns (setState _) _ _ => apply returns_setState
  | |- returns (command_to_subscription _) _ _ => apply returns_command
  | |- returns (image_of _) _ _ => apply returns_image; intros
  | |- returns (send _ _ _) _ _ => apply send_returns; intros
  | |- returns (pollForResponse _ _) _ _ => apply pollForResponse_returns; intros
  | |- returns (polledRelevantId _) _ _ => apply polledRelevantId_returns; intros
  | |- returns (stopReplay _ _) _ _ => apply stopReplay_returns; intros
  | |- returns (panic _) _ _ => exact I
  | |- returns (ret _) _ _ => apply returns_ret
  | |- returns (let '(_, _) := ?x in _) _ _ => destruct x
  | |- returns (match ?x with _ => _ end) _ _ => destruct x eqn:?
  end.

(** ** The edges of the state machine *)

Definition terminal (s : State) : bool :=
  match s with StateMerged | StateFailed | StateClosed => true | _ => false end.

(** The next state of a work that went well. *)
Definition next_state (s s' : State) : Prop :=
  s' = s \/
  match s with
  | StateResolveReplayPort => s' = StateGetRecordingPosition
  | StateGetRecordingPosition => s' = StateReplay
  | StateReplay => s' = StateCatchup
  | StateCatchup => s' = StateAttemptLiveJoin
  | StateAttemptLiveJoin => s' = StateCatchup \/ s' = StateMerged
  | _ => False
  end.

(** What never changes. *)
Definition same_merge (r r' : ReplayMerge) : Prop :=
  recordingId r' = recordingId r /\ startPosition r' = startPosition r /\
  mergeProgressTimeoutMs r' = mergeProgressTimeoutMs r /\
  replayDestination r' = replayDestination r /\ liveDestination r' = liveDestination r.

(** The image is at the target or behind it, and receives from both destinations. *)
Definition caught_up (r : ReplayMerge) (images : gmap nat image_view) : Prop :=
  exists i v, rm_image r = Some i /\ images !! i = Some v /\
    i64 (nextTargetPosition r - v_position v) <= 0 /\ 2 <= v_activeTransportCount v.

(** The commands of a step: none, or the live destination is added, or the replay is dropped. *)
Inductive commands_of (images : gmap nat image_view) (r r' : ReplayMerge) : list command -> Prop :=
| co_none : isLiveAdded r' = isLiveAdded r -> (state r' = StateMerged -> state r = StateMerged) -> commands_of images r r' []
| co_add : isLiveAdded r = false -> isLiveAdded r' = true -> state r' = StateCatchup ->
    commands_of images r r' [AddDestination (liveDestination r)]
| co_merge : isLiveAdded r = true -> isLiveAdded r' = true -> state r = StateAttemptLiveJoin -> state r' = StateMerged ->
    caught_up r' images -> commands_of images r r' [RemoveDestination (replayDestination r)].

Record work_done (now : Z) (r : ReplayMerge) (e : env) (err : option string) (s : ReplayMerge * env) : Prop := {
  wd_edge : next_state (state r) (state s.1);
  wd_same : same_merge r s.1;
  wd_commands : exists cs, e_commands s.2 = e_commands e ++ cs /\ commands_of (e_images e) r s.1 cs;
  wd_merged : state s.1 = StateMerged -> state r = StateMerged \/ timeOfLastProgressMs s.1 = now;
  wd_error : err <> None -> state s.1 = state r;
  wd_images : e_images s.2 = e_images e;
  wd_clock : e_nowMs s.2 = e_nowMs e }.

Lemma work_quiet now r e err r' e' :
  same_env e e' -> next_state (state r) (state r') -> same_merge r r' -> isLiveAdded r' = isLiveAdded r ->
  (state r' = StateMerged -> state r = StateMerged) ->
  (err <> None -> state r' = state r) -> work_done now r e err (r', e').
Proof.
  intros (Hc & Hi & Hn) ? ? ? ? ?. split; cbn [fst snd]; try done; [|by auto]. exists []. rewrite app_nil_r. split; [done|]. by constructor.
Qed.

Lemma work_adds r e e' v now x position :
  same_env e e' -> state r = StateAttemptLiveJoin ->
  let r1 := set_activeCorrelationId NullValue (set_nextTargetPosition x r) in
  shouldAddLiveDestination r1 v position = true ->
  work_done now r e None
    (set_activeCorrelationId NullValue (set_rm_state StateCatchup (set_isLiveAdded true
       (set_positionOfLastProgress position (set_timeOfLastProgressMs now r1)))),
     with_commands (e_commands e' ++ [AddDestination (liveDestination r1)]) e').
Proof.
  intros (Hc & Hi & Hn) Hs r1 Hadd. unfold shouldAddLiveDestination in Hadd. apply andb_true_iff in Hadd as [Hl _].
  apply negb_true_iff in Hl. cbn in Hl. split; cbn [fst snd]; try done.
  - rewrite Hs. right. by left.
  - exists [AddDestination (liveDestination r)]. cbn. rewrite Hc. split; [done|]. by constructor.
Qed.

Lemma work_merges r e e1 e2 i v now x position (active : ReplayMerge -> ReplayMerge) :
  same_env e e1 -> same_env (with_commands (e_commands e1 ++ [RemoveDestination (replayDestination r)]) e1) e2 ->
  state r = StateAttemptLiveJoin -> (active = id \/ active = set_isReplayActive false) ->
  let r1 := set_activeCorrelationId NullValue (set_nextTargetPosition x r) in
  rm_image r1 = Some i -> e_images e1 !! i = Some v -> position = v_position v ->
  shouldStopAndRemoveReplay r1 v position = true ->
  work_done now r e None
    (set_activeCorrelationId NullValue (set_rm_state StateMerged
       (set_positionOfLastProgress position (set_timeOfLastProgressMs now (active r1)))), e2).
Proof.
  intros (Hc & Hi & Hn) (Hc2 & Hi2 & Hn2) Hs Ha r1 Him Hv -> Hstop. cbn in Hc2, Hi2, Hn2.
  unfold shouldStopAndRemoveReplay, ReplayRemoveThreshold in Hstop.
  apply andb_true_iff in Hstop as [[Hl Ht]%andb_true_iff Hcount]. cbn in Hl, Ht.
  split; cbn [fst snd]; try congruence; [| | |by right].
  - rewrite Hs. right. by right.
  - by destruct Ha as [-> | ->].
  - exists [RemoveDestination (replayDestination r)]. rewrite Hc2, Hc. split; [done|].
    apply co_merge; [done|by destruct Ha as [-> | ->]|done|done|]. exists i, v.
    rewrite <- Hi. destruct Ha as [-> | ->]; cbn in *; split_and!; done || lia.
Qed.

Section Edges.
Context (opts : nat -> Options) (p : nat).

Ltac quiet := apply work_quiet; cbn; try done; try (by left); try (by right); try (by eauto using same_env_trans, same_env_refl).

Lemma resolveReplayPort_done now r e :
  state r = StateResolveReplayPort -> returns (resolveReplayPort now) (r, e) (fun x => work_done now r e x.2).
Proof using Type. intros Hs. unfold resolveReplayPort. repeat rstep; quiet; rewrite Hs; by right. Qed.

Lemma getRecordingPosition_done now r e :
  state r = StateGetRecordingPosition -> returns (getRecordingPosition opts p now) (r, e) (fun x => work_done now r e x.2).
Proof using Type. intros Hs. unfold getRecordingPosition. repeat rstep; quiet; rewrite Hs; by right. Qed.

Lemma replay_done now r e :
  state r = StateReplay -> returns (replay opts p now) (r, e) (fun x => work_done now r e x.2).
Proof using Type. intros Hs. unfold replay. repeat rstep; quiet; rewrite Hs; by right. Qed.

Lemma catchup_done now r e :
  state r = StateCatchup -> returns (catchup now) (r, e) (fun x => work_done now r e x.2).
Proof using Type. intros Hs. unfold catchup. repeat rstep; quiet; rewrite Hs; by right. Qed.

Lemma attemptLiveJoin_done now r e :
  state r = StateAttemptLiveJoin -> returns (attemptLiveJoin opts p now) (r, e) (fun x => work_done now r e x.2).
Proof using Type.
  intros Hs. unfold attemptLiveJoin. repeat rstep.
  6: by eapply work_adds; eauto using same_env_trans.
  6: by match goal with H : same_env (with_commands _ ?e1) _ |- _ => apply (work_merges _ _ e1 _ n v now x _ id) end; eauto using same_env_trans.
  6: by match goal with H : same_env (with_commands _ ?e1) _ |- _ => apply (work_merges _ _ e1 _ n v now x _ (set_isReplayActive false)) end; eauto using same_env_trans.
  all: quiet; rewrite Hs; right; by left.
Qed.
End Edges.

(** ** A round of the merge *)

Section Rounds.
Context (opts : nat -> Options) (p : nat).

Lemma work_of_done now r e work :
  work_of opts p (state r) now = Some work -> returns work (r, e) (fun x => work_done now r e x.2).
Proof using Type.
  destruct (state r) eqn:Hs; cbn; intros [= <-].
  - by apply resolveReplayPort_done.
  - by apply getRecordingPosition_done.
  - by apply replay_done.
  - by apply catchup_done.
  - by apply attemptLiveJoin_done.
Qed.

Lemma terminal_no_work s now : terminal s = true <-> work_of opts p s now = None.
Proof using Type. by destruct s. Qed.

(** How a round ends: with the work done and the progress young enough, or failed. *)
Definition round_end (r : ReplayMerge) (e : env) (err : option string) (s : ReplayMerge * env) : Prop :=
  if terminal (state r) then err = None /\ s = (r, e)
  else
    exists r1 err', work_done (e_nowMs e) r e err' (r1, s.2) /\
      match err with
      | Some _ => s.1 = set_activeCorrelationId NullValue (set_rm_state StateFailed r1) /\
          (err' = None -> i64 (timeOfLastProgressMs r1 + mergeProgressTimeoutMs r1) < e_nowMs e)
      | None => err' = None /\ s.1 = r1 /\ e_nowMs e <= i64 (timeOfLastProgressMs r1 + mergeProgressTimeoutMs r1)
      end.

Lemma DoWork_round r e : returns (DoWork opts p) (r, e) (fun x => round_end r e x.2).
Proof using Type.
  unfold DoWork. do 4 rstep. unfold round_end.
  destruct (work_of opts p (state r) (e_nowMs e)) as [work|] eqn:Hw.
  2:{ apply terminal_no_work in Hw. rstep. by rewrite Hw. }
  assert (terminal (state r) = false) as ->.
  { destruct (terminal (state r)) eqn:Ht; [|done]. apply (terminal_no_work _ (e_nowMs e)) in Ht. congruence. }
  apply returns_bind. eapply returns_mono; [by eapply work_of_done|]. intros [n err] [r1 e1] Hd.
  destruct err as [x|].
  { do 3 rstep. by exists r1, (Some x). }
  unfold checkProgress. do 4 rstep.
  destruct (Z.gtb_spec (e_nowMs e) (i64 (timeOfLastProgressMs r1 + mergeProgressTimeoutMs r1))) as [Hlt|Hle].
  - do 3 rstep. by exists r1, None.
  - rstep. by exists r1, None.
Qed.
End Rounds.

(** C28. The state machine of a merge. A round goes along an edge of the machine, or fails and says
    so; a merge that is merged, failed or closed stays as it is. It becomes merged only from the
    attempt to join, with the live destination added before, when the image has reached the
    recorded position and receives from two transports, and it is then that the replay
    destination is removed. *)
Theorem DoWork_edges opts p r e n err r' e' :
  DoWork opts p (r, e) = Ret (n, err) (r', e') ->
  (terminal (state r) = true -> err = None /\ r' = r /\ e' = e) /\
  match err with
  | Some _ => terminal (state r) = false /\ state r' = StateFailed /\ activeCorrelationId r' = NullValue
  | None => next_state (state r) (state r')
  end /\
  (state r' = StateMerged -> state r <> StateMerged ->
     state r = StateAttemptLiveJoin /\ isLiveAdded r = true /\ caught_up r' (e_images e) /\
     e_commands e' = e_commands e ++ [RemoveDestination (replayDestination r)]).
Proof.
  intros Hrun. pose proof (returns_Ret _ _ _ _ _ (DoWork_round opts p r e) Hrun) as Hd. cbn [snd] in Hd.
  unfold round_end in Hd. destruct (terminal (state r)) eqn:Ht.
  { destruct Hd as [-> [= -> ->]]. split_and!; [done|by left|done]. }
  destruct Hd as (r1 & err' & Hd & He). cbn [fst snd] in *. split; [done|].
  destruct err as [x|].
  - destruct He as [-> _]. split_and!; done.
  - destruct He as (_ & -> & _). split; [apply Hd|]. intros Hm Hn.
    destruct (wd_commands _ _ _ _ _ Hd) as (cs & Hcs & Hco). cbn [fst snd] in *. rewrite Hcs.
    destruct Hco; try congruence; [naive_solver|done].
Qed.

(** Progress is watched: a round that reports nothing leaves a merge that made progress no
    longer ago than its timeout; a merge whose last progress is older fails, unless the round
    itself makes progress. *)
Theorem DoWork_watches_progress opts p r e n err r' e' :
  DoWork opts p (r, e) = Ret (n, err) (r', e') -> terminal (state r) = false ->
  (err = None -> e_nowMs e <= i64 (timeOfLastProgressMs r' + mergeProgressTimeoutMs r')) /\
  (timeOfLastProgressMs r' = timeOfLastProgressMs r ->
   i64 (timeOfLastProgressMs r + mergeProgressTimeoutMs r) < e_nowMs e -> err <> None /\ state r' = StateFailed).
Proof.
  intros Hrun Ht. pose proof (returns_Ret _ _ _ _ _ (DoWork_round opts p r e) Hrun) as Hd. cbn [snd] in Hd.
  unfold round_end in Hd. rewrite Ht in Hd. destruct Hd as (r1 & err' & Hd & He). cbn [fst snd] in *.
  destruct (wd_same _ _ _ _ _ Hd) as (_ & _ & Hto & _). cbn [fst] in Hto.
  destruct err as [x|]; [split; [done|]; intros _ _; by destruct He as [-> _]|].
  destruct He as (_ & -> & Hle). split; [done|]. intros Heq Hlt. rewrite Heq, Hto in Hle. lia.
Qed.

(** ** The life of a merge *)

(** How often a command was given. *)
Definition times (c : command) (cs : list command) : nat := length (filter (fun c' => c' = c) cs).

Lemma times_app c cs cs' : times c (cs ++ cs') = (times c cs + times c cs')%nat.
Proof. unfold times. by rewrite filter_app, length_app. Qed.
Lemma times_one c c' : times c [c'] = (if decide (c' = c) then 1 else 0)%nat.
Proof. unfold times. rewrite filter_cons, filter_nil. by destruct (decide (c' = c)). Qed.

Ltac count :=
  repeat first [rewrite decide_True by done|rewrite decide_False by congruence];
  repeat match goal with H : isLiveAdded _ = _ |- _ => rewrite H in * end;
  intros; first [congruence|lia|split; [congruence|lia]].

(** Times and timeouts that do not run over. *)
Definition sane (r : ReplayMerge) (e : env) : Prop :=
  0 <= mergeProgressTimeoutMs r < 2 ^ 62 /\ 0 <= e_nowMs e < 2 ^ 62.

Section Life.
Context (opts : nat -> Options) (p : nat) (image_Poll : nat -> Z -> M env Z).

(** The caller works, polls and closes; what is around changes as it likes, but it does not
    give commands to the subscription. *)
Inductive merge_step : ReplayMerge * env -> ReplayMerge * env -> Prop :=
| ms_work r e x s' : sane r e -> DoWork opts p (r, e) = Ret x s' -> merge_step (r, e) s'
| ms_poll r e limit x s' : sane r e -> ReplayMerge_Poll opts p image_Poll limit (r, e) = Ret x s' -> merge_step (r, e) s'
| ms_close r e s' : Close opts p (r, e) = Ret tt s' -> merge_step (r, e) s'
| ms_outside r e e' : e_commands e' = e_commands e -> merge_step (r, e) (r, e').

(** What is true of a merge to [live] from [replay]. *)
Record merge_inv (replay live : string) (s : ReplayMerge * env) : Prop := {
  mi_replay : replayDestination s.1 = replay;
  mi_live : liveDestination s.1 = live;
  mi_started : times (AddDestination replay) (e_commands s.2) = 1%nat;
  mi_added : times (AddDestination live) (e_commands s.2) = (if isLiveAdded s.1 then 1 else 0)%nat;
  mi_kept : times (RemoveDestination live) (e_commands s.2) = 0%nat;
  mi_merged : state s.1 = StateMerged -> isLiveAdded s.1 = true /\ times (RemoveDestination replay) (e_commands s.2) = 1%nat;
  mi_running : state s.1 <> StateMerged -> state s.1 <> StateClosed -> times (RemoveDestination replay) (e_commands s.2) = 0%nat;
  mi_once : (times (RemoveDestination replay) (e_commands s.2) <= 1)%nat }.

Context (replay live : string) (Hne : live <> replay).

Lemma inv_commands r r' e e' cs images :
  merge_inv replay live (r, e) -> terminal (state r) = false -> same_merge r r' ->
  e_commands e' = e_commands e ++ cs -> commands_of images r r' cs -> merge_inv replay live (r', e') .
Proof using Hne.
  intros [H1 H2 H3 H4 H5 H6 H7 H8] Ht (_ & _ & _ & S1 & S2) Hc Hco. cbn [fst snd] in *.
  assert (Hrun : times (RemoveDestination replay) (e_commands e) = 0%nat).
  { apply H7; intros E; by rewrite E in Ht. }
  destruct Hco as [Hl Hm|Hl Hl' Hs|Hl Hl' Hs Hs' Hcu].
  - rewrite app_nil_r in Hc. split; cbn [fst snd]; rewrite ?Hc, ?Hl; first [congruence|lia|idtac].
    intros E. exfalso. rewrite (Hm E) in Ht. done.
  - split; cbn [fst snd]; rewrite ?Hc, ?times_app, ?times_one, ?H2; count.
  - split; cbn [fst snd]; rewrite ?Hc, ?times_app, ?times_one, ?H1; count.
Qed.

Lemma inv_state s r' e' :
  merge_inv replay live s -> e_commands e' = e_commands s.2 ->
  replayDestination r' = replayDestination s.1 -> liveDestination r' = liveDestination s.1 -> isLiveAdded r' = isLiveAdded s.1 ->
  (state r' = state s.1 \/ state s.1 <> StateMerged /\ state r' = StateFailed /\ state s.1 <> StateClosed \/ state r' = StateClosed) ->
  merge_inv replay live (r', e').
Proof using Type.
  intros [H1 H2 H3 H4 H5 H6 H7 H8] Hc ? ? Hl Hs. split; cbn [fst snd]; rewrite ?Hc, ?Hl; try congruence; try done.
  - destruct Hs as [->|[(? & -> & ?)| ->]]; done.
  - destruct Hs as [->|[(? & -> & ?)| ->]]; auto; done.
Qed.

Lemma DoWork_inv r e n err s' :
  sane r e -> merge_inv replay live (r, e) -> DoWork opts p (r, e) = Ret (n, err) s' -> merge_inv replay live s'.
Proof using Hne.
  intros [Hto Hnow] Hi Hrun. pose proof (returns_Ret _ _ _ _ _ (DoWork_round opts p r e) Hrun) as Hd. cbn [snd] in Hd.
  unfold round_end in Hd. destruct (terminal (state r)) eqn:Ht; [by destruct Hd as [_ ->]|].
  destruct Hd as (r1 & err' & Hd & He). destruct s' as [r' e']. cbn [fst snd] in *.
  destruct (wd_commands _ _ _ _ _ Hd) as (cs & Hcs & Hco). cbn [fst snd] in *.
  destruct (wd_same _ _ _ _ _ Hd) as (_ & _ & Hsame & _). cbn [fst] in Hsame.
  assert (Hi1 : merge_inv replay live (r1, e')) by (by eapply inv_commands; try done; apply Hd).
  destruct err as [x|]; [|by destruct He as (_ & -> & _)].
  destruct He as [-> Hlate]. eapply inv_state; [exact Hi1|done..|]. right; left. cbn [fst].
  assert (Hnm : state r1 <> StateMerged).
  { intros E. destruct err' as [y|].
    - pose proof (wd_error _ _ _ _ _ Hd ltac:(done)) as Hs. cbn in Hs. rewrite <- Hs, E in Ht. done.
    - destruct (wd_merged _ _ _ _ _ Hd E) as [Hs|Hl]; [by rewrite Hs in Ht|]. cbn in Hl.
      specialize (Hlate eq_refl). rewrite Hl, Hsame, i64_small in Hlate by lia. lia. }
  split_and!; [done|done|]. intros E. pose proof (wd_edge _ _ _ _ _ Hd) as Hed. cbn in Hed. rewrite E in Hed.
  destruct Hed as [Hed|Hed]; [rewrite <- Hed in Ht; done|]. destruct (state r); try discriminate; by destruct Hed.
Qed.

Lemma Close_inv r e s' : merge_inv replay live (r, e) -> Close opts p (r, e) = Ret tt s' -> merge_inv replay live s'.
Proof using Hne.
  intros Hi Hrun. revert s' Hrun.
  assert (H : returns (Close opts p) (r, e) (fun _ s' => merge_inv replay live s')).
  { unfold Close. do 4 rstep. destruct (decide (state r = StateClosed)) as [Hc|Hc]; [by rstep|].
    assert (Hquit : forall r1 e1 e2, merge_inv replay live (r1, e1) -> same_env e1 e2 ->
      forall r2, replayDestination r2 = replayDestination r1 -> liveDestination r2 = liveDestination r1 -> isLiveAdded r2 = isLiveAdded r1 ->
      merge_inv replay live (set_activeCorrelationId NullValue (set_rm_state StateClosed r2), e2)).
    { intros r1 e1 e2 H1 (Hcs & _) r2 ? ? ?. eapply inv_state; [exact H1|done..|]. by right; right. }
    apply returns_bind. destruct (e_aeronClosed e); cbn [negb when].
    { rstep. rstep. by eapply Hquit. }
    apply returns_bind.
    assert (Hrm : exists e1, returns (when (negb (bool_decide (state r = StateMerged))) (command_to_subscription (RemoveDestination (replayDestination r))))
      (r, e) (fun _ s => s = (r, e1)) /\ forall e2 r2, same_env e1 e2 -> replayDestination r2 = replayDestination r ->
         liveDestination r2 = liveDestination r -> isLiveAdded r2 = isLiveAdded r ->
         merge_inv replay live (set_activeCorrelationId NullValue (set_rm_state StateClosed r2), e2)).
    { destruct (bool_decide_reflect (state r = StateMerged)) as [Hm|Hm]; cbn [negb when].
      - exists e. split; [by rstep|]. intros. by eapply Hquit.
      - exists (with_commands (e_commands e ++ [RemoveDestination (replayDestination r)]) e). split; [by rstep|].
        intros e2 r2 (Hcs & _) Hr Hl Ha. destruct Hi as [H1 H2 H3 H4 H5 H6 H7 H8]. cbn [fst snd] in *. cbn in Hcs.
        specialize (H7 Hm Hc).
        split; cbn [fst snd]; rewrite ?Hcs, ?times_app, ?times_one, ?H1; cbn; rewrite ?Hr, ?Hl, ?Ha; try done; count. }
    destruct Hrm as (e1 & Hret & Hinv). eapply returns_mono; [exact Hret|]. intros [] ? ->.
    destruct (isReplayActive r && e_publicationConnected e); cbn [when].
    - rstep; rstep; by apply Hinv.
    - rstep. rstep. by apply Hinv. }
  intros s' Hrun. exact (returns_Ret _ _ _ _ _ H Hrun).
Qed.

Lemma ReplayMerge_Poll_inv r e limit x s' :
  (forall i l e1 n e2, image_Poll i l e1 = Ret n e2 -> e_commands e2 = e_commands e1) ->
  sane r e -> merge_inv replay live (r, e) -> ReplayMerge_Poll opts p image_Poll limit (r, e) = Ret x s' -> merge_inv replay live s'.
Proof using Hne.
  intros Hpoll Hs Hi Hrun. unfold ReplayMerge_Poll in Hrun.
  apply bind_inv_Ret in Hrun as ([n err] & [r1 e1] & Hw & Hk). pose proof (DoWork_inv _ _ _ _ _ Hs Hi Hw) as Hi1.
  destruct err as [y|]; [by injection Hk as _ <-|].
  unfold bind, the_merge in Hk. cbn [fst] in Hk. destruct (rm_image r1) as [i|]; [|by injection Hk as _ <-].
  destruct (image_Poll i limit e1) as [k e2|] eqn:Hp; [|done]. injection Hk as _ <-.
  eapply inv_state; [exact Hi1|by eapply Hpoll|done..|by left].
Qed.

Lemma merge_step_inv s s' :
  (forall i l e1 n e2, image_Poll i l e1 = Ret n e2 -> e_commands e2 = e_commands e1) ->
  merge_step s s' -> merge_inv replay live s -> merge_inv replay live s'.
Proof using Hne.
  intros Hpoll Hst Hi. destruct Hst as [r e [n err] s' Hs Hrun|r e limit x s' Hs Hrun|r e s' Hrun|r e e' Hc].
  - by eapply DoWork_inv.
  - by eapply ReplayMerge_Poll_inv.
  - by eapply Close_inv.
  - eapply inv_state; [exact Hi|done..|by left].
Qed.
End Life.

(** C20. Whatever happens around a merge and whenever its caller works, polls or closes it: the
    replay destination is added once, at the start, and removed at most once, by the merge or by
    the end; the live destination is added at most once, and never removed; and a merge that is
    merged has added the live destination and removed the replay. *)
Theorem merge_destinations opts p image_Poll channel replayChannel replay live recording start timeout e0 r0 e1 r e :
  (forall i l e1 n e2, image_Poll i l e1 = Ret n e2 -> e_commands e2 = e_commands e1) ->
  live <> replay -> e_commands e0 = [] ->
  NewReplayMerge channel replayChannel replay live recording start timeout e0 = Ret (Some r0, None) e1 ->
  rtc (merge_step opts p image_Poll) (r0, e1) (r, e) ->
  times (AddDestination replay) (e_commands e) = 1%nat /\
  (times (RemoveDestination replay) (e_commands e) <= 1)%nat /\
  times (AddDestination live) (e_commands e) = (if isLiveAdded r then 1 else 0)%nat /\
  times (RemoveDestination live) (e_commands e) = 0%nat /\
  (IsMerged r = true -> isLiveAdded r = true /\ times (RemoveDestination replay) (e_commands e) = 1%nat).
Proof.
  intros Hpoll Hne H0 Hnew Hsteps.
  assert (Hi : merge_inv replay live (r0, e1)).
  { unfold NewReplayMerge in Hnew. destruct (_ || _); [done|]. destruct (negb _); [done|].
    destruct (ParseChannelUri replayChannel) as [uri [?|]]; [done|].
    destruct (ParseChannelUri replay) as [uri2 [?|]]; [done|].
    destruct (if HasSuffix _ _ then _ else _) as [uri3 st] eqn:Hst.
    injection Hnew as <- <-.
    assert (Hnm : st <> StateMerged) by (destruct (HasSuffix _ _); by injection Hst as _ <-).
    split; cbn [fst snd e_commands with_commands isLiveAdded state replayDestination liveDestination];
      rewrite ?H0; cbn [app]; rewrite ?times_one; try done.
    all: count. }
  assert (Hend : merge_inv replay live (r, e)).
  { remember (r, e) as s' eqn:E. clear E. induction Hsteps as [|s1 s2 s3 Hst _ IH]; [done|].
    by apply IH, (merge_step_inv opts p image_Poll replay live Hne s1). }
  destruct Hend as [_ _ H3 H4 H5 H6 _ H8]. split_and!; try done.
  intros Hm%bool_decide_eq_true. by apply H6.
Qed.


(** ** Answers that are not looked at *)

(** A frame with a response, as the poll decodes it. *)
Definition response_frame (check : bool) (f : frame) (r : ControlResponse) : Prop :=
  whole f /\
  exists hdr buf, decode_header (fr_data f) = (hdr, buf, None) /\ kind_of hdr = KControlResponse /\
    decode_message ControlResponse hdr buf check = (r, None).

Lemma onFragment_response opts p f r w c :
  response_frame (w_rangeChecking w) f r -> w_controls w !! p = Some c -> r_IsPollComplete (c_Results c) = false ->
  onFragment opts p (fr_data f) w = Ret ControlledPollActionBreak
    (with_controls (<[p := set_results (fun x => set_CorrelationId (ControlResponse_CorrelationId r)
       (set_IsPollComplete true (set_ControlResponse (Some r) x))) c]> (w_controls w)) w).
Proof.
  intros (_ & hdr & buf & Hh & Hk & Hm) Hc Ho. unfold onFragment.
  erewrite bind_Ret by (unfold get_control; by rewrite Hc). rewrite Ho, Hh.
  erewrite bind_Ret by done. rewrite Hk, Hm. by erewrite bind_Ret by (unfold update_control; by rewrite Hc).
Qed.

(** The first response that waits is what a poll finds, and nothing else is known of it. *)
Lemma Poll_response opts p w c f rest r :
  w_controls w !! p = Some c -> c_pending c = f :: rest -> w_rangeChecking w = RangeChecking (opts p) ->
  response_frame (RangeChecking (opts p)) f r ->
  exists w' c', Poll opts p w = Ret 1 w' /\ w_controls w' !! p = Some c' /\ c_pending c' = rest /\
    c_SessionID c' = c_SessionID c /\
    r_ControlResponse (c_Results c') = Some r /\ r_IsPollComplete (c_Results c') = true /\
    r_CorrelationId (c_Results c') = ControlResponse_CorrelationId r /\
    r_ErrorResponse (c_Results c') = (if r_IsPollComplete (c_Results c) then None else r_ErrorResponse (c_Results c)).
Proof.
  intros Hc Hp Hk Hf. unfold Poll. erewrite bind_Ret by (unfold get_control; by rewrite Hc).
  set (c1 := if r_IsPollComplete (c_Results c) then set_results (fun _ => no_results) c else c).
  assert (exists w1, when (r_IsPollComplete (c_Results c))
    (write_rangeChecking (RangeChecking (opts p)) ;;; update_control p (set_results (fun _ => no_results))) w = Ret tt w1 /\
    w_controls w1 !! p = Some c1 /\ w_rangeChecking w1 = RangeChecking (opts p)) as (w1 & Hw1 & Hc1 & Hk1).
  { unfold c1. destruct (r_IsPollComplete (c_Results c)); cbn [when].
    - eexists. split.
      { erewrite bind_Ret by done. unfold update_control. cbn [w_controls with_rangeChecking]. rewrite Hc. reflexivity. }
      split; [apply lookup_insert_eq|done].
    - by exists w. }
  assert (Hp1 : c_pending c1 = f :: rest) by (unfold c1; by destruct (r_IsPollComplete (c_Results c))).
  assert (Ho1 : r_IsPollComplete (c_Results c1) = false) by (unfold c1; destruct (r_IsPollComplete (c_Results c)) eqn:E; by rewrite ?E).
  erewrite bind_Ret by exact Hw1. unfold ControlledPoll. rewrite Hc1, Hp1. cbn [deliver controlFragmentLimit Z.ltb Z.compare].
  rewrite (proj2 (proj1 Hf)). rewrite <- Hk1 in Hf.
  erewrite bind_Ret by (apply assembled_whole; [apply Hf|by eapply onFragment_response]).
  unfold ret, bind, update_control. cbn [w_controls with_controls]. rewrite lookup_insert_eq.
  cbn [w_controls with_controls]. rewrite lookup_insert_eq.
  eexists _, _. split; [reflexivity|]. split; [apply lookup_insert_eq|].
  unfold c1. by destruct (r_IsPollComplete (c_Results c)).
Qed.

Lemma pollForResponse_response opts p r e c f rest x :
  w_controls (e_archive e) !! p = Some c -> c_pending c = f :: rest ->
  w_rangeChecking (e_archive e) = RangeChecking (opts p) -> response_frame (RangeChecking (opts p)) f x ->
  (r_IsPollComplete (c_Results c) = true \/ r_ErrorResponse (c_Results c) = None) ->
  ControlResponse_CorrelationId x = activeCorrelationId r ->
  exists w', pollForResponse opts p (r, e) = Ret (true, None) (r, with_archive w' e) /\
    exists c', w_controls w' !! p = Some c' /\ r_ControlResponse (c_Results c') = Some x.
Proof.
  intros Hc Hp Hk Hf He Hid.
  destruct (Poll_response opts p (e_archive e) c f rest x Hc Hp Hk Hf) as (w' & c' & Hpoll & Hc' & _ & _ & Hr & Hcomp & Hcid & Herr).
  exists w'. split; [|by exists c'].
  unfold pollForResponse. erewrite bind_Ret by done. cbn [fst].
  erewrite bind_Ret by (unfold on_archive; by rewrite Hpoll).
  erewrite bind_Ret by (unfold on_archive, get_control; cbn [e_archive with_archive]; by rewrite Hc').
  rewrite Hcomp, Hr, Herr, Hcid, Hid, Z.eqb_refl. cbn [andb Z.gtb Z.compare].
  assert ((if r_IsPollComplete (c_Results c) then None else r_ErrorResponse (c_Results c)) = None) as ->
    by (destruct He as [-> | ->]; [done|by destruct (r_IsPollComplete (c_Results c))]).
  by destruct (_ =? _).
Qed.

(** An error of the archive is taken for success: a merge that waits for the answer to its
    replay request gets a response with the awaited id whose code is an error, and goes on to
    catch up with a replay that does not exist, whose session is whatever the response says. *)
Theorem replay_takes_error_for_success opts p r e c f rest x :
  state r = StateReplay -> activeCorrelationId r <> NullValue -> sane r e ->
  w_controls (e_archive e) !! p = Some c -> c_pending c = f :: rest ->
  w_rangeChecking (e_archive e) = RangeChecking (opts p) -> response_frame (RangeChecking (opts p)) f x ->
  r_ErrorResponse (c_Results c) = None ->
  ControlResponse_CorrelationId x = activeCorrelationId r -> ControlResponse_Code x = ControlResponseCode.ERROR ->
  exists r' e', DoWork opts p (r, e) = Ret (1, None) (r', e') /\
    state r' = StateCatchup /\ isReplayActive r' = true /\ replaySessionId r' = ControlResponse_RelevantId x.
Proof.
  intros Hs Ha [Hto Hnow] Hc Hp Hk Hf He Hid _.
  destruct (pollForResponse_response opts p r e c f rest x Hc Hp Hk Hf (or_intror He) Hid) as (w' & Hpoll & c' & Hc' & Hr).
  eexists _, _. unfold DoWork. erewrite bind_Ret by done. erewrite bind_Ret by done. cbn [fst snd]. rewrite Hs. cbn [work_of].
  erewrite bind_Ret.
  2:{ unfold replay. erewrite bind_Ret by done. cbn [fst]. rewrite (proj2 (Z.eqb_neq _ _) Ha).
      erewrite bind_Ret by exact Hpoll. cbv beta iota. erewrite bind_Ret by done.
      erewrite bind_Ret.
      2:{ unfold polledRelevantId. erewrite bind_Ret by (unfold on_archive, get_control; cbn [e_archive with_archive]; by rewrite Hc').
          rewrite Hr. reflexivity. }
      erewrite bind_Ret by done. erewrite bind_Ret by done. erewrite bind_Ret by done. reflexivity. }
  cbv beta iota. erewrite bind_Ret.
  2:{ unfold checkProgress. erewrite bind_Ret by done. cbn. rewrite i64_small by lia.
      replace (e_nowMs e >? e_nowMs e + mergeProgressTimeoutMs r) with false by lia. reflexivity. }
  done.
Qed.

(** A merge that catches up without an image does not fail: as long as the subscription is
    connected to something, and be it not to the replay, every round counts as progress, however
    long there is none. *)
Theorem catchup_without_image_goes_on opts p r e :
  state r = StateCatchup -> rm_image r = None -> sane r e ->
  IsConnected e = true -> ImageBySessionID e (i32 (replaySessionId r)) = None ->
  exists r', DoWork opts p (r, e) = Ret (0, None) (r', e) /\
    state r' = StateCatchup /\ rm_image r' = None /\ replaySessionId r' = replaySessionId r /\
    mergeProgressTimeoutMs r' = mergeProgressTimeoutMs r.
Proof.
  intros Hs Hi [Hto Hnow] Hcon Himg. eexists. unfold DoWork. erewrite bind_Ret by done. erewrite bind_Ret by done. cbn [fst snd].
  rewrite Hs. cbn [work_of]. erewrite bind_Ret.
  2:{ unfold catchup. erewrite bind_Ret by done. erewrite bind_Ret by done. cbn [fst snd].
      rewrite Hi, Hcon, Himg. cbn [andb]. rewrite bool_decide_true by done. cbn [andb].
      erewrite bind_Ret; [|erewrite bind_Ret by done; erewrite bind_Ret by done; erewrite bind_Ret by done; reflexivity].
      erewrite bind_Ret by done. cbn. reflexivity. }
  cbv beta iota. erewrite bind_Ret.
  2:{ unfold checkProgress. erewrite bind_Ret by done. cbn. rewrite i64_small by lia.
      replace (e_nowMs e >? e_nowMs e + mergeProgressTimeoutMs r) with false by lia. reflexivity. }
  done.
Qed.
