(* ===== verification/ClusterService.v ===== *)
(** * The container of a clustered service

    cluster/clustered_service_agent.go, consensus_module_proxy.go, client_session.go,
    bounded_log_adapter.go, service_adapter.go, snapshot_taker.go and snapshot_loader.go: the
    agent that feeds the replicated log to a service, keeps the sessions of the clients,
    acknowledges positions to the consensus module, and takes and loads snapshots.

    The service is a program over the operations of the cluster interface, which it may call
    while it handles an event. What comes from outside is in the world: the clock and the
    counters as they are at each look at the clock, with the frames that arrived since; the
    answers of the publications; the subscriptions and archives to come. The frames of the log
    are those of the current term; Image.v and Stream.v relate them to the memory. *)

From S2P Require Import Prelude Sbe SbePacket Bits Publication.
From S2P Require Import Memory Flyweight LogBuffer TermSpec Reader ChannelUri ArchiveProxy Archive.
From S2P Require Import ClusterCodecs ClusterPackets.

Local Open Scope m_scope.

Local Abbreviation bytes := (list Init.Byte.byte).

(** ** Constants *)

Definition NullValue : Z := -1.
Definition NullPosition : Z := -1.
Definition markFileUpdateIntervalMs : Z := 1000.
Definition recordingPosCounterTypeId : Z := 100.
Definition commitPosCounterTypeId : Z := 203.
Definition recoveryStateCounterTypeId : Z := 204.

Definition SBEHeaderLength : Z := 8.
Definition SessionMessageHeaderLength : Z := 24.
Definition SessionMessageHdrBlockLength : Z := 24.
Definition ClientSessionMockedOffer : Z := 1.

Definition Follower : Z := 0.
Definition Candidate : Z := 1.
Definition Leader : Z := 2.

Definition SessionMessageHeaderTemplateId : Z := 1.
Definition timerEventTemplateId : Z := 20.
Definition sessionOpenTemplateId : Z := 21.
Definition sessionCloseTemplateId : Z := 22.
Definition clusterActionReqTemplateId : Z := 23.
Definition newLeadershipTermTemplateId : Z := 24.
Definition membershipChangeTemplateId : Z := 25.
Definition scheduleTimerTemplateId : Z := 31.
Definition cancelTimerTemplateId : Z := 32.
Definition joinLogTemplateId : Z := 40.
Definition serviceTerminationPosTemplateId : Z := 42.
Definition snapshotMarkerTemplateId : Z := 100.
Definition clientSessionTemplateId : Z := 102.
Definition requestServiceAckTemplateId : Z := 108.

Definition clusterActionFlagsDefault : Z := 0.
Definition clusterActionFlagsStandbySnapshot : Z := 1.

Definition scheduleTimerBlockLength : Z := 16.
Definition cancelTimerBlockLength : Z := 8.
Definition snapshotTypeId : Z := 2.

(** ** State *)

(** [containerClientSession]; the response publication is a pointer. *)
Record session : Type := mkSession {
  s_id : Z;
  s_responseStreamId : Z;
  s_responseChannel : bytes;
  s_encodedPrincipal : bytes;
  s_response : nat }.

(** What the agent sees of an image: its position, the committed frames behind it, and its end. *)
Record log_image : Type := mkImage {
  li_session : Z;
  li_position : Z;
  li_frames : list frame;
  li_endOfStream : bool;
  li_closed : bool }.

(** [activeLogEvent] *)
Record log_event : Type := mkLogEvent {
  le_logPosition : Z; le_maxLogPosition : Z; le_memberId : Z; le_logSessionId : Z; le_logStreamId : Z;
  le_isStartup : bool; le_isStandby : bool; le_role : Z; le_logChannel : bytes }.

(** [boundedLogAdapter] *)
Record log_adapter : Type := mkAdapter {
  la_image : option log_image;
  la_builder : option bytes;
  la_maxLogPosition : Z }.

Definition with_la_image (v : option log_image) (x : log_adapter) : log_adapter := mkAdapter v (la_builder x)
  (la_maxLogPosition x).
Definition with_la_builder (v : option bytes) (x : log_adapter) : log_adapter := mkAdapter (la_image x) v
  (la_maxLogPosition x).
Definition with_la_maxLogPosition (v : Z) (x : log_adapter) : log_adapter := mkAdapter (la_image x) (la_builder x) v.

(** The fields of [ClusteredServiceAgent] that change. *)
Record agent : Type := mkAgent {
  logPosition : Z;
  clusterTime : Z;
  timeUnit : Z;
  memberId : Z;
  nextAckId : Z;
  terminationPosition : Z;
  requestedAckPosition : Z;
  standbySnapshotFlags : Z;
  isServiceActive : bool;
  role : Z;
  sessions : gmap Z session;
  commitPosition : option nat;
  sessionMsgHdrBuffer : bytes;
  cachedTimeMs : Z;
  markFileUpdateDeadlineMs : Z;
  activeLogEvent : option log_event;
  logAdapter : log_adapter }.

Definition with_logPosition (v : Z) (x : agent) : agent := mkAgent v (clusterTime x) (timeUnit x) (memberId x)
  (nextAckId x) (terminationPosition x) (requestedAckPosition x) (standbySnapshotFlags x) (isServiceActive x) (role x)
  (sessions x) (commitPosition x) (sessionMsgHdrBuffer x) (cachedTimeMs x) (markFileUpdateDeadlineMs x)
  (activeLogEvent x) (logAdapter x).
Definition with_clusterTime (v : Z) (x : agent) : agent := mkAgent (logPosition x) v (timeUnit x) (memberId x)
  (nextAckId x) (terminationPosition x) (requestedAckPosition x) (standbySnapshotFlags x) (isServiceActive x) (role x)
  (sessions x) (commitPosition x) (sessionMsgHdrBuffer x) (cachedTimeMs x) (markFileUpdateDeadlineMs x)
  (activeLogEvent x) (logAdapter x).
Definition with_timeUnit (v : Z) (x : agent) : agent := mkAgent (logPosition x) (clusterTime x) v (memberId x)
  (nextAckId x) (terminationPosition x) (requestedAckPosition x) (standbySnapshotFlags x) (isServiceActive x) (role x)
  (sessions x) (commitPosition x) (sessionMsgHdrBuffer x) (cachedTimeMs x) (markFileUpdateDeadlineMs x)
  (activeLogEvent x) (logAdapter x).
Definition with_memberId (v : Z) (x : agent) : agent := mkAgent (logPosition x) (clusterTime x) (timeUnit x) v
  (nextAckId x) (terminationPosition x) (requestedAckPosition x) (standbySnapshotFlags x) (isServiceActive x) (role x)
  (sessions x) (commitPosition x) (sessionMsgHdrBuffer x) (cachedTimeMs x) (markFileUpdateDeadlineMs x)
  (activeLogEvent x) (logAdapter x).
Definition with_nextAckId (v : Z) (x : agent) : agent := mkAgent (logPosition x) (clusterTime x) (timeUnit x)
  (memberId x) v (terminationPosition x) (requestedAckPosition x) (standbySnapshotFlags x) (isServiceActive x) (role
  x) (sessions x) (commitPosition x) (sessionMsgHdrBuffer x) (cachedTimeMs x) (markFileUpdateDeadlineMs x)
  (activeLogEvent x) (logAdapter x).
Definition with_terminationPosition (v : Z) (x : agent) : agent := mkAgent (logPosition x) (clusterTime x) (timeUnit
  x) (memberId x) (nextAckId x) v (requestedAckPosition x) (standbySnapshotFlags x) (isServiceActive x) (role x)
  (sessions x) (commitPosition x) (sessionMsgHdrBuffer x) (cachedTimeMs x) (markFileUpdateDeadlineMs x)
  (activeLogEvent x) (logAdapter x).
Definition with_requestedAckPosition (v : Z) (x : agent) : agent := mkAgent (logPosition x) (clusterTime x) (timeUnit
  x) (memberId x) (nextAckId x) (terminationPosition x) v (standbySnapshotFlags x) (isServiceActive x) (role x)
  (sessions x) (commitPosition x) (sessionMsgHdrBuffer x) (cachedTimeMs x) (markFileUpdateDeadlineMs x)
  (activeLogEvent x) (logAdapter x).
Definition with_standbySnapshotFlags (v : Z) (x : agent) : agent := mkAgent (logPosition x) (clusterTime x) (timeUnit
  x) (memberId x) (nextAckId x) (terminationPosition x) (requestedAckPosition x) v (isServiceActive x) (role x)
  (sessions x) (commitPosition x) (sessionMsgHdrBuffer x) (cachedTimeMs x) (markFileUpdateDeadlineMs x)
  (activeLogEvent x) (logAdapter x).
Definition with_isServiceActive (v : bool) (x : agent) : agent := mkAgent (logPosition x) (clusterTime x) (timeUnit x)
  (memberId x) (nextAckId x) (terminationPosition x) (requestedAckPosition x) (standbySnapshotFlags x) v (role x)
  (sessions x) (commitPosition x) (sessionMsgHdrBuffer x) (cachedTimeMs x) (markFileUpdateDeadlineMs x)
  (activeLogEvent x) (logAdapter x).
Definition with_role (v : Z) (x : agent) : agent := mkAgent (logPosition x) (clusterTime x) (timeUnit x) (memberId x)
  (nextAckId x) (terminationPosition x) (requestedAckPosition x) (standbySnapshotFlags x) (isServiceActive x) v
  (sessions x) (commitPosition x) (sessionMsgHdrBuffer x) (cachedTimeMs x) (markFileUpdateDeadlineMs x)
  (activeLogEvent x) (logAdapter x).
Definition with_sessions (v : gmap Z session) (x : agent) : agent := mkAgent (logPosition x) (clusterTime x) (timeUnit
  x) (memberId x) (nextAckId x) (terminationPosition x) (requestedAckPosition x) (standbySnapshotFlags x)
  (isServiceActive x) (role x) v (commitPosition x) (sessionMsgHdrBuffer x) (cachedTimeMs x) (markFileUpdateDeadlineMs
  x) (activeLogEvent x) (logAdapter x).
Definition with_commitPosition (v : option nat) (x : agent) : agent := mkAgent (logPosition x) (clusterTime x)
  (timeUnit x) (memberId x) (nextAckId x) (terminationPosition x) (requestedAckPosition x) (standbySnapshotFlags x)
  (isServiceActive x) (role x) (sessions x) v (sessionMsgHdrBuffer x) (cachedTimeMs x) (markFileUpdateDeadlineMs x)
  (activeLogEvent x) (logAdapter x).
Definition with_sessionMsgHdrBuffer (v : bytes) (x : agent) : agent := mkAgent (logPosition x) (clusterTime x)
  (timeUnit x) (memberId x) (nextAckId x) (terminationPosition x) (requestedAckPosition x) (standbySnapshotFlags x)
  (isServiceActive x) (role x) (sessions x) (commitPosition x) v (cachedTimeMs x) (markFileUpdateDeadlineMs x)
  (activeLogEvent x) (logAdapter x).
Definition with_cachedTimeMs (v : Z) (x : agent) : agent := mkAgent (logPosition x) (clusterTime x) (timeUnit x)
  (memberId x) (nextAckId x) (terminationPosition x) (requestedAckPosition x) (standbySnapshotFlags x)
  (isServiceActive x) (role x) (sessions x) (commitPosition x) (sessionMsgHdrBuffer x) v (markFileUpdateDeadlineMs x)
  (activeLogEvent x) (logAdapter x).
Definition with_markFileUpdateDeadlineMs (v : Z) (x : agent) : agent := mkAgent (logPosition x) (clusterTime x)
  (timeUnit x) (memberId x) (nextAckId x) (terminationPosition x) (requestedAckPosition x) (standbySnapshotFlags x)
  (isServiceActive x) (role x) (sessions x) (commitPosition x) (sessionMsgHdrBuffer x) (cachedTimeMs x) v
  (activeLogEvent x) (logAdapter x).
Definition with_activeLogEvent (v : option log_event) (x : agent) : agent := mkAgent (logPosition x) (clusterTime x)
  (timeUnit x) (memberId x) (nextAckId x) (terminationPosition x) (requestedAckPosition x) (standbySnapshotFlags x)
  (isServiceActive x) (role x) (sessions x) (commitPosition x) (sessionMsgHdrBuffer x) (cachedTimeMs x)
  (markFileUpdateDeadlineMs x) v (logAdapter x).
Definition with_logAdapter (v : log_adapter) (x : agent) : agent := mkAgent (logPosition x) (clusterTime x) (timeUnit
  x) (memberId x) (nextAckId x) (terminationPosition x) (requestedAckPosition x) (standbySnapshotFlags x)
  (isServiceActive x) (role x) (sessions x) (commitPosition x) (sessionMsgHdrBuffer x) (cachedTimeMs x)
  (markFileUpdateDeadlineMs x) (activeLogEvent x) v.

(** [Options], as far as the agent uses them. *)
Record Options : Type := mkOptions {
  Timeout : Z;
  RangeChecking : bool;
  ClusterId : Z;
  ServiceId : Z;
  AppVersion : Z;
  LogFragmentLimit : Z;
  ReplayChannel : string;
  ReplayStreamId : Z }.

(** A record of the counters files, by its id. *)
Record counter_record : Type := mkCounter { cr_state : Z; cr_type : Z; cr_key : bytes; cr_value : Z }.

(** What has happened when the clock is looked at: the time, the counters, and the frames that
    were added to the stream of the consensus module and to the log. *)
Record tick : Type := mkTick {
  t_now : Z; t_counters : list counter_record; t_service : list frame; t_log : list frame; t_endOfStream : bool }.

(** A connection to the archive: the answers to what is asked of it, the fragments that the
    image of a replay delivers, and the publication for a recording with its session. *)
Record archive_run : Type := mkArchiveRun {
  ar_connected : option string;
  ar_replay : Z + string;
  ar_subscribed : option string;
  ar_fragments : list bytes;
  ar_recording : (Z * requests) + string }.

(** The calls of the interface [ClusteredService]. *)
Inductive service_call : Type :=
| OnStart (with_image : bool)
| OnSessionOpen (s : session) (timestamp : Z)
| OnSessionClose (s : session) (timestamp closeReason : Z)
| OnSessionMessage (s : option session) (timestamp : Z) (message : bytes)
| OnTimerEvent (correlationId timestamp : Z)
| OnTakeSnapshot
| OnRoleChange (role : Z)
| OnTerminate
| OnNewLeadershipTermEvent (leadershipTermId logPosition timestamp termBaseLogPosition leaderMemberId logSessionId timeUnit appVersion : Z).

(** What a service may do: the interface [Cluster], its sessions, and the publication or the
    image of a snapshot. *)
Inductive cluster_op : Type :=
| OpLogPosition | OpMemberId | OpRole | OpTime | OpTimeUnit
| OpIdle (workCount : Z)
| OpScheduleTimer (correlationId deadline : Z)
| OpCancelTimer (correlationId : Z)
| OpOffer (message : bytes)
| OpSessionOffer (s : session) (message : bytes)
| OpSessionClose (s : session)
| OpSnapshotOffer (message : bytes)
| OpSnapshotPoll.

Inductive answer : Type := AnInt (z : Z) | ABool (b : bool) | AFragment (message : option bytes) | Nothing.

(** A service handles an event by a program, which ends. *)
Inductive program (R : Type) : Type :=
| Done (r : R)
| Do (o : cluster_op) (k : answer -> program R).
Arguments Done {R} r.
Arguments Do {R} o k.

Section Service.
Context {Svc : Type} (service : Svc -> service_call -> program Svc) (opts : Options).
(** The id of the client of the driver, and the order in which the runtime goes over a map. *)
Context (ClientID : Z) (range_order : gmap Z session -> list session).

(** The world of the agent. *)
Record world : Type := mkWorld {
  w_agent : agent;
  w_now : Z;
  w_ticks : list tick;
  w_counters : list counter_record;
  w_consensus : channel;
  w_responses : gmap nat channel;
  w_publications : list (nat + string);
  w_service : list frame;
  w_subscriptions : list (log_image + string);
  w_archives : list archive_run;
  w_snapshot : option requests;
  w_recorded : list (Z * list bytes);
  w_replay : list bytes;
  w_activity : Z;
  w_markedMember : Z;
  w_calls : list service_call;
  w_state : Svc }.

Definition with_w_agent (v : agent) (x : world) : world := mkWorld v (w_now x) (w_ticks x) (w_counters x) (w_consensus
  x) (w_responses x) (w_publications x) (w_service x) (w_subscriptions x) (w_archives x) (w_snapshot x) (w_recorded x)
  (w_replay x) (w_activity x) (w_markedMember x) (w_calls x) (w_state x).
Definition with_w_now (v : Z) (x : world) : world := mkWorld (w_agent x) v (w_ticks x) (w_counters x) (w_consensus x)
  (w_responses x) (w_publications x) (w_service x) (w_subscriptions x) (w_archives x) (w_snapshot x) (w_recorded x)
  (w_replay x) (w_activity x) (w_markedMember x) (w_calls x) (w_state x).
Definition with_w_ticks (v : list tick) (x : world) : world := mkWorld (w_agent x) (w_now x) v (w_counters x)
  (w_consensus x) (w_responses x) (w_publications x) (w_service x) (w_subscriptions x) (w_archives x) (w_snapshot x)
  (w_recorded x) (w_replay x) (w_activity x) (w_markedMember x) (w_calls x) (w_state x).
Definition with_w_counters (v : list counter_record) (x : world) : world := mkWorld (w_agent x) (w_now x) (w_ticks x)
  v (w_consensus x) (w_responses x) (w_publications x) (w_service x) (w_subscriptions x) (w_archives x) (w_snapshot x)
  (w_recorded x) (w_replay x) (w_activity x) (w_markedMember x) (w_calls x) (w_state x).
Definition with_w_consensus (v : channel) (x : world) : world := mkWorld (w_agent x) (w_now x) (w_ticks x) (w_counters
  x) v (w_responses x) (w_publications x) (w_service x) (w_subscriptions x) (w_archives x) (w_snapshot x) (w_recorded
  x) (w_replay x) (w_activity x) (w_markedMember x) (w_calls x) (w_state x).
Definition with_w_responses (v : gmap nat channel) (x : world) : world := mkWorld (w_agent x) (w_now x) (w_ticks x)
  (w_counters x) (w_consensus x) v (w_publications x) (w_service x) (w_subscriptions x) (w_archives x) (w_snapshot x)
  (w_recorded x) (w_replay x) (w_activity x) (w_markedMember x) (w_calls x) (w_state x).
Definition with_w_publications (v : list (nat + string)) (x : world) : world := mkWorld (w_agent x) (w_now x) (w_ticks
  x) (w_counters x) (w_consensus x) (w_responses x) v (w_service x) (w_subscriptions x) (w_archives x) (w_snapshot x)
  (w_recorded x) (w_replay x) (w_activity x) (w_markedMember x) (w_calls x) (w_state x).
Definition with_w_service (v : list frame) (x : world) : world := mkWorld (w_agent x) (w_now x) (w_ticks x)
  (w_counters x) (w_consensus x) (w_responses x) (w_publications x) v (w_subscriptions x) (w_archives x) (w_snapshot
  x) (w_recorded x) (w_replay x) (w_activity x) (w_markedMember x) (w_calls x) (w_state x).
Definition with_w_subscriptions (v : list (log_image + string)) (x : world) : world := mkWorld (w_agent x) (w_now x)
  (w_ticks x) (w_counters x) (w_consensus x) (w_responses x) (w_publications x) (w_service x) v (w_archives x)
  (w_snapshot x) (w_recorded x) (w_replay x) (w_activity x) (w_markedMember x) (w_calls x) (w_state x).
Definition with_w_archives (v : list archive_run) (x : world) : world := mkWorld (w_agent x) (w_now x) (w_ticks x)
  (w_counters x) (w_consensus x) (w_responses x) (w_publications x) (w_service x) (w_subscriptions x) v (w_snapshot x)
  (w_recorded x) (w_replay x) (w_activity x) (w_markedMember x) (w_calls x) (w_state x).
Definition with_w_snapshot (v : option requests) (x : world) : world := mkWorld (w_agent x) (w_now x) (w_ticks x)
  (w_counters x) (w_consensus x) (w_responses x) (w_publications x) (w_service x) (w_subscriptions x) (w_archives x) v
  (w_recorded x) (w_replay x) (w_activity x) (w_markedMember x) (w_calls x) (w_state x).
Definition with_w_recorded (v : list (Z * list bytes)) (x : world) : world := mkWorld (w_agent x) (w_now x) (w_ticks
  x) (w_counters x) (w_consensus x) (w_responses x) (w_publications x) (w_service x) (w_subscriptions x) (w_archives
  x) (w_snapshot x) v (w_replay x) (w_activity x) (w_markedMember x) (w_calls x) (w_state x).
Definition with_w_replay (v : list bytes) (x : world) : world := mkWorld (w_agent x) (w_now x) (w_ticks x) (w_counters
  x) (w_consensus x) (w_responses x) (w_publications x) (w_service x) (w_subscriptions x) (w_archives x) (w_snapshot
  x) (w_recorded x) v (w_activity x) (w_markedMember x) (w_calls x) (w_state x).
Definition with_w_activity (v : Z) (x : world) : world := mkWorld (w_agent x) (w_now x) (w_ticks x) (w_counters x)
  (w_consensus x) (w_responses x) (w_publications x) (w_service x) (w_subscriptions x) (w_archives x) (w_snapshot x)
  (w_recorded x) (w_replay x) v (w_markedMember x) (w_calls x) (w_state x).
Definition with_w_markedMember (v : Z) (x : world) : world := mkWorld (w_agent x) (w_now x) (w_ticks x) (w_counters x)
  (w_consensus x) (w_responses x) (w_publications x) (w_service x) (w_subscriptions x) (w_archives x) (w_snapshot x)
  (w_recorded x) (w_replay x) (w_activity x) v (w_calls x) (w_state x).
Definition with_w_calls (v : list service_call) (x : world) : world := mkWorld (w_agent x) (w_now x) (w_ticks x)
  (w_counters x) (w_consensus x) (w_responses x) (w_publications x) (w_service x) (w_subscriptions x) (w_archives x)
  (w_snapshot x) (w_recorded x) (w_replay x) (w_activity x) (w_markedMember x) v (w_state x).
Definition with_w_state (v : Svc) (x : world) : world := mkWorld (w_agent x) (w_now x) (w_ticks x) (w_counters x)
  (w_consensus x) (w_responses x) (w_publications x) (w_service x) (w_subscriptions x) (w_archives x) (w_snapshot x)
  (w_recorded x) (w_replay x) (w_activity x) (w_markedMember x) (w_calls x) v.

Definition A (X : Type) : Type := M world X.

Definition on_agent (f : agent -> agent) : A unit := fun w => Ret tt (with_w_agent (f (w_agent w)) w).
Definition ask {X} (f : agent -> X) : A X := fun w => Ret (f (w_agent w)) w.
Definition look {X} (f : world -> X) : A X := fun w => Ret (f w) w.
Definition modify (f : world -> world) : A unit := fun w => Ret tt (f w).

(** ** The clock *)

Definition RecordUnused : Z := 0.
Definition RecordAllocated : Z := 1.

(** [counters.Reader.FindCounter] *)
Fixpoint FindCounter (typeId : Z) (keyFilter : bytes -> bool) (id : nat) (cs : list counter_record) : option (nat * counter_record) :=
  match cs with
  | [] => None
  | c :: cs =>
      if cr_state c =? RecordUnused then None
      else if (cr_state c =? RecordAllocated) && (cr_type c =? typeId) && keyFilter (cr_key c) then Some (id, c)
      else FindCounter typeId keyFilter (S id) cs
  end.

Definition key_int32 (offset : nat) (key : bytes) : Z := i32 (le_combine (take 4 (drop offset key))).
Definition key_int64 (offset : nat) (key : bytes) : Z := i64 (le_combine (take 8 (drop offset key))).

Definition log_arrives (fs : list frame) (eos : bool) (la : log_adapter) : log_adapter :=
  match la_image la with
  | Some i => with_la_image (Some (mkImage (li_session i) (li_position i) (li_frames i ++ fs) (li_endOfStream i || eos) (li_closed i))) la
  | None => la
  end.

(** [time.Now()], with what happened since the last look. *)
Definition next_tick : A Z := fun w =>
  match w_ticks w with
  | [] => Exc EFuel w
  | t :: ts =>
      Ret (t_now t)
        (with_w_agent (with_logAdapter (log_arrives (t_log t) (t_endOfStream t) (logAdapter (w_agent w))) (w_agent w))
           (with_w_now (t_now t) (with_w_ticks ts (with_w_counters (t_counters t) (with_w_service (w_service w ++ t_service t) w)))))
  end.

Definition counter_state (id : nat) (cs : list counter_record) : Z :=
  match cs !! id with Some c => cr_state c | None => RecordUnused end.
Definition counter_value (id : nat) (cs : list counter_record) : Z :=
  match cs !! id with Some c => cr_value c | None => 0 end.

Definition checkForClockTick : A bool :=
  let! nowMs := next_tick in
  let! cached := ask cachedTimeMs in
  if negb (cached =? nowMs) then
    on_agent (with_cachedTimeMs nowMs) ;;;
    let! commit := ask commitPosition in
    let! cs := look w_counters in
    match commit with
    | Some id =>
        when (negb (counter_state id cs =? RecordAllocated))
          (on_agent (with_isServiceActive false) ;;; panic "commit-pos counter unexpectedly closed, terminating")
    | None => ret tt
    end ;;;
    let! deadline := ask markFileUpdateDeadlineMs in
    when (nowMs >? deadline)
      (on_agent (with_markFileUpdateDeadlineMs (i64 (nowMs + markFileUpdateIntervalMs))) ;;;
       modify (with_w_activity nowMs)) ;;;
    ret true
  else ret false.

(** [agent.Idle], which is the idle strategy of the proxy and of the service. *)
Definition Idle (workCount : Z) : A unit :=
  if workCount <=? 0 then (let! _ := checkForClockTick in ret tt) else ret tt.

(** ** The proxy of the consensus module *)

Definition consensus_Offer (msg : bytes) : A Z := fun w =>
  match channel_Offer msg (w_consensus w) with
  | Ret r c => Ret r (with_w_consensus c w)
  | Exc e c => Exc e (with_w_consensus c w)
  end.

(** Both [offer] and [Offer2]: three tries. *)
Fixpoint offer_tries (n : nat) (msg : bytes) (result : Z) : A Z :=
  match n with
  | O => ret result
  | S n =>
      let! result := consensus_Offer msg in
      if result >=? 0 then ret result
      else if (result =? NotConnected) || (result =? PublicationClosed) || (result =? MaxPositionExceeded)
      then panic "offer failed"
      else offer_tries n msg result
  end.

Definition offer (msg : bytes) : A Z := offer_tries 3 msg 0.

(** Again and again, with a look at the clock in between. *)
Fixpoint send_loop (fuel : nat) (payload : bytes) : A unit :=
  match fuel with
  | O => raise EFuel
  | S fuel =>
      let! result := offer payload in
      if result <? 0 then Idle 0 ;;; send_loop fuel payload else ret tt
  end.

(** Every round but the last takes a tick. *)
Definition send (payload : bytes) : A unit :=
  let! ticks := look w_ticks in send_loop (S (length ticks)) payload.

Definition send_packet (marshalled : bytes + string) : A unit :=
  match marshalled with
  | inr err => panic err
  | inl payload => send payload
  end.

Definition serviceAckRequest (logPosition timestamp ackID relevantID serviceID : Z) : A unit :=
  send_packet (ServiceAckRequestPacket (RangeChecking opts) logPosition timestamp ackID relevantID serviceID).

Definition closeSessionRequest (clusterSessionId : Z) : A unit :=
  send_packet (CloseSessionRequestPacket (RangeChecking opts) clusterSessionId).

(** The header that [initBuffer] writes in front of the block. *)
Definition initBuffer (templateId blockLength : Z) : bytes :=
  le_split 2 blockLength ++ le_split 2 templateId ++ le_split 2 ClusterSchemaId ++ le_split 2 ClusterSchemaVersion.

Definition scheduleTimer (correlationId deadline : Z) : A bool :=
  let! result := offer (initBuffer scheduleTimerTemplateId scheduleTimerBlockLength ++ le_split 8 correlationId ++ le_split 8 deadline) in
  ret (result >=? 0).

Definition cancelTimer (correlationId : Z) : A bool :=
  let! result := offer (initBuffer cancelTimerTemplateId cancelTimerBlockLength ++ le_split 8 correlationId) in
  ret (result >=? 0).

Definition getAndIncrementNextAckId : A Z :=
  let! ackId := ask nextAckId in
  on_agent (with_nextAckId (i64 (ackId + 1))) ;;;
  ret ackId.

(** ** Sessions *)

Definition response_Offer (pub : nat) (msg : bytes) : A Z := fun w =>
  match w_responses w !! pub with
  | None => Exc (EPanic "nil pointer dereference") w
  | Some c =>
      match channel_Offer msg c with
      | Ret r c' => Ret r (with_w_responses (<[pub := c']> (w_responses w)) w)
      | Exc e c' => Exc e (with_w_responses (<[pub := c']> (w_responses w)) w)
      end
  end.

(** The session and the time go into the header, the leadership term is there. *)
Definition fill_header (clusterSessionId : Z) : A bytes :=
  let! t := ask clusterTime in
  let! hdr := ask sessionMsgHdrBuffer in
  let hdr := put_int64 24 t (put_int64 16 clusterSessionId hdr) in
  on_agent (with_sessionMsgHdrBuffer hdr) ;;;
  ret hdr.

Definition offerToSession (clusterSessionId : Z) (publication : nat) (msg : bytes) : A Z :=
  let! r := ask role in
  if negb (r =? Leader) then ret ClientSessionMockedOffer
  else
    let! hdr := fill_header clusterSessionId in
    response_Offer publication (hdr ++ msg).

Definition agent_Offer (msg : bytes) : A Z :=
  let! r := ask role in
  if negb (r =? Leader) then ret ClientSessionMockedOffer
  else
    let! hdr := fill_header (i64 (- ServiceId opts)) in
    offer_tries 3 (hdr ++ msg) 0.

Definition closeClientSession (id : Z) : A unit :=
  let! ss := ask sessions in
  match ss !! id with
  | Some _ => closeSessionRequest id
  | None => ret tt
  end.

Definition session_Close (s : session) : A unit :=
  let! ss := ask sessions in
  match ss !! s_id s with
  | Some _ => closeClientSession (s_id s)
  | None => ret tt
  end.

(** The client of the driver answers with a publication or an error. *)
Definition AddPublication : A (nat + string) := fun w =>
  match w_publications w with
  | [] => Exc EFuel w
  | p :: ps => Ret p (with_w_publications ps w)
  end.

Definition newContainerClientSession (id responseStreamId : Z) (responseChannel encodedPrincipal : bytes) : A (session + string) :=
  let! pub := AddPublication in
  match pub with
  | inl p => ret (inl (mkSession id responseStreamId responseChannel encodedPrincipal p))
  | inr err => ret (inr err)
  end.

(** ** The service *)

Definition snapshot_Offer (msg : bytes) : A Z := fun w =>
  match w_snapshot w with
  | None => Ret PublicationClosed w
  | Some q =>
      match script q with
      | [] => Exc EFuel w
      | (_, a) :: rest =>
          Ret (offered_value a)
            (with_w_snapshot (Some (mkRequests rest (match a with Accepted _ => sent q ++ [msg] | Refused _ => sent q end))) w)
      end
  end.

Definition snapshot_Poll : A (option bytes) := fun w =>
  match w_replay w with
  | [] => Ret None w
  | m :: ms => Ret (Some m) (with_w_replay ms w)
  end.

Definition exec (o : cluster_op) : A answer :=
  match o with
  | OpLogPosition => let! z := ask logPosition in ret (AnInt z)
  | OpMemberId => let! z := ask memberId in ret (AnInt z)
  | OpRole => let! z := ask role in ret (AnInt z)
  | OpTime => let! z := ask clusterTime in ret (AnInt z)
  | OpTimeUnit => let! z := ask timeUnit in ret (AnInt z)
  | OpIdle workCount => Idle workCount ;;; ret Nothing
  | OpScheduleTimer correlationId deadline => let! b := scheduleTimer correlationId deadline in ret (ABool b)
  | OpCancelTimer correlationId => let! b := cancelTimer correlationId in ret (ABool b)
  | OpOffer message => let! z := agent_Offer message in ret (AnInt z)
  | OpSessionOffer s message => let! z := offerToSession (s_id s) (s_response s) message in ret (AnInt z)
  | OpSessionClose s => session_Close s ;;; ret Nothing
  | OpSnapshotOffer message => let! z := snapshot_Offer message in ret (AnInt z)
  | OpSnapshotPoll => let! m := snapshot_Poll in ret (AFragment m)
  end.

Fixpoint execute {R} (p : program R) : A R :=
  match p with
  | Done r => ret r
  | Do o k => let! a := exec o in execute (k a)
  end.

Definition call (c : service_call) : A unit :=
  modify (fun w => with_w_calls (w_calls w ++ [c]) w) ;;;
  let! s := look w_state in
  let! s' := execute (service s c) in
  modify (with_w_state s').

(** ** The agent *)

Definition ack (logPosition relevantId : Z) : A unit :=
  let! t := ask clusterTime in
  let! id := getAndIncrementNextAckId in
  serviceAckRequest logPosition t id relevantId (ServiceId opts).

Definition setRole (newRole : Z) : A unit :=
  let! r := ask role in
  when (negb (newRole =? r)) (on_agent (with_role newRole) ;;; call (OnRoleChange newRole)).

Definition terminate : A unit :=
  on_agent (with_isServiceActive false) ;;;
  call OnTerminate ;;;
  let! p := ask logPosition in
  ack p NullValue ;;;
  on_agent (with_terminationPosition NullPosition).

Definition set_position (logPos timestamp : Z) : A unit :=
  on_agent (fun a => with_clusterTime timestamp (with_logPosition logPos a)).

Definition onSessionOpen (leadershipTermId logPos clusterSessionId timestamp responseStreamId : Z) (responseChannel encodedPrincipal : bytes)
  : A (option string) :=
  set_position logPos timestamp ;;;
  let! ss := ask sessions in
  match ss !! clusterSessionId with
  | Some _ => ret (Some "clashing open session"%string)
  | None =>
      let! made := newContainerClientSession clusterSessionId responseStreamId responseChannel encodedPrincipal in
      match made with
      | inr err => ret (Some err)
      | inl s =>
          on_agent (fun a => with_sessions (<[s_id s := s]> (sessions a)) a) ;;;
          call (OnSessionOpen s timestamp) ;;;
          ret None
      end
  end.

Definition onSessionClose (leadershipTermId logPos clusterSessionId timestamp closeReason : Z) : A unit :=
  set_position logPos timestamp ;;;
  let! ss := ask sessions in
  match ss !! clusterSessionId with
  | Some s =>
      on_agent (fun a => with_sessions (delete clusterSessionId (sessions a)) a) ;;;
      call (OnSessionClose s timestamp closeReason)
  | None => ret tt
  end.

(** A session that is not known is nil. *)
Definition onSessionMessage (logPos clusterSessionId timestamp : Z) (message : bytes) : A unit :=
  set_position logPos timestamp ;;;
  let! ss := ask sessions in
  call (OnSessionMessage (ss !! clusterSessionId) timestamp message).

Definition onNewLeadershipTermEvent (leadershipTermId logPos timestamp termBaseLogPosition leaderMemberId logSessionId unit appVersion : Z) : A Datatypes.unit :=
  if negb (SemanticVersionMajor (u32 (AppVersion opts)) =? SemanticVersionMajor (u32 appVersion))
  then panic "incompatible app version"
  else
    on_agent (fun a => with_sessionMsgHdrBuffer (put_int64 8 leadershipTermId (sessionMsgHdrBuffer a)) a) ;;;
    set_position logPos timestamp ;;;
    on_agent (with_timeUnit unit) ;;;
    call (OnNewLeadershipTermEvent leadershipTermId logPos timestamp termBaseLogPosition leaderMemberId logSessionId unit appVersion).

Definition onTimerEvent (logPos correlationId timestamp : Z) : A unit :=
  set_position logPos timestamp ;;;
  call (OnTimerEvent correlationId timestamp).

Definition onMembershipChange (logPos timestamp changeType member : Z) : A unit :=
  set_position logPos timestamp ;;;
  let! m := ask memberId in
  when ((member =? m) && (changeType =? ChangeType.QUIT)) terminate.

Definition shouldSnapshot (flags : Z) (a : agent) : bool :=
  (flags =? clusterActionFlagsDefault) || negb (Z.land flags (standbySnapshotFlags a) =? 0).

(** ** Taking a snapshot *)

Definition NewArchive : A archive_run := fun w =>
  match w_archives w with
  | [] => Exc EFuel w
  | r :: rs => Ret r (with_w_archives rs w)
  end.

Definition taker_offer (bs : bytes) : A Z := fun w =>
  match w_snapshot w with
  | None => Exc (EPanic "nil pointer dereference") w
  | Some q =>
      match offer_loop (Timeout opts) bs (script q) (sent q) 0 with
      | Ret r q' => Ret r (with_w_snapshot (Some q') w)
      | Exc e q' => Exc e (with_w_snapshot (Some q') w)
      end
  end.

Definition taker_packet (marshalled : bytes + string) : A (option string) :=
  match marshalled with
  | inr err => ret (Some err)
  | inl bs =>
      let! result := taker_offer bs in
      if result <? 0 then ret (Some "snapshotTaker.offer failed"%string) else ret None
  end.

Definition markSnapshot (logPos leadershipTermId mark unit appVersion : Z) : A (option string) :=
  taker_packet (SnapshotMarkerPacket (RangeChecking opts) snapshotTypeId logPos leadershipTermId 0 mark unit appVersion).
Definition markBegin (logPos leadershipTermId : Z) := markSnapshot logPos leadershipTermId SnapshotMark.BEGIN.
Definition markEnd (logPos leadershipTermId : Z) := markSnapshot logPos leadershipTermId SnapshotMark.END.

Definition snapshotSession (s : session) : A (option string) :=
  taker_packet (ClientSessionPacket (RangeChecking opts) (s_id s) (s_responseStreamId s) (s_responseChannel s) (s_encodedPrincipal s)).

Fixpoint snapshot_sessions (ss : list session) : A (option string) :=
  match ss with
  | [] => ret None
  | s :: ss =>
      let! err := snapshotSession s in
      match err with Some e => ret (Some e) | None => snapshot_sessions ss end
  end.

(** Times of the clock are in milliseconds, timeouts in nanoseconds. *)
Fixpoint await_recording (fuel : nat) (start sessionId : Z) : A (Z + string) :=
  match fuel with
  | O => raise EFuel
  | S fuel =>
      let! now := look w_now in
      if (now - start) * 1000000 <? Timeout opts then
        let! cs := look w_counters in
        match FindCounter recordingPosCounterTypeId (fun key => key_int32 8 key =? sessionId) 0 cs with
        | Some (_, c) => ret (inl (key_int64 0 (cr_key c)))
        | None => Idle 0 ;;; await_recording fuel start sessionId
        end
      else ret (inr "timed out waiting for recordingId"%string)
  end.

Definition awaitRecordingId (sessionId : Z) : A (Z + string) :=
  let! ticks := look w_ticks in
  let! start := look w_now in
  await_recording (S (length ticks)) start sessionId.

(** The deferred calls run however the body ends; what was recorded stays in the archive. *)
Definition recorded {X} (sessionId : Z) (q : requests) (body : A X) : A X := fun w =>
  let close (w : world) :=
    with_w_snapshot None
      (with_w_recorded (w_recorded w ++ [(sessionId, match w_snapshot w with Some q => sent q | None => [] end)]) w) in
  match body (with_w_snapshot (Some q) w) with
  | Ret x w' => Ret x (close w')
  | Exc e w' => Exc e (close w')
  end.

Definition write_snapshot (logPos leadershipTermId : Z) : A (option string) :=
  let! unit := ask timeUnit in
  let! err := markBegin logPos leadershipTermId unit (AppVersion opts) in
  match err with
  | Some e => ret (Some e)
  | None =>
      let! ss := ask sessions in
      let! err := snapshot_sessions (range_order ss) in
      match err with
      | Some e => ret (Some e)
      | None => markEnd logPos leadershipTermId unit (AppVersion opts)
      end
  end.

Definition takeSnapshot (logPos leadershipTermId : Z) : A (Z + string) :=
  let! arch := NewArchive in
  match ar_connected arch, ar_recording arch with
  | Some err, _ => ret (inr err)
  | None, inr err => ret (inr err)
  | None, inl (sessionId, q) =>
      recorded sessionId q
        (let! rec := awaitRecordingId sessionId in
         match rec with
         | inr err => ret (inr err)
         | inl recordingId =>
             let! err := write_snapshot logPos leadershipTermId in
             match err with
             | Some e => ret (inr e)
             | None =>
                 let! _ := checkForClockTick in
                 call OnTakeSnapshot ;;;
                 ret (inl recordingId)
             end
         end)
  end.

Definition onServiceAction (leadershipTermId logPos timestamp action flags : Z) : A unit :=
  set_position logPos timestamp ;;;
  let! snapshot := ask (shouldSnapshot flags) in
  when ((action =? ClusterAction.SNAPSHOT) && snapshot)
    (let! taken := takeSnapshot logPos leadershipTermId in
     let recordingId := match taken with inl r => r | inr _ => NullValue end in
     let! id := getAndIncrementNextAckId in
     serviceAckRequest logPos timestamp id recordingId (ServiceId opts)).

(** ** Loading a snapshot *)

(** [snapshotLoader] *)
Record loader : Type := mkLoader {
  isDone : bool; inSnapshot : bool; l_appVersion : Z; l_timeUnit : Z; l_err : option string }.

Definition newSnapshotLoader : loader := mkLoader false false 0 0 None.

(** The header in front of a message, when there is one. *)
Definition message_header (msg : bytes) : SbeGoMessageHeader :=
  Sbe.mkHeader (le_combine (take 2 msg)) (le_combine (take 2 (drop 2 msg)))
    (le_combine (take 2 (drop 4 msg))) (le_combine (take 2 (drop 6 msg))).

Definition decoded (A : Type) `{Codec A} (hdr : SbeGoMessageHeader) (body : bytes) (check : bool) : A + string :=
  match Decode (Version hdr) (BlockLength hdr) check (body, zero) with
  | Ret _ (_, a) => inl a
  | Exc (EError e) _ => inr e
  | Exc _ _ => inr "panic"%string
  end.

Definition failed (e : string) (l : loader) : loader := mkLoader true (inSnapshot l) (l_appVersion l) (l_timeUnit l) (Some e).

Definition load_marker (m : SnapshotMarker) (l : loader) : loader :=
  if negb (SnapshotMarker_TypeId m =? snapshotTypeId)
  then mkLoader (isDone l) (inSnapshot l) (l_appVersion l) (l_timeUnit l) (Some "unexpected snapshot type"%string)
  else if SnapshotMarker_Mark m =? SnapshotMark.BEGIN then
    if inSnapshot l then failed "already in snapshot" l
    else mkLoader (isDone l) true (SnapshotMarker_AppVersion m) (SnapshotMarker_TimeUnit m) (l_err l)
  else if SnapshotMarker_Mark m =? SnapshotMark.END then
    if negb (inSnapshot l) then failed "missing begin snapshot" l
    else mkLoader true false (l_appVersion l) (l_timeUnit l) (l_err l)
  else failed "unexpected snapshot mark" l.

Definition loader_onFragment (msg : bytes) (l : loader) : A loader :=
  if zlen msg <? SBEHeaderLength then ret l
  else
    let hdr := message_header msg in
    let body := drop 8 msg in
    if negb (SchemaId hdr =? ClusterSchemaId) then ret l
    else if TemplateId hdr =? snapshotMarkerTemplateId then
      match decoded SnapshotMarker hdr body true with
      | inr err => ret (failed err l)
      | inl marker => ret (load_marker marker l)
      end
    else if TemplateId hdr =? clientSessionTemplateId then
      match decoded ClientSession hdr body true with
      | inr err => ret (failed err l)
      | inl s =>
          let! made := newContainerClientSession (ClientSession_ClusterSessionId s) (ClientSession_ResponseStreamId s)
                         (ClientSession_ResponseChannel s) (ClientSession_EncodedPrincipal s) in
          match made with
          | inl container => on_agent (fun a => with_sessions (<[s_id container := container]> (sessions a)) a) ;;; ret l
          | inr err => ret (failed err l)
          end
      end
    else ret l.

(** One fragment per poll, until the loader is done; an image without fragments is polled on and
    on. *)
Fixpoint load_loop (fragments : list bytes) (l : loader) : A (loader * list bytes) :=
  if isDone l then ret (l, fragments)
  else
    match fragments with
    | [] => raise EFuel
    | msg :: rest => let! l' := loader_onFragment msg l in load_loop rest l'
    end.

Definition loadSnapshot (recordingId : Z) : A (option string) :=
  let! arch := NewArchive in
  match ar_connected arch, ar_replay arch, ar_subscribed arch with
  | Some err, _, _ => ret (Some err)
  | None, inr err, _ => ret (Some err)
  | None, inl replaySessionId, subscribed =>
      match AddSessionIdToChannel (ReplayChannel opts) (ReplaySessionIdToSessionId replaySessionId), subscribed with
      | (_, Some _), _ => ret (Some "invalid channel"%string)
      | (_, None), Some err => ret (Some err)
      | (_, None), None =>
          let! loaded := load_loop (ar_fragments arch) newSnapshotLoader in
          let '(l, rest) := loaded in
          if negb (SemanticVersionMajor (u32 (AppVersion opts)) =? SemanticVersionMajor (u32 (l_appVersion l)))
          then panic "incompatible app version"
          else
            on_agent (with_timeUnit (l_timeUnit l)) ;;;
            modify (with_w_replay rest) ;;;
            call (OnStart true) ;;;
            modify (with_w_replay []) ;;;
            ret None
      end
  end.

(** ** Starting *)

Fixpoint await_commit (fuel : nat) : A unit :=
  match fuel with
  | O => raise EFuel
  | S fuel =>
      let! cs := look w_counters in
      match FindCounter commitPosCounterTypeId (fun key => key_int32 0 key =? ClusterId opts) 0 cs with
      | Some (id, _) => on_agent (with_commitPosition (Some id))
      | None => Idle 0 ;;; await_commit fuel
      end
  end.

Definition awaitCommitPositionCounter : A unit :=
  let! ticks := look w_ticks in await_commit (S (length ticks)).

Fixpoint await_recovery (fuel : nat) : A counter_record :=
  match fuel with
  | O => raise EFuel
  | S fuel =>
      let! cs := look w_counters in
      match FindCounter recoveryStateCounterTypeId (fun key => key_int32 24 key =? ClusterId opts) 0 cs with
      | Some (_, c) => set_position (key_int64 8 (cr_key c)) (key_int64 16 (cr_key c)) ;;; ret c
      | None => Idle 0 ;;; await_recovery fuel
      end
  end.

Definition awaitRecoveryCounter : A counter_record :=
  let! ticks := look w_ticks in await_recovery (S (length ticks)).

(** The longest key of a counter; a part that ends at it is refused. *)
Definition MaxKeyLength : Z := 112.

Definition recoverState : A (option string) :=
  let! c := awaitRecoveryCounter in
  let leadershipTermId := key_int64 0 (cr_key c) in
  on_agent (fun a => with_sessionMsgHdrBuffer (put_int64 8 leadershipTermId (sessionMsgHdrBuffer a)) a) ;;;
  on_agent (with_isServiceActive true) ;;;
  let! err :=
    if leadershipTermId =? -1 then call (OnStart false) ;;; ret None
    else if key_int32 28 (cr_key c) <? 1 then ret (Some "invalid service count"%string)
    else if 32 + ServiceId opts * 8 + 8 >=? MaxKeyLength then ret (Some "key offset"%string)
    else loadSnapshot (key_int64 (Z.to_nat (32 + ServiceId opts * 8)) (cr_key c)) in
  match err with
  | Some e => ret (Some e)
  | None =>
      let! p := ask logPosition in
      ack p ClientID ;;;
      ret None
  end.

Definition agent_OnStart : A (option string) :=
  awaitCommitPositionCounter ;;;
  recoverState.

(** ** Messages of the log *)

(** A read behind the end of the message finds what follows it in the buffer. *)
Definition get_int64 (offset : nat) (body : bytes) : A Z :=
  if (offset + 8 <=? length body)%nat then ret (i64 (le_combine (take 8 (drop offset body)))) else raise EFault.
Definition get_int32 (offset : nat) (body : bytes) : A Z :=
  if (offset + 4 <=? length body)%nat then ret (i32 (le_combine (take 4 (drop offset body)))) else raise EFault.

Definition adapter_onMessage (position : Z) (msg : bytes) : A unit :=
  if zlen msg <? SBEHeaderLength then ret tt
  else
    let hdr := message_header msg in
    let body := drop 8 msg in
    if negb (SchemaId hdr =? ClusterSchemaId) then ret tt
    else if TemplateId hdr =? timerEventTemplateId then
      let! correlationId := get_int64 8 body in
      let! timestamp := get_int64 16 body in
      onTimerEvent position correlationId timestamp
    else if TemplateId hdr =? sessionOpenTemplateId then
      match decoded SessionOpenEvent hdr body (RangeChecking opts) with
      | inr _ => ret tt
      | inl e =>
          let! err := onSessionOpen (SessionOpenEvent_LeadershipTermId e) position (SessionOpenEvent_ClusterSessionId e)
                        (SessionOpenEvent_Timestamp e) (SessionOpenEvent_ResponseStreamId e)
                        (SessionOpenEvent_ResponseChannel e) (SessionOpenEvent_EncodedPrincipal e) in
          match err with Some e => panic ("boundedLogAdapter: session open error: " +:+ e) | None => ret tt end
      end
    else if TemplateId hdr =? sessionCloseTemplateId then
      let! leadershipTermId := get_int64 0 body in
      let! clusterSessionId := get_int64 8 body in
      let! timestamp := get_int64 16 body in
      let! closeReason := get_int32 24 body in
      onSessionClose leadershipTermId position clusterSessionId timestamp closeReason
    else if TemplateId hdr =? clusterActionReqTemplateId then
      match decoded ClusterActionRequest hdr body (RangeChecking opts) with
      | inr _ => ret tt
      | inl e =>
          let flags := if ClusterActionRequest_Flags e =? Sbe.NullValue ClusterActionRequest_Flags_field
                       then clusterActionFlagsDefault else ClusterActionRequest_Flags e in
          onServiceAction (ClusterActionRequest_LeadershipTermId e) (ClusterActionRequest_LogPosition e)
            (ClusterActionRequest_Timestamp e) (ClusterActionRequest_Action e) flags
      end
    else if TemplateId hdr =? newLeadershipTermTemplateId then
      match decoded NewLeadershipTermEvent hdr body (RangeChecking opts) with
      | inr _ => ret tt
      | inl e =>
          onNewLeadershipTermEvent (NewLeadershipTermEvent_LeadershipTermId e) (NewLeadershipTermEvent_LogPosition e)
            (NewLeadershipTermEvent_Timestamp e) (NewLeadershipTermEvent_TermBaseLogPosition e)
            (NewLeadershipTermEvent_LeaderMemberId e) (NewLeadershipTermEvent_LogSessionId e)
            (NewLeadershipTermEvent_TimeUnit e) (NewLeadershipTermEvent_AppVersion e)
      end
    else if TemplateId hdr =? membershipChangeTemplateId then
      match decoded MembershipChangeEvent hdr body (RangeChecking opts) with
      | inr _ => ret tt
      | inl e =>
          onMembershipChange (MembershipChangeEvent_LogPosition e) (MembershipChangeEvent_Timestamp e)
            (MembershipChangeEvent_ChangeType e) (MembershipChangeEvent_MemberId e)
      end
    else if TemplateId hdr =? SessionMessageHeaderTemplateId then
      if zlen body <? SessionMessageHeaderLength then ret tt
      else
        let! clusterSessionId := get_int64 8 body in
        let! timestamp := get_int64 16 body in
        onSessionMessage position clusterSessionId timestamp (drop 24 body)
    else ret tt.

Definition beginFrag : Z := 128.
Definition endFrag : Z := 64.
Definition adapter_unfragmented : Z := Z.lor 128 64.

Definition has_flag (flag : Z) (f : frame) : bool := Z.land (fr_flags f) flag =? flag.

Definition set_builder (b : option bytes) : A unit :=
  on_agent (fun a => with_logAdapter (with_la_builder b (logAdapter a)) a).

Definition adapter_onFragment (position : Z) (f : frame) : A unit :=
  if has_flag adapter_unfragmented f then adapter_onMessage position (fr_data f)
  else if has_flag beginFrag f then set_builder (Some (fr_data f))
  else
    let! b := ask (fun a => la_builder (logAdapter a)) in
    match b with
    | Some (x :: old) =>
        let msg := (x :: old) ++ fr_data f in
        set_builder (Some msg) ;;;
        when (has_flag endFrag f) (adapter_onMessage position msg ;;; set_builder (Some []))
    | _ => ret tt
    end.

(** [BoundedPoll]: how many fragments were handed over, and what was consumed. *)
Fixpoint bounded_loop (handler : Z -> frame -> A unit) (limit fragmentLimit position n : Z) (fs : list frame)
  : A (Z * Z * nat) :=
  match fs with
  | [] => ret (n, position, O)
  | f :: fs' =>
      if (n <? fragmentLimit) && (position <? limit) then
        let next := position + frame_space f in
        let consume n :=
          let! r := bounded_loop handler limit fragmentLimit next n fs' in
          let '(n', p', k) := r in ret (n', p', S k) in
        if is_padding f then consume n else handler next f ;;; consume (n + 1)
      else ret (n, position, O)
  end.

(** What arrived during the poll is behind what was there. *)
Definition image_moved (p : Z) (k : nat) (la : log_adapter) : log_adapter :=
  match la_image la with
  | Some i => with_la_image (Some (mkImage (li_session i) p (drop k (li_frames i)) (li_endOfStream i) (li_closed i))) la
  | None => la
  end.

Definition adapter_poll (i : log_image) (limitPos : Z) : A Z :=
  if li_closed i then ret 0
  else
    let! r := bounded_loop adapter_onFragment limitPos (LogFragmentLimit opts) (li_position i) 0 (li_frames i) in
    let '(n, p, k) := r in
    on_agent (fun a => with_logAdapter (image_moved p k (logAdapter a)) a) ;;;
    ret n.

Definition adapter_isDone (i : log_image) (maxLogPosition : Z) : bool :=
  (li_position i >=? maxLogPosition) || li_endOfStream i || li_closed i.

(** ** Messages of the consensus module *)

Definition onJoinLog (e : log_event) : A unit :=
  on_agent (fun a => with_activeLogEvent (Some e) (with_logAdapter (with_la_maxLogPosition (le_logPosition e) (logAdapter a)) a)).

Definition onServiceTerminationPosition (position : Z) : A unit := on_agent (with_terminationPosition position).
Definition onRequestServiceAck (logPosition : Z) : A unit := on_agent (with_requestedAckPosition logPosition).

Definition service_onFragment (f : frame) : A unit :=
  let msg := fr_data f in
  if zlen msg <? SBEHeaderLength then ret tt
  else
    let hdr := message_header msg in
    let body := drop 8 msg in
    if negb (SchemaId hdr =? ClusterSchemaId) then ret tt
    else if TemplateId hdr =? joinLogTemplateId then
      match decoded JoinLog hdr body true with
      | inr _ => ret tt
      | inl j =>
          onJoinLog (mkLogEvent (JoinLog_LogPosition j) (JoinLog_MaxLogPosition j) (JoinLog_MemberId j) (JoinLog_LogSessionId j)
                       (JoinLog_LogStreamId j) (JoinLog_IsStartup j =? BooleanType.TRUE) (JoinLog_IsStandby j =? BooleanType.TRUE)
                       (JoinLog_Role j) (JoinLog_LogChannel j))
      end
    else if TemplateId hdr =? serviceTerminationPosTemplateId then
      let! logPos := get_int64 0 body in onServiceTerminationPosition logPos
    else if TemplateId hdr =? requestServiceAckTemplateId then
      let! logPos := get_int64 0 body in onRequestServiceAck logPos
    else ret tt.

Fixpoint poll_frames (handler : frame -> A unit) (fragmentLimit n : Z) (fs : list frame) : A (Z * list frame) :=
  match fs with
  | [] => ret (n, [])
  | f :: fs' =>
      if n <? fragmentLimit then
        if is_padding f then poll_frames handler fragmentLimit n fs'
        else handler f ;;; poll_frames handler fragmentLimit (n + 1) fs'
      else ret (n, fs)
  end.

(** The subscription is open; a poll of a closed one would be a panic. *)
Definition service_poll : A Z :=
  let! fs := look w_service in
  let! r := poll_frames service_onFragment 10 0 fs in
  let '(n, rest) := r in
  modify (with_w_service rest) ;;;
  ret n.

(** ** The work of the agent *)

Definition AddSubscription : A (log_image + string) := fun w =>
  match w_subscriptions w with
  | [] => Exc EFuel w
  | s :: ss => Ret s (with_w_subscriptions ss w)
  end.

(** An image with another session is not the one that is waited for. *)
Definition joinActiveLog (event : log_event) : A (option string) :=
  let! sub := AddSubscription in
  match sub with
  | inr err => ret (Some err)
  | inl img =>
      if negb (li_session img =? le_logSessionId event) then raise EFuel
      else
        let! p := ask logPosition in
        if negb (li_position img =? p) then ret (Some "joinActiveLog - image position"%string)
        else if negb (le_logPosition event =? p) then ret (Some "joinActiveLog - event position"%string)
        else
          on_agent (fun a => with_logAdapter (with_la_maxLogPosition (le_maxLogPosition event) (with_la_image (Some img) (logAdapter a))) a) ;;;
          on_agent (with_standbySnapshotFlags (if le_isStandby event then clusterActionFlagsStandbySnapshot else clusterActionFlagsDefault)) ;;;
          ack (le_logPosition event) NullValue ;;;
          on_agent (with_memberId (le_memberId event)) ;;;
          modify (with_w_markedMember (le_memberId event)) ;;;
          setRole (le_role event) ;;;
          ret None
  end.

(** An error of [joinActiveLog] is not looked at. *)
Definition pollServiceAdapter : A unit :=
  let! _ := service_poll in
  let! event := ask activeLogEvent in
  let! la := ask logAdapter in
  match event, la_image la with
  | Some e, None => on_agent (with_activeLogEvent None) ;;; (let! _ := joinActiveLog e in ret tt)
  | _, _ => ret tt
  end ;;;
  let! p := ask logPosition in
  let! t := ask terminationPosition in
  when (negb (t =? NullPosition) && (p >=? t)) terminate ;;;
  let! p := ask logPosition in
  let! r := ask requestedAckPosition in
  when (negb (r =? NullPosition) && (p >=? r))
    (ack p NullValue ;;; on_agent (with_requestedAckPosition NullPosition)).

Definition adapter_Close : A unit :=
  on_agent (fun a => with_logAdapter (with_la_image None (logAdapter a)) a).

Definition closeLog (i : log_image) : A unit :=
  on_agent (fun a => if li_position i >? logPosition a then with_logPosition (li_position i) a else a) ;;;
  adapter_Close ;;;
  setRole Follower.

Definition DoWork : A Z :=
  let! ticked := checkForClockTick in
  when ticked pollServiceAdapter ;;;
  let! la := ask logAdapter in
  match la_image la with
  | None => ret 0
  | Some i =>
      let! commit := ask commitPosition in
      match commit with
      | None => panic "nil pointer dereference"
      | Some id =>
          let! cs := look w_counters in
          let! polled := adapter_poll i (counter_value id cs) in
          let! la := ask logAdapter in
          match la_image la with
          | Some i => when ((polled =? 0) && adapter_isDone i (la_maxLogPosition la)) (closeLog i)
          | None => panic "nil pointer dereference"
          end ;;;
          ret polled
      end
  end.

(** A round of work takes a tick. *)
Fixpoint run_loop (fuel : nat) : A unit :=
  match fuel with
  | O => raise EFuel
  | S fuel =>
      let! active := ask isServiceActive in
      if active then (let! _ := DoWork in run_loop fuel) else ret tt
  end.

Definition StartAndRun : A (option string) :=
  let! err := agent_OnStart in
  match err with
  | Some e => ret (Some e)
  | None => let! ticks := look w_ticks in run_loop (S (length ticks)) ;;; ret None
  end.

(** The streams, the client of the driver and the mark file are closed as well. *)
Definition agent_Close : A unit :=
  on_agent (with_isServiceActive false) ;;;
  adapter_Close.
End Service.

(** [NewClusteredServiceAgent]: the checks of the options, and the agent that is made of them
    when the client of the driver, the streams and the mark file are there. *)
Definition new_agent : agent :=
  mkAgent NullPosition 0 0 0 0 NullPosition NullPosition clusterActionFlagsDefault false Follower ∅ None
    (MakeClusterMessageBuffer SessionMessageHeaderTemplateId SessionMessageHdrBlockLength) 0 0 None (mkAdapter None None 0).

Definition NewClusteredServiceAgent (requestChannel responseChannel : string) (serviceId : Z) (resources : option string)
  : agent + string :=
  if negb (HasPrefix requestChannel "aeron:ipc") then inr "archive request channel must be IPC"%string
  else if negb (HasPrefix responseChannel "aeron:ipc") then inr "archive response channel must be IPC"%string
  else if (serviceId <? 0) || (serviceId >? 127) then inr "serviceId is outside allowed range (0-127)"%string
  else match resources with
       | Some err => inr err
       | None => inl new_agent
       end.
