(* ===== verification/ClusterSnapshot.v ===== *)
(** * Snapshots of the sessions

    What a snapshot taker writes, a loader reads back: the sessions of the service, the version
    of the application and the unit of time. *)

From S2P Require Import Prelude Sbe SbePacket Bits Publication.
From S2P Require Import Memory Flyweight LogBuffer TermSpec Reader ChannelUri ArchiveProxy Archive.
From S2P Require Import ClusterCodecs ClusterPackets ClusterService.

Local Open Scope m_scope.

Local Abbreviation bytes := (list Init.Byte.byte).

(** ** Messages as the handlers of the cluster read them *)

Lemma le2 v : 0 <= v < 65536 -> le_combine (le_split 2 v) = v.
Proof. intros. rewrite le_combine_split. by apply Z.mod_small. Qed.

Lemma int64_read z : is_i64 z -> i64 (le_combine (le_split 8 z)) = z.
Proof. intros Hz. rewrite le_combine_split. change (2 ^ (Z.of_nat 8 * 8)) with 18446744073709551616. rewrite i64_mod. by apply i64_small. Qed.
Lemma int32_read z : is_i32 z -> i32 (le_combine (le_split 4 z)) = z.
Proof. intros Hz. rewrite le_combine_split. change (2 ^ (Z.of_nat 4 * 8)) with 4294967296. rewrite i32_mod. by apply i32_small. Qed.

Lemma message_header_encoded h bs rest :
  0 <= BlockLength h < 65536 -> 0 <= TemplateId h < 65536 -> 0 <= SchemaId h < 65536 -> 0 <= Version h < 65536 ->
  MessageHeader_Encode h [] = Ret tt bs -> message_header (bs ++ rest) = h /\ drop 8 (bs ++ rest) = rest /\ length bs = 8%nat.
Proof.
  destruct h as [b t s v]. cbn [BlockLength TemplateId SchemaId Version]. intros ???? Henc.
  assert (bs = le_split 2 b ++ le_split 2 t ++ le_split 2 s ++ le_split 2 v) as ->.
  { unfold MessageHeader_Encode, WriteUint16, write, bind in Henc. cbn [BlockLength TemplateId SchemaId Version] in Henc.
    injection Henc as <-. reflexivity. }
  split; [|split; [reflexivity|by rewrite !length_app, !length_le_split]].
  change (Sbe.mkHeader (le_combine (le_split 2 b)) (le_combine (le_split 2 t)) (le_combine (le_split 2 s)) (le_combine (le_split 2 v))
          = Sbe.mkHeader b t s v).
  by rewrite !le2.
Qed.

(** What a packet consists of. *)
Lemma packet_inv {A} `{CodecLaws A} (a : A) check bs :
  header_fits A -> packet a check = inl bs ->
  message_header bs = header_of A /\ drop 8 bs = fixed_part a ++ data_part a /\ (8 <= length bs)%nat /\
  (check = true -> RangeCheck a (SbeSchemaVersion (A := A)) (SbeSchemaVersion (A := A)) = None).
Proof.
  intros (Hb & Ht & Hs & Hv) Hp. destruct (header_roundtrip (header_of A) [] Hb Ht Hs Hv) as (hb & Henc & _ & _).
  unfold packet in Hp. erewrite bind_Ret in Hp by exact Henc.
  assert (Hrc : check = true -> RangeCheck a (SbeSchemaVersion (A := A)) (SbeSchemaVersion (A := A)) = None).
  { intros ->. destruct (RangeCheck a _ _) as [e|] eqn:E; [|done]. rewrite (encode_refused _ e) in Hp by done. discriminate. }
  rewrite encode_ok in Hp by done. injection Hp as <-.
  destruct (message_header_encoded (header_of A) hb (fixed_part a ++ data_part a) Hb Ht Hs Hv Henc) as (Hh & Hd & Hl).
  split_and!; [done..| |done]. rewrite length_app. lia.
Qed.

(** A message of the cluster, as a handler gets it. *)
Lemma packet_message {A} `{CodecLaws A} (a : A) check bs :
  header_fits A -> valid a -> packet a check = inl bs ->
  (zlen bs <? SBEHeaderLength) = false /\ message_header bs = header_of A /\
  (RangeCheck a (SbeSchemaVersion (A := A)) (SbeSchemaVersion (A := A)) = None ->
   forall check', decoded A (message_header bs) (drop 8 bs) check' = inl a) /\
  (check = true -> RangeCheck a (SbeSchemaVersion (A := A)) (SbeSchemaVersion (A := A)) = None).
Proof.
  intros Hfits Hvalid Hp. destruct (packet_inv a check bs Hfits Hp) as (Hh & Hd & Hl & Hrc).
  split_and!; [| exact Hh | | exact Hrc].
  - apply Z.ltb_ge. unfold SBEHeaderLength, zlen. lia.
  - intros Hr check'. rewrite Hh, Hd. unfold decoded. cbn [header_of Version BlockLength].
    pose proof (decode_ok a (SbeSchemaVersion (A := A)) (SbeBlockLength (A := A)) [] check' [] Hvalid
      (or_introl (conj eq_refl eq_refl)) (fun _ => Hr)) as Hdec.
    cbn [app] in Hdec. rewrite app_nil_r in Hdec. by rewrite Hdec.
Qed.

(** ** Writing *)

Section Snapshots.
Context {Svc : Type} (opts : Options) (range_order : gmap Z session -> list session).
Local Abbreviation world := (@ClusterService.world Svc).

(** A round of an offer in time. *)
Definition in_time (r : Z * offered) : Prop := r.1 < Timeout opts /\ offered_ok r.2.

Lemma offer_loop_sends bs rounds : forall log result r q',
  Forall in_time rounds -> offer_loop (Timeout opts) bs rounds log result = Ret r q' -> 0 <= r ->
  (rounds = [] -> False) -> sent q' = log ++ [bs] /\ Forall in_time (script q').
Proof.
  induction rounds as [|[since a] rounds IH]; intros log result r q' Hin Hrun Hr Hne; [done|].
  apply Forall_cons in Hin as [[Hs Ha] Hin]. cbn [offer_loop] in Hrun. cbn [fst snd] in Hs, Ha.
  rewrite (proj2 (Z.ltb_lt _ _) Hs) in Hrun. destruct a as [p|s]; cbn [offered_value offered_ok] in *.
  - replace ((p =? NotConnected) || (p =? BackPressured) || (p =? AdminAction)) with false in Hrun
      by (unfold NotConnected, BackPressured, AdminAction; lia).
    injection Hrun as <- <-. done.
  - destruct (_ || _); [|injection Hrun as <- <-; lia]. destruct rounds as [|x rounds]; [discriminate|].
    by eapply IH.
Qed.

Lemma taker_packet_sends m (w w' : world) q :
  w_snapshot w = Some q -> Forall in_time (script q) -> taker_packet opts m w = Ret None w' ->
  exists bs q', m = inl bs /\ w' = with_w_snapshot (Some q') w /\ sent q' = sent q ++ [bs] /\ Forall in_time (script q').
Proof using Type.
  intros Hq Hin Hrun. destruct m as [bs|e]; [|discriminate]. exists bs. unfold taker_packet, bind, taker_offer in Hrun. rewrite Hq in Hrun.
  destruct (offer_loop (Timeout opts) bs (script q) (sent q) 0) as [r q'|e q'] eqn:Hl; [|discriminate].
  destruct (Z.ltb_spec r 0); [discriminate|]. injection Hrun as <-. exists q'.
  destruct (offer_loop_sends _ _ _ _ _ _ Hin Hl) as [Hs Hi]; [done| |done]. intros Hnil. rewrite Hnil in Hl. discriminate.
Qed.

(** The message of a session. *)
Definition session_message (s : session) : ClientSession :=
  mkClientSession (s_id s) (s_responseStreamId s) (s_responseChannel s) (s_encodedPrincipal s).

Definition marker (logPos leadershipTermId mark unit appVersion : Z) : SnapshotMarker :=
  mkSnapshotMarker snapshotTypeId logPos leadershipTermId 0 mark unit appVersion.

Lemma snapshot_sessions_sends ss : forall (w w' : world) q,
  w_snapshot w = Some q -> Forall in_time (script q) -> snapshot_sessions opts ss w = Ret None w' ->
  exists msgs q', w' = with_w_snapshot (Some q') w /\ sent q' = sent q ++ msgs /\ Forall in_time (script q') /\
    Forall2 (fun s bs => packet (session_message s) (RangeChecking opts) = inl bs) ss msgs.
Proof using Type.
  induction ss as [|s ss IH]; intros w w' q Hq Hin Hrun; cbn [snapshot_sessions] in Hrun.
  { injection Hrun as <-. exists [], q. rewrite app_nil_r. split_and!; [by destruct w; cbn in *; subst|done..]. }
  unfold bind in Hrun. destruct (snapshotSession opts s w) as [[e|] w1|e w1] eqn:Hs; try discriminate.
  apply (taker_packet_sends _ _ _ q) in Hs as (bs & q1 & Hbs & -> & Hsent & Hin1); [|done..].
  apply (IH _ _ q1) in Hrun as (msgs & q' & -> & Hsent' & Hin' & Hmsgs); [|done..].
  exists (bs :: msgs), q'. split_and!; [done| |done|by constructor]. by rewrite Hsent', Hsent, <- app_assoc.
Qed.

Lemma write_snapshot_sends logPos leadershipTermId (w w' : world) q :
  w_snapshot w = Some q -> Forall in_time (script q) -> write_snapshot opts range_order logPos leadershipTermId w = Ret None w' ->
  exists q' first msgs last, w' = with_w_snapshot (Some q') w /\ sent q' = sent q ++ first :: msgs ++ [last] /\
    let unit := timeUnit (w_agent w) in
    packet (marker logPos leadershipTermId SnapshotMark.BEGIN unit (AppVersion opts)) (RangeChecking opts) = inl first /\
    packet (marker logPos leadershipTermId SnapshotMark.END unit (AppVersion opts)) (RangeChecking opts) = inl last /\
    Forall2 (fun s bs => packet (session_message s) (RangeChecking opts) = inl bs) (range_order (sessions (w_agent w))) msgs.
Proof using Type.
  intros Hq Hin Hrun. unfold write_snapshot, bind, ask in Hrun.
  destruct (markBegin opts logPos leadershipTermId (timeUnit (w_agent w)) (AppVersion opts) w) as [[e|] w1|e w1] eqn:Hb; try discriminate.
  apply (taker_packet_sends _ _ _ q) in Hb as (first & q1 & Hfirst & -> & Hsent1 & Hin1); [|done..].
  destruct (snapshot_sessions opts (range_order _) (with_w_snapshot (Some q1) w)) as [[e|] w2|e w2] eqn:Hs; try discriminate.
  apply (snapshot_sessions_sends _ _ _ q1) in Hs as (msgs & q2 & -> & Hsent2 & Hin2 & Hmsgs); [|done..].
  apply (taker_packet_sends _ _ _ q2) in Hrun as (last & q3 & Hlast & -> & Hsent3 & Hin3); [|done..].
  exists q3, first, msgs, last. split_and!; [done| |done..].
  rewrite Hsent3, Hsent2, Hsent1, <- !app_assoc. done.
Qed.

(** ** Loading *)

(** A session with another response publication, and without one. *)
Definition responding (p : nat) (s : session) : session :=
  mkSession (s_id s) (s_responseStreamId s) (s_responseChannel s) (s_encodedPrincipal s) p.
Definition bare (s : session) : session := responding 0 s.

Definition add_session (s : session) (w : world) : world :=
  with_w_agent (with_sessions (<[s_id s := s]> (sessions (w_agent w))) (w_agent w)) w.

Lemma ClientSession_fits : header_fits ClientSession.
Proof using Type. by vm_compute. Qed.
Lemma SnapshotMarker_fits : header_fits SnapshotMarker.
Proof using Type. by vm_compute. Qed.

Lemma load_session s bs p ps l (w : world) :
  valid (session_message s) -> packet (session_message s) true = inl bs -> w_publications w = inl p :: ps ->
  loader_onFragment bs l w = Ret l (add_session (responding p s) (with_w_publications ps w)).
Proof using Type.
  intros Hvalid Hp Hpubs. destruct (packet_message _ _ _ ClientSession_fits Hvalid Hp) as (Hlen & Hh & Hdec & Hrc).
  unfold loader_onFragment. rewrite Hlen, Hdec, Hh by (by apply Hrc). cbn [header_of SchemaId TemplateId].
  unfold bind, newContainerClientSession, AddPublication, bind, ret, on_agent. cbn. rewrite Hpubs. reflexivity.
Qed.

Lemma load_sessions ss : forall msgs ps more l rest (w : world),
  Forall (fun s => valid (session_message s)) ss -> isDone l = false ->
  Forall2 (fun s bs => packet (session_message s) true = inl bs) ss msgs ->
  w_publications w = (inl <$> ps) ++ more -> length ps = length ss ->
  load_loop (msgs ++ rest) l w
  = load_loop rest l (foldl (fun w ps => add_session (responding ps.1 ps.2) w) (with_w_publications more w) (zip ps ss)).
Proof using Type.
  induction ss as [|s ss IH]; intros msgs ps more l rest w Hvalid Hl Hmsgs Hpubs Hlen.
  { apply Forall2_nil_inv_l in Hmsgs as ->. destruct ps; [|done]. cbn in *. rewrite <- Hpubs. by destruct w. }
  destruct ps as [|p ps]; [done|]. apply Forall2_cons_inv_l in Hmsgs as (bs & msgs' & Hbs & Hmsgs & ->).
  apply Forall_cons in Hvalid as [Hs Hvalid]. cbn [app load_loop fmap list_fmap zip zip_with foldl fst snd] in *.
  rewrite Hl. erewrite bind_Ret by (eapply load_session; [done|exact Hbs|exact Hpubs]).
  rewrite (IH _ ps more); [done|done|done|done|done|by injection Hlen].
Qed.

(** Restoring sessions gives them new response publications and leaves them alone otherwise. *)
Lemma restored_sessions pss : forall (w : world),
  NoDup (s_id <$> pss.*2) ->
  forall id, sessions (w_agent (foldl (fun w ps => add_session (responding ps.1 ps.2) w) w pss)) !! id =
    match list_find (fun ps => s_id ps.2 = id) pss with
    | Some (_, ps) => Some (responding ps.1 ps.2)
    | None => sessions (w_agent w) !! id
    end.
Proof using Type.
  induction pss as [|[p s] pss IH]; intros w Hnd id; [done|]. cbn [foldl list_find fst snd fmap list_fmap] in *.
  apply NoDup_cons in Hnd as [Hnotin Hnd]. rewrite IH by done. destruct (decide (s_id s = id)) as [<-|Hid].
  - destruct (list_find (fun ps => s_id ps.2 = s_id s) pss) as [[i [p' s']]|] eqn:E; cbn.
    + apply list_find_Some in E as (Hi & Hs' & _). destruct Hnotin. apply list_elem_of_fmap. exists s'. split; [by cbn in Hs'|].
      apply list_elem_of_fmap. exists (p', s'). split; [done|]. by eapply list_elem_of_lookup_2.
    + by rewrite lookup_insert_eq.
  - destruct (list_find (fun ps => s_id ps.2 = id) pss) as [[i [p' s']]|] eqn:E; cbn; [done|].
    by rewrite lookup_insert_ne.
Qed.

Lemma load_marker_message logPos leadershipTermId mark unit appVersion bs l (w : world) :
  valid (marker logPos leadershipTermId mark unit appVersion) ->
  packet (marker logPos leadershipTermId mark unit appVersion) true = inl bs ->
  loader_onFragment bs l w = Ret (load_marker (marker logPos leadershipTermId mark unit appVersion) l) w.
Proof using Type.
  intros Hvalid Hp. destruct (packet_message _ _ _ SnapshotMarker_fits Hvalid Hp) as (Hlen & Hh & Hdec & Hrc).
  unfold loader_onFragment. rewrite Hlen, Hdec, Hh by (by apply Hrc). reflexivity.
Qed.

(** What the map of the sessions has to be: every session under its id. *)
Definition sessions_ok (ss : gmap Z session) : Prop := map_Forall (fun id s => s_id s = id /\ valid (session_message s)) ss.

Lemma restored_bare ps order (ss : gmap Z session) (w : world) :
  sessions_ok ss -> order ≡ₚ (map_to_list ss).*2 -> length ps = length order -> sessions (w_agent w) = ∅ ->
  bare <$> sessions (w_agent (foldl (fun w ps => add_session (responding ps.1 ps.2) w) w (zip ps order))) = bare <$> ss.
Proof using Type.
  intros Hok Hperm Hlen Hempty.
  assert (Hmem : forall s, s ∈ order <-> ss !! s_id s = Some s).
  { intros s. rewrite Hperm, list_elem_of_fmap. split.
    - intros ([id s'] & -> & Hin). apply elem_of_map_to_list in Hin. cbn. by destruct (Hok _ _ Hin) as [-> _].
    - intros Hs. exists (s_id s, s). split; [done|]. by apply elem_of_map_to_list. }
  assert (Hids : s_id <$> order ≡ₚ (map_to_list ss).*1).
  { rewrite Hperm, <- list_fmap_compose. erewrite list_fmap_ext; [reflexivity|]. intros i [id s] Hi. cbn.
    apply list_elem_of_lookup_2, elem_of_map_to_list in Hi. by destruct (Hok _ _ Hi). }
  apply map_eq. intros id. rewrite !lookup_fmap, restored_sessions.
  2:{ rewrite snd_zip by lia. rewrite Hids. apply NoDup_fst_map_to_list. }
  rewrite Hempty, lookup_empty. destruct (list_find _ _) as [[i [p s]]|] eqn:E.
  - apply list_find_Some in E as (Hi & Hs & _). cbn in Hs. subst id.
    assert (s ∈ order) as Hin by (eapply list_elem_of_lookup_2; eapply lookup_zip_with_Some in Hi as (? & ? & [= <- <-] & _ & Ho); exact Ho).
    apply Hmem in Hin. by rewrite Hin.
  - destruct (ss !! id) as [s|] eqn:Hs; [|done]. exfalso. destruct (Hok _ _ Hs) as [Hid _]. rewrite <- Hid in Hs.
    apply Hmem in Hs. apply list_elem_of_lookup in Hs as [i Hi].
    destruct (lookup_lt_is_Some_2 ps i) as [p Hp]; [apply lookup_lt_Some in Hi; lia|].
    apply list_find_None in E. rewrite Forall_lookup in E. apply (E i (p, s)); [|done].
    apply lookup_zip_with_Some. by eexists _, _.
Qed.

Lemma range_order_length order (ss : gmap Z session) : order ≡ₚ (map_to_list ss).*2 -> length order = size ss.
Proof using Type. intros ->. by rewrite length_fmap, length_map_to_list. Qed.
End Snapshots.

(** A message whose bytes are as many as a fragment takes is a fragment. *)
Lemma fragments_whole n msgs :
  Forall (fun bs : bytes => (length bs <= n)%nat) msgs -> Forall (fun bs : bytes => bs <> []) msgs ->
  snd <$> mjoin (fragments n <$> msgs) = msgs.
Proof.
  intros Hfit Hne. induction msgs as [|bs msgs IH]; [done|]. apply Forall_cons in Hfit as [Hb Hfit]. apply Forall_cons in Hne as [Hn Hne].
  destruct bs as [|x bs]; [done|]. unfold fragments. cbn [fmap list_fmap mjoin list_join length fragments_from].
  rewrite (proj2 (Nat.leb_le _ _)) by done. rewrite take_ge, drop_ge by done. specialize (IH Hfit Hne).
  destruct (length bs); cbn; f_equal; exact IH.
Qed.

Lemma packet_nonempty {A} `{CodecLaws A} (a : A) check bs : packet a check = inl bs -> header_fits A -> bs <> [].
Proof. intros Hp Hf ->. apply packet_inv in Hp as (_ & _ & Hl & _); [simpl in Hl; lia|done]. Qed.

(** C4. A snapshot that is written without an error is read back, when its messages are marshalled
    with the range check, no offer of one is given up because the time is over, and the recording
    has each message in one fragment, as it does when no session is longer than the payload of a
    frame: whatever is behind the snapshot in the recording, the loader, which gets a fragment at
    a time, stops at its end without an error, knows the version of the application and the unit
    of time, and the sessions are those of the snapshot, with their ids, streams, channels and
    principals, and with response publications of their own. *)
Theorem snapshot_restores {Svc} opts range_order logPos leadershipTermId (w w' : world (Svc := Svc)) q :
  RangeChecking opts = true -> (forall m, range_order m ≡ₚ (map_to_list m).*2) ->
  w_snapshot w = Some q -> Forall (in_time opts) (script q) -> sessions_ok (sessions (w_agent w)) ->
  is_i64 logPos -> is_i64 leadershipTermId -> is_i32 (timeUnit (w_agent w)) -> is_i32 (AppVersion opts) ->
  write_snapshot opts range_order logPos leadershipTermId w = Ret None w' ->
  exists q' msgs, w' = with_w_snapshot (Some q') w /\ sent q' = sent q ++ msgs /\
    forall n (w2 : world (Svc := Svc)) ps more rest,
      Forall (fun bs => (length bs <= n)%nat) msgs ->
      w_publications w2 = (inl <$> ps) ++ more -> length ps = size (sessions (w_agent w)) -> sessions (w_agent w2) = ∅ ->
      exists w3, load_loop ((snd <$> mjoin (fragments n <$> msgs)) ++ rest) newSnapshotLoader w2
                 = Ret (mkLoader true false (AppVersion opts) (timeUnit (w_agent w)) None, rest) w3 /\
        bare <$> sessions (w_agent w3) = bare <$> sessions (w_agent w).
Proof.
  intros Hrc Horder Hq Hin Hok Hlp Hterm Hunit Happ Hrun.
  destruct (write_snapshot_sends _ _ _ _ _ _ _ Hq Hin Hrun) as (q' & first & msgs & last & -> & Hsent & Hfirst & Hlast & Hmsgs).
  exists q', (first :: msgs ++ [last]). split_and!; [done..|]. intros n w2 ps more rest Hfit Hpubs Hps Hempty.
  rewrite fragments_whole; [|exact Hfit|].
  2: { constructor; [exact (packet_nonempty _ _ _ Hfirst SnapshotMarker_fits)|]. apply Forall_app. split.
       - clear -Hmsgs. induction Hmsgs as [|s bs ? ? Hp]; constructor; [exact (packet_nonempty _ _ _ Hp ClientSession_fits)|done].
       - constructor; [exact (packet_nonempty _ _ _ Hlast SnapshotMarker_fits)|constructor]. }
  rewrite Hrc in *.
  assert (Hv : forall mark, is_i32 mark -> valid (marker logPos leadershipTermId mark (timeUnit (w_agent w)) (AppVersion opts)))
    by (intros; cbn; split_and!; done).
  eexists. split; [|eapply (restored_bare ps (range_order (sessions (w_agent w))) _ (with_w_publications more w2)); [done|apply Horder| |exact Hempty]].
  - cbn [app load_loop newSnapshotLoader isDone]. erewrite bind_Ret by (eapply load_marker_message; [|exact Hfirst]; by apply Hv).
    change (load_marker _ newSnapshotLoader) with (mkLoader false true (AppVersion opts) (timeUnit (w_agent w)) None).
    rewrite <- app_assoc. erewrite load_sessions; [|..|exact Hmsgs|exact Hpubs|].
    + cbn [app load_loop isDone]. erewrite bind_Ret by (eapply load_marker_message; [|exact Hlast]; by apply Hv). by destruct rest.
    + apply Forall_forall. intros s Hs. rewrite Horder in Hs. apply list_elem_of_fmap in Hs as ([id s'] & -> & Hin').
      apply elem_of_map_to_list in Hin'. by destruct (Hok _ _ Hin').
    + done.
    + rewrite Hps. symmetry. apply range_order_length, Horder.
  - rewrite Hps. symmetry. apply range_order_length, Horder.
Qed.

Lemma bind_Ret' {S A B} (c : M S A) (k : A -> M S B) s a s' r : c s = Ret a s' -> k a s' = r -> bind c k s = r.
Proof. intros Hc <-. by apply bind_Ret. Qed.

(** An error of the loader is lost: when a session of a snapshot gets no response publication
    the loader stops with an error, and the service is started all the same, without that
    session and those behind it, as if the snapshot had been loaded. *)
Theorem load_errors_ignored {Svc} (service : Svc -> service_call -> program Svc) opts recordingId (w : world) arch archs replayId first msg rest s logPos leadershipTermId unit err pubs :
  w_archives w = arch :: archs -> ar_connected arch = None -> ar_replay arch = inl replayId -> ar_subscribed arch = None ->
  snd (AddSessionIdToChannel (ReplayChannel opts) (ReplaySessionIdToSessionId replayId)) = None ->
  valid (marker logPos leadershipTermId SnapshotMark.BEGIN unit (AppVersion opts)) ->
  packet (marker logPos leadershipTermId SnapshotMark.BEGIN unit (AppVersion opts)) true = inl first ->
  valid (session_message s) -> packet (session_message s) true = inl msg ->
  ar_fragments arch = first :: msg :: rest -> w_publications w = inr err :: pubs ->
  exists w1, w_agent w1 = with_timeUnit unit (w_agent w) /\ w_replay w1 = rest /\
    loadSnapshot service opts recordingId w = (call service opts (OnStart true) ;;; modify (with_w_replay []) ;;; ret None) w1.
Proof.
  intros Ha Hc Hr Hs Huri Hv1 Hp1 Hv2 Hp2 Hf Hpubs.
  exists (with_w_replay rest (with_w_agent (with_timeUnit unit (w_agent w)) (with_w_publications pubs (with_w_archives archs w)))).
  split_and!; [done..|]. unfold loadSnapshot. unfold bind at 1, NewArchive. rewrite Ha, Hc, Hr, Hs.
  destruct (AddSessionIdToChannel _ _) as [ch pe]. cbn [snd] in Huri. subst pe. rewrite Hf.
  assert (Hload : load_loop (first :: msg :: rest) newSnapshotLoader (with_w_archives archs w)
    = Ret (mkLoader true true (AppVersion opts) unit (Some err), rest) (with_w_publications pubs (with_w_archives archs w))).
  { cbn [load_loop newSnapshotLoader isDone]. erewrite bind_Ret by (eapply load_marker_message; [exact Hv1|exact Hp1]).
    change (load_marker _ newSnapshotLoader) with (mkLoader false true (AppVersion opts) unit None). cbn [isDone].
    destruct (packet_message _ _ _ ClientSession_fits Hv2 Hp2) as (Hlen & Hh & Hdec & Hrc).
    apply (bind_Ret' _ _ _ (mkLoader true true (AppVersion opts) unit (Some err)) (with_w_publications pubs (with_w_archives archs w)));
      [|by destruct rest]. unfold loader_onFragment. rewrite Hlen, Hdec, Hh by (by apply Hrc). cbn [header_of SchemaId TemplateId].
    unfold bind, newContainerClientSession, AddPublication, bind. cbn. rewrite Hpubs. reflexivity. }
  erewrite bind_Ret by exact Hload. cbn [l_appVersion l_timeUnit]. rewrite Z.eqb_refl. reflexivity.
Qed.

(** C34. The loader has no assembler: of a session whose message does not fit one fragment, the first
    fragment that is long enough for a header is an error, and the loader stops. *)
Theorem large_session_not_loaded {Svc} s bs n (w : world (Svc := Svc)) l :
  valid (session_message s) -> packet (session_message s) true = inl bs -> (8 <= n < length bs)%nat ->
  exists e, loader_onFragment (take n bs) l w = Ret (failed e l) w.
Proof.
  intros Hv Hp Hn. destruct (packet_inv (session_message s) true bs ClientSession_fits Hp) as (Hh & Hd & _ & _).
  assert (message_header (take n bs) = header_of ClientSession) as Hh'.
  { rewrite <- Hh. unfold message_header. rewrite !skipn_firstn_comm, !take_take. repeat f_equal; lia. }
  assert (fixed_part (session_message s) ++ data_part (session_message s) = drop 8 (take n bs) ++ drop n bs) as Hsplit.
  { rewrite <- Hd, <- (take_drop n bs) at 1. apply drop_app_le. rewrite length_take. lia. }
  destruct (decode_short (session_message s) (SbeBlockLength (A := ClientSession)) true _ _ Hv Hsplit) as (e & st & He).
  { intros E. apply (f_equal length) in E. rewrite length_drop in E. simpl in E. lia. }
  exists e. unfold loader_onFragment. cbv zeta. rewrite Hh'.
  rewrite (proj2 (Z.ltb_ge _ _)) by (unfold SBEHeaderLength, zlen; rewrite length_take; lia).
  assert (decoded ClientSession (header_of ClientSession) (drop 8 (take n bs)) true = inr e) as Hdec.
  { exact (f_equal (fun o => match o with Ret _ (_, a) => inl a | Exc (EError e) _ => inr e | Exc _ _ => inr "panic"%string end) He). }
  rewrite Hdec. reflexivity.
Qed.
