(* ===== verification/ClusterInv.v ===== *)
(** * What the container of a service keeps

    Invariants of the agent over everything it does, whatever the service does: the
    acknowledgements to the consensus module are numbered without a gap, and a member that is
    not the leader sends nothing to the clients and nothing into the log. *)

From S2P Require Import Prelude Sbe SbePacket Bits Publication.
From S2P Require Import Memory Flyweight LogBuffer TermSpec Reader ChannelUri ArchiveProxy Archive.
From S2P Require Import ClusterCodecs ClusterPackets ClusterService ClusterSnapshot Keeps.

Local Open Scope m_scope.

Local Abbreviation bytes := (list Init.Byte.byte).

Lemma i64_i64 z : i64 (i64 z) = i64 z.
Proof. apply i64_small, i64_range. Qed.

Lemma i64_add_l x y : i64 (i64 x + y) = i64 (x + y).
Proof.
  unfold i64. replace ((x + 9223372036854775808) mod 18446744073709551616 - 9223372036854775808 + y + 9223372036854775808)
    with ((x + 9223372036854775808) mod 18446744073709551616 + y) by lia.
  rewrite Zplus_mod_idemp_l. do 2 f_equal. lia.
Qed.

Section Keeps.
Context {Svc : Type} (service : Svc -> service_call -> program Svc) (opts : Options).
Context (ClientID : Z) (range_order : gmap Z session -> list session).
Local Abbreviation world := (@ClusterService.world Svc).
Local Abbreviation A := (@ClusterService.A Svc).

Section AgentRules.
Context (P : world -> Prop).

Lemma keeps_ask {X} (f : agent -> X) : keeps P (ask f).
Proof using Type. intros w Hw. exact Hw. Qed.
Lemma keeps_look {X} (f : world -> X) : keeps P (look f).
Proof using Type. intros w Hw. exact Hw. Qed.
Lemma keeps_modify (f : world -> world) : (forall w, P w -> P (f w)) -> keeps P (modify f).
Proof using Type. intros Hf w Hw. by apply Hf. Qed.
Lemma keeps_on_agent (f : agent -> agent) : (forall w, P w -> P (with_w_agent (f (w_agent w)) w)) -> keeps P (on_agent f).
Proof using Type. intros Hf w Hw. by apply Hf. Qed.
End AgentRules.

(** ** The acknowledgements *)

(** An acknowledgement among the messages to the consensus module, and its number. *)
Definition is_ack (bs : bytes) : bool := TemplateId (message_header bs) =? SbeTemplateId (A := ServiceAck).
Definition ack_id (bs : bytes) : Z := i64 (le_combine (take 8 (drop 24 bs))).
Definition ack_ids (msgs : list bytes) : list Z := ack_id <$> List.filter is_ack msgs.

(** The buffer of the header of session messages starts as it was made. *)
Definition hdr_ok (hdr : bytes) : Prop :=
  length hdr = 32%nat /\ take 8 hdr = initBuffer SessionMessageHeaderTemplateId SessionMessageHdrBlockLength.

(** Seen are the acknowledgements with the numbers from 0 on. *)
Definition acks_numbered (c : channel) (hdr : bytes) (next : Z) : Prop :=
  Forall offered_ok (answers c) /\ hdr_ok hdr /\
  exists n : nat, next = i64 (Z.of_nat n) /\ ack_ids (delivered c) = (fun k => i64 (Z.of_nat k)) <$> seq 0 n.

Definition numbered (w : world) : Prop :=
  acks_numbered (w_consensus w) (sessionMsgHdrBuffer (w_agent w)) (nextAckId (w_agent w)).

(** What the numbers depend on. *)
Definition obs (w : world) : channel * bytes * Z :=
  (w_consensus w, sessionMsgHdrBuffer (w_agent w), nextAckId (w_agent w)).

Lemma numbered_obs (w w' : world) : obs w' = obs w -> numbered w -> numbered w'.
Proof using Type. unfold numbered, obs. intros [= -> -> ->]. done. Qed.

Definition quiet {X} (c : A X) : Prop := forall w, match c w with Ret _ w' => obs w' = obs w | Exc _ _ => True end.

Lemma quiet_keeps {X} (c : A X) : quiet c -> keeps numbered c.
Proof using Type. intros Hq w Hw. specialize (Hq w). destruct (c w); [by eapply numbered_obs|done]. Qed.

Lemma quiet_bind {X Y} (c : A X) (k : X -> A Y) : quiet c -> (forall x, quiet (k x)) -> quiet (bind c k).
Proof using Type.
  intros Hc Hk w. unfold bind. specialize (Hc w). destruct (c w) as [x w'|]; [|done]. specialize (Hk x w').
  destruct (k x w'); [congruence|done].
Qed.

(** The clock changes nothing of what the agent has to say. *)
Definition clock_obs (w : world) : channel * gmap nat channel * bytes * Z * Z * gmap Z session * Z * Z :=
  let a := w_agent w in
  (w_consensus w, w_responses w, sessionMsgHdrBuffer a, nextAckId a, role a, sessions a, logPosition a, clusterTime a).

Definition unseen {X} (c : A X) : Prop := forall w, match c w with Ret _ w' => clock_obs w' = clock_obs w | Exc _ _ => True end.

Lemma unseen_bind {X Y} (c : A X) (k : X -> A Y) : unseen c -> (forall x, unseen (k x)) -> unseen (bind c k).
Proof using Type.
  intros Hc Hk w. unfold bind. specialize (Hc w). destruct (c w) as [x w'|]; [|done]. specialize (Hk x w').
  destruct (k x w'); [congruence|done].
Qed.

Lemma unseen_checkForClockTick : unseen checkForClockTick.
Proof using Type.
  unfold checkForClockTick. apply unseen_bind.
  { intros w. unfold next_tick. by destruct (w_ticks w). }
  intros now. apply unseen_bind; [done|]. intros cached. destruct (negb _); [|done].
  apply unseen_bind; [done|]. intros _. apply unseen_bind; [done|]. intros commit. apply unseen_bind; [done|]. intros cs.
  apply unseen_bind. { intros w. by destruct commit as [id|]; [destruct (negb _)|]. }
  intros _. apply unseen_bind; [done|]. intros deadline. apply unseen_bind; [|done]. intros w. by destruct (_ >? _).
Qed.

Lemma unseen_Idle n : unseen (Idle n).
Proof using Type. unfold Idle. destruct (_ <=? _); [|done]. apply unseen_bind; [apply unseen_checkForClockTick|done]. Qed.

Lemma unseen_quiet {X} (c : A X) : unseen c -> quiet c.
Proof using Type. intros Hc w. specialize (Hc w). destruct (c w); [|done]. unfold clock_obs, obs in *. congruence. Qed.

Lemma quiet_checkForClockTick : quiet checkForClockTick.
Proof using Type. apply unseen_quiet, unseen_checkForClockTick. Qed.

Lemma quiet_Idle n : quiet (Idle n).
Proof using Type. apply unseen_quiet, unseen_Idle. Qed.

(** One offer with its tries. *)
Lemma offer_tries_result msg n : forall (w w' : world) result r,
  Forall offered_ok (answers (w_consensus w)) -> result < 0 \/ n <> 0%nat -> offer_tries n msg result w = Ret r w' ->
  exists c, w' = with_w_consensus c w /\ Forall offered_ok (answers c) /\
    delivered c = delivered (w_consensus w) ++ (if r <? 0 then [] else [msg]).
Proof using Type.
  induction n as [|n IH]; intros w w' result r Hok Hn Hrun; cbn [offer_tries] in Hrun.
  { injection Hrun as <- <-. exists (w_consensus w). destruct Hn as [Hr|]; [|done].
    rewrite (proj2 (Z.ltb_lt _ _) Hr), app_nil_r. by destruct w. }
  unfold bind, consensus_Offer, channel_Offer in Hrun. destruct (w_consensus w) as [as_ log] eqn:Hc. cbn [answers delivered] in *.
  destruct as_ as [|a as_]; [discriminate|]. apply Forall_cons in Hok as [Ha Hok].
  destruct a as [p|s]; cbn [offered_value offered_ok] in *.
  - rewrite Z.geb_leb, (proj2 (Z.leb_le 0 p)) in Hrun by lia. injection Hrun as <- <-.
    eexists. split_and!; [done|done|]. cbn. by rewrite (proj2 (Z.ltb_ge p 0)) by lia.
  - rewrite Z.geb_leb, (proj2 (Z.leb_gt 0 s)) in Hrun by lia. destruct (_ || _); [discriminate|].
    apply IH in Hrun as (c & -> & Hc' & Hd); [|done|by left]. eexists. split_and!; [done|done|exact Hd].
Qed.

Lemma offer_result msg (w w' : world) r :
  Forall offered_ok (answers (w_consensus w)) -> offer msg w = Ret r w' ->
  exists c, w' = with_w_consensus c w /\ Forall offered_ok (answers c) /\
    delivered c = delivered (w_consensus w) ++ (if r <? 0 then [] else [msg]).
Proof using Type. intros Hok. apply offer_tries_result; [done|by right]. Qed.

(** A message that is sent is delivered once. *)
Lemma send_result payload fuel : forall (w w' : world),
  Forall offered_ok (answers (w_consensus w)) -> send_loop fuel payload w = Ret tt w' ->
  exists c, obs w' = (c, sessionMsgHdrBuffer (w_agent w), nextAckId (w_agent w)) /\ Forall offered_ok (answers c) /\
    delivered c = delivered (w_consensus w) ++ [payload].
Proof using Type.
  induction fuel as [|fuel IH]; intros w w' Hok Hrun; [discriminate|]. cbn [send_loop] in Hrun. unfold bind at 1 in Hrun.
  destruct (offer payload w) as [r w1|] eqn:Ho; [|discriminate].
  apply offer_result in Ho as (c & -> & Hc & Hd); [|done]. destruct (r <? 0).
  - unfold bind in Hrun. pose proof (quiet_Idle 0 (with_w_consensus c w)) as Hq.
    destruct (Idle 0 (with_w_consensus c w)) as [u w2|]; [|discriminate]. injection Hq as Hq1 Hq2 Hq3.
    apply IH in Hrun as (c' & Hobs & Hc' & Hd'); [|by rewrite Hq1]. exists c'. rewrite Hobs, Hq2, Hq3. split_and!; [done..|].
    by rewrite Hd', Hq1, Hd, app_nil_r.
  - injection Hrun as <-. by exists c.
Qed.

Lemma ack_ids_app l1 l2 : ack_ids (l1 ++ l2) = ack_ids l1 ++ ack_ids l2.
Proof using Type. unfold ack_ids. by rewrite List.filter_app, fmap_app. Qed.

(** Messages that are no acknowledgements may be sent at any time. *)
Lemma numbered_more c c' hdr next msgs :
  acks_numbered c hdr next -> Forall offered_ok (answers c') -> delivered c' = delivered c ++ msgs ->
  List.filter is_ack msgs = [] -> acks_numbered c' hdr next.
Proof using Type.
  intros (_ & Hhdr & n & Hn & Hids) Hok Hd Hno. split_and!; [done..|]. exists n. split; [done|].
  rewrite Hd, ack_ids_app, Hids. unfold ack_ids. by rewrite Hno, app_nil_r.
Qed.

Lemma keeps_offer_tries msg : is_ack msg = false -> keeps numbered (offer_tries 3 msg 0).
Proof using Type.
  intros Hno w Hw. destruct (offer_tries 3 msg 0 w) as [r w'|] eqn:Ho; [|done].
  apply offer_tries_result in Ho as (c & -> & Hc & Hd); [|by apply Hw|by right].
  eapply numbered_more; [exact Hw|exact Hc|exact Hd|]. destruct (r <? 0); cbn; by rewrite ?Hno.
Qed.

Lemma keeps_send payload : is_ack payload = false -> keeps numbered (send payload).
Proof using Type.
  intros Hno w Hw. unfold send, bind, look. destruct (send_loop _ payload w) as [[] w'|] eqn:Hs; [|done].
  apply send_result in Hs as (c & [= Hc1 Hc2 Hc3] & Hc & Hd); [|by apply Hw]. unfold numbered. rewrite Hc1, Hc2, Hc3.
  eapply numbered_more; [exact Hw|exact Hc|exact Hd|]. cbn. by rewrite Hno.
Qed.

Lemma ack_packet rc logPos timestamp ackID relevantID serviceID bs :
  ServiceAckRequestPacket rc logPos timestamp ackID relevantID serviceID = inl bs -> is_ack bs = true /\ ack_id bs = i64 ackID.
Proof using Type.
  intros Hp. apply packet_inv in Hp as (Hh & Hd & _ & _); [|by vm_compute]. unfold is_ack, ack_id. rewrite Hh. split; [done|].
  change 24%nat with (8 + 16)%nat. rewrite <- drop_drop, Hd.
  change (take 8 (drop 16 (fixed_part _ ++ _))) with (le_split 8 ackID). rewrite le_combine_split. apply i64_mod.
Qed.

Lemma close_packet rc id bs : CloseSessionRequestPacket rc id = inl bs -> is_ack bs = false.
Proof using Type. intros Hp. apply packet_inv in Hp as (Hh & _); [|by vm_compute]. unfold is_ack. by rewrite Hh. Qed.

(** The next number is used by the acknowledgement that is sent. *)
Lemma keeps_ack_at logPos t relevantId sid :
  keeps numbered (let! id := getAndIncrementNextAckId in serviceAckRequest opts logPos t id relevantId sid).
Proof using Type.
  intros w Hw.
  unfold bind, getAndIncrementNextAckId, bind, ask, on_agent, ret, serviceAckRequest, send_packet.
  destruct (ServiceAckRequestPacket _ _ _ _ _ _) as [bs|e] eqn:Hp; [|exact I]. apply ack_packet in Hp as [Hack Hid].
  unfold send, bind, look. destruct (send_loop _ bs _) as [[] w'|] eqn:Hs; [|exact I].
  apply send_result in Hs as (c & [= Hc1 Hc2 Hc3] & Hc & Hd); [|by apply Hw]. unfold numbered. rewrite Hc1, Hc2, Hc3.
  destruct Hw as (_ & Hhdr & n & Hn & Hids). cbn [w_agent with_w_agent with_nextAckId nextAckId sessionMsgHdrBuffer w_consensus] in *.
  split_and!; [done..|]. exists (S n). split.
  - rewrite Hn, Nat2Z.inj_succ, <- Z.add_1_r. apply i64_add_l.
  - rewrite Hd, ack_ids_app, Hids, seq_S, fmap_app. f_equal. unfold ack_ids. cbn. rewrite Hack. cbn. by rewrite Hid, Hn, i64_i64.
Qed.

(** ** The service *)

Lemma hdr_ok_put off v hdr : (8 <= off <= 24)%nat -> hdr_ok hdr -> hdr_ok (put_int64 off v hdr).
Proof using Type.
  intros Hoff [Hlen Htake]. unfold put_int64. split.
  - rewrite !length_app, length_take, length_le_split, length_drop, Hlen. lia.
  - rewrite take_app_le by (rewrite length_take; lia). rewrite take_take, Nat.min_l by lia. done.
Qed.

Lemma hdr_no_ack hdr msg : hdr_ok hdr -> is_ack (hdr ++ msg) = false.
Proof using Type.
  intros [Hlen Htake]. rewrite <- (take_drop 8 hdr), Htake, <- app_assoc. unfold is_ack.
  change (le_combine (le_split 2 SessionMessageHeaderTemplateId) =? SbeTemplateId (A := ServiceAck)) with false. done.
Qed.

Lemma numbered_hdr hdr (w : world) :
  (hdr_ok (sessionMsgHdrBuffer (w_agent w)) -> hdr_ok hdr) -> numbered w ->
  numbered (with_w_agent (with_sessionMsgHdrBuffer hdr (w_agent w)) w).
Proof using Type. intros Hhdr (Hok & Hh & Hn). split_and!; [done|by apply Hhdr|done]. Qed.

Lemma hdr_ok_filled t id hdr : hdr_ok hdr -> hdr_ok (put_int64 24 t (put_int64 16 id hdr)).
Proof using Type. intros. apply hdr_ok_put; [lia|]. by apply hdr_ok_put; [lia|]. Qed.

(** A message behind the header, sent by [k]. *)
Lemma keeps_with_header {X} id (k : bytes -> A X) :
  (forall hdr, hdr_ok hdr -> keeps numbered (k hdr)) -> keeps numbered (let! hdr := fill_header id in k hdr).
Proof using Type.
  intros Hk w Hw. unfold bind, fill_header, bind, ask, on_agent, ret. apply Hk.
  - apply hdr_ok_filled. by destruct Hw as (_ & Hh & _).
  - apply numbered_hdr; [|done]. apply hdr_ok_filled.
Qed.

Lemma keeps_offerToSession id pub msg : keeps numbered (offerToSession id pub msg).
Proof using Type.
  unfold offerToSession. apply keeps_bind; [apply keeps_ask|]. intros r. destruct (negb _); [apply keeps_ret|].
  apply keeps_with_header. intros hdr Hhdr. apply quiet_keeps. intros w. unfold response_Offer.
  destruct (w_responses w !! pub); [|done]. by destruct (channel_Offer _ _).
Qed.

Lemma keeps_agent_Offer msg : keeps numbered (agent_Offer opts msg).
Proof using Type.
  unfold agent_Offer. apply keeps_bind; [apply keeps_ask|]. intros r. destruct (negb _); [apply keeps_ret|].
  apply keeps_with_header. intros hdr Hhdr. by apply keeps_offer_tries, hdr_no_ack.
Qed.

Lemma keeps_session_Close s : keeps numbered (session_Close opts s).
Proof using Type.
  unfold session_Close, closeClientSession, closeSessionRequest, send_packet.
  apply keeps_bind; [apply keeps_ask|]. intros ss. destruct (ss !! _); [|apply keeps_ret].
  apply keeps_bind; [apply keeps_ask|]. intros ss'. destruct (ss' !! _); [|apply keeps_ret].
  destruct (CloseSessionRequestPacket _ _) as [bs|] eqn:Hp; [|apply keeps_raise]. by eapply keeps_send, close_packet.
Qed.

Lemma quiet_snapshot_Offer msg : quiet (snapshot_Offer msg).
Proof using Type. intros w. unfold snapshot_Offer. destruct (w_snapshot w) as [q|]; [|done]. by destruct (script q) as [|[] ?]. Qed.

Lemma quiet_snapshot_Poll : quiet snapshot_Poll.
Proof using Type. intros w. unfold snapshot_Poll. by destruct (w_replay w). Qed.

Lemma keeps_exec o : keeps numbered (exec opts o).
Proof using Type.
  destruct o; cbn [exec]; (apply keeps_bind; [|intros; apply keeps_ret]).
  1-5: apply keeps_ask.
  - apply quiet_keeps, quiet_Idle.
  - apply keeps_bind; [by apply keeps_offer_tries|]. intros. apply keeps_ret.
  - apply keeps_bind; [by apply keeps_offer_tries|]. intros. apply keeps_ret.
  - apply keeps_agent_Offer.
  - apply keeps_offerToSession.
  - apply keeps_session_Close.
  - apply quiet_keeps, quiet_snapshot_Offer.
  - apply quiet_keeps, quiet_snapshot_Poll.
Qed.

Lemma keeps_execute {R} (p : program R) : keeps numbered (execute opts p).
Proof using Type.
  induction p as [r|o k IH]; cbn [execute]; [apply keeps_ret|]. apply keeps_bind; [apply keeps_exec|]. exact IH.
Qed.

Lemma keeps_call c : keeps numbered (call service opts c).
Proof using Type.
  unfold call. apply keeps_bind; [by apply keeps_modify|]. intros _. apply keeps_bind; [apply keeps_look|]. intros st.
  apply keeps_bind; [apply keeps_execute|]. intros st'. by apply keeps_modify.
Qed.
(** ** Members that do not lead *)

Definition is_session_message (bs : bytes) : bool := TemplateId (message_header bs) =? SessionMessageHeaderTemplateId.

(** What the clients and the log got, and the role. *)
Definition said (w : world) : gmap nat channel * list bytes * Z :=
  (w_responses w, List.filter is_session_message (delivered (w_consensus w)), role (w_agent w)).

Section Silent.
Context (heard : gmap nat channel * list bytes * Z) (Hrole : heard.2 <> Leader).
Definition silent (w : world) : Prop := said w = heard.

Lemma unseen_silent {X} (c : A X) : unseen c -> keeps silent c.
Proof using Type.
  intros Hc w Hw. specialize (Hc w). destruct (c w); [|done]. unfold silent, said, clock_obs in *. rewrite <- Hw. by injection Hc as -> -> _ _ -> _ _ _.
Qed.

Lemma silent_offer_tries msg n result : is_session_message msg = false -> keeps silent (offer_tries n msg result).
Proof using Type.
  intros Hno. revert result. induction n as [|n IH]; intros result; cbn [offer_tries]; [apply keeps_ret|]. apply keeps_bind.
  - intros w Hw. unfold consensus_Offer, channel_Offer. destruct (w_consensus w) as [as_ log] eqn:Hc. cbn [answers delivered].
    destruct as_ as [|a as_]; [done|]. unfold silent, said in *. rewrite <- Hw, Hc. cbn.
    destruct a; [|done]. rewrite List.filter_app. cbn. by rewrite Hno, app_nil_r.
  - intros r. destruct (_ >=? _); [apply keeps_ret|]. destruct (_ || _); [apply keeps_raise|apply IH].
Qed.

Lemma silent_send_packet m : (forall bs, m = inl bs -> is_session_message bs = false) -> keeps silent (send_packet m).
Proof using Type.
  intros Hno. destruct m as [bs|]; [|apply keeps_raise]. specialize (Hno bs eq_refl). cbn [send_packet]. unfold send.
  apply keeps_bind; [apply keeps_look|]. intros ts. induction (S (length ts)) as [|fuel IH]; cbn [send_loop]; [apply keeps_raise|].
  apply keeps_bind; [by apply silent_offer_tries|]. intros r. destruct (r <? 0); [|apply keeps_ret].
  apply keeps_bind; [apply unseen_silent, unseen_Idle|]. intros _. exact IH.
Qed.

Lemma silent_mocked {T} (c : A T) (x : T) :
  keeps silent (let! r := ask role in if negb (r =? Leader) then ret x else c).
Proof using Hrole.
  intros w Hw. unfold bind, ask. assert (role (w_agent w) <> Leader) by (unfold silent, said in Hw; rewrite <- Hw in Hrole; exact Hrole).
  by rewrite (proj2 (Z.eqb_neq _ _)).
Qed.

Lemma silent_exec o : keeps silent (exec opts o).
Proof using Hrole.
  destruct o; cbn [exec]; (apply keeps_bind; [|intros; apply keeps_ret]).
  1-5: apply keeps_ask.
  - apply unseen_silent, unseen_Idle.
  - apply keeps_bind; [by apply silent_offer_tries|]. intros. apply keeps_ret.
  - apply keeps_bind; [by apply silent_offer_tries|]. intros. apply keeps_ret.
  - apply silent_mocked.
  - apply silent_mocked.
  - unfold session_Close, closeClientSession, closeSessionRequest. apply keeps_bind; [apply keeps_ask|]. intros ss.
    destruct (ss !! _); [|apply keeps_ret]. apply keeps_bind; [apply keeps_ask|]. intros ss'.
    destruct (ss' !! _); [|apply keeps_ret]. apply silent_send_packet. intros bs Hp.
    apply packet_inv in Hp as (Hh & _); [|by vm_compute]. unfold is_session_message. by rewrite Hh.
  - intros w Hw. unfold snapshot_Offer. destruct (w_snapshot w) as [q|]; [|done]. by destruct (script q) as [|[] ?].
  - intros w Hw. unfold snapshot_Poll. by destruct (w_replay w).
Qed.

Lemma silent_call c : keeps silent (call service opts c).
Proof using Hrole.
  unfold call. apply keeps_bind; [by apply keeps_modify|]. intros _. apply keeps_bind; [apply keeps_look|]. intros st.
  apply keeps_bind; [|intros st'; by apply keeps_modify].
  generalize (service st c). intros p. induction p as [r|o k IH]; cbn [execute]; [apply keeps_ret|].
  apply keeps_bind; [apply silent_exec|]. exact IH.
Qed.
End Silent.

(** One rule or one component at a time. *)
Ltac keep :=
  repeat (cbv beta zeta;
    first
    [ solve [auto 2 with keeps nocore]
    | lazymatch goal with
      | |- keeps _ (bind getAndIncrementNextAckId _) => apply keeps_ack_at
      | |- keeps _ (bind _ _) => apply keeps_bind; [|intros ?]
      | |- keeps _ (ret _) => apply keeps_ret
      | |- keeps _ (raise _) => apply keeps_raise
      | |- keeps _ (panic _) => apply keeps_raise
      | |- keeps _ (ask _) => apply keeps_ask
      | |- keeps _ (look _) => apply keeps_look
      | |- keeps _ (call _ _ _) => apply keeps_call
      | |- keeps _ (modify _) => apply keeps_modify; intros ? H; exact H
      | |- keeps _ (when _ _) => apply keeps_when
      | |- keeps _ (match ?x with _ => _ end) => destruct x
      | |- keeps _ (on_agent _) => apply keeps_on_agent; intros ? H; exact H
      end ]).

(** ** The agent *)

Lemma keeps_clock : keeps numbered checkForClockTick.
Proof using Type. apply quiet_keeps, quiet_checkForClockTick. Qed.
Lemma keeps_idle n : keeps numbered (Idle n).
Proof using Type. apply quiet_keeps, quiet_Idle. Qed.
Lemma keeps_AddPublication : keeps numbered AddPublication.
Proof using Type. apply quiet_keeps. intros w. unfold AddPublication. by destruct (w_publications w). Qed.
Lemma keeps_AddSubscription : keeps numbered AddSubscription.
Proof using Type. apply quiet_keeps. intros w. unfold AddSubscription. by destruct (w_subscriptions w). Qed.
Lemma keeps_NewArchive : keeps numbered NewArchive.
Proof using Type. apply quiet_keeps. intros w. unfold NewArchive. by destruct (w_archives w). Qed.
Lemma keeps_taker_offer bs : keeps numbered (taker_offer opts bs).
Proof using Type. apply quiet_keeps. intros w. unfold taker_offer. destruct (w_snapshot w) as [q|]; [|done]. by destruct (offer_loop _ _ _ _ _). Qed.
Lemma keeps_term (z : Z) :
  keeps numbered (on_agent (fun a => with_sessionMsgHdrBuffer (put_int64 8 z (sessionMsgHdrBuffer a)) a)).
Proof using Type. apply keeps_on_agent. intros w Hw. apply numbered_hdr; [|done]. by apply hdr_ok_put; lia. Qed.
#[local] Hint Resolve keeps_clock keeps_idle keeps_AddPublication keeps_AddSubscription keeps_NewArchive keeps_taker_offer keeps_term : keeps.

Lemma keeps_ack logPos relevantId : keeps numbered (ack opts logPos relevantId).
Proof using Type. unfold ack. keep. Qed.
Lemma keeps_setRole r : keeps numbered (setRole service opts r).
Proof using Type. unfold setRole. keep. Qed.
#[local] Hint Resolve keeps_ack keeps_setRole : keeps.
Lemma keeps_terminate : keeps numbered (terminate service opts).
Proof using Type. unfold terminate. keep. Qed.
#[local] Hint Resolve keeps_terminate : keeps.

Lemma keeps_snapshot_sessions ss : keeps numbered (snapshot_sessions opts ss).
Proof using Type. induction ss; cbn [snapshot_sessions]; unfold snapshotSession, taker_packet; keep. Qed.
Lemma keeps_write_snapshot logPos term : keeps numbered (write_snapshot opts range_order logPos term).
Proof using Type.
  unfold write_snapshot, markBegin, markEnd, markSnapshot, taker_packet. pose proof keeps_snapshot_sessions. keep.
Qed.
Lemma keeps_await_recording fuel start sid : keeps numbered (await_recording opts fuel start sid).
Proof using Type. induction fuel; cbn [await_recording]; keep. Qed.
Lemma keeps_recorded {X} sid q (body : A X) : keeps numbered body -> keeps numbered (recorded sid q body).
Proof using Type.
  intros Hb w Hw. unfold recorded. specialize (Hb (with_w_snapshot (Some q) w) Hw). by destruct (body _).
Qed.
#[local] Hint Resolve keeps_write_snapshot keeps_await_recording keeps_recorded : keeps.

Lemma keeps_takeSnapshot logPos term : keeps numbered (takeSnapshot service opts range_order logPos term).
Proof using Type.
  unfold takeSnapshot, awaitRecordingId. apply keeps_bind; [apply keeps_NewArchive|]. intros arch.
  destruct (ar_connected arch); [keep|]. destruct (ar_recording arch) as [[sid q]|]; [|keep]. apply keeps_recorded. keep.
Qed.
#[local] Hint Resolve keeps_takeSnapshot : keeps.

Lemma keeps_adapter_onMessage p msg : keeps numbered (adapter_onMessage service opts range_order p msg).
Proof using Type.
  unfold adapter_onMessage, onTimerEvent, onSessionOpen, onSessionClose, onServiceAction, onNewLeadershipTermEvent, onMembershipChange,
    onSessionMessage, newContainerClientSession, get_int64, get_int32, set_position. keep.
Qed.
#[local] Hint Resolve keeps_adapter_onMessage : keeps.

Lemma keeps_adapter_onFragment p fr : keeps numbered (adapter_onFragment service opts range_order p fr).
Proof using Type. unfold adapter_onFragment, set_builder. keep. Qed.
Lemma keeps_bounded_loop handler limit fragmentLimit fs : forall p n,
  (forall p f, keeps numbered (handler p f)) -> keeps numbered (bounded_loop handler limit fragmentLimit p n fs).
Proof using Type.
  induction fs as [|fr fs IH]; intros p n Hh; cbn [bounded_loop]; [keep|]. destruct (_ && _); [|keep].
  specialize (fun p n => IH p n Hh). keep.
Qed.
Lemma keeps_adapter_poll i limit : keeps numbered (adapter_poll service opts range_order i limit).
Proof using Type.
  unfold adapter_poll. destruct (li_closed i); [keep|].
  apply keeps_bind; [apply keeps_bounded_loop, keeps_adapter_onFragment|]. intros [[n p] k]. keep.
Qed.

Lemma keeps_service_onFragment fr : keeps numbered (service_onFragment fr).
Proof using Type.
  unfold service_onFragment, onJoinLog, onServiceTerminationPosition, onRequestServiceAck, get_int64. keep.
Qed.
Lemma keeps_poll_frames handler limit fs : forall n,
  (forall f, keeps numbered (handler f)) -> keeps numbered (poll_frames handler limit n fs).
Proof using Type.
  induction fs as [|fr fs IH]; intros n Hh; cbn [poll_frames]; [keep|]. specialize (fun n => IH n Hh). keep.
Qed.
Lemma keeps_service_poll : keeps numbered service_poll.
Proof using Type.
  unfold service_poll. apply keeps_bind; [keep|]. intros fs. apply keeps_bind; [apply keeps_poll_frames, keeps_service_onFragment|].
  intros [n rest]. keep.
Qed.
#[local] Hint Resolve keeps_service_poll keeps_adapter_poll : keeps.

Lemma keeps_joinActiveLog e : keeps numbered (joinActiveLog service opts e).
Proof using Type. unfold joinActiveLog. keep. Qed.
#[local] Hint Resolve keeps_joinActiveLog : keeps.
Lemma keeps_pollServiceAdapter : keeps numbered (pollServiceAdapter service opts).
Proof using Type. unfold pollServiceAdapter. keep. Qed.
Lemma keeps_closeLog i : keeps numbered (closeLog service opts i).
Proof using Type.
  unfold closeLog, adapter_Close. apply keeps_bind; [|intros; keep]. apply keeps_on_agent. intros w Hw. by destruct (_ >? _).
Qed.
#[local] Hint Resolve keeps_pollServiceAdapter keeps_closeLog : keeps.

Lemma keeps_DoWork : keeps numbered (DoWork service opts range_order).
Proof using Type. unfold DoWork. keep. Qed.
#[local] Hint Resolve keeps_DoWork : keeps.
Lemma keeps_run_loop fuel : keeps numbered (run_loop service opts range_order fuel).
Proof using Type. induction fuel; cbn [run_loop]; keep. Qed.
#[local] Hint Resolve keeps_run_loop : keeps.

Lemma keeps_loader_onFragment msg l : keeps numbered (loader_onFragment msg l).
Proof using Type. unfold loader_onFragment, newContainerClientSession. keep. Qed.
Lemma keeps_load_loop fs : forall l, keeps numbered (load_loop fs l).
Proof using Type.
  pose proof keeps_loader_onFragment. induction fs as [|msg fs IH]; intros l; cbn [load_loop]; keep.
Qed.
#[local] Hint Resolve keeps_load_loop : keeps.
Lemma keeps_loadSnapshot rec : keeps numbered (loadSnapshot service opts rec).
Proof using Type. unfold loadSnapshot. keep. Qed.
Lemma keeps_await_commit fuel : keeps numbered (await_commit opts fuel).
Proof using Type. induction fuel; cbn [await_commit]; keep. Qed.
Lemma keeps_await_recovery fuel : keeps numbered (await_recovery opts fuel).
Proof using Type. induction fuel; cbn [await_recovery]; unfold set_position; keep. Qed.
#[local] Hint Resolve keeps_loadSnapshot keeps_await_commit keeps_await_recovery : keeps.
Lemma keeps_OnStart : keeps numbered (agent_OnStart service opts ClientID).
Proof using Type.
  unfold agent_OnStart, recoverState, awaitCommitPositionCounter, awaitRecoveryCounter. keep.
Qed.
#[local] Hint Resolve keeps_OnStart : keeps.
End Keeps.

(** Rounds of work of a caller that runs the agent itself. *)
Fixpoint works {Svc} (service : Svc -> service_call -> program Svc) opts range_order (rounds : nat) : A unit :=
  match rounds with
  | O => ret tt
  | S rounds => (let! _ := DoWork service opts range_order in works service opts range_order rounds)
  end.

(** C5. The acknowledgements of a service container, from its start and through all its work,
    whatever the service does and whatever happens around it: as long as it goes on, the
    messages to the consensus module that are acknowledgements have the numbers 0, 1, 2 and so
    on, each once and in order, and the next number is the number of those that were sent. *)
Theorem acks_in_order {Svc} (service : Svc -> service_call -> program Svc) opts ClientID range_order (w w' : world) err rounds :
  w_agent w = new_agent -> delivered (w_consensus w) = [] -> Forall offered_ok (answers (w_consensus w)) ->
  (let! e := agent_OnStart service opts ClientID in works service opts range_order rounds ;;; ret e) w = Ret err w' ->
  exists n, nextAckId (w_agent w') = i64 (Z.of_nat n) /\
    ack_ids (delivered (w_consensus w')) = (fun k => i64 (Z.of_nat k)) <$> seq 0 n.
Proof.
  intros Ha Hd Hok Hrun.
  assert (Hw : numbered w).
  { unfold numbered. rewrite Ha. split_and!; [done|by vm_compute|]. exists 0%nat. by rewrite Hd. }
  assert (Hk : keeps numbered (works service opts range_order rounds)).
  { clear Hrun. induction rounds as [|n IH]; [apply keeps_ret|]. apply keeps_bind; [apply keeps_DoWork|]. intros _. exact IH. }
  assert (Hall : keeps numbered (let! e := agent_OnStart service opts ClientID in works service opts range_order rounds ;;; ret e)).
  { apply keeps_bind; [apply keeps_OnStart|]. intros e. apply keeps_bind; [exact Hk|]. intros _. apply keeps_ret. }
  specialize (Hall w Hw). rewrite Hrun in Hall. by destruct Hall as (_ & _ & Hn).
Qed.

(** C22. A member that is not the leader: whatever event its service handles and however, nothing is
    sent to a client, no message goes into the log, and it does not become the leader by it. *)
Theorem followers_are_silent {Svc} (service : Svc -> service_call -> program Svc) opts c (w w' : world) :
  role (w_agent w) <> Leader -> call service opts c w = Ret tt w' ->
  w_responses w' = w_responses w /\ role (w_agent w') = role (w_agent w) /\
  List.filter is_session_message (delivered (w_consensus w')) = List.filter is_session_message (delivered (w_consensus w)).
Proof.
  intros Hr Hrun. pose proof (keeps_Ret _ _ w _ w' (silent_call service opts (said w) Hr c) eq_refl Hrun) as Hs.
  by injection Hs as -> -> ->.
Qed.
