(* ===== verification/ClusterLog.v ===== *)
(** * What a service sees of the log

    The entries of the replicated log as the consensus module encodes them, the registry of
    sessions that they describe, and the calls that a service gets for them, however the log is
    cut into polls: every member that reads the same log gives its service the same calls, but
    for those about its own snapshots and its own end. *)

From Stdlib Require Import Sorting.Sorted.
From S2P Require Import Prelude Sbe SbePacket Bits Publication.
From S2P Require Import Memory Flyweight LogBuffer TermSpec Reader ChannelUri ArchiveProxy Archive.
From S2P Require Import ClusterCodecs ClusterPackets ClusterService ClusterSnapshot Keeps ClusterInv.

Local Open Scope m_scope.

Local Abbreviation bytes := (list Init.Byte.byte).

(** ** The registry *)

(** The publication of a session is a matter of the member. *)
Definition anonymous (s : session) : session :=
  mkSession (s_id s) (s_responseStreamId s) (s_responseChannel s) (s_encodedPrincipal s) 0.

Definition anonymous_call (c : service_call) : service_call :=
  match c with
  | OnSessionOpen s t => OnSessionOpen (anonymous s) t
  | OnSessionClose s t r => OnSessionClose (anonymous s) t r
  | OnSessionMessage s t m => OnSessionMessage (anonymous <$> s) t m
  | c => c
  end.

(** What the log says of every member alike. *)
Record shared : Type := mkShared {
  sh_sessions : gmap Z session;
  sh_position : Z;
  sh_time : Z;
  sh_unit : Z }.

Inductive log_entry : Type :=
| LMessage (h : SessionMessageHeader) (payload : bytes)
| LOpen (e : SessionOpenEvent)
| LClose (e : SessionCloseEvent)
| LTimer (e : TimerEvent)
| LTerm (e : NewLeadershipTermEvent)
| LAction (e : ClusterActionRequest)
| LMembership (e : MembershipChangeEvent).

(** What an entry that ends at a position does on every member. *)
Definition log_step (p : Z) (e : log_entry) (s : shared) : shared * list service_call :=
  match e with
  | LMessage h payload =>
      (mkShared (sh_sessions s) p (SessionMessageHeader_Timestamp h) (sh_unit s),
       [OnSessionMessage (sh_sessions s !! SessionMessageHeader_ClusterSessionId h) (SessionMessageHeader_Timestamp h) payload])
  | LOpen e =>
      let new := mkSession (SessionOpenEvent_ClusterSessionId e) (SessionOpenEvent_ResponseStreamId e)
                   (SessionOpenEvent_ResponseChannel e) (SessionOpenEvent_EncodedPrincipal e) 0 in
      (mkShared (<[s_id new := new]> (sh_sessions s)) p (SessionOpenEvent_Timestamp e) (sh_unit s),
       [OnSessionOpen new (SessionOpenEvent_Timestamp e)])
  | LClose e =>
      let id := SessionCloseEvent_ClusterSessionId e in
      (mkShared (delete id (sh_sessions s)) p (SessionCloseEvent_Timestamp e) (sh_unit s),
       match sh_sessions s !! id with
       | Some old => [OnSessionClose old (SessionCloseEvent_Timestamp e) (SessionCloseEvent_CloseReason e)]
       | None => []
       end)
  | LTimer e =>
      (mkShared (sh_sessions s) p (TimerEvent_Timestamp e) (sh_unit s),
       [OnTimerEvent (TimerEvent_CorrelationId e) (TimerEvent_Timestamp e)])
  | LTerm e =>
      (mkShared (sh_sessions s) (NewLeadershipTermEvent_LogPosition e) (NewLeadershipTermEvent_Timestamp e) (NewLeadershipTermEvent_TimeUnit e),
       [OnNewLeadershipTermEvent (NewLeadershipTermEvent_LeadershipTermId e) (NewLeadershipTermEvent_LogPosition e)
          (NewLeadershipTermEvent_Timestamp e) (NewLeadershipTermEvent_TermBaseLogPosition e) (NewLeadershipTermEvent_LeaderMemberId e)
          (NewLeadershipTermEvent_LogSessionId e) (NewLeadershipTermEvent_TimeUnit e) (NewLeadershipTermEvent_AppVersion e)])
  | LAction e => (mkShared (sh_sessions s) (ClusterActionRequest_LogPosition e) (ClusterActionRequest_Timestamp e) (sh_unit s), [])
  | LMembership e => (mkShared (sh_sessions s) (MembershipChangeEvent_LogPosition e) (MembershipChangeEvent_Timestamp e) (sh_unit s), [])
  end.

(** With what is the member's own: its id, which snapshots it takes, whether it is active, the
    number of its next acknowledgement, and the archives that are to come. *)
Record registry : Type := mkRegistry {
  r_shared : shared;
  r_member : Z;
  r_standby : Z;
  r_active : bool;
  r_nextAck : Z;
  r_archives : list archive_run }.

Definition with_r_shared (s : shared) (r : registry) : registry :=
  mkRegistry s (r_member r) (r_standby r) (r_active r) (r_nextAck r) (r_archives r).

(** A snapshot is asked for: by an action of every member, or by one that has the member's flag. *)
Definition asks_snapshot (e : ClusterActionRequest) (standby : Z) : bool :=
  let flags := ClusterActionRequest_Flags e in
  (ClusterActionRequest_Action e =? ClusterAction.SNAPSHOT) &&
  ((flags =? Sbe.NullValue ClusterActionRequest_Flags_field) || (flags =? 0) || negb (Z.land flags standby =? 0)).

(** Whether a snapshot may come to its end in an archive. *)
Definition records (ar : archive_run) : bool :=
  match ar_connected ar, ar_recording ar with None, inl _ => true | _, _ => false end.

Definition leaves (e : MembershipChangeEvent) (member : Z) : bool :=
  (MembershipChangeEvent_MemberId e =? member) && (MembershipChangeEvent_ChangeType e =? ChangeType.QUIT).

(** What an entry may do on a member. One archive is connected for a snapshot that is asked for,
    and one acknowledgement is made, whether the snapshot is taken or not. A member that is to
    leave terminates, with an acknowledgement as well. *)
Definition outcomes (p : Z) (e : log_entry) (r : registry) : list (registry * list service_call) :=
  let '(s, cs) := log_step p e (r_shared r) in
  match e with
  | LAction e =>
      if asks_snapshot e (r_standby r) then
        match r_archives r with
        | [] => []
        | ar :: ars =>
            let r' := mkRegistry s (r_member r) (r_standby r) (r_active r) (i64 (r_nextAck r + 1)) ars in
            (r', []) :: (if records ar then [(r', [OnTakeSnapshot])] else [])
        end
      else [(with_r_shared s r, [])]
  | LMembership e =>
      if leaves e (r_member r)
      then [(mkRegistry s (r_member r) (r_standby r) false (i64 (r_nextAck r + 1)) (r_archives r), [OnTerminate])]
      else [(with_r_shared s r, [])]
  | _ => [(with_r_shared s r, cs)]
  end.

(** The registry, and the calls so far. *)
Definition sight : Type := registry * list service_call.

Fixpoint log_run (es : list (Z * log_entry)) (s s' : sight) : Prop :=
  match es with
  | [] => s' = s
  | (p, e) :: es => exists o, o ∈ outcomes p e s.1 /\ log_run es (o.1, s.2 ++ o.2) s'
  end.

Lemma log_run_app es1 es2 s1 s2 s3 : log_run es1 s1 s2 -> log_run es2 s2 s3 -> log_run (es1 ++ es2) s1 s3.
Proof.
  revert s1. induction es1 as [|[p e] es1 IH]; intros s1; cbn [log_run app]; [by intros ->|].
  intros (o & Ho & H1) H2. exists o. split; [done|by apply IH].
Qed.

(** The messages of the schema for an entry. *)
Definition marshalled_as {M} `{Codec M} (m : M) (bs : bytes) : Prop := valid m /\ packet m true = inl bs.

Definition encodes (e : log_entry) (bs : bytes) : Prop :=
  match e with
  | LMessage h payload => exists hdr, marshalled_as h hdr /\ bs = hdr ++ payload
  | LOpen e => marshalled_as e bs
  | LClose e => marshalled_as e bs
  | LTimer e => marshalled_as e bs
  | LTerm e => marshalled_as e bs
  | LAction e => marshalled_as e bs
  | LMembership e => marshalled_as e bs
  end.

(** ** What a member has seen, and where it is in the log *)

Section Sight.
Context {Svc : Type}.
Local Abbreviation world := (@ClusterService.world Svc).

Definition shared_of (a : agent) : shared := mkShared (anonymous <$> sessions a) (logPosition a) (clusterTime a) (timeUnit a).

Definition registry_of (w : world) : registry :=
  let a := w_agent w in
  mkRegistry (shared_of a) (memberId a) (standbySnapshotFlags a) (isServiceActive a) (nextAckId a) (w_archives w).

Definition seen (w : world) : sight := (registry_of w, anonymous_call <$> w_calls w).

Definition image_of (w : world) : option log_image := la_image (logAdapter (w_agent w)).
Definition builder (w : world) : option bytes := la_builder (logAdapter (w_agent w)).

(** The frames in the image, with those that are still to arrive. *)
Definition stream (w : world) : list frame :=
  match image_of w with Some i => li_frames i ++ concat (t_log <$> w_ticks w) | None => [] end.

(** The image is where it was, and nothing is lost of its frames. *)
Definition image_stays (w w' : world) : Prop :=
  match image_of w with
  | Some i => exists i' more, image_of w' = Some i' /\ li_session i' = li_session i /\ li_position i' = li_position i /\
      li_closed i' = li_closed i /\ li_frames i' = li_frames i ++ more /\ stream w' = stream w
  | None => image_of w' = None
  end.

Lemma image_stays_refl w : image_stays w w.
Proof using Type. unfold image_stays. destruct (image_of w) as [i|] eqn:E; [|done]. exists i, []. by rewrite app_nil_r. Qed.

Lemma image_stays_trans w1 w2 w3 : image_stays w1 w2 -> image_stays w2 w3 -> image_stays w1 w3.
Proof using Type.
  unfold image_stays. destruct (image_of w1) as [i|].
  - intros (i2 & m2 & -> & ? & ? & ? & Hf2 & ?) (i3 & m3 & ? & ? & ? & ? & Hf3 & ?). exists i3, (m2 ++ m3).
    split_and!; try congruence. rewrite Hf3, Hf2. by rewrite app_assoc.
  - by intros ->.
Qed.

(** Nothing of the log is handled. *)
Definition stays (w w' : world) : Prop := seen w' = seen w /\ builder w' = builder w /\ image_stays w w'.

#[global] Instance stays_preorder : PreOrder stays.
Proof using Type.
  split.
  - intros w. split_and!; [done..|apply image_stays_refl].
  - intros w1 w2 w3 (? & ? & ?) (? & ? & ?). split_and!; [congruence..|by eapply image_stays_trans].
Qed.
End Sight.

(** ** What the service does leaves the registry alone *)

Section Log.
Context {Svc : Type} (service : Svc -> service_call -> program Svc) (opts : Options).
Context (range_order : gmap Z session -> list session).
Local Abbreviation world := (@ClusterService.world Svc).
Local Abbreviation A := (@ClusterService.A Svc).

Context (w0 : world).

Lemma stays_modify (f : world -> world) : (forall w, stays w (f w)) -> keeps (stays w0) (modify f).
Proof using Type. intros Hf w Hw. cbn. by etrans. Qed.
Lemma stays_step {X} (c : A X) : (forall w, match c w with Ret _ w' => stays w w' | Exc _ _ => True end) -> keeps (stays w0) c.
Proof using Type. intros Hc w Hw. specialize (Hc w). destruct (c w); [by etrans|done]. Qed.

(** A change of what is not looked at. *)
Lemma stays_same (w w' : world) :
  seen w' = seen w -> builder w' = builder w -> image_of w' = image_of w -> stream w' = stream w -> stays w w'.
Proof using Type.
  intros. split_and!; [done..|]. unfold image_stays. destruct (image_of w) as [i|] eqn:E; [|done].
  exists i, []. rewrite app_nil_r. split_and!; done.
Qed.
Lemma stays_on_agent (f : agent -> agent) :
  (forall w : world, stays w (with_w_agent (f (w_agent w)) w)) -> keeps (stays w0) (on_agent f).
Proof using Type. intros Hf w Hw. cbn. by etrans. Qed.

Lemma stays_next_tick : keeps (stays w0) next_tick.
Proof using Type.
  apply stays_step. intros w. unfold next_tick. destruct (w_ticks w) as [|t ts] eqn:Et; [done|].
  split_and!; [done| |].
  - unfold builder, log_arrives. cbn. by destruct (la_image _).
  - unfold image_stays, stream, image_of, log_arrives. cbn. destruct (la_image _) as [i|] eqn:Ei; [|done].
    eexists _, (t_log t). split_and!; try done. cbn. by rewrite Et, <- app_assoc.
Qed.
Lemma stays_consensus_Offer msg : keeps (stays w0) (consensus_Offer msg).
Proof using Type. apply stays_step. intros w. unfold consensus_Offer. destruct (channel_Offer _ _); [|done]. by apply stays_same. Qed.
Lemma stays_response_Offer p msg : keeps (stays w0) (response_Offer p msg).
Proof using Type.
  apply stays_step. intros w. unfold response_Offer. destruct (_ !! _); [|done]. destruct (channel_Offer _ _); [|done]. by apply stays_same.
Qed.
Lemma stays_snapshot_Offer msg : keeps (stays w0) (snapshot_Offer msg).
Proof using Type.
  apply stays_step. intros w. unfold snapshot_Offer. destruct (w_snapshot w) as [q|]; [|done].
  destruct (script q) as [|[] ?]; [done|]. by apply stays_same.
Qed.
Lemma stays_taker_offer bs : keeps (stays w0) (taker_offer opts bs).
Proof using Type.
  apply stays_step. intros w. unfold taker_offer. destruct (w_snapshot w) as [q|]; [|done].
  destruct (offer_loop _ _ _ _ _); [|done]. by apply stays_same.
Qed.
Lemma stays_snapshot_Poll : keeps (stays w0) snapshot_Poll.
Proof using Type. apply stays_step. intros w. unfold snapshot_Poll. destruct (w_replay w); by apply stays_same. Qed.
(** The agent is not active any more only where this is a panic. *)
Lemma stays_panics (f : agent -> agent) m : keeps (stays w0) (on_agent f ;;; panic (A := unit) m).
Proof using Type. intros w Hw. exact I. Qed.

#[local] Hint Resolve stays_next_tick stays_consensus_Offer stays_response_Offer stays_snapshot_Offer stays_snapshot_Poll
  stays_taker_offer stays_panics : keeps.

(** Through a computation, by its structure. *)
Ltac sees :=
  repeat (cbv beta zeta;
    first
    [ solve [auto 2 with keeps nocore]
    | lazymatch goal with
      | |- keeps _ (bind _ _) => apply keeps_bind; [|intros ?]
      | |- keeps _ (ret _) => apply keeps_ret
      | |- keeps _ (raise _) => apply keeps_raise
      | |- keeps _ (panic _) => apply keeps_raise
      | |- keeps _ (ask _) => apply keeps_ask
      | |- keeps _ (look _) => apply keeps_look
      | |- keeps _ (when _ _) => apply keeps_when
      | |- keeps _ (match ?x with _ => _ end) => destruct x
      | |- keeps _ (modify _) => apply stays_modify; intros ?; apply stays_same; reflexivity
      | |- keeps _ (on_agent _) => apply stays_on_agent; intros ?; apply stays_same; reflexivity
      end ]).

Lemma stays_checkForClockTick : keeps (stays w0) checkForClockTick.
Proof using Type. unfold checkForClockTick. sees. Qed.
#[local] Hint Resolve stays_checkForClockTick : keeps.
Lemma stays_Idle n : keeps (stays w0) (Idle n).
Proof using Type. unfold Idle. sees. Qed.
Lemma stays_offer_tries n msg : forall result, keeps (stays w0) (offer_tries n msg result).
Proof using Type. induction n; intros result; cbn [offer_tries]; sees. Qed.
#[local] Hint Resolve stays_Idle stays_offer_tries : keeps.
Lemma stays_send_packet m : keeps (stays w0) (send_packet m).
Proof using Type.
  destruct m; cbn [send_packet]; [|sees]. unfold send. sees.
  match goal with |- keeps _ (send_loop ?n _) => induction n end; cbn [send_loop]; unfold offer; sees.
Qed.
#[local] Hint Resolve stays_send_packet : keeps.

Lemma stays_exec o : keeps (stays w0) (exec opts o).
Proof using Type.
  destruct o; cbn [exec]; unfold scheduleTimer, cancelTimer, agent_Offer, offerToSession, fill_header, session_Close,
    closeClientSession, closeSessionRequest, offer; sees.
Qed.
#[local] Hint Resolve stays_exec : keeps.

Lemma stays_execute {R} (p : program R) : keeps (stays w0) (execute opts p).
Proof using Type. induction p; cbn [execute]; sees. Qed.

Lemma stays_snapshot_sessions ss : keeps (stays w0) (snapshot_sessions opts ss).
Proof using Type. induction ss; cbn [snapshot_sessions]; unfold snapshotSession, taker_packet; sees. Qed.
#[local] Hint Resolve stays_snapshot_sessions : keeps.
Lemma stays_write_snapshot logPos term : keeps (stays w0) (write_snapshot opts range_order logPos term).
Proof using Type. unfold write_snapshot, markBegin, markEnd, markSnapshot, taker_packet. sees. Qed.
Lemma stays_await_recording fuel start sid : keeps (stays w0) (await_recording opts fuel start sid).
Proof using Type. induction fuel; cbn [await_recording]; sees. Qed.
End Log.

Section Entries.
Context {Svc : Type} (service : Svc -> service_call -> program Svc) (opts : Options).
Context (range_order : gmap Z session -> list session).
Local Abbreviation world := (@ClusterService.world Svc).

(** A computation that leaves the registry alone, run. *)
Lemma stays_Ret {X} (c : @ClusterService.A Svc X) w x w' : (forall w0, keeps (stays w0) c) -> c w = Ret x w' -> stays w w'.
Proof using Type. intros Hc Hrun. eapply keeps_Ret; [apply (Hc w)|reflexivity|exact Hrun]. Qed.

(** The registry and the calls become what is said, the builder and the image are as before. *)
Definition goes (s : sight) (w w' : world) : Prop := seen w' = s /\ builder w' = builder w /\ image_stays w w'.

Lemma stays_goes s w1 w2 w3 : stays w1 w2 -> goes s w2 w3 -> goes s w1 w3.
Proof using Type. intros (Hs & Hb & Hi) (? & ? & ?). split_and!; [done|congruence|by eapply image_stays_trans]. Qed.
Lemma goes_stays s w1 w2 w3 : goes s w1 w2 -> stays w2 w3 -> goes s w1 w3.
Proof using Type. intros (? & ? & ?) (? & ? & ?). split_and!; [congruence|congruence|by eapply image_stays_trans]. Qed.
Lemma goes_trans s1 s2 w1 w2 w3 : goes s1 w1 w2 -> goes s2 w2 w3 -> goes s2 w1 w3.
Proof using Type. intros (? & ? & ?) (? & ? & ?). split_and!; [congruence|congruence|by eapply image_stays_trans]. Qed.
Lemma goes_same s (w w' : world) :
  seen w' = s -> builder w' = builder w -> image_of w' = image_of w -> stream w' = stream w -> goes s w w'.
Proof using Type.
  intros. split_and!; [done..|]. unfold image_stays. destruct (image_of w) as [i|] eqn:E; [|done].
  exists i, []. rewrite app_nil_r. split_and!; done.
Qed.

(** A call is noted, and whatever the service does, the registry stays. *)
Lemma call_goes c (w w' : world) :
  call service opts c w = Ret tt w' -> goes ((seen w).1, (seen w).2 ++ [anonymous_call c]) w w'.
Proof using Type.
  unfold call. intros Hrun. do 2 (apply bind_inv_Ret in Hrun as (? & ? & [= <- <-] & Hrun)).
  apply bind_inv_Ret in Hrun as (st & w1 & Hex & [= <-]).
  apply stays_Ret in Hex; [|intros; apply stays_execute].
  eapply goes_stays; [|by apply stays_same]. eapply goes_stays; [|exact Hex].
  apply goes_same; try done. unfold seen. cbn. by rewrite fmap_app.
Qed.

(** A call after a change of the registry. *)
Lemma call_after c s (w w1 w' : world) :
  goes s w w1 -> call service opts c w1 = Ret tt w' -> goes (s.1, s.2 ++ [anonymous_call c]) w w'.
Proof using Type. intros Hg Hc. apply call_goes in Hc. rewrite (proj1 Hg) in Hc. by eapply goes_trans. Qed.

(** A message with the fields where the adapter reads them. *)
Lemma get_int64_at n z a b (w : world) :
  length a = n -> is_i64 z -> get_int64 n (a ++ le_split 8 z ++ b) w = Ret z w.
Proof using Type.
  intros <- Hz. unfold get_int64. rewrite (proj2 (Nat.leb_le _ _)) by (rewrite !length_app, length_le_split; lia).
  rewrite drop_app_length, take_app_le, take_ge by (rewrite length_le_split; lia). by rewrite int64_read.
Qed.

Lemma get_int32_at n z a b (w : world) :
  length a = n -> is_i32 z -> get_int32 n (a ++ le_split 4 z ++ b) w = Ret z w.
Proof using Type.
  intros <- Hz. unfold get_int32. rewrite (proj2 (Nat.leb_le _ _)) by (rewrite !length_app, length_le_split; lia).
  rewrite drop_app_length, take_app_le, take_ge by (rewrite length_le_split; lia). by rewrite int32_read.
Qed.


Definition entry_seen (p : Z) (e : log_entry) (w w' : world) : Prop :=
  exists o, o ∈ outcomes p e (seen w).1 /\ goes (o.1, (seen w).2 ++ o.2) w w'.

(** An entry that only moves the registry and is followed by a call. *)
Lemma entry_seen_one p e o w w' :
  outcomes p e (seen w).1 = [o] -> goes (o.1, (seen w).2 ++ o.2) w w' -> entry_seen p e w w'.
Proof using Type. intros Ho Hg. exists o. by rewrite Ho, list_elem_of_singleton. Qed.

Lemma entry_seen_call p e r c (w w1 w' : world) :
  call service opts c w1 = Ret tt w' -> outcomes p e (seen w).1 = [(r, [anonymous_call c])] -> goes (r, (seen w).2) w w1 ->
  entry_seen p e w w'.
Proof using Type.
  intros Hc Ho Hg. eapply entry_seen_one; [exact Ho|]. by eapply (call_after c (r, (seen w).2)) in Hc.
Qed.

Lemma onTimerEvent_seen p e (w w' : world) :
  onTimerEvent service opts p (TimerEvent_CorrelationId e) (TimerEvent_Timestamp e) w = Ret tt w' -> entry_seen p (LTimer e) w w'.
Proof using Type.
  intros Hrun. apply bind_inv_Ret in Hrun as (? & w1 & [= _ <-] & Hrun).
  eapply entry_seen_call; [exact Hrun|reflexivity|by apply goes_same].
Qed.

Lemma onSessionMessage_seen p h payload (w w' : world) :
  onSessionMessage service opts p (SessionMessageHeader_ClusterSessionId h) (SessionMessageHeader_Timestamp h) payload w = Ret tt w' ->
  entry_seen p (LMessage h payload) w w'.
Proof using Type.
  intros Hrun. apply bind_inv_Ret in Hrun as (? & w1 & [= _ <-] & Hrun).
  apply bind_inv_Ret in Hrun as (? & w1 & [= <- <-] & Hrun).
  eapply entry_seen_call; [exact Hrun| |by apply goes_same]. cbn. by rewrite lookup_fmap.
Qed.

Lemma onSessionClose_seen t p e (w w' : world) :
  onSessionClose service opts t p (SessionCloseEvent_ClusterSessionId e) (SessionCloseEvent_Timestamp e) (SessionCloseEvent_CloseReason e) w = Ret tt w' ->
  entry_seen p (LClose e) w w'.
Proof using Type.
  unfold onSessionClose. intros Hrun. do 2 (apply bind_inv_Ret in Hrun as (? & ? & [= <- <-] & Hrun)).
  cbn in Hrun. destruct (sessions (w_agent w) !! _) as [s|] eqn:Hs.
  - apply bind_inv_Ret in Hrun as (? & ? & [= <- <-] & Hrun). eapply entry_seen_call; [exact Hrun| |].
    + cbn. by rewrite lookup_fmap, Hs.
    + apply goes_same; try done. unfold seen, registry_of, shared_of, with_r_shared. cbn. by rewrite fmap_delete.
  - injection Hrun as <-. eapply entry_seen_one; [cbn; by rewrite lookup_fmap, Hs|]. cbn [fst snd]. rewrite app_nil_r.
    apply goes_same; try done. unfold seen, registry_of, shared_of, with_r_shared. cbn.
    by rewrite delete_id by (by rewrite lookup_fmap, Hs).
Qed.

Lemma onSessionOpen_seen t p e err (w w' : world) :
  onSessionOpen service opts t p (SessionOpenEvent_ClusterSessionId e) (SessionOpenEvent_Timestamp e) (SessionOpenEvent_ResponseStreamId e)
    (SessionOpenEvent_ResponseChannel e) (SessionOpenEvent_EncodedPrincipal e) w = Ret err w' ->
  err = None -> entry_seen p (LOpen e) w w'.
Proof using Type.
  unfold onSessionOpen. intros Hrun ->. do 2 (apply bind_inv_Ret in Hrun as (? & ? & [= <- <-] & Hrun)).
  cbn in Hrun. destruct (sessions (w_agent w) !! _); [discriminate|].
  apply bind_inv_Ret in Hrun as (made & w1 & Hm & Hrun). unfold newContainerClientSession, AddPublication, bind in Hm. cbn in Hm.
  destruct (w_publications w) as [|pub pubs]; [discriminate|]. destruct pub as [pub|err]; injection Hm as <- <-; [|discriminate].
  apply bind_inv_Ret in Hrun as (? & ? & [= <- <-] & Hrun). apply bind_inv_Ret in Hrun as ([] & w2 & Hrun & [= <-]).
  eapply entry_seen_call; [exact Hrun|reflexivity|].
  apply goes_same; try done. unfold seen, registry_of, shared_of, with_r_shared. cbn. by rewrite fmap_insert.
Qed.

Lemma onNewLeadershipTermEvent_seen p e (w w' : world) :
  onNewLeadershipTermEvent service opts (NewLeadershipTermEvent_LeadershipTermId e) (NewLeadershipTermEvent_LogPosition e)
    (NewLeadershipTermEvent_Timestamp e) (NewLeadershipTermEvent_TermBaseLogPosition e) (NewLeadershipTermEvent_LeaderMemberId e)
    (NewLeadershipTermEvent_LogSessionId e) (NewLeadershipTermEvent_TimeUnit e) (NewLeadershipTermEvent_AppVersion e) w = Ret tt w' ->
  entry_seen p (LTerm e) w w'.
Proof using Type.
  unfold onNewLeadershipTermEvent. destruct (negb _); [discriminate|]. intros Hrun.
  do 3 (apply bind_inv_Ret in Hrun as (? & ? & [= <- <-] & Hrun)).
  eapply entry_seen_call; [exact Hrun|reflexivity|by apply goes_same].
Qed.

(** An acknowledgement takes a number. *)
Definition acked (r : registry) : registry :=
  mkRegistry (r_shared r) (r_member r) (r_standby r) (r_active r) (i64 (r_nextAck r + 1)) (r_archives r).

Lemma acknowledged (logPos timestamp relevantId : Z) (w w' : world) :
  (let! id := getAndIncrementNextAckId in serviceAckRequest opts logPos timestamp id relevantId (ServiceId opts)) w = Ret tt w' ->
  goes (acked (seen w).1, (seen w).2) w w'.
Proof using Type.
  intros Hrun. apply bind_inv_Ret in Hrun as (id & w1 & [= _ <-] & Hrun).
  apply stays_Ret in Hrun; [|intros; apply stays_send_packet]. eapply goes_stays; [|exact Hrun]. by apply goes_same.
Qed.

Lemma ack_goes logPos relevantId (w w' : world) : ack opts logPos relevantId w = Ret tt w' -> goes (acked (seen w).1, (seen w).2) w w'.
Proof using Type. unfold ack. intros Hrun. apply bind_inv_Ret in Hrun as (t & ? & [= _ <-] & Hrun). by eapply acknowledged. Qed.

Definition terminated (r : registry) : registry :=
  mkRegistry (r_shared r) (r_member r) (r_standby r) false (i64 (r_nextAck r + 1)) (r_archives r).

Lemma terminate_goes (w w' : world) : terminate service opts w = Ret tt w' -> goes (terminated (seen w).1, (seen w).2 ++ [OnTerminate]) w w'.
Proof using Type.
  unfold terminate. intros Hrun. apply bind_inv_Ret in Hrun as ([] & w1 & [= <-] & Hrun).
  apply bind_inv_Ret in Hrun as ([] & w2 & Hc & Hrun). eapply call_after in Hc; [|by apply goes_same].
  apply bind_inv_Ret in Hrun as (? & ? & [= _ <-] & Hrun). apply bind_inv_Ret in Hrun as ([] & w3 & Ha & [= <-]).
  apply ack_goes in Ha. rewrite (proj1 Hc) in Ha. eapply goes_stays; [|by apply stays_same].
  by eapply goes_trans.
Qed.

Lemma onMembershipChange_seen p e (w w' : world) :
  onMembershipChange service opts (MembershipChangeEvent_LogPosition e) (MembershipChangeEvent_Timestamp e)
    (MembershipChangeEvent_ChangeType e) (MembershipChangeEvent_MemberId e) w = Ret tt w' -> entry_seen p (LMembership e) w w'.
Proof using Type.
  unfold onMembershipChange. intros Hrun. do 2 (apply bind_inv_Ret in Hrun as (? & ? & [= <- <-] & Hrun)).
  unfold entry_seen, outcomes, leaves. cbn [log_step]. cbn [seen registry_of fst r_member].
  change (memberId (w_agent _)) with (memberId (w_agent w)) in Hrun. destruct (_ && _); cbn [when] in Hrun.
  - eexists. rewrite list_elem_of_singleton. split; [reflexivity|]. apply terminate_goes in Hrun.
    eapply goes_trans; [|exact Hrun]. by apply goes_same.
  - eexists. rewrite list_elem_of_singleton. split; [reflexivity|]. injection Hrun as <-. cbn [fst snd]. rewrite app_nil_r. by apply goes_same.
Qed.

(** A snapshot takes an archive, and the service is called when it is there. *)
Lemma takeSnapshot_goes logPos term (w w' : world) taken :
  takeSnapshot service opts range_order logPos term w = Ret taken w' ->
  exists ar ars, w_archives w = ar :: ars /\ (forall rid, taken = inl rid -> records ar = true) /\
    let r := (seen w).1 in
    goes (mkRegistry (r_shared r) (r_member r) (r_standby r) (r_active r) (r_nextAck r) ars,
          (seen w).2 ++ (match taken with inl _ => [OnTakeSnapshot] | inr _ => [] end)) w w'.
Proof using Type.
  unfold takeSnapshot. intros Hrun. apply bind_inv_Ret in Hrun as (ar & w1 & Ha & Hrun). unfold NewArchive in Ha.
  destruct (w_archives w) as [|ar' ars] eqn:Ew; [discriminate|]. injection Ha as -> <-. exists ar, ars. split; [done|].
  unfold records. destruct (ar_connected ar) as [err|].
  { injection Hrun as <- <-. split; [done|]. rewrite app_nil_r. by apply goes_same. }
  destruct (ar_recording ar) as [[sid q]|err].
  2: { injection Hrun as <- <-. split; [done|]. rewrite app_nil_r. by apply goes_same. }
  split; [done|]. unfold recorded in Hrun.
  set (wa := with_w_snapshot (Some q) (with_w_archives ars w)) in *.
  match type of Hrun with match ?c wa with _ => _ end = _ => destruct (c wa) as [x wb|] eqn:Hb; [|discriminate] end.
  injection Hrun as <- <-. apply (goes_stays _ _ wb); [|by apply stays_same].
  apply bind_inv_Ret in Hb as (rec & w2 & Hr & Hb).
  assert (stays wa w2) as H2 by (unfold awaitRecordingId in Hr; do 2 (apply bind_inv_Ret in Hr as (? & ? & [= _ <-] & Hr));
    apply stays_Ret in Hr; [done|intros; apply stays_await_recording]).
  destruct rec as [rid|err].
  2: { injection Hb as <- <-. rewrite app_nil_r. eapply goes_stays; [|exact H2]. by apply goes_same. }
  apply bind_inv_Ret in Hb as (err & w3 & Hw & Hb). apply stays_Ret in Hw; [|intros; apply stays_write_snapshot].
  destruct err as [err|].
  { injection Hb as <- <-. rewrite app_nil_r. eapply goes_stays; [eapply goes_stays|exact Hw]; [|exact H2]. by apply goes_same. }
  apply bind_inv_Ret in Hb as (? & w4 & Hk & Hb). apply stays_Ret in Hk; [|intros; apply stays_checkForClockTick].
  apply bind_inv_Ret in Hb as ([] & w5 & Hc & [= <- <-]).
  match goal with |- goes (?r, _) _ _ => apply (call_after OnTakeSnapshot (r, (seen w).2) w w4 w5); [|exact Hc] end.
  do 3 (eapply goes_stays; [|eassumption]). by apply goes_same.
Qed.

Lemma onServiceAction_seen p e (w w' : world) :
  (let flags := if ClusterActionRequest_Flags e =? Sbe.NullValue ClusterActionRequest_Flags_field
                then clusterActionFlagsDefault else ClusterActionRequest_Flags e in
   onServiceAction service opts range_order (ClusterActionRequest_LeadershipTermId e) (ClusterActionRequest_LogPosition e)
     (ClusterActionRequest_Timestamp e) (ClusterActionRequest_Action e) flags) w = Ret tt w' -> entry_seen p (LAction e) w w'.
Proof using Type.
  cbv zeta. unfold onServiceAction. intros Hrun. do 2 (apply bind_inv_Ret in Hrun as (? & ? & [= <- <-] & Hrun)).
  unfold entry_seen, outcomes, asks_snapshot. cbn [log_step]. cbn [seen registry_of fst r_standby].
  match type of Hrun with when (_ && ?b) _ _ = _ => replace b with
    ((ClusterActionRequest_Flags e =? Sbe.NullValue ClusterActionRequest_Flags_field) || (ClusterActionRequest_Flags e =? 0) ||
     negb (Z.land (ClusterActionRequest_Flags e) (standbySnapshotFlags (w_agent w)) =? 0)) in Hrun end.
  2: { unfold shouldSnapshot, clusterActionFlagsDefault. change (standbySnapshotFlags (w_agent _)) with (standbySnapshotFlags (w_agent w)).
       change (Sbe.NullValue ClusterActionRequest_Flags_field) with (-2147483648). by destruct (_ =? -2147483648). }
  destruct (_ && _); cbn [when] in Hrun.
  2: { eexists. rewrite list_elem_of_singleton. split; [reflexivity|]. injection Hrun as <-. cbn [fst snd]. rewrite app_nil_r. by apply goes_same. }
  apply bind_inv_Ret in Hrun as (taken & w1 & Ht & Hrun). apply takeSnapshot_goes in Ht as (ar & ars & Ha & Hrec & Ht).
  change (r_archives (registry_of w)) with (w_archives w). cbn [w_archives with_w_agent] in Ha. rewrite Ha. apply acknowledged in Hrun. rewrite (proj1 Ht) in Hrun.
  destruct taken as [rid|err].
  - eexists (_, [OnTakeSnapshot]). split; [right; rewrite (Hrec rid eq_refl); by left|].
    eapply goes_trans; [|exact Hrun]. eapply goes_trans; [|exact Ht]. by apply goes_same.
  - eexists (_, []). split; [by left|]. eapply goes_trans; [|exact Hrun]. eapply goes_trans; [|exact Ht]. by apply goes_same.
Qed.

(** The handler for the template of a message. *)
Ltac dispatch :=
  repeat match goal with
    | |- context [SchemaId (header_of ?T) =? ?c] =>
        let v := eval vm_compute in (SchemaId (header_of T) =? c) in change (SchemaId (header_of T) =? c) with v
    | |- context [TemplateId (header_of ?T) =? ?c] =>
        let v := eval vm_compute in (TemplateId (header_of T) =? c) in change (TemplateId (header_of T) =? c) with v
    end; cbv beta iota delta [negb].

Local Abbreviation handled := (adapter_onMessage service opts range_order).

(** The message of an entry is the call of its handler: the fields are read where they were
    written. *)
Lemma message_handled p h payload hdr (w : world) :
  marshalled_as h hdr -> handled p (hdr ++ payload) w =
    onSessionMessage service opts p (SessionMessageHeader_ClusterSessionId h) (SessionMessageHeader_Timestamp h) payload w.
Proof using Type.
  intros (Hv & Hp). destruct (packet_inv h true hdr) as (Hh & Hd & Hl & _); [by vm_compute|done|].
  assert (message_header (hdr ++ payload) = header_of SessionMessageHeader) as Hh'.
  { rewrite <- Hh. unfold message_header. by rewrite !drop_app_le, !take_app_le by (rewrite ?length_drop; lia). }
  assert (drop 8 (hdr ++ payload) = le_split 8 (SessionMessageHeader_LeadershipTermId h) ++ le_split 8 (SessionMessageHeader_ClusterSessionId h) ++
    le_split 8 (SessionMessageHeader_Timestamp h) ++ payload) as Hd'.
  { rewrite drop_app_le by done. rewrite Hd. cbn [fixed_part data_part SessionMessageHeader_codec]. by rewrite app_nil_r, <- !app_assoc. }
  destruct Hv as (_ & Hs & Ht). match type of Hd' with _ = ?b => set (body := b) in Hd' end.
  assert (zlen body = 24 + zlen payload) as Hb by (subst body; unfold zlen; rewrite !length_app, !length_le_split; lia).
  pose proof (zlen_nonneg payload). unfold adapter_onMessage. cbv zeta. rewrite Hh', Hd'.
  rewrite (proj2 (Z.ltb_ge _ _)) by (unfold SBEHeaderLength, zlen; rewrite length_app; lia).
  rewrite (proj2 (Z.ltb_ge (zlen body) _)) by (unfold SessionMessageHeaderLength; lia).
  dispatch. subst body. rewrite (bind_Ret _ _ _ _ _ (get_int64_at 8 _ _ _ w (length_le_split _ _) Hs)).
  rewrite (app_assoc (le_split 8 _)).
  rewrite (bind_Ret _ _ w (SessionMessageHeader_Timestamp h) w) by (by apply get_int64_at).
  by rewrite drop_app_ge by (rewrite length_app, !length_le_split; lia).
Qed.

Lemma timer_handled p e bs (w : world) :
  marshalled_as e bs -> handled p bs w = onTimerEvent service opts p (TimerEvent_CorrelationId e) (TimerEvent_Timestamp e) w.
Proof using Type.
  intros (Hv & Hp). destruct (packet_inv e true bs) as (Hh & Hd & Hl & _); [by vm_compute|done|].
  unfold adapter_onMessage. cbv zeta. rewrite Hh, Hd.
  rewrite (proj2 (Z.ltb_ge _ _)) by (unfold SBEHeaderLength, zlen; lia). dispatch.
  destruct Hv as (_ & Hc & Ht). cbn [fixed_part data_part TimerEvent_codec]. rewrite <- !app_assoc.
  rewrite (bind_Ret _ _ _ _ _ (get_int64_at 8 _ _ _ w (length_le_split _ _) Hc)).
  rewrite (app_assoc (le_split 8 _)). by rewrite (bind_Ret _ _ w (TimerEvent_Timestamp e) w) by (by apply get_int64_at).
Qed.

Lemma close_handled p e bs (w : world) :
  marshalled_as e bs -> handled p bs w =
    onSessionClose service opts (SessionCloseEvent_LeadershipTermId e) p (SessionCloseEvent_ClusterSessionId e)
      (SessionCloseEvent_Timestamp e) (SessionCloseEvent_CloseReason e) w.
Proof using Type.
  intros (Hv & Hp). destruct (packet_inv e true bs) as (Hh & Hd & Hl & _); [by vm_compute|done|].
  unfold adapter_onMessage. cbv zeta. rewrite Hh, Hd.
  rewrite (proj2 (Z.ltb_ge _ _)) by (unfold SBEHeaderLength, zlen; lia). dispatch.
  destruct Hv as (Hterm & Hs & Ht & Hr). cbn [fixed_part data_part SessionCloseEvent_codec]. rewrite <- !app_assoc.
  rewrite (bind_Ret _ _ w (SessionCloseEvent_LeadershipTermId e) w) by (by apply (get_int64_at 0 _ [])).
  rewrite (bind_Ret _ _ _ _ _ (get_int64_at 8 _ _ _ w (length_le_split _ _) Hs)).
  rewrite (app_assoc (le_split 8 _)). rewrite (bind_Ret _ _ w (SessionCloseEvent_Timestamp e) w) by (by apply get_int64_at).
  rewrite (app_assoc (_ ++ _)). by rewrite (bind_Ret _ _ w (SessionCloseEvent_CloseReason e) w) by (by apply get_int32_at).
Qed.

Lemma open_handled p e bs (w : world) :
  marshalled_as e bs -> handled p bs w =
    (let! err := onSessionOpen service opts (SessionOpenEvent_LeadershipTermId e) p (SessionOpenEvent_ClusterSessionId e)
       (SessionOpenEvent_Timestamp e) (SessionOpenEvent_ResponseStreamId e) (SessionOpenEvent_ResponseChannel e)
       (SessionOpenEvent_EncodedPrincipal e) in
     match err with Some e => panic ("boundedLogAdapter: session open error: " +:+ e) | None => ret tt end) w.
Proof using Type.
  intros (Hv & Hp). destruct (packet_message e true bs) as (Hl & Hh & Hd & Hr); [by vm_compute|done|done|].
  unfold adapter_onMessage. cbv zeta. rewrite Hl, (Hd (Hr eq_refl)), Hh. by dispatch.
Qed.

Lemma term_handled p e bs (w : world) :
  marshalled_as e bs -> handled p bs w =
    onNewLeadershipTermEvent service opts (NewLeadershipTermEvent_LeadershipTermId e) (NewLeadershipTermEvent_LogPosition e)
      (NewLeadershipTermEvent_Timestamp e) (NewLeadershipTermEvent_TermBaseLogPosition e) (NewLeadershipTermEvent_LeaderMemberId e)
      (NewLeadershipTermEvent_LogSessionId e) (NewLeadershipTermEvent_TimeUnit e) (NewLeadershipTermEvent_AppVersion e) w.
Proof using Type.
  intros (Hv & Hp). destruct (packet_message e true bs) as (Hl & Hh & Hd & Hr); [by vm_compute|done|done|].
  unfold adapter_onMessage. cbv zeta. rewrite Hl, (Hd (Hr eq_refl)), Hh. by dispatch.
Qed.

Lemma action_handled p e bs (w : world) :
  marshalled_as e bs -> handled p bs w =
    (let flags := if ClusterActionRequest_Flags e =? Sbe.NullValue ClusterActionRequest_Flags_field
                  then clusterActionFlagsDefault else ClusterActionRequest_Flags e in
     onServiceAction service opts range_order (ClusterActionRequest_LeadershipTermId e) (ClusterActionRequest_LogPosition e)
       (ClusterActionRequest_Timestamp e) (ClusterActionRequest_Action e) flags) w.
Proof using Type.
  intros (Hv & Hp). destruct (packet_message e true bs) as (Hl & Hh & Hd & Hr); [by vm_compute|done|done|].
  unfold adapter_onMessage. cbv zeta. rewrite Hl, (Hd (Hr eq_refl)), Hh. by dispatch.
Qed.

Lemma membership_handled p e bs (w : world) :
  marshalled_as e bs -> handled p bs w =
    onMembershipChange service opts (MembershipChangeEvent_LogPosition e) (MembershipChangeEvent_Timestamp e)
      (MembershipChangeEvent_ChangeType e) (MembershipChangeEvent_MemberId e) w.
Proof using Type.
  intros (Hv & Hp). destruct (packet_message e true bs) as (Hl & Hh & Hd & Hr); [by vm_compute|done|done|].
  unfold adapter_onMessage. cbv zeta. rewrite Hl, (Hd (Hr eq_refl)), Hh. by dispatch.
Qed.

Lemma entry_handled p e bs (w w' : world) : encodes e bs -> handled p bs w = Ret tt w' -> entry_seen p e w w'.
Proof using Type.
  destruct e; cbn [encodes].
  - intros (hdr & Hm & ->). rewrite (message_handled _ _ _ _ _ Hm). apply onSessionMessage_seen.
  - intros Hm. rewrite (open_handled _ _ _ _ Hm). intros Hrun. apply bind_inv_Ret in Hrun as (err & w1 & Ho & Hrun).
    destruct err as [e'|]; [discriminate|]. injection Hrun as <-. by eapply onSessionOpen_seen.
  - intros Hm. rewrite (close_handled _ _ _ _ Hm). apply onSessionClose_seen.
  - intros Hm. rewrite (timer_handled _ _ _ _ Hm). apply onTimerEvent_seen.
  - intros Hm. rewrite (term_handled _ _ _ _ Hm). apply onNewLeadershipTermEvent_seen.
  - intros Hm. rewrite (action_handled _ _ _ _ Hm). apply onServiceAction_seen.
  - intros Hm. rewrite (membership_handled _ _ _ _ Hm). apply onMembershipChange_seen.
Qed.

(** ** When an entry is taken

    A session that opens is new, a term is of a compatible application, and the member is neither
    to take a snapshot nor to leave: these wait for the archive and the consensus module. *)
Definition entry_fits (e : log_entry) (r : registry) : Prop :=
  match e with
  | LOpen e => sh_sessions (r_shared r) !! SessionOpenEvent_ClusterSessionId e = None
  | LTerm e => SemanticVersionMajor (u32 (AppVersion opts)) = SemanticVersionMajor (u32 (NewLeadershipTermEvent_AppVersion e))
  | LAction e => asks_snapshot e (r_standby r) = false
  | LMembership e => leaves e (r_member r) = false
  | _ => True
  end.

Definition opens (e : log_entry) : nat := match e with LOpen _ => 1 | _ => 0 end.

(** A service whose calls return, whatever the world, and leave the publications that are to
    come to the sessions. *)
Definition calls_return : Prop :=
  forall c (w : world), exists w', call service opts c w = Ret tt w' /\ w_publications w' = w_publications w.

Ltac returning Hc := repeat (erewrite bind_Ret by reflexivity); match goal with |- context [call _ _ ?c ?w] => apply (Hc c w) end.

Lemma entry_returns p e bs pubs more (w : world) :
  calls_return -> encodes e bs -> entry_fits e (seen w).1 -> w_publications w = (inl <$> pubs) ++ more -> (opens e <= length pubs)%nat ->
  exists w', handled p bs w = Ret tt w' /\ w_publications w' = (inl <$> drop (opens e) pubs) ++ more.
Proof using Type.
  intros Hc He Hfit Hpubs Hn. destruct e as [h payload|e|e|e|e|e|e]; cbn [encodes opens entry_fits] in *; rewrite ?drop_0.
  - destruct He as (hdr & Hm & ->). rewrite (message_handled _ _ _ _ _ Hm), <- Hpubs. unfold onSessionMessage. returning Hc.
  - rewrite (open_handled _ _ _ _ He). unfold onSessionOpen. destruct pubs as [|pub pubs]; [simpl in Hn; lia|].
    cbn in Hfit. rewrite lookup_fmap, fmap_None in Hfit.
    unfold newContainerClientSession, AddPublication, set_position, on_agent, ask, ret, bind. cbn -[call].
    rewrite Hfit. cbn -[call]. rewrite Hpubs. cbn -[call].
    match goal with |- context [call _ _ ?c ?w] => destruct (Hc c w) as (w' & -> & Hw') end. by exists w'.
  - rewrite (close_handled _ _ _ _ He), <- Hpubs. unfold onSessionClose. do 2 (erewrite bind_Ret by reflexivity).
    destruct (_ !! _); [|by eexists]. returning Hc.
  - rewrite (timer_handled _ _ _ _ He), <- Hpubs. unfold onTimerEvent. returning Hc.
  - rewrite (term_handled _ _ _ _ He), <- Hpubs. unfold onNewLeadershipTermEvent. rewrite Hfit, Z.eqb_refl. cbn [negb]. returning Hc.
  - rewrite (action_handled _ _ _ _ He), <- Hpubs. cbv zeta. unfold onServiceAction. do 2 (erewrite bind_Ret by reflexivity).
    match goal with |- context [when ?b _ _] => replace b with false; [by eexists|] end.
    rewrite <- Hfit. unfold asks_snapshot, shouldSnapshot, clusterActionFlagsDefault. cbn [fst seen registry_of r_standby].
    change (standbySnapshotFlags (w_agent _)) with (standbySnapshotFlags (w_agent w)).
    change (Sbe.NullValue ClusterActionRequest_Flags_field) with (-2147483648). by destruct (_ =? -2147483648).
  - rewrite (membership_handled _ _ _ _ He), <- Hpubs. unfold onMembershipChange. do 2 (erewrite bind_Ret by reflexivity).
    change (memberId (w_agent _)) with (memberId (w_agent w)). unfold leaves in Hfit. cbn [fst seen registry_of r_member] in Hfit.
    rewrite Hfit. by eexists.
Qed.

(** ** The frames of the log *)

(** What a frame makes of the message that is gathered, and the message that it completes. *)
Definition gather (b : option bytes) (f : frame) : option bytes * option bytes :=
  if is_padding f then (b, None)
  else if has_flag adapter_unfragmented f then (b, Some (fr_data f))
  else if has_flag beginFrag f then (Some (fr_data f), None)
  else match b with
       | Some (x :: old) =>
           let msg := (x :: old) ++ fr_data f in
           if has_flag endFrag f then (Some [], Some msg) else (Some msg, None)
       | _ => (b, None)
       end.

(** The messages, each with the position behind it. *)
Fixpoint gathered (b : option bytes) (p : Z) (fs : list frame) : option bytes * list (Z * bytes) :=
  match fs with
  | [] => (b, [])
  | f :: fs =>
      let q := p + frame_space f in
      let '(b1, m) := gather b f in
      let '(b2, ms) := gathered b1 q fs in
      (b2, match m with Some m => (q, m) :: ms | None => ms end)
  end.

Definition carries (e : Z * log_entry) (m : Z * bytes) : Prop := e.1 = m.1 /\ encodes e.2 m.2.

Local Abbreviation on_frame := (adapter_onFragment service opts range_order).

(** The world with another builder. *)
Definition rebuilt (b : option bytes) (w : world) : world :=
  with_w_agent (with_logAdapter (with_la_builder b (logAdapter (w_agent w))) (w_agent w)) w.

Lemma rebuilt_stays b w : seen (rebuilt b w) = seen w /\ builder (rebuilt b w) = b /\ image_stays w (rebuilt b w).
Proof using Type.
  split_and!; [done..|]. unfold image_stays. change (image_of (rebuilt b w)) with (image_of w).
  destruct (image_of w) as [i|] eqn:E; [|done]. exists i, []. by rewrite app_nil_r.
Qed.

Lemma rebuilt_self w : rebuilt (builder w) w = w.
Proof using Type. unfold rebuilt, builder. destruct w as [a]; cbn. by destruct a as [? ? ? ? ? ? ? ? ? ? ? ? ? ? ? ? []]. Qed.

(** A frame without the end of a message goes to the builder at most. *)
Lemma frame_gathered q f b (w : world) :
  is_padding f = false -> gather (builder w) f = (b, None) -> on_frame q f w = Ret tt (rebuilt b w).
Proof using Type.
  unfold gather, adapter_onFragment. intros -> Hg. destruct (has_flag adapter_unfragmented f); [discriminate|].
  destruct (has_flag beginFrag f); [by injection Hg as <-|]. unfold bind, ask. fold (builder w).
  destruct (builder w) as [[|x old]|] eqn:Hb.
  - injection Hg as <-. by rewrite <- Hb, rebuilt_self.
  - destruct (has_flag endFrag f); [discriminate|]. by injection Hg as <-.
  - injection Hg as <-. by rewrite <- Hb, rebuilt_self.
Qed.

(** The end of a message: the message is handled. *)
Lemma frame_completes q f b m (w : world) :
  is_padding f = false -> gather (builder w) f = (b, Some m) ->
  b = builder w /\ on_frame q f w = handled q m w \/
  b = Some [] /\ on_frame q f w = (handled q m ;;; set_builder (Some [])) (rebuilt (Some m) w).
Proof using Type.
  unfold gather, adapter_onFragment. intros -> Hg. destruct (has_flag adapter_unfragmented f); [left; by injection Hg as <- <-|].
  destruct (has_flag beginFrag f); [discriminate|].
  destruct (builder w) as [[|x old]|] eqn:Hb; [discriminate| |discriminate].
  destruct (has_flag endFrag f); [|discriminate]. injection Hg as <- <-. right. split; [done|].
  unfold bind, ask. fold (builder w). by rewrite Hb.
Qed.

Lemma frame_entry q e f b m (w w' : world) :
  is_padding f = false -> gather (builder w) f = (b, Some m) -> encodes e m -> on_frame q f w = Ret tt w' ->
  exists o, o ∈ outcomes q e (seen w).1 /\ seen w' = (o.1, (seen w).2 ++ o.2) /\ builder w' = b /\ image_stays w w'.
Proof using Type.
  intros Hpad Hg He Hrun. destruct (frame_completes q f b m w Hpad Hg) as [[-> E]|[-> E]]; rewrite E in Hrun.
  - apply (entry_handled _ _ _ _ _ He) in Hrun as (o & Ho & Hs & Hb & Hi). by exists o.
  - apply bind_inv_Ret in Hrun as ([] & w1 & Hrun & [= <-]). apply (entry_handled _ _ _ _ _ He) in Hrun as (o & Ho & Hs & Hb & Hi).
    destruct (rebuilt_stays (Some m) w) as (Hs' & _ & _). rewrite Hs' in Ho, Hs. exists o. by split_and!.
Qed.

Lemma gathered_app b p fs1 fs2 :
  gathered b p (fs1 ++ fs2) =
  let '(b1, ms1) := gathered b p fs1 in
  let '(b2, ms2) := gathered b1 (p + seg_space fs1) fs2 in (b2, ms1 ++ ms2).
Proof using Type.
  revert b p. induction fs1 as [|f fs1 IH]; intros b p; cbn [gathered app seg_space].
  { rewrite Z.add_0_r. by destruct (gathered b p fs2). }
  destruct (gather b f) as [b1 m]. rewrite IH, Z.add_assoc.
  destruct (gathered b1 _ fs1) as [b2 ms1]. destruct (gathered b2 _ fs2) as [b3 ms2]. by destruct m.
Qed.

(** The messages end in the frames that they are gathered from. *)
Lemma gathered_positions b p fs : Forall (fun m => p < m.1 <= p + seg_space fs) (gathered b p fs).2.
Proof using Type.
  revert b p. induction fs as [|f fs IH]; intros b p; cbn [gathered seg_space]; [constructor|].
  destruct (gather b f) as [b1 m]. specialize (IH b1 (p + frame_space f)). destruct (gathered b1 _ fs) as [b2 ms].
  cbn [snd] in *. pose proof (frame_space_pos f). pose proof (seg_space_nonneg fs).
  assert (Forall (fun m : Z * bytes => p < m.1 <= p + (frame_space f + seg_space fs)) ms) by (eapply Forall_impl; [exact IH|]; simpl; lia).
  destruct m; [|done]. constructor; [simpl; lia|done].
Qed.

(** ** A poll *)

Local Abbreviation loop := (bounded_loop on_frame).

(** How far the limits let a poll come. *)
Definition polled_to (limit fl p n : Z) (fs : list frame) (r : Z * Z * nat) : Prop :=
  let '(n', p', j) := r in
  (j <= length fs)%nat /\ p' = p + seg_space (take j fs) /\ (j = length fs \/ fl <= n' \/ limit <= p').

Lemma loop_seen limit fl fs : forall p n es (w w' : world) r,
  Forall2 carries es (gathered (builder w) p fs).2 -> loop limit fl p n fs w = Ret r w' ->
  polled_to limit fl p n fs r /\
  exists es1 es2, es = es1 ++ es2 /\
    Forall2 carries es1 (gathered (builder w) p (take r.2 fs)).2 /\ builder w' = (gathered (builder w) p (take r.2 fs)).1 /\
    log_run es1 (seen w) (seen w') /\ image_stays w w'.
Proof using Type.
  induction fs as [|f fs IH]; intros p n es w w' r Hes Hrun; cbn [bounded_loop] in Hrun.
  { injection Hrun as <- <-. split; [cbn; lia|]. exists [], es. split_and!; first [done|constructor|apply image_stays_refl]. }
  destruct ((n <? fl) && (p <? limit)) eqn:Hlim.
  2: { injection Hrun as <- <-. split; [cbn; lia|]. exists [], es. split_and!; first [done|constructor|apply image_stays_refl]. }
  cbv zeta in Hrun. cbn [gathered] in Hes.
  assert (Hgo : forall n1 w1 es0 es1, es = es0 ++ es1 ->
    loop limit fl (p + frame_space f) n1 fs w1 = Ret (r.1.1, r.1.2, pred r.2) w' -> r.2 = S (pred r.2) ->
    builder w1 = (gather (builder w) f).1 -> log_run es0 (seen w) (seen w1) -> image_stays w w1 ->
    Forall2 carries es0 (match (gather (builder w) f).2 with Some m => [(p + frame_space f, m)] | None => [] end) ->
    Forall2 carries es1 (gathered (builder w1) (p + frame_space f) fs).2 ->
    polled_to limit fl p n (f :: fs) r /\
    exists es1 es2, es = es1 ++ es2 /\
      Forall2 carries es1 (gathered (builder w) p (take r.2 (f :: fs))).2 /\ builder w' = (gathered (builder w) p (take r.2 (f :: fs))).1 /\
      log_run es1 (seen w) (seen w') /\ image_stays w w').
  { intros n1 w1 es0 es1 -> Hl Hr Hb Hl0 Hi H0 H1. destruct (IH _ _ _ _ _ _ H1 Hl) as (Hp & es2 & es3 & -> & H2 & Hb' & Hl2 & Hi2).
    cbn [snd] in *. destruct r as [[n' p'] j]. cbn [fst snd] in *. rewrite Hr. cbn [take gathered polled_to length seg_space].
    cbn in Hp. split; [cbn; lia|]. exists (es0 ++ es2), es3. rewrite app_assoc. split; [done|].
    destruct (gather (builder w) f) as [b m]. cbn [fst snd] in *. rewrite Hb in *.
    destruct (gathered b (p + frame_space f) (take (pred j) fs)) as [b2 ms]. cbn [fst snd] in *.
    split_and!; [|try done..].
    2: by eapply log_run_app. 2: by eapply image_stays_trans.
    destruct m; inversion H0; subst; cbn; [|done]. match goal with H : Forall2 carries _ [] |- _ => inversion H; subst end. by constructor. }
  destruct (is_padding f) eqn:Hpad.
  - apply bind_inv_Ret in Hrun as ([[n' p'] j] & w1 & Hl & [= <- <-]).
    assert (gather (builder w) f = (builder w, None)) as Hg by (unfold gather; by rewrite Hpad).
    rewrite Hg in Hes, Hgo. apply (Hgo n w [] es); first [done|constructor|apply image_stays_refl|idtac].
    by destruct (gathered (builder w) _ fs).
  - apply bind_inv_Ret in Hrun as ([] & w1 & Hf & Hrun). apply bind_inv_Ret in Hrun as ([[n' p'] j] & w2 & Hl & [= <- <-]).
    destruct (gather (builder w) f) as [b [m|]] eqn:Hg.
    + destruct (gathered b (p + frame_space f) fs) as [b2 ms] eqn:Hgs. cbn [snd] in Hes. inversion Hes as [|[q e] ? es1 ? [Hq He] Hes1]; subst.
      cbn [fst snd] in Hq, He. subst q. destruct (frame_entry _ e _ _ _ _ _ Hpad Hg He Hf) as (o & Ho & Hs & Hb & Hi).
      apply (Hgo (n + 1) w1 [(p + frame_space f, e)] es1); try done.
      * exists o. by rewrite Hs.
      * by repeat constructor.
      * by rewrite Hb, Hgs.
    + rewrite (frame_gathered _ _ _ _ Hpad Hg) in Hf. injection Hf as <-. destruct (rebuilt_stays b w) as (Hs & Hb & Hi).
      destruct (gathered b (p + frame_space f) fs) as [b2 ms] eqn:Hgs. cbn [snd] in Hes.
      apply (Hgo (n + 1) (rebuilt b w) [] es); first [done|constructor|by rewrite Hb, Hgs].
Qed.

(** Whether the entries fit the registry that they find, and how many publications they need. *)
Fixpoint fits (es : list (Z * log_entry)) (r : registry) : Prop :=
  match es with
  | [] => True
  | (p, e) :: es => entry_fits e r /\ forall o, o ∈ outcomes p e r -> fits es o.1
  end.

Definition opened (es : list (Z * log_entry)) : nat := sum_list ((fun e => opens e.2) <$> es).

Lemma frame_entry_returns q e f b m pubs more (w : world) :
  calls_return -> is_padding f = false -> gather (builder w) f = (b, Some m) -> encodes e m ->
  entry_fits e (seen w).1 -> w_publications w = (inl <$> pubs) ++ more -> (opens e <= length pubs)%nat ->
  exists w', on_frame q f w = Ret tt w' /\ w_publications w' = (inl <$> drop (opens e) pubs) ++ more.
Proof using Type.
  intros Hc Hpad Hg He Hfit Hpubs Hn. destruct (frame_completes q f b m w Hpad Hg) as [[_ E]|[_ E]]; rewrite E.
  - by apply entry_returns.
  - destruct (entry_returns q e m pubs more (rebuilt (Some m) w)) as (w' & Hr & Hp); [done..|].
    rewrite (bind_Ret _ _ _ _ _ Hr). by eexists.
Qed.

Lemma loop_returns limit fl fs : calls_return -> forall p n es pubs more (w : world),
  Forall2 carries es (gathered (builder w) p fs).2 -> fits es (seen w).1 ->
  w_publications w = (inl <$> pubs) ++ more -> (opened es <= length pubs)%nat -> exists r w', loop limit fl p n fs w = Ret r w'.
Proof using Type.
  intros Hc. induction fs as [|f fs IH]; intros p n es pubs more w Hes Hfit Hpubs Hop; cbn [bounded_loop]; [by do 2 eexists|].
  destruct ((n <? fl) && (p <? limit)); [|by do 2 eexists]. cbv zeta. cbn [gathered] in Hes.
  assert (Hgo : forall n1 w1, (exists r w', loop limit fl (p + frame_space f) n1 fs w1 = Ret r w') ->
    exists r w', (let! r := loop limit fl (p + frame_space f) n1 fs in let '(n', p', k) := r in ret (n', p', S k)) w1 = Ret r w').
  { intros n1 w1 ([[n' p'] k] & w' & Hl). rewrite (bind_Ret _ _ _ _ _ Hl). by do 2 eexists. }
  destruct (is_padding f) eqn:Hpad.
  - apply Hgo, (IH _ _ es pubs more); try done. unfold gather in Hes. rewrite Hpad in Hes. by destruct (gathered (builder w) _ fs).
  - destruct (gather (builder w) f) as [b [m|]] eqn:Hg; destruct (gathered b (p + frame_space f) fs) as [b2 ms] eqn:Hgs; cbn [snd] in Hes.
    + inversion Hes as [|[q e] ? es1 ? [Hq He] Hes1]; subst. cbn [fst snd] in Hq, He. subst q. destruct Hfit as [Hfit Hfits].
      unfold opened in *. cbn in Hop.
      destruct (frame_entry_returns (p + frame_space f) e f b m pubs more w) as (w1 & Hf & Hp1); try done; [lia|].
      rewrite (bind_Ret _ _ _ _ _ Hf). destruct (frame_entry _ e _ _ _ _ _ Hpad Hg He Hf) as (o & Ho & Hs & Hb & _).
      apply Hgo, (IH _ _ es1 (drop (opens e) pubs) more); [rewrite Hb, Hgs; exact Hes1|rewrite Hs; exact (Hfits o Ho)|done|rewrite length_drop; lia].
    + rewrite (bind_Ret _ _ _ _ _ (frame_gathered _ _ _ _ Hpad Hg)). destruct (rebuilt_stays b w) as (Hs & Hb & _).
      apply Hgo, (IH _ _ es pubs more); [by rewrite Hb, Hgs|by rewrite Hs|done|done].
Qed.
End Entries.

(** ** The log *)

(** The log is a list of entries, each in the message that encodes it, and of padding frames. *)
Inductive log_item : Type :=
| Entry (e : log_entry) (bs : bytes)
| Padding (f : frame).

Definition item_ok (x : log_item) : Prop := match x with Entry e bs => encodes e bs | Padding f => is_padding f = true end.

Lemma encodes_nonempty e bs : encodes e bs -> bs <> [].
Proof.
  intros He ->. destruct e as [h payload|e|e|e|e|e|e]; cbn [encodes] in He; [destruct He as (hdr & (_ & Hp) & Happ)|destruct He as (_ & Hp)..];
    [symmetry in Happ; apply app_nil in Happ as [-> _]|..]; (apply packet_inv in Hp as (_ & _ & Hl & _); [simpl in Hl; lia|by vm_compute]).
Qed.

Section Frames.
Context (session stream termId : Z) (n : nat).

(** The entries in their frames, and where they end. *)
Definition item_frames (x : log_item) : list frame :=
  match x with
  | Entry _ bs => data_frames session stream termId (fragments n bs)
  | Padding f => [f]
  end.
Definition log_frames (items : list log_item) : list frame := mjoin (item_frames <$> items).

Fixpoint placed (p : Z) (items : list log_item) : list (Z * log_entry) :=
  match items with
  | [] => []
  | x :: items =>
      let q := p + seg_space (item_frames x) in
      match x with Entry e _ => (q, e) :: placed q items | Padding _ => placed q items end
  end.

Context (Hn : (0 < n)%nat).
Local Abbreviation frames := (data_frames session stream termId).

Lemma later_frame flags :
  flags = 0 \/ flags = 64 ->
  (Z.land flags adapter_unfragmented =? adapter_unfragmented) = false /\ (Z.land flags beginFrag =? beginFrag) = false.
Proof using Type. by intros [-> | ->]. Qed.

(** The fragments behind the first one are gathered behind what is there. *)
Lemma gathered_rest fuel : forall data x old p,
  (length data <= fuel)%nat -> data <> [] ->
  let fs := frames (fragments_from fuel n 0 data) in
  (gathered (Some (x :: old)) p fs).2 = [(p + seg_space fs, (x :: old) ++ data)].
Proof using Hn.
  induction fuel as [|fuel IH]; intros data x old p Hlen Hne fs; [destruct data; simpl in *; [done|lia]|].
  destruct data as [|y data]; [done|]. subst fs. cbn [fragments_from data_frames map seg_space gathered].
  fold (frames (fragments_from fuel n 0 (drop n (y :: data)))). unfold gather, is_padding, has_flag. cbn [fr_type fr_flags fr_data fst snd].
  change (DataFrameHeader.TypeData =? DataFrameHeader.TypePad) with false.
  destruct (later_frame (if (length (y :: data) <=? n)%nat then Z.lor 0 64 else 0)) as [-> ->]; [destruct (_ <=? _)%nat; auto|].
  destruct (Nat.leb_spec (length (y :: data)) n) as [Hle|Hgt].
  - change (Z.land (Z.lor 0 64) endFrag =? endFrag) with true. rewrite (take_ge (y :: data)), (drop_ge (y :: data)) by lia.
    assert (fragments_from fuel n 0 [] = []) as -> by (by destruct fuel). cbn [data_frames map gathered seg_space snd]. by rewrite Z.add_0_r.
  - change (Z.land 0 endFrag =? endFrag) with false. cbn [app].
    specialize (IH (drop n (y :: data)) x (old ++ take n (y :: data))). cbv zeta in IH.
    match goal with |- context [gathered _ ?q _] => specialize (IH q) end.
    destruct (gathered _ _ _) as [b2 ms]. cbn [snd] in *. rewrite IH.
    + rewrite <- Z.add_assoc. f_equal. f_equal. cbn [app]. by rewrite <- app_assoc, take_drop.
    + rewrite length_drop. simpl in *. lia.
    + intros E. apply (f_equal length) in E. rewrite length_drop in E. simpl in *. lia.
Qed.

(** A message in its frames is gathered from them, whatever was there before. *)
Lemma gathered_message b data p :
  data <> [] -> let fs := frames (fragments n data) in (gathered b p fs).2 = [(p + seg_space fs, data)].
Proof using Hn.
  intros Hne fs. destruct data as [|y data]; [done|]. unfold fragments in fs. subst fs.
  cbn [length fragments_from data_frames map seg_space gathered].
  fold (frames (fragments_from (length data) n 0 (drop n (y :: data)))). unfold gather, is_padding, has_flag. cbn [fr_type fr_flags fr_data fst snd].
  change (DataFrameHeader.TypeData =? DataFrameHeader.TypePad) with false. change (S (length data)) with (length (y :: data)).
  destruct (Nat.leb_spec (length (y :: data)) n) as [Hle|Hgt].
  - change (Z.land (Z.lor 128 64) adapter_unfragmented =? adapter_unfragmented) with true. rewrite (take_ge (y :: data)), (drop_ge (y :: data)) by lia.
    assert (fragments_from (length data) n 0 [] = []) as -> by (by destruct (length data)).
    cbn [data_frames map gathered seg_space snd]. by rewrite Z.add_0_r.
  - change (Z.land 128 adapter_unfragmented =? adapter_unfragmented) with false. change (Z.land 128 beginFrag =? beginFrag) with true.
    assert (exists old, take n (y :: data) = y :: old) as [old Hold] by (destruct n; [lia|by eexists]). rewrite Hold.
    pose proof (gathered_rest (length data) (drop n (y :: data)) y old) as Hrest. cbv zeta in Hrest.
    match goal with |- context [gathered (Some (y :: old)) ?q _] => specialize (Hrest q) end.
    destruct (gathered _ _ _) as [b2 ms]. cbn [snd] in *. rewrite Hrest.
    + rewrite <- Z.add_assoc. f_equal. f_equal. by rewrite <- Hold, take_drop.
    + rewrite length_drop. simpl. lia.
    + intros E. apply (f_equal length) in E. rewrite length_drop in E. simpl in *. lia.
Qed.

Lemma gathered_log items : forall b p, Forall item_ok items -> Forall2 carries (placed p items) (gathered b p (log_frames items)).2.
Proof using Hn.
  induction items as [|x items IH]; intros b p Hok; [constructor|]. apply Forall_cons in Hok as [Hx Hok].
  unfold log_frames. cbn [fmap list_fmap mjoin list_join]. fold (log_frames items). rewrite gathered_app.
  destruct x as [e bs|f]; cbn [item_ok] in Hx.
  - pose proof (gathered_message b bs p (encodes_nonempty _ _ Hx)) as Hm. cbv zeta in Hm. cbn [placed item_frames].
    destruct (gathered b p (frames _)) as [b1 ms1]. cbn [snd] in Hm. subst ms1. specialize (IH b1 (p + seg_space (frames (fragments n bs))) Hok).
    destruct (gathered b1 _ _) as [b2 ms2]. cbn [snd app] in *. by constructor.
  - cbn [placed item_frames gathered]. assert (gather b f = (b, None)) as -> by (unfold gather; by rewrite Hx).
    specialize (IH b (p + seg_space [f]) Hok). by destruct (gathered b (p + seg_space [f]) _) as [b2 ms2].
Qed.
End Frames.

(** The message that is under way behind some frames. *)
Definition held (b : option bytes) (fs : list frame) : option bytes := fold_left (fun b f => (gather b f).1) fs b.

Lemma gathered_held b p fs : (gathered b p fs).1 = held b fs.
Proof.
  revert b p. induction fs as [|f fs IH]; intros b p; [done|]. cbn [gathered held fold_left]. specialize (IH (gather b f).1 (p + frame_space f)).
  destruct (gather b f) as [b1 m]. cbn [fst] in *. by destruct (gathered b1 _ fs).
Qed.

Lemma gathered_app_messages b p fs1 fs2 :
  (gathered b p (fs1 ++ fs2)).2 = (gathered b p fs1).2 ++ (gathered (held b fs1) (p + seg_space fs1) fs2).2.
Proof.
  rewrite gathered_app, <- (gathered_held b p). destruct (gathered b p fs1) as [b1 ms1]. cbn [fst snd].
  by destruct (gathered b1 _ fs2).
Qed.

Lemma held_app b fs1 fs2 : held b (fs1 ++ fs2) = held (held b fs1) fs2.
Proof. apply fold_left_app. Qed.

(** The entries that end behind a position, up to another. *)
Definition between (p p' : Z) (es : list (Z * log_entry)) : list (Z * log_entry) :=
  List.filter (fun e => (p <? e.1) && (e.1 <=? p')) es.

Lemma between_app p p' es1 es2 : between p p' (es1 ++ es2) = between p p' es1 ++ between p p' es2.
Proof. apply List.filter_app. Qed.

Lemma between_all p p' es : Forall (fun e => p < e.1 <= p') es -> between p p' es = es.
Proof. induction 1 as [|e es He _ IH]; [done|]. cbn [between List.filter]. replace (_ && _) with true by lia. by f_equal. Qed.

Lemma between_none p p' es : Forall (fun e => e.1 <= p \/ p' < e.1) es -> between p p' es = [].
Proof. induction 1 as [|e es He _ IH]; [done|]. cbn [between List.filter]. by replace (_ && _) with false by lia. Qed.

(** Entries are where their messages are. *)
Lemma carried_positions es b p fs : Forall2 carries es (gathered b p fs).2 -> Forall (fun e => p < e.1 <= p + seg_space fs) es.
Proof.
  intros H. pose proof (gathered_positions b p fs) as Hf. revert Hf. induction H as [|e m es ms [He _] _ IH]; intros Hf; [constructor|].
  apply Forall_cons in Hf as [? ?]. constructor; [by rewrite He|by apply IH].
Qed.

Section Poll.
Context {Svc : Type} (service : Svc -> service_call -> program Svc) (opts : Options).
Context (range_order : gmap Z ClusterService.session -> list ClusterService.session).
Context (items : list log_item) (session stream_ termId : Z) (n : nat) (p0 : Z) (b0 : option bytes).
Context (Hn : (0 < n)%nat) (Hok : Forall item_ok items).
Local Abbreviation world := (@ClusterService.world Svc).
Local Abbreviation F := (log_frames session stream_ termId n items).
Local Abbreviation entries := (placed session stream_ termId n p0 items).

(** The position and the builder of a member that has read some of the frames. *)
Definition position_at (k : nat) : Z := p0 + seg_space (take k F).
Definition builder_at (k : nat) : option bytes := held b0 (take k F).

Lemma take_more k j fs : fs `prefix_of` drop k F -> (j <= length fs)%nat -> take (k + j) F = take k F ++ take j fs.
Proof using Type. intros [rest Hr] Hj. rewrite <- take_take_drop, Hr. by rewrite take_app_le. Qed.

(** The entries that the frames of a poll may complete. *)
Lemma entries_between k fs :
  fs `prefix_of` drop k F ->
  Forall2 carries (between (position_at k) (position_at k + seg_space fs) entries)
    (gathered (builder_at k) (position_at k) fs).2 /\
  forall j es1 es2, (j <= length fs)%nat ->
    between (position_at k) (position_at k + seg_space fs) entries = es1 ++ es2 ->
    Forall2 carries es1 (gathered (builder_at k) (position_at k) (take j fs)).2 ->
    es1 = between (position_at k) (position_at (k + j)) entries.
Proof using Hn Hok.
  intros Hpre. pose proof (gathered_log session stream_ termId n Hn items b0 p0 Hok) as Hall.
  destruct Hpre as [rest Hr]. assert (F = take k F ++ fs ++ rest) as EF by (by rewrite <- Hr, take_drop).
  rewrite EF in Hall at 1. rewrite !gathered_app_messages in Hall. fold (builder_at k) (position_at k) in Hall.
  apply Forall2_app_inv_r in Hall as (e0 & e12 & H0 & H12 & E). apply Forall2_app_inv_r in H12 as (e1 & e2 & H1 & H2 & ->).
  pose proof (carried_positions _ _ _ _ H0) as Q0. change (p0 + seg_space (take k F)) with (position_at k) in Q0.
  pose proof (carried_positions _ _ _ _ H1) as Q1.
  pose proof (carried_positions _ _ _ _ H2) as Q2. pose proof (seg_space_nonneg fs).
  rewrite E. assert (between (position_at k) (position_at k + seg_space fs) (e0 ++ e1 ++ e2) = e1) as E1.
  { rewrite !between_app, (between_all _ _ e1 Q1), (between_none _ _ e0), (between_none _ _ e2); [by rewrite app_nil_r| |];
      eapply Forall_impl; try done; simpl; lia. }
  rewrite E1. split; [done|]. intros j es1 es2 Hj -> Hes1.
  rewrite <- (take_drop j fs), gathered_app_messages in H1. apply Forall2_app_inv in H1 as [_ H2'].
  2: { by apply Forall2_length in Hes1. }
  pose proof (carried_positions _ _ _ _ Hes1) as R1.
  pose proof (carried_positions _ _ _ _ H2') as R2.
  assert (position_at (k + j) = position_at k + seg_space (take j fs)) as ->.
  { unfold position_at. rewrite (take_more k j fs), seg_space_app by (done || by exists rest). lia. }
  assert (seg_space fs = seg_space (take j fs) + seg_space (drop j fs)) as Efs by (by rewrite <- seg_space_app, take_drop).
  pose proof (seg_space_nonneg (take j fs)). pose proof (seg_space_nonneg (drop j fs)).
  rewrite !between_app, (between_all _ _ es1 R1), (between_none _ _ e0), (between_none _ _ es2), (between_none _ _ e2); [by rewrite !app_nil_r|..];
    eapply Forall_impl; try done; simpl; lia.
Qed.

(** A member that has read some frames of the log, with an open image that holds some of the
    frames that follow. *)
Record reads (k : nat) (i : log_image) (w : world) : Prop := {
  rd_image : image_of w = Some i;
  rd_closed : li_closed i = false;
  rd_position : li_position i = position_at k;
  rd_frames : li_frames i `prefix_of` drop k F;
  rd_builder : builder w = builder_at k }.

(** A poll comes as far as the commit position, the limit of the fragments and the frames let it. *)
Lemma poll_reads k i limit (w w' : world) r :
  reads k i w -> adapter_poll service opts range_order i limit w = Ret r w' ->
  exists j i' more, (j <= length (li_frames i))%nat /\
    (j = length (li_frames i) \/ LogFragmentLimit opts <= r \/ limit <= li_position i') /\
    image_of w' = Some i' /\ li_closed i' = false /\ li_position i' = position_at (k + j) /\
    li_frames i' = drop j (li_frames i) ++ more /\ stream w' = drop j (stream w) /\ builder w' = builder_at (k + j) /\
    log_run (between (li_position i) (li_position i') entries) (seen w) (seen w').
Proof using Hn Hok.
  intros [Hi Hc Hp Hf Hb] Hrun. unfold adapter_poll in Hrun. rewrite Hc in Hrun.
  apply bind_inv_Ret in Hrun as ([[r' p'] j] & w1 & Hl & Hrun). apply bind_inv_Ret in Hrun as ([] & w2 & [= <-] & [= -> <-]).
  destruct (entries_between k (li_frames i) Hf) as [Hes Hcut]. rewrite <- Hb, <- Hp in Hes.
  destruct (loop_seen _ _ _ _ _ _ _ _ _ _ _ _ Hes Hl) as ((Hj & Hp' & Hstop) & es1 & es2 & E & He1 & Hb1 & Hrun & Hst). cbn [snd] in *.
  rewrite Hb, Hp in He1. rewrite Hp in E. apply (Hcut j es1 es2 Hj E) in He1 as ->.
  assert (p' = position_at (k + j)) as ->.
  { rewrite Hp', Hp. unfold position_at. rewrite (take_more k j (li_frames i)), seg_space_app by done. lia. }
  unfold image_stays in Hst. rewrite Hi in Hst. destruct Hst as (i1 & more & Hi1 & Hses & Hpos & Hcl & Hfr & Hstr).
  exists j, (mkImage (li_session i1) (position_at (k + j)) (drop j (li_frames i1)) (li_endOfStream i1) (li_closed i1)), more.
  assert (forall w2 : world, w2 = with_w_agent (with_logAdapter (image_moved (position_at (k + j)) j (logAdapter (w_agent w1))) (w_agent w1)) w1 ->
    image_of w2 = Some (mkImage (li_session i1) (position_at (k + j)) (drop j (li_frames i1)) (li_endOfStream i1) (li_closed i1)) /\
    builder w2 = builder w1 /\ seen w2 = seen w1 /\ w_ticks w2 = w_ticks w1) as Hmoved.
  { intros w2 ->. unfold image_of, builder, image_moved in *. cbn. by rewrite Hi1. }
  destruct (Hmoved _ eq_refl) as (Hi2 & Hb2 & Hs2 & Ht2). cbn [li_position li_closed li_frames]. split_and!; try done.
  - congruence.
  - by rewrite Hfr, drop_app_le.
  - unfold stream in *. rewrite Hi2, Ht2, Hi in *. rewrite Hi1 in Hstr. cbn [li_frames]. rewrite <- Hstr, drop_app_le; [done|].
    rewrite Hfr, length_app. lia.
  - rewrite Hb2, Hb1, Hb, gathered_held. unfold builder_at. by rewrite (take_more k j (li_frames i)), held_app.
  - by rewrite Hs2, Hp.
Qed.
End Poll.

(** ** Rounds of work *)

(** The calls that are made for the log, on every member alike. *)
Definition of_log (c : service_call) : bool :=
  match c with
  | OnSessionOpen _ _ | OnSessionClose _ _ _ | OnSessionMessage _ _ _ | OnTimerEvent _ _ | OnNewLeadershipTermEvent _ _ _ _ _ _ _ _ => true
  | _ => false
  end.
Definition log_calls (cs : list service_call) : list service_call := List.filter of_log cs.

(** What the members have in common. *)
Definition common (s : sight) : shared * list service_call := (r_shared s.1, log_calls s.2).

Fixpoint log_steps (es : list (Z * log_entry)) (s : shared * list service_call) : shared * list service_call :=
  match es with
  | [] => s
  | (p, e) :: es => let '(s1, cs1) := log_step p e s.1 in log_steps es (s1, s.2 ++ cs1)
  end.

Lemma log_steps_app es1 es2 s : log_steps (es1 ++ es2) s = log_steps es2 (log_steps es1 s).
Proof. revert s. induction es1 as [|[p e] es1 IH]; intros s; cbn [log_steps app]; [done|]. destruct (log_step p e s.1). apply IH. Qed.

Lemma log_steps_calls es s : s.2 `prefix_of` (log_steps es s).2.
Proof.
  revert s. induction es as [|[p e] es IH]; intros s; cbn [log_steps]; [done|]. destruct (log_step p e s.1) as [s1 cs1].
  etrans; [|apply IH]. by exists cs1.
Qed.

(** Whatever an entry does on a member, what it does on all of them is the same. *)
Lemma outcomes_common p e r o : o ∈ outcomes p e r -> (r_shared o.1, log_calls o.2) = log_step p e (r_shared r).
Proof.
  unfold outcomes. destruct (log_step p e (r_shared r)) as [s cs] eqn:E.
  assert (log_calls cs = cs) as Hcs.
  { destruct e; injection E as <- <-; try done. by destruct (sh_sessions _ !! _). }
  assert (forall r', o ∈ [(with_r_shared r' r, cs)] -> r' = s -> (r_shared o.1, log_calls o.2) = (s, cs)) as H1.
  { intros r' Ho%list_elem_of_singleton ->. subst o. cbn [fst snd]. by rewrite Hcs. }
  destruct e; try (intros Ho; by eapply H1).
  - assert (cs = []) as -> by (by injection E). destruct (asks_snapshot e (r_standby r)); [|intros Ho; by eapply H1].
    destruct (r_archives r) as [|ar ars]; [by intros ?%elem_of_nil|]. intros [->|Ho]%elem_of_cons; [done|].
    destruct (records ar); [|by apply elem_of_nil in Ho]. by apply list_elem_of_singleton in Ho as ->.
  - assert (cs = []) as -> by (by injection E). destruct (leaves e (r_member r)); [|intros Ho; by eapply H1].
    by intros ->%list_elem_of_singleton.
Qed.

Lemma log_calls_app cs1 cs2 : log_calls (cs1 ++ cs2) = log_calls cs1 ++ log_calls cs2.
Proof. apply List.filter_app. Qed.

Lemma log_run_common es s s' : log_run es s s' -> common s' = log_steps es (common s).
Proof.
  revert s. induction es as [|[p e] es IH]; intros s; cbn [log_run log_steps]; [by intros ->|].
  intros (o & Ho & Hrun). apply outcomes_common in Ho. rewrite (IH _ Hrun). unfold common at 2. cbn [fst].
  rewrite <- Ho. unfold common. cbn [fst snd]. by rewrite log_calls_app.
Qed.

(** What is between is cut anywhere. *)
Lemma between_split a b c es :
  StronglySorted (fun e f : Z * log_entry => e.1 <= f.1) es -> a <= b -> b <= c -> between a c es = between a b es ++ between b c es.
Proof.
  intros Hs Hab Hbc. induction Hs as [|e es _ IH Hf]; [done|]. unfold between in *. cbn [List.filter].
  destruct (Z.le_gt_cases e.1 b) as [Hle|Hgt].
  - replace (b <? e.1) with false by lia. cbn [andb]. replace (e.1 <=? c) with true by lia. replace (e.1 <=? b) with true by lia.
    destruct (a <? e.1); cbn [andb app]; by rewrite IH.
  - assert (List.filter (fun e0 : Z * log_entry => (a <? e0.1) && (e0.1 <=? b)) es = []) as E.
    { apply between_none. eapply Forall_impl; [exact Hf|]. simpl. lia. }
    replace (e.1 <=? b) with false by lia. rewrite andb_false_r, E in *. cbn [app] in *.
    replace (a <? e.1) with true by lia. replace (b <? e.1) with true by lia. by rewrite IH.
Qed.

Lemma placed_sorted session stream_ termId n items : forall p,
  Forall (fun e : Z * log_entry => p <= e.1) (placed session stream_ termId n p items) /\
  StronglySorted (fun e f : Z * log_entry => e.1 <= f.1) (placed session stream_ termId n p items).
Proof.
  induction items as [|x items IH]; intros p; cbn [placed]; [by split; constructor|].
  destruct (IH (p + seg_space (item_frames session stream_ termId n x))) as [Hf Hs].
  pose proof (seg_space_nonneg (item_frames session stream_ termId n x)).
  assert (Forall (fun e : Z * log_entry => p <= e.1) (placed session stream_ termId n (p + seg_space (item_frames session stream_ termId n x)) items))
    by (eapply Forall_impl; [exact Hf|]; simpl; lia).
  destruct x; [|done]. split; constructor; [cbn [fst]; lia|done|done|exact Hf].
Qed.

Section Rounds.
Context {Svc : Type} (service : Svc -> service_call -> program Svc) (opts : Options).
Context (range_order : gmap Z ClusterService.session -> list ClusterService.session).
Local Abbreviation world := (@ClusterService.world Svc).

(** Rounds of work, with the image of the log open behind each. *)
Inductive rounds : world -> world -> Prop :=
| rounds_done w : rounds w w
| rounds_more w w1 w2 r : DoWork service opts range_order w = Ret r w1 -> is_Some (image_of w1) -> rounds w1 w2 -> rounds w w2.

(** What a member has in common with the others stays, and it is where it was in the log. *)
Definition kept (w w' : world) : Prop := common (seen w') = common (seen w) /\ builder w' = builder w /\ image_stays w w'.

#[global] Instance kept_preorder : PreOrder kept.
Proof using Type.
  split.
  - intros w. split_and!; [done..|apply image_stays_refl].
  - intros w1 w2 w3 (? & ? & ?) (? & ? & ?). split_and!; [congruence..|by eapply image_stays_trans].
Qed.

Lemma stays_kept w w' : stays w w' -> kept w w'.
Proof using Type. intros (Hs & ? & ?). split_and!; [by rewrite Hs|done..]. Qed.

Section Keeping.
Context (w0 : world).

Lemma kept_stays {X} (c : @ClusterService.A Svc X) : (forall w1, keeps (stays w1) c) -> keeps (kept w0) c.
Proof using Type.
  intros Hc w Hw. specialize (Hc w w ltac:(reflexivity)). destruct (c w); [|done]. etrans; [exact Hw|by apply stays_kept].
Qed.
Lemma kept_modify (f : world -> world) : (forall w, kept w (f w)) -> keeps (kept w0) (modify f).
Proof using Type. intros Hf w Hw. cbn. by etrans. Qed.
Lemma kept_on_agent (f : agent -> agent) : (forall w : world, kept w (with_w_agent (f (w_agent w)) w)) -> keeps (kept w0) (on_agent f).
Proof using Type. intros Hf w Hw. cbn. by etrans. Qed.
Lemma kept_same (w w' : world) :
  common (seen w') = common (seen w) -> builder w' = builder w -> image_of w' = image_of w -> stream w' = stream w -> kept w w'.
Proof using Type.
  intros. split_and!; [done..|]. unfold image_stays. destruct (image_of w) as [i|] eqn:E; [|done].
  exists i, []. rewrite app_nil_r. split_and!; done.
Qed.
(** A call of the service that is not for the log. *)
Lemma kept_call c : of_log c = false -> keeps (kept w0) (call service opts c).
Proof using Type.
  intros Hc w Hw. destruct (call service opts c w) as [[] w'|] eqn:Hrun; [|done]. etrans; [exact Hw|].
  apply call_goes in Hrun as (Hs & Hb & Hi). split_and!; [|done..]. rewrite Hs. unfold common. cbn [fst snd].
  rewrite log_calls_app. destruct c; try discriminate; cbn; by rewrite app_nil_r.
Qed.

#[local] Hint Resolve kept_call : keeps.
#[local] Hint Extern 2 (of_log _ = false) => reflexivity : keeps.
#[local] Hint Extern 1 (keeps (kept _) (send_packet _)) => apply kept_stays; intros; apply stays_send_packet : keeps.
#[local] Hint Extern 1 (keeps (kept _) checkForClockTick) => apply kept_stays; intros; apply stays_checkForClockTick : keeps.

Ltac keeps_going :=
  repeat (cbv beta zeta;
    first
    [ solve [auto 3 with keeps nocore]
    | lazymatch goal with
      | |- keeps _ (bind _ _) => apply keeps_bind; [|intros ?]
      | |- keeps _ (ret _) => apply keeps_ret
      | |- keeps _ (raise _) => apply keeps_raise
      | |- keeps _ (panic _) => apply keeps_raise
      | |- keeps _ (ask _) => apply keeps_ask
      | |- keeps _ (look _) => apply keeps_look
      | |- keeps _ (when _ _) => apply keeps_when
      | |- keeps _ (match ?x with _ => _ end) => destruct x
      | |- keeps _ (modify _) => apply kept_modify; intros ?; apply kept_same; reflexivity
      | |- keeps _ (on_agent _) => apply kept_on_agent; intros ?; apply kept_same; reflexivity
      end ]).

Lemma kept_ack logPos relevantId : keeps (kept w0) (ack opts logPos relevantId).
Proof using Type. unfold ack, getAndIncrementNextAckId, serviceAckRequest. keeps_going. Qed.
#[local] Hint Resolve kept_ack : keeps.
Lemma kept_terminate : keeps (kept w0) (terminate service opts).
Proof using Type. unfold terminate. keeps_going. Qed.
#[local] Hint Resolve kept_terminate : keeps.
Lemma kept_service_onFragment fr : keeps (kept w0) (service_onFragment fr).
Proof using Type. unfold service_onFragment, onJoinLog, onServiceTerminationPosition, onRequestServiceAck, get_int64. keeps_going. Qed.
Lemma kept_poll_frames limit fs : forall n, keeps (kept w0) (poll_frames service_onFragment limit n fs).
Proof using Type. pose proof kept_service_onFragment. induction fs as [|fr fs IH]; intros n; cbn [poll_frames]; keeps_going. Qed.
Lemma kept_service_poll : keeps (kept w0) service_poll.
Proof using Type. pose proof kept_poll_frames. unfold service_poll. keeps_going. Qed.
(** What follows the check for a log to join. *)
Lemma kept_rest :
  keeps (kept w0)
    (let! p := ask logPosition in
     let! t := ask terminationPosition in
     when (negb (t =? NullPosition) && (p >=? t)) (terminate service opts) ;;;
     let! p := ask logPosition in
     let! r := ask requestedAckPosition in
     when (negb (r =? NullPosition) && (p >=? r))
       (ack opts p NullValue ;;; on_agent (with_requestedAckPosition NullPosition))).
Proof using Type. keeps_going. Qed.
Lemma kept_setRole r : keeps (kept w0) (setRole service opts r).
Proof using Type. unfold setRole. keeps_going. Qed.
End Keeping.

Lemma closeLog_closes i (w w' : world) : closeLog service opts i w = Ret tt w' -> image_of w' = None.
Proof using Type.
  intros Hrun. apply bind_inv_Ret in Hrun as ([] & w1 & _ & Hrun). apply bind_inv_Ret in Hrun as ([] & w2 & [= E] & Hrun).
  apply (keeps_Ret _ _ _ _ _ (kept_setRole w2 Follower)) in Hrun as (_ & _ & Hst); [|reflexivity].
  unfold image_stays in Hst. by rewrite <- E in Hst.
Qed.

(** With an image, the agent joins no other log. *)
Lemma pollServiceAdapter_kept (w w' : world) :
  is_Some (image_of w) -> pollServiceAdapter service opts w = Ret tt w' -> kept w w'.
Proof using Type.
  intros [i Hi] Hrun. unfold pollServiceAdapter in Hrun. apply bind_inv_Ret in Hrun as (? & w1 & Hp & Hrun).
  apply (keeps_Ret _ _ _ _ _ (kept_service_poll w)) in Hp; [|reflexivity].
  apply bind_inv_Ret in Hrun as (event & ? & [= <- <-] & Hrun). apply bind_inv_Ret in Hrun as (la & ? & [= <- <-] & Hrun).
  assert (exists i1, image_of w1 = Some i1) as [i1 Hi1].
  { destruct Hp as (_ & _ & Hst). unfold image_stays in Hst. rewrite Hi in Hst. destruct Hst as (i1 & _ & ? & _). by exists i1. }
  apply bind_inv_Ret in Hrun as ([] & w2 & Hj & Hrun). fold (image_of w1) in Hj. rewrite Hi1 in Hj.
  assert (w2 = w1) as -> by (destruct (activeLogEvent (w_agent w1)) in Hj; by injection Hj).
  apply (keeps_Ret _ _ _ _ _ (kept_rest w)) in Hrun; done.
Qed.
End Rounds.

Section Members.
Context (items : list log_item) (session stream_ termId : Z) (n : nat) (p0 : Z) (b0 : option bytes).
Context (Hn : (0 < n)%nat) (Hok : Forall item_ok items).
Context {Svc : Type} (service : Svc -> service_call -> program Svc) (opts : Options).
Context (range_order : gmap Z ClusterService.session -> list ClusterService.session).
Local Abbreviation world := (@ClusterService.world Svc).
Local Abbreviation F := (log_frames session stream_ termId n items).
Local Abbreviation entries := (placed session stream_ termId n p0 items).
Local Abbreviation pos := (position_at items session stream_ termId n p0).

(** A member that has read some of the frames; what its image holds and what is still to arrive
    is the log. *)
Definition follows (k : nat) (w : world) : Prop :=
  exists i, image_of w = Some i /\ li_position i = pos k /\ stream w `prefix_of` drop k F /\ builder w = builder_at items session stream_ termId n b0 k.

Lemma kept_follows k w w' : kept w w' -> follows k w -> follows k w'.
Proof using Type.
  intros (_ & Hb & Hst) (i & Hi & Hp & Hs & Hbk). unfold image_stays in Hst. rewrite Hi in Hst.
  destruct Hst as (i' & more & Hi' & _ & Hp' & _ & _ & Hs'). exists i'. split_and!; congruence.
Qed.

Lemma poll_follows k i limit (w w' : world) r :
  follows k w -> image_of w = Some i -> adapter_poll service opts range_order i limit w = Ret r w' ->
  exists j, follows (k + j) w' /\ pos k <= pos (k + j) /\
    common (seen w') = log_steps (between (pos k) (pos (k + j)) entries) (common (seen w)).
Proof using Hn Hok.
  intros (i1 & Hi1 & Hp & Hs & Hb) Hi Hrun. rewrite Hi in Hi1. injection Hi1 as <-. destruct (li_closed i) eqn:Hc.
  - unfold adapter_poll in Hrun. rewrite Hc in Hrun. injection Hrun as _ <-. exists 0%nat. rewrite Nat.add_0_r.
    split_and!; [by exists i|lia|]. by rewrite between_none by (apply Forall_true; lia).
  - assert (li_frames i `prefix_of` drop k F) as Hf.
    { etrans; [|exact Hs]. unfold stream. rewrite Hi. by eexists. }
    destruct (poll_reads service opts range_order items session stream_ termId n p0 b0 Hn Hok k i limit w w' r) as
      (j & i' & more & Hj & _ & Hi' & _ & Hp' & _ & Hs' & Hb' & Hrun'); [by split|exact Hrun|].
    exists j. split_and!.
    + exists i'. split_and!; try done. rewrite Hs', <- drop_drop. destruct Hs as [rest ->]. rewrite drop_app_le; [by eexists|].
      unfold stream. rewrite Hi, length_app. lia.
    + unfold position_at. rewrite (take_more _ _ _ _ _ k j (li_frames i)), seg_space_app by done.
      pose proof (seg_space_nonneg (take j (li_frames i))). lia.
    + apply log_run_common in Hrun'. by rewrite Hrun', Hp, Hp'.
Qed.

(** A round of work that leaves the image open. *)
Lemma round_follows k (w w' : world) r :
  follows k w -> DoWork service opts range_order w = Ret r w' -> is_Some (image_of w') ->
  exists j, follows (k + j) w' /\ pos k <= pos (k + j) /\
    common (seen w') = log_steps (between (pos k) (pos (k + j)) entries) (common (seen w)).
Proof using Hn Hok.
  intros Hf Hrun Hopen. unfold DoWork in Hrun. apply bind_inv_Ret in Hrun as (ticked & w1 & Ht & Hrun).
  apply stays_Ret in Ht; [|intros; apply stays_checkForClockTick]. apply stays_kept in Ht.
  pose proof (kept_follows _ _ _ Ht Hf) as Hf1. apply bind_inv_Ret in Hrun as ([] & w2 & Hp & Hrun).
  assert (kept w1 w2) as Hk2.
  { destruct ticked; [|injection Hp as <-; reflexivity]. destruct Hf1 as (i1 & Hi1 & _). eapply pollServiceAdapter_kept; [|exact Hp]. by eexists. }
  pose proof (kept_follows _ _ _ Hk2 Hf1) as Hf2. pose proof Hf2 as (i & Hi & _).
  apply bind_inv_Ret in Hrun as (la & ? & [= <- <-] & Hrun). fold (image_of w2) in Hrun. rewrite Hi in Hrun.
  apply bind_inv_Ret in Hrun as (commit & ? & [= <- <-] & Hrun). destruct (commitPosition (w_agent w2)) as [id|]; [|discriminate].
  apply bind_inv_Ret in Hrun as (cs & ? & [= <- <-] & Hrun). apply bind_inv_Ret in Hrun as (polled & w3 & Hpoll & Hrun).
  destruct (poll_follows _ _ _ _ _ _ Hf2 Hi Hpoll) as (j & Hf3 & Hle & Hc). pose proof Hf3 as (i3 & Hi3 & _).
  apply bind_inv_Ret in Hrun as (la3 & ? & [= <- <-] & Hrun). apply bind_inv_Ret in Hrun as ([] & w4 & Hclose & [= _ <-]).
  fold (image_of w3) in Hclose. rewrite Hi3 in Hclose. destruct ((polled =? 0) && _); cbn [when] in Hclose.
  - apply closeLog_closes in Hclose. rewrite Hclose in Hopen. by destruct Hopen.
  - injection Hclose as <-. exists j. split_and!; [done..|]. rewrite Hc. destruct Hk2 as [-> _], Ht as [-> _]. done.
Qed.

Lemma rounds_follow k (w w' : world) :
  follows k w -> rounds service opts range_order w w' ->
  exists j, follows (k + j) w' /\ pos k <= pos (k + j) /\
    common (seen w') = log_steps (between (pos k) (pos (k + j)) entries) (common (seen w)).
Proof using Hn Hok.
  intros Hf Hr. revert k Hf. induction Hr as [w|w w1 w2 r Hw Ho Hr IH]; intros k Hf.
  - exists 0%nat. rewrite Nat.add_0_r. split_and!; [done|lia|]. by rewrite between_none by (apply Forall_true; lia).
  - destruct (round_follows _ _ _ _ Hf Hw Ho) as (j & Hf1 & Hle & Hc). destruct (IH _ Hf1) as (j2 & Hf2 & Hle2 & Hc2).
    exists (j + j2)%nat. rewrite Nat.add_assoc. split_and!; [done|lia|]. rewrite Hc2, Hc, <- log_steps_app. f_equal.
    symmetry. apply between_split; [apply placed_sorted|done|done].
Qed.
End Members.

(** A member at the start of a log. *)
Definition starts {Svc} (p0 : Z) (fs : list frame) (w : @world Svc) : Prop :=
  exists i, image_of w = Some i /\ li_position i = p0 /\ stream w `prefix_of` fs.

Lemma starts_follows {Svc} items session stream_ termId n p0 (w : @world Svc) :
  starts p0 (log_frames session stream_ termId n items) w -> follows items session stream_ termId n p0 (builder w) 0 w.
Proof. intros (i & Hi & Hp & Hs). exists i. unfold position_at, builder_at. rewrite Z.add_0_r, drop_0. by split_and!. Qed.


