(* ===== verification/ClusterClient.v ===== *)
(** * The client of a cluster

    cluster/client/aeron_cluster.go: a client that finds the leader of the cluster among its
    members, opens a session, sends messages to the leader and receives those of the service.
    What comes from outside is in the world: the readings of the clock, the publications that
    the driver client hands out with the answers of their offers, the frames of the egress
    stream. The calls of the listener are recorded; a listener does not call back here. *)

From S2P Require Import Prelude Sbe SbePacket Bits Publication.
From S2P Require Import Memory Flyweight LogBuffer TermSpec Reader FragmentAssembler ChannelUri ArchiveProxy Archive.
From S2P Require Import ClusterCodecs ClusterPackets ClusterService.
From Stdlib Require Import Ascii.

Local Open Scope m_scope.

Local Abbreviation bytes := (list Init.Byte.byte).

(** ** Strings *)

(** [strings.Split] at a byte *)
Fixpoint split_at (sep : ascii) (s : string) : list string :=
  match s with
  | EmptyString => [EmptyString]
  | String c s =>
      if decide (c = sep) then EmptyString :: split_at sep s
      else match split_at sep s with
           | x :: xs => String c x :: xs
           | [] => [String c EmptyString]
           end
  end.

(** [strings.IndexByte]: what is before and behind the first one *)
Fixpoint cut_at (sep : ascii) (s : string) : option (string * string) :=
  match s with
  | EmptyString => None
  | String c s =>
      if decide (c = sep) then Some (EmptyString, s)
      else match cut_at sep s with
           | Some (a, b) => Some (String c a, b)
           | None => None
           end
  end.

Definition digit (c : ascii) : option Z :=
  let d := Z.of_N (N_of_ascii c) - 48 in if (0 <=? d) && (d <=? 9) then Some d else None.

Fixpoint digits (s : string) (acc : Z) : option Z :=
  match s with
  | EmptyString => Some acc
  | String c s => match digit c with Some d => digits s (acc * 10 + d) | None => None end
  end.

(** [strconv.ParseInt(s, 10, 32)] *)
Definition ParseInt32 (s : string) : option Z :=
  let '(sign, s) := match s with
                    | String "-" s => (-1, s)
                    | String "+" s => (1, s)
                    | _ => (1, s)
                    end in
  match s with
  | EmptyString => None
  | _ => match digits s 0 with
         | Some v => let v := sign * v in if (-2147483648 <=? v) && (v <? 2147483648) then Some v else None
         | None => None
         end
  end.

(** ** State *)

Inductive clientState : Type :=
| clientDisconnected | clientCreatePublications | clientAwaitPublicationConnected | clientAwaitConnectReply
| clientConnected | clientClosed.

#[export] Instance clientState_eq_dec : EqDecision clientState.
Proof. solve_decision. Defined.

Definition SessionEventTemplateId : Z := 2.
Definition SessionCloseRequestTemplateId : Z := 4.
Definition SessionKeepAliveTemplateId : Z := 5.
Definition NewLeaderEventTemlateId : Z := 6.
Definition ChallengeTemplateId : Z := 7.

Definition protocolSemanticVersion : Z := SemanticVersionCompose 0 2 0.

(** [memberIngress]; publications are pointers. *)
Record member : Type := mkMember { m_endpoint : string; m_publication : option nat }.

(** The fields of [AeronCluster] that change. *)
Record client : Type := mkClient {
  ingressChannel : ChannelUri;
  ingressPub : option nat;
  clusterSessionId : Z;
  leadershipTermId : Z;
  leaderMemberId : Z;
  memberByIdMap : gmap Z member;
  assembler : gmap Z bytes;
  sessionMsgHdrBuffer : bytes;
  keepAliveBuffer : bytes;
  state : clientState;
  correlationId : Z;
  nextRetryConnectTime : Z;
  awaitTimeoutTime : Z }.

Definition with_ingressChannel (v : ChannelUri) (x : client) : client := mkClient v (ingressPub x) (clusterSessionId
  x) (leadershipTermId x) (leaderMemberId x) (memberByIdMap x) (assembler x) (sessionMsgHdrBuffer x) (keepAliveBuffer
  x) (state x) (correlationId x) (nextRetryConnectTime x) (awaitTimeoutTime x).
Definition with_ingressPub (v : option nat) (x : client) : client := mkClient (ingressChannel x) v (clusterSessionId
  x) (leadershipTermId x) (leaderMemberId x) (memberByIdMap x) (assembler x) (sessionMsgHdrBuffer x) (keepAliveBuffer
  x) (state x) (correlationId x) (nextRetryConnectTime x) (awaitTimeoutTime x).
Definition with_clusterSessionId (v : Z) (x : client) : client := mkClient (ingressChannel x) (ingressPub x) v
  (leadershipTermId x) (leaderMemberId x) (memberByIdMap x) (assembler x) (sessionMsgHdrBuffer x) (keepAliveBuffer x)
  (state x) (correlationId x) (nextRetryConnectTime x) (awaitTimeoutTime x).
Definition with_leadershipTermId (v : Z) (x : client) : client := mkClient (ingressChannel x) (ingressPub x)
  (clusterSessionId x) v (leaderMemberId x) (memberByIdMap x) (assembler x) (sessionMsgHdrBuffer x) (keepAliveBuffer
  x) (state x) (correlationId x) (nextRetryConnectTime x) (awaitTimeoutTime x).
Definition with_leaderMemberId (v : Z) (x : client) : client := mkClient (ingressChannel x) (ingressPub x)
  (clusterSessionId x) (leadershipTermId x) v (memberByIdMap x) (assembler x) (sessionMsgHdrBuffer x) (keepAliveBuffer
  x) (state x) (correlationId x) (nextRetryConnectTime x) (awaitTimeoutTime x).
Definition with_memberByIdMap (v : gmap Z member) (x : client) : client := mkClient (ingressChannel x) (ingressPub x)
  (clusterSessionId x) (leadershipTermId x) (leaderMemberId x) v (assembler x) (sessionMsgHdrBuffer x)
  (keepAliveBuffer x) (state x) (correlationId x) (nextRetryConnectTime x) (awaitTimeoutTime x).
Definition with_assembler (v : gmap Z bytes) (x : client) : client := mkClient (ingressChannel x) (ingressPub x)
  (clusterSessionId x) (leadershipTermId x) (leaderMemberId x) (memberByIdMap x) v (sessionMsgHdrBuffer x)
  (keepAliveBuffer x) (state x) (correlationId x) (nextRetryConnectTime x) (awaitTimeoutTime x).
Definition with_sessionMsgHdrBuffer (v : bytes) (x : client) : client := mkClient (ingressChannel x) (ingressPub x)
  (clusterSessionId x) (leadershipTermId x) (leaderMemberId x) (memberByIdMap x) (assembler x) v (keepAliveBuffer x)
  (state x) (correlationId x) (nextRetryConnectTime x) (awaitTimeoutTime x).
Definition with_keepAliveBuffer (v : bytes) (x : client) : client := mkClient (ingressChannel x) (ingressPub x)
  (clusterSessionId x) (leadershipTermId x) (leaderMemberId x) (memberByIdMap x) (assembler x) (sessionMsgHdrBuffer x)
  v (state x) (correlationId x) (nextRetryConnectTime x) (awaitTimeoutTime x).
Definition with_state (v : clientState) (x : client) : client := mkClient (ingressChannel x) (ingressPub x)
  (clusterSessionId x) (leadershipTermId x) (leaderMemberId x) (memberByIdMap x) (assembler x) (sessionMsgHdrBuffer x)
  (keepAliveBuffer x) v (correlationId x) (nextRetryConnectTime x) (awaitTimeoutTime x).
Definition with_correlationId (v : Z) (x : client) : client := mkClient (ingressChannel x) (ingressPub x)
  (clusterSessionId x) (leadershipTermId x) (leaderMemberId x) (memberByIdMap x) (assembler x) (sessionMsgHdrBuffer x)
  (keepAliveBuffer x) (state x) v (nextRetryConnectTime x) (awaitTimeoutTime x).
Definition with_nextRetryConnectTime (v : Z) (x : client) : client := mkClient (ingressChannel x) (ingressPub x)
  (clusterSessionId x) (leadershipTermId x) (leaderMemberId x) (memberByIdMap x) (assembler x) (sessionMsgHdrBuffer x)
  (keepAliveBuffer x) (state x) (correlationId x) v (awaitTimeoutTime x).
Definition with_awaitTimeoutTime (v : Z) (x : client) : client := mkClient (ingressChannel x) (ingressPub x)
  (clusterSessionId x) (leadershipTermId x) (leaderMemberId x) (memberByIdMap x) (assembler x) (sessionMsgHdrBuffer x)
  (keepAliveBuffer x) (state x) (correlationId x) (nextRetryConnectTime x) v.

Record ClientOptions : Type := mkClientOptions {
  IngressEndpoints : string;
  IngressChannel : string;
  IngressStreamId : Z;
  EgressStreamId : Z;
  IsIngressExclusive : bool;
  RetryBackoffMs : Z }.

Inductive egress_event : Type :=
| OnConnect
| OnDisconnect (details : string)
| OnMessage (timestamp : Z) (message : bytes)
| OnNewLeader (leadershipTermId leaderMemberId : Z)
| OnError (details : string).

(** A publication that was handed out. *)
Record publication : Type := mkPub { p_connected : bool; p_closed : bool; p_channel : channel }.

Section Client.
Context (opts : ClientOptions).
(** The order in which the runtime goes over the members. *)
Context (range_members : gmap Z member -> list Z).

Record cworld : Type := mkCWorld {
  x_client : client;
  x_clock : list Z;
  x_publications : list (nat + string);
  x_asked : list (bool * string);
  x_pubs : gmap nat publication;
  x_nextCorrelation : Z;
  x_egress : list frame;
  x_responseChannel : string;
  x_events : list egress_event }.

Definition with_x_client (v : client) (x : cworld) : cworld := mkCWorld v (x_clock x) (x_publications x) (x_asked x)
  (x_pubs x) (x_nextCorrelation x) (x_egress x) (x_responseChannel x) (x_events x).
Definition with_x_clock (v : list Z) (x : cworld) : cworld := mkCWorld (x_client x) v (x_publications x) (x_asked x)
  (x_pubs x) (x_nextCorrelation x) (x_egress x) (x_responseChannel x) (x_events x).
Definition with_x_publications (v : list (nat + string)) (x : cworld) : cworld := mkCWorld (x_client x) (x_clock x) v
  (x_asked x) (x_pubs x) (x_nextCorrelation x) (x_egress x) (x_responseChannel x) (x_events x).
Definition with_x_asked (v : list (bool * string)) (x : cworld) : cworld := mkCWorld (x_client x) (x_clock x)
  (x_publications x) v (x_pubs x) (x_nextCorrelation x) (x_egress x) (x_responseChannel x) (x_events x).
Definition with_x_pubs (v : gmap nat publication) (x : cworld) : cworld := mkCWorld (x_client x) (x_clock x)
  (x_publications x) (x_asked x) v (x_nextCorrelation x) (x_egress x) (x_responseChannel x) (x_events x).
Definition with_x_nextCorrelation (v : Z) (x : cworld) : cworld := mkCWorld (x_client x) (x_clock x) (x_publications
  x) (x_asked x) (x_pubs x) v (x_egress x) (x_responseChannel x) (x_events x).
Definition with_x_egress (v : list frame) (x : cworld) : cworld := mkCWorld (x_client x) (x_clock x) (x_publications
  x) (x_asked x) (x_pubs x) (x_nextCorrelation x) v (x_responseChannel x) (x_events x).
Definition with_x_responseChannel (v : string) (x : cworld) : cworld := mkCWorld (x_client x) (x_clock x)
  (x_publications x) (x_asked x) (x_pubs x) (x_nextCorrelation x) (x_egress x) v (x_events x).
Definition with_x_events (v : list egress_event) (x : cworld) : cworld := mkCWorld (x_client x) (x_clock x)
  (x_publications x) (x_asked x) (x_pubs x) (x_nextCorrelation x) (x_egress x) (x_responseChannel x) v.

Definition X (T : Type) : Type := M cworld T.

Definition on_client (f : client -> client) : X unit := fun w => Ret tt (with_x_client (f (x_client w)) w).
Definition of_client {T} (f : client -> T) : X T := fun w => Ret (f (x_client w)) w.
Definition emit (e : egress_event) : X unit := fun w => Ret tt (with_x_events (x_events w ++ [e]) w).

(** [time.Now().UnixMilli()] *)
Definition now : X Z := fun w =>
  match x_clock w with
  | [] => Exc EFuel w
  | t :: ts => Ret t (with_x_clock ts w)
  end.

(** ** Publications *)

(** [pub.IsConnected()]: a method that dereferences its receiver. *)
Definition pub_IsConnected (p : option nat) : X bool := fun w =>
  match p with
  | None => Exc (EPanic "nil pointer dereference") w
  | Some p =>
      match x_pubs w !! p with
      | None => Exc (EPanic "nil pointer dereference") w
      | Some s => Ret (negb (p_closed s) && p_connected s) w
      end
  end.

(** [pub.Close()], which may be called on nil. *)
Definition pub_Close (p : option nat) : X unit := fun w =>
  match p with
  | None => Ret tt w
  | Some p =>
      match x_pubs w !! p with
      | None => Ret tt w
      | Some s => Ret tt (with_x_pubs (<[p := mkPub (p_connected s) true (p_channel s)]> (x_pubs w)) w)
      end
  end.

Definition pub_Offer (p : option nat) (msg : bytes) : X Z := fun w =>
  match p with
  | None => Exc (EPanic "nil pointer dereference") w
  | Some p =>
      match x_pubs w !! p with
      | None => Exc (EPanic "nil pointer dereference") w
      | Some s =>
          if p_closed s then Ret PublicationClosed w
          else match channel_Offer msg (p_channel s) with
               | Ret r c => Ret r (with_x_pubs (<[p := mkPub (p_connected s) false c]> (x_pubs w)) w)
               | Exc e c => Exc e (with_x_pubs (<[p := mkPub (p_connected s) false c]> (x_pubs w)) w)
               end
      end
  end.

(** What the client of the driver is asked for, and what it answers. *)
Definition add_publication (exclusive : bool) (ch : string) : X (nat + string) := fun w =>
  match x_publications w with
  | [] => Exc EFuel w
  | p :: ps => Ret p (with_x_publications ps (with_x_asked (x_asked w ++ [(exclusive, ch)]) w))
  end.

Definition createIngressPublication (endpoint : string) : X (nat + string) :=
  on_client (fun c => if IsUdp (ingressChannel c) then with_ingressChannel (Uri_Set (ingressChannel c) "endpoint" endpoint) c else c) ;;;
  let! uri := of_client ingressChannel in
  add_publication (IsIngressExclusive opts) (Uri_String uri).

Definition update_member (id : Z) (m : member) : X unit :=
  on_client (fun c => with_memberByIdMap (<[id := m]> (memberByIdMap c)) c).

(** [member.close()] *)
Definition member_close (id : Z) : X unit :=
  let! ms := of_client memberByIdMap in
  match ms !! id with
  | Some (mkMember e (Some p)) => pub_Close (Some p) ;;; update_member id (mkMember e None)
  | _ => ret tt
  end.

Definition Clear : X unit := on_client (with_assembler ∅).

(** ** Members *)

(** One endpoint of the list: the address of a member, [id=address]. *)
Definition update_endpoint (endpoint : string) : X unit :=
  match cut_at "=" endpoint with
  | Some (String c id, address) =>
      match ParseInt32 (String c id) with
      | None => ret tt
      | Some memberId =>
          let! ms := of_client memberByIdMap in
          match ms !! memberId with
          | None => update_member memberId (mkMember address None)
          | Some m =>
              when (negb (bool_decide (address = m_endpoint m)))
                (update_member memberId (mkMember address (m_publication m)) ;;; member_close memberId)
          end ;;;
          let! leader := of_client leaderMemberId in
          when (memberId =? leader)
            (let! ms := of_client memberByIdMap in
             match ms !! memberId with
             | Some (mkMember e None) =>
                 let! pub := createIngressPublication address in
                 match pub with
                 | inl p => update_member memberId (mkMember e (Some p))
                 | inr _ => ret tt
                 end
             | _ => ret tt
             end ;;;
             on_client (fun c => with_ingressPub (match memberByIdMap c !! memberId with Some m => m_publication m | None => None end) c) ;;;
             Clear)
      end
  | _ => ret tt
  end.

Fixpoint update_endpoints (es : list string) : X unit :=
  match es with
  | [] => ret tt
  | e :: es => update_endpoint e ;;; update_endpoints es
  end.

Definition updateMemberEndpoints (endpoints : string) : X unit :=
  if bool_decide (endpoints = EmptyString) then ret tt else update_endpoints (split_at "," endpoints).

Fixpoint close_members (ids : list Z) : X unit :=
  match ids with
  | [] => ret tt
  | id :: ids =>
      let! leader := of_client leaderMemberId in
      when (negb (id =? leader)) (member_close id) ;;;
      close_members ids
  end.

Definition closeNonLeaderPublications : X unit :=
  let! ms := of_client memberByIdMap in close_members (range_members ms).

(** ** Connecting *)

Fixpoint create_members (ids : list Z) : X (option string) :=
  match ids with
  | [] => ret None
  | id :: ids =>
      let! ms := of_client memberByIdMap in
      match ms !! id with
      | Some (mkMember e None) =>
          let! pub := createIngressPublication e in
          match pub with
          | inr err => ret (Some err)
          | inl p => update_member id (mkMember e (Some p)) ;;; create_members ids
          end
      | _ => create_members ids
      end
  end.

Definition createPublications : X (Z * option string) :=
  let! ms := of_client memberByIdMap in
  let! ingress := of_client ingressPub in
  let! err :=
    if bool_decide (ms <> ∅) then create_members (range_members ms)
    else match ingress with
         | Some _ => ret None
         | None =>
             let! pub := createIngressPublication (IngressChannel opts) in
             match pub with
             | inr err => ret (Some err)
             | inl p => on_client (with_ingressPub (Some p)) ;;; ret None
             end
         end in
  match err with
  | Some e => ret (0, Some e)
  | None =>
      let! t := now in
      on_client (fun c => with_awaitTimeoutTime (i64 (t + 5000)) (with_state clientAwaitPublicationConnected c)) ;;;
      ret (1, None)
  end.

(** The answer of [sendConnectRequest]. *)
Inductive sending : Type := Sent | Temporary | Failed (err : string).

Definition sendConnectRequest (responseChannel : string) : X sending :=
  fun w => (
  let id := x_nextCorrelation w in
  (on_client (with_correlationId id) ;;;
   match packet (mkSessionConnectRequest id (EgressStreamId opts) (i32 protocolSemanticVersion) (String.list_byte_of_string responseChannel) [] []) true with
   | inr err => ret (Failed err)
   | inl bs =>
       let! p := of_client ingressPub in
       let! result := pub_Offer p bs in
       ret (if result >=? 0 then Sent else Temporary)
   end) (with_x_nextCorrelation (i64 (id + 1)) w)).

Definition request_sent (t : Z) : X unit :=
  on_client (fun c => with_awaitTimeoutTime (i64 (t + 3000)) (with_state clientAwaitConnectReply c)).

(** The first member that is connected and takes the request. *)
Fixpoint try_members (t : Z) (responseChannel : string) (ids : list Z) : X (option string) :=
  match ids with
  | [] => ret None
  | id :: ids =>
      let! ms := of_client memberByIdMap in
      match ms !! id with
      | Some (mkMember _ (Some p)) =>
          let! connected := pub_IsConnected (Some p) in
          if connected then
            on_client (with_ingressPub (Some p)) ;;;
            Clear ;;;
            let! s := sendConnectRequest responseChannel in
            match s with
            | Sent => request_sent t ;;; ret None
            | Failed err => ret (Some err)
            | Temporary => try_members t responseChannel ids
            end
          else try_members t responseChannel ids
      | _ => try_members t responseChannel ids
      end
  end.

Definition disconnect (t : Z) : X unit :=
  on_client (fun c => with_nextRetryConnectTime (i64 (t + RetryBackoffMs opts)) (with_state clientDisconnected c)).

Definition awaitPublicationConnected : X (option string) :=
  fun w => (
  let responseChannel := x_responseChannel w in
  if bool_decide (responseChannel = EmptyString) then ret None
  else
    let! t := now in
    let! deadline := of_client awaitTimeoutTime in
    if t >? deadline then
      disconnect t ;;;
      ret (Some "timed out waiting for connected publication"%string)
    else
      let! ms := of_client memberByIdMap in
      if bool_decide (ms <> ∅) then try_members t responseChannel (range_members ms)
      else
        let! p := of_client ingressPub in
        let! connected := pub_IsConnected p in
        if connected then
          let! s := sendConnectRequest responseChannel in
          match s with Sent => request_sent t | _ => ret tt end ;;;
          ret None
        else ret None) w.

(** ** Messages of the cluster *)

Definition set_headers (leadershipTermId clusterSessionId : Z) : X unit :=
  on_client (fun c =>
    with_keepAliveBuffer (put_int64 16 clusterSessionId (put_int64 8 leadershipTermId (keepAliveBuffer c)))
      (with_sessionMsgHdrBuffer (put_int64 16 clusterSessionId (put_int64 8 leadershipTermId (sessionMsgHdrBuffer c))) c)).

Definition onSessionEvent (e : SessionEvent) : X unit :=
  let! st := of_client state in
  let! cid := of_client correlationId in
  let! sid := of_client clusterSessionId in
  let detail := String.string_of_list_byte (SessionEvent_Detail e) in
  let code := SessionEvent_Code e in
  if bool_decide (st = clientAwaitConnectReply) && (SessionEvent_CorrelationId e =? cid) then
    if code =? EventCode.OK then
      on_client (fun c => with_clusterSessionId (SessionEvent_ClusterSessionId e)
        (with_leaderMemberId (SessionEvent_LeaderMemberId e) (with_leadershipTermId (SessionEvent_LeadershipTermId e) c))) ;;;
      set_headers (SessionEvent_LeadershipTermId e) (SessionEvent_ClusterSessionId e) ;;;
      on_client (with_state clientConnected) ;;;
      closeNonLeaderPublications ;;;
      emit OnConnect
    else if code =? EventCode.REDIRECT then
      on_client (with_leaderMemberId (SessionEvent_LeaderMemberId e)) ;;;
      updateMemberEndpoints detail ;;;
      closeNonLeaderPublications ;;;
      on_client (with_state clientAwaitPublicationConnected)
    else if code =? EventCode.ERROR then
      emit (OnError detail) ;;;
      on_client (with_state clientDisconnected) ;;;
      let! t := now in
      on_client (with_nextRetryConnectTime (i64 (t + 5000)))
    else if code =? EventCode.AUTHENTICATION_REJECTED then
      emit (OnError ("authentication rejected (" +:+ detail +:+ ")")) ;;;
      on_client (with_state clientDisconnected) ;;;
      let! t := now in
      on_client (with_nextRetryConnectTime (i64 (t + 60000)))
    else ret tt
  else if bool_decide (st = clientConnected) && (SessionEvent_ClusterSessionId e =? sid) then
    if code =? EventCode.CLOSED then emit (OnDisconnect detail) ;;; on_client (with_state clientClosed)
    else if code =? EventCode.ERROR then emit (OnError detail)
    else ret tt
  else ret tt.

Definition onNewLeaderEvent (e : NewLeaderEvent) : X unit :=
  let! st := of_client state in
  let! sid := of_client clusterSessionId in
  if bool_decide (st = clientConnected) && (NewLeaderEvent_ClusterSessionId e =? sid) then
    let term := NewLeaderEvent_LeadershipTermId e in
    on_client (fun c => with_leaderMemberId (NewLeaderEvent_LeaderMemberId e) (with_leadershipTermId term c)) ;;;
    on_client (fun c => with_keepAliveBuffer (put_int64 8 term (keepAliveBuffer c))
      (with_sessionMsgHdrBuffer (put_int64 8 term (sessionMsgHdrBuffer c)) c)) ;;;
    when (negb (bool_decide (IngressEndpoints opts = EmptyString)))
      (let! p := of_client ingressPub in
       pub_Close p ;;;
       on_client (with_ingressPub None) ;;;
       updateMemberEndpoints (String.string_of_list_byte (NewLeaderEvent_IngressEndpoints e))) ;;;
    Clear ;;;
    emit (OnNewLeader term (NewLeaderEvent_LeaderMemberId e))
  else ret tt.

Definition client_get_int64 (offset : nat) (body : bytes) : X Z :=
  if (offset + 8 <=? length body)%nat then ret (i64 (le_combine (take 8 (drop offset body)))) else raise EFault.

Definition client_onSessionMessage (body : bytes) : X unit :=
  if zlen body <? SessionMessageHeaderLength then ret tt
  else
    let! sid := client_get_int64 8 body in
    let! timestamp := client_get_int64 16 body in
    let! st := of_client state in
    let! own := of_client clusterSessionId in
    if negb (bool_decide (st = clientConnected)) then ret tt
    else if sid =? own then emit (OnMessage timestamp (drop 24 body))
    else ret tt.

(** Decoding is always with range checks; a challenge is only logged. *)
Definition client_onMessage (msg : bytes) : X unit :=
  if zlen msg <? SBEHeaderLength then ret tt
  else
    let hdr := message_header msg in
    let body := drop 8 msg in
    if negb (SchemaId hdr =? ClusterSchemaId) then ret tt
    else if TemplateId hdr =? SessionMessageHeaderTemplateId then client_onSessionMessage body
    else if TemplateId hdr =? SessionEventTemplateId then
      match decoded SessionEvent hdr body true with inl e => onSessionEvent e | inr _ => ret tt end
    else if TemplateId hdr =? NewLeaderEventTemlateId then
      match decoded NewLeaderEvent hdr body true with inl e => onNewLeaderEvent e | inr _ => ret tt end
    else ret tt.

(** [FragmentAssembler.OnFragment] in front of it: the message may clear the assembler. *)
Definition client_onFragment (f : frame) : X unit :=
  if has_flag adapter_unfragmented f then client_onMessage (fr_data f)
  else if has_flag ClusterService.beginFrag f then on_client (fun c => with_assembler (<[fr_session f := fr_data f]> (assembler c)) c)
  else
    let! b := of_client assembler in
    match b !! fr_session f with
    | Some (x :: old) =>
        let msg := (x :: old) ++ fr_data f in
        on_client (fun c => with_assembler (<[fr_session f := msg]> (assembler c)) c) ;;;
        when (has_flag ClusterService.endFrag f)
          (client_onMessage msg ;;;
           on_client (fun c => with_assembler (alter (fun _ => []) (fr_session f) (assembler c)) c))
    | _ => ret tt
    end.

Fixpoint egress_loop (fragmentLimit n : Z) (fs : list frame) : X (Z * list frame) :=
  match fs with
  | [] => ret (n, [])
  | f :: fs' =>
      if n <? fragmentLimit then
        if is_padding f then egress_loop fragmentLimit n fs'
        else client_onFragment f ;;; egress_loop fragmentLimit (n + 1) fs'
      else ret (n, fs)
  end.

Definition pollEgress (fragmentLimit : Z) : X Z :=
  fun w => (
  let! r := egress_loop fragmentLimit 0 (x_egress w) in
  let '(n, rest) := r in
  (fun w => Ret n (with_x_egress rest w))) w.

(** ** The operations of the client *)

Definition Poll : X Z :=
  let! st := of_client state in
  match st with
  | clientDisconnected =>
      let! t := now in
      let! retry := of_client nextRetryConnectTime in
      when (t >? retry) (on_client (with_state clientCreatePublications)) ;;;
      ret 0
  | clientCreatePublications => let! r := createPublications in ret r.1
  | clientAwaitPublicationConnected => let! _ := awaitPublicationConnected in ret 0
  | clientAwaitConnectReply =>
      let! t := now in
      let! p := of_client ingressPub in
      let! connected := pub_IsConnected p in
      let! deadline := of_client awaitTimeoutTime in
      if connected && (t <? deadline) then pollEgress 1 else disconnect t ;;; ret 0
  | clientConnected =>
      let! p := of_client ingressPub in
      let! connected := pub_IsConnected p in
      if connected then pollEgress 10
      else emit (OnDisconnect "ingress publication disconnected") ;;; on_client (with_state clientCreatePublications) ;;; ret 0
  | clientClosed => ret 0
  end.

Definition client_Offer (msg : bytes) : X Z :=
  let! st := of_client state in
  if bool_decide (st = clientConnected) then
    let! hdr := of_client sessionMsgHdrBuffer in
    let! p := of_client ingressPub in
    pub_Offer p (hdr ++ msg)
  else ret NotConnected.

(** Three tries, with the idle strategy in between. *)
Fixpoint offer_thrice (n : nat) (p : option nat) (msg : bytes) : X bool :=
  match n with
  | O => ret false
  | S n => let! result := pub_Offer p msg in if result >=? 0 then ret true else offer_thrice n p msg
  end.

Definition SendKeepAlive : X bool :=
  let! st := of_client state in
  if bool_decide (st = clientConnected) then
    let! buf := of_client keepAliveBuffer in
    let! p := of_client ingressPub in
    offer_thrice 3 p buf
  else ret false.

Definition sendCloseSession : X unit :=
  let! term := of_client leadershipTermId in
  let! sid := of_client clusterSessionId in
  let! p := of_client ingressPub in
  let! _ := offer_thrice 3 p (put_int64 16 sid (put_int64 8 term (MakeClusterMessageBuffer SessionCloseRequestTemplateId 16))) in
  ret tt.

(** The egress subscription and the client of the driver are closed as well. *)
Definition client_Close : X unit :=
  let! st := of_client state in
  let! p := of_client ingressPub in
  (if bool_decide (st = clientConnected) then
     let! connected := pub_IsConnected p in when connected sendCloseSession
   else ret tt) ;;;
  pub_Close p ;;;
  on_client (fun c => with_state clientClosed (with_ingressPub None c)).
End Client.

(** [NewAeronCluster]: the checks, and the client before it works; the client of the driver and
    the egress subscription may fail. *)
Definition new_client (uri : ChannelUri) : client :=
  mkClient uri None NullValue NullValue NullValue ∅ ∅
    (MakeClusterMessageBuffer SessionMessageHeaderTemplateId SessionMessageHdrBlockLength)
    (MakeClusterMessageBuffer SessionKeepAliveTemplateId 16) clientDisconnected 0 0 0.

Definition NewAeronCluster (opts : ClientOptions) (has_listener : bool) (resources : option string) : X (option string) :=
  if negb has_listener then ret (Some "egressListener is nil"%string)
  else
    let '(uri, err) := ParseChannelUri (IngressChannel opts) in
    match err with
    | Some _ => ret (Some "invalid ingress channel"%string)
    | None =>
        if IsIpc uri && negb (bool_decide (IngressEndpoints opts = EmptyString))
        then ret (Some "IngressEndpoints must be empty when using IPC ingress"%string)
        else match resources with
             | Some err => ret (Some err)
             | None =>
                 on_client (fun _ => new_client uri) ;;;
                 updateMemberEndpoints opts (IngressEndpoints opts) ;;;
                 ret None
             end
    end.
