(* ===== verification/ClusterClientSpec.v ===== *)
(** * What the client of a cluster promises

    The client is a state machine; the messages of its session carry the term and the session
    that it was given; what the leader sends to a session reaches the listener of its client. *)

From S2P Require Import Prelude Sbe SbePacket Bits Publication.
From S2P Require Import Memory Flyweight LogBuffer TermSpec Reader FragmentAssembler ChannelUri ArchiveProxy Archive.
From S2P Require Import ClusterCodecs ClusterPackets ClusterService ClusterSnapshot Keeps ClusterInv ClusterClient.
From Stdlib Require Import Ascii.

Local Open Scope m_scope.

Local Abbreviation bytes := (list Init.Byte.byte).

(** ** The protocol of a session *)

(** The client as its user sees it: where it is, and which session it has. *)
Inductive view : Type :=
| VDisconnected | VCreate | VAwaitPublication | VAwaitReply | VConnected (leadershipTermId clusterSessionId : Z) | VClosed.

Definition view_of (c : client) : view :=
  match state c with
  | clientDisconnected => VDisconnected
  | clientCreatePublications => VCreate
  | clientAwaitPublicationConnected => VAwaitPublication
  | clientAwaitConnectReply => VAwaitReply
  | clientConnected => VConnected (leadershipTermId c) (clusterSessionId c)
  | clientClosed => VClosed
  end.

(** The ways of a session: it is asked for at a publication that is connected, opened, refused
    or sent elsewhere by the answer; its term changes with the leader, its id does not; it ends
    by a close or by the loss of the publication. *)
Inductive protocol : view -> view -> Prop :=
| go_stay v : protocol v v
| go_retry : protocol VDisconnected VCreate
| go_created : protocol VCreate VAwaitPublication
| go_asked : protocol VAwaitPublication VAwaitReply
| go_late : protocol VAwaitPublication VDisconnected
| go_opened t s : protocol VAwaitReply (VConnected t s)
| go_redirected : protocol VAwaitReply VAwaitPublication
| go_refused : protocol VAwaitReply VDisconnected
| go_new_leader t t' s : protocol (VConnected t s) (VConnected t' s)
| go_closed t s : protocol (VConnected t s) VClosed
| go_lost t s : protocol (VConnected t s) VCreate.
#[export] Hint Constructors protocol : core.

(** The header in front of the messages of a session, and its keep alive. *)
Definition session_header (t s : Z) : bytes :=
  put_int64 16 s (put_int64 8 t (MakeClusterMessageBuffer SessionMessageHeaderTemplateId SessionMessageHdrBlockLength)).
Definition keep_alive (t s : Z) : bytes :=
  put_int64 16 s (put_int64 8 t (MakeClusterMessageBuffer SessionKeepAliveTemplateId 16)).

(** The buffers of the client are those of a term and a session, those of its own when it is
    connected. *)
Definition headed (c : client) : Prop :=
  exists t s, sessionMsgHdrBuffer c = session_header t s /\ keepAliveBuffer c = keep_alive t s /\
    (state c = clientConnected -> t = leadershipTermId c /\ s = clusterSessionId c).

(** Both are written in place. *)
Lemma put_int64_at n v v0 a b :
  length a = n -> put_int64 n v (a ++ le_split 8 v0 ++ b) = a ++ le_split 8 v ++ b.
Proof.
  intros <-. unfold put_int64. rewrite take_app_length. do 2 f_equal.
  rewrite drop_app_ge by lia. replace (length a + 8 - length a)%nat with 8%nat by lia.
  by rewrite drop_app_ge, (length_le_split 8 v0) by (rewrite length_le_split; lia).
Qed.

Lemma put_both (buf : bytes) t s :
  (24 <= length buf)%nat ->
  put_int64 16 s (put_int64 8 t buf) = take 8 buf ++ le_split 8 t ++ le_split 8 s ++ drop 24 buf.
Proof.
  intros Hl. unfold put_int64 at 2. set (a := take 8 buf).
  assert (length a = 8%nat) as Ha by (subst a; rewrite length_take; lia).
  unfold put_int64. rewrite (app_assoc a), take_app_le by (rewrite length_app, length_le_split; lia).
  rewrite take_ge by (rewrite length_app, length_le_split; lia).
  rewrite <- (app_assoc a). do 3 f_equal.
  rewrite drop_app_ge by (rewrite length_app, length_le_split; lia). rewrite drop_drop, length_app, length_le_split, Ha. done.
Qed.

Lemma put_term (buf : bytes) t t' s :
  (24 <= length buf)%nat -> put_int64 8 t' (put_int64 16 s (put_int64 8 t buf)) = put_int64 16 s (put_int64 8 t' buf).
Proof.
  intros Hl. rewrite !put_both by done. by rewrite put_int64_at by (rewrite length_take; lia).
Qed.

Lemma put_again (buf : bytes) t t' s s' :
  (24 <= length buf)%nat ->
  put_int64 16 s' (put_int64 8 t' (put_int64 16 s (put_int64 8 t buf))) = put_int64 16 s' (put_int64 8 t' buf).
Proof.
  intros Hl. rewrite put_term, (put_both _ t' s), (put_both _ t' s') by done. rewrite !(app_assoc (take 8 buf)).
  by rewrite put_int64_at by (rewrite length_app, length_le_split, length_take; lia).
Qed.

(** What both depend on. *)
Definition wire (w : cworld) : clientState * Z * Z * bytes * bytes :=
  let c := x_client w in (state c, leadershipTermId c, clusterSessionId c, sessionMsgHdrBuffer c, keepAliveBuffer c).

Lemma wire_headed w w' : wire w' = wire w -> headed (x_client w) -> headed (x_client w').
Proof. unfold wire, headed. intros [= Hs Ht Hi Hh Hk]. by rewrite Hs, Ht, Hi, Hh, Hk. Qed.

Lemma wire_view w w' : wire w' = wire w -> view_of (x_client w') = view_of (x_client w).
Proof. unfold wire, view_of. intros [= -> -> -> _ _]. done. Qed.

Definition calm {T} (c : X T) : Prop := forall v, keeps (fun w => wire w = v) c.

Lemma calm_run {T} (c : X T) w x w' : calm c -> c w = Ret x w' -> wire w' = wire w.
Proof. intros Hc Hrun. by eapply (keeps_Ret _ c w x w' (Hc (wire w))). Qed.

Section Rules.
Lemma calm_ret {T} (x : T) : calm (ret x).
Proof using Type. intros v. apply keeps_ret. Qed.
Lemma calm_raise {T} e : calm (raise (A := T) e).
Proof using Type. intros v. apply keeps_raise. Qed.
Lemma calm_bind {T U} (c : X T) (k : T -> X U) : calm c -> (forall x, calm (k x)) -> calm (bind c k).
Proof using Type. intros Hc Hk v. apply keeps_bind; [apply Hc|]. intros x. apply Hk. Qed.
Lemma calm_when b (c : X unit) : calm c -> calm (when b c).
Proof using Type. intros Hc v. by apply keeps_when. Qed.
Lemma calm_of_client {T} (f : client -> T) : calm (of_client f).
Proof using Type. intros v w Hw. exact Hw. Qed.
Lemma calm_emit e : calm (emit e).
Proof using Type. intros v w Hw. exact Hw. Qed.
Lemma calm_now : calm now.
Proof using Type. intros v w Hw. unfold now. by destruct (x_clock w). Qed.
Lemma calm_on_client f : (forall w, wire (with_x_client (f (x_client w)) w) = wire w) -> calm (on_client f).
Proof using Type. intros Hf v w Hw. cbn. by rewrite Hf. Qed.
Lemma calm_pub_IsConnected p : calm (pub_IsConnected p).
Proof using Type. intros v w Hw. unfold pub_IsConnected. destruct p as [p|]; [|done]. by destruct (x_pubs w !! p). Qed.
Lemma calm_pub_Close p : calm (pub_Close p).
Proof using Type. intros v w Hw. unfold pub_Close. destruct p as [p|]; [|done]. by destruct (x_pubs w !! p). Qed.
Lemma calm_pub_Offer p msg : calm (pub_Offer p msg).
Proof using Type.
  intros v w Hw. unfold pub_Offer. destruct p as [p|]; [|done]. destruct (x_pubs w !! p) as [s|]; [|done].
  destruct (p_closed s); [done|]. by destruct (channel_Offer _ _).
Qed.
Lemma calm_add_publication b ch : calm (add_publication b ch).
Proof using Type. intros v w Hw. unfold add_publication. by destruct (x_publications w). Qed.
End Rules.

Create HintDb calm.
#[export] Hint Resolve calm_ret calm_raise calm_of_client calm_emit calm_now calm_pub_IsConnected calm_pub_Close calm_pub_Offer
  calm_add_publication : calm.

(** Through a computation, by its structure. *)
Ltac calms :=
  repeat (cbv beta zeta;
    first
    [ solve [auto 2 with calm nocore]
    | lazymatch goal with
      | |- calm (bind _ _) => apply calm_bind; [|intros ?]
      | |- calm (when _ _) => apply calm_when
      | |- calm (match ?x with _ => _ end) => destruct x
      | |- calm (on_client _) => apply calm_on_client; intros ?; first [reflexivity | by destruct (IsUdp _)]
      end ]).

Section Client.
Context (opts : ClientOptions) (range_members : gmap Z member -> list Z).

Lemma calm_createIngressPublication e : calm (createIngressPublication opts e).
Proof using Type. unfold createIngressPublication. calms. Qed.
Lemma calm_update_member id m : calm (update_member id m).
Proof using Type. unfold update_member. calms. Qed.
Lemma calm_Clear : calm Clear.
Proof using Type. unfold Clear. calms. Qed.
#[local] Hint Resolve calm_createIngressPublication calm_update_member calm_Clear : calm.
Lemma calm_member_close id : calm (member_close id).
Proof using Type. unfold member_close. calms. Qed.
#[local] Hint Resolve calm_member_close : calm.
Lemma calm_update_endpoint e : calm (update_endpoint opts e).
Proof using Type. unfold update_endpoint. calms. Qed.
#[local] Hint Resolve calm_update_endpoint : calm.
Lemma calm_updateMemberEndpoints es : calm (updateMemberEndpoints opts es).
Proof using Type.
  unfold updateMemberEndpoints. case_bool_decide; [calms|].
  induction (split_at _ es); cbn [update_endpoints]; calms.
Qed.
Lemma calm_closeNonLeaderPublications : calm (closeNonLeaderPublications range_members).
Proof using Type.
  unfold closeNonLeaderPublications. calms. induction (range_members x); cbn [close_members]; calms.
Qed.
Lemma calm_create_members ids : calm (create_members opts ids).
Proof using Type. induction ids; cbn [create_members]; calms. Qed.
Lemma calm_sendConnectRequest ch : calm (sendConnectRequest opts ch).
Proof using Type.
  intros v w Hw. unfold sendConnectRequest.
  set (c := (_ ;;; _)). assert (calm c) as Hc by (subst c; calms).
  by apply (Hc v (with_x_nextCorrelation (i64 (x_nextCorrelation w + 1)) w)).
Qed.
#[local] Hint Resolve calm_updateMemberEndpoints calm_closeNonLeaderPublications calm_create_members calm_sendConnectRequest : calm.

(** ** Messages *)

(** What a message may do to the session. *)
Definition by_message (v v' : view) : Prop :=
  v' = v \/
  (v = VAwaitReply /\ (v' = VAwaitPublication \/ v' = VDisconnected \/ exists t s, v' = VConnected t s)) \/
  (exists t s, v = VConnected t s /\ (v' = VClosed \/ exists t', v' = VConnected t' s)).

Definition steps (w w' : cworld) : Prop :=
  by_message (view_of (x_client w)) (view_of (x_client w')) /\ (headed (x_client w) -> headed (x_client w')).

Lemma steps_calm {T} (c : X T) w x w' : calm c -> c w = Ret x w' -> steps w w'.
Proof using Type.
  intros Hc Hrun. apply (calm_run c) in Hrun; [|done]. split; [left; by apply wire_view|by apply wire_headed].
Qed.

(** What follows a step calmly does not matter. *)
Lemma steps_wire w w1 w' : wire w' = wire w1 -> steps w w1 -> steps w w'.
Proof using Type.
  intros Hw [Hb Hh]. split; [by rewrite (wire_view _ _ Hw)|]. intros H. by apply (wire_headed w1), Hh.
Qed.

Lemma by_message_protocol v v' : by_message v v' -> protocol v v'.
Proof using Type.
  intros [->|[(-> & [->|[->|(t & s & ->)]])|(t & s & -> & [->|(t' & ->)])]]; auto.
Qed.

(** Steps that are written out: the client afterwards is known but for what does not matter. *)
Lemma steps_then {T} (c : X T) w w1 x w' : steps w w1 -> calm c -> c w1 = Ret x w' -> steps w w'.
Proof using Type. intros Hs Hc Hrun. eapply steps_wire; [|exact Hs]. by eapply calm_run. Qed.

(** The session is given up, the buffers stay. *)
Lemma steps_left w w1 :
  state (x_client w1) <> clientConnected -> by_message (view_of (x_client w)) (view_of (x_client w1)) ->
  sessionMsgHdrBuffer (x_client w1) = sessionMsgHdrBuffer (x_client w) ->
  keepAliveBuffer (x_client w1) = keepAliveBuffer (x_client w) -> steps w w1.
Proof using Type.
  intros Hn Hb Hh Hk. split; [done|]. intros (t & s & Hh' & Hk' & _). exists t, s. rewrite Hh, Hk. by split_and!.
Qed.

(** Calmly, and then to another state. *)
Lemma steps_then_state {T} (c : X T) w x w1 st :
  calm c -> c w = Ret x w1 -> st <> clientConnected ->
  (forall c', state c' = st -> by_message (view_of (x_client w)) (view_of c')) ->
  steps w (with_x_client (with_state st (x_client w1)) w1).
Proof using Type.
  intros Hc Hrun Hst Hb. apply (calm_run c) in Hrun; [|done]. injection Hrun as _ _ _ Hh Hk.
  apply steps_left; [done|by apply Hb|exact Hh|exact Hk].
Qed.

Lemma by_message_answer st c c' :
  state c = clientAwaitConnectReply -> st = clientAwaitPublicationConnected \/ st = clientDisconnected -> state c' = st ->
  by_message (view_of c) (view_of c').
Proof using Type. unfold view_of, by_message. intros -> Hst ->. right; left. split; [done|]. destruct Hst as [-> | ->]; auto. Qed.

(** An answer to the request for a session. *)
Lemma session_refused_steps e d w u w' :
  state (x_client w) = clientAwaitConnectReply ->
  (emit e ;;; on_client (with_state clientDisconnected) ;;; let! t := now in on_client (with_nextRetryConnectTime (i64 (t + d)))) w = Ret u w' ->
  steps w w'.
Proof using Type.
  intros Hst Hrun. do 2 (apply bind_inv_Ret in Hrun as (? & ? & [= <- <-] & Hrun)).
  eapply steps_then; [| |exact Hrun]; [|calms].
  apply (steps_then_state (emit e) w tt (with_x_events (x_events w ++ [e]) w)); [calms|done|done|]. intros c'. apply by_message_answer; auto.
Qed.

Lemma onSessionEvent_steps e w u w' : onSessionEvent opts range_members e w = Ret u w' -> steps w w'.
Proof using Type.
  unfold onSessionEvent. intros Hrun. do 3 (apply bind_inv_Ret in Hrun as (? & ? & [= <- <-] & Hrun)).
  destruct (bool_decide (state _ = _) && (_ =? correlationId _)) eqn:Hawait.
  { apply andb_prop in Hawait as [Hst%bool_decide_eq_true _].
    destruct (_ =? EventCode.OK); [|destruct (_ =? EventCode.REDIRECT); [|destruct (_ =? EventCode.ERROR);
      [|destruct (_ =? EventCode.AUTHENTICATION_REJECTED)]]].
    - do 3 (apply bind_inv_Ret in Hrun as (? & ? & [= <- <-] & Hrun)).
      eapply steps_then; [| |exact Hrun]; [|calms]. split.
      + right; left. split; [unfold view_of; by rewrite Hst|]. right; right. by eexists _, _.
      + intros (t0 & s0 & Hh & Hk & _). eexists _, _. split_and!; [| |by split]; cbn; rewrite ?Hh, ?Hk;
          apply put_again; by vm_compute; lia.
    - rewrite <- !bind_assoc in Hrun. apply bind_inv_Ret in Hrun as (? & w1 & Hrun & [= <- <-]).
      eapply steps_then_state; [|exact Hrun|done|]; [calms|]. intros c'. apply by_message_answer; auto.
    - by eapply session_refused_steps.
    - by eapply session_refused_steps.
    - by injection Hrun as <- <-; apply (steps_calm (ret tt) w tt); [calms|]. }
  destruct (bool_decide (state _ = _) && (_ =? clusterSessionId _)) eqn:Hconn;
    [|by apply (steps_calm (ret tt) w u); [calms|]].
  apply andb_prop in Hconn as [Hst%bool_decide_eq_true _].
  destruct (_ =? EventCode.CLOSED); [|by eapply steps_calm; [|exact Hrun]; calms].
  apply bind_inv_Ret in Hrun as (? & w1 & Hrun & [= <- <-]). eapply steps_then_state; [|exact Hrun|done|]; [calms|].
  intros c' Hc'. unfold view_of, by_message. rewrite Hst, Hc'. right; right. eexists _, _. split; [done|by left].
Qed.

Lemma onNewLeaderEvent_steps e w u w' : onNewLeaderEvent opts e w = Ret u w' -> steps w w'.
Proof using Type.
  unfold onNewLeaderEvent. intros Hrun. do 2 (apply bind_inv_Ret in Hrun as (? & ? & [= <- <-] & Hrun)).
  destruct (_ && _) eqn:Hconn; [|by apply (steps_calm (ret tt) w u); [calms|]].
  apply andb_prop in Hconn as [Hst%bool_decide_eq_true _]. pose proof calm_updateMemberEndpoints.
  do 2 (apply bind_inv_Ret in Hrun as (? & ? & [= <- <-] & Hrun)). eapply steps_then; [| |exact Hrun]; [|calms]. split.
  - right; right. unfold view_of. cbn. rewrite Hst. eexists _, _. split; [done|]. right. by eexists.
  - intros (t0 & s0 & Hh & Hk & Hc). eexists _, _. cbn. rewrite Hh, Hk. unfold session_header, keep_alive.
    rewrite !put_term by (by vm_compute; lia). split_and!; [done|done|]. intros _. by destruct (Hc Hst) as [_ <-].
Qed.

Lemma steps_refl w : steps w w.
Proof using Type. by apply (steps_calm (ret tt) w tt); [calms|]. Qed.

Lemma client_onMessage_steps msg w u w' : client_onMessage opts range_members msg w = Ret u w' -> steps w w'.
Proof using Type.
  unfold client_onMessage. cbv zeta. intros Hrun.
  assert (calm (client_onSessionMessage (drop 8 msg))) as Hmsg.
  { unfold client_onSessionMessage, client_get_int64. calms. }
  assert (forall x, Ret x w = Ret u w' -> steps w w') as Hstay.
  { intros x [= -> <-]. by apply (steps_calm (ret u) w u); [calms|]. }
  destruct (zlen msg <? SBEHeaderLength); [by eapply Hstay|].
  destruct (negb _); [by eapply Hstay|].
  destruct (_ =? SessionMessageHeaderTemplateId); [by eapply steps_calm|].
  destruct (_ =? SessionEventTemplateId).
  { destruct (decoded SessionEvent _ _ _); [by eapply onSessionEvent_steps|by eapply Hstay]. }
  destruct (_ =? NewLeaderEventTemlateId); [|by eapply Hstay].
  destruct (decoded NewLeaderEvent _ _ _); [by eapply onNewLeaderEvent_steps|by eapply Hstay].
Qed.

Lemma client_onFragment_steps f w u w' : client_onFragment opts range_members f w = Ret u w' -> steps w w'.
Proof using Type.
  unfold client_onFragment. intros Hrun. destruct (has_flag adapter_unfragmented f); [by eapply client_onMessage_steps|].
  destruct (has_flag ClusterService.beginFrag f); [by eapply steps_calm; [|exact Hrun]; calms|].
  apply bind_inv_Ret in Hrun as (? & ? & [= <- <-] & Hrun).
  destruct (assembler (x_client w) !! fr_session f) as [[|x old]|]; [by eapply (steps_calm (ret tt)); [calms|exact Hrun]| |
    by eapply (steps_calm (ret tt)); [calms|exact Hrun]].
  apply bind_inv_Ret in Hrun as (? & ? & [= <- <-] & Hrun).
  destruct (has_flag ClusterService.endFrag f); [|injection Hrun as <- <-; by apply (steps_wire w w), steps_refl].
  apply bind_inv_Ret in Hrun as (? & w1 & Hmsg & Hrun). apply client_onMessage_steps in Hmsg.
  eapply steps_then; [exact Hmsg| |exact Hrun]. calms.
Qed.

(** Messages of a session that is open keep it open or close it. *)
Lemma steps_trans w w1 w2 : view_of (x_client w) <> VAwaitReply -> steps w w1 -> steps w1 w2 -> steps w w2.
Proof using Type.
  intros Hv [Hb1 Hh1] [Hb2 Hh2]. split; [|tauto]. revert Hv Hb1 Hb2. clear.
  generalize (view_of (x_client w)) (view_of (x_client w1)) (view_of (x_client w2)). intros v v1 v2 Hv Hb1 Hb2.
  destruct Hb1 as [->|[(-> & _)|(t & s & -> & [->|(t' & ->)])]]; [done|done| |].
  - destruct Hb2 as [->|[(? & _)|(? & ? & ? & _)]]; [|done|done]. right; right. eexists _, _. split; [done|by left].
  - destruct Hb2 as [->|[(? & _)|(? & ? & [= <- <-] & Hb2)]]; [|done|]; right; right; eexists _, _; (split; [done|]); eauto.
Qed.

Lemma egress_loop_steps limit fs : forall n w r w',
  view_of (x_client w) <> VAwaitReply -> egress_loop opts range_members limit n fs w = Ret r w' -> steps w w'.
Proof using Type.
  induction fs as [|f fs IH]; intros n w r w' Hv Hrun; cbn [egress_loop] in Hrun; [injection Hrun as _ <-; apply steps_refl|].
  destruct (n <? limit); [|injection Hrun as _ <-; apply steps_refl].
  destruct (is_padding f); [by eapply IH|]. apply bind_inv_Ret in Hrun as (? & w1 & Hf & Hrun).
  apply client_onFragment_steps in Hf. eapply steps_trans; [done|exact Hf|]. eapply IH; [|exact Hrun].
  destruct Hf as [Hb _]. revert Hv Hb. generalize (view_of (x_client w)) (view_of (x_client w1)). intros v v1 Hv Hb ->.
  destruct Hb as [<-|[(-> & _)|(t & s & _ & [?|(? & ?)])]]; done.
Qed.

Lemma egress_loop_one fs : forall w r w', egress_loop opts range_members 1 0 fs w = Ret r w' -> steps w w'.
Proof using Type.
  induction fs as [|f fs IH]; intros w r w' Hrun; cbn [egress_loop] in Hrun; [injection Hrun as _ <-; apply steps_refl|].
  cbn [Z.ltb Z.compare] in Hrun. destruct (is_padding f); [by eapply IH|].
  apply bind_inv_Ret in Hrun as (? & w1 & Hf & Hrun). apply client_onFragment_steps in Hf.
  assert (w' = w1) as -> by (destruct fs; by injection Hrun as _ <-). done.
Qed.

Lemma pollEgress_steps limit w r w' :
  view_of (x_client w) <> VAwaitReply \/ limit = 1 -> pollEgress opts range_members limit w = Ret r w' -> steps w w'.
Proof using Type.
  intros Hv Hrun. unfold pollEgress in Hrun. apply bind_inv_Ret in Hrun as ([n rest] & w1 & Hl & [= <- <-]).
  apply (steps_wire w w1); [done|]. destruct Hv as [Hv| ->]; [by eapply egress_loop_steps|by eapply egress_loop_one].
Qed.

(** ** The operations *)

Definition follows (w w' : cworld) : Prop :=
  protocol (view_of (x_client w)) (view_of (x_client w')) /\ (headed (x_client w) -> headed (x_client w')).

Lemma follows_steps w w' : steps w w' -> follows w w'.
Proof using Type. intros [Hb Hh]. split; [by apply by_message_protocol|done]. Qed.

Lemma follows_calm {T} (c : X T) w x w' : calm c -> c w = Ret x w' -> follows w w'.
Proof using Type. intros Hc Hrun. by eapply follows_steps, steps_calm. Qed.

(** To a state without a session. *)
Lemma follows_state w w1 st :
  wire w1 = wire w -> st <> clientConnected -> protocol (view_of (x_client w)) (view_of (with_state st (x_client w))) ->
  forall w', wire w' = wire (with_x_client (with_state st (x_client w1)) w1) -> follows w w'.
Proof using Type.
  intros Hw Hst Hp w' Hw'. unfold wire in Hw, Hw'. injection Hw as Hs Ht Hi Hh Hk. cbn in Hw'. injection Hw' as Hs' Ht' Hi' Hh' Hk'.
  split.
  - assert (view_of (x_client w') = view_of (with_state st (x_client w))) as ->; [|done].
    unfold view_of. cbn. rewrite Hs', Ht', Hi', Ht, Hi. done.
  - intros (t & s & H1 & H2 & _). exists t, s. rewrite Hh', Hk', Hh, Hk, Hs'. by split_and!.
Qed.

Lemma follows_wire w w' : wire w' = wire w -> follows w w'.
Proof using Type. intros Hw. apply follows_steps, (steps_wire w w), steps_refl. done. Qed.

Lemma steps_from w w1 w' : wire w1 = wire w -> steps w1 w' -> steps w w'.
Proof using Type.
  intros Hw [Hb Hh]. split; [by rewrite <- (wire_view _ _ Hw)|]. intros H. by apply Hh, (wire_headed w).
Qed.

Lemma createPublications_follows w r w' :
  state (x_client w) = clientCreatePublications -> createPublications opts range_members w = Ret r w' -> follows w w'.
Proof using Type.
  intros Hst Hrun. unfold createPublications in Hrun. do 2 (apply bind_inv_Ret in Hrun as (? & ? & [= <- <-] & Hrun)).
  apply bind_inv_Ret in Hrun as (err & w1 & Hc & Hrun). apply calm_run in Hc; [|calms].
  destruct err as [e|]; [injection Hrun as _ <-; by apply follows_wire|].
  apply bind_inv_Ret in Hrun as (t & w2 & Ht & Hrun). apply calm_run in Ht; [|calms].
  apply bind_inv_Ret in Hrun as (? & ? & [= <- <-] & [= _ <-]).
  apply (follows_state w w2 clientAwaitPublicationConnected); [congruence|done| |done]. unfold view_of at 1. rewrite Hst. constructor.
Qed.

Lemma disconnect_follows t w w1 u w' :
  state (x_client w) = clientAwaitPublicationConnected \/ state (x_client w) = clientAwaitConnectReply ->
  wire w1 = wire w -> disconnect opts t w1 = Ret u w' -> follows w w'.
Proof using Type.
  intros Hst Hw [= _ <-]. apply (follows_state w w1 clientDisconnected); [done|done| |done].
  unfold view_of at 1. destruct Hst as [-> | ->]; constructor.
Qed.

Lemma request_sent_follows t w w1 u w' :
  state (x_client w) = clientAwaitPublicationConnected -> wire w1 = wire w -> request_sent t w1 = Ret u w' -> follows w w'.
Proof using Type.
  intros Hst Hw [= _ <-]. apply (follows_state w w1 clientAwaitConnectReply); [done|done| |done].
  unfold view_of at 1. rewrite Hst. constructor.
Qed.

Lemma try_members_follows t ch w ids : forall w1 r w',
  state (x_client w) = clientAwaitPublicationConnected -> wire w1 = wire w ->
  try_members opts t ch ids w1 = Ret r w' -> follows w w'.
Proof using Type.
  induction ids as [|id ids IH]; intros w1 r w' Hst Hw Hrun; cbn [try_members] in Hrun.
  { injection Hrun as _ <-. by apply follows_wire. }
  apply bind_inv_Ret in Hrun as (? & ? & [= <- <-] & Hrun).
  destruct (memberByIdMap _ !! id) as [[e [p|]]|]; [|by eapply IH..].
  apply bind_inv_Ret in Hrun as (connected & w2 & Hc & Hrun). apply calm_run in Hc; [|calms].
  destruct connected; [|eapply IH; [done| |exact Hrun]; congruence].
  do 2 (apply bind_inv_Ret in Hrun as (? & ? & [= <- <-] & Hrun)).
  apply bind_inv_Ret in Hrun as (s & w3 & Hs & Hrun). apply calm_run in Hs; [|calms].
  assert (wire w3 = wire w) as Hw3 by (rewrite Hs; unfold wire in *; cbn; congruence).
  destruct s as [| |err].
  - apply bind_inv_Ret in Hrun as (? & w4 & Hsent & [= _ <-]). by eapply request_sent_follows.
  - by eapply IH.
  - injection Hrun as _ <-. by apply follows_wire.
Qed.

Lemma awaitPublicationConnected_follows w r w' :
  state (x_client w) = clientAwaitPublicationConnected -> awaitPublicationConnected opts range_members w = Ret r w' -> follows w w'.
Proof using Type.
  intros Hst Hrun. unfold awaitPublicationConnected in Hrun.
  case_bool_decide; [injection Hrun as _ <-; apply follows_steps, steps_refl|].
  apply bind_inv_Ret in Hrun as (t & w1 & Ht & Hrun). apply calm_run in Ht; [|calms].
  apply bind_inv_Ret in Hrun as (? & ? & [= <- <-] & Hrun).
  destruct (_ >? _).
  { apply bind_inv_Ret in Hrun as (? & w2 & Hd & [= _ <-]). eapply disconnect_follows; [by left|done|exact Hd]. }
  apply bind_inv_Ret in Hrun as (? & ? & [= <- <-] & Hrun).
  case_bool_decide; [by eapply try_members_follows|].
  apply bind_inv_Ret in Hrun as (? & ? & [= <- <-] & Hrun).
  apply bind_inv_Ret in Hrun as (connected & w2 & Hc & Hrun). apply calm_run in Hc; [|calms].
  destruct connected; [|injection Hrun as _ <-; apply follows_wire; congruence].
  apply bind_inv_Ret in Hrun as (s & w3 & Hs & Hrun). apply calm_run in Hs; [|calms].
  apply bind_inv_Ret in Hrun as (? & w4 & Hsent & [= _ <-]).
  destruct s; [eapply request_sent_follows; [done| |exact Hsent]; congruence|..];
    injection Hsent as _ <-; apply follows_wire; congruence.
Qed.

Lemma Poll_follows w r w' : Poll opts range_members w = Ret r w' -> follows w w'.
Proof using Type.
  unfold Poll. intros Hrun. apply bind_inv_Ret in Hrun as (? & ? & [= <- <-] & Hrun).
  destruct (state (x_client w)) eqn:Hst.
  - apply bind_inv_Ret in Hrun as (t & w1 & Ht & Hrun). apply calm_run in Ht; [|calms].
    apply bind_inv_Ret in Hrun as (? & ? & [= <- <-] & Hrun). apply bind_inv_Ret in Hrun as (? & w2 & Hw & [= _ <-]).
    destruct (_ >? _); [|injection Hw as _ <-; apply follows_wire; congruence].
    injection Hw as _ <-. apply (follows_state w w1 clientCreatePublications); [done|done| |done].
    unfold view_of at 1. rewrite Hst. constructor.
  - apply bind_inv_Ret in Hrun as (? & w1 & Hc & [= _ <-]). by eapply createPublications_follows.
  - apply bind_inv_Ret in Hrun as (? & w1 & Hc & [= _ <-]). by eapply awaitPublicationConnected_follows.
  - apply bind_inv_Ret in Hrun as (t & w1 & Ht & Hrun). apply calm_run in Ht; [|calms].
    apply bind_inv_Ret in Hrun as (? & ? & [= <- <-] & Hrun).
    apply bind_inv_Ret in Hrun as (connected & w2 & Hc & Hrun). apply calm_run in Hc; [|calms].
    apply bind_inv_Ret in Hrun as (? & ? & [= <- <-] & Hrun). destruct (_ && _).
    + apply pollEgress_steps in Hrun; [|by right]. apply follows_steps, (steps_from w w2); [congruence|done].
    + apply bind_inv_Ret in Hrun as (? & w3 & Hd & [= _ <-]). eapply disconnect_follows; [by right| |exact Hd]. congruence.
  - apply bind_inv_Ret in Hrun as (? & ? & [= <- <-] & Hrun).
    apply bind_inv_Ret in Hrun as (connected & w1 & Hc & Hrun). apply calm_run in Hc; [|calms]. destruct connected.
    + apply pollEgress_steps in Hrun; [|left; rewrite (wire_view _ _ Hc); unfold view_of; by rewrite Hst].
      by apply follows_steps, (steps_from w w1).
    + apply bind_inv_Ret in Hrun as (? & w2 & He & Hrun). apply calm_run in He; [|calms].
      apply bind_inv_Ret in Hrun as (? & ? & [= <- <-] & [= _ <-]).
      apply (follows_state w w2 clientCreatePublications); [congruence|done| |done].
      unfold view_of at 1. rewrite Hst. constructor.
  - injection Hrun as _ <-. apply follows_steps, steps_refl.
Qed.

(** What the user of a client may call. *)
Inductive client_op : Type := CPoll | COffer (msg : bytes) | CKeepAlive | CClose.

Definition client_run (o : client_op) : X unit :=
  match o with
  | CPoll => let! _ := Poll opts range_members in ret tt
  | COffer msg => let! _ := client_Offer msg in ret tt
  | CKeepAlive => let! _ := SendKeepAlive in ret tt
  | CClose => client_Close
  end.

Lemma calm_offer_thrice n p msg : calm (offer_thrice n p msg).
Proof using Type. induction n; cbn [offer_thrice]; calms. Qed.
#[local] Hint Resolve calm_offer_thrice : calm.

Lemma calm_client_Offer msg : calm (client_Offer msg).
Proof using Type. unfold client_Offer. calms. Qed.
Lemma calm_SendKeepAlive : calm SendKeepAlive.
Proof using Type. unfold SendKeepAlive. calms. Qed.

Lemma client_Close_closes w u w' :
  client_Close w = Ret u w' -> state (x_client w') = clientClosed /\ (headed (x_client w) -> headed (x_client w')).
Proof using Type.
  unfold client_Close, sendCloseSession. intros Hrun. do 2 (apply bind_inv_Ret in Hrun as (? & ? & [= <- <-] & Hrun)).
  rewrite <- bind_assoc in Hrun. apply bind_inv_Ret in Hrun as (? & w1 & Hc & [= _ <-]).
  apply calm_run in Hc; [|calms]. split; [done|]. injection Hc as _ _ _ Hh Hk.
  intros (t & s & H1 & H2 & _). exists t, s. cbn. by rewrite Hh, Hk.
Qed.

(** A client from its start on; between its calls the world changes as it likes. *)
Inductive lives : cworld -> Prop :=
| lives_new has_listener resources w w' : NewAeronCluster opts has_listener resources w = Ret None w' -> lives w'
| lives_run o w u w' : lives w -> client_run o w = Ret u w' -> lives w'
| lives_outside w w' : lives w -> x_client w' = x_client w -> lives w'.

Lemma new_client_headed uri : headed (new_client uri).
Proof using Type. exists 0, 0. split_and!; [by vm_compute..|done]. Qed.

Lemma lives_headed w : lives w -> headed (x_client w).
Proof using Type.
  induction 1 as [hl rs w w' Hnew|o w u w' _ IH Hrun|w w' _ IH Hc].
  - unfold NewAeronCluster in Hnew. destruct hl; [|discriminate]. cbn [negb] in Hnew.
    destruct (ParseChannelUri _) as [uri [e|]]; [discriminate|]. destruct (_ && _); [discriminate|].
    destruct rs; [discriminate|]. apply bind_inv_Ret in Hnew as (? & ? & [= <- <-] & Hnew).
    apply bind_inv_Ret in Hnew as (? & w1 & Hu & [= <-]). apply calm_run in Hu; [|apply calm_updateMemberEndpoints].
    eapply wire_headed; [exact Hu|]. apply new_client_headed.
  - destruct o; cbn [client_run] in Hrun; [..|by eapply client_Close_closes];
      apply bind_inv_Ret in Hrun as (? & w1 & Hrun & [= _ <-]).
    + by apply Poll_follows in Hrun as [_ Hh]; apply Hh.
    + apply calm_run in Hrun; [|apply calm_client_Offer]. by eapply wire_headed.
    + apply calm_run in Hrun; [|apply calm_SendKeepAlive]. by eapply wire_headed.
  - by rewrite Hc.
Qed.
End Client.

(** C25. Whatever is called, the client goes along the ways of the protocol, or to the end by a
    close; a session keeps its id. *)
Theorem client_follows_protocol opts range_members o w u w' :
  client_run opts range_members o w = Ret u w' ->
  match o with
  | CPoll => protocol (view_of (x_client w)) (view_of (x_client w'))
  | CClose => view_of (x_client w') = VClosed
  | _ => view_of (x_client w') = view_of (x_client w)
  end.
Proof.
  destruct o; cbn [client_run]; intros Hrun;
    [..|apply client_Close_closes in Hrun as [Hs _]; unfold view_of; by rewrite Hs];
    apply bind_inv_Ret in Hrun as (? & w1 & Hrun & [= _ <-]).
  - by eapply Poll_follows.
  - apply calm_run in Hrun; [by apply wire_view|apply calm_client_Offer].
  - apply calm_run in Hrun; [by apply wire_view|apply calm_SendKeepAlive].
Qed.

(** ** What a session sends *)

(** The buffers are messages of the schema. *)
Lemma session_header_packet t s : packet (mkSessionMessageHeader t s 0) false = inl (session_header t s).
Proof. unfold session_header. rewrite put_both by (by vm_compute; lia). reflexivity. Qed.

Lemma keep_alive_packet t s : packet (mkSessionKeepAlive t s) false = inl (keep_alive t s).
Proof. unfold keep_alive. rewrite put_both by (by vm_compute; lia). reflexivity. Qed.

Lemma pub_Offer_delivers p msg w r w' pub :
  x_pubs w !! p = Some pub -> Forall offered_ok (answers (p_channel pub)) -> pub_Offer (Some p) msg w = Ret r w' ->
  exists pub', w' = with_x_pubs (<[p := pub']> (x_pubs w)) w /\ p_closed pub' = p_closed pub /\ Forall offered_ok (answers (p_channel pub')) /\
    delivered (p_channel pub') = delivered (p_channel pub) ++ (if 0 <=? r then [msg] else []).
Proof.
  intros Hp Hok Hrun. unfold pub_Offer in Hrun. rewrite Hp in Hrun. destruct (p_closed pub) eqn:Hcl.
  { injection Hrun as <- <-. exists pub. rewrite insert_id by done. cbn. rewrite app_nil_r. by destruct w. }
  destruct pub as [conn cl [as_ log]]. cbn [p_channel p_closed p_connected answers delivered] in *. subst cl.
  unfold channel_Offer in Hrun. cbn [answers delivered] in Hrun. destruct as_ as [|a as_]; [discriminate|].
  apply Forall_cons in Hok as [Ha Hok]. injection Hrun as <- <-. eexists. split_and!; [done|done|done|].
  destruct a as [q|q]; cbn [offered_value offered_ok delivered p_channel] in *.
  - by rewrite (proj2 (Z.leb_le 0 q)) by lia.
  - rewrite (proj2 (Z.leb_gt 0 q)) by lia. by rewrite app_nil_r.
Qed.

Lemma offer_thrice_delivers n p msg : forall w b w' pub,
  x_pubs w !! p = Some pub -> Forall offered_ok (answers (p_channel pub)) -> offer_thrice n (Some p) msg w = Ret b w' ->
  exists pub', x_pubs w' !! p = Some pub' /\
    delivered (p_channel pub') = delivered (p_channel pub) ++ (if b then [msg] else []).
Proof.
  induction n as [|n IH]; intros w b w' pub Hp Hok Hrun; cbn [offer_thrice] in Hrun.
  { injection Hrun as <- <-. exists pub. by rewrite app_nil_r. }
  apply bind_inv_Ret in Hrun as (r & w1 & Ho & Hrun).
  destruct (pub_Offer_delivers _ _ _ _ _ _ Hp Hok Ho) as (pub1 & -> & _ & Hok1 & Hd). rewrite Z.geb_leb in Hrun.
  destruct (0 <=? r) eqn:Hr.
  - injection Hrun as <- <-. exists pub1. split; [apply lookup_insert_eq|done].
  - apply (IH _ _ _ pub1) in Hrun as (pub' & Hp' & Hd'); [|apply lookup_insert_eq|done].
    exists pub'. split; [done|]. by rewrite Hd', Hd, app_nil_r.
Qed.

Lemma connected_buffers opts range_members w t s :
  lives opts range_members w -> view_of (x_client w) = VConnected t s ->
  state (x_client w) = clientConnected /\ sessionMsgHdrBuffer (x_client w) = session_header t s /\
  keepAliveBuffer (x_client w) = keep_alive t s.
Proof.
  intros (t0 & s0 & Hh & Hk & Hc)%lives_headed. unfold view_of. destruct (state (x_client w)); try done.
  destruct (Hc eq_refl) as [-> ->]. intros [= <- <-]. done.
Qed.

(** C6. Whatever happened to a client since it was made, redirections, lost sessions and new leaders
    included: when it is connected, a message that it sends is delivered once, behind the header
    of the schema with the term and the session it is connected with; a keep alive is the
    message of the schema for them; and what is answered is true. *)
Theorem client_speaks_for_session opts range_members w t s p pub msg hdr alive r w1 b w2 :
  lives opts range_members w -> view_of (x_client w) = VConnected t s ->
  packet (mkSessionMessageHeader t s 0) false = inl hdr -> packet (mkSessionKeepAlive t s) false = inl alive ->
  ingressPub (x_client w) = Some p -> x_pubs w !! p = Some pub -> Forall offered_ok (answers (p_channel pub)) ->
  client_Offer msg w = Ret r w1 -> SendKeepAlive w = Ret b w2 ->
  (exists pub1, x_pubs w1 !! p = Some pub1 /\
    delivered (p_channel pub1) = delivered (p_channel pub) ++ (if 0 <=? r then [hdr ++ msg] else [])) /\
  (exists pub2, x_pubs w2 !! p = Some pub2 /\
    delivered (p_channel pub2) = delivered (p_channel pub) ++ (if b then [alive] else [])).
Proof.
  intros Hl Hv Hhdr Halive Hi Hp Hok Ho Hk. destruct (connected_buffers _ _ _ _ _ Hl Hv) as (Hst & Hh & Ha).
  rewrite session_header_packet in Hhdr. rewrite keep_alive_packet in Halive. injection Hhdr as <-. injection Halive as <-.
  unfold client_Offer, SendKeepAlive, bind, of_client in Ho, Hk. rewrite Hst in Ho, Hk. cbn [bool_decide] in Ho, Hk.
  rewrite bool_decide_true in Ho, Hk by done. rewrite Hi, Hh in Ho. rewrite Hi, Ha in Hk. split.
  - destruct (pub_Offer_delivers _ _ _ _ _ _ Hp Hok Ho) as (pub1 & -> & _ & _ & Hd). exists pub1.
    split; [apply lookup_insert_eq|done].
  - by apply (offer_thrice_delivers _ _ _ _ _ _ _ Hp Hok Hk).
Qed.

(** ** What a session receives *)

Section Egress.
Context (opts : ClientOptions) (range_members : gmap Z member -> list Z).

(** Frames of the egress stream, one after the other. *)
Fixpoint deliver (fs : list frame) : X unit :=
  match fs with
  | [] => ret tt
  | f :: fs => client_onFragment opts range_members f ;;; deliver fs
  end.

Definition collect (session : Z) (bs : bytes) (w : cworld) : cworld :=
  with_x_client (with_assembler (<[session := bs]> (assembler (x_client w))) (x_client w)) w.

Definition assembled (session : Z) : X unit :=
  on_client (fun c => with_assembler (alter (fun _ => []) session (assembler c)) c).

Lemma collect_collect session bs bs' w : collect session bs (collect session bs' w) = collect session bs w.
Proof using Type. unfold collect. cbn. by rewrite insert_insert_eq. Qed.

Lemma client_onFragment_first f w :
  fr_flags f = 128 -> client_onFragment opts range_members f w = Ret tt (collect (fr_session f) (fr_data f) w).
Proof using Type. unfold client_onFragment, has_flag. by intros ->. Qed.

Lemma client_onFragment_more f y old w :
  fr_flags f = 0 \/ fr_flags f = 64 ->
  client_onFragment opts range_members f (collect (fr_session f) (y :: old) w) =
  (if fr_flags f =? 64 then client_onMessage opts range_members ((y :: old) ++ fr_data f) ;;; assembled (fr_session f) else ret tt)
    (collect (fr_session f) ((y :: old) ++ fr_data f) w).
Proof using Type.
  intros Hf. unfold client_onFragment, has_flag.
  replace (Z.land (fr_flags f) adapter_unfragmented =? adapter_unfragmented) with false by (by destruct Hf as [-> | ->]).
  replace (Z.land (fr_flags f) ClusterService.beginFrag =? ClusterService.beginFrag) with false by (by destruct Hf as [-> | ->]).
  erewrite bind_Ret by reflexivity.
  replace (assembler _ !! fr_session f) with (Some (y :: old)) by (symmetry; apply lookup_insert_eq).
  rewrite (bind_Ret _ _ _ tt (collect (fr_session f) ((y :: old) ++ fr_data f) (collect (fr_session f) (y :: old) w))) by reflexivity.
  rewrite collect_collect. by destruct Hf as [-> | ->].
Qed.

Context (session stream termId : Z).
Local Abbreviation frames := (data_frames session stream termId).

Lemma deliver_rest n fuel : forall data y old w,
  (0 < n)%nat -> (length data <= fuel)%nat -> data <> [] ->
  deliver (frames (fragments_from fuel n 0 data)) (collect session (y :: old) w) =
  (client_onMessage opts range_members ((y :: old) ++ data) ;;; assembled session) (collect session ((y :: old) ++ data) w).
Proof using Type.
  induction fuel as [|fuel IH]; intros data y old w Hn Hf Hne; [destruct data; simpl in *; [done|lia]|].
  destruct data as [|x data]; [done|]. cbn [fragments_from data_frames map deliver].
  fold (frames (fragments_from fuel n 0 (drop n (x :: data)))).
  set (f := mkFrame _ _ _ _ _ _). change session with (fr_session f) at 2. unfold bind at 1.
  destruct (Nat.leb_spec (length (x :: data)) n) as [Hle|Hgt]; (rewrite client_onFragment_more; [|subst f; cbn; auto]).
  - subst f. cbn [fr_flags fr_session fr_data fst snd]. rewrite (take_ge (x :: data)), (drop_ge (x :: data)) by lia.
    change (Z.lor 0 64 =? 64) with true. cbv iota.
    replace (fragments_from fuel n 0 []) with (@nil (Z * bytes)) by (by destruct fuel). cbn [deliver].
    match goal with |- match ?e with _ => _ end = _ => by destruct e as [[] ?|] end.
  - subst f. cbn [fr_flags fr_session fr_data fst snd]. change (0 =? 64) with false. cbv iota.
    cbn [ret].
    change ((y :: old) ++ take n (x :: data)) with (y :: (old ++ take n (x :: data))). rewrite IH.
    + cbn [app]. by rewrite <- (app_assoc old), take_drop.
    + done.
    + rewrite length_drop. simpl in *. lia.
    + intros E. apply (f_equal length) in E. rewrite length_drop in E. simpl in *. lia.
Qed.

(** The fragments of a message, in order: the client handles the message. *)
Lemma deliver_message n data w :
  (0 < n)%nat -> data <> [] -> exists a,
  deliver (frames (fragments n data)) w =
  (client_onMessage opts range_members data ;;; when (n <? length data)%nat (assembled session))
    (with_x_client (with_assembler a (x_client w)) w).
Proof using Type.
  intros Hn Hne. unfold fragments. destruct data as [|x data]; [done|].
  cbn [length fragments_from data_frames map deliver]. fold (frames (fragments_from (length data) n 0 (drop n (x :: data)))).
  change (S (length data)) with (length (x :: data)). set (f := mkFrame _ _ _ _ _ _).
  destruct (Nat.leb_spec (length (x :: data)) n) as [Hle|Hgt].
  - exists (assembler (x_client w)). rewrite (proj2 (Nat.ltb_ge _ _) Hle). rewrite (drop_ge (x :: data)) by lia.
    replace (fragments_from (length data) n 0 []) with (@nil (Z * bytes)) by (by destruct data). cbn [deliver when data_frames map].
    replace (with_x_client _ w) with w by (destruct w as [[] ???????]; reflexivity).
    unfold bind, client_onFragment, has_flag. subst f. cbn [fr_flags fr_data fst snd].
    change (Z.lor 128 64) with 192. simpl (Z.land 192 _ =? _). cbv iota. by rewrite (take_ge (x :: data)) by lia.
  - exists (<[session := x :: data]> (assembler (x_client w))). rewrite (proj2 (Nat.ltb_lt _ _) Hgt). cbn [when].
    unfold bind at 1. rewrite client_onFragment_first by done. subst f. cbn [fr_session fr_data fst snd].
    destruct n as [|n]; [lia|]. cbn [take]. rewrite deliver_rest; [|lia|..].
    + cbn [app drop]. by rewrite take_drop.
    + rewrite length_drop. simpl in *. lia.
    + intros E. apply (f_equal length) in E. rewrite length_drop in E. simpl in *. lia.
Qed.
End Egress.

(** A session message, as the client that has the session handles it, and the others. *)
Lemma client_onMessage_session opts range_members w term sid time msg :
  length term = 8%nat ->
  -9223372036854775808 <= sid < 9223372036854775808 -> -9223372036854775808 <= time < 9223372036854775808 ->
  state (x_client w) = clientConnected ->
  client_onMessage opts range_members
    (initBuffer SessionMessageHeaderTemplateId SessionMessageHdrBlockLength ++ term ++ le_split 8 sid ++ le_split 8 time ++ msg) w =
  Ret tt (with_x_events (x_events w ++ (if sid =? clusterSessionId (x_client w) then [OnMessage time msg] else [])) w).
Proof.
  intros Hterm Hs Ht Hst. unfold client_onMessage. cbv zeta.
  set (body := term ++ le_split 8 sid ++ le_split 8 time ++ msg).
  assert (zlen body = 24 + zlen msg) as Hlen by (unfold body, zlen; rewrite !length_app, Hterm, !length_le_split; lia).
  replace (zlen (_ ++ body) <? SBEHeaderLength) with false
    by (symmetry; apply Z.ltb_ge; unfold SBEHeaderLength, zlen; rewrite length_app; vm_compute (length (initBuffer _ _)); lia).
  change (message_header (_ ++ body)) with (Sbe.mkHeader 24 1 ClusterSchemaId ClusterSchemaVersion).
  change (drop 8 (_ ++ body)) with body. cbn [SchemaId TemplateId]. rewrite Z.eqb_refl. cbn [negb].
  change (1 =? SessionMessageHeaderTemplateId) with true. cbv iota. unfold client_onSessionMessage, client_get_int64.
  rewrite (proj2 (Z.ltb_ge _ _)) by (unfold SessionMessageHeaderLength; pose proof (zlen_nonneg msg); lia).
  assert (forall k, (k <= 24)%nat -> (k <=? length body)%nat = true) as Hk by (intros; apply Nat.leb_le; unfold zlen in Hlen; lia).
  rewrite !Hk by lia. subst body. unfold bind, ret.
  do 8 (destruct term as [|? term]; [discriminate Hterm|]). destruct term; [|discriminate Hterm].
  change (take 8 (drop 8 (_ ++ _))) with (le_split 8 sid).
  change (take 8 (drop 16 (_ ++ _))) with (le_split 8 time).
  change (drop 24 (_ ++ _)) with msg. rewrite !int64_read by done. unfold of_client. rewrite bool_decide_true by done.
  cbn [negb]. destruct (_ =? _); [done|]. rewrite app_nil_r. by destruct w.
Qed.

(** C24. From the leader to the client: when a service on the leader offers a message to a session
    and the offer is taken, one message is delivered to the response publication of the session;
    cut into fragments of any size and handed in order to a client that is connected, the
    listener gets the message with the time of the cluster if the client has that session, and
    nothing otherwise; of the client at most the builders of the assembler change. *)
Theorem egress_reaches_client {Svc} (sw sw' : @world Svc) sid pub msg r c :
  hdr_ok (ClusterService.sessionMsgHdrBuffer (w_agent sw)) -> role (w_agent sw) = Leader ->
  -9223372036854775808 <= sid < 9223372036854775808 -> -9223372036854775808 <= clusterTime (w_agent sw) < 9223372036854775808 ->
  w_responses sw !! pub = Some c -> Forall offered_ok (answers c) ->
  offerToSession sid pub msg sw = Ret r sw' -> 0 <= r ->
  exists bs c', w_responses sw' !! pub = Some c' /\ delivered c' = delivered c ++ [bs] /\
  forall opts range_members w n session stream termId, (0 < n)%nat -> state (x_client w) = clientConnected ->
    exists w', deliver opts range_members (data_frames session stream termId (fragments n bs)) w = Ret tt w' /\
      x_events w' = x_events w ++
        (if sid =? clusterSessionId (x_client w) then [OnMessage (clusterTime (w_agent sw)) msg] else []) /\
      with_assembler ∅ (x_client w') = with_assembler ∅ (x_client w).
Proof.
  intros (Hhl & Hht) Hrole Hsid Htime Hc Hok Hrun Hr. unfold offerToSession, bind, ask in Hrun. rewrite Hrole in Hrun.
  cbn [negb Z.eqb Leader Pos.eqb] in Hrun. unfold fill_header, bind, ask, on_agent, ret in Hrun.
  set (hdr := ClusterService.sessionMsgHdrBuffer (w_agent sw)) in *. set (time := clusterTime (w_agent sw)) in *.
  unfold response_Offer in Hrun. cbn [w_responses with_w_agent] in Hrun. rewrite Hc in Hrun.
  destruct c as [as_ log]. unfold channel_Offer in Hrun. cbn [answers delivered] in *. destruct as_ as [|a as_]; [discriminate|].
  apply Forall_cons in Hok as [Ha _]. injection Hrun as <- <-. destruct a as [q|q]; cbn [offered_value offered_ok] in *; [|lia].
  eexists _, _. split; [apply lookup_insert_eq|]. split; [done|].
  intros opts range_members w n session stream termId Hn Hst.
  assert (put_int64 24 time (put_int64 16 sid hdr) ++ msg =
    initBuffer SessionMessageHeaderTemplateId SessionMessageHdrBlockLength ++ take 8 (drop 8 hdr) ++ le_split 8 sid ++ le_split 8 time ++ msg)
    as Hbs.
  { rewrite <- Hht. clear -Hhl. do 32 (destruct hdr as [|? hdr]; [discriminate Hhl|]). by destruct hdr; [|discriminate Hhl]. }
  rewrite Hbs. set (bs := _ ++ _).
  destruct (deliver_message opts range_members session stream termId n bs w Hn) as [a Hdel]; [done|]. rewrite Hdel.
  unfold bind. unfold bs at 1. rewrite client_onMessage_session; [|rewrite length_take, length_drop, Hhl; lia|done|done|done].
  destruct (_ <? _)%nat; cbn [when]; by eexists.
Qed.

(** ** Leaders that are lost *)

Section Lost.
Context (opts : ClientOptions) (range_members : gmap Z member -> list Z).
Context (id : Z) (address : string) (p : nat).

(** The only member is the leader, and its publication is closed. *)
Definition stuck (w : cworld) : Prop :=
  memberByIdMap (x_client w) = {[id := mkMember address (Some p)]} /\ ingressPub (x_client w) = Some p /\
  (exists s, x_pubs w !! p = Some s /\ p_closed s = true) /\
  match state (x_client w) with
  | clientConnected | clientCreatePublications | clientAwaitPublicationConnected | clientDisconnected => True
  | _ => False
  end.

Lemma closed_IsConnected w : (exists s, x_pubs w !! p = Some s /\ p_closed s = true) -> pub_IsConnected (Some p) w = Ret false w.
Proof using Type. intros (s & Hs & Hc). unfold pub_IsConnected. by rewrite Hs, Hc. Qed.

Lemma stuck_create w ids :
  memberByIdMap (x_client w) = {[id := mkMember address (Some p)]} -> create_members opts ids w = Ret None w.
Proof using Type.
  intros Hm. induction ids as [|i ids IH]; cbn [create_members]; [done|]. erewrite bind_Ret by reflexivity. rewrite Hm.
  destruct (decide (i = id)) as [->|]; [by rewrite lookup_singleton_eq|by rewrite lookup_singleton_ne].
Qed.

Lemma stuck_try t ch w ids : stuck w -> try_members opts t ch ids w = Ret None w.
Proof using Type.
  intros (Hm & _ & Hp & _). induction ids as [|i ids IH]; cbn [try_members]; [done|]. erewrite bind_Ret by reflexivity. rewrite Hm.
  destruct (decide (i = id)) as [->|]; [|by rewrite lookup_singleton_ne].
  rewrite lookup_singleton_eq. by rewrite (bind_Ret _ _ _ _ _ (closed_IsConnected w Hp)).
Qed.

Lemma now_Ret w t w1 : now w = Ret t w1 -> exists ts, w1 = with_x_clock ts w.
Proof using Type. unfold now. destruct (x_clock w); [done|]. intros [= _ <-]. by eexists. Qed.

(** Other fields do not matter. *)
Lemma stuck_change w w' :
  stuck w -> memberByIdMap (x_client w') = memberByIdMap (x_client w) -> ingressPub (x_client w') = ingressPub (x_client w) ->
  x_pubs w' !! p = x_pubs w !! p ->
  state (x_client w') <> clientConnected -> state (x_client w') <> clientAwaitConnectReply -> state (x_client w') <> clientClosed ->
  stuck w' /\ state (x_client w') <> clientConnected.
Proof using Type.
  unfold stuck. intros (Hm & Hi & Hp & _) -> -> ->. destruct (state (x_client w')); try done; intros _ _ _; by split_and!.
Qed.

Lemma stuck_Poll w n w' :
  stuck w -> Poll opts range_members w = Ret n w' -> stuck w' /\ state (x_client w') <> clientConnected.
Proof using Type.
  intros Hstuck Hrun. pose proof Hstuck as (Hm & Hi & Hp & Hst). unfold Poll in Hrun. erewrite bind_Ret in Hrun by reflexivity.
  destruct (state (x_client w)) eqn:Est; try done.
  - apply bind_inv_Ret in Hrun as (t & w1 & Ht & Hrun). destruct (now_Ret _ _ _ Ht) as [ts ->].
    erewrite bind_Ret in Hrun by reflexivity. apply bind_inv_Ret in Hrun as (? & w2 & Hw & [= _ <-]).
    destruct (_ >? _); injection Hw as _ <-; apply (stuck_change w); cbn; rewrite ?Est; done.
  - apply bind_inv_Ret in Hrun as (r & w1 & Hc & [= _ <-]). unfold createPublications in Hc.
    do 2 erewrite bind_Ret in Hc by reflexivity. rewrite Hm, bool_decide_true in Hc by apply map_non_empty_singleton.
    rewrite (bind_Ret _ _ _ _ _ (stuck_create w _ Hm)) in Hc.
    apply bind_inv_Ret in Hc as (t & w2 & Ht & Hc). destruct (now_Ret _ _ _ Ht) as [ts ->]. injection Hc as _ <-.
    by apply (stuck_change w).
  - apply bind_inv_Ret in Hrun as (r & w1 & Hc & [= _ <-]). unfold awaitPublicationConnected in Hc.
    case_bool_decide; [injection Hc as _ <-; split; [done|by rewrite Est]|].
    apply bind_inv_Ret in Hc as (t & w2 & Ht & Hc). destruct (now_Ret _ _ _ Ht) as [ts ->].
    assert (stuck (with_x_clock ts w) /\ state (x_client (with_x_clock ts w)) <> clientConnected) as [Hs Hn]
      by (apply (stuck_change w); cbn; rewrite ?Est; done).
    erewrite bind_Ret in Hc by reflexivity. destruct (_ >? _); [injection Hc as _ <-; by apply (stuck_change w)|].
    erewrite bind_Ret in Hc by reflexivity. cbn [x_client with_x_clock] in Hc.
    rewrite Hm, bool_decide_true in Hc by apply map_non_empty_singleton.
    rewrite stuck_try in Hc by done. by injection Hc as _ <-.
  - erewrite bind_Ret in Hrun by reflexivity. rewrite Hi, (bind_Ret _ _ _ _ _ (closed_IsConnected w Hp)) in Hrun.
    injection Hrun as _ <-. by apply (stuck_change w).
Qed.

(** Polls, and what happens in between; nothing opens a publication again. *)
Inductive waits : cworld -> cworld -> Prop :=
| waits_refl w : waits w w
| waits_poll w n w1 w2 : Poll opts range_members w = Ret n w1 -> waits w1 w2 -> waits w w2
| waits_outside w w1 w2 : x_client w1 = x_client w -> x_pubs w1 !! p = x_pubs w !! p -> waits w1 w2 -> waits w w2.

Lemma waits_stuck w w' : waits w w' -> stuck w -> stuck w'.
Proof using Type.
  induction 1 as [w|w n w1 w2 Hp _ IH|w w1 w2 Hc Hp _ IH]; intros Hs; [done| |].
  - apply IH. by eapply stuck_Poll in Hp as [].
  - apply IH. unfold stuck in *. by rewrite Hc, Hp.
Qed.

(** The event that the leader of the client was elected again, at the address it had. *)
Lemma reelected_stuck e w s endpoint c i :
  state (x_client w) = clientConnected -> NewLeaderEvent_ClusterSessionId e = clusterSessionId (x_client w) ->
  NewLeaderEvent_LeaderMemberId e = id -> IngressEndpoints opts <> EmptyString ->
  String.string_of_list_byte (NewLeaderEvent_IngressEndpoints e) = endpoint -> split_at "," endpoint = [endpoint] ->
  cut_at "=" endpoint = Some (String c i, address) -> ParseInt32 (String c i) = Some id ->
  memberByIdMap (x_client w) = {[id := mkMember address (Some p)]} -> ingressPub (x_client w) = Some p -> x_pubs w !! p = Some s ->
  exists w', onNewLeaderEvent opts e w = Ret tt w' /\ stuck w'.
Proof using Type.
  intros Hst Hsid Hid Hopts He Hsplit Hcut Hparse Hm Hi Hs. unfold onNewLeaderEvent. do 2 erewrite bind_Ret by reflexivity.
  rewrite Hst, bool_decide_true, Hsid, Z.eqb_refl by done. cbn [andb]. do 2 erewrite bind_Ret by reflexivity.
  rewrite bool_decide_false by done. cbn [negb when]. rewrite He. unfold updateMemberEndpoints.
  rewrite (bool_decide_false (endpoint = EmptyString)) by (intros ->; discriminate Hcut). rewrite Hsplit. cbn [update_endpoints].
  unfold update_endpoint. rewrite Hcut, Hparse. unfold bind, of_client, on_client, ret, when, pub_Close. cbn. rewrite Hi, Hs. cbn.
  rewrite Hm, lookup_singleton_eq. cbn. rewrite bool_decide_true by done. cbn. rewrite (proj2 (Z.eqb_eq id _) (eq_sym Hid)). cbn. rewrite Hm, lookup_singleton_eq. cbn.
  rewrite Hm, lookup_singleton_eq. eexists. split; [reflexivity|]. unfold stuck. cbn. rewrite Hm, Hst. split_and!; try done.
  eexists. split; [apply lookup_insert_eq|done].
Qed.
End Lost.

(** A client of a cluster with one member: when its leader is elected again and keeps its
    address, the event closes the publication to it, which the member keeps; however often the
    client polls from then on, it is never connected again, nor does it ask for a session. *)
Theorem reelected_leader_is_lost opts range_members id address p e w s endpoint c i :
  state (x_client w) = clientConnected -> NewLeaderEvent_ClusterSessionId e = clusterSessionId (x_client w) ->
  NewLeaderEvent_LeaderMemberId e = id -> IngressEndpoints opts <> EmptyString ->
  String.string_of_list_byte (NewLeaderEvent_IngressEndpoints e) = endpoint -> split_at "," endpoint = [endpoint] ->
  cut_at "=" endpoint = Some (String c i, address) -> ParseInt32 (String c i) = Some id ->
  memberByIdMap (x_client w) = {[id := mkMember address (Some p)]} -> ingressPub (x_client w) = Some p -> x_pubs w !! p = Some s ->
  exists w', onNewLeaderEvent opts e w = Ret tt w' /\
    forall w1 n w2, waits opts range_members p w' w1 -> Poll opts range_members w1 = Ret n w2 ->
      state (x_client w2) <> clientConnected /\ state (x_client w2) <> clientAwaitConnectReply.
Proof.
  intros Hst Hsid Hid Hopts He Hsplit Hcut Hparse Hm Hi Hs.
  destruct (reelected_stuck opts id address p e w s endpoint c i) as (w' & Hrun & Hstuck); try done.
  exists w'. split; [done|]. intros w1 n w2 Hw Hp. eapply waits_stuck in Hw; [|exact Hstuck].
  eapply stuck_Poll in Hp as [Hs2 Hn]; [|exact Hw]. split; [done|]. intros E. destruct Hs2 as (_ & _ & _ & H). by rewrite E in H.
Qed.

(** An endpoint of the list that is one of a member. *)
Definition names (id : Z) (endpoint : string) : bool :=
  match cut_at "=" endpoint with
  | Some (String c i, _) => bool_decide (ParseInt32 (String c i) = Some id)
  | _ => false
  end.

Section Unnamed.
Context (opts : ClientOptions) (leader : Z).

(** The leader and the publication to it. *)
Definition aims (w : cworld) : clientState * Z * option nat :=
  (state (x_client w), leaderMemberId (x_client w), ingressPub (x_client w)).

Lemma member_close_aims id w : exists w', member_close id w = Ret tt w' /\ aims w' = aims w.
Proof using Type.
  unfold member_close, bind, of_client. destruct (memberByIdMap (x_client w) !! id) as [[e [p|]]|]; [|by eexists..].
  unfold pub_Close. destruct (x_pubs w !! p); by eexists.
Qed.

Lemma update_endpoint_other endpoint w :
  leaderMemberId (x_client w) = leader -> names leader endpoint = false ->
  exists w', update_endpoint opts endpoint w = Ret tt w' /\ aims w' = aims w.
Proof using Type.
  intros Hl Hn. unfold update_endpoint, names in *. destruct (cut_at _ endpoint) as [[[|c i] address]|]; [by eexists| |by eexists].
  destruct (ParseInt32 (String c i)) as [id|]; [|by eexists]. apply bool_decide_eq_false in Hn.
  erewrite bind_Ret by reflexivity.
  assert (exists w', (match memberByIdMap (x_client w) !! id with
                      | None => update_member id (mkMember address None)
                      | Some m => when (negb (bool_decide (address = m_endpoint m)))
                          (update_member id (mkMember address (m_publication m)) ;;; member_close id)
                      end) w = Ret tt w' /\ aims w' = aims w) as (w1 & Hrun & Ha).
  { destruct (memberByIdMap (x_client w) !! id) as [m|]; [|by eexists]. case_bool_decide; [by eexists|]. cbn [negb when].
    erewrite bind_Ret by reflexivity.
    match goal with |- context [member_close id ?x] => destruct (member_close_aims id x) as (w1 & -> & Ha) end. by exists w1. }
  rewrite (bind_Ret _ _ _ _ _ Hrun). erewrite bind_Ret by reflexivity.
  assert (leaderMemberId (x_client w1) = leader) as -> by (unfold aims in Ha; congruence).
  rewrite (proj2 (Z.eqb_neq id leader)) by congruence. by exists w1.
Qed.

Lemma update_endpoints_other es : forall w,
  leaderMemberId (x_client w) = leader -> Forall (fun e => names leader e = false) es ->
  exists w', update_endpoints opts es w = Ret tt w' /\ aims w' = aims w.
Proof using Type.
  induction es as [|e es IH]; intros w Hl Hn; cbn [update_endpoints]; [by eexists|]. apply Forall_cons in Hn as [He Hn].
  destruct (update_endpoint_other e w Hl He) as (w1 & Hrun & Ha). rewrite (bind_Ret _ _ _ _ _ Hrun).
  destruct (IH w1) as (w2 & Hrun2 & Ha2); [unfold aims in Ha; congruence|done|]. exists w2. split; [done|congruence].
Qed.
End Unnamed.

(** A new leader whose address is not among the endpoints that come with the event: the client
    handles the event, and has no publication any more; the next poll stops with a panic. *)
Theorem unnamed_leader_panics opts range_members e w :
  state (x_client w) = clientConnected -> NewLeaderEvent_ClusterSessionId e = clusterSessionId (x_client w) ->
  IngressEndpoints opts <> EmptyString ->
  Forall (fun s => names (NewLeaderEvent_LeaderMemberId e) s = false)
    (split_at "," (String.string_of_list_byte (NewLeaderEvent_IngressEndpoints e))) ->
  exists w', onNewLeaderEvent opts e w = Ret tt w' /\
    exists w2, Poll opts range_members w' = Exc (EPanic "nil pointer dereference") w2.
Proof.
  intros Hst Hsid Hopts Hn. unfold onNewLeaderEvent. do 2 erewrite bind_Ret by reflexivity.
  rewrite Hst, bool_decide_true, Hsid, Z.eqb_refl by done. cbn [andb]. do 2 erewrite bind_Ret by reflexivity.
  rewrite bool_decide_false by done. cbn [negb when].
  assert (forall w0, leaderMemberId (x_client w0) = NewLeaderEvent_LeaderMemberId e -> state (x_client w0) = clientConnected ->
    exists w', (let! p := of_client ingressPub in pub_Close p ;;; on_client (with_ingressPub None) ;;;
      updateMemberEndpoints opts (String.string_of_list_byte (NewLeaderEvent_IngressEndpoints e))) w0 = Ret tt w' /\
      state (x_client w') = clientConnected /\ ingressPub (x_client w') = None) as Hclose.
  { intros w0 Hl Hs. erewrite bind_Ret by reflexivity.
    assert (exists w1, pub_Close (ingressPub (x_client w0)) w0 = Ret tt w1 /\ x_client w1 = x_client w0) as (w1 & Hc & Hw1).
    { unfold pub_Close. destruct (ingressPub (x_client w0)); [destruct (x_pubs w0 !! n)|]; by eexists. }
    rewrite (bind_Ret _ _ _ _ _ Hc). erewrite bind_Ret by reflexivity. unfold updateMemberEndpoints.
    case_bool_decide; [eexists; split; [reflexivity|]; cbn; by rewrite Hw1|].
    edestruct (update_endpoints_other opts (NewLeaderEvent_LeaderMemberId e)) as (w2 & Hrun & Ha); [|exact Hn|].
    2: { rewrite Hrun. exists w2. unfold aims in Ha. injection Ha as -> _ ->. cbn. rewrite Hw1. done. }
    cbn. by rewrite Hw1. }
  match goal with |- context [bind (bind _ _) _ ?x] => destruct (Hclose x) as (w1 & Hrun & Hs & Hi); [done|done|] end.
  rewrite (bind_Ret _ _ _ _ _ Hrun). do 2 eexists; [reflexivity|]. eexists. unfold Poll. erewrite bind_Ret by reflexivity.
  cbn. rewrite Hs. cbn. unfold bind, of_client. cbn. by rewrite Hi.
Qed.
