(* ===== verification/Conductor.v ===== *)
(** * The client conductor

    src/aeron/clientconductor.go and counter.go: the registrations of a client. The client's
    threads add, find and release publications, subscriptions and counters; the conductor's
    thread receives the driver's answers, keeps the client alive, watches the driver and
    closes what is no longer used.

    The state is the record [client]: the conductor's fields, and the publications,
    subscriptions and counters that were handed out, which are shared with the user: a
    reference is an index into the table of the objects. A slice is a prefix of its backing
    array, because a loop over a slice goes on over the array when an operation that the loop
    calls shortens the slice. Callbacks to the user's code are recorded in [calls]. The
    operations that read the clock take the time as an argument; the administrative lock makes
    every operation atomic. Goroutines that wait on the full channel of lingering resources
    are [EBlocked]. *)

From S2P Require Import Prelude Memory Bits Flyweight RingBuffer Broadcast Counters LogBuffer Command.
From S2P Require Import Proxy ListenerAdapter TermSpec Appender Reader FragmentAssembler Publication.
From S2P Require Import Image ChannelUri Subscription.

Local Open Scope m_scope.

Local Abbreviation bytes := (list Init.Byte.byte).

(** ** Data *)

Inductive RegistrationStatus : Type := AwaitingMediaDriver | RegisteredMediaDriver | ErroredMediaDriver.

#[export] Instance status_eq_dec : EqDecision RegistrationStatus.
Proof. solve_decision. Defined.

Definition Millisecond : Z := 1000000.
Definition keepaliveTimeoutNS : Z := 500 * Millisecond.
Definition resourceTimeoutNS : Z := 1000 * Millisecond.
Definition heartbeatTypeId : Z := 11.
Definition heartheatRegistrationIdOffset : Z := 0.
Definition MaxLabelLength : Z := FullLabelLength - 4.

Record publicationStateDefn : Type := mkPubState {
  ps_regID : Z; ps_origRegID : Z; ps_timeOfRegistration : Z; ps_streamID : Z; ps_sessionID : Z;
  ps_posLimitCounterID : Z; ps_channelStatusIndicatorID : Z; ps_errorCode : Z;
  ps_status : RegistrationStatus; ps_channel : bytes; ps_errorMessage : bytes;
  ps_buffers : option LogBuffers; ps_publication : option nat }.

Definition publicationStateDefn_Init (channel : bytes) (regID streamID now : Z) : publicationStateDefn :=
  mkPubState regID 0 now streamID (-1) (-1) 0 0 AwaitingMediaDriver channel [] None None.

(** A handler is a reference to the user's function; [None] is nil. *)
Record subscriptionStateDefn : Type := mkSubState {
  ss_regID : Z; ss_timeOfRegistration : Z; ss_streamID : Z; ss_errorCode : Z;
  ss_status : RegistrationStatus; ss_channel : bytes; ss_errorMessage : bytes;
  ss_availableImageHandler : option nat; ss_unavailableImageHandler : option nat;
  ss_subscription : option nat }.

Definition subscriptionStateDefn_Init (ch : bytes) (regID sID now : Z) (available unavailable : option nat)
  : subscriptionStateDefn :=
  mkSubState regID now sID 0 AwaitingMediaDriver ch [] available unavailable None.

Record counterStateDefn : Type := mkCounterState {
  cs_timeOfRegistration : Z; cs_counterId : Z; cs_errorCode : Z; cs_errorMessage : bytes;
  cs_status : RegistrationStatus; cs_counter : option nat }.

Definition counterStateDefn_Init (time : Z) : counterStateDefn :=
  mkCounterState time 0 0 [] AwaitingMediaDriver None.

(** What lingers until it is closed; [RNil] is the nil that an unknown image leaves. *)
Inductive resource : Type := RLogBuffers (l : LogBuffers) | RImage (img : image) | RNil.
Record lingerResourse : Type := mkLinger { lr_lastTime : Z; lr_resource : resource }.

(** A subscription with its handlers, and counter.go's counter. *)
Record subscriptionObject : Type := mkSubObject {
  so_sub : Subscription image; so_available : option nat; so_unavailable : option nat }.
Record CounterObject : Type := mkCounterObject {
  co_registrationId : Z; co_atomicCounter : AtomicCounter; co_counterId : Z; co_isClosed : bool }.

Inductive clientError : Type :=
| ErrProxy (e : proxyError)
| ErrDriverInactive
| ErrNotFound (registrationID : Z)
| ErrNoResponse (started now timeout : Z)
| ErrRegistration (registrationID errorCode : Z) (errorMessage : bytes)
| ErrKeyLengthOutOfBounds (n : Z)
| ErrLabelLengthOutOfBounds (n : Z)
| ErrNewCounter (counterId : Z)
| ErrEndpoint (errorMessage : bytes)
| ErrClientTimeout (clientID : Z)
| ErrServiceInterval (now : Z)
| ErrDriverKeepalive (age : Z)
| ErrHeartbeatNotActive
| ErrUnmap (what : string)
| ErrPanic (what : string)
| ErrNotStopped.

(** The calls of the user's handlers. *)
Inductive call : Type :=
| CallNewPublication (channel : bytes) (streamID sessionID regID : Z)
| CallNewSubscription (channel : bytes) (streamID correlationID : Z)
| CallAvailableImage (handler : nat) (img : image)
| CallUnavailableImage (handler : nat) (img : option image)
| CallAvailableCounter (handler : nat) (registrationId counterId : Z)
| CallUnavailableCounter (handler : nat) (registrationId counterId : Z)
| CallError (e : clientError).

(** A Go slice of pointers. *)
Record slice (A : Type) : Type := mkSlice { s_array : list (option A); s_len : nat }.
Arguments mkSlice {A}.
Arguments s_array {A}.
Arguments s_len {A}.

Definition visible {A} (s : slice A) : list (option A) := take (s_len s) (s_array s).
Definition slice_append {A} (s : slice A) (x : A) : slice A :=
  mkSlice (visible s ++ [Some x]) (S (length (visible s))).
Definition slice_set {A} (s : slice A) (i : nat) (x : option A) : slice A :=
  mkSlice (<[i := x]> (s_array s)) (s_len s).
Definition slice_to {A} (s : slice A) (n : nat) : slice A := mkSlice (s_array s) n.
Definition nil_slice {A} : slice A := mkSlice [] 0.

Record client : Type := mkClient {
  pubs : slice publicationStateDefn;
  subs : slice subscriptionStateDefn;
  counters : option (gmap Z counterStateDefn);
  lingeringResources : list lingerResourse;
  availableCounterHandlers : list (Z * nat);
  unavailableCounterHandlers : list (Z * nat);
  running : bool;
  conductorRunning : bool;
  driverActive : bool;
  timeOfLastKeepalive : Z;
  timeOfLastCheckManagedResources : Z;
  timeOfLastDoWork : Z;
  heartbeatTimestamp : option AtomicCounter;
  publications : list Publication;
  subscriptions : list subscriptionObject;
  counterObjects : list CounterObject;
  calls : list call }.

Definition set_pubs (v : slice publicationStateDefn) (c : client) : client :=
  mkClient v (subs c) (counters c) (lingeringResources c) (availableCounterHandlers c)
    (unavailableCounterHandlers c) (running c) (conductorRunning c) (driverActive c) (timeOfLastKeepalive c)
    (timeOfLastCheckManagedResources c) (timeOfLastDoWork c) (heartbeatTimestamp c) (publications c)
    (subscriptions c) (counterObjects c) (calls c).
Definition set_subs (v : slice subscriptionStateDefn) (c : client) : client :=
  mkClient (pubs c) v (counters c) (lingeringResources c) (availableCounterHandlers c)
    (unavailableCounterHandlers c) (running c) (conductorRunning c) (driverActive c) (timeOfLastKeepalive c)
    (timeOfLastCheckManagedResources c) (timeOfLastDoWork c) (heartbeatTimestamp c) (publications c)
    (subscriptions c) (counterObjects c) (calls c).
Definition set_counters (v : option (gmap Z counterStateDefn)) (c : client) : client :=
  mkClient (pubs c) (subs c) v (lingeringResources c) (availableCounterHandlers c)
    (unavailableCounterHandlers c) (running c) (conductorRunning c) (driverActive c) (timeOfLastKeepalive c)
    (timeOfLastCheckManagedResources c) (timeOfLastDoWork c) (heartbeatTimestamp c) (publications c)
    (subscriptions c) (counterObjects c) (calls c).
Definition set_lingeringResources (v : list lingerResourse) (c : client) : client :=
  mkClient (pubs c) (subs c) (counters c) v (availableCounterHandlers c) (unavailableCounterHandlers c)
    (running c) (conductorRunning c) (driverActive c) (timeOfLastKeepalive c)
    (timeOfLastCheckManagedResources c) (timeOfLastDoWork c) (heartbeatTimestamp c) (publications c)
    (subscriptions c) (counterObjects c) (calls c).
Definition set_availableCounterHandlers (v : list (Z * nat)) (c : client) : client :=
  mkClient (pubs c) (subs c) (counters c) (lingeringResources c) v (unavailableCounterHandlers c) (running
    c) (conductorRunning c) (driverActive c) (timeOfLastKeepalive c) (timeOfLastCheckManagedResources c)
    (timeOfLastDoWork c) (heartbeatTimestamp c) (publications c) (subscriptions c) (counterObjects c) (calls
    c).
Definition set_unavailableCounterHandlers (v : list (Z * nat)) (c : client) : client :=
  mkClient (pubs c) (subs c) (counters c) (lingeringResources c) (availableCounterHandlers c) v (running c)
    (conductorRunning c) (driverActive c) (timeOfLastKeepalive c) (timeOfLastCheckManagedResources c)
    (timeOfLastDoWork c) (heartbeatTimestamp c) (publications c) (subscriptions c) (counterObjects c) (calls
    c).
Definition set_running (v : bool) (c : client) : client :=
  mkClient (pubs c) (subs c) (counters c) (lingeringResources c) (availableCounterHandlers c)
    (unavailableCounterHandlers c) v (conductorRunning c) (driverActive c) (timeOfLastKeepalive c)
    (timeOfLastCheckManagedResources c) (timeOfLastDoWork c) (heartbeatTimestamp c) (publications c)
    (subscriptions c) (counterObjects c) (calls c).
Definition set_conductorRunning (v : bool) (c : client) : client :=
  mkClient (pubs c) (subs c) (counters c) (lingeringResources c) (availableCounterHandlers c)
    (unavailableCounterHandlers c) (running c) v (driverActive c) (timeOfLastKeepalive c)
    (timeOfLastCheckManagedResources c) (timeOfLastDoWork c) (heartbeatTimestamp c) (publications c)
    (subscriptions c) (counterObjects c) (calls c).
Definition set_driverActive (v : bool) (c : client) : client :=
  mkClient (pubs c) (subs c) (counters c) (lingeringResources c) (availableCounterHandlers c)
    (unavailableCounterHandlers c) (running c) (conductorRunning c) v (timeOfLastKeepalive c)
    (timeOfLastCheckManagedResources c) (timeOfLastDoWork c) (heartbeatTimestamp c) (publications c)
    (subscriptions c) (counterObjects c) (calls c).
Definition set_timeOfLastKeepalive (v : Z) (c : client) : client :=
  mkClient (pubs c) (subs c) (counters c) (lingeringResources c) (availableCounterHandlers c)
    (unavailableCounterHandlers c) (running c) (conductorRunning c) (driverActive c) v
    (timeOfLastCheckManagedResources c) (timeOfLastDoWork c) (heartbeatTimestamp c) (publications c)
    (subscriptions c) (counterObjects c) (calls c).
Definition set_timeOfLastCheckManagedResources (v : Z) (c : client) : client :=
  mkClient (pubs c) (subs c) (counters c) (lingeringResources c) (availableCounterHandlers c)
    (unavailableCounterHandlers c) (running c) (conductorRunning c) (driverActive c) (timeOfLastKeepalive c)
    v (timeOfLastDoWork c) (heartbeatTimestamp c) (publications c) (subscriptions c) (counterObjects c)
    (calls c).
Definition set_timeOfLastDoWork (v : Z) (c : client) : client :=
  mkClient (pubs c) (subs c) (counters c) (lingeringResources c) (availableCounterHandlers c)
    (unavailableCounterHandlers c) (running c) (conductorRunning c) (driverActive c) (timeOfLastKeepalive c)
    (timeOfLastCheckManagedResources c) v (heartbeatTimestamp c) (publications c) (subscriptions c)
    (counterObjects c) (calls c).
Definition set_heartbeatTimestamp (v : option AtomicCounter) (c : client) : client :=
  mkClient (pubs c) (subs c) (counters c) (lingeringResources c) (availableCounterHandlers c)
    (unavailableCounterHandlers c) (running c) (conductorRunning c) (driverActive c) (timeOfLastKeepalive c)
    (timeOfLastCheckManagedResources c) (timeOfLastDoWork c) v (publications c) (subscriptions c)
    (counterObjects c) (calls c).
Definition set_publications (v : list Publication) (c : client) : client :=
  mkClient (pubs c) (subs c) (counters c) (lingeringResources c) (availableCounterHandlers c)
    (unavailableCounterHandlers c) (running c) (conductorRunning c) (driverActive c) (timeOfLastKeepalive c)
    (timeOfLastCheckManagedResources c) (timeOfLastDoWork c) (heartbeatTimestamp c) v (subscriptions c)
    (counterObjects c) (calls c).
Definition set_subscriptions (v : list subscriptionObject) (c : client) : client :=
  mkClient (pubs c) (subs c) (counters c) (lingeringResources c) (availableCounterHandlers c)
    (unavailableCounterHandlers c) (running c) (conductorRunning c) (driverActive c) (timeOfLastKeepalive c)
    (timeOfLastCheckManagedResources c) (timeOfLastDoWork c) (heartbeatTimestamp c) (publications c) v
    (counterObjects c) (calls c).
Definition set_counterObjects (v : list CounterObject) (c : client) : client :=
  mkClient (pubs c) (subs c) (counters c) (lingeringResources c) (availableCounterHandlers c)
    (unavailableCounterHandlers c) (running c) (conductorRunning c) (driverActive c) (timeOfLastKeepalive c)
    (timeOfLastCheckManagedResources c) (timeOfLastDoWork c) (heartbeatTimestamp c) (publications c)
    (subscriptions c) v (calls c).
Definition set_calls (v : list call) (c : client) : client :=
  mkClient (pubs c) (subs c) (counters c) (lingeringResources c) (availableCounterHandlers c)
    (unavailableCounterHandlers c) (running c) (conductorRunning c) (driverActive c) (timeOfLastKeepalive c)
    (timeOfLastCheckManagedResources c) (timeOfLastDoWork c) (heartbeatTimestamp c) (publications c)
    (subscriptions c) (counterObjects c) v.

(** ** The driver proxy as the conductor sees it *)

Record DriverProxy : Type := mkDriverProxy {
  dp_ClientID : Z;
  dp_TimeOfLastDriverKeepalive : M mem Z;
  dp_NextCorrelationID : M mem Z;
  dp_AddSubscription : bytes -> Z -> M mem (Z * option proxyError);
  dp_RemoveSubscription : Z -> M mem (option proxyError);
  dp_AddPublication : bytes -> Z -> M mem (Z * option proxyError);
  dp_AddExclusivePublication : bytes -> Z -> M mem (Z * option proxyError);
  dp_RemovePublication : Z -> M mem (option proxyError);
  dp_ClientClose : M mem (option proxyError);
  dp_AddDestination : Z -> bytes -> M mem (Z * option proxyError);
  dp_RemoveDestination : Z -> bytes -> M mem (Z * option proxyError);
  dp_AddRcvDestination : Z -> bytes -> M mem (Z * option proxyError);
  dp_RemoveRcvDestination : Z -> bytes -> M mem (Z * option proxyError);
  dp_AddCounter : Z -> Buffer -> Z -> Z -> Buffer -> Z -> Z -> M mem (Z * option proxyError);
  dp_AddCounterByLabel : Z -> bytes -> M mem (Z * option proxyError);
  dp_RemoveCounter : Z -> M mem (Z * option proxyError) }.

(** The proxy of [Proxy], with its messages allocated at [a]. *)
Definition proxy_driver (p : Proxy) (a : Z) : DriverProxy := {|
  dp_ClientID := Proxy.ClientID p;
  dp_TimeOfLastDriverKeepalive := Proxy.TimeOfLastDriverKeepalive p;
  dp_NextCorrelationID := Proxy.Proxy_NextCorrelationID p;
  dp_AddSubscription := fun ch s => Proxy.AddSubscription p ch s a;
  dp_RemoveSubscription := fun r => Proxy.RemoveSubscription p r a;
  dp_AddPublication := fun ch s => Proxy.AddPublication p ch s a;
  dp_AddExclusivePublication := fun ch s => Proxy.AddExclusivePublication p ch s a;
  dp_RemovePublication := fun r => Proxy.RemovePublication p r a;
  dp_ClientClose := Proxy.ClientClose p a;
  dp_AddDestination := fun r ch => Proxy.AddDestination p r ch a;
  dp_RemoveDestination := fun r ch => Proxy.RemoveDestination p r ch a;
  dp_AddRcvDestination := fun r ch => Proxy.AddRcvDestination p r ch a;
  dp_RemoveRcvDestination := fun r ch => Proxy.RemoveRcvDestination p r ch a;
  dp_AddCounter := fun t kb ko kl lb lo ll => Proxy.AddCounter p t kb ko kl lb lo ll a;
  dp_AddCounterByLabel := fun t l => Proxy.AddCounterByLabel p t l a;
  dp_RemoveCounter := fun r => Proxy.RemoveCounter p r a |}.

(** What does not change once the conductor is connected, and the operating system's files:
    [cf_files] gives the size of a log file and its mappings, [cf_unmap] unmaps. *)
Record config : Type := mkConfig {
  driverProxy : DriverProxy;
  counterValuesBuffer : Buffer;
  counterReader : Reader;
  driverTimeoutNs : Z;
  interServiceTimeoutNs : Z;
  publicationConnectionTimeoutNs : Z;
  resourceLingerTimeoutNs : Z;
  onNewPublicationHandler : bool;
  onNewSubscriptionHandler : bool;
  onAvailableImageHandler : option nat;
  onUnavailableImageHandler : option nat;
  errorHandler : bool;
  cf_files : bytes -> Z * (Z -> Z -> option Z);
  cf_unmap : option Z -> M mem (option string) }.

(** The mutable fields after [Init]. *)
Definition client_Init : client :=
  mkClient nil_slice nil_slice (Some ∅) [] [] [] true false true 0 0 0 None [] [] [] [].

(** ** Effects on the client *)

Local Abbreviation C := (M (mem * client)).

Definition get_client : C client := fun '(m, c) => Ret c (m, c).
Definition modify (f : client -> client) : C unit := fun '(m, c) => Ret tt (m, f c).
Definition emit (e : call) : C unit := modify (fun c => set_calls (calls c ++ [e]) c).

(** [lingeringResources <- r]: the channel holds 1024 resources. *)
Definition lingering_capacity : nat := 1024.
Definition linger (r : lingerResourse) : C unit :=
  let! c := get_client in
  if (length (lingeringResources c) <? lingering_capacity)%nat then
    modify (set_lingeringResources (lingeringResources c ++ [r]))
  else raise EBlocked.

Definition deref {A} (x : option A) : C A :=
  match x with Some a => ret a | None => panic "nil pointer dereference" end.

(** The pointer at index [i] of an array. *)
Definition slot {A} (arr : list (option A)) (i : nat) : C (option A) :=
  match arr !! i with Some x => ret x | None => panic "index out of range" end.

Definition read_pub (i : nat) : C (option publicationStateDefn) :=
  let! c := get_client in slot (s_array (pubs c)) i.
Definition write_pub (i : nat) (p : option publicationStateDefn) : C unit :=
  modify (fun c => set_pubs (slice_set (pubs c) i p) c).
Definition read_sub (i : nat) : C (option subscriptionStateDefn) :=
  let! c := get_client in slot (s_array (subs c)) i.
Definition write_sub (i : nat) (s : option subscriptionStateDefn) : C unit :=
  modify (fun c => set_subs (slice_set (subs c) i s) c).
Definition set_counter_state (id : Z) (d : counterStateDefn) : C unit :=
  let! c := get_client in
  match counters c with
  | Some m => modify (set_counters (Some (<[id := d]> m)))
  | None => panic "assignment to entry in nil map"
  end.

(** A nil map has no entries. *)
Definition lookup_counter (id : Z) : C (option counterStateDefn) :=
  let! c := get_client in ret (match counters c with Some m => m !! id | None => None end).

(** A range loop over the indices of a slice. *)
Fixpoint for_range (ixs : list nat) (body : nat -> C unit) : C unit :=
  match ixs with
  | [] => ret tt
  | i :: ixs' => body i ;;; for_range ixs' body
  end.

Definition pub_indices : C (list nat) := let! c := get_client in ret (seq 0 (s_len (pubs c))).
Definition sub_indices : C (list nat) := let! c := get_client in ret (seq 0 (s_len (subs c))).

(** ** clientconductor.go *)

Section Conductor.
Context (cf : config).
Local Abbreviation driver := (driverProxy cf).

Definition onError (e : clientError) : C unit :=
  if errorHandler cf then emit (CallError e) else raise EFatal.

Definition getDriverStatus : C (option clientError) :=
  let! c := get_client in
  ret (if driverActive c then None else Some ErrDriverInactive).

(** An operation that the driver's status guards. *)
Definition when_active {A} (refused : clientError -> A) (op : C A) : C A :=
  let! err := getDriverStatus in
  match err with Some e => ret (refused e) | None => op end.

(** The two operations differ in the command. *)
Definition add_publication (command : bytes -> Z -> M mem (Z * option proxyError))
  (channel : bytes) (streamID now : Z) : C (Z * option clientError) :=
  when_active (fun e => (0, Some e))
    (let! (regID, err) := on_fst (command channel streamID) in
     match err with
     | Some e => ret (0, Some (ErrProxy e))
     | None =>
         modify (fun c => set_pubs (slice_append (pubs c)
                   (publicationStateDefn_Init channel regID streamID now)) c) ;;;
         ret (regID, None)
     end).

Definition AddPublication (channel : bytes) (streamID now : Z) : C (Z * option clientError) :=
  add_publication (dp_AddPublication driver) channel streamID now.
Definition AddExclusivePublication (channel : bytes) (streamID now : Z) : C (Z * option clientError) :=
  add_publication (dp_AddExclusivePublication driver) channel streamID now.

Definition timeoutExceeded (timeOfRegistration now : Z) : option clientError :=
  if now >? i64 (timeOfRegistration + driverTimeoutNs cf)
  then Some (ErrNoResponse timeOfRegistration now (driverTimeoutNs cf)) else None.

(** The publication object of a registration that the driver has answered. *)
Definition publication_for (pub : publicationStateDefn) (registrationID : Z) : C Publication :=
  let! buffers := deref (ps_buffers pub) in
  let! p := on_fst (NewPublication buffers) in
  let! limit := on_fst (NewPosition (counterValuesBuffer cf) (ps_posLimitCounterID pub)) in
  ret {| pub_channel := String.string_of_list_byte (ps_channel pub);
         pub_regID := registrationID; pub_originalRegID := ps_origRegID pub;
         maxPossiblePosition := maxPossiblePosition p;
         pub_streamID := ps_streamID pub; pub_sessionID := ps_sessionID pub;
         pub_initialTermID := pub_initialTermID p; maxPayloadLength := maxPayloadLength p;
         maxMessageLength := maxMessageLength p; positionBitsToShift := positionBitsToShift p;
         pubLimit := limit; channelStatusIndicatorID := ps_channelStatusIndicatorID pub;
         pub_isClosed := pub_isClosed p; pub_metaData := pub_metaData p; appenders := appenders p |}.

Definition set_ps_publication (pub : publicationStateDefn) (ref : nat) : publicationStateDefn :=
  mkPubState (ps_regID pub) (ps_origRegID pub) (ps_timeOfRegistration pub) (ps_streamID pub)
    (ps_sessionID pub) (ps_posLimitCounterID pub) (ps_channelStatusIndicatorID pub) (ps_errorCode pub)
    (ps_status pub) (ps_channel pub) (ps_errorMessage pub) (ps_buffers pub) (Some ref).

Definition new_publication_object (p : Publication) : C nat :=
  let! c := get_client in
  modify (set_publications (publications c ++ [p])) ;;;
  ret (length (publications c)).

(** What is answered for the registration at index [i]. *)
Definition found_publication (i : nat) (pub : publicationStateDefn) (registrationID now : Z)
  : C (option nat * option clientError) :=
  match ps_publication pub with
  | Some ref => ret (Some ref, None)
  | None =>
      match ps_status pub with
      | AwaitingMediaDriver => ret (None, timeoutExceeded (ps_timeOfRegistration pub) now)
      | RegisteredMediaDriver =>
          let! p := publication_for pub registrationID in
          let! ref := new_publication_object p in
          write_pub i (Some (set_ps_publication pub ref)) ;;;
          ret (Some ref, None)
      | ErroredMediaDriver =>
          ret (None, Some (ErrRegistration registrationID (ps_errorCode pub) (ps_errorMessage pub)))
      end
  end.

Fixpoint find_publication (ixs : list nat) (registrationID now : Z)
  : C (option nat * option clientError) :=
  match ixs with
  | [] => ret (None, Some (ErrNotFound registrationID))
  | i :: ixs' =>
      let! pub := read_pub i in
      let! pub := deref pub in
      if negb (ps_regID pub =? registrationID) then find_publication ixs' registrationID now
      else found_publication i pub registrationID now
  end.

Definition FindPublication (registrationID now : Z) : C (option nat * option clientError) :=
  let! ixs := pub_indices in find_publication ixs registrationID now.

(** The loop of [releasePublication]: [pubcnt] elements are left. A removed element is
    overwritten by the last one, which is not looked at again. *)
Fixpoint release_publication (ixs : list nat) (regID now : Z) (pubcnt : nat)
  : C (nat * option clientError) :=
  match ixs with
  | [] => ret (pubcnt, None)
  | i :: ixs' =>
      let! pub := read_pub i in
      match pub with
      | Some pub =>
          if ps_regID pub =? regID then
            let! err := on_fst (dp_RemovePublication driver regID) in
            match err with
            | Some e => ret (pubcnt, Some (ErrProxy e))
            | None =>
                let! l := read_pub (pubcnt - 1) in
                write_pub i l ;;;
                write_pub (pubcnt - 1) None ;;;
                let! buffers := deref (ps_buffers pub) in
                let '(buffers, refs) := DecRef buffers in
                when (refs =? 0) (linger (mkLinger now (RLogBuffers buffers))) ;;;
                release_publication ixs' regID now (pubcnt - 1)
            end
          else release_publication ixs' regID now pubcnt
      | None => release_publication ixs' regID now pubcnt
      end
  end.

Definition releasePublication (regID now : Z) : C (option clientError) :=
  when_active Some
    (let! ixs := pub_indices in
     let! (pubcnt, err) := release_publication ixs regID now (length ixs) in
     match err with
     | Some e => ret (Some e)
     | None => modify (fun c => set_pubs (slice_to (pubs c) pubcnt) c) ;;; ret None
     end).

(** *** Subscriptions *)

Definition AddSubscriptionWithHandlers (channel : bytes) (streamID : Z)
  (onAvailableImage onUnavailableImage : option nat) (now : Z) : C (Z * option clientError) :=
  when_active (fun e => (0, Some e))
    (let! (regID, err) := on_fst (dp_AddSubscription driver channel streamID) in
     match err with
     | Some e => ret (0, Some (ErrProxy e))
     | None =>
         modify (fun c => set_subs (slice_append (subs c)
           (subscriptionStateDefn_Init channel regID streamID now onAvailableImage onUnavailableImage)) c) ;;;
         ret (regID, None)
     end).

Definition AddSubscription (channel : bytes) (streamID now : Z) : C (Z * option clientError) :=
  AddSubscriptionWithHandlers channel streamID (onAvailableImageHandler cf) (onUnavailableImageHandler cf) now.

Fixpoint find_subscription (ixs : list nat) (registrationID now : Z)
  : C (option nat * option clientError) :=
  match ixs with
  | [] => ret (None, Some (ErrNotFound registrationID))
  | i :: ixs' =>
      let! sub := read_sub i in
      let! sub := deref sub in
      if negb (ss_regID sub =? registrationID) then find_subscription ixs' registrationID now
      else
        match ss_status sub with
        | AwaitingMediaDriver => ret (None, timeoutExceeded (ss_timeOfRegistration sub) now)
        | RegisteredMediaDriver => ret (ss_subscription sub, None)
        | ErroredMediaDriver =>
            ret (None, Some (ErrRegistration registrationID (ss_errorCode sub) (ss_errorMessage sub)))
        end
  end.

Definition FindSubscription (registrationID now : Z) : C (option nat * option clientError) :=
  let! ixs := sub_indices in find_subscription ixs registrationID now.

Definition sub_object (ref : nat) : C subscriptionObject :=
  let! c := get_client in deref (subscriptions c !! ref).
Definition set_sub_object (ref : nat) (o : subscriptionObject) : C unit :=
  modify (fun c => set_subscriptions (<[ref := o]> (subscriptions c)) c).

(** The images of a released subscription: the handler is told, then they linger. *)
Fixpoint release_images (images : list image) (handler : option nat) (now : Z) : C unit :=
  match images with
  | [] => ret tt
  | img :: images' =>
      match handler with Some h => emit (CallUnavailableImage h (Some img)) | None => ret tt end ;;;
      linger (mkLinger now (RImage img)) ;;;
      release_images images' handler now
  end.

Fixpoint release_subscription (ixs : list nat) (regID : Z) (images : list image) (now : Z) (subcnt : nat)
  : C (nat * option clientError) :=
  match ixs with
  | [] => ret (subcnt, None)
  | i :: ixs' =>
      let! sub := read_sub i in
      match sub with
      | Some sub =>
          if ss_regID sub =? regID then
            let! err := on_fst (dp_RemoveSubscription driver regID) in
            match err with
            | Some e => ret (subcnt, Some (ErrProxy e))
            | None =>
                let! l := read_sub (subcnt - 1) in
                write_sub i l ;;;
                write_sub (subcnt - 1) None ;;;
                let! handler :=
                  match ss_subscription sub with
                  | Some ref => let! o := sub_object ref in ret (so_unavailable o)
                  | None => ret None
                  end in
                release_images images handler now ;;;
                release_subscription ixs' regID images now (subcnt - 1)
            end
          else release_subscription ixs' regID images now subcnt
      | None => release_subscription ixs' regID images now subcnt
      end
  end.

Definition releaseSubscription (regID : Z) (images : list image) (now : Z) : C (option clientError) :=
  when_active Some
    (let! ixs := sub_indices in
     let! (subcnt, err) := release_subscription ixs regID images now (length ixs) in
     match err with
     | Some e => ret (Some e)
     | None => modify (fun c => set_subs (slice_to (subs c) subcnt) c) ;;; ret None
     end).

(** *** Destinations *)

Definition destination_command (command : Z -> bytes -> M mem (Z * option proxyError))
  (registrationID : Z) (endpointChannel : bytes) : C (option clientError) :=
  when_active Some
    (let! (_, err) := on_fst (command registrationID endpointChannel) in ret (ErrProxy <$> err)).

Definition AddDestination := destination_command (dp_AddDestination driver).
Definition RemoveDestination := destination_command (dp_RemoveDestination driver).
Definition AddRcvDestination := destination_command (dp_AddRcvDestination driver).
Definition RemoveRcvDestination := destination_command (dp_RemoveRcvDestination driver).

(** *** Counters *)

Definition releaseCounter (counter : CounterObject) : C (option clientError) :=
  when_active Some
    (let registrationId := co_registrationId counter in
     let! c := get_client in
     match counters c with
     | Some m =>
         match m !! registrationId with
         | Some _ =>
             modify (set_counters (Some (delete registrationId m))) ;;;
             let! (_, err) := on_fst (dp_RemoveCounter driver registrationId) in
             ret (ErrProxy <$> err)
         | None => ret None
         end
     | None => ret None
     end).

(** The end of the two operations that add a counter. *)
Definition register_counter (result : Z * option proxyError) (now : Z) : C (Z * option clientError) :=
  match result with
  | (_, Some e) => ret (0, Some (ErrProxy e))
  | (registrationId, None) =>
      set_counter_state registrationId (counterStateDefn_Init now) ;;; ret (registrationId, None)
  end.

Definition AddCounter (typeId : Z) (keyBuffer : Buffer) (keyOffset keyLength : Z) (labelBuffer : Buffer)
  (labelOffset labelLength now : Z) : C (Z * option clientError) :=
  when_active (fun e => (0, Some e))
    (if (keyLength <? 0) || (keyLength >? MaxKeyLength) then ret (0, Some (ErrKeyLengthOutOfBounds keyLength))
     else if (labelLength <? 0) || (labelLength >? MaxLabelLength) then
       ret (0, Some (ErrLabelLengthOutOfBounds labelLength))
     else
       let! result := on_fst (dp_AddCounter driver typeId keyBuffer keyOffset keyLength labelBuffer
                                labelOffset labelLength) in
       register_counter result now).

Definition AddCounterByLabel (typeId : Z) (label : bytes) (now : Z) : C (Z * option clientError) :=
  when_active (fun e => (0, Some e))
    (if i32 (zlen label) >? MaxLabelLength then ret (0, Some (ErrLabelLengthOutOfBounds (zlen label)))
     else
       let! result := on_fst (dp_AddCounterByLabel driver typeId label) in
       register_counter result now).

(** counter.go *)
Definition NewCounter (registrationId counterId : Z) : CounterObject + clientError :=
  match NewAtomicCounter (counterReader cf) counterId with
  | Some a => inl (mkCounterObject registrationId a counterId false)
  | None => inr (ErrNewCounter counterId)
  end.

Definition set_cs_counter (d : counterStateDefn) (ref : nat) : counterStateDefn :=
  mkCounterState (cs_timeOfRegistration d) (cs_counterId d) (cs_errorCode d) (cs_errorMessage d)
    (cs_status d) (Some ref).

Definition FindCounter (registrationID now : Z) : C (option nat * option clientError) :=
  let! counterDef := lookup_counter registrationID in
  match counterDef with
  | None => ret (None, Some (ErrNotFound registrationID))
  | Some d =>
      match cs_counter d with
      | Some ref => ret (Some ref, None)
      | None =>
          match cs_status d with
          | AwaitingMediaDriver => ret (None, timeoutExceeded (cs_timeOfRegistration d) now)
          | RegisteredMediaDriver =>
              match NewCounter registrationID (cs_counterId d) with
              | inr e => ret (None, Some e)
              | inl o =>
                  let! c := get_client in
                  modify (set_counterObjects (counterObjects c ++ [o])) ;;;
                  set_counter_state registrationID (set_cs_counter d (length (counterObjects c))) ;;;
                  ret (Some (length (counterObjects c)), None)
              end
          | ErroredMediaDriver =>
              ret (None, Some (ErrRegistration registrationID (cs_errorCode d) (cs_errorMessage d)))
          end
      end
  end.

(** [Close] of a counter releases it, the first time only. *)
Definition Counter_Close (ref : nat) : C (option clientError) :=
  let! c := get_client in
  let! o := deref (counterObjects c !! ref) in
  if co_isClosed o then ret None
  else
    let o := mkCounterObject (co_registrationId o) (co_atomicCounter o) (co_counterId o) true in
    modify (set_counterObjects (<[ref := o]> (counterObjects c))) ;;;
    releaseCounter o.

(** *** Handlers of counter events *)

Definition AddAvailableCounterHandler (handler : nat) : C Z :=
  let! registrationID := on_fst (dp_NextCorrelationID driver) in
  modify (fun c => set_availableCounterHandlers (availableCounterHandlers c ++ [(registrationID, handler)]) c) ;;;
  ret registrationID.

Definition AddUnavailableCounterHandler (handler : nat) : C Z :=
  let! registrationID := on_fst (dp_NextCorrelationID driver) in
  modify (fun c => set_unavailableCounterHandlers (unavailableCounterHandlers c ++ [(registrationID, handler)]) c) ;;;
  ret registrationID.

(** The first pair that is found is overwritten by the last one, and the list shortened. *)
Fixpoint remove_pair (rest : list (Z * nat)) (i : nat) (found : Z * nat -> bool) (pairs : list (Z * nat))
  : option (list (Z * nat)) :=
  match rest with
  | [] => None
  | entry :: rest' =>
      if found entry then
        match last pairs with
        | Some l => Some (take (length pairs - 1) (<[i := l]> pairs))
        | None => None
        end
      else remove_pair rest' (S i) found pairs
  end.

Definition remove_available (found : Z * nat -> bool) : C bool :=
  let! c := get_client in
  match remove_pair (availableCounterHandlers c) 0 found (availableCounterHandlers c) with
  | Some pairs => modify (set_availableCounterHandlers pairs) ;;; ret true
  | None => ret false
  end.
Definition remove_unavailable (found : Z * nat -> bool) : C bool :=
  let! c := get_client in
  match remove_pair (unavailableCounterHandlers c) 0 found (unavailableCounterHandlers c) with
  | Some pairs => modify (set_unavailableCounterHandlers pairs) ;;; ret true
  | None => ret false
  end.

Definition RemoveAvailableCounterHandlerById (registrationId : Z) : C bool :=
  remove_available (fun entry => fst entry =? registrationId).
Definition RemoveAvailableCounterHandler (handler : nat) : C bool :=
  remove_available (fun entry => (snd entry =? handler)%nat).
Definition RemoveUnavailableCounterHandlerById (registrationId : Z) : C bool :=
  remove_unavailable (fun entry => fst entry =? registrationId).

(** This one compares the addresses of two different variables, which are never equal. *)
Definition RemoveUnavailableCounterHandler (handler : nat) : C bool :=
  remove_unavailable (fun _ => false).

(** *** The driver's answers *)

Definition logbuffer_Wrap (fileName : bytes) : M mem LogBuffers :=
  let '(logLength, MapExisting) := cf_files cf fileName in LogBuffers_Wrap MapExisting logLength.

(** The registration with the driver's answer. *)
Definition pub_registered (pubDef : publicationStateDefn) (origRegID sessionID posLimitCounterID
  channelStatusIndicatorID : Z) (buffers : LogBuffers) : publicationStateDefn :=
  mkPubState (ps_regID pubDef) origRegID (ps_timeOfRegistration pubDef) (ps_streamID pubDef) sessionID
    posLimitCounterID channelStatusIndicatorID (ps_errorCode pubDef) RegisteredMediaDriver
    (ps_channel pubDef) (ps_errorMessage pubDef) (Some buffers) (ps_publication pubDef).

(** The two callbacks of publications are the same. *)
Definition publication_ready (streamID sessionID posLimitCounterID channelStatusIndicatorID : Z)
  (logFileName : bytes) (regID origRegID : Z) : C unit :=
  let! ixs := pub_indices in
  for_range ixs (fun i =>
    let! pubDef := read_pub i in
    let! pubDef := deref pubDef in
    if ps_regID pubDef =? regID then
      let! buffers := on_fst (logbuffer_Wrap logFileName) in
      let '(buffers, _) := IncRef buffers in
      write_pub i (Some (pub_registered pubDef origRegID sessionID posLimitCounterID
                           channelStatusIndicatorID buffers)) ;;;
      when (onNewPublicationHandler cf) (emit (CallNewPublication (ps_channel pubDef) streamID sessionID regID))
    else ret tt).

Definition OnNewPublication := publication_ready.
Definition OnNewExclusivePublication := publication_ready.

Fixpoint call_handlers (handlers : list (Z * nat)) (mk : nat -> call) : C unit :=
  match handlers with
  | [] => ret tt
  | (_, h) :: handlers' => emit (mk h) ;;; call_handlers handlers' mk
  end.

Definition OnAvailableCounter (registrationId counterId : Z) : C unit :=
  let! counterDef := lookup_counter registrationId in
  match counterDef with
  | Some d =>
      when (bool_decide (cs_status d = AwaitingMediaDriver))
        (set_counter_state registrationId
           (mkCounterState (cs_timeOfRegistration d) counterId (cs_errorCode d) (cs_errorMessage d)
              RegisteredMediaDriver (cs_counter d)))
  | None => ret tt
  end ;;;
  let! c := get_client in
  call_handlers (availableCounterHandlers c) (fun h => CallAvailableCounter h registrationId counterId).

Definition OnUnavailableCounter (registrationId counterId : Z) : C unit :=
  let! c := get_client in
  call_handlers (unavailableCounterHandlers c) (fun h => CallUnavailableCounter h registrationId counterId).

Definition OnClientTimeout (clientID : Z) : C unit :=
  when (clientID =? dp_ClientID driver)
    (onError (ErrClientTimeout clientID) ;;; modify (set_running false)).

Definition OnSubscriptionReady (correlationID channelStatusIndicatorID : Z) : C unit :=
  let! ixs := sub_indices in
  for_range ixs (fun i =>
    let! sub := read_sub i in
    let! sub := deref sub in
    if ss_regID sub =? correlationID then
      let! c := get_client in
      let o := mkSubObject (NewSubscription (String.string_of_list_byte (ss_channel sub)) correlationID
                              (ss_streamID sub) channelStatusIndicatorID)
                 (ss_availableImageHandler sub) (ss_unavailableImageHandler sub) in
      modify (set_subscriptions (subscriptions c ++ [o])) ;;;
      write_sub i (Some (mkSubState (ss_regID sub) (ss_timeOfRegistration sub) (ss_streamID sub)
        (ss_errorCode sub) RegisteredMediaDriver (ss_channel sub) (ss_errorMessage sub)
        (ss_availableImageHandler sub) (ss_unavailableImageHandler sub) (Some (length (subscriptions c))))) ;;;
      when (onNewSubscriptionHandler cf) (emit (CallNewSubscription (ss_channel sub) (ss_streamID sub) correlationID))
    else ret tt).

(** The image is created with the registration id of its subscription and the position
    counter; its source identity is for display. *)
Definition DefaultImageFactory (sessionID corrID : Z) (logFilename : bytes) (subRegId : Z)
  (subscriberPositionID : Z) : M mem image :=
  let! l := logbuffer_Wrap logFilename in
  let! img := NewImage sessionID corrID l in
  let! position := NewPosition (counterValuesBuffer cf) subscriberPositionID in
  let! _ := Position_get position in
  ret {| img_logBuffers := img_logBuffers img; img_termBuffers := img_termBuffers img;
         img_subscriberPosition := position; img_header := img_header img;
         img_isClosed := img_isClosed img; img_isEos := img_isEos img;
         img_termLengthMask := img_termLengthMask img;
         img_positionBitsToShift := img_positionBitsToShift img; img_sessionID := img_sessionID img;
         img_finalPosition := img_finalPosition img; img_subscriptionRegistrationID := subRegId;
         img_correlationID := img_correlationID img |}.

Definition OnAvailableImage (streamID sessionID : Z) (logFilename sourceIdentity : bytes)
  (subscriberPositionID subsRegID corrID : Z) : C unit :=
  let! ixs := sub_indices in
  for_range ixs (fun i =>
    let! sub := read_sub i in
    let! sub := deref sub in
    match ss_subscription sub with
    | None => ret tt
    | Some ref =>
        if ss_regID sub =? subsRegID then
          let! img := on_fst (DefaultImageFactory sessionID corrID logFilename (ss_regID sub) subscriberPositionID) in
          let! o := sub_object ref in
          let '(_, sub') := addImage (so_sub o) img in
          set_sub_object ref (mkSubObject sub' (so_available o) (so_unavailable o)) ;;;
          match so_available o with Some h => emit (CallAvailableImage h img) | None => ret tt end
        else ret tt
    end).

Definition OnUnavailableImage (corrID subscriptionRegistrationID now : Z) : C unit :=
  let! ixs := sub_indices in
  for_range ixs (fun i =>
    let! sub := read_sub i in
    let! sub := deref sub in
    if ss_regID sub =? subscriptionRegistrationID then
      match ss_subscription sub with
      | None => ret tt
      | Some ref =>
          let! o := sub_object ref in
          let '(img, sub') := removeImage (so_sub o) corrID in
          set_sub_object ref (mkSubObject sub' (so_available o) (so_unavailable o)) ;;;
          match so_unavailable o with Some h => emit (CallUnavailableImage h img) | None => ret tt end ;;;
          linger (mkLinger now (match img with Some img => RImage img | None => RNil end))
      end
    else ret tt).

Definition OnOperationSuccess (corrID : Z) : C unit := ret tt.

Definition OnChannelEndpointError (corrID : Z) (errorMessage : bytes) : C unit :=
  let statusIndicatorId := i32 corrID in
  let! ixs := pub_indices in
  for_range ixs (fun i =>
    let! pubDef := read_pub i in
    let! pubDef := deref pubDef in
    match ps_publication pubDef with
    | None => ret tt
    | Some ref =>
        let! c := get_client in
        let! p := deref (publications c !! ref) in
        when (channelStatusIndicatorID p =? statusIndicatorId) (onError (ErrEndpoint errorMessage))
    end) ;;;
  let! ixs := sub_indices in
  for_range ixs (fun i =>
    let! subDef := read_sub i in
    let! subDef := deref subDef in
    match ss_subscription subDef with
    | None => ret tt
    | Some ref =>
        let! o := sub_object ref in
        when (sub_channelStatusID (so_sub o) =? statusIndicatorId) (onError (ErrEndpoint errorMessage))
    end).

Definition pub_errored (p : publicationStateDefn) (errorCode : Z) (errorMessage : bytes) : publicationStateDefn :=
  mkPubState (ps_regID p) (ps_origRegID p) (ps_timeOfRegistration p) (ps_streamID p) (ps_sessionID p)
    (ps_posLimitCounterID p) (ps_channelStatusIndicatorID p) errorCode ErroredMediaDriver (ps_channel p)
    errorMessage (ps_buffers p) (ps_publication p).
Definition sub_errored (s : subscriptionStateDefn) (errorCode : Z) (errorMessage : bytes) : subscriptionStateDefn :=
  mkSubState (ss_regID s) (ss_timeOfRegistration s) (ss_streamID s) errorCode ErroredMediaDriver
    (ss_channel s) errorMessage (ss_availableImageHandler s) (ss_unavailableImageHandler s) (ss_subscription s).

(** The first publication with the id takes the error: the result says whether there is one. *)
Fixpoint error_publication (ixs : list nat) (corrID errorCode : Z) (errorMessage : bytes) : C bool :=
  match ixs with
  | [] => ret false
  | i :: ixs' =>
      let! pubDef := read_pub i in
      let! pubDef := deref pubDef in
      if ps_regID pubDef =? corrID then
        write_pub i (Some (pub_errored pubDef errorCode errorMessage)) ;;; ret true
      else error_publication ixs' corrID errorCode errorMessage
  end.

Definition OnErrorResponse (corrID errorCode : Z) (errorMessage : bytes) : C unit :=
  let! counterDef := lookup_counter corrID in
  match counterDef with
  | Some d =>
      set_counter_state corrID (mkCounterState (cs_timeOfRegistration d) (cs_counterId d) errorCode errorMessage
                                  ErroredMediaDriver (cs_counter d))
  | None =>
      let! ixs := pub_indices in
      let! found := error_publication ixs corrID errorCode errorMessage in
      if found then ret tt
      else
        let! ixs := sub_indices in
        for_range ixs (fun i =>
          let! subDef := read_sub i in
          let! subDef := deref subDef in
          when (ss_regID subDef =? corrID) (write_sub i (Some (sub_errored subDef errorCode errorMessage))))
  end.

(** The conductor is the listener of the adapter, at the time [now]. *)
#[local] Instance conductor_listener (now : Z) : Listener client := {
  ListenerAdapter.OnNewPublication := OnNewPublication;
  ListenerAdapter.OnNewExclusivePublication := OnNewExclusivePublication;
  ListenerAdapter.OnAvailableImage := OnAvailableImage;
  ListenerAdapter.OnUnavailableImage := fun corrID regID => OnUnavailableImage corrID regID now;
  ListenerAdapter.OnOperationSuccess := OnOperationSuccess;
  ListenerAdapter.OnErrorResponse := OnErrorResponse;
  ListenerAdapter.OnChannelEndpointError := OnChannelEndpointError;
  ListenerAdapter.OnSubscriptionReady := OnSubscriptionReady;
  ListenerAdapter.OnAvailableCounter := OnAvailableCounter;
  ListenerAdapter.OnUnavailableCounter := OnUnavailableCounter;
  ListenerAdapter.OnClientTimeout := OnClientTimeout }.

(** *** Closing *)

(** [Close] of the shared objects: see [Publication_Close] and [Subscription_Close]. *)
Definition close_publication (ref : nat) (now : Z) : C (option clientError) :=
  let! c := get_client in
  let! p := deref (publications c !! ref) in
  if pub_isClosed p then ret None
  else
    modify (set_publications (<[ref := set_closed p]> (publications c))) ;;;
    releasePublication (pub_regID p) now.

Definition close_subscription (ref : nat) (now : Z) : C (option clientError) :=
  let! o := sub_object ref in
  match Subscription_Close (so_sub o) with
  | (None, _) => ret None
  | (Some (registrationID, images), sub') =>
      set_sub_object ref (mkSubObject sub' (so_available o) (so_unavailable o)) ;;;
      releaseSubscription registrationID images now
  end.

Definition report (err : option clientError) : C unit :=
  match err with Some e => onError e | None => ret tt end.

(** The ranges are over the arrays as they are when the loops get to an index. *)
Definition close_pubs (ixs : list nat) (now : Z) : C unit :=
  for_range ixs (fun i =>
    let! pub := read_pub i in
    match pub with
    | Some pub =>
        match ps_publication pub with
        | Some ref => let! err := close_publication ref now in report err
        | None => ret tt
        end
    | None => ret tt
    end).

Definition close_subs (ixs : list nat) (now : Z) : C unit :=
  for_range ixs (fun i =>
    let! sub := read_sub i in
    match sub with
    | Some sub =>
        match ss_subscription sub with
        | Some ref => let! err := close_subscription ref now in report err
        | None => ret tt
        end
    | None => ret tt
    end).

(** The entries of the counters' map, in some order; each close deletes its own. *)
Fixpoint close_counters (ids : list Z) : C unit :=
  match ids with
  | [] => ret tt
  | id :: ids' =>
      let! d := lookup_counter id in
      match d with
      | Some d =>
          match cs_counter d with
          | Some ref => let! err := Counter_Close ref in report err
          | None => ret tt
          end
      | None => ret tt
      end ;;;
      close_counters ids'
  end.

Definition closeAllResources (now : Z) : C unit :=
  let! c := get_client in
  if running c then
    modify (set_running false) ;;;
    let! ixs := pub_indices in
    close_pubs ixs now ;;;
    modify (set_pubs nil_slice) ;;;
    let! ixs := sub_indices in
    close_subs ixs now ;;;
    modify (set_subs nil_slice) ;;;
    let! c := get_client in
    close_counters (match counters c with Some m => map fst (map_to_list m) | None => [] end) ;;;
    modify (set_counters None)
  else ret tt.

(** Closing what lingered. *)
Definition close_resource (r : resource) : M mem (option string) :=
  match r with
  | RLogBuffers l => let! (_, err) := LogBuffers_Close (cf_unmap cf) l in ret err
  | RImage img => let! (_, err) := image_Close (cf_unmap cf) img in ret err
  | RNil => ret None
  end.

(** Resources are received until one has not lingered long enough, which goes back to the
    end of the channel. At most as many are received as there are. *)
Fixpoint check_managed (fuel : nat) (now : Z) : C unit :=
  match fuel with
  | O => raise EFuel
  | S fuel' =>
      let! c := get_client in
      match lingeringResources c with
      | [] => ret tt
      | r :: rest =>
          modify (set_lingeringResources rest) ;;;
          if resourceLingerTimeoutNs cf <? i64 (now - lr_lastTime r) then
            let! err := on_fst (close_resource (lr_resource r)) in
            match err with Some e => onError (ErrUnmap e) | None => ret tt end ;;;
            check_managed fuel' now
          else linger r
      end
  end.

Definition onCheckManagedResources (now : Z) : C unit :=
  let! c := get_client in check_managed (S (length (lingeringResources c))) now.

Fixpoint force_close (fuel : nat) : C unit :=
  match fuel with
  | O => raise EFuel
  | S fuel' =>
      let! c := get_client in
      match lingeringResources c with
      | [] => ret tt
      | r :: rest =>
          modify (set_lingeringResources rest) ;;;
          let! err := on_fst (close_resource (lr_resource r)) in
          match err with Some e => onError (ErrUnmap e) | None => ret tt end ;;;
          force_close fuel'
      end
  end.

Definition forceCloseResources : C unit :=
  let! c := get_client in force_close (S (length (lingeringResources c))).

(** *** Timeouts *)

(** The client's own heartbeat: an error when the counter is no longer the client's. *)
Definition heartbeat (now : Z) : C (option clientError) :=
  let! c := get_client in
  match heartbeatTimestamp c with
  | Some h =>
      let! r := on_fst (GetKeyPartInt64 (counterReader cf) (atc_CounterId h) heartheatRegistrationIdOffset) in
      let mine := match r with inl registrationID => registrationID =? dp_ClientID driver | inr _ => false end in
      if mine then on_fst (AtomicCounter_Set h (Z.quot now Millisecond)) ;;; ret None
      else closeAllResources now ;;; ret (Some ErrHeartbeatNotActive)
  | None =>
      let! counterId := on_fst (Counters.FindCounter (counterReader cf) heartbeatTypeId
        (Some (fun keyBuffer =>
           let! id := GetInt64 keyBuffer heartheatRegistrationIdOffset in
           ret (id =? dp_ClientID driver)))) in
      if counterId =? NullCounterId then ret None
      else
        match NewAtomicCounter (counterReader cf) counterId with
        | None => modify (set_heartbeatTimestamp None) ;;; ret None
        | Some h =>
            modify (set_heartbeatTimestamp (Some h)) ;;;
            on_fst (AtomicCounter_Set h (Z.quot now Millisecond)) ;;; ret None
        end
  end.

(** The check of the driver, at most every half second. The result says whether it was made. *)
Definition check_driver (now : Z) : C (bool * option clientError) :=
  let! c := get_client in
  if now >? i64 (timeOfLastKeepalive c + keepaliveTimeoutNS) then
    let! last := on_fst (dp_TimeOfLastDriverKeepalive driver) in
    let age := i64 (i64 (last * Millisecond) + driverTimeoutNs cf) in
    if now >? age then
      modify (set_driverActive false) ;;; ret (false, Some (ErrDriverKeepalive age))
    else
      let! err := heartbeat now in
      match err with
      | Some e => ret (false, Some e)
      | None => modify (set_timeOfLastKeepalive now) ;;; ret (true, None)
      end
  else ret (false, None).

Definition onHeartbeatCheckTimeouts (now : Z) : C (Z * option clientError) :=
  let! c := get_client in
  if now >? i64 (timeOfLastDoWork c + interServiceTimeoutNs cf) then
    closeAllResources now ;;; ret (0, Some (ErrServiceInterval now))
  else
    modify (set_timeOfLastDoWork now) ;;;
    let! (checked, err) := check_driver now in
    match err with
    | Some e => ret (0, Some e)
    | None =>
        let! c := get_client in
        if now >? i64 (timeOfLastCheckManagedResources c + resourceTimeoutNS) then
          onCheckManagedResources now ;;;
          modify (set_timeOfLastCheckManagedResources now) ;;;
          ret (1, None)
        else ret (if checked then 1 else 0, None)
    end.

Definition isPublicationConnected (timeOfLastStatusMessage now : Z) : bool :=
  now <=? i64 (i64 (timeOfLastStatusMessage * Millisecond) + publicationConnectionTimeoutNs cf).

(** *** The conductor's thread *)

Definition doWork (receiver : CopyReceiver) (now : Z) : C (Z * option clientError * CopyReceiver) :=
  let! (workCount, receiver) := @ReceiveMessages client (conductor_listener now) receiver in
  let! (heartbeats, err) := onHeartbeatCheckTimeouts now in
  ret (workCount + heartbeats, err, receiver).

(** The loop of [run], with the times of its rounds: it stops when the client does not run
    any more, on an error, or when there are no more times to look at. *)
Fixpoint run_loop (receiver : CopyReceiver) (nows : list Z) : C unit :=
  let! c := get_client in
  if running c then
    match nows with
    | [] => ret tt
    | now :: nows' =>
        let! (_, err, receiver) := doWork receiver now in
        match err with
        | Some e => onError e
        | None => run_loop receiver nows'
        end
    end
  else ret tt.

(** A panic is recovered from: it is reported and the client stops. *)
Definition recovered (op : C unit) : C unit := fun s =>
  match op s with
  | Exc (EPanic what) s' => (onError (ErrPanic what) ;;; modify (set_running false)) s'
  | r => r
  end.

Definition run (receiver : CopyReceiver) (now : Z) (nows : list Z) : C unit :=
  modify (fun c => set_timeOfLastDoWork now (set_timeOfLastCheckManagedResources now
                     (set_timeOfLastKeepalive now c))) ;;;
  recovered (modify (set_conductorRunning true) ;;; run_loop receiver nows) ;;;
  forceCloseResources ;;;
  modify (set_conductorRunning false).

Definition Start : C unit := modify (set_running true).

(** [stops]: whether the conductor's thread ends while [Close] waits. *)
Definition Close (now : Z) (stops : bool) : C (option clientError) :=
  let! c := get_client in
  let wasRunning := running c in
  closeAllResources now ;;;
  (if wasRunning then let! _ := on_fst (dp_ClientClose driver) in ret tt else ret tt) ;;;
  when stops (modify (set_conductorRunning false)) ;;;
  let! c := get_client in
  ret (if conductorRunning c then Some ErrNotStopped else None).
End Conductor.
