(* ===== verification/ConductorSpec.v ===== *)
(** * What the client conductor promises

    The theorems about [Conductor]: how registrations are released and closed, what lingers
    and for how long, and what the timeouts do. *)

From S2P Require Import Prelude Memory Bits Flyweight RingBuffer Broadcast Counters LogBuffer Command.
From S2P Require Import Proxy ListenerAdapter TermSpec Appender Reader FragmentAssembler Publication.
From S2P Require Import Image ChannelUri Subscription Conductor.

Local Open Scope m_scope.

Local Abbreviation bytes := (list Init.Byte.byte).
Local Abbreviation C := (M (mem * client)).

(** ** Steps of the client's state *)

Lemma get_bind {A} (k : client -> C A) m c : bind get_client k (m, c) = k c (m, c).
Proof. done. Qed.

Lemma modify_bind {A} f (k : unit -> C A) m c : bind (modify f) k (m, c) = k tt (m, f c).
Proof. done. Qed.

Lemma read_pub_bind {A} i x (k : option publicationStateDefn -> C A) m c :
  s_array (pubs c) !! i = Some x -> bind (read_pub i) k (m, c) = k x (m, c).
Proof. intros E. unfold read_pub. rewrite bind_assoc, get_bind. unfold slot. by rewrite E. Qed.

Lemma read_sub_bind {A} i x (k : option subscriptionStateDefn -> C A) m c :
  s_array (subs c) !! i = Some x -> bind (read_sub i) k (m, c) = k x (m, c).
Proof. intros E. unfold read_sub. rewrite bind_assoc, get_bind. unfold slot. by rewrite E. Qed.

Lemma read_deref_bind {A} i q (k : publicationStateDefn -> C A) m c :
  s_array (pubs c) !! i = Some (Some q) ->
  bind (read_pub i) (fun x => bind (deref x) k) (m, c) = k q (m, c).
Proof. intros E. by rewrite (read_pub_bind i (Some q)). Qed.

Lemma when_active_ok {A} (refused : clientError -> A) (op : C A) m c :
  driverActive c = true -> when_active refused op (m, c) = op (m, c).
Proof.
  intros E. unfold when_active, getDriverStatus. rewrite bind_assoc, get_bind, E. by rewrite bind_ret_l.
Qed.

Lemma linger_ok r m c :
  (length (lingeringResources c) < 1024)%nat ->
  linger r (m, c) = Ret tt (m, set_lingeringResources (lingeringResources c ++ [r]) c).
Proof.
  intros Hl. unfold linger. rewrite get_bind. unfold lingering_capacity.
  by rewrite (proj2 (Nat.ltb_lt _ _) Hl).
Qed.

(** ** Releasing a publication *)

Section Release.
Context (cf : config).

(** The rest of the loop when no element has the id. *)
Lemma release_publication_skip ixs regID now cnt m c :
  (forall i, i ∈ ixs -> exists x, s_array (pubs c) !! i = Some x /\ forall q, x = Some q -> ps_regID q <> regID) ->
  release_publication cf ixs regID now cnt (m, c) = Ret (cnt, None) (m, c).
Proof.
  induction ixs as [|i ixs IH]; intros Hall; [done|]. cbn [release_publication].
  destruct (Hall i) as (x & Hx & Hq); [left|]. rewrite (read_pub_bind i x) by done.
  assert (IH' : release_publication cf ixs regID now cnt (m, c) = Ret (cnt, None) (m, c))
    by (apply IH; intros j Hj; apply Hall; by right).
  destruct x as [q|]; [|done]. by rewrite (proj2 (Z.eqb_neq _ _) (Hq q eq_refl)).
Qed.

Lemma release_publication_app ixs ixs' regID now cnt m c :
  (forall i, i ∈ ixs -> exists x, s_array (pubs c) !! i = Some x /\ forall q, x = Some q -> ps_regID q <> regID) ->
  release_publication cf (ixs ++ ixs') regID now cnt (m, c) = release_publication cf ixs' regID now cnt (m, c).
Proof.
  induction ixs as [|i ixs IH]; intros Hall; [done|]. cbn [app release_publication].
  destruct (Hall i) as (x & Hx & Hq); [left|]. rewrite (read_pub_bind i x) by done.
  assert (IH' := IH ltac:(intros j Hj; apply Hall; by right)).
  destruct x as [q|]; [|done]. by rewrite (proj2 (Z.eqb_neq _ _) (Hq q eq_refl)).
Qed.

(** What is left after a release. *)
Definition released (c : client) (i n : nat) (b : LogBuffers) (now : Z) : client :=
  let arr := s_array (pubs c) in
  set_pubs (mkSlice (<[(n - 1)%nat := None]> (<[i := (arr !! (n - 1)%nat) ≫= id]> arr)) (n - 1))
    (set_lingeringResources (lingeringResources c ++ [mkLinger now (RLogBuffers (DecRef b).1)]) c).

Lemma releasePublication_at i n p b regID now m m' c :
  driverActive c = true -> s_len (pubs c) = n -> (n <= length (s_array (pubs c)))%nat -> (i < n)%nat ->
  s_array (pubs c) !! i = Some (Some p) -> ps_regID p = regID ->
  (forall j q, (j < n)%nat -> s_array (pubs c) !! j = Some (Some q) -> ps_regID q = regID -> j = i) ->
  dp_RemovePublication (driverProxy cf) regID m = Ret None m' ->
  ps_buffers p = Some b -> refCount b = 1 -> (length (lingeringResources c) < 1024)%nat ->
  releasePublication cf regID now (m, c) = Ret None (m', released c i n b now).
Proof.
  intros Hact Hn Hlen Hi Hp Hreg Huniq Hrm Hb Href Hroom. unfold releasePublication.
  rewrite when_active_ok by done. unfold pub_indices. rewrite bind_assoc, get_bind, bind_ret_l, Hn, length_seq.
  assert (Harr : forall j, (j < n)%nat -> exists x, s_array (pubs c) !! j = Some x)
    by (intros j Hj; apply lookup_lt_is_Some; lia).
  replace n with (i + S (n - i - 1))%nat at 1 by lia. rewrite seq_app, Nat.add_0_l. cbn [seq].
  unfold bind at 1. rewrite release_publication_app.
  2: { intros j Hj. apply elem_of_seq in Hj. destruct (Harr j ltac:(lia)) as [x Hx]. exists x. split; [done|].
       intros q -> Hq. rewrite (Huniq j q ltac:(lia) Hx Hq) in Hj. lia. }
  cbn [release_publication]. rewrite (read_pub_bind i (Some p)) by done. rewrite (proj2 (Z.eqb_eq _ _) Hreg).
  erewrite bind_Ret by (apply on_fst_Ret; exact Hrm). cbv beta iota.
  destruct (Harr (n - 1)%nat ltac:(lia)) as [l Hl]. rewrite (read_pub_bind (n - 1) l) by done.
  unfold write_pub. rewrite !modify_bind. rewrite Hb. cbn [deref]. rewrite bind_ret_l. unfold DecRef.
  rewrite Href. cbn [Z.sub Z.eqb Z.add Z.opp Pos.add Z.pos_sub when].
  erewrite bind_Ret by (apply linger_ok; done).
  rewrite release_publication_skip.
  - unfold released, DecRef. rewrite Hl, Href. cbv beta iota. rewrite modify_bind. done.
  - intros j Hj. apply elem_of_seq in Hj. cbn [pubs set_lingeringResources set_pubs slice_set s_array].
    destruct (decide (j = (n - 1)%nat)) as [->|Hne].
    + exists None. split; [|done]. apply list_lookup_insert_eq. rewrite length_insert. lia.
    + rewrite list_lookup_insert_ne, list_lookup_insert_ne by lia.
      destruct (Harr j ltac:(lia)) as [x Hx]. exists x. split; [done|].
      intros q -> Hq. specialize (Huniq j q ltac:(lia) Hx Hq). lia.
Qed.
End Release.

(** The elements of a slice. *)
Definition holds {A} (s : slice A) (xs : list A) : Prop :=
  exists rest, s_array s = (Some <$> xs) ++ rest /\ s_len s = length xs.

Lemma holds_lookup {A} (s : slice A) xs i :
  holds s xs -> (i < length xs)%nat -> s_array s !! i = Some <$> (xs !! i).
Proof.
  intros (rest & -> & _) Hi. rewrite lookup_app_l by (by rewrite length_fmap). apply list_lookup_fmap.
Qed.

Lemma holds_length {A} (s : slice A) xs : holds s xs -> s_len s = length xs /\ (length xs <= length (s_array s))%nat.
Proof. intros (rest & -> & ->). rewrite length_app, length_fmap. split; [done|lia]. Qed.

(** Taking an element out as the release does. *)
Lemma holds_swap_out {A} (s : slice A) xs i x :
  holds s xs -> xs !! i = Some x ->
  exists xs', xs ≡ₚ x :: xs' /\
    holds (mkSlice (<[(length xs - 1)%nat := None]>
             (<[i := (s_array s !! (length xs - 1)%nat) ≫= id]> (s_array s))) (length xs - 1)) xs'.
Proof.
  intros Hs Hx. pose proof (lookup_lt_Some _ _ _ Hx) as Hlt.
  destruct (lookup_lt_is_Some_2 xs (length xs - 1)) as [y Hy]; [lia|].
  pose proof (holds_lookup _ _ (length xs - 1) Hs ltac:(lia)) as Hl. rewrite Hy in Hl. cbn in Hl.
  exists (take (length xs - 1) (<[i := y]> xs)). split.
  - symmetry. apply swap_remove_perm; [done|]. rewrite last_lookup. by replace (pred (length xs)) with (length xs - 1)%nat by lia.
  - destruct Hs as (rest & Harr & _). rewrite Hl. cbn [mbind option_bind id]. rewrite Harr in *.
    unfold holds. cbn [s_array s_len]. rewrite length_take, length_insert, Nat.min_l by lia.
    exists (None :: rest). split; [|done].
    rewrite insert_app_l by (rewrite length_fmap; lia). rewrite <- list_fmap_insert.
    rewrite insert_app_l by (rewrite length_fmap, length_insert; lia).
    assert (E : forall (l : list (option A)) n, length l = S n -> <[n := None]> l = take n l ++ [None]).
    { intros l n Hln. rewrite insert_take_drop by lia. by rewrite drop_ge by lia. }
    rewrite E by (rewrite length_fmap, length_insert; lia). rewrite <- app_assoc, fmap_take. done.
Qed.

(** Releasing a publication with its id: the driver is told to remove it, exactly this
    registration disappears from the conductor, and its log buffers linger from now on. *)
Theorem releasePublication_removes cf ps i p b now m m' c :
  driverActive c = true -> holds (pubs c) ps -> NoDup (ps_regID <$> ps) ->
  ps !! i = Some p -> ps_buffers p = Some b -> refCount b = 1 ->
  dp_RemovePublication (driverProxy cf) (ps_regID p) m = Ret None m' ->
  (length (lingeringResources c) < 1024)%nat ->
  exists c' ps',
    releasePublication cf (ps_regID p) now (m, c) = Ret None (m', c') /\
    ps ≡ₚ p :: ps' /\ holds (pubs c') ps' /\
    lingeringResources c' = lingeringResources c ++ [mkLinger now (RLogBuffers (DecRef b).1)] /\
    publications c' = publications c /\ subs c' = subs c /\ counters c' = counters c /\ calls c' = calls c.
Proof.
  intros Hact Hs Hnd Hp Hb Href Hrm Hroom.
  pose proof (lookup_lt_Some _ _ _ Hp) as Hlt. destruct (holds_length _ _ Hs) as [Hlen Hcap].
  destruct (holds_swap_out _ _ _ _ Hs Hp) as (ps' & Hperm & Hs').
  exists (released c i (length ps) b now), ps'. split_and!; try done.
  apply (releasePublication_at cf i (length ps) p b); try done.
  - by rewrite (holds_lookup _ _ _ Hs), Hp.
  - intros j q Hj Hq Hreg. rewrite (holds_lookup _ _ _ Hs Hj) in Hq.
    destruct (ps !! j) as [q'|] eqn:Eq; [|done]. injection Hq as ->.
    apply (NoDup_lookup (ps_regID <$> ps) j i (ps_regID p) Hnd);
      rewrite list_lookup_fmap, ?Eq, ?Hp; cbn; congruence.
Qed.

(** ** Closing everything *)

Section CloseAll.
Context (cf : config) (now : Z).
Context (accepts : forall reg m, exists m', dp_RemovePublication (driverProxy cf) reg m = Ret None m').

(** A registration whose publication was handed out and is open. *)
Definition pub_open (c : client) (p : publicationStateDefn) : Prop :=
  exists r o b, ps_publication p = Some r /\ publications c !! r = Some o /\ pub_regID o = ps_regID p /\
    pub_isClosed o = false /\ ps_buffers p = Some b /\ refCount b = 1.

(** The objects of the registrations in [ps] closed, the others as they were. *)
Definition closed_objects (ps : list publicationStateDefn) (objs objs' : list Publication) : Prop :=
  (forall p r, p ∈ ps -> ps_publication p = Some r -> objs' !! r = set_closed <$> (objs !! r)) /\
  (forall r, (forall p, p ∈ ps -> ps_publication p <> Some r) -> objs' !! r = objs !! r).

(** What the loops over publications leave alone. *)
Definition same_rest (c c' : client) : Prop :=
  subs c' = subs c /\ counters c' = counters c /\ running c' = running c /\ driverActive c' = driverActive c /\
  subscriptions c' = subscriptions c /\ counterObjects c' = counterObjects c /\ calls c' = calls c.

(** One step: the publication at index [i] is closed and released. *)
Lemma close_publication_at i n p m c :
  driverActive c = true -> s_len (pubs c) = n -> (n <= length (s_array (pubs c)))%nat -> (i < n)%nat ->
  s_array (pubs c) !! i = Some (Some p) ->
  (forall j q, (j < n)%nat -> s_array (pubs c) !! j = Some (Some q) -> ps_regID q = ps_regID p -> j = i) ->
  pub_open c p -> (length (lingeringResources c) < 1024)%nat ->
  exists r m' c', ps_publication p = Some r /\
    close_publication cf r now (m, c) = Ret None (m', c') /\
    pubs c' = mkSlice (<[(n - 1)%nat := None]> (<[i := (s_array (pubs c) !! (n - 1)%nat) ≫= id]> (s_array (pubs c)))) (n - 1) /\
    closed_objects [p] (publications c) (publications c') /\
    length (lingeringResources c') = S (length (lingeringResources c)) /\ same_rest c c'.
Proof using accepts.
  intros Hact Hn Hcap Hi Hp Huniq (r & o & b & Hr & Ho & Hreg & Hopen & Hb & Href) Hroom.
  destruct (accepts (ps_regID p) m) as [m' Hrm].
  set (c1 := set_publications (<[r := set_closed o]> (publications c)) c).
  exists r, m', (released c1 i n b now). split; [done|]. split.
  - unfold close_publication. rewrite get_bind, Ho. cbn [deref]. rewrite bind_ret_l, Hopen, modify_bind.
    fold c1. rewrite Hreg. by apply (releasePublication_at cf i n p b).
  - split; [done|]. split; [|split; [cbn; rewrite length_app; cbn; lia|done]].
    change (publications (released c1 i n b now)) with (<[r := set_closed o]> (publications c)).
    pose proof (lookup_lt_Some _ _ _ Ho). split.
    + intros q r' Hq%list_elem_of_singleton Hr'. subst q. assert (r' = r) as -> by congruence.
      rewrite list_lookup_insert_eq by done. by rewrite Ho.
    + intros r' Hr'. rewrite list_lookup_insert_ne; [done|]. intros ->. by apply (Hr' p); [left|].
Qed.

(** Nothing is left to close at nil pointers. *)
Lemma close_pubs_nil ixs m c :
  (forall i, i ∈ ixs -> s_array (pubs c) !! i = Some None) -> close_pubs cf ixs now (m, c) = Ret tt (m, c).
Proof using Type.
  unfold close_pubs. induction ixs as [|i ixs IH]; intros Hall; [done|]. cbn [for_range].
  rewrite bind_assoc, (read_pub_bind i None) by (apply Hall; left). rewrite bind_ret_l.
  apply IH. intros j Hj. apply Hall. by right.
Qed.

Lemma close_pubs_cons i ixs p r m m' c c' :
  s_array (pubs c) !! i = Some (Some p) -> ps_publication p = Some r ->
  close_publication cf r now (m, c) = Ret None (m', c') ->
  close_pubs cf (i :: ixs) now (m, c) = close_pubs cf ixs now (m', c').
Proof using Type.
  intros Hp Hr Hrun. unfold close_pubs. cbn [for_range].
  rewrite bind_assoc, (read_pub_bind i (Some p)) by done. rewrite Hr, bind_assoc.
  by erewrite bind_Ret by exact Hrun.
Qed.

(** What the swap makes of the array. *)
Lemma swap_array_one (moved : list publicationStateDefn) x k junk :
  let arr := (Some <$> moved) ++ (Some <$> [x]) ++ replicate k None ++ junk in
  let n := (length moved + 1)%nat in
  <[(n - 1)%nat := None]> (<[length moved := (arr !! (n - 1)%nat) ≫= id]> arr)
  = (Some <$> moved) ++ replicate (S k) None ++ junk.
Proof using Type.
  intros arr n. unfold n, arr. replace (length moved + 1 - 1)%nat with (length moved) by lia.
  rewrite list_insert_insert_eq, insert_app_r_alt by (by rewrite length_fmap).
  by rewrite length_fmap, Nat.sub_diag.
Qed.

Lemma swap_array_two (moved mid : list publicationStateDefn) x y k junk :
  let arr := (Some <$> moved) ++ (Some <$> (x :: mid ++ [y])) ++ replicate k None ++ junk in
  let n := (length moved + length (x :: mid ++ [y]))%nat in
  <[(n - 1)%nat := None]> (<[length moved := (arr !! (n - 1)%nat) ≫= id]> arr)
  = (Some <$> (moved ++ [y])) ++ (Some <$> mid) ++ replicate (S k) None ++ junk.
Proof using Type.
  intros arr n.
  assert (Hn : (n - 1 = length moved + S (length mid))%nat) by (unfold n; cbn [length]; rewrite length_app; cbn; lia).
  assert (Harr : arr = (Some <$> moved) ++ Some x :: (Some <$> mid) ++ Some y :: replicate k None ++ junk).
  { unfold arr. cbn [fmap list_fmap app]. rewrite fmap_app. cbn. by rewrite <- app_assoc. }
  assert (Hins : forall (l1 l2 : list (option publicationStateDefn)) a b i, i = length l1 ->
    <[i := b]> (l1 ++ a :: l2) = l1 ++ b :: l2).
  { intros l1 l2 a b i ->. by rewrite insert_app_r_alt, Nat.sub_diag by lia. }
  rewrite Hn, Harr. rewrite (Hins (Some <$> moved)) by (by rewrite length_fmap).
  set (rest := replicate k None ++ junk).
  assert (Hsplit : forall z, (Some <$> moved) ++ z :: (Some <$> mid) ++ Some y :: rest
                             = ((Some <$> moved) ++ z :: (Some <$> mid)) ++ Some y :: rest)
    by (intros; by rewrite <- app_assoc).
  rewrite !Hsplit. rewrite list_lookup_middle by (rewrite !length_app; cbn [length]; rewrite !length_fmap; lia). cbn [mbind option_bind id].
  rewrite Hins by (rewrite !length_app; cbn [length]; rewrite !length_fmap; lia).
  rewrite fmap_app, <- !app_assoc. cbn. done.
Qed.

(** How many of [n] are reached. *)
Definition half (n : nat) : nat := Nat.div2 (S n).

Lemma half_step n : half (S (S n)) = S (half n).
Proof using Type. done. Qed.

Lemma pub_open_other c c' p q :
  closed_objects [p] (publications c) (publications c') -> ps_publication q <> ps_publication p ->
  pub_open c q -> pub_open c' q.
Proof using Type.
  intros [_ Hother] Hne (r & o & b & Hr & Ho & Hrest). exists r, o, b. split; [done|]. split; [|done].
  rewrite Hother; [done|]. intros p' Hp'%list_elem_of_singleton Hr'. subst p'. congruence.
Qed.

Lemma closed_objects_cons p ps a b d :
  (forall q, q ∈ ps -> ps_publication q <> ps_publication p) ->
  closed_objects [p] a b -> closed_objects ps b d -> closed_objects (p :: ps) a d.
Proof using Type.
  intros Hne [H1 H2] [H3 H4]. split.
  - intros q r Hq Hr. apply elem_of_cons in Hq as [->|Hq].
    + rewrite H4; [by eapply H1; [left|]|]. intros q Hq Hr'. apply (Hne q Hq). congruence.
    + rewrite (H3 q r Hq Hr), H2; [done|]. intros p' Hp'%list_elem_of_singleton Hr'. subst p'.
      apply (Hne q Hq). congruence.
  - intros r Hr. rewrite H4 by (intros q Hq; apply Hr; by right). apply H2.
    intros p' Hp'%list_elem_of_singleton. subst p'. apply Hr. left.
Qed.

Lemma nodup_index (ps : list publicationStateDefn) rest i j p q :
  NoDup (ps_regID <$> ps) -> ps !! i = Some p -> (j < length ps)%nat ->
  ((Some <$> ps) ++ rest) !! j = Some (Some q) -> ps_regID q = ps_regID p -> j = i.
Proof using Type.
  intros Hnd Hp Hj Hq Hreg. rewrite lookup_app_l, list_lookup_fmap in Hq by (by rewrite length_fmap).
  destruct (ps !! j) as [q'|] eqn:Eq; [|done]. injection Hq as ->.
  apply (NoDup_lookup (ps_regID <$> ps) j i (ps_regID p) Hnd); rewrite list_lookup_fmap, ?Eq, ?Hp; cbn; congruence.
Qed.

Lemma close_pubs_half moved mid k junk m c :
  s_array (pubs c) = (Some <$> moved) ++ (Some <$> mid) ++ replicate k None ++ junk ->
  s_len (pubs c) = (length moved + length mid)%nat ->
  driverActive c = true -> NoDup (ps_regID <$> (moved ++ mid)) -> NoDup (ps_publication <$> mid) ->
  Forall (pub_open c) mid -> (length (lingeringResources c) + length mid <= 1024)%nat ->
  exists m' c', close_pubs cf (seq (length moved) (length mid + k)) now (m, c) = Ret tt (m', c') /\
    closed_objects (take (half (length mid)) mid) (publications c) (publications c') /\
    length (lingeringResources c') = (length (lingeringResources c) + half (length mid))%nat /\ same_rest c c'.
Proof using accepts.
  revert moved k m c. induction mid as [|x|x mid y IH] using list_ends_ind;
    intros moved k m c Harr Hlen Hact Hnd Hrefs Hopen Hroom.
  - exists m, c. split; [|split; [by split; [set_solver|]|split; [cbn; lia|done]]]. apply close_pubs_nil.
    intros i Hi. apply elem_of_seq in Hi. rewrite Harr, lookup_app_r by (rewrite length_fmap; lia).
    rewrite length_fmap. cbn [fmap list_fmap app]. cbn in Hi.
    rewrite lookup_app_l by (rewrite length_replicate; lia). apply lookup_replicate_2. lia.
  - apply Forall_cons in Hopen as [Hopen _]. cbn [length] in *.
    assert (Hx : s_array (pubs c) !! length moved = Some (Some x))
      by (rewrite Harr; apply list_lookup_middle; by rewrite length_fmap).
    destruct (close_publication_at (length moved) (length moved + 1) x m c)
      as (r & m1 & c1 & Hr & Hrun & Hp & Hcl & Hl & Hrest); try done; try lia.
    { rewrite Harr, !length_app, !length_fmap. cbn. lia. }
    { intros j q Hj Hq Hreg. rewrite Harr, app_assoc, <- fmap_app in Hq.
      eapply (nodup_index (moved ++ [x])); try eassumption; [by apply list_lookup_middle|rewrite length_app; cbn; lia]. }
    rewrite Harr, swap_array_one in Hp. exists m1, c1. cbn [plus seq].
    erewrite close_pubs_cons by eassumption.
    split; [|split; [done|split; [rewrite Hl; cbn; lia|done]]]. apply close_pubs_nil.
    intros i Hi. apply elem_of_seq in Hi. rewrite Hp. cbn [s_array]. rewrite lookup_app_r by (rewrite length_fmap; lia).
    rewrite length_fmap, lookup_app_l by (rewrite length_replicate; lia). apply lookup_replicate_2. lia.
  - set (n := (length moved + length (x :: mid ++ [y]))%nat) in *.
    assert (Hxl : length (x :: mid ++ [y]) = S (S (length mid))) by (cbn; rewrite length_app; cbn; lia).
    assert (Hx : s_array (pubs c) !! length moved = Some (Some x))
      by (rewrite Harr; apply list_lookup_middle; by rewrite length_fmap).
    apply Forall_cons in Hopen as [Hox Homid]. apply Forall_app in Homid as [Homid _].
    destruct (close_publication_at (length moved) n x m c)
      as (r & m1 & c1 & Hr & Hrun & Hp & Hcl & Hl & Hrest); try done; try lia.
    { rewrite Harr, !length_app, !length_fmap. lia. }
    { intros j q Hj Hq Hreg. rewrite Harr, app_assoc, <- fmap_app in Hq.
      eapply (nodup_index (moved ++ x :: mid ++ [y])); try eassumption; [by apply list_lookup_middle|].
      rewrite length_app. lia. }
    rewrite Harr in Hp. unfold n in Hp. rewrite swap_array_two in Hp.
    rewrite Hxl in *. replace (S (S (length mid)) + k)%nat with (S (length mid + S k)) by lia.
    rewrite <- cons_seq. rewrite fmap_cons, fmap_app in Hrefs.
    apply NoDup_cons in Hrefs as [Hxn Hrefs]. apply NoDup_app in Hrefs as (Hrefs & _ & _).
    assert (Hne : forall q, q ∈ mid -> ps_publication q <> ps_publication x).
    { intros q Hq E. apply Hxn, elem_of_app. left. rewrite <- E. by apply list_elem_of_fmap_2. }
    destruct (IH (moved ++ [y]) (S k) m1 c1) as (m' & c' & Hrun' & Hcl' & Hl' & Hrest').
    + by rewrite Hp.
    + rewrite Hp, length_app. cbn [s_len]. cbn [length]. lia.
    + destruct Hrest as (_ & _ & _ & -> & _). done.
    + assert (Hperm : moved ++ x :: mid ++ [y] ≡ₚ x :: (moved ++ [y]) ++ mid) by solve_Permutation.
      rewrite Hperm in Hnd. by apply NoDup_cons in Hnd as [_ Hnd].
    + done.
    + rewrite Forall_forall in *. intros q Hq. apply (pub_open_other c c1 x); [done|by apply Hne|by apply Homid].
    + lia.
    + exists m', c'. erewrite close_pubs_cons by eassumption.
      rewrite length_app in Hrun'. cbn [length] in Hrun'.
      replace (S (length moved)) with (length moved + 1)%nat by lia.
      split; [exact Hrun'|]. rewrite half_step. split; [|split].
      * cbn [take]. rewrite take_app_le by (unfold half; pose proof (Nat.div2_decr (S (length mid)) (length mid)); lia).
        eapply closed_objects_cons; [|exact Hcl|exact Hcl']. intros q Hq. apply Hne.
        rewrite <- (take_drop (half (length mid)) mid). apply elem_of_app. by left.
      * rewrite Hl', Hl. lia.
      * unfold same_rest in *. destruct_and! Hrest. destruct_and! Hrest'. split_and!; congruence.
Qed.
End CloseAll.

(** Closing everything reaches only every publication of the first half: closing one moves
    the last registration into its place, where the loop does not come back to. The other
    publications are forgotten by the conductor without being closed: they do not say that
    they are closed, the driver is not told to remove them and their log buffers are not
    among what lingers. *)
Theorem closeAllResources_misses_half cf now ps m c :
  (forall reg m, exists m', dp_RemovePublication (driverProxy cf) reg m = Ret None m') ->
  running c = true -> driverActive c = true -> holds (pubs c) ps -> NoDup (ps_regID <$> ps) ->
  NoDup (ps_publication <$> ps) -> Forall (pub_open c) ps -> (length (lingeringResources c) + length ps <= 1024)%nat ->
  subs c = nil_slice -> counters c = Some ∅ ->
  exists m' c', closeAllResources cf now (m, c) = Ret tt (m', c') /\
    pubs c' = nil_slice /\ running c' = false /\
    (forall i p r, ps !! i = Some p -> ps_publication p = Some r ->
       exists o, publications c' !! r = Some o /\ pub_isClosed o = bool_decide (i < (length ps + 1) / 2)%nat) /\
    length (lingeringResources c') = (length (lingeringResources c) + (length ps + 1) / 2)%nat.
Proof.
  intros Hacc Hrun Hact (rest & Harr & Hlen) Hnd Hrefs Hopen Hroom Hsubs Hctr.
  destruct (close_pubs_half cf now Hacc [] ps 0 rest m (set_running false c))
    as (m' & c' & Hloop & [Hcl1 Hcl2] & Hl & Hrest); try done.
  assert (Hhalf : half (length ps) = ((length ps + 1) / 2)%nat) by (unfold half; by rewrite Nat.div2_div, Nat.add_1_r).
  destruct Hrest as (Hs' & Hc' & Hr' & _). cbn in Hs', Hc', Hr'.
  cbn [set_running publications lingeringResources] in Hcl1, Hcl2, Hl. rewrite Hsubs in Hs'. rewrite Hctr in Hc'.
  exists m', (set_counters None (set_subs nil_slice (set_pubs nil_slice c'))). split; [|split_and!].
  - unfold closeAllResources. rewrite get_bind, Hrun, modify_bind. unfold pub_indices, sub_indices.
    rewrite bind_assoc, get_bind, bind_ret_l. cbn [set_running pubs]. rewrite Hlen.
    rewrite Nat.add_0_r in Hloop. erewrite bind_Ret by exact Hloop. rewrite modify_bind, bind_assoc, get_bind, bind_ret_l.
    cbn [set_pubs subs]. rewrite Hs'.
    cbn [nil_slice s_len seq]. unfold close_subs. cbn [for_range]. rewrite bind_ret_l, modify_bind, get_bind.
    cbn [set_subs counters set_pubs]. rewrite Hc', map_to_list_empty. done.
  - done.
  - done.
  - intros i p r Hi Hr. cbn [publications set_counters set_subs set_pubs].
    rewrite Forall_forall in Hopen. destruct (Hopen p) as (r' & o & b & Hrr & Ho & _ & Hop & _);
      [by eapply list_elem_of_lookup_2|]. assert (r' = r) as -> by congruence.
    destruct (decide (i < (length ps + 1) / 2)%nat) as [Hin|Hout].
    + exists (set_closed o). rewrite (Hcl1 p r), Ho; [by rewrite bool_decide_true| |done].
      apply (list_elem_of_lookup_2 _ i). rewrite lookup_take, Hhalf. by rewrite decide_True.
    + exists o. rewrite Hcl2; [by rewrite bool_decide_false|]. intros q Hq Hrq.
      apply list_elem_of_lookup in Hq as [j Hj]. rewrite lookup_take, Hhalf in Hj. case_decide as Hd; [|done].
      assert (j = i); [|lia]. apply (NoDup_lookup (ps_publication <$> ps) j i (Some r) Hrefs);
        rewrite list_lookup_fmap, ?Hj, ?Hi; cbn; congruence.
  - cbn [lingeringResources set_counters set_subs set_pubs]. rewrite Hl, Hhalf. done.
Qed.

(** ** Handlers of counter events *)

Lemma remove_pair_found rest pre found :
  (exists x, x ∈ rest /\ found x = true) ->
  exists l' x, remove_pair rest (length pre) found (pre ++ rest) = Some l' /\ found x = true /\ pre ++ rest ≡ₚ x :: l'.
Proof.
  revert pre. induction rest as [|e rest IH]; intros pre (x & Hx & Hf); [by apply not_elem_of_nil in Hx|].
  cbn [remove_pair]. destruct (found e) eqn:Ee.
  - destruct (last (pre ++ e :: rest)) as [l|] eqn:El.
    + eexists _, e. split; [done|]. split; [done|]. symmetry. apply swap_remove_perm; [|done]. by apply list_lookup_middle.
    + apply last_None in El. by destruct pre.
  - destruct (IH (pre ++ [e])) as (l' & y & Hr & Hy & Hp).
    + exists x. split; [|done]. apply elem_of_cons in Hx as [->|Hx]; [congruence|done].
    + rewrite length_app, <- app_assoc in Hr. cbn in Hr. rewrite Nat.add_1_r in Hr. exists l', y.
      split; [done|]. split; [done|]. by rewrite <- Hp, <- app_assoc.
Qed.

Lemma remove_pair_never rest i pairs : remove_pair rest i (fun _ => false) pairs = None.
Proof. revert i. induction rest as [|e rest IH]; intros i; [done|apply IH]. Qed.

(** Removing a handler of available counters that was added removes it; the same call for
    a handler of unavailable counters finds nothing, ever: the handler stays and goes on
    being called. *)
Theorem RemoveUnavailableCounterHandler_never handler m c :
  (exists id, (id, handler) ∈ availableCounterHandlers c) ->
  (exists c' id, RemoveAvailableCounterHandler handler (m, c) = Ret true (m, c') /\
     availableCounterHandlers c ≡ₚ (id, handler) :: availableCounterHandlers c') /\
  RemoveUnavailableCounterHandler handler (m, c) = Ret false (m, c).
Proof.
  intros [id Hin]. split.
  - unfold RemoveAvailableCounterHandler, remove_available. rewrite get_bind.
    destruct (remove_pair_found (availableCounterHandlers c) [] (fun e => (snd e =? handler)%nat))
      as (l' & [id' h] & Hr & Hf & Hp); [exists (id, handler); split; [done|apply Nat.eqb_refl]|].
    cbn [length app] in Hr, Hp. rewrite Hr, modify_bind. apply Nat.eqb_eq in Hf. cbn in Hf. subst h.
    eexists _, id'. split; [done|]. exact Hp.
  - unfold RemoveUnavailableCounterHandler, remove_unavailable. by rewrite get_bind, remove_pair_never.
Qed.

(** ** Lingering resources *)

Section Linger.
Context (cf : config).

(** Resources closed one after the other, without an error. *)
Inductive closes : list lingerResourse -> mem -> mem -> Prop :=
| closes_nil m : closes [] m m
| closes_cons r rs m m1 m2 :
    close_resource cf (lr_resource r) m = Ret None m1 -> closes rs m1 m2 -> closes (r :: rs) m m2.

Definition expired (now : Z) (r : lingerResourse) : Prop :=
  resourceLingerTimeoutNs cf < i64 (now - lr_lastTime r).

(** The first that must stay goes to the back. *)
Definition rotated (rest : list lingerResourse) : list lingerResourse :=
  match rest with [] => [] | r :: rest' => rest' ++ [r] end.

Lemma check_managed_ok pre rest fuel now m m' c :
  lingeringResources c = pre ++ rest -> (length pre < fuel)%nat -> Forall (expired now) pre ->
  match rest with [] => True | r :: _ => ~ expired now r end -> (length rest <= 1024)%nat ->
  closes pre m m' ->
  check_managed cf fuel now (m, c) = Ret tt (m', set_lingeringResources (rotated rest) c).
Proof.
  revert fuel m c. induction pre as [|r pre IH]; intros fuel m c Hl Hf Hexp Hrest Hcap Hcl;
    (destruct fuel as [|fuel]; [lia|]); cbn [check_managed]; rewrite get_bind, Hl; inversion Hcl; subst.
  - destruct rest as [|r rest]; cbn [app].
    + destruct c. cbn in *. by subst.
    + unfold expired in Hrest. rewrite modify_bind, (proj2 (Z.ltb_ge _ _)) by lia.
      rewrite linger_ok by (cbn in *; lia). done.
  - apply Forall_cons in Hexp as [Hr Hexp]. unfold expired in Hr. cbn [app].
    rewrite modify_bind, (proj2 (Z.ltb_lt _ _)) by lia. erewrite bind_Ret by (apply on_fst_Ret; eassumption).
    cbv beta iota. rewrite bind_ret_l. erewrite IH; try done. cbn in Hf. lia.
Qed.
End Linger.

(** A check of the managed resources closes, in their order, the resources at the front
    of the queue that have lingered for longer than the timeout, and no other: the first one
    that has not goes to the back of the queue and the check ends there, whatever is behind. *)
Theorem onCheckManagedResources_closes_expired cf pre rest now m m' c :
  lingeringResources c = pre ++ rest -> Forall (expired cf now) pre ->
  match rest with [] => True | r :: _ => ~ expired cf now r end -> (length (pre ++ rest) <= 1024)%nat ->
  closes cf pre m m' ->
  onCheckManagedResources cf now (m, c) = Ret tt (m', set_lingeringResources (rotated rest) c).
Proof.
  intros Hl Hexp Hrest Hcap Hcl. unfold onCheckManagedResources. rewrite get_bind.
  apply (check_managed_ok cf pre); try done; rewrite ?Hl, length_app in *; lia.
Qed.

(** ** Timeouts *)

(** Until when the last sign of life of the driver counts, and a client that has given it up. *)
Definition keepalive_age (cf : config) (last : Z) : Z := i64 (i64 (last * Millisecond) + driverTimeoutNs cf).
Definition without_driver (now : Z) (c : client) : client := set_driverActive false (set_timeOfLastDoWork now c).

(** ** The life of a registration *)

Lemma holds_append {A} (s : slice A) xs x : holds s xs -> holds (slice_append s x) (xs ++ [x]).
Proof.
  intros (rest & Harr & Hlen). unfold slice_append, visible. rewrite Harr, Hlen.
  rewrite take_app_le, take_ge by (rewrite length_fmap; lia). exists []. cbn [s_array s_len].
  rewrite fmap_app, app_nil_r, length_fmap, length_app. split; [done|cbn; lia].
Qed.

Lemma holds_set {A} (s : slice A) xs i x :
  holds s xs -> (i < length xs)%nat -> holds (slice_set s i (Some x)) (<[i := x]> xs).
Proof.
  intros (rest & Harr & Hlen) Hi. exists rest. cbn [slice_set s_array s_len]. rewrite length_insert. split; [|done].
  rewrite Harr, insert_app_l by (by rewrite length_fmap). by rewrite list_fmap_insert.
Qed.

(** A loop whose body acts at one index only. *)
Lemma for_range_one i n (body : nat -> C unit) s s' :
  (i < n)%nat -> (forall j, (j < i)%nat -> body j s = Ret tt s) -> body i s = Ret tt s' ->
  (forall j, (i < j < n)%nat -> body j s' = Ret tt s') -> for_range (seq 0 n) body s = Ret tt s'.
Proof.
  intros Hi Hbefore Hat Hafter.
  assert (Hskip : forall s ixs ixs', (forall j, j ∈ ixs -> body j s = Ret tt s) ->
    for_range (ixs ++ ixs') body s = for_range ixs' body s).
  { intros s0 ixs ixs'. induction ixs as [|j ixs IH]; intros H; [done|]. cbn [app for_range].
    erewrite bind_Ret by (apply H; left). apply IH. intros k Hk. apply H. by right. }
  replace n with (i + S (n - i - 1))%nat by lia. rewrite seq_app, Hskip by (intros j Hj%elem_of_seq; apply Hbefore; lia).
  cbn [plus]. rewrite <- cons_seq. cbn [for_range]. erewrite bind_Ret by exact Hat.
  rewrite <- (app_nil_r (seq _ _)), Hskip by (intros j Hj%elem_of_seq; apply Hafter; lia). done.
Qed.

Section Life.
Context (cf : config).

(** Where the id is. *)
Record reg_at (c : client) (ps : list publicationStateDefn) (i : nat) (p : publicationStateDefn) : Prop := {
  ra_holds : holds (pubs c) ps;
  ra_nodup : NoDup (ps_regID <$> ps);
  ra_at : ps !! i = Some p }.

Lemma reg_at_slot c ps i p j :
  reg_at c ps i p -> (j < length ps)%nat ->
  exists q, ps !! j = Some q /\ s_array (pubs c) !! j = Some (Some q) /\ (ps_regID q = ps_regID p -> j = i).
Proof.
  intros [Hs Hnd Hp] Hj. destruct (lookup_lt_is_Some_2 ps j Hj) as [q Hq]. exists q. split; [done|].
  split; [by rewrite (holds_lookup _ _ _ Hs Hj), Hq|]. intros Hreg.
  apply (NoDup_lookup (ps_regID <$> ps) j i (ps_regID p) Hnd); rewrite list_lookup_fmap, ?Hq, ?Hp; cbn; congruence.
Qed.

Lemma FindPublication_at c ps i p now m :
  reg_at c ps i p -> FindPublication cf (ps_regID p) now (m, c) = found_publication cf i p (ps_regID p) now (m, c).
Proof.
  intros Hra. pose proof (lookup_lt_Some _ _ _ (ra_at _ _ _ _ Hra)) as Hi.
  destruct (holds_length _ _ (ra_holds _ _ _ _ Hra)) as [Hlen _].
  unfold FindPublication, pub_indices. rewrite bind_assoc, get_bind, bind_ret_l, Hlen.
  assert (Hskip : forall ixs ixs', (forall j, j ∈ ixs -> (j < i)%nat) ->
    find_publication cf (ixs ++ ixs') (ps_regID p) now (m, c) = find_publication cf ixs' (ps_regID p) now (m, c)).
  { intros ixs ixs'. induction ixs as [|j ixs IH]; intros H; [done|]. cbn [app find_publication].
    assert (Hj : (j < i)%nat) by (apply H; left).
    destruct (reg_at_slot _ _ _ _ j Hra ltac:(lia)) as (q & _ & Hq & Hne).
    rewrite (read_deref_bind j q) by done.
    rewrite (proj2 (Z.eqb_neq _ _)) by (intros E; apply Hne in E; lia). apply IH. intros k Hk. apply H. by right. }
  replace (length ps) with (i + S (length ps - i - 1))%nat by lia.
  rewrite seq_app, Hskip by (intros j Hj%elem_of_seq; lia). cbn [plus]. rewrite <- cons_seq. cbn [find_publication].
  destruct (reg_at_slot _ _ _ _ i Hra Hi) as (q & Hq' & Hq & _). rewrite (ra_at _ _ _ _ Hra) in Hq'. injection Hq' as <-.
  rewrite (read_deref_bind i p) by done. by rewrite Z.eqb_refl.
Qed.

(** Updating the registration in place. *)
Lemma reg_at_write c ps i p p' :
  reg_at c ps i p -> ps_regID p' = ps_regID p ->
  reg_at (set_pubs (slice_set (pubs c) i (Some p')) c) (<[i := p']> ps) i p'.
Proof.
  intros [Hs Hnd Hp] Hreg. pose proof (lookup_lt_Some _ _ _ Hp). constructor.
  - by apply holds_set.
  - rewrite list_fmap_insert, Hreg, list_insert_id; [done|]. by rewrite list_lookup_fmap, Hp.
  - by apply list_lookup_insert_eq.
Qed.

Lemma publication_ready_at c ps i p stream session limit status log orig lb m m' :
  reg_at c ps i p -> logbuffer_Wrap cf log m = Ret lb m' ->
  let p' := pub_registered p orig session limit status (IncRef lb).1 in
  exists c', publication_ready cf stream session limit status log (ps_regID p) orig (m, c) = Ret tt (m', c') /\
    reg_at c' (<[i := p']> ps) i p' /\ publications c' = publications c /\
    calls c' = calls c ++ (if onNewPublicationHandler cf
                           then [CallNewPublication (ps_channel p) stream session (ps_regID p)] else []).
Proof.
  intros Hra Hwrap p'. pose proof (lookup_lt_Some _ _ _ (ra_at _ _ _ _ Hra)) as Hi.
  destruct (holds_length _ _ (ra_holds _ _ _ _ Hra)) as [Hlen _].
  set (c1 := set_pubs (slice_set (pubs c) i (Some p')) c).
  set (c' := if onNewPublicationHandler cf
             then set_calls (calls c1 ++ [CallNewPublication (ps_channel p) stream session (ps_regID p)]) c1 else c1).
  assert (Hra1 : reg_at c1 (<[i := p']> ps) i p') by (by apply (reg_at_write c ps i p)).
  assert (Hp1 : pubs c' = pubs c1) by (unfold c'; by destruct (onNewPublicationHandler cf)).
  exists c'. split; [|split; [|split]].
  - unfold publication_ready, pub_indices. rewrite bind_assoc, get_bind, bind_ret_l, Hlen.
    apply (for_range_one i); [done| | |].
    + intros j Hj. destruct (reg_at_slot _ _ _ _ j Hra ltac:(lia)) as (q & _ & Hq & Hne).
      rewrite (read_deref_bind j q) by done.
      by rewrite (proj2 (Z.eqb_neq _ _)) by (intros E; apply Hne in E; lia).
    + destruct (reg_at_slot _ _ _ _ i Hra Hi) as (q & Hq' & Hq & _). rewrite (ra_at _ _ _ _ Hra) in Hq'. injection Hq' as <-.
      rewrite (read_deref_bind i p), Z.eqb_refl by done.
      erewrite bind_Ret by (apply on_fst_Ret; exact Hwrap). unfold write_pub, IncRef. cbv beta iota zeta.
      rewrite modify_bind. unfold c', when. by destruct (onNewPublicationHandler cf).
    + intros j Hj. destruct (reg_at_slot _ _ _ _ j Hra1 ltac:(rewrite length_insert; lia)) as (q & _ & Hq & Hne).
      rewrite (read_deref_bind j q) by (by rewrite Hp1).
      rewrite (proj2 (Z.eqb_neq _ _)); [done|]. intros E. assert (j = i) by (by apply Hne). lia.
  - destruct Hra1 as [Hs' Hnd' Hp']. constructor; [by rewrite Hp1|done|done].
  - unfold c'. by destruct (onNewPublicationHandler cf).
  - unfold c'. destruct (onNewPublicationHandler cf); [done|]. by rewrite app_nil_r.
Qed.

Lemma error_at c ps i p code text m :
  reg_at c ps i p -> (forall q, counters c = Some q -> q !! ps_regID p = None) ->
  let c' := set_pubs (slice_set (pubs c) i (Some (pub_errored p code text))) c in
  OnErrorResponse (ps_regID p) code text (m, c) = Ret tt (m, c').
Proof.
  intros Hra Hctr c'. pose proof (lookup_lt_Some _ _ _ (ra_at _ _ _ _ Hra)) as Hi.
  destruct (holds_length _ _ (ra_holds _ _ _ _ Hra)) as [Hlen _].
  unfold OnErrorResponse, lookup_counter. rewrite bind_assoc, get_bind, bind_ret_l.
  replace (match counters c with Some m0 => m0 !! ps_regID p | None => None end) with (@None counterStateDefn)
    by (destruct (counters c) as [q|]; [by rewrite (Hctr q)|done]).
  unfold pub_indices. rewrite bind_assoc, get_bind, bind_ret_l, Hlen.
  assert (Hloop : error_publication (seq 0 (length ps)) (ps_regID p) code text (m, c) = Ret true (m, c')).
  { assert (Hskip : forall ixs ixs', (forall j, j ∈ ixs -> (j < i)%nat) ->
      error_publication (ixs ++ ixs') (ps_regID p) code text (m, c) = error_publication ixs' (ps_regID p) code text (m, c)).
    { intros ixs ixs'. induction ixs as [|j ixs IH]; intros H; [done|]. cbn [app error_publication].
      assert (Hj : (j < i)%nat) by (apply H; left).
      destruct (reg_at_slot _ _ _ _ j Hra ltac:(lia)) as (q & _ & Hq & Hne).
      rewrite (read_deref_bind j q) by done.
      rewrite (proj2 (Z.eqb_neq _ _)) by (intros E; apply Hne in E; lia). apply IH. intros k Hk. apply H. by right. }
    replace (length ps) with (i + S (length ps - i - 1))%nat by lia.
    rewrite seq_app, Hskip by (intros j Hj%elem_of_seq; lia). cbn [plus]. rewrite <- cons_seq. cbn [error_publication].
    destruct (reg_at_slot _ _ _ _ i Hra Hi) as (q & Hq' & Hq & _). rewrite (ra_at _ _ _ _ Hra) in Hq'. injection Hq' as <-.
    rewrite (read_deref_bind i p), Z.eqb_refl by done. by unfold write_pub. }
  by erewrite bind_Ret by exact Hloop.
Qed.

(** The publication that a found registration gets. *)
Definition publication_of (p : publicationStateDefn) (base : Publication) (limit : Position) : Publication :=
  {| pub_channel := String.string_of_list_byte (ps_channel p);
     pub_regID := ps_regID p; pub_originalRegID := ps_origRegID p;
     maxPossiblePosition := maxPossiblePosition base;
     pub_streamID := ps_streamID p; pub_sessionID := ps_sessionID p;
     pub_initialTermID := pub_initialTermID base; maxPayloadLength := maxPayloadLength base;
     maxMessageLength := maxMessageLength base; positionBitsToShift := positionBitsToShift base;
     pubLimit := limit; channelStatusIndicatorID := ps_channelStatusIndicatorID p;
     pub_isClosed := pub_isClosed base; pub_metaData := pub_metaData base; appenders := appenders base |}.

(** Finding a registration that was answered creates its publication, once. *)
Lemma found_registered c ps i p lb base limit now m :
  reg_at c ps i p -> ps_publication p = None -> ps_status p = RegisteredMediaDriver -> ps_buffers p = Some lb ->
  NewPublication lb m = Ret base m ->
  NewPosition (counterValuesBuffer cf) (ps_posLimitCounterID p) m = Ret limit m ->
  let r := length (publications c) in
  exists c', FindPublication cf (ps_regID p) now (m, c) = Ret (Some r, None) (m, c') /\
    publications c' = publications c ++ [publication_of p base limit] /\
    reg_at c' (<[i := set_ps_publication p r]> ps) i (set_ps_publication p r).
Proof.
  intros Hra Hnone Hst Hb Hnew Hlim r.
  eexists. split; [|split].
  - rewrite (FindPublication_at c ps i p) by done. unfold found_publication. rewrite Hnone, Hst.
    unfold publication_for. rewrite Hb. cbn [deref]. rewrite !bind_assoc, bind_ret_l, bind_assoc.
    erewrite bind_Ret by (apply on_fst_Ret; exact Hnew). rewrite bind_assoc.
    erewrite bind_Ret by (apply on_fst_Ret; exact Hlim). rewrite bind_ret_l.
    unfold new_publication_object. rewrite bind_assoc, get_bind, bind_assoc, modify_bind, bind_ret_l.
    unfold write_pub. rewrite modify_bind. reflexivity.
  - done.
  - eapply (reg_at_write (set_publications _ c) ps i p); [|done]. by destruct Hra.
Qed.

Lemma found_again c ps i p r now m :
  reg_at c ps i p -> ps_publication p = Some r ->
  FindPublication cf (ps_regID p) now (m, c) = Ret (Some r, None) (m, c).
Proof. intros Hra Hr. rewrite (FindPublication_at c ps i p) by done. unfold found_publication. by rewrite Hr. Qed.
End Life.

(** The life of a publication's registration. Adding one sends the command and remembers
    its id; until the driver answers, looking for it finds nothing, and reports a timeout once
    the driver's time is over. When the driver answers, the log is mapped, the user is told,
    and the next look creates the publication with the ids of the answer; every further look
    returns that same publication. *)
Lemma publication_life cf ch stream t0 ps id m m1 c :
  driverActive c = true -> holds (pubs c) ps -> NoDup (ps_regID <$> ps) -> ~ id ∈ (ps_regID <$> ps) ->
  dp_AddPublication (driverProxy cf) ch stream m = Ret (id, None) m1 ->
  exists c1,
    AddPublication cf ch stream t0 (m, c) = Ret (id, None) (m1, c1) /\
    (forall now, FindPublication cf id now (m1, c1) = Ret (None, timeoutExceeded cf t0 now) (m1, c1)) /\
    forall session limit status log orig m2 lb base position t1 t2,
      logbuffer_Wrap cf log m1 = Ret lb m2 -> NewPublication (IncRef lb).1 m2 = Ret base m2 ->
      NewPosition (counterValuesBuffer cf) limit m2 = Ret position m2 ->
      exists c2 c3 r,
        OnNewPublication cf stream session limit status log id orig (m1, c1) = Ret tt (m2, c2) /\
        calls c2 = calls c ++ (if onNewPublicationHandler cf then [CallNewPublication ch stream session id] else []) /\
        FindPublication cf id t1 (m2, c2) = Ret (Some r, None) (m2, c3) /\
        publications c3 !! r = Some {| pub_channel := String.string_of_list_byte ch; pub_regID := id;
          pub_originalRegID := orig; maxPossiblePosition := maxPossiblePosition base;
          pub_streamID := stream; pub_sessionID := session; pub_initialTermID := pub_initialTermID base;
          maxPayloadLength := maxPayloadLength base; maxMessageLength := maxMessageLength base;
          positionBitsToShift := positionBitsToShift base; pubLimit := position;
          channelStatusIndicatorID := status; pub_isClosed := pub_isClosed base;
          pub_metaData := pub_metaData base; appenders := appenders base |} /\
        FindPublication cf id t2 (m2, c3) = Ret (Some r, None) (m2, c3).
Proof.
  intros Hact Hs Hnd Hfresh Hadd. set (p := publicationStateDefn_Init ch id stream t0).
  set (c1 := set_pubs (slice_append (pubs c) p) c). exists c1.
  assert (Hra : reg_at c1 (ps ++ [p]) (length ps) p).
  { constructor; [by apply holds_append| |by apply list_lookup_middle].
    rewrite fmap_app. apply NoDup_app. split; [done|]. split; [|apply NoDup_singleton].
    intros x Hx Hx'. apply list_elem_of_singleton in Hx' as ->. by apply Hfresh. }
  split; [|split].
  - unfold AddPublication, add_publication. rewrite when_active_ok by done.
    erewrite bind_Ret by (apply on_fst_Ret; exact Hadd). cbv beta iota. by rewrite modify_bind.
  - intros now. change id with (ps_regID p). by rewrite (FindPublication_at cf c1 (ps ++ [p]) (length ps) p).
  - intros session limit status log orig m2 lb base position t1 t2 Hwrap Hnew Hpos.
    destruct (publication_ready_at cf c1 _ _ p stream session limit status log orig lb m1 m2 Hra Hwrap)
      as (c2 & Hrun & Hra2 & Hobjs & Hcalls).
    destruct (found_registered cf c2 _ _ _ (IncRef lb).1 base position t1 m2 Hra2) as (c3 & Hfind & Hobjs3 & Hra3); try done.
    exists c2, c3, (length (publications c2)). split_and!; [exact Hrun|exact Hcalls|exact Hfind| |].
    + rewrite Hobjs3. by apply list_lookup_middle.
    + by apply (found_again cf c3 _ _ _ _ t2 m2 Hra3).
Qed.

(** The driver's error for a registration of a publication is what the next look for it
    reports; the other registrations are as they were. *)
Theorem OnErrorResponse_reported cf ps i p code text now m c :
  holds (pubs c) ps -> NoDup (ps_regID <$> ps) -> ps !! i = Some p -> ps_publication p = None ->
  (forall q, counters c = Some q -> q !! ps_regID p = None) ->
  exists c', OnErrorResponse (ps_regID p) code text (m, c) = Ret tt (m, c') /\
    FindPublication cf (ps_regID p) now (m, c') = Ret (None, Some (ErrRegistration (ps_regID p) code text)) (m, c') /\
    (forall j q, j <> i -> ps !! j = Some q -> s_array (pubs c') !! j = Some (Some q)) /\
    subs c' = subs c /\ counters c' = counters c.
Proof.
  intros Hs Hnd Hp Hnone Hctr.
  assert (Hra : reg_at c ps i p) by (by constructor).
  pose proof (reg_at_write c ps i p (pub_errored p code text) Hra eq_refl) as Hra'.
  eexists. split; [by apply (error_at c ps i p)|]. split; [|split; [|done]].
  - change (ps_regID p) with (ps_regID (pub_errored p code text)).
    rewrite (FindPublication_at cf _ _ _ _ now m Hra'). unfold found_publication. cbn [pub_errored ps_publication ps_status].
    by rewrite Hnone.
  - intros j q Hj Hq. pose proof (lookup_lt_Some _ _ _ Hq). cbn [set_pubs pubs slice_set s_array].
    rewrite list_lookup_insert_ne by done. by rewrite (holds_lookup _ _ _ Hs), Hq.
Qed.

(** ** The images of a subscription *)

Section Images.
Context (cf : config).

(** A registered subscription with its object. *)
Record sub_at (c : client) (ss : list subscriptionStateDefn) (i : nat) (s : subscriptionStateDefn) (r : nat)
  (o : subscriptionObject) : Prop := {
  sa_holds : holds (subs c) ss;
  sa_nodup : NoDup (ss_regID <$> ss);
  sa_at : ss !! i = Some s;
  sa_ref : ss_subscription s = Some r;
  sa_obj : subscriptions c !! r = Some o }.

Lemma read_sub_deref {A} i q (k : subscriptionStateDefn -> C A) m c :
  s_array (subs c) !! i = Some (Some q) ->
  bind (read_sub i) (fun x => bind (deref x) k) (m, c) = k q (m, c).
Proof. intros E. by rewrite (read_sub_bind i (Some q)). Qed.

Lemma sub_at_slot c ss i s r o j :
  sub_at c ss i s r o -> (j < length ss)%nat ->
  exists q, s_array (subs c) !! j = Some (Some q) /\ (ss_regID q = ss_regID s -> j = i) /\ (j = i -> q = s).
Proof.
  intros [Hs Hnd Hat _ _] Hj. destruct (lookup_lt_is_Some_2 ss j Hj) as [q Hq]. exists q.
  split; [by rewrite (holds_lookup _ _ _ Hs Hj), Hq|]. split; [|intros ->; congruence]. intros Hreg.
  apply (NoDup_lookup (ss_regID <$> ss) j i (ss_regID s) Hnd); rewrite list_lookup_fmap, ?Hq, ?Hat; cbn; congruence.
Qed.

(** A loop over the subscriptions whose body acts on the one with the id. *)
Lemma sub_loop c ss i s r o (body : subscriptionStateDefn -> C unit) m m' c' :
  sub_at c ss i s r o -> subs c' = subs c ->
  (forall q m c, ss_regID q <> ss_regID s -> body q (m, c) = Ret tt (m, c)) ->
  body s (m, c) = Ret tt (m', c') ->
  (let! ixs := sub_indices in
   for_range ixs (fun i => let! q := read_sub i in let! q := deref q in body q)) (m, c) = Ret tt (m', c').
Proof.
  intros Hat Hsubs Hother Hrun. destruct (holds_length _ _ (sa_holds _ _ _ _ _ _ Hat)) as [Hlen _].
  pose proof (lookup_lt_Some _ _ _ (sa_at _ _ _ _ _ _ Hat)) as Hi.
  unfold sub_indices. rewrite bind_assoc, get_bind, bind_ret_l, Hlen. apply (for_range_one i); [done| | |].
  - intros j Hj. destruct (sub_at_slot _ _ _ _ _ _ j Hat ltac:(lia)) as (q & Hq & Hne & _).
    rewrite (read_sub_deref j q) by done. apply Hother. intros E. apply Hne in E. lia.
  - destruct (sub_at_slot _ _ _ _ _ _ i Hat Hi) as (q & Hq & _ & Hqs).
    rewrite (Hqs eq_refl) in Hq. by rewrite (read_sub_deref i s).
  - intros j Hj. destruct (sub_at_slot _ _ _ _ _ _ j Hat ltac:(lia)) as (q & Hq & Hne & _).
    rewrite (read_sub_deref j q) by (by rewrite Hsubs). apply Hother. intros E. apply Hne in E. lia.
Qed.
End Images.

Definition with_images (o : subscriptionObject) (images : list image) : subscriptionObject :=
  mkSubObject (set_images (so_sub o) images) (so_available o) (so_unavailable o).

(** The call of a handler, if there is one. *)
Definition told (mk : nat -> call) (handler : option nat) : list call :=
  match handler with Some h => [mk h] | None => [] end.

Lemma emit_told (mk : nat -> call) handler m c :
  (match handler with Some h => emit (mk h) | None => ret tt end) (m, c)
  = Ret tt (m, set_calls (calls c ++ told mk handler) c).
Proof. destruct handler; [done|]. destruct c. cbn. by rewrite app_nil_r. Qed.

(** An image from its announcement to its end. The driver announces an image for a
    subscription: it is created, joins the images of that subscription and no other, and the
    subscription's handler is told. When the driver says that it is gone, it leaves the
    subscription, whose images are again the others, the handler is told, and the image
    lingers before its log is unmapped. *)
Lemma image_life cf ss i s r o stream session log source pos corr img now m m1 c :
  sub_at c ss i s r o -> DefaultImageFactory cf session corr log (ss_regID s) pos m = Ret img m1 ->
  Forall (fun j => img_correlationID j <> img_correlationID img) (sub_images (so_sub o)) ->
  (length (lingeringResources c) < 1024)%nat ->
  exists c1 c2,
    OnAvailableImage cf stream session log source pos (ss_regID s) corr (m, c) = Ret tt (m1, c1) /\
    subscriptions c1 = <[r := with_images o (sub_images (so_sub o) ++ [img])]> (subscriptions c) /\
    calls c1 = calls c ++ told (fun h => CallAvailableImage h img) (so_available o) /\
    OnUnavailableImage (img_correlationID img) (ss_regID s) now (m1, c1) = Ret tt (m1, c2) /\
    subscriptions c2 = subscriptions c /\
    calls c2 = calls c1 ++ told (fun h => CallUnavailableImage h (Some img)) (so_unavailable o) /\
    lingeringResources c2 = lingeringResources c ++ [mkLinger now (RImage img)] /\
    pubs c2 = pubs c /\ subs c2 = subs c.
Proof.
  intros Hat Hfac Huniq Hroom. pose proof Hat as [Hs Hnd Hi Hr Ho]. pose proof (lookup_lt_Some _ _ _ Ho) as Hrl.
  set (o1 := with_images o (sub_images (so_sub o) ++ [img])).
  set (c1 := set_calls (calls c ++ told (fun h => CallAvailableImage h img) (so_available o))
               (set_subscriptions (<[r := o1]> (subscriptions c)) c)).
  assert (Hat1 : sub_at c1 ss i s r o1) by (constructor; try done; by apply list_lookup_insert_eq).
  set (c2 := set_lingeringResources (lingeringResources c ++ [mkLinger now (RImage img)])
               (set_calls (calls c1 ++ told (fun h => CallUnavailableImage h (Some img)) (so_unavailable o))
                  (set_subscriptions (subscriptions c) c1))).
  exists c1, c2. split_and!; try done.
  - unfold OnAvailableImage.
    apply (sub_loop c ss i s r o (fun sub => match ss_subscription sub with None => _ | Some ref => _ end) m m1 c1); [done|done| |].
    + intros q m0 c0 Hne. destruct (ss_subscription q); [|done]. by rewrite (proj2 (Z.eqb_neq _ _) Hne).
    + rewrite Hr, Z.eqb_refl. erewrite bind_Ret by (apply on_fst_Ret; exact Hfac).
      unfold sub_object. rewrite bind_assoc, get_bind, Ho. cbn [deref]. rewrite bind_ret_l.
      cbn [addImage]. unfold set_sub_object. rewrite modify_bind. apply (emit_told (fun h => CallAvailableImage h img)).
  - unfold OnUnavailableImage.
    apply (sub_loop c1 ss i s r o1 (fun sub => if ss_regID sub =? ss_regID s then _ else _) m1 m1 c2); [done|done| |].
    + intros q m0 c0 Hne. by rewrite (proj2 (Z.eqb_neq _ _) Hne).
    + rewrite Z.eqb_refl, Hr. unfold sub_object. rewrite bind_assoc, get_bind, (sa_obj _ _ _ _ _ _ Hat1). cbn [deref]. rewrite bind_ret_l.
      pose proof (proj2 (addImage_found_and_removed (so_sub o) img) Huniq) as Hrem. cbn [addImage snd] in Hrem.
      change (so_sub o1) with (set_images (so_sub o) (sub_images (so_sub o) ++ [img])).
      change (img_correlationID img) with (Img_CorrelationID img). rewrite Hrem.
      unfold set_sub_object. rewrite modify_bind.
      erewrite bind_Ret by (apply (emit_told (fun h => CallUnavailableImage h (Some img)))).
      rewrite linger_ok by done. unfold c2, c1. cbn. rewrite list_insert_insert_eq. do 3 f_equal.
      rewrite list_insert_id; [done|]. rewrite Ho. by destruct o.
Qed.
