(* ===== verification/ConductorInv.v ===== *)
(** * The registrations stay consistent

    An invariant of the conductor's publications, and that every operation of the client and
    every event of the driver keeps it. *)

From S2P Require Import Prelude Memory Bits Flyweight RingBuffer Broadcast Counters LogBuffer Command.
From S2P Require Import Proxy ListenerAdapter TermSpec Appender Reader FragmentAssembler Publication.
From S2P Require Import Image ChannelUri Subscription Conductor ConductorSpec.

Local Open Scope m_scope.

Local Abbreviation C := (M (mem * client)).

(** ** Operations that leave the publications alone *)

Definition framed {A} (op : C A) : Prop :=
  forall m c a m' c', op (m, c) = Ret a (m', c') -> pubs c' = pubs c /\ publications c' = publications c.

Create HintDb framed.

Lemma framed_ret {A} (a : A) : framed (ret a).
Proof. by intros m c b m' c' [= <- <- <-]. Qed.

Lemma framed_bind {A B} (op : C A) (k : A -> C B) : framed op -> (forall a, framed (k a)) -> framed (bind op k).
Proof.
  intros H1 H2 m c b m' c' Hrun. apply bind_inv_Ret in Hrun as (a & [m1 c1] & Ha & Hk).
  apply H1 in Ha as [<- <-]. by apply H2 in Hk.
Qed.

Lemma framed_get : framed get_client.
Proof. by intros m c a m' c' [= <- <- <-]. Qed.

Lemma framed_modify f :
  (forall c, pubs (f c) = pubs c /\ publications (f c) = publications c) -> framed (modify f).
Proof. intros Hf m c a m' c' [= <- <- <-]. apply Hf. Qed.

Lemma framed_on_fst {A} (op : M mem A) : framed (on_fst op).
Proof. intros m c a m' c' Hrun. unfold on_fst in Hrun. destruct (op m); [by injection Hrun as <- <- <-|done]. Qed.

Lemma framed_raise {A} e : framed (@raise (mem * client) A e).
Proof. by intros m c a m' c' Hrun. Qed.

Lemma framed_for_range ixs body : (forall i, framed (body i)) -> framed (for_range ixs body).
Proof. intros H. induction ixs; [apply framed_ret|]. cbn. apply framed_bind; [apply H|done]. Qed.

#[export] Hint Resolve framed_ret framed_get framed_on_fst framed_raise framed_for_range : framed.

Ltac framed :=
  repeat first
    [ solve [eauto with framed]
    | match goal with |- forall _, framed _ => intros ? end
    | apply framed_bind; [|intros ?]
    | apply framed_modify; intros ?; done
    | apply framed_for_range; intros ?
    | match goal with |- framed (match ?x with _ => _ end) => destruct x end
    | match goal with |- framed (let '(_, _) := ?x in _) => destruct x end
    | progress cbv beta iota zeta ].

Lemma framed_deref {A} (x : option A) : framed (deref x).
Proof. unfold deref, panic. framed. Qed.
Lemma framed_emit e : framed (emit e).
Proof. unfold emit. framed. Qed.
Lemma framed_linger r : framed (linger r).
Proof. unfold linger. framed. Qed.
Lemma framed_read_sub i : framed (read_sub i).
Proof. unfold read_sub, slot, panic. framed. Qed.
Lemma framed_write_sub i s : framed (write_sub i s).
Proof. unfold write_sub. framed. Qed.
Lemma framed_read_pub i : framed (read_pub i).
Proof. unfold read_pub, slot, panic. framed. Qed.
Lemma framed_set_counter_state id d : framed (set_counter_state id d).
Proof. unfold set_counter_state, panic. framed. Qed.
Lemma framed_lookup_counter id : framed (lookup_counter id).
Proof. unfold lookup_counter. framed. Qed.
Lemma framed_pub_indices : framed pub_indices.
Proof. unfold pub_indices. framed. Qed.
Lemma framed_sub_indices : framed sub_indices.
Proof. unfold sub_indices. framed. Qed.
Lemma framed_sub_object r : framed (sub_object r).
Proof. unfold sub_object, deref, panic. framed. Qed.
Lemma framed_set_sub_object r o : framed (set_sub_object r o).
Proof. unfold set_sub_object. framed. Qed.
Lemma framed_when b op : framed op -> framed (when b op).
Proof. intros. unfold when. framed. Qed.

#[export] Hint Resolve framed_deref framed_emit framed_linger framed_read_sub framed_write_sub framed_read_pub
  framed_set_counter_state framed_lookup_counter framed_pub_indices framed_sub_indices framed_sub_object
  framed_set_sub_object framed_when : framed.

Section Framed.
Context (cf : config).

Lemma framed_when_active {A} (r : clientError -> A) op : framed op -> framed (when_active r op).
Proof. intros. unfold when_active, getDriverStatus. framed. Qed.
Lemma framed_onError e : framed (onError cf e).
Proof. unfold onError. framed. Qed.
#[local] Hint Resolve framed_when_active framed_onError : framed.

Lemma framed_AddSubscription ch s h1 h2 now : framed (AddSubscriptionWithHandlers cf ch s h1 h2 now).
Proof. unfold AddSubscriptionWithHandlers. apply framed_when_active. framed. Qed.

Lemma framed_FindSubscription id now : framed (FindSubscription cf id now).
Proof.
  unfold FindSubscription. apply framed_bind; [framed|intros ixs]. induction ixs as [|i ixs IH]; cbn; framed.
Qed.

Lemma framed_release_images imgs h now : framed (release_images imgs h now).
Proof. induction imgs as [|i imgs IH]; cbn; framed. Qed.
#[local] Hint Resolve framed_release_images : framed.

Lemma framed_releaseSubscription id imgs now : framed (releaseSubscription cf id imgs now).
Proof.
  unfold releaseSubscription. apply framed_when_active, framed_bind; [framed|intros ixs].
  apply framed_bind; [|intros [? ?]; framed]. generalize (length ixs) as cnt. induction ixs as [|i ixs IH]; intros cnt; cbn; framed.
Qed.
#[local] Hint Resolve framed_releaseSubscription : framed.

Lemma framed_close_subscription r now : framed (close_subscription cf r now).
Proof. unfold close_subscription. framed. Qed.
#[local] Hint Resolve framed_close_subscription : framed.

Lemma framed_releaseCounter o : framed (releaseCounter cf o).
Proof. unfold releaseCounter. apply framed_when_active. framed. Qed.
#[local] Hint Resolve framed_releaseCounter : framed.

Lemma framed_AddCounter ty kb ko kl lb lo ll now : framed (AddCounter cf ty kb ko kl lb lo ll now).
Proof. unfold AddCounter, register_counter. apply framed_when_active. framed. Qed.
Lemma framed_AddCounterByLabel ty l now : framed (AddCounterByLabel cf ty l now).
Proof. unfold AddCounterByLabel, register_counter. apply framed_when_active. framed. Qed.
Lemma framed_FindCounter id now : framed (FindCounter cf id now).
Proof. unfold FindCounter. framed. Qed.
Lemma framed_Counter_Close r : framed (Counter_Close cf r).
Proof. unfold Counter_Close. framed. Qed.
#[local] Hint Resolve framed_Counter_Close : framed.

Lemma framed_report e : framed (report cf e).
Proof. unfold report. framed. Qed.
#[local] Hint Resolve framed_report : framed.

Lemma framed_call_handlers hs mk : framed (call_handlers hs mk).
Proof. induction hs as [|[? h] hs IH]; cbn; framed. Qed.
#[local] Hint Resolve framed_call_handlers : framed.

Lemma framed_close_subs ixs now : framed (close_subs cf ixs now).
Proof. unfold close_subs. framed. Qed.
Lemma framed_close_counters ids : framed (close_counters cf ids).
Proof. induction ids as [|id ids IH]; cbn; framed. Qed.

Lemma framed_check_managed fuel now : framed (check_managed cf fuel now).
Proof. induction fuel as [|fuel IH]; cbn; framed. Qed.
Lemma framed_force_close fuel : framed (force_close cf fuel).
Proof. induction fuel as [|fuel IH]; cbn; framed. Qed.
End Framed.

(** ** The invariant *)

Section Invariant.
(** What is known of the id and the time of each registration. *)
Context (K : Z -> Z -> Prop).

(** A registration and the objects that were handed out. *)
Definition pub_wf (objs : list Publication) (p : publicationStateDefn) : Prop :=
  (forall r, ps_publication p = Some r -> exists o, objs !! r = Some o /\ pub_regID o = ps_regID p) /\
  (ps_status p = RegisteredMediaDriver -> is_Some (ps_buffers p)) /\
  (is_Some (ps_publication p) -> is_Some (ps_buffers p)) /\
  K (ps_regID p) (ps_timeOfRegistration p).

(** The registrations have different ids, none is nil, a registration that the driver has
    answered has its log buffers, and the publication that was handed out for it is the one
    with its id. *)
Definition pubs_ok (c : client) : Prop :=
  exists ps, holds (pubs c) ps /\ NoDup (ps_regID <$> ps) /\ Forall (pub_wf (publications c)) ps.

Lemma holds_visible (s : slice publicationStateDefn) ps p : holds s ps -> p ∈ ps -> Some p ∈ visible s.
Proof.
  intros (rest & Harr & Hlen) Hp. unfold visible.
  rewrite Harr, Hlen, take_app_le, take_ge by (rewrite length_fmap; lia). by apply list_elem_of_fmap_2.
Qed.

Definition keeps_ok {A} (op : C A) : Prop :=
  forall m c a m' c', pubs_ok c -> op (m, c) = Ret a (m', c') -> pubs_ok c'.

Lemma framed_keeps {A} (op : C A) : framed op -> keeps_ok op.
Proof. intros H m c a m' c' (ps & Hps) Hrun. apply H in Hrun as [E1 E2]. exists ps. by rewrite E1, E2. Qed.

Lemma ok_bind {A B} (op : C A) (k : A -> C B) : keeps_ok op -> (forall a, keeps_ok (k a)) -> keeps_ok (bind op k).
Proof.
  intros H1 H2 m c b m' c' Hok Hrun. apply bind_inv_Ret in Hrun as (a & [m1 c1] & Ha & Hk).
  apply H1 in Ha; [|done]. by apply H2 in Hk.
Qed.

Lemma keeps_for_range ixs body : (forall i, keeps_ok (body i)) -> keeps_ok (for_range ixs body).
Proof.
  intros H. induction ixs; [apply framed_keeps, framed_ret|]. cbn. apply ok_bind; [apply H|done].
Qed.

(** Objects that keep their ids. *)
Definition same_ids (objs objs' : list Publication) : Prop :=
  forall r o, objs !! r = Some o -> exists o', objs' !! r = Some o' /\ pub_regID o' = pub_regID o.

Lemma pub_wf_objs objs objs' p : same_ids objs objs' -> pub_wf objs p -> pub_wf objs' p.
Proof.
  intros Hs (H1 & H2). split; [|done]. intros r Hr. destruct (H1 r Hr) as (o & Ho & Hreg).
  destruct (Hs r o Ho) as (o' & Ho' & E). exists o'. split; [done|congruence].
Qed.

Lemma pubs_ok_objs c objs : pubs_ok c -> same_ids (publications c) objs -> pubs_ok (set_publications objs c).
Proof.
  intros (ps & Hs & Hnd & Hwf) Hsame. exists ps. split; [done|]. split; [done|].
  eapply Forall_impl; [exact Hwf|]. intros p. by apply pub_wf_objs.
Qed.

(** Updating a registration in place, perhaps behind the end of the slice. *)
Lemma pubs_ok_write c i p p' :
  pubs_ok c -> s_array (pubs c) !! i = Some (Some p) -> ps_regID p' = ps_regID p ->
  (pub_wf (publications c) p -> pub_wf (publications c) p') ->
  pubs_ok (set_pubs (slice_set (pubs c) i (Some p')) c).
Proof.
  intros (ps & Hs & Hnd & Hwf) Hp Hreg Hp'. pose proof (holds_length _ _ Hs) as [Hlen _].
  destruct (decide (i < length ps)%nat) as [Hi|Hi].
  - rewrite (holds_lookup _ _ _ Hs Hi) in Hp. destruct (ps !! i) as [q|] eqn:Eq; [|done]. injection Hp as ->.
    exists (<[i := p']> ps). split; [by apply holds_set|]. split.
    + rewrite list_fmap_insert, Hreg, list_insert_id; [done|]. by rewrite list_lookup_fmap, Eq.
    + apply Forall_insert; [done|]. apply Hp'. by eapply Forall_lookup_1.
  - exists ps. split; [|done]. destruct Hs as (rest & Harr & Hl). exists (<[(i - length ps)%nat := Some p']> rest).
    cbn [set_pubs pubs slice_set s_array s_len]. split; [|done].
    rewrite Harr, insert_app_r_alt by (rewrite length_fmap; lia). by rewrite length_fmap.
Qed.

Lemma read_pub_inv i m c x m' c' :
  read_pub i (m, c) = Ret x (m', c') -> m' = m /\ c' = c /\ s_array (pubs c) !! i = Some x.
Proof.
  unfold read_pub. rewrite get_bind. unfold slot. destruct (s_array (pubs c) !! i); [|done].
  by intros [= <- <- <-].
Qed.

Lemma deref_inv {A} (x : option A) s a s' : deref x s = Ret a s' -> x = Some a /\ s' = s.
Proof. destruct x; [|done]. by intros [= <- <-]. Qed.

Lemma on_fst_inv {A} (op : M mem A) m (c : client) a m' c' : on_fst op (m, c) = Ret a (m', c') -> c' = c.
Proof. unfold on_fst. destruct (op m); [|done]. by intros [= _ _ <-]. Qed.

(** The head of a loop over publications: the registration at [i]. *)
Lemma read_deref_inv {A} i (k : publicationStateDefn -> C A) m c a s' :
  bind (read_pub i) (fun x => bind (deref x) k) (m, c) = Ret a s' ->
  exists p, s_array (pubs c) !! i = Some (Some p) /\ k p (m, c) = Ret a s'.
Proof.
  intros Hrun. apply bind_inv_Ret in Hrun as (x & [m1 c1] & Hx & Hrun). apply read_pub_inv in Hx as (-> & -> & Hx).
  apply bind_inv_Ret in Hrun as (p & s1 & Hd & Hrun). apply deref_inv in Hd as [-> ->]. by exists p.
Qed.

Section Keeps.
Context (cf : config).

Lemma keeps_add_publication command ch s now m c r m' c' :
  pubs_ok c -> add_publication command ch s now (m, c) = Ret r (m', c') ->
  (forall id, r = (id, None) -> K id now /\ forall p, Some p ∈ visible (pubs c) -> ps_regID p <> id) -> pubs_ok c'.
Proof.
  intros (ps & Hs & Hnd & Hwf) Hrun Hfresh. unfold add_publication, when_active, getDriverStatus in Hrun.
  rewrite bind_assoc, get_bind, bind_ret_l in Hrun. destruct (driverActive c).
  2: { injection Hrun as _ _ <-. by exists ps. }
  apply bind_inv_Ret in Hrun as ([id [e|]] & [m1 c1] & Hop & Hrun); apply on_fst_inv in Hop as ->.
  - injection Hrun as _ _ <-. by exists ps.
  - rewrite modify_bind in Hrun. injection Hrun as <- _ <-.
    exists (ps ++ [publicationStateDefn_Init ch id s now]). split; [by apply holds_append|]. split.
    + rewrite fmap_app. apply NoDup_app. split; [done|]. split; [|apply NoDup_singleton].
      intros x Hx Hx'. apply list_elem_of_singleton in Hx' as ->. apply list_elem_of_fmap in Hx as (p & Hid & Hp).
      apply (proj2 (Hfresh id eq_refl) p); [|by rewrite <- Hid]. by eapply holds_visible.
    + apply Forall_app. split; [done|]. apply Forall_singleton. split; [done|]. split; [done|].
      split; [by intros [? ?]|]. exact (proj1 (Hfresh id eq_refl)).
Qed.

Lemma keeps_FindPublication id now : keeps_ok (FindPublication cf id now).
Proof.
  apply ok_bind; [apply framed_keeps; framed|]. intros ixs. induction ixs as [|i ixs IH]; [apply framed_keeps; framed|].
  intros m c a m' c' Hok Hrun. cbn [find_publication] in Hrun.
  apply read_deref_inv in Hrun as (p & Hp & Hrun).
  destruct (Z.eqb_spec (ps_regID p) id) as [Hid|Hne]; cbn [negb] in Hrun; [|by eapply IH].
  unfold found_publication in Hrun.
  destruct (ps_publication p) as [r|] eqn:Er; [injection Hrun as _ _ <-; done|].
  destruct (ps_status p) eqn:Est; [injection Hrun as _ _ <-; done| |injection Hrun as _ _ <-; done].
  apply bind_inv_Ret in Hrun as (P & [m1 c1] & HP & Hrun). unfold publication_for in HP.
  apply bind_inv_Ret in HP as (lb & s1 & Hlb & HP). apply deref_inv in Hlb as [Hlb ->].
  apply bind_inv_Ret in HP as (base & [m2 c2] & H2 & HP). apply on_fst_inv in H2 as ->.
  apply bind_inv_Ret in HP as (lim & [m3 c3] & H3 & HP). apply on_fst_inv in H3 as ->.
  injection HP as <- _ <-. unfold new_publication_object in Hrun. rewrite bind_assoc, get_bind, bind_assoc, modify_bind in Hrun.
  rewrite bind_ret_l in Hrun. unfold write_pub in Hrun. rewrite modify_bind in Hrun. injection Hrun as _ _ <-.
  set (P := {| pub_channel := _ |}). set (c1 := set_publications (publications c ++ [P]) c).
  assert (Hok1 : pubs_ok c1).
  { apply pubs_ok_objs; [done|]. intros r o Ho. exists o. split; [|done]. rewrite lookup_app_l; [done|]. by eapply lookup_lt_Some. }
  apply (pubs_ok_write c1 i p); [done|done|done|]. intros (Hw1 & Hw2 & Hw3 & Hw4). split; [|split; [done|split; [|done]]].
  - intros r [= <-]. exists P. split; [|exact (eq_sym Hid)]. by apply list_lookup_middle.
  - intros _. cbn [set_ps_publication ps_buffers]. by rewrite Hlb.
Qed.

Lemma keeps_publication_ready st se li ch log id orig : keeps_ok (publication_ready cf st se li ch log id orig).
Proof.
  apply ok_bind; [apply framed_keeps; framed|]. intros ixs. apply keeps_for_range. intros i m c a m' c' Hok Hrun.
  apply read_deref_inv in Hrun as (p & Hp & Hrun).
  destruct (ps_regID p =? id); [|injection Hrun as _ _ <-; done].
  apply bind_inv_Ret in Hrun as (lb & [m1 c1] & Hlb & Hrun). apply on_fst_inv in Hlb as ->.
  cbv beta iota zeta delta [IncRef] in Hrun. unfold write_pub in Hrun. rewrite modify_bind in Hrun.
  refine (framed_keeps _ _ _ _ _ _ _ _ Hrun); [framed|].
  apply (pubs_ok_write c i p); [done|done|done|]. intros (Hw1 & _ & _ & Hw4). split; [exact Hw1|]. by split_and!.
Qed.

Lemma keeps_OnErrorResponse id code text : keeps_ok (OnErrorResponse id code text).
Proof.
  apply ok_bind; [apply framed_keeps; framed|]. intros [d|]; [apply framed_keeps; framed|].
  apply ok_bind; [apply framed_keeps; framed|]. intros ixs. apply ok_bind; [|intros [|]; apply framed_keeps; framed].
  induction ixs as [|i ixs IH]; [apply framed_keeps; framed|]. intros m c a m' c' Hok Hrun. cbn [error_publication] in Hrun.
  apply read_deref_inv in Hrun as (p & Hp & Hrun).
  destruct (ps_regID p =? id); [|by eapply IH]. unfold write_pub in Hrun. rewrite modify_bind in Hrun. injection Hrun as _ _ <-.
  apply (pubs_ok_write c i p); [done|done|done|]. intros (Hw1 & _ & Hw3). by split.
Qed.

(** A release that returns either changed no registration or took one out. *)
Lemma release_inv ps i p now m c r m' c' :
  holds (pubs c) ps -> NoDup (ps_regID <$> ps) -> ps !! i = Some p ->
  release_publication cf (seq 0 (length ps)) (ps_regID p) now (length ps) (m, c) = Ret r (m', c') ->
  publications c' = publications c /\
  ((r.2 <> None /\ pubs c' = pubs c) \/
   (r = ((length ps - 1)%nat, None) /\
    s_array (pubs c') = <[(length ps - 1)%nat := None]>
      (<[i := (s_array (pubs c) !! (length ps - 1)%nat) ≫= id]> (s_array (pubs c))))).
Proof.
  intros Hs Hnd Hp Hrun. assert (Hra : reg_at c ps i p) by (by constructor).
  pose proof (lookup_lt_Some _ _ _ Hp) as Hi. pose proof (holds_length _ _ Hs) as [_ Hcap].
  replace (length ps) with (i + S (length ps - i - 1))%nat in Hrun at 1 by lia. rewrite seq_app, Nat.add_0_l in Hrun.
  rewrite release_publication_app in Hrun.
  2: { intros j Hj%elem_of_seq. destruct (reg_at_slot _ _ _ _ j Hra ltac:(lia)) as (q & _ & Hq & Hne).
       exists (Some q). split; [done|]. intros q' [= <-] E. apply Hne in E. lia. }
  rewrite <- cons_seq in Hrun. cbn [release_publication] in Hrun.
  destruct (reg_at_slot _ _ _ _ i Hra Hi) as (q & Hq' & Hq & _). rewrite Hp in Hq'. injection Hq' as <-.
  rewrite (read_pub_bind i (Some p)), Z.eqb_refl in Hrun by done.
  apply bind_inv_Ret in Hrun as ([e|] & [m1 c1] & Hop & Hrun); apply on_fst_inv in Hop as ->.
  { injection Hrun as <- _ <-. split; [done|]. by left. }
  destruct (lookup_lt_is_Some_2 (s_array (pubs c)) (length ps - 1)) as [l Hl]; [lia|].
  rewrite (read_pub_bind _ l) in Hrun by done. unfold write_pub in Hrun. rewrite !modify_bind in Hrun.
  apply bind_inv_Ret in Hrun as (lb & s1 & Hlb & Hrun). apply deref_inv in Hlb as [_ ->].
  cbv beta iota zeta delta [DecRef] in Hrun.
  apply bind_inv_Ret in Hrun as ([] & [m2 c2] & Hlinger & Hrun).
  apply (framed_when _ _ (framed_linger _)) in Hlinger as [Hpubs Hobjs].
  rewrite release_publication_skip in Hrun.
  - injection Hrun as <- _ <-. split; [done|]. right. split; [done|]. by rewrite Hpubs, Hl.
  - intros j Hj%elem_of_seq. rewrite Hpubs. cbn [set_pubs pubs slice_set s_array].
    destruct (decide (j = (length ps - 1)%nat)) as [->|Hne].
    + exists None. split; [|done]. apply list_lookup_insert_eq. rewrite length_insert. lia.
    + rewrite list_lookup_insert_ne, list_lookup_insert_ne by lia.
      destruct (reg_at_slot _ _ _ _ j Hra ltac:(lia)) as (q & _ & Hjq & Hu). exists (Some q). split; [done|].
      intros q' [= <-] E. apply Hu in E. lia.
Qed.

Lemma keeps_releasePublication id now : keeps_ok (releasePublication cf id now).
Proof.
  intros m c a m' c' (ps & Hs & Hnd & Hwf) Hrun. pose proof (holds_length _ _ Hs) as [Hlen Hcap].
  unfold releasePublication, when_active, getDriverStatus in Hrun. rewrite bind_assoc, get_bind, bind_ret_l in Hrun.
  destruct (driverActive c); [|injection Hrun as _ _ <-; by exists ps].
  unfold pub_indices in Hrun. rewrite bind_assoc, get_bind, bind_ret_l, Hlen, length_seq in Hrun.
  apply bind_inv_Ret in Hrun as ([cnt err] & [m1 c1] & Hloop & Hrun).
  destruct (decide (id ∈ (ps_regID <$> ps))) as [Hin|Hout].
  - apply list_elem_of_fmap in Hin as (p & -> & Hp). apply list_elem_of_lookup in Hp as [i Hp].
    apply (release_inv ps i p) in Hloop as [Hobjs [[He Hpubs]|[E Harr]]]; try done.
    + destruct err as [e|]; [|done]. injection Hrun as _ _ <-. exists ps. by rewrite Hpubs, Hobjs.
    + injection E as -> ->. rewrite modify_bind in Hrun. injection Hrun as _ _ <-.
      destruct (holds_swap_out _ _ _ _ Hs Hp) as (ps' & Hperm & Hs'). exists ps'.
      unfold slice_to. cbn [set_pubs pubs publications]. rewrite Harr, Hobjs. split; [exact Hs'|].
      rewrite Hperm in Hnd, Hwf. apply NoDup_cons in Hnd as [_ Hnd]. apply Forall_cons in Hwf as [_ Hwf]. done.
  - rewrite release_publication_skip in Hloop.
    + injection Hloop as <- <- _ <-. rewrite modify_bind in Hrun. injection Hrun as _ _ <-. exists ps. split; [|done].
      destruct Hs as (rest & Harr & _). by exists rest.
    + intros j Hj%elem_of_seq. rewrite (holds_lookup _ _ _ Hs) by lia.
      destruct (lookup_lt_is_Some_2 ps j) as [q Hq]; [lia|]. rewrite Hq. exists (Some q). split; [done|].
      intros q' [= <-] E. apply Hout. rewrite <- E. apply list_elem_of_fmap_2. by eapply list_elem_of_lookup_2.
Qed.

Lemma keeps_close_publication r now : keeps_ok (close_publication cf r now).
Proof.
  intros m c a m' c' Hok Hrun. unfold close_publication in Hrun. rewrite get_bind in Hrun.
  apply bind_inv_Ret in Hrun as (P & s1 & HP & Hrun). apply deref_inv in HP as [HP ->].
  destruct (pub_isClosed P); [injection Hrun as _ _ <-; done|]. rewrite modify_bind in Hrun.
  refine (keeps_releasePublication _ _ _ _ _ _ _ _ Hrun). apply pubs_ok_objs; [done|].
  intros k o Ho. pose proof (lookup_lt_Some _ _ _ HP). destruct (decide (k = r)) as [->|Hne].
  - rewrite HP in Ho. injection Ho as <-. exists (set_closed P). split; [by apply list_lookup_insert_eq|done].
  - exists o. split; [|done]. by rewrite list_lookup_insert_ne.
Qed.

Lemma keeps_closeAllResources now : keeps_ok (closeAllResources cf now).
Proof.
  apply ok_bind; [apply framed_keeps; framed|]. intros c0. destruct (running c0); [|apply framed_keeps; framed].
  apply ok_bind; [apply framed_keeps; framed|]. intros _.
  apply ok_bind; [apply framed_keeps; framed|]. intros ixs. apply ok_bind.
  { apply keeps_for_range. intros i. apply ok_bind; [apply framed_keeps; framed|]. intros [p|]; [|apply framed_keeps; framed].
    destruct (ps_publication p); [|apply framed_keeps; framed].
    apply ok_bind; [apply keeps_close_publication|]. intros. apply framed_keeps, framed_report. }
  intros _. apply ok_bind.
  { intros m c a m' c' _ [= _ _ <-]. exists []. split; [by exists []|]. split; constructor. }
  intros _. apply framed_keeps. apply framed_bind; [framed|]. intros ixs2.
  apply framed_bind; [apply framed_close_subs|]. intros _. apply framed_bind; [framed|]. intros _.
  apply framed_bind; [framed|]. intros c1. apply framed_bind; [apply framed_close_counters|framed].
Qed.

Lemma keeps_onHeartbeatCheckTimeouts now : keeps_ok (onHeartbeatCheckTimeouts cf now).
Proof.
  apply ok_bind; [apply framed_keeps; framed|]. intros c0. destruct (_ >? _).
  { apply ok_bind; [apply keeps_closeAllResources|]. intros. apply framed_keeps. framed. }
  apply ok_bind; [apply framed_keeps; framed|]. intros _. apply ok_bind.
  - unfold check_driver. apply ok_bind; [apply framed_keeps; framed|]. intros c1. destruct (_ >? _); [|apply framed_keeps; framed].
    apply ok_bind; [apply framed_keeps; framed|]. intros last. destruct (_ >? _); [apply framed_keeps; framed|].
    apply ok_bind; [|intros [e|]; apply framed_keeps; framed].
    unfold heartbeat. apply ok_bind; [apply framed_keeps; framed|]. intros c2. destruct (heartbeatTimestamp c2); [|apply framed_keeps; framed].
    apply ok_bind; [apply framed_keeps; framed|]. intros key. cbv zeta. destruct (match key with inl _ => _ | inr _ => _ end); [apply framed_keeps; framed|].
    apply ok_bind; [apply keeps_closeAllResources|]. intros. apply framed_keeps. framed.
  - intros [checked [e|]]; [apply framed_keeps; framed|]. apply framed_keeps.
    unfold onCheckManagedResources. pose proof framed_check_managed. framed.
Qed.
End Keeps.
End Invariant.

(** ** All operations *)

(** What the client's threads and the conductor's thread do. *)
Inductive operation : Type :=
| OAddPublication (exclusive : bool) (channel : list Init.Byte.byte) (streamID now : Z)
| OFindPublication (registrationID now : Z)
| OClosePublication (ref : nat) (now : Z)
| OAddSubscription (channel : list Init.Byte.byte) (streamID : Z) (available unavailable : option nat) (now : Z)
| OFindSubscription (registrationID now : Z)
| OCloseSubscription (ref : nat) (now : Z)
| OAddCounter (typeId : Z) (kb : Buffer) (ko kl : Z) (lb : Buffer) (lo ll now : Z)
| OAddCounterByLabel (typeId : Z) (label : list Init.Byte.byte) (now : Z)
| OFindCounter (registrationID now : Z)
| OCloseCounter (ref : nat)
| OEvent (e : driver_event) (now : Z)
| OHeartbeat (now : Z)
| OCloseAll (now : Z)
| OForceClose.

(** The result is the id of a new publication. *)
Definition no_result {A} (op : C A) : C (option Z) := op ;;; ret None.

Definition perform (cf : config) (o : operation) : C (option Z) :=
  match o with
  | OAddPublication x ch s now =>
      let! (id, err) := (if x then AddExclusivePublication cf ch s now else AddPublication cf ch s now) in
      ret (match err with None => Some id | Some _ => None end)
  | OFindPublication id now => no_result (FindPublication cf id now)
  | OClosePublication r now => no_result (close_publication cf r now)
  | OAddSubscription ch s h1 h2 now => no_result (AddSubscriptionWithHandlers cf ch s h1 h2 now)
  | OFindSubscription id now => no_result (FindSubscription cf id now)
  | OCloseSubscription r now => no_result (close_subscription cf r now)
  | OAddCounter t kb ko kl lb lo ll now => no_result (AddCounter cf t kb ko kl lb lo ll now)
  | OAddCounterByLabel t l now => no_result (AddCounterByLabel cf t l now)
  | OFindCounter id now => no_result (FindCounter cf id now)
  | OCloseCounter r => no_result (Counter_Close cf r)
  | OEvent e now => no_result (@deliver client (conductor_listener cf now) e)
  | OHeartbeat now => no_result (onHeartbeatCheckTimeouts cf now)
  | OCloseAll now => no_result (closeAllResources cf now)
  | OForceClose => no_result (forceCloseResources cf)
  end.

(** The time of an operation that adds a publication. *)
Definition op_time (o : operation) : Z := match o with OAddPublication _ _ _ now => now | _ => 0 end.

(** The states that a client gets to, with a driver that does not hand out an id that is in
    use. The memory may change between the operations. *)
Inductive reached (cf : config) : client -> Prop :=
| reached_init : reached cf client_Init
| reached_step c o m r m' c' :
    reached cf c -> perform cf o (m, c) = Ret r (m', c') ->
    (forall id p, r = Some id -> Some p ∈ visible (pubs c) -> ps_regID p <> id) -> reached cf c'.

Section Invariant.
Context (K : Z -> Z -> Prop).

Lemma framed_event cf e now :
  match e with EPublicationReady _ _ _ _ _ _ _ _ | EError _ _ _ => True
  | _ => framed (@deliver client (conductor_listener cf now) e) end.
Proof.
  pose proof (framed_onError cf). pose proof (@framed_call_handlers).
  destruct e as [[]| | | | | |[]| ]; try done; cbn.
  - unfold OnSubscriptionReady. framed.
  - unfold OnAvailableImage. framed.
  - apply framed_ret.
  - unfold OnUnavailableImage. framed.
  - unfold OnAvailableCounter. framed.
  - unfold OnUnavailableCounter. framed.
  - unfold OnClientTimeout. apply framed_when. framed.
Qed.

Lemma keeps_deliver cf e now : keeps_ok K (@deliver client (conductor_listener cf now) e).
Proof.
  pose proof (framed_event cf e now) as He. destruct e as [[]| | | | |id code text|[]| ]; try (by apply framed_keeps); cbn.
  - apply keeps_publication_ready.
  - apply keeps_publication_ready.
  - destruct (_ || _); [|apply keeps_OnErrorResponse]. apply framed_keeps. unfold OnChannelEndpointError.
    pose proof (framed_onError cf). framed.
Qed.

Lemma keeps_perform cf o m c r m' c' :
  pubs_ok K c -> perform cf o (m, c) = Ret r (m', c') ->
  (forall id, r = Some id -> K id (op_time o) /\ forall p, Some p ∈ visible (pubs c) -> ps_regID p <> id) -> pubs_ok K c'.
Proof.
  intros Hok Hrun Hfresh.
  assert (Hno : forall A (op : C A), keeps_ok K op -> no_result op (m, c) = Ret r (m', c') -> pubs_ok K c').
  { intros A op Hk Hr. refine (ok_bind K op _ Hk _ _ _ _ _ _ Hok Hr). intros. apply framed_keeps, framed_ret. }
  destruct o as [x ch s now| | | | | | | | | | | | | ]; cbn [perform] in Hrun; try (eapply Hno; [|exact Hrun]).
  - apply bind_inv_Ret in Hrun as ([id err] & [m1 c1] & Hadd & Hret). injection Hret as <- _ <-.
    destruct x; (eapply keeps_add_publication; [exact Hok|exact Hadd|]); intros id' [= -> ->]; by apply Hfresh.
  - apply keeps_FindPublication.
  - apply keeps_close_publication.
  - apply framed_keeps, framed_AddSubscription.
  - apply framed_keeps, framed_FindSubscription.
  - apply framed_keeps, framed_close_subscription.
  - apply framed_keeps, framed_AddCounter.
  - apply framed_keeps, framed_AddCounterByLabel.
  - apply framed_keeps, framed_FindCounter.
  - apply framed_keeps, framed_Counter_Close.
  - apply keeps_deliver.
  - apply keeps_onHeartbeatCheckTimeouts.
  - apply keeps_closeAllResources.
  - apply framed_keeps. unfold forceCloseResources. apply framed_bind; [framed|]. intros. apply framed_force_close.
Qed.

Lemma found_has_id cf id now m c r m' c' :
  pubs_ok K c -> FindPublication cf id now (m, c) = Ret (Some r, None) (m', c') ->
  exists o, publications c' !! r = Some o /\ pub_regID o = id.
Proof.
  intros (ps & Hs & Hnd & Hwf) Hrun. pose proof (holds_length _ _ Hs) as [Hlen _].
  unfold FindPublication, pub_indices in Hrun. rewrite bind_assoc, get_bind, bind_ret_l, Hlen in Hrun.
  assert (Hix : forall i, i ∈ seq 0 (length ps) -> (i < length ps)%nat) by (intros i Hi%elem_of_seq; lia).
  induction (seq 0 (length ps)) as [|i ixs IH]; [done|]. cbn [find_publication] in Hrun.
  apply read_deref_inv in Hrun as (p & Hp & Hrun).
  destruct (Z.eqb_spec (ps_regID p) id) as [Hid|Hne]; cbn [negb] in Hrun;
    [|apply IH; [exact Hrun|intros j Hj; apply Hix; by right]].
  unfold found_publication in Hrun. destruct (ps_publication p) as [r0|] eqn:Er.
  - injection Hrun as -> _ <-. rewrite (holds_lookup _ _ _ Hs) in Hp by (apply Hix; left).
    destruct (ps !! i) as [q|] eqn:Eq; [|done]. injection Hp as ->.
    destruct (Forall_lookup_1 _ _ _ _ Hwf Eq) as [Hw _]. destruct (Hw r Er) as (o & Ho & Hreg). exists o. by subst id.
  - destruct (ps_status p); [done| |done].
    apply bind_inv_Ret in Hrun as (P & [m1 c1] & HP & Hrun). unfold publication_for in HP.
    apply bind_inv_Ret in HP as (lb & s1 & Hlb & HP). apply deref_inv in Hlb as [Hlb ->].
    apply bind_inv_Ret in HP as (base & [m2 c2] & H2 & HP). apply on_fst_inv in H2 as ->.
    apply bind_inv_Ret in HP as (lim & [m3 c3] & H3 & HP). apply on_fst_inv in H3 as ->.
    injection HP as <- _ <-. unfold new_publication_object in Hrun.
    rewrite bind_assoc, get_bind, bind_assoc, modify_bind, bind_ret_l in Hrun. unfold write_pub in Hrun.
    rewrite modify_bind in Hrun. injection Hrun as <- _ <-. eexists. split; [by apply list_lookup_middle|done].
Qed.

End Invariant.

Lemma reached_ok cf c : reached cf c -> pubs_ok (fun _ _ => True) c.
Proof.
  induction 1 as [|c o m r m' c' _ IH Hrun Hfresh].
  - exists []. split; [by exists []|]. split; constructor.
  - eapply keeps_perform; [done..|]. intros id Hid. split; [done|]. intros p. by apply Hfresh.
Qed.

(** What is known of the registrations can be sharpened. *)
Lemma pubs_ok_sharpen (K K' : Z -> Z -> Prop) c :
  pubs_ok K c ->
  (forall p, Some p ∈ visible (pubs c) -> K' (ps_regID p) (ps_timeOfRegistration p)) -> pubs_ok K' c.
Proof.
  intros (ps & Hs & Hnd & Hwf) HK. exists ps. split; [done|]. split; [done|].
  rewrite Forall_forall in *. intros p Hp. destruct (Hwf p Hp) as (? & ? & ? & _). split_and!; [done..|].
  apply HK. by eapply holds_visible.
Qed.

(** C19. In every state that a client gets to by operations of its threads and events of the
    driver, in any order, the registrations of its publications are consistent: no two with
    the same id, none nil, each that the driver has answered with its log buffers, and the
    publication that is handed out for an id is always one with that id. *)
Theorem registrations_consistent cf c :
  reached cf c ->
  (exists ps, holds (pubs c) ps /\ NoDup (ps_regID <$> ps) /\
     forall p, p ∈ ps -> ps_status p = RegisteredMediaDriver -> is_Some (ps_buffers p)) /\
  forall id now m r m' c', FindPublication cf id now (m, c) = Ret (Some r, None) (m', c') ->
    exists o, publications c' !! r = Some o /\ pub_regID o = id.
Proof.
  intros Hok%reached_ok.
  split; [|by intros; eapply found_has_id]. destruct Hok as (ps & Hs & Hnd & Hwf). exists ps. split_and!; [done..|].
  intros p Hp. rewrite Forall_forall in Hwf. by apply Hwf.
Qed.
