(* ===== verification/ConductorDown.v ===== *)
(** * A conductor that has given the driver up

    [getDriverStatus] of src/aeron/clientconductor.go is asked before every command but the last
    one of [Close]. Nothing makes the driver active again: after a round that has not seen it
    alive, the commands are refused whatever else the client does. *)

From S2P Require Import Prelude Memory Bits Flyweight RingBuffer Broadcast Counters LogBuffer Command.
From S2P Require Import Proxy ListenerAdapter TermSpec Appender Reader FragmentAssembler Publication.
From S2P Require Import Image ChannelUri Subscription Keeps Conductor ConductorSpec ConductorInv.

Local Open Scope m_scope.

Local Abbreviation C := (M (mem * client)).

(** ** The driver stays down *)

Definition down (s : mem * client) : Prop := driverActive s.2 = false.

Create HintDb down.

Lemma down_get : keeps down get_client.
Proof. intros [m c] Hs. exact Hs. Qed.
Lemma down_modify f : (forall c, driverActive c = false -> driverActive (f c) = false) -> keeps down (modify f).
Proof. intros Hf [m c] Hs. exact (Hf c Hs). Qed.
Lemma down_on_fst {A} (op : M mem A) : keeps down (on_fst op).
Proof. intros [m c] Hs. unfold on_fst. by destruct (op m). Qed.
Lemma down_for_range ixs body : (forall i, keeps down (body i)) -> keeps down (for_range ixs body).
Proof. intros H. induction ixs; [apply keeps_ret|]. cbn. apply keeps_bind; [apply H|done]. Qed.
Lemma down_deref {A} (x : option A) : keeps down (deref x).
Proof. destruct x; [apply keeps_ret|apply keeps_raise]. Qed.

#[local] Hint Resolve down_get down_on_fst down_deref : down.

(** Through an operation, by its structure. *)
Ltac downs :=
  repeat (cbv beta zeta;
    first
    [ solve [auto 2 with down nocore]
    | lazymatch goal with
      | |- forall _, _ => intros ?
      | |- keeps _ (bind _ _) => apply keeps_bind; [|intros ?]
      | |- keeps _ (ret _) => apply keeps_ret
      | |- keeps _ (raise _) => apply keeps_raise
      | |- keeps _ (panic _) => apply keeps_raise
      | |- keeps _ (when _ _) => apply keeps_when
      | |- keeps _ (for_range _ _) => apply down_for_range
      | |- keeps _ (match ?x with _ => _ end) => destruct x
      | |- keeps _ (modify _) => apply down_modify; intros ? ?; first [assumption | reflexivity]
      end ]).

Lemma down_emit e : keeps down (emit e).
Proof. unfold emit. downs. Qed.
Lemma down_linger r : keeps down (linger r).
Proof. unfold linger. downs. Qed.
Lemma down_read_sub i : keeps down (read_sub i).
Proof. unfold read_sub, slot. downs. Qed.
Lemma down_write_sub i s : keeps down (write_sub i s).
Proof. unfold write_sub. downs. Qed.
Lemma down_read_pub i : keeps down (read_pub i).
Proof. unfold read_pub, slot. downs. Qed.
Lemma down_write_pub i p : keeps down (write_pub i p).
Proof. unfold write_pub. downs. Qed.
#[local] Hint Resolve down_emit down_linger down_read_sub down_write_sub down_read_pub down_write_pub : down.

Lemma down_set_counter_state id d : keeps down (set_counter_state id d).
Proof. unfold set_counter_state. downs. Qed.
Lemma down_lookup_counter id : keeps down (lookup_counter id).
Proof. unfold lookup_counter. downs. Qed.
Lemma down_pub_indices : keeps down pub_indices.
Proof. unfold pub_indices. downs. Qed.
Lemma down_sub_indices : keeps down sub_indices.
Proof. unfold sub_indices. downs. Qed.
Lemma down_sub_object r : keeps down (sub_object r).
Proof. unfold sub_object. downs. Qed.
Lemma down_set_sub_object r o : keeps down (set_sub_object r o).
Proof. unfold set_sub_object. downs. Qed.
Lemma down_call_handlers hs mk : keeps down (call_handlers hs mk).
Proof. induction hs as [|[? h] hs IH]; cbn; downs. Qed.
#[local] Hint Resolve down_set_counter_state down_lookup_counter down_pub_indices down_sub_indices down_sub_object
  down_set_sub_object down_call_handlers : down.

Section Down.
Context (cf : config).

Lemma down_onError e : keeps down (onError cf e).
Proof. unfold onError. downs. Qed.
#[local] Hint Resolve down_onError : down.
Lemma down_report e : keeps down (report cf e).
Proof. unfold report. downs. Qed.
#[local] Hint Resolve down_report : down.

(** What asks for the driver's status does nothing. *)
Lemma down_refused {A} (refused : clientError -> A) op m c :
  driverActive c = false -> when_active refused op (m, c) = Ret (refused ErrDriverInactive) (m, c).
Proof. intros Hd. unfold when_active, getDriverStatus. rewrite bind_assoc, get_bind, bind_ret_l, Hd. done. Qed.
Lemma down_when_active {A} (refused : clientError -> A) op : keeps down (when_active refused op).
Proof. intros [m c] Hs. by rewrite down_refused. Qed.
#[local] Hint Resolve down_when_active : down.

Lemma down_releasePublication id now : keeps down (releasePublication cf id now).
Proof. apply down_when_active. Qed.
Lemma down_releaseSubscription id imgs now : keeps down (releaseSubscription cf id imgs now).
Proof. apply down_when_active. Qed.
Lemma down_releaseCounter o : keeps down (releaseCounter cf o).
Proof. apply down_when_active. Qed.
#[local] Hint Resolve down_releasePublication down_releaseSubscription down_releaseCounter : down.

Lemma down_FindPublication id now : keeps down (FindPublication cf id now).
Proof.
  unfold FindPublication. apply keeps_bind; [downs|intros ixs]. induction ixs as [|i ixs IH]; cbn [find_publication]; [downs|].
  unfold found_publication, publication_for, new_publication_object. downs.
Qed.
Lemma down_FindSubscription id now : keeps down (FindSubscription cf id now).
Proof.
  unfold FindSubscription. apply keeps_bind; [downs|intros ixs]. induction ixs as [|i ixs IH]; cbn [find_subscription]; downs.
Qed.
Lemma down_FindCounter id now : keeps down (FindCounter cf id now).
Proof. unfold FindCounter. downs. Qed.
Lemma down_release_images imgs h now : keeps down (release_images imgs h now).
Proof. induction imgs as [|i imgs IH]; cbn; downs. Qed.
#[local] Hint Resolve down_release_images : down.

Lemma down_close_publication r now : keeps down (close_publication cf r now).
Proof. unfold close_publication. downs. Qed.
Lemma down_close_subscription r now : keeps down (close_subscription cf r now).
Proof. unfold close_subscription. downs. Qed.
Lemma down_Counter_Close r : keeps down (Counter_Close cf r).
Proof. unfold Counter_Close. downs. Qed.
#[local] Hint Resolve down_close_publication down_close_subscription down_Counter_Close : down.

Lemma down_close_counters ids : keeps down (close_counters cf ids).
Proof. induction ids as [|id ids IH]; cbn; downs. Qed.
#[local] Hint Resolve down_close_counters : down.
Lemma down_closeAllResources now : keeps down (closeAllResources cf now).
Proof. unfold closeAllResources, close_pubs, close_subs. downs. Qed.
Lemma down_check_managed fuel now : keeps down (check_managed cf fuel now).
Proof. induction fuel as [|fuel IH]; cbn; downs. Qed.
Lemma down_force_close fuel : keeps down (force_close cf fuel).
Proof. induction fuel as [|fuel IH]; cbn; downs. Qed.
#[local] Hint Resolve down_closeAllResources down_check_managed down_force_close : down.

Lemma down_onHeartbeatCheckTimeouts now : keeps down (onHeartbeatCheckTimeouts cf now).
Proof. unfold onHeartbeatCheckTimeouts, check_driver, heartbeat, onCheckManagedResources. downs. Qed.

Lemma down_publication_ready st se li ch log id orig : keeps down (publication_ready cf st se li ch log id orig).
Proof. unfold publication_ready. downs. Qed.
Lemma down_error_publication ixs id code text : keeps down (error_publication ixs id code text).
Proof. induction ixs as [|i ixs IH]; cbn [error_publication]; downs. Qed.
#[local] Hint Resolve down_error_publication : down.
Lemma down_OnErrorResponse id code text : keeps down (OnErrorResponse id code text).
Proof. unfold OnErrorResponse. downs. Qed.

Lemma down_deliver e now : keeps down (@deliver client (conductor_listener cf now) e).
Proof.
  pose proof down_publication_ready. pose proof down_OnErrorResponse. destruct e as [[]| | | | | |[]| ]; cbn;
    unfold OnNewPublication, OnNewExclusivePublication, OnSubscriptionReady, OnAvailableImage, OnUnavailableImage, OnAvailableCounter,
      OnUnavailableCounter, OnClientTimeout, OnOperationSuccess, OnChannelEndpointError; downs.
Qed.

Lemma down_perform o : keeps down (perform cf o).
Proof.
  assert (forall A (op : C A), keeps down op -> keeps down (no_result op)) as Hno by (intros; unfold no_result; downs).
  destruct o as [[] ch s now| | | | | | | | | | | | | ]; cbn [perform]; try apply Hno.
  all: try solve [unfold AddPublication, AddExclusivePublication, add_publication, AddSubscriptionWithHandlers, AddCounter,
    AddCounterByLabel, forceCloseResources; downs].
  - apply down_FindPublication.
  - apply down_FindSubscription.
  - apply down_FindCounter.
  - apply down_deliver.
  - apply down_onHeartbeatCheckTimeouts.
Qed.

(** The operations on the handlers of counters, with a handler or its id. *)
Definition handler_operations (handler : nat) (id : Z) : list (C unit) :=
  [AddAvailableCounterHandler cf handler ;;; ret tt; AddUnavailableCounterHandler cf handler ;;; ret tt;
   RemoveAvailableCounterHandlerById id ;;; ret tt; RemoveAvailableCounterHandler handler ;;; ret tt;
   RemoveUnavailableCounterHandlerById id ;;; ret tt; RemoveUnavailableCounterHandler handler ;;; ret tt].

Lemma down_handler_operations h id : Forall (keeps down) (handler_operations h id).
Proof.
  repeat constructor; unfold AddAvailableCounterHandler, AddUnavailableCounterHandler, RemoveAvailableCounterHandlerById,
    RemoveAvailableCounterHandler, RemoveUnavailableCounterHandlerById, RemoveUnavailableCounterHandler, remove_available,
    remove_unavailable; downs.
Qed.
Lemma down_Close now stops : keeps down (Close cf now stops).
Proof. unfold Close. downs. Qed.
End Down.

(** ** Every command is refused *)

(** The states that the operations of the client, its rounds and the events of the driver lead
    to; the memory may change in between. *)
Inductive later (cf : config) (c : client) : client -> Prop :=
| later_now : later cf c c
| later_step c1 o m r m' c' : later cf c c1 -> perform cf o (m, c1) = Ret r (m', c') -> later cf c c'
| later_handlers c1 op h id m m' c' :
    later cf c c1 -> op ∈ handler_operations cf h id -> op (m, c1) = Ret tt (m', c') -> later cf c c'
| later_Close c1 now stops m r m' c' : later cf c c1 -> Close cf now stops (m, c1) = Ret r (m', c') -> later cf c c'.

Lemma later_down cf c c' : later cf c c' -> driverActive c = false -> driverActive c' = false.
Proof.
  intros Hl Hd. induction Hl as [|c1 o m r m' c' _ IH Hrun|c1 op h id m m' c' _ IH Hop Hrun|c1 now stops m r m' c' _ IH Hrun]; [done|..].
  - exact (keeps_Ret down (perform cf o) (m, c1) r (m', c') (down_perform cf o) IH Hrun).
  - pose proof (proj1 (Forall_forall _ _) (down_handler_operations cf h id) op Hop) as Hk.
    exact (keeps_Ret down op (m, c1) tt (m', c') Hk IH Hrun).
  - exact (keeps_Ret down (Close cf now stops) (m, c1) r (m', c') (down_Close cf now stops) IH Hrun).
Qed.

(** The commands to the driver that ask for its status, on their own and in the [Close] of an object:
    each is refused, and nothing changes. *)
Definition commands_refused (cf : config) (c : client) : Prop := forall m,
  (forall ch s t, AddPublication cf ch s t (m, c) = Ret (0, Some ErrDriverInactive) (m, c)) /\
  (forall ch s t, AddExclusivePublication cf ch s t (m, c) = Ret (0, Some ErrDriverInactive) (m, c)) /\
  (forall ch s t, AddSubscription cf ch s t (m, c) = Ret (0, Some ErrDriverInactive) (m, c)) /\
  (forall ty kb ko kl lb lo ll t, AddCounter cf ty kb ko kl lb lo ll t (m, c) = Ret (0, Some ErrDriverInactive) (m, c)) /\
  (forall ty l t, AddCounterByLabel cf ty l t (m, c) = Ret (0, Some ErrDriverInactive) (m, c)) /\
  (forall r ch, AddDestination cf r ch (m, c) = Ret (Some ErrDriverInactive) (m, c)) /\
  (forall r ch, RemoveDestination cf r ch (m, c) = Ret (Some ErrDriverInactive) (m, c)) /\
  (forall r ch, AddRcvDestination cf r ch (m, c) = Ret (Some ErrDriverInactive) (m, c)) /\
  (forall r ch, RemoveRcvDestination cf r ch (m, c) = Ret (Some ErrDriverInactive) (m, c)) /\
  (forall r t, releasePublication cf r t (m, c) = Ret (Some ErrDriverInactive) (m, c)) /\
  (forall r imgs t, releaseSubscription cf r imgs t (m, c) = Ret (Some ErrDriverInactive) (m, c)) /\
  (forall o, releaseCounter cf o (m, c) = Ret (Some ErrDriverInactive) (m, c)).

Lemma down_commands_refused cf c : driverActive c = false -> commands_refused cf c.
Proof. intros Hd m. split_and!; intros; by apply down_refused. Qed.

(** C38. A round of the conductor whose check of the driver is due, and which is not so late that the
    client closes itself for it: when the driver has not shown a sign of life for longer than its
    timeout, the round declares it inactive and reports it. From then on, whatever the client and
    the driver do, every command that asks for the driver's status is refused with an error, sends
    nothing and changes nothing; these are all commands but the last, ClientClose, which [Close]
    sends without asking. *)
Theorem driver_timeout_stops_commands cf now last m c :
  now <= i64 (timeOfLastDoWork c + interServiceTimeoutNs cf) ->
  i64 (timeOfLastKeepalive c + keepaliveTimeoutNS) < now ->
  dp_TimeOfLastDriverKeepalive (driverProxy cf) m = Ret last m ->
  keepalive_age cf last < now ->
  onHeartbeatCheckTimeouts cf now (m, c) = Ret (0, Some (ErrDriverKeepalive (keepalive_age cf last))) (m, without_driver now c) /\
  forall c', later cf (without_driver now c) c' -> commands_refused cf c'.
Proof.
  intros Hdo Hka Hlast Hdead. split.
  - unfold onHeartbeatCheckTimeouts. rewrite get_bind. replace (now >? _) with false by lia. rewrite modify_bind.
    unfold check_driver. rewrite bind_assoc, get_bind. cbn [set_timeOfLastDoWork timeOfLastKeepalive].
    replace (now >? _) with true by lia. rewrite bind_assoc. erewrite bind_Ret by (apply on_fst_Ret; exact Hlast).
    fold (keepalive_age cf last). replace (now >? _) with true by lia. by rewrite bind_assoc, modify_bind.
  - intros c' Hl. apply down_commands_refused. by eapply later_down.
Qed.
