(* ===== verification/Connect.v ===== *)
(** * Connecting to a driver

    context.go, and [Connect] and [Close] of aeron.go: the command and control file is mapped,
    its buffers become the ring to the driver, the broadcast receiver and the counters, and the
    conductor is set up over them. *)

From S2P Require Import Prelude Memory Bits Flyweight RingBuffer Broadcast Cnc Counters LogBuffer Command.
From S2P Require Import Proxy ListenerAdapter TermSpec Appender Reader FragmentAssembler Publication.
From S2P Require Import Image ChannelUri Subscription Conductor ConductorSpec.

Local Open Scope m_scope.

Local Abbreviation bytes := (list Init.Byte.byte).
Local Abbreviation C := (M (mem * client)).

(** ** context.go *)

(** Handlers are references; those of publications, subscriptions and errors are only there
    or not. *)
Record Context : Type := mkContext {
  aeronDir : string; mediaDriverTo : Z;
  cx_errorHandler : bool; newPublicationHandler : bool; newSubscriptionHandler : bool;
  availableImageHandler : option nat; unavailableImageHandler : option nat;
  availableCounterHandler : option nat; unavailableCounterHandler : option nat;
  resourceLingerTo : Z; publicationConnectionTo : Z; interServiceTo : Z }.

Definition Second : Z := 1000 * Millisecond.

(** [dir] is the default directory with the user's name; the two image handlers do nothing
    but are there. *)
Definition NewContext (dir : string) : Context :=
  mkContext dir (Second * 5) true true true (Some 0%nat) (Some 1%nat) None None (Second * 3) (Second * 5) (Second * 10).

Definition CncFileName (ctx : Context) : string := (aeronDir ctx ++ "/" ++ "cnc.dat")%string.

(** ** aeron.go *)

Record Aeron : Type := mkAeron {
  an_context : Context; an_config : config; an_proxy : Proxy; an_receiver : CopyReceiver; an_cncFile : Z }.

Inductive connectError : Type := ErrCnc (e : cncError) | ErrReceiver.

Section Connect.
(** The operating system's files: the command and control file, the log files and unmapping.
    [fuel] bounds the messages that the receiver skips, [scratch] and [message] are where the
    runtime allocates the receiver's copy and the proxy's messages. *)
Context (map_file : string -> option (Z * Z)) (files : bytes -> Z * (Z -> Z -> option Z))
  (unmap : option Z -> M mem (option string)) (fuel : nat) (scratch message : Z).

Definition conductor_config (ctx : Context) (ctr : MetaDataFlyweight) (driverProxy : Proxy) (liveness : Z) : config := {|
  driverProxy := proxy_driver driverProxy message;
  counterValuesBuffer := RawDataField_Get (ValuesBuf ctr);
  counterReader := NewReader (RawDataField_Get (ValuesBuf ctr)) (RawDataField_Get (MetaDataBuf ctr));
  driverTimeoutNs := mediaDriverTo ctx; interServiceTimeoutNs := liveness;
  publicationConnectionTimeoutNs := publicationConnectionTo ctx; resourceLingerTimeoutNs := resourceLingerTo ctx;
  onNewPublicationHandler := newPublicationHandler ctx; onNewSubscriptionHandler := newSubscriptionHandler ctx;
  onAvailableImageHandler := availableImageHandler ctx; onUnavailableImageHandler := unavailableImageHandler ctx;
  errorHandler := cx_errorHandler ctx;
  cf_files := files; cf_unmap := unmap |}.

Definition Connect (ctx : Context) : C (Aeron + connectError) :=
  let! mapped := on_fst (MapFile (map_file (CncFileName ctx))) in
  match mapped with
  | inr e => ret (inr (ErrCnc e))
  | inl (ctr, cnc) =>
      let! ring := on_fst (ManyToOne_Init (RawDataField_Get (ToDriverBuf ctr))) in
      let! proxy := on_fst (Proxy_Init ring) in
      match NewReceiver (RawDataField_Get (ToClientsBuf ctr)) with
      | None => ret (inr ErrReceiver)
      | Some receiver =>
          let! copy := on_fst (NewCopyReceiver fuel receiver scratch) in
          let! liveness := on_fst (Int64Field_Get (ClientLivenessTo ctr)) in
          let cf := conductor_config ctx ctr proxy liveness in
          modify (fun _ => client_Init) ;;;
          match availableCounterHandler ctx with
          | Some h => let! _ := AddAvailableCounterHandler cf h in ret tt
          | None => ret tt
          end ;;;
          match unavailableCounterHandler ctx with
          | Some h => let! _ := AddUnavailableCounterHandler cf h in ret tt
          | None => ret tt
          end ;;;
          Start ;;;
          ret (inl (mkAeron ctx cf proxy copy cnc))
      end
  end.

(** The handler that the context was given is called with every error, and is not looked at
    before: without one this is a nil call. The error of unmapping is the result, whatever
    the conductor's was. *)
Definition context_error (a : Aeron) (e : clientError) : C unit :=
  if cx_errorHandler (an_context a) then emit (CallError e) else panic "nil pointer dereference".

Definition Aeron_Close (a : Aeron) (now : Z) (stops : bool) : C (option string) :=
  let! err := Conductor.Close (an_config a) now stops in
  match err with Some e => context_error a e | None => ret tt end ;;;
  let! err := on_fst (unmap (Some (an_cncFile a))) in
  match err with Some e => context_error a (ErrUnmap e) | None => ret tt end ;;;
  ret err.
End Connect.

(** ** A connected client *)

(** The ring over the to-driver buffer. *)
Definition ring_over (ptr cap : Z) : ManyToOne :=
  mkManyToOne (mkBuffer ptr (cap + 768)) cap (cap / 8) (cap + 384) (cap + 256) (cap + 128) (cap + 512) (cap + 640).

Lemma ManyToOne_Init_ok m ptr cap :
  0 < cap < 2147480000 -> ManyToOne_Init (mkBuffer ptr (cap + 768)) m = Ret (ring_over ptr cap) m.
Proof.
  intros. unfold ManyToOne_Init, ring_over, Capacity, descriptor.trailerLength, descriptor.headPositionOffset,
    descriptor.headCachePositionOffset, descriptor.tailPositionOffset, descriptor.correlationCounterOffset,
    descriptor.consumerHeartbeatOffset, CacheLineLength. cbn [buf_length].
  replace (cap + 768 - 64 * 12) with cap by lia. rewrite !i32_small by lia.
  replace (cap <=? 0) with false by lia. rewrite Z.quot_div_nonneg by lia. done.
Qed.

(** The receiver over the to-clients buffer. *)
Definition receiver_over (ptr cap : Z) : Receiver :=
  mkReceiver (mkBuffer ptr (cap + 128)) cap (cap - 1) cap (cap + 8) (cap + 16) 0 0 0 0.

Lemma NewReceiver_ok ptr k :
  6 <= k <= 29 -> NewReceiver (mkBuffer ptr (2 ^ k + 128)) = Some (receiver_over ptr (2 ^ k)).
Proof.
  intros. assert (64 <= 2 ^ k) by (apply (Z.pow_le_mono_r 2 6); lia).
  assert (2 ^ k <= 536870912) by (apply (Z.pow_le_mono_r 2 _ 29); lia).
  unfold NewReceiver, receiver_over, Capacity, BufferDescriptor.trailerLength, BufferDescriptor.tailIntentCounterOffset,
    BufferDescriptor.tailCounterOffset, BufferDescriptor.latestCounterOffset, CacheLineLength. cbn [buf_length].
  replace (2 ^ k + 128 - 64 * 2) with (2 ^ k) by lia. rewrite !i32_small by lia.
  rewrite (proj2 (IsPowerOfTwo_spec (2 ^ k) ltac:(unfold is_i64; lia))) by (exists k; split; [lia|done]).
  by rewrite Z.add_0_r.
Qed.

(** A file that a driver has set up: a ring of [2 ^ kd] bytes to it, with the records [es]
    and [next] as its next correlation id, and a broadcast buffer of [2 ^ kc] bytes in which
    it has transmitted [ps] since its start. *)
Record driver_file (m : mem) (ptr size : Z) (kd kc k v e : Z) (head tail hc next : Z) (es : list entry)
  (intent : Z) (ps : list packet) : Prop := {
  df_cnc : cnc_file m ptr size CurrentCncVersion (2 ^ kd + 768) (2 ^ kc + 128) k v e;
  df_kd : 6 <= kd <= 29;
  df_kc : 6 <= kc <= 29;
  df_ring : proxy_ok m (mkProxy (ring_over (ptr + 128) (2 ^ kd)) 0) head tail hc next es;
  df_next : next < 9223372036854775807;
  df_bcast : let p := ptr + 128 + (2 ^ kd + 768) in
    rd_i64 m (p + 2 ^ kc) = intent /\
    rd_i64 m (p + (2 ^ kc + 8)) = ring_space (concat (map packet_entries ps)) /\
    intent < 2 ^ kc /\ ring_space (concat (map packet_entries ps)) <= intent /\
    packets_ok (2 ^ kc) 0 ps /\ ring_seg m p (2 ^ kc) 0 (concat (map packet_entries ps)) }.

(** C30. Connecting to a driver. The client gets the next correlation id of the driver's ring
    as its own, so that no two clients of the driver have the same one; the ring and its
    records are as before; the receiver is behind all that was transmitted before; the
    counters are those of the file; and the conductor starts without registrations. *)
Theorem Connect_ready map_file files unmap fuel scratch message ctx m c ptr size kd kc k v e head tail hc next es intent ps :
  map_file (CncFileName ctx) = Some (ptr, size) ->
  driver_file m ptr size kd kc k v e head tail hc next es intent ps ->
  availableCounterHandler ctx = None -> unavailableCounterHandler ctx = None -> (length ps < fuel)%nat ->
  exists a m', Connect map_file files unmap fuel scratch message ctx (m, c) = Ret (inl a) (m', client_Init) /\
    ClientID (an_proxy a) = next /\ proxy_ok m' (an_proxy a) head tail hc (next + 1) es /\
    bc_ok m' (cr_receiver (an_receiver a)) (ring_space (concat (map packet_entries ps))) intent /\
    nextRecord (cr_receiver (an_receiver a)) = ring_space (concat (map packet_entries ps)) /\
    counterValuesBuffer (an_config a) = mkBuffer (ptr + 128 + (2 ^ kd + 768) + (2 ^ kc + 128) + k) v /\
    buf_ok m' (counterValuesBuffer (an_config a)) /\
    interServiceTimeoutNs (an_config a) = rd_i64 m (ptr + 24).
Proof.
  intros Hmap Hd Hav Hun Hfuel. destruct Hd as [Hcnc Hkd Hkc Hring Hnx (Hint & Htl & Hlt & Hle & Hps & Hseg)].
  assert (64 <= 2 ^ kd <= 536870912 /\ 64 <= 2 ^ kc <= 536870912) as [Hd Hc].
  { split; split; (apply (Z.pow_le_mono_r 2 6) || apply (Z.pow_le_mono_r 2 _ 29)); lia. }
  pose proof (cn_size _ _ _ _ _ _ _ _ _ Hcnc). pose proof (cn_lengths _ _ _ _ _ _ _ _ _ Hcnc) as (_ & _ & ? & ? & ?).
  destruct (next_id_ok _ _ _ _ _ _ _ Hring Hnx) as (m1 & Hid & Ho & Hk & Hv).
  cbn [toDriverCommandBuffer ring_over rb_buffer bufferPtr rb_capacity] in Hid, Ho, Hv.
  set (p := ptr + 128 + (2 ^ kd + 768)) in *. set (r0 := receiver_over p (2 ^ kc)).
  assert (Hsame : forall i, ~ (ptr + 128 + (2 ^ kd + 512) <= i < ptr + 128 + (2 ^ kd + 520)) -> m1 !! i = m !! i)
    by (intros i Hi; apply Ho; lia).
  assert (Hrd : forall o, o + 8 <= ptr + 128 \/ p <= o -> rd_i64 m1 o = rd_i64 m o).
  { intros o Hoo. unfold rd_i64. do 2 f_equal. apply rd_ext. intros i Hi. apply Hsame. lia. }
  assert (Hr0 : bc_ok m1 r0 (ring_space (concat (map packet_entries ps))) intent).
  { constructor; cbn; rewrite ?Hrd by lia; try done; try lia.
    - eapply buf_ok_keeps; [exact Hk|]. unfold p. rewrite <- Z.add_assoc. eapply cnc_part_ok; [exact Hcnc|lia..].
    - by exists kc. }
  destruct (scroll_skips m1 intent _ ps r0 fuel Hr0) as (r' & Hscroll & Hr' & Hn' & _ & _); try done; cbn; try lia.
  { eapply ring_seg_ext; [lia| |exact Hseg]. intros q Hq. apply Hsame.
    pose proof (Z.mod_pos_bound q (2 ^ kc) ltac:(lia)). lia. }
  eexists _, m1. split.
  { unfold Connect. rewrite Hmap. erewrite bind_Ret by (apply on_fst_Ret, (proj1 (MapFile_ok _ _ _ _ _ _ _ _ _ Hcnc))).
    rewrite decide_True by done. cbv beta iota. cbn [ToDriverBuf ToClientsBuf cnc_layout RawDataField_Get].
    erewrite bind_Ret by (apply on_fst_Ret, ManyToOne_Init_ok; lia).
    unfold Proxy_Init. erewrite bind_Ret by (apply on_fst_Ret; erewrite bind_Ret by exact Hid; reflexivity).
    fold p. rewrite NewReceiver_ok by lia. unfold NewCopyReceiver.
    erewrite bind_Ret by (apply on_fst_Ret; erewrite bind_Ret by exact Hscroll; reflexivity).
    erewrite bind_Ret.
    2: { apply on_fst_Ret, Int64Field_Get_ok. destruct (cn_region _ _ _ _ _ _ _ _ _ Hcnc) as (? & ? & ? & Hreg).
         split_and!; cbn; try lia. intros i Hi. apply Hk, Hreg. lia. }
    rewrite modify_bind, Hav, Hun, !bind_ret_l. unfold Start. rewrite modify_bind. reflexivity. }
  cbn [an_proxy an_receiver cr_receiver an_config counterValuesBuffer interServiceTimeoutNs conductor_config].
  split; [done|]. split.
  { assert (Hp1 : proxy_ok m1 (mkProxy (ring_over (ptr + 128) (2 ^ kd)) 0) head tail hc (next + 1) es).
    { apply (proxy_ok_ext _ _ _ _ _ _ _ Hring); cbn; try done. intros i Hi. apply Hsame. lia. }
    by destruct Hp1. }
  split_and!; try done.
  - eapply buf_ok_keeps; [exact Hk|]. cbn. unfold p. rewrite <- !Z.add_assoc. eapply cnc_part_ok; [exact Hcnc|lia..].
  - unfold f64_val. cbn. apply Hrd. lia.
Qed.
