(* ===== verification/Client.v ===== *)
(** * The client: calls that wait, and the objects they hand out

    aeron.go: the operations of [Aeron] that send a command and wait for the driver's answer
    while the conductor's goroutine works, and the composition of the conductor with
    publications, images and log buffers: what a user gets is ready for use. *)

From S2P Require Import Prelude Memory Bits Flyweight RingBuffer Broadcast Counters LogBuffer Command.
From S2P Require Import Proxy ListenerAdapter TermSpec Appender Reader FragmentAssembler Publication.
From S2P Require Import Image ChannelUri Subscription Conductor ConductorSpec ConductorInv.

Local Open Scope m_scope.

Local Abbreviation bytes := (list Init.Byte.byte).
Local Abbreviation C := (M (mem * client)).

(** ** aeron.go *)

Module Aeron.
Section Calls.
Context (cf : config).

(** What happens while a caller idles: one operation of another goroutine. The driver hands
    out neither the id the caller waits for nor that of another registration a second time;
    runs in which it does are left out. *)
Definition other (registrationID : Z) (o : operation) : C unit := fun s =>
  match perform cf o s with
  | Ret (Some id) s' =>
      if (id =? registrationID) ||
         existsb (fun p => match p with Some p => ps_regID p =? id | None => false end) (visible (pubs s.2))
      then Exc EBlocked s' else Ret tt s'
  | Ret None s' => Ret tt s'
  | Exc e s' => Exc e s'
  end.

(** The loop of a call that waits: it looks, and idles when there is neither an object nor an
    error. The world is the time of each look and what others do in the idle time after it;
    the result is [None] when the caller still waits at the end of it. *)
Fixpoint await (find : Z -> Z -> C (option nat * option clientError)) (registrationID : Z)
  (world : list (Z * operation))
  : C (option (option nat * option clientError)) :=
  match world with
  | [] => ret None
  | (now, o) :: world' =>
      let! (object, err) := find registrationID now in
      match object, err with
      | None, None => other registrationID o ;;; await find registrationID world'
      | _, _ => ret (Some (object, err))
      end
  end.

Definition AddSubscriptionWithHandlers (channel : bytes) (streamID : Z)
  (onAvailableImage onUnavailableImage : option nat) (now : Z) (world : list (Z * operation))
  : C (option (option nat * option clientError)) :=
  let! (registrationID, err) :=
    Conductor.AddSubscriptionWithHandlers cf channel streamID onAvailableImage onUnavailableImage now in
  match err with
  | Some e => ret (Some (None, Some e))
  | None => await (FindSubscription cf) registrationID world
  end.

Definition AddSubscription (channel : bytes) (streamID now : Z) (world : list (Z * operation)) :=
  AddSubscriptionWithHandlers channel streamID (onAvailableImageHandler cf) (onUnavailableImageHandler cf) now world.

Definition AddPublication (channel : bytes) (streamID now : Z) (world : list (Z * operation))
  : C (option (option nat * option clientError)) :=
  let! (registrationID, err) := Conductor.AddPublication cf channel streamID now in
  match err with
  | Some e => ret (Some (None, Some e))
  | None => await (FindPublication cf) registrationID world
  end.

Definition AddExclusivePublication (channel : bytes) (streamID now : Z) (world : list (Z * operation))
  : C (option (option nat * option clientError)) :=
  let! (registrationID, err) := Conductor.AddExclusivePublication cf channel streamID now in
  match err with
  | Some e => ret (Some (None, Some e))
  | None => await (FindPublication cf) registrationID world
  end.

(** The goroutine of the deprecated calls: what it sends on the channel. *)
Definition send_result (find : Z -> Z -> C (option nat * option clientError)) (registrationID : Z)
  (world : list (Z * operation)) : C (option (option nat)) :=
  let! r := await find registrationID world in
  match r with
  | None => ret None
  | Some (object, err) =>
      match err with Some e => onError cf e | None => ret tt end ;;;
      ret (Some object)
  end.

(** The deprecated calls go on with the id they got, an error included. *)
Definition AddSubscriptionDeprecated (channel : bytes) (streamID now : Z) (world : list (Z * operation))
  : C (option (option nat)) :=
  let! (registrationID, err) := Conductor.AddSubscription cf channel streamID now in
  match err with Some e => onError cf e | None => ret tt end ;;;
  send_result (FindSubscription cf) registrationID world.

Definition AddPublicationDeprecated (channel : bytes) (streamID now : Z) (world : list (Z * operation))
  : C (option (option nat)) :=
  let! (registrationID, err) := Conductor.AddPublication cf channel streamID now in
  match err with Some e => onError cf e | None => ret tt end ;;;
  send_result (FindPublication cf) registrationID world.

Definition AddExclusivePublicationDeprecated (channel : bytes) (streamID now : Z) (world : list (Z * operation))
  : C (option (option nat)) :=
  let! (registrationID, err) := Conductor.AddExclusivePublication cf channel streamID now in
  match err with Some e => onError cf e | None => ret tt end ;;;
  send_result (FindPublication cf) registrationID world.

(** The calls that do not wait, and the looks of their users. *)
Definition AsyncAddSubscription (channel : bytes) (streamID now : Z) : C (Z * option clientError) :=
  Conductor.AddSubscriptionWithHandlers cf channel streamID (onAvailableImageHandler cf) (onUnavailableImageHandler cf) now.
Definition AsyncAddSubscriptionWithHandlers (channel : bytes) (streamID : Z)
  (onAvailableImage onUnavailableImage : option nat) (now : Z) : C (Z * option clientError) :=
  Conductor.AddSubscriptionWithHandlers cf channel streamID onAvailableImage onUnavailableImage now.
Definition GetSubscription (registrationID now : Z) : C (option nat * option clientError) :=
  FindSubscription cf registrationID now.
Definition AsyncAddPublication (channel : bytes) (streamID now : Z) : C (Z * option clientError) :=
  Conductor.AddPublication cf channel streamID now.
Definition GetPublication (registrationID now : Z) : C (option nat * option clientError) :=
  FindPublication cf registrationID now.
Definition AsyncAddExclusivePublication (channel : bytes) (streamID now : Z) : C (Z * option clientError) :=
  Conductor.AddExclusivePublication cf channel streamID now.
Definition GetExclusivePublication (registrationID now : Z) : C (option nat * option clientError) :=
  FindPublication cf registrationID now.

Definition IsClosed : C bool :=
  let! c := get_client in ret (negb (running c)).

Definition NextCorrelationID : C Z := on_fst (dp_NextCorrelationID (driverProxy cf)).
Definition ClientID : Z := dp_ClientID (driverProxy cf).
Definition CounterReader : Reader := counterReader cf.
Definition AddCounter (typeId : Z) (keyBuffer : Buffer) (keyOffset keyLength : Z) (labelBuffer : Buffer)
  (labelOffset labelLength now : Z) : C (Z * option clientError) :=
  Conductor.AddCounter cf typeId keyBuffer keyOffset keyLength labelBuffer labelOffset labelLength now.
Definition AddCounterByLabel (typeId : Z) (label : bytes) (now : Z) : C (Z * option clientError) :=
  Conductor.AddCounterByLabel cf typeId label now.
Definition FindCounter (registrationID now : Z) : C (option nat * option clientError) :=
  Conductor.FindCounter cf registrationID now.
Definition AddAvailableCounterHandler (handler : nat) : C Z := Conductor.AddAvailableCounterHandler cf handler.
Definition RemoveAvailableCounterHandlerById (registrationId : Z) : C bool :=
  Conductor.RemoveAvailableCounterHandlerById registrationId.
Definition RemoveAvailableCounterHandler (handler : nat) : C bool := Conductor.RemoveAvailableCounterHandler handler.
Definition AddUnavailableCounterHandler (handler : nat) : C Z := Conductor.AddUnavailableCounterHandler cf handler.
Definition RemoveUnavailableCounterHandlerById (registrationId : Z) : C bool :=
  Conductor.RemoveUnavailableCounterHandlerById registrationId.
Definition RemoveUnavailableCounterHandler (handler : nat) : C bool := Conductor.RemoveUnavailableCounterHandler handler.

(** subscription.go: a destination of a subscription that is not closed. *)
Definition Subscription_AddDestination {I} (sub : Subscription I) (endpointChannel : bytes) : C (option (clientError + string)) :=
  if sub_isClosed sub then ret (Some (inr "subscription is closed"%string))
  else let! err := AddRcvDestination cf (sub_registrationID sub) endpointChannel in ret (inl <$> err).
Definition Subscription_RemoveDestination {I} (sub : Subscription I) (endpointChannel : bytes) : C (option (clientError + string)) :=
  if sub_isClosed sub then ret (Some (inr "subscription is closed"%string))
  else let! err := RemoveRcvDestination cf (sub_registrationID sub) endpointChannel in ret (inl <$> err).
End Calls.
End Aeron.

(** ** A call that waits gives up *)

Section Waiting.
Context (cf : config).

(** A look that gives neither an object nor an error found a registration that still waits. *)
Lemma find_pending K id now m c m' c' :
  pubs_ok K c -> FindPublication cf id now (m, c) = Ret (None, None) (m', c') ->
  c' = c /\ exists p, K id (ps_timeOfRegistration p) /\ timeoutExceeded cf (ps_timeOfRegistration p) now = None.
Proof.
  intros (ps & Hs & Hnd & Hwf) Hrun. pose proof (holds_length _ _ Hs) as [Hlen _].
  unfold FindPublication, pub_indices in Hrun. rewrite bind_assoc, get_bind, bind_ret_l, Hlen in Hrun.
  assert (Hix : forall i, i ∈ seq 0 (length ps) -> (i < length ps)%nat) by (intros i Hi%elem_of_seq; lia).
  induction (seq 0 (length ps)) as [|i ixs IH]; [done|]. cbn [find_publication] in Hrun.
  apply read_deref_inv in Hrun as (p & Hp & Hrun).
  destruct (Z.eqb_spec (ps_regID p) id) as [Hid|Hne]; cbn [negb] in Hrun;
    [|apply IH; [exact Hrun|intros j Hj; apply Hix; by right]].
  rewrite (holds_lookup _ _ _ Hs) in Hp by (apply Hix; left).
  destruct (ps !! i) as [q|] eqn:Eq; [|done]. injection Hp as ->.
  destruct (Forall_lookup_1 _ _ _ _ Hwf Eq) as (_ & _ & _ & HK). rewrite Hid in HK.
  unfold found_publication in Hrun. destruct (ps_publication p); [done|].
  destruct (ps_status p); [injection Hrun as Ht _ <-; split; [done|by exists p]| |done].
  apply bind_inv_Ret in Hrun as (P & s1 & _ & Hrun). apply bind_inv_Ret in Hrun as (r & s2 & _ & Hrun).
  by apply bind_inv_Ret in Hrun as (u & s3 & _ & Hrun).
Qed.

(** What is known of the times while a caller waits for an id. *)
Definition since (id t0 : Z) : Z -> Z -> Prop := fun id' t => id' = id -> t = t0.

(** What others do keeps the time of the registration that the caller waits for. *)
Lemma other_keeps id t0 o : keeps_ok (since id t0) (Aeron.other cf id o).
Proof.
  intros m c [] m' c' Hok Hrun. unfold Aeron.other in Hrun.
  destruct (perform cf o (m, c)) as [r [m1 c1]|] eqn:E; [|done].
  assert (pubs_ok (since id t0) c1); [|by destruct r; [case_match|]; simplify_eq].
  apply (keeps_perform _ cf o _ _ _ _ _ Hok E). intros id' Er. subst r.
  destruct (Z.eqb_spec id' id) as [Heq|Hne]; [done|]. cbn [orb snd] in Hrun.
  destruct (existsb _ _) eqn:Hex; [done|]. split; [by intros ?|]. intros p Hp Hid.
  apply not_true_iff_false in Hex. apply Hex, existsb_exists. exists (Some p). split; [by apply list_elem_of_In|].
  by apply Z.eqb_eq.
Qed.

Lemma await_publication_pending id t0 world m c s' :
  pubs_ok (since id t0) c -> Aeron.await cf (FindPublication cf) id world (m, c) = Ret None s' ->
  Forall (fun look => timeoutExceeded cf t0 look.1 = None) world.
Proof.
  revert m c. induction world as [|[now o] world IH]; intros m c Hok Hrun; [constructor|]. cbn [Aeron.await] in Hrun.
  apply bind_inv_Ret in Hrun as ([[obj|] [e|]] & [m1 c1] & Hfind & Hrun); [done..|].
  apply find_pending with (K := since id t0) in Hfind as [-> (p & HK & Ht)]; [|done].
  apply bind_inv_Ret in Hrun as ([] & [m2 c2] & Ho & Hrun). constructor.
  - by rewrite HK in Ht.
  - eapply IH; [|exact Hrun]. by eapply other_keeps.
Qed.
End Waiting.

Lemma AddPublication_command cf ch stream t0 m c id m1 c1 :
  Conductor.AddPublication cf ch stream t0 (m, c) = Ret (id, None) (m1, c1) ->
  dp_AddPublication (driverProxy cf) ch stream m = Ret (id, None) m1.
Proof.
  unfold Conductor.AddPublication, add_publication, when_active, getDriverStatus.
  rewrite bind_assoc, get_bind, bind_ret_l. destruct (driverActive c); [|done]. intros Hrun.
  apply bind_inv_Ret in Hrun as ([id' [e|]] & [m2 c2] & Hop & Hrun); [done|].
  rewrite modify_bind in Hrun. injection Hrun as <- <- _. unfold on_fst in Hop.
  destruct (dp_AddPublication _ _ _ _); [|done]. by injection Hop as -> -> _.
Qed.

(** C27. A call that adds a publication does not wait forever: whatever the other goroutines
    and the driver do meanwhile, a caller that still waits has not looked after its deadline,
    the time of the registration and the driver's timeout; so the first look after it ends
    the call, with the publication or with an error. *)
Theorem AddPublication_gives_up cf ch stream t0 world m c s' :
  reached cf c ->
  (forall id m', dp_AddPublication (driverProxy cf) ch stream m = Ret (id, None) m' ->
     forall p, Some p ∈ visible (pubs c) -> ps_regID p <> id) ->
  Aeron.AddPublication cf ch stream t0 world (m, c) = Ret None s' ->
  Forall (fun look => look.1 <= i64 (t0 + driverTimeoutNs cf)) world.
Proof.
  intros Hr Hfresh Hrun. unfold Aeron.AddPublication in Hrun.
  apply bind_inv_Ret in Hrun as ([id [e|]] & [m1 c1] & Hadd & Hrun); [done|].
  assert (Hok : pubs_ok (since id t0) c1).
  { pose proof (Hfresh id m1 (AddPublication_command _ _ _ _ _ _ _ _ _ Hadd)) as Hnew. apply reached_ok in Hr.
    eapply keeps_add_publication; [|exact Hadd|].
    - apply (pubs_ok_sharpen _ _ _ Hr). intros p Hp E. by apply Hnew in Hp.
    - intros id' [= <-]. split; [done|exact Hnew]. }
  eapply Forall_impl; [by eapply await_publication_pending|]. intros [now o] Ht. cbn [fst] in *.
  unfold timeoutExceeded in Ht. destruct (Z.gtb_spec now (i64 (t0 + driverTimeoutNs cf))); [done|lia].
Qed.

(** ** What the conductor hands out is ready for use *)

(** The log that a log file is mapped to. *)
Definition mapped (log bits : Z) : LogBuffers := {|
  mmapFiles := [Some log];
  lb_buffers := [mkBuffer log (2 ^ bits); mkBuffer (log + 2 ^ bits) (2 ^ bits);
                 mkBuffer (log + 2 * 2 ^ bits) (2 ^ bits); mkBuffer (log + 3 * 2 ^ bits) LogMetaDataLength];
  lb_meta := meta_layout (log + 3 * 2 ^ bits);
  refCount := 0 |}.

(** The driver has made a log file: its length and contents are those of a log with terms of
    [2 ^ bits] bytes, in term [tc] at offset [off], and it is mapped at [log]. *)
Record log_file (cf : config) (m : mem) (name : bytes) (log bits tc off : Z) : Prop := {
  lf_small : bits <= 29;
  lf_length : (cf_files cf name).1 = 3 * 2 ^ bits + LogMetaDataLength;
  lf_map : (cf_files cf name).2 0 0 = Some log;
  lf_log : log_ok m (mapped log bits) log bits tc off }.

(** A counter of the values buffer. *)
Definition counter_slot (cf : config) (m : mem) (id : Z) : Prop :=
  buf_ok m (counterValuesBuffer cf) /\ 0 <= id /\ id * 128 + 8 <= buf_length (counterValuesBuffer cf).

Definition counter_position (cf : config) (id : Z) : Position := mkPosition (counterValuesBuffer cf) id (id * 128).

Lemma NewPosition_ok cf m id :
  counter_slot cf m id -> NewPosition (counterValuesBuffer cf) id m = Ret (counter_position cf id) m.
Proof.
  intros (Hb & Hid & Hlen). pose proof (proj2 Hb). unfold NewPosition, CacheLineLength.
  rewrite (i32_small (id * 2)), i32_small by (unfold is_i32; lia).
  erewrite bind_Ret by (apply GetInt64_ok; [done|lia|lia]). unfold counter_position, ret. do 2 f_equal. lia.
Qed.

Section Ready.
Context (cf : config) (m : mem) (name : bytes) (log bits tc off : Z) (Hlf : log_file cf m name log bits tc off).

Lemma logbuffer_Wrap_ok : logbuffer_Wrap cf name m = Ret (mapped log bits) m.
Proof using Hlf.
  destruct Hlf as [Hs Hl Hm Hlog]. unfold logbuffer_Wrap. destruct (cf_files cf name) as [len mp]. cbn in Hl, Hm. subst len.
  apply (LogBuffers_Wrap_ok mp m log bits); [|done|exact (lo_region _ _ _ _ _ _ Hlog)].
  pose proof (lo_bits _ _ _ _ _ _ Hlog). lia.
Qed.

Lemma log_ok_IncRef : log_ok m (IncRef (mapped log bits)).1 log bits tc off.
Proof using Hlf. by destruct (lf_log _ _ _ _ _ _ _ Hlf). Qed.

(** The publication of a registration over the log. *)
Lemma publication_of_ok p id :
  counter_slot cf m id ->
  pub_ok m (publication_of p (new_publication m log bits) (counter_position cf id)) (log + 3 * 2 ^ bits) tc off.
Proof using Hlf.
  intros (Hb & Hid & Hlen).
  by destruct (new_publication_ok m _ log bits tc off log_ok_IncRef (counter_position cf id)) as [];
    [done|cbn; lia|cbn; lia|constructor].
Qed.
(** The image that the conductor makes over the log. *)
Definition new_image (session corr subRegID posID : Z) : image := {|
  img_logBuffers := mapped log bits;
  img_termBuffers := [mkBuffer log (2 ^ bits); mkBuffer (log + 2 ^ bits) (2 ^ bits); mkBuffer (log + 2 * 2 ^ bits) (2 ^ bits)];
  img_subscriberPosition := counter_position cf posID;
  img_header := mkHeader (mkBuffer 0 0) 0 (rd_i32 m (log + 3 * 2 ^ bits + 264)) bits;
  img_isClosed := false; img_isEos := false;
  img_termLengthMask := 2 ^ bits - 1; img_positionBitsToShift := bits;
  img_sessionID := session; img_finalPosition := 0; img_subscriptionRegistrationID := subRegID;
  img_correlationID := corr |}.

Lemma DefaultImageFactory_ok session corr subRegID posID :
  counter_slot cf m posID ->
  DefaultImageFactory cf session corr name subRegID posID m = Ret (new_image session corr subRegID posID) m.
Proof using Hlf.
  intros Hpos. pose proof (lf_log _ _ _ _ _ _ _ Hlf) as Hlog.
  pose proof (log_T_range m _ log bits tc off Hlog) as [? _]. pose proof (lo_region _ _ _ _ _ _ Hlog) as Hreg.
  unfold LogMetaDataLength, pageMinSize in Hreg. pose proof (lo_bits _ _ _ _ _ _ Hlog).
  assert (Hbits : NumberOfTrailingZeroes (u32 (2 ^ bits)) = bits).
  { rewrite u32_small by lia. apply NumberOfTrailingZeroes_pow2. lia. }
  unfold DefaultImageFactory. erewrite bind_Ret by exact logbuffer_Wrap_ok.
  assert (Himg : exists img, NewImage session corr (mapped log bits) m = Ret img m /\
    new_image session corr subRegID posID =
    {| img_logBuffers := img_logBuffers img; img_termBuffers := img_termBuffers img;
         img_subscriberPosition := counter_position cf posID; img_header := img_header img;
         img_isClosed := img_isClosed img; img_isEos := img_isEos img;
         img_termLengthMask := img_termLengthMask img;
         img_positionBitsToShift := img_positionBitsToShift img; img_sessionID := img_sessionID img;
         img_finalPosition := img_finalPosition img; img_subscriptionRegistrationID := subRegID;
         img_correlationID := img_correlationID img |}).
  { eexists. split.
    - unfold NewImage, LogBuffers_Meta. do 3 (erewrite bind_Ret by done).
      erewrite bind_Ret; [done|]. apply Int32Field_Get_ok. eapply region_ok_sub; [exact Hreg|..]; cbn; lia.
    - unfold new_image, Capacity, Header_SetInitialTermID, Header_SetPositionBitsToShift. cbn. by rewrite Hbits, i32_small by lia. }
  destruct Himg as (img & Hrun & ->). erewrite bind_Ret by exact Hrun. erewrite bind_Ret by (by apply NewPosition_ok).
  destruct Hpos as (Hb & ? & ?). unfold Position_get.
  erewrite bind_Ret; [done|]. apply GetInt64_ok; cbn; done || lia.
Qed.

Lemma new_image_ok session corr subRegID posID :
  counter_slot cf m posID ->
  disjoint log (3 * 2 ^ bits) (bufferPtr (counterValuesBuffer cf) + posID * 128) 8 ->
  img_ok m (new_image session corr subRegID posID).
Proof using Hlf.
  intros (Hb & ? & ?) Hd. pose proof (lf_log _ _ _ _ _ _ _ Hlf) as Hlog.
  pose proof (log_T_range m _ log bits tc off Hlog) as [? _]. pose proof (lo_region _ _ _ _ _ _ Hlog) as Hreg.
  unfold LogMetaDataLength, pageMinSize in Hreg. unfold disjoint in Hd.
  constructor; [done|exact (lo_bits _ _ _ _ _ _ Hlog)|done| |cbn; split_and!; done || lia].
  intros i Hi. exists (mkBuffer (log + i * 2 ^ bits) (2 ^ bits)).
  assert (Hin : i * 2 ^ bits + 2 ^ bits <= 3 * 2 ^ bits /\ 0 <= i * 2 ^ bits) by nia.
  split_and!.
  - assert (i = 0 \/ i = 1 \/ i = 2) as [->|[->| ->]] by lia; rewrite ?Z.mul_0_l, ?Z.mul_1_l, ?Z.add_0_r; done.
  - split; [eapply region_ok_sub; [exact Hreg|..]|]; cbn [bufferPtr buf_length]; lia.
  - done.
  - unfold disjoint. cbn. lia.
Qed.
End Ready.

(** C7. The life of a publication, over a log that the driver has made. Adding it sends the
    command and remembers its id; until the driver answers, looking for it finds nothing, and
    reports a timeout once the driver's time is over. When the driver answers, its log is
    mapped, the user is told, and the next look creates the publication with the ids of the
    answer, at the position of its log and satisfying the invariant that its operations rely
    on; every further look returns that same publication. *)
Theorem publication_lifecycle cf ch stream t0 ps id m m1 c :
  driverActive c = true -> holds (pubs c) ps -> NoDup (ps_regID <$> ps) -> ~ id ∈ (ps_regID <$> ps) ->
  dp_AddPublication (driverProxy cf) ch stream m = Ret (id, None) m1 ->
  exists c1,
    Conductor.AddPublication cf ch stream t0 (m, c) = Ret (id, None) (m1, c1) /\
   (forall now, FindPublication cf id now (m1, c1) = Ret (None, timeoutExceeded cf t0 now) (m1, c1)) /\
   forall session limit status name orig log bits tc off t1 t2,
      log_file cf m1 name log bits tc off -> counter_slot cf m1 limit ->
      exists c2 c3 r pub,
        OnNewPublication cf stream session limit status name id orig (m1, c1) = Ret tt (m1, c2) /\
       calls c2 = calls c ++ (if onNewPublicationHandler cf then [CallNewPublication ch stream session id] else []) /\
       FindPublication cf id t1 (m1, c2) = Ret (Some r, None) (m1, c3) /\
       publications c3 !! r = Some pub /\
       pub_regID pub = id /\ pub_originalRegID pub = orig /\ pub_sessionID pub = session /\ pub_streamID pub = stream /\
       pub_ok m1 pub (log + 3 * 2 ^ bits) tc off /\ pubLimit pub = counter_position cf limit /\
       Publication_Position pub m1 = Ret (tc * 2 ^ bits + off) m1 /\
       FindPublication cf id t2 (m1, c3) = Ret (Some r, None) (m1, c3).
Proof.
  intros Hact Hs Hnd Hfresh Hadd.
  destruct (publication_life cf ch stream t0 ps id m m1 c) as (c1 & Hrun & Hwait & Hready); [done..|].
  exists c1. split; [done|]. split; [done|]. intros session limit status name orig log bits tc off t1 t2 Hlf Hlim.
  destruct (Hready session limit status name orig m1 (mapped log bits) (new_publication m1 log bits)
    (counter_position cf limit) t1 t2) as (c2 & c3 & r & Hon & Hcalls & Hfind & Hobj & Hagain).
  - by eapply logbuffer_Wrap_ok.
  - eapply NewPublication_new. by eapply log_ok_IncRef.
  - by apply NewPosition_ok.
  - assert (Hok := publication_of_ok cf m1 name log bits tc off Hlf
      (pub_registered (publicationStateDefn_Init ch id stream t0) orig session limit status (mapped log bits)) limit Hlim).
    eexists c2, c3, r, _. split_and!; [exact Hon|exact Hcalls|exact Hfind|exact Hobj|done..|exact Hok|done| |exact Hagain].
    erewrite Publication_Position_ok by exact Hok. done.
Qed.

(** C21. The life of an image, over a log that the driver has made. When the driver announces
    it for a subscription, the image is made over the mapped log and its position counter,
    satisfies the invariant that the polls rely on, joins the images of that subscription and
    no other, and the subscription's handler is told. When the driver says that it is gone it
    leaves the subscription, whose images are again the others, the handler is told, and the
    image lingers before its log is unmapped. *)
Theorem image_lifecycle cf ss i s r o stream session name source posID corr log bits tc off now m c :
  sub_at c ss i s r o -> log_file cf m name log bits tc off -> counter_slot cf m posID ->
  disjoint log (3 * 2 ^ bits) (bufferPtr (counterValuesBuffer cf) + posID * 128) 8 ->
  Forall (fun j => img_correlationID j <> corr) (sub_images (so_sub o)) ->
  (length (lingeringResources c) < 1024)%nat ->
  exists img c1 c2,
    OnAvailableImage cf stream session name source posID (ss_regID s) corr (m, c) = Ret tt (m, c1) /\
   img_ok m img /\ img_sessionID img = session /\ img_subscriberPosition img = counter_position cf posID /\
   subscriptions c1 = <[r := with_images o (sub_images (so_sub o) ++ [img])]> (subscriptions c) /\
   calls c1 = calls c ++ told (fun h => CallAvailableImage h img) (so_available o) /\
   OnUnavailableImage corr (ss_regID s) now (m, c1) = Ret tt (m, c2) /\
   subscriptions c2 = subscriptions c /\
   calls c2 = calls c1 ++ told (fun h => CallUnavailableImage h (Some img)) (so_unavailable o) /\
   lingeringResources c2 = lingeringResources c ++ [mkLinger now (RImage img)] /\
   pubs c2 = pubs c /\ subs c2 = subs c.
Proof.
  intros Hat Hlf Hpos Hd Huniq Hroom.
  pose proof (DefaultImageFactory_ok cf m name log bits tc off Hlf session corr (ss_regID s) posID Hpos) as Hfac.
  destruct (image_life cf ss i s r o stream session name source posID corr _ now m m c Hat Hfac Huniq Hroom)
    as (c1 & c2 & Hrun & Hsubs & Hcalls & Hun & Hrest).
  eexists _, c1, c2. split; [exact Hrun|]. split; [by eapply new_image_ok|]. by split_and!; [..|exact Hun|apply Hrest|apply Hrest|apply Hrest|apply Hrest|apply Hrest].
Qed.
