(* ===== verification/Examples.v ===== *)
(** * A concrete log

    A log with terms of 64 KB, an MTU of 1408 bytes and its first term active, in a
    megabyte of memory, with a publication, an image at position 0 and a message to send.
    The theorems with hypotheses are applied to it, so their hypotheses hold together. *)

From S2P Require Import Prelude Memory Bits Flyweight LogBuffer TermSpec Appender Reader.
From S2P Require Import FragmentAssembler Publication Vectored Image Stream Queue RingBuffer RingConcurrent.
From S2P Require Import Broadcast Counters ChannelUri Subscription.

Local Open Scope m_scope.

Module SmallLog.
Definition base : Z := 196608.
Definition hello : list Init.Byte.byte := [Byte.x68; Byte.x65; Byte.x6c; Byte.x6c; Byte.x6f].

Definition memory : mem :=
  wr (wr (wr (wr (wr (zero_mem 1048576)
    (base + 8) (le_split 8 (raw_tail (-2) 0)))
    (base + 16) (le_split 8 (raw_tail (-1) 0)))
    (base + 272) (le_split 4 1408))
    262144 (le_split 8 32768))
    327680 hello.

Definition logBuffers : LogBuffers := {|
  mmapFiles := [Some 0];
  lb_buffers := [mkBuffer 0 65536; mkBuffer 65536 65536; mkBuffer 131072 65536; mkBuffer base 4096];
  lb_meta := meta_layout base;
  refCount := 0 |}.

Definition source : Buffer := mkBuffer 327680 4096.
Definition limit : Position := mkPosition (mkBuffer 262144 4096) 0 0.
Definition subscriberPosition : Position := mkPosition (mkBuffer 262144 4096) 1 128.

Definition publication : Publication := set_limit (new_publication memory 0 16) limit.
Definition appender : Appender := part_appender memory 0 16 0.
Definition img : image := {|
  img_logBuffers := logBuffers;
  img_termBuffers := [mkBuffer 0 65536; mkBuffer 65536 65536; mkBuffer 131072 65536];
  img_subscriberPosition := subscriberPosition;
  img_header := mkHeader (mkBuffer 0 0) 0 0 16;
  img_isClosed := false; img_isEos := false;
  img_termLengthMask := 65535; img_positionBitsToShift := 16;
  img_sessionID := 0; img_finalPosition := 0; img_subscriptionRegistrationID := 0;
  img_correlationID := 0 |}.

Lemma region a n : 0 <= a -> 0 <= n -> a + n <= 1048576 -> region_ok memory a n.
Proof. intros. unfold memory. do 5 apply region_ok_wr. apply region_ok_zero; lia. Qed.

Lemma log_buffer_ok a n : 0 <= a -> 0 <= n -> a + n <= 1048576 -> buf_ok memory (mkBuffer a n).
Proof. intros. split; [by apply region|]. simpl. lia. Qed.

Lemma lookup_zero i : 0 <= i < base -> memory !! i = Some Byte.x00.
Proof.
  unfold base. intros. unfold memory, base.
  rewrite !wr_lookup_ne by (rewrite ?zlen_le_split; unfold zlen; simpl; lia).
  apply zero_mem_lookup. lia.
Qed.

Lemma ints :
  rd_i32 memory (base + 264) = 0 /\ rd_i32 memory (base + 24) = 0 /\
  rd_i32 memory (base + 272) = 1408 /\ rd_i64 memory base = 0 /\
  rd_i64 memory (base + 8) = raw_tail (-2) 0 /\ rd_i64 memory (base + 16) = raw_tail (-1) 0 /\
  rd_i64 memory 262144 = 32768 /\ rd_i64 memory 262272 = 0.
Proof.
  assert (zlen hello = 5) by done. unfold memory, base. unfold raw_tail.
  split_and!; mem_simpl; rewrite ?rd_i32_zero, ?rd_i64_zero; done.
Qed.

#[local] Opaque memory.

Lemma log : log_ok memory logBuffers 0 16 0 0.
Proof.
  destruct ints as (H1 & H2 & H3 & H4 & H5 & H6 & _ & _).
  change (0 + 3 * 2 ^ 16) with base in *.
  constructor; change (0 + 3 * 2 ^ 16) with base; unfold tail_addr;
    change (base + 8 * (0 mod 3)) with base.
  - lia.
  - apply region; vm_compute; congruence.
  - reflexivity.
  - reflexivity.
  - lia.
  - constructor; unfold tail_addr; change (base + 8 * (0 mod 3)) with base;
      change (base + 8 * ((0 + 1) mod 3)) with (base + 8);
      change (base + 8 * ((0 + 2) mod 3)) with (base + 16); rewrite ?H1, ?H2, ?H4, ?H5, ?H6.
    + apply region; vm_compute; congruence.
    + reflexivity.
    + reflexivity.
    + reflexivity.
    + reflexivity.
    + reflexivity.
  - rewrite H4, H1. reflexivity.
  - split; [lia|reflexivity].
  - rewrite H3. split; [lia|reflexivity].
Qed.

Lemma publication_ok : pub_ok memory publication base 0 0.
Proof. apply (new_publication_ok memory logBuffers 0 16 0 0 log limit); [by apply log_buffer_ok|done..]. Qed.

Lemma holds : term_holds memory publication base 0 appender [].
Proof.
  constructor; [exact publication_ok|reflexivity|exact I| |].
  2: { vm_compute. congruence. }
  intros i Hi. apply lookup_zero. unfold base.
  change (bufferPtr (termBuffer appender)) with 0 in Hi.
  change (term_length publication) with 65536 in Hi. cbn [seg_space] in Hi. lia.
Qed.

Lemma source_is_ok len : 0 <= len <= 4096 -> src_ok memory appender source 0 len.
Proof.
  intros. constructor; [by apply log_buffer_ok|lia|lia|cbn; lia|..];
    unfold disjoint; cbn; unfold tail_addr; lia.
Qed.

Lemma image_ok : img_ok memory img.
Proof.
  constructor; [reflexivity|cbn; lia|reflexivity|..].
  - intros i Hi. assert (i = 0 \/ i = 1 \/ i = 2) as [->|[->| ->]] by lia;
      (eexists; split; [reflexivity|]; split; [by apply log_buffer_ok|split; [done|unfold disjoint; cbn; lia]]).
  - split; [by apply log_buffer_ok|cbn; lia].
Qed.

Lemma supplier_ok : supplier_reads (supplier_or_default None).
Proof. intros b off len m. by exists 0. Qed.

Lemma app_is : active_app publication 0 = Some appender.
Proof. reflexivity. Qed.

Lemma limit_is : limit_val memory publication = 32768.
Proof. apply ints. Qed.

Lemma term_is : term_length publication = 65536.
Proof. reflexivity. Qed.

Lemma max_message_is : maxMessageLength publication = 8192.
Proof. reflexivity. Qed.

Lemma payload_is : maxPayloadLength publication = 1376.
Proof.
  destruct ints as (_ & _ & H & _). unfold publication, set_limit, new_publication.
  cbn [maxPayloadLength]. change (0 + 3 * 2 ^ 16) with base. by rewrite H.
Qed.

(** A message of five bytes takes one frame of 64 bytes. *)
Lemma five_bytes tid data : zlen data = 5 -> seg_space (msg_frames publication appender tid data) = 64.
Proof.
  intros Hz. unfold msg_frames. rewrite Hz, payload_is. change (5 <=? 1376) with true.
  cbv iota. unfold app_frames, data_frames. cbn [map fst snd seg_space].
  unfold frame_space, frame_length. cbn [fr_data]. by rewrite Hz.
Qed.
End SmallLog.

(** ** Publications at work *)

Module PublicationWitnesses.
Import SmallLog.
#[local] Opaque memory.

Lemma Offer_contract_witness :
  exists m', Offer publication source 0 5 None memory = Ret 64 m' /\ pub_ok m' publication base 0 64.
Proof.
  pose proof (Offer_contract memory publication base 0 0 appender source 0 5 None publication_ok
    app_is ltac:(lia) ltac:(rewrite term_is; lia) (source_is_ok 5 ltac:(lia)) supplier_ok
    ltac:(rewrite max_message_is; lia)) as H.
  cbv zeta in H. rewrite limit_is, five_bytes in H by (apply zlen_message; lia).
  rewrite term_is, decide_False, decide_True in H by lia.
  destruct H as (m' & Hrun & Hp & _). exists m'. exact (conj Hrun Hp).
Defined.

Lemma Offer_refused_witness :
  Offer publication source 0 10000 None memory
  = Exc (EPanic "Encoded message exceeds maxMessageLength") memory.
Proof.
  apply (Offer_refused (fun _ s => Ret (None : option unit) (s : unit)) memory publication base 0 0
           source 0 10000 None tt None tt publication_ok).
  - rewrite term_is, limit_is. lia.
  - rewrite payload_is. lia.
  - rewrite max_message_is. lia.
  - reflexivity.
Defined.

Lemma TryClaim_commit_abort_witness :
  exists claim m1, TryClaim publication 5 memory = Ret (64, Some claim) m1 /\
    pub_ok m1 publication base 0 64.
Proof.
  destruct (TryClaim_commit_abort memory publication base 0 0 appender hello publication_ok app_is)
    as (claim & m1 & m2 & mc & ma & Hrun & Hp & _).
  - unfold hello. congruence.
  - rewrite payload_is. change (zlen hello) with 5. lia.
  - rewrite term_is, limit_is. lia.
  - rewrite term_is. change (align_up (zlen hello + 32) 32) with 64. lia.
  - exists claim, m1. exact (conj Hrun Hp).
Defined.

Lemma NewPublication_ok_witness :
  exists pub, NewPublication logBuffers memory = Ret pub memory /\
    Publication_Position (set_limit pub limit) memory = Ret 0 memory.
Proof.
  destruct (NewPublication_ok memory logBuffers 0 16 0 0 limit log) as (pub & Hrun & _ & Hpos & _).
  - apply log_buffer_ok; lia.
  - cbn. lia.
  - cbn. lia.
  - exists pub. exact (conj Hrun Hpos).
Defined.
End PublicationWitnesses.

(** ** A message on its way *)

Module StreamWitnesses.
Import SmallLog.
#[local] Opaque memory.

Lemma offer_one pub sup b o len m r m' :
  Offer pub b o len sup m = Ret r m' -> offer_all pub sup [(b, o, len)] m = Ret [r] m'.
Proof. intros Hrun. cbn [offer_all]. by erewrite bind_Ret by exact Hrun. Qed.

Definition msg : list Init.Byte.byte := message memory source 0 5.
Definition frames : list frame := msg_frames publication appender (active_term publication 0) msg.

Lemma msg_length : zlen msg = 5.
Proof. apply zlen_message. lia. Qed.

Lemma frames_space : seg_space frames = 64.
Proof. apply five_bytes, msg_length. Qed.

(** The memory after the message was offered: the image is where it was. *)
Lemma sent : exists m',
  Offer publication source 0 5 None memory = Ret 64 m' /\
  term_holds m' publication base 0 appender frames /\ img_ok m' img /\ pos_val m' img = 0.
Proof.
  destruct (Offer_fits memory publication base 0 0 publication_ok appender app_is source 0 5 None)
    as (m' & Hrun & _); [apply source_is_ok; lia|exact supplier_ok| | | |].
  - rewrite max_message_is. lia.
  - rewrite term_is, limit_is. lia.
  - fold msg. fold frames. rewrite frames_space, term_is. lia.
  - fold msg in Hrun. fold frames in Hrun. rewrite frames_space in Hrun.
    destruct (Offer_extends memory publication base 0 appender [] holds ltac:(lia) source 0 5 None _ m'
                (source_is_ok 5 ltac:(lia)) supplier_ok ltac:(rewrite max_message_is; lia) Hrun)
      as (_ & Hth & Ho & Hk); [rewrite term_is; lia|].
    exists m'. split; [exact Hrun|]. split; [exact Hth|]. split.
    + eapply img_ok_keeps; [exact Hk|exact image_ok].
    + transitivity (pos_val memory img); [|apply ints]. unfold pos_val, rd_i64.
      erewrite (only_in2_rd memory m'); [reflexivity|exact Ho|..];
        unfold disjoint, pos_addr; cbn; unfold tail_addr; lia.
Qed.

Lemma offers_are_delivered_witness :
  exists m' n header bm',
    offer_all publication None [(source, 0, 5)] memory = Ret [64] m' /\
    image_Poll img (OnFragment recorder) 10 (m', (∅, [])) =
    Ret (n, set_header img header)
      (moved m' img 64, (bm', [(hw_sessionID (app_headerWriter appender), msg)])).
Proof.
  destruct sent as (m' & Hrun & Hth & Himg & Hpos). pose proof Hth as [Hp _ _ _ _].
  pose proof (offer_one publication None source 0 5 _ _ _ Hrun) as Hall.
  destruct (offers_are_delivered memory publication base 0 appender [] [(source, 0, 5)] None [64] m' img ∅ 10)
    as (n & header & bm' & position & Hpoll & Hposition).
  - lia.
  - exact supplier_ok.
  - exact holds.
  - rewrite term_is. cbn. lia.
  - constructor; [|constructor]. split; [apply source_is_ok; lia|rewrite max_message_is; lia].
  - exact Hall.
  - constructor; [lia|constructor].
  - exact Himg.
  - reflexivity.
  - rewrite Hpos, term_is. reflexivity.
  - unfold all_frames. cbn [map concat src_message]. fold msg. fold frames. rewrite app_nil_r.
    unfold frames, msg_frames. rewrite msg_length, payload_is. change (5 <=? 1376) with true. cbv iota.
    unfold zlen. cbn. lia.
  - rewrite (Publication_Position_ok _ _ _ _ _ Hp), term_is, frames_space in Hposition.
    injection Hposition as <-. exists m', n, header, bm'. split; [exact Hall|exact Hpoll].
Defined.

(** Handlers that count, and what the image's term holds for them; the controlled one adds the
    position that it finds committed. *)
Definition count : FragmentHandler Z := fun _ _ _ _ '(m, u) => Ret tt (m, u + 1).
Definition ccount : ControlledFragmentHandler Z :=
  fun _ _ _ _ '(m, u) => Ret ControlledPollActionCommit (m, u + 1 + pos_val m img).

Lemma sent_term : exists m',
  img_ok m' img /\ pos_val m' img = 0 /\ log_seg m' 0 0 frames /\
  seg_end m' (mkBuffer 0 65536) (0 + seg_space frames) /\ 0 + seg_space frames <= img_T img.
Proof.
  destruct sent as (m' & _ & Hth & Himg & Hpos). exists m'.
  split; [exact Himg|]. split; [exact Hpos|]. split; [exact (th_seg _ _ _ _ _ _ Hth)|].
  split; [|rewrite frames_space; change (img_T img) with 65536; lia].
  exact (term_holds_end _ _ _ _ _ _ Hth).
Qed.

Lemma one_frame : exists f, frames = [f] /\ is_padding f = false.
Proof.
  eexists. unfold frames, msg_frames. rewrite msg_length, payload_is. split; reflexivity.
Qed.

Lemma walk_frames {U} (h : Z -> frame -> U -> U) limit u :
  64 <= limit -> exists f, walk h limit 10 0 0 frames u = (64, 1, h 0 f u).
Proof.
  intros Hl. destruct one_frame as (f & Hf & Hp). pose proof frames_space as Hs. rewrite Hf in *.
  cbn [seg_space] in Hs. rewrite Z.add_0_r in Hs. exists f. cbn [walk].
  rewrite (proj2 (Z.ltb_lt 0 limit)), Hp, Hs by lia. reflexivity.
Qed.

Lemma Poll_walks_witness :
  exists m' header,
    image_Poll img count 10 (m', 0) = Ret (1, set_header img header) (moved m' img 64, 1).
Proof.
  destruct sent_term as (m' & Himg & Hpos & Hseg & Hend & Hfit).
  destruct (Poll_walks (fun _ _ u => u + 1) m' img 0 0 (mkBuffer 0 65536) frames count 10 0 Himg)
    as (header & off' & n & u' & Hw & Hrun).
  - lia.
  - change (img_T img) with 65536. lia.
  - rewrite Hpos. reflexivity.
  - reflexivity.
  - exact Hseg.
  - exact Hend.
  - exact Hfit.
  - intros off f u h _ _ _ _. reflexivity.
  - destruct (walk_frames (fun _ _ u => u + 1) (img_T img) 0) as [f Hf]; [change (img_T img) with 65536; lia|].
    rewrite Hf in Hw. injection Hw as <- <- <-. exists m', header. exact Hrun.
Defined.

Lemma BoundedPoll_walks_witness :
  exists m' header,
    image_BoundedPoll img count 64 10 (m', 0) = Ret (1, set_header img header) (moved m' img 64, 1).
Proof.
  destruct sent_term as (m' & Himg & Hpos & Hseg & Hend & Hfit).
  destruct (BoundedPoll_walks (fun _ _ u => u + 1) m' img 0 0 (mkBuffer 0 65536) frames count 64 10 0 Himg)
    as (header & off' & n & u' & Hw & Hrun).
  - lia.
  - change (img_T img) with 65536. lia.
  - rewrite Hpos. reflexivity.
  - reflexivity.
  - exact Hseg.
  - exact Hend.
  - exact Hfit.
  - intros off f u h _ _ _ _. reflexivity.
  - rewrite Hpos. change (img_T img) with 65536. lia.
  - change (Z.min (img_T img) (64 - 0 * img_T img)) with 64 in Hw.
    destruct (walk_frames (fun _ _ u => u + 1) 64 0) as [f Hf]; [lia|].
    rewrite Hf in Hw. injection Hw as <- <- <-. exists m', header. exact Hrun.
Defined.

Lemma ControlledPoll_obeys_witness :
  exists m1 m2 header n u,
    image_ControlledPoll img ccount 10 (m1, 0) = Ret (n, set_header img header) (m2, u).
Proof.
  destruct sent_term as (m' & Himg & Hpos & Hseg & Hend & Hfit).
  destruct (ControlledPoll_obeys (fun p _ _ u => (ControlledPollActionCommit, u + 1 + p)) m' img 0 0
              (mkBuffer 0 65536) frames ccount 10 0 Himg) as (header & m2 & off' & n & u' & _ & Hrun & _).
  - lia.
  - reflexivity.
  - intros m'' off f u h _ _ _ _ _. reflexivity.
  - change (img_T img) with 65536. lia.
  - rewrite Hpos. reflexivity.
  - exact Hseg.
  - exact Hend.
  - exact Hfit.
  - exists m', m2, header, n, u'. exact Hrun.
Defined.

Lemma BoundedPoll_far_limit_witness :
  exists m' header,
    image_BoundedPoll img count 9223372036854775807 10 (m', 0) = Ret (0, set_header img header) (m', 0).
Proof.
  destruct sent_term as (m' & Himg & Hpos & _).
  destruct (BoundedPoll_far_limit m' img 0 (mkBuffer 0 65536) count 10 0 Himg) as [header Hrun].
  - change (img_T img) with 65536. lia.
  - exact Hpos.
  - reflexivity.
  - exists m', header. exact Hrun.
Defined.
End StreamWitnesses.

(** ** The log as a queue *)

Module QueueWitnesses.
Import SmallLog.
#[local] Opaque memory.

(** The message in two parts. *)
Definition parts : sources := mkSources source 0 2 source 2 3.

Lemma part_one_ok : src_ok memory appender (one_buf parts) (one_off parts) (one_len parts).
Proof. apply (source_is_ok 2). lia. Qed.

Lemma part_two_ok : src_ok memory appender (two_buf parts) (two_off parts) (two_len parts).
Proof.
  destruct (source_is_ok 5 ltac:(lia)) as [? ? ? ? ? ?]. constructor; try assumption; cbn in *; lia.
Qed.

Lemma parts_in_a_row : message memory source 0 5 = message2 memory parts.
Proof. unfold message2, message. cbn. apply (rd_app memory 327680 2 3). Qed.

Lemma Offer2_is_Offer_witness :
  Offer2 publication source 0 2 source 2 3 None memory = Offer publication source 0 5 None memory.
Proof.
  apply (Offer2_is_Offer memory publication base 0 0 appender parts source 0 None publication_ok app_is
           part_one_ok part_two_ok (source_is_ok 5 ltac:(lia)) parts_in_a_row supplier_ok).
Defined.

Definition session : Z := hw_sessionID (app_headerWriter appender).

Lemma log_shared : same_log publication base img session.
Proof.
  constructor.
  - reflexivity.
  - intros i app Hi Ha. assert (i = 0 \/ i = 1 \/ i = 2) as [->|[->| ->]] by lia;
      injection Ha as <-; split; reflexivity.
  - intros i j a1 a2 Hi Hj Hne H1 H2. rewrite term_is. unfold disjoint.
    assert (i = 0 \/ i = 1 \/ i = 2) as [->|[->| ->]] by lia; injection H1 as <-;
      assert (j = 0 \/ j = 1 \/ j = 2) as [->|[->| ->]] by lia; try lia; injection H2 as <-; cbn; lia.
  - unfold disjoint, pos_addr, base. cbn. lia.
Qed.

Definition start : config := mkConfig memory img (∅, []).

Lemma start_count : term_count_of (c_mem start) base = 0.
Proof. destruct ints as (_ & Hc & _). exact Hc. Qed.

Lemma start_ok : queue_start publication base session start.
Proof.
  constructor; [exact image_ok|exact log_shared| |reflexivity].
  exists 0, appender, []. split; [exact holds|]. rewrite term_is. apply ints.
Qed.

(** The driver's part, as long as the first term is the active one and its tail and the terms
    behind it are all that changed. *)
Lemma driver_does m' s :
  (forall i, ~ (0 <= i < 65536) -> ~ (base <= i < base + 8) -> m' !! i = memory !! i) ->
  driver_ok publication base (mkConfig m' img s).
Proof.
  intros Ho. destruct ints as (_ & Hc & _ & _ & _ & _ & Hl & Hp).
  assert (Hrd : forall a n, 65536 <= a -> a + Z.of_nat n <= base \/ base + 8 <= a -> rd m' a n = rd memory a n).
  { intros a n Ha Hb. apply rd_ext. intros i Hi. apply Ho; lia. }
  assert (Hcount : term_count_of m' base = 0).
  { unfold term_count_of, rd_i32. rewrite Hrd by (unfold base; lia). exact Hc. }
  assert (Hpos : pos_val m' img = 0).
  { unfold pos_val, pos_addr, rd_i64. cbn. rewrite Hrd by (unfold base; lia). exact Hp. }
  assert (Hlim : limit_val m' publication = 32768).
  { unfold limit_val, rd_i64. cbn [publication set_limit pubLimit limit pos_buffer pos_offset bufferPtr].
    rewrite Hrd by (unfold base; lia). exact Hl. }
  constructor; cbn [c_mem c_img]; rewrite ?Hcount, ?Hpos, ?term_is.
  - rewrite Hlim. change (65536 / 2) with 32768. lia.
  - intros _ i Hi. change (term_addr publication (0 + 1)) with 65536 in Hi.
    rewrite Ho by (unfold base; lia). apply lookup_zero. unfold base. lia.
  - lia.
Qed.

Lemma offer_in_parts : offer_of publication memory appender (message2 memory parts)
  (Offer2 publication source 0 2 source 2 3 None).
Proof.
  apply (offer_two publication memory appender parts None part_one_ok part_two_ok supplier_ok).
  rewrite max_message_is. cbn. lia.
Qed.

Lemma message_length : zlen (message2 memory parts) = 5.
Proof. destruct (zlen_message2 memory appender parts part_one_ok part_two_ok) as (-> & _ & _). reflexivity. Qed.

(** The message is offered in two parts, and taken. *)
Lemma offered_in_parts : exists m',
  Offer2 publication source 0 2 source 2 3 None memory = Ret 64 m' /\
  queue_run publication base start [Offered (message2 memory parts) 64] (mkConfig m' img (∅, [])) /\
  driver_ok publication base (mkConfig m' img (∅, [])).
Proof.
  pose proof (Offer2_does memory publication base 0 0 publication_ok appender app_is parts None
    part_one_ok part_two_ok supplier_ok ltac:(lia) ltac:(rewrite term_is; lia)
    ltac:(rewrite max_message_is; cbn; lia)) as H.
  unfold offer_does in H. rewrite limit_is, term_is, five_bytes in H by exact message_length.
  rewrite decide_False, decide_True in H by lia. destruct H as (m' & Hrun & Hp & Hap).
  exists m'. split; [exact Hrun|].
  destruct (appended_extends memory publication base 0 appender [] holds ltac:(lia) m'
    (msg_frames publication appender (active_term publication 0) (message2 memory parts))) as (_ & Ho & _);
    cbn [seg_space]; rewrite ?five_bytes by exact message_length; [exact Hp|exact Hap|rewrite term_is; lia|].
  split.
  - apply (run_step _ _ _ [] start _ _ (run_start _ _ _)).
    apply (step_offer publication base start appender _ (Offer2 publication source 0 2 source 2 3 None) 64 m').
    + apply driver_does. reflexivity.
    + rewrite start_count. reflexivity.
    + exact offer_in_parts.
    + exact Hrun.
  - apply driver_does. intros i H1 H2. apply Ho; unfold base in H2; cbn; unfold tail_addr; lia.
Qed.

Lemma log_is_queue_witness : exists c n later,
  queue_run publication base start [Offered (message2 memory parts) 64; Polled n] c /\
  [(session, message2 memory parts)] = rev (c_asm c).2 ++ later.
Proof.
  destruct offered_in_parts as (m' & _ & Hrun & Hdr).
  destruct (queue_run_inv _ _ _ _ _ _ start_ok Hrun) as [Hinv _].
  destruct (poll_step _ _ _ _ _ 10 Hdr Hinv) as (n & img' & m1 & s1 & Hpoll & _).
  pose proof (run_step _ _ _ _ _ _ _ Hrun (step_poll _ _ _ _ _ _ _ _ Hdr Hpoll)) as Hrun'.
  destruct (log_is_queue publication base session start _ _ start_ok Hrun') as [[later Hl] _].
  eexists _, n, later. split; [exact Hrun'|exact Hl].
Defined.

Lemma log_goes_on_witness :
  exists r m', Offer2 publication source 0 2 source 2 3 None memory = Ret r m' /\ r <> 0.
Proof.
  destruct (log_goes_on publication base session start [] start appender (message2 memory parts) (Offer2 publication source 0 2 source 2 3 None) 10 start_ok
              (run_start _ _ _)) as [H _].
  - apply driver_does. reflexivity.
  - rewrite start_count. reflexivity.
  - exact offer_in_parts.
  - lia.
  - exact H.
Defined.

Lemma publication_is_channel_witness : exists es c,
  queue_run publication base start es c /\ accepted es = [message2 memory parts] /\
  channel_offers (offers es).*1 (mkChannel (map answer_of (offers es).*2) []) =
    Ret (offers es).*2 (mkChannel [] (accepted es)).
Proof.
  destruct offered_in_parts as (m' & _ & Hrun & _). eexists _, _. split; [exact Hrun|].
  split; [reflexivity|].
  apply (publication_is_channel publication base session start _ _ start_ok Hrun).
Defined.
End QueueWitnesses.

(** ** The ring buffer *)

Module RingWitnesses.
(** An empty ring of 64 bytes, and a source of bytes. *)
Definition memory : mem := zero_mem 4096.
Definition ring : ManyToOne := mkManyToOne (mkBuffer 0 832) 64 8 448 320 192 576 704.

Lemma ring_buffer_ok a n : 0 <= a -> 0 <= n -> a + n <= 4096 -> buf_ok memory (mkBuffer a n).
Proof. intros. split; [apply region_ok_zero; cbn; lia|cbn; lia]. Qed.

Lemma ring_ok : rb_ok memory ring 0 0 0.
Proof.
  constructor; [apply ring_buffer_ok; lia|exists 6; split; [lia|reflexivity]|..];
    first [reflexivity | apply rd_i64_zero; cbn; lia | cbn; lia | split; reflexivity].
Qed.

Lemma Write_appends_witness :
  exists m', ManyToOne_Write ring 1 (mkBuffer 2048 64) 0 5 memory = Ret true m'.
Proof.
  destruct (Write_appends memory ring 0 0 0 [] 1 (mkBuffer 2048 64) 0 5 ring_ok) as (m' & hc & Hrun & _).
  - cbn. lia.
  - exact I.
  - reflexivity.
  - lia.
  - cbn. lia.
  - apply ring_buffer_ok; lia.
  - lia.
  - cbn. lia.
  - unfold disjoint. cbn. lia.
  - exists m'. exact Hrun.
Defined.

Lemma Write_refuses_witness : exists e, ManyToOne_Write ring 0 (mkBuffer 2048 64) 0 5 memory = Exc e memory.
Proof.
  destruct (Write_refuses memory ring 0 0 0 0 (mkBuffer 2048 64) 0 5 ring_ok) as [H _]. apply H. lia.
Defined.

(** Two producers claim one after the other. *)
Lemma two_claims : exists ps,
  reachable 64 2 (mkSystem (mkCounters 32 0 0) ps [mkClaim' 16 16 0; mkClaim' 0 16 0]).
Proof.
  eexists.
  eapply reach_step; [|apply (step_producer 64 (mkSystem (mkCounters 16 0 0) [PClaimed 16 0 0; PSwap 16 16 0 0] [mkClaim' 0 16 0]) 1 (PSwap 16 16 0 0) eq_refl); unfold timely; cbn; lia].
  eapply reach_step; [|apply (step_producer 64 (mkSystem (mkCounters 16 0 0) [PClaimed 16 0 0; PTail 16 0] [mkClaim' 0 16 0]) 1 (PTail 16 0) eq_refl); unfold timely; cbn; lia].
  eapply reach_step; [|apply (step_producer 64 (mkSystem (mkCounters 16 0 0) [PClaimed 16 0 0; PStart 16] [mkClaim' 0 16 0]) 1 (PStart 16) eq_refl); unfold timely; cbn; lia].
  eapply reach_step; [|apply (step_next 64 (mkSystem (mkCounters 16 0 0) [PClaimed 16 0 0; PFailed 0] [mkClaim' 0 16 0]) 1 (PFailed 0) 16 eq_refl I); lia].
  eapply reach_step; [|apply (step_producer 64 (mkSystem (mkCounters 0 0 0) [PSwap 16 0 0 0; PFailed 0] []) 0 (PSwap 16 0 0 0) eq_refl); unfold timely; cbn; lia].
  eapply reach_step; [|apply (step_producer 64 (mkSystem (mkCounters 0 0 0) [PTail 16 0; PFailed 0] []) 0 (PTail 16 0) eq_refl); unfold timely; cbn; lia].
  eapply reach_step; [|apply (step_producer 64 (mkSystem (mkCounters 0 0 0) [PStart 16; PFailed 0] []) 0 (PStart 16) eq_refl); unfold timely; cbn; lia].
  eapply reach_step; [|apply (step_next 64 (mkSystem (mkCounters 0 0 0) [PFailed 0; PFailed 0] []) 0 (PFailed 0) 16 eq_refl I); lia].
  apply (reach_init 64 2).
Qed.

Lemma claims_apart_witness : ~ (owns 64 (mkClaim' 16 16 0) 20 /\ owns 64 (mkClaim' 0 16 0) 20).
Proof.
  destruct two_claims as [ps H].
  assert (Hpow : exists e, 0 <= e <= 30 /\ 64 = 2 ^ e) by (exists 6; split; [lia|reflexivity]).
  apply (claims_apart 64 2 _ 0 1 _ _ 20 Hpow H eq_refl eq_refl ltac:(lia)); cbn; lia.
Defined.

Lemma run_alone_spec_witness :
  exists cache', run_alone 64 7 (PStart 16) (mkCounters 56 40 0)
    = (PClaimed 16 56 8, mkCounters 80 40 cache').
Proof. apply (run_alone_spec 64 16 56 40 0); [exists 6; split; [lia|reflexivity]|lia..]. Defined.
End RingWitnesses.

(** ** The broadcast buffer *)

Module BroadcastWitnesses.
Definition hello : list Init.Byte.byte := [Byte.x68; Byte.x65; Byte.x6c; Byte.x6c; Byte.x6f].

(** A buffer of 64 bytes with the message at position [pos], the tail behind it. *)
Definition memory (pos : Z) : mem :=
  wr (wr (wr (wr (wr (wr (zero_mem 4096)
    0 (le_split 4 13)) 4 (le_split 4 1)) 8 hello)
    64 (le_split 8 (pos + 16))) 72 (le_split 8 (pos + 16))) 80 (le_split 8 pos).
Definition receiver : Receiver := mkReceiver (mkBuffer 0 192) 64 63 64 72 80 0 0 0 0.
Definition scratch : Buffer := mkBuffer 1024 64.
Definition drop_it : Handler unit := fun _ _ _ _ s => Ret tt s.

Lemma bcast_buffer_ok pos a n : 0 <= a -> 0 <= n -> a + n <= 4096 -> buf_ok (memory pos) (mkBuffer a n).
Proof.
  intros. split; [|cbn; lia]. unfold memory. do 6 apply region_ok_wr. apply region_ok_zero; cbn; lia.
Qed.

Lemma receiver_ok pos : 0 <= pos < 1024 -> bc_ok (memory pos) receiver (pos + 16) (pos + 16).
Proof.
  intros Hp. assert (zlen hello = 5) by done.
  constructor; [apply bcast_buffer_ok; lia|exists 6; split; [lia|reflexivity]|reflexivity..| | |cbn; lia];
    cbn; unfold memory; mem_simpl; reflexivity.
Qed.

Lemma has_message pos : 0 <= pos < 1024 -> pos mod 64 = 0 -> ring_seg (memory pos) 0 64 pos [Msg 1 hello].
Proof.
  intros Hp Hm. assert (zlen hello = 5) by done. cbn [ring_seg]. rewrite Hm.
  split; [vm_compute; congruence|]. split; [vm_compute; congruence|]. split; [|exact I].
  unfold memory. split_and!.
  - mem_simpl. reflexivity.
  - mem_simpl. reflexivity.
  - mem_simpl. rewrite rd_wr_same; reflexivity.
Qed.

Lemma Receive_delivers_witness :
  CopyReceiver_Receive (mkCopyReceiver receiver scratch) drop_it (memory 0, tt) =
  Ret (1, mkCopyReceiver (at_record receiver 0 hello) scratch) (wr (memory 0) 1024 hello, tt).
Proof.
  apply (Receive_delivers (memory 0) receiver 16 16 scratch drop_it tt 1 hello []).
  - apply (receiver_ok 0). lia.
  - apply bcast_buffer_ok; lia.
  - unfold disjoint. cbn. lia.
  - cbn. lia.
  - cbn. lia.
  - lia.
  - left. reflexivity.
  - apply (has_message 0); [lia|reflexivity].
  - vm_compute. congruence.
Defined.

Lemma Validate_means_intact_witness : entry_at (memory 0) 0 (Msg 1 hello).
Proof.
  apply (Validate_means_intact (memory 0) (memory 0) receiver 16 16 0 1 hello).
  - apply (receiver_ok 0). lia.
  - lia.
  - apply (has_message 0); [lia|reflexivity].
  - intros i _ _. reflexivity.
  - change (Validate (at_record receiver 0 hello)) with (validate receiver 0).
    apply (validate_ok (memory 0) receiver 16 16 (receiver_ok 0 ltac:(lia)) 0). lia.
Defined.

Lemma Receive_lapped_stops_witness :
  CopyReceiver_Receive (mkCopyReceiver receiver scratch) drop_it (memory 64, tt) =
  Exc (EPanic "Unable to keep up with broadcast buffer") (memory 64, tt).
Proof.
  apply (Receive_lapped_stops (memory 64) receiver 80 80 scratch drop_it tt 1 hello 64).
  - apply (receiver_ok 64). lia.
  - cbn. lia.
  - cbn. lia.
  - lia.
  - cbn. unfold memory. apply rd_i64_wr. unfold is_i64. lia.
  - lia.
  - apply (has_message 64); [lia|reflexivity].
  - cbn. lia.
Defined.
End BroadcastWitnesses.

(** ** Counters *)

Module CounterWitnesses.
(** Two counter records, the first allocated with type 7 and a key that claims to be as
    long as keys can be. *)
Definition memory : mem :=
  wr (wr (wr (zero_mem 4096) 0 (le_split 4 1)) 4 (le_split 4 7)) 16 (le_split 4 112).
Definition reader : Counters.Reader := mkReader (mkBuffer 0 1024) (mkBuffer 2048 256) 1.

Lemma ctr_buffer_ok a n : 0 <= a -> 0 <= n -> a + n <= 4096 -> buf_ok memory (mkBuffer a n).
Proof.
  intros. split; [|cbn; lia]. unfold memory. do 3 apply region_ok_wr. apply region_ok_zero; cbn; lia.
Qed.

Lemma reader_ok : ctr_ok memory reader 2.
Proof. constructor; cbn; try lia; apply ctr_buffer_ok; lia. Qed.

Lemma allocated : rec_status memory reader 0 = RecordAllocated.
Proof. unfold rec_status, memory. cbn. mem_simpl. reflexivity. Qed.

Lemma type_is : rec_type memory reader 0 = 7.
Proof. unfold rec_type, memory. cbn. mem_simpl. reflexivity. Qed.

Lemma label_is : rec_label_size memory reader 0 = 0.
Proof. unfold rec_label_size, memory. cbn. mem_simpl. apply rd_i32_zero; lia. Qed.

Lemma FindCounter_first_witness :
  exists c, FindCounter reader 7 None memory = Ret c memory /\ c = 0.
Proof.
  destruct (FindCounter_first memory reader 2 7 None (fun _ => true) reader_ok ltac:(intros id Hid; reflexivity))
    as (c & Hrun & [(Hc & _)|(_ & Hno)]).
  - exists c. split; [exact Hrun|lia].
  - exfalso. destruct (Hno 0) as (i & Hi & _); [lia|exact (conj allocated (conj type_is eq_refl))|lia].
Defined.

Lemma Scan_live_counters_witness :
  Scan reader (fun c '(m, u) => Ret tt (m, u ++ [c])) (memory, []) =
  Ret tt (memory, live_counters memory reader 0 2).
Proof.
  apply (Scan_live_counters memory reader 2 []); [exact reader_ok|].
  intros id Hid Hs. assert (id = 0 \/ id = 1) as [->| ->] by lia.
  - rewrite label_is. lia.
  - exfalso. revert Hs. unfold rec_status, memory. cbn. mem_simpl. rewrite rd_i32_zero by lia. discriminate.
Defined.

Lemma last_counter_unreachable_witness : GetCounterValue reader 1 memory = Ret 0 memory.
Proof. apply (last_counter_unreachable memory reader 2 reader_ok). Defined.

Lemma AtomicCounter_set_get_witness :
  exists ac m', NewAtomicCounter reader 0 = Some ac /\ AtomicCounter_Set ac 5 memory = Ret tt m' /\
    AtomicCounter_Get ac m' = Ret 5 m'.
Proof.
  destruct (AtomicCounter_set_get memory reader 2 0 5 reader_ok) as (ac & m' & H1 & H2 & H3 & _).
  - lia.
  - unfold is_i64. lia.
  - exists ac, m'. exact (conj H1 (conj H2 H3)).
Defined.

Lemma key_part_at_end_refused_witness :
  GetKeyPartInt32 reader 0 (MaxKeyLength - 4) memory = Ret (inr ErrKeyOffset) memory.
Proof. apply (key_part_at_end_refused memory reader 2 0 reader_ok). lia. Defined.

Lemma key_string_runs_over_witness :
  GetKeyPartString reader 0 0 memory = Ret (inl (rd memory 20 112)) memory.
Proof.
  apply (key_string_runs_over memory reader 2 0 reader_ok ltac:(lia) allocated).
  unfold memory. cbn. change MaxKeyLength with 112. apply rd_i32_wr. unfold is_i32. lia.
Defined.
End CounterWitnesses.

(** ** The log *)

Module LogWitnesses.
Import SmallLog.
#[local] Opaque memory.

Lemma RotateLog_next_term_witness :
  exists m', RotateLog (meta_layout base) 0 0 memory = Ret tt m' /\ log_inv m' base 0 1.
Proof.
  assert (Hl : log_inv memory base 0 0).
  { pose proof (lo_inv _ _ _ _ _ _ log) as H. cbv zeta in H. change (0 + 3 * 2 ^ 16) with base in H.
    destruct ints as (H1 & _). rewrite H1 in H. exact H. }
  destruct (RotateLog_next_term memory base 0 0 Hl ltac:(lia)) as (m' & Hrun & Hl' & _).
  exists m'. exact (conj Hrun Hl').
Defined.

Lemma Memcpy_copies_witness :
  exists m', Memcpy 0 100 13 (zero_mem 200) = Ret tt m'.
Proof.
  destruct (Memcpy_copies (zero_mem 200) 0 100 13) as (m' & Hrun & _).
  - apply region_ok_zero; lia.
  - apply region_ok_zero; lia.
  - unfold disjoint. lia.
  - lia.
  - exists m'. exact Hrun.
Defined.
End LogWitnesses.

(** ** Assemblers and subscriptions *)

Module AssemblerWitnesses.
Import SmallLog StreamWitnesses.
#[local] Opaque memory.

Definition term0 : Buffer := mkBuffer 0 65536.

Lemma log_seg_zip m b fs : forall off,
  0 <= off -> log_seg m (bufferPtr b) off fs -> off + seg_space fs <= buf_length b ->
  Forall (fun f => is_padding f = false) fs ->
  exists offs, length offs = length fs /\ Forall (in_term m b) (zip offs fs).
Proof.
  induction fs as [|f fs IH]; intros off Ho Hs Hl Hp; [by exists []|].
  destruct Hs as [Hf Hs]. cbn [seg_space] in Hl. apply Forall_cons in Hp as [Hpf Hp].
  pose proof (frame_space_spec f) as [? _]. pose proof (frame_space_pos f). pose proof (seg_space_nonneg fs).
  destruct (IH (off + frame_space f)) as (offs & Hlen & Hin); [lia|done|lia|done|].
  exists (off :: offs). split; [cbn; lia|]. constructor; [|done]. split_and!; cbn; done || lia.
Qed.

Lemma OnFragment_sessions_independent_witness :
  exists m' f s1 s2,
    feed term0 (img_header img) recorder [(0, f)] (m', (∅, [])) = Ret tt (m', s1) /\
    feed term0 (img_header img) recorder [] (m', (∅, [])) = Ret tt (m', s2) /\
    of_session (fr_session f + 1) s1.2 = of_session (fr_session f + 1) s2.2.
Proof.
  destruct sent_term as (m' & Himg & _ & Hseg & _ & Hfit). destruct one_frame as (f & Hf & Hp).
  rewrite Hf in Hseg, Hfit. cbn [seg_space] in Hfit. destruct Hseg as [Hat _].
  pose proof (frame_space_spec f) as [? _]. change (img_T img) with 65536 in Hfit.
  destruct (OnFragment_sessions_independent m' term0 (img_header img) (fr_session f + 1) [(0, f)] ∅)
    as (s1 & s2 & H1 & H2 & H3).
  - destruct (io_terms _ _ Himg 0 ltac:(lia)) as (b & Hb & Hok & _). injection Hb as <-. exact Hok.
  - cbn. lia.
  - constructor; [|constructor]. unfold in_term. cbn [fst snd term0 bufferPtr buf_length].
    split; [exact Hat|]. split; [exact Hp|]. lia.
  - exists m', f, s1, s2. split; [exact H1|]. split; [|exact H3]. rewrite <- H2. cbn [List.filter snd].
    rewrite (proj2 (Z.eqb_neq _ _)) by lia. reflexivity.
Defined.

(** A message of 2000 bytes, sent as two fragments. *)
Definition long : list Init.Byte.byte := message memory source 0 2000.
Definition long_frames : list frame :=
  data_frames (hw_sessionID (app_headerWriter appender)) (hw_streamID (app_headerWriter appender))
    (active_term publication 0) (fragments 1376 long).

Lemma long_length : zlen long = 2000.
Proof. apply zlen_message. lia. Qed.

Lemma long_are : msg_frames publication appender (active_term publication 0) long = long_frames.
Proof.
  unfold msg_frames. rewrite long_length, payload_is. change (2000 <=? 1376) with false.
  change (Z.to_nat 1376) with 1376%nat. reflexivity.
Qed.

Lemma long_space : seg_space long_frames = 2080.
Proof.
  unfold long_frames, fragments. rewrite fragments_from_space; [|lia|lia|reflexivity].
  rewrite long_length. reflexivity.
Qed.

Lemma long_sent : exists m' offs,
  buf_ok m' term0 /\ length offs = length long_frames /\ Forall (in_term m' term0) (zip offs long_frames).
Proof.
  destruct (Offer_fits memory publication base 0 0 publication_ok appender app_is source 0 2000 None)
    as (m' & _ & _ & [Hseg _ Hk]); [apply source_is_ok; lia|exact supplier_ok| | | |].
  - rewrite max_message_is. lia.
  - rewrite term_is, limit_is. lia.
  - fold long. rewrite long_are, long_space, term_is. lia.
  - fold long in Hseg. rewrite long_are in Hseg.
    assert (Hp : Forall (fun f => is_padding f = false) long_frames).
    { unfold long_frames, data_frames. apply Forall_map, Forall_true. intros c. reflexivity. }
    destruct (log_seg_zip m' term0 long_frames 0 ltac:(lia) Hseg) as (offs & Hlen & Hin);
      [rewrite long_space; cbn; lia|exact Hp|].
    exists m', offs. split; [|split; [exact Hlen|exact Hin]].
    eapply buf_ok_keeps; [exact Hk|]. eapply buf_ok_keeps; [apply keeps_claim_mem|].
    apply log_buffer_ok; lia.
Qed.

Lemma OnFragment_reassembles_witness :
  exists m' offs,
    feed term0 (img_header img) recorder (zip offs long_frames) (m', (∅, [])) =
    Ret tt (m', ({[hw_sessionID (app_headerWriter appender) := []]},
                 [(hw_sessionID (app_headerWriter appender), long)])).
Proof.
  destruct long_sent as (m' & offs & Hb & Hlen & Hin). exists m', offs.
  apply (OnFragment_reassembles m' term0 (img_header img) (hw_sessionID (app_headerWriter appender))
           (hw_streamID (app_headerWriter appender)) (active_term publication 0) 1376 long offs ∅ Hb).
  - cbn. lia.
  - pose proof long_length as Hl. unfold zlen in Hl. lia.
  - rewrite long_length. lia.
  - exact Hlen.
  - exact Hin.
Defined.

Lemma ControlledOnFragment_abort_witness :
  exists m' off f header bm' m2,
    ControlledOnFragment (fun _ _ s => Ret ControlledPollActionAbort s) term0 (off + 32) (zlen (fr_data f))
      (header_at header term0 off) (m', (∅, tt)) = Ret ControlledPollActionAbort (m2, (bm', tt)) /\
    m2 = m' /\ bm' = ∅.
Proof.
  destruct sent_term as (m' & Himg & _ & Hseg & _ & Hfit). destruct one_frame as (f & Hf & Hp).
  rewrite Hf in Hseg, Hfit. cbn [seg_space] in Hfit. destruct Hseg as [Hat _].
  pose proof (frame_space_spec f) as [? _]. change (img_T img) with 65536 in Hfit.
  assert (Hb : buf_ok m' term0).
  { destruct (io_terms _ _ Himg 0 ltac:(lia)) as (b & Hb & Hok & _). injection Hb as <-. exact Hok. }
  assert (Hd : cdelegates (fun _ _ u => (ControlledPollActionAbort, u)) term0
                 (fun _ _ s => Ret ControlledPollActionAbort (s : mem * unit))).
  { split; intros; reflexivity. }
  assert (Hflags : casm_step (fun _ _ u => (ControlledPollActionAbort, u)) 0 f (∅, tt)
                   = (ControlledPollActionAbort, (∅, tt))).
  { unfold frames, msg_frames in Hf. rewrite msg_length, payload_is in Hf. injection Hf as <-. reflexivity. }
  pose proof (ControlledOnFragment_step _ m' term0 _ 0 f ∅ tt (img_header img) Hb Hd Hat
                ltac:(lia) ltac:(cbn; lia)) as Hrun. rewrite Hflags in Hrun. cbn [fst snd] in Hrun.
  exists m', 0, f, (img_header img), ∅, m'. split; [exact Hrun|].
  apply (ControlledOnFragment_abort _ m' term0 _ 0 f ∅ tt (img_header img) ∅ tt m' Hb Hd Hat
           ltac:(lia) ltac:(cbn; lia) Hrun).
Defined.
End AssemblerWitnesses.

Module SubscriptionWitnesses.
Import SmallLog StreamWitnesses.
#[local] Opaque memory.

Definition sub : Subscription image := mkSubscription "aeron:ipc" 0 0 0 0 [img] false.

Lemma sub_polls : exists m' n sub' s', Subscription_Poll sub count 10 (m', 0) = Ret (n, sub') s'.
Proof.
  destruct sent_term as (m' & Himg & Hpos & Hseg & Hend & Hfit).
  destruct (image_Poll_walk (fun _ _ u => u + 1) m' img Himg 0 0 ltac:(lia)
              ltac:(change (img_T img) with 65536; lia) Hpos (mkBuffer 0 65536) eq_refl frames Hseg Hend Hfit
              count ltac:(intros off f u h _ _ _ _; reflexivity) 10 0) as [header Hrun].
  destruct (walk_frames (fun _ _ u => u + 1) (img_T img) 0) as [f Hf]; [change (img_T img) with 65536; lia|].
  rewrite Hf in Hrun. exists m', 1, (set_poll sub 1 [set_header img header]), (moved m' img 64, 1).
  unfold Subscription_Poll, poll_with. cbn [sub_images sub length Nat.ltb Nat.leb sub_roundRobinIndex].
  change (round_robin 0 1) with (0%nat, 1). cbv beta iota. cbn [seq Nat.sub poll_images].
  erewrite bind_Ret; [|change (0 <? 10) with true; cbv iota;
    erewrite bind_Ret by reflexivity; erewrite bind_Ret by exact Hrun; reflexivity].
  reflexivity.
Qed.

Lemma Subscription_Poll_bounded_witness :
  exists m' n sub' s', Subscription_Poll sub count 10 (m', 0) = Ret (n, sub') s' /\ 0 <= n <= 10.
Proof.
  destruct sub_polls as (m' & n & sub' & s' & Hrun). exists m', n, sub', s'. split; [exact Hrun|].
  apply (Subscription_Poll_bounded sub count 10 (m', 0) n sub' s' ltac:(lia) Hrun).
Defined.

Lemma Subscription_Poll_rotation_witness :
  rotation 0 1 ≡ₚ seq 0 1.
Proof.
  apply (Subscription_Poll_rotation sub count 10 (memory, 0)).
  - unfold sub. cbn. congruence.
  - cbn. lia.
Defined.

Lemma round_robin_covers_witness : 2%nat ∈ starts 4 0 3.
Proof. apply (round_robin_covers 0 3 2); lia. Defined.
End SubscriptionWitnesses.
