(* ===== verification/OfferExamples.v ===== *)
(** * Goroutines that offer at the same time, in concrete runs

    The theorems of [OfferConcurrent] at a schedule of two goroutines, and at the small log in
    memory of [Examples]. *)

From S2P Require Import Prelude Memory Bits Flyweight LogBuffer TermSpec Appender Publication OfferConcurrent.
From S2P Require Import Examples.

Module OfferWitnesses.
Import SmallLog.
#[local] Opaque memory.

Definition together : option system := schedule Busy.publication prompt_b 2 Busy.together.

(** The long message is claimed first, and the short one behind it. *)
Lemma together_is : exists s, together = Some s /\
  st_producers s = [PDone 9440; PDone 8384] /\
  st_claims s = [mkClaim' 0 0 8384 1056; mkClaim' 1 0 0 8384].
Proof. destruct together as [s|] eqn:E; [|by vm_compute in E]. exists s. vm_compute in E. by injection E as <-. Qed.

Lemma together_reachable s : together = Some s -> reachable Busy.publication prompt 2 s.
Proof. apply schedule_reachable. intros p s'. destruct p; cbn; try done. apply Z.leb_le. Qed.

Lemma together_slow s : together = Some s -> reachable Busy.publication always 2 s.
Proof.
  intros H%together_reachable. induction H as [|s s' _ IH Hs]; [apply reach_init|]. eapply reach_step; [exact IH|].
  destruct Hs; by econstructor.
Qed.

Lemma init_ok : is_i32 (pub_initialTermID Busy.publication).
Proof. unfold is_i32. cbn. lia. Qed.

Lemma bits_ok : 16 <= positionBitsToShift Busy.publication <= 30.
Proof. cbn. lia. Qed.

Lemma terms_filled_witness :
  exists s c, together = Some s /\ st_claims s !! 0%nat = Some c /\ cl_off c = 8384 /\
    (cl_off c = 0 \/
     exists j d, (0 < j)%nat /\ st_claims s !! j = Some d /\ cl_term d = cl_term c /\ claim_end d = cl_off c).
Proof.
  destruct together_is as (s & Hs & _ & Hc). exists s, (mkClaim' 0 0 8384 1056). split_and!; [done|by rewrite Hc|done|].
  assert (Hi : st_claims s !! 0%nat = Some (mkClaim' 0 0 8384 1056)) by by rewrite Hc.
  exact (proj1 (terms_filled Busy.publication 2 s 0 _ init_ok (together_slow s Hs) Hi)).
Defined.

Lemma offered_position_witness :
  exists s c, together = Some s /\ st_producers s !! 0%nat = Some (PDone 9440) /\
    last_claim 0 (st_claims s) = Some c /\ 9440 = claim_position Busy.publication c.
Proof.
  destruct together_is as (s & Hs & Hp & _).
  assert (Hi : st_producers s !! 0%nat = Some (PDone 9440)) by by rewrite Hp.
  destruct (offered_position Busy.publication 2 s 0 9440 init_ok bits_ok (together_reachable s Hs) Hi eq_refl)
    as [(c & Hc & _ & Hr) _].
  exists s, c. split_and!; [done|by rewrite Hp|done|done].
Defined.

Lemma offer_alone_witness :
  exists r m' s', Offer publication source 0 5 None memory = Ret r m' /\
    run_alone publication 8 (PStart (mkRequest false 5)) (view publication memory base) = (PDone r, s') /\
    pub_ok m' publication base (sh_count s') (active_offset s').
Proof.
  apply (offer_alone memory publication base 0 0 appender source 0 5 None publication_ok app_is
           (source_is_ok 5 ltac:(lia)) supplier_ok); rewrite ?max_message_is, ?term_is; lia.
Defined.
End OfferWitnesses.
