(* ===== verification/ClientExamples.v ===== *)
(** * A concrete client

    A ring to the driver, a broadcast buffer with an event of the driver, and a client with
    publications. The theorems of [Proxy], [ListenerAdapter],
    [ConductorSpec], [ConductorInv], [Connect] and [Client] are applied
    to them, so their hypotheses hold together. *)

From S2P Require Import Prelude Memory Bits Flyweight RingBuffer Broadcast Cnc Counters LogBuffer Command.
From S2P Require Import Proxy ListenerAdapter TermSpec Appender Reader FragmentAssembler Publication.
From S2P Require Import Image ChannelUri Subscription Conductor ConductorSpec ConductorInv ConductorDown Connect Client Examples.

Local Open Scope m_scope.

(** ** The proxy *)

Module ProxyWitnesses.
Definition memory : mem := zero_mem 16384.
Definition ring : ManyToOne := mkManyToOne (mkBuffer 0 4864) 4096 512 4480 4352 4224 4608 4736.
Definition driver : Proxy := mkProxy ring 5.
Definition ipc : list Init.Byte.byte := String.list_byte_of_string "aeron:ipc".

Lemma mem_buffer_ok a n : 0 <= a -> 0 <= n -> a + n <= 16384 -> buf_ok memory (mkBuffer a n).
Proof. intros. split; [apply region_ok_zero; cbn; lia|cbn; lia]. Qed.

Lemma zero64 a : rd_i64 memory a = 0.
Proof. exact (rd_i64_zero 16384 a). Qed.

#[local] Opaque memory.

Lemma driver_ok : proxy_ok memory driver 0 0 0 0 [].
Proof.
  constructor; [|reflexivity|apply zero64|exact I|reflexivity].
  constructor; [apply mem_buffer_ok; lia|exists 12; split; [lia|reflexivity]|..];
    first [reflexivity | apply zero64 | cbn; lia | split; reflexivity].
Qed.

Lemma alloc_ok : fresh_at driver 8192.
Proof. unfold fresh_at, disjoint. cbn. lia. Qed.

Lemma commands_arrive_witness :
  exists m' hc', Proxy.AddPublication driver ipc 10 8192 memory = Ret (0, None) m' /\
    proxy_ok m' driver 0 48 hc' 1
      [Msg control.AddPublication (bytes64 5 ++ bytes64 0 ++ bytes32 10 ++ bytes32 9 ++ ipc)].
Proof.
  destruct (commands_arrive memory driver 0 0 0 0 [] 8192 (CAddPublication ipc 10) driver_ok alloc_ok)
    as (m' & hc' & Hrun & Hok).
  - split; [discriminate|vm_compute; congruence].
  - lia.
  - cbn. lia.
  - cbn. lia.
  - exists m', hc'. split; [|exact Hok]. cbn [issue] in Hrun. unfold with_id in Hrun.
    apply bind_inv_Ret in Hrun as ([id err] & m1 & Hop & Hret). unfold ret in Hret.
    rewrite Hop. injection Hret as E1 E2 E3. subst. reflexivity.
Defined.

(** The ring filled with padding. *)
Definition full_memory : mem :=
  wr (wr (wr memory 0 (le_split 4 4096)) 4 (le_split 4 (-1))) 4224 (le_split 8 4096).

Lemma full_driver_ok : proxy_ok full_memory driver 0 4096 0 0 [Pad 4096].
Proof.
  assert (H0 : rd_i64 full_memory 4480 = 0) by (unfold full_memory; mem_simpl; apply zero64).
  assert (H1 : rd_i64 full_memory 4352 = 0) by (unfold full_memory; mem_simpl; apply zero64).
  assert (H2 : rd_i64 full_memory 4224 = 4096) by (unfold full_memory; apply rd_i64_wr; unfold is_i64; lia).
  assert (H3 : rd_i64 full_memory 4608 = 0) by (unfold full_memory; mem_simpl; apply zero64).
  assert (H4 : entry_at full_memory 0 (Pad 4096)) by (unfold full_memory; split; mem_simpl; reflexivity).
  assert (H5 : buf_ok full_memory (mkBuffer 0 4864)) by (unfold full_memory; do 3 apply buf_ok_wr; apply mem_buffer_ok; lia).
  generalize dependent full_memory. intros m H0 H1 H2 H3 H4 H5.
  constructor; [|reflexivity|exact H3| |reflexivity].
  - constructor; [exact H5|exists 12; split; [lia|reflexivity]|reflexivity..|exact H2|exact H1|exact H0|cbn; lia|cbn; lia|split; reflexivity].
  - cbn [ring_seg]. split; [vm_compute; congruence|]. split; [vm_compute; congruence|]. split; [exact H4|exact I].
Qed.

Lemma AddRcvDestination_hides_error_witness :
  exists m1, Proxy.AddRcvDestination driver 1 ipc 8192 full_memory = Ret (0, None) m1.
Proof.
  destruct (AddRcvDestination_hides_error full_memory driver 0 4096 0 0 [Pad 4096] 8192 1 ipc full_driver_ok alloc_ok)
    as (m1 & m2 & m3 & hc' & H1 & _).
  - discriminate.
  - vm_compute. congruence.
  - lia.
  - cbn. lia.
  - cbn. lia.
  - reflexivity.
  - exists m1. exact H1.
Defined.

Lemma AddCounter_cuts_label_witness :
  exists m' hc' before,
    Proxy.AddCounter driver 100 (mkBuffer 10240 64) 0 6 (mkBuffer 12288 64) 0 8 8192 memory = Ret (0, None) m' /\
    proxy_ok m' driver 0 56 hc' 1
      [Msg control.AddCounter (before ++ bytes32 8 ++ take 6 (rd memory 12288 8))].
Proof.
  destruct (AddCounter_cuts_label memory driver 0 0 0 0 [] 8192 100 (mkBuffer 10240 64) 0 6 (mkBuffer 12288 64) 0 8
              driver_ok alloc_ok) as (m' & hc' & before & Hrun & _ & Hok).
  - split; [apply mem_buffer_ok; lia|unfold disjoint; cbn; lia].
  - split; [apply mem_buffer_ok; lia|unfold disjoint; cbn; lia].
  - lia.
  - lia.
  - cbn. lia.
  - lia.
  - lia.
  - cbn. lia.
  - discriminate.
  - vm_compute. congruence.
  - lia.
  - cbn. lia.
  - cbn. lia.
  - reflexivity.
  - exists m', hc', before. split; [exact Hrun|exact Hok].
Defined.
End ProxyWitnesses.

(** ** The adapter *)

Module AdapterWitnesses.
(** A listener that counts. *)
#[local] Instance counting : Listener Z := {
  ListenerAdapter.OnNewPublication := fun _ _ _ _ _ _ _ '(m, u) => Ret tt (m, u + 1);
  ListenerAdapter.OnNewExclusivePublication := fun _ _ _ _ _ _ _ '(m, u) => Ret tt (m, u + 1);
  ListenerAdapter.OnAvailableImage := fun _ _ _ _ _ _ _ '(m, u) => Ret tt (m, u + 1);
  ListenerAdapter.OnUnavailableImage := fun _ _ '(m, u) => Ret tt (m, u + 1);
  ListenerAdapter.OnOperationSuccess := fun _ '(m, u) => Ret tt (m, u + 1);
  ListenerAdapter.OnErrorResponse := fun _ _ _ '(m, u) => Ret tt (m, u + 1);
  ListenerAdapter.OnChannelEndpointError := fun _ _ '(m, u) => Ret tt (m, u + 1);
  ListenerAdapter.OnSubscriptionReady := fun _ _ '(m, u) => Ret tt (m, u + 1);
  ListenerAdapter.OnAvailableCounter := fun _ _ '(m, u) => Ret tt (m, u + 1);
  ListenerAdapter.OnUnavailableCounter := fun _ _ '(m, u) => Ret tt (m, u + 1);
  ListenerAdapter.OnClientTimeout := fun client '(m, u) => Ret tt (m, client) }.

(** A message of 8 bytes of type [t] at the start of a buffer of 64 bytes. *)
Definition event : driver_event := EClientTimeout 7.
Definition memory (t : Z) : mem :=
  wr (wr (wr (wr (wr (zero_mem 4096) 0 (le_split 4 16)) 4 (le_split 4 t)) 8 (event_bytes event))
    64 (le_split 8 16)) 72 (le_split 8 16).
Definition receiver : Receiver := mkReceiver (mkBuffer 0 192) 64 63 64 72 80 0 0 0 0.
Definition scratch : Buffer := mkBuffer 1024 64.

Lemma event_buffer_ok t a n : 0 <= a -> 0 <= n -> a + n <= 4096 -> buf_ok (memory t) (mkBuffer a n).
Proof. intros. split; [|cbn; lia]. unfold memory. do 5 apply region_ok_wr. apply region_ok_zero; cbn; lia. Qed.

Lemma bytes_length : zlen (event_bytes event) = 8.
Proof. reflexivity. Qed.

Lemma event_receiver_ok t : bc_ok (memory t) receiver 16 16.
Proof.
  pose proof bytes_length.
  constructor; [apply event_buffer_ok; lia|exists 6; split; [lia|reflexivity]|reflexivity..| | |cbn; lia];
    cbn; unfold memory; mem_simpl; reflexivity.
Qed.

Lemma has_event t : 1 <= t < 65536 -> ring_seg (memory t) 0 64 0 [Msg t (event_bytes event)].
Proof.
  intros Ht. pose proof bytes_length. cbn [ring_seg].
  split; [vm_compute; congruence|]. split; [vm_compute; congruence|]. split; [|exact I].
  change (0 + 0 mod 64) with 0. unfold memory. split_and!.
  - mem_simpl. reflexivity.
  - mem_simpl. reflexivity.
  - mem_simpl. rewrite rd_wr_same; reflexivity.
Qed.

Lemma ReceiveMessages_dispatches_witness :
  ReceiveMessages (mkCopyReceiver receiver scratch) (memory (event_type event), 0) =
  Ret (1, mkCopyReceiver (at_record receiver 0 (event_bytes event)) scratch)
    (wr (memory (event_type event)) 1024 (event_bytes event), 7).
Proof.
  rewrite (ReceiveMessages_dispatches (memory (event_type event)) receiver 16 16 scratch 0 [] event).
  - unfold bind. cbn [deliver event]. reflexivity.
  - apply event_receiver_ok.
  - apply event_buffer_ok; lia.
  - unfold disjoint. cbn. lia.
  - cbn. lia.
  - cbn. lia.
  - left. reflexivity.
  - apply (has_event (event_type event)). cbv. split; congruence.
  - cbn. unfold is_i64. lia.
  - vm_compute. congruence.
Defined.

Lemma ReceiveMessages_ignores_unknown_witness :
  ReceiveMessages (mkCopyReceiver receiver scratch) (memory 1, 0) =
  Ret (1, mkCopyReceiver (at_record receiver 0 (event_bytes event)) scratch)
    (wr (memory 1) 1024 (event_bytes event), 0).
Proof.
  apply (ReceiveMessages_ignores_unknown (memory 1) receiver 16 16 scratch 0 1 (event_bytes event)).
  - apply event_receiver_ok.
  - apply event_buffer_ok; lia.
  - unfold disjoint. cbn. lia.
  - cbn. lia.
  - cbn. lia.
  - lia.
  - unfold Events.OnError, Events.OnClientTimeout. lia.
  - apply (has_event 1). lia.
  - vm_compute. congruence.
Defined.
End AdapterWitnesses.

(** ** The conductor *)

Module ConductorWitnesses.
(** A driver that accepts everything and hands out the id 7. *)
Definition accepting : DriverProxy := {|
  dp_ClientID := 5;
  dp_TimeOfLastDriverKeepalive := ret 0;
  dp_NextCorrelationID := ret 7;
  dp_AddSubscription := fun _ _ => ret (7, None);
  dp_RemoveSubscription := fun _ => ret None;
  dp_AddPublication := fun _ _ => ret (7, None);
  dp_AddExclusivePublication := fun _ _ => ret (7, None);
  dp_RemovePublication := fun _ => ret None;
  dp_ClientClose := ret None;
  dp_AddDestination := fun _ _ => ret (7, None);
  dp_RemoveDestination := fun _ _ => ret (7, None);
  dp_AddRcvDestination := fun _ _ => ret (7, None);
  dp_RemoveRcvDestination := fun _ _ => ret (7, None);
  dp_AddCounter := fun _ _ _ _ _ _ _ => ret (7, None);
  dp_AddCounterByLabel := fun _ _ => ret (7, None);
  dp_RemoveCounter := fun _ => ret (7, None) |}.

Definition cf : config := {|
  driverProxy := accepting;
  counterValuesBuffer := mkBuffer 0 0; counterReader := mkReader (mkBuffer 0 0) (mkBuffer 0 0) 0;
  driverTimeoutNs := 5000 * Millisecond; interServiceTimeoutNs := 10000 * Millisecond;
  publicationConnectionTimeoutNs := 5000 * Millisecond; resourceLingerTimeoutNs := 3000 * Millisecond;
  onNewPublicationHandler := true; onNewSubscriptionHandler := true;
  onAvailableImageHandler := Some 0%nat; onUnavailableImageHandler := Some 1%nat; errorHandler := true;
  cf_files := fun _ => (0, fun _ _ => None); cf_unmap := fun _ => ret None |}.

Definition buffers : LogBuffers := mkLogBuffers [Some 0] [] (meta_layout 0) 1.
Definition ipc : list Init.Byte.byte := String.list_byte_of_string "aeron:ipc".
Definition registration (id : Z) (r : option nat) : publicationStateDefn :=
  mkPubState id id 0 10 1 0 0 0 RegisteredMediaDriver ipc [] (Some buffers) r.
Definition object (id : Z) : Publication := {|
  pub_channel := "aeron:ipc"; pub_regID := id; pub_originalRegID := id; maxPossiblePosition := 0;
  pub_streamID := 10; pub_sessionID := 1; pub_initialTermID := 0; maxPayloadLength := 1376;
  maxMessageLength := 8192; positionBitsToShift := 16; pubLimit := mkPosition (mkBuffer 0 0) 0 0;
  channelStatusIndicatorID := 0; pub_isClosed := false; pub_metaData := meta_layout 0; appenders := [] |}.

(** Two publications that were handed out. *)
Definition two_registrations : list publicationStateDefn := [registration 1 (Some 0%nat); registration 2 (Some 1%nat)].
Definition two : client :=
  set_publications [object 1; object 2]
    (set_pubs (mkSlice (Some <$> two_registrations) 2) client_Init).

Lemma two_held : holds (pubs two) two_registrations.
Proof. exists []. split; reflexivity. Qed.

Lemma two_ids : NoDup (ps_regID <$> two_registrations).
Proof. apply (bool_decide_unpack _). vm_compute. exact I. Qed.

Lemma releasePublication_removes_witness :
  exists c', releasePublication cf 1 50 (∅, two) = Ret None (∅, c') /\
    lingeringResources c' = [mkLinger 50 (RLogBuffers (DecRef buffers).1)].
Proof.
  destruct (releasePublication_removes cf two_registrations 0 (registration 1 (Some 0%nat)) buffers 50 ∅ ∅ two)
    as (c' & ps' & Hrun & _ & _ & Hl & _).
  - reflexivity.
  - exact two_held.
  - exact two_ids.
  - reflexivity.
  - reflexivity.
  - reflexivity.
  - reflexivity.
  - cbn. lia.
  - exists c'. split; [exact Hrun|exact Hl].
Defined.

Lemma closeAllResources_misses_half_witness :
  exists m' c' o, closeAllResources cf 50 (∅, two) = Ret tt (m', c') /\
    pubs c' = nil_slice /\ publications c' !! 1%nat = Some o /\ pub_isClosed o = false.
Proof.
  destruct (closeAllResources_misses_half cf 50 two_registrations ∅ two) as (m' & c' & Hrun & Hp & _ & Hcl & _).
  - intros reg m. exists m. reflexivity.
  - reflexivity.
  - reflexivity.
  - exact two_held.
  - exact two_ids.
  - apply (bool_decide_unpack _). vm_compute. exact I.
  - constructor; [exists 0%nat, (object 1), buffers; split_and!; reflexivity|].
    constructor; [exists 1%nat, (object 2), buffers; split_and!; reflexivity|constructor].
  - cbn. lia.
  - reflexivity.
  - reflexivity.
  - destruct (Hcl 1%nat (registration 2 (Some 1%nat)) 1%nat eq_refl eq_refl) as (o & Ho & Hc).
    exists m', c', o. split_and!; [exact Hrun|exact Hp|exact Ho|exact Hc].
Defined.

Lemma RemoveUnavailableCounterHandler_never_witness :
  RemoveUnavailableCounterHandler 3 (∅, set_availableCounterHandlers [(1, 3%nat)]
    (set_unavailableCounterHandlers [(2, 3%nat)] client_Init))
  = Ret false (∅, set_availableCounterHandlers [(1, 3%nat)]
    (set_unavailableCounterHandlers [(2, 3%nat)] client_Init)).
Proof. apply RemoveUnavailableCounterHandler_never. exists 1. left. Defined.

(** One resource that has lingered for four seconds, and one for one second. *)
Definition old : lingerResourse := mkLinger 1000000000 (RLogBuffers buffers).
Definition young : lingerResourse := mkLinger 4000000000 (RLogBuffers buffers).

Lemma onCheckManagedResources_closes_expired_witness :
  onCheckManagedResources cf 5000000000 (∅, set_lingeringResources [old; young] client_Init)
  = Ret tt (∅, set_lingeringResources [young] client_Init).
Proof.
  apply (onCheckManagedResources_closes_expired cf [old] [young] 5000000000 ∅ ∅
           (set_lingeringResources [old; young] client_Init)).
  - reflexivity.
  - constructor; [vm_compute; reflexivity|constructor].
  - vm_compute. discriminate.
  - cbn. lia.
  - econstructor; [reflexivity|constructor].
Defined.

(** The round that gives the driver up, and the client after a call of [FindPublication]. *)
Lemma driver_timeout_stops_commands_witness :
  let c := set_driverActive false (set_timeOfLastDoWork 6000000000 client_Init) in
  onHeartbeatCheckTimeouts cf 6000000000 (∅, client_Init) = Ret (0, Some (ErrDriverKeepalive 5000000000)) (∅, c) /\
  exists c', perform cf (OFindPublication 7 6000000001) (∅, c) = Ret None (∅, c') /\ commands_refused cf c'.
Proof.
  destruct (driver_timeout_stops_commands cf 6000000000 0 ∅ client_Init) as [Hround Hlater].
  - vm_compute. congruence.
  - vm_compute. congruence.
  - reflexivity.
  - vm_compute. congruence.
  - split; [exact Hround|]. eexists. split; [reflexivity|]. apply Hlater.
    apply (later_step cf _ _ (OFindPublication 7 6000000001) ∅ None ∅ _ (later_now _ _)). reflexivity.
Defined.

Lemma OnErrorResponse_reported_witness :
  exists c', FindPublication cf 1 100 (∅, c') = Ret (None, Some (ErrRegistration 1 4 ipc)) (∅, c').
Proof.
  destruct (OnErrorResponse_reported cf [registration 1 None] 0 (registration 1 None) 4 ipc 100 ∅
              (set_pubs (mkSlice [Some (registration 1 None)] 1) client_Init)) as (c' & _ & Hfind & _).
  - exists []. split; reflexivity.
  - apply (bool_decide_unpack _). vm_compute. exact I.
  - reflexivity.
  - reflexivity.
  - intros q Hq. injection Hq as <-. reflexivity.
  - exists c'. exact Hfind.
Defined.
End ConductorWitnesses.

(** ** The client over the log of [Examples] *)

Module LifeWitnesses.
Import ConductorWitnesses.
#[local] Opaque SmallLog.memory.

(** The log file is mapped at zero, the counters are at 262144. *)
Definition over_log : config := {|
  driverProxy := accepting;
  counterValuesBuffer := mkBuffer 262144 4096; counterReader := mkReader (mkBuffer 0 0) (mkBuffer 0 0) 0;
  driverTimeoutNs := 5000 * Millisecond; interServiceTimeoutNs := 10000 * Millisecond;
  publicationConnectionTimeoutNs := 5000 * Millisecond; resourceLingerTimeoutNs := 3000 * Millisecond;
  onNewPublicationHandler := true; onNewSubscriptionHandler := true;
  onAvailableImageHandler := Some 0%nat; onUnavailableImageHandler := Some 1%nat; errorHandler := true;
  cf_files := fun _ => (200704, fun _ _ => Some 0); cf_unmap := fun _ => ret None |}.

Lemma the_log : log_file over_log SmallLog.memory ipc 0 16 0 0.
Proof. constructor; [lia|reflexivity|reflexivity|exact SmallLog.log]. Qed.

Lemma the_counter id : 0 <= id < 30 -> counter_slot over_log SmallLog.memory id.
Proof. intros. split; [apply SmallLog.log_buffer_ok; lia|]. cbn. lia. Qed.

Lemma publication_lifecycle_witness :
  exists c2 c3 r pub, FindPublication over_log 7 100 (SmallLog.memory, c2) = Ret (Some r, None) (SmallLog.memory, c3) /\
    publications c3 !! r = Some pub /\ Publication_Position pub SmallLog.memory = Ret 0 SmallLog.memory.
Proof.
  destruct (publication_lifecycle over_log ipc 10 0 [] 7 SmallLog.memory SmallLog.memory client_Init)
    as (c1 & Hadd & _ & Hready).
  - reflexivity.
  - exists []. split; reflexivity.
  - constructor.
  - apply not_elem_of_nil.
  - exact eq_refl.
  - destruct (Hready 1 0 5 ipc 7 0 16 0 0 100 200 the_log (the_counter 0 ltac:(lia)))
      as (c2 & c3 & r & pub & Hon & _ & Hfind & Hobj & _ & _ & _ & _ & _ & _ & Hpos & Hagain).
    exists c2, c3, r, pub. split; [exact Hfind|split; [exact Hobj|exact Hpos]].
Defined.

(** A subscription that was handed out, without images. *)
Definition sub_registration : subscriptionStateDefn :=
  mkSubState 3 0 10 0 RegisteredMediaDriver ipc [] (Some 0%nat) (Some 1%nat) (Some 0%nat).
Definition sub_handed_out : subscriptionObject :=
  mkSubObject (mkSubscription "aeron:ipc" 0 3 10 0 [] false) (Some 0%nat) (Some 1%nat).
Definition subscribed : client :=
  set_subscriptions [sub_handed_out] (set_subs (mkSlice [Some sub_registration] 1) client_Init).

Lemma image_lifecycle_witness :
  exists img c1, OnAvailableImage over_log 10 1 ipc ipc 1 3 9 (SmallLog.memory, subscribed) = Ret tt (SmallLog.memory, c1) /\
    calls c1 = [CallAvailableImage 0%nat img].
Proof.
  destruct (image_lifecycle over_log [sub_registration] 0 sub_registration 0 sub_handed_out 10 1 ipc ipc 1 9 0 16 0 0 50
              SmallLog.memory subscribed) as (img & c1 & c2 & Hon & _ & _ & _ & _ & Hcalls & _).
  - constructor; try exact eq_refl; [exists []; split; exact eq_refl|]. apply (bool_decide_unpack _). vm_compute. exact I.
  - exact the_log.
  - apply the_counter. lia.
  - left. vm_compute. congruence.
  - constructor.
  - cbn. lia.
  - exists img, c1. exact (conj Hon Hcalls).
Defined.

Lemma registrations_consistent_witness :
  exists c, visible (pubs c) <> [] /\ exists ps, holds (pubs c) ps /\ NoDup (ps_regID <$> ps).
Proof.
  destruct (registrations_consistent cf (set_pubs (slice_append (pubs client_Init) (publicationStateDefn_Init ipc 7 10 0)) client_Init))
    as [(ps & Hs & Hnd & _) _].
  - eapply (reached_step cf client_Init (OAddPublication false ipc 10 0) ∅ (Some 7) ∅).
    + constructor.
    + exact eq_refl.
    + intros id p _ Hp. by apply not_elem_of_nil in Hp.
  - eexists. split; [|exists ps; exact (conj Hs Hnd)]. discriminate.
Defined.

(** Two looks before the deadline of five seconds, with nothing from the driver. *)
Lemma AddPublication_gives_up_witness :
  Forall (fun look : Z * operation => look.1 <= 5000000000) [(1000000000, OForceClose); (4000000000, OForceClose)].
Proof.
  eapply (AddPublication_gives_up cf ipc 10 0 _ ∅ client_Init).
  - constructor.
  - intros id m' _ p Hp. by apply not_elem_of_nil in Hp.
  - vm_compute. reflexivity.
Defined.
End LifeWitnesses.

(** ** Connecting *)

Module ConnectWitnesses.
(** A command and control file at zero, with a ring of 4096 bytes, a broadcast buffer of 4096
    bytes and room for eight counters. *)
Definition memory : mem :=
  wr (wr (wr (wr (wr (zero_mem 16384) 0 (le_split 4 512)) 4 (le_split 4 4864)) 8 (le_split 4 4224))
    12 (le_split 4 4096)) 16 (le_split 4 1024).

Lemma mem_region a n : 0 <= a -> 0 <= n -> a + n <= 16384 -> region_ok memory a n.
Proof. intros. unfold memory. do 5 apply region_ok_wr. apply region_ok_zero; lia. Qed.

Lemma words :
  rd_i32 memory 0 = 512 /\ rd_i32 memory 4 = 4864 /\ rd_i32 memory 8 = 4224 /\ rd_i32 memory 12 = 4096 /\
  rd_i32 memory 16 = 1024 /\ rd_i32 memory 20 = 0.
Proof. unfold memory. split_and!; mem_simpl; rewrite ?rd_i32_zero; done. Qed.

Lemma zeroes a : 20 <= a -> rd_i64 memory a = 0.
Proof. intros. unfold memory. mem_simpl. apply rd_i64_zero. Qed.

#[local] Opaque memory.

Lemma the_file : driver_file memory 0 16384 12 12 4096 1024 0 0 0 0 0 [] 0 [].
Proof.
  destruct words as (? & ? & ? & ? & ? & ?). change (2 ^ 12) with 4096.
  constructor; change (2 ^ 12) with 4096; try lia.
  - constructor; try assumption; try lia. apply mem_region; lia.
  - constructor; cbn [toDriverCommandBuffer ring_over rb_buffer bufferPtr rb_capacity];
      [|exact eq_refl|apply zeroes; lia|exact I|exact eq_refl].
    constructor; cbn [toDriverCommandBuffer ring_over rb_buffer bufferPtr rb_capacity]; try (rewrite zeroes by lia); try lia.
    + split; [apply mem_region; cbn; lia|cbn; lia].
    + exists 12. split; [lia|exact eq_refl].
    + exact eq_refl.
    + exact eq_refl.
    + exact eq_refl.
    + exact eq_refl.
    + exact eq_refl.
    + split; exact eq_refl.
  - cbn zeta. rewrite !zeroes by lia. split_and!; [exact eq_refl|exact eq_refl|lia|cbn; lia|exact I|exact I].
Qed.

Lemma Connect_ready_witness :
  exists a m', Connect (fun _ => Some (0, 16384)) (fun _ => (0, fun _ _ => None)) (fun _ => ret None) 1 0 0
    (NewContext "/dev/shm/aeron") (memory, client_Init) = Ret (inl a) (m', client_Init) /\
    ClientID (an_proxy a) = 0.
Proof.
  destruct (Connect_ready (fun _ => Some (0, 16384)) (fun _ => (0, fun _ _ => None)) (fun _ => ret None) 1 0 0
    (NewContext "/dev/shm/aeron") memory client_Init 0 16384 12 12 4096 1024 0 0 0 0 0 [] 0 [])
    as (a & m' & Hrun & Hid & _).
  - reflexivity.
  - exact the_file.
  - reflexivity.
  - reflexivity.
  - cbn. lia.
  - exists a, m'. split; [exact Hrun|exact Hid].
Defined.
End ConnectWitnesses.
