(* ===== verification/ArchiveExamples.v ===== *)
(** * The archive at work

    Concrete runs of the theorems on the archive client and on the replay merge: the messages
    are encoded by the codecs, the requests are those of the proxy. *)

From S2P Require Import Prelude Sbe SbePacket Publication ArchiveCodecs ArchivePackets ArchiveProxy ArchiveControl ArchiveWait Archive ArchiveRecorded.
From S2P Require RecordingEvents ArchiveSetup.
From S2P Require Import TermSpec Appender Reader ChannelUri ReplayMerge.
From S2P Require Import Memory Flyweight FragmentAssembler Image ArchiveStream Examples.

Local Abbreviation bytes := (list Init.Byte.byte).

(** A message as the archive sends it, in one frame. *)
Definition frame_of (bs : bytes + string) : frame :=
  mkFrame 192 1 3 20 0 (match bs with inl b => b | inr _ => [] end).
Definition response (session correlationID relevant code : Z) : frame :=
  frame_of (packet (mkControlResponse session correlationID relevant code 0 []) false).

Definition the_options : Options := mkOptions false 100 None [] true true.
Definition the_opts (_ : nat) : Options := the_options.
Definition the_control (script : list (Z * offered)) (pending : list frame) : Control :=
  mkControl ControlState.Connected None no_results 7 ∅ (mkRequests script []) pending false true.
Definition the_world (c : Control) (correlations : gmap Z nat) : world := mkWorld {[0%nat := c]} correlations false 41 [].

Lemma whole_frame bs : whole (frame_of bs).
Proof. by split. Qed.

Lemma requests_sent_witness :
  exists q' bs, run false 100 7 (CallKeepAliveRequest 5) (mkRequests [(0, Refused (-2)); (10, Accepted 64)] []) = Ret None q' /\
    sent q' = [bs] /\ unpacket false bs = Some (mkKeepAliveRequest 7 5).
Proof.
  pose proof (requests_sent false 100 7 (CallKeepAliveRequest 5) (mkRequests [(0, Refused (-2)); (10, Accepted 64)] []) None) as H.
  assert (Hrun : exists q', run false 100 7 (CallKeepAliveRequest 5) (mkRequests [(0, Refused (-2)); (10, Accepted 64)] []) = Ret None q')
    by (eexists; vm_compute; reflexivity).
  destruct Hrun as [q' Hrun]. specialize (H q').
  destruct H as [(bs & Hs & Hr)|(_ & since & answer & Hh & Ht)].
  - cbn. unfold is_i64. lia.
  - repeat constructor; cbn; lia.
  - exact Hrun.
  - exists q', bs. split; [exact Hrun|]. split; [exact Hs|]. exact (proj1 Hr).
  - cbn in Hh. injection Hh as <- <-. lia.
Defined.

(** ** Waiting *)

Definition others : list frame := [response 8 42 1 0; response 7 41 1 0; frame_of (inl [])].
Definition waiting : Control := the_control [] (others ++ response 7 42 99 0 :: [response 7 43 5 0]).
Definition waiting_world : world := the_world waiting {[42 := 0%nat]}.
Definition on_time : tick := mkTick [] false 10.
Definition late : tick := mkTick [] false 101.

Lemma PollForResponse_answers_witness :
  exists w' c', PollForResponse the_opts 0 42 [on_time] waiting_world = Ret (99, None) w' /\
    w_controls w' !! 0%nat = Some c' /\ c_pending c' = [response 7 43 5 0] /\
    w_events w' = [(0%nat, OnErrorEvent "EOF")].
Proof.
  destruct (PollForResponse_answers the_opts 0 42 waiting_world waiting others [[]; []; [OnErrorEvent "EOF"]]
    (response 7 42 99 0) (mkControlResponse 7 42 99 0 0 []) [response 7 43 5 0] [on_time]) as (w' & c' & H1 & H2 & H3 & H4 & _).
  - reflexivity.
  - reflexivity.
  - reflexivity.
  - repeat (constructor; [split; [apply whole_frame|vm_compute; reflexivity]|]). constructor.
  - apply whole_frame.
  - vm_compute. reflexivity.
  - cbn. lia.
  - constructor.
  - exists w', c'. split; [exact H1|]. split; [exact H2|]. split; [exact H3|]. exact H4.
Defined.

Lemma PollForResponse_ends_witness :
  exists result w', PollForResponse the_opts 0 43 [on_time; late] (the_world (the_control [] others) {[43 := 0%nat]}) = Ret result w'.
Proof.
  destruct (PollForResponse_ends the_opts 0 43 (the_world (the_control [] others) {[43 := 0%nat]}) (the_control [] others) [on_time; late])
    as (result & w' & H & _).
  - reflexivity.
  - reflexivity.
  - apply Exists_cons_tl, Exists_cons_hd. reflexivity.
  - exists result, w'. exact H.
Defined.

(** ** Lists *)

Definition descriptor (id : Z) : RecordingDescriptor := mkRecordingDescriptor 7 42 id 0 0 0 0 0 0 0 0 0 0 [] [] [].
Definition listing : Control := the_control [] [frame_of (packet (descriptor 1) false); frame_of (packet (descriptor 2) false); response 7 42 0 2].
Definition listing_world : world := the_world listing {[42 := 0%nat]}.

(** The fields of a message are computed from its bytes. *)
Ltac is_message :=
  split; [reflexivity|];
  eexists _, _; split; [vm_compute; reflexivity|]; split; [vm_compute; reflexivity|]; vm_compute; reflexivity.

Lemma PollForDescriptors_collects_witness :
  exists w' c', PollForDescriptors the_opts 0 42 10 [on_time] listing_world = Ret None w' /\
    w_controls w' !! 0%nat = Some c' /\ r_RecordingDescriptors (c_Results c') = [descriptor 1; descriptor 2].
Proof.
  destruct (PollForDescriptors_collects the_opts 0 42 10 on_time [] listing_world listing
    [frame_of (packet (descriptor 1) false); frame_of (packet (descriptor 2) false)] [descriptor 1; descriptor 2]) as [_ H].
  - reflexivity.
  - reflexivity.
  - repeat (constructor; [split; [is_message|split; reflexivity]|]). constructor.
  - destruct (H (response 7 42 0 2) (mkControlResponse 7 42 0 2 0 [])) as (w' & c' & H1 & H2 & H3 & _).
    + reflexivity.
    + reflexivity.
    + reflexivity.
    + split; [is_message|split; reflexivity].
    + reflexivity.
    + exists w', c'. split; [exact H1|]. split; [exact H2|]. exact H3.
Defined.

Lemma PollForDescriptors_misses_end_witness :
  exists w', PollForDescriptors the_opts 0 42 10 [on_time; late]
    (the_world (the_control [] [response 7 42 0 3]) {[42 := 0%nat]}) = Ret (Some "PollNextDescriptor timeout"%string) w'.
Proof.
  apply (PollForDescriptors_misses_end the_opts 0 42 10 [on_time; late]
    (the_world (the_control [] [response 7 42 0 3]) {[42 := 0%nat]}) (the_control [] [response 7 42 0 3])).
  - reflexivity.
  - reflexivity.
  - reflexivity.
  - constructor; [|constructor]. exists (mkControlResponse 7 42 0 3 0 []). split; [|reflexivity].
    split; [is_message|split; reflexivity].
  - repeat (constructor; [split; [reflexivity|constructor]|]). constructor.
  - apply Exists_cons_tl, Exists_cons_hd. reflexivity.
Defined.

(** ** Operations *)

Definition asking : Control := the_control [(0, Accepted 64)] [response 7 42 123 0].
Definition asking_world : world := the_world asking ∅.


Definition made : added_publication := mkAdded "aeron:ipc" 20 5 true.

Lemma recorded_or_closed_witness :
  (exists w', AddRecordedPublication the_opts 0 [on_time] 20 (inl made) (asking_world, []) = Ret (Some made, None) (w', []) /\
     w_correlations w' = ∅) /\
  (exists w' err, AddRecordedPublication the_opts 0 [late] 20 (inl made) (the_world (the_control [(0, Accepted 64)] []) ∅, []) =
     Ret (None, Some err) (w', [ClosePublication 5])).
Proof.
  split.
  - assert (Hrun : exists w', AddRecordedPublication the_opts 0 [on_time] 20 (inl made) (asking_world, []) = Ret (Some made, None) (w', []))
      by (eexists; vm_compute; reflexivity).
    destruct Hrun as [w' Hrun]. exists w'. split; [exact Hrun|].
    destruct (recorded_or_closed the_opts 0 [on_time] 20 (inl made) asking_world [] (Some made) None w' [] asking) as (_ & _ & _ & Hcor & _).
    + reflexivity.
    + repeat constructor.
    + reflexivity.
    + intros pub channel [= <-] Hch. vm_compute in Hch. injection Hch as <-. vm_compute. repeat split; discriminate.
    + exact Hrun.
    + exact Hcor.
  - do 2 eexists. vm_compute. reflexivity.
Defined.

(** The response to another request is in the stream, and the answer arrives with the second tick. *)
Definition new_control : Control :=
  mkControl ControlState.New None no_results 0 ∅ (mkRequests [(0, Accepted 64)] []) [response 76 41 0 0] false true.
Definition answering : list tick := [mkTick [] false 0; mkTick [response 77 42 0 0; response 76 43 0 0] false 5; mkTick [] false 10].

Lemma connect_established_witness :
  exists w' c', connect the_opts 0 answering false 20 [] [] (the_world new_control ∅) = Ret None w' /\
    w_controls w' !! 0%nat = Some c' /\ c_SessionID c' = 77.
Proof.
  assert (Hrun : exists q, run false 100 0 (connect_call false 42 20 [] []) (mkRequests [(0, Accepted 64)] []) = Ret None q)
    by (eexists; vm_compute; reflexivity).
  destruct Hrun as [q Hrun].
  destruct (connect_established the_opts 0 false 20 [] [] answering 1 (the_world new_control ∅) new_control [response 76 41 0 0] [[]]
    (response 77 42 0 0) [response 76 43 0 0] (mkControlResponse 77 42 0 0 0 []) q) as (w' & c' & k & Hc' & _ & _ & _ & _ & _ & H).
  - reflexivity.
  - reflexivity.
  - reflexivity.
  - exact Hrun.
  - reflexivity.
  - constructor; [|constructor]. vm_compute. reflexivity.
  - split; [reflexivity|]. split; [|reflexivity].
    eexists _, _. split; [vm_compute; reflexivity|]. split; [vm_compute; reflexivity|]. vm_compute. reflexivity.
  - by eexists.
  - cbn. lia.
  - repeat constructor; cbn; lia.
  - destruct H as (H1 & _ & H2). exists w', c'. split; [exact H1|]. split; [exact Hc'|]. exact H2.
Defined.

(** Setting up with the default options: the archive accepts, or refuses with an error. *)
Definition client : ArchiveSetup.client_answers :=
  ArchiveSetup.mkClient None None EmptyString [("aeron:udp?endpoint=localhost:8011"%string, 50)] None
    [(0, Accepted 64); (0, Accepted 64)] None.
Definition set_up (code : Z) :=
  ArchiveSetup.NewArchive (-1) 1 0 [mkTick [response 77 42 0 code] false 0] the_opts None client
    (mkWorld ∅ ∅ false 41 [], []).

Lemma archive_set_up_witness :
  (exists w es, set_up 0 = Ret (Some ArchiveSetup.logging_listeners, None) (w, es) /\ es = []) /\
  (exists e w es, set_up 1 = Ret (None, Some e) (w, es) /\ es = [CloseRequests; CloseResponses; CloseAeron]).
Proof.
  split.
  - destruct (set_up 0) as [[res err] [w es]|] eqn:E; [|by vm_compute in E].
    pose proof (ArchiveSetup.archive_set_up (-1) 1 0 [mkTick [response 77 42 0 0] false 0] the_opts None client
      (mkWorld ∅ ∅ false 41 []) res err w es E) as H.
    destruct err as [e|]; [by vm_compute in E|]. destruct H as (-> & -> & _). by exists w, [].
  - destruct (set_up 1) as [[res err] [w es]|] eqn:E; [|by vm_compute in E].
    pose proof (ArchiveSetup.archive_set_up (-1) 1 0 [mkTick [response 77 42 0 1] false 0] the_opts None client
      (mkWorld ∅ ∅ false 41 []) res err w es E) as H.
    destruct err as [e|]; [|by vm_compute in E]. destruct H as (-> & ->). eexists e, w, _. split; [reflexivity|]. by vm_compute.
Defined.

(** ** A merge from its start to its end *)

Definition accept_all : list (Z * offered) := replicate 20 (0, Accepted 64).
Definition merge_env : env :=
  mkEnv (the_world (the_control accept_all []) ∅) 1000 false 100 true "" ∅ [] 33 [].

(** What happens around: a response arrives, the image moves. *)
Definition respond (correlationID relevant : Z) (e : env) : env :=
  with_archive (match w_controls (e_archive e) !! 0%nat with
                | Some c => with_controls (<[0%nat := set_pending (c_pending c ++ [response 7 correlationID relevant 0]) c]>
                              (w_controls (e_archive e))) (e_archive e)
                | None => e_archive e
                end) e.
Definition image_at (position transports : Z) (e : env) : env :=
  mkEnv (e_archive e) (e_nowMs e) (e_aeronClosed e) (e_nextCorrelationID e) (e_publicationConnected e) (e_resolvedEndpoint e)
    {[1%nat := mkView 55 position false 65536 transports]} [1%nat] (e_streamID e) (e_commands e).

Definition no_poll (i : nat) (limit : Z) : M env Z := ret 0.

Definition worked (s : ReplayMerge * env) : ReplayMerge * env :=
  match DoWork the_opts 0 s with Ret _ s' => s' | Exc _ s' => s' end.
Definition outside (f : env -> env) (s : ReplayMerge * env) : ReplayMerge * env := (s.1, f s.2).

Definition replay_to : string := "aeron:udp?endpoint=localhost:20121".
Definition live_from : string := "aeron:udp?endpoint=224.0.1.1:40456".
Definition created : outcome env (option ReplayMerge * option string) :=
  NewReplayMerge "aeron:udp?control-mode=manual" "aeron:udp?session-id=9" replay_to live_from 3 0 500 merge_env.

Lemma created_ok : exists r e, created = Ret (Some r, None) e.
Proof. eexists _, _. vm_compute. reflexivity. Defined.

Definition merge_0 : ReplayMerge * env :=
  match created with Ret (Some r, _) e => (r, e) | _ => (mkReplayMerge 0 0 0 0 0 0 0 0 false false StateFailed None "" "" "" (mkChannelUri "" "" ∅), merge_env) end.
Definition merge_1 : ReplayMerge * env := outside (respond 100 1000) (worked merge_0).
Definition merge_2 : ReplayMerge * env := outside (respond 101 55) (worked (worked merge_1)).
Definition merge_3 : ReplayMerge * env := outside (image_at 1000 1) (worked merge_2).
Definition merge_4 : ReplayMerge * env := outside (respond 102 1200) (worked (worked merge_3)).
Definition merge_5 : ReplayMerge * env := outside (image_at 1200 2) (worked merge_4).
Definition merge_6 : ReplayMerge * env := outside (respond 103 1200) (worked (worked merge_5)).
Definition merge_7 : ReplayMerge * env := worked merge_6.

Lemma worked_step s :
  sane s.1 s.2 -> (match DoWork the_opts 0 s with Ret _ _ => true | Exc _ _ => false end = true) ->
  merge_step the_opts 0 no_poll s (worked s).
Proof.
  intros Hs H. unfold worked. destruct s as [r e]. destruct (DoWork the_opts 0 (r, e)) as [x s'|x s'] eqn:E; [|done].
  by eapply ms_work.
Qed.

Lemma outside_step f s : e_commands (f s.2) = e_commands s.2 -> merge_step the_opts 0 no_poll s (outside f s).
Proof. destruct s as [r e]. intros H. by apply ms_outside. Qed.

Ltac work := apply worked_step; [split; (split; vm_compute; congruence)|vm_compute; reflexivity].
Ltac happen f := apply (outside_step f); vm_compute; reflexivity.

Lemma merge_runs : rtc (merge_step the_opts 0 no_poll) merge_0 merge_7.
Proof.
  eapply rtc_l; [work|]. eapply rtc_l; [happen (respond 100 1000)|]. fold merge_1.
  eapply rtc_l; [work|]. eapply rtc_l; [work|]. eapply rtc_l; [happen (respond 101 55)|]. fold merge_2.
  eapply rtc_l; [work|]. eapply rtc_l; [happen (image_at 1000 1)|]. fold merge_3.
  eapply rtc_l; [work|]. eapply rtc_l; [work|]. eapply rtc_l; [happen (respond 102 1200)|]. fold merge_4.
  eapply rtc_l; [work|]. eapply rtc_l; [happen (image_at 1200 2)|]. fold merge_5.
  eapply rtc_l; [work|]. eapply rtc_l; [work|]. eapply rtc_l; [happen (respond 103 1200)|]. fold merge_6.
  eapply rtc_l; [work|]. apply rtc_refl.
Qed.

Lemma merge_destinations_witness :
  IsMerged merge_7.1 = true /\ times (AddDestination live_from) (e_commands merge_7.2) = 1%nat /\
  times (RemoveDestination replay_to) (e_commands merge_7.2) = 1%nat.
Proof.
  assert (Hm : IsMerged merge_7.1 = true) by (vm_compute; reflexivity).
  destruct (merge_destinations the_opts 0 no_poll "aeron:udp?control-mode=manual" "aeron:udp?session-id=9" replay_to live_from 3 0 500
    merge_env merge_0.1 merge_0.2 merge_7.1 merge_7.2) as (_ & _ & Ha & _ & Hr).
  - intros i l e1 n e2 H. injection H as _ <-. reflexivity.
  - vm_compute. discriminate.
  - reflexivity.
  - vm_compute. reflexivity.
  - assert (E0 : merge_0 = (merge_0.1, merge_0.2)) by (destruct merge_0; reflexivity).
    assert (E7 : merge_7 = (merge_7.1, merge_7.2)) by (destruct merge_7; reflexivity).
    rewrite <- E0, <- E7. exact merge_runs.
  - split; [exact Hm|]. destruct (Hr Hm) as [Hl Hrem]. split; [|exact Hrem]. rewrite Ha, Hl. reflexivity.
Defined.

Lemma DoWork_edges_witness :
  exists n r e, DoWork the_opts 0 (merge_6.1, merge_6.2) = Ret (n, None) (r, e) /\ state merge_6.1 = StateAttemptLiveJoin /\
    state r = StateMerged /\ caught_up r (e_images merge_6.2).
Proof.
  assert (Hrun : exists n, DoWork the_opts 0 (merge_6.1, merge_6.2) = Ret (n, None) (merge_7.1, merge_7.2))
    by (eexists; vm_compute; reflexivity).
  destruct Hrun as [n Hrun].
  destruct (DoWork_edges the_opts 0 merge_6.1 merge_6.2 n None merge_7.1 merge_7.2 Hrun) as (_ & _ & Hm).
  destruct Hm as (H1 & _ & H3 & _); [vm_compute; reflexivity|vm_compute; discriminate|].
  exists n, merge_7.1, merge_7.2. split; [exact Hrun|split; [exact H1|split; [vm_compute; reflexivity|exact H3]]].
Defined.

(** Nothing comes for a second after the position was asked for. *)
Definition stuck : ReplayMerge * env :=
  outside (fun e => mkEnv (e_archive e) 1501 false (e_nextCorrelationID e) true "" ∅ [] 33 (e_commands e)) (worked merge_0).

Lemma DoWork_watches_progress_witness :
  exists n x r e, DoWork the_opts 0 (stuck.1, stuck.2) = Ret (n, Some x) (r, e) /\ state r = StateFailed.
Proof.
  assert (Hrun : exists n x, DoWork the_opts 0 (stuck.1, stuck.2) = Ret (n, Some x) ((worked stuck).1, (worked stuck).2))
    by (eexists _, _; vm_compute; reflexivity).
  destruct Hrun as (n & x & Hrun).
  destruct (DoWork_watches_progress the_opts 0 stuck.1 stuck.2 n (Some x) (worked stuck).1 (worked stuck).2) as (_ & H).
  - exact Hrun.
  - vm_compute. reflexivity.
  - destruct H as (_ & H); [vm_compute; reflexivity|vm_compute; reflexivity|].
    exists n, x, (worked stuck).1, (worked stuck).2. split; [exact Hrun|exact H].
Defined.

Definition refused : ReplayMerge * env :=
  outside (fun e => with_archive (match w_controls (e_archive e) !! 0%nat with
             | Some c => with_controls (<[0%nat := set_pending [response 7 101 (-1) 1] c]> (w_controls (e_archive e))) (e_archive e)
             | None => e_archive e end) e) (worked (worked merge_1)).

Lemma replay_takes_error_for_success_witness :
  exists r e, DoWork the_opts 0 (refused.1, refused.2) = Ret (1, None) (r, e) /\ state r = StateCatchup /\ replaySessionId r = -1.
Proof.
  assert (Hc : exists c, w_controls (e_archive refused.2) !! 0%nat = Some c /\ c_pending c = [response 7 101 (-1) 1] /\ r_ErrorResponse (c_Results c) = None)
    by (eexists; split; [vm_compute; reflexivity|]; split; vm_compute; reflexivity).
  destruct Hc as (c & Hc & Hp & He).
  destruct (replay_takes_error_for_success the_opts 0 refused.1 refused.2 c (response 7 101 (-1) 1) [] (mkControlResponse 7 101 (-1) 1 0 []))
    as (r' & e' & H1 & H2 & _ & H3).
  - vm_compute. reflexivity.
  - vm_compute. discriminate.
  - split; split; vm_compute; congruence.
  - exact Hc.
  - exact Hp.
  - vm_compute. reflexivity.
  - split; [apply whole_frame|]. eexists _, _. split; [vm_compute; reflexivity|]. split; [vm_compute; reflexivity|]. vm_compute. reflexivity.
  - exact He.
  - vm_compute. reflexivity.
  - reflexivity.
  - exists r', e'. split; [exact H1|split; [exact H2|exact H3]].
Defined.

(** ** The frames in memory *)

Lemma control_poll_in_memory_witness :
  exists n fs' s' header m1 m2,
    deliver (assembled (message_handler (fun msg (u : list bytes) => (ControlledPollActionCommit, u ++ [msg])))) 10 0
      StreamWitnesses.frames (∅, []) = Ret (n, fs') s' /\
    image_ControlledPoll SmallLog.img
      (ControlledOnFragment (message_delegate (fun msg (u : list bytes) => (ControlledPollActionCommit, u ++ [msg])))) 10 (m1, (∅, []))
      = Ret (n, set_header SmallLog.img header) (m2, s').
Proof.
  destruct StreamWitnesses.sent_term as (m' & Himg & Hpos & Hseg & Hend & Hfit).
  destruct (control_poll_in_memory (fun msg (u : list bytes) => (ControlledPollActionCommit, u ++ [msg])) m' SmallLog.img 0 0
    (mkBuffer 0 65536) StreamWitnesses.frames 10 ∅ [] Himg) as (n & fs' & s' & gone & header & m2 & H1 & H2 & _).
  - lia.
  - reflexivity.
  - change (img_T SmallLog.img) with 65536. lia.
  - rewrite Hpos. reflexivity.
  - exact Hseg.
  - exact Hend.
  - exact Hfit.
  - exists n, fs', s', header, m', m2. split; [exact H1|exact H2].
Defined.
