(* ===== verification/ClusterExamples.v ===== *)
(** * A cluster at work

    Concrete runs of the theorems on the service container and on the client: a service that
    answers every message, a log of a few entries, a snapshot with two sessions, and a client
    with the events of its leader. *)

From S2P Require Import Prelude Sbe SbePacket Bits Publication.
From S2P Require Import Memory Flyweight LogBuffer TermSpec Reader FragmentAssembler ChannelUri ArchiveProxy Archive.
From S2P Require Import ClusterCodecs ClusterPackets ClusterService ClusterSnapshot Keeps ClusterInv ClusterLog ClusterClient ClusterClientSpec MarkFile.

Local Open Scope m_scope.

Local Abbreviation bytes := (list Init.Byte.byte).

Definition bytes_of (m : bytes + string) : bytes := match m with inl b => b | inr _ => [] end.

(** The state of the service is the number of its events; it answers messages. *)
Definition echo (n : nat) (c : service_call) : program nat :=
  match c with
  | OnSessionMessage (Some s) _ m => Do (OpSessionOffer s m) (fun _ => Done (S n))
  | _ => Done (S n)
  end.

Definition the_opts : Options := mkOptions 5000 true 0 0 (SemanticVersionCompose 1 0 0) 10 "aeron:ipc" 9.
Definition in_order (m : gmap Z session) : list session := (map_to_list m).*2.

Definition key_of (parts : list (nat * Z)) : bytes := concat ((fun p => le_split p.1 p.2) <$> parts).
Definition the_counters : list counter_record :=
  [mkCounter 1 commitPosCounterTypeId (key_of [(4%nat, 0)]) 4096;
   mkCounter 1 recoveryStateCounterTypeId (key_of [(8%nat, -1); (8%nat, 0); (8%nat, 77); (4%nat, 0); (4%nat, 1)]) 0].

Definition frame_of (bs : bytes) : frame := mkFrame 192 DataFrameHeader.TypeData 5 6 0 bs.
Definition service_frames : list frame := [frame_of (bytes_of (packet (mkRequestServiceAck 0) true))].

Definition the_world (a : agent) (consensus : channel) (responses : gmap nat channel) (ticks : list tick) (pubs : list (nat + string))
    (archs : list archive_run) (snapshot : option requests) : @world nat :=
  mkWorld a 0 ticks the_counters consensus responses pubs [] [] archs snapshot [] [] 0 0 [] 0%nat.

(** The start of the container, and a round with a request for an acknowledgement. *)
Definition started : @world nat :=
  the_world new_agent (mkChannel [Refused (-2); Accepted 64; Accepted 128] []) ∅
    [mkTick 5 the_counters service_frames [] false; mkTick 6 the_counters [] [] false] [] [] None.

Lemma acks_in_order_witness :
  exists w', (let! e := agent_OnStart echo the_opts 3 in works echo the_opts in_order 2 ;;; ret e) started = Ret None w' /\
    exists n, nextAckId (w_agent w') = i64 (Z.of_nat n) /\
      ack_ids (delivered (w_consensus w')) = (fun k => i64 (Z.of_nat k)) <$> seq 0 n.
Proof.
  assert (exists w', (let! e := agent_OnStart echo the_opts 3 in works echo the_opts in_order 2 ;;; ret e) started = Ret None w') as [w' Hrun]
    by (eexists; vm_compute; reflexivity).
  exists w'. split; [exact Hrun|]. apply (acks_in_order echo the_opts 3 in_order started w' None 2).
  - reflexivity.
  - reflexivity.
  - repeat constructor.
  - exact Hrun.
Defined.

(** It is two acknowledgements. *)
Example started_acks :
  match (let! e := agent_OnStart echo the_opts 3 in works echo the_opts in_order 2 ;;; ret e) started with
  | Ret None w' => ack_ids (delivered (w_consensus w')) = [0; 1]
  | _ => False
  end.
Proof. vm_compute. reflexivity. Qed.

Definition a_session (id : Z) (pub : nat) : session :=
  mkSession id 7 (String.list_byte_of_string "aeron:udp?endpoint=localhost:1") (String.list_byte_of_string "me") pub.
Definition the_agent (r : Z) (ss : gmap Z session) : agent := with_clusterTime 1000 (with_sessions ss (with_role r new_agent)).
Definition a_message : bytes := String.list_byte_of_string "hello".

(** A follower whose service answers a message. *)
Definition following : @world nat :=
  the_world (the_agent Follower {[4 := a_session 4 1]}) (mkChannel [] []) {[1%nat := mkChannel [Accepted 64] []]} [] [] [] None.

Lemma followers_are_silent_witness :
  exists w', call echo the_opts (OnSessionMessage (Some (a_session 4 1)) 5 a_message) following = Ret tt w' /\
    w_responses w' = w_responses following /\ role (w_agent w') = role (w_agent following) /\
    List.filter is_session_message (delivered (w_consensus w')) = List.filter is_session_message (delivered (w_consensus following)).
Proof.
  assert (exists w', call echo the_opts (OnSessionMessage (Some (a_session 4 1)) 5 a_message) following = Ret tt w') as [w' Hrun]
    by (eexists; vm_compute; reflexivity).
  exists w'. split; [exact Hrun|].
  apply (followers_are_silent echo the_opts (OnSessionMessage (Some (a_session 4 1)) 5 a_message)); [discriminate|exact Hrun].
Defined.

(** A snapshot of two sessions; one offer is refused at first. *)
Definition two_sessions : gmap Z session := {[4 := a_session 4 1; 9 := a_session 9 2]}.
Definition the_script : list (Z * offered) := [(0, Accepted 64); (0, Refused (-2)); (10, Accepted 96); (0, Accepted 128); (0, Accepted 160)].
Definition snapshotting : @world nat :=
  the_world (the_agent Leader two_sessions) (mkChannel [] []) ∅ [] [] [] (Some (mkRequests the_script [])).
Definition fresh : @world nat := the_world new_agent (mkChannel [] []) ∅ [] [inl 11%nat; inl 12%nat] [] None.

Lemma snapshot_restores_witness :
  exists q' msgs w3, write_snapshot the_opts in_order 64 3 snapshotting = Ret None (with_w_snapshot (Some q') snapshotting) /\
    sent q' = msgs /\
    load_loop (snd <$> mjoin (fragments 1024 <$> msgs)) newSnapshotLoader fresh = Ret (mkLoader true false (AppVersion the_opts) 0 None, []) w3 /\
    bare <$> sessions (w_agent w3) = bare <$> two_sessions.
Proof.
  assert (exists w', write_snapshot the_opts in_order 64 3 snapshotting = Ret None w') as [w' Hrun] by (eexists; vm_compute; reflexivity).
  destruct (snapshot_restores the_opts in_order 64 3 snapshotting w' (mkRequests the_script [])) as (q' & msgs & Hw' & Hsent & Hload).
  - reflexivity.
  - intros m. reflexivity.
  - reflexivity.
  - repeat constructor; cbn; lia.
  - apply (bool_decide_unpack _). vm_compute. reflexivity.
  - done.
  - done.
  - done.
  - done.
  - exact Hrun.
  - assert (Forall (fun bs : bytes => (length bs <= 1024)%nat) msgs) as Hfit.
    { subst w'. vm_compute in Hrun. injection Hrun as <-. cbn [sent] in Hsent. rewrite app_nil_l in Hsent. rewrite <- Hsent.
      repeat constructor; simpl; lia. }
    subst w'. destruct (Hload 1024%nat fresh [11; 12]%nat [] []) as (w3 & Hl & Hs); [exact Hfit|reflexivity|reflexivity|reflexivity|].
    rewrite app_nil_r in Hl. exists q', msgs, w3. split_and!; [exact Hrun|exact Hsent|exact Hl|exact Hs].
Defined.

(** A snapshot whose first session gets no publication. *)
Definition begin_marker : SnapshotMarker := marker 64 3 SnapshotMark.BEGIN 0 (AppVersion the_opts).
Definition the_archive : archive_run :=
  mkArchiveRun None (inl 8589934597) None
    [bytes_of (packet begin_marker true); bytes_of (packet (session_message (a_session 4 1)) true);
     bytes_of (packet (session_message (a_session 9 1)) true)] (inr "no recording"%string).
Definition recovering : @world nat :=
  the_world new_agent (mkChannel [] []) ∅ [] [inr "no publication"%string] [the_archive] None.

Lemma load_errors_ignored_witness :
  exists w1, sessions (w_agent w1) = ∅ /\
    loadSnapshot echo the_opts 2 recovering = (call echo the_opts (OnStart true) ;;; modify (with_w_replay []) ;;; ret None) w1.
Proof.
  destruct (load_errors_ignored echo the_opts 2 recovering the_archive [] 8589934597 (bytes_of (packet begin_marker true))
    (bytes_of (packet (session_message (a_session 4 1)) true)) [bytes_of (packet (session_message (a_session 9 1)) true)]
    (a_session 4 1) 64 3 0 "no publication"%string []) as (w1 & Ha & _ & Hl).
  1-4: reflexivity.
  - vm_compute. reflexivity.
  - apply (bool_decide_unpack _). vm_compute. reflexivity.
  - vm_compute. reflexivity.
  - apply (bool_decide_unpack _). vm_compute. reflexivity.
  - vm_compute. reflexivity.
  - reflexivity.
  - reflexivity.
  - exists w1. split; [by rewrite Ha|exact Hl].
Defined.

(** A log: a session opens, sends a message, a timer expires, a term begins, the standby members
    are asked for a snapshot, member 7 is to leave, and the session is closed; the messages are cut
    into fragments of 32 bytes, and there is padding behind the fifth. *)
Definition entries : list log_entry :=
  [LOpen (mkSessionOpenEvent 3 8 4 1000 7 (String.list_byte_of_string "aeron:udp?endpoint=localhost:1") (String.list_byte_of_string "me"));
   LMessage (mkSessionMessageHeader 3 4 1001) a_message;
   LTimer (mkTimerEvent 3 55 1002);
   LTerm (mkNewLeadershipTermEvent 4 800 1003 0 1 5 0 (SemanticVersionCompose 1 2 0));
   LAction (mkClusterActionRequest 4 900 1004 ClusterAction.SNAPSHOT 1);
   LMembership (mkMembershipChangeEvent 4 1000 1005 0 3 ChangeType.QUIT 7 (String.list_byte_of_string "0,1"));
   LClose (mkSessionCloseEvent 4 4 1006 CloseReason.CLIENT_ACTION)].
Definition marshal_entry (e : log_entry) : bytes :=
  match e with
  | LMessage h payload => bytes_of (packet h true) ++ payload
  | LOpen e => bytes_of (packet e true)
  | LClose e => bytes_of (packet e true)
  | LTimer e => bytes_of (packet e true)
  | LTerm e => bytes_of (packet e true)
  | LAction e => bytes_of (packet e true)
  | LMembership e => bytes_of (packet e true)
  end.
Definition the_items : list log_item :=
  let es := (fun e => Entry e (marshal_entry e)) <$> entries in
  take 5 es ++ Padding (mkFrame 192 DataFrameHeader.TypePad 5 6 0 (replicate 96 Byte.x00)) :: drop 5 es.
Definition the_log : list frame := log_frames 5 6 0 32 the_items.

Lemma the_log_encoded : Forall item_ok the_items.
Proof.
  repeat apply Forall_cons_2; [..|apply Forall_nil_2]; cbn [item_ok encodes marshal_entry]; try reflexivity;
    [|eexists; split; [|reflexivity]|..]; (split; [apply (bool_decide_unpack _); vm_compute; exact I|vm_compute; reflexivity]).
Qed.

Definition member_opts (appVersion limit : Z) : Options := mkOptions 5000 true 0 0 appVersion limit "aeron:ipc" 9.

(** A member that has read some frames of the log; its image holds some of those that follow, and
    the others arrive with the ticks of the clock. *)
Definition member_image (k held_frames : nat) : log_image :=
  mkImage 5 (seg_space (take k the_log)) (take held_frames (drop k the_log)) false false.
Definition member_agent (r : Z) (k held_frames : nat) : agent :=
  with_logAdapter (mkAdapter (Some (member_image k held_frames)) (held None (take k the_log)) 100000)
    (with_commitPosition (Some 0%nat) (with_isServiceActive true (the_agent r ∅))).
Definition member_world (a : agent) (answers : list offered) (ticks : list tick) (archs : list archive_run) : @world nat :=
  the_world a (mkChannel [Accepted 64] []) {[21%nat := mkChannel answers []]} ticks [inl 21%nat] archs None.
Definition leader_world : @world nat := member_world (member_agent Leader 1 9) [Accepted 64] [] [].
Definition follower_world : @world nat := member_world (member_agent Follower 0 100) [] [] [].

Lemma leader_reads : reads the_items 5 6 0 32 0 None 1 (member_image 1 9) leader_world.
Proof. split; try reflexivity. eexists. symmetry. apply take_drop. Qed.

Lemma follower_reads : reads the_items 5 6 0 32 0 None 0 (member_image 0 100) follower_world.
Proof. by split. Qed.

(** A service that does nothing. *)
Definition idle_service (n : nat) (c : service_call) : program nat := Done n.

Definition follower_entries : list (Z * log_entry) :=
  between (li_position (member_image 0 100)) (li_position (member_image 0 100) + seg_space (li_frames (member_image 0 100)))
    (placed 5 6 0 32 0 the_items).

Lemma fits_one opts p e es r o : entry_fits opts e r -> outcomes p e r = [o] -> fits opts es o.1 -> fits opts ((p, e) :: es) r.
Proof. intros ? Ho ?. split; [done|]. rewrite Ho. by intros ? ->%list_elem_of_singleton. Qed.

Lemma follower_fits : fits (member_opts 65536 100) follower_entries (seen follower_world).1.
Proof.
  assert (follower_entries = zip [192; 320; 384; 512; 640; 896; 1024] entries) as -> by (vm_compute; reflexivity).
  cbn [zip zip_with entries].
  repeat (eapply fits_one; [vm_compute; first [exact I|reflexivity]|vm_compute; reflexivity|cbn [fst]]). exact I.
Qed.


(** A leader whose service answers reads the log as it arrives, five fragments at a time; a standby
    member whose service does nothing and whose archive does not answer reads all of it at once. *)
Definition arriving (now : Z) (fs : list frame) : tick := mkTick now the_counters [] fs false.
Definition behind_world : @world nat :=
  member_world (member_agent Leader 0 4) [Accepted 64] [arriving 1 (take 3 (drop 4 the_log)); arriving 2 (drop 7 the_log)] [].
Definition no_archive : archive_run := mkArchiveRun (Some "no archive"%string) (inr ""%string) None [] (inr ""%string).
Definition standby_world : @world nat :=
  member_world (with_standbySnapshotFlags 1 (member_agent Follower 0 100)) [] [arriving 7 []] [no_archive].

Lemma behind_rounds : exists w' i, rounds echo (member_opts 65536 5) in_order behind_world w' /\ image_of w' = Some i /\ li_position i = 640 /\
  length (w_calls w') = 4%nat.
Proof.
  eexists _, _. split_and!.
  - eapply rounds_more; [vm_compute; reflexivity|by eexists|]. eapply rounds_more; [vm_compute; reflexivity|by eexists|]. apply rounds_done.
  - reflexivity.
  - reflexivity.
  - reflexivity.
Qed.

Lemma standby_rounds : exists w' i, rounds idle_service (member_opts 65537 100) in_order standby_world w' /\ image_of w' = Some i /\
  li_position i = 1024 /\ length (w_calls w') = 5%nat /\ delivered (w_consensus w') <> [].
Proof.
  eexists _, _. split_and!.
  - eapply rounds_more; [vm_compute; reflexivity|by eexists|]. apply rounds_done.
  - reflexivity.
  - reflexivity.
  - reflexivity.
  - vm_compute. discriminate.
Qed.

Lemma member_starts r fs (ticks : list tick) flags answers archs :
  take fs the_log ++ concat (t_log <$> ticks) = the_log ->
  starts 0 the_log (member_world (with_standbySnapshotFlags flags (member_agent r 0 fs)) answers ticks archs).
Proof.
  intros E. eexists. split_and!; [reflexivity..|]. exists []. rewrite app_nil_r. symmetry. exact E.
Qed.


(** ** A client *)

Definition client_opts : ClientOptions := mkClientOptions "0=localhost:1" "aeron:udp" 1 2 false 100.
Definition members_in_order (m : gmap Z member) : list Z := (map_to_list m).*1.
Definition client_uri : ChannelUri := (ParseChannelUri "aeron:udp").1.

Definition a_publication (as_ : list offered) : publication := mkPub true false (mkChannel as_ []).
Definition client_world (clock : list Z) (as_ : list offered) (egress : list frame) : cworld :=
  mkCWorld (new_client client_uri) clock [inl 1%nat] [] {[1%nat := a_publication as_]} 40 egress "aeron:udp?endpoint=localhost:9" [].

(** The answer of the cluster to the first request. *)
Definition session_opened : SessionEvent := mkSessionEvent 12 40 3 0 EventCode.OK 0 0 [].
Definition opened_frames : list frame := [frame_of (bytes_of (packet session_opened true))].

Definition run_ops (ops : list client_op) : X unit :=
  foldr (fun o k => client_run client_opts members_in_order o ;;; k) (ret tt) ops.

(** A client that was made and polled until it is connected. *)
Definition connecting : X unit :=
  let! _ := NewAeronCluster client_opts true None in run_ops [CPoll; CPoll; CPoll; CPoll].

Lemma run_ops_lives ops : forall w u w', lives client_opts members_in_order w -> run_ops ops w = Ret u w' -> lives client_opts members_in_order w'.
Proof.
  induction ops as [|o ops IH]; intros w u w' Hl Hrun; cbn [run_ops foldr] in Hrun; [by injection Hrun as _ <-|].
  apply bind_inv_Ret in Hrun as (? & w1 & Ho & Hrun). eapply IH; [|exact Hrun]. by eapply lives_run.
Qed.

Definition the_start : cworld := client_world [1; 2; 3; 4] [Accepted 32; Refused (-2); Accepted 64; Accepted 96] opened_frames.

Definition connected : cworld := match connecting the_start with Ret _ w => w | Exc _ w => w end.

Lemma connected_lives : lives client_opts members_in_order connected.
Proof.
  assert (connecting the_start = Ret tt connected) as Hrun by (vm_compute; reflexivity).
  apply bind_inv_Ret in Hrun as (e & w1 & Hnew & Hrun). eapply run_ops_lives; [|exact Hrun].
  assert (e = None) as -> by (vm_compute in Hnew; congruence). by eapply lives_new.
Qed.

(** An offer and a keep alive; the first answer of the publication is a refusal. *)
Lemma client_speaks_for_session_witness :
  exists r w1 b w2, client_Offer a_message connected = Ret r w1 /\ SendKeepAlive connected = Ret b w2 /\
    (exists pub1, x_pubs w1 !! 1%nat = Some pub1 /\ length (delivered (p_channel pub1)) = if 0 <=? r then 2%nat else 1%nat) /\
    (exists pub2, x_pubs w2 !! 1%nat = Some pub2 /\ last (delivered (p_channel pub2)) = Some (keep_alive 3 12)).
Proof.
  assert (exists w1, client_Offer a_message connected = Ret (-2) w1) as [w1 Ho] by (eexists; vm_compute; reflexivity).
  assert (exists w2, SendKeepAlive connected = Ret true w2) as [w2 Hk] by (eexists; vm_compute; reflexivity).
  exists (-2), w1, true, w2. split; [exact Ho|]. split; [exact Hk|].
  assert (exists pub, x_pubs connected !! 1%nat = Some pub /\ Forall offered_ok (answers (p_channel pub)) /\ length (delivered (p_channel pub)) = 1%nat)
    as (pub & Hp & Hok & Hl).
  { eexists. split; [vm_compute; reflexivity|]. split; [repeat constructor|reflexivity]. }
  destruct (client_speaks_for_session client_opts members_in_order connected 3 12 1%nat pub a_message (session_header 3 12) (keep_alive 3 12)
    (-2) w1 true w2) as [(pub1 & Hp1 & Hd1) (pub2 & Hp2 & Hd2)].
  - exact connected_lives.
  - vm_compute. reflexivity.
  - vm_compute. reflexivity.
  - vm_compute. reflexivity.
  - vm_compute. reflexivity.
  - exact Hp.
  - exact Hok.
  - exact Ho.
  - exact Hk.
  - split.
    + exists pub1. split; [exact Hp1|]. rewrite Hd1. cbn [Z.leb Z.compare]. by rewrite app_nil_r.
    + exists pub2. split; [exact Hp2|]. rewrite Hd2. apply last_snoc.
Defined.

Lemma client_follows_protocol_witness :
  exists w', client_run client_opts members_in_order CPoll connected = Ret tt w' /\
    protocol (VConnected 3 12) (view_of (x_client w')).
Proof.
  assert (exists w', client_run client_opts members_in_order CPoll connected = Ret tt w') as [w' Hrun] by (eexists; vm_compute; reflexivity).
  exists w'. split; [exact Hrun|]. pose proof (client_follows_protocol client_opts members_in_order CPoll connected tt w' Hrun) as Hp.
  cbv iota in Hp. replace (view_of (x_client connected)) with (VConnected 3 12) in Hp by (vm_compute; reflexivity). exact Hp.
Defined.

(** The leader offers a message to the session of the client. *)
Definition leading : @world nat :=
  the_world (the_agent Leader {[12 := a_session 12 1]}) (mkChannel [] []) {[1%nat := mkChannel [Accepted 64] []]} [] [] [] None.

Lemma egress_reaches_client_witness :
  exists sw' bs w', offerToSession 12 1 a_message leading = Ret 64 sw' /\
    deliver client_opts members_in_order (data_frames 5 6 0 (fragments 10 bs)) connected = Ret tt w' /\
    x_events w' = [OnConnect; OnMessage 1000 a_message].
Proof.
  assert (exists sw', offerToSession 12 1 a_message leading = Ret 64 sw') as [sw' Hrun] by (eexists; vm_compute; reflexivity).
  destruct (egress_reaches_client leading sw' 12 1 a_message 64 (mkChannel [Accepted 64] [])) as (bs & c' & _ & _ & Hdel).
  - split; vm_compute; reflexivity.
  - reflexivity.
  - lia.
  - vm_compute. split; [discriminate|reflexivity].
  - reflexivity.
  - repeat constructor.
  - exact Hrun.
  - lia.
  - destruct (Hdel client_opts members_in_order connected 10%nat 5 6 0) as (w' & Hd & He & _); [lia|vm_compute; reflexivity|].
    exists sw', bs, w'. split; [exact Hrun|]. split; [exact Hd|]. rewrite He. vm_compute. reflexivity.
Defined.

(** The leader is elected again, at its address. *)
Definition same_leader : NewLeaderEvent := mkNewLeaderEvent 4 12 0 (String.list_byte_of_string "0=localhost:1").

Lemma reelected_leader_is_lost_witness :
  exists w', onNewLeaderEvent client_opts same_leader connected = Ret tt w' /\
    forall w1 n w2, waits client_opts members_in_order 1 w' w1 -> Poll client_opts members_in_order w1 = Ret n w2 ->
      state (x_client w2) <> clientConnected /\ state (x_client w2) <> clientAwaitConnectReply.
Proof.
  assert (exists pub, x_pubs connected !! 1%nat = Some pub) as [pub Hp] by (eexists; vm_compute; reflexivity).
  apply (reelected_leader_is_lost client_opts members_in_order 0 "localhost:1" 1 same_leader connected pub "0=localhost:1" (Ascii.ascii_of_nat 48) EmptyString).
  all: try (vm_compute; reflexivity).
  - discriminate.
  - exact Hp.
Defined.

(** A new leader, and no endpoints. *)
Definition other_leader : NewLeaderEvent := mkNewLeaderEvent 4 12 1 [].

Lemma unnamed_leader_panics_witness :
  exists w', onNewLeaderEvent client_opts other_leader connected = Ret tt w' /\
    exists w2, Poll client_opts members_in_order w' = Exc (EPanic "nil pointer dereference") w2.
Proof.
  apply (unnamed_leader_panics client_opts members_in_order other_leader connected).
  - vm_compute. reflexivity.
  - vm_compute. reflexivity.
  - discriminate.
  - repeat constructor.
Defined.

(** A session in fragments of 40 bytes. *)
Lemma large_session_not_loaded_witness :
  exists e, loader_onFragment (take 40 (bytes_of (packet (session_message (a_session 4 1)) true))) newSnapshotLoader fresh
    = Ret (failed e newSnapshotLoader) fresh.
Proof.
  apply (large_session_not_loaded (a_session 4 1) (bytes_of (packet (session_message (a_session 4 1)) true)) 40 fresh newSnapshotLoader).
  - apply (bool_decide_unpack _). vm_compute. reflexivity.
  - vm_compute. reflexivity.
  - vm_compute. lia.
Defined.

(** A mark file in zeroed memory. *)
Definition the_mark_options : mark_options := mkMarkOptions 10 104 105 0 0.

Lemma mark_file_announced_witness :
  exists cmf m1 m2, NewClusterMarkFile (Some 0) 77 1000 (zero_mem 1056768) = Ret (Some cmf) m1 /\
    mark_agent cmf the_mark_options 1001 m1 = Ret tt m2 /\ rd_i32 m2 0 = SemanticVersionCompose 0 3 0 /\
    marked m2 0 the_mark_options 77 1000 1001.
Proof.
  destruct (mark_file_announced (zero_mem 1056768) 0 the_mark_options 77 1000 1001) as (cmf & m1 & mr & m2 & Hn & Ha & _ & _ & _ & Hv & Hm & _).
  - apply region_ok_zero; unfold HeaderLength, ErrorBufferLength; lia.
  - unfold HeaderLength, ErrorBufferLength. lia.
  - done.
  - done.
  - done.
  - repeat split; cbn; lia.
  - exists cmf, m1, m2. split; [exact Hn|]. split; [exact Ha|]. split; [exact Hv|exact Hm].
Defined.
